(* ===== verification/_CoqProject ===== *)
-Q . S2P
Prelude.v
GoBase.v
Config.v
Domain.v
Codes.v
Encoding.v
Calendar.v
Json.v
JsonDecode.v
JsonProofs.v
Url.v
Store.v
Queries.v
Reads.v
Secrets.v
Paging.v
Ledger.v
HiLo.v
Repo.v
AdminRepo.v
Via.v
AdminGrow.v
Quiet.v
Webhook.v
Profile.v
Client.v
Sdk.v
Services.v
TxnQuery.v
Api.v
Auth.v
Router.v
Wire.v
AdminAuth.v
AdminSetup.v
AdminRoutes.v
AdminTxns.v
Through.v
AdminThrough.v
Processor.v
Server.v
Invariant.v
Books.v
LedgerProofs.v
StageProofs.v
BookRules.v
Refinement.v
Calls.v
Grow.v
System.v
Safety.v
Typed.v
ProcessorProofs.v
ServerProofs.v
AdminProofs.v
ApiProofs.v
QueueProofs.v
ServiceProofs.v
SetupProofs.v
AuditProofs.v
PagingProofs.v
SecretProofs.v
OutboxProofs.v
Settled.v
WebhookProofs.v
ClientProofs.v
Tracer.v
Migrate.v
Perf.v
PerfRun.v
PerfProofs.v
Progress.v
Providers.v
Simulators.v
Samples.v
Witnesses.v
Deployed.v
SdkRun.v
PerfLab.v
ConsoleRun.v
