(* ===== verification/Prelude.v ===== *)
(** * COIN: a verified model of the merchant credits ledger

    COIN keeps credit accounts for merchants and their customers.  A business
    call submits a transfer or a refund; it is recorded at once and executed
    later, in two database transactions: the debit takes the transaction from
    INIT to PAY_SUCCESS, the credit from PAY_SUCCESS to RECV_SUCCESS.  An
    account may keep its money in books, one per expiry day: debits spend the
    book that expires first, expired books are written off, refunds give money
    back to books of the same remaining lifetime.  This library is a shallow
    embedding of the Go code under [src/internal], [src/cmd] and [src/sdk/go]
    and the theorems that make it correct.

    ** The program's parts and the files that model them

    - [internal/domain]: accounts, merchants, customers, transactions, errors,
      the transaction state machine.  [Domain] (the list structs are in [Repo]).
    - [internal/platform/id]: merchant, customer and account numbers with a
      Luhn digit ([Codes]), the HiLo allocator that leases ranges of sequence
      numbers from the database ([HiLo]), version 7 UUIDs ([Store]),
      the providers and clocks without a database
      ([Providers]).
    - [internal/db/sqlc] and [migrations]: the tables and the SQL statements.
      [Store] has the rows and the database, [Queries] the statements of the
      ledger, [Reads] the lists, the outbox and the code sequences.
    - [internal/db/repository.go]: [Ledger] has what runs inside a transaction
      (debit, books, write-off, credit, refund, [ApplyTxnStage]), Module
      [Repository] of [Repo] the methods of the service's [Repository]
      interface.
    - [internal/service]: [Services] (submission, routing, account resolution,
      customers, merchants), [Paging] (page tokens), [TxnQuery] (the query
      service), [Processor] (stage queues, processing guards, the stage
      processor, the recovery worker), [Webhook] (the webhook worker),
      [Simulators] (books and notification in memory, for the tests).
    - [internal/db/merchant_secret.go], [internal/platform/security]: the
      secret manager and its AES-GCM cipher.  [Secrets].
    - [internal/api]: [Api] (every handler of [business.go]), [Auth] (request
      ids, signatures), [Router] (the merchant handlers, the route table, and a
      request served through the middleware).
    - The admin console.  [internal/db/admin_repository.go] and its tables are
      [AdminRepo], [admin_auth.go] is [AdminAuth] (signed tokens, the
      middleware, logging in), [admin_setup.go] is [AdminSetup],
      [admin_routes.go] is [AdminRoutes] (merchants, customers, accounts) and
      [AdminTxns] (submissions, queries, logs, the table of routes and a
      request served).  It uses the services and the repository of the
      business API and the same stage processor.
    - [internal/config], [cmd/server]: [Config] reads the environment, [Server]
      wires the parts and says what one event does to the running server.
    - [internal/db/migrate.go], [postgres.go], [redis.go]: [Migrate], the
      migrations runner and the connections the server starts with.
      [sql_debug_tracer.go]: [Tracer], the hooks around each statement.
      [internal/service/async_profile.go]: [Profile], the counters the workers
      share, as interleavings of atomic operations.
    - [sdk/go/coin]: [Client] (signing a request, sending it, reading the
      envelope of the answer), [Sdk] (the calls, their bodies and results).
      [Wire] has what the server reads of such a request, the text of its
      answers, and the SDK against the wired routes in one state.
    - [cmd/perf-core-txn]: [Perf] (figures, configuration, the webhook sink)
      and [PerfRun] (checks, setting up, firing through the SDK, the six
      scenarios).  [PerfLab] puts the generator, the SDK, the server, its
      workers and the webhook endpoint into one process and computes a run.

    [GoBase] is the part of Go's standard library the code uses (trimming,
    times and durations, decimal numerals); [Encoding] has hex, base64, SHA-256
    and HMAC, [Calendar] dates and RFC 3339 (parsing undoes
    formatting), [Url] escaping, queries and request lines, [Json] the encoding of values, [JsonDecode] their decoding
    into structs ([JsonProofs]: it undoes the encoding), all computed; [Prelude] has the notations,
    tactics, sums and [int64] arithmetic that every file shares.

    ** How the code is modelled

    - State.  [Store.World] holds the database ([DB]: a finite map or a list
      per table), the clock, the outcomes of [crypto/rand], the outcome of
      every round trip to the server ([Fault]: it works, it fails before the
      server acts, or the answer is lost) and the allocator's memory.  The
      monad [M] threads it and stops at an error, as the Go code returns.
    - Statements.  A statement is a function of NOW() and the tables ([Q]).
      The CHECK, UNIQUE and NOT NULL constraints, the column widths and the
      BIGINT range of the migrations are the errors it can report.
    - Transactions.  [withTxE] is Begin, deferred Rollback, Commit: an error
      restores the tables; a lost answer to COMMIT keeps them and reports an
      error.  Transactions run one after the other: the code takes row locks
      (FOR UPDATE) in every transaction that writes a balance, so the model
      does not interleave statements of two transactions.
    - Integers.  Amounts are [Z] and every Go addition that can leave [int64]
      is wrapped with [wrap64]; BIGINT arithmetic reports 22003 instead.
      Time is in nanoseconds; [time.Time.Sub] saturates as in Go.
    - Errors are values of [Domain.error]; [fmt.Errorf] with %w and
      [errors.Join] are constructors that [errors_is] looks through.
    - Code outside the repository is an interface: [Platform] (the textual
      form of UUIDs and the SHA-1 name UUID; the one law used is that parsing
      undoes printing), [AEAD] (opening undoes sealing), [HttpClient] (any
      state, any answer), [PgText] (PostgreSQL's [jsonb] and its order on texts),
      [Bcrypt] (a hash fits its password and is printable), [JsonBinding] and
      [AdminBinding] (decoding of request bodies), [UUIDLib], [GoogleUUID], the
      Redis client of the guard, [UrlParser] (parsing of a base URL), [SdkEnv]
      (the process the SDK runs in), [MerchantRouter], [MigrationSQL] (what the
      SQL of a file does), [PoolLib], [RedisLib], [PerfEnv] (goroutines and
      timers of the load generator).  Interfaces inside the program are classes too: [CodeProvider]
      (implemented by [HiLo.dbCodeProvider]), [StageStore] (the repository),
      [StageProcessingGuard] (two implementations), [SecretCipher]
      (AES-GCM), [WebhookSecretProvider] (the secret manager) and
      [TransferDispatcher] (the stage processor).
    - The console's setup runs under an advisory lock, in its own connection:
      the calls inside are statements of their own and a failure half way
      leaves what was done, which the next setup takes up.  Setups under the
      lock run one after the other, as all calls of the model do.  The row of
      the setup state that the migration inserts is the one the first call
      would insert, so [emptyDB] has none.  The next id of the audit log is
      one more than its length: numbers that a rolled back insertion would
      skip are not modelled.
    - Handlers and workers have monads of their own over [M]: [Api.H] stops
      with the response written, [Webhook.W] threads the worker's fields and
      the HTTP client.
    - The server.  [Server.handle] is one event: a request, an iteration of a
      stage worker, of the webhook worker or of a ticker.  An event runs its
      calls in order; calls of different events interleave in [reachable],
      which admits any sequence of calls.

    ** How the proofs are organised

    A property of every call is a relation between the tables before and
    after.  [Via] has the combinators that carry a relation through the monad
    and the transaction bracket, and the tactic [via_] that applies them.
    [Calls] lists, as the class [Statements], what a relation has to satisfy of
    the statements, and derives it for every composite call once: [Grow]
    (nothing is lost; Section [Evolves] of [Prelude] has its theory and [AdminGrow] what the
    console does to its own tables, the class [ConsoleStatements]), [Typed] (the schema), [Settled] (events) and [Safety]
    (the ledger) instantiate it.  [Through] does the same for handlers and the
    webhook worker, with the classes [Writes] and [Deliveries], and
    [AdminThrough] for the console with [AdminWrites] and [Audits].  [Quiet] says
    which calls need no luck: no fault pending, none after.

    ** What the theorems show

    - [Invariant], [Books], [LedgerProofs], [StageProofs]: the ledger invariant
      [Inv] (a balance is the sum of its log and of its books, each transaction
      has moved exactly what its status says, no transfer is refunded beyond
      its amount) and that every transaction of the ledger preserves it; a
      stage is applied exactly once.
    - [Grow], [System]: whatever call is made, logs only grow and identities
      never change.  [System.op] lists every call that writes.
    - [Safety]: all worlds [reachable] from empty tables by any sequence of
      calls, clocks and faults conserve money, explain every balance and bound
      refunds.  The calls are [disciplined]:
      [Submit] with status INIT and a refundable amount no larger than the
      amount (all the API ever sends), transitions to FAILED only, no use of
      the repository methods no service calls.
    - [Refinement]: the ledger is an ideal one, of unbounded balances; a
      committed stage is one action on it, at most after a write-off.
    - [BookRules]: what a debit leaves, exactly, and the overdraft limits; each
      book gives the share that its expiry assigns to it; a refund gives back
      unit by unit one slice of what was spent; the expiry of refunded money,
      and when a debit succeeds.
    - [Progress]: on a working connection the two workers take a transfer
      between plain accounts from INIT to RECV_SUCCESS.
    - [ProcessorProofs], [QueueProofs]: processing a stage is safe under any
      failure and only business errors fail a transaction; queues never hold
      a transaction twice; guards exclude.
    - [ServerProofs]: the server never leaves the reachable states, and
      statuses only move forward there, as long as the tables are within [fits]
      when a stage is applied.
      [ApiProofs]: a merchant is shown its own rows only.  [Auth]: who gets
      through the signature check.  [SecretProofs]: rotation of secrets.
    - [AdminProofs]: a token of the console is accepted with its claims until
      it expires, for its own purpose only, and no protected route opens
      without one.  [SetupProofs]: the console is set up once, and then its
      administrator logs in with its password and no other.  [AuditProofs]: a
      request to the console leaves at most one row in the audit log, on
      success and in the name of its user; none when its request id is longer
      than the column.
    - [ServiceProofs]: the record of a submission, field by field, idempotency
      by order number, routing and account resolution.  [OutboxProofs], [Settled], [WebhookProofs]: success
      events are written with the success, once, and for successes only; they
      are leased to one worker and end delivered or scheduled again, after
      one request that is pinned down to its signature.
      [PagingProofs]: pages list every row once.  [Typed]: every row meets the
      schema, written from the migrations apart from the guards of the
      statements.  [HiLo], [Codes], [Store]: numbers are unique, well formed
      and detect errors; the allocator returns within three rounds alone and
      never goes round among others without one of them being served.  [Providers]: so are the
      numbers of the in-process provider, until a counter comes round; the
      text of a UUID determines it.  [Simulators]: a debit takes the shares of
      the unexpired books in their order; events in memory are delivered or
      dead after three passes.
    - [ClientProofs]: what the SDK signs the server admits, and a transaction
      is read back as it is stored.  [Profile]: the windows in the lines of the
      log and the open one add up to the totals, in any interleaving.  [Tracer]:
      the tracer stays bounded and summarises a transaction once; the end of
      an unsampled transaction goes unseen.  [Migrate]: migrating again changes
      nothing.
    - [PerfProofs]: in any interleaving no webhook is lost to the requests that
      wait for it; the checks of a scenario pass exactly when each request was
      accepted and delivered; a run that reports figures leaves in the tables the
      balances it found, and every request of its scenarios went through.
    - [Samples] runs a merchant from empty tables through an issue, a payment
      and a refund on a concrete platform; [Witnesses] and [Deployed] apply
      every theorem that has hypotheses to that run, [Deployed] to the wired
      server and a signed request, [ConsoleRun] to a console set up and used,
      [SdkRun] to a client of the SDK, [PerfLab] to a run of the load generator:
      six transactions submitted through the SDK, authenticated, executed by
      the workers and announced by webhooks, with every check passed.

    ** Bounds

    - [fits]: the positive book balances of an account add up within
      [int64].  Needed where expired books are written off, because the code
      returns without error when the Go sum wraps to a non-positive total.
    - [HiLo.nextSeq] has fuel 4: three rounds of its loop always suffice
      ([nextSeq_terminates] holds from every state).
    - [PagingProofs.allLogs] has one more unit of fuel than the log has rows.
    - [Tracer.Fields] has the length of the text as fuel; [PerfLab] lets the
      workers run 20 rounds, of which a request needs one.
    - Every other recursion is structural.

    ** What is not modelled

    Matching a URL to a route, decoding a request body in the server, sending
    HTTP, tickers and the layout of log lines are libraries or I/O.  Of the
    load generator the rates (floating point), the progress bars, the report
    and CPU profiling are left out.  [internal/service/exports.go] only
    renames.  The TypeScript SDK and the web console are not Go. *)

(** The prelude: results, automation, sums, [int64], sorting. *)

From stdpp Require Import base gmap list strings fin_maps list_numbers sorting.
From Stdlib Require Import ZArith Lia Setoid Morphisms.

#[global] Open Scope Z_scope.

(** ** Results: the [(value, error)] pairs of Go *)

Inductive Result (E A : Type) : Type :=
| Err (e : E)
| Ok (a : A).
Arguments Err {E A} e.
Arguments Ok {E A} a.

Definition is_ok {E A} (r : Result E A) : bool :=
  match r with Ok _ => true | Err _ => false end.

(** ** Automation of the development *)

Create HintDb coin.

(** [invert H] inverts an equation and cleans up. *)
Ltac invert H := inversion H; clear H; simplify_eq/=.

(** Case analysis on the innermost [match] or [if] of hypothesis [H],
    discarding the branches that contradict an equation. *)
Ltac case_hyp H :=
  match type of H with
  | context [match ?x with _ => _ end] =>
      lazymatch x with
      | context [match _ with _ => _ end] => fail
      | _ => let E := fresh "E" in destruct x eqn:E; simplify_eq/=
      end
  end.

Ltac case_hyps H := repeat case_hyp H.

(** Case analysis on a [match] of the goal. *)
Ltac case_goal :=
  match goal with
  | |- context [match ?x with _ => _ end] =>
      lazymatch x with
      | context [match _ with _ => _ end] => fail
      | _ => let E := fresh "E" in destruct x eqn:E; simplify_eq/=
      end
  end.

(** Turn the boolean tests of the context into propositions. *)
Ltac bools :=
  repeat match goal with
  | H : andb _ _ = true |- _ => apply andb_true_iff in H; destruct H
  | H : orb _ _ = false |- _ => apply orb_false_iff in H; destruct H
  | H : negb _ = true |- _ => apply negb_true_iff in H
  | H : negb _ = false |- _ => apply negb_false_iff in H
  | H : Z.eqb _ _ = true |- _ => apply Z.eqb_eq in H
  | H : Z.eqb _ _ = false |- _ => apply Z.eqb_neq in H
  | H : Z.leb _ _ = true |- _ => apply Z.leb_le in H
  | H : Z.leb _ _ = false |- _ => apply Z.leb_gt in H
  | H : Z.ltb _ _ = true |- _ => apply Z.ltb_lt in H
  | H : Z.ltb _ _ = false |- _ => apply Z.ltb_ge in H
  | H : String.eqb _ _ = true |- _ => apply String.eqb_eq in H
  | H : String.eqb _ _ = false |- _ => apply String.eqb_neq in H
  | H : bool_decide _ = true |- _ => apply bool_decide_eq_true in H
  | H : bool_decide _ = false |- _ => apply bool_decide_eq_false in H
  end.

(** ** Sums over lists *)

Fixpoint sum_by {A} (f : A -> Z) (l : list A) : Z :=
  match l with
  | [] => 0
  | x :: l' => f x + sum_by f l'
  end.

Section SumBy.
Context {A : Type}.
Implicit Types (f g : A -> Z) (l : list A).

Lemma sum_by_app f l1 l2 : sum_by f (l1 ++ l2) = sum_by f l1 + sum_by f l2.
Proof. induction l1; simpl; lia. Qed.

Lemma sum_by_ext f g l :
  (forall x, x ∈ l -> f x = g x) -> sum_by f l = sum_by g l.
Proof.
  induction l as [|x l IH]; simpl; intros H; [done|].
  rewrite H, IH; [done| |]; set_solver.
Qed.

Lemma sum_by_plus f g l :
  sum_by (fun x => f x + g x) l = sum_by f l + sum_by g l.
Proof. induction l; simpl; lia. Qed.

Lemma sum_by_opp f l : sum_by (fun x => - f x) l = - sum_by f l.
Proof. induction l; simpl; lia. Qed.

Lemma sum_by_zero f l : (forall x, x ∈ l -> f x = 0) -> sum_by f l = 0.
Proof.
  induction l as [|x l IH]; simpl; intros H; [done|].
  rewrite H, IH; [done| |]; set_solver.
Qed.

Lemma sum_by_nonneg f l : (forall x, x ∈ l -> 0 <= f x) -> 0 <= sum_by f l.
Proof.
  induction l as [|x l IH]; simpl; intros H; [done|].
  pose proof (H x ltac:(set_solver)).
  specialize (IH ltac:(set_solver)). lia.
Qed.

Lemma sum_by_map {B} (h : B -> A) f (l : list B) :
  sum_by f (map h l) = sum_by (fun x => f (h x)) l.
Proof. induction l; simpl; [done|]. lia. Qed.

Lemma sum_by_perm f l1 l2 : l1 ≡ₚ l2 -> sum_by f l1 = sum_by f l2.
Proof. induction 1; simpl; lia. Qed.
End SumBy.

(** ** Sums over finite maps: [SUM(f) FROM table] *)

Section MSum.
Context `{Countable K} {V : Type}.
Implicit Types (f g : V -> Z) (m : gmap K V).

Definition msum f m : Z := sum_by (fun kv => f kv.2) (map_to_list m).

Lemma msum_empty f : msum f ∅ = 0.
Proof. unfold msum. by rewrite map_to_list_empty. Qed.

Lemma msum_insert_new f m k v :
  m !! k = None -> msum f (<[k:=v]> m) = f v + msum f m.
Proof.
  intros Hk. unfold msum.
  by rewrite (sum_by_perm _ _ _ (map_to_list_insert m k v Hk)).
Qed.

Lemma msum_delete f m k v :
  m !! k = Some v -> msum f m = f v + msum f (delete k m).
Proof.
  intros Hk. rewrite <- (insert_delete_id m k v Hk) at 1.
  apply msum_insert_new, lookup_delete_eq.
Qed.

Lemma msum_insert_upd f m k v v' :
  m !! k = Some v -> msum f (<[k:=v']> m) = msum f m + (f v' - f v).
Proof.
  intros Hk. rewrite (msum_delete f m k v Hk).
  rewrite <- (insert_delete_eq m k v').
  rewrite msum_insert_new by apply lookup_delete_eq. lia.
Qed.

Lemma msum_ext f g m :
  (forall k v, m !! k = Some v -> f v = g v) -> msum f m = msum g m.
Proof.
  intros Hfg. unfold msum. apply sum_by_ext. intros [k v] Hin.
  apply elem_of_map_to_list in Hin. eauto.
Qed.

Lemma msum_zero f m :
  (forall k v, m !! k = Some v -> f v = 0) -> msum f m = 0.
Proof.
  intros Hf. unfold msum. apply sum_by_zero. intros [k v] Hin.
  apply elem_of_map_to_list in Hin. eauto.
Qed.

Lemma msum_nonneg f m :
  (forall k v, m !! k = Some v -> 0 <= f v) -> 0 <= msum f m.
Proof.
  intros Hf. unfold msum. apply sum_by_nonneg. intros [k v] Hin.
  apply elem_of_map_to_list in Hin. eauto.
Qed.
End MSum.

(** Sums that look at the key too, and the exchange of a sum over the rows of
    a log with a sum over the keys they name. *)
Section KSum.
Context `{Countable K} {V : Type}.
Implicit Types (m : gmap K V).

Definition ksum (f : K -> V -> Z) m : Z := sum_by (fun kv => f kv.1 kv.2) (map_to_list m).

Lemma ksum_ext f g m :
  (forall k v, m !! k = Some v -> f k v = g k v) -> ksum f m = ksum g m.
Proof.
  intros Hfg. unfold ksum. apply sum_by_ext. intros [k v] Hin.
  apply elem_of_map_to_list in Hin. eauto.
Qed.

Lemma ksum_plus f g m : ksum (fun k v => f k v + g k v) m = ksum f m + ksum g m.
Proof. apply (sum_by_plus (fun kv => f kv.1 kv.2) (fun kv => g kv.1 kv.2)). Qed.

Lemma ksum_opp f m : ksum (fun k v => - f k v) m = - ksum f m.
Proof. apply (sum_by_opp (fun kv => f kv.1 kv.2)). Qed.

Lemma ksum_zero f m : (forall k v, m !! k = Some v -> f k v = 0) -> ksum f m = 0.
Proof.
  intros Hf. unfold ksum. apply sum_by_zero. intros [k v] Hin.
  apply elem_of_map_to_list in Hin. eauto.
Qed.

Lemma ksum_delete f m k v :
  m !! k = Some v -> ksum f m = f k v + ksum f (delete k m).
Proof.
  intros Hk. unfold ksum. rewrite <- (insert_delete_id m k v Hk) at 1.
  by rewrite (sum_by_perm _ _ _ (map_to_list_insert _ _ _ (lookup_delete_eq m k))).
Qed.

Lemma ksum_single m k x :
  is_Some (m !! k) -> ksum (fun k' _ => if bool_decide (k = k') then x else 0) m = x.
Proof.
  intros [v Hv]. rewrite (ksum_delete _ _ _ _ Hv), bool_decide_eq_true_2 by done.
  rewrite ksum_zero; [lia|]. intros k' v' Hk. case_bool_decide as E; [|done].
  subst k'. by rewrite lookup_delete_eq in Hk.
Qed.

Lemma ksum_exchange {R} (key : R -> K) (f : R -> Z) (l : list R) m :
  (forall r, r ∈ l -> is_Some (m !! key r)) ->
  ksum (fun k _ => sum_by (fun r => if bool_decide (key r = k) then f r else 0) l) m = sum_by f l.
Proof.
  induction l as [|r l IH]; intros Hl; simpl.
  - by apply ksum_zero.
  - rewrite (ksum_plus (fun k _ => if bool_decide (key r = k) then f r else 0)).
    rewrite ksum_single by (apply Hl; by left). f_equal. apply IH. intros x Hx. apply Hl. by right.
Qed.
End KSum.

(** ** [int64]: two's-complement wrap-around *)

Definition two63 : Z := 9223372036854775808.
Definition two64 : Z := 18446744073709551616.
Definition MaxInt64 : Z := 9223372036854775807.
Definition MinInt64 : Z := -9223372036854775808.

Definition wrap64 (z : Z) : Z := (z + two63) mod two64 - two63.
(** The same for [int32]. *)
Definition wrap32 (z : Z) : Z := (z + 2147483648) mod 4294967296 - 2147483648.
Lemma wrap32_range z : -2147483648 <= wrap32 z <= 2147483647.
Proof. unfold wrap32. pose proof (Z.mod_pos_bound (z + 2147483648) 4294967296). lia. Qed.
Lemma wrap32_wrap32 z : wrap32 (wrap32 z) = wrap32 z.
Proof.
  pose proof (wrap32_range z). unfold wrap32 at 1. rewrite Z.mod_small by lia. lia.
Qed.

Definition in64 (z : Z) : Prop := MinInt64 <= z <= MaxInt64.
Definition in64b (z : Z) : bool := (MinInt64 <=? z) && (z <=? MaxInt64).

Lemma in64b_true z : in64b z = true <-> in64 z.
Proof. unfold in64b, in64. rewrite andb_true_iff, !Z.leb_le. done. Qed.

Lemma in64b_false z : in64b z = false -> ~ in64 z.
Proof. intros Hb Hi. apply in64b_true in Hi. congruence. Qed.

(** Equality modulo 2^64, the equivalence Go's [+] and [-] respect. *)
Definition eq64 (a b : Z) : Prop := a mod two64 = b mod two64.
Infix "≡64" := eq64 (at level 70, no associativity).

#[export] Instance eq64_equiv : Equivalence eq64.
Proof. split; unfold eq64; repeat intro; congruence. Qed.

#[export] Instance eq64_add : Proper (eq64 ==> eq64 ==> eq64) Z.add.
Proof.
  intros a a' Ha b b' Hb. unfold eq64 in *.
  by rewrite Z.add_mod, Ha, Hb, <- Z.add_mod.
Qed.

#[export] Instance eq64_opp : Proper (eq64 ==> eq64) Z.opp.
Proof.
  intros a a' Ha. unfold eq64 in *.
  rewrite <- !(Z.sub_0_l), (Zminus_mod 0 a), (Zminus_mod 0 a'). by rewrite Ha.
Qed.

#[export] Instance eq64_sub : Proper (eq64 ==> eq64 ==> eq64) Z.sub.
Proof.
  intros a a' Ha b b' Hb. unfold eq64 in *.
  by rewrite Zminus_mod, Ha, Hb, <- Zminus_mod.
Qed.

Lemma wrap64_in64 z : in64 (wrap64 z).
Proof.
  unfold in64, wrap64, MinInt64, MaxInt64.
  pose proof (Z.mod_pos_bound (z + two63) two64 ltac:(reflexivity)).
  unfold two63, two64 in *. lia.
Qed.

Lemma wrap64_id z : in64 z -> wrap64 z = z.
Proof.
  unfold in64, wrap64, MinInt64, MaxInt64. intros Hz.
  rewrite Z.mod_small; unfold two63, two64 in *; lia.
Qed.

Lemma wrap64_eq64 z : wrap64 z ≡64 z.
Proof.
  unfold eq64, wrap64. rewrite Zminus_mod_idemp_l.
  f_equal. lia.
Qed.

(** Two [int64] values equal modulo 2^64 are equal. *)
Lemma eq64_eq a b : in64 a -> in64 b -> a ≡64 b -> a = b.
Proof.
  intros Ha Hb Hab. rewrite <- (wrap64_id a Ha), <- (wrap64_id b Hb).
  unfold wrap64. rewrite Zplus_mod, (Zplus_mod b). unfold eq64 in Hab.
  by rewrite Hab.
Qed.

Lemma eq64_wrap a b : a ≡64 b -> wrap64 a = wrap64 b.
Proof.
  intros Hab. apply eq64_eq; [apply wrap64_in64..|].
  by rewrite !wrap64_eq64.
Qed.
#[export] Hint Resolve wrap64_in64 wrap64_eq64 : coin.

Lemma eq64_sum_by {A} (f g : A -> Z) l :
  (forall x, x ∈ l -> f x ≡64 g x) -> sum_by f l ≡64 sum_by g l.
Proof.
  induction l as [|x l IH]; simpl; intros Hfg; [done|].
  rewrite (Hfg x) by (by left). rewrite IH; [done|]. intros y Hy. apply Hfg. by right.
Qed.

(** [a ≡64 b] from [a - b] being known equal to linear facts. *)
Lemma eq64_of_eq a b : a = b -> a ≡64 b.
Proof. by intros ->. Qed.

(** ** Sorting by a boolean order: [ORDER BY] *)

Section SortBy.
Context {A : Type} (leb : A -> A -> bool).

Fixpoint insert_by (x : A) (l : list A) : list A :=
  match l with
  | [] => [x]
  | y :: l' => if leb x y then x :: l else y :: insert_by x l'
  end.

Fixpoint sort_by (l : list A) : list A :=
  match l with
  | [] => []
  | x :: l' => insert_by x (sort_by l')
  end.

Lemma insert_by_perm x l : insert_by x l ≡ₚ x :: l.
Proof.
  induction l as [|y l IH]; simpl; [done|]. destruct (leb x y); [done|].
  rewrite IH. apply Permutation_swap.
Qed.

Lemma sort_by_perm l : sort_by l ≡ₚ l.
Proof. induction l as [|x l IH]; simpl; [done|]. by rewrite insert_by_perm, IH. Qed.

Context (leb_total : forall x y, leb x y = false -> leb y x = true)
        (leb_trans : forall x y z, leb x y = true -> leb y z = true -> leb x z = true).

Lemma insert_by_sorted x l :
  StronglySorted (fun a b => leb a b = true) l ->
  StronglySorted (fun a b => leb a b = true) (insert_by x l).
Proof using leb_total leb_trans.
  induction 1 as [|y l Hl IH Hy]; simpl; [repeat constructor|].
  destruct (leb x y) eqn:E.
  - constructor; [by constructor|]. constructor; [done|].
    eapply Forall_impl; [done|]. simpl. eauto.
  - constructor; [done|]. rewrite insert_by_perm. constructor; eauto.
Qed.

Lemma sort_by_sorted l : StronglySorted (fun a b => leb a b = true) (sort_by l).
Proof using leb_total leb_trans.
  induction l as [|x l IH]; simpl; [constructor|]. by apply insert_by_sorted.
Qed.
End SortBy.

Lemma elem_of_sort_by {A} (leb : A -> A -> bool) l x : x ∈ sort_by leb l <-> x ∈ l.
Proof. by rewrite sort_by_perm. Qed.

(** ** Tables whose rows evolve

    Maps and logs that only grow, their rows changing by a preorder. *)

(** ** Maps whose rows evolve *)

Section Evolves.
Context {K V : Type} `{Countable K} (R : V -> V -> Prop) `{!PreOrder R}.

Definition evolves (m m' : gmap K V) : Prop :=
  forall k v, m !! k = Some v -> exists v', m' !! k = Some v' /\ R v v'.

#[export] Instance evolves_preorder : PreOrder evolves.
Proof using All.
  split.
  - intros m k v Hk. exists v. done.
  - intros m1 m2 m3 H12 H23 k v (v2 & H2 & R2)%H12. apply H23 in H2 as (v3 & H3 & R3).
    exists v3. split; [done|]. by etrans.
Qed.

Lemma evolves_insert m k v :
  (forall v0, m !! k = Some v0 -> R v0 v) -> evolves m (<[k := v]> m).
Proof using All.
  intros Hv k' v' Hk. destruct (decide (k' = k)) as [->|Hne].
  - rewrite lookup_insert_eq. eauto.
  - rewrite lookup_insert_ne by done. by exists v'.
Qed.

Lemma evolves_alter f m k : (forall v, R v (f v)) -> evolves m (alter f k m).
Proof using All.
  intros Hf k' v' Hk. destruct (decide (k' = k)) as [->|Hne].
  - rewrite lookup_alter_eq, Hk. simpl. eauto.
  - rewrite lookup_alter_ne by done. by exists v'.
Qed.
End Evolves.

(** ** What stays of a row *)

(** Two rows with the same value of [f]. *)
Definition same_by {A B} (f : A -> B) (a a' : A) : Prop := f a' = f a.

#[export] Instance same_by_preorder {A B} (f : A -> B) : PreOrder (same_by f).
Proof. split; unfold same_by; repeat intro; congruence. Qed.

(** The rows of a log are numbered from 1 in the order of insertion. *)
Definition numbered {A} (id : A -> Z) (l : list A) : Prop := map id l = seqZ 1 (Z.of_nat (length l)).

Lemma numbered_snoc {A} (id : A -> Z) l x :
  id x = Z.of_nat (length l) + 1 -> numbered id l -> numbered id (l ++ [x]).
Proof.
  unfold numbered. intros Hx Hl. rewrite map_app, Hl, length_app, Nat2Z.inj_add. simpl.
  rewrite seqZ_app by lia. f_equal. rewrite Hx, seqZ_cons, seqZ_nil by lia. f_equal. lia.
Qed.
