(* ===== verification/GoBase.v ===== *)
(** * The parts of Go's standard library the program uses

    [strings.TrimSpace], [strings.ToUpper] (ASCII), [time.Time] and
    [time.Duration] with their saturation and wrap-around, calendar days,
    and the decimal conversions of [strconv] and [fmt]. *)

From S2P Require Import Prelude.
From stdpp Require Import base list strings.
From Stdlib Require Import ZArith Lia Ascii String.

Local Open Scope string_scope.
Local Open Scope Z_scope.

(** ** Strings (byte strings, UTF-8 as in Go) *)

Definition byte_of (c : ascii) : Z := Z.of_nat (nat_of_ascii c).

(** The one-byte members of [unicode.IsSpace]: TAB, LF, VT, FF, CR, SPACE. *)
Definition space1 (c : ascii) : bool :=
  let b := byte_of c in ((9 <=? b) && (b <=? 13)) || (b =? 32).

(** U+0085 and U+00A0. *)
Definition space2 (c1 c2 : ascii) : bool :=
  (byte_of c1 =? 194) && ((byte_of c2 =? 133) || (byte_of c2 =? 160)).

(** U+1680, U+2000..U+200A, U+2028, U+2029, U+202F, U+205F, U+3000. *)
Definition space3 (c1 c2 c3 : ascii) : bool :=
  let b1 := byte_of c1 in let b2 := byte_of c2 in let b3 := byte_of c3 in
  ((b1 =? 225) && (b2 =? 154) && (b3 =? 128))
  || ((b1 =? 226) && (b2 =? 128)
      && (((128 <=? b3) && (b3 <=? 138)) || (b3 =? 168) || (b3 =? 169) || (b3 =? 175)))
  || ((b1 =? 226) && (b2 =? 129) && (b3 =? 159))
  || ((b1 =? 227) && (b2 =? 128) && (b3 =? 128)).

(** Drop the leading runes that the three tests recognise. *)
Fixpoint trim_with (sp2 : ascii -> ascii -> bool) (sp3 : ascii -> ascii -> ascii -> bool)
    (s : string) : string :=
  match s with
  | EmptyString => EmptyString
  | String c1 s1 =>
      if space1 c1 then trim_with sp2 sp3 s1 else
      match s1 with
      | EmptyString => s
      | String c2 s2 =>
          if sp2 c1 c2 then trim_with sp2 sp3 s2 else
          match s2 with
          | EmptyString => s
          | String c3 s3 => if sp3 c1 c2 c3 then trim_with sp2 sp3 s3 else s
          end
      end
  end.

Fixpoint srev_app (s acc : string) : string :=
  match s with
  | EmptyString => acc
  | String c s' => srev_app s' (String c acc)
  end.
Definition srev (s : string) : string := srev_app s EmptyString.

Definition trim_left : string -> string := trim_with space2 space3.
Definition trim_right (s : string) : string :=
  srev (trim_with (fun a b => space2 b a) (fun a b c => space3 c b a) (srev s)).

(** [strings.TrimSpace]. *)
Definition TrimSpace (s : string) : string := trim_right (trim_left s).

(** Bytes in the printable, non-blank ASCII range. *)
Definition graphic (c : ascii) : bool := (33 <=? byte_of c) && (byte_of c <=? 126).

Fixpoint sforall (p : ascii -> bool) (s : string) : bool :=
  match s with
  | EmptyString => true
  | String c s' => p c && sforall p s'
  end.

(** [len(s)] in bytes, and the number of code points ([VARCHAR(n)] counts these). *)
Fixpoint slen (s : string) : Z :=
  match s with EmptyString => 0 | String _ s' => 1 + slen s' end.
Fixpoint utf8_len (s : string) : Z :=
  match s with
  | EmptyString => 0
  | String c s' =>
      (if (128 <=? byte_of c) && (byte_of c <? 192) then 0 else 1) + utf8_len s'
  end.

Lemma utf8_len_le s : utf8_len s <= slen s.
Proof. induction s as [|c s IH]; simpl; [done|]. destruct (_ && _); lia. Qed.

(** [strings.ToUpper] as far as ASCII text can come of it: ASCII letters, and
    the two other runes whose upper case is one (U+0131 and U+017F).  Every
    other rune is kept; Go maps some of them to runes outside ASCII. *)
Definition upper_ascii (c : ascii) : ascii :=
  let n := nat_of_ascii c in
  if (Nat.leb 97 n && Nat.leb n 122)%bool then ascii_of_nat (n - 32) else c.
Fixpoint ToUpper (s : string) : string :=
  match s with
  | EmptyString => EmptyString
  | String c s' =>
      match s' with
      | String c2 s2 =>
          if (byte_of c =? 196) && (byte_of c2 =? 177) then String "I"%char (ToUpper s2)
          else if (byte_of c =? 197) && (byte_of c2 =? 191) then String "S"%char (ToUpper s2)
          else String (upper_ascii c) (ToUpper s')
      | EmptyString => String (upper_ascii c) EmptyString
      end
  end.

(** [strings.ToLower] on ASCII letters: enough for a comparison with a text of
    letters other than i and k, which no other rune has as its lower case (i and k
    are also those of U+0130 and U+212A). *)
Definition lower_ascii (c : ascii) : ascii :=
  let n := nat_of_ascii c in
  if (Nat.leb 65 n && Nat.leb n 90)%bool then ascii_of_nat (n + 32) else c.
Fixpoint ToLower (s : string) : string :=
  match s with EmptyString => EmptyString | String c s' => String (lower_ascii c) (ToLower s') end.

Definition is_digit (c : ascii) : bool := (48 <=? byte_of c) && (byte_of c <=? 57).

(** *** Trimming leaves strings of graphic bytes alone *)

Lemma graphic_not_space1 c : graphic c = true -> space1 c = false.
Proof. unfold graphic, space1. intros. bools. lia. Qed.

Lemma graphic_not_space2 c c' : graphic c = true -> space2 c c' = false /\ space2 c' c = false.
Proof. unfold graphic, space2. intros. bools. lia. Qed.

Lemma graphic_not_space3 c c' c'' :
  graphic c = true -> space3 c c' c'' = false /\ space3 c'' c' c = false.
Proof. unfold graphic, space3. intros. bools. lia. Qed.

Lemma trim_with_graphic sp2 sp3 s :
  (forall c c', graphic c = true -> sp2 c c' = false) ->
  (forall c c' c'', graphic c = true -> sp3 c c' c'' = false) ->
  sforall graphic s = true -> trim_with sp2 sp3 s = s.
Proof.
  intros H2 H3 Hs. destruct s as [|c1 s]; [done|]. simpl in *. bools.
  rewrite graphic_not_space1 by done.
  destruct s as [|c2 s]; [done|]. rewrite H2 by done.
  destruct s as [|c3 s]; [done|]. by rewrite H3.
Qed.

Lemma sforall_srev_app p s acc :
  sforall p (srev_app s acc) = sforall p s && sforall p acc.
Proof.
  revert acc. induction s as [|c s IH]; intros acc; simpl; [done|].
  rewrite IH. simpl. by destruct (p c), (sforall p s), (sforall p acc).
Qed.

Lemma srev_app_srev_app s acc acc' :
  srev_app (srev_app s acc) acc' = srev_app acc (s ++ acc').
Proof. revert acc. induction s as [|c s IH]; intros acc; simpl; [done|]. by rewrite IH. Qed.

Lemma sapp_nil_r (s : string) : s ++ "" = s.
Proof. induction s as [|c s IH]; [done|]. by apply (f_equal (String c)). Qed.

Lemma srev_srev s : srev (srev s) = s.
Proof. unfold srev. rewrite srev_app_srev_app. simpl. apply sapp_nil_r. Qed.

Lemma TrimSpace_graphic s : sforall graphic s = true -> TrimSpace s = s.
Proof.
  intros Hs. unfold TrimSpace, trim_left, trim_right.
  rewrite (trim_with_graphic space2 space3 s); [..|done].
  2: intros c c' Hc; exact (proj1 (graphic_not_space2 c c' Hc)).
  2: intros c c' c'' Hc; exact (proj1 (graphic_not_space3 c c' c'' Hc)).
  rewrite trim_with_graphic; [apply srev_srev| | |].
  - intros c c' Hc; exact (proj2 (graphic_not_space2 c c' Hc)).
  - intros c c' c'' Hc; exact (proj2 (graphic_not_space3 c c' c'' Hc)).
  - unfold srev. rewrite sforall_srev_app. by rewrite Hs.
Qed.

Lemma is_digit_graphic c : is_digit c = true -> graphic c = true.
Proof. unfold is_digit, graphic. intros. bools. lia. Qed.

Lemma sforall_impl (p q : ascii -> bool) s :
  (forall c, p c = true -> q c = true) -> sforall p s = true -> sforall q s = true.
Proof.
  intros Hpq. induction s as [|c s IH]; simpl; [done|]. intros. bools.
  by rewrite Hpq, IH.
Qed.

(** *** Trimming twice is trimming once *)

(** No blank rune at the front. *)
Definition no_lead (sp2 : ascii -> ascii -> bool) (sp3 : ascii -> ascii -> ascii -> bool) (s : string) : bool :=
  match s with
  | EmptyString => true
  | String c1 s1 =>
      negb (space1 c1) &&
      match s1 with
      | EmptyString => true
      | String c2 s2 =>
          negb (sp2 c1 c2) && match s2 with EmptyString => true | String c3 _ => negb (sp3 c1 c2 c3) end
      end
  end.

Lemma trim_no_lead sp2 sp3 s : no_lead sp2 sp3 s = true -> trim_with sp2 sp3 s = s.
Proof.
  destruct s as [|c1 [|c2 [|c3 s]]]; simpl; [done|..]; intros; bools;
    repeat match goal with H : ?b = false |- _ => rewrite H; clear H end; done.
Qed.

Lemma no_lead_trim sp2 sp3 s : no_lead sp2 sp3 (trim_with sp2 sp3 s) = true.
Proof.
  remember (String.length s) as n eqn:Hn. assert (String.length s <= n)%nat as Hle by lia. clear Hn.
  revert s Hle. induction n as [|n IH]; intros s Hle; [by destruct s; [|simpl in Hle; lia]|].
  destruct s as [|c1 s1]; [done|]. simpl in Hle. cbn [trim_with].
  destruct (space1 c1) eqn:E1; [apply IH; lia|].
  destruct s1 as [|c2 s2]; [simpl; by rewrite E1|].
  destruct (sp2 c1 c2) eqn:E2; [apply IH; simpl in Hle; lia|].
  destruct s2 as [|c3 s3]; [simpl; by rewrite E1, E2|].
  destruct (sp3 c1 c2 c3) eqn:E3; [apply IH; simpl in Hle; lia|]. simpl. by rewrite E1, E2, E3.
Qed.

Lemma no_lead_prefix sp2 sp3 a b : no_lead sp2 sp3 (a ++ b) = true -> no_lead sp2 sp3 a = true.
Proof.
  destruct a as [|c1 a]; [done|]. change (String c1 a ++ b) with (String c1 (a ++ b)). simpl.
  destruct a as [|c2 a]; [intros Hl; apply andb_true_iff in Hl as [-> _]; done|].
  change (String c2 a ++ b) with (String c2 (a ++ b)). simpl.
  destruct a as [|c3 a]; [|done]. intros Hl. rewrite !andb_true_iff in Hl.
  destruct Hl as (-> & -> & _). done.
Qed.

Lemma trim_suffix sp2 sp3 s : exists d, s = d ++ trim_with sp2 sp3 s.
Proof.
  remember (String.length s) as n eqn:Hn. assert (String.length s <= n)%nat as Hle by lia. clear Hn.
  revert s Hle. induction n as [|n IH]; intros s Hle; [destruct s; [by exists ""|simpl in Hle; lia]|].
  destruct s as [|c1 s1]; [by exists ""|]. simpl in Hle. cbn [trim_with].
  destruct (space1 c1); [destruct (IH s1 ltac:(lia)) as [d Hd]; exists (String c1 d);
    change (String c1 s1 = String c1 (d ++ trim_with sp2 sp3 s1)); congruence|].
  destruct s1 as [|c2 s2]; [by exists ""|]. simpl in Hle.
  destruct (sp2 c1 c2); [destruct (IH s2 ltac:(lia)) as [d Hd]; exists (String c1 (String c2 d));
    change (String c1 (String c2 s2) = String c1 (String c2 (d ++ trim_with sp2 sp3 s2))); congruence|].
  destruct s2 as [|c3 s3]; [by exists ""|]. simpl in Hle.
  destruct (sp3 c1 c2 c3); [|by exists ""]. destruct (IH s3 ltac:(lia)) as [d Hd].
  exists (String c1 (String c2 (String c3 d))).
  change (String c1 (String c2 (String c3 s3)) = String c1 (String c2 (String c3 (d ++ trim_with sp2 sp3 s3)))).
  congruence.
Qed.

Lemma sapp_assoc (a b c : string) : (a ++ b) ++ c = a ++ (b ++ c).
Proof.
  induction a as [|x a IH]; [done|].
  change (String x ((a ++ b) ++ c) = String x (a ++ (b ++ c))). by rewrite IH.
Qed.

Lemma srev_app_distr' (s t : string) : srev (s ++ t) = srev t ++ srev s.
Proof.
  unfold srev. assert (forall u acc, srev_app u acc = srev_app u "" ++ acc) as Hacc.
  { intros u. induction u as [|c u IH]; intros acc; [done|]. simpl.
    rewrite (IH (String c acc)), (IH (String c "")). clear IH.
    induction (srev_app u "") as [|x v IHv]; [done|]. by apply (f_equal (String x)). }
  induction s as [|c s IH]; [simpl; by rewrite sapp_nil_r|].
  change (String c s ++ t) with (String c (s ++ t)). simpl.
  rewrite (Hacc (s ++ t)), IH, (Hacc s (String c "")).
  by rewrite sapp_assoc.
Qed.

(** [strings.TrimSpace] is idempotent. *)
Lemma TrimSpace_idem s : TrimSpace (TrimSpace s) = TrimSpace s.
Proof.
  unfold TrimSpace. set (t := trim_left s).
  assert (no_lead space2 space3 t = true) as Ht by apply no_lead_trim.
  assert (exists d, t = trim_right t ++ d) as [d Hd].
  { unfold trim_right. destruct (trim_suffix (fun a b => space2 b a) (fun a b c => space3 c b a) (srev t)) as [d Hd].
    exists (srev d). rewrite <- srev_app_distr', <- Hd. by rewrite srev_srev. }
  unfold trim_left at 1. rewrite (trim_no_lead space2 space3 (trim_right t)).
  - unfold trim_right. rewrite srev_srev. f_equal. apply trim_no_lead, no_lead_trim.
  - apply (no_lead_prefix _ _ _ d). by rewrite <- Hd.
Qed.

(** ** Time

    A [time.Time] is its UTC instant in nanoseconds since the Unix epoch;
    a [pgtype.Date] is a day number since the epoch. *)

Definition Time : Type := Z.
Definition Duration : Type := Z.   (* an int64 count of nanoseconds *)
Definition Date : Type := Z.

Definition Hour : Duration := 3600000000000.
Definition Minute : Duration := 60000000000.
Definition dayNs : Z := 86400000000000.

(** The zero [time.Time], January 1 of year 1. *)
Definition zeroTime : Time := -719162 * dayNs.
Definition IsZero (t : Time) : bool := t =? zeroTime.

(** [time.Time.Sub] saturates at the ends of [Duration]. *)
Definition sat64 (z : Z) : Z := Z.max MinInt64 (Z.min MaxInt64 z).
Definition timeSub (t u : Time) : Duration := sat64 (t - u).
Definition timeAdd (t : Time) (d : Duration) : Time := t + d.

(** [time.Date(u.Year(), u.Month(), u.Day(), 0, 0, 0, 0, time.UTC)]. *)
Definition dayStart (t : Time) : Time := t / dayNs * dayNs.

Definition dateOf (t : Time) : Date := t / dayNs.
Definition timeOfDate (d : Date) : Time := d * dayNs.

Lemma dateOf_timeOfDate d : dateOf (timeOfDate d) = d.
Proof. unfold dateOf, timeOfDate. by rewrite Z.div_mul. Qed.

Lemma timeOfDate_inj d d' : timeOfDate d = timeOfDate d' -> d = d'.
Proof. unfold timeOfDate, dayNs. lia. Qed.

(** ** Decimal numerals: [strconv.FormatInt(n, 10)] and [strconv.ParseInt] *)

Definition digit_of (d : Z) : ascii := ascii_of_nat (Z.to_nat (48 + d)).

(** Digits of a natural, most significant first; [fuel] bounds their number. *)
Fixpoint digits_rev (fuel : nat) (n : Z) : string :=
  match fuel with
  | O => EmptyString
  | S k =>
      if n <? 10 then String (digit_of n) EmptyString
      else String (digit_of (n mod 10)) (digits_rev k (n / 10))
  end.

Definition format_nat (n : Z) : string :=
  srev (digits_rev (S (Z.to_nat (Z.log2 n))) n).

Definition FormatInt (n : Z) : string :=
  if n <? 0 then String "-"%char (format_nat (- n)) else format_nat n.

Definition digit_val (c : ascii) : Z := byte_of c - 48.

(** Value of a digit string in base 10, [None] on any other byte. *)
Fixpoint parse_digits (acc : Z) (s : string) : option Z :=
  match s with
  | EmptyString => Some acc
  | String c s' => if is_digit c then parse_digits (10 * acc + digit_val c) s' else None
  end.

Definition parse_nat (s : string) : option Z :=
  match s with EmptyString => None | _ => parse_digits 0 s end.

(** [strconv.ParseInt(s, 10, 64)]: optional sign, at least one digit, in range. *)
Definition ParseInt (s : string) : option Z :=
  let v := match s with
           | String "-"%char s' => option_map Z.opp (parse_nat s')
           | String "+"%char s' => parse_nat s'
           | _ => parse_nat s
           end in
  match v with
  | Some z => if in64b z then Some z else None
  | None => None
  end.
