(* ===== verification/Domain.v ===== *)
(** * Package [internal/domain]: constants, errors, accounts, transactions

    Every struct of the package is a [Record] with the fields of the source;
    the sentinel errors are constructors of [error], the wrapping of
    [fmt.Errorf("...%w")] and [errors.Join] included. *)

From S2P Require Import Prelude GoBase.
From stdpp Require Import base list strings.
From Stdlib Require Import ZArith Lia.

Local Open Scope string_scope.
Local Open Scope Z_scope.

(** ** Constants *)

Definition AccountTypeBudget := "BUDGET".
Definition AccountTypeReceivable := "RECEIVABLE".
Definition AccountTypeWriteoff := "WRITEOFF".

Definition BizTypeTransfer := "TRANSFER".
Definition BizTypeRefund := "REFUND".

Definition SceneIssue := "ISSUE".
Definition SceneConsume := "CONSUME".
Definition SceneP2P := "P2P".
Definition SceneAdjust := "ADJUST".
Definition SceneExpireWriteoff := "EXPIRE_WRITEOFF".

Definition TxnStatusInit := "INIT".
Definition TxnStatusPaySuccess := "PAY_SUCCESS".
Definition TxnStatusRecvSuccess := "RECV_SUCCESS".
Definition TxnStatusFailed := "FAILED".

Definition NotifyStatusSuccess := "SUCCESS".
Definition NotifyStatusFailed := "FAILED".
Definition NotifyStatusDead := "DEAD".

(** ** Errors *)

Inductive error : Type :=
(* domain/errors.go *)
| ErrMerchantNoExists | ErrCustomerExists | ErrAccountNoExists
| ErrInvalidMerchantNo | ErrInvalidCustomerNo | ErrInvalidAccountNo
| ErrCodeAllocatorUnavailable
| ErrDuplicateOutTradeNo | ErrAccountResolveFailed | ErrAccountResolveConflict
| ErrOutUserIDNotAllowedForSystemAccount
| ErrAccountForbidDebit | ErrAccountForbidCredit | ErrAccountForbidTransfer
| ErrInsufficientBalance
| ErrTxnStatusInvalid | ErrTxnNotFound
| ErrRefundAmountExceeded | ErrRefundOriginBookTraceMissing
| ErrBookDisabled | ErrExpireAtRequired
(* platform/id and service *)
| IdErrCodeAllocatorUnavailable | ErrCodeSequenceExhausted | ErrLuhnBody
| ErrProcessingGuardUnavailable
(* the driver: no row, an error report of the server, a lost connection or timeout *)
| ErrNoRows
| PgError (code : string)
| ErrConn
(* crypto/rand *)
| ErrRand
(* db/merchant_secret.go *)
| ErrMerchantNotFound
(* errors.New with a fixed text, fmt.Errorf("msg: %w", e), errors.Join *)
| ErrText (msg : string)
| ErrWrap (msg : string) (e : error)
| ErrJoin (e1 e2 : error).

#[export] Instance error_eq_dec : EqDecision error.
Proof. solve_decision. Defined.

(** [errors.Is]: the error itself or one it wraps. *)
Fixpoint errors_is (e target : error) : bool :=
  bool_decide (e = target) ||
  match e with
  | ErrWrap _ e' => errors_is e' target
  | ErrJoin e1 e2 => errors_is e1 target || errors_is e2 target
  | _ => false
  end.

(** [isUniqueViolation]: SQLSTATE 23505 ([errors.As] also looks inside wrappers). *)
Fixpoint isUniqueViolation (e : error) : bool :=
  match e with
  | PgError code => String.eqb code "23505"
  | ErrWrap _ e' => isUniqueViolation e'
  | ErrJoin e1 e2 => isUniqueViolation e1 || isUniqueViolation e2
  | _ => false
  end.

(** The sentinel errors the stage processor treats as final
    ([shouldFailOnError] lists exactly these). *)
Definition business_error (e : error) : Prop :=
  e ∈ [ErrTxnNotFound; ErrTxnStatusInvalid; ErrAccountResolveFailed;
       ErrAccountResolveConflict; ErrOutUserIDNotAllowedForSystemAccount;
       ErrAccountForbidDebit; ErrAccountForbidCredit; ErrAccountForbidTransfer;
       ErrInsufficientBalance; ErrRefundAmountExceeded;
       ErrRefundOriginBookTraceMissing; ErrBookDisabled; ErrExpireAtRequired].

(** ** Accounts *)

Record Account : Type := mkAccount {
  AccountNo : string;
  AMerchantNo : string;
  ACustomerNo : string;
  AccountType : string;
  AllowOverdraft : bool;
  MaxOverdraftLimit : Z;
  AllowDebitOut : bool;
  AllowCreditIn : bool;
  AllowTransfer : bool;
  BookEnabled : bool;
  Balance : Z
}.

Definition CanDebitOut (a : Account) : option error :=
  if negb (AllowDebitOut a) then Some ErrAccountForbidDebit else None.

Definition CanDebit (a : Account) (amount : Z) : option error :=
  match CanDebitOut a with
  | Some e => Some e
  | None =>
      if amount <=? 0 then Some ErrInsufficientBalance else
      if negb (AllowOverdraft a) then
        (if Balance a <? amount then Some ErrInsufficientBalance else None)
      else if MaxOverdraftLimit a =? 0 then None
      else if wrap64 (Balance a + MaxOverdraftLimit a) <? amount
      then Some ErrInsufficientBalance
      else None
  end.

Definition CanCredit (a : Account) : option error :=
  if negb (AllowCreditIn a) then Some ErrAccountForbidCredit else None.

Definition CanTransfer (a : Account) : option error :=
  if negb (AllowTransfer a) then Some ErrAccountForbidTransfer else None.

(** ** Merchants and customers *)

Record Merchant : Type := mkMerchant {
  MerchantID : string;
  MerchantNo : string;
  MName : string;
  BudgetAccountNo : string;
  ReceivableAccountNo : string;
  WriteoffAccountNo : string
}.

Record Customer : Type := mkCustomer {
  CustomerID : string;
  CustomerNo : string;
  CMerchantNo : string;
  OutUserID : string;
  DefaultAccountNo : string
}.

(** ** Transactions *)

Record TransferTxn : Type := mkTransferTxn {
  TxnNo : string;
  TMerchantNo : string;
  OutTradeNo : string;
  Title : string;
  Remark : string;
  BizType : string;
  TransferScene : string;
  DebitAccountNo : string;
  CreditAccountNo : string;
  CreditExpireAt : Time;
  Amount : Z;
  RefundOfTxnNo : string;
  RefundableAmount : Z;
  Status : string;
  ErrorCode : string;
  ErrorMsg : string;
  CreatedAt : Time
}.

(** ** The transaction state machine *)

(** [Transit]: the new status, or [ErrTxnStatusInvalid]. *)
Definition Transit (status next : string) : Result error string :=
  let allowed :=
    if String.eqb status TxnStatusInit then
      String.eqb next TxnStatusPaySuccess || String.eqb next TxnStatusFailed
    else if String.eqb status TxnStatusPaySuccess then
      String.eqb next TxnStatusRecvSuccess || String.eqb next TxnStatusFailed
    else false in
  if negb allowed then Err ErrTxnStatusInvalid else Ok next.

(** The edges of the state machine as a relation on statuses. *)
Inductive status_step : string -> string -> Prop :=
| step_pay : status_step TxnStatusInit TxnStatusPaySuccess
| step_init_fail : status_step TxnStatusInit TxnStatusFailed
| step_recv : status_step TxnStatusPaySuccess TxnStatusRecvSuccess
| step_pay_fail : status_step TxnStatusPaySuccess TxnStatusFailed.
#[export] Hint Constructors status_step : coin.

Definition terminal (s : string) : Prop :=
  s = TxnStatusRecvSuccess \/ s = TxnStatusFailed.

Lemma Transit_ok s s' r : Transit s s' = Ok r <-> r = s' /\ status_step s s'.
Proof.
  split.
  - unfold Transit. intros H.
    destruct (String.eqb_spec s TxnStatusInit) as [->|_];
      [|destruct (String.eqb_spec s TxnStatusPaySuccess) as [->|_]; [|done]].
    + destruct (String.eqb_spec s' TxnStatusPaySuccess) as [->|_];
        [|destruct (String.eqb_spec s' TxnStatusFailed) as [->|_]]; simplify_eq/=; eauto with coin.
    + destruct (String.eqb_spec s' TxnStatusRecvSuccess) as [->|_];
        [|destruct (String.eqb_spec s' TxnStatusFailed) as [->|_]]; simplify_eq/=; eauto with coin.
  - intros [-> []]; reflexivity.
Qed.
