(* ===== verification/Codes.v ===== *)
(** * Package [internal/platform/id], pure part: Luhn codes and their layout

    [code.go]: merchant, customer and account numbers are digit strings of
    fixed length closed by a Luhn check digit. *)

From S2P Require Import Prelude GoBase Domain.
From stdpp Require Import base list strings.
From Stdlib Require Import ZArith Lia Ascii String.

Local Open Scope string_scope.
Local Open Scope Z_scope.

Definition MerchantNoLength : Z := 16.
Definition CustomerNoLength : Z := 16.
Definition AccountNoLength : Z := 19.

Definition defaultBIN := "621770".
Definition defaultRegion := "000".
Definition defaultVersion := "1".
Definition merchantPrefix := "1".
Definition customerPrefix := "2".

Fixpoint onlyDigits (v : string) : bool :=
  match v with
  | EmptyString => true
  | String c v' => if (byte_of c <? 48) || (57 <? byte_of c) then false else onlyDigits v'
  end.

Definition hasExactDigits (v : string) (n : Z) : bool := (slen v =? n) && onlyDigits v.

(** One iteration of the two Luhn loops: the contribution of a digit. *)
Definition luhnDigit (double : bool) (c : ascii) : Z :=
  let d := byte_of c - 48 in
  if double then (if 9 <? d * 2 then d * 2 - 9 else d * 2) else d.

(** The loop [for i := len(v)-1; i >= 0; i--] reads the bytes of [srev v]. *)
Fixpoint luhnSum (double : bool) (sum : Z) (r : string) : Z :=
  match r with
  | EmptyString => sum
  | String c r' => luhnSum (negb double) (sum + luhnDigit double c) r'
  end.

Definition computeLuhnCheckDigit (body : string) : ascii :=
  let sum := luhnSum true 0 (srev body) in
  let check := Z.rem (10 - Z.rem sum 10) 10 in
  ascii_of_nat (Z.to_nat (48 + check)).

Definition isValidLuhn (v : string) : bool :=
  if negb (onlyDigits v) || String.eqb v "" then false
  else Z.rem (luhnSum false 0 (srev v)) 10 =? 0.

Definition appendLuhn (body : string) : Result error string :=
  if negb (onlyDigits body) then Err ErrLuhnBody
  else Ok (body ++ String (computeLuhnCheckDigit body) EmptyString).

Definition hasPrefix1 (v p : string) : bool := String.prefix p v.

Definition IsValidMerchantNo (v : string) : bool :=
  hasExactDigits v MerchantNoLength && hasPrefix1 v merchantPrefix && isValidLuhn v.

Definition IsValidCustomerNo (v : string) : bool :=
  hasExactDigits v CustomerNoLength && hasPrefix1 v customerPrefix && isValidLuhn v.

Definition IsValidAccountNo (v : string) : bool :=
  hasExactDigits v AccountNoLength && isValidLuhn v.

(** [fmt.Sprintf("%0<width>d", n)] for [n >= 0]. *)
Fixpoint zeros (k : nat) : string :=
  match k with O => EmptyString | S k' => String "0"%char (zeros k') end.
Definition padNat (width : Z) (n : Z) : string :=
  let s := FormatInt n in zeros (Z.to_nat (width - slen s)) ++ s.

(** FNV-1a, 64 and 32 bits ([hash/fnv]). *)
Fixpoint fnv_loop (prime modulus h : Z) (s : string) : Z :=
  match s with
  | EmptyString => h
  | String c s' => fnv_loop prime modulus (Z.lxor h (byte_of c) * prime mod modulus) s'
  end.
Definition hashUint64 (v : string) : Z :=
  fnv_loop 1099511628211 two64 14695981039346656037 v.
Definition hashUint32 (v : string) : Z :=
  fnv_loop 16777619 4294967296 2166136261 v.

Definition merchantMapping (merchantNo : string) : string :=
  let h := hashUint64 (TrimSpace merchantNo) in padNat 4 (h mod 10000).

Definition accountTypeCode (accountType : string) : string :=
  let t := ToUpper (TrimSpace accountType) in
  if String.eqb t "BUDGET" then "01"
  else if String.eqb t "RECEIVABLE" then "02"
  else if String.eqb t "CUSTOMER" || String.eqb t "CUSTOM" then "10"
  else "11".

Fixpoint pow10 (n : nat) : Z := match n with O => 1 | S k => pow10 k * 10 end.

(** The body of each kind of code, from its sequence number. *)
Definition merchantCode (seq : Z) : Result error string :=
  if pow10 10 <=? seq then Err ErrCodeSequenceExhausted
  else appendLuhn (merchantPrefix ++ defaultRegion ++ defaultVersion ++ padNat 10 seq).

Definition customerCode (seq : Z) : Result error string :=
  if pow10 10 <=? seq then Err ErrCodeSequenceExhausted
  else appendLuhn (customerPrefix ++ defaultRegion ++ defaultVersion ++ padNat 10 seq).

Definition accountCode (merchantNo accountType : string) (seq : Z) : Result error string :=
  let mmmm := merchantMapping merchantNo in
  let tt := accountTypeCode accountType in
  if pow10 6 <=? seq then Err ErrCodeSequenceExhausted
  else appendLuhn (defaultBIN ++ mmmm ++ tt ++ padNat 6 seq).

Definition accountScopeKey (merchantNo accountType : string) : string :=
  defaultBIN ++ merchantMapping merchantNo ++ accountTypeCode accountType.

(** ** Data of the HiLo provider ([db_code_provider.go]) *)

Record codeSegment : Type := mkSegment { seg_next : Z; seg_end : Z; seg_valid : bool }.

Record codeBucket : Type := mkBucket {
  bk_current : codeSegment;
  bk_prefetch : option codeSegment;
  bk_renewing : bool
}.

(** ** Strings of digits *)

Lemma onlyDigits_sforall v : onlyDigits v = sforall is_digit v.
Proof.
  induction v as [|c v IH]; [done|]. simpl. rewrite <- IH. unfold is_digit.
  destruct (Z.ltb_spec (byte_of c) 48), (Z.ltb_spec 57 (byte_of c)),
    (Z.leb_spec 48 (byte_of c)), (Z.leb_spec (byte_of c) 57); simpl; (done || lia).
Qed.

Lemma sapp_cons c (s t : string) : String c s ++ t = String c (s ++ t).
Proof. done. Qed.

Lemma slen_app (s t : string) : slen (s ++ t) = slen s + slen t.
Proof. induction s as [|c s IH]; [done|]. rewrite sapp_cons. simpl. lia. Qed.

Lemma sforall_app p (s t : string) : sforall p (s ++ t) = sforall p s && sforall p t.
Proof.
  induction s as [|c s IH]; [done|]. rewrite sapp_cons. simpl. rewrite IH.
  by destruct (p c).
Qed.

Lemma srev_snoc (s : string) c : srev (s ++ String c "") = String c (srev s).
Proof.
  unfold srev. generalize (EmptyString) at 2 3.
  induction s as [|d s IH]; intros acc; [done|]. rewrite sapp_cons. simpl. apply IH.
Qed.

Lemma srev_cons (s : string) c : srev (String c s) = srev s ++ String c "".
Proof.
  rewrite <- (srev_srev (srev s ++ String c "")), srev_snoc. by rewrite srev_srev.
Qed.

Lemma slen_srev (s : string) : slen (srev s) = slen s.
Proof.
  induction s as [|c s IH]; [done|]. rewrite srev_cons, slen_app. simpl. lia.
Qed.

Lemma sforall_srev p (s : string) : sforall p (srev s) = sforall p s.
Proof.
  unfold srev. rewrite sforall_srev_app. simpl. by rewrite andb_true_r.
Qed.

Lemma srev_app_distr (s t : string) : srev (s ++ t) = srev t ++ srev s.
Proof.
  induction s as [|c s IH]; [by rewrite sapp_nil_r|].
  rewrite sapp_cons, !srev_cons, IH. generalize (srev t) as u. intros u.
  induction u as [|d u IHu]; [done|]. rewrite !sapp_cons. by rewrite IHu.
Qed.

Lemma slen_nonneg (s : string) : 0 <= slen s.
Proof. induction s; simpl; lia. Qed.

Lemma is_digit_bound c : is_digit c = true -> 0 <= byte_of c - 48 <= 9.
Proof. unfold is_digit. intros. bools. lia. Qed.

Lemma byte_of_digit d : 0 <= d <= 9 -> byte_of (digit_of d) = 48 + d.
Proof.
  intros Hd. unfold byte_of, digit_of. rewrite nat_ascii_embedding; lia.
Qed.

Lemma is_digit_digit_of d : 0 <= d <= 9 -> is_digit (digit_of d) = true.
Proof. intros Hd. unfold is_digit. rewrite byte_of_digit by done. apply andb_true_iff; lia. Qed.

Lemma byte_of_inj c d : byte_of c = byte_of d -> c = d.
Proof.
  unfold byte_of. intros H. rewrite <- (ascii_nat_embedding c), <- (ascii_nat_embedding d).
  f_equal. lia.
Qed.

(** ** Decimal numerals *)

(** Value of a digit string read from its least significant digit. *)
Fixpoint val_rev (s : string) : Z :=
  match s with EmptyString => 0 | String c s' => digit_val c + 10 * val_rev s' end.

Lemma digits_rev_spec fuel n :
  0 <= n < 2 ^ Z.of_nat (S fuel) ->
  sforall is_digit (digits_rev (S fuel) n) = true /\ val_rev (digits_rev (S fuel) n) = n.
Proof.
  revert n. induction fuel as [|fuel IH]; intros n Hn.
  - assert (n < 10) by (change (2 ^ Z.of_nat 1) with 2 in Hn; lia).
    cbn [digits_rev]. destruct (Z.ltb_spec n 10); [|lia]. simpl. unfold digit_val.
    rewrite is_digit_digit_of, byte_of_digit by lia. split; [done|lia].
  - remember (S fuel) as k eqn:Ek. cbn [digits_rev]. destruct (Z.ltb_spec n 10).
    + simpl. unfold digit_val. rewrite is_digit_digit_of, byte_of_digit by lia. split; [done|lia].
    + rewrite Nat2Z.inj_succ, Z.pow_succ_r in Hn by lia.
      pose proof (Z.mod_pos_bound n 10 ltac:(lia)). pose proof (Z.div_mod n 10 ltac:(lia)).
      destruct (IH (n / 10)) as [IH1 IH2].
      { split; [apply Z.div_pos; lia|]. apply Z.div_lt_upper_bound; lia. }
      simpl. unfold digit_val. rewrite IH1, IH2, is_digit_digit_of, byte_of_digit by lia.
      split; [done|lia].
Qed.

Lemma digits_rev_len fuel n w :
  0 <= n < 10 ^ Z.of_nat (S w) -> 1 <= slen (digits_rev (S fuel) n) <= Z.of_nat (S w).
Proof.
  revert n w. induction fuel as [|fuel IH]; intros n w Hn.
  - cbn [digits_rev]. destruct (n <? 10); simpl; lia.
  - remember (S fuel) as k eqn:Ek. cbn [digits_rev].
    destruct (Z.ltb_spec n 10); [simpl; lia|].
    destruct w as [|w]; [change (10 ^ Z.of_nat 1) with 10 in Hn; lia|].
    rewrite Nat2Z.inj_succ, Z.pow_succ_r in Hn by lia.
    specialize (IH (n / 10) w). simpl slen.
    assert (0 <= n / 10 < 10 ^ Z.of_nat (S w)).
    { split; [apply Z.div_pos; lia|]. apply Z.div_lt_upper_bound; lia. }
    lia.
Qed.

Lemma log2_fuel n : 0 <= n -> n < 2 ^ Z.of_nat (S (Z.to_nat (Z.log2 n))).
Proof.
  intros Hn. destruct (Z.eq_dec n 0) as [->|]; [done|].
  pose proof (Z.log2_spec n ltac:(lia)) as [_ H]. pose proof (Z.log2_nonneg n).
  rewrite Nat2Z.inj_succ, Z2Nat.id; lia.
Qed.

Lemma format_nat_digits n : 0 <= n -> sforall is_digit (format_nat n) = true.
Proof.
  intros Hn. unfold format_nat. rewrite sforall_srev.
  apply digits_rev_spec. pose proof (log2_fuel n Hn). lia.
Qed.

Lemma format_nat_len n w :
  0 <= n < 10 ^ Z.of_nat (S w) -> 1 <= slen (format_nat n) <= Z.of_nat (S w).
Proof. intros Hn. unfold format_nat. rewrite slen_srev. by apply digits_rev_len. Qed.

Lemma parse_digits_app acc (s t : string) :
  parse_digits acc (s ++ t) =
  match parse_digits acc s with Some a => parse_digits a t | None => None end.
Proof.
  revert acc. induction s as [|c s IH]; intros acc; [done|].
  rewrite sapp_cons. simpl. destruct (is_digit c); [apply IH|done].
Qed.

Lemma parse_digits_rev s :
  sforall is_digit s = true -> parse_digits 0 (srev s) = Some (val_rev s).
Proof.
  induction s as [|c s IH]; [done|]. simpl. intros. bools.
  rewrite srev_cons, parse_digits_app, IH by done. simpl.
  rewrite H. f_equal. lia.
Qed.

Lemma parse_format_nat n : 0 <= n -> parse_nat (format_nat n) = Some n.
Proof.
  intros Hn. pose proof (log2_fuel n Hn) as Hf.
  destruct (digits_rev_spec (Z.to_nat (Z.log2 n)) n ltac:(lia)) as [Hd Hv].
  assert (1 <= slen (format_nat n)).
  { unfold format_nat. rewrite slen_srev. cbn [digits_rev]. destruct (n <? 10); simpl;
      [lia|]. pose proof (slen_nonneg (digits_rev (Z.to_nat (Z.log2 n)) (n / 10))). lia. }
  unfold parse_nat. destruct (format_nat n) eqn:E; [simpl in *; lia|].
  rewrite <- E. unfold format_nat. rewrite parse_digits_rev by done. by rewrite Hv.
Qed.

(** [strconv.ParseInt] undoes [strconv.FormatInt] on every [int64]. *)
Lemma ParseInt_FormatInt n : in64 n -> ParseInt (FormatInt n) = Some n.
Proof.
  intros Hn. apply in64b_true in Hn as Hb. unfold FormatInt.
  destruct (Z.ltb_spec n 0).
  - unfold ParseInt. rewrite parse_format_nat by lia. simpl.
    rewrite Z.opp_involutive. by rewrite Hb.
  - pose proof (parse_format_nat n ltac:(lia)) as Hp.
    pose proof (format_nat_digits n ltac:(lia)) as Hd.
    unfold ParseInt. destruct (format_nat n) as [|c s] eqn:E; [done|].
    simpl in Hd. bools.
    destruct (ascii_dec c "-"%char) as [->|]; [done|].
    destruct (ascii_dec c "+"%char) as [->|]; [done|].
    assert (match String c s with
            | String "-"%char s' => option_map Z.opp (parse_nat s')
            | String "+"%char s' => parse_nat s'
            | _ => parse_nat (String c s)
            end = parse_nat (String c s)) as ->.
    { destruct c as [[] [] [] [] [] [] [] []]; done. }
    rewrite Hp. by rewrite Hb.
Qed.

(** ** Zero padding *)

Lemma zeros_digits k : sforall is_digit (zeros k) = true.
Proof. induction k; done. Qed.

Lemma slen_zeros k : slen (zeros k) = Z.of_nat k.
Proof. induction k; simpl slen; lia. Qed.

Lemma parse_zeros k (s : string) : parse_digits 0 (zeros k ++ s) = parse_digits 0 s.
Proof. induction k as [|k IH]; [done|]. simpl zeros. rewrite sapp_cons. simpl. apply IH. Qed.

Lemma padNat_digits w n : 0 <= n -> sforall is_digit (padNat w n) = true.
Proof.
  intros Hn. unfold padNat, FormatInt. destruct (Z.ltb_spec n 0); [lia|].
  by rewrite sforall_app, zeros_digits, format_nat_digits.
Qed.

Lemma padNat_len w n : 0 < w -> 0 <= n < 10 ^ w -> slen (padNat w n) = w.
Proof.
  intros Hw Hn. unfold padNat, FormatInt. destruct (Z.ltb_spec n 0); [lia|].
  pose proof (format_nat_len n (Z.to_nat (w - 1))) as Hl.
  replace (Z.of_nat (S (Z.to_nat (w - 1)))) with w in Hl by lia.
  specialize (Hl Hn). rewrite slen_app, slen_zeros. lia.
Qed.

Lemma padNat_value w n : 0 <= n -> parse_digits 0 (padNat w n) = Some n.
Proof.
  intros Hn. unfold padNat, FormatInt. destruct (Z.ltb_spec n 0); [lia|].
  rewrite parse_zeros. pose proof (parse_format_nat n Hn) as Hp.
  by destruct (format_nat n).
Qed.

Lemma padNat_inj w n m : 0 <= n -> 0 <= m -> padNat w n = padNat w m -> n = m.
Proof.
  intros Hn Hm H. pose proof (padNat_value w n Hn) as E1.
  rewrite H, padNat_value in E1 by done. congruence.
Qed.

Lemma sapp_inj_l (s t u : string) : s ++ t = s ++ u -> t = u.
Proof. induction s as [|c s IH]; [done|]. rewrite !sapp_cons. intros [=]. auto. Qed.

Lemma sapp_inj_len (s s' t t' : string) :
  slen s = slen s' -> s ++ t = s' ++ t' -> s = s' /\ t = t'.
Proof.
  revert s'. induction s as [|c s IH]; intros [|c' s']; simpl.
  - done.
  - pose proof (slen_nonneg s'). lia.
  - pose proof (slen_nonneg s). lia.
  - rewrite !sapp_cons. intros Hl [= -> Heq]. destruct (IH s') as [-> ->]; [lia|done|done].
Qed.

(** ** The Luhn check digit *)

Lemma luhnSum_acc d a r : luhnSum d a r = a + luhnSum d 0 r.
Proof.
  revert d a. induction r as [|c r IH]; intros d a; simpl; [lia|].
  rewrite IH, (IH _ (0 + _)). lia.
Qed.

Lemma luhnDigit_bound d c : is_digit c = true -> 0 <= luhnDigit d c <= 9.
Proof.
  intros Hc. apply is_digit_bound in Hc. unfold luhnDigit.
  destruct d; [|lia]. destruct (Z.ltb_spec 9 ((byte_of c - 48) * 2)); lia.
Qed.

Lemma luhnSum_nonneg d r : sforall is_digit r = true -> 0 <= luhnSum d 0 r.
Proof.
  revert d. induction r as [|c r IH]; intros d; simpl; [lia|]. intros. bools.
  rewrite luhnSum_acc. specialize (IH (negb d) H0).
  pose proof (luhnDigit_bound d c H). lia.
Qed.

Lemma luhnDigit_inj d c c' :
  is_digit c = true -> is_digit c' = true -> luhnDigit d c = luhnDigit d c' -> c = c'.
Proof.
  intros Hc Hc'. apply is_digit_bound in Hc, Hc'. unfold luhnDigit. intros H.
  apply byte_of_inj. destruct d; [|lia].
  destruct (Z.ltb_spec 9 ((byte_of c - 48) * 2)), (Z.ltb_spec 9 ((byte_of c' - 48) * 2)); lia.
Qed.

(** Sum over a reversed string split around one byte. *)
Lemma luhnSum_split d (u v : string) :
  exists d' K, forall c, luhnSum d 0 (u ++ String c v) = K + luhnDigit d' c.
Proof.
  revert d. induction u as [|x u IH]; intros d.
  - exists d, (luhnSum (negb d) 0 v). intros c. change ("" ++ String c v) with (String c v).
    cbn [luhnSum]. rewrite luhnSum_acc. lia.
  - destruct (IH (negb d)) as (d' & K & HK). exists d', (K + luhnDigit d x).
    intros c. rewrite sapp_cons. cbn [luhnSum]. rewrite luhnSum_acc, HK. lia.
Qed.

Lemma check_digit_val body :
  sforall is_digit body = true ->
  exists k, computeLuhnCheckDigit body = digit_of k /\ 0 <= k <= 9 /\
    (luhnSum true 0 (srev body) + k) mod 10 = 0.
Proof.
  intros Hb. set (S := luhnSum true 0 (srev body)).
  assert (0 <= S) by (apply luhnSum_nonneg; by rewrite sforall_srev).
  exists ((10 - S mod 10) mod 10). unfold computeLuhnCheckDigit, digit_of. fold S.
  pose proof (Z.mod_pos_bound S 10 ltac:(lia)).
  rewrite (Z.rem_mod_nonneg S), (Z.rem_mod_nonneg (10 - S mod 10)) by lia.
  pose proof (Z.mod_pos_bound (10 - S mod 10) 10 ltac:(lia)).
  split; [done|]. split; [lia|].
  rewrite Zplus_mod_idemp_r. replace (S + (10 - S mod 10)) with (S - S mod 10 + 1 * 10) by lia.
  rewrite Z.mod_add, Zminus_mod_idemp_r by lia. by rewrite Z.sub_diag.
Qed.

Lemma onlyDigits_graphic s : onlyDigits s = true -> sforall graphic s = true.
Proof. rewrite onlyDigits_sforall. apply sforall_impl, is_digit_graphic. Qed.

(** What [appendLuhn] returns passes [isValidLuhn], keeps the body and adds
    one digit. *)
Lemma appendLuhn_ok body v :
  appendLuhn body = Ok v ->
  isValidLuhn v = true /\ onlyDigits v = true /\ slen v = slen body + 1
  /\ exists c, v = body ++ String c "".
Proof.
  unfold appendLuhn. destruct (onlyDigits body) eqn:Hd; [|done]. intros [= <-].
  rewrite onlyDigits_sforall in Hd.
  destruct (check_digit_val body Hd) as (k & -> & Hk & Hsum).
  set (v := body ++ String (digit_of k) "").
  assert (sforall is_digit v = true) as Hv.
  { unfold v. rewrite sforall_app, Hd. simpl. by rewrite is_digit_digit_of. }
  repeat split; [| |unfold v; rewrite slen_app; done|by eexists].
  - unfold isValidLuhn. rewrite onlyDigits_sforall, Hv.
    destruct (String.eqb_spec v "") as [E|_].
    { exfalso. assert (slen v = 0) by by rewrite E. unfold v in *. rewrite slen_app in *.
      simpl in *. pose proof (slen_nonneg body). lia. }
    simpl. unfold v. rewrite srev_snoc. cbn [luhnSum negb].
    rewrite luhnSum_acc. unfold luhnDigit at 1. rewrite byte_of_digit by done.
    rewrite Z.rem_mod_nonneg; [|pose proof (luhnSum_nonneg true (srev body) ltac:(by rewrite sforall_srev)); lia|lia].
    apply Z.eqb_eq. transitivity ((luhnSum true 0 (srev body) + k) mod 10); [|done].
    match goal with |- ?a mod _ = ?b mod _ => replace a with b by lia end. done.
  - by rewrite onlyDigits_sforall.
Qed.

Lemma isValidLuhn_sum v :
  isValidLuhn v = true -> sforall is_digit v = true /\ luhnSum false 0 (srev v) mod 10 = 0.
Proof.
  unfold isValidLuhn. destruct (negb (onlyDigits v) || String.eqb v "") eqn:E; [done|].
  intros H. bools. rewrite onlyDigits_sforall in *. split; [done|].
  rewrite <- Z.rem_mod_nonneg; [done| |lia].
  apply luhnSum_nonneg. by rewrite sforall_srev.
Qed.

(** ** Correctness of the codes *)

Lemma mod10_eq K a b :
  0 <= a <= 9 -> 0 <= b <= 9 -> (K + a) mod 10 = 0 -> (K + b) mod 10 = 0 -> a = b.
Proof.
  intros Ha Hb H1 H2. apply Z.mod_divide in H1 as [p Hp], H2 as [q Hq]; lia.
Qed.

(** The Luhn test detects every substitution of a single digit: two valid
    codes that agree everywhere but possibly at one position are equal. *)
Lemma luhn_detects_single_error (u v : string) (c c' : ascii) :
  isValidLuhn (u ++ String c v) = true ->
  isValidLuhn (u ++ String c' v) = true ->
  c = c'.
Proof.
  intros [Hd1 H1]%isValidLuhn_sum [Hd2 H2]%isValidLuhn_sum.
  rewrite sforall_app in Hd1, Hd2. simpl in Hd1, Hd2. bools.
  assert (forall x, srev (u ++ String x v) = srev v ++ String x (srev u)) as Hrev.
  { intros x. rewrite srev_app_distr, srev_cons.
    generalize (srev v) (srev u). intros s t.
    induction s as [|y s IH]; [done|]. rewrite !sapp_cons. by rewrite IH. }
  rewrite Hrev in H1, H2.
  destruct (luhnSum_split false (srev v) (srev u)) as (d & K & HK).
  rewrite HK in H1, H2. apply (luhnDigit_inj d); [done..|].
  eapply mod10_eq; eauto using luhnDigit_bound.
Qed.

Lemma merchantMapping_digits m :
  sforall is_digit (merchantMapping m) = true /\ slen (merchantMapping m) = 4.
Proof.
  unfold merchantMapping. pose proof (Z.mod_pos_bound (hashUint64 (TrimSpace m)) 10000 ltac:(lia)).
  split; [apply padNat_digits; lia|]. by apply padNat_len.
Qed.

Lemma accountTypeCode_digits t :
  sforall is_digit (accountTypeCode t) = true /\ slen (accountTypeCode t) = 2.
Proof. unfold accountTypeCode. repeat case_goal; done. Qed.

(** Every code the three constructors return is well formed: right length,
    right prefix, valid check digit. *)
Lemma codes_valid (m t : string) (seq : Z) :
  0 <= seq ->
  (forall v, merchantCode seq = Ok v -> IsValidMerchantNo v = true) /\
  (forall v, customerCode seq = Ok v -> IsValidCustomerNo v = true) /\
  (forall v, accountCode m t seq = Ok v -> IsValidAccountNo v = true).
Proof.
  intros Hs. repeat split; intros v.
  - unfold merchantCode. destruct (Z.leb_spec (pow10 10) seq); [done|].
    intros (Hl & Hd & Hn & c & Hv)%appendLuhn_ok.
    unfold IsValidMerchantNo, hasExactDigits. rewrite Hl, Hd, Hn, Hv.
    rewrite !slen_app, padNat_len by (cbn in *; lia). done.
  - unfold customerCode. destruct (Z.leb_spec (pow10 10) seq); [done|].
    intros (Hl & Hd & Hn & c & Hv)%appendLuhn_ok.
    unfold IsValidCustomerNo, hasExactDigits. rewrite Hl, Hd, Hn, Hv.
    rewrite !slen_app, padNat_len by (cbn in *; lia). done.
  - unfold accountCode. destruct (Z.leb_spec (pow10 6) seq); [done|].
    intros (Hl & Hd & Hn & c & Hv)%appendLuhn_ok.
    unfold IsValidAccountNo, hasExactDigits. rewrite Hl, Hd, Hn.
    rewrite !slen_app, padNat_len by (cbn in *; lia).
    destruct (merchantMapping_digits m) as [_ ->], (accountTypeCode_digits t) as [_ ->]. done.
Qed.

(** The constructors always produce a code while the sequence lasts, and
    refuse beyond it. *)
Lemma accountCode_total m t seq :
  0 <= seq -> is_ok (accountCode m t seq) = (seq <? pow10 6).
Proof.
  intros Hs. unfold accountCode. rewrite Z.ltb_antisym.
  destruct (pow10 6 <=? seq); [done|]. unfold appendLuhn.
  rewrite onlyDigits_sforall, !sforall_app, padNat_digits by done.
  destruct (merchantMapping_digits m) as [-> _], (accountTypeCode_digits t) as [-> _]. done.
Qed.

Lemma accountCode_inj m t s s' v :
  0 <= s -> 0 <= s' -> accountCode m t s = Ok v -> accountCode m t s' = Ok v -> s = s'.
Proof.
  intros Hs Hs'. unfold accountCode.
  destruct (Z.leb_spec (pow10 6) s), (Z.leb_spec (pow10 6) s'); try done.
  intros (_ & _ & _ & c & Hv)%appendLuhn_ok (_ & _ & _ & c' & Hv')%appendLuhn_ok.
  rewrite Hv' in Hv. apply sapp_inj_len in Hv as [Hb _].
  - apply sapp_inj_l in Hb. apply sapp_inj_l in Hb. apply sapp_inj_l in Hb.
    symmetry. by eapply padNat_inj.
  - rewrite !slen_app. rewrite !padNat_len by (cbn in *; lia). done.
Qed.
