(* ===== verification/Encoding.v ===== *)
(** * Encodings and hashes of Go's standard library

    Byte strings as numbers, [encoding/hex], [encoding/base64]
    ([RawURLEncoding]), [crypto/sha256] (FIPS 180-4) and [crypto/hmac] with
    it, as functions on byte strings. *)

From S2P Require Import Prelude GoBase Codes.
From stdpp Require Import base list strings.
From Stdlib Require Import ZArith Lia Ascii String.

Local Open Scope string_scope.
Local Open Scope Z_scope.

(** ** Bytes *)

Definition of_byte (b : Z) : ascii := ascii_of_N (Z.to_N b).

Lemma byte_of_range c : 0 <= byte_of c < 256.
Proof. unfold byte_of. pose proof (nat_ascii_bounded c). lia. Qed.

Lemma of_byte_of c : of_byte (byte_of c) = c.
Proof.
  unfold of_byte, byte_of, nat_of_ascii. rewrite N_nat_Z, N2Z.id. apply ascii_N_embedding.
Qed.

Lemma byte_of_of b : 0 <= b < 256 -> byte_of (of_byte b) = b.
Proof.
  intros Hb. unfold of_byte, byte_of, nat_of_ascii. rewrite N_nat_Z, N_ascii_embedding by lia. lia.
Qed.

(** The low [n] bytes of [z], most significant first. *)
Fixpoint bytes_be (n : nat) (z : Z) : string :=
  match n with
  | O => ""
  | S k => String (of_byte (Z.shiftr z (8 * Z.of_nat k) mod 256)) (bytes_be k z)
  end.

(** [for i := 0; i < len(s); i++ { n = n<<8 | s[i] }]. *)
Fixpoint be_bytes_acc (acc : Z) (s : string) : Z :=
  match s with "" => acc | String c s' => be_bytes_acc (256 * acc + byte_of c) s' end.
Definition be_bytes : string -> Z := be_bytes_acc 0.

Fixpoint stake (n : nat) (s : string) : string :=
  match n, s with
  | S k, String c s' => String c (stake k s')
  | _, _ => ""
  end.
Fixpoint sdrop (n : nat) (s : string) : string :=
  match n, s with
  | S k, String _ s' => sdrop k s'
  | _, _ => s
  end.
Fixpoint sfilter (p : ascii -> bool) (s : string) : string :=
  match s with "" => "" | String c s' => if p c then String c (sfilter p s') else sfilter p s' end.
Fixpoint srepeat (c : ascii) (n : nat) : string :=
  match n with O => "" | S k => String c (srepeat c k) end.
Fixpoint smap (f : ascii -> ascii) (s : string) : string :=
  match s with "" => "" | String c s' => String (f c) (smap f s') end.

(** [strings.HasPrefix] and [strings.TrimPrefix]. *)
Definition HasPrefix (s prefix : string) : bool := String.prefix prefix s.
Definition TrimPrefix (s prefix : string) : string :=
  if HasPrefix s prefix then sdrop (String.length prefix) s else s.

Lemma sdrop_app a b : sdrop (String.length a) (a ++ b) = b.
Proof. induction a as [|c a IH]; [done|]. exact IH. Qed.
Lemma stake_app a b : stake (String.length a) (a ++ b) = a.
Proof. induction a as [|c a IH]; [by destruct b|]. change (String c (stake (String.length a) (a ++ b)) = String c a). by rewrite IH. Qed.
Lemma sprefix_app a b : String.prefix a (a ++ b) = true.
Proof.
  induction a as [|c a IH]; [by destruct b|].
  change (String.prefix (String c a) (String c (a ++ b)) = true). simpl. by destruct (ascii_dec c c).
Qed.
Lemma TrimPrefix_app a b : TrimPrefix (a ++ b) a = b.
Proof. unfold TrimPrefix, HasPrefix. rewrite sprefix_app. apply sdrop_app. Qed.

(** ** [strings.Split] and [strings.Cut] at a byte *)

Fixpoint splitOn (sep : Z) (s : string) : list string :=
  match s with
  | "" => [""]
  | String c s' =>
      if byte_of c =? sep then "" :: splitOn sep s'
      else match splitOn sep s' with
           | x :: l => String c x :: l
           | [] => [String c ""]
           end
  end.

(** The parts around the first separator, if there is one. *)
Fixpoint cutAt (sep : Z) (s : string) : option (string * string) :=
  match s with
  | "" => None
  | String c s' =>
      if byte_of c =? sep then Some ("", s')
      else match cutAt sep s' with Some (a, b) => Some (String c a, b) | None => None end
  end.

(** ** [hex.EncodeToString] *)

Definition hex_digit (d : Z) : ascii := of_byte (if d <? 10 then 48 + d else 87 + d).
Fixpoint hexEncode (s : string) : string :=
  match s with
  | "" => ""
  | String c s' => String (hex_digit (byte_of c / 16)) (String (hex_digit (byte_of c mod 16)) (hexEncode s'))
  end.

(** ** [base64.RawURLEncoding] *)

Definition b64_digit (d : Z) : ascii :=
  of_byte (if d <? 26 then 65 + d else if d <? 52 then 71 + d else if d <? 62 then d - 4
           else if d =? 62 then 45 else 95).

Definition b64_value (c : ascii) : option Z :=
  let b := byte_of c in
  if (65 <=? b) && (b <=? 90) then Some (b - 65)
  else if (97 <=? b) && (b <=? 122) then Some (b - 71)
  else if (48 <=? b) && (b <=? 57) then Some (b + 4)
  else if b =? 45 then Some 62 else if b =? 95 then Some 63 else None.

Fixpoint b64Encode (s : string) : string :=
  match s with
  | "" => ""
  | String c1 "" =>
      let a := byte_of c1 in
      String (b64_digit (a / 4)) (String (b64_digit (a mod 4 * 16)) "")
  | String c1 (String c2 "") =>
      let a := byte_of c1 in let b := byte_of c2 in
      String (b64_digit (a / 4)) (String (b64_digit (a mod 4 * 16 + b / 16))
        (String (b64_digit (b mod 16 * 4)) ""))
  | String c1 (String c2 (String c3 s')) =>
      let a := byte_of c1 in let b := byte_of c2 in let c := byte_of c3 in
      String (b64_digit (a / 4)) (String (b64_digit (a mod 4 * 16 + b / 16))
        (String (b64_digit (b mod 16 * 4 + c / 64)) (String (b64_digit (c mod 64)) (b64Encode s'))))
  end.

(** Whole quanta of four digits; two or three digits may be left at the end,
    whose unused bits are ignored. *)
Fixpoint b64_quanta (s : string) : option string :=
  match s with
  | "" => Some ""
  | String _ "" => None
  | String c1 (String c2 "") =>
      match b64_value c1, b64_value c2 with
      | Some d1, Some d2 => Some (String (of_byte (d1 * 4 + d2 / 16)) "")
      | _, _ => None
      end
  | String c1 (String c2 (String c3 "")) =>
      match b64_value c1, b64_value c2, b64_value c3 with
      | Some d1, Some d2, Some d3 =>
          Some (String (of_byte (d1 * 4 + d2 / 16)) (String (of_byte (d2 mod 16 * 16 + d3 / 4)) ""))
      | _, _, _ => None
      end
  | String c1 (String c2 (String c3 (String c4 s'))) =>
      match b64_value c1, b64_value c2, b64_value c3, b64_value c4, b64_quanta s' with
      | Some d1, Some d2, Some d3, Some d4, Some r =>
          Some (String (of_byte (d1 * 4 + d2 / 16)) (String (of_byte (d2 mod 16 * 16 + d3 / 4))
                 (String (of_byte (d3 mod 4 * 64 + d4)) r)))
      | _, _, _, _, _ => None
      end
  end.

(** The decoder skips CR and LF. *)
Definition not_newline (c : ascii) : bool := negb ((byte_of c =? 10) || (byte_of c =? 13)).
Definition b64Decode (s : string) : option string := b64_quanta (sfilter not_newline s).

(** ** SHA-256 *)

Definition mask32 : Z := 4294967295.
Definition add32 (a b : Z) : Z := Z.land (a + b) mask32.
Definition rotr (n x : Z) : Z := Z.lor (Z.shiftr x n) (Z.land (Z.shiftl x (32 - n)) mask32).

Definition Ch (x y z : Z) : Z := Z.lxor (Z.land x y) (Z.land (Z.lxor x mask32) z).
Definition Maj (x y z : Z) : Z := Z.lxor (Z.lxor (Z.land x y) (Z.land x z)) (Z.land y z).
Definition bsig0 (x : Z) : Z := Z.lxor (Z.lxor (rotr 2 x) (rotr 13 x)) (rotr 22 x).
Definition bsig1 (x : Z) : Z := Z.lxor (Z.lxor (rotr 6 x) (rotr 11 x)) (rotr 25 x).
Definition ssig0 (x : Z) : Z := Z.lxor (Z.lxor (rotr 7 x) (rotr 18 x)) (Z.shiftr x 3).
Definition ssig1 (x : Z) : Z := Z.lxor (Z.lxor (rotr 17 x) (rotr 19 x)) (Z.shiftr x 10).

(** The constants are the first 32 bits of the fractional parts of the cube
    roots (round constants) and square roots (initial value) of the first
    primes; they are computed once, when the definition is checked. *)
Definition prime (n : Z) : bool := forallb (fun k => negb (n mod k =? 0)) (map Z.of_nat (seq 2 (Z.to_nat n - 2))).
Definition primes (upto : nat) : list Z := List.filter prime (map Z.of_nat (seq 2 upto)).

(** The largest [r] below [lo + 2^n] with [r^3 <= x], by bisection. *)
Fixpoint cube_root (n : nat) (lo x : Z) : Z :=
  match n with
  | O => lo
  | S k => let mid := lo + Z.shiftl 1 (Z.of_nat k) in cube_root k (if mid ^ 3 <=? x then mid else lo) x
  end.

Definition sha256_K : list Z :=
  Eval vm_compute in map (fun p => Z.land (cube_root 40 0 (Z.shiftl p 96)) mask32) (primes 310).

Record hash8 : Type := mkHash8 { h_a : Z; h_b : Z; h_c : Z; h_d : Z; h_e : Z; h_f : Z; h_g : Z; h_h : Z }.

Definition sha256_init : hash8 :=
  Eval vm_compute in
  let root i := Z.land (Z.sqrt (Z.shiftl (nth i (primes 20) 0) 64)) mask32 in
  mkHash8 (root 0%nat) (root 1%nat) (root 2%nat) (root 3%nat) (root 4%nat) (root 5%nat) (root 6%nat) (root 7%nat).

(** The message schedule, latest word first, from the sixteen of a block. *)
Definition next_word (ws : list Z) : Z :=
  add32 (add32 (ssig1 (nth 1 ws 0)) (nth 6 ws 0)) (add32 (ssig0 (nth 14 ws 0)) (nth 15 ws 0)).
Fixpoint schedule (n : nat) (ws : list Z) : list Z :=
  match n with O => ws | S k => schedule k (next_word ws :: ws) end.

Definition round (h : hash8) (kw : Z * Z) : hash8 :=
  let t1 := add32 (add32 (h_h h) (bsig1 (h_e h)))
              (add32 (Ch (h_e h) (h_f h) (h_g h)) (add32 kw.1 kw.2)) in
  let t2 := add32 (bsig0 (h_a h)) (Maj (h_a h) (h_b h) (h_c h)) in
  mkHash8 (add32 t1 t2) (h_a h) (h_b h) (h_c h) (add32 (h_d h) t1) (h_e h) (h_f h) (h_g h).

Definition block_words (s : string) : list Z :=
  map (fun i => be_bytes (stake 4 (sdrop (4 * i) s))) (seq 0 16).

Definition compress (h : hash8) (block : string) : hash8 :=
  let ws := rev (schedule 48 (rev (block_words block))) in
  let r := fold_left round (combine sha256_K ws) h in
  mkHash8 (add32 (h_a h) (h_a r)) (add32 (h_b h) (h_b r)) (add32 (h_c h) (h_c r)) (add32 (h_d h) (h_d r))
    (add32 (h_e h) (h_e r)) (add32 (h_f h) (h_f r)) (add32 (h_g h) (h_g r)) (add32 (h_h h) (h_h r)).

(** Padding to a multiple of 64 bytes: 0x80, zeros, the length in bits. *)
Definition sha256_pad (s : string) : string :=
  let n := slen s in
  let zeros := (55 - n) mod 64 in
  s ++ String (of_byte 128) (srepeat (of_byte 0) (Z.to_nat zeros)) ++ bytes_be 8 (8 * n).

Fixpoint sha256_blocks (n : nat) (h : hash8) (s : string) : hash8 :=
  match n with O => h | S k => sha256_blocks k (compress h (stake 64 s)) (sdrop 64 s) end.

Definition sha256 (s : string) : string :=
  let p := sha256_pad s in
  let h := sha256_blocks (Z.to_nat (slen p / 64)) sha256_init p in
  bytes_be 4 (h_a h) ++ bytes_be 4 (h_b h) ++ bytes_be 4 (h_c h) ++ bytes_be 4 (h_d h) ++
  bytes_be 4 (h_e h) ++ bytes_be 4 (h_f h) ++ bytes_be 4 (h_g h) ++ bytes_be 4 (h_h h).

(** ** [hmac.New(sha256.New, key)] *)

Definition hmac_key (key : string) : string :=
  let k := if 64 <? slen key then sha256 key else key in
  k ++ srepeat (of_byte 0) (Z.to_nat (64 - slen k)).
Definition xor_pad (x : Z) : string -> string := smap (fun c => of_byte (Z.lxor (byte_of c) x)).
Definition hmac_sha256 (key msg : string) : string :=
  let k := hmac_key key in sha256 (xor_pad 92 k ++ sha256 (xor_pad 54 k ++ msg)).

(** ** Facts *)

(** [lia] solves quotients and remainders by constants below. *)
#[local] Ltac Zify.zify_post_hook ::= Z.to_euclidean_division_equations.

(** A byte of a token: graphic and no dot. *)
Definition token_char (c : ascii) : bool := graphic c && negb (byte_of c =? 46).

Lemma b64_digit_values :
  forallb (fun d => match b64_value (b64_digit d) with Some v => v =? d | None => false end
                    && not_newline (b64_digit d) && token_char (b64_digit d))
    (map Z.of_nat (seq 0 64)) = true.
Proof. vm_compute. reflexivity. Qed.

Lemma b64_digit_ok d :
  0 <= d < 64 -> b64_value (b64_digit d) = Some d /\ not_newline (b64_digit d) = true /\ token_char (b64_digit d) = true.
Proof.
  intros Hd. pose proof (proj1 (forallb_forall _ _) b64_digit_values d) as H. cbv beta in H.
  assert (In d (map Z.of_nat (seq 0 64))) as Hin by (apply in_map_iff; exists (Z.to_nat d); rewrite in_seq; lia).
  specialize (H Hin). destruct (b64_value _) as [v|]; [|done]. bools. by subst.
Qed.

(** Decoding what was encoded gives back the bytes. *)
Lemma b64_quanta_encode s : b64_quanta (b64Encode s) = Some s /\ sfilter not_newline (b64Encode s) = b64Encode s
  /\ sforall token_char (b64Encode s) = true.
Proof.
  remember (String.length s) as n eqn:Hn. assert (String.length s <= n)%nat as Hle by lia. clear Hn.
  revert s Hle. induction n as [|n IH]; intros s Hle; [by destruct s; [|simpl in Hle; lia]|].
  destruct s as [|c1 [|c2 [|c3 s]]]; [done|..]; cbn [b64Encode];
    pose proof (byte_of_range c1) as Ha; try pose proof (byte_of_range c2) as Hb; try pose proof (byte_of_range c3) as Hc.
  - set (a := byte_of c1) in *.
    destruct (b64_digit_ok (a / 4)) as (E1 & N1 & G1); [lia|].
    destruct (b64_digit_ok (a mod 4 * 16)) as (E2 & N2 & G2); [lia|].
    simpl. rewrite E1, E2, N1, N2, G1, G2. split; [|done]. do 2 f_equal. rewrite <- (of_byte_of c1). fold a. f_equal. lia.
  - set (a := byte_of c1) in *. set (b := byte_of c2) in *.
    destruct (b64_digit_ok (a / 4)) as (E1 & N1 & G1); [lia|].
    destruct (b64_digit_ok (a mod 4 * 16 + b / 16)) as (E2 & N2 & G2); [lia|].
    destruct (b64_digit_ok (b mod 16 * 4)) as (E3 & N3 & G3); [lia|].
    simpl. rewrite E1, E2, E3, N1, N2, N3, G1, G2, G3. split; [|done].
    rewrite <- (of_byte_of c1), <- (of_byte_of c2). fold a b. repeat f_equal; lia.
  - set (a := byte_of c1) in *. set (b := byte_of c2) in *. set (c := byte_of c3) in *.
    destruct (b64_digit_ok (a / 4)) as (E1 & N1 & G1); [lia|].
    destruct (b64_digit_ok (a mod 4 * 16 + b / 16)) as (E2 & N2 & G2); [lia|].
    destruct (b64_digit_ok (b mod 16 * 4 + c / 64)) as (E3 & N3 & G3); [lia|].
    destruct (b64_digit_ok (c mod 64)) as (E4 & N4 & G4); [lia|].
    destruct (IH s ltac:(simpl in Hle; lia)) as (IHq & IHf & IHg).
    simpl. rewrite E1, E2, E3, E4, N1, N2, N3, N4, G1, G2, G3, G4, IHq, IHf. split; [|done].
    rewrite <- (of_byte_of c1), <- (of_byte_of c2), <- (of_byte_of c3). fold a b c. repeat f_equal; lia.
Qed.

Lemma b64_roundtrip s : b64Decode (b64Encode s) = Some s.
Proof. unfold b64Decode. destruct (b64_quanta_encode s) as (Hq & -> & _). exact Hq. Qed.
Lemma b64Encode_token s : sforall token_char (b64Encode s) = true.
Proof. apply b64_quanta_encode. Qed.
Lemma b64Encode_graphic s : sforall graphic (b64Encode s) = true.
Proof. eapply sforall_impl; [|apply b64Encode_token]. unfold token_char. intros c Hc. by bools. Qed.

Lemma sha256_abc : hexEncode (sha256 "abc") = "ba7816bf8f01cfea414140de5dae2223b00361a396177a9cb410ff61f20015ad".
Proof. vm_compute. reflexivity. Qed.

Lemma hmac_jefe :
  hexEncode (hmac_sha256 "Jefe" "what do ya want for nothing?")
  = "5bdcc146bf60754e6a042426089575c75a003f089d2739839dec58b964ec3843".
Proof. vm_compute. reflexivity. Qed.
