(* ===== verification/Calendar.v ===== *)
(** * Calendar dates and their texts

    [time.Time] in UTC as a civil date and a time of day, the layouts the
    program prints ([time.RFC3339], [time.RFC3339Nano], ["2006-01-02"]) and
    [time.Parse(time.RFC3339, s)]. *)

From S2P Require Import Prelude GoBase Codes Encoding.
From stdpp Require Import base list strings.
From Stdlib Require Import ZArith Lia Ascii String.

Local Open Scope string_scope.
Local Open Scope Z_scope.

(** ** Civil dates

    Days since the Unix epoch and (year, month, day) of the proleptic
    Gregorian calendar, counted in eras of 400 years from March 1 of year 0. *)

(** Day of the era: (year of the era, month from March, day of the month), by
    centuries, cycles of four years and years. *)
Definition civil_of_doe (doe : Z) : Z * Z * Z :=
  let c := Z.min 3 (doe / 36524) in
  let r := doe - c * 36524 in
  let q := r / 1461 in
  let r := r - q * 1461 in
  let y := Z.min 3 (r / 365) in
  let doy := r - y * 365 in
  let mp := (5 * doy + 2) / 153 in
  (100 * c + 4 * q + y, mp, doy - (153 * mp + 2) / 5 + 1).
Definition doe_of_civil (yoe mp day : Z) : Z :=
  yoe * 365 + yoe / 4 - yoe / 100 + ((153 * mp + 2) / 5 + day - 1).

Definition civil (days : Z) : Z * Z * Z :=
  let z := days + 719468 in
  let '(yoe, mp, day) := civil_of_doe (z mod 146097) in
  let m := if mp <? 10 then mp + 3 else mp - 9 in
  (yoe + z / 146097 * 400 + (if m <=? 2 then 1 else 0), m, day).

Definition days_of_civil (y m day : Z) : Z :=
  let y' := if m <=? 2 then y - 1 else y in
  y' / 400 * 146097 + doe_of_civil (y' mod 400) (if 2 <? m then m - 3 else m + 9) day - 719468.

Definition leap (y : Z) : bool := (y mod 4 =? 0) && (negb (y mod 100 =? 0) || (y mod 400 =? 0)).
Definition daysIn (m y : Z) : Z :=
  if m =? 2 then (if leap y then 29 else 28)
  else if (m =? 4) || (m =? 6) || (m =? 9) || (m =? 11) then 30 else 31.

(** ** Printing *)

(** [appendInt(b, n, width)]: zero padded. *)
Fixpoint pad_digits (width : nat) (n : Z) : string :=
  match width with
  | O => ""
  | S k => pad_digits k (n / 10) ++ String (digit_of (n mod 10)) ""
  end.
Definition pad0 (width : nat) (n : Z) : string :=
  if n <? 10 ^ Z.of_nat width then pad_digits width n else format_nat n.
Definition pad_year (y : Z) : string := if y <? 0 then "-" ++ pad0 4 (- y) else pad0 4 y.

(** The layout ["2006-01-02"]. *)
Definition formatDate (t : Time) : string :=
  let '(y, m, d) := civil (t / dayNs) in pad_year y ++ "-" ++ pad0 2 m ++ "-" ++ pad0 2 d.

Definition formatSeconds (t : Time) : string :=
  let s := t mod dayNs / 1000000000 in
  formatDate t ++ "T" ++ pad0 2 (s / 3600) ++ ":" ++ pad0 2 (s / 60 mod 60) ++ ":" ++ pad0 2 (s mod 60).

(** Nanoseconds without their trailing zeros, and no point when all are. *)
Fixpoint trim_zeros (width : nat) (n : Z) : string :=
  match width with
  | O => ""
  | S k => if n mod 10 =? 0 then trim_zeros k (n / 10) else pad_digits width n
  end.
Definition formatNanos (n : Z) : string := if n =? 0 then "" else "." ++ trim_zeros 9 n.

Definition formatRFC3339 (t : Time) : string := formatSeconds t ++ "Z".
Definition formatRFC3339Nano (t : Time) : string :=
  formatSeconds t ++ formatNanos (t mod 1000000000) ++ "Z".

(** ** Parsing *)

Definition digit1 (s : string) : option (Z * string) :=
  match s with String c s' => if is_digit c then Some (digit_val c, s') else None | "" => None end.

(** [getnum(s, true)]: two digits. *)
Definition getnum2 (s : string) : option (Z * string) :=
  '(a, s1) ← digit1 s; '(b, s2) ← digit1 s1; Some (10 * a + b, s2).
(** [getnum(s, false)]: one or two digits. *)
Definition getnum (s : string) : option (Z * string) :=
  '(a, s1) ← digit1 s;
  match digit1 s1 with Some (b, s2) => Some (10 * a + b, s2) | None => Some (a, s1) end.
Definition getnum4 (s : string) : option (Z * string) :=
  '(a, s1) ← getnum2 s; '(b, s2) ← getnum2 s1; Some (100 * a + b, s2).
Definition literal (c : ascii) (s : string) : option string :=
  match s with String x s' => if byte_of x =? byte_of c then Some s' else None | "" => None end.
Definition guardO (b : bool) : option () := if b then Some () else None.

(** The digits at the front; those after the ninth are read and dropped. *)
Fixpoint fraction (width : nat) (acc : Z) (s : string) : Z * string :=
  match s with
  | String c s' =>
      if is_digit c then
        match width with
        | O => fraction O acc s'
        | S k => fraction k (10 * acc + digit_val c) s'
        end
      else (acc * 10 ^ Z.of_nat width, s)
  | "" => (acc * 10 ^ Z.of_nat width, s)
  end.

(** A fractional second may follow the seconds though the layout has none. *)
Definition parse_fraction (s : string) : Z * string :=
  match s with
  | String p (String c _ as rest) =>
      if ((byte_of p =? 46) || (byte_of p =? 44)) && is_digit c then
        match rest with String _ _ => fraction 9 0 rest | "" => (0, s) end
      else (0, s)
  | _ => (0, s)
  end.

(** ["Z07:00"]: the offset in seconds, and nothing after it. *)
Definition parse_zone (s : string) : option Z :=
  match s with
  | String z "" => if byte_of z =? 90 then Some 0 else None
  | String sg s1 =>
      '(hh, s2) ← getnum2 s1; s3 ← literal ":"%char s2; '(mm, s4) ← getnum2 s3;
      guardO (String.eqb s4 "" && (hh <=? 24) && (mm <=? 60));;
      (if byte_of sg =? 43 then Some (hh * 3600 + mm * 60)
       else if byte_of sg =? 45 then Some (- (hh * 3600 + mm * 60)) else None)
  | "" => None
  end.

(** [time.Parse(time.RFC3339, s)], in UTC. *)
Definition parseRFC3339 (s : string) : option Time :=
  '(y, s) ← getnum4 s; s ← literal "-"%char s;
  '(mo, s) ← getnum2 s; s ← literal "-"%char s;
  '(d, s) ← getnum2 s; s ← literal "T"%char s;
  '(h, s) ← getnum s; s ← literal ":"%char s;
  '(mi, s) ← getnum2 s; s ← literal ":"%char s;
  '(se, s) ← getnum2 s;
  let '(ns, s) := parse_fraction s in
  off ← parse_zone s;
  guardO ((1 <=? mo) && (mo <=? 12) && (h <? 24) && (mi <? 60) && (se <? 60)
          && (1 <=? d) && (d <=? daysIn mo y));;
  Some (days_of_civil y mo d * dayNs + (h * 3600 + mi * 60 + se - off) * 1000000000 + ns).

(** ** Dates and timestamps round-trip

    One era of 400 years is checked by evaluation, day by day; the calendar
    repeats with it.  The texts of [formatRFC3339] and [formatRFC3339Nano]
    parse back to the instant. *)

#[local] Ltac Zify.zify_post_hook ::= Z.to_euclidean_division_equations.

(** ** One era *)

Lemma leap_period y k : leap (y + k * 400) = leap y.
Proof.
  unfold leap. rewrite (Z.mod_add y k 400) by lia.
  replace (y + k * 400) with (y + (k * 4) * 100) at 2 by lia. rewrite Z.mod_add by lia.
  replace (y + k * 400) with (y + (k * 100) * 4) by lia. by rewrite Z.mod_add.
Qed.
Lemma daysIn_period m y k : daysIn m (y + k * 400) = daysIn m y.
Proof. unfold daysIn. by rewrite leap_period. Qed.

(** Every day of a year starting on March 1, by its number: the month has it. *)
Definition doy_ok (doy : Z) : bool :=
  let mp := (5 * doy + 2) / 153 in
  let day := doy - (153 * mp + 2) / 5 + 1 in
  let m := if mp <? 10 then mp + 3 else mp - 9 in
  (0 <=? mp) && (mp <? 12) && (1 <=? day)
  && (day <=? (if m =? 2 then (if doy =? 365 then 29 else 28) else daysIn m 1)).

Lemma doys_ok : forallb doy_ok (map Z.of_nat (seq 0 366)) = true.
Proof. vm_compute. reflexivity. Qed.

Lemma daysIn_other m y : m <> 2 -> daysIn m y = daysIn m 1.
Proof. intros Hm. unfold daysIn. by rewrite (proj2 (Z.eqb_neq m 2) Hm). Qed.

Lemma doe_ok doe : 0 <= doe < 146097 ->
  let '(yoe, mp, day) := civil_of_doe doe in
  let m := if mp <? 10 then mp + 3 else mp - 9 in
  let y := yoe + (if m <=? 2 then 1 else 0) in
  doe_of_civil yoe mp day = doe /\ 0 <= yoe < 400 /\ 0 <= mp < 12 /\ 1 <= day <= daysIn m y.
Proof.
  intros Hd. unfold civil_of_doe.
  set (c := Z.min 3 (doe / 36524)). set (r := doe - c * 36524). set (q := r / 1461).
  set (r2 := r - q * 1461). set (y := Z.min 3 (r2 / 365)). set (doy := r2 - y * 365).
  assert (Hc : 0 <= c < 4) by (unfold c; lia).
  assert (Hr : 0 <= r /\ r <= 36524 /\ (c < 3 -> r < 36524)) by (unfold r, c; lia).
  assert (Hq : 0 <= q < 25) by (unfold q; lia).
  assert (Hr2 : 0 <= r2 <= 1460 /\ (r2 = 1460 -> q < 24 \/ c = 3)) by (unfold r2, q in *; lia).
  assert (Hy : 0 <= y < 4) by (unfold y; lia).
  assert (Hdoy : 0 <= doy <= 365 /\ (doy = 365 -> r2 = 1460 /\ y = 3)) by (unfold doy, y in *; lia).
  assert (Hdoe : doe = 36524 * c + 1461 * q + 365 * y + doy) by (unfold doy, r2, r; lia).
  pose proof (proj1 (forallb_forall _ _) doys_ok doy) as Hok. cbv beta in Hok.
  specialize (Hok ltac:(apply in_map_iff; exists (Z.to_nat doy); rewrite in_seq; lia)).
  clearbody c r q r2 y doy. unfold doy_ok in Hok.
  set (mp := (5 * doy + 2) / 153) in *. set (day := doy - (153 * mp + 2) / 5 + 1) in *.
  set (m := if mp <? 10 then mp + 3 else mp - 9) in *. bools.
  split; [unfold doe_of_civil, day; lia|]. split; [lia|]. split; [lia|]. split; [done|].
  destruct (Z.eqb_spec m 2) as [Em|Nm]; [|by rewrite (daysIn_other m)].
  rewrite Em. unfold daysIn. cbn [Z.leb Z.compare Pos.compare Pos.compare_cont Z.eqb Pos.eqb].
  destruct (Z.eqb_spec doy 365) as [E365|]; [|destruct (leap _); lia].
  destruct Hdoy as [_ Hl]. destruct (Hl E365) as [H1460 ->]. destruct Hr2 as [_ Hl2].
  assert (leap (100 * c + 4 * q + 3 + 1) = true) as ->; [|lia]. unfold leap.
  apply andb_true_iff. rewrite orb_true_iff, negb_true_iff, !Z.eqb_eq, Z.eqb_neq. lia.
Qed.

(** [civil] yields a date of the calendar, and its day number is the one it
    came from. *)
Lemma civil_ok days :
  let '(y, m, d) := civil days in
  days_of_civil y m d = days /\ 1 <= m <= 12 /\ 1 <= d <= daysIn m y.
Proof.
  unfold civil. set (z := days + 719468). set (era := z / 146097).
  assert (Hdoe : 0 <= z mod 146097 < 146097) by (apply Z.mod_pos_bound; lia).
  pose proof (doe_ok (z mod 146097) Hdoe) as Hok.
  destruct (civil_of_doe (z mod 146097)) as [[yoe mp] day]. cbv zeta in Hok.
  set (m := if mp <? 10 then mp + 3 else mp - 9) in *. destruct Hok as (He & Hyoe & Hmp0 & Hday).
  assert (Hm : 1 <= m <= 12) by (unfold m; destruct (Z.ltb_spec mp 10); lia).
  assert (Hmp : (if 2 <? m then m - 3 else m + 9) = mp).
  { unfold m. destruct (Z.ltb_spec mp 10); [destruct (Z.ltb_spec 2 (mp + 3)); lia|].
    destruct (Z.ltb_spec 2 (mp - 9)); lia. }
  split; [|split; [done|]].
  - unfold days_of_civil. rewrite Hmp.
    assert ((if m <=? 2 then yoe + era * 400 + (if m <=? 2 then 1 else 0) - 1
             else yoe + era * 400 + (if m <=? 2 then 1 else 0)) = yoe + era * 400) as ->
      by (destruct (m <=? 2); lia).
    rewrite Z.div_add, Z.mod_add, Z.div_small, Z.mod_small by lia.
    rewrite He. pose proof (Z.div_mod z 146097 ltac:(lia)) as Hz. fold era in Hz. clearbody era. unfold z in *. lia.
  - replace (yoe + era * 400 + (if m <=? 2 then 1 else 0)) with (yoe + (if m <=? 2 then 1 else 0) + era * 400) by lia.
    rewrite daysIn_period. lia.
Qed.

(** ** Numerals of fixed width *)

Lemma digit1_digit d s : 0 <= d <= 9 -> digit1 (String (digit_of d) s) = Some (d, s).
Proof.
  intros Hd. unfold digit1, is_digit, digit_val. rewrite byte_of_digit by done.
  destruct (Z.leb_spec 48 (48 + d)); [|lia]. destruct (Z.leb_spec (48 + d) 57); [|lia]. simpl. do 2 f_equal. lia.
Qed.

Lemma pad2_app n s :
  pad_digits 2 n ++ s = String (digit_of (n / 10 mod 10)) (String (digit_of (n mod 10)) s).
Proof. reflexivity. Qed.
Lemma pad4_app n s :
  pad_digits 4 n ++ s = String (digit_of (n / 10 / 10 / 10 mod 10)) (String (digit_of (n / 10 / 10 mod 10))
    (String (digit_of (n / 10 mod 10)) (String (digit_of (n mod 10)) s))).
Proof. reflexivity. Qed.

Lemma getnum2_pad n s : 0 <= n < 100 -> getnum2 (pad0 2 n ++ s) = Some (n, s).
Proof.
  intros Hn. unfold pad0. destruct (Z.ltb_spec n (10 ^ Z.of_nat 2)); [|lia]. rewrite pad2_app.
  unfold getnum2. rewrite digit1_digit by lia. cbn [mbind option_bind]. rewrite digit1_digit by lia.
  cbn [mbind option_bind]. do 2 f_equal. lia.
Qed.
Lemma getnum_pad n s : 0 <= n < 100 -> getnum (pad0 2 n ++ s) = Some (n, s).
Proof.
  intros Hn. unfold pad0. destruct (Z.ltb_spec n (10 ^ Z.of_nat 2)); [|lia]. rewrite pad2_app.
  unfold getnum. rewrite digit1_digit by lia. cbn [mbind option_bind]. rewrite digit1_digit by lia. do 2 f_equal. lia.
Qed.
Lemma getnum4_pad n s : 0 <= n < 10000 -> getnum4 (pad_year n ++ s) = Some (n, s).
Proof.
  intros Hn. unfold pad_year, pad0. destruct (Z.ltb_spec n 0); [lia|].
  destruct (Z.ltb_spec n (10 ^ Z.of_nat 4)); [|lia]. rewrite pad4_app. unfold getnum4, getnum2.
  repeat (rewrite digit1_digit by lia; cbn [mbind option_bind]). do 2 f_equal. lia.
Qed.
Lemma literal_app c s : literal c (String c "" ++ s) = Some s.
Proof. change (String c "" ++ s) with (String c s). unfold literal. by rewrite Z.eqb_refl. Qed.

(** ** Fractions *)

Lemma fraction_pad j : forall k acc n s,
  (j <= k)%nat -> 0 <= n < 10 ^ Z.of_nat j ->
  fraction k acc (pad_digits j n ++ s) = fraction (k - j) (acc * 10 ^ Z.of_nat j + n) s.
Proof.
  induction j as [|j IH]; intros k acc n s Hj Hn.
  - simpl. rewrite Nat.sub_0_r. f_equal. simpl in Hn. lia.
  - cbn [pad_digits]. rewrite sapp_assoc. rewrite Nat2Z.inj_succ, Z.pow_succ_r in Hn by lia.
    set (p := 10 ^ Z.of_nat j) in *. rewrite IH by (fold p; lia).
    change (String (digit_of (n mod 10)) "" ++ s) with (String (digit_of (n mod 10)) s).
    destruct (k - j)%nat as [|m] eqn:Em; [lia|]. cbn [fraction].
    pose proof (digit1_digit (n mod 10) s ltac:(lia)) as Hd. unfold digit1 in Hd.
    destruct (is_digit _); [|done]. replace (digit_val (digit_of (n mod 10))) with (n mod 10) by congruence.
    replace (k - S j)%nat with m by lia. f_equal. fold p.
    rewrite Nat2Z.inj_succ, Z.pow_succ_r by lia. fold p. lia.
Qed.

Lemma trim_zeros_spec w : forall n, 0 <= n < 10 ^ Z.of_nat w -> n <> 0 ->
  exists j, (0 < j <= w)%nat /\ trim_zeros w n = pad_digits j (n / 10 ^ Z.of_nat (w - j)) /\
    n / 10 ^ Z.of_nat (w - j) * 10 ^ Z.of_nat (w - j) = n /\ 0 <= n / 10 ^ Z.of_nat (w - j) < 10 ^ Z.of_nat j.
Proof.
  induction w as [|w IH]; intros n Hn Hz; [simpl in Hn; lia|]. cbn [trim_zeros].
  destruct (Z.eqb_spec (n mod 10) 0) as [E|E].
  - rewrite Nat2Z.inj_succ, Z.pow_succ_r in Hn by lia. set (p := 10 ^ Z.of_nat w) in *.
    destruct (IH (n / 10)) as (j & Hj & Ht & Hd & Hb); [fold p; lia|lia|].
    exists j. replace (S w - j)%nat with (S (w - j)) by lia.
    rewrite Nat2Z.inj_succ, Z.pow_succ_r by lia. set (x := 10 ^ Z.of_nat (w - j)) in *.
    assert (0 < x) by (apply Z.pow_pos_nonneg; lia). rewrite <- Z.div_div by lia.
    split; [lia|]. split; [done|]. split; [|done]. lia.
  - exists (S w). replace (S w - S w)%nat with 0%nat by lia. rewrite Z.pow_0_r, Z.div_1_r. split; [lia|].
    split; [done|]. split; [lia|done].
Qed.

Lemma pad_digits_head j n : (0 < j)%nat -> exists c s, pad_digits j n = String c s /\ is_digit c = true.
Proof.
  intros Hj. revert n. induction j as [|j IH]; intros n; [lia|]. cbn [pad_digits].
  pose proof (digit1_digit (n mod 10) "" ltac:(lia)) as Hd. unfold digit1 in Hd.
  destruct (is_digit (digit_of (n mod 10))) eqn:E; [|done].
  destruct j as [|j]; [eexists _, _; split; [reflexivity|done]|].
  destruct (IH ltac:(lia) (n / 10)) as (c & s & -> & Hc). eexists c, _. split; [reflexivity|done].
Qed.

Lemma parse_fraction_format n : 0 <= n < 1000000000 -> parse_fraction (formatNanos n ++ "Z") = (n, "Z").
Proof.
  intros Hn. unfold formatNanos. destruct (Z.eqb_spec n 0) as [->|Hz]; [reflexivity|].
  destruct (trim_zeros_spec 9 n Hn Hz) as (j & Hj & -> & Hd & Hb).
  destruct (pad_digits_head j (n / 10 ^ Z.of_nat (9 - j)) ltac:(lia)) as (c & s & Hp & Hc).
  rewrite sapp_assoc. change ("." ++ (pad_digits j (n / 10 ^ Z.of_nat (9 - j)) ++ "Z"))
    with (String "." (pad_digits j (n / 10 ^ Z.of_nat (9 - j)) ++ "Z")).
  pose proof (fraction_pad j 9 0 _ "Z" ltac:(lia) Hb) as Hf. rewrite Hp in *.
  change (String c s ++ "Z") with (String c (s ++ "Z")) in *. unfold parse_fraction. rewrite Hc. simpl andb. cbv iota.
  rewrite Hf. cbn [fraction]. change (is_digit "Z") with false. cbv iota. f_equal. lia.
Qed.

(** ** Timestamps *)

(** The years the layouts write with four digits. *)
Definition year_ok (t : Time) : Prop := let '(y, _, _) := civil (t / dayNs) in 0 <= y <= 9999.

Lemma parse_format frac t :
  year_ok t -> parse_fraction (frac ++ "Z") = (t mod 1000000000, "Z") ->
  parseRFC3339 (formatSeconds t ++ frac ++ "Z") = Some t.
Proof.
  unfold year_ok. intros Hy Hf. unfold formatSeconds, formatDate, parseRFC3339.
  pose proof (civil_ok (t / dayNs)) as Hc. destruct (civil (t / dayNs)) as [[y m] d].
  destruct Hc as (Hdays & Hm & Hd).
  assert (Hd31 : d <= 31) by (unfold daysIn in Hd; repeat case_match; lia).
  set (s := t mod dayNs / 1000000000).
  assert (Hs : 0 <= s < 86400) by (unfold s, dayNs; lia).
  rewrite !sapp_assoc, getnum4_pad by lia. cbn [mbind option_bind].
  rewrite literal_app. cbn [mbind option_bind].
  rewrite getnum2_pad by lia. cbn [mbind option_bind]. rewrite literal_app. cbn [mbind option_bind].
  rewrite getnum2_pad by lia. cbn [mbind option_bind]. rewrite literal_app. cbn [mbind option_bind].
  rewrite getnum_pad by lia. cbn [mbind option_bind]. rewrite literal_app. cbn [mbind option_bind].
  rewrite getnum2_pad by lia. cbn [mbind option_bind]. rewrite literal_app. cbn [mbind option_bind].
  rewrite getnum2_pad by lia. cbn [mbind option_bind]. rewrite Hf. change (parse_zone "Z") with (Some 0).
  cbn [mbind option_bind].
  assert (((1 <=? m) && (m <=? 12) && (s / 3600 <? 24) && (s / 60 mod 60 <? 60) && (s mod 60 <? 60)
          && (1 <=? d) && (d <=? daysIn m y)) = true) as ->.
  { rewrite !andb_true_iff, !Z.leb_le, !Z.ltb_lt. lia. }
  cbn [guardO mbind option_bind]. rewrite Hdays. f_equal. unfold s, dayNs in *. lia.
Qed.

Lemma parse_formatNano t : year_ok t -> parseRFC3339 (formatRFC3339Nano t) = Some t.
Proof.
  intros Hy. unfold formatRFC3339Nano. apply parse_format; [done|]. apply parse_fraction_format. lia.
Qed.
Lemma parse_formatSeconds t : year_ok t -> t mod 1000000000 = 0 -> parseRFC3339 (formatRFC3339 t) = Some t.
Proof.
  intros Hy Ht. unfold formatRFC3339. apply (parse_format "" t Hy). rewrite Ht. reflexivity.
Qed.
