(* ===== verification/Json.v ===== *)
(** * JSON bodies

    The values the handlers and the webhook worker encode, and
    [encoding/json.Marshal] of them: object keys sorted, strings escaped as
    [appendString] does with [escapeHTML]. *)

From S2P Require Import Prelude GoBase Codes Encoding.
From stdpp Require Import base list strings.
From Stdlib Require Import ZArith Lia Ascii String.

Local Open Scope string_scope.
Local Open Scope Z_scope.

#[warnings="-register-all"]
Inductive json : Type :=
| JNull
| JBool (b : bool)
| JNum (n : Z)
| JStr (s : string)
| JArr (l : list json)
| JObj (l : list (string * json)).

(** ** UTF-8 *)

Definition cont (c : ascii) : bool := (128 <=? byte_of c) && (byte_of c <=? 191).
Definition between (lo hi : Z) (c : ascii) : bool := (lo <=? byte_of c) && (byte_of c <=? hi).

(** Length of the rune at the front of [String c s]; 1 for an ASCII byte, 0 for
    bytes that [utf8.DecodeRune] rejects. *)
Definition rune_len (c : ascii) (s : string) : nat :=
  let b := byte_of c in
  if b <? 128 then 1%nat else
  match s with
  | "" => 0%nat
  | String c2 s2 =>
      if (194 <=? b) && (b <=? 223) then (if cont c2 then 2 else 0)%nat else
      match s2 with
      | "" => 0%nat
      | String c3 s3 =>
          let ok3 := if b =? 224 then between 160 191 c2
                     else if b =? 237 then between 128 159 c2
                     else (225 <=? b) && (b <=? 239) && cont c2 in
          if (b <=? 239) && ok3 then (if cont c3 then 3 else 0)%nat else
          match s3 with
          | "" => 0%nat
          | String c4 _ =>
              let ok4 := if b =? 240 then between 144 191 c2
                         else if b =? 244 then between 128 143 c2
                         else (241 <=? b) && (b <=? 243) && cont c2 in
              if ok4 && cont c3 && cont c4 then 4%nat else 0%nat
          end
      end
  end.

(** ** Strings *)

Definition bslash : ascii := of_byte 92.
Definition quote : ascii := of_byte 34.

Definition escape_ascii (c : ascii) : string :=
  let b := byte_of c in
  if (b =? 34) || (b =? 92) then String bslash (String c "")
  else if b =? 8 then String bslash "b" else if b =? 12 then String bslash "f"
  else if b =? 10 then String bslash "n" else if b =? 13 then String bslash "r"
  else if b =? 9 then String bslash "t"
  else if (b <? 32) || (b =? 60) || (b =? 62) || (b =? 38)
  then String bslash ("u00" ++ String (hex_digit (b / 16)) (String (hex_digit (b mod 16)) ""))
  else String c "".

(** U+2028 and U+2029. *)
Definition separator (c1 c2 c3 : ascii) : bool :=
  (byte_of c1 =? 226) && (byte_of c2 =? 128) && ((byte_of c3 =? 168) || (byte_of c3 =? 169)).

(** A byte that starts no rune is written as U+FFFD, a rune of several bytes as
    it is; [skip] counts the bytes of a rune still to be copied. *)
Fixpoint escape (skip : nat) (s : string) : string :=
  match s with
  | "" => ""
  | String c s' =>
      match skip with
      | S k => String c (escape k s')
      | O =>
          match rune_len c s' with
          | O => String bslash ("ufffd" ++ escape 0 s')
          | 1%nat => escape_ascii c ++ escape 0 s'
          | S n =>
              match s' with
              | String c2 (String c3 s3) =>
                  if separator c c2 c3
                  then String bslash ("u202" ++ String (if byte_of c3 =? 168 then "8"%char else "9"%char) (escape 0 s3))
                  else String c (escape n s')
              | _ => String c (escape n s')
              end
          end
      end
  end.

Definition marshalString (s : string) : string := String quote (escape 0 s ++ String quote "").

(** ** Values *)

Definition key_leb (a b : string * string) : bool := String.leb a.1 b.1.

(** [strings.stringsJoin], the separator first. *)
Fixpoint stringsJoin (sep : string) (l : list string) : string :=
  match l with
  | [] => ""
  | [x] => x
  | x :: l' => x ++ sep ++ stringsJoin sep l'
  end.

Fixpoint marshal (j : json) : string :=
  match j with
  | JNull => "null"
  | JBool b => if b then "true" else "false"
  | JNum n => FormatInt n
  | JStr s => marshalString s
  | JArr l => "[" ++ stringsJoin "," (map marshal l) ++ "]"
  | JObj l =>
      "{" ++ stringsJoin "," (map (fun kv => marshalString kv.1 ++ ":" ++ kv.2)
                           (sort_by key_leb (map (fun kv => (kv.1, marshal kv.2)) l))) ++ "}"
  end.

(** A struct: its fields in their order, each with its encoded value. *)
Definition member (kv : string * string) : string := marshalString kv.1 ++ ":" ++ kv.2.
Definition marshalStruct (fields : list (string * string)) : string :=
  "{" ++ stringsJoin "," (map member fields) ++ "}".

(** The value of a key, [None] when the object has none. *)
Definition field (k : string) (j : json) : option json :=
  match j with JObj l => option_map snd (find (fun kv => String.eqb kv.1 k) l) | _ => None end.

Lemma marshal_sample :
  marshal (JObj [("b", JStr "<a"); ("a", JArr [JNum (-3); JBool true; JNull])])
  = stringsJoin (String quote "") ["{"; "a"; ":[-3,true,null],"; "b"; ":"; String bslash "u003ca"; "}"].
Proof. vm_compute. reflexivity. Qed.
