(* ===== verification/JsonDecode.v ===== *)
(** * Decoding JSON ([encoding/json.Unmarshal])

    The values the decoder reads, with a bound on nesting, and how it fills a
    struct: keys by name up to case, [null] leaves a field alone, a value of
    another type is an error. *)

From S2P Require Import Prelude GoBase Codes Encoding Json.
From stdpp Require Import base list strings.
From Stdlib Require Import ZArith Lia Ascii String.

Local Open Scope string_scope.
Local Open Scope Z_scope.

(** A value as it was read; numbers keep their text. *)
#[warnings="-register-all"]
Inductive jval : Type :=
| VNull
| VBool (b : bool)
| VNum (lit : string)
| VStr (s : string)
| VArr (l : list jval)
| VObj (l : list (string * jval)).

(** ** Tokens *)

Definition is_byte (n : Z) (c : ascii) : bool := byte_of c =? n.

Fixpoint skip_ws (s : string) : string :=
  match s with
  | String c s' =>
      if is_byte 32 c || is_byte 9 c || is_byte 13 c || is_byte 10 c then skip_ws s' else s
  | "" => ""
  end.

Definition hex_val (c : ascii) : option Z :=
  let b := byte_of c in
  if (48 <=? b) && (b <=? 57) then Some (b - 48)
  else if (97 <=? b) && (b <=? 102) then Some (b - 87)
  else if (65 <=? b) && (b <=? 70) then Some (b - 55) else None.

(** [getu4]: the code unit of the escape at the front of [s]. *)
Definition getu4 (s : string) : option Z :=
  match s with
  | String b (String u s2) =>
      if is_byte 92 b && is_byte 117 u then
        match s2 with
        | String h1 (String h2 (String h3 (String h4 _))) =>
            match hex_val h1, hex_val h2, hex_val h3, hex_val h4 with
            | Some d1, Some d2, Some d3, Some d4 => Some (4096 * d1 + 256 * d2 + 16 * d3 + d4)
            | _, _, _, _ => None
            end
        | _ => None
        end
      else None
  | _ => None
  end.

(** U+FFFD, and [utf8.AppendRune] of a rune that is no surrogate. *)
Definition replacement : string := String (of_byte 239) (String (of_byte 191) (String (of_byte 189) "")).
Definition appendRune (r : Z) : string :=
  if r <? 128 then String (of_byte r) ""
  else if r <? 2048 then String (of_byte (192 + r / 64)) (String (of_byte (128 + r mod 64)) "")
  else if r <? 65536
  then String (of_byte (224 + r / 4096)) (String (of_byte (128 + r / 64 mod 64)) (String (of_byte (128 + r mod 64)) ""))
  else String (of_byte (240 + r / 262144)) (String (of_byte (128 + r / 4096 mod 64))
         (String (of_byte (128 + r / 64 mod 64)) (String (of_byte (128 + r mod 64)) ""))).

Definition isSurrogate (r : Z) : bool := (55296 <=? r) && (r <? 57344).
(** [utf16.DecodeRune], [None] for U+FFFD. *)
Definition decodeRune (r1 r2 : Z) : option Z :=
  if (55296 <=? r1) && (r1 <? 56320) && (56320 <=? r2) && (r2 <? 57344)
  then Some ((r1 - 55296) * 1024 + (r2 - 56320) + 65536) else None.

(** The escape [\c] of one byte. *)
Definition unescape (c : ascii) : option ascii :=
  let b := byte_of c in
  if (b =? 34) || (b =? 92) || (b =? 47) then Some c
  else if b =? 98 then Some (of_byte 8) else if b =? 102 then Some (of_byte 12)
  else if b =? 110 then Some (of_byte 10) else if b =? 114 then Some (of_byte 13)
  else if b =? 116 then Some (of_byte 9) else None.

Definition prepend {A} (p : string) (r : option (string * A)) : option (string * A) :=
  match r with Some (s, a) => Some (p ++ s, a) | None => None end.

(** [unquote] on what follows the opening quote, and what comes after the
    closing one. *)
Fixpoint unquote (fuel : nat) (s : string) : option (string * string) :=
  match fuel with
  | O => None
  | S k =>
      match s with
      | "" => None
      | String c s' =>
          if is_byte 34 c then Some ("", s') else
          if is_byte 92 c then
            match getu4 s with
            | Some r =>
                let rest := sdrop 6 s in
                if isSurrogate r then
                  match getu4 rest with
                  | Some r2 =>
                      match decodeRune r r2 with
                      | Some d => prepend (appendRune d) (unquote k (sdrop 6 rest))
                      | None => prepend replacement (unquote k rest)
                      end
                  | None => prepend replacement (unquote k rest)
                  end
                else prepend (appendRune r) (unquote k rest)
            | None =>
                match s' with
                | "" => None
                | String e s'' =>
                    match unescape e with
                    | Some x => prepend (String x "") (unquote k s'')
                    | None => None
                    end
                end
            end
          else if byte_of c <? 32 then None
          else match rune_len c s' with
               | O => prepend replacement (unquote k s')
               | n => prepend (stake n s) (unquote k (sdrop n s))
               end
      end
  end.

Fixpoint span (p : ascii -> bool) (s : string) : string * string :=
  match s with
  | String c s' => if p c then let (a, r) := span p s' in (String c a, r) else ("", s)
  | "" => ("", "")
  end.

Definition digits1 (s : string) : option (string * string) :=
  match span is_digit s with ("", _) => None | r => Some r end.

Definition integer (s : string) : option (string * string) :=
  match s with
  | String c s' => if is_byte 48 c then Some ("0", s') else digits1 s
  | "" => None
  end.

Definition fraction (s : string) : option (string * string) :=
  match s with
  | String c s' => if is_byte 46 c then prepend "." (digits1 s') else Some ("", s)
  | "" => Some ("", "")
  end.

Definition exponent (s : string) : option (string * string) :=
  match s with
  | String c s' =>
      if is_byte 101 c || is_byte 69 c then
        match s' with
        | String g s'' =>
            if is_byte 43 g || is_byte 45 g then prepend (String c (String g "")) (digits1 s'')
            else prepend (String c "") (digits1 s')
        | "" => None
        end
      else Some ("", s)
  | "" => Some ("", "")
  end.

Definition unsigned (s : string) : option (string * string) :=
  match integer s with
  | Some (i, r1) =>
      match fraction r1 with
      | Some (f, r2) => prepend i (prepend f (exponent r2))
      | None => None
      end
  | None => None
  end.

Definition number (s : string) : option (string * string) :=
  match s with
  | String c s' => if is_byte 45 c then prepend "-" (unsigned s') else unsigned s
  | "" => None
  end.

(** ** Values *)

Definition maxNestingDepth : Z := 10000.

Definition then_ {A B} (r : option (A * string)) (f : A -> string -> option B) : option B :=
  match r with Some (a, s) => f a s | None => None end.

Definition expect (n : Z) (s : string) : option (unit * string) :=
  match skip_ws s with String c s' => if is_byte n c then Some (tt, s') else None | "" => None end.

Definition string_token (s : string) : option (string * string) :=
  then_ (expect 34 s) (fun _ r => unquote (S (String.length r)) r).

Definition word (w : string) (v : jval) (s : string) : option (jval * string) :=
  if HasPrefix s w then Some (v, sdrop (String.length w) s) else None.

(** [arrayItems] and [objectItems] read what follows the opening bracket of an
    array or object that is not empty. *)
Fixpoint value (fuel : nat) (depth : Z) (s : string) {struct fuel} : option (jval * string) :=
  match fuel with
  | O => None
  | S k =>
      match skip_ws s with
      | "" => None
      | String c r as t =>
          if is_byte 123 c then
            if maxNestingDepth <=? depth then None else
            match expect 125 r with
            | Some (_, r') => Some (VObj [], r')
            | None => then_ (objectItems k (depth + 1) r) (fun l r' => Some (VObj l, r'))
            end
          else if is_byte 91 c then
            if maxNestingDepth <=? depth then None else
            match expect 93 r with
            | Some (_, r') => Some (VArr [], r')
            | None => then_ (arrayItems k (depth + 1) r) (fun l r' => Some (VArr l, r'))
            end
          else if is_byte 34 c then then_ (string_token t) (fun x r' => Some (VStr x, r'))
          else if is_byte 110 c then word "null" VNull t
          else if is_byte 116 c then word "true" (VBool true) t
          else if is_byte 102 c then word "false" (VBool false) t
          else then_ (number t) (fun x r' => Some (VNum x, r'))
      end
  end
with objectItems (fuel : nat) (depth : Z) (s : string) {struct fuel} : option (list (string * jval) * string) :=
  match fuel with
  | O => None
  | S k =>
      then_ (string_token s) (fun key r1 =>
      then_ (expect 58 r1) (fun _ r2 =>
      then_ (value k depth r2) (fun v r3 =>
      match expect 44 r3 with
      | Some (_, r4) => then_ (objectItems k depth r4) (fun l r5 => Some ((key, v) :: l, r5))
      | None => then_ (expect 125 r3) (fun _ r4 => Some ([(key, v)], r4))
      end)))
  end
with arrayItems (fuel : nat) (depth : Z) (s : string) {struct fuel} : option (list jval * string) :=
  match fuel with
  | O => None
  | S k =>
      then_ (value k depth s) (fun v r1 =>
      match expect 44 r1 with
      | Some (_, r2) => then_ (arrayItems k depth r2) (fun l r3 => Some (v :: l, r3))
      | None => then_ (expect 93 r1) (fun _ r2 => Some ([v], r2))
      end)
  end.

(** Each call of [value] in a chain leaves at least one byte less to read. *)
Definition parseFuel (s : string) : nat := (2 * String.length s + 2)%nat.

Definition parse (s : string) : option jval :=
  match value (parseFuel s) 0 s with
  | Some (v, r) => if String.eqb (skip_ws r) "" then Some v else None
  | None => None
  end.

(** ** Structs *)

(** [foldName] on the runes whose fold is an ASCII letter: the letters,
    U+017F and U+212A.  A field name in ASCII can match no other key. *)
Fixpoint foldName (s : string) : string :=
  match s with
  | "" => ""
  | String c s' =>
      match s' with
      | String c2 s2 =>
          if is_byte 197 c && is_byte 191 c2 then String "S"%char (foldName s2) else
          match s2 with
          | String c3 s3 =>
              if is_byte 226 c && is_byte 132 c2 && is_byte 170 c3 then String "K"%char (foldName s3)
              else String (upper_ascii c) (foldName s')
          | "" => String (upper_ascii c) (foldName s')
          end
      | "" => String (upper_ascii c) ""
      end
  end.

(** Storing a value in a field; [None] is an [UnmarshalTypeError]. *)
Definition storeString (v : jval) (old : string) : option string :=
  match v with VNull => Some old | VStr s => Some s | _ => None end.
Definition storeInt64 (v : jval) (old : Z) : option Z :=
  match v with VNull => Some old | VNum lit => ParseInt lit | _ => None end.

(** A struct filled from an object, key by key; the decoder goes on after a
    type error and reports the first one at the end. *)
Definition decodeStruct {A} (store : string -> jval -> A -> option A) (zero : A) (v : jval) : option A :=
  match v with
  | VNull => Some zero
  | VObj l => fold_left (fun a kv => match a with Some x => store (foldName kv.1) kv.2 x | None => None end) l (Some zero)
  | _ => None
  end.

Definition Unmarshal {A} (store : string -> jval -> A -> option A) (zero : A) (data : string) : option A :=
  match parse data with Some v => decodeStruct store zero v | None => None end.

