(* ===== verification/JsonProofs.v ===== *)
(** * Decoding undoes encoding

    The fuel of the parser is enough for every text, strings of valid UTF-8
    and integers are read back as they were written, and so are objects made
    of them, whatever follows. *)

From S2P Require Import Prelude GoBase Codes Encoding Json JsonDecode.
From stdpp Require Import base list strings.
From Stdlib Require Import ZArith Lia Ascii String.

Local Open Scope string_scope.
Local Open Scope Z_scope.

Abbreviation len := String.length (only parsing).

(** ** What is left to read gets shorter *)

Lemma len_app (s t : string) : len (s ++ t) = (len s + len t)%nat.
Proof. induction s as [|c s IH]; [done|]. change (S (len (s ++ t)) = S (len s + len t)). by rewrite IH. Qed.
Lemma len_sdrop n s : (len (sdrop n s) <= len s)%nat.
Proof. revert s. induction n as [|n IH]; intros [|c s]; simpl; [lia..|]. pose proof (IH s). lia. Qed.
Lemma len_skip_ws s : (len (skip_ws s) <= len s)%nat.
Proof. induction s as [|c s IH]; simpl; [lia|]. destruct (_ || _ || _ || _); simpl; lia. Qed.

Lemma prepend_some {A} p (r : option (string * A)) x a :
  prepend p r = Some (x, a) -> exists y, r = Some (y, a) /\ x = p ++ y.
Proof. destruct r as [[y b]|]; [|done]. simpl. intros [= <- ->]. eauto. Qed.

Lemma expect_len n s r : expect n s = Some (tt, r) -> (len r < len s)%nat.
Proof.
  unfold expect. pose proof (len_skip_ws s). destruct (skip_ws s) as [|c s'] eqn:E; [done|].
  destruct (is_byte n c); [|done]. intros [= <-]. simpl in *. lia.
Qed.

Lemma unquote_len k s x r : unquote k s = Some (x, r) -> (len r < len s)%nat.
Proof.
  revert s x. induction k as [|k IH]; intros s x; [done|]. destruct s as [|c s']; [done|]. cbn [unquote].
  pose proof (len_sdrop 6 (String c s')) as L6. pose proof (len_sdrop 6 (sdrop 6 (String c s'))) as L12.
  repeat case_match; intros; simplify_eq;
    try match goal with H : prepend _ _ = Some _ |- _ => apply prepend_some in H as (? & H & _); apply IH in H end;
    try (cbn [String.length] in *; lia).
  match goal with H : context [sdrop ?n ?s] |- _ => pose proof (len_sdrop n s); cbn [String.length] in *; lia end.
Qed.

Lemma span_len p s a r : span p s = (a, r) -> (len r + len a = len s)%nat.
Proof.
  revert a. induction s as [|c s IH]; intros a; simpl; [intros [= <- <-]; done|].
  destruct (p c); [|intros [= <- <-]; simpl; lia]. destruct (span p s) as [b r'] eqn:E.
  intros [= <- <-]. simpl. specialize (IH _ eq_refl). lia.
Qed.

Lemma digits1_len s x r : digits1 s = Some (x, r) -> (len r < len s)%nat.
Proof.
  unfold digits1. destruct (span is_digit s) as [[|c a] r'] eqn:E; [done|]. intros [= <- <-].
  apply span_len in E. simpl in E. lia.
Qed.

Ltac lens := repeat match goal with
  | H : prepend _ _ = Some _ |- _ => apply prepend_some in H as (? & H & _)
  | H : digits1 _ = Some _ |- _ => apply digits1_len in H
  end; simpl in *; simplify_eq; simpl in *; try lia.

Lemma unsigned_len s x r : unsigned s = Some (x, r) -> (len r < len s)%nat.
Proof.
  unfold unsigned, integer, fraction, exponent. intros. repeat case_match; lens.
Qed.
Lemma number_len s x r : number s = Some (x, r) -> (len r < len s)%nat.
Proof.
  unfold number. destruct s as [|c s]; [done|]. destruct (is_byte 45 c); intros H; lens; apply unsigned_len in H; simpl in *; lia.
Qed.

Lemma then_some {A B} (r : option (A * string)) (f : A -> string -> option B) b :
  then_ r f = Some b -> exists a s, r = Some (a, s) /\ f a s = Some b.
Proof. destruct r as [[a s]|]; [|done]. eauto. Qed.

Lemma string_token_len s x r : string_token s = Some (x, r) -> (len r < len s)%nat.
Proof. intros ([] & r1 & H1%expect_len & H2%unquote_len)%then_some. lia. Qed.

Lemma word_len w v s x r : word w v s = Some (x, r) -> (len r <= len s)%nat.
Proof. unfold word. destruct (HasPrefix s w); [|done]. intros [= _ <-]. apply len_sdrop. Qed.

Ltac shorter := repeat match goal with
  | H : then_ _ _ = Some _ |- _ => apply then_some in H as (? & ? & ? & H)
  | H : expect _ _ = Some (?u, _) |- _ => destruct u; apply expect_len in H
  | H : string_token _ = Some _ |- _ => apply string_token_len in H
  | H : number _ = Some _ |- _ => apply number_len in H
  | H : word _ _ _ = Some _ |- _ => apply word_len in H
  | H : Some _ = Some _ |- _ => injection H as <- <-
  end.

Lemma parse_len k :
  (forall d s v r, value k d s = Some (v, r) -> (len r <= len s)%nat) /\
  (forall d s v r, objectItems k d s = Some (v, r) -> (len r <= len s)%nat) /\
  (forall d s v r, arrayItems k d s = Some (v, r) -> (len r <= len s)%nat).
Proof.
  induction k as [|k (IHv & IHm & IHe)]; [done|]. split; [|split]; intros d s v r; cbn [value objectItems arrayItems].
  - pose proof (len_skip_ws s) as L. destruct (skip_ws s) as [|c t] eqn:E; [done|].
    repeat case_match; intros; try done; shorter;
      repeat match goal with
      | H : objectItems _ _ _ = Some _ |- _ => apply IHm in H
      | H : arrayItems _ _ _ = Some _ |- _ => apply IHe in H
      end; cbn [String.length] in *; lia.
  - intros. shorter. match goal with H : value _ _ _ = Some _ |- _ => apply IHv in H end.
    repeat case_match; shorter; try (match goal with H : objectItems _ _ _ = Some _ |- _ => apply IHm in H end); lia.
  - intros. shorter. match goal with H : value _ _ _ = Some _ |- _ => apply IHv in H end.
    repeat case_match; shorter; try (match goal with H : arrayItems _ _ _ = Some _ |- _ => apply IHe in H end); lia.
Qed.

(** ** The fuel is enough *)

Lemma then_ext {A B} (r : option (A * string)) (f g : A -> string -> option B) :
  (forall a s, r = Some (a, s) -> f a s = g a s) -> then_ r f = then_ r g.
Proof. destruct r as [[a s]|]; [|done]. simpl. eauto. Qed.

Lemma unquote_fuel k s : (len s < k)%nat -> unquote (S k) s = unquote k s.
Proof.
  revert s. induction k as [|k IH]; intros s Hk; [lia|]. destruct s as [|c s']; [done|].
  change (unquote (S k) (String c s')) with (ltac:(let t := eval cbn [unquote] in (unquote (S k) (String c s')) in exact t)).
  remember (S k) as k' eqn:Ek. cbn [unquote]. subst k'.
  pose proof (len_sdrop 5 s') as L6. pose proof (len_sdrop 6 (sdrop 6 (String c s'))) as L12.
  change (sdrop 6 (String c s')) with (sdrop 5 s') in *. cbn [String.length] in *.
  repeat (case_match; try done);
    try (f_equal; apply IH; subst; cbn [String.length] in *; lia).
  f_equal. apply IH. match goal with |- context [sdrop (S ?n) (String _ ?t)] => pose proof (len_sdrop n t) end.
  cbn [sdrop String.length] in *. lia.
Qed.

Lemma unquote_enough k s : (len s < k)%nat -> unquote k s = unquote (S (len s)) s.
Proof.
  intros Hk. replace k with (k - S (len s) + S (len s))%nat by lia. generalize (k - S (len s))%nat. intros j.
  induction j as [|j IH]; [done|]. rewrite <- IH. apply (unquote_fuel (j + S (len s))). lia.
Qed.

Lemma parse_fuel k :
  (forall d s, (2 * len s + 2 <= k)%nat -> value (S k) d s = value k d s) /\
  (forall d s, (2 * len s + 1 <= k)%nat -> objectItems (S k) d s = objectItems k d s) /\
  (forall d s, (2 * len s + 3 <= k)%nat -> arrayItems (S k) d s = arrayItems k d s).
Proof.
  induction k as [|k (IHv & IHm & IHe)]; [split; [|split]; intros; lia|].
  remember (S k) as k' eqn:Ek. split; [|split]; intros d s Hk.
  - subst k'. pose proof (len_skip_ws s) as L.
    change (value (S k) d s) with (ltac:(let t := eval cbn [value] in (value (S k) d s) in exact t)).
    remember (S k) as k' eqn:Ek. cbn [value]. subst k'.
    destruct (skip_ws s) as [|c t]; [done|]. cbn [String.length] in L.
    rewrite IHm, IHe by lia. done.
  - subst k'. change (objectItems (S k) d s) with (ltac:(let t := eval cbn [objectItems] in (objectItems (S k) d s) in exact t)).
    remember (S k) as k' eqn:Ek. cbn [objectItems]. subst k'.
    apply then_ext. intros key r1 H1%string_token_len. apply then_ext. intros [] r2 H2%expect_len.
    rewrite IHv by lia. apply then_ext. intros v r3 H3%(proj1 (parse_len k)).
    destruct (expect 44 r3) as [[[] r4]|] eqn:H4; [|done]. apply expect_len in H4. rewrite IHm by lia. done.
  - subst k'. change (arrayItems (S k) d s) with (ltac:(let t := eval cbn [arrayItems] in (arrayItems (S k) d s) in exact t)).
    remember (S k) as k' eqn:Ek. cbn [arrayItems]. subst k'.
    rewrite IHv by lia. apply then_ext. intros v r1 H1%(proj1 (parse_len k)).
    destruct (expect 44 r1) as [[[] r2]|] eqn:H2; [|done]. apply expect_len in H2. rewrite IHe by lia. done.
Qed.

(** Reading a value with more fuel than [parse] gives it changes nothing. *)
Lemma parse_fuel_enough k d s : (parseFuel s <= k)%nat -> value k d s = value (parseFuel s) d s.
Proof.
  intros Hk. replace k with (k - parseFuel s + parseFuel s)%nat by lia. generalize (k - parseFuel s)%nat. intros j.
  induction j as [|j IH]; [done|]. rewrite <- IH. apply (parse_fuel (j + parseFuel s)). unfold parseFuel in *. lia.
Qed.

(** ** Strings *)

(** Whole runes, after [skip] bytes of one. *)
Fixpoint validUTF8 (skip : nat) (s : string) : bool :=
  match s with
  | "" => true
  | String c s' =>
      match skip with
      | S k => validUTF8 k s'
      | O => match rune_len c s' with O => false | S n => validUTF8 n s' end
      end
  end.

Lemma stake_sdrop n s : stake n s ++ sdrop n s = s.
Proof.
  revert s. induction n as [|n IH]; intros [|c s]; [done..|].
  change (String c (stake n s ++ sdrop n s) = String c s). by rewrite IH.
Qed.

Lemma escape_skip n s : escape n s = stake n s ++ escape 0 (sdrop n s).
Proof.
  revert s. induction n as [|n IH]; intros s; [done|]. destruct s as [|c s]; [done|].
  change (String c (escape n s) = String c (stake n s ++ escape 0 (sdrop n s))). by rewrite IH.
Qed.

Lemma validUTF8_skip n s : validUTF8 n s = validUTF8 0 (sdrop n s).
Proof. revert s. induction n as [|n IH]; intros [|c s]; [done..|]. apply IH. Qed.

Lemma rune_len_le c s : (rune_len c s <= S (len s))%nat.
Proof. unfold rune_len. repeat case_match; simpl; lia. Qed.

Lemma rune_len_one c s : rune_len c s = 1%nat -> byte_of c < 128.
Proof. unfold rune_len. repeat case_match; try done; intros; bools; lia. Qed.

Lemma rune_len_many c s n : rune_len c s = S (S n) -> 128 <= byte_of c.
Proof. unfold rune_len. destruct (Z.ltb_spec (byte_of c) 128); [done|lia]. Qed.

(** A rune is recognised by its own bytes. *)
Lemma rune_len_own c s n x : rune_len c s = S n -> rune_len c (stake n s ++ x) = S n.
Proof.
  unfold rune_len. destruct (byte_of c <? 128); [congruence|]. intros H.
  destruct n as [|[|[|[|n]]]], s as [|c2 [|c3 [|c4 s]]]; simpl in *; try done;
    repeat (case_match; try done); simplify_eq.
Qed.

Lemma unquote_ascii c x k :
  byte_of c < 128 -> unquote (S k) (escape_ascii c ++ x) = prepend (String c "") (unquote k x).
Proof.
  intros Hc. destruct c as [[] [] [] [] [] [] [] b7]; destruct b7; try (exfalso; vm_compute in Hc; discriminate Hc); reflexivity.
Qed.

Lemma prepend_app {A} p s (a : A) : prepend p (Some (s, a)) = Some (p ++ s, a).
Proof. done. Qed.

Lemma unquote_quote k x : unquote (S k) (String quote x) = Some ("", x).
Proof. done. Qed.

(** A rune of several bytes is copied. *)
Lemma unquote_rune k c s n x :
  rune_len c s = S (S n) ->
  unquote (S k) (String c (stake (S n) s ++ x)) = prepend (String c (stake (S n) s)) (unquote k x).
Proof.
  intros Hr. pose proof (rune_len_many _ _ _ Hr) as Hb. pose proof (rune_len_own _ _ _ x Hr) as Ho.
  pose proof (rune_len_le c s) as Hl. rewrite Hr in Hl.
  assert (len (stake (S n) s) = S n) as Hn.
  { clear -Hl. assert (S n <= len s)%nat as H by lia. clear Hl. revert s H. generalize (S n). intros m. induction m as [|m IH]; intros [|c s] H; simpl in *; try lia.
    rewrite IH; lia. }
  cbn [unquote]. unfold is_byte. rewrite (proj2 (Z.eqb_neq _ 34)), (proj2 (Z.eqb_neq _ 92)), (proj2 (Z.ltb_ge _ 32)) by lia.
  rewrite Ho. change (stake (S (S n)) (String c (stake (S n) s ++ x))) with (String c (stake (S n) (stake (S n) s ++ x))).
  change (sdrop (S (S n)) (String c (stake (S n) s ++ x))) with (sdrop (S n) (stake (S n) s ++ x)).
  rewrite <- Hn at 1 3. by rewrite sdrop_app, stake_app.
Qed.

Lemma unquote_separator k b x :
  unquote (S k) (String bslash ("u202" ++ String (if (b : bool) then "8"%char else "9"%char) x)) =
  prepend (String (of_byte 226) (String (of_byte 128) (String (of_byte (if b then 168 else 169)) ""))) (unquote k x).
Proof. by destruct b. Qed.

Lemma escape_step c s :
  validUTF8 0 (String c s) = true ->
  (byte_of c < 128 /\ validUTF8 0 s = true /\ escape 0 (String c s) = escape_ascii c ++ escape 0 s) \/
  (exists b s3, s = String (of_byte 128) (String (of_byte (if (b : bool) then 168 else 169)) s3) /\ c = of_byte 226 /\
     validUTF8 0 s3 = true /\ escape 0 (String c s) = String bslash ("u202" ++ String (if b then "8"%char else "9"%char) (escape 0 s3))) \/
  (exists n, rune_len c s = S (S n) /\ validUTF8 0 (sdrop (S n) s) = true /\
     escape 0 (String c s) = String c (stake (S n) s ++ escape 0 (sdrop (S n) s))).
Proof.
  cbn [validUTF8 escape]. destruct (rune_len c s) as [|[|n]] eqn:Er; [done|..]; intros Hv.
  - left. pose proof (rune_len_one _ _ Er). auto.
  - right. rewrite validUTF8_skip in Hv. pose proof (rune_len_le c s) as Hl. rewrite Er in Hl.
    destruct s as [|c2 [|c3 s3]]; [simpl in Hl; lia|right; exists n; rewrite escape_skip; auto|].
    destruct (separator c c2 c3) eqn:Es; [|right; exists n; rewrite escape_skip; auto].
    left. unfold separator in Es. bools. subst.
    assert (c = of_byte 226) as -> by (apply byte_of_inj; rewrite H; reflexivity).
    assert (c2 = of_byte 128) as -> by (apply byte_of_inj; rewrite H1; reflexivity).
    exists (byte_of c3 =? 168), s3. destruct (byte_of c3 =? 168) eqn:E3; simpl in H0; bools.
    + assert (c3 = of_byte 168) as -> by (apply byte_of_inj; rewrite E3; reflexivity).
      cbn in Er. injection Er as <-. auto.
    + assert (c3 = of_byte 169) as -> by (apply byte_of_inj; rewrite H0; reflexivity).
      cbn in Er. injection Er as <-. auto.
Qed.

(** A string of valid UTF-8 is read back from its escaped form. *)
Lemma unquote_escape s k x :
  validUTF8 0 s = true -> (len (escape 0 s) < k)%nat -> unquote k (escape 0 s ++ String quote x) = Some (s, x).
Proof.
  remember (len s) as m eqn:Hm. assert (len s <= m)%nat as Hle by lia. clear Hm.
  revert s k Hle. induction m as [|m IH]; intros s k Hle Hv Hk; destruct s as [|c s]; simpl in Hle;
    try (destruct k; [simpl in Hk; lia|]; done); [lia|].
  destruct (escape_step c s Hv) as [(Hc & Hs & E)|[(b & s3 & -> & -> & Hs & E)|(n & Hr & Hs & E)]];
    rewrite E in *; destruct k as [|k]; try lia.
  - assert (len (escape_ascii c ++ escape 0 s) = len (escape_ascii c) + len (escape 0 s))%nat as El.
    { apply len_app. }
    assert (1 <= len (escape_ascii c))%nat by (unfold escape_ascii; repeat case_match; simpl; lia).
    rewrite sapp_assoc, unquote_ascii, IH by (done || lia). done.
  - replace (String bslash ("u202" ++ String (if b then "8"%char else "9"%char) (escape 0 s3)) ++ String quote x)
      with (String bslash ("u202" ++ String (if b then "8"%char else "9"%char) (escape 0 s3 ++ String quote x))) by done.
    simpl in Hle, Hk. rewrite unquote_separator, IH by (done || lia). by destruct b.
  - rewrite sapp_cons, sapp_assoc, unquote_rune by done. pose proof (len_sdrop (S n) s). pose proof (rune_len_le c s).
    change (S (len (stake (S n) s ++ escape 0 (sdrop (S n) s))) < S k)%nat in Hk. rewrite len_app in Hk. rewrite IH; [|lia|done|simpl in *; lia].
    rewrite prepend_app. by rewrite sapp_cons, stake_sdrop.
Qed.

Lemma string_token_marshal s x : validUTF8 0 s = true -> string_token (marshalString s ++ x) = Some (s, x).
Proof.
  intros Hv. unfold string_token, marshalString. rewrite sapp_cons, sapp_assoc.
  change (String quote "" ++ x) with (String quote x).
  change (expect 34 (String quote ?y)) with (Some (tt, y)). cbn [then_].
  rewrite unquote_escape; [done..|]. rewrite len_app. simpl. lia.
Qed.

(** ** Integers *)

(** What may follow a number: a byte that continues none. *)
Definition ends_number (s : string) : bool :=
  match s with
  | "" => true
  | String c _ => negb (is_digit c || is_byte 46 c || is_byte 101 c || is_byte 69 c)
  end.

Lemma span_digits a x : sforall is_digit a = true -> ends_number x = true -> span is_digit (a ++ x) = (a, x).
Proof.
  intros Ha Hx. induction a as [|c a IH].
  - change ("" ++ x) with x. destruct x as [|c x]; [done|]. simpl in *. by destruct (is_digit c).
  - simpl in Ha. bools. rewrite sapp_cons. simpl. by rewrite H, IH.
Qed.

Lemma digits_rev_last fuel n :
  0 < n -> n < 2 ^ Z.of_nat fuel -> exists s d, digits_rev fuel n = s ++ String (digit_of d) "" /\ 1 <= d <= 9.
Proof.
  revert n. induction fuel as [|fuel IH]; intros n Hn Hf; [simpl in Hf; lia|]. cbn [digits_rev].
  destruct (Z.ltb_spec n 10); [exists "", n; split; [done|lia]|].
  rewrite Nat2Z.inj_succ, Z.pow_succ_r in Hf by lia.
  destruct (IH (n / 10)) as (s & d & -> & Hd); [apply Z.div_str_pos; lia|apply Z.div_lt_upper_bound; lia|].
  by exists (String (digit_of (n mod 10)) s), d.
Qed.

Lemma format_nat_head n : 0 < n -> exists d s, format_nat n = String (digit_of d) s /\ 1 <= d <= 9.
Proof.
  intros Hn. unfold format_nat. destruct (digits_rev_last (S (Z.to_nat (Z.log2 n))) n Hn) as (s & d & -> & Hd).
  { apply log2_fuel. lia. }
  exists d, (srev s). rewrite srev_snoc. done.
Qed.

Lemma not_byte_digit d n : 0 <= d <= 9 -> n <> 48 + d -> is_byte n (digit_of d) = false.
Proof. intros Hd Hn. unfold is_byte. rewrite byte_of_digit by done. apply Z.eqb_neq. lia. Qed.

Lemma after_integer x : ends_number x = true -> fraction x = Some ("", x) /\ exponent x = Some ("", x).
Proof.
  destruct x as [|c x]; [done|]. simpl. intros. bools.
  repeat match goal with E : is_byte _ c = false |- _ => rewrite E; clear E end. done.
Qed.

Lemma unsigned_format n x : 0 <= n -> ends_number x = true -> unsigned (format_nat n ++ x) = Some (format_nat n, x).
Proof.
  intros Hn Hx. destruct (after_integer x Hx) as [Hf He]. unfold unsigned.
  enough (integer (format_nat n ++ x) = Some (format_nat n, x)) as ->.
  { rewrite Hf, He. simpl. by rewrite !sapp_nil_r. }
  destruct (Z.eq_dec n 0) as [->|]; [done|]. destruct (format_nat_head n) as (d & s & E & Hd); [lia|].
  pose proof (format_nat_digits n Hn) as Hdig. rewrite E in *. rewrite sapp_cons. unfold integer.
  rewrite not_byte_digit by lia. unfold digits1. rewrite <- sapp_cons, span_digits; done.
Qed.

Lemma number_format n x : ends_number x = true -> number (FormatInt n ++ x) = Some (FormatInt n, x).
Proof.
  intros Hx. unfold FormatInt. destruct (Z.ltb_spec n 0).
  - rewrite sapp_cons. unfold number. change (is_byte 45 "-") with true. cbv iota. by rewrite unsigned_format by (done || lia).
  - pose proof (unsigned_format n x ltac:(lia) Hx) as Hu. destruct (Z.eq_dec n 0) as [->|]; [exact Hu|].
    destruct (format_nat_head n) as (d & s & E & Hd); [lia|]. rewrite E in *. rewrite sapp_cons in *. unfold number.
    by rewrite not_byte_digit by lia.
Qed.

(** ** Values

    [txt] is read as [v], nested [n] deep at most, in front of anything that may
    follow a value. *)

Definition opens (s : string) : bool :=
  match s with
  | String c _ => negb (existsb (fun n => is_byte n c) [32; 9; 13; 10; 44; 93; 125])
  | "" => false
  end.

Definition reads (n : Z) (v : jval) (txt : string) : Prop :=
  opens txt = true /\ exists k0, forall k d x, (k0 <= k)%nat -> d + n <= maxNestingDepth -> ends_number x = true ->
    value k d (txt ++ x) = Some (v, x).

Lemma reads_mono n n' v txt : n <= n' -> reads n v txt -> reads n' v txt.
Proof. intros Hn [Ho [k0 H]]. split; [done|]. exists k0. intros k d x Hk Hd. apply H; lia. Qed.

Lemma opens_ws txt x : opens txt = true -> skip_ws (txt ++ x) = txt ++ x.
Proof.
  destruct txt as [|c s]; [done|]. unfold opens. cbn [existsb]. intros Ho. apply negb_true_iff in Ho.
  rewrite !orb_false_iff in Ho. destruct Ho as (H1 & H2 & H3 & H4 & _). rewrite sapp_cons. cbn [skip_ws].
  by rewrite H1, H2, H3, H4.
Qed.

Lemma opens_expect m txt x : opens txt = true -> existsb (Z.eqb m) [44; 93; 125] = true -> expect m (txt ++ x) = None.
Proof.
  intros Ho Hm. unfold expect. rewrite opens_ws by done. destruct txt as [|c s]; [done|]. rewrite sapp_cons.
  unfold opens in Ho. cbn [existsb] in Ho, Hm. apply negb_true_iff in Ho. rewrite !orb_false_iff in Ho.
  destruct Ho as (_ & _ & _ & _ & H1 & H2 & H3 & _).
  destruct (Z.eqb_spec m 44) as [->|]; [by rewrite H1|]. destruct (Z.eqb_spec m 93) as [->|]; [by rewrite H2|].
  destruct (Z.eqb_spec m 125) as [->|]; [by rewrite H3|]. done.
Qed.

(** The value read at the first step. *)
Lemma reads_token n v txt :
  opens txt = true -> (forall k d x, ends_number x = true -> value (S k) d (txt ++ x) = Some (v, x)) -> reads n v txt.
Proof. intros Ho H. split; [done|]. exists 1%nat. intros [|k] d x Hk _; [lia|]. apply H. Qed.

Lemma reads_null n : reads n VNull "null".
Proof. apply reads_token; [done|]. intros k d x _. simpl. unfold word, HasPrefix. simpl. by destruct x. Qed.
Lemma reads_bool n b : reads n (VBool b) (if b then "true" else "false").
Proof. apply reads_token; [by destruct b|]. intros k d x _. destruct b; simpl; unfold word, HasPrefix; simpl; by destruct x. Qed.

Lemma reads_string n s : validUTF8 0 s = true -> reads n (VStr s) (marshalString s).
Proof.
  intros Hv. apply reads_token; [done|]. intros k d x _. cbn [value].
  change (skip_ws (marshalString s ++ x)) with (marshalString s ++ x). unfold marshalString at 1. rewrite sapp_cons.
  change (is_byte 123 quote) with false. change (is_byte 91 quote) with false. change (is_byte 34 quote) with true. cbv iota.
  rewrite <- sapp_cons. fold (marshalString s). by rewrite string_token_marshal.
Qed.

Lemma FormatInt_head n : exists c s, FormatInt n = String c s /\ (byte_of c = 45 \/ 48 <= byte_of c <= 57).
Proof.
  unfold FormatInt. destruct (Z.ltb_spec n 0); [eexists _, _; split; [done|by left]|].
  destruct (Z.eq_dec n 0) as [->|]; [eexists _, _; split; [done|by right]|].
  destruct (format_nat_head n) as (d & s & -> & Hd); [lia|].
  eexists _, _. split; [done|]. rewrite byte_of_digit by lia. lia.
Qed.

Lemma reads_number m n : reads m (VNum (FormatInt n)) (FormatInt n).
Proof.
  destruct (FormatInt_head n) as (c & s & E & Hb).
  assert (forall m, m <> 45 -> (m < 48 \/ 57 < m) -> is_byte m c = false) as Hm.
  { intros i ? ?. apply Z.eqb_neq. lia. }
  apply reads_token; [rewrite E; unfold opens; cbn [existsb]; by rewrite !Hm by lia|].
  intros k d x Hx. pose proof (number_format n x Hx) as Hn. cbn [value]. rewrite E in *. rewrite sapp_cons in *.
  cbn [skip_ws]. rewrite !Hm by lia. cbv [orb]. cbv iota beta. rewrite !Hm by lia. by rewrite Hn.
Qed.

(** ** Arrays and objects *)

Lemma ends_close c x : existsb (fun n => is_byte n c) [44; 93; 125] = true -> ends_number (String c x) = true.
Proof.
  cbn [existsb]. rewrite !orb_true_iff. intros [H|[H|[H|H]]]; [..|done];
    apply Z.eqb_eq in H; unfold ends_number, is_digit, is_byte; by rewrite H.
Qed.

(** The elements of an array, up to its bracket. *)
Lemma reads_elements n txts vs :
  Forall2 (fun txt v => reads n v txt) txts vs -> txts <> [] ->
  exists k0, forall k d x, (k0 <= k)%nat -> d + n <= maxNestingDepth ->
    arrayItems k d (stringsJoin "," txts ++ String "]" x) = Some (vs, x).
Proof.
  induction 1 as [|txt v txts vs [Ho [k1 Hr]] HF IH]; [done|]. intros _. destruct HF as [|txt2 v2 txts vs H2 HF].
  - exists (S k1). intros [|k] d x Hk Hd; [lia|]. cbn [arrayItems]. change (stringsJoin "," [txt]) with txt.
    rewrite Hr by (lia || by apply ends_close). done.
  - destruct (IH ltac:(done)) as [k2 Hi]. exists (S (Nat.max k1 k2)). intros [|k] d x Hk Hd; [lia|].
    change (stringsJoin "," (txt :: txt2 :: txts)) with (txt ++ "," ++ stringsJoin "," (txt2 :: txts)). cbn [arrayItems].
    rewrite !sapp_assoc. set (rest := stringsJoin "," (txt2 :: txts) ++ String "]" x).
    change ("," ++ rest) with (String "," rest). rewrite Hr by (lia || by apply ends_close). unfold then_ at 1.
    change (expect 44 (String "," rest)) with (Some (tt, rest)). cbv iota beta. unfold rest. rewrite Hi by lia. done.
Qed.

(** The members of an object, up to its brace, in the order they were written. *)
Lemma reads_members n kvs vs :
  Forall2 (fun kv v => validUTF8 0 kv.1 = true /\ reads n v kv.2) kvs vs -> kvs <> [] ->
  exists k0, forall k d x, (k0 <= k)%nat -> d + n <= maxNestingDepth ->
    objectItems k d (stringsJoin "," (map member kvs) ++ String "}" x) = Some (combine (map fst kvs) vs, x).
Proof.
  induction 1 as [|[key txt] v kvs vs [Hkey [Ho [k1 Hr]]] HF IH]; [done|]. intros _. simpl in Hkey, Hr.
  destruct HF as [|kv2 v2 kvs vs H2 HF].
  - exists (S k1). intros [|k] d x Hk Hd; [lia|]. cbn [objectItems].
    change (stringsJoin "," (map member [(key, txt)])) with (member (key, txt)).
    unfold member. cbn [fst snd]. rewrite !sapp_assoc, string_token_marshal by done. unfold then_ at 1.
    change (expect 58 (":" ++ ?y)) with (Some (tt, y)). unfold then_ at 1.
    rewrite Hr by (lia || by apply ends_close). done.
  - destruct (IH ltac:(done)) as [k2 Hi]. exists (S (Nat.max k1 k2)). intros [|k] d x Hk Hd; [lia|]. cbn [objectItems].
    change (stringsJoin "," (map member ((key, txt) :: kv2 :: kvs)))
      with (member (key, txt) ++ "," ++ stringsJoin "," (map member (kv2 :: kvs))).
    unfold member at 1. cbn [fst snd]. rewrite !sapp_assoc, string_token_marshal by done. unfold then_ at 1.
    set (rest := stringsJoin "," (map member (kv2 :: kvs)) ++ String "}" x).
    change (expect 58 (":" ++ ?y)) with (Some (tt, y)). unfold then_ at 1. change ("," ++ rest) with (String "," rest).
    rewrite Hr by (lia || by apply ends_close). unfold then_ at 1.
    change (expect 44 (String "," rest)) with (Some (tt, rest)). cbv iota beta. unfold rest. rewrite Hi by lia. done.
Qed.

Lemma reads_array n txts vs :
  0 <= n -> Forall2 (fun txt v => reads n v txt) txts vs -> reads (n + 1) (VArr vs) ("[" ++ stringsJoin "," txts ++ "]").
Proof.
  intros H0 HF. split; [done|]. destruct HF as [|txt v txts vs Hv HF].
  - exists 1%nat. intros [|k] d x Hk Hd _; [lia|]. simpl. destruct (Z.leb_spec maxNestingDepth d); [lia|done].
  - assert (opens (stringsJoin "," (txt :: txts)) = true) as Ho.
    { destruct Hv as [Ho _]. destruct txts; [done|]. by destruct txt. }
    destruct (reads_elements n (txt :: txts) (v :: vs)) as [k0 Hi]; [by constructor|done|].
    exists (S k0). intros [|k] d x Hk Hd _; [lia|]. rewrite !sapp_assoc. change ("]" ++ x) with (String "]" x).
    change ("[" ++ ?b) with (String "[" b). cbn [value]. change (skip_ws (String "[" ?b)) with (String "[" b). cbv beta iota.
    change (is_byte 123 "[") with false. change (is_byte 91 "[") with true. cbv iota.
    rewrite (proj2 (Z.leb_gt _ _)), opens_expect by (done || lia). rewrite Hi by lia. done.
Qed.

Lemma reads_object n kvs vs :
  0 <= n -> Forall2 (fun kv v => validUTF8 0 kv.1 = true /\ reads n v kv.2) kvs vs ->
  reads (n + 1) (VObj (combine (map fst kvs) vs)) (marshalStruct kvs).
Proof.
  intros H0 HF. unfold marshalStruct. split; [done|]. destruct HF as [|kv v kvs vs Hv HF].
  - exists 1%nat. intros [|k] d x Hk Hd _; [lia|]. simpl. destruct (Z.leb_spec maxNestingDepth d); [lia|done].
  - assert (opens (stringsJoin "," (map member (kv :: kvs))) = true) as Ho by by destruct kvs.
    destruct (reads_members n (kv :: kvs) (v :: vs)) as [k0 Hi]; [by constructor|done|].
    exists (S k0). intros [|k] d x Hk Hd _; [lia|]. rewrite !sapp_assoc. change ("}" ++ x) with (String "}" x).
    change ("{" ++ ?b) with (String "{" b). cbn [value]. change (skip_ws (String "{" ?b)) with (String "{" b). cbv beta iota.
    change (is_byte 123 "{") with true. cbv iota.
    rewrite (proj2 (Z.leb_gt _ _)), opens_expect by (done || lia). rewrite Hi by lia. done.
Qed.

Lemma parse_reads n v txt : n <= maxNestingDepth -> reads n v txt -> parse txt = Some v.
Proof.
  intros Hn [Ho [k0 H]]. unfold parse. rewrite <- (parse_fuel_enough (Nat.max k0 (parseFuel txt))) by lia.
  rewrite <- (sapp_nil_r txt) at 2. rewrite H by (done || lia). done.
Qed.

(** What [json.Marshal] made of a struct is read back: the fields in their
    order, each with its value. *)
Lemma parse_struct kvs vs :
  Forall2 (fun kv v => validUTF8 0 kv.1 = true /\ reads 0 v kv.2) kvs vs ->
  parse (marshalStruct kvs) = Some (VObj (combine (map fst kvs) vs)).
Proof. intros HF. apply (parse_reads (0 + 1)); [done|]. by apply reads_object. Qed.

(** ** Any value *)

Section Nested.
Context (P : json -> Prop).
Context (Hnull : P JNull) (Hbool : forall b, P (JBool b)) (Hnum : forall n, P (JNum n)) (Hstr : forall s, P (JStr s))
  (Harr : forall l, Forall P l -> P (JArr l)) (Hobj : forall l, Forall (fun kv => P kv.2) l -> P (JObj l)).

Fixpoint json_nested_ind (j : json) : P j :=
  match j with
  | JNull => Hnull | JBool b => Hbool b | JNum n => Hnum n | JStr s => Hstr s
  | JArr l => Harr l ((fix go l := match l return Forall P l with
                                   | [] => @List.Forall_nil _ P | j :: l' => @List.Forall_cons _ P j l' (json_nested_ind j) (go l') end) l)
  | JObj l => Hobj l ((fix go l := match l return Forall (fun kv => P kv.2) l with
                                   | [] => @List.Forall_nil _ (fun kv => P kv.2) | kv :: l' => @List.Forall_cons _ (fun kv => P kv.2) kv l' (json_nested_ind kv.2) (go l') end) l)
  end.
End Nested.

(** The value the decoder makes of an encoded one. *)
Definition keyOf_leb {A} (a b : string * A) : bool := String.leb a.1 b.1.

Fixpoint valueOf (j : json) : jval :=
  match j with
  | JNull => VNull
  | JBool b => VBool b
  | JNum n => VNum (FormatInt n)
  | JStr s => VStr s
  | JArr l => VArr (map valueOf l)
  | JObj l => VObj (sort_by keyOf_leb (map (fun kv => (kv.1, valueOf kv.2)) l))
  end.

(** Whole runes everywhere. *)
Fixpoint validText (j : json) : bool :=
  match j with
  | JStr s => validUTF8 0 s
  | JArr l => forallb validText l
  | JObj l => forallb (fun kv => validUTF8 0 kv.1 && validText kv.2) l
  | _ => true
  end.

Fixpoint nesting (j : json) : Z :=
  match j with
  | JArr l => 1 + fold_right Z.max 0 (map nesting l)
  | JObj l => 1 + fold_right Z.max 0 (map (fun kv => nesting kv.2) l)
  | _ => 0
  end.

Lemma max_nonneg l : 0 <= fold_right Z.max 0 l.
Proof. induction l as [|x l IH]; simpl; lia. Qed.
Lemma max_in x l : In x l -> x <= fold_right Z.max 0 l.
Proof. induction l as [|y l IH]; simpl; [done|]. intros [->|H]; [lia|]. specialize (IH H). lia. Qed.

Lemma insert_by_map {A B} (f : A -> B) leb leb' (Hf : forall x y, leb' (f x) (f y) = leb x y) a l :
  map f (insert_by leb a l) = insert_by leb' (f a) (map f l).
Proof. induction l as [|b l IH]; [done|]. simpl. rewrite Hf. destruct (leb a b); [done|]. simpl. by rewrite IH. Qed.
Lemma sort_by_map {A B} (f : A -> B) leb leb' (Hf : forall x y, leb' (f x) (f y) = leb x y) l :
  map f (sort_by leb l) = sort_by leb' (map f l).
Proof. induction l as [|a l IH]; [done|]. simpl. by rewrite (insert_by_map f leb leb' Hf), IH. Qed.

Lemma marshal_obj l :
  marshal (JObj l) = marshalStruct (map (fun kv => (kv.1, marshal kv.2)) (sort_by keyOf_leb l)).
Proof.
  unfold marshalStruct. simpl. rewrite (sort_by_map (fun kv => (kv.1, marshal kv.2)) keyOf_leb key_leb) by done. done.
Qed.

Lemma combine_map {A B C} (f : A -> B) (g : A -> C) l : combine (map f l) (map g l) = map (fun a => (f a, g a)) l.
Proof. induction l as [|a l IH]; [done|]. simpl. by rewrite IH. Qed.

Lemma reads_marshal j : validText j = true -> reads (nesting j) (valueOf j) (marshal j).
Proof.
  induction j as [|b|n|s|l IH|l IH] using json_nested_ind; intros Hv.
  - apply reads_null.
  - apply reads_bool.
  - apply reads_number.
  - by apply reads_string.
  - cbn [nesting valueOf marshal]. rewrite Z.add_comm. apply reads_array; [apply max_nonneg|].
    apply Forall2_fmap_l, Forall2_fmap_r, Forall_Forall2_diag. rewrite Forall_forall in IH |- *. intros j Hj.
    cbn [validText] in Hv. rewrite forallb_forall in Hv. apply list_elem_of_In in Hj as Hj'.
    apply (reads_mono (nesting j)); [by apply max_in, in_map|]. apply IH; auto.
  - rewrite marshal_obj. cbn [nesting valueOf]. rewrite Z.add_comm.
    rewrite <- (sort_by_map (fun kv => (kv.1, valueOf kv.2)) keyOf_leb) by done.
    replace (map (fun kv => (kv.1, valueOf kv.2)) (sort_by keyOf_leb l))
      with (combine (map fst (map (fun kv => (kv.1, marshal kv.2)) (sort_by keyOf_leb l))) (map (fun kv => valueOf kv.2) (sort_by keyOf_leb l)))
      by (rewrite map_map; apply combine_map).
    apply reads_object; [apply max_nonneg|]. apply Forall2_fmap_l, Forall2_fmap_r, Forall_Forall2_diag.
    rewrite Forall_forall in IH |- *. intros [k j] Hj%elem_of_sort_by. cbn [fst snd].
    cbn [validText] in Hv. rewrite forallb_forall in Hv. apply list_elem_of_In in Hj as Hj'.
    specialize (Hv _ Hj'). cbn [fst snd] in Hv. bools. split; [done|].
    apply (in_map (fun kv => nesting kv.2)) in Hj'. apply (reads_mono (nesting j)); [by apply max_in|]. by apply (IH (k, j)).
Qed.

(** What [json.Marshal] writes is read back, whatever the value: its members
    by key, its numbers as they were written. *)
Lemma parse_marshal j : validText j = true -> nesting j <= maxNestingDepth -> parse (marshal j) = Some (valueOf j).
Proof. intros Hv Hn. exact (parse_reads _ _ _ Hn (reads_marshal j Hv)). Qed.
