(* ===== verification/Url.v ===== *)
(** * URLs ([net/url])

    Escaping of paths and query parameters, [Values.Encode] and [ParseQuery],
    a URL in its parts and the text of a request line, with what a server reads
    back from them. *)

From S2P Require Import Prelude GoBase Codes Encoding Json JsonDecode.
From stdpp Require Import base list strings sets sorting.
From Stdlib Require Import ZArith Lia Ascii String.

Local Open Scope string_scope.
Local Open Scope Z_scope.

(** ** Escaping *)

Inductive encoding : Type := encodePath | encodePathSegment | encodeQueryComponent.
#[export] Instance encoding_eq_dec : EqDecision encoding.
Proof. solve_decision. Defined.

Definition alphanumeric (c : ascii) : bool :=
  let b := byte_of c in ((97 <=? b) && (b <=? 122)) || ((65 <=? b) && (b <=? 90)) || is_digit c.

(** [$ & + , / : ; = ? @]. *)
Definition reserved (c : ascii) : bool :=
  existsb (fun n => is_byte n c) [36; 38; 43; 44; 47; 58; 59; 61; 63; 64].

Definition shouldEscape (c : ascii) (mode : encoding) : bool :=
  if alphanumeric c then false else
  if existsb (fun n => is_byte n c) [45; 95; 46; 126] then false else
  if reserved c then
    match mode with
    | encodePath => is_byte 63 c
    | encodePathSegment => existsb (fun n => is_byte n c) [47; 59; 44; 63]
    | encodeQueryComponent => true
    end
  else true.

Definition upperhex (d : Z) : ascii := of_byte (if d <? 10 then 48 + d else 55 + d).

Definition isQuery (mode : encoding) : bool := bool_decide (mode = encodeQueryComponent).

Fixpoint urlEscape (mode : encoding) (s : string) : string :=
  match s with
  | "" => ""
  | String c s' =>
      if is_byte 32 c && isQuery mode then String "+"%char (urlEscape mode s')
      else if shouldEscape c mode
      then String "%"%char (String (upperhex (byte_of c / 16)) (String (upperhex (byte_of c mod 16)) (urlEscape mode s')))
      else String c (urlEscape mode s')
  end.

Fixpoint urlUnescape (mode : encoding) (s : string) : option string :=
  match s with
  | "" => Some ""
  | String c s' =>
      if is_byte 37 c then
        match s' with
        | String h (String l s'') =>
            match hex_val h, hex_val l with
            | Some a, Some b => option_map (String (of_byte (16 * a + b))) (urlUnescape mode s'')
            | _, _ => None
            end
        | _ => None
        end
      else option_map (String (if is_byte 43 c && isQuery mode then " "%char else c)) (urlUnescape mode s')
  end.

Definition PathEscape : string -> string := urlEscape encodePathSegment.
Definition QueryEscape : string -> string := urlEscape encodeQueryComponent.
Definition QueryUnescape : string -> option string := urlUnescape encodeQueryComponent.

(** ** Query strings *)

(** [url.Values] with one value to a key, as [Set] leaves it. *)
Definition Values : Type := list (string * string).

Definition valuesSet (k v : string) (q : Values) : Values :=
  (List.filter (fun kv => negb (String.eqb kv.1 k)) q ++ [(k, v)])%list.

Definition queryPart (kv : string * string) : string := QueryEscape kv.1 ++ "=" ++ QueryEscape kv.2.

(** [v.Encode()]. *)
Definition Encode (q : Values) : string := stringsJoin "&" (map queryPart (sort_by key_leb q)).

Definition hasByte (n : Z) (s : string) : bool := negb (sforall (fun c => negb (is_byte n c)) s).

(** A part of the query; one with a semicolon or a bad escape is dropped. *)
Definition parsePart (part : string) : option (string * string) :=
  if hasByte 59 part || String.eqb part "" then None else
  let '(k, v) := default (part, "") (cutAt 61 part) in
  match QueryUnescape k, QueryUnescape v with
  | Some k, Some v => Some (k, v)
  | _, _ => None
  end.

(** [u.Query()]. *)
Definition ParseQuery (raw : string) : Values := omap parsePart (splitOn 38 raw).

(** [values.Get(key)]. *)
Definition valuesGet (q : Values) (k : string) : string :=
  match find (fun kv => String.eqb kv.1 k) q with Some kv => kv.2 | None => "" end.

(** ** URLs *)

(** The parts of [url.URL] the code reads or sets; [u_authority] is the host
    with the user information before it, as [String] writes them. *)
Record URL : Type := mkURL {
  u_scheme : string; u_authority : string; u_host : string; u_path : string; u_rawQuery : string
}.

(** [url.Parse] on an absolute URL. *)
Class UrlParser : Type := { urlParse : string -> option URL }.

(** [u.RequestURI()] with a path. *)
Definition RequestURI (u : URL) : string :=
  urlEscape encodePath (u_path u) ++ (if String.eqb (u_rawQuery u) "" then "" else "?" ++ u_rawQuery u).

(** [url.ParseRequestURI] on a target that starts with a slash: the path and
    the raw query. *)
Definition isCTL (c : ascii) : bool := (byte_of c <? 32) || (byte_of c =? 127).
Definition ParseRequestURI (target : string) : option (string * string) :=
  if negb (HasPrefix target "/") || negb (sforall (fun c => negb (isCTL c)) target) then None else
  let '(rest, raw) := default (target, "") (cutAt 63 target) in
  option_map (fun p => (p, raw)) (urlUnescape encodePath rest).

(** ** What was escaped is read back *)

Lemma hex_upperhex d : 0 <= d < 16 -> hex_val (upperhex d) = Some d.
Proof.
  intros Hd. assert (d = 0 \/ d = 1 \/ d = 2 \/ d = 3 \/ d = 4 \/ d = 5 \/ d = 6 \/ d = 7 \/ d = 8 \/ d = 9 \/ d = 10 \/
    d = 11 \/ d = 12 \/ d = 13 \/ d = 14 \/ d = 15) as H by lia.
  repeat destruct H as [->|H]; try reflexivity. by subst.
Qed.

Lemma shouldEscape_percent mode : shouldEscape "%" mode = true.
Proof. by destruct mode. Qed.
Lemma shouldEscape_plus : shouldEscape "+" encodeQueryComponent = true.
Proof. done. Qed.

Lemma is_byte_of c : is_byte (byte_of c) c = true.
Proof. apply Z.eqb_refl. Qed.

Lemma is_byte_char c d : is_byte (byte_of d) c = true -> c = d.
Proof. intros ?%Z.eqb_eq. by apply byte_of_inj. Qed.

(** Unescaping undoes escaping, in every part of a URL. *)
Lemma unescape_escape mode s : urlUnescape mode (urlEscape mode s) = Some s.
Proof.
  induction s as [|c s IH]; [done|]. cbn [urlEscape]. destruct (is_byte 32 c && isQuery mode) eqn:Esp.
  - bools. apply (is_byte_char c " ") in H. subst c. cbn [urlUnescape]. change (is_byte 37 "+") with false. rewrite IH, H0. done.
  - destruct (shouldEscape c mode) eqn:Ee.
    + cbn [urlUnescape]. change (is_byte 37 "%") with true. pose proof (byte_of_range c).
      rewrite !hex_upperhex, IH by (split; [Z.div_mod_to_equations; lia|Z.div_mod_to_equations; lia]).
      simpl. rewrite <- Z.div_mod by done. by rewrite of_byte_of.
    + cbn [urlUnescape]. destruct (is_byte 37 c) eqn:E37.
      { apply (is_byte_char c "%") in E37. subst. by rewrite shouldEscape_percent in Ee. }
      rewrite IH. simpl. destruct (is_byte 43 c && isQuery mode) eqn:E43; [|done]. exfalso. bools.
      apply (is_byte_char c "+") in H. subst c. unfold isQuery in H0. bools. subst mode. done.
Qed.

(** A byte that is escaped and is no hexadecimal digit, percent or plus does
    not occur in what [escape] makes. *)
Definition separates (n : Z) : bool := existsb (Z.eqb n) [38; 59; 61].

Lemma upperhex_separates n d : separates n = true -> 0 <= d < 16 -> is_byte n (upperhex d) = false.
Proof.
  intros Hn Hd. apply Z.eqb_neq. unfold upperhex. unfold separates in Hn. simpl in Hn.
  destruct (Z.ltb_spec d 10); rewrite byte_of_of by lia; intros E; subst n;
    repeat (destruct (Z.eqb_spec (48 + d) _) || destruct (Z.eqb_spec (55 + d) _)); lia || done.
Qed.

Lemma escape_separates n s : separates n = true -> sforall (fun c => negb (is_byte n c)) (QueryEscape s) = true.
Proof.
  intros Hn. unfold QueryEscape. induction s as [|c s IH]; [done|]. cbn [urlEscape].
  destruct (is_byte 32 c && _); [|destruct (shouldEscape c _) eqn:Ee]; cbn [sforall]; rewrite IH, andb_true_r.
  - unfold separates in Hn. simpl in Hn. unfold is_byte. change (byte_of "+") with 43.
    by destruct (Z.eqb_spec 43 n) as [<-|].
  - pose proof (byte_of_range c). rewrite !upperhex_separates by (done || (split; Z.div_mod_to_equations; lia)).
    unfold separates in Hn. simpl in Hn. unfold is_byte. change (byte_of "%") with 37. by destruct (Z.eqb_spec 37 n) as [<-|].
  - apply negb_true_iff. destruct (is_byte n c) eqn:En; [|done]. exfalso. unfold is_byte in En. bools. subst n.
    unfold separates in Hn. simpl in Hn.
    destruct (Z.eqb_spec (byte_of c) 38) as [E|]; [|destruct (Z.eqb_spec (byte_of c) 59) as [E|]; [|destruct (Z.eqb_spec (byte_of c) 61) as [E|]; [|done]]].
    + assert (c = "&"%char) as -> by by apply byte_of_inj. done.
    + assert (c = ";"%char) as -> by by apply byte_of_inj. done.
    + assert (c = "="%char) as -> by by apply byte_of_inj. done.
Qed.

Lemma splitOn_absent n a : sforall (fun c => negb (is_byte n c)) a = true -> splitOn n a = [a].
Proof.
  induction a as [|c a IH]; [done|]. cbn [sforall splitOn]. unfold is_byte at 1.
  intros [H1%negb_true_iff H2]%andb_true_iff. by rewrite H1, IH.
Qed.

Lemma splitOn_app n d a s :
  sforall (fun c => negb (is_byte n c)) a = true -> byte_of d = n -> splitOn n (a ++ String d s) = a :: splitOn n s.
Proof.
  intros Ha <-. induction a as [|c a IH].
  - change ("" ++ String d s) with (String d s). cbn [splitOn]. by rewrite Z.eqb_refl.
  - rewrite sapp_cons. cbn [sforall splitOn] in *. unfold is_byte at 1 in Ha.
    apply andb_true_iff in Ha as [H1%negb_true_iff H2]. by rewrite H1, IH.
Qed.

Lemma cutAt_app n d a s :
  sforall (fun c => negb (is_byte n c)) a = true -> byte_of d = n -> cutAt n (a ++ String d s) = Some (a, s).
Proof.
  intros Ha <-. induction a as [|c a IH].
  - change ("" ++ String d s) with (String d s). cbn [cutAt]. by rewrite Z.eqb_refl.
  - rewrite sapp_cons. cbn [sforall cutAt] in *. unfold is_byte at 1 in Ha.
    apply andb_true_iff in Ha as [H1%negb_true_iff H2]. by rewrite H1, IH.
Qed.

Lemma cutAt_none n a : sforall (fun c => negb (is_byte n c)) a = true -> cutAt n a = None.
Proof. induction a as [|c a IH]; [done|]. cbn [sforall cutAt]. unfold is_byte at 1.
  intros [H1%negb_true_iff H2]%andb_true_iff. by rewrite H1, IH. Qed.

Lemma queryPart_plain n kv : n <> 61 -> separates n = true -> sforall (fun c => negb (is_byte n c)) (queryPart kv) = true.
Proof.
  intros Hn Hs. unfold queryPart. rewrite !sforall_app, !escape_separates by done. simpl. unfold is_byte.
  change (byte_of "=") with 61. by rewrite (proj2 (Z.eqb_neq 61 n)).
Qed.

Lemma parse_queryPart kv : parsePart (queryPart kv) = Some kv.
Proof.
  unfold parsePart, hasByte. rewrite queryPart_plain by done. cbn [negb orb].
  destruct (String.eqb_spec (queryPart kv) "") as [E|_].
  { exfalso. unfold queryPart in E. destruct (QueryEscape kv.1); done. }
  unfold queryPart. change ("=" ++ ?x) with (String "="%char x).
  rewrite cutAt_app by (done || by apply escape_separates). cbv [from_option id]. cbv beta iota.
  unfold QueryUnescape, QueryEscape. rewrite !unescape_escape. by destruct kv.
Qed.

Lemma splitOn_join l :
  l <> [] -> Forall (fun p => sforall (fun c => negb (is_byte 38 c)) p = true) l -> splitOn 38 (stringsJoin "&" l) = l.
Proof.
  induction l as [|p [|p' l] IH]; [done|..]; intros _ Hl; apply Forall_cons in Hl as [Hp Hl].
  - by apply splitOn_absent.
  - change (stringsJoin "&" (p :: p' :: l)) with (p ++ String "&"%char (stringsJoin "&" (p' :: l))).
    rewrite splitOn_app by done. by rewrite IH.
Qed.

Lemma omap_queryPart l : omap parsePart (map queryPart l) = l.
Proof.
  induction l as [|kv l IH]; [done|]. change (match parsePart (queryPart kv) with Some x => x :: omap parsePart (map queryPart l) | None => omap parsePart (map queryPart l) end = kv :: l).
  by rewrite parse_queryPart, IH.
Qed.

(** The server reads the parameters that were set, sorted by key. *)
Lemma ParseQuery_Encode q : ParseQuery (Encode q) = sort_by key_leb q.
Proof.
  unfold ParseQuery, Encode. destruct (sort_by key_leb q) as [|kv l] eqn:E; [done|]. rewrite splitOn_join; [|done|].
  - apply omap_queryPart.
  - apply Forall_forall. intros p (x & -> & _)%list_elem_of_fmap. by apply queryPart_plain.
Qed.

Lemma valuesGet_in q k v : NoDup (map fst q) -> (k, v) ∈ q -> valuesGet q k = v.
Proof.
  unfold valuesGet. induction q as [|[k' v'] q IH]; [set_solver|]. simpl. intros [Hn Hd]%NoDup_cons [E|Hin]%elem_of_cons.
  - injection E as <- <-. by rewrite String.eqb_refl.
  - destruct (String.eqb_spec k' k) as [->|]; [|by apply IH]. exfalso. apply Hn. apply list_elem_of_fmap. by exists (k, v).
Qed.

Lemma valuesGet_none q k : k ∉ map fst q -> valuesGet q k = "".
Proof.
  unfold valuesGet. induction q as [|[k' v'] q IH]; [done|]. simpl. intros Hn.
  destruct (String.eqb_spec k' k) as [->|]; [by destruct Hn; left|]. apply IH. intros Hk. apply Hn. by right.
Qed.

Lemma valuesGet_perm q q' k : NoDup (map fst q) -> q ≡ₚ q' -> valuesGet q k = valuesGet q' k.
Proof.
  intros Hd Hp. assert (NoDup (map fst q')) as Hd' by by rewrite <- Hp.
  destruct (decide (k ∈ map fst q)) as [((k' & v) & -> & Hin)%list_elem_of_fmap|Hn].
  - rewrite (valuesGet_in q _ v), (valuesGet_in q' _ v); [done..|by rewrite <- Hp|done|done].
  - rewrite (valuesGet_none q), (valuesGet_none q'); [done| |done]. by rewrite <- Hp.
Qed.

Lemma valuesGet_Encode q k : NoDup (map fst q) -> valuesGet (ParseQuery (Encode q)) k = valuesGet q k.
Proof.
  intros Hd. rewrite ParseQuery_Encode. symmetry. apply valuesGet_perm; [done|]. symmetry. apply sort_by_perm.
Qed.

Lemma valuesSet_NoDup k v q : NoDup (map fst q) -> NoDup (map fst (valuesSet k v q)).
Proof.
  intros Hd. unfold valuesSet. rewrite map_app. cbn [map]. apply NoDup_app. split; [|split].
  - induction q as [|[k' v'] q IH]; [done|]. simpl in *. apply NoDup_cons in Hd as [Hn Hd].
    destruct (String.eqb k' k); simpl; [by apply IH|]. apply NoDup_cons. split; [|by apply IH].
    intros (x & E & Hx)%list_elem_of_fmap. apply list_elem_of_In, List.filter_In in Hx as [Hx _].
    apply Hn. apply list_elem_of_fmap. exists x. split; [done|]. by apply list_elem_of_In.
  - intros x (y & -> & Hy)%list_elem_of_fmap Hx. apply list_elem_of_In, List.filter_In in Hy as [_ Hy]. cbn [fst] in *.
    apply list_elem_of_singleton in Hx. rewrite Hx, String.eqb_refl in Hy. done.
  - apply NoDup_singleton.
Qed.

(** ** The request line *)

Lemma unescaped_graphic mode c : shouldEscape c mode = false -> graphic c = true.
Proof. destruct mode, c as [[] [] [] [] [] [] [] []]; vm_compute; congruence. Qed.

Lemma upperhex_graphic d : 0 <= d < 16 -> graphic (upperhex d) = true.
Proof. intros Hd. unfold graphic, upperhex. destruct (Z.ltb_spec d 10); rewrite byte_of_of by lia; apply andb_true_iff; rewrite !Z.leb_le; lia. Qed.

Lemma escape_graphic mode s : sforall graphic (urlEscape mode s) = true.
Proof.
  induction s as [|c s IH]; [done|]. cbn [urlEscape]. destruct (_ && _); [by cbn [sforall]|].
  destruct (shouldEscape c mode) eqn:E; cbn [sforall]; rewrite IH.
  - pose proof (byte_of_range c). rewrite !upperhex_graphic by (split; Z.div_mod_to_equations; lia). done.
  - by rewrite (unescaped_graphic _ _ E).
Qed.

Lemma graphic_no_CTL s : sforall graphic s = true -> sforall (fun c => negb (isCTL c)) s = true.
Proof. apply sforall_impl. intros c. unfold graphic, isCTL. intros. bools. apply negb_true_iff, orb_false_iff. rewrite Z.ltb_ge, Z.eqb_neq. lia. Qed.

Lemma escape_no_question s : sforall (fun c => negb (is_byte 63 c)) (urlEscape encodePath s) = true.
Proof.
  induction s as [|c s IH]; [done|]. cbn [urlEscape]. rewrite andb_false_r.
  destruct (shouldEscape c encodePath) eqn:E; cbn [sforall]; rewrite IH, !andb_true_r.
  - pose proof (byte_of_range c) as Hc.
    assert (forall d, 0 <= d < 16 -> is_byte 63 (upperhex d) = false) as Hu.
    { intros d Hd. apply Z.eqb_neq. unfold upperhex. destruct (Z.ltb_spec d 10); rewrite byte_of_of by lia; lia. }
    rewrite !Hu by (split; Z.div_mod_to_equations; lia). done.
  - destruct (is_byte 63 c) eqn:E63; [|done]. apply (is_byte_char c "?") in E63. by subst.
Qed.

Lemma Encode_graphic q : sforall graphic (Encode q) = true.
Proof.
  unfold Encode. induction (sort_by key_leb q) as [|kv [|kv' l] IH]; [done|..].
  - cbn [map stringsJoin]. unfold queryPart, QueryEscape. by rewrite !sforall_app, !escape_graphic.
  - change (stringsJoin "&" (map queryPart (kv :: kv' :: l))) with (queryPart kv ++ "&" ++ stringsJoin "&" (map queryPart (kv' :: l))).
    rewrite !sforall_app, IH. unfold queryPart at 1, QueryEscape. by rewrite !sforall_app, !escape_graphic.
Qed.

Lemma urlEscape_slash mode p : mode <> encodePathSegment -> mode <> encodeQueryComponent ->
  urlEscape mode (String "/" p) = String "/" (urlEscape mode p).
Proof. by destruct mode. Qed.

(** A server reads the path and the query of the request line as they were. *)
Lemma ParseRequestURI_RequestURI u :
  HasPrefix (u_path u) "/" = true -> sforall graphic (u_rawQuery u) = true ->
  ParseRequestURI (RequestURI u) = Some (u_path u, u_rawQuery u).
Proof.
  intros Hp Hq. unfold ParseRequestURI, RequestURI. destruct (u_path u) as [|c p] eqn:Ep; [done|].
  assert (c = "/"%char) as ->.
  { unfold HasPrefix in Hp. cbn [String.prefix] in Hp. by destruct (ascii_dec "/" c). }
  rewrite urlEscape_slash by done. rewrite sapp_cons. change (HasPrefix (String "/" ?x) "/") with (String.prefix "" x).
  assert (forall x, String.prefix "" x = true) as Hpre by by intros []. rewrite Hpre. cbn [negb orb].
  pose proof (escape_no_question (String "/" p)) as Hn. rewrite urlEscape_slash in Hn by done.
  rewrite <- sapp_cons, <- (urlEscape_slash encodePath p) by done.
  destruct (String.eqb_spec (u_rawQuery u) "") as [E|E].
  - rewrite sapp_nil_r, (graphic_no_CTL _ (escape_graphic _ _)), cutAt_none by (rewrite urlEscape_slash; done).
    cbv [from_option negb]. rewrite unescape_escape. by rewrite E.
  - rewrite !sforall_app, !(graphic_no_CTL _ (escape_graphic _ _)), (graphic_no_CTL _ Hq).
    change ("?" ++ ?x) with (String "?" x). rewrite cutAt_app by (done || by rewrite urlEscape_slash).
    cbv [from_option negb id]. by rewrite unescape_escape.
Qed.
