(* ===== verification/Store.v ===== *)
(** * The database and the world the repository runs in

    The tables of [migrations/*.sql] as the rows of [sqlc/models.go], and the
    monad of the repository code: a state [World] (database, clock, random
    source, connection faults, code sequences) threaded through calls that
    return a value or an [error].  A failing call keeps the effects it had,
    as in Go; [withTx] is the pattern
    [tx := Begin(); defer tx.Rollback(); ...; tx.Commit()]. *)

From S2P Require Import Prelude GoBase Domain Codes.
From stdpp Require Import base gmap list strings.
From Stdlib Require Import ZArith Lia.

Local Open Scope string_scope.
Local Open Scope Z_scope.

(** ** Identifiers

    A UUID is its 128-bit value.  Its textual forms belong to PostgreSQL and
    [pgx]: an interface with the one law the code relies on.  The SHA-1 name
    UUID of [deterministicOutboxEventID] is a function of its input. *)

Definition UUID : Type := Z.

Class Platform : Type := {
  uuid_parse : string -> option UUID;
  uuid_text : UUID -> string;
  uuid_sha1 : UUID -> string -> UUID;
  uuid_parse_text : forall u, uuid_parse (uuid_text u) = Some u
}.

(** ** Rows *)

Record MerchantRow : Type := mkMerchantRow {
  mr_id : UUID; mr_no : string; mr_name : string;
  mr_budget : string; mr_receivable : string; mr_writeoff : option string;
  mr_auto_account : bool; mr_auto_customer : bool
}.

Record CustomerRow : Type := mkCustomerRow {
  cr_id : UUID; cr_no : string; cr_merchant : string;
  cr_out_user : string; cr_default : option string; cr_created : Time
}.

Record AccountRow : Type := mkAccountRow {
  ar_no : string; ar_merchant : string; ar_customer : option string;
  ar_type : string; ar_overdraft : bool; ar_limit : Z;
  ar_debit_out : bool; ar_credit_in : bool; ar_transfer : bool;
  ar_book : bool; ar_balance : Z; ar_created : Time
}.

Record BookRow : Type := mkBookRow {
  br_no : UUID; br_account : string; br_expire : Date; br_balance : Z
}.

Record TxnRow : Type := mkTxnRow {
  tr_no : UUID; tr_merchant : string; tr_out_trade : string;
  tr_biz : string; tr_scene : option string;
  tr_title : option string; tr_remark : option string;
  tr_debit : option string; tr_credit : option string;
  tr_expire : option Date; tr_amount : Z; tr_status : string;
  tr_refund_of : option UUID; tr_refundable : Z;
  tr_error_code : option string; tr_error_msg : option string;
  tr_created : Time; tr_updated : Time
}.

Record AccountChangeRow : Type := mkAccountChangeRow {
  ac_id : Z; ac_txn : UUID; ac_account : string;
  ac_delta : Z; ac_before : Z; ac_after : Z; ac_created : Time
}.

Record BookChangeRow : Type := mkBookChangeRow {
  bc_id : Z; bc_txn : UUID; bc_account : string; bc_book : UUID;
  bc_delta : Z; bc_before : Z; bc_after : Z; bc_expire : Date; bc_created : Time
}.

Record OutboxRow : Type := mkOutboxRow {
  ob_id : Z; ob_event : UUID; ob_txn : UUID; ob_merchant : string;
  ob_out_trade : option string; ob_status : string; ob_retry : Z;
  ob_next_retry : option Time; ob_created : Time; ob_updated : Time
}.

Record WebhookRow : Type := mkWebhookRow {
  wr_merchant : string; wr_url : string; wr_enabled : bool
}.

(** [merchant_api_credential], keyed by its unique (merchant, version). *)
Record CredentialRow : Type := mkCredentialRow {
  cd_cipher : string; cd_active : bool
}.

(** The tables of the admin console; [admin_setup_state] has at most the row
    with id 1. *)
Record AdminUserRow : Type := mkAdminUserRow {
  au_id : Z; au_name : string; au_hash : string; au_status : string; au_created : Time; au_updated : Time
}.

Record SetupStateRow : Type := mkSetupStateRow {
  ss_initialized : bool; ss_username : string; ss_merchant : string;
  ss_initialized_at : option Time; ss_created : Time; ss_updated : Time
}.

Record AuditRow : Type := mkAuditRow {
  al_id : Z; al_request : string; al_operator : string; al_action : string; al_target_type : string;
  al_target : string; al_merchant : string; al_payload : option string; al_code : string;
  al_message : string; al_created : Time
}.

Record AdminTables : Type := mkAdminTables {
  admin_users : gmap string AdminUserRow;
  audit_log : list AuditRow;                   (* oldest first *)
  setup_state : option SetupStateRow
}.

Definition set_admin_users u (a : AdminTables) : AdminTables := mkAdminTables u (audit_log a) (setup_state a).
Definition set_audit_log l (a : AdminTables) : AdminTables := mkAdminTables (admin_users a) l (setup_state a).
Definition set_setup_state s (a : AdminTables) : AdminTables := mkAdminTables (admin_users a) (audit_log a) s.

(** ** The database *)

Record DB : Type := mkDB {
  merchants : gmap string MerchantRow;
  customers : gmap string CustomerRow;
  accounts : gmap string AccountRow;
  books : gmap UUID BookRow;
  txns : gmap UUID TxnRow;
  account_changes : list AccountChangeRow;     (* oldest first *)
  book_changes : list BookChangeRow;           (* oldest first *)
  outbox : list OutboxRow;                     (* oldest first *)
  webhooks : gmap string WebhookRow;
  credentials : gmap (string * Z) CredentialRow;
  admin : AdminTables
}.

Definition emptyDB : DB := mkDB ∅ ∅ ∅ ∅ ∅ [] [] [] ∅ ∅ (mkAdminTables ∅ [] None).

Definition set_merchants m (d : DB) : DB :=
  mkDB m (customers d) (accounts d) (books d) (txns d) (account_changes d) (book_changes d) (outbox d) (webhooks d) (credentials d) (admin d).
Definition set_customers c (d : DB) : DB :=
  mkDB (merchants d) c (accounts d) (books d) (txns d) (account_changes d) (book_changes d) (outbox d) (webhooks d) (credentials d) (admin d).
Definition set_accounts a (d : DB) : DB :=
  mkDB (merchants d) (customers d) a (books d) (txns d) (account_changes d) (book_changes d) (outbox d) (webhooks d) (credentials d) (admin d).
Definition set_books b (d : DB) : DB :=
  mkDB (merchants d) (customers d) (accounts d) b (txns d) (account_changes d) (book_changes d) (outbox d) (webhooks d) (credentials d) (admin d).
Definition set_txns t (d : DB) : DB :=
  mkDB (merchants d) (customers d) (accounts d) (books d) t (account_changes d) (book_changes d) (outbox d) (webhooks d) (credentials d) (admin d).
Definition set_account_changes l (d : DB) : DB :=
  mkDB (merchants d) (customers d) (accounts d) (books d) (txns d) l (book_changes d) (outbox d) (webhooks d) (credentials d) (admin d).
Definition set_book_changes l (d : DB) : DB :=
  mkDB (merchants d) (customers d) (accounts d) (books d) (txns d) (account_changes d) l (outbox d) (webhooks d) (credentials d) (admin d).
Definition set_outbox o (d : DB) : DB :=
  mkDB (merchants d) (customers d) (accounts d) (books d) (txns d) (account_changes d) (book_changes d) o (webhooks d) (credentials d) (admin d).
Definition set_webhooks w (d : DB) : DB :=
  mkDB (merchants d) (customers d) (accounts d) (books d) (txns d) (account_changes d) (book_changes d) (outbox d) w (credentials d) (admin d).
Definition set_credentials c (d : DB) : DB :=
  mkDB (merchants d) (customers d) (accounts d) (books d) (txns d) (account_changes d) (book_changes d) (outbox d) (webhooks d) c (admin d).
Definition set_admin a (d : DB) : DB :=
  mkDB (merchants d) (customers d) (accounts d) (books d) (txns d) (account_changes d) (book_changes d) (outbox d) (webhooks d) (credentials d) a.

(** ** The world *)

(** What can happen to a round trip to the server: it works, it fails before
    the server acts, or the server acts and the answer is lost. *)
Inductive Fault : Type := NoFault | FailBefore | FailAfter.

Record World : Type := mkWorld {
  w_db : DB;
  w_txnow : Time;                            (* SQL NOW(): start of the transaction *)
  w_clock : Time;                            (* time.Now() *)
  w_ticks : list Z;                          (* how far the clock moves at each reading *)
  w_rand : list Z;                           (* reads of crypto/rand; exhausted = its error *)
  w_faults : list Fault;                     (* outcome of each round trip; exhausted = no fault *)
  w_seq : gmap (string * string) Z;          (* table code_sequence, written outside transactions *)
  w_seq_init : gset string;                  (* Repository.codeSequenceInitOnce *)
  w_buckets : gmap string codeBucket         (* dbCodeProvider.buckets *)
}.

Definition with_db (d : DB) (w : World) : World :=
  mkWorld d (w_txnow w) (w_clock w) (w_ticks w) (w_rand w) (w_faults w) (w_seq w) (w_seq_init w) (w_buckets w).
Definition with_txnow (t : Time) (w : World) : World :=
  mkWorld (w_db w) t (w_clock w) (w_ticks w) (w_rand w) (w_faults w) (w_seq w) (w_seq_init w) (w_buckets w).
Definition with_clock (t : Time) (ts : list Z) (w : World) : World :=
  mkWorld (w_db w) (w_txnow w) t ts (w_rand w) (w_faults w) (w_seq w) (w_seq_init w) (w_buckets w).
Definition with_rand (rs : list Z) (w : World) : World :=
  mkWorld (w_db w) (w_txnow w) (w_clock w) (w_ticks w) rs (w_faults w) (w_seq w) (w_seq_init w) (w_buckets w).
Definition with_faults (fs : list Fault) (w : World) : World :=
  mkWorld (w_db w) (w_txnow w) (w_clock w) (w_ticks w) (w_rand w) fs (w_seq w) (w_seq_init w) (w_buckets w).
Definition with_codes s i b (w : World) : World :=
  mkWorld (w_db w) (w_txnow w) (w_clock w) (w_ticks w) (w_rand w) (w_faults w) s i b.

(** ** The monad *)

Definition M (A : Type) : Type := World -> World * Result error A.

Definition ret {A} (a : A) : M A := fun w => (w, Ok a).
Definition throw {A} (e : error) : M A := fun w => (w, Err e).
Definition bind {A B} (m : M A) (k : A -> M B) : M B :=
  fun w => match m w with
           | (w1, Ok a) => k a w1
           | (w1, Err e) => (w1, Err e)
           end.

Declare Scope coin_scope.
Delimit Scope coin_scope with coin.
Notation "'let!' x := m 'in' k" := (bind m (fun x => k))
  (at level 10, x binder, m at level 100, k at level 200) : coin_scope.
Notation "'do!' m 'in' k" := (bind m (fun _ => k))
  (at level 10, m at level 100, k at level 200) : coin_scope.
#[global] Open Scope coin_scope.

(** [v, err := m] with the error inspected by the caller. *)
Definition attempt {A} (m : M A) : M (Result error A) :=
  fun w => let (w1, r) := m w in (w1, Ok r).

(** [if errors.Is(err, pgx.ErrNoRows) { return e }; if err != nil { return err }]. *)
Definition or_norows {A} (e : error) (m : M A) : M A :=
  fun w => match m w with
           | (w1, Err e0) => (w1, Err (if errors_is e0 ErrNoRows then e else e0))
           | ok => ok
           end.

(** [for _, x := range l { if err := f(x); err != nil { return err } }]. *)
Fixpoint forM {A} (l : list A) (f : A -> M unit) : M unit :=
  match l with
  | [] => ret tt
  | x :: l' => do! f x in forM l' f
  end.

(** [time.Now().UTC()]. *)
Definition timeNow : M Time :=
  fun w => let t := w_clock w + hd 0 (w_ticks w) in
           (with_clock t (tl (w_ticks w)) w, Ok t).

(** [rand.Read], [io.ReadFull(rand.Reader, ...)]: the caller takes the low bytes it asked for. *)
Definition randRead : M Z :=
  fun w => match w_rand w with
           | [] => (w, Err ErrRand)
           | r :: rs => (with_rand rs w, Ok r)
           end.

(** [t.UnixMilli()]. *)
Definition UnixMilli (t : Time) : Z := t / 1000000.

(** The sixteen bytes as one number: 48 bits of milliseconds, ten random
    bytes with the high bits of [raw[6]] and [raw[8]] set to version 7 and
    the RFC 4122 variant. *)
Definition uuidv7 (nowMs rnd : Z) : UUID :=
  let kept := Z.lor (Z.shiftl 0x0fff 64) (Z.sub (Z.shiftl 1 62) 1) in
  let marks := Z.lor (Z.shiftl 0x70 72) (Z.shiftl 0x80 56) in
  Z.lor (Z.shiftl (nowMs mod 281474976710656) 80) (Z.lor (Z.land rnd kept) marks).

(** [idpkg.NewRuntimeUUIDProvider().NewUUIDv7()]; [formatUUID] is [uuid_text]. *)
Definition NewUUIDv7 : M UUID :=
  let! now := timeNow in
  let! rnd := randRead in
  ret (uuidv7 (UnixMilli now) rnd).

(** ** Statements and transactions *)

(** A statement reads [NOW()] and the tables, and returns new tables. *)
Definition Q (A : Type) : Type := Time -> DB -> Result error (DB * A).

Definition pop_fault (w : World) : Fault * World :=
  (hd NoFault (w_faults w), with_faults (tl (w_faults w)) w).

(** One statement on an open connection. *)
Definition run {A} (q : Q A) : M A :=
  fun w =>
    let (f, w1) := pop_fault w in
    match f with
    | FailBefore => (w1, Err ErrConn)
    | _ =>
        match q (w_txnow w1) (w_db w1) with
        | Err e => (w1, Err (match f with NoFault => e | _ => ErrConn end))
        | Ok (d, a) => (with_db d w1, match f with NoFault => Ok a | _ => Err ErrConn end)
        end
    end.

(** The start of a transaction, or of a statement outside one, fixes [NOW()]. *)
Definition startNow : M unit :=
  fun w => match timeNow w with
           | (w1, Ok t) => (with_txnow t w1, Ok tt)
           | (w1, Err e) => (w1, Err e)
           end.

(** A statement issued on the pool ([r.queries], [r.pool]): its own transaction. *)
Definition auto {A} (q : Q A) : M A := do! startNow in run q.

(** [BeginTx ... defer Rollback ... Commit] around [body].  The body returns
    its value and the error it stops with, if any ([return result, err]). *)
Definition withTxE {A} (init : A) (body : World -> World * (A * option error)) (w : World)
    : World * (A * option error) :=
  let (f, w0) := pop_fault w in
  match f with
  | NoFault =>
      let w1 := (startNow w0).1 in
      let d0 := w_db w1 in
      match body w1 with
      | (w2, (a, Some e)) => (with_db d0 w2, (a, Some e))
      | (w2, (a, None)) =>
          let (f', w3) := pop_fault w2 in
          match f' with
          | NoFault => (w3, (a, None))
          | FailBefore => (with_db d0 w3, (a, Some ErrConn))
          | FailAfter => (w3, (a, Some ErrConn))
          end
      end
  | _ => (w0, (init, Some ErrConn))
  end.

(** The same for bodies that return nothing useful with an error. *)
Definition withTx {A} (zero : A) (body : M A) : M A :=
  fun w =>
    match withTxE zero (fun w1 => match body w1 with
                                  | (w2, Ok a) => (w2, (a, None))
                                  | (w2, Err e) => (w2, (zero, Some e))
                                  end) w with
    | (w', (a, None)) => (w', Ok a)
    | (w', (_, Some e)) => (w', Err e)
    end.

(** ** Inversion of successful runs *)

Lemma bind_ok {A B} (m : M A) (k : A -> M B) w w' b :
  bind m k w = (w', Ok b) -> exists w1 a, m w = (w1, Ok a) /\ k a w1 = (w', Ok b).
Proof. unfold bind. destruct (m w) as [w1 [e|a]]; [done|]. eauto. Qed.

Lemma bind_inv {A B} (m : M A) (k : A -> M B) w w' r :
  bind m k w = (w', r) ->
  (exists e, m w = (w', Err e) /\ r = Err e) \/
  (exists w1 a, m w = (w1, Ok a) /\ k a w1 = (w', r)).
Proof. unfold bind. destruct (m w) as [w1 [e|a]]; intros; simplify_eq; eauto. Qed.

Lemma or_norows_ok {A} e (m : M A) w w' a :
  or_norows e m w = (w', Ok a) -> m w = (w', Ok a).
Proof. unfold or_norows. destruct (m w) as [? []]; congruence. Qed.

Lemma attempt_ok {A} (m : M A) w w' r :
  attempt m w = (w', Ok r) -> m w = (w', r).
Proof. unfold attempt. destruct (m w). congruence. Qed.

Lemma run_ok {A} (q : Q A) w w' a :
  run q w = (w', Ok a) ->
  exists d, q (w_txnow w) (w_db w) = Ok (d, a)
    /\ w' = with_db d (with_faults (tl (w_faults w)) w).
Proof.
  unfold run, pop_fault. destruct (hd NoFault (w_faults w)); simpl; try done.
  - destruct (q _ _) as [e|[d x]]; [done|]. intros [= <- <-]. eauto.
  - destruct (q _ _) as [e|[d x]]; done.
Qed.

(** Whatever happens, a statement leaves the tables alone or applies itself. *)
Lemma run_db {A} (q : Q A) w w' r :
  run q w = (w', r) ->
  w_db w' = w_db w \/ exists d a, q (w_txnow w) (w_db w) = Ok (d, a) /\ w_db w' = d.
Proof.
  unfold run, pop_fault. destruct (hd NoFault (w_faults w)); simpl; intros H; simplify_eq/=;
    try (by left); destruct (q _ _) as [e|[d x]] eqn:E; simplify_eq/=; eauto.
Qed.

Lemma run_err {A} (q : Q A) w w' e :
  run q w = (w', Err e) -> e = ErrConn \/ q (w_txnow w) (w_db w) = Err e.
Proof.
  unfold run, pop_fault. destruct (hd NoFault (w_faults w)); simpl; intros H; simplify_eq/=; auto;
    destruct (q _ _) as [e'|[d x]] eqn:E; simplify_eq/=; auto.
Qed.

Lemma timeNow_ok w w' t :
  timeNow w = (w', Ok t) -> w_db w' = w_db w /\ w_txnow w' = w_txnow w.
Proof. unfold timeNow. intros. by simplify_eq/=. Qed.

Lemma NewUUIDv7_ok w w' u :
  NewUUIDv7 w = (w', Ok u) -> w_db w' = w_db w /\ w_txnow w' = w_txnow w.
Proof. unfold NewUUIDv7, randRead, bind, timeNow, ret. simpl. destruct (w_rand w); intros; by simplify_eq/=. Qed.

(** A transaction that reports an error changed nothing, unless it was the
    answer to [COMMIT] that got lost; one that succeeds kept its body's tables. *)
Lemma withTxE_inv {A} (init : A) body w w' a oe :
  withTxE init body w = (w', (a, oe)) ->
  (w_db w' = w_db w /\ oe <> None) \/
  (exists w1 w2, w_db w1 = w_db w /\ body w1 = (w2, (a, None)) /\ w_db w' = w_db w2
     /\ (oe = None \/ oe = Some ErrConn)).
Proof.
  unfold withTxE, pop_fault. destruct (hd NoFault (w_faults w)); simpl; intros H;
    try (by simplify_eq/=; left).
  match type of H with context [body ?x] => set (w1 := x) in H end.
  assert (w_db w1 = w_db w) as Hw1 by reflexivity.
  destruct (body w1) as [w2 [x [e|]]] eqn:E; simpl in H.
  - simplify_eq. left. by simpl.
  - destruct (hd NoFault (w_faults w2)); simplify_eq/=; [| |].
    + right. exists w1, w2. auto.
    + left. by simpl.
    + right. exists w1, w2. auto.
Qed.

Lemma withTx_inv {A} (zero : A) (body : M A) w w' r :
  withTx zero body w = (w', r) ->
  (w_db w' = w_db w /\ is_ok r = false) \/
  (exists w1 w2 a, w_db w1 = w_db w /\ body w1 = (w2, Ok a) /\ w_db w' = w_db w2
     /\ (r = Ok a \/ r = Err ErrConn)).
Proof.
  unfold withTx. destruct (withTxE _ _ w) as [w0 [a oe]] eqn:E.
  apply withTxE_inv in E as [[Hdb Hoe]|(w1 & w2 & Hdb & Hb & Hdb' & Hoe)].
  - destruct oe; [|done]. intros. simplify_eq. by left.
  - intros H. right. destruct (body w1) as [w3 [e|x]] eqn:Eb; simplify_eq.
    destruct Hoe as [->| ->]; simplify_eq; eauto 10.
Qed.


(** ** Inversion automation

    [steps] takes apart every run in the context known to end in [Ok]. *)

Lemma run_Ok {A} (q : Q A) w w' a :
  run q w = (w', Ok a) ->
  q (w_txnow w) (w_db w) = Ok (w_db w', a) /\ w_txnow w' = w_txnow w.
Proof. intros (d & Hq & ->)%run_ok. done. Qed.

Lemma attempt_run_Err {A} (q : Q A) w w' e :
  run q w = (w', Err e) -> e <> ErrConn -> w_db w' = w_db w /\ w_txnow w' = w_txnow w.
Proof.
  unfold run, pop_fault. destruct (hd NoFault (w_faults w)); simpl; intros H; simplify_eq/=; try done;
    destruct (q _ _) as [e'|[d x]]; intros; by simplify_eq/=.
Qed.

Lemma ret_ok {A} (a b : A) w w' : ret a w = (w', Ok b) -> w' = w /\ b = a.
Proof. unfold ret. intros. by simplify_eq. Qed.

Lemma throw_ok {A} e (a : A) w w' : throw e w = (w', Ok a) -> False.
Proof. done. Qed.

Lemma attempt_bind_ok {A B} (m : M A) (k : Result error A -> M B) w w' b :
  bind (attempt m) k w = (w', Ok b) ->
  exists w1 r, m w = (w1, r) /\ k r w1 = (w', Ok b).
Proof. unfold bind, attempt. destruct (m w) as [w1 r]. eauto. Qed.

Ltac step :=
  match goal with
  | H : bind (attempt _) _ _ = (_, Ok _) |- _ => apply attempt_bind_ok in H as (? & ? & ? & H)
  | H : bind _ _ _ = (_, Ok _) |- _ => apply bind_ok in H as (? & ? & ? & H)
  | H : run _ _ = (_, Ok _) |- _ => apply run_Ok in H as [? ?]
  | H : or_norows _ _ _ = (_, Ok _) |- _ => apply or_norows_ok in H
  | H : ret _ _ = (_, Ok _) |- _ => apply ret_ok in H as [? ?]; subst
  | H : throw _ _ = (_, Ok _) |- _ => exfalso; exact (throw_ok _ _ _ _ H)
  | H : timeNow _ = (_, Ok _) |- _ => apply timeNow_ok in H as [? ?]
  | H : NewUUIDv7 _ = (_, Ok _) |- _ => apply NewUUIDv7_ok in H as [? ?]
  end.
Ltac steps := repeat step.

(** ** Computations that leave the tables alone *)

Definition pureQ {A} (q : Q A) : Prop := forall t d d' a, q t d = Ok (d', a) -> d' = d.
Definition keeps {A} (m : M A) : Prop := forall w, w_db (m w).1 = w_db w.

Lemma keeps_run {A} (q : Q A) : pureQ q -> keeps (run q).
Proof.
  intros Hq w. destruct (run q w) as [w' r] eqn:E. simpl.
  apply run_db in E as [E|(d & a & E & <-)]; [done|]. by eapply Hq.
Qed.

Lemma keeps_bind {A B} (m : M A) (k : A -> M B) : keeps m -> (forall a, keeps (k a)) -> keeps (bind m k).
Proof.
  intros Hm Hk w. unfold bind. specialize (Hm w). destruct (m w) as [w1 [e|a]]; [done|].
  simpl in Hm. by rewrite (Hk a w1).
Qed.

Lemma keeps_ret {A} (a : A) : keeps (ret a).
Proof. done. Qed.
Lemma keeps_throw {A} e : keeps (throw e : M A).
Proof. done. Qed.
Lemma keeps_timeNow : keeps timeNow.
Proof. done. Qed.
Lemma keeps_NewUUIDv7 : keeps NewUUIDv7.
Proof. intros w. unfold NewUUIDv7, randRead, bind, timeNow. simpl. by destruct (w_rand w). Qed.
Lemma keeps_or_norows {A} e (m : M A) : keeps m -> keeps (or_norows e m).
Proof. intros Hm w. unfold or_norows. specialize (Hm w). by destruct (m w) as [? []]. Qed.
Lemma keeps_attempt {A} (m : M A) : keeps m -> keeps (attempt m).
Proof. intros Hm w. unfold attempt. specialize (Hm w). by destruct (m w). Qed.
Lemma keeps_auto {A} (q : Q A) : pureQ q -> keeps (auto q).
Proof. intros Hq. apply keeps_bind; [done|]. intros _. by apply keeps_run. Qed.

Lemma keeps_ok {A} (m : M A) w w' r : keeps m -> m w = (w', r) -> w_db w' = w_db w.
Proof. intros Hm E. specialize (Hm w). by rewrite E in Hm. Qed.

#[export] Hint Resolve keeps_run keeps_bind keeps_ret keeps_throw keeps_timeNow keeps_NewUUIDv7
  keeps_or_norows keeps_attempt keeps_auto : coin.

(** Proves [keeps m] by the structure of [m]. *)
Ltac keep :=
  repeat first
    [ progress intros
    | progress cbv beta zeta
    | solve [eauto 2 with coin nocore]
    | apply keeps_bind | apply keeps_or_norows | apply keeps_attempt
    | apply keeps_run | apply keeps_auto | apply keeps_ret | apply keeps_throw
    | match goal with |- keeps (match ?x with _ => _ end) => destruct x end
    | match goal with |- keeps (match ?x with _ => _ end _) => destruct x end ].

(** ** UUIDs of version 7 ([internal/platform/id/runtime.go])

    What [NewUUIDv7] of [Store] promises: the layout of RFC 9562 and the order
    of the identifiers in time. *)

(** The three fixed fields: time, version, variant. *)
Lemma uuidv7_time ms r : Z.shiftr (uuidv7 ms r) 80 = ms mod 281474976710656.
Proof.
  unfold uuidv7. cbv zeta. rewrite !Z.shiftr_lor, Z.shiftr_land, Z.shiftr_shiftl_l by lia.
  change (Z.shiftr (Z.lor (Z.shiftl 0x0fff 64) (Z.shiftl 1 62 - 1)) 80) with 0.
  change (Z.lor (Z.shiftr (Z.shiftl 0x70 72) 80) (Z.shiftr (Z.shiftl 0x80 56) 80)) with 0.
  rewrite Z.land_0_r, !Z.lor_0_r. apply Z.shiftl_0_r.
Qed.

Lemma land_low m k n : 0 <= n <= k -> Z.land (Z.shiftl m k) (Z.ones n) = 0.
Proof.
  intros Hn. rewrite Z.land_ones, Z.shiftl_mul_pow2 by lia.
  replace (2 ^ k) with (2 ^ (k - n) * 2 ^ n) by (rewrite <- Z.pow_add_r by lia; f_equal; lia).
  rewrite Z.mul_assoc. apply Z.mod_mul. lia.
Qed.

Lemma uuidv7_version ms r : Z.land (Z.shiftr (uuidv7 ms r) 76) 15 = 7.
Proof.
  unfold uuidv7. cbv zeta. rewrite !Z.shiftr_lor, Z.shiftr_land, Z.shiftr_shiftl_l by lia.
  change (Z.lor (Z.shiftr (Z.shiftl 0x70 72) 76) (Z.shiftr (Z.shiftl 0x80 56) 76)) with 7.
  change (Z.shiftr (Z.lor (Z.shiftl 0x0fff 64) (Z.shiftl 1 62 - 1)) 76) with 0.
  rewrite Z.land_0_r, Z.lor_0_l, Z.land_lor_distr_l. change 15 with (Z.ones 4). by rewrite land_low by lia.
Qed.

Lemma uuidv7_variant ms r : Z.land (Z.shiftr (uuidv7 ms r) 62) 3 = 2.
Proof.
  unfold uuidv7. cbv zeta. rewrite !Z.shiftr_lor, Z.shiftr_land, Z.shiftr_shiftl_l by lia.
  rewrite Z.land_lor_distr_l, (Z.land_lor_distr_l (Z.land _ _)). change 3 with (Z.ones 2) at 1.
  rewrite land_low, <- Z.land_assoc by lia.
  change (Z.land (Z.shiftr (Z.lor (Z.shiftl 0x0fff 64) (Z.shiftl 1 62 - 1)) 62) 3) with 0. by rewrite Z.land_0_r.
Qed.

(** What a call that succeeds returns. *)
Lemma NewUUIDv7_value w w' u :
  NewUUIDv7 w = (w', Ok u) -> exists r, u = uuidv7 (UnixMilli (w_clock w')) r.
Proof.
  unfold NewUUIDv7, bind, timeNow, randRead, ret. simpl. destruct (w_rand w) as [|r rs]; intros; simplify_eq/=. eauto.
Qed.

(** New UUIDs are of version 7 and variant 10, and sort by the
    millisecond in which they were drawn, whatever the random bytes. *)
Lemma uuids_time_ordered w1 w1' u1 w2 w2' u2 :
  NewUUIDv7 w1 = (w1', Ok u1) -> NewUUIDv7 w2 = (w2', Ok u2) ->
  Z.land (Z.shiftr u1 76) 15 = 7 /\ Z.land (Z.shiftr u1 62) 3 = 2 /\
  (0 <= UnixMilli (w_clock w1') < UnixMilli (w_clock w2') ->
   UnixMilli (w_clock w2') < 281474976710656 -> u1 < u2).
Proof.
  intros [r1 ->]%NewUUIDv7_value [r2 ->]%NewUUIDv7_value.
  split; [apply uuidv7_version|]. split; [apply uuidv7_variant|]. intros Hlt Hmax.
  pose proof (uuidv7_time (UnixMilli (w_clock w1')) r1) as H1.
  pose proof (uuidv7_time (UnixMilli (w_clock w2')) r2) as H2.
  rewrite Z.mod_small in H1, H2 by lia. rewrite !Z.shiftr_div_pow2 in H1, H2 by lia.
  rewrite <- H1, <- H2 in Hlt. destruct (Z_lt_le_dec (uuidv7 (UnixMilli (w_clock w1')) r1) (uuidv7 (UnixMilli (w_clock w2')) r2)); [done|].
  pose proof (Z.div_le_mono (uuidv7 (UnixMilli (w_clock w2')) r2) (uuidv7 (UnixMilli (w_clock w1')) r1) (2 ^ 80) ltac:(lia) ltac:(lia)). lia.
Qed.
