(* ===== verification/Queries.v ===== *)
(** * The SQL statements of [sqlc/queries.sql.go]

    One definition per statement, over the tables of [Store].  The declared
    constraints of [migrations/*.up.sql] (CHECK, UNIQUE, NOT NULL, column
    widths, BIGINT range) are the errors a statement can report. *)

From S2P Require Import Prelude GoBase Domain Codes Store.
From stdpp Require Import base gmap list strings.
From Stdlib Require Import ZArith Lia Ascii.

Local Open Scope string_scope.
Local Open Scope Z_scope.

(** ** SQL values *)

Definition uniqueViolation : error := PgError "23505".
Definition checkViolation : error := PgError "23514".
Definition notNullViolation : error := PgError "23502".
Definition outOfRange : error := PgError "22003".
Definition tooLong : error := PgError "22001".
Definition badText : error := PgError "22P02".

(** [NULLIF(v, '')], [nullableText] and [nullIfEmpty]. *)
Definition nullIfEmpty (v : string) : option string :=
  if String.eqb v "" then None else Some v.
Definition nullableText (v : string) : option string := nullIfEmpty v.

Lemma nullableText_some v w : nullableText v = Some w -> v = w.
Proof. unfold nullableText, nullIfEmpty. destruct (String.eqb _ _); congruence. Qed.

(** [COALESCE(v, '')]. *)
Definition coalesce (v : option string) : string := default "" v.

(** [BTRIM(v)]: leading and trailing blanks only. *)
Fixpoint blank_prefix (s : string) : string :=
  match s with
  | String " "%char s' => blank_prefix s'
  | _ => s
  end.
Definition BTRIM (s : string) : string := srev (blank_prefix (srev (blank_prefix s))).

Section Text.
Context `{Platform}.

(** [NULLIF(v, '')::uuid]. *)
Definition castUUID (v : string) : Result error (option UUID) :=
  if String.eqb v "" then Ok None
  else match uuid_parse v with Some u => Ok (Some u) | None => Err badText end.

(** [$n::uuid] on a text parameter. *)
Definition castUUIDs (l : list string) : option (list UUID) := mapM uuid_parse l.

(** [parseUUID] of repository.go ([pgtype.UUID.Scan] on the trimmed text). *)
Definition parseUUID (v : string) : Result error UUID :=
  match uuid_parse (TrimSpace v) with
  | Some u => Ok u
  | None => Err (ErrText "cannot parse UUID")
  end.
End Text.

(** Column constraints. *)
Definition digits_exactly (n : Z) (v : string) : bool := (slen v =? n) && sforall is_digit v.
Definition isAccountNo (v : string) : bool := digits_exactly 19 v.
Definition isMerchantNo (v : string) : bool := digits_exactly 16 v.
Definition varchar (n : Z) (v : string) : bool := utf8_len v <=? n.
Definition ovarchar (n : Z) (v : option string) : bool :=
  match v with Some s => varchar n s | None => true end.
Definition ochk (p : string -> bool) (v : option string) : bool :=
  match v with Some s => p s | None => true end.

(** The column pattern [[A-Za-z0-9_\\-]{1,64}] (a backslash is in the class). *)
Definition out_trade_char (c : Ascii.ascii) : bool :=
  let b := byte_of c in
  ((65 <=? b) && (b <=? 90)) || ((97 <=? b) && (b <=? 122)) || ((48 <=? b) && (b <=? 57))
  || (b =? 95) || (b =? 92) || (b =? 45).
Definition outTradeColumn (v : string) : bool :=
  (1 <=? slen v) && (slen v <=? 64) && sforall out_trade_char v.

Definition guardQ {A} (b : bool) (e : error) (k : Result error A) : Result error A :=
  if b then k else Err e.

(** BIGINT addition. *)
Definition bigintAdd (a b : Z) : Result error Z :=
  if in64b (a + b) then Ok (a + b) else Err outOfRange.

(** ** Field updates of rows *)

Definition ar_set_balance (v : Z) (r : AccountRow) : AccountRow :=
  mkAccountRow (ar_no r) (ar_merchant r) (ar_customer r) (ar_type r) (ar_overdraft r) (ar_limit r)
    (ar_debit_out r) (ar_credit_in r) (ar_transfer r) (ar_book r) v (ar_created r).
Definition ar_set_caps (d c t : bool) (r : AccountRow) : AccountRow :=
  mkAccountRow (ar_no r) (ar_merchant r) (ar_customer r) (ar_type r) (ar_overdraft r) (ar_limit r)
    d c t (ar_book r) (ar_balance r) (ar_created r).
Definition br_set_balance (v : Z) (r : BookRow) : BookRow :=
  mkBookRow (br_no r) (br_account r) (br_expire r) v.
Definition mr_set_writeoff (v : option string) (r : MerchantRow) : MerchantRow :=
  mkMerchantRow (mr_id r) (mr_no r) (mr_name r) (mr_budget r) (mr_receivable r) v
    (mr_auto_account r) (mr_auto_customer r).
Definition mr_set_features (a c : bool) (r : MerchantRow) : MerchantRow :=
  mkMerchantRow (mr_id r) (mr_no r) (mr_name r) (mr_budget r) (mr_receivable r) (mr_writeoff r) a c.
Definition cr_set_default (v : option string) (r : CustomerRow) : CustomerRow :=
  mkCustomerRow (cr_id r) (cr_no r) (cr_merchant r) (cr_out_user r) v (cr_created r).
Definition tr_set_status (st : string) (code msg : option string) (now : Time) (r : TxnRow) : TxnRow :=
  mkTxnRow (tr_no r) (tr_merchant r) (tr_out_trade r) (tr_biz r) (tr_scene r) (tr_title r) (tr_remark r)
    (tr_debit r) (tr_credit r) (tr_expire r) (tr_amount r) st (tr_refund_of r) (tr_refundable r)
    code msg (tr_created r) now.
Definition tr_set_refundable (v : Z) (now : Time) (r : TxnRow) : TxnRow :=
  mkTxnRow (tr_no r) (tr_merchant r) (tr_out_trade r) (tr_biz r) (tr_scene r) (tr_title r) (tr_remark r)
    (tr_debit r) (tr_credit r) (tr_expire r) (tr_amount r) (tr_status r) (tr_refund_of r) v
    (tr_error_code r) (tr_error_msg r) (tr_created r) now.
Definition tr_set_parties (d c : option string) (now : Time) (r : TxnRow) : TxnRow :=
  mkTxnRow (tr_no r) (tr_merchant r) (tr_out_trade r) (tr_biz r) (tr_scene r) (tr_title r) (tr_remark r)
    d c (tr_expire r) (tr_amount r) (tr_status r) (tr_refund_of r) (tr_refundable r)
    (tr_error_code r) (tr_error_msg r) (tr_created r) now.

(** ** Accounts *)

(** [one]: the row found, or [pgx.ErrNoRows]. *)
Definition one {A} (o : option A) : Q A :=
  fun _ d => match o with Some a => Ok (d, a) | None => Err ErrNoRows end.

Definition GetAccountByNo (no : string) : Q AccountRow := fun t d => one (accounts d !! no) t d.

(** The row lock is implicit: transactions run one after the other. *)
Definition GetAccountForUpdateByNo (no : string) : Q AccountRow :=
  fun t d => one (accounts d !! no) t d.

Record CreateAccountParams : Type := mkCreateAccountParams {
  cap_no : string; cap_merchant : string; cap_customer : option string; cap_type : string;
  cap_overdraft : bool; cap_limit : Z; cap_debit_out : bool; cap_credit_in : bool;
  cap_transfer : bool; cap_book : bool
}.

Definition CreateAccount (p : CreateAccountParams) : Q unit := fun now d =>
  guardQ (varchar 19 (cap_no p) && varchar 16 (cap_merchant p)
          && ovarchar 16 (cap_customer p) && varchar 32 (cap_type p)) tooLong
  (guardQ ((0 <=? cap_limit p) && isAccountNo (cap_no p) && isMerchantNo (cap_merchant p)
          && ochk isMerchantNo (cap_customer p)) checkViolation
  (match accounts d !! cap_no p with
   | Some _ => Err uniqueViolation
   | None =>
       Ok (set_accounts
             (<[cap_no p := mkAccountRow (cap_no p) (cap_merchant p) (cap_customer p) (cap_type p)
                  (cap_overdraft p) (cap_limit p) (cap_debit_out p) (cap_credit_in p)
                  (cap_transfer p) (cap_book p) 0 now]> (accounts d)) d, tt)
   end)).

Definition UpdateAccountBalance (balance : Z) (no : string) : Q unit := fun _ d =>
  Ok (set_accounts (alter (ar_set_balance balance) no (accounts d)) d, tt).

Definition UpdateAccountCapabilities (debitOut creditIn transfer : bool) (no : string) : Q unit :=
  fun _ d => Ok (set_accounts (alter (ar_set_caps debitOut creditIn transfer) no (accounts d)) d, tt).

Definition TryCreditAccountBalanceNonBookRefund (amount : Z) (no : string) : Q Z := fun _ d =>
  match accounts d !! no with
  | Some r =>
      if ar_book r then Err ErrNoRows else
      match bigintAdd (ar_balance r) amount with
      | Ok v => Ok (set_accounts (<[no := ar_set_balance v r]> (accounts d)) d, v)
      | Err e => Err e
      end
  | None => Err ErrNoRows
  end.

(** ** Account books *)

(** The book of an account for a day: [UNIQUE (account_no, expire_at)]. *)
Definition book_at (no : string) (e : Date) (kv : UUID * BookRow) : bool :=
  String.eqb (br_account kv.2) no && (br_expire kv.2 =? e).

Definition find_book (no : string) (e : Date) (m : gmap UUID BookRow) : option (UUID * BookRow) :=
  head (List.filter (book_at no e) (map_to_list m)).

Definition GetAccountBookForUpdateByAccountExpire (no : string) (e : Date) : Q BookRow :=
  fun t d => one (snd <$> find_book no e (books d)) t d.

(** [ORDER BY (expire_at = no_expire), expire_at, book_no]. *)
Definition fefo_leb (noExpire : Date) (a b : BookRow) : bool :=
  let ca := br_expire a =? noExpire in
  let cb := br_expire b =? noExpire in
  if Bool.eqb ca cb then
    if br_expire a =? br_expire b then br_no a <=? br_no b else br_expire a <? br_expire b
  else negb ca.

(** [ORDER BY expire_at, book_no]. *)
Definition expire_leb (a b : BookRow) : bool :=
  if br_expire a =? br_expire b then br_no a <=? br_no b else br_expire a <? br_expire b.

Definition book_rows (d : DB) : list BookRow := snd <$> map_to_list (books d).

Definition availableBook (no : string) (today noExpire : Date) (b : BookRow) : bool :=
  String.eqb (br_account b) no
  && (((today <? br_expire b) && (0 <? br_balance b)) || (br_expire b =? noExpire)).

Definition ListAvailableAccountBooksForUpdate (no : string) (today noExpire : Date) : Q (list BookRow) :=
  fun _ d => Ok (d, sort_by (fefo_leb noExpire) (List.filter (availableBook no today noExpire) (book_rows d))).

Definition expiredBook (no : string) (today noExpire : Date) (b : BookRow) : bool :=
  String.eqb (br_account b) no
  && ((br_expire b <=? today) && negb (br_expire b =? noExpire) && (0 <? br_balance b)).

Definition ListExpiredPositiveAccountBooksForUpdate (no : string) (today noExpire : Date) : Q (list BookRow) :=
  fun _ d => Ok (d, sort_by expire_leb (List.filter (expiredBook no today noExpire) (book_rows d))).

Definition GetAvailableAccountBookBalanceSum (no : string) (today noExpire : Date) : Q Z :=
  fun _ d =>
    let s := sum_by br_balance
               (List.filter (fun b => String.eqb (br_account b) no
                                 && ((today <? br_expire b) || (br_expire b =? noExpire)))
                       (book_rows d)) in
    if in64b s then Ok (d, s) else Err outOfRange.

Section Books.
Context `{Platform}.

(** [INSERT ... ON CONFLICT (account_no, expire_at) DO UPDATE]. *)
Definition UpsertAccountBookBalance (bookNo : string) (no : string) (e : Date) (delta : Z) : Q BookRow :=
  fun _ d =>
    match castUUID bookNo with
    | Err er => Err er
    | Ok None => Err notNullViolation
    | Ok (Some u) =>
        guardQ (varchar 19 no) tooLong
        (guardQ (isAccountNo no) checkViolation
        (match find_book no e (books d) with
         | Some (k, b) =>
             match bigintAdd (br_balance b) delta with
             | Ok v => let b' := br_set_balance v b in
                       Ok (set_books (<[k := b']> (books d)) d, b')
             | Err er => Err er
             end
         | None =>
             match books d !! u with
             | Some _ => Err uniqueViolation
             | None => let b := mkBookRow u no e delta in
                       Ok (set_books (<[u := b]> (books d)) d, b)
             end
         end))
    end.

(** [UPDATE account_book ... FROM payload ... RETURNING]: each book named by
    the payload moves once, by the first delta given for it. *)
Fixpoint batchUpdate (seen : list UUID) (payload : list (UUID * Z)) (m : gmap UUID BookRow)
    : Result error (gmap UUID BookRow * list (UUID * Z)) :=
  match payload with
  | [] => Ok (m, [])
  | (u, delta) :: rest =>
      if existsb (Z.eqb u) seen then batchUpdate seen rest m else
      match m !! u with
      | None => batchUpdate (u :: seen) rest m
      | Some b =>
          match bigintAdd (br_balance b) delta with
          | Err e => Err e
          | Ok v =>
              match batchUpdate (u :: seen) rest (<[u := br_set_balance v b]> m) with
              | Err e => Err e
              | Ok (m', rows) => Ok (m', (u, v) :: rows)
              end
          end
      end
  end.

Definition BatchUpdateAccountBookBalances (bookNos : list string) (deltas : list Z) : Q (list (UUID * Z)) :=
  fun _ d =>
    match castUUIDs bookNos with
    | None => Err badText
    | Some us =>
        match batchUpdate [] (zip us deltas) (books d) with
        | Err e => Err e
        | Ok (m, rows) => Ok (set_books m d, rows)
        end
    end.
End Books.

(** ** Change logs *)

Record InsertAccountChangeParams : Type := mkInsertAccountChangeParams {
  iac_txn : UUID; iac_account : string; iac_delta : Z; iac_before : Z; iac_after : Z
}.

Definition InsertAccountChange (p : InsertAccountChangeParams) : Q unit := fun now d =>
  guardQ (varchar 19 (iac_account p)) tooLong
  (guardQ (isAccountNo (iac_account p)) checkViolation
  (Ok (set_account_changes
         (account_changes d ++
          [mkAccountChangeRow (Z.of_nat (length (account_changes d)) + 1) (iac_txn p) (iac_account p)
             (iac_delta p) (iac_before p) (iac_after p) now]) d, tt))).

Record InsertAccountBookChangeParams : Type := mkInsertAccountBookChangeParams {
  ibc_txn : UUID; ibc_account : string; ibc_book : UUID;
  ibc_delta : Z; ibc_before : Z; ibc_after : Z; ibc_expire : Date
}.

Definition InsertAccountBookChange (p : InsertAccountBookChangeParams) : Q unit := fun now d =>
  guardQ (varchar 19 (ibc_account p)) tooLong
  (guardQ (isAccountNo (ibc_account p)) checkViolation
  (Ok (set_book_changes
         (book_changes d ++
          [mkBookChangeRow (Z.of_nat (length (book_changes d)) + 1) (ibc_txn p) (ibc_account p)
             (ibc_book p) (ibc_delta p) (ibc_before p) (ibc_after p) (ibc_expire p) now]) d, tt))).

(** [ORDER BY change_id]: the log is kept in that order. *)
Definition ListOriginDebitBookChanges (txn : UUID) (account : string) : Q (list BookChangeRow) :=
  fun _ d =>
    Ok (d, List.filter (fun c => (bc_txn c =? txn) && String.eqb (bc_account c) account
                                 && (bc_delta c <? 0)) (book_changes d)).

(** ** Merchants and customers *)

Definition GetMerchantByNo (no : string) : Q MerchantRow := fun t d => one (merchants d !! no) t d.
Definition GetMerchantForUpdateByNo (no : string) : Q MerchantRow :=
  fun t d => one (merchants d !! no) t d.

Definition mapExists {K V} `{Countable K} (p : V -> bool) (m : gmap K V) : bool :=
  existsb (fun kv => p kv.2) (map_to_list m).

Definition CreateMerchant (id : UUID) (no name budget receivable : string) (writeoff : option string)
    : Q unit := fun _ d =>
  guardQ (varchar 16 no && varchar 19 budget && varchar 19 receivable && ovarchar 19 writeoff) tooLong
  (guardQ (isMerchantNo no && isAccountNo budget && isAccountNo receivable) checkViolation
  (if mapExists (fun m => mr_id m =? id) (merchants d)
      || (match merchants d !! no with Some _ => true | None => false end)
      || (match writeoff with
          | Some w => mapExists (fun m => bool_decide (mr_writeoff m = Some w)) (merchants d)
          | None => false
          end)
   then Err uniqueViolation
   else Ok (set_merchants
              (<[no := mkMerchantRow id no name budget receivable writeoff true true]> (merchants d)) d, tt))).

Definition UpdateMerchantWriteoffAccountNo (writeoff : option string) (no : string) : Q unit := fun _ d =>
  guardQ (ovarchar 19 writeoff) tooLong
  (match merchants d !! no with
   | None => Ok (d, tt)
   | Some r =>
       if match writeoff with
          | Some w => mapExists (fun m => bool_decide (mr_writeoff m = Some w) && negb (String.eqb (mr_no m) no))
                        (merchants d)
          | None => false
          end
       then Err uniqueViolation
       else Ok (set_merchants (<[no := mr_set_writeoff writeoff r]> (merchants d)) d, tt)
   end).

Definition CreateCustomer (id : UUID) (no merchant outUser : string) (dflt : option string) : Q unit :=
  fun now d =>
  guardQ (varchar 16 no && varchar 16 merchant && varchar 128 outUser && ovarchar 19 dflt) tooLong
  (guardQ (isMerchantNo no && isMerchantNo merchant && ochk isAccountNo dflt) checkViolation
  (if mapExists (fun c => (cr_id c =? id)
                  || (String.eqb (cr_merchant c) merchant && String.eqb (cr_out_user c) outUser)) (customers d)
      || (match customers d !! no with Some _ => true | None => false end)
   then Err uniqueViolation
   else Ok (set_customers (<[no := mkCustomerRow id no merchant outUser dflt now]> (customers d)) d, tt))).

Definition findCustomer (merchant outUser : string) (d : DB) : option CustomerRow :=
  List.find (fun c => String.eqb (cr_merchant c) merchant && String.eqb (cr_out_user c) outUser)
            (snd <$> map_to_list (customers d)).

Definition GetCustomerByOutUserID (merchant outUser : string) : Q CustomerRow :=
  fun t d => one (findCustomer merchant outUser d) t d.

Definition GetAccountNoByCustomerNo (merchant customer : string) : Q (option string) := fun t d =>
  match customers d !! customer with
  | Some c =>
      if String.eqb (cr_merchant c) merchant then
        match cr_default c with Some a => Ok (d, Some a) | None => Err ErrNoRows end
      else Err ErrNoRows
  | None => Err ErrNoRows
  end.

(** [account JOIN customer]: the customer's default account. *)
Definition GetAccountByMerchantOutUserID (merchant outUser : string) : Q AccountRow := fun t d =>
  one (c ← findCustomer merchant outUser d;
       no ← cr_default c;
       a ← accounts d !! no;
       if bool_decide (ar_customer a = Some (cr_no c)) && String.eqb (ar_merchant a) (cr_merchant c)
       then Some a else None) t d.

(** Number of rows affected. *)
Definition SetCustomerDefaultAccountIfEmpty (dflt : option string) (merchant customer : string) : Q Z :=
  fun _ d =>
    match customers d !! customer with
    | Some c =>
        let owned := match dflt with
                     | Some no =>
                         match accounts d !! no with
                         | Some a => String.eqb (ar_merchant a) (cr_merchant c)
                                     && bool_decide (ar_customer a = Some (cr_no c))
                         | None => false
                         end
                     | None => false
                     end in
        if String.eqb (cr_merchant c) merchant
           && (match cr_default c with None => true | Some _ => false end) && owned
        then Ok (set_customers (<[customer := cr_set_default dflt c]> (customers d)) d, 1)
        else Ok (d, 0)
    | None => Ok (d, 0)
    end.

(** ** Transactions *)

Record CreateTransferTxnParams : Type := mkCreateTransferTxnParams {
  ctp_no : string; ctp_merchant : string; ctp_out_trade : string; ctp_biz : string;
  ctp_scene : option string; ctp_title : option string; ctp_remark : option string;
  ctp_debit : option string; ctp_credit : option string; ctp_expire : option Date;
  ctp_amount : Z; ctp_status : string; ctp_refund_of : option string; ctp_refundable : Z;
  ctp_error_code : option string; ctp_error_msg : option string
}.

(** [NULLIF(v, '')] on a nullable parameter. *)
Definition nullif (v : option string) : option string :=
  match v with Some s => nullIfEmpty s | None => None end.

Definition isBizType (v : string) : bool :=
  String.eqb v BizTypeTransfer || String.eqb v BizTypeRefund.
Definition isStatus (v : string) : bool :=
  String.eqb v TxnStatusInit || String.eqb v TxnStatusPaySuccess
  || String.eqb v TxnStatusRecvSuccess || String.eqb v TxnStatusFailed.
(** CHECK: a scene for every TRANSFER, none for a REFUND. *)
Definition sceneMatches (biz : string) (scene : option string) : bool :=
  match scene with
  | Some _ => String.eqb biz BizTypeTransfer
  | None => String.eqb biz BizTypeRefund
  end.

Section Txns.
Context `{Platform}.

Definition txnRowOf (p : CreateTransferTxnParams) (u : UUID) (r : option UUID) (now : Time) : TxnRow :=
  mkTxnRow u (ctp_merchant p) (ctp_out_trade p) (ctp_biz p) (nullif (ctp_scene p))
    (nullif (ctp_title p)) (nullif (ctp_remark p)) (nullif (ctp_debit p)) (nullif (ctp_credit p))
    (ctp_expire p) (ctp_amount p) (ctp_status p) r (ctp_refundable p)
    (nullif (ctp_error_code p)) (nullif (ctp_error_msg p)) now now.

Definition txnWidths (r : TxnRow) : bool :=
  varchar 16 (tr_merchant r) && varchar 64 (tr_out_trade r) && varchar 32 (tr_biz r)
  && ovarchar 32 (tr_scene r) && ovarchar 128 (tr_title r) && ovarchar 512 (tr_remark r)
  && ovarchar 19 (tr_debit r) && ovarchar 19 (tr_credit r) && varchar 24 (tr_status r)
  && ovarchar 64 (tr_error_code r) && ovarchar 512 (tr_error_msg r).

Definition txnChecks (r : TxnRow) : bool :=
  isBizType (tr_biz r) && (0 <? tr_amount r) && isStatus (tr_status r) && (0 <=? tr_refundable r)
  && sceneMatches (tr_biz r) (tr_scene r) && isMerchantNo (tr_merchant r)
  && outTradeColumn (tr_out_trade r) && ochk isAccountNo (tr_debit r) && ochk isAccountNo (tr_credit r).

Definition CreateTransferTxn (p : CreateTransferTxnParams) : Q unit := fun now d =>
  match castUUID (ctp_no p), castUUID (coalesce (ctp_refund_of p)) with
  | Err e, _ | _, Err e => Err e
  | Ok None, _ => Err notNullViolation
  | Ok (Some u), Ok ro =>
      let r := txnRowOf p u ro now in
      guardQ (txnWidths r) tooLong
      (guardQ (txnChecks r) checkViolation
      (if (match txns d !! u with Some _ => true | None => false end)
          || mapExists (fun t => String.eqb (tr_merchant t) (tr_merchant r)
                                 && String.eqb (tr_out_trade t) (tr_out_trade r)) (txns d)
       then Err uniqueViolation
       else Ok (set_txns (<[u := r]> (txns d)) d, tt)))
  end.

(** [WHERE t.txn_no = NULLIF($1, '')::uuid]. *)
Definition txnByText (no : string) : Q TxnRow := fun t d =>
  match castUUID no with
  | Err e => Err e
  | Ok None => Err ErrNoRows
  | Ok (Some u) => one (txns d !! u) t d
  end.

(** [GetTransferTxnByNo] and [...StageForUpdate] with a UUID parameter. *)
Definition GetTransferTxnByUUID (u : UUID) : Q TxnRow := fun t d => one (txns d !! u) t d.

Definition GetTransferTxnByNo (no : string) : Q TxnRow := txnByText no.

Definition GetTransferTxnStageForUpdate (no : string) : Q TxnRow := txnByText no.

Definition GetTransferTxnByOutTradeNo (merchant outTrade : string) : Q TxnRow := fun t d =>
  one (List.find (fun r => String.eqb (tr_merchant r) merchant && String.eqb (tr_out_trade r) outTrade)
                 (snd <$> map_to_list (txns d))) t d.

(** [UPDATE txn SET ... WHERE txn_no = u]; the CHECKs are re-evaluated. *)
Definition updateTxn (u : UUID) (f : TxnRow -> TxnRow) (d : DB) : Result error (DB * bool) :=
  match txns d !! u with
  | None => Ok (d, false)
  | Some r =>
      guardQ (txnWidths (f r)) tooLong
      (guardQ (txnChecks (f r)) checkViolation
      (Ok (set_txns (<[u := f r]> (txns d)) d, true)))
  end.

Definition UpdateTransferTxnStatus (status : string) (code msg : option string) (no : string) : Q unit :=
  fun now d =>
    match castUUID no with
    | Err e => Err e
    | Ok None => Ok (d, tt)
    | Ok (Some u) =>
        match updateTxn u (tr_set_status status (nullif code) (nullif msg) now) d with
        | Ok (d', _) => Ok (d', tt)
        | Err e => Err e
        end
    end.

(** The same with the status already held as a UUID parameter. *)
Definition UpdateTransferTxnStatusByUUID (status : string) (code msg : option string) (u : UUID) : Q unit :=
  fun now d =>
    match updateTxn u (tr_set_status status (nullif code) (nullif msg) now) d with
    | Ok (d', _) => Ok (d', tt)
    | Err e => Err e
    end.

(** Conditional transition; returns the number of rows affected. *)
Definition UpdateTransferTxnStatusFrom (next : string) (code msg : option string) (no from : string) : Q Z :=
  fun now d =>
    match castUUID no with
    | Err e => Err e
    | Ok None => Ok (d, 0)
    | Ok (Some u) =>
        match txns d !! u with
        | Some r =>
            if String.eqb (tr_status r) from then
              match updateTxn u (tr_set_status next (nullif code) (nullif msg) now) d with
              | Ok (d', _) => Ok (d', 1)
              | Err e => Err e
              end
            else Ok (d, 0)
        | None => Ok (d, 0)
        end
    end.

Definition UpdateTransferTxnParties (debit credit : option string) (no : string) : Q unit :=
  fun now d =>
    match castUUID no with
    | Err e => Err e
    | Ok None => Ok (d, tt)
    | Ok (Some u) =>
        match updateTxn u (tr_set_parties debit credit now) d with
        | Ok (d', _) => Ok (d', tt)
        | Err e => Err e
        end
    end.

(** [RETURNING refundable_amount] (the parties it also returns are unused). *)
Definition DecreaseOriginTxnRefundableIfValid (amount : Z) (origin : UUID) (merchant : string) : Q Z :=
  fun now d =>
    match txns d !! origin with
    | Some r =>
        if String.eqb (tr_merchant r) merchant && String.eqb (tr_biz r) BizTypeTransfer
           && String.eqb (tr_status r) TxnStatusRecvSuccess && (amount <=? tr_refundable r)
        then match bigintAdd (tr_refundable r) (- amount) with
             | Err e => Err e
             | Ok v =>
                 match updateTxn origin (tr_set_refundable v now) d with
                 | Ok (d', _) => Ok (d', v)
                 | Err e => Err e
                 end
             end
        else Err ErrNoRows
    | None => Err ErrNoRows
    end.

Definition TryDecreaseTxnRefundable (amount : Z) (no : string) : Q Z := fun now d =>
  match castUUID no with
  | Err e => Err e
  | Ok None => Err ErrNoRows
  | Ok (Some u) =>
      match txns d !! u with
      | Some r =>
          if amount <=? tr_refundable r then
            match bigintAdd (tr_refundable r) (- amount) with
            | Err e => Err e
            | Ok v =>
                match updateTxn u (tr_set_refundable v now) d with
                | Ok (d', _) => Ok (d', v)
                | Err e => Err e
                end
            end
          else Err ErrNoRows
      | None => Err ErrNoRows
      end
  end.

(** [txn t JOIN account_change_log acl]: the refunds of an origin that have
    debited the origin's credit account, in total and for one refund. *)
Definition refundDebitJoin (merchant : string) (origin : UUID) (account : string) (d : DB)
    : list (TxnRow * AccountChangeRow) :=
  List.filter (fun '(t, c) =>
            String.eqb (tr_merchant t) merchant && bool_decide (tr_refund_of t = Some origin)
            && String.eqb (tr_biz t) BizTypeRefund && String.eqb (ac_account c) account
            && (ac_delta c <? 0))
    (flat_map (fun c => match txns d !! ac_txn c with Some t => [(t, c)] | None => [] end)
              (account_changes d)).

(** Returns [(total_debited, current_debited)]. *)
Definition GetRefundDebitStatsByOrigin (refund : UUID) (merchant : string) (origin : UUID)
    (account : string) : Q (Z * Z) := fun _ d =>
  let rows := refundDebitJoin merchant origin account d in
  let total := sum_by (fun tc => tr_amount tc.1) rows in
  let current := sum_by (fun tc => if tr_no tc.1 =? refund then tr_amount tc.1 else 0) rows in
  if in64b total && in64b current then Ok (d, (total, current)) else Err outOfRange.

Definition TxnCount : Q Z := fun _ d => Ok (d, Z.of_nat (size (txns d))).

(** ** Outbox and webhooks *)

Definition GetWebhookConfig (merchant : string) : Q WebhookRow :=
  fun t d => one (webhooks d !! merchant) t d.

Definition UpsertWebhookConfig (merchant url : string) (enabled : bool) : Q unit := fun _ d =>
  guardQ (varchar 16 merchant) tooLong
  (guardQ (isMerchantNo merchant) checkViolation
  (Ok (set_webhooks (<[merchant := mkWebhookRow merchant url enabled]> (webhooks d)) d, tt))).

(** Inserted only for a merchant with an enabled, non-blank webhook;
    [ON CONFLICT DO NOTHING] on the event id. *)
Definition InsertOutboxEvent (event txn : UUID) (merchant : string) (outTrade : option string)
    (status : string) (webhookMerchant : string) : Q unit := fun now d =>
  match webhooks d !! webhookMerchant with
  | Some wc =>
      if wr_enabled wc && negb (String.eqb (BTRIM (wr_url wc)) "") then
        guardQ (varchar 16 merchant && ovarchar 64 (nullif outTrade) && varchar 16 status) tooLong
        (guardQ (isMerchantNo merchant && ochk outTradeColumn (nullif outTrade)) checkViolation
        (if existsb (fun e => ob_event e =? event) (outbox d) then Ok (d, tt)
         else Ok (set_outbox
                    (outbox d ++ [mkOutboxRow (Z.of_nat (length (outbox d)) + 1) event txn merchant
                       (nullif outTrade) status 0 None now now]) d, tt)))
      else Ok (d, tt)
  | None => Ok (d, tt)
  end.
End Txns.

(** ** The statements that only read *)

Lemma guardQ_ok {A} b e (k : Result error A) a : guardQ b e k = Ok a -> b = true /\ k = Ok a.
Proof. unfold guardQ. by destruct b. Qed.

Lemma pure_one {A} (f : DB -> option A) : pureQ (fun t d => one (f d) t d).
Proof. intros t d d' a. unfold one. destruct (f d); intros; by simplify_eq. Qed.

Section Pure.
Context `{Platform}.

Lemma pure_GetAccountByNo no : pureQ (GetAccountByNo no).
Proof. apply (pure_one (fun d => accounts d !! no)). Qed.
Lemma pure_GetAccountForUpdateByNo no : pureQ (GetAccountForUpdateByNo no).
Proof. apply (pure_one (fun d => accounts d !! no)). Qed.
Lemma pure_GetAccountBookForUpdateByAccountExpire no e : pureQ (GetAccountBookForUpdateByAccountExpire no e).
Proof. apply (pure_one (fun d => snd <$> find_book no e (books d))). Qed.
Lemma pure_ListAvailable no t n : pureQ (ListAvailableAccountBooksForUpdate no t n).
Proof. unfold ListAvailableAccountBooksForUpdate. intros ????. congruence. Qed.
Lemma pure_ListExpired no t n : pureQ (ListExpiredPositiveAccountBooksForUpdate no t n).
Proof. unfold ListExpiredPositiveAccountBooksForUpdate. intros ????. congruence. Qed.
Lemma pure_GetAvailableSum no t n : pureQ (GetAvailableAccountBookBalanceSum no t n).
Proof. unfold GetAvailableAccountBookBalanceSum. intros ????. destruct (in64b _); congruence. Qed.
Lemma pure_ListOrigin txn a : pureQ (ListOriginDebitBookChanges txn a).
Proof. unfold ListOriginDebitBookChanges. intros ????. congruence. Qed.
Lemma pure_GetMerchantByNo no : pureQ (GetMerchantByNo no).
Proof. apply (pure_one (fun d => merchants d !! no)). Qed.
Lemma pure_GetMerchantForUpdateByNo no : pureQ (GetMerchantForUpdateByNo no).
Proof. apply (pure_one (fun d => merchants d !! no)). Qed.
Lemma pure_GetCustomerByOutUserID m u : pureQ (GetCustomerByOutUserID m u).
Proof. apply (pure_one (findCustomer m u)). Qed.
Lemma pure_GetAccountNoByCustomerNo m c : pureQ (GetAccountNoByCustomerNo m c).
Proof.
  unfold GetAccountNoByCustomerNo. intros t d d' a. destruct (customers d !! c); [|done].
  destruct (String.eqb _ _); [|done]. destruct (cr_default _); congruence.
Qed.
Lemma pure_GetAccountByMerchantOutUserID m u : pureQ (GetAccountByMerchantOutUserID m u).
Proof. intros t d d' a. unfold GetAccountByMerchantOutUserID, one. case_match; congruence. Qed.
Lemma pure_txnByText no : pureQ (txnByText no).
Proof.
  intros t d d' a. unfold txnByText. destruct (castUUID no) as [|[u|]]; try done.
  apply (pure_one (fun d => txns d !! u)).
Qed.
Lemma pure_GetTransferTxnByUUID u : pureQ (GetTransferTxnByUUID u).
Proof. apply (pure_one (fun d => txns d !! u)). Qed.
Lemma pure_GetTransferTxnByOutTradeNo m o : pureQ (GetTransferTxnByOutTradeNo m o).
Proof. intros t d d' a. unfold GetTransferTxnByOutTradeNo, one. case_match; congruence. Qed.
Lemma pure_GetRefundDebitStats r m o a : pureQ (GetRefundDebitStatsByOrigin r m o a).
Proof. unfold GetRefundDebitStatsByOrigin. intros ????. destruct (_ && _); congruence. Qed.
Lemma pure_TxnCount : pureQ TxnCount.
Proof. unfold TxnCount. intros ????. congruence. Qed.
Lemma pure_GetWebhookConfig m : pureQ (GetWebhookConfig m).
Proof. apply (pure_one (fun d => webhooks d !! m)). Qed.
End Pure.

#[export] Hint Resolve pure_GetAccountByNo pure_GetAccountForUpdateByNo
  pure_GetAccountBookForUpdateByAccountExpire pure_ListAvailable pure_ListExpired pure_GetAvailableSum
  pure_ListOrigin pure_GetMerchantByNo pure_GetMerchantForUpdateByNo pure_GetCustomerByOutUserID
  pure_GetAccountNoByCustomerNo pure_GetAccountByMerchantOutUserID pure_txnByText
  pure_GetTransferTxnByUUID pure_GetTransferTxnByOutTradeNo pure_GetRefundDebitStats pure_TxnCount
  pure_GetWebhookConfig : coin.
