(* ===== verification/Reads.v ===== *)
(** * The remaining statements: lists, the outbox and the code sequences

    [sqlc/queries.sql.go] continued.  [ORDER BY ... LIMIT] is [sort_by]
    followed by [firstn]. *)

From S2P Require Import Prelude GoBase Domain Codes Store Queries.
From stdpp Require Import base gmap list strings.
From Stdlib Require Import ZArith Lia.

Local Open Scope string_scope.
Local Open Scope Z_scope.

Definition limit {A} (n : Z) (l : list A) : list A := firstn (Z.to_nat n) l.

(** ** Lists of transactions *)

(** [ORDER BY t.created_at DESC, t.txn_no DESC]. *)
Definition txn_desc (a b : TxnRow) : bool :=
  if tr_created a =? tr_created b then tr_no b <=? tr_no a else tr_created b <? tr_created a.
(** [ORDER BY t.updated_at ASC, t.txn_no ASC]. *)
Definition txn_oldest (a b : TxnRow) : bool :=
  if tr_updated a =? tr_updated b then tr_no a <=? tr_no b else tr_updated a <? tr_updated b.

Definition txn_rows (d : DB) : list TxnRow := snd <$> map_to_list (txns d).

Record ListTransferTxnsParams : Type := mkListTransferTxnsParams {
  lt_merchant : string; lt_out_user : option string; lt_scene : option string;
  lt_status : option string; lt_start : option Time; lt_end : option Time;
  lt_cursor : option (Time * UUID); lt_limit : Z
}.

(** [EXISTS (SELECT 1 FROM account a JOIN customer c ...)]. *)
Definition involves (d : DB) (t : TxnRow) (outUser : string) : bool :=
  existsb (fun a =>
      match ar_customer a with
      | Some cno =>
          match customers d !! cno with
          | Some c => String.eqb (cr_merchant c) (tr_merchant t) && String.eqb (cr_out_user c) outUser
                      && (bool_decide (tr_debit t = Some (ar_no a)) || bool_decide (tr_credit t = Some (ar_no a)))
          | None => false
          end
      | None => false
      end) (snd <$> map_to_list (accounts d)).

Definition oall {A} (p : A -> bool) (o : option A) : bool :=
  match o with Some a => p a | None => true end.

(** Strictly after the cursor in the descending order. *)
Definition txn_after (c : Time * UUID) (t : TxnRow) : bool :=
  (tr_created t <? c.1) || ((tr_created t =? c.1) && (tr_no t <? c.2)).

Definition txn_matches (d : DB) (p : ListTransferTxnsParams) (t : TxnRow) : bool :=
  (String.eqb (lt_merchant p) "" || String.eqb (tr_merchant t) (lt_merchant p))
  && oall (involves d t) (lt_out_user p)
  && oall (fun s => bool_decide (tr_scene t = Some s)) (lt_scene p)
  && oall (fun s => String.eqb (tr_status t) s) (lt_status p)
  && oall (fun s => s <=? tr_created t) (lt_start p)
  && oall (fun e => tr_created t <=? e) (lt_end p).

Definition ListTransferTxns (p : ListTransferTxnsParams) : Q (list TxnRow) := fun _ d =>
  Ok (d, limit (lt_limit p)
           (sort_by txn_desc
              (List.filter (fun t => txn_matches d p t && oall (fun c => txn_after c t) (lt_cursor p)) (txn_rows d)))).

Definition ListTransferTxnsByStatus (status : string) (n : Z) : Q (list TxnRow) := fun _ d =>
  Ok (d, limit n (sort_by txn_oldest (List.filter (fun t => String.eqb (tr_status t) status) (txn_rows d)))).

(** The query text of [ListStaleTransferTxnNosByStatus] (repository.go). *)
Definition staleTxns (status : string) (before : Time) (n : Z) : Q (list TxnRow) := fun _ d =>
  Ok (d, limit n (sort_by txn_oldest
           (List.filter (fun t => String.eqb (tr_status t) status && (tr_updated t <=? before)) (txn_rows d)))).

(** ** Lists of change logs and books *)

Definition change_desc (a b : AccountChangeRow) : bool :=
  if ac_created a =? ac_created b then ac_id b <=? ac_id a else ac_created b <? ac_created a.

Definition change_after (c : Time * Z) (r : AccountChangeRow) : bool :=
  (ac_created r <? c.1) || ((ac_created r =? c.1) && (ac_id r <? c.2)).

(** [account_change_log acl JOIN account a]. *)
Definition change_matches (d : DB) (merchant account : string) (r : AccountChangeRow) : bool :=
  String.eqb (ac_account r) account
  && match accounts d !! ac_account r with
     | Some a => String.eqb (ar_merchant a) merchant
     | None => false
     end.

Definition ListAccountChangeLogs (merchant account : string) (cursor : option (Time * Z)) (n : Z)
    : Q (list (AccountChangeRow * option TxnRow)) := fun _ d =>
  Ok (d, map (fun r => (r, txns d !! ac_txn r))
           (limit n (sort_by change_desc
              (List.filter (fun r => change_matches d merchant account r && oall (fun c => change_after c r) cursor)
                 (account_changes d))))).

Definition ListActiveAccountBooks (account : string) (today : Date) : Q (list BookRow) := fun _ d =>
  Ok (d, sort_by expire_leb
           (List.filter (fun b => String.eqb (br_account b) account && (0 <? br_balance b)
                                  && (today <=? br_expire b)) (book_rows d))).

Definition bchange_oldest (a b : BookChangeRow) : bool :=
  if bc_created a =? bc_created b then bc_id a <=? bc_id b else bc_created a <? bc_created b.

(** ** The outbox *)

Definition outbox_order (a b : OutboxRow) : bool :=
  if ob_created a =? ob_created b then ob_id a <=? ob_id b else ob_created a <? ob_created b.

Definition outbox_lease : Duration := 30 * Minute.

Definition due (nowAt now : Time) (e : OutboxRow) : bool :=
  (String.eqb (ob_status e) "PENDING" && oall (fun t => t <=? nowAt) (ob_next_retry e))
  || (String.eqb (ob_status e) "PROCESSING" && (ob_updated e <=? now - outbox_lease)).

Definition ob_claim (now : Time) (e : OutboxRow) : OutboxRow :=
  mkOutboxRow (ob_id e) (ob_event e) (ob_txn e) (ob_merchant e) (ob_out_trade e) "PROCESSING"
    (ob_retry e) (ob_next_retry e) (ob_created e) now.

Definition isPicked (picked : list OutboxRow) (e : OutboxRow) : bool :=
  existsb (fun p => ob_id p =? ob_id e) picked.

(** [WITH picked AS (...), claimed AS (UPDATE ... RETURNING ...) SELECT ... JOIN txn]. *)
Definition claimOutbox (p : OutboxRow -> bool) (nowAt : Time) (n : Z) : Q (list (OutboxRow * TxnRow)) :=
  fun now d =>
    let picked := limit n (sort_by outbox_order (List.filter (fun e => p e && due nowAt now e) (outbox d))) in
    Ok (set_outbox (map (fun e => if isPicked picked e then ob_claim now e else e) (outbox d)) d,
        flat_map (fun e => match txns d !! ob_txn e with Some t => [(ob_claim now e, t)] | None => [] end) picked).

Definition ClaimDueOutboxEvents (nowAt : Time) (n : Z) : Q (list (OutboxRow * TxnRow)) :=
  claimOutbox (fun _ => true) nowAt n.

Definition ob_mark (status : string) (retry : Z) (next : option Time) (now : Time) (e : OutboxRow) : OutboxRow :=
  mkOutboxRow (ob_id e) (ob_event e) (ob_txn e) (ob_merchant e) (ob_out_trade e) status retry next
    (ob_created e) now.

Section Texts.
Context `{Platform}.

Definition ListBookCreditChangeLogs (bookNo : string) : Q (list (BookChangeRow * option TxnRow)) := fun _ d =>
  match uuid_parse bookNo with
  | None => Err badText
  | Some u =>
      Ok (d, map (fun c => (c, txns d !! bc_txn c))
               (sort_by bchange_oldest
                  (List.filter (fun c => (bc_book c =? u) && (0 <? bc_delta c)) (book_changes d))))
  end.

Definition ClaimDueOutboxEventsByTxnNo (txnNo : string) (nowAt : Time) (n : Z) : Q (list (OutboxRow * TxnRow)) :=
  fun now d =>
    match castUUID txnNo with
    | Err e => Err e
    | Ok None => claimOutbox (fun _ => false) nowAt n now d
    | Ok (Some u) => claimOutbox (fun e => ob_txn e =? u) nowAt n now d
    end.

Definition updateOutbox (event : string) (f : OutboxRow -> OutboxRow) : Q unit := fun _ d =>
  match castUUID event with
  | Err e => Err e
  | Ok None => Ok (d, tt)
  | Ok (Some u) => Ok (set_outbox (map (fun e => if ob_event e =? u then f e else e) (outbox d)) d, tt)
  end.

Definition MarkOutboxEventSuccess (event : string) : Q unit := fun now d =>
  updateOutbox event (fun e => ob_mark "SUCCESS" (ob_retry e) (ob_next_retry e) now e) now d.

Definition MarkOutboxEventRetry (retry : Z) (next : Time) (dead : bool) (event : string) : Q unit := fun now d =>
  updateOutbox event (ob_mark (if dead then "DEAD" else "PENDING") retry (Some next) now) now d.
End Texts.

(** ** Code sequences

    [code_sequence] is written by statements of their own, outside the ledger
    transactions: it is not part of [DB] and does not roll back with it. *)

Definition runSeq {A} (q : gmap (string * string) Z -> Result error (gmap (string * string) Z * A)) : M A :=
  fun w =>
    let (f, w1) := pop_fault w in
    match f with
    | FailBefore => (w1, Err ErrConn)
    | _ =>
        match q (w_seq w1) with
        | Err e => (w1, Err (match f with NoFault => e | _ => ErrConn end))
        | Ok (s, a) => (with_codes s (w_seq_init w1) (w_buckets w1) w1,
                        match f with NoFault => Ok a | _ => Err ErrConn end)
        end
    end.

Definition InitCodeSequence (codeType scopeKey : string) : M unit :=
  runSeq (fun s => match s !! (codeType, scopeKey) with
                   | Some _ => Ok (s, tt)
                   | None => Ok (<[(codeType, scopeKey) := 0]> s, tt)
                   end).

(** Returns [(start_value, end_value)]. *)
Definition LeaseCodeRange (batchSize : Z) (codeType scopeKey : string) : M (Z * Z) :=
  runSeq (fun s => match s !! (codeType, scopeKey) with
                   | Some v =>
                       match bigintAdd v batchSize with
                       | Ok v' => Ok (<[(codeType, scopeKey) := v']> s, (v' - batchSize, v' - 1))
                       | Err e => Err e
                       end
                   | None => Err ErrNoRows
                   end).

Section Pure.
Context `{Platform}.
Lemma pure_ListTransferTxns p : pureQ (ListTransferTxns p).
Proof. unfold ListTransferTxns. intros ????. congruence. Qed.
Lemma pure_ListTransferTxnsByStatus s n : pureQ (ListTransferTxnsByStatus s n).
Proof. unfold ListTransferTxnsByStatus. intros ????. congruence. Qed.
Lemma pure_staleTxns s t n : pureQ (staleTxns s t n).
Proof. unfold staleTxns. intros ????. congruence. Qed.
Lemma pure_ListAccountChangeLogs m a c n : pureQ (ListAccountChangeLogs m a c n).
Proof. unfold ListAccountChangeLogs. intros ????. congruence. Qed.
Lemma pure_ListActiveAccountBooks a t : pureQ (ListActiveAccountBooks a t).
Proof. unfold ListActiveAccountBooks. intros ????. congruence. Qed.
Lemma pure_ListBookCreditChangeLogs b : pureQ (ListBookCreditChangeLogs b).
Proof. unfold ListBookCreditChangeLogs. intros ????. destruct (uuid_parse b); congruence. Qed.
End Pure.
#[export] Hint Resolve pure_ListTransferTxns pure_ListTransferTxnsByStatus pure_staleTxns
  pure_ListAccountChangeLogs pure_ListActiveAccountBooks pure_ListBookCreditChangeLogs : coin.
