(* ===== verification/Secrets.v ===== *)
(** * Merchant secrets ([internal/db/merchant_secret.go],
    [internal/platform/security/aesgcm_cipher.go])

    The statements on [merchant_api_credential], the secret manager against
    the [SecretCipher] interface, and the AES-GCM cipher that implements it. *)

From S2P Require Import Prelude GoBase Domain Codes Encoding Store Queries.
From stdpp Require Import base gmap list strings.
From Stdlib Require Import ZArith Lia.

Local Open Scope string_scope.
Local Open Scope Z_scope.

(** ** Statements *)

(** The credentials of a merchant, with their versions. *)
Definition credentials_of (m : string) (d : DB) : list (Z * CredentialRow) :=
  flat_map (fun kr => if String.eqb kr.1.1 m then [(kr.1.2, kr.2)] else []) (map_to_list (credentials d)).

(** [MAX(version)], [None] on no row. *)
Definition max_version (l : list (Z * CredentialRow)) : option Z :=
  match l with
  | [] => None
  | x :: l' => Some (fold_right Z.max x.1 (map fst l'))
  end.

Definition LockMerchantNoForUpdate (no : string) : Q string := fun t d =>
  one (option_map mr_no (merchants d !! no)) t d.

Definition GetMaxSecretVersion (no : string) : Q Z := fun _ d =>
  Ok (d, match max_version (credentials_of no d) with Some v => v | None => 0 end).

Definition deactivate (m : string) (k : string * Z) (r : CredentialRow) : CredentialRow :=
  if String.eqb k.1 m then mkCredentialRow (cd_cipher r) false else r.

Definition DeactivateActiveMerchantSecrets (no : string) : Q unit := fun _ d =>
  Ok (set_credentials (map_imap (fun k r => Some (deactivate no k r)) (credentials d)) d, tt).

Definition InsertMerchantSecretCredential (no cipher : string) (version : Z) : Q unit := fun _ d =>
  guardQ (varchar 16 no) tooLong
  match credentials d !! (no, version) with
  | Some _ => Err uniqueViolation
  | None => Ok (set_credentials (<[(no, version) := mkCredentialRow cipher true]> (credentials d)) d, tt)
  end.

(** [WHERE active ORDER BY secret_version DESC LIMIT 1]. *)
Definition GetActiveSecretCiphertext (no : string) : Q string := fun t d =>
  let act := List.filter (fun x => cd_active x.2) (credentials_of no d) in
  one (v ← max_version act; option_map cd_cipher (credentials d !! (no, v))) t d.

(** ** The cipher interface *)

Class SecretCipher : Type := {
  cipher_Encrypt : string -> M string;
  cipher_Decrypt : string -> Result error string;
  cipher_keeps : forall p, keeps (cipher_Encrypt p);
  cipher_roundtrip : forall p w w' c, cipher_Encrypt p w = (w', Ok c) -> cipher_Decrypt c = Ok p
}.

(** *** AES-GCM

    The AEAD of [crypto/cipher]: sealing under a key and a nonce, and opening,
    which returns what was sealed. *)
Class AEAD : Type := {
  aead_Seal : string -> string -> string -> string;          (* key, nonce, plaintext *)
  aead_Open : string -> string -> string -> option string;   (* key, nonce, ciphertext *)
  aead_open_seal : forall key nonce plain, aead_Open key nonce (aead_Seal key nonce plain) = Some plain
}.

Record AESGCMCipher : Type := mkAESGCMCipher { aead_key : string }.

(** [aes.NewCipher] takes any 32-byte key and [cipher.NewGCM] any AES block. *)
Definition NewAESGCMCipher (passphrase : string) : Result error AESGCMCipher :=
  let secret := TrimSpace passphrase in
  if String.eqb secret "" then Err (ErrText "merchant secret passphrase is empty")
  else Ok (mkAESGCMCipher (sha256 secret)).

(** [c.aead.NonceSize()] of GCM. *)
Definition NonceSize : nat := 12.

Section AESGCM.
Context `{AEAD} (c : AESGCMCipher).

Definition Encrypt (plain : string) : M string :=
  let! r := attempt randRead in
  match r with
  | Err e => throw (ErrWrap "generate nonce" e)
  | Ok r =>
      let nonce := bytes_be NonceSize r in
      ret ("v1." +:+ b64Encode (nonce +:+ aead_Seal (aead_key c) nonce plain))
  end.

Definition Decrypt (ciphertext : string) : Result error string :=
  let payload := TrimSpace ciphertext in
  if negb (HasPrefix payload "v1.") then Err (ErrText "unsupported ciphertext version") else
  match b64Decode (TrimPrefix payload "v1.") with
  | None => Err (ErrWrap "decode ciphertext" (ErrText "illegal base64 data"))
  | Some raw =>
      if slen raw <? Z.of_nat NonceSize then Err (ErrText "ciphertext too short") else
      match aead_Open (aead_key c) (stake NonceSize raw) (sdrop NonceSize raw) with
      | None => Err (ErrWrap "decrypt ciphertext" (ErrText "cipher: message authentication failed"))
      | Some plain => Ok plain
      end
  end.

End AESGCM.

(** ** MerchantSecretManager *)

Section Manager.
Context `{SecretCipher}.

Definition generateMerchantSecret : M string :=
  let! r := attempt randRead in
  match r with
  | Err e => throw (ErrWrap "generate merchant secret" e)
  | Ok r => ret ("msk_" +:+ b64Encode (bytes_be 24 r))
  end.

Definition GetActiveSecret (merchantNo : string) : M (option string) :=
  let! r := attempt (auto (GetActiveSecretCiphertext merchantNo)) in
  match r with
  | Err e => if errors_is e ErrNoRows then ret None else throw e
  | Ok ciphertext =>
      match cipher_Decrypt ciphertext with
      | Err e => throw (ErrWrap "decrypt merchant secret" e)
      | Ok secret => ret (Some secret)
      end
  end.

(** The transaction of [RotateSecret]. *)
Definition rotateBody (merchantNo ciphertext : string) : M Z :=
  do! or_norows ErrMerchantNotFound (run (LockMerchantNoForUpdate merchantNo)) in
  let! currentVersion := run (GetMaxSecretVersion merchantNo) in
  let nextVersion := wrap32 (currentVersion + 1) in
  do! run (DeactivateActiveMerchantSecrets merchantNo) in
  do! run (InsertMerchantSecretCredential merchantNo ciphertext nextVersion) in
  ret nextVersion.

Definition RotateSecret (merchantNo : string) : M (string * Z) :=
  let! secret := generateMerchantSecret in
  let! r := attempt (cipher_Encrypt secret) in
  match r with
  | Err e => throw (ErrWrap "encrypt merchant secret" e)
  | Ok ciphertext =>
      let! version := withTx 0 (rotateBody merchantNo ciphertext) in
      ret (secret, version)
  end.

Definition GetSecretVersion (merchantNo : string) : M Z := auto (GetMaxSecretVersion merchantNo).
End Manager.

(** ** Facts *)

Lemma slen_length s : slen s = Z.of_nat (String.length s).
Proof. induction s as [|x s IH]; simpl; lia. Qed.
Lemma length_bytes_be n z : String.length (bytes_be n z) = n.
Proof. induction n as [|n IH]; [done|]. simpl. by rewrite IH. Qed.

Section AESGCMProofs.
Context `{AEAD} (c : AESGCMCipher).

Lemma keeps_Encrypt p : keeps (Encrypt c p).
Proof. unfold Encrypt. intros w. unfold bind, attempt, randRead. by destruct (w_rand w). Qed.

Lemma decrypt_sealed nonce sealed :
  String.length nonce = NonceSize ->
  Decrypt c ("v1." +:+ b64Encode (nonce +:+ sealed)) =
  match aead_Open (aead_key c) nonce sealed with
  | None => Err (ErrWrap "decrypt ciphertext" (ErrText "cipher: message authentication failed"))
  | Some plain => Ok plain
  end.
Proof.
  intros Hn. unfold Decrypt. rewrite TrimSpace_graphic by exact (b64Encode_graphic (nonce +:+ sealed)).
  unfold HasPrefix. rewrite sprefix_app, TrimPrefix_app, b64_roundtrip. cbv beta zeta iota delta [negb].
  rewrite <- Hn, stake_app, sdrop_app, slen_app, slen_length. pose proof (slen_nonneg sealed).
  destruct (Z.ltb_spec (Z.of_nat (String.length nonce) + slen sealed) (Z.of_nat (String.length nonce))); [lia|done].
Qed.

(** Decrypting what [Encrypt] returned gives back the plaintext: the version
    tag, the base64 text and the nonce in front are taken off again. *)
Lemma aes_decrypt_encrypt p w w' x : Encrypt c p w = (w', Ok x) -> Decrypt c x = Ok p.
Proof.
  unfold Encrypt, bind, attempt, randRead, ret. destruct (w_rand w) as [|r rs]; [done|]. intros Hx.
  assert (x = "v1." +:+ b64Encode (bytes_be NonceSize r +:+ aead_Seal (aead_key c) (bytes_be NonceSize r) p)) as -> by congruence.
  rewrite decrypt_sealed by apply length_bytes_be. by rewrite aead_open_seal.
Qed.

#[export] Instance aesgcm : SecretCipher := {
  cipher_Encrypt := Encrypt c; cipher_Decrypt := Decrypt c;
  cipher_keeps := keeps_Encrypt; cipher_roundtrip := aes_decrypt_encrypt
}.
End AESGCMProofs.

Section ManagerProofs.
Context `{SecretCipher}.

Lemma pure_LockMerchant no : pureQ (LockMerchantNoForUpdate no).
Proof. apply (pure_one (fun d => option_map mr_no (merchants d !! no))). Qed.
Lemma pure_GetMaxSecretVersion no : pureQ (GetMaxSecretVersion no).
Proof. unfold GetMaxSecretVersion. intros ????. congruence. Qed.
Lemma pure_GetActiveSecretCiphertext no : pureQ (GetActiveSecretCiphertext no).
Proof.
  intros t d d' a. unfold GetActiveSecretCiphertext. apply (pure_one (fun d =>
    v ← max_version (List.filter (fun x => cd_active x.2) (credentials_of no d));
    option_map cd_cipher (credentials d !! (no, v)))).
Qed.

Lemma keeps_randRead : keeps randRead.
Proof. intros w. unfold randRead. by destruct (w_rand w). Qed.
Lemma keeps_generateMerchantSecret : keeps generateMerchantSecret.
Proof. unfold generateMerchantSecret. pose proof keeps_randRead. keep. Qed.
Lemma keeps_GetActiveSecret no : keeps (GetActiveSecret no).
Proof. unfold GetActiveSecret. pose proof pure_GetActiveSecretCiphertext. keep. Qed.
Lemma keeps_GetSecretVersion no : keeps (GetSecretVersion no).
Proof. apply keeps_auto, pure_GetMaxSecretVersion. Qed.

(** The tables after a rotation: the merchant's secrets retired, one added. *)
Definition rotated (m : string) (v : Z) (cipher : string) (d : DB) : DB :=
  set_credentials (<[(m, v) := mkCredentialRow cipher true]>
    (map_imap (fun k r => Some (deactivate m k r)) (credentials d))) d.

Definition secret_version (m : string) (d : DB) : Z :=
  match max_version (credentials_of m d) with Some v => v | None => 0 end.

Lemma rotateBody_ok m c w w' v :
  rotateBody m c w = (w', Ok v) ->
  is_Some (merchants (w_db w) !! m) /\ v = wrap32 (secret_version m (w_db w) + 1) /\
  credentials (w_db w) !! (m, v) = None /\ w_db w' = rotated m v c (w_db w).
Proof.
  unfold rotateBody. intros Hr. steps.
  unfold LockMerchantNoForUpdate, one, GetMaxSecretVersion, DeactivateActiveMerchantSecrets,
    InsertMerchantSecretCredential in *.
  destruct (merchants (w_db w) !! m) as [mr|] eqn:Em; [|done]. simplify_eq/=.
  match goal with Hq : guardQ _ _ _ = Ok _ |- _ => apply guardQ_ok in Hq as [_ Hq]; rename Hq into Hins end.
  repeat match goal with E : _ = w_db _ |- _ => rewrite <- E in * end. simpl in Hins.
  fold (secret_version m (w_db w)) in *.
  rewrite map_lookup_imap in Hins.
  destruct (credentials (w_db w) !! (m, wrap32 (secret_version m (w_db w) + 1))) eqn:Ev; [done|].
  simpl in Hins. split; [done|]. split; [done|]. split; [done|]. by simplify_eq.
Qed.

(** Every credential after a rotation: the new one, or an old one, retired if
    it was the merchant's. *)
Lemma rotated_lookup m v c d k r :
  credentials (rotated m v c d) !! k = Some r <->
  (k = (m, v) /\ r = mkCredentialRow c true) \/
  (k <> (m, v) /\ exists r0, credentials d !! k = Some r0 /\ r = deactivate m k r0).
Proof.
  unfold rotated. simpl. rewrite lookup_insert_Some, map_lookup_imap. split.
  - intros [[<- <-]|[Hk Hr]]; [by left|]. right. split; [congruence|].
    destruct (credentials d !! k) as [r0|]; [|done]. simplify_eq/=. eauto.
  - intros [[-> ->]|[Hk (r0 & -> & ->)]]; [by left|]. right. split; [congruence|done].
Qed.
End ManagerProofs.
#[export] Hint Resolve pure_LockMerchant pure_GetMaxSecretVersion pure_GetActiveSecretCiphertext keeps_randRead
  keeps_generateMerchantSecret keeps_GetActiveSecret keeps_GetSecretVersion : coin.
