(* ===== verification/Paging.v ===== *)
(** * Page tokens and keyset pagination ([service/pagination_token.go])

    The tokens, and the generic argument why following them lists every row
    once.  The repository's list methods use it in [Repo]. *)

From S2P Require Import Prelude GoBase Domain Codes Store Queries Reads.
From stdpp Require Import base gmap list strings sorting.
From Stdlib Require Import ZArith Lia.

Local Open Scope string_scope.
Local Open Scope Z_scope.

(** ** Tokens *)

(** [strings.SplitN(token, "|", 2)] when it yields two parts. *)
Fixpoint split_bar (s : string) : option (string * string) :=
  match s with
  | EmptyString => None
  | String c s' =>
      if byte_of c =? 124 then Some (EmptyString, s')
      else match split_bar s' with
           | Some (a, b) => Some (String c a, b)
           | None => None
           end
  end.

(** [t.UnixNano()] is an [int64]. *)
Definition UnixNano (t : Time) : Z := wrap64 t.

Definition EncodePageToken (t : Time) (txnNo : string) : string := FormatInt (UnixNano t) ++ "|" ++ txnNo.

Definition DecodePageToken (token : string) : option (Time * string) :=
  match split_bar token with
  | None => None
  | Some (a, b) => match ParseInt a with Some ns => Some (ns, b) | None => None end
  end.

Definition EncodeChangeLogPageToken (t : Time) (changeID : Z) : string :=
  FormatInt (UnixNano t) ++ "|" ++ FormatInt changeID.

Definition DecodeChangeLogPageToken (token : string) : option (Time * Z) :=
  match split_bar token with
  | None => None
  | Some (a, b) =>
      match ParseInt a with
      | None => None
      | Some ns => match ParseInt b with Some id => Some (ns, id) | None => None end
      end
  end.

Lemma split_bar_app a b :
  sforall (fun c => negb (byte_of c =? 124)) a = true -> split_bar (a ++ "|" ++ b) = Some (a, b).
Proof.
  induction a as [|c a IH]; intros Ha; [done|].
  simpl in Ha. bools. rewrite sapp_cons. simpl.
  match goal with H : (byte_of c =? 124) = false |- _ => rewrite H | H : byte_of c <> 124 |- _ =>
    rewrite (proj2 (Z.eqb_neq _ _) H) end.
  by rewrite IH.
Qed.

Lemma FormatInt_no_bar n : sforall (fun c => negb (byte_of c =? 124)) (FormatInt n) = true.
Proof.
  assert (Hd : forall s, sforall is_digit s = true -> sforall (fun c => negb (byte_of c =? 124)) s = true).
  { intros s. apply sforall_impl. intros c Hc. unfold is_digit in Hc. bools. apply negb_true_iff, Z.eqb_neq. lia. }
  unfold FormatInt. destruct (Z.ltb_spec n 0); [simpl|]; apply Hd, format_nat_digits; lia.
Qed.

(** Page tokens round-trip: decoding what was encoded gives back the
    timestamp and the transaction number, whatever bytes the number has. *)
Lemma page_token_roundtrip t txnNo :
  in64 t -> DecodePageToken (EncodePageToken t txnNo) = Some (t, txnNo).
Proof.
  intros Ht. unfold DecodePageToken, EncodePageToken.
  rewrite split_bar_app by apply FormatInt_no_bar.
  unfold UnixNano. rewrite wrap64_id by done. by rewrite ParseInt_FormatInt.
Qed.

Lemma change_token_roundtrip t id :
  in64 t -> in64 id -> DecodeChangeLogPageToken (EncodeChangeLogPageToken t id) = Some (t, id).
Proof.
  intros Ht Hi. unfold DecodeChangeLogPageToken, EncodeChangeLogPageToken.
  rewrite split_bar_app by apply FormatInt_no_bar.
  unfold UnixNano. rewrite wrap64_id by done. by rewrite !ParseInt_FormatInt.
Qed.

(** ** Keyset pagination

    [fetch c n]: the first [n] rows after the cursor [c], in order.  A page
    asks for one row more than it shows, and its cursor is its last row. *)

Local Open Scope list_scope.

Section Keyset.
Context {A K : Type} (leb : A -> A -> bool) (key : A -> K) (after : K -> A -> bool).
Context (leb_total : forall x y, leb x y = false -> leb y x = true)
        (leb_trans : forall x y z, leb x y = true -> leb y z = true -> leb x z = true)
        (leb_antisym : forall x y, leb x y = true -> leb y x = true -> key x = key y)
        (after_leb : forall x y, after (key x) y = negb (leb y x)).

Definition fetch (rows : list A) (p : A -> bool) (c : option K) (n : nat) : list A :=
  firstn n (sort_by leb (List.filter (fun x => p x && oall (fun k => after k x) c) rows)).

(** The page shown and the next cursor. *)
Definition page (rows : list A) (p : A -> bool) (c : option K) (n : nat) : list A * option K :=
  let items := fetch rows p c (S n) in
  if (length items <=? n)%nat then (items, None)
  else let pg := firstn n items in (pg, key <$> last pg).

(** Following the cursors. *)
Fixpoint follow (fuel : nat) (rows : list A) (p : A -> bool) (c : option K) (n : nat) : list A :=
  match fuel with
  | O => []
  | S k => let '(items, next) := page rows p c n in
           match next with
           | None => items
           | Some c' => items ++ follow k rows p (Some c') n
           end
  end.

Definition ordered (l : list A) : Prop := StronglySorted (fun a b => leb a b = true) l.

Lemma ordered_filter q l : ordered l -> ordered (List.filter q l).
Proof.
  induction 1 as [|x l Hl IH Hx]; simpl; [constructor|]. destruct (q x); [|done].
  constructor; [done|]. rewrite Forall_forall in *. intros y Hy. apply Hx.
  rewrite list_elem_of_In in *. by apply filter_In in Hy as [].
Qed.

Lemma sort_filter rows q r :
  NoDup (key <$> rows) ->
  sort_by leb (List.filter (fun x => q x && r x) rows) = List.filter r (sort_by leb (List.filter q rows)).
Proof.
  intros Hnd. apply (StronglySorted_unique_strong (fun a b => leb a b = true)).
  - intros x y Hx Hy Hxy Hyx. pose proof (leb_antisym _ _ Hxy Hyx) as Hk.
    rewrite elem_of_sort_by, list_elem_of_In, filter_In, <- list_elem_of_In in Hx.
    rewrite list_elem_of_In, filter_In, <- list_elem_of_In, elem_of_sort_by, list_elem_of_In, filter_In,
      <- list_elem_of_In in Hy.
    destruct Hx as [Hx _], Hy as [[Hy _] _].
    apply list_elem_of_lookup in Hx as [i Hi], Hy as [j Hj].
    assert (i = j) as <-; [|congruence].
    eapply NoDup_lookup; [exact Hnd|rewrite list_lookup_fmap, Hi; done|rewrite list_lookup_fmap, Hj; by rewrite Hk].
  - by apply sort_by_sorted.
  - apply ordered_filter. by apply sort_by_sorted.
  - rewrite sort_by_perm.
    assert (forall a b, a ≡ₚ b -> List.filter r a ≡ₚ List.filter r b) as Hp.
    { induction 1; simpl; try done; repeat (case_match; simpl); try done; try constructor; try done.
      by etrans. }
    rewrite (Hp _ _ (sort_by_perm leb (List.filter q rows))).
    clear Hp Hnd. induction rows as [|x rows IH]; simpl; [done|].
    destruct (q x) eqn:Eq; simpl; [|done]. destruct (r x); simpl; [by constructor|done].
Qed.

Lemma filter_after l1 x l2 :
  ordered (l1 ++ x :: l2) -> NoDup (key <$> l1 ++ x :: l2) ->
  List.filter (after (key x)) (l1 ++ x :: l2) = l2.
Proof.
  intros Ho Hnd.
  assert (Hx : after (key x) x = false).
  { rewrite after_leb. apply negb_false_iff. destruct (leb x x) eqn:E; [done|]. pose proof (leb_total _ _ E). congruence. }
  assert (H2 : List.filter (after (key x)) l2 = l2).
  { assert (forall y, y ∈ l2 -> after (key x) y = true) as Hall.
    { intros y Hy. rewrite after_leb. apply negb_true_iff. destruct (leb y x) eqn:E; [|done]. exfalso.
      assert (leb x y = true) as Hxy.
      { clear Hnd. induction l1 as [|z l1 IH]; [|by apply IH; inversion Ho].
        inversion Ho as [|? ? ? Hf]; subst. rewrite Forall_forall in Hf. auto. }
      pose proof (leb_antisym _ _ Hxy E) as Hk. rewrite fmap_app in Hnd. apply NoDup_app in Hnd as (_ & _ & Hnd).
      simpl in Hnd. apply NoDup_cons in Hnd as [Hn _]. apply Hn. rewrite Hk. by apply list_elem_of_fmap_2. }
    clear Ho Hnd. induction l2 as [|y l2 IH]; simpl; [done|]. rewrite Hall by (by left).
    f_equal. apply IH. intros. apply Hall. by right. }
  assert (H1 : List.filter (after (key x)) l1 = []).
  { clear Hnd H2. induction l1 as [|z l1 IH]; simpl; [done|]. inversion Ho as [|? ? Ho' Hf]; subst.
    rewrite after_leb. rewrite Forall_forall in Hf. rewrite (Hf x) by set_solver. simpl. by apply IH. }
  rewrite List.filter_app, H1. simpl. by rewrite Hx, H2.
Qed.

(** The rows from a cursor on are a suffix of the whole listing. *)
Lemma follow_suffix fuel rows p n l1 l2 c :
  NoDup (key <$> rows) -> (0 < n)%nat ->
  sort_by leb (List.filter p rows) = l1 ++ l2 -> (length l2 < fuel)%nat ->
  match c with None => l1 = [] | Some k => exists x, last l1 = Some x /\ key x = k end ->
  follow fuel rows p c n = l2.
Proof.
  intros Hnd Hn. revert l1 l2 c. induction fuel as [|fuel IH]; intros l1 l2 c Hl Hf Hc; [lia|].
  assert (Hsnd : NoDup (key <$> l1 ++ l2)).
  { rewrite <- Hl, (fmap_Permutation _ _ _ (sort_by_perm _ _)). clear -Hnd.
    induction rows as [|x rows IHr]; simpl; [constructor|]. apply NoDup_cons in Hnd as [Hx Hnd].
    destruct (p x); [|auto]. simpl. constructor; [|auto]. intros Hin. apply Hx.
    apply list_elem_of_fmap in Hin as (y & -> & Hy). apply list_elem_of_fmap_2.
    rewrite list_elem_of_In in *. by apply filter_In in Hy as []. }
  assert (Hord : ordered (l1 ++ l2)) by (rewrite <- Hl; by apply sort_by_sorted).
  assert (Hfetch : sort_by leb (List.filter (fun x => p x && oall (fun k => after k x) c) rows) = l2).
  { rewrite sort_filter by done. rewrite Hl. destruct c as [k|]; simpl.
    - destruct Hc as (x & Hx & <-). apply last_Some in Hx as (l1' & ->).
      rewrite <- app_assoc in *. simpl in *. by apply filter_after.
    - subst l1. simpl. clear. induction l2 as [|y l2 IHl]; simpl; congruence. }
  cbn [follow]. unfold page, fetch. rewrite Hfetch.
  destruct (Nat.leb_spec (length (firstn (S n) l2)) n) as [Hle|Hgt].
  - apply firstn_all2. rewrite length_firstn in Hle. lia.
  - rewrite length_firstn in Hgt. rewrite firstn_firstn, Nat.min_l by lia.
    destruct (last (firstn n l2)) as [x|] eqn:Elast.
    2:{ apply last_None in Elast. apply (f_equal length) in Elast. rewrite length_firstn in Elast.
      change (length []) with 0%nat in Elast. lia. }
    simpl. rewrite <- (firstn_skipn n l2) at 2. f_equal. apply (IH (l1 ++ firstn n l2) (skipn n l2)).
    + by rewrite <- app_assoc, firstn_skipn.
    + rewrite length_skipn. lia.
    + exists x. split; [|done]. rewrite last_app, Elast. done.
Qed.

(** Following the pages from the start lists every matching row exactly once,
    in order. *)
Lemma follow_all rows p n :
  NoDup (key <$> rows) -> (0 < n)%nat ->
  follow (S (length rows)) rows p None n = sort_by leb (List.filter p rows).
Proof.
  intros Hnd Hn. apply (follow_suffix _ _ _ _ [] _ None); try done.
  rewrite (Permutation_length (sort_by_perm leb _)).
  assert (length (List.filter p rows) <= length rows)%nat by apply filter_length_le. lia.
Qed.
End Keyset.
