(* ===== verification/Ledger.v ===== *)
(** * Accounting inside a transaction ([internal/db/repository.go])

    Debits with first-expired-first-out books, the write-off of expired
    books, credits, refunds, and the stage function [ApplyTxnStage] that the
    asynchronous processor drives. *)

From S2P Require Import Prelude GoBase Domain Codes Store Queries.
From stdpp Require Import base gmap list strings.
From Stdlib Require Import ZArith Lia.

Local Open Scope string_scope.
Local Open Scope Z_scope.

(** ** Interface to the code allocator

    [Repository.codeProvider].  It runs on its own connection: it never
    touches the tables of the ledger nor the transaction's [NOW()]. *)
Class CodeProvider : Type := {
  NewMerchantNo : M string;
  NewCustomerNo : M string;
  NewAccountNo : string -> string -> M string;
  NewMerchantNo_frame w :
    w_db (NewMerchantNo w).1 = w_db w /\ w_txnow (NewMerchantNo w).1 = w_txnow w;
  NewCustomerNo_frame w :
    w_db (NewCustomerNo w).1 = w_db w /\ w_txnow (NewCustomerNo w).1 = w_txnow w;
  NewAccountNo_frame m t w :
    w_db (NewAccountNo m t w).1 = w_db w /\ w_txnow (NewAccountNo m t w).1 = w_txnow w
}.

(** ** Dates *)

Definition noExpireDate : Date := 2932896.            (* 9999-12-31 *)
Definition noExpireBookDate : Time := timeOfDate noExpireDate.

Definition toPGDate (t : Time) : Date := dateOf t.
Definition normalizeUTCDate (ts : Time) : Time := dayStart ts.
Definition pgDateToTime (d : option Date) : Time :=
  match d with Some x => timeOfDate x | None => zeroTime end.
Definition pgDatePtr (d : option Date) : option Time := timeOfDate <$> d.

(** Whole days between two instants' dates; [Sub] saturates at about 292 years. *)
Definition diffDaysUTCDate (later earlier : Time) : Z :=
  Z.quot (timeSub (normalizeUTCDate later) (normalizeUTCDate earlier)) (24 * Hour).

Definition minInt64 (a b : Z) : Z := if a <? b then a else b.

(** ** Rows to structs *)

Definition accountFromGetAccountRow (r : AccountRow) : Account :=
  mkAccount (ar_no r) (ar_merchant r) (coalesce (ar_customer r)) (ar_type r) (ar_overdraft r)
    (ar_limit r) (ar_debit_out r) (ar_credit_in r) (ar_transfer r) (ar_book r) (ar_balance r).

Definition accountFromGetAccountForUpdateRow (r : AccountRow) : Account :=
  mkAccount (ar_no r) (ar_merchant r) (coalesce (ar_customer r)) (ar_type r) (ar_overdraft r)
    (ar_limit r) (ar_debit_out r) (ar_credit_in r) (ar_transfer r) (ar_book r) (ar_balance r).

Section Ledger.
Context `{Platform}.

(** ** Creating accounts *)

Definition accountParams (a : Account) : CreateAccountParams :=
  mkCreateAccountParams (AccountNo a) (AMerchantNo a) (nullableText (TrimSpace (ACustomerNo a)))
    (AccountType a) (AllowOverdraft a) (MaxOverdraftLimit a) (AllowDebitOut a) (AllowCreditIn a)
    (AllowTransfer a) (BookEnabled a).

Definition createAccount (a : Account) : M unit :=
  let customerNo := TrimSpace (ACustomerNo a) in
  let! r := attempt (run (Queries.CreateAccount (accountParams a))) in
  match r with
  | Err e => throw (if isUniqueViolation e then ErrAccountNoExists else e)
  | Ok _ =>
      do! (if BookEnabled a then
             let! noExpireBookNo := NewUUIDv7 in
             do! run (UpsertAccountBookBalance (uuid_text noExpireBookNo) (AccountNo a)
                        (toPGDate noExpireBookDate) 0) in
             ret tt
           else ret tt) in
      if String.eqb customerNo "" then ret tt else
      do! run (SetCustomerDefaultAccountIfEmpty (nullableText (AccountNo a)) (AMerchantNo a) customerNo) in
      ret tt
  end.

(** ** Debits *)

Definition validateDebitBalanceOnly (a : Account) (amount : Z) : option error :=
  if amount <=? 0 then Some ErrInsufficientBalance else
  if negb (AllowOverdraft a) then
    (if Balance a <? amount then Some ErrInsufficientBalance else None)
  else if MaxOverdraftLimit a =? 0 then None
  else if wrap64 (Balance a + MaxOverdraftLimit a) <? amount then Some ErrInsufficientBalance
  else None.

Definition failing (o : option error) : M unit :=
  match o with Some e => throw e | None => ret tt end.

Record bookChange : Type := mkBookChange {
  ch_book : UUID; ch_expire : Date; ch_delta : Z; ch_before : Z; ch_after : Z
}.

(** The loop over the available books: changes and what is left to debit.
    [todo] (the source's [left]) and [use] are positive, so only [after] can leave int64. *)
Fixpoint debitLoop (bs : list BookRow) (todo : Z) : list bookChange * Z :=
  match bs with
  | [] => ([], todo)
  | b :: rest =>
      if todo =? 0 then ([], todo) else
      let isNoExpire := normalizeUTCDate (timeOfDate (br_expire b)) =? noExpireBookDate in
      if negb isNoExpire && (br_balance b <=? 0) then debitLoop rest todo else
      if isNoExpire then
        let '(cs, l) := debitLoop rest 0 in
        (mkBookChange (br_no b) (br_expire b) (- todo) (br_balance b) (wrap64 (br_balance b - todo)) :: cs, l)
      else
        let use := if todo <? br_balance b then todo else br_balance b in
        if use <=? 0 then debitLoop rest todo else
        let '(cs, l) := debitLoop rest (todo - use) in
        (mkBookChange (br_no b) (br_expire b) (- use) (br_balance b) (br_balance b - use) :: cs, l)
  end.

(** The Go map built from the returned rows: a later row would overwrite. *)
Definition balanceByBookNo (rows : list (UUID * Z)) (u : UUID) : option Z :=
  snd <$> List.find (fun r => r.1 =? u) (rev rows).

Definition changeConfirmed (rows : list (UUID * Z)) (c : bookChange) : bool :=
  match balanceByBookNo rows (ch_book c) with
  | Some after => after =? ch_after c
  | None => false
  end.

(** ** Credits *)

(** The book a credit goes to: the existing one, or a fresh number. *)
Definition creditBook (no : string) (expireDate : Date) : M (UUID * Z) :=
  let! r := attempt (run (GetAccountBookForUpdateByAccountExpire no expireDate)) in
  match r with
  | Err e => if errors_is e ErrNoRows then (let! u := NewUUIDv7 in ret (u, 0)) else throw e
  | Ok b => ret (br_no b, br_balance b)
  end.

Definition applyAccountCreditWithAccountTx (txn : UUID) (credit : Account) (amount : Z)
    (creditExpireAt : option Time) : M unit :=
  if String.eqb (TrimSpace (AccountNo credit)) "" || (amount <=? 0) then throw ErrAccountResolveFailed else
  if BookEnabled credit then
    let expireAt := match creditExpireAt with
                    | Some t => if IsZero t then noExpireBookDate else t
                    | None => noExpireBookDate
                    end in
    let expireDate := toPGDate expireAt in
    let! bk := creditBook (AccountNo credit) expireDate in
    let '(bookNo, bookBefore) := bk in
    let bookAfter := wrap64 (bookBefore + amount) in
    let creditBefore := Balance credit in
    let creditAfter := wrap64 (creditBefore + amount) in
    do! run (InsertAccountBookChange (mkInsertAccountBookChangeParams txn (AccountNo credit) bookNo
               amount bookBefore bookAfter expireDate)) in
    do! run (InsertAccountChange (mkInsertAccountChangeParams txn (AccountNo credit) amount
               creditBefore creditAfter)) in
    let! book := run (UpsertAccountBookBalance (uuid_text bookNo) (AccountNo credit) expireDate amount) in
    if negb (br_balance book =? bookAfter) then throw ErrAccountResolveFailed else
    run (UpdateAccountBalance creditAfter (AccountNo credit))
  else
    let creditBefore := Balance credit in
    let creditAfter := wrap64 (creditBefore + amount) in
    do! run (InsertAccountChange (mkInsertAccountChangeParams txn (AccountNo credit) amount
               creditBefore creditAfter)) in
    run (UpdateAccountBalance creditAfter (AccountNo credit)).

Definition getAccountTx (no : string) : M Account :=
  let! r := or_norows ErrAccountResolveFailed (run (GetAccountForUpdateByNo no)) in
  ret (accountFromGetAccountForUpdateRow r).

Definition applyAccountCreditTx (txn : UUID) (creditAccountNo : string) (amount : Z)
    (creditExpireAt : option Time) : M unit :=
  if String.eqb creditAccountNo "" || (amount <=? 0) then throw ErrAccountResolveFailed else
  let! credit := getAccountTx creditAccountNo in
  applyAccountCreditWithAccountTx txn credit amount creditExpireAt.

(** ** Write-off of expired books *)

Context `{CodeProvider}.

Definition writeoffAccountOf (no merchantNo : string) : Account :=
  mkAccount no merchantNo "" AccountTypeWriteoff false 0 false true false false 0.

Definition ensureMerchantWriteoffAccountTx (merchantNo : string) : M Account :=
  let! merchant := or_norows ErrInvalidMerchantNo (run (GetMerchantForUpdateByNo merchantNo)) in
  let writeoffAccountNo := TrimSpace (coalesce (mr_writeoff merchant)) in
  let! no :=
    (if String.eqb writeoffAccountNo "" then
       let! r := attempt (NewAccountNo merchantNo AccountTypeWriteoff) in
       match r with
       | Err e =>
           throw (if errors_is e IdErrCodeAllocatorUnavailable then ErrCodeAllocatorUnavailable
                  else ErrWrap "new writeoff account no" e)
       | Ok no =>
           do! createAccount (writeoffAccountOf no merchantNo) in
           do! run (UpdateMerchantWriteoffAccountNo (nullableText no) merchantNo) in
           ret no
       end
     else ret writeoffAccountNo) in
  getAccountTx no.

(** [strings.ReplaceAll(s, "-", "")]. *)
Fixpoint dropDashes (s : string) : string :=
  match s with
  | EmptyString => EmptyString
  | String c s' => if byte_of c =? 45 then dropDashes s' else String c (dropDashes s')
  end.

Definition buildExpireWriteoffOutTradeNo (accountNo txnNo : string) : string :=
  let sanitized := dropDashes (TrimSpace txnNo) in
  let short := if 8 <? slen sanitized then String.substring 0 8 sanitized else sanitized in
  "sys_expire_" ++ TrimSpace accountNo ++ "_" ++ short.

(** [for _, book := range expiredBooks]: the total, and the books written off. *)
Definition writeoffChange (txn : UUID) (no : string) (b : BookRow) : InsertAccountBookChangeParams :=
  mkInsertAccountBookChangeParams txn no (br_no b) (- br_balance b) (br_balance b) 0 (br_expire b).

Definition sweepExpiredBooksTx (debit : Account) (now : Time) : M unit :=
  if negb (BookEnabled debit) then ret tt else
  let! expiredBooks := run (ListExpiredPositiveAccountBooksForUpdate (AccountNo debit) (toPGDate now)
                              (toPGDate noExpireBookDate)) in
  match expiredBooks with
  | [] => ret tt
  | _ =>
      let! writeoffAccount := ensureMerchantWriteoffAccountTx (AMerchantNo debit) in
      let! writeoffTxnNo := NewUUIDv7 in
      let writeoffOutTradeNo := buildExpireWriteoffOutTradeNo (AccountNo debit) (uuid_text writeoffTxnNo) in
      let positive := List.filter (fun b => negb (br_balance b <=? 0)) expiredBooks in
      let totalWrittenOff := wrap64 (sum_by br_balance positive) in
      do! forM positive (fun b => run (InsertAccountBookChange (writeoffChange writeoffTxnNo (AccountNo debit) b))) in
      if totalWrittenOff <=? 0 then ret tt else
      do! run (Queries.CreateTransferTxn
                 (mkCreateTransferTxnParams (uuid_text writeoffTxnNo) (AMerchantNo debit) writeoffOutTradeNo
                    BizTypeTransfer (nullableText SceneExpireWriteoff) (nullIfEmpty "expire writeoff")
                    (nullIfEmpty "system expiry writeoff") (nullIfEmpty (AccountNo debit))
                    (nullIfEmpty (AccountNo writeoffAccount)) None totalWrittenOff TxnStatusRecvSuccess
                    (nullIfEmpty "") 0 (nullIfEmpty "") (nullIfEmpty ""))) in
      let debitBefore := Balance debit in
      let debitAfter := wrap64 (debitBefore - totalWrittenOff) in
      do! run (InsertAccountChange (mkInsertAccountChangeParams writeoffTxnNo (AccountNo debit)
                 (- totalWrittenOff) debitBefore debitAfter)) in
      let! updatedBooks := run (BatchUpdateAccountBookBalances
                                  (map (fun b => uuid_text (br_no b)) positive)
                                  (map (fun b => - br_balance b) positive)) in
      if negb (Nat.eqb (length updatedBooks) (length positive)) then throw ErrAccountResolveFailed else
      if existsb (fun row => negb (row.2 =? 0)) updatedBooks then throw ErrAccountResolveFailed else
      do! run (UpdateAccountBalance debitAfter (AccountNo debit)) in
      applyAccountCreditWithAccountTx writeoffTxnNo writeoffAccount totalWrittenOff None
  end.

Definition insertBookChanges (txn : UUID) (no : string) (cs : list bookChange) : M unit :=
  forM cs (fun c => run (InsertAccountBookChange (mkInsertAccountBookChangeParams txn no (ch_book c)
                           (ch_delta c) (ch_before c) (ch_after c) (ch_expire c)))).

(** The part of [applyAccountDebitTx] that follows the sweep: FEFO over the books. *)
Definition debitBooks (txn : UUID) (debit : Account) (amount : Z) : M unit :=
  do! failing (validateDebitBalanceOnly debit amount) in
  let! now := timeNow in
  let! bs := run (ListAvailableAccountBooksForUpdate (AccountNo debit) (toPGDate now)
                    (toPGDate noExpireBookDate)) in
  let '(changes, todo) := debitLoop bs amount in
  if 0 <? todo then throw ErrInsufficientBalance else
  let debitBefore := Balance debit in
  let debitAfter := wrap64 (debitBefore - amount) in
  do! insertBookChanges txn (AccountNo debit) changes in
  do! run (InsertAccountChange (mkInsertAccountChangeParams txn (AccountNo debit) (- amount)
             debitBefore debitAfter)) in
  let! updatedBooks := run (BatchUpdateAccountBookBalances
                              (map (fun c => uuid_text (ch_book c)) changes) (map ch_delta changes)) in
  if negb (Nat.eqb (length updatedBooks) (length changes)) then throw ErrInsufficientBalance else
  if negb (forallb (changeConfirmed updatedBooks) changes) then throw ErrInsufficientBalance else
  run (UpdateAccountBalance debitAfter (AccountNo debit)).

Definition debitPlain (txn : UUID) (debit : Account) (amount : Z) : M unit :=
  do! failing (validateDebitBalanceOnly debit amount) in
  let debitBefore := Balance debit in
  let debitAfter := wrap64 (debitBefore - amount) in
  do! run (InsertAccountChange (mkInsertAccountChangeParams txn (AccountNo debit) (- amount)
             debitBefore debitAfter)) in
  run (UpdateAccountBalance debitAfter (AccountNo debit)).

Definition applyAccountDebitTx (txn : UUID) (debitAccountNo : string) (amount : Z) : M unit :=
  if String.eqb debitAccountNo "" || (amount <=? 0) then throw ErrAccountResolveFailed else
  let! debit := getAccountTx debitAccountNo in
  if BookEnabled debit then
    let! now := timeNow in
    do! sweepExpiredBooksTx debit now in
    let! debit' := getAccountTx debitAccountNo in
    debitBooks txn debit' amount
  else debitPlain txn debit amount.

(** ** Credits split over books *)

Record bookCreditPart : Type := mkPart { part_expire : Time; part_amount : Z }.

(** Loop of [buildTransferBookCreditParts]; [None] is the zero expiry error. *)
Fixpoint transferParts (cs : list BookChangeRow) : option (list bookCreditPart) :=
  match cs with
  | [] => Some []
  | c :: rest =>
      let partAmount := wrap64 (- bc_delta c) in
      if partAmount <=? 0 then transferParts rest else
      let expireAt := pgDateToTime (Some (bc_expire c)) in
      if IsZero expireAt then None else
      option_map (cons (mkPart expireAt partAmount)) (transferParts rest)
  end.

(** Returns the parts and whether the debit left a book trace. *)
Definition buildTransferBookCreditParts (txn : UUID) (debitAccountNo : string) (amount : Z)
    : M (list bookCreditPart * bool) :=
  if String.eqb (TrimSpace debitAccountNo) "" || (amount <=? 0) then throw ErrAccountResolveFailed else
  let! debitBookChanges := run (ListOriginDebitBookChanges txn debitAccountNo) in
  match debitBookChanges with
  | [] => ret ([], false)
  | _ =>
      match transferParts debitBookChanges with
      | None => throw ErrAccountResolveFailed
      | Some parts =>
          if (match parts with [] => true | _ => false end)
             || negb (wrap64 (sum_by part_amount parts) =? amount)
          then throw ErrAccountResolveFailed
          else ret (parts, true)
      end
  end.

(** Append a part, merging it with the last one of the same expiry. *)
Definition appendPart (parts : list bookCreditPart) (expireAt : Time) (use : Z) : list bookCreditPart :=
  match last parts with
  | Some p =>
      if part_expire p =? expireAt then
        removelast parts ++ [mkPart (part_expire p) (wrap64 (part_amount p + use))]
      else parts ++ [mkPart expireAt use]
  | None => parts ++ [mkPart expireAt use]
  end.

(** The expiry a refunded slice gets: as many days from today as were left
    when it was spent, at least one. *)
Definition refundExpireAt (base : Time) (expire : Date) (spentAt : Time) : Time :=
  let remainingDays := diffDaysUTCDate (pgDateToTime (Some expire)) spentAt in
  let days := if remainingDays <=? 0 then 1 else remainingDays in
  timeAdd base (wrap64 (wrap64 (days * 24) * Hour)).

(** Loop of [buildRefundBookCreditParts]: skip what earlier refunds took
    ([leftOffset]), then take [leftRefund] from what remains. *)
Fixpoint refundParts (base : Time) (debits : list BookChangeRow) (leftOffset leftRefund : Z)
    (parts : list bookCreditPart) : list bookCreditPart * Z :=
  match debits with
  | [] => (parts, leftRefund)
  | c :: rest =>
      let consumed := wrap64 (- bc_delta c) in
      if consumed <=? 0 then refundParts base rest leftOffset leftRefund parts else
      let alreadyRefunded := minInt64 leftOffset consumed in
      let leftOffset' := leftOffset - alreadyRefunded in
      let available := consumed - alreadyRefunded in
      if available <=? 0 then refundParts base rest leftOffset' leftRefund parts else
      let use := minInt64 available leftRefund in
      if use <=? 0 then refundParts base rest leftOffset' leftRefund parts else
      let expireAt := refundExpireAt base (bc_expire c) (bc_created c) in
      let parts' := appendPart parts expireAt use in
      let leftRefund' := leftRefund - use in
      if leftRefund' =? 0 then (parts', leftRefund')
      else refundParts base rest leftOffset' leftRefund' parts'
  end.

Definition buildRefundBookCreditParts (refundTxn originTxn : UUID) (merchantNo : string) (refundAmount : Z)
    : M (list bookCreditPart) :=
  if refundAmount <=? 0 then throw ErrAccountResolveFailed else
  let! origin := or_norows ErrTxnNotFound (run (GetTransferTxnByUUID originTxn)) in
  if negb (String.eqb (tr_merchant origin) merchantNo) then throw ErrTxnNotFound else
  let originDebitAccountNo := TrimSpace (coalesce (tr_debit origin)) in
  let originCreditAccountNo := TrimSpace (coalesce (tr_credit origin)) in
  if String.eqb originDebitAccountNo "" || String.eqb originCreditAccountNo ""
  then throw ErrAccountResolveFailed else
  let! originBookDebits := run (ListOriginDebitBookChanges originTxn originDebitAccountNo) in
  match originBookDebits with
  | [] => throw ErrRefundOriginBookTraceMissing
  | _ =>
      let! stats := run (GetRefundDebitStatsByOrigin refundTxn merchantNo originTxn originCreditAccountNo) in
      let '(totalDebited, currentDebited) := stats in
      if currentDebited <=? 0 then throw ErrRefundOriginBookTraceMissing else
      let priorDebited := wrap64 (totalDebited - currentDebited) in
      if priorDebited <? 0 then throw ErrRefundOriginBookTraceMissing else
      let! now := timeNow in
      let refundBaseDate := normalizeUTCDate now in
      let '(parts, leftRefund) := refundParts refundBaseDate originBookDebits priorDebited refundAmount [] in
      if negb (leftRefund =? 0) then throw ErrRefundOriginBookTraceMissing else ret parts
  end.

Record plannedBookPart : Type := mkPlanned {
  pl_book : UUID; pl_expire : Date; pl_delta : Z; pl_before : Z; pl_after : Z
}.

(** First loop of [applyBookCreditPartsTx]: the plan and the sum of the parts. *)
Fixpoint planParts (traceErr : error) (no : string) (parts : list bookCreditPart) (sum : Z)
    : M (list plannedBookPart * Z) :=
  match parts with
  | [] => ret ([], sum)
  | p :: rest =>
      if (part_amount p <=? 0) || IsZero (part_expire p) then throw traceErr else
      let expireAt := toPGDate (part_expire p) in
      let! bk := creditBook no expireAt in
      let item := mkPlanned bk.1 expireAt (part_amount p) bk.2 (wrap64 (bk.2 + part_amount p)) in
      let! r := planParts traceErr no rest (wrap64 (sum + part_amount p)) in
      ret (item :: r.1, r.2)
  end.

Definition insertPlanned (txn : UUID) (no : string) (pl : list plannedBookPart) : M unit :=
  forM pl (fun i => run (InsertAccountBookChange (mkInsertAccountBookChangeParams txn no (pl_book i)
                           (pl_delta i) (pl_before i) (pl_after i) (pl_expire i)))).

Definition upsertPlanned (traceErr : error) (no : string) (pl : list plannedBookPart) : M unit :=
  forM pl (fun i =>
    let! book := run (UpsertAccountBookBalance (uuid_text (pl_book i)) no (pl_expire i) (pl_delta i)) in
    if negb (br_balance book =? pl_after i) then throw traceErr else ret tt).

Definition applyBookCreditPartsTx (txn : UUID) (credit : Account) (amount : Z)
    (parts : list bookCreditPart) (traceErr : error) : M unit :=
  if (amount <=? 0) || String.eqb (TrimSpace (AccountNo credit)) "" then throw ErrAccountResolveFailed else
  if negb (BookEnabled credit) || (match parts with [] => true | _ => false end) then throw traceErr else
  let! ps := planParts traceErr (AccountNo credit) parts 0 in
  let '(planned, sum) := ps in
  if negb (sum =? amount) then throw traceErr else
  let creditBefore := Balance credit in
  let creditAfter := wrap64 (creditBefore + amount) in
  do! insertPlanned txn (AccountNo credit) planned in
  do! run (InsertAccountChange (mkInsertAccountChangeParams txn (AccountNo credit) amount
             creditBefore creditAfter)) in
  do! upsertPlanned traceErr (AccountNo credit) planned in
  run (UpdateAccountBalance creditAfter (AccountNo credit)).

Definition applyTransferCreditTx (txn : UUID) (debitAccountNo creditAccountNo transferScene : string)
    (amount : Z) (creditExpireAt : option Time) : M unit :=
  if String.eqb (TrimSpace creditAccountNo) "" || (amount <=? 0) then throw ErrAccountResolveFailed else
  let! creditAccount := getAccountTx creditAccountNo in
  if String.eqb (TrimSpace transferScene) SceneP2P && BookEnabled creditAccount then
    let! r := buildTransferBookCreditParts txn debitAccountNo amount in
    let '(parts, hasBookDebitTrace) := r in
    if hasBookDebitTrace then
      applyBookCreditPartsTx txn creditAccount amount parts ErrAccountResolveFailed
    else applyAccountCreditWithAccountTx txn creditAccount amount creditExpireAt
  else applyAccountCreditWithAccountTx txn creditAccount amount creditExpireAt.

Definition applyRefundCreditTx (txn : UUID) (creditAccountNo : string) (amount : Z)
    (originTxn : UUID) (merchantNo : string) : M unit :=
  if String.eqb (TrimSpace creditAccountNo) "" || (amount <=? 0) then throw ErrAccountResolveFailed else
  let! r := attempt (run (TryCreditAccountBalanceNonBookRefund amount creditAccountNo)) in
  match r with
  | Ok creditAfter =>
      let creditBefore := wrap64 (creditAfter - amount) in
      run (InsertAccountChange (mkInsertAccountChangeParams txn creditAccountNo amount creditBefore creditAfter))
  | Err e =>
      if negb (errors_is e ErrNoRows) then throw e else
      let! creditAccount := getAccountTx creditAccountNo in
      if negb (BookEnabled creditAccount) then
        let creditBefore := Balance creditAccount in
        let creditAfter := wrap64 (creditBefore + amount) in
        do! run (InsertAccountChange (mkInsertAccountChangeParams txn (AccountNo creditAccount) amount
                   creditBefore creditAfter)) in
        run (UpdateAccountBalance creditAfter (AccountNo creditAccount))
      else
        let! parts := buildRefundBookCreditParts txn originTxn merchantNo amount in
        applyBookCreditPartsTx txn creditAccount amount parts ErrRefundOriginBookTraceMissing
  end.

(** ** Transaction stages *)

(** Which error explains that no refundable amount could be taken. *)
Definition classifyOriginRefundDecreaseMiss (origin : UUID) (expectedMerchantNo : string) (amount : Z)
    : M error :=
  let! o := or_norows ErrTxnNotFound (run (GetTransferTxnByUUID origin)) in
  if negb (String.eqb expectedMerchantNo "") && negb (String.eqb (tr_merchant o) expectedMerchantNo)
  then ret ErrTxnNotFound else
  if negb (String.eqb (tr_biz o) BizTypeTransfer) || negb (String.eqb (tr_status o) TxnStatusRecvSuccess)
  then ret ErrTxnStatusInvalid else
  ret ErrRefundAmountExceeded.

Definition deterministicOutboxEventID (txn : UUID) (eventType : string) : UUID := uuid_sha1 txn eventType.

Definition insertOutboxEventTx (txn : UUID) (merchantNo outTradeNo : string) : M unit :=
  run (InsertOutboxEvent (deterministicOutboxEventID txn "TxnSucceeded") txn merchantNo
         (nullIfEmpty outTradeNo) "PENDING" merchantNo).

(** Take the refund's amount from what the origin may still refund. *)
Definition decreaseOriginTx (amount : Z) (origin : UUID) (merchantNo : string) : M unit :=
  let! r := attempt (run (DecreaseOriginTxnRefundableIfValid amount origin merchantNo)) in
  match r with
  | Ok _ => ret tt
  | Err e =>
      if errors_is e ErrNoRows then
        let! e' := classifyOriginRefundDecreaseMiss origin merchantNo amount in throw e'
      else throw e
  end.

Record TxnStageApplyResult : Type := mkTxnStageApplyResult {
  Applied : bool; RBizType : string; CurrentStatus : string;
  RDebitAccountNo : string; RCreditAccountNo : string
}.

(** The debit of a stage; [d] and [c] are the trimmed account numbers. *)
Definition stageDebit (stage : TxnRow) (d c : string) : M unit :=
  if String.eqb (TrimSpace (tr_biz stage)) BizTypeTransfer then
    if String.eqb d "" then throw ErrAccountResolveFailed else
    applyAccountDebitTx (tr_no stage) d (tr_amount stage)
  else
    match tr_refund_of stage with
    | None => throw ErrTxnStatusInvalid
    | Some origin =>
        do! decreaseOriginTx (tr_amount stage) origin (tr_merchant stage) in
        if String.eqb (TrimSpace d) "" || String.eqb (TrimSpace c) "" then throw ErrAccountResolveFailed else
        applyAccountDebitTx (tr_no stage) (TrimSpace d) (tr_amount stage)
    end.

Definition stageCredit (stage : TxnRow) (d c : string) : M unit :=
  if String.eqb c "" then throw ErrAccountResolveFailed else
  if String.eqb (TrimSpace (tr_biz stage)) BizTypeTransfer then
    applyTransferCreditTx (tr_no stage) d c (coalesce (tr_scene stage)) (tr_amount stage)
      (pgDatePtr (tr_expire stage))
  else
    match tr_refund_of stage with
    | None => throw ErrTxnStatusInvalid
    | Some origin => applyRefundCreditTx (tr_no stage) c (tr_amount stage) origin (tr_merchant stage)
    end.

(** The [switch expectedStatus]: the work of a stage and the status it leads to. *)
Definition stageWork (stage : TxnRow) (expectedStatus d c : string) : M string :=
  if String.eqb expectedStatus TxnStatusInit then
    do! stageDebit stage d c in
    do! run (UpdateTransferTxnStatusByUUID TxnStatusPaySuccess None None (tr_no stage)) in
    ret TxnStatusPaySuccess
  else if String.eqb expectedStatus TxnStatusPaySuccess then
    do! stageCredit stage d c in
    do! run (UpdateTransferTxnStatusByUUID TxnStatusRecvSuccess None None (tr_no stage)) in
    do! insertOutboxEventTx (tr_no stage) (tr_merchant stage) (tr_out_trade stage) in
    ret TxnStatusRecvSuccess
  else throw ErrTxnStatusInvalid.

Definition stageBody (txnNo expectedStatus : string) (w : World)
    : World * (TxnStageApplyResult * option error) :=
  match or_norows ErrTxnNotFound (run (GetTransferTxnStageForUpdate txnNo)) w with
  | (w1, Err e) => (w1, (mkTxnStageApplyResult false "" "" "" "", Some e))
  | (w1, Ok stage) =>
      let biz := TrimSpace (tr_biz stage) in
      let status := TrimSpace (tr_status stage) in
      let d := TrimSpace (coalesce (tr_debit stage)) in
      let c := TrimSpace (coalesce (tr_credit stage)) in
      let result := mkTxnStageApplyResult false biz status d c in
      if negb (String.eqb biz BizTypeTransfer) && negb (String.eqb biz BizTypeRefund)
      then (w1, (result, None)) else
      if negb (String.eqb status expectedStatus) then (w1, (result, None)) else
      match stageWork stage expectedStatus d c w1 with
      | (w2, Err e) => (w2, (result, Some e))
      | (w2, Ok next) => (w2, (mkTxnStageApplyResult true biz next d c, None))
      end
  end.

Definition ApplyTxnStage (txnNo expectedStatus : string) : World -> World * (TxnStageApplyResult * option error) :=
  withTxE (mkTxnStageApplyResult false "" "" "" "") (stageBody txnNo expectedStatus).

(** The stages one at a time, with the caller's account and amount. *)
Definition stageAccount (own given : string) : M string :=
  let no := if String.eqb own "" then given else own in
  if String.eqb no "" then throw ErrAccountResolveFailed else
  if negb (String.eqb given "") && negb (String.eqb own "") && negb (String.eqb given own)
  then throw ErrAccountResolveFailed else ret no.

Definition ApplyTransferDebitStage (txnNo debitAccountNo : string) (amount : Z) : M bool :=
  withTx false (
    let! stage := or_norows ErrTxnNotFound (run (GetTransferTxnStageForUpdate txnNo)) in
    if negb (String.eqb (tr_status stage) TxnStatusInit) then ret false else
    let! no := stageAccount (coalesce (tr_debit stage)) debitAccountNo in
    do! applyAccountDebitTx (tr_no stage) no amount in
    do! run (UpdateTransferTxnStatusByUUID TxnStatusPaySuccess None None (tr_no stage)) in
    ret true).

Definition ApplyTransferCreditStage (txnNo creditAccountNo : string) (amount : Z) : M bool :=
  withTx false (
    let! stage := or_norows ErrTxnNotFound (run (GetTransferTxnStageForUpdate txnNo)) in
    if negb (String.eqb (tr_status stage) TxnStatusPaySuccess) then ret false else
    let! no := stageAccount (coalesce (tr_credit stage)) creditAccountNo in
    do! applyTransferCreditTx (tr_no stage) (coalesce (tr_debit stage)) no (coalesce (tr_scene stage)) amount
          (pgDatePtr (tr_expire stage)) in
    do! run (UpdateTransferTxnStatusByUUID TxnStatusRecvSuccess None None (tr_no stage)) in
    do! insertOutboxEventTx (tr_no stage) (tr_merchant stage) (tr_out_trade stage) in
    ret true).

Definition ApplyRefundDebitStage (refundTxnNo : string) (amount : Z) : M bool :=
  withTx false (
    let! refund := or_norows ErrTxnNotFound (run (GetTransferTxnStageForUpdate refundTxnNo)) in
    if negb (String.eqb (tr_status refund) TxnStatusInit) then ret false else
    if negb (String.eqb (tr_biz refund) BizTypeRefund) then throw ErrTxnStatusInvalid else
    match tr_refund_of refund with
    | None => throw ErrTxnStatusInvalid
    | Some origin =>
        do! decreaseOriginTx amount origin (tr_merchant refund) in
        let d := TrimSpace (coalesce (tr_debit refund)) in
        let c := TrimSpace (coalesce (tr_credit refund)) in
        if String.eqb d "" || String.eqb c "" then throw ErrAccountResolveFailed else
        do! applyAccountDebitTx (tr_no refund) d amount in
        do! run (UpdateTransferTxnStatusByUUID TxnStatusPaySuccess None None (tr_no refund)) in
        ret true
    end).

Definition ApplyRefundCreditStage (refundTxnNo creditAccountNo : string) (amount : Z) : M bool :=
  withTx false (
    let! refund := or_norows ErrTxnNotFound (run (GetTransferTxnStageForUpdate refundTxnNo)) in
    if negb (String.eqb (tr_status refund) TxnStatusPaySuccess) then ret false else
    match tr_refund_of refund with
    | None => throw ErrTxnStatusInvalid
    | Some origin =>
        let! no := stageAccount (TrimSpace (coalesce (tr_credit refund))) (TrimSpace creditAccountNo) in
        do! applyRefundCreditTx (tr_no refund) no amount origin (tr_merchant refund) in
        do! run (UpdateTransferTxnStatusByUUID TxnStatusRecvSuccess None None (tr_no refund)) in
        do! insertOutboxEventTx (tr_no refund) (tr_merchant refund) (tr_out_trade refund) in
        ret true
    end).

End Ledger.
