(* ===== verification/HiLo.v ===== *)
(** * The HiLo code allocator ([platform/id/db_code_provider.go], [Repository.LeaseRange])

    Each process leases ranges of sequence numbers from table
    [code_sequence] and hands them out under a mutex, renewing in the
    background when few are left.  The atomic sections are functions on the
    bucket; [step] interleaves them over any number of processes, database
    failures and restarts; [nextSeq] runs them for one caller. *)

From S2P Require Import Prelude GoBase Domain Codes Store Queries Reads Ledger.
From stdpp Require Import base gmap list strings list_numbers.
From Stdlib Require Import ZArith Lia.

Local Open Scope Z_scope.

(** ** Segments *)

Definition hasNext (s : codeSegment) : bool := seg_valid s && (seg_next s <=? seg_end s).

Definition take (s : codeSegment) : Z * codeSegment :=
  let v := seg_next s in
  (v, mkSegment (v + 1) (seg_end s) (if seg_end s <? v + 1 then false else seg_valid s)).

Definition remaining (s : codeSegment) : Z := if hasNext s then seg_end s - seg_next s + 1 else 0.

Definition newCodeBucket : codeBucket := mkBucket (mkSegment 0 0 false) None false.

(** ** Options *)

Definition defaultLeaseBatchSize : Z := 100.
Definition defaultLowWatermark : Z := 20.

(** [NewDBCodeProvider]: batch size and low watermark in use. *)
Definition providerOptions (options : option (Z * Z)) : Z * Z :=
  let '(batch, low) :=
    match options with
    | Some (b, l) => (if 0 <? b then b else defaultLeaseBatchSize, if 0 <=? l then l else defaultLowWatermark)
    | None => (defaultLeaseBatchSize, defaultLowWatermark)
    end in
  let low := if batch <=? low then Z.quot batch 2 else low in
  (batch, if low <? 0 then 0 else low).

(** ** The atomic sections of [nextSeq] and [renewAsync] *)

Inductive outcome : Type :=
| Got (seq : Z) (spawn : bool)   (* a number; whether [go p.renewAsync] was started *)
| Retry                          (* the prefetched segment became current *)
| Wait                           (* another goroutine iss renewing *)
| Lease.                         (* this caller must lease *)

Definition lockStep (low : Z) (b : codeBucket) : codeBucket * outcome :=
  if hasNext (bk_current b) then
    let '(seq, cur) := take (bk_current b) in
    let spawn := (remaining cur <=? low) && (match bk_prefetch b with None => true | Some _ => false end)
                 && negb (bk_renewing b) in
    (mkBucket cur (bk_prefetch b) (bk_renewing b || spawn), Got seq spawn)
  else
    match bk_prefetch b with
    | Some p =>
        if hasNext p then (mkBucket p None (bk_renewing b), Retry)
        else if bk_renewing b then (b, Wait)
        else (mkBucket (bk_current b) (bk_prefetch b) true, Lease)
    | None =>
        if bk_renewing b then (b, Wait)
        else (mkBucket (bk_current b) (bk_prefetch b) true, Lease)
    end.

(** After [LeaseRange]: [None] is an error. *)
Definition installCaller (r : option (Z * Z)) (b : codeBucket) : codeBucket :=
  mkBucket (match r with Some (s, e) => mkSegment s e true | None => bk_current b end) (bk_prefetch b) false.
Definition installAsync (r : option (Z * Z)) (b : codeBucket) : codeBucket :=
  mkBucket (bk_current b) (match r with Some (s, e) => Some (mkSegment s e true) | None => bk_prefetch b end) false.
Definition install (caller : bool) : option (Z * Z) -> codeBucket -> codeBucket :=
  if caller then installCaller else installAsync.

(** ** Many processes on one sequence

    A process has a bucket and leases in flight: asked for ([None]) or
    granted by the database and not yet installed. *)

Record proc : Type := mkProc { p_bucket : codeBucket; p_flights : list (bool * option (Z * Z)) }.

Record alloc : Type := mkAlloc {
  al_next : option Z;              (* code_sequence.next_value *)
  al_procs : list proc;
  al_issued : list Z               (* every number ever handed out *)
}.

Definition freshProc : proc := mkProc newCodeBucket [].

Inductive step (batch low : Z) : alloc -> alloc -> Prop :=
| st_start v ps iss : step batch low (mkAlloc v ps iss) (mkAlloc v (freshProc :: ps) iss)
| st_crash v ps1 p ps2 iss :
    step batch low (mkAlloc v (ps1 ++ p :: ps2) iss) (mkAlloc v (ps1 ++ ps2) iss)
| st_init ps iss : step batch low (mkAlloc None ps iss) (mkAlloc (Some 0) ps iss)
| st_lock v ps1 b fs ps2 iss b' o :
    lockStep low b = (b', o) ->
    step batch low (mkAlloc v (ps1 ++ mkProc b fs :: ps2) iss)
      (mkAlloc v (ps1 ++ mkProc b' (match o with
                                    | Got _ true => (false, None) :: fs
                                    | Lease => (true, None) :: fs
                                    | _ => fs
                                    end) :: ps2)
         (match o with Got n _ => n :: iss | _ => iss end))
| st_lease v ps1 b fs1 c fs2 ps2 iss :
    step batch low (mkAlloc (Some v) (ps1 ++ mkProc b (fs1 ++ (c, None) :: fs2) :: ps2) iss)
      (mkAlloc (Some (v + batch)) (ps1 ++ mkProc b (fs1 ++ (c, Some (v, v + batch - 1)) :: fs2) :: ps2) iss)
| st_install v ps1 b fs1 c r fs2 ps2 iss :
    step batch low (mkAlloc v (ps1 ++ mkProc b (fs1 ++ (c, r) :: fs2) :: ps2) iss)
      (mkAlloc v (ps1 ++ mkProc (install c r b) (fs1 ++ fs2) :: ps2) iss)
| st_lost v ps1 b fs1 c r fs2 ps2 iss :
    step batch low (mkAlloc v (ps1 ++ mkProc b (fs1 ++ (c, r) :: fs2) :: ps2) iss)
      (mkAlloc v (ps1 ++ mkProc (install c None b) (fs1 ++ fs2) :: ps2) iss).

Definition initial : alloc := mkAlloc None [] [].

Inductive reachable (batch low : Z) : alloc -> Prop :=
| re_init : reachable batch low initial
| re_step a a' : reachable batch low a -> step batch low a a' -> reachable batch low a'.

(** The numbers a state still holds, and the invariant: none twice, all below [next_value]. *)

Definition seg_nums (s : codeSegment) : list Z :=
  if seg_valid s then seqZ (seg_next s) (seg_end s - seg_next s + 1) else [].
Definition range_nums (r : option (Z * Z)) : list Z :=
  match r with Some (s, e) => seqZ s (e - s + 1) | None => [] end.
Definition bucket_nums (b : codeBucket) : list Z :=
  seg_nums (bk_current b) ++ match bk_prefetch b with Some p => seg_nums p | None => [] end.
Definition flight_nums (fs : list (bool * option (Z * Z))) : list Z := flat_map (fun f => range_nums f.2) fs.
Definition proc_nums (p : proc) : list Z := bucket_nums (p_bucket p) ++ flight_nums (p_flights p).
Definition all_nums (a : alloc) : list Z := al_issued a ++ flat_map proc_nums (al_procs a).

Definition safe (a : alloc) : Prop :=
  NoDup (all_nums a) /\
  (forall n, n ∈ all_nums a -> exists v, al_next a = Some v /\ 0 <= n < v) /\
  (forall v, al_next a = Some v -> 0 <= v).

(** ** One caller in the world *)

Section Caller.

Definition getBucket (key : string) : M codeBucket :=
  fun w => (w, Ok (default newCodeBucket (w_buckets w !! key))).
Definition setBucket (key : string) (b : codeBucket) : M unit :=
  fun w => (with_codes (w_seq w) (w_seq_init w) (<[key := b]> (w_buckets w)) w, Ok tt).
Definition initLoaded (key : string) : M bool := fun w => (w, Ok (bool_decide (key ∈ w_seq_init w))).
Definition initStore (key : string) : M unit :=
  fun w => (with_codes (w_seq w) ({[key]} ∪ w_seq_init w) (w_buckets w) w, Ok tt).
Definition initDelete (key : string) : M unit :=
  fun w => (with_codes (w_seq w) (w_seq_init w ∖ {[key]}) (w_buckets w) w, Ok tt).

Definition LeaseRange (codeType scopeKey : string) (batchSize : Z) : M (Z * Z) :=
  if String.eqb (TrimSpace codeType) "" || String.eqb (TrimSpace scopeKey) "" || (batchSize <=? 0)
  then throw (ErrText "invalid lease args") else
  let seqKey := (codeType ++ ":" ++ scopeKey)%string in
  let! ok := initLoaded seqKey in
  do! (if ok then ret tt else do! InitCodeSequence codeType scopeKey in initStore seqKey) in
  let! r := attempt (LeaseCodeRange batchSize codeType scopeKey) in
  match r with
  | Ok se => ret se
  | Err e => if errors_is e ErrNoRows then (do! initDelete seqKey in throw IdErrCodeAllocatorUnavailable)
             else throw e
  end.

Context (batch low : Z).

Definition leased (codeType scopeKey : string) : M (option (Z * Z) * option error) :=
  let! r := attempt (LeaseRange codeType scopeKey batch) in
  ret (match r with Ok se => (Some se, None) | Err e => (None, Some e) end).

Definition renewAsync (key codeType scopeKey : string) : M unit :=
  let! r := leased codeType scopeKey in
  let! b := getBucket key in setBucket key (installAsync r.1 b).

(** The [for] loop of [nextSeq].  A background renewal that was started runs,
    for a caller alone, when the caller waits for it. *)
Fixpoint nextSeqLoop (fuel : nat) (key codeType scopeKey : string) : M Z :=
  match fuel with
  | O => throw (ErrText "out of fuel")
  | S k =>
      let! b := getBucket key in
      let '(b', o) := lockStep low b in
      do! setBucket key b' in
      match o with
      | Got seq _ => ret seq
      | Retry => nextSeqLoop k key codeType scopeKey
      | Wait => do! renewAsync key codeType scopeKey in nextSeqLoop k key codeType scopeKey
      | Lease =>
          let! r := leased codeType scopeKey in
          let! b1 := getBucket key in
          do! setBucket key (installCaller r.1 b1) in
          match r.2 with
          | Some e => throw (ErrWrap "" IdErrCodeAllocatorUnavailable)
          | None => nextSeqLoop k key codeType scopeKey
          end
      end
  end.

Definition nextSeq (codeType scopeKey : string) : M Z :=
  nextSeqLoop 4 (codeType ++ ":" ++ scopeKey)%string codeType scopeKey.

Definition ofResult {A} (r : Result error A) : M A := match r with Ok a => ret a | Err e => throw e end.

Definition NewMerchantNo : M string :=
  let! seq := nextSeq "MERCHANT_NO" "GLOBAL" in ofResult (merchantCode seq).
Definition NewCustomerNo : M string :=
  let! seq := nextSeq "CUSTOMER_NO" "GLOBAL" in ofResult (customerCode seq).
Definition NewAccountNo (merchantNo accountType : string) : M string :=
  let! seq := nextSeq "ACCOUNT_NO" (accountScopeKey merchantNo accountType) in
  ofResult (accountCode merchantNo accountType seq).

(** ** The allocator stays outside the ledger *)


Definition outside {A} (m : M A) : Prop :=
  forall w, w_db (m w).1 = w_db w /\ w_txnow (m w).1 = w_txnow w.

Lemma outside_bind {A B} (m : M A) (k : A -> M B) :
  outside m -> (forall a, outside (k a)) -> outside (bind m k).
Proof.
  intros Hm Hk w. unfold bind. specialize (Hm w). destruct (m w) as [w1 [e|a]]; [done|].
  simpl in Hm. destruct (Hk a w1) as [-> ->]. done.
Qed.
Lemma outside_attempt {A} (m : M A) : outside m -> outside (attempt m).
Proof. intros Hm w. unfold attempt. specialize (Hm w). by destruct (m w). Qed.
Lemma outside_runSeq {A} (q : gmap (string * string) Z -> Result error (gmap (string * string) Z * A)) :
  outside (runSeq q).
Proof.
  intros w. unfold runSeq, pop_fault. simpl.
  destruct (hd NoFault (w_faults w)); simpl; try done; destruct (q _) as [|[]]; done.
Qed.

Lemma outside_LeaseRange c s b : outside (LeaseRange c s b).
Proof.
  unfold LeaseRange. destruct (_ || _ || _); [done|]. apply outside_bind; [done|]. intros ok.
  apply outside_bind; [destruct ok; [done|]; apply outside_bind; [apply outside_runSeq|done]|]. intros _.
  apply outside_bind; [apply outside_attempt, outside_runSeq|]. intros [e|se]; [|done].
  destruct (errors_is e ErrNoRows); done.
Qed.

Lemma outside_leased c s : outside (leased c s).
Proof. apply outside_bind; [apply outside_attempt, outside_LeaseRange|done]. Qed.

Lemma outside_nextSeqLoop fuel key c s : outside (nextSeqLoop fuel key c s).
Proof.
  induction fuel as [|k IH]; [done|]. cbn [nextSeqLoop]. apply outside_bind; [done|]. intros b.
  destruct (lockStep low b) as [b' o]. apply outside_bind; [done|]. intros _.
  destruct o; [done|done| |].
  - apply outside_bind; [|done]. apply outside_bind; [apply outside_leased|done].
  - apply outside_bind; [apply outside_leased|]. intros r. do 2 (apply outside_bind; [done|]; intros ?).
    by destruct r.2.
Qed.

Lemma outside_ofResult {A} (r : Result error A) : outside (ofResult r).
Proof. by destruct r. Qed.

(** ** [nextSeq] always returns *)

Definition bucketOf (key : string) (w : World) : codeBucket := default newCodeBucket (w_buckets w !! key).

Definition keepsBuckets {A} (m : M A) : Prop := forall w, w_buckets (m w).1 = w_buckets w.

Lemma keepsBuckets_bind {A B} (m : M A) (k : A -> M B) :
  keepsBuckets m -> (forall a, keepsBuckets (k a)) -> keepsBuckets (bind m k).
Proof.
  intros Hm Hk w. unfold bind. specialize (Hm w). destruct (m w) as [w1 [e|a]]; [done|].
  simpl in Hm. by rewrite (Hk a w1).
Qed.
Lemma keepsBuckets_attempt {A} (m : M A) : keepsBuckets m -> keepsBuckets (attempt m).
Proof. intros Hm w. unfold attempt. specialize (Hm w). by destruct (m w). Qed.
Lemma keepsBuckets_runSeq {A} (q : gmap (string * string) Z -> Result error (gmap (string * string) Z * A)) :
  keepsBuckets (runSeq q).
Proof.
  intros w. unfold runSeq, pop_fault. simpl.
  destruct (hd NoFault (w_faults w)); simpl; try done; destruct (q _) as [|[]]; done.
Qed.

Lemma keepsBuckets_LeaseRange c s b : keepsBuckets (LeaseRange c s b).
Proof.
  unfold LeaseRange. destruct (_ || _ || _); [done|]. apply keepsBuckets_bind; [done|]. intros ok.
  apply keepsBuckets_bind; [destruct ok; [done|]; apply keepsBuckets_bind; [apply keepsBuckets_runSeq|done]|].
  intros _. apply keepsBuckets_bind; [apply keepsBuckets_attempt, keepsBuckets_runSeq|]. intros [e|se]; [|done].
  destruct (errors_is e ErrNoRows); done.
Qed.

Lemma LeaseCodeRange_ok c s w w' st en :
  LeaseCodeRange batch c s w = (w', Ok (st, en)) -> en = st + batch - 1.
Proof.
  unfold LeaseCodeRange, runSeq, pop_fault. destruct (hd NoFault (w_faults w)); simpl; try done;
    (destruct (w_seq w !! (c, s)) as [v|]; [|done]); (destruct (bigintAdd v batch) as [|v'] eqn:E; [done|]);
    intros; simplify_eq. lia.
Qed.

Lemma LeaseRange_ok c s w w' st en : LeaseRange c s batch w = (w', Ok (st, en)) -> en = st + batch - 1.
Proof.
  unfold LeaseRange. destruct (_ || _ || _); [done|]. intros Hr.
  apply bind_ok in Hr as (w1 & ok & _ & Hr). apply bind_ok in Hr as (w2 & [] & _ & Hr).
  apply attempt_bind_ok in Hr as (w3 & [e|se] & Hl & Hr); [by destruct (errors_is e ErrNoRows)|].
  apply ret_ok in Hr as [-> <-]. by eapply LeaseCodeRange_ok.
Qed.

Lemma leased_spec c s w :
  exists w' x, leased c s w = (w', Ok x) /\ w_buckets w' = w_buckets w /\
    ((exists st, x = (Some (st, st + batch - 1), None)) \/ (exists e, x = (None, Some e))).
Proof.
  unfold leased, bind, attempt. pose proof (keepsBuckets_LeaseRange c s batch w) as Hb.
  destruct (LeaseRange c s batch w) as [w1 [e|[st en]]] eqn:E; simpl in Hb |- *;
    (eexists _, _; split; [reflexivity|split; [done|]]); [by right; eexists|].
  left. exists st. by rewrite (LeaseRange_ok _ _ _ _ _ _ E).
Qed.

Definition delivered (r : Result error Z) : Prop :=
  match r with Ok _ => True | Err e => errors_is e IdErrCodeAllocatorUnavailable = true end.

Lemma bucketOf_set key b w : bucketOf key (with_codes (w_seq w) (w_seq_init w) (<[key := b]> (w_buckets w)) w) = b.
Proof. unfold bucketOf. simpl. by rewrite lookup_insert_eq. Qed.

Definition putBucket (key : string) (b : codeBucket) (w : World) : World :=
  with_codes (w_seq w) (w_seq_init w) (<[key := b]> (w_buckets w)) w.

Lemma bucketOf_put key b w : bucketOf key (putBucket key b w) = b.
Proof. apply bucketOf_set. Qed.

(** One round of the loop. *)
Lemma nextSeqLoop_S k key c s w :
  nextSeqLoop (S k) key c s w =
  (let '(b', o) := lockStep low (bucketOf key w) in
   match o with
   | Got seq _ => (putBucket key b' w, Ok seq)
   | Retry => nextSeqLoop k key c s (putBucket key b' w)
   | Wait =>
       let (w1, x) := leased c s (putBucket key b' w) in
       match x with
       | Err e => (w1, Err e)
       | Ok r => nextSeqLoop k key c s (putBucket key (installAsync r.1 (bucketOf key w1)) w1)
       end
   | Lease =>
       let (w1, x) := leased c s (putBucket key b' w) in
       match x with
       | Err e => (w1, Err e)
       | Ok r =>
           let w2 := putBucket key (installCaller r.1 (bucketOf key w1)) w1 in
           match r.2 with
           | Some e => (w2, Err (ErrWrap "" IdErrCodeAllocatorUnavailable))
           | None => nextSeqLoop k key c s w2
           end
       end
   end).
Proof.
  cbn [nextSeqLoop]. unfold bind at 1, getBucket. fold (bucketOf key w).
  destruct (lockStep low (bucketOf key w)) as [b' [seq sp| | |]]; try reflexivity.
  - unfold bind, setBucket, renewAsync, putBucket, bind, getBucket.
    match goal with |- context [leased c s ?x] => destruct (leased c s x) as [w1 [e|r]] end; reflexivity.
  - unfold bind, setBucket, putBucket, getBucket.
    match goal with |- context [leased c s ?x] => destruct (leased c s x) as [w1 [e|r]] end; [reflexivity|].
    by destruct r.2.
Qed.

Lemma loop_current k key c s w : hasNext (bk_current (bucketOf key w)) = true ->
  delivered (nextSeqLoop (S k) key c s w).2.
Proof. intros Hn. rewrite nextSeqLoop_S. unfold lockStep. rewrite Hn. by destruct (take _). Qed.

Lemma loop_prefetch k key c s w p : hasNext (bk_current (bucketOf key w)) = false ->
  bk_prefetch (bucketOf key w) = Some p -> hasNext p = true ->
  delivered (nextSeqLoop (S (S k)) key c s w).2.
Proof.
  intros Hn Hp Hpn. rewrite nextSeqLoop_S. unfold lockStep. rewrite Hn, Hp, Hpn.
  apply loop_current. by rewrite bucketOf_put.
Qed.

Lemma seg_hasNext st : 0 < batch -> hasNext (mkSegment st (st + batch - 1) true) = true.
Proof. intros Hb. unfold hasNext. simpl. apply Z.leb_le. lia. Qed.

Definition dry (b : codeBucket) : Prop :=
  hasNext (bk_current b) = false /\ forall p, bk_prefetch b = Some p -> hasNext p = false.

Lemma lockStep_dry b : dry b ->
  lockStep low b = if bk_renewing b then (b, Wait) else (mkBucket (bk_current b) (bk_prefetch b) true, Lease).
Proof.
  intros [Hn Hp]. unfold lockStep. rewrite Hn. destruct (bk_prefetch b) as [p|] eqn:E; [|done].
  by rewrite (Hp p eq_refl).
Qed.

Lemma loop_lease k key c s w : 0 < batch -> dry (bucketOf key w) -> bk_renewing (bucketOf key w) = false ->
  delivered (nextSeqLoop (S (S k)) key c s w).2.
Proof.
  intros Hb Hd Hr. rewrite nextSeqLoop_S, (lockStep_dry _ Hd), Hr.
  match goal with |- context [leased c s ?w0] => destruct (leased_spec c s w0) as (w1 & x & -> & _ & Hx) end.
  destruct Hx as [[st ->]|[e ->]]; [|done].
  apply loop_current. rewrite bucketOf_put. by apply seg_hasNext.
Qed.

Lemma loop_wait k key c s w : 0 < batch -> dry (bucketOf key w) -> bk_renewing (bucketOf key w) = true ->
  delivered (nextSeqLoop (S (S (S k))) key c s w).2.
Proof.
  intros Hb Hd Hr. rewrite nextSeqLoop_S, (lockStep_dry _ Hd), Hr.
  match goal with |- context [leased c s ?w0] => destruct (leased_spec c s w0) as (w1 & x & -> & Hbk & Hx) end.
  assert (bucketOf key w1 = bucketOf key w) as ->.
  { unfold bucketOf at 1. rewrite Hbk. apply bucketOf_put. }
  destruct Hd as [Hn Hp]. destruct Hx as [[st ->]|[e ->]].
  - apply (loop_prefetch _ _ _ _ _ (mkSegment st (st + batch - 1) true)); [..|by apply seg_hasNext];
      by rewrite bucketOf_put.
  - apply loop_lease; [done| |]; rewrite bucketOf_put; simpl; done.
Qed.

(** More fuel changes nothing once the loop has returned. *)
Lemma loop_more k key c s w : delivered (nextSeqLoop k key c s w).2 ->
  forall j, nextSeqLoop (k + j) key c s w = nextSeqLoop k key c s w.
Proof.
  revert w. induction k as [|k IH]; intros w; [done|]. intros Hd j. rewrite nextSeqLoop_S in Hd.
  rewrite Nat.add_succ_l, !nextSeqLoop_S. destruct (lockStep low (bucketOf key w)) as [b' [seq sp| | |]]; [done|by apply IH| |].
  - match goal with |- context [leased c s ?x] => destruct (leased c s x) as [w1 [e|r]] end; [done|]. by apply IH.
  - match goal with |- context [leased c s ?x] => destruct (leased c s x) as [w1 [e|r]] end; [done|].
    cbv zeta in *. destruct r.2; [done|]. by apply IH.
Qed.

Lemma three_rounds key c s w : 0 < batch -> delivered (nextSeqLoop 3 key c s w).2.
Proof.
  intros Hb. destruct (hasNext (bk_current (bucketOf key w))) eqn:Hn; [by apply loop_current|].
  destruct (bk_prefetch (bucketOf key w)) as [p|] eqn:Hp; [destruct (hasNext p) eqn:Hpn|].
  - by eapply loop_prefetch.
  - assert (dry (bucketOf key w)) by (split; [done|]; intros ? E; rewrite Hp in E; by simplify_eq).
    destruct (bk_renewing (bucketOf key w)) eqn:Hr; [by apply loop_wait|by apply loop_lease].
  - assert (dry (bucketOf key w)) by (split; [done|]; intros ? E; rewrite Hp in E; by simplify_eq).
    destruct (bk_renewing (bucketOf key w)) eqn:Hr; [by apply loop_wait|by apply loop_lease].
Qed.
End Caller.

(** ** One caller among many goroutines

    Between the atomic sections of a call the other goroutines of the process
    run theirs; [other b n b'] is one of them, [n] the calls and renewals it
    ends: a number handed out, or a lease that failed. *)

Inductive other (low : Z) (b : codeBucket) : nat -> codeBucket -> Prop :=
| ot_section b' o : lockStep low b = (b', o) -> other low b (match o with Got _ _ => 1 | _ => 0 end) b'
| ot_renewed c s e : s <= e -> other low b 0 (install c (Some (s, e)) b)
| ot_failed c : other low b 1 (install c None b).

Inductive others (low : Z) (b : codeBucket) : nat -> codeBucket -> Prop :=
| os_none : others low b 0 b
| os_more n b1 m b2 : others low b n b1 -> other low b1 m b2 -> others low b (n + m) b2.

(** What the loop of [cond.Wait] waits for. *)
Definition woken (b : codeBucket) : bool :=
  hasNext (bk_current b) || match bk_prefetch b with Some p => hasNext p | None => false end || negb (bk_renewing b).

(** A call of [nextSeq] that has gone round its loop [k] times without
    returning, while the others ended [n] calls and renewals. *)
Inductive calling (low : Z) : nat -> nat -> codeBucket -> Prop :=
| ca_start b : calling low 0 0 b
| ca_others k n m b b' : calling low k n b -> others low b m b' -> calling low k (n + m) b'
| ca_retry k n b b' : calling low k n b -> lockStep low b = (b', Retry) -> calling low (S k) n b'
| ca_wait k n m b b1 b' : calling low k n b -> lockStep low b = (b1, Wait) -> others low b1 m b' -> woken b' = true ->
    calling low (S k) (n + m) b'
| ca_lease k n m b b1 b2 s e : calling low k n b -> lockStep low b = (b1, Lease) -> others low b1 m b2 -> s <= e ->
    calling low (S k) (n + m) (installCaller (Some (s, e)) b2).

(** The rounds a call still has before it, if it is left alone. *)
Definition ahead (b : codeBucket) : nat :=
  if hasNext (bk_current b) then 0
  else match bk_prefetch b with Some p => if hasNext p then 1 else 2 | None => 2 end.

Lemma ahead_le b : (ahead b <= 2)%nat.
Proof. unfold ahead. repeat case_match; lia. Qed.

Lemma segment_hasNext s e : s <= e -> hasNext (mkSegment s e true) = true.
Proof. intros Hse. unfold hasNext. simpl. by apply Z.leb_le. Qed.

(** Without an end of a call or renewal the others do not set a caller back,
    and do not leave it waiting for nobody. *)
Lemma other_ahead low b n b' :
  other low b n b' ->
  (ahead b' <= ahead b + 2 * n)%nat /\
  (n = 0%nat -> (ahead b = 2%nat -> bk_renewing b = true) -> ahead b' = 2%nat -> bk_renewing b' = true).
Proof.
  intros [b1 o Hl|c s e Hse|c]; [|clear n b'|].
  - unfold lockStep in Hl. destruct (hasNext (bk_current b)) eqn:Hc.
    { destruct (take _) as [q cur]. injection Hl as <- <-. split; [pose proof (ahead_le (mkBucket cur (bk_prefetch b) (bk_renewing b ||
        ((remaining cur <=? low) && match bk_prefetch b with Some _ => false | None => true end && negb (bk_renewing b))))); lia|done]. }
    destruct (bk_prefetch b) as [p|] eqn:Hp; [destruct (hasNext p) eqn:Hn|]; [|destruct (bk_renewing b) eqn:Hr..];
      injection Hl as <- <-; unfold ahead; simpl; rewrite ?Hc, ?Hp, ?Hn; split; try lia; done.
  - pose proof (segment_hasNext s e Hse) as Hn. unfold ahead, install, installCaller, installAsync.
    destruct c; simpl; rewrite Hn; (split; [repeat case_match; lia|]); [done|]. case_match; done.
  - split; [pose proof (ahead_le (install c None b)); lia|done].
Qed.

Lemma others_ahead low b n b' :
  others low b n b' ->
  (ahead b' <= ahead b + 2 * n)%nat /\
  (n = 0%nat -> (ahead b = 2%nat -> bk_renewing b = true) -> ahead b' = 2%nat -> bk_renewing b' = true).
Proof.
  induction 1 as [|n b1 m b2 _ [IH1 IH2] Ho]; [split; [lia|done]|].
  destruct (other_ahead _ _ _ _ Ho) as [H1 H2]. split; [lia|]. intros Hz Hb. apply H2; [lia|]. apply IH2; [lia|done].
Qed.

Lemma lockStep_ahead low b b' o : lockStep low b = (b', o) ->
  match o with
  | Got _ _ => True
  | Retry => ahead b = 1%nat /\ ahead b' = 0%nat
  | Wait => ahead b = 2%nat /\ ahead b' = 2%nat /\ bk_renewing b' = true
  | Lease => ahead b = 2%nat
  end.
Proof.
  unfold lockStep, ahead. destruct (hasNext (bk_current b)) eqn:Hc; [destruct (take _); by intros [= _ <-]|].
  destruct (bk_prefetch b) as [p|] eqn:Hp; [destruct (hasNext p) eqn:Hn|]; [|destruct (bk_renewing b) eqn:Hr..];
    intros [= <- <-]; simpl; rewrite ?Hc, ?Hp, ?Hn, ?Hr; done.
Qed.

Lemma calling_ahead low k n b : calling low k n b -> (k + ahead b <= 2 + 2 * n)%nat.
Proof.
  induction 1 as [b|k n m b b' _ IH Ho|k n b b' _ IH Hl|k n m b b1 b' _ IH Hl Ho Hw|k n m b b1 b2 s e _ IH Hl Ho Hse].
  - pose proof (ahead_le b). lia.
  - destruct (others_ahead _ _ _ _ Ho) as [H1 _]. lia.
  - apply lockStep_ahead in Hl as [H1 H2]. lia.
  - apply lockStep_ahead in Hl as (H1 & H2 & Hr). destruct (others_ahead _ _ _ _ Ho) as [_ H4].
    pose proof (ahead_le b'). destruct m as [|m]; [|lia]. assert (ahead b' <> 2%nat); [|lia]. intros E.
    specialize (H4 eq_refl (fun _ => Hr) E). unfold woken in Hw. rewrite H4 in Hw. simpl in Hw.
    unfold ahead in E. destruct (hasNext (bk_current b')); [done|]. destruct (bk_prefetch b') as [p|]; [|done].
    by destruct (hasNext p).
  - apply lockStep_ahead in Hl. assert (ahead (installCaller (Some (s, e)) b2) = 0%nat) as ->; [|lia].
    unfold ahead. simpl. by rewrite segment_hasNext.
Qed.


(** ** No number twice *)

Lemma take_nums s : hasNext s = true -> seg_nums s = (take s).1 :: seg_nums (take s).2.
Proof.
  unfold hasNext, take, seg_nums. intros [Hv Hn]%andb_true_iff. apply Z.leb_le in Hn. simpl. rewrite Hv.
  rewrite seqZ_cons by lia. f_equal. unfold Z.succ, Z.pred.
  destruct (Z.ltb_spec (seg_end s) (seg_next s + 1)).
  - rewrite seqZ_nil by lia. done.
  - f_equal; lia.
Qed.

Lemma lockStep_nums low b b' o :
  lockStep low b = (b', o) ->
  (match o with Got n _ => [n] | _ => [] end) ++ bucket_nums b' ⊆+ bucket_nums b.
Proof.
  unfold lockStep, bucket_nums. destruct (hasNext (bk_current b)) eqn:Eh.
  - pose proof (take_nums _ Eh) as Ht. destruct (take (bk_current b)) as [seq cur].
    intros [= <- <-]. simpl in *. by rewrite Ht.
  - destruct (bk_prefetch b) as [p|] eqn:Ep.
    + destruct (hasNext p).
      * intros [= <- <-]. simpl. rewrite app_nil_r. by apply submseteq_inserts_l.
      * destruct (bk_renewing b); intros [= <- <-]; simpl; by rewrite ?Ep.
    + destruct (bk_renewing b); intros [= <- <-]; simpl; by rewrite ?Ep.
Qed.

Lemma install_nums c r b : bucket_nums (install c r b) ⊆+ bucket_nums b ++ range_nums r.
Proof.
  destruct b as [cur pre ren]. destruct c, r as [[s e]|]; unfold install, bucket_nums; simpl;
    rewrite ?app_nil_r; try done; unfold seg_nums at 1; simpl.
  - rewrite (Permutation_app_comm _ (seqZ _ _)). apply submseteq_skips_l, submseteq_inserts_l. done.
  - rewrite <- app_assoc. apply submseteq_skips_l. apply submseteq_inserts_l. done.
Qed.

Lemma flat_map_mid {A} (f : A -> list Z) l1 x l2 :
  flat_map f (l1 ++ x :: l2) ≡ₚ f x ++ flat_map f l1 ++ flat_map f l2.
Proof. rewrite flat_map_app. simpl. by rewrite Permutation_app_swap_app. Qed.

(** Keeping or losing numbers is safe. *)
Lemma safe_shrink v ps iss v' ps' iss' :
  safe (mkAlloc v ps iss) -> all_nums (mkAlloc v' ps' iss') ⊆+ all_nums (mkAlloc v ps iss) ->
  (forall n, v = Some n -> v' = Some n) -> (forall n, v' = Some n -> 0 <= n) -> safe (mkAlloc v' ps' iss').
Proof.
  intros [Hnd [Hb _]] Hsub Hv Hpos. split; [|split; [|done]].
  - apply submseteq_Permutation in Hsub as [k Hk]. rewrite Hk in Hnd. by apply NoDup_app in Hnd as [].
  - intros n Hn. destruct (Hb n) as (x & Hx & ?); [by eapply elem_of_submseteq|]. simpl in *. eauto.
Qed.

(** Replacing one process. *)
Lemma all_nums_mid v ps1 p ps2 iss :
  all_nums (mkAlloc v (ps1 ++ p :: ps2) iss) ≡ₚ (iss ++ proc_nums p) ++ flat_map proc_nums ps1 ++ flat_map proc_nums ps2.
Proof. unfold all_nums. simpl. rewrite flat_map_mid. by rewrite !app_assoc. Qed.

Lemma shrink_mid v v' ps1 p p' ps2 iss iss' :
  iss' ++ proc_nums p' ⊆+ iss ++ proc_nums p ->
  all_nums (mkAlloc v' (ps1 ++ p' :: ps2) iss') ⊆+ all_nums (mkAlloc v (ps1 ++ p :: ps2) iss).
Proof. intros Hs. rewrite !all_nums_mid. by apply submseteq_skips_r. Qed.

Lemma step_safe batch low a a' : 0 < batch -> step batch low a a' -> safe a -> safe a'.
Proof.
  intros Hbatch Hs Ha. pose proof Ha as (_ & _ & Hpos). simpl in Hpos. destruct Hs as [v ps iss|v ps1 p ps2 iss|ps iss|v ps1 b fs ps2 iss b' o Hl
    |v ps1 b fs1 c fs2 ps2 iss|v ps1 b fs1 c r fs2 ps2 iss|v ps1 b fs1 c r fs2 ps2 iss].
  - eapply safe_shrink; [exact Ha|done|done|exact Hpos].
  - eapply safe_shrink; [exact Ha| |done|exact Hpos]. rewrite all_nums_mid. unfold all_nums. simpl.
    rewrite flat_map_app, <- app_assoc. apply submseteq_skips_l. by apply submseteq_inserts_l.
  - eapply safe_shrink; [exact Ha|done|done|]. intros n [= <-]. lia.
  - eapply safe_shrink; [exact Ha| |done|exact Hpos]. apply shrink_mid. apply lockStep_nums in Hl.
    unfold proc_nums. simpl.
    assert (flight_nums (match o with Got _ true => (false, None) :: fs | Lease => (true, None) :: fs | _ => fs end)
            = flight_nums fs) as -> by (destruct o as [? []| | |]; done).
    rewrite !app_assoc. apply submseteq_skips_r.
    destruct o as [n s| | |]; simpl in *; [|by apply submseteq_skips_l..].
    rewrite Permutation_middle. by apply submseteq_skips_l.
  - destruct Ha as [Hnd [Hb _]]. specialize (Hpos v eq_refl). set (new := seqZ v batch).
    assert (Hp : all_nums (mkAlloc (Some (v + batch))
        (ps1 ++ mkProc b (fs1 ++ (c, Some (v, v + batch - 1)) :: fs2) :: ps2) iss)
      ≡ₚ new ++ all_nums (mkAlloc (Some v) (ps1 ++ mkProc b (fs1 ++ (c, None) :: fs2) :: ps2) iss)).
    { rewrite !all_nums_mid. unfold proc_nums, flight_nums. simpl. rewrite !flat_map_mid. simpl.
      replace (v + batch - 1 - v + 1) with batch by lia. fold new.
      rewrite !app_assoc. do 2 f_equiv. rewrite (Permutation_app_comm (iss ++ bucket_nums b) new).
      by rewrite <- !app_assoc. }
    split; [|split; [|simpl; intros n [= <-]; lia]].
    + rewrite Hp. apply NoDup_app. split; [apply NoDup_seqZ|]. split; [|done].
      intros n Hn Hin. apply elem_of_seqZ in Hn. destruct (Hb n Hin) as (x & [= <-] & ?). lia.
    + intros n Hn. rewrite Hp in Hn. apply elem_of_app in Hn as [Hn|Hn]; simpl; exists (v + batch); (split; [done|]).
      * apply elem_of_seqZ in Hn. lia.
      * destruct (Hb n Hn) as (x & [= <-] & ?). lia.
  - eapply safe_shrink; [exact Ha| |done|exact Hpos]. apply shrink_mid. apply submseteq_skips_l. unfold proc_nums. simpl.
    unfold flight_nums. rewrite flat_map_mid, flat_map_app. simpl.
    etrans; [apply submseteq_skips_r, (install_nums c r b)|]. by rewrite <- app_assoc.
  - eapply safe_shrink; [exact Ha| |done|exact Hpos]. apply shrink_mid. apply submseteq_skips_l. unfold proc_nums. simpl.
    unfold flight_nums. rewrite flat_map_mid, flat_map_app. simpl.
    etrans; [apply submseteq_skips_r, (install_nums c None b)|]. simpl. rewrite app_nil_r.
    apply submseteq_skips_l. by apply submseteq_inserts_l.
Qed.

Lemma reachable_safe batch low a : 0 < batch -> reachable batch low a -> safe a.
Proof.
  intros Hb. induction 1 as [|a a' _ IH Hs]; [|by eapply step_safe].
  split; [constructor|]. split; [intros n Hn; by apply elem_of_nil in Hn|done].
Qed.

(** [C30] No sequence number is handed out twice, in any interleaving of any
    number of processes sharing the table, with background renewals, failed
    or lost leases, and processes that crash and restart; every number handed
    out lies below the stored [next_value]. *)
Theorem sequence_numbers_unique batch low a :
  0 < batch -> reachable batch low a ->
  NoDup (al_issued a) /\ (forall n, n ∈ al_issued a -> exists v, al_next a = Some v /\ 0 <= n < v).
Proof.
  intros Hb (Hnd & Hlt & _)%reachable_safe; [|done]. unfold all_nums in *.
  apply NoDup_app in Hnd as [Hnd _]. split; [done|]. intros n Hn. apply Hlt, elem_of_app. by left.
Qed.

(** ** The provider of [NewRepository] *)

Definition repositoryOptions : Z * Z := providerOptions None.

#[export, program] Instance dbCodeProvider : CodeProvider := {
  NewMerchantNo := HiLo.NewMerchantNo repositoryOptions.1 repositoryOptions.2;
  NewCustomerNo := HiLo.NewCustomerNo repositoryOptions.1 repositoryOptions.2;
  NewAccountNo := HiLo.NewAccountNo repositoryOptions.1 repositoryOptions.2
}.
Next Obligation. apply outside_bind; [apply outside_nextSeqLoop|intros; apply outside_ofResult]. Qed.
Next Obligation. apply outside_bind; [apply outside_nextSeqLoop|intros; apply outside_ofResult]. Qed.
Next Obligation. intros m t. apply outside_bind; [apply outside_nextSeqLoop|intros; apply outside_ofResult]. Qed.
