(* ===== verification/Repo.v ===== *)
(** * The repository ([internal/db/repository.go])

    The methods behind the [Repository] interface of the services
    ([internal/service/repository.go]): each is one statement on the pool or
    one transaction.  The stage methods are in [Ledger]. *)

From S2P Require Import Prelude GoBase Domain Codes Store Queries Reads Paging Ledger.
From stdpp Require Import base gmap list strings.
From Stdlib Require Import ZArith Lia.

Local Open Scope string_scope.
Local Open Scope Z_scope.

(** ** Structs of the service package *)

Record WebhookConfig : Type := mkWebhookConfig { URL : string; Enabled : bool }.

Record MerchantFeatureConfig : Type := mkMerchantFeatureConfig {
  AutoCreateAccountOnCustomerCreate : bool; AutoCreateCustomerOnCredit : bool
}.

Record OutboxEventDelivery : Type := mkOutboxEventDelivery {
  EventID : string; ETxnNo : string; EMerchantNo : string; EOutTradeNo : string; EBizType : string;
  ETransferScene : string; EAmount : Z; EStatus : string; RetryCount : Z
}.

Record TxnListFilter : Type := mkTxnListFilter {
  FMerchantNo : string; FOutUserID : string; FScene : string; FStatus : string;
  FStartTime : option Time; FEndTime : option Time; FPageSize : Z; FPageToken : string
}.

Record AccountChangeLog : Type := mkAccountChangeLog {
  ChangeID : Z; LTxnNo : string; LAccountNo : string; Delta : Z;
  BalanceBefore : Z; BalanceAfter : Z; LTitle : string; LRemark : string; LCreatedAt : Time
}.

Record AccountChangeLogListFilter : Type := mkAccountChangeLogListFilter {
  LFMerchantNo : string; LFAccountNo : string; LFPageSize : Z; LFPageToken : string
}.

Record AccountBook : Type := mkAccountBook {
  BookNo : string; BAccountNo : string; BExpireAt : Time; BBalance : Z
}.

Record BookCreditChangeLog : Type := mkBookCreditChangeLog {
  BCChangeID : Z; BCTxnNo : string; BCDelta : Z; BCCreatedAt : Time; BCTitle : string
}.

Module Repository.

(** A method that returns [(X, bool)]: any error reads as [false]. *)
Definition found {A} (m : M A) : M (option A) :=
  let! r := attempt m in ret (match r with Ok a => Some a | Err _ => None end).

(** [if errors.Is(err, pgx.ErrNoRows) { return X{}, false, nil }; if err != nil { return X{}, false, err }]. *)
Definition found_err {A} (m : M A) : M (option A) :=
  let! r := attempt m in
  match r with
  | Ok a => ret (Some a)
  | Err e => if errors_is e ErrNoRows then ret None else throw e
  end.

(** [if isUniqueViolation(err) { return e }; return err]. *)
Definition unique_as {A} (e : error) (m : M A) : M A :=
  fun w => match m w with
           | (w1, Err e0) => (w1, Err (if isUniqueViolation e0 then e else e0))
           | ok => ok
           end.

Definition nullableDate (t : Time) (valid : bool) : option Date := if valid then Some (toPGDate t) else None.

Definition clampPage (n : Z) : Z := if n <=? 0 then 20 else if 200 <? n then 200 else n.
Definition clampBatch (n : Z) : Z := if n <=? 0 then 100 else if 1000 <? n then 1000 else n.

Definition optText (s : string) : option string := if String.eqb s "" then None else Some s.

Section Methods.
Context `{Platform} `{CodeProvider}.

(** ** Rows to structs *)

Definition merchantFromRow (r : MerchantRow) : Merchant :=
  mkMerchant (uuid_text (mr_id r)) (mr_no r) (mr_name r) (mr_budget r) (mr_receivable r) (coalesce (mr_writeoff r)).

Definition customerFromRow (r : CustomerRow) : Customer :=
  mkCustomer (uuid_text (cr_id r)) (cr_no r) (cr_merchant r) (cr_out_user r) (TrimSpace (coalesce (cr_default r))).

Definition refundText (o : option UUID) : string := match o with Some u => uuid_text u | None => "" end.

Definition transferTxnFromByNoRow (r : TxnRow) : TransferTxn :=
  mkTransferTxn (uuid_text (tr_no r)) (tr_merchant r) (tr_out_trade r) (coalesce (tr_title r))
    (coalesce (tr_remark r)) (tr_biz r) (coalesce (tr_scene r)) (coalesce (tr_debit r)) (coalesce (tr_credit r))
    (pgDateToTime (tr_expire r)) (tr_amount r) (refundText (tr_refund_of r)) (tr_refundable r) (tr_status r)
    (coalesce (tr_error_code r)) (coalesce (tr_error_msg r)) (tr_created r).
Definition transferTxnFromByOutTradeRow : TxnRow -> TransferTxn := transferTxnFromByNoRow.
Definition transferTxnFromListRow : TxnRow -> TransferTxn := transferTxnFromByNoRow.
Definition transferTxnFromListByStatusRow : TxnRow -> TransferTxn := transferTxnFromByNoRow.

(** ** Merchants *)

Definition createMerchant (m : Merchant) : M unit :=
  match parseUUID (MerchantID m) with
  | Err e => throw e
  | Ok id =>
      unique_as ErrMerchantNoExists
        (run (Queries.CreateMerchant id (MerchantNo m) (MName m) (BudgetAccountNo m) (ReceivableAccountNo m)
                (nullableText (TrimSpace (WriteoffAccountNo m)))))
  end.

Definition CreateMerchant (m : Merchant) : M unit := do! startNow in createMerchant m.

Definition CreateMerchantWithAccounts (m : Merchant) (accts : list Account) : M unit :=
  withTx tt (do! createMerchant m in forM accts createAccount).

Definition GetMerchantByNo (merchantNo : string) : M (option Merchant) :=
  let! r := found (auto (Queries.GetMerchantByNo merchantNo)) in ret (option_map merchantFromRow r).

Definition updateFeatures (merchantNo : string) (a c : bool) : Q Z := fun _ d =>
  match merchants d !! merchantNo with
  | Some r => Ok (set_merchants (<[merchantNo := mr_set_features a c r]> (merchants d)) d, 1)
  | None => Ok (d, 0)
  end.

Definition UpsertMerchantFeatureConfig (merchantNo : string) (autoAccount autoCustomer : bool) : M unit :=
  let! affected := auto (updateFeatures merchantNo autoAccount autoCustomer) in
  if affected =? 0 then throw ErrInvalidMerchantNo else ret tt.

Definition GetMerchantFeatureConfig (merchantNo : string) : M (option MerchantFeatureConfig) :=
  let! r := found_err (auto (Queries.GetMerchantByNo merchantNo)) in
  ret (option_map (fun m => mkMerchantFeatureConfig (mr_auto_account m) (mr_auto_customer m)) r).

(** ** Accounts *)

Definition CreateAccount (a : Account) : M unit := withTx tt (createAccount a).

Definition GetAccount (accountNo : string) : M (option Account) :=
  let! r := found (auto (GetAccountByNo accountNo)) in ret (option_map accountFromGetAccountRow r).

Definition GetAvailableBalance (accountNo : string) : M (option Z) :=
  let! r := found_err (auto (GetAccountByNo accountNo)) in
  match r with
  | None => ret None
  | Some row =>
      if negb (ar_book row) then ret (Some (ar_balance row)) else
      let! now := timeNow in
      let! sum := auto (GetAvailableAccountBookBalanceSum (ar_no row) (toPGDate now) (toPGDate noExpireBookDate)) in
      ret (Some sum)
  end.

Definition UpdateAccountCapabilities (accountNo : string) (debitOut creditIn transfer : bool) : M unit :=
  do! attempt (auto (Queries.UpdateAccountCapabilities debitOut creditIn transfer accountNo)) in ret tt.

(** ** Customers *)

Definition CreateCustomer (c : Customer) : M unit :=
  match parseUUID (CustomerID c) with
  | Err e => throw e
  | Ok id =>
      unique_as ErrCustomerExists
        (auto (Queries.CreateCustomer id (CustomerNo c) (CMerchantNo c) (OutUserID c)
                 (nullableText (TrimSpace (DefaultAccountNo c)))))
  end.

Definition GetCustomerByOutUserID (merchantNo outUserID : string) : M (option Customer) :=
  let! r := found (auto (Queries.GetCustomerByOutUserID merchantNo outUserID)) in
  ret (option_map customerFromRow r).

Definition GetAccountByCustomerNo (merchantNo customerNo : string) : M (option Account) :=
  let! no := found (auto (GetAccountNoByCustomerNo merchantNo customerNo)) in
  match no with
  | Some (Some accountNo) =>
      if String.eqb (TrimSpace accountNo) "" then ret None else
      let! r := found (auto (GetAccountByNo (TrimSpace accountNo))) in
      ret (option_map accountFromGetAccountRow r)
  | _ => ret None
  end.

Definition GetAccountByOutUserID (merchantNo outUserID : string) : M (option Account) :=
  let! r := found (auto (GetAccountByMerchantOutUserID merchantNo outUserID)) in
  ret (option_map accountFromGetAccountRow r).

(** ** Transactions *)

Definition txnParams (txn : TransferTxn) : CreateTransferTxnParams :=
  mkCreateTransferTxnParams (TxnNo txn) (TMerchantNo txn) (OutTradeNo txn) (BizType txn)
    (nullIfEmpty (TransferScene txn)) (nullIfEmpty (Title txn)) (nullIfEmpty (Remark txn))
    (nullIfEmpty (DebitAccountNo txn)) (nullIfEmpty (CreditAccountNo txn))
    (nullableDate (CreditExpireAt txn) (negb (IsZero (CreditExpireAt txn)))) (Amount txn) (Status txn)
    (nullIfEmpty (RefundOfTxnNo txn)) (RefundableAmount txn) (nullIfEmpty (ErrorCode txn)) (nullIfEmpty (ErrorMsg txn)).

Definition CreateTransferTxn (txn : TransferTxn) : M unit :=
  unique_as ErrDuplicateOutTradeNo (auto (Queries.CreateTransferTxn (txnParams txn))).

Definition GetTransferTxn (txnNo : string) : M (option TransferTxn) :=
  let! r := found (auto (GetTransferTxnByNo txnNo)) in ret (option_map transferTxnFromByNoRow r).

Definition GetTransferTxnByOutTradeNo (merchantNo outTradeNo : string) : M (option TransferTxn) :=
  let! r := found (auto (Queries.GetTransferTxnByOutTradeNo merchantNo outTradeNo)) in
  ret (option_map transferTxnFromByOutTradeRow r).

(** [if len(items) <= pageSize { return items, "" }; page := items[:pageSize] ...]. *)
Definition cutPage {A} (pageSize : Z) (token : A -> string) (items : list A) : list A * string :=
  if Z.of_nat (length items) <=? pageSize then (items, "")
  else let pg := firstn (Z.to_nat pageSize) items in
       (pg, match last pg with Some x => token x | None => "" end).

Definition ListTransferTxns (f : TxnListFilter) : M (list TransferTxn * string) :=
  let pageSize := clampPage (FPageSize f) in
  let cursor := DecodePageToken (FPageToken f) in
  match (match cursor with
         | None => Ok None
         | Some (at_, no) => match parseUUID no with Ok u => Ok (Some (at_, u)) | Err e => Err e end
         end) with
  | Err _ => ret ([], "")
  | Ok c =>
      let! r := attempt (auto (Reads.ListTransferTxns
                  (mkListTransferTxnsParams (FMerchantNo f) (optText (FOutUserID f)) (optText (FScene f))
                     (optText (FStatus f)) (FStartTime f) (FEndTime f) c (pageSize + 1)))) in
      match r with
      | Err _ => ret ([], "")
      | Ok rows => ret (cutPage pageSize (fun t => EncodePageToken (CreatedAt t) (TxnNo t))
                          (map transferTxnFromListRow rows))
      end
  end.

Definition changeLogOf (x : AccountChangeRow * option TxnRow) : AccountChangeLog :=
  let '(r, t) := x in
  mkAccountChangeLog (ac_id r) (uuid_text (ac_txn r)) (ac_account r) (ac_delta r) (ac_before r) (ac_after r)
    (coalesce (t ← t; tr_title t)) (coalesce (t ← t; tr_remark t)) (ac_created r).

Definition ListAccountChangeLogs (f : AccountChangeLogListFilter) : M (list AccountChangeLog * string) :=
  let pageSize := clampPage (LFPageSize f) in
  let! r := attempt (auto (Reads.ListAccountChangeLogs (LFMerchantNo f) (LFAccountNo f)
                             (DecodeChangeLogPageToken (LFPageToken f)) (pageSize + 1))) in
  match r with
  | Err _ => ret ([], "")
  | Ok rows => ret (cutPage pageSize (fun l => EncodeChangeLogPageToken (LCreatedAt l) (ChangeID l))
                      (map changeLogOf rows))
  end.

Definition ListActiveAccountBooks (accountNo : string) (now : Time) : M (list AccountBook) :=
  let! rows := auto (Reads.ListActiveAccountBooks accountNo (toPGDate now)) in
  ret (map (fun b => mkAccountBook (uuid_text (br_no b)) (br_account b)
                       (normalizeUTCDate (timeOfDate (br_expire b))) (br_balance b)) rows).

Definition ListBookCreditChangeLogs (bookNo : string) : M (list BookCreditChangeLog) :=
  let! rows := auto (Reads.ListBookCreditChangeLogs bookNo) in
  ret (map (fun x => mkBookCreditChangeLog (bc_id x.1) (uuid_text (bc_txn x.1)) (bc_delta x.1) (bc_created x.1)
                       (coalesce (t ← x.2; tr_title t))) rows).

Definition ListTransferTxnsByStatus (status : string) (limit : Z) : M (list TransferTxn) :=
  let! rows := auto (Reads.ListTransferTxnsByStatus status (clampBatch limit)) in
  ret (map transferTxnFromListByStatusRow rows).

Definition ListStaleTransferTxnNosByStatus (status : string) (staleBefore : Time) (limit : Z) : M (list string) :=
  let! rows := auto (staleTxns status staleBefore (clampBatch limit)) in
  ret (map (fun r => uuid_text (tr_no r)) rows).

Definition UpdateTransferTxnStatus (txnNo status errorCode errorMsg : string) : M unit :=
  auto (Queries.UpdateTransferTxnStatus status (nullIfEmpty errorCode) (nullIfEmpty errorMsg) txnNo).

Definition TransitionTransferTxnStatus (txnNo fromStatus toStatus errorCode errorMsg : string) : M bool :=
  let! affected := auto (UpdateTransferTxnStatusFrom toStatus (nullIfEmpty errorCode) (nullIfEmpty errorMsg)
                           txnNo fromStatus) in
  ret (0 <? affected).

Definition UpdateTransferTxnParties (txnNo debitAccountNo creditAccountNo : string) : M unit :=
  auto (Queries.UpdateTransferTxnParties (Some debitAccountNo) (Some creditAccountNo) txnNo).

Definition TryDecreaseTxnRefundable (txnNo : string) (amount : Z) : M (option Z) :=
  found_err (auto (Queries.TryDecreaseTxnRefundable amount txnNo)).

Definition TxnCount : M Z :=
  let! r := attempt (auto Queries.TxnCount) in ret (match r with Ok n => n | Err _ => 0 end).

(** ** Webhooks and the outbox *)

Definition UpsertWebhookConfig (merchantNo url : string) (enabled : bool) : M unit :=
  auto (Queries.UpsertWebhookConfig merchantNo url enabled).

Definition GetWebhookConfig (merchantNo : string) : M (option WebhookConfig) :=
  let! r := found_err (auto (Queries.GetWebhookConfig merchantNo)) in
  ret (option_map (fun c => mkWebhookConfig (wr_url c) (wr_enabled c)) r).

Definition deliveryOf (x : OutboxRow * TxnRow) : OutboxEventDelivery :=
  let '(e, t) := x in
  mkOutboxEventDelivery (uuid_text (ob_event e)) (uuid_text (ob_txn e)) (ob_merchant e) (coalesce (ob_out_trade e))
    (tr_biz t) (coalesce (tr_scene t)) (tr_amount t) (tr_status t) (ob_retry e).

Definition ClaimDueOutboxEvents (limit : Z) (now : Time) : M (list OutboxEventDelivery) :=
  let! rows := auto (Reads.ClaimDueOutboxEvents now (clampBatch limit)) in ret (map deliveryOf rows).

Definition ClaimDueOutboxEventsByTxnNo (txnNo : string) (limit : Z) (now : Time) : M (list OutboxEventDelivery) :=
  let! rows := auto (Reads.ClaimDueOutboxEventsByTxnNo txnNo now (clampBatch limit)) in ret (map deliveryOf rows).

Definition MarkOutboxEventSuccess (eventID : string) : M unit := auto (Reads.MarkOutboxEventSuccess eventID).

(** [int32(retryCount)]: the worker keeps the count far below 2^31. *)
Definition MarkOutboxEventRetry (eventID : string) (retryCount : Z) (nextRetryAt : Time) (dead : bool) : M unit :=
  auto (Reads.MarkOutboxEventRetry retryCount nextRetryAt dead eventID).

End Methods.
End Repository.
