(* ===== verification/AdminRepo.v ===== *)
(** * The repository of the admin console ([internal/db/admin_repository.go])

    Users, the setup state, the audit log and the lists of the console, over
    the tables of [migrations/000011] and [000012] and those of the ledger. *)

From S2P Require Import Prelude GoBase Domain Codes Store Queries Reads Ledger Repo.
From stdpp Require Import base gmap list strings.
From Stdlib Require Import ZArith Lia.

Local Open Scope string_scope.
Local Open Scope Z_scope.

(** PostgreSQL's [jsonb] ([None] for a text it does not take, otherwise the
    text of the value) and its order on texts, which on digits is that of the
    bytes in every collation. *)
Class PgText : Type := {
  jsonb : string -> option string;
  text_ltb : string -> string -> bool;
  text_ltb_digits : forall a b, sforall is_digit a = true -> sforall is_digit b = true -> text_ltb a b = String.ltb a b
}.

(** ** Structs *)

Record AdminUser : Type := mkAdminUser {
  UserID : Z; Username : string; PasswordHash : string; UStatus : string; UCreatedAt : Time; UUpdatedAt : Time
}.

(** [RequestPayload] as [json.Marshal] encodes it, [None] for [nil]. *)
Record AdminAuditLog : Type := mkAdminAuditLog {
  RequestID : string; OperatorUsername : string; Action : string; TargetType : string; TargetID : string;
  AuMerchantNo : string; RequestPayload : option string; ResultCode : string; ResultMessage : string
}.

Record AdminDashboardStats : Type := mkAdminDashboardStats {
  MerchantCount : Z; CustomerCount : Z; AccountCount : Z;
  OutboxPendingCount : Z; OutboxProcessingCount : Z; OutboxDeadCount : Z
}.

Record AdminOutboxEvent : Type := mkAdminOutboxEvent {
  OID : Z; OEventID : string; OTxnNo : string; OMerchantNo : string; OOutTradeNo : string; OStatus : string;
  ORetryCount : Z; ONextRetryAt : option Time; OUpdatedAt : Time; OCreatedAt : Time
}.

Record AdminOutboxFilter : Type := mkAdminOutboxFilter {
  OFMerchantNo : string; OFStatus : string; OFTxnNo : string; OFCursorID : Z; OFPageSize : Z
}.

Record AdminAuditLogRow : Type := mkAdminAuditLogRow {
  RAuditID : Z; RRequestID : string; ROperator : string; RAction : string; RTargetType : string; RTargetID : string;
  RMerchantNo : string; RRequestPayloadRaw : string; RResultCode : string; RResultMessage : string; RCreatedAt : Time
}.

Record AdminAuditFilter : Type := mkAdminAuditFilter {
  RFOperator : string; RFAction : string; RFMerchantNo : string; RFCursorID : Z; RFPageSize : Z
}.

Record AdminCustomerRow : Type := mkAdminCustomerRow {
  CuCustomerNo : string; CuMerchantNo : string; CuOutUserID : string; CuDefaultAccountNo : string; CuCreatedAt : Time
}.

Record AdminCustomerFilter : Type := mkAdminCustomerFilter {
  CFMerchantNo : string; CFOutUserID : string; CFCustomerNo : string; CFCursorNo : string; CFPageSize : Z
}.

Record AdminAccountRow : Type := mkAdminAccountRow {
  AcAccountNo : string; AcMerchantNo : string; AcCustomerNo : string; AcOwnerOutUserID : string; AcAccountType : string;
  AcAllowOverdraft : bool; AcMaxOverdraftLimit : Z; AcAllowDebitOut : bool; AcAllowCreditIn : bool;
  AcAllowTransfer : bool; AcBookEnabled : bool; AcBalance : Z; AcCreatedAt : Time
}.

Record AdminAccountFilter : Type := mkAdminAccountFilter {
  AFMerchantNo : string; AFAccountNo : string; AFCustomerNo : string; AFOutUserID : string; AFCursorNo : string;
  AFPageSize : Z
}.

Record AdminSetupState : Type := mkAdminSetupState {
  Initialized : bool; InitializedAdminUsername : string; DefaultMerchantNo : string;
  InitializedAt : option Time; SUpdatedAt : Time
}.

Definition ErrAdminUserExists : error := ErrText "admin user exists".

(** ** Statements *)

Definition username_char (c : Ascii.ascii) : bool :=
  let b := byte_of c in
  ((65 <=? b) && (b <=? 90)) || ((97 <=? b) && (b <=? 122)) || is_digit c || (b =? 95) || (b =? 46) || (b =? 45).
(** [^[A-Za-z0-9_.-]{3,64}$]: the CHECK of the column, and the pattern of the
    setup request. *)
Definition isUsername (s : string) : bool := (3 <=? slen s) && (slen s <=? 64) && sforall username_char s.

Definition on_admin (f : AdminTables -> AdminTables) (d : DB) : DB := set_admin (f (admin d)) d.

(** Ids are given in the order of insertion; a sequence may also skip some. *)
Definition newUser (hash name : string) (now : Time) (a : AdminTables) : AdminUserRow :=
  mkAdminUserRow (Z.of_nat (size (admin_users a)) + 1) name hash "ACTIVE" now now.

Definition upsertAdminUser (name hash : string) : Q unit := fun now d =>
  guardQ (varchar 64 name) tooLong
  (guardQ (isUsername name) checkViolation
  (let row := match admin_users (admin d) !! name with
              | Some r => mkAdminUserRow (au_id r) (au_name r) hash "ACTIVE" (au_created r) now
              | None => newUser hash name now (admin d)
              end in
   Ok (on_admin (fun a => set_admin_users (<[name := row]> (admin_users a)) a) d, tt))).

Definition insertAdminUser (name hash : string) : Q unit := fun now d =>
  guardQ (varchar 64 name) tooLong
  (guardQ (isUsername name) checkViolation
  match admin_users (admin d) !! name with
  | Some _ => Err uniqueViolation
  | None => Ok (on_admin (fun a => set_admin_users (<[name := newUser hash name now a]> (admin_users a)) a) d, tt)
  end).

Definition countAdminUsers : Q Z := fun _ d => Ok (d, Z.of_nat (size (admin_users (admin d)))).

Definition getAdminUser (name : string) : Q AdminUserRow := fun t d => one (admin_users (admin d) !! name) t d.

(** The migration has created the table. *)
Definition createSetupTable : Q unit := fun _ d => Ok (d, tt).

Definition insertSetupRow : Q unit := fun now d =>
  match setup_state (admin d) with
  | Some _ => Ok (d, tt)
  | None => Ok (on_admin (set_setup_state (Some (mkSetupStateRow false "" "" None now now))) d, tt)
  end.

Definition getSetupRow : Q SetupStateRow := fun t d => one (setup_state (admin d)) t d.

(** [CASE WHEN NULLIF($1, '') IS NULL THEN old ELSE $1 END]. *)
Definition unless_empty (v old : string) : string := if String.eqb v "" then old else v.

Definition updateSetupRow (f : Time -> SetupStateRow -> SetupStateRow) (username merchant : string) : Q unit := fun now d =>
  match setup_state (admin d) with
  | None => Ok (d, tt)
  | Some r =>
      guardQ (varchar 64 username && varchar 16 merchant) tooLong
      (Ok (on_admin (set_setup_state (Some (f now (mkSetupStateRow (ss_initialized r) (unless_empty username (ss_username r))
             (unless_empty merchant (ss_merchant r)) (ss_initialized_at r) (ss_created r) now)))) d, tt))
  end.

Definition saveProgress : string -> string -> Q unit := updateSetupRow (fun _ r => r).
Definition markInitialized : string -> string -> Q unit := updateSetupRow (fun now r =>
  mkSetupStateRow true (ss_username r) (ss_merchant r)
    (Some (match ss_initialized_at r with Some t => t | None => now end)) (ss_created r) (ss_updated r)).

(** [pg_advisory_lock] and [pg_advisory_unlock]: the calls under the lock run
    one after the other, and the lock of a broken connection is released. *)
Definition advisory : Q unit := fun _ d => Ok (d, tt).

Section Repo.
Context {PF : Platform} {PT : PgText}.

Definition insertAudit (e : AdminAuditLog) (payload : string) : Q unit := fun now d =>
  let entry stored := mkAuditRow (Z.of_nat (length (audit_log (admin d))) + 1) (RequestID e) (OperatorUsername e)
    (Action e) (TargetType e) (TargetID e) (AuMerchantNo e) stored (ResultCode e) (ResultMessage e) now in
  guardQ (varchar 64 (RequestID e) && varchar 64 (OperatorUsername e) && varchar 64 (Action e)
          && varchar 32 (TargetType e) && varchar 128 (TargetID e) && varchar 16 (AuMerchantNo e)
          && varchar 32 (ResultCode e)) tooLong
  match nullIfEmpty payload with
  | None => Ok (on_admin (fun a => set_audit_log (audit_log a ++ [entry None]) a) d, tt)
  | Some p =>
      match jsonb p with
      | None => Err badText
      | Some stored => Ok (on_admin (fun a => set_audit_log (audit_log a ++ [entry (Some stored)]) a) d, tt)
      end
  end.

(** [$1 = '' OR column = $1]. *)
Definition wanted (filter column : string) : bool := String.eqb filter "" || String.eqb column filter.

Definition count_rows {K V} `{Countable K} (p : V -> bool) (m : gmap K V) : Z :=
  Z.of_nat (length (List.filter (fun kv => p kv.2) (map_to_list m))).

Definition dashboard (m : string) : Q AdminDashboardStats := fun _ d =>
  let events st := Z.of_nat (length (List.filter (fun e => wanted m (ob_merchant e) && String.eqb (ob_status e) st) (outbox d))) in
  Ok (d, mkAdminDashboardStats (count_rows (fun r => wanted m (mr_no r)) (merchants d))
           (count_rows (fun r => wanted m (cr_merchant r)) (customers d))
           (count_rows (fun r => wanted m (ar_merchant r)) (accounts d))
           (events "PENDING") (events "PROCESSING") (events "DEAD")).

(** [COALESCE(SUM(balance), 0)::bigint]. *)
Definition bookSum (no : string) : Q Z := fun _ d =>
  let s := fold_right Z.add 0 (map br_balance (List.filter (fun b => String.eqb (br_account b) no) (book_rows d))) in
  if in64b s then Ok (d, s) else Err outOfRange.

Definition customerByNo (merchant no : string) : Q CustomerRow := fun t d =>
  one (match customers d !! no with
       | Some c => if String.eqb (cr_merchant c) merchant then Some c else None
       | None => None
       end) t d.

(** *** Lists: [WHERE ... AND (cursor = '' OR no > cursor) ORDER BY no LIMIT n] *)

Definition no_after (cursor no : string) : bool := String.eqb cursor "" || text_ltb cursor no.

Definition listByNo {K V} `{Countable K} (no : V -> string) (p : V -> bool) (cursor : string) (n : Z) (m : gmap K V) : list V :=
  limit n (sort_by (fun a b => negb (text_ltb (no b) (no a)))
             (List.filter (fun r => p r && no_after cursor (no r)) (snd <$> map_to_list m))).

Definition merchantsAfter (cursor : string) (n : Z) : Q (list MerchantRow) := fun _ d =>
  Ok (d, listByNo mr_no (fun _ => true) cursor n (merchants d)).

Definition customerWanted (f : AdminCustomerFilter) (c : CustomerRow) : bool :=
  wanted (CFMerchantNo f) (cr_merchant c) && wanted (CFOutUserID f) (cr_out_user c) && wanted (CFCustomerNo f) (cr_no c).
Definition customersAfter (f : AdminCustomerFilter) (n : Z) : Q (list CustomerRow) := fun _ d =>
  Ok (d, listByNo cr_no (customerWanted f) (CFCursorNo f) n (customers d)).

(** The customer of the left join. *)
Definition ownerOf (d : DB) (a : AccountRow) : option CustomerRow :=
  match ar_customer a with
  | Some no =>
      match customers d !! no with
      | Some c => if String.eqb (cr_merchant c) (ar_merchant a) then Some c else None
      | None => None
      end
  | None => None
  end.
Definition ownerUser (d : DB) (a : AccountRow) : string := coalesce (option_map cr_out_user (ownerOf d a)).

Definition accountWanted (f : AdminAccountFilter) (d : DB) (a : AccountRow) : bool :=
  wanted (AFMerchantNo f) (ar_merchant a) && wanted (AFAccountNo f) (ar_no a)
  && wanted (AFCustomerNo f) (coalesce (ar_customer a)) && wanted (AFOutUserID f) (ownerUser d a).
Definition accountsAfter (f : AdminAccountFilter) (n : Z) : Q (list (AccountRow * string)) := fun _ d =>
  Ok (d, map (fun a => (a, ownerUser d a)) (listByNo ar_no (accountWanted f d) (AFCursorNo f) n (accounts d))).

(** *** Lists: [... AND (cursor = 0 OR id < cursor) ORDER BY id DESC LIMIT n] *)

Definition listByID {A} (id : A -> Z) (p : A -> bool) (cursor n : Z) (l : list A) : list A :=
  limit n (sort_by (fun a b => id b <=? id a) (List.filter (fun r => p r && ((cursor =? 0) || (id r <? cursor))) l)).

Definition eventWanted (f : AdminOutboxFilter) (txn : option UUID) (e : OutboxRow) : bool :=
  wanted (OFMerchantNo f) (ob_merchant e) && wanted (OFStatus f) (ob_status e) && oall (fun u => ob_txn e =? u) txn.
Definition eventsBefore (f : AdminOutboxFilter) (n : Z) : Q (list OutboxRow) := fun _ d =>
  match castUUID (OFTxnNo f) with
  | Err e => Err e
  | Ok txn => Ok (d, listByID ob_id (eventWanted f txn) (OFCursorID f) n (outbox d))
  end.

Definition auditWanted (f : AdminAuditFilter) (r : AuditRow) : bool :=
  wanted (RFOperator f) (al_operator r) && wanted (RFAction f) (al_action r) && wanted (RFMerchantNo f) (al_merchant r).
Definition auditBefore (f : AdminAuditFilter) (n : Z) : Q (list AuditRow) := fun _ d =>
  Ok (d, listByID al_id (auditWanted f) (RFCursorID f) n (audit_log (admin d))).

End Repo.

(** ** Methods *)

Module AdminRepository.
Section Methods.
Context {PF : Platform} {PT : PgText}.

(** [if username == "" || password_hash == "" { return error }]. *)
Definition credentials (username passwordHash : string) (k : string -> string -> M unit) : M unit :=
  let fixedUsername := TrimSpace username in
  let fixedHash := TrimSpace passwordHash in
  if String.eqb fixedUsername "" || String.eqb fixedHash "" then throw (ErrText "username and password_hash are required")
  else k fixedUsername fixedHash.

Definition EnsureAdminUser (username passwordHash : string) : M unit :=
  credentials username passwordHash (fun u h => auto (upsertAdminUser u h)).

Definition CreateAdminUser (username passwordHash : string) : M unit :=
  credentials username passwordHash (fun u h => Repository.unique_as ErrAdminUserExists (auto (insertAdminUser u h))).

Definition CountAdminUsers : M Z := auto countAdminUsers.

(** [defer] runs the unlock whatever [fn] returned, and drops its error. *)
Definition WithAdminSetupLock {A} (fn : M A) : M A :=
  do! auto advisory in
  let! r := attempt fn in
  do! attempt (auto advisory) in
  match r with Ok a => ret a | Err e => throw e end.

Definition ensureAdminSetupStateTable : M unit := auto createSetupTable.
Definition ensureAdminSetupStateRow : M unit := do! ensureAdminSetupStateTable in auto insertSetupRow.

Definition setupStateOf (r : SetupStateRow) : AdminSetupState :=
  mkAdminSetupState (ss_initialized r) (TrimSpace (ss_username r)) (TrimSpace (ss_merchant r))
    (ss_initialized_at r) (ss_updated r).

Definition GetAdminSetupState : M AdminSetupState :=
  do! ensureAdminSetupStateRow in
  let! r := auto getSetupRow in ret (setupStateOf r).

Definition SaveAdminSetupProgress (adminUsername defaultMerchantNo : string) : M unit :=
  do! ensureAdminSetupStateRow in auto (saveProgress (TrimSpace adminUsername) (TrimSpace defaultMerchantNo)).

Definition MarkAdminSetupInitialized (adminUsername defaultMerchantNo : string) : M unit :=
  do! ensureAdminSetupStateRow in auto (markInitialized (TrimSpace adminUsername) (TrimSpace defaultMerchantNo)).

Definition adminUserOf (r : AdminUserRow) : AdminUser :=
  mkAdminUser (au_id r) (au_name r) (au_hash r) (au_status r) (au_created r) (au_updated r).

Definition GetAdminUserByUsername (username : string) : M (option AdminUser) :=
  let fixedUsername := TrimSpace username in
  if String.eqb fixedUsername "" then ret None else
  let! r := Repository.found_err (auto (getAdminUser fixedUsername)) in ret (option_map adminUserOf r).

(** The trimmed text, or what stands for nothing. *)
Definition orDash (dflt v : string) : string := let t := TrimSpace v in if String.eqb t "" then dflt else t.

Definition cleanAudit (e : AdminAuditLog) : AdminAuditLog :=
  mkAdminAuditLog (orDash "-" (RequestID e)) (orDash "unknown" (OperatorUsername e)) (orDash "UNKNOWN" (Action e))
    (orDash "UNKNOWN" (TargetType e)) (orDash "-" (TargetID e)) (TrimSpace (AuMerchantNo e)) (RequestPayload e)
    (orDash "UNKNOWN" (ResultCode e)) (orDash "-" (ResultMessage e)).

Definition InsertAdminAuditLog (entry : AdminAuditLog) : M unit :=
  auto (insertAudit (cleanAudit entry) (coalesce (RequestPayload entry))).

Definition GetAdminDashboardStats (merchantNo : string) : M AdminDashboardStats := auto (dashboard (TrimSpace merchantNo)).

Definition GetAccountBookBalanceSum (accountNo : string) : M Z :=
  let fixedAccountNo := TrimSpace accountNo in
  if String.eqb fixedAccountNo "" then throw (ErrText "account_no is required") else auto (bookSum fixedAccountNo).

Definition GetAvailableAccountBookBalanceSum (accountNo : string) : M Z :=
  let! now := timeNow in
  auto (Queries.GetAvailableAccountBookBalanceSum accountNo (toPGDate now) (toPGDate noExpireBookDate)).

Definition GetCustomerByNo (merchantNo customerNo : string) : M (option Customer) :=
  let m := TrimSpace merchantNo in
  let c := TrimSpace customerNo in
  if String.eqb m "" || String.eqb c "" then ret None else
  let! r := Repository.found_err (auto (customerByNo m c)) in
  ret (option_map (fun x => mkCustomer (uuid_text (cr_id x)) (cr_no x) (cr_merchant x) (cr_out_user x)
                              (coalesce (cr_default x))) r).

(** *** Lists *)

Definition eventOf (e : OutboxRow) : AdminOutboxEvent :=
  mkAdminOutboxEvent (ob_id e) (uuid_text (ob_event e)) (uuid_text (ob_txn e)) (ob_merchant e) (coalesce (ob_out_trade e))
    (ob_status e) (ob_retry e) (ob_next_retry e) (ob_updated e) (ob_created e).

Definition ListOutboxEventsForAdmin (f : AdminOutboxFilter) : M (list AdminOutboxEvent * string) :=
  let pageSize := Repository.clampPage (OFPageSize f) in
  let g := mkAdminOutboxFilter (TrimSpace (OFMerchantNo f)) (TrimSpace (OFStatus f)) (TrimSpace (OFTxnNo f)) (OFCursorID f)
             pageSize in
  let! rows := auto (eventsBefore g (pageSize + 1)) in
  ret (Repository.cutPage pageSize (fun e => FormatInt (OID e)) (map eventOf rows)).

Definition auditOf (r : AuditRow) : AdminAuditLogRow :=
  mkAdminAuditLogRow (al_id r) (al_request r) (al_operator r) (al_action r) (al_target_type r) (al_target r)
    (al_merchant r) (coalesce (al_payload r)) (al_code r) (al_message r) (al_created r).

Definition ListAdminAuditLogs (f : AdminAuditFilter) : M (list AdminAuditLogRow * string) :=
  let pageSize := Repository.clampPage (RFPageSize f) in
  let g := mkAdminAuditFilter (TrimSpace (RFOperator f)) (TrimSpace (RFAction f)) (TrimSpace (RFMerchantNo f)) (RFCursorID f)
             pageSize in
  let! rows := auto (auditBefore g (pageSize + 1)) in
  ret (Repository.cutPage pageSize (fun r => FormatInt (RAuditID r)) (map auditOf rows)).

Definition ListMerchantsForAdmin (cursorMerchantNo : string) (pageSize : Z) : M (list Merchant * string) :=
  let pageSize := Repository.clampPage pageSize in
  let! rows := auto (merchantsAfter (TrimSpace cursorMerchantNo) (pageSize + 1)) in
  ret (Repository.cutPage pageSize MerchantNo (map Repository.merchantFromRow rows)).

Definition customerRowOf (c : CustomerRow) : AdminCustomerRow :=
  mkAdminCustomerRow (cr_no c) (cr_merchant c) (cr_out_user c) (coalesce (cr_default c)) (cr_created c).

Definition ListCustomersForAdmin (f : AdminCustomerFilter) : M (list AdminCustomerRow * string) :=
  let pageSize := Repository.clampPage (CFPageSize f) in
  let g := mkAdminCustomerFilter (TrimSpace (CFMerchantNo f)) (TrimSpace (CFOutUserID f)) (TrimSpace (CFCustomerNo f))
             (TrimSpace (CFCursorNo f)) pageSize in
  let! rows := auto (customersAfter g (pageSize + 1)) in
  ret (Repository.cutPage pageSize CuCustomerNo (map customerRowOf rows)).

Definition accountRowOf (x : AccountRow * string) : AdminAccountRow :=
  let '(a, owner) := x in
  mkAdminAccountRow (ar_no a) (ar_merchant a) (coalesce (ar_customer a)) owner (ar_type a) (ar_overdraft a) (ar_limit a)
    (ar_debit_out a) (ar_credit_in a) (ar_transfer a) (ar_book a) (ar_balance a) (ar_created a).

Definition ListAccountsForAdmin (f : AdminAccountFilter) : M (list AdminAccountRow * string) :=
  let pageSize := Repository.clampPage (AFPageSize f) in
  let g := mkAdminAccountFilter (TrimSpace (AFMerchantNo f)) (TrimSpace (AFAccountNo f)) (TrimSpace (AFCustomerNo f))
             (TrimSpace (AFOutUserID f)) (TrimSpace (AFCursorNo f)) pageSize in
  let! rows := auto (accountsAfter g (pageSize + 1)) in
  ret (Repository.cutPage pageSize AcAccountNo (map accountRowOf rows)).
End Methods.
End AdminRepository.

(** ** The statements that only read *)

Section Pure.
Context {PF : Platform} {PT : PgText}.
Lemma pure_countAdminUsers : pureQ countAdminUsers.
Proof. intros ????. unfold countAdminUsers. congruence. Qed.
Lemma pure_getAdminUser n : pureQ (getAdminUser n).
Proof. apply (pure_one (fun d => admin_users (admin d) !! n)). Qed.
Lemma pure_createSetupTable : pureQ createSetupTable.
Proof. intros ????. unfold createSetupTable. congruence. Qed.
Lemma pure_getSetupRow : pureQ getSetupRow.
Proof. apply (pure_one (fun d => setup_state (admin d))). Qed.
Lemma pure_advisory : pureQ advisory.
Proof. intros ????. unfold advisory. congruence. Qed.
Lemma pure_dashboard m : pureQ (dashboard m).
Proof. intros ????. unfold dashboard. congruence. Qed.
Lemma pure_bookSum no : pureQ (bookSum no).
Proof. intros ????. unfold bookSum. destruct (in64b _); congruence. Qed.
Lemma pure_customerByNo m no : pureQ (customerByNo m no).
Proof.
  apply (pure_one (fun d => match customers d !! no with
                            | Some c => if String.eqb (cr_merchant c) m then Some c else None | None => None end)).
Qed.
Lemma pure_merchantsAfter c n : pureQ (merchantsAfter c n).
Proof. intros ????. unfold merchantsAfter. congruence. Qed.
Lemma pure_customersAfter f n : pureQ (customersAfter f n).
Proof. intros ????. unfold customersAfter. congruence. Qed.
Lemma pure_accountsAfter f n : pureQ (accountsAfter f n).
Proof. intros ????. unfold accountsAfter. congruence. Qed.
Lemma pure_eventsBefore f n : pureQ (eventsBefore f n).
Proof. intros ????. unfold eventsBefore. destruct (castUUID _); congruence. Qed.
Lemma pure_auditBefore f n : pureQ (auditBefore f n).
Proof. intros ????. unfold auditBefore. congruence. Qed.
End Pure.
#[export] Hint Resolve pure_countAdminUsers pure_getAdminUser pure_createSetupTable pure_getSetupRow pure_advisory
  pure_dashboard pure_bookSum pure_customerByNo pure_merchantsAfter pure_customersAfter pure_accountsAfter
  pure_eventsBefore pure_auditBefore : coin.
