(* ===== verification/Via.v ===== *)
(** * What a call takes the database through

    For a preorder [R] on worlds that looks at the tables only, [thruM R m]
    says that the call [m] takes any world to one [R]-related to it.  It
    composes over the monad, the leaves being the statements.  [via RD] is the
    case of a preorder on tables. *)

From S2P Require Import Prelude GoBase Domain Codes Store Queries Reads Ledger Repo.
From stdpp Require Import base gmap list strings.
From Stdlib Require Import ZArith Lia.

Local Open Scope string_scope.
Local Open Scope Z_scope.

Class Passage (R : World -> World -> Prop) : Prop := {
  passage_order :: PreOrder R;
  passage_db : forall w w', w_db w' = w_db w -> R w w'
}.

Definition thruM (R : World -> World -> Prop) {A} (m : M A) : Prop := forall w, R w (m w).1.

Definition onDB (RD : DB -> DB -> Prop) (w w' : World) : Prop := RD (w_db w) (w_db w').

#[export] Instance onDB_passage RD `{!PreOrder RD} : Passage (onDB RD).
Proof.
  split; [split|].
  - intros w. unfold onDB. reflexivity.
  - intros x y z. unfold onDB. apply transitivity.
  - intros w w' Hd. unfold onDB. rewrite Hd. reflexivity.
Qed.

Notation via RD := (thruM (onDB RD)).
Definition viaQ (RD : DB -> DB -> Prop) {A} (q : Q A) : Prop := forall t d d' a, q t d = Ok (d', a) -> RD d d'.

Section Calls.
Context (R : World -> World -> Prop) {PR : Passage R}.

Lemma thruM_keeps {A} (m : M A) : keeps m -> thruM R m.
Proof. intros Hm w. by apply passage_db. Qed.
Lemma thruM_bind {A B} (m : M A) (k : A -> M B) : thruM R m -> (forall a, thruM R (k a)) -> thruM R (bind m k).
Proof.
  intros Hm Hk w. specialize (Hm w). unfold bind. destruct (m w) as [w1 [e|a]]; [done|].
  etrans; [exact Hm|apply Hk].
Qed.
Lemma thruM_attempt {A} (m : M A) : thruM R m -> thruM R (attempt m).
Proof. intros Hm w. unfold attempt. specialize (Hm w). by destruct (m w). Qed.
Lemma thruM_or_norows {A} e (m : M A) : thruM R m -> thruM R (or_norows e m).
Proof. intros Hm w. unfold or_norows. specialize (Hm w). by destruct (m w) as [? []]. Qed.
Lemma thruM_unique_as {A} e (m : M A) : thruM R m -> thruM R (Repository.unique_as e m).
Proof. intros Hm w. unfold Repository.unique_as. specialize (Hm w). by destruct (m w) as [? []]. Qed.
Lemma thruM_ret {A} (a : A) : thruM R (ret a).
Proof. by apply thruM_keeps. Qed.
Lemma thruM_throw {A} e : thruM R (throw e : M A).
Proof. by apply thruM_keeps. Qed.
Lemma thruM_found {A} (m : M A) : thruM R m -> thruM R (Repository.found m).
Proof. intros Hm. apply thruM_bind; [by apply thruM_attempt|]. intros r. apply thruM_ret. Qed.
Lemma thruM_found_err {A} (m : M A) : thruM R m -> thruM R (Repository.found_err m).
Proof.
  intros Hm. apply thruM_bind; [by apply thruM_attempt|].
  intros [e|a]; [destruct (errors_is e _)|]; by apply thruM_keeps.
Qed.
Lemma thruM_forM {A} (l : list A) f : (forall x, thruM R (f x)) -> thruM R (forM l f).
Proof. intros Hf. induction l as [|x l IH]; [apply thruM_ret|]. apply thruM_bind; [done|]. by intros _. Qed.
End Calls.

Section Statements.
Context (RD : DB -> DB -> Prop) {PR : PreOrder RD}.

Lemma viaQ_pure {A} (q : Q A) : pureQ q -> viaQ RD q.
Proof. intros Hq t d d' a E. by rewrite (Hq _ _ _ _ E). Qed.
Lemma via_run {A} (q : Q A) : viaQ RD q -> via RD (run q).
Proof.
  intros Hq w. unfold onDB. destruct (run q w) as [w' r] eqn:E. simpl.
  apply run_db in E as [->|(d & a & E & <-)]; [done|]. by eapply Hq.
Qed.
Lemma via_auto {A} (q : Q A) : viaQ RD q -> via RD (auto q).
Proof. intros Hq. apply thruM_bind; [apply _|by apply thruM_keeps; [apply _|]|]. intros _. by apply via_run. Qed.

(** Of a transaction's body only the runs that succeed count. *)
Lemma via_withTx_ok {A} (zero : A) (body : M A) :
  (forall w w' a, body w = (w', Ok a) -> RD (w_db w) (w_db w')) -> via RD (withTx zero body).
Proof.
  intros Hb w. unfold onDB. destruct (withTx zero body w) as [w' r] eqn:E.
  apply withTx_inv in E as [[Hd _]|(w1 & w2 & a & Hd & Hb' & Hd' & _)]; simpl; [by rewrite Hd|].
  rewrite Hd', <- Hd. by eapply Hb.
Qed.
Lemma via_withTx {A} (zero : A) (body : M A) : via RD body -> via RD (withTx zero body).
Proof. intros Hb. apply via_withTx_ok. intros w w' a E. specialize (Hb w). by rewrite E in Hb. Qed.
Lemma via_withTxE {A} (init : A) body w :
  (forall w1 w2 a, w_db w1 = w_db w -> body w1 = (w2, (a, None)) -> RD (w_db w) (w_db w2)) ->
  RD (w_db w) (w_db (withTxE init body w).1).
Proof.
  intros Hb. destruct (withTxE init body w) as [w' [a oe]] eqn:E.
  apply withTxE_inv in E as [[Hd _]|(w1 & w2 & Hd & Hb' & Hd' & _)]; simpl; [by rewrite Hd|].
  rewrite Hd'. by eapply Hb.
Qed.
End Statements.

#[export] Hint Resolve thruM_keeps thruM_ret thruM_throw viaQ_pure via_run via_auto via_withTx : coin.

#[export] Hint Extern 0 (Passage _) => typeclasses eauto : coin.
#[export] Hint Extern 0 (PreOrder _) => typeclasses eauto : coin.

(** Proves [thruM R m] by the structure of [m]. *)
Ltac via_ :=
  repeat first
    [ match goal with |- forall _, _ => intro end
    | progress cbv beta zeta
    | solve [eauto 3 with coin nocore]
    | match goal with
      | |- thruM _ (bind _ _) => apply (thruM_bind _)
      | |- thruM _ (or_norows _ _) => apply (thruM_or_norows _)
      | |- thruM _ (Repository.unique_as _ _) => apply (thruM_unique_as _)
      | |- thruM _ (attempt _) => apply (thruM_attempt _)
      | |- thruM _ (Repository.found _) => apply (thruM_found _)
      | |- thruM _ (Repository.found_err _) => apply (thruM_found_err _)
      | |- thruM _ (forM _ _) => apply (thruM_forM _)
      | |- thruM _ (withTx _ _) => apply (via_withTx _)
      | |- thruM _ (match ?x with _ => _ end) => destruct x
      | |- thruM _ (match ?x with _ => _ end _) => destruct x
      end ].
