(* ===== verification/AdminGrow.v ===== *)
(** * What the console does to its own tables

    [admin_grows]: no user is removed or renamed, the audit log only grows at
    its end, the setup, once initialised, stays so, and every row meets the
    constraints of its table.  Every statement of the console on its tables
    respects it and changes no other table. *)

From S2P Require Import Prelude GoBase Domain Codes Store Queries Reads Ledger Repo AdminRepo Via.
From stdpp Require Import base gmap list strings list_numbers.
From Stdlib Require Import ZArith Lia.

Local Open Scope string_scope.
Local Open Scope Z_scope.

Definition user_terms (u : AdminUserRow) := (au_id u, au_name u, au_created u).

(** What a row of the setup state keeps. *)
Definition setup_stays (s s' : SetupStateRow) : Prop :=
  (ss_initialized s = true -> ss_initialized s' = true) /\
  (forall t, ss_initialized_at s = Some t -> ss_initialized_at s' = Some t) /\ ss_created s' = ss_created s.

#[export] Instance setup_stays_preorder : PreOrder setup_stays.
Proof.
  split; [by repeat split|]. intros x y z (A1 & B1 & C1) (A2 & B2 & C2). split; [auto|]. split; [auto|congruence].
Qed.

(** *** Column constraints *)

Definition okUser (k : string) (u : AdminUserRow) : Prop := au_name u = k /\ isUsername k = true /\ au_status u = "ACTIVE".
Definition okAudit (r : AuditRow) : Prop :=
  varchar 64 (al_request r) = true /\ varchar 64 (al_operator r) = true /\ varchar 64 (al_action r) = true /\
  varchar 32 (al_target_type r) = true /\ varchar 128 (al_target r) = true /\ varchar 16 (al_merchant r) = true /\
  varchar 32 (al_code r) = true.
Definition okSetup (s : SetupStateRow) : Prop := varchar 64 (ss_username s) = true /\ varchar 16 (ss_merchant s) = true.

Record admin_typed (a : AdminTables) : Prop := mkAdminTyped {
  at_users : map_Forall okUser (admin_users a);
  at_audit : Forall okAudit (audit_log a);
  at_setup : forall s, setup_state a = Some s -> okSetup s
}.

Record admin_grows (a a' : AdminTables) : Prop := mkAdminGrows {
  ag_users : evolves (same_by user_terms) (admin_users a) (admin_users a');
  ag_audit : audit_log a `prefix_of` audit_log a';
  ag_numbered : numbered al_id (audit_log a) -> numbered al_id (audit_log a');
  ag_setup : forall s, setup_state a = Some s -> exists s', setup_state a' = Some s' /\ setup_stays s s';
  ag_typed : admin_typed a -> admin_typed a'
}.

#[export] Instance admin_grows_preorder : PreOrder admin_grows.
Proof.
  split.
  - intros a. split; try done. intros s Hs. by exists s.
  - intros x y z [U1 L1 N1 S1 T1] [U2 L2 N2 S2 T2]. split; [by etrans|by etrans|auto| |auto].
    intros s (s1 & Hs1 & K1)%S1. apply S2 in Hs1 as (s2 & Hs2 & K2). exists s2. split; [done|]. by etrans.
Qed.

(** The change of a statement that writes only the console's tables. *)
Definition console_only (d d' : DB) : Prop := exists a, d' = set_admin a d /\ admin_grows (admin d) a.

Lemma set_admin_same d : set_admin (admin d) d = d.
Proof. by destruct d. Qed.

#[export] Instance console_only_preorder : PreOrder console_only.
Proof.
  split.
  - intros d. exists (admin d). by rewrite set_admin_same.
  - intros d1 d2 d3 (a & -> & Ha) (b & -> & Hb). exists b. split; [done|]. simpl in Hb. by etrans.
Qed.

Abbreviation consoleQ := (viaQ console_only).

Lemma users_grow d k u :
  (forall u0, admin_users (admin d) !! k = Some u0 -> same_by user_terms u0 u) -> (admin_typed (admin d) -> okUser k u) ->
  console_only d (on_admin (fun a => set_admin_users (<[k := u]> (admin_users a)) a) d).
Proof.
  intros Hu Hok. eexists. split; [done|]. split; simpl; try done.
  - by apply evolves_insert; [apply _|].
  - intros s Hs. by exists s.
  - intros Ht. destruct Ht eqn:E. split; simpl; [|done..]. apply map_Forall_insert_2; auto.
Qed.

Lemma audit_grows d r :
  al_id r = Z.of_nat (length (audit_log (admin d))) + 1 -> okAudit r ->
  console_only d (on_admin (fun a => set_audit_log (audit_log a ++ [r])%list a) d).
Proof.
  intros Hr Hok. eexists. split; [done|]. split; simpl; try done.
  - by apply prefix_app_r.
  - by apply numbered_snoc.
  - intros s Hs. by exists s.
  - intros []. split; simpl; [done| |done]. apply Forall_app. split; [done|]. by apply Forall_singleton.
Qed.

Lemma setup_grows d s :
  (forall s0, setup_state (admin d) = Some s0 -> setup_stays s0 s) -> (admin_typed (admin d) -> okSetup s) ->
  console_only d (on_admin (set_setup_state (Some s)) d).
Proof.
  intros Hs Hok. eexists. split; [done|]. split; simpl; try done.
  - intros s0 H0. exists s. auto.
  - intros Ht. destruct Ht eqn:E. split; simpl; [done..|]. intros s0 [= <-]. by apply Hok.
Qed.

Section Statements.
Context {PT : PgText}.

Lemma console_upsertUser n h : consoleQ (upsertAdminUser n h).
Proof.
  intros t d d' [] [_ [Hu [= <-]]%guardQ_ok]%guardQ_ok. apply users_grow.
  - by intros u0 ->.
  - intros Ht. unfold okUser. case_match eqn:E; [|done]. by destruct (at_users _ Ht _ _ E) as (-> & _).
Qed.
Lemma console_insertUser n h : consoleQ (insertAdminUser n h).
Proof.
  intros t d d' [] [_ [Hu Hq]%guardQ_ok]%guardQ_ok. destruct (admin_users (admin d) !! n) eqn:E; [done|].
  injection Hq as <-. apply (users_grow d n (newUser h n t (admin d))); [|done]. intros u0. congruence.
Qed.
Lemma console_insertSetup : consoleQ insertSetupRow.
Proof.
  intros t d d' []. unfold insertSetupRow. destruct (setup_state (admin d)) eqn:E; intros [= <-]; [done|].
  apply setup_grows; [congruence|done].
Qed.
Lemma console_updateSetup f u m :
  (forall now r, setup_stays r (f now r) /\ ss_username (f now r) = ss_username r /\ ss_merchant (f now r) = ss_merchant r) ->
  consoleQ (updateSetupRow f u m).
Proof.
  intros Hf t d d' []. unfold updateSetupRow. destruct (setup_state (admin d)) as [r|] eqn:E; [|by intros [= <-]].
  intros [Hw [= <-]]%guardQ_ok. bools. apply setup_grows.
  - intros s0 Hs0. injection (eq_trans (eq_sym E) Hs0) as <-. etrans; [|apply Hf]. by repeat split.
  - intros Ht. unfold okSetup. rewrite !(proj1 (proj2 (Hf _ _))), !(proj2 (proj2 (Hf _ _))). simpl.
    destruct (at_setup _ Ht _ E). unfold unless_empty. by repeat case_match.
Qed.
Lemma console_saveProgress u m : consoleQ (saveProgress u m).
Proof. apply console_updateSetup. by intros now r. Qed.
Lemma console_markInitialized u m : consoleQ (markInitialized u m).
Proof. apply console_updateSetup. intros now r. repeat split; try done. simpl. by intros t ->. Qed.
Lemma console_insertAudit e p : consoleQ (insertAudit e p).
Proof.
  intros t d d' []. unfold insertAudit. intros [Hw Hq]%guardQ_ok. bools.
  destruct (nullIfEmpty p) as [x|]; [destruct (jsonb x); [|done]|]; injection Hq as <-; by apply audit_grows.
Qed.
End Statements.
