(* ===== verification/Quiet.v ===== *)
(** * Calls on a connection that has no more faults

    [quiet m]: if no fault is pending when [m] starts, none is when it ends.
    It composes over the monad, and a statement of a quiet run does what its
    [Q] says. *)

From S2P Require Import Prelude GoBase Domain Codes Encoding Store Queries Reads Secrets Ledger Repo.
From stdpp Require Import base gmap list strings.
From Stdlib Require Import ZArith Lia.

Local Open Scope string_scope.
Local Open Scope Z_scope.

Definition quiet {A} (m : M A) : Prop := forall w, w_faults w = [] -> w_faults (m w).1 = [].

Lemma quiet_ret {A} (a : A) : quiet (ret a).
Proof. by intros w. Qed.
Lemma quiet_throw {A} e : quiet (throw e : M A).
Proof. by intros w. Qed.
Lemma quiet_bind {A B} (m : M A) (k : A -> M B) : quiet m -> (forall a, quiet (k a)) -> quiet (bind m k).
Proof.
  intros Hm Hk w Hw. unfold bind. specialize (Hm w Hw). destruct (m w) as [w1 [e|a]]; [done|]. by apply Hk.
Qed.
Lemma quiet_attempt {A} (m : M A) : quiet m -> quiet (attempt m).
Proof. intros Hm w Hw. unfold attempt. specialize (Hm w Hw). by destruct (m w). Qed.
Lemma quiet_or_norows {A} e (m : M A) : quiet m -> quiet (or_norows e m).
Proof. intros Hm w Hw. unfold or_norows. specialize (Hm w Hw). by destruct (m w) as [? []]. Qed.
Lemma quiet_unique_as {A} e (m : M A) : quiet m -> quiet (Repository.unique_as e m).
Proof. intros Hm w Hw. unfold Repository.unique_as. specialize (Hm w Hw). by destruct (m w) as [? []]. Qed.
Lemma quiet_run {A} (q : Q A) : quiet (run q).
Proof.
  intros w Hw. unfold run, pop_fault. rewrite Hw. simpl. destruct (q _ _) as [|[]]; done.
Qed.
Lemma quiet_timeNow : quiet timeNow.
Proof. by intros w. Qed.
Lemma quiet_startNow : quiet startNow.
Proof. by intros w. Qed.
Lemma quiet_randRead : quiet randRead.
Proof. intros w Hw. unfold randRead. by destruct (w_rand w). Qed.
Lemma quiet_auto {A} (q : Q A) : quiet (auto q).
Proof. apply quiet_bind; [apply quiet_startNow|intros _; apply quiet_run]. Qed.
Lemma quiet_NewUUIDv7 : quiet NewUUIDv7.
Proof.
  apply quiet_bind; [apply quiet_timeNow|intros t]. apply quiet_bind; [apply quiet_randRead|intros r; apply quiet_ret].
Qed.
Lemma quiet_found {A} (m : M A) : quiet m -> quiet (Repository.found m).
Proof. intros Hm. apply quiet_bind; [by apply quiet_attempt|intros r; apply quiet_ret]. Qed.
Lemma quiet_found_err {A} (m : M A) : quiet m -> quiet (Repository.found_err m).
Proof.
  intros Hm. apply quiet_bind; [by apply quiet_attempt|].
  intros [e|a]; [destruct (errors_is e _); [apply quiet_ret|apply quiet_throw]|apply quiet_ret].
Qed.
Lemma quiet_forM {A} (l : list A) f : (forall x, quiet (f x)) -> quiet (forM l f).
Proof. intros Hf. induction l as [|x l IH]; [apply quiet_ret|]. apply quiet_bind; [done|by intros _]. Qed.

#[export] Hint Resolve quiet_ret quiet_throw quiet_attempt quiet_or_norows quiet_unique_as quiet_run quiet_timeNow
  quiet_startNow quiet_randRead quiet_auto quiet_NewUUIDv7 quiet_found quiet_found_err quiet_forM : coin.

(** Proves [quiet m] by the structure of [m]. *)
Ltac quiets :=
  repeat first
    [ progress intros
    | progress cbv beta zeta
    | solve [eauto 3 with coin nocore]
    | apply quiet_bind | apply quiet_attempt | apply quiet_or_norows | apply quiet_unique_as
    | apply quiet_found | apply quiet_found_err | apply quiet_forM
    | match goal with |- quiet (match ?x with _ => _ end) => destruct x end
    | match goal with |- quiet (match ?x with _ => _ end _) => destruct x end ].

Lemma auto_nofault {A} (q : Q A) w (d := w_db w) a :
  w_faults w = [] -> (forall t, q t d = Ok (d, a)) ->
  exists w', auto q w = (w', Ok a) /\ w_db w' = d /\ w_faults w' = [].
Proof.
  intros Hf Hq. unfold auto, bind, startNow, timeNow, run, pop_fault. simpl. rewrite Hf. simpl.
  fold d. rewrite Hq. eexists. split; [reflexivity|]. done.
Qed.

Lemma quiet_GetActiveSecret `{SecretCipher} m : quiet (GetActiveSecret m).
Proof. unfold GetActiveSecret. quiets. Qed.

(** ** Readings of the clock *)

(** The [n]-th reading of the clock from here. *)
Definition clockAt (n : nat) (w : World) : Time := w_clock w + sum_by id (firstn n (w_ticks w)).

(** [w'] is [w] after [n] readings of the clock, on a working connection. *)
Definition later (n : nat) (w w' : World) : Prop :=
  w_db w' = w_db w /\ w_faults w' = [] /\ w_clock w' = clockAt n w /\ w_ticks w' = skipn n (w_ticks w).

Lemma clockAt_1 w : clockAt 1 w = w_clock w + hd 0 (w_ticks w).
Proof. unfold clockAt. destruct (w_ticks w); simpl; unfold id; lia. Qed.

Lemma later_trans n m w w1 w2 : later n w w1 -> later m w1 w2 -> later (n + m) w w2.
Proof.
  intros (H1 & _ & H3 & H4) (H5 & H6 & H7 & H8). unfold later. rewrite H5, H7, H8, H4, drop_drop. split; [done|]. split; [done|].
  split; [|done]. unfold clockAt. rewrite H3, H4. unfold clockAt.
  assert (forall l : list Z, sum_by id (firstn (n + m) l) = sum_by id (firstn n l) + sum_by id (firstn m (skipn n l))) as Hs.
  { clear. induction n as [|n IH]; intros l; [done|]. destruct l as [|x l]; simpl; [by destruct m|]. rewrite IH. lia. }
  rewrite Hs. lia.
Qed.

Lemma clockAt_later n m w w1 : later n w w1 -> clockAt m w1 = clockAt (n + m) w.
Proof.
  intros Hl. assert (later m w1 (with_clock (clockAt m w1) (skipn m (w_ticks w1)) w1)) as Hm.
  { destruct Hl as (_ & Hf & _). by split. }
  by destruct (later_trans _ _ _ _ _ Hl Hm) as (_ & _ & <- & _).
Qed.

Lemma timeNow_later w : w_faults w = [] -> exists w1, timeNow w = (w1, Ok (clockAt 1 w)) /\ later 1 w w1.
Proof.
  intros Hf. eexists. split; [unfold timeNow; cbv zeta; by rewrite <- clockAt_1|].
  split; [done|]. split; [done|]. split; [by rewrite clockAt_1|]. simpl. by destruct (w_ticks w).
Qed.

Lemma auto_later {A} (q : Q A) w :
  w_faults w = [] ->
  (forall a, (forall t, q t (w_db w) = Ok (w_db w, a)) -> exists w1, auto q w = (w1, Ok a) /\ later 1 w w1) /\
  (forall e, (forall t, q t (w_db w) = Err e) -> exists w1, auto q w = (w1, Err e) /\ later 1 w w1).
Proof.
  intros Hf. split; intros x Hq; unfold auto, bind, startNow, timeNow, run, pop_fault; simpl; rewrite Hf; simpl; rewrite Hq;
    (eexists; split; [reflexivity|]; split; [done|]; split; [done|]; split; [by rewrite clockAt_1|]; simpl; by destruct (w_ticks w)).
Qed.
