(* ===== verification/Webhook.v ===== *)
(** * The webhook worker ([internal/service/webhook_worker.go])

    Claims due events of the outbox and posts them, signed, to the merchant's
    URL; what fails is scheduled again, up to a bound.  The HTTP client is an
    interface; merchant secrets come from a [WebhookSecretProvider]. *)

From S2P Require Import Prelude GoBase Domain Codes Encoding Calendar Json Store Queries Reads Secrets Ledger Repo Quiet.
From stdpp Require Import base gmap list strings.
From Stdlib Require Import ZArith Lia.

Local Open Scope string_scope.
Local Open Scope Z_scope.

(** ** Interfaces *)

Class WebhookSecretProvider : Type := {
  activeSecret : string -> M (option string);
  activeSecret_keeps : forall m, keeps (activeSecret m);
  activeSecret_quiet : forall m, quiet (activeSecret m)
}.

#[export] Hint Resolve activeSecret_keeps activeSecret_quiet : coin.

#[export] Instance managerSecrets `{SecretCipher} : WebhookSecretProvider := {
  activeSecret := GetActiveSecret;
  activeSecret_keeps := keeps_GetActiveSecret;
  activeSecret_quiet := quiet_GetActiveSecret
}.

Record HttpRequest : Type := mkHttpRequest {
  hq_method : string; hq_url : string; hq_body : string; hq_headers : list (string * string)
}.

(** The client and the servers it talks to: a state, the path of a URL the
    client accepts, and the status of the answer, [None] on a transport error. *)
Class HttpClient (C : Type) : Type := {
  urlPath : string -> option string;
  httpDo : HttpRequest -> C -> C * option Z
}.

(** ** Options *)

Definition Second : Duration := 1000000000.
Definition webhookAsyncWorkers : Z := 4.
Definition webhookAsyncQueueSize : Z := 65536.
Definition webhookCacheTTL : Duration := Minute.
Definition defaultAsyncProfileLogInterval : Duration := 5 * Second.

Record WebhookWorkerOptions : Type := mkWebhookWorkerOptions {
  AsyncWorkers : Z; AsyncQueueSize : Z; ProfilingEnabled : bool; ProfilingLogInterval : Duration;
  MerchantConfigCacheTTL : Duration; MerchantSecretCacheTTL : Duration
}.

Definition orDefault (v dflt : Z) : Z := if v <=? 0 then dflt else v.

Definition withDefaults (o : WebhookWorkerOptions) : WebhookWorkerOptions :=
  mkWebhookWorkerOptions (orDefault (AsyncWorkers o) webhookAsyncWorkers)
    (orDefault (AsyncQueueSize o) webhookAsyncQueueSize) (ProfilingEnabled o)
    (if ProfilingEnabled o && (ProfilingLogInterval o <=? 0) then defaultAsyncProfileLogInterval
     else ProfilingLogInterval o)
    (orDefault (MerchantConfigCacheTTL o) webhookCacheTTL)
    (orDefault (MerchantSecretCacheTTL o) webhookCacheTTL).

(** ** The worker *)

Record WebhookWorker : Type := mkWebhookWorker {
  maxRetries : Z; batchSize : Z; backoff : list Duration;
  wqueue : list string; wqueueSize : Z;              (* chan webhookQueueItem, oldest first *)
  configCache : gmap string (WebhookConfig * Time);  (* with its expireAt *)
  secretCache : gmap string (string * Time);
  configCacheTTL : Duration; secretCacheTTL : Duration
}.

Definition with_queue (q : list string) (k : WebhookWorker) : WebhookWorker :=
  mkWebhookWorker (maxRetries k) (batchSize k) (backoff k) q (wqueueSize k) (configCache k) (secretCache k)
    (configCacheTTL k) (secretCacheTTL k).
Definition with_configs (c : gmap string (WebhookConfig * Time)) (k : WebhookWorker) : WebhookWorker :=
  mkWebhookWorker (maxRetries k) (batchSize k) (backoff k) (wqueue k) (wqueueSize k) c (secretCache k)
    (configCacheTTL k) (secretCacheTTL k).
Definition with_secrets (c : gmap string (string * Time)) (k : WebhookWorker) : WebhookWorker :=
  mkWebhookWorker (maxRetries k) (batchSize k) (backoff k) (wqueue k) (wqueueSize k) (configCache k) c
    (configCacheTTL k) (secretCacheTTL k).

(** [time.Duration(m)*time.Minute] is an [int64] product. *)
Definition normalizeWebhookBackoff (minutes : list Z) : list Duration :=
  let minutes := match minutes with [] => [1; 5; 15; 60; 360] | _ => minutes end in
  let out := map (fun m => wrap64 (m * Minute)) (List.filter (fun m => 0 <? m) minutes) in
  match out with [] => [Minute] | _ => out end.

Definition NewWebhookWorkerWithOptions (maxRetries batchSize : Z) (backoffMinutes : list Z)
    (opts : WebhookWorkerOptions) : WebhookWorker :=
  let opts := withDefaults opts in
  mkWebhookWorker (orDefault maxRetries 8) (orDefault batchSize 100) (normalizeWebhookBackoff backoffMinutes)
    [] (AsyncQueueSize opts) ∅ ∅ (MerchantConfigCacheTTL opts) (MerchantSecretCacheTTL opts).

Definition NewWebhookWorker (maxRetries batchSize : Z) (backoffMinutes : list Z) : WebhookWorker :=
  NewWebhookWorkerWithOptions maxRetries batchSize backoffMinutes (mkWebhookWorkerOptions 0 0 false 0 0 0).

(** [select { case queue <- item: default: }]. *)
Definition Enqueue (txnNo : string) (k : WebhookWorker) : WebhookWorker :=
  let txnNo := TrimSpace txnNo in
  if String.eqb txnNo "" then k else
  if Z.of_nat (length (wqueue k)) <? wqueueSize k then with_queue (wqueue k ++ [txnNo])%list k else k.

Definition retryDelay (retryCount : Z) (k : WebhookWorker) : Duration :=
  let n := Z.of_nat (length (backoff k)) in
  if n =? 0 then Minute else
  let idx := retryCount - 1 in
  let idx := if idx <? 0 then 0 else idx in
  let idx := if n <=? idx then n - 1 else idx in
  nth (Z.to_nat idx) (backoff k) 0.

Definition newline : string := String (of_byte 10) "".

Definition signWebhook (secret path merchantNo timestamp nonce body : string) : string :=
  let path := if String.eqb (TrimSpace path) "" then "/" else path in
  hexEncode (hmac_sha256 secret
    (stringsJoin newline ["POST"; path; merchantNo; timestamp; nonce; hexEncode (sha256 body)])).

Definition webhookEventType (e : OutboxEventDelivery) : string :=
  if String.eqb (EStatus e) TxnStatusFailed then "TxnFailed"
  else if String.eqb (EBizType e) BizTypeRefund && String.eqb (EStatus e) TxnStatusRecvSuccess then "TxnRefunded"
  else "TxnSucceeded".

Definition webhookPayload (e : OutboxEventDelivery) (occurredAt : Time) : json :=
  JObj [("event_id", JStr (EventID e)); ("event_type", JStr (webhookEventType e));
        ("occurred_at", JStr (formatRFC3339Nano occurredAt)); ("merchant_no", JStr (EMerchantNo e));
        ("txn_no", JStr (ETxnNo e)); ("out_trade_no", JStr (EOutTradeNo e)); ("biz_type", JStr (EBizType e));
        ("transfer_scene", JStr (ETransferScene e)); ("amount", JNum (EAmount e)); ("status", JStr (EStatus e))].

Definition enabledConfig (c : WebhookConfig) : bool := Enabled c && negb (String.eqb (TrimSpace (URL c)) "").

Section Worker.
Context `{Platform} `{WebhookSecretProvider} {C : Type} `{HttpClient C}.

(** A method of the worker: its fields, the HTTP client, the world. *)
Definition W (A : Type) : Type := WebhookWorker -> C -> World -> WebhookWorker * C * World * A.

Definition retW {A} (a : A) : W A := fun k h w => (k, h, w, a).
Definition bindW {A B} (m : W A) (f : A -> W B) : W B :=
  fun k h w => let '(k1, h1, w1, a) := m k h w in f a k1 h1 w1.
Definition liftW {A} (m : M A) : W (Result error A) := fun k h w => let (w1, r) := m w in (k, h, w1, r).
Definition getW : W WebhookWorker := fun k h w => (k, h, w, k).
Definition modifyW (f : WebhookWorker -> WebhookWorker) : W unit := fun k h w => (f k, h, w, tt).
Definition postW (q : HttpRequest) : W (option Z) := fun k h w => let (h1, r) := httpDo q h in (k, h1, w, r).
Notation "'let%' x := m 'in' f" := (bindW m (fun x => f)) (at level 10, x binder, m at level 100, f at level 200).

(** [w.nowFn()]: the clock never fails. *)
Definition nowW : W Time := fun k h w =>
  match timeNow w with (w1, Ok t) => (k, h, w1, t) | (w1, Err _) => (k, h, w1, w_clock w) end.

Definition markRetry (e : OutboxEventDelivery) : W unit :=
  let% k := getW in
  let nextRetry := RetryCount e + 1 in
  let dead := maxRetries k <=? nextRetry in
  let% now := nowW in
  let nextAt := timeAdd now (retryDelay nextRetry k) in
  let% _ := liftW (Repository.MarkOutboxEventRetry (EventID e) nextRetry nextAt dead) in
  retW tt.

(** The part of [getWebhookConfig] after the cache. *)
Definition loadWebhookConfig (now : Time) (merchantNo : string) : W (Result error (option WebhookConfig)) :=
  let% r := liftW (Repository.GetWebhookConfig merchantNo) in
  match r with
  | Ok (Some cfg) =>
      if negb (enabledConfig cfg) then retW (Ok (Some cfg)) else
      let% _ := modifyW (fun k => if 0 <? configCacheTTL k
                  then with_configs (<[merchantNo := (cfg, timeAdd now (configCacheTTL k))]> (configCache k)) k
                  else k) in
      retW (Ok (Some cfg))
  | _ => retW r
  end.

Definition getWebhookConfig (merchantNo : string) : W (Result error (option WebhookConfig)) :=
  let% now := nowW in
  let% k := getW in
  match (if 0 <? configCacheTTL k then configCache k !! merchantNo else None) with
  | Some (cfg, expireAt) =>
      if now <=? expireAt then retW (Ok (Some cfg)) else
      let% _ := modifyW (fun k => with_configs (delete merchantNo (configCache k)) k) in
      loadWebhookConfig now merchantNo
  | None => loadWebhookConfig now merchantNo
  end.

Definition loadActiveSecret (now : Time) (merchantNo : string) : W (Result error (option string)) :=
  let% r := liftW (activeSecret merchantNo) in
  match r with
  | Ok (Some secret) =>
      if String.eqb (TrimSpace secret) "" then retW r else
      let% _ := modifyW (fun k => if 0 <? secretCacheTTL k
                  then with_secrets (<[merchantNo := (secret, timeAdd now (secretCacheTTL k))]> (secretCache k)) k
                  else k) in
      retW r
  | _ => retW r
  end.

Definition getActiveSecret (merchantNo : string) : W (Result error (option string)) :=
  let% now := nowW in
  let% k := getW in
  match (if 0 <? secretCacheTTL k then secretCache k !! merchantNo else None) with
  | Some (secret, expireAt) =>
      if now <=? expireAt then retW (Ok (Some secret)) else
      let% _ := modifyW (fun k => with_secrets (delete merchantNo (secretCache k)) k) in
      loadActiveSecret now merchantNo
  | None => loadActiveSecret now merchantNo
  end.

(** The request [deliver] sends. *)
Definition webhookRequest (url path : string) (e : OutboxEventDelivery) (secret body timestamp : string) : HttpRequest :=
  mkHttpRequest "POST" url body
    [("Content-Type", "application/json"); ("X-Event-Id", EventID e); ("X-Timestamp", timestamp);
     ("X-Signature", signWebhook secret path (EMerchantNo e) timestamp (EventID e) body)].

Definition deliver (url : string) (e : OutboxEventDelivery) (secret : string) : W bool :=
  let% occurredAt := nowW in
  let body := marshal (webhookPayload e occurredAt) in
  match urlPath url with
  | None => retW false
  | Some path =>
      let% now := nowW in
      let timestamp := FormatInt (UnixMilli now) in
      let% r := postW (webhookRequest url path e secret body timestamp) in
      retW (match r with Some status => (200 <=? status) && (status <? 300) | None => false end)
  end.

Definition markSuccess (e : OutboxEventDelivery) : W unit :=
  let% _ := liftW (Repository.MarkOutboxEventSuccess (EventID e)) in retW tt.

Definition handleEvent (e : OutboxEventDelivery) : W unit :=
  let% r := getWebhookConfig (EMerchantNo e) in
  match r with
  | Err _ => markRetry e
  | Ok None => markSuccess e
  | Ok (Some cfg) =>
      if negb (enabledConfig cfg) then markSuccess e else
      let% s := getActiveSecret (EMerchantNo e) in
      match s with
      | Ok (Some secret) =>
          if String.eqb (TrimSpace secret) "" then markRetry e else
          let% ok := deliver (URL cfg) e secret in
          if ok then markSuccess e else markRetry e
      | _ => markRetry e
      end
  end.

Fixpoint handleEvents (l : list OutboxEventDelivery) : W unit :=
  match l with
  | [] => retW tt
  | e :: l' => let% _ := handleEvent e in handleEvents l'
  end.

(** What claiming returned, handled one event after the other. *)
Definition handleClaimed (r : Result error (list OutboxEventDelivery)) : W (Z * option error) :=
  match r with
  | Err e => retW (0, Some e)
  | Ok events => let% _ := handleEvents events in retW (Z.of_nat (length events), None)
  end.

Definition runOnceWithReport : W (Z * option error) :=
  let% k := getW in
  let% now := nowW in
  let% r := liftW (Repository.ClaimDueOutboxEvents (batchSize k) now) in
  handleClaimed r.

Definition RunOnce : W unit := let% _ := runOnceWithReport in retW tt.

Definition DeliverTxn (txnNo : string) : W (option error) :=
  let txnNo := TrimSpace txnNo in
  if String.eqb txnNo "" then retW None else
  let% k := getW in
  let% now := nowW in
  let% r := liftW (Repository.ClaimDueOutboxEventsByTxnNo txnNo (batchSize k) now) in
  let% x := handleClaimed r in
  retW x.2.

(** One iteration of an asynchronous worker: the oldest item of the queue. *)
Definition workQueue : W bool :=
  let% k := getW in
  match wqueue k with
  | [] => retW false
  | txnNo :: q =>
      let% _ := modifyW (with_queue q) in
      let% _ := DeliverTxn txnNo in
      retW true
  end.
End Worker.
