(* ===== verification/Profile.v ===== *)
(** * Profiling counters ([internal/service/async_profile.go])

    Counters shared by the workers, each of several 64-bit atomics.  A method is
    the sequence of the atomic operations it performs; goroutines interleave
    them one operation at a time. *)

From S2P Require Import Prelude GoBase Domain Codes Webhook.
From stdpp Require Import base list strings relations.
From Stdlib Require Import ZArith Lia.

Local Open Scope string_scope.
Local Open Scope Z_scope.

(** ** Atomics *)

(** The atomics of a latency counter, of a depth counter and of a plain count. *)
Inductive field : Type :=
| TotalCount | TotalError | TotalSumNs | TotalMaxNs
| WindowCount | WindowError | WindowSumNs | WindowMaxNs
| DepthTotalMax | DepthWindowMax
| CountTotal | CountWin.
#[export] Instance field_eq_dec : EqDecision field.
Proof. solve_decision. Defined.

(** A counter by its path from the profiler, and one of its atomics. *)
Definition cell : Type := string * field.
Definition memory : Type := cell -> Z.
Definition store (m : memory) (c : cell) (v : Z) : memory := fun c' => if decide (c' = c) then v else m c'.

(** [Add], the loop of [updateMax], [Swap(0)] and [Load]. *)
Inductive action : Type := AtomicAdd (c : cell) (v : Z) | UpdateMax (c : cell) (v : Z) | AtomicSwap (c : cell) | AtomicLoad (c : cell).
#[export] Instance action_eq_dec : EqDecision action.
Proof. solve_decision. Defined.

Definition add64 (a b : Z) : Z := (a + b) mod two64.

(** ** Goroutines *)

(** What is left to do, the value [updateMax] has loaded and not yet used, and
    the values read so far, the first one first. *)
Record thread : Type := mkThread { t_acts : list action; t_curr : option Z; t_out : list (action * Z) }.
Definition start (acts : list action) : thread := mkThread acts None [].

(** One atomic operation. *)
Definition step (m : memory) (t : thread) : option (memory * thread) :=
  match t_acts t with
  | [] => None
  | AtomicAdd c v :: l => Some (store m c (add64 (m c) v), mkThread l None (t_out t))
  | AtomicSwap c :: l => Some (store m c 0, mkThread l None (t_out t ++ [(AtomicSwap c, m c)]))
  | AtomicLoad c :: l => Some (m, mkThread l None (t_out t ++ [(AtomicLoad c, m c)]))
  | UpdateMax c v :: l =>
      match t_curr t with
      | None => if v <=? m c then Some (m, mkThread l None (t_out t))
                else Some (m, mkThread (t_acts t) (Some (m c)) (t_out t))
      | Some curr => if m c =? curr then Some (store m c v, mkThread l None (t_out t))   (* CompareAndSwap *)
                     else Some (m, mkThread (t_acts t) None (t_out t))
      end
  end.

Inductive interleaved : memory * list thread -> memory * list thread -> Prop :=
| one_step m ts i t m' t' : ts !! i = Some t -> step m t = Some (m', t') -> interleaved (m, ts) (m', <[i := t']> ts).

(** One goroutine on its own. *)
Fixpoint runAlone (fuel : nat) (m : memory) (t : thread) : memory * thread :=
  match fuel with
  | O => (m, t)
  | S k => match step m t with Some (m', t') => runAlone k m' t' | None => (m, t) end
  end.

(** ** Latency and depth counters *)

Definition durationToNs (d : Duration) : Z := if d <=? 0 then 0 else d.

Definition observe (c : string) (d : Duration) (err : bool) : list action :=
  let ns := durationToNs d in
  [AtomicAdd (c, TotalCount) 1; AtomicAdd (c, TotalSumNs) ns; AtomicAdd (c, WindowCount) 1; AtomicAdd (c, WindowSumNs) ns;
   UpdateMax (c, TotalMaxNs) ns; UpdateMax (c, WindowMaxNs) ns]
  ++ if err then [AtomicAdd (c, TotalError) 1; AtomicAdd (c, WindowError) 1] else [].

Definition snapshotWindowAndReset (c : string) : list action :=
  [AtomicSwap (c, WindowCount); AtomicSwap (c, WindowError); AtomicSwap (c, WindowSumNs); AtomicSwap (c, WindowMaxNs)].
Definition snapshotTotal (c : string) : list action :=
  [AtomicLoad (c, TotalCount); AtomicLoad (c, TotalError); AtomicLoad (c, TotalSumNs); AtomicLoad (c, TotalMaxNs)].

Definition observeDepth (c : string) (depth : Z) : list action :=
  if depth <? 0 then [] else [UpdateMax (c, DepthTotalMax) depth; UpdateMax (c, DepthWindowMax) depth].
Definition depthSnapshotWindowAndReset (c : string) : list action := [AtomicSwap (c, DepthWindowMax)].
Definition depthSnapshotTotal (c : string) : list action := [AtomicLoad (c, DepthTotalMax)].

Definition countOne (c : string) : list action := [AtomicAdd (c, CountTotal) 1; AtomicAdd (c, CountWin) 1].

Record latencySnapshot : Type := mkLatencySnapshot { Count : Z; ErrorCount : Z; SumNs : Z; MaxNs : Z }.
Definition avg (s : latencySnapshot) : Duration := if Count s =? 0 then 0 else wrap64 (SumNs s / Count s).
Definition max (s : latencySnapshot) : Duration := wrap64 (MaxNs s).

(** ** The profilers *)

(** What the constructors keep: the interval of the log lines. *)
Definition newProfiler (logInterval : Duration) : Duration :=
  if logInterval <=? 0 then defaultAsyncProfileLogInterval else logInterval.
Definition newWebhookProfiler (logInterval : Duration) : option Duration :=
  Some (if logInterval <=? 0 then defaultAsyncProfileLogInterval else logInterval).

(** The stage profile of a status. *)
Definition stage (status : string) : option string :=
  if String.eqb status TxnStatusInit then Some "init"
  else if String.eqb status TxnStatusPaySuccess then Some "pay_success" else None.
Definition queueWait (m : string) : string := m ++ ".queueWait".
Definition execute (m : string) : string := m ++ ".execute".
Definition queueLen (m : string) : string := m ++ ".queueLen".
Definition drops (m : string) : string := m ++ ".drop".
Definition retries (m : string) : string := m ++ ".retry".

Definition onStage (status : string) (f : string -> list action) : list action :=
  match stage status with Some m => f m | None => [] end.
Definition observeQueueWait (status : string) (wait : Duration) : list action :=
  onStage status (fun m => observe (queueWait m) wait false).
Definition observeExecute (status : string) (d : Duration) (err : bool) : list action :=
  onStage status (fun m => observe (execute m) d err).
Definition observeQueueDepth (status : string) (depth : Z) : list action :=
  onStage status (fun m => observeDepth (queueLen m) depth).
Definition observeDrop (status : string) : list action := onStage status (fun m => countOne (drops m)).

(** [logStage] in its order of reads, and the line it prints from them; the
    second line is left out while nothing waited. *)
Definition logStage (m : string) : list action :=
  snapshotWindowAndReset (queueWait m) ++ snapshotWindowAndReset (execute m) ++ depthSnapshotWindowAndReset (queueLen m)
  ++ [AtomicSwap (drops m, CountWin)] ++ snapshotTotal (queueWait m) ++ snapshotTotal (execute m)
  ++ depthSnapshotTotal (queueLen m) ++ [AtomicLoad (drops m, CountTotal)].

Record StageLine : Type := mkStageLine {
  l_label : string; l_interval : Duration; l_queueWaitWin : latencySnapshot; l_execWin : latencySnapshot;
  l_queueLenWinMax : Z; l_dropsWin : Z; l_execTotal : latencySnapshot; l_queueLenTotalMax : Z; l_dropsTotal : Z;
  l_queueWaitTotal : option latencySnapshot
}.
Definition stageLine (label : string) (interval : Duration) (vs : list Z) : option StageLine :=
  match vs with
  | [a1; a2; a3; a4; b1; b2; b3; b4; ql; dw; c1; c2; c3; c4; e1; e2; e3; e4; qt; dt] =>
      Some (mkStageLine label interval (mkLatencySnapshot a1 a2 a3 a4) (mkLatencySnapshot b1 b2 b3 b4) ql dw
        (mkLatencySnapshot e1 e2 e3 e4) qt dt (if c1 =? 0 then None else Some (mkLatencySnapshot c1 c2 c3 c4)))
  | _ => None
  end.
Definition logWindow : list action := logStage "init" ++ logStage "pay_success".

(** The profiler of the webhook worker, which may be nil. *)
Definition webhook := "webhook".
Definition present (p : option Duration) (acts : list action) : list action :=
  match p with Some _ => acts | None => [] end.
Definition webhookObserveQueueWait p (wait : Duration) := present p (observe (queueWait webhook) wait false).
Definition webhookObserveDeliver p (d : Duration) (err : bool) := present p (observe (execute webhook) d err).
Definition webhookObserveQueueDepth p (depth : Z) := present p (observeDepth (queueLen webhook) depth).
Definition webhookObserveDrop p := present p (countOne (drops webhook)).
Definition webhookObserveRetry p := present p (countOne (retries webhook)).
Definition webhookLogWindow p := present p
  (snapshotWindowAndReset (queueWait webhook) ++ snapshotWindowAndReset (execute webhook)
   ++ depthSnapshotWindowAndReset (queueLen webhook) ++ [AtomicSwap (drops webhook, CountWin); AtomicSwap (retries webhook, CountWin)]
   ++ snapshotTotal (queueWait webhook) ++ snapshotTotal (execute webhook) ++ depthSnapshotTotal (queueLen webhook)
   ++ [AtomicLoad (drops webhook, CountTotal); AtomicLoad (retries webhook, CountTotal)]).

Record WebhookLine : Type := mkWebhookLine {
  w_interval : Duration; w_queueWaitWin : latencySnapshot; w_deliverWin : latencySnapshot;
  w_queueLenWinMax : Z; w_dropsWin : Z; w_retriesWin : Z; w_deliverTotal : latencySnapshot;
  w_queueLenTotalMax : Z; w_dropsTotal : Z; w_retriesTotal : Z; w_queueWaitTotal : option latencySnapshot
}.
Definition webhookLine (interval : Duration) (vs : list Z) : option WebhookLine :=
  match vs with
  | [a1; a2; a3; a4; b1; b2; b3; b4; ql; dw; rw; c1; c2; c3; c4; e1; e2; e3; e4; qt; dt; rt] =>
      Some (mkWebhookLine interval (mkLatencySnapshot a1 a2 a3 a4) (mkLatencySnapshot b1 b2 b3 b4) ql dw rw
        (mkLatencySnapshot e1 e2 e3 e4) qt dt rt (if c1 =? 0 then None else Some (mkLatencySnapshot c1 c2 c3 c4)))
  | _ => None
  end.

(** A call of one of the methods, by any goroutine. *)
Inductive call : Type :=
| CQueueWait (status : string) (wait : Duration)
| CExecute (status : string) (d : Duration) (err : bool)
| CQueueDepth (status : string) (depth : Z)
| CDrop (status : string)
| CLog
| CWebhookQueueWait (p : option Duration) (wait : Duration)
| CWebhookDeliver (p : option Duration) (d : Duration) (err : bool)
| CWebhookQueueDepth (p : option Duration) (depth : Z)
| CWebhookDrop (p : option Duration)
| CWebhookRetry (p : option Duration)
| CWebhookLog (p : option Duration).

Definition body (k : call) : list action :=
  match k with
  | CQueueWait st w => observeQueueWait st w
  | CExecute st d e => observeExecute st d e
  | CQueueDepth st n => observeQueueDepth st n
  | CDrop st => observeDrop st
  | CLog => logWindow
  | CWebhookQueueWait p w => webhookObserveQueueWait p w
  | CWebhookDeliver p d e => webhookObserveDeliver p d e
  | CWebhookQueueDepth p n => webhookObserveQueueDepth p n
  | CWebhookDrop p => webhookObserveDrop p
  | CWebhookRetry p => webhookObserveRetry p
  | CWebhookLog p => webhookLogWindow p
  end.

Definition program (calls : list call) : thread := start (concat (map body calls)).

(** ** What is logged *)

Inductive line : Type := StageL (l : StageLine) | WebhookL (l : WebhookLine).

Definition isRead (a : action) : bool := match a with AtomicSwap _ | AtomicLoad _ => true | _ => false end.
Definition reads (acts : list action) : list action := List.filter isRead acts.

(** The lines a call prints from the values it has read. *)
Definition linesOf (interval : Duration) (k : call) (vs : list Z) : list line :=
  match k with
  | CLog => omap (fun l => StageL <$> l) [stageLine "init" interval (firstn 20 vs); stageLine "pay_success" interval (skipn 20 vs)]
  | CWebhookLog (Some i) => match webhookLine i vs with Some l => [WebhookL l] | None => [] end
  | _ => []
  end.
Fixpoint printed (interval : Duration) (calls : list call) (vs : list Z) : list line :=
  match calls with
  | [] => []
  | k :: ks => let n := length (reads (body k)) in linesOf interval k (firstn n vs) ++ printed interval ks (skipn n vs)
  end.

(** The log of all goroutines, from the values each has read. *)
Definition logged (interval : Duration) (calls : list (list call)) (ts : list thread) : list line :=
  concat (zip_with (fun ks t => printed interval ks (map snd (t_out t))) calls ts).

(** The windows a line reports, by counter. *)
Definition windows (l : line) : list (string * latencySnapshot) :=
  match l with
  | StageL s => [(queueWait (l_label s), l_queueWaitWin s); (execute (l_label s), l_execWin s)]
  | WebhookL s => [(queueWait webhook, w_queueWaitWin s); (execute webhook, w_deliverWin s)]
  end.
Definition reported (c : string) (f : latencySnapshot -> Z) (ls : list line) : list Z :=
  flat_map (fun l => flat_map (fun p => if decide (p.1 = c) then [f p.2] else []) (windows l)) ls.

(** ** The profiling counters add up

    Whatever the interleaving, what the windows have reported and still hold is
    what the totals hold, and that is what was observed. *)

(** ** One goroutine of many *)

Definition maxOf {A} (f : A -> Z) (l : list A) : Z := fold_right (fun x => Z.max (f x)) 0 l.

Lemma maxOf_nonneg {A} (f : A -> Z) l : 0 <= maxOf f l.
Proof. induction l; simpl; lia. Qed.
Lemma maxOf_app {A} (f : A -> Z) l1 l2 : maxOf f (l1 ++ l2) = Z.max (maxOf f l1) (maxOf f l2).
Proof. pose proof (maxOf_nonneg f l2). induction l1; simpl; lia. Qed.
Lemma maxOf_zero {A} (f : A -> Z) l : (forall x, x ∈ l -> f x = 0) -> maxOf f l = 0.
Proof. induction l as [|x l IH]; simpl; intros H; [done|]. rewrite H, IH; [done| |]; set_solver. Qed.

Lemma maxOf_ext {A} (f g : A -> Z) l : (forall x, x ∈ l -> f x = g x) -> maxOf f l = maxOf g l.
Proof. induction l as [|x l IH]; simpl; intros H; [done|]. rewrite H, IH; [done| |]; set_solver. Qed.

(** A sum or a maximum over threads, one of them apart. *)
Lemma sum_by_at {A} (f : A -> Z) l i x :
  l !! i = Some x -> exists r, sum_by f l = f x + r /\ forall y, sum_by f (<[i:=y]> l) = f y + r.
Proof.
  revert i. induction l as [|z l IH]; intros [|i] Hi; simplify_eq/=.
  - by exists (sum_by f l).
  - destruct (IH i Hi) as (r & E & H). exists (f z + r). split; [lia|]. intros y. rewrite H. lia.
Qed.
Lemma maxOf_at {A} (f : A -> Z) l i x :
  l !! i = Some x -> exists r, maxOf f l = Z.max (f x) r /\ forall y, maxOf f (<[i:=y]> l) = Z.max (f y) r.
Proof.
  revert i. induction l as [|z l IH]; intros [|i] Hi; simplify_eq/=.
  - by exists (maxOf f l).
  - destruct (IH i Hi) as (r & E & H). exists (Z.max (f z) r). split; [lia|]. intros y. rewrite H. lia.
Qed.

(** ** What is pending and what was taken *)

Definition addOf (c : cell) (a : action) : Z :=
  match a with AtomicAdd c' v => if decide (c' = c) then v else 0 | _ => 0 end.
Definition peakOf (c : cell) (a : action) : Z :=
  match a with UpdateMax c' v => if decide (c' = c) then v else 0 | _ => 0 end.
Definition takenOf (c : cell) (o : action * Z) : Z := if decide (o.1 = AtomicSwap c) then o.2 else 0.

(** The windows a thread has read and reset. *)
Definition taken (c : cell) (ts : list thread) : Z := sum_by (fun t => sum_by (takenOf c) (t_out t)) ts.
Definition takenMax (c : cell) (ts : list thread) : Z := maxOf (fun t => maxOf (takenOf c) (t_out t)) ts.

Definition weight (c : cell) (t : thread) : Z := sum_by (takenOf c) (t_out t) + sum_by (addOf c) (t_acts t).
Definition height (c : cell) (t : thread) : Z := Z.max (maxOf (takenOf c) (t_out t)) (maxOf (peakOf c) (t_acts t)).

(** A cell is only added to, or only raised. *)
Definition isMax (c : cell) (a : action) : bool := match a with UpdateMax c' _ => bool_decide (c' = c) | _ => false end.
Definition isAdd (c : cell) (a : action) : bool := match a with AtomicAdd c' _ => bool_decide (c' = c) | _ => false end.
Definition additive (c : cell) (t : thread) : Prop := forall a, a ∈ t_acts t -> isMax c a = false.
Definition raised (c : cell) (t : thread) : Prop := forall a, a ∈ t_acts t -> isAdd c a = false.

(** The value [updateMax] has loaded is below the one it wants to store. *)
Definition loaded (t : thread) : Prop :=
  match t_curr t, t_acts t with
  | None, _ => True
  | Some x, UpdateMax _ v :: _ => x < v
  | Some _, _ => False
  end.

Lemma store_same m c v : store m c v c = v.
Proof. unfold store. by rewrite decide_True. Qed.
Lemma store_other m c c' v : c' <> c -> store m c v c' = m c'.
Proof. intros. unfold store. by rewrite decide_False. Qed.

Lemma step_loaded m t m' t' : step m t = Some (m', t') -> loaded t'.
Proof.
  unfold step, loaded. destruct t as [[|[c v|c v|c|c] l] o out]; simpl; [done|by intros [= <- <-]| |by intros [= <- <-]..].
  destruct o as [x|]; [destruct (_ =? _); by intros [= <- <-]|]. destruct (Z.leb_spec v (m c)); intros [= <- <-]; simpl; lia.
Qed.

Lemma sum_snoc {A} (f : A -> Z) l x : sum_by f (l ++ [x]) = sum_by f l + f x.
Proof. rewrite sum_by_app. simpl. lia. Qed.
Lemma max_snoc {A} (f : A -> Z) l x : maxOf f (l ++ [x]) = Z.max (maxOf f l) (f x).
Proof. rewrite maxOf_app. simpl. pose proof (maxOf_nonneg f l). lia. Qed.

Lemma takenOf_swap c c' v : takenOf c (AtomicSwap c', v) = if decide (c' = c) then v else 0.
Proof.
  unfold takenOf. cbn [fst snd]. destruct (decide (c' = c)) as [->|Hn]; [by rewrite decide_True|].
  rewrite decide_False; [done|]. by intros [= ->].
Qed.
Lemma takenOf_load c c' v : takenOf c (AtomicLoad c', v) = 0.
Proof. unfold takenOf. cbn [fst]. by rewrite decide_False. Qed.

Definition word (z : Z) : Prop := 0 <= z < two64.

Lemma add64_word a b : word (add64 a b).
Proof. apply Z.mod_pos_bound. done. Qed.
Lemma add64_eq64 a b : add64 a b ≡64 a + b.
Proof. unfold eq64, add64. by rewrite Z.mod_mod. Qed.

(** ** Sums are conserved *)

Lemma step_sum c m t m' t' :
  step m t = Some (m', t') -> additive c t -> word (m c) ->
  m' c + weight c t' ≡64 m c + weight c t /\ additive c t' /\ word (m' c).
Proof.
  intros Hs Ha Hw. assert (additive c t') as Ha'.
  { unfold additive in *. unfold step in Hs. destruct t as [acts o out]. simpl in *.
    destruct acts as [|[c' v|c' v|c'|c'] l]; [done|..]; repeat case_match; simplify_eq/=; set_solver. }
  destruct t as [acts o out]. unfold step in Hs. simpl in *. destruct acts as [|a l]; [done|].
  assert (isMax c a = false) as Hc by (apply Ha; by left). unfold weight.
  destruct a as [c' v|c' v|c'|c']; simplify_eq/=.
  - split; [|split; [done|]].
    + destruct (decide (c' = c)) as [->|]; [rewrite store_same|rewrite store_other by done].
      * rewrite add64_eq64. apply eq64_of_eq. lia.
      * apply eq64_of_eq. lia.
    + unfold store. case_decide; [apply add64_word|done].
  - apply bool_decide_eq_false in Hc. repeat case_match; simplify_eq/=;
      rewrite ?store_other by done; (split; [apply eq64_of_eq; rewrite ?decide_False by done; lia|done]).
  - rewrite sum_snoc, takenOf_swap. split; [|split; [done|]].
    + apply eq64_of_eq. destruct (decide (c' = c)) as [->|]; [rewrite store_same|rewrite store_other by done]; lia.
    + unfold store. case_decide; [done|done].
  - rewrite sum_snoc, takenOf_load. split; [apply eq64_of_eq; lia|done].
Qed.

(** ** Maxima are conserved *)

Lemma step_max c m t m' t' :
  step m t = Some (m', t') -> raised c t -> loaded t -> 0 <= m c ->
  Z.max (m' c) (height c t') = Z.max (m c) (height c t) /\ raised c t' /\ 0 <= m' c.
Proof.
  intros Hs Ha Hl Hw. assert (raised c t') as Ha'.
  { unfold raised in *. unfold step in Hs. destruct t as [acts o out]. simpl in *.
    destruct acts as [|[c' v|c' v|c'|c'] l]; [done|..]; repeat case_match; simplify_eq/=; set_solver. }
  destruct t as [acts o out]. unfold step in Hs. unfold loaded in Hl. simpl in *. destruct acts as [|a l]; [done|].
  assert (isAdd c a = false) as Hc by (apply Ha; by left). unfold height.
  pose proof (maxOf_nonneg (takenOf c) out). pose proof (maxOf_nonneg (peakOf c) l).
  destruct a as [c' v|c' v|c'|c']; simplify_eq/=.
  - apply bool_decide_eq_false in Hc. rewrite store_other by done. split; [lia|done].
  - destruct o as [x|].
    + destruct (Z.eqb_spec (m c') x) as [<-|]; simplify_eq/=; [|done].
      destruct (decide (c' = c)) as [->|]; [rewrite store_same|rewrite store_other by done]; (split; [lia|split; [done|lia]]).
    + destruct (Z.leb_spec v (m c')); simplify_eq/=; [|done]. split; [|done].
      destruct (decide (c' = c)) as [->|]; lia.
  - rewrite max_snoc, takenOf_swap. destruct (decide (c' = c)) as [->|]; [rewrite store_same|rewrite store_other by done]; (split; [lia|split; [done|lia]]).
  - rewrite max_snoc, takenOf_load. split; [lia|done].
Qed.

(** ** All goroutines *)

Definition system : Type := memory * list thread.
Definition begin (ts : list thread) : system := ((fun _ => 0), ts).
Definition finished (ts : list thread) : Prop := forall t, t ∈ ts -> t_acts t = [].

Lemma elem_insert {A} (P : A -> Prop) (l : list A) i y :
  (forall x, x ∈ l -> P x) -> P y -> forall x, x ∈ (<[i:=y]> l) -> P x.
Proof. intros Hl Hy. apply Forall_forall, Forall_insert; [by apply Forall_forall|done]. Qed.

Lemma run_loaded s s' : rtc interleaved s s' -> (forall t, t ∈ s.2 -> loaded t) -> forall t, t ∈ s'.2 -> loaded t.
Proof.
  induction 1 as [|s s1 s2 H1 _ IH]; [done|]. intros Hl. apply IH. destruct H1 as [m ts i t m' t' Hi Hs]. simpl in *.
  apply elem_insert; [done|]. by eapply step_loaded.
Qed.

Lemma run_sum c s s' :
  rtc interleaved s s' -> (forall t, t ∈ s.2 -> additive c t) -> word (s.1 c) ->
  s'.1 c + sum_by (weight c) s'.2 ≡64 s.1 c + sum_by (weight c) s.2 /\ word (s'.1 c).
Proof.
  induction 1 as [|s s1 s2 H1 _ IH]; [done|]. intros Ha Hw. destruct H1 as [m ts i t m' t' Hi Hs]. simpl in *.
  destruct (step_sum c m t m' t' Hs (Ha t (list_elem_of_lookup_2 _ _ _ Hi)) Hw) as (He & Ha' & Hw').
  destruct IH as [IH Hw2]; [by apply elem_insert|done|]. split; [|done]. etransitivity; [exact IH|].
  destruct (sum_by_at (weight c) ts i t Hi) as (r & -> & ->).
  transitivity (m' c + weight c t' + r); [apply eq64_of_eq; lia|]. rewrite He. apply eq64_of_eq. lia.
Qed.

Lemma run_max c s s' :
  rtc interleaved s s' -> (forall t, t ∈ s.2 -> raised c t) -> (forall t, t ∈ s.2 -> loaded t) -> 0 <= s.1 c ->
  Z.max (s'.1 c) (maxOf (height c) s'.2) = Z.max (s.1 c) (maxOf (height c) s.2) /\ 0 <= s'.1 c.
Proof.
  induction 1 as [|s s1 s2 H1 _ IH]; [done|]. intros Ha Hl Hw. destruct H1 as [m ts i t m' t' Hi Hs]. simpl in *.
  pose proof (list_elem_of_lookup_2 _ _ _ Hi) as Hin.
  destruct (step_max c m t m' t' Hs (Ha t Hin) (Hl t Hin) Hw) as (He & Ha' & Hw').
  destruct IH as [IH Hw2]; [by apply elem_insert|apply elem_insert; [done|by eapply step_loaded]|done|]. split; [|done].
  rewrite IH. destruct (maxOf_at (height c) ts i t Hi) as (r & -> & ->). lia.
Qed.

(** A thread that takes nothing from [c]. *)
Definition untaken (c : cell) (t : thread) : Prop :=
  (AtomicSwap c ∉ t_acts t) /\ forall o, o ∈ t_out t -> o.1 <> AtomicSwap c.

Lemma step_untaken c m t m' t' : step m t = Some (m', t') -> untaken c t -> untaken c t'.
Proof.
  intros Hs [Ha Ho]. unfold step in Hs. destruct t as [acts o out]. unfold untaken. simpl in *.
  destruct acts as [|[c' v|c' v|c'|c'] l]; [done|..]; repeat case_match; simplify_eq/=; (split; [set_solver|]); try done;
    (intros x [Hx|Hx]%elem_of_app; [by apply Ho|]); apply list_elem_of_singleton in Hx as ->; [|done].
  intros [= ->]. apply Ha. by left.
Qed.

Lemma run_untaken c s s' :
  rtc interleaved s s' -> (forall t, t ∈ s.2 -> untaken c t) -> forall t, t ∈ s'.2 -> untaken c t.
Proof.
  induction 1 as [|s s1 s2 H1 _ IH]; [done|]. intros H. apply IH. destruct H1 as [m ts i t m' t' Hi Hs]. simpl in *.
  apply elem_insert; [done|]. eapply step_untaken; [done|]. apply H. by eapply list_elem_of_lookup_2.
Qed.

(** ** When all are done *)

Section Done.
Context (ts ts' : list thread) (m : memory) (Hrun : rtc interleaved (begin ts) (m, ts')) (Hdone : finished ts').
Context (Hnew : forall t, t ∈ ts -> t_curr t = None /\ t_out t = []).

Lemma done_sum c :
  (forall t, t ∈ ts -> additive c t) -> m c + taken c ts' ≡64 sum_by (fun t => sum_by (addOf c) (t_acts t)) ts /\ word (m c).
Proof using Hrun Hdone Hnew.
  intros Ha. destruct (run_sum c _ _ Hrun Ha) as [He Hw]; [done|]. cbn [fst snd begin] in *. split; [|done].
  etransitivity; [|etransitivity; [exact He|]]; apply eq64_of_eq.
  - f_equal. apply sum_by_ext. intros t Ht. unfold weight. rewrite (Hdone t Ht). simpl. lia.
  - unfold begin. simpl. apply sum_by_ext. intros t Ht. unfold weight. destruct (Hnew t Ht) as [_ ->]. simpl. lia.
Qed.

Lemma done_max c :
  (forall t, t ∈ ts -> raised c t) ->
  Z.max (m c) (takenMax c ts') = maxOf (fun t => maxOf (peakOf c) (t_acts t)) ts /\ 0 <= m c.
Proof using Hrun Hdone Hnew.
  intros Ha. destruct (run_max c _ _ Hrun Ha) as [He Hw]; [|done|].
  { intros t Ht. unfold loaded. simpl in Ht. by destruct (Hnew t Ht) as [-> _]. }
  cbn [fst snd begin] in *. split; [|done]. unfold takenMax.
  rewrite (maxOf_ext _ (height c) ts'), He.
  - unfold begin. simpl. pose proof (maxOf_nonneg (height c) ts). rewrite Z.max_r by done. apply maxOf_ext. intros t Ht.
    unfold height. destruct (Hnew t Ht) as [_ ->]. simpl. pose proof (maxOf_nonneg (peakOf c) (t_acts t)). lia.
  - intros t Ht. unfold height. rewrite (Hdone t Ht). simpl. pose proof (maxOf_nonneg (takenOf c) (t_out t)). lia.
Qed.

(** No one takes from a total. *)
Lemma done_untaken c : (forall t, t ∈ ts -> AtomicSwap c ∉ t_acts t) -> taken c ts' = 0 /\ takenMax c ts' = 0.
Proof using Hrun Hdone Hnew.
  intros Hs. assert (forall t, t ∈ ts' -> untaken c t) as H.
  { apply (run_untaken c _ _ Hrun). simpl. intros t Ht. destruct (Hnew t Ht) as [_ Ho]. split; [by apply Hs|].
    rewrite Ho. set_solver. }
  split; [apply sum_by_zero|apply maxOf_zero]; intros t Ht; destruct (H t Ht) as [_ Ho];
    [apply sum_by_zero|apply maxOf_zero]; intros o Hin; unfold takenOf; rewrite decide_False; auto.
Qed.
End Done.

(** ** What the calls observe *)

(** The latencies a call observes on counter [c]. *)
Definition observations (c : string) (k : call) : list (Duration * bool) :=
  match k with
  | CQueueWait st w => match stage st with Some m => if decide (queueWait m = c) then [(w, false)] else [] | None => [] end
  | CExecute st d e => match stage st with Some m => if decide (execute m = c) then [(d, e)] else [] | None => [] end
  | CWebhookQueueWait (Some _) w => if decide (queueWait webhook = c) then [(w, false)] else []
  | CWebhookDeliver (Some _) d e => if decide (execute webhook = c) then [(d, e)] else []
  | _ => []
  end.

Definition ns (o : Duration * bool) : Z := durationToNs o.1.
Definition failed (o : Duration * bool) : Z := if o.2 then 1 else 0.

(** What a list of actions adds to, raises and takes from the cells of [c]. *)
Record adds_up (c : string) (acts : list action) (obs : list (Duration * bool)) : Prop := {
  au_count : sum_by (addOf (c, TotalCount)) acts = Z.of_nat (length obs);
  au_wcount : sum_by (addOf (c, WindowCount)) acts = Z.of_nat (length obs);
  au_error : sum_by (addOf (c, TotalError)) acts = sum_by failed obs;
  au_werror : sum_by (addOf (c, WindowError)) acts = sum_by failed obs;
  au_sum : sum_by (addOf (c, TotalSumNs)) acts = sum_by ns obs;
  au_wsum : sum_by (addOf (c, WindowSumNs)) acts = sum_by ns obs;
  au_max : maxOf (peakOf (c, TotalMaxNs)) acts = maxOf ns obs;
  au_wmax : maxOf (peakOf (c, WindowMaxNs)) acts = maxOf ns obs
}.

Lemma adds_up_nil c : adds_up c [] [].
Proof. by split. Qed.
Lemma adds_up_app c a1 a2 o1 o2 : adds_up c a1 o1 -> adds_up c a2 o2 -> adds_up c (a1 ++ a2) (o1 ++ o2).
Proof. intros [] []. split; rewrite ?sum_by_app, ?maxOf_app, ?length_app, ?Nat2Z.inj_add; congruence. Qed.

Lemma decide_pair {A} (c c' : string) (f f' : field) (x y : A) :
  (if decide ((c', f') = (c, f)) then x else y) = if decide (c' = c) then (if decide (f' = f) then x else y) else y.
Proof.
  destruct (decide (c' = c)) as [->|]; [destruct (decide (f' = f)) as [->|]|]; repeat (case_decide; try congruence).
Qed.

Lemma adds_up_observe c c' d e : adds_up c (observe c' d e) (if decide (c' = c) then [(d, e)] else []).
Proof.
  unfold observe. destruct e; split; cbn [app sum_by maxOf fold_right addOf peakOf]; rewrite ?decide_pair;
    destruct (decide (c' = c)); simpl; unfold ns, failed; simpl; lia.
Qed.

(** Actions on no latency counter, and reads. *)
Definition quietAction (a : action) : bool :=
  match a with
  | AtomicAdd (_, f) _ | UpdateMax (_, f) _ =>
      bool_decide (f = DepthTotalMax) || bool_decide (f = DepthWindowMax) || bool_decide (f = CountTotal) || bool_decide (f = CountWin)
  | _ => true
  end.
Lemma adds_up_quiet c acts : forallb quietAction acts = true -> adds_up c acts [].
Proof.
  induction acts as [|a acts IH]; [intros _; apply adds_up_nil|]. simpl. intros [Ha Hr]%andb_true_iff.
  apply (adds_up_app c [a] acts [] []); [|by apply IH].
  destruct a as [[c' []] v|[c' []] v|x|x]; try discriminate Ha; split; cbn [sum_by maxOf fold_right addOf peakOf];
    rewrite ?decide_pair; by repeat case_decide.
Qed.

Lemma adds_up_body c k : adds_up c (body k) (observations c k).
Proof.
  destruct k as [st w|st d e|st n|st| |[p|] w|[p|] d e|[p|] n|[p|]|[p|]|[p|]]; simpl; unfold observeQueueWait, observeExecute,
    observeQueueDepth, observeDrop, webhookObserveQueueDepth, onStage, present;
    try (destruct (stage st)); try apply adds_up_nil; try apply adds_up_observe; try (by apply adds_up_quiet);
    apply adds_up_quiet; unfold observeDepth; by destruct (_ <? 0).
Qed.

Lemma adds_up_calls c ks : adds_up c (concat (map body ks)) (concat (map (observations c) ks)).
Proof. induction ks as [|k ks IH]; [apply adds_up_nil|]. simpl. apply adds_up_app; [apply adds_up_body|done]. Qed.

(** Maxima are raised, counts and sums added to, and only windows taken. *)
Definition isMaxField (f : field) : bool :=
  match f with TotalMaxNs | WindowMaxNs | DepthTotalMax | DepthWindowMax => true | _ => false end.
Definition isWindow (f : field) : bool :=
  match f with WindowCount | WindowError | WindowSumNs | WindowMaxNs | DepthWindowMax | CountWin => true | _ => false end.
Definition proper (a : action) : bool :=
  match a with
  | AtomicAdd (_, f) _ => negb (isMaxField f)
  | UpdateMax (_, f) _ => isMaxField f
  | AtomicSwap (_, f) => isWindow f
  | AtomicLoad _ => true
  end.

Lemma body_proper k : forallb proper (body k) = true.
Proof.
  destruct k as [st w|st d e|st n|st| |[p|] w|[p|] d e|[p|] n|[p|]|[p|]|[p|]]; simpl; unfold observeQueueWait, observeExecute,
    observeQueueDepth, observeDrop, webhookObserveQueueDepth, onStage, observe, observeDepth;
    try (destruct (stage st)); try (destruct e); try (destruct (n <? 0)); done.
Qed.

Lemma program_proper calls t a : t ∈ map program calls -> a ∈ t_acts t -> proper a = true.
Proof.
  intros (ks & -> & _)%list_elem_of_fmap Ha. simpl in Ha. apply list_elem_of_In, in_concat in Ha as (acts & Hin & Ha).
  apply list_elem_of_In, list_elem_of_fmap in Hin as (k & -> & _). pose proof (body_proper k) as Hb. rewrite forallb_forall in Hb.
  by apply Hb.
Qed.

Lemma programs_additive c f calls t : isMaxField f = false -> t ∈ map program calls -> additive (c, f) t.
Proof.
  intros Hf Ht a Ha. pose proof (program_proper _ _ _ Ht Ha) as Hp. destruct a as [|[c' f'] v| |]; try done. simpl in *.
  apply bool_decide_eq_false. intros [= -> ->]. congruence.
Qed.
Lemma programs_raised c f calls t : isMaxField f = true -> t ∈ map program calls -> raised (c, f) t.
Proof.
  intros Hf Ht a Ha. pose proof (program_proper _ _ _ Ht Ha) as Hp. destruct a as [[c' f'] v| | |]; try done. simpl in *.
  apply bool_decide_eq_false. intros [= -> ->]. by rewrite Hf in Hp.
Qed.
Lemma programs_untaken c f calls t : isWindow f = false -> t ∈ map program calls -> AtomicSwap (c, f) ∉ t_acts t.
Proof. intros Hf Ht Ha. pose proof (program_proper _ _ _ Ht Ha) as Hp. simpl in Hp. congruence. Qed.
Lemma programs_new calls t : t ∈ map program calls -> t_curr t = None /\ t_out t = [].
Proof. by intros (ks & -> & _)%list_elem_of_fmap. Qed.

Lemma programs_sum g calls :
  sum_by (fun t => sum_by g (t_acts t)) (map program calls) = sum_by g (concat (map body (concat calls))).
Proof.
  induction calls as [|ks calls IH]; [done|]. simpl. rewrite IH, map_app, List.concat_app, sum_by_app. done.
Qed.
Lemma programs_max g calls :
  maxOf (fun t => maxOf g (t_acts t)) (map program calls) = maxOf g (concat (map body (concat calls))).
Proof.
  induction calls as [|ks calls IH]; [done|]. simpl. rewrite IH, map_app, List.concat_app, maxOf_app. done.
Qed.

Lemma word_eq a b : word a -> a ≡64 b -> a = b mod two64.
Proof. unfold word, eq64. intros Ha E. by rewrite <- E, Z.mod_small. Qed.

Section AddsUp.
Context (c : string) (calls : list (list call)) (m : memory) (ts : list thread).
Context (Hrun : rtc interleaved (begin (map program calls)) (m, ts)) (Hdone : finished ts).

Definition observed : list (Duration * bool) := concat (map (observations c) (concat calls)).

(** A count or a sum: the total holds what was observed, and so do its windows. *)
Lemma total_window total window (g : Duration * bool -> Z) :
  isMaxField total = false -> isMaxField window = false -> isWindow total = false ->
  sum_by (addOf (c, total)) (concat (map body (concat calls))) = sum_by g observed ->
  sum_by (addOf (c, window)) (concat (map body (concat calls))) = sum_by g observed ->
  m (c, total) = sum_by g observed mod two64 /\ m (c, total) = add64 (m (c, window)) (taken (c, window) ts).
Proof using Hrun Hdone.
  intros Ht Hw Hu Et Ew.
  destruct (done_sum _ _ _ Hrun Hdone (programs_new calls) (c, total)) as [Es Hword]; [intros; by apply (programs_additive c total calls)|].
  destruct (done_sum _ _ _ Hrun Hdone (programs_new calls) (c, window)) as [Es' _]; [intros; by apply (programs_additive c window calls)|].
  destruct (done_untaken _ _ _ Hrun Hdone (programs_new calls) (c, total)) as [E0 _]; [intros; by apply (programs_untaken c total calls)|].
  rewrite programs_sum in Es, Es'. rewrite E0, Z.add_0_r in Es. rewrite Et in Es. rewrite Ew in Es'.
  split; [by apply word_eq|]. unfold add64. apply word_eq; [done|]. by rewrite Es, Es'.
Qed.
End AddsUp.

(** ** The log reports what was taken *)

Definition trace (t : thread) : list action := (map fst (t_out t) ++ reads (t_acts t))%list.

Lemma step_trace m t m' t' : step m t = Some (m', t') -> trace t' = trace t.
Proof.
  unfold step, trace. destruct t as [[|[c v|c v|c|c] l] o out]; simpl; [done|by intros [= _ <-]| |..].
  - destruct o; case_match; by intros [= _ <-].
  - intros [= _ <-]. simpl. by rewrite map_app, <- app_assoc.
  - intros [= _ <-]. simpl. by rewrite map_app, <- app_assoc.
Qed.

Lemma run_trace s s' : rtc interleaved s s' -> map trace s'.2 = map trace s.2.
Proof.
  induction 1 as [|s s1 s2 H1 _ IH]; [done|]. rewrite IH. destruct H1 as [m ts i t m' t' Hi Hs]. cbn [snd].
  change (trace <$> <[i:=t']> ts = trace <$> ts). rewrite list_fmap_insert, (step_trace _ _ _ _ Hs). apply list_insert_id.
  by rewrite list_lookup_fmap, Hi.
Qed.

(** The values taken from a cell, in order. *)
Definition takenList (c : cell) (out : list (action * Z)) : list Z :=
  flat_map (fun o => if decide (o.1 = AtomicSwap c) then [o.2] else []) out.

Lemma takenList_app c o1 o2 : takenList c (o1 ++ o2) = (takenList c o1 ++ takenList c o2)%list.
Proof. apply flat_map_app. Qed.
Lemma takenList_sum c out : sum_by (takenOf c) out = sum_by (fun v => v) (takenList c out).
Proof.
  induction out as [|o out IH]; [done|]. simpl. rewrite sum_by_app, IH. f_equal. unfold takenOf. case_decide; simpl; lia.
Qed.
Lemma takenList_max c out : maxOf (takenOf c) out = maxOf (fun v => v) (takenList c out).
Proof.
  pose proof (maxOf_nonneg (fun v => v) (takenList c out)) as Hn. revert Hn.
  induction out as [|o out IH]; intros Hn; [done|]. simpl in *. rewrite maxOf_app in *. rewrite IH by apply maxOf_nonneg.
  pose proof (maxOf_nonneg (fun v => v) (takenList c out)) as Hm. unfold takenOf, takenList in *. case_decide; simpl in *; lia.
Qed.

Lemma takenList_swap c f c' f' v out :
  takenList (c, f) ((AtomicSwap (c', f'), v) :: out)
  = ((if decide (c' = c) then if decide (f' = f) then [v] else [] else []) ++ takenList (c, f) out)%list.
Proof.
  unfold takenList. simpl. f_equal. destruct (decide (c' = c)) as [->|]; [destruct (decide (f' = f)) as [->|]|];
    repeat (case_decide; try congruence).
Qed.
Lemma takenList_load c c' v out : takenList c ((AtomicLoad c', v) :: out) = takenList c out.
Proof. reflexivity. Qed.

(** Which field of a snapshot reports which cell. *)
Inductive reports : field -> (latencySnapshot -> Z) -> Prop :=
| rp_count : reports WindowCount Count
| rp_error : reports WindowError ErrorCount
| rp_sum : reports WindowSumNs SumNs
| rp_max : reports WindowMaxNs MaxNs.

Lemma takenList_snapshot c f g c' o :
  reports f g -> map fst o = snapshotWindowAndReset c' ->
  exists a1 a2 a3 a4, map snd o = [a1; a2; a3; a4] /\
    takenList (c, f) o = if decide (c' = c) then [g (mkLatencySnapshot a1 a2 a3 a4)] else [].
Proof.
  intros Hr Ho. unfold snapshotWindowAndReset in Ho.
  destruct o as [|[x1 a1] [|[x2 a2] [|[x3 a3] [|[x4 a4] [|y o]]]]]; simpl in Ho; try discriminate Ho. injection Ho as -> -> -> ->.
  exists a1, a2, a3, a4. split; [done|].
  rewrite !takenList_swap. destruct (decide (c' = c)); [|done]. by destruct Hr.
Qed.

Lemma takenList_none c o acts : map fst o = acts -> AtomicSwap c ∉ acts -> takenList c o = [].
Proof.
  intros <-. induction o as [|[a v] o IH]; [done|]. simpl. intros Hn. rewrite decide_False by set_solver. apply IH. set_solver.
Qed.

Lemma map_fst_app (o : list (action * Z)) l1 l2 : map fst o = (l1 ++ l2)%list ->
  exists o1 o2, o = (o1 ++ o2)%list /\ map fst o1 = l1 /\ map fst o2 = l2.
Proof.
  revert o. induction l1 as [|a l1 IH]; intros o Ho; [by exists [], o|]. destruct o as [|x o]; [done|]. simpl in Ho. injection Ho as <- Ho.
  destruct (IH o Ho) as (o1 & o2 & -> & <- & <-). by exists (x :: o1), o2.
Qed.

(** One stage: its line reports what its reads took. *)
Lemma stage_reported c f g m o interval :
  reports f g -> map fst o = logStage m ->
  takenList (c, f) o = match stageLine m interval (map snd o) with Some l => reported c g [StageL l] | None => [] end /\
  length o = 20%nat.
Proof.
  intros Hr Ho. split; [|by rewrite <- (length_map fst), Ho].
  unfold logStage in Ho. apply map_fst_app in Ho as (o1 & o' & -> & H1 & Ho). apply map_fst_app in Ho as (o2 & o3 & -> & H2 & H3).
  destruct (takenList_snapshot c f g _ _ Hr H1) as (a1 & a2 & a3 & a4 & E1 & T1).
  destruct (takenList_snapshot c f g _ _ Hr H2) as (b1 & b2 & b3 & b4 & E2 & T2).
  rewrite !takenList_app, T1, T2. rewrite (takenList_none (c, f) o3 _ H3) by (destruct Hr; set_solver).
  rewrite !map_app, E1, E2. pose proof (f_equal length H3) as Hl. rewrite length_map in Hl. simpl in Hl.
  do 12 (destruct o3 as [|[? ?] o3]; [done|]). destruct o3 as [|? ?]; [|done]. simpl. unfold reported. simpl.
  by rewrite !app_nil_r.
Qed.

Lemma webhook_reported c f g i o :
  reports f g -> map fst o = webhookLogWindow (Some i) ->
  takenList (c, f) o = match webhookLine i (map snd o) with Some l => reported c g [WebhookL l] | None => [] end.
Proof.
  intros Hr Ho. unfold webhookLogWindow, present in Ho.
  apply map_fst_app in Ho as (o1 & o' & -> & H1 & Ho). apply map_fst_app in Ho as (o2 & o3 & -> & H2 & H3).
  destruct (takenList_snapshot c f g _ _ Hr H1) as (a1 & a2 & a3 & a4 & E1 & T1).
  destruct (takenList_snapshot c f g _ _ Hr H2) as (b1 & b2 & b3 & b4 & E2 & T2).
  rewrite !takenList_app, T1, T2. rewrite (takenList_none (c, f) o3 _ H3) by (destruct Hr; set_solver).
  rewrite !map_app, E1, E2. pose proof (f_equal length H3) as Hl. rewrite length_map in Hl. simpl in Hl.
  do 14 (destruct o3 as [|[? ?] o3]; [done|]). destruct o3 as [|? ?]; [|done]. simpl. unfold reported. simpl.
  by rewrite !app_nil_r.
Qed.

Lemma reads_observe c d e : reads (observe c d e) = [].
Proof. by destruct e. Qed.

Lemma call_reported c f g interval k o :
  reports f g -> map fst o = reads (body k) -> takenList (c, f) o = reported c g (linesOf interval k (map snd o)).
Proof.
  intros Hr. assert (reads (body k) = [] -> linesOf interval k [] = [] -> map fst o = reads (body k) ->
    takenList (c, f) o = reported c g (linesOf interval k (map snd o))) as Hquiet.
  { intros -> El Ho. destruct o; [|done]. simpl. by rewrite El. }
  destruct k as [st w|st d e|st n|st| |[p|] w|[p|] d e|[p|] n|[p|]|[p|]|[p|]]; try (by apply Hquiet);
    try (apply Hquiet; [|done]; simpl; unfold observeQueueWait, observeExecute, observeQueueDepth, observeDrop, onStage;
         destruct (stage st); [|done]; try apply reads_observe; try done; unfold observeDepth; by destruct (_ <? 0)).
  - change (reads (body CLog)) with (logStage "init" ++ logStage "pay_success")%list. cbn [linesOf].
    intros (o1 & o2 & -> & H1 & H2)%map_fst_app. destruct (stage_reported c f g _ _ interval Hr H1) as [T1 L1].
    destruct (stage_reported c f g _ _ interval Hr H2) as [T2 L2]. rewrite takenList_app, T1, T2, map_app.
    rewrite <- (length_map snd) in L1. rewrite <- L1, take_app_length, drop_app_length.
    destruct (stageLine "init" _ _), (stageLine "pay_success" _ _); unfold reported; simpl; by rewrite ?app_nil_r, <- ?app_assoc.
  - apply Hquiet; [|done]. simpl. by destruct e.
  - apply Hquiet; [|done]. simpl. unfold observeDepth. by destruct (n <? 0).
  - change (reads (body (CWebhookLog (Some p)))) with (webhookLogWindow (Some p)). intros Ho.
    rewrite (webhook_reported c f g p o Hr Ho). simpl. by destruct (webhookLine _ _).
Qed.

Lemma printed_reported c f g interval ks o :
  reports f g -> map fst o = reads (concat (map body ks)) ->
  takenList (c, f) o = reported c g (printed interval ks (map snd o)).
Proof.
  intros Hr. revert o. induction ks as [|k ks IH]; intros o Ho; [by destruct o|]. simpl in Ho. unfold reads in Ho.
  rewrite List.filter_app in Ho. apply map_fst_app in Ho as (o1 & o2 & -> & H1 & H2). fold (reads (body k)) in H1.
  rewrite takenList_app, (call_reported c f g interval k o1 Hr H1), (IH o2 H2). simpl.
  rewrite <- H1, length_map, <- (length_map snd o1), map_app, take_app_length, drop_app_length.
  unfold reported. by rewrite flat_map_app.
Qed.

Section Logged.
Context (interval : Duration) (calls : list (list call)) (m : memory) (ts : list thread).
Context (Hrun : rtc interleaved (begin (map program calls)) (m, ts)) (Hdone : finished ts).

Lemma outs_reads : Forall2 (fun ks t => map fst (t_out t) = reads (concat (map body ks))) calls ts.
Proof using Hrun Hdone.
  pose proof (run_trace _ _ Hrun) as Ht. cbn [snd begin] in Ht. clear Hrun. revert ts Hdone Ht.
  induction calls as [|ks l IH]; intros [|t ts0] Hd Ht; simplify_eq/=; constructor.
  - unfold trace in H at 1. rewrite (Hd t ltac:(by left)) in H. simpl in H. by rewrite app_nil_r in H.
  - apply IH; [intros x Hx; apply Hd; by right|done].
Qed.

Lemma taken_logged c f g : reports f g ->
  taken (c, f) ts = sum_by (fun v => v) (reported c g (logged interval calls ts)) /\
  takenMax (c, f) ts = maxOf (fun v => v) (reported c g (logged interval calls ts)).
Proof using Hrun Hdone.
  intros Hr. pose proof outs_reads as Ho. unfold taken, takenMax, logged. clear Hrun Hdone.
  induction Ho as [|ks t l ts0 H _ [IH1 IH2]]; [done|]. simpl. unfold reported in *. rewrite flat_map_app, sum_by_app, maxOf_app.
  pose proof (printed_reported c f g interval ks (t_out t) Hr H) as E. unfold reported in E. rewrite <- E.
  rewrite takenList_sum, takenList_max, IH1, IH2. done.
Qed.
End Logged.

(** [C38] The profile adds up.  Start the counters at zero and let any number of
    goroutines make any calls of the profilers, interleaved one atomic operation
    at a time; once all have returned, every latency counter holds the number,
    the failures, the sum and the maximum of what was observed on it, and each
    total is what the windows in the lines of the log say, put together, with
    what the open window still holds: nothing observed is missing from the log
    or reported in two lines. *)
Theorem profile_adds_up interval c calls m ts :
  rtc interleaved (begin (map program calls)) (m, ts) -> finished ts ->
  let lines := logged interval calls ts in
  m (c, TotalCount) = Z.of_nat (length (observed c calls)) mod two64 /\
  m (c, TotalError) = sum_by failed (observed c calls) mod two64 /\
  m (c, TotalSumNs) = sum_by ns (observed c calls) mod two64 /\
  m (c, TotalMaxNs) = maxOf ns (observed c calls) /\
  m (c, TotalCount) = add64 (m (c, WindowCount)) (sum_by (fun n => n) (reported c Count lines)) /\
  m (c, TotalError) = add64 (m (c, WindowError)) (sum_by (fun n => n) (reported c ErrorCount lines)) /\
  m (c, TotalSumNs) = add64 (m (c, WindowSumNs)) (sum_by (fun n => n) (reported c SumNs lines)) /\
  m (c, TotalMaxNs) = Z.max (m (c, WindowMaxNs)) (maxOf (fun n => n) (reported c MaxNs lines)).
Proof.
  intros Hrun Hdone lines. destruct (adds_up_calls c (concat calls)) as [H1 H2 H3 H4 H5 H6 H7 H8]. fold (observed c calls) in *.
  assert (forall l : list (Duration * bool), Z.of_nat (length l) = sum_by (fun _ => 1) l) as Hlen by (induction l; simpl in *; lia).
  rewrite Hlen in *.
  destruct (total_window c calls m ts Hrun Hdone TotalCount WindowCount _ eq_refl eq_refl eq_refl H1 H2) as [C1 C2].
  destruct (total_window c calls m ts Hrun Hdone TotalError WindowError _ eq_refl eq_refl eq_refl H3 H4) as [E1 E2].
  destruct (total_window c calls m ts Hrun Hdone TotalSumNs WindowSumNs _ eq_refl eq_refl eq_refl H5 H6) as [S1 S2].
  destruct (done_max _ _ _ Hrun Hdone (programs_new calls) (c, TotalMaxNs)) as [M1 P1]; [intros; by apply (programs_raised c TotalMaxNs calls)|].
  destruct (done_max _ _ _ Hrun Hdone (programs_new calls) (c, WindowMaxNs)) as [M2 P2]; [intros; by apply (programs_raised c WindowMaxNs calls)|].
  destruct (done_untaken _ _ _ Hrun Hdone (programs_new calls) (c, TotalMaxNs)) as [_ E0]; [intros; by apply (programs_untaken c TotalMaxNs calls)|].
  rewrite programs_max, H7, E0 in M1. rewrite programs_max, H8 in M2. rewrite Z.max_l in M1 by done.
  pose proof (taken_logged interval calls m ts Hrun Hdone c) as Hlog. fold lines in Hlog.
  rewrite (proj1 (Hlog _ _ rp_count)) in C2. rewrite (proj1 (Hlog _ _ rp_error)) in E2. rewrite (proj1 (Hlog _ _ rp_sum)) in S2.
  rewrite (proj2 (Hlog _ _ rp_max)) in M2. rewrite M1, M2. done.
Qed.

(** ** One goroutine alone *)

(** Without interference [updateMax] returns: its loop runs once. *)
Lemma alone_returns m acts :
  exists fuel, t_acts (runAlone fuel m (start acts)).2 = [] /\ (fuel <= 2 * length acts)%nat.
Proof.
  unfold start. generalize (@nil (action * Z)). revert m. induction acts as [|a acts IH]; intros m out; [by exists 0%nat|].
  destruct a as [c v|c v|c|c].
  - destruct (IH (store m c (add64 (m c) v)) out) as (n & H & Hn). exists (S n). simpl. split; [exact H|lia].
  - destruct (v <=? m c) eqn:E.
    + destruct (IH m out) as (n & H & Hn). exists (S n). simpl. unfold step. simpl. rewrite E. split; [exact H|lia].
    + destruct (IH (store m c v) out) as (n & H & Hn). exists (S (S n)). simpl. unfold step at 1. simpl. rewrite E.
      unfold step. simpl. rewrite Z.eqb_refl. split; [exact H|lia].
  - destruct (IH (store m c 0) (out ++ [(AtomicSwap c, m c)])%list) as (n & H & Hn). exists (S n). simpl. split; [exact H|lia].
  - destruct (IH m (out ++ [(AtomicLoad c, m c)])%list) as (n & H & Hn). exists (S n). simpl. split; [exact H|lia].
Qed.

(** Two goroutines, one inside the other's [updateMax]: the first loads 0, the
    second stores 5, the first fails its compare-and-swap and stores 9. *)
Definition twoCalls : list (list call) :=
  [[CExecute TxnStatusInit 9 true]; [CExecute TxnStatusInit 5 false; CLog]].
Definition schedule : list nat :=
  ([0; 0; 0; 0; 0; 1; 1; 1; 1; 1; 1; 0; 0; 0; 1; 1; 0; 0; 0; 0] ++ repeat 1 60)%nat%list.
Fixpoint follow (order : list nat) (s : system) : system :=
  match order with
  | [] => s
  | i :: order' =>
      follow order' (match s.2 !! i with
                     | Some t => match step s.1 t with Some (m', t') => (m', <[i := t']> s.2) | None => s end
                     | None => s
                     end)
  end.
Lemma follow_interleaved order s : rtc interleaved s (follow order s).
Proof.
  revert s. induction order as [|i order IH]; intros [m ts]; [apply rtc_refl|]. simpl. destruct (ts !! i) as [t|] eqn:Hi; [|apply IH].
  destruct (step m t) as [[m' t']|] eqn:Hs; [|apply IH]. eapply rtc_l; [by eapply one_step|apply IH].
Qed.
Abbreviation raced := (follow schedule (begin (map program twoCalls))).

Lemma profile_adds_up_witness :
  forallb (fun t => match t_acts t with [] => true | _ => false end) raced.2 = true /\
  raced.1 ("init.execute", TotalCount) = 2 /\ raced.1 ("init.execute", TotalMaxNs) = 9 /\
  reported "init.execute" Count (logged Second twoCalls raced.2) = [2] /\
  add64 (raced.1 ("init.execute", WindowCount)) (sum_by (fun n => n) (reported "init.execute" Count (logged Second twoCalls raced.2))) = 2.
Proof.
  assert (forallb (fun t => match t_acts t with [] => true | _ => false end) raced.2 = true) as Hf by (vm_compute; reflexivity).
  split; [exact Hf|].
  destruct (profile_adds_up Second "init.execute" twoCalls raced.1 raced.2) as (H1 & _ & _ & H4 & H5 & _).
  - pose proof (follow_interleaved schedule (begin (map program twoCalls))) as H. by destruct raced.
  - intros t Ht. rewrite forallb_forall in Hf. apply list_elem_of_In in Ht. specialize (Hf t Ht). destruct (t_acts t); [reflexivity|discriminate Hf].
  - rewrite <- H5, H4, H1. split; [reflexivity|]. split; [reflexivity|]. split; [vm_compute; reflexivity|reflexivity].
Defined.
