(* ===== verification/Client.v ===== *)
(** * The merchant SDK: the client ([sdk/go/coin/client.go], [error.go])

    A client signs each request with its secret and sends it; what comes back
    is decoded from the envelope of the API, or reported as an [APIError].
    What surrounds it (clocks, randomness, the network) is a state [E]. *)

From S2P Require Import Prelude GoBase Codes Encoding Calendar Json JsonDecode Store Paging Webhook Url.
From stdpp Require Import base list strings.
From Stdlib Require Import ZArith Lia.

Local Open Scope string_scope.
Local Open Scope Z_scope.

Definition isEmptyText (s : string) : bool := String.eqb s "".

(** ** Errors *)

Record APIError : Type := mkAPIError {
  HTTPStatus : Z; ErrCode : string; ErrMessage : string; ErrRequestID : string; RawBody : string
}.

(** [e.Error()], on a pointer that may be nil. *)
Definition Error (e : option APIError) : string :=
  match e with
  | None => "<nil>"
  | Some e =>
      let text := "api error: http=" ++ FormatInt (HTTPStatus e) ++ " code=" ++ ErrCode e ++ " message=" ++ ErrMessage e in
      if isEmptyText (ErrRequestID e) then text else text ++ " request_id=" ++ ErrRequestID e
  end.

(** What a call returns: an error with a text, one that wraps another (the
    wrapped one is left out), the error of the HTTP client, an [APIError]. *)
Inductive sdkError : Type :=
| EText (msg : string)
| EWrap (prefix : string)
| ETransport (msg : string)
| EApi (e : APIError).

(** ** Requests *)

(** An [http.Request] as it is sent; the body is absent when there is no payload. *)
Record HttpReq : Type := mkHttpReq {
  h_method : string; h_url : URL; h_header : list (string * string); h_body : option string
}.

(** An [http.Client]: its transport and its timeout. *)
Record HTTPClient (T : Type) : Type := mkHTTPClient { hc_transport : T; hc_timeout : Duration }.
Arguments mkHTTPClient {T} _ _.
Arguments hc_transport {T} _.
Arguments hc_timeout {T} _.

(** The process the SDK runs in.  The answer to a request is its status, the
    bytes of the body and whether reading them ended in an error. *)
Class SdkEnv (E T : Type) : Type := {
  defaultTransport : T;
  env_now : E -> E * Time;
  env_random : E -> E * option string;        (* [rand.Read] of sixteen bytes *)
  env_do : HTTPClient T -> HttpReq -> E -> E * Result string (Z * string * bool)
}.

(** ** Results of calls *)

Section Calls.
Context {E : Type}.

Definition Call (A : Type) : Type := E -> E * Result sdkError A.
Definition retS {A} (a : A) : Call A := fun e => (e, Ok a).
Definition failS {A} (x : sdkError) : Call A := fun e => (e, Err x).
Definition bindS {A B} (m : Call A) (f : A -> Call B) : Call B := fun e =>
  match m e with (e1, Ok a) => f a e1 | (e1, Err x) => (e1, Err x) end.
(** A call that does not fail. *)
Definition callS {A} (f : E -> E * A) : Call A := fun e => let (e1, a) := f e in (e1, Ok a).
(** [if cond { return fmt.Errorf(msg) }]. *)
Definition require (cond : bool) (msg : string) : Call unit := if cond then failS (EText msg) else retS tt.
Definition liftS {A} (r : Result sdkError A) : Call A := fun e => (e, r).
End Calls.
Notation "'let?' x := m 'in' f" := (bindS m (fun x => f)) (at level 10, x binder, m at level 100, f at level 200).

(** ** Answers *)

Definition successCode := "SUCCESS".
Definition maxResponseBodyBytes : Z := 4 * 1024 * 1024.

Record envelope : Type := mkEnvelope { en_code : string; en_message : string; en_request_id : string; en_data : jval }.
Definition noEnvelope : envelope := mkEnvelope "" "" "" VNull.

(** The members of the envelope; [Data] is kept as it was read. *)
Definition storeEnvelope (key : string) (v : jval) (e : envelope) : option envelope :=
  if String.eqb key "CODE"
  then option_map (fun s => mkEnvelope s (en_message e) (en_request_id e) (en_data e)) (storeString v (en_code e))
  else if String.eqb key "MESSAGE"
  then option_map (fun s => mkEnvelope (en_code e) s (en_request_id e) (en_data e)) (storeString v (en_message e))
  else if String.eqb key "REQUEST_ID"
  then option_map (fun s => mkEnvelope (en_code e) (en_message e) s (en_data e)) (storeString v (en_request_id e))
  else if String.eqb key "DATA" then Some (mkEnvelope (en_code e) (en_message e) (en_request_id e) v)
  else Some e.

(** A type the data of an answer is decoded into. *)
Record Decoder (A : Type) : Type := mkDecoder { d_zero : A; d_store : string -> jval -> A -> option A }.
Arguments mkDecoder {A} _ _.
Arguments d_zero {A} _.
Arguments d_store {A} _.

(** The first bytes of a body: [io.LimitReader]. *)
Fixpoint limitTo (n : Z) (s : string) : string :=
  match s with
  | "" => ""
  | String c s' => if n <=? 0 then "" else String c (limitTo (n - 1) s')
  end.
Lemma limitTo_all n s : slen s <= n -> limitTo n s = s.
Proof.
  revert n. induction s as [|c s IH]; intros n Hn; [done|]. cbn [limitTo slen] in *. pose proof (slen_nonneg s).
  rewrite (proj2 (Z.leb_gt _ _)) by lia. by rewrite IH by lia.
Qed.

(** The part of [do] after the body was read.  Absent data and [null] leave
    the result as it is. *)
Definition readAnswer {A} (out : Decoder A) (status : Z) (respBody : string) : Result sdkError A :=
  if maxResponseBodyBytes <? slen respBody
  then Err (EApi (mkAPIError status "RESPONSE_TOO_LARGE"
         ("response body exceeds " ++ FormatInt maxResponseBodyBytes ++ " bytes") "" (limitTo maxResponseBodyBytes respBody)))
  else
  match Unmarshal storeEnvelope noEnvelope respBody with
  | None => Err (EApi (mkAPIError status "INVALID_RESPONSE" respBody "" respBody))
  | Some env =>
      let code := if isEmptyText (en_code env) then "INVALID_RESPONSE" else en_code env in
      if negb (String.eqb code successCode) || (400 <=? status)
      then Err (EApi (mkAPIError status code (en_message env) (en_request_id env) respBody))
      else match decodeStruct (d_store out) (d_zero out) (en_data env) with
           | Some a => Ok a
           | None => Err (EWrap "decode response data")
           end
  end.

(** ** Signing *)

Definition signature (method path merchantNo timestamp nonce body secret : string) : string :=
  let bodyHash := sha256 body in
  let signing := stringsJoin newline [ToUpper (TrimSpace method); path; merchantNo; timestamp; nonce; hexEncode bodyHash] in
  hexEncode (hmac_sha256 secret signing).

(** [strings.TrimSuffix(s, "/")]. *)
Definition trimSlash (s : string) : string := srev (TrimPrefix (srev s) "/").

Definition joinURLPath (basePath p : string) : string :=
  let left := trimSlash (TrimSpace basePath) in
  let right := TrimPrefix (TrimSpace p) "/" in
  if isEmptyText left then "/" ++ right else
  let left := if HasPrefix left "/" then left else "/" ++ left in
  left ++ "/" ++ right.

(** ** The client *)

Section Client.
Context {E T : Type} {UP : UrlParser} {SE : SdkEnv E T}.

Record ClientOptions : Type := mkClientOptions {
  BaseURL : string; co_merchantNo : string; co_merchantSecret : string; co_httpClient : option (HTTPClient T);
  Timeout : Duration; Now : option (E -> E * Time); NonceGenerator : option (E -> E * string); UserAgent : string
}.

Record Client : Type := mkClient {
  baseURL : URL; c_merchantNo : string; merchantSecret : string; httpClient : HTTPClient T;
  c_now : E -> E * Time; c_nonce : E -> E * string; userAgent : string
}.

(** Random bytes in hexadecimal, or the clock when there are none. *)
Definition defaultNonce (e : E) : E * string :=
  match env_random e with
  | (e1, Some buf) => (e1, hexEncode buf)
  | (e1, None) => let (e2, now) := env_now e1 in (e2, FormatInt (Paging.UnixNano now))
  end.

Definition NewClient (opts : ClientOptions) : Result sdkError Client :=
  let base := TrimSpace (BaseURL opts) in
  if isEmptyText base then Err (EText "base_url is required") else
  match urlParse base with
  | None => Err (EWrap "parse base_url")
  | Some u =>
      if isEmptyText (u_scheme u) || isEmptyText (u_host u) then Err (EText "base_url must include scheme and host") else
      let merchantNo := TrimSpace (co_merchantNo opts) in
      if isEmptyText merchantNo then Err (EText "merchant_no is required") else
      if isEmptyText (TrimSpace (co_merchantSecret opts)) then Err (EText "merchant_secret is required") else
      let hc := default (mkHTTPClient defaultTransport 0) (co_httpClient opts) in
      let timeout := if 0 <? Timeout opts then Timeout opts
                     else if hc_timeout hc <=? 0 then 10 * Second else hc_timeout hc in
      Ok (mkClient u merchantNo (co_merchantSecret opts) (mkHTTPClient (hc_transport hc) timeout)
            (default env_now (Now opts)) (default defaultNonce (NonceGenerator opts)) (TrimSpace (UserAgent opts)))
  end.

(** The request of a call, once its time and nonce are known. *)
Definition signedRequest (c : Client) (method path : string) (query : option Values) (payload : option string)
    (timestamp nonce : string) : HttpReq :=
  let body := default "" payload in
  let u := mkURL (u_scheme (baseURL c)) (u_authority (baseURL c)) (u_host (baseURL c))
             (joinURLPath (u_path (baseURL c)) path)
             (match query with Some q => Encode q | None => u_rawQuery (baseURL c) end) in
  let sig := signature method path (c_merchantNo c) timestamp nonce body (merchantSecret c) in
  mkHttpReq method u
    ([("X-Merchant-No", c_merchantNo c); ("X-Timestamp", timestamp); ("X-Nonce", nonce); ("X-Signature", sig)]
     ++ (match payload with Some _ => [("Content-Type", "application/json")] | None => [] end)
     ++ (if isEmptyText (userAgent c) then [] else [("User-Agent", userAgent c)]))%list
    payload.

Definition sendRequest (c : Client) (req : HttpReq) : @Call E (Z * string) := fun e =>
  match env_do (httpClient c) req e with
  | (e1, Err msg) => (e1, Err (ETransport msg))
  | (e1, Ok (status, body, failed)) =>
      if failed && (slen body <=? maxResponseBodyBytes) then (e1, Err (EWrap "read response body"))
      else (e1, Ok (status, limitTo (maxResponseBodyBytes + 1) body))
  end.

(** [c.do]: [payload] is the body already marshalled. *)
Definition do_ {A} (client : option Client) (method path : string) (query : option Values) (payload : option string)
    (out : Decoder A) : @Call E A :=
  match client with
  | None => failS (EText "client is nil")
  | Some c =>
      if isEmptyText (TrimSpace path) || negb (HasPrefix path "/") then failS (EText "path must start with /") else
      let? now := callS (c_now c) in
      let timestamp := FormatInt (UnixMilli now) in
      let? raw := callS (c_nonce c) in
      let nonce := TrimSpace raw in
      let? _ := require (isEmptyText nonce) "nonce generator returned empty value" in
      let? answer := sendRequest c (signedRequest c method path query payload timestamp nonce) in
      liftS (readAnswer out answer.1 answer.2)
  end.
End Client.
