(* ===== verification/Sdk.v ===== *)
(** * The merchant SDK: types and calls ([types.go], [transactions.go], [customers.go], [merchant.go])

    The bodies the SDK sends, with the members that are left out when empty,
    the results it decodes, and one definition per call. *)

From S2P Require Import Prelude GoBase Codes Encoding Calendar Json JsonDecode Store Webhook Url Client.
From stdpp Require Import base list strings.
From Stdlib Require Import ZArith Lia.

Local Open Scope string_scope.
Local Open Scope Z_scope.

(** ** Requests *)

Definition strMember (k v : string) : list (string * string) := [(k, marshalString v)].
Definition intMember (k : string) (v : Z) : list (string * string) := [(k, FormatInt v)].
(** [omitempty]. *)
Definition strOmit (k v : string) : list (string * string) := if isEmptyText v then [] else strMember k v.
Definition intOmit (k : string) (v : Z) : list (string * string) := if v =? 0 then [] else intMember k v.

Record CreditRequest : Type := mkCredit {
  cr_OutTradeNo : string; cr_Title : string; cr_Remark : string; cr_DebitAccountNo : string;
  cr_CreditAccountNo : string; cr_UserID : string; cr_ExpireInDays : Z; cr_Amount : Z
}.
Definition marshalCredit (r : CreditRequest) : string :=
  marshalStruct (strMember "out_trade_no" (cr_OutTradeNo r) ++ strOmit "title" (cr_Title r) ++ strOmit "remark" (cr_Remark r)
    ++ strOmit "debit_account_no" (cr_DebitAccountNo r) ++ strOmit "credit_account_no" (cr_CreditAccountNo r)
    ++ strOmit "user_id" (cr_UserID r) ++ intOmit "expire_in_days" (cr_ExpireInDays r) ++ intMember "amount" (cr_Amount r)).

Record DebitRequest : Type := mkDebit {
  dr_OutTradeNo : string; dr_Title : string; dr_Remark : string; dr_BizType : string; dr_TransferScene : string;
  dr_DebitAccountNo : string; dr_DebitOutUserID : string; dr_CreditAccountNo : string; dr_CreditOutUserID : string;
  dr_Amount : Z
}.
Definition marshalDebit (r : DebitRequest) : string :=
  marshalStruct (strMember "out_trade_no" (dr_OutTradeNo r) ++ strOmit "title" (dr_Title r) ++ strOmit "remark" (dr_Remark r)
    ++ strOmit "biz_type" (dr_BizType r) ++ strOmit "transfer_scene" (dr_TransferScene r)
    ++ strOmit "debit_account_no" (dr_DebitAccountNo r) ++ strOmit "debit_out_user_id" (dr_DebitOutUserID r)
    ++ strOmit "credit_account_no" (dr_CreditAccountNo r) ++ strOmit "credit_out_user_id" (dr_CreditOutUserID r)
    ++ intMember "amount" (dr_Amount r)).

Record TransferRequest : Type := mkTransfer {
  xr_OutTradeNo : string; xr_Title : string; xr_Remark : string; xr_BizType : string; xr_TransferScene : string;
  xr_FromAccountNo : string; xr_FromOutUserID : string; xr_ToAccountNo : string; xr_ToOutUserID : string;
  xr_ToExpireInDays : Z; xr_Amount : Z
}.
Definition marshalTransfer (r : TransferRequest) : string :=
  marshalStruct (strMember "out_trade_no" (xr_OutTradeNo r) ++ strOmit "title" (xr_Title r) ++ strOmit "remark" (xr_Remark r)
    ++ strOmit "biz_type" (xr_BizType r) ++ strOmit "transfer_scene" (xr_TransferScene r)
    ++ strOmit "from_account_no" (xr_FromAccountNo r) ++ strOmit "from_out_user_id" (xr_FromOutUserID r)
    ++ strOmit "to_account_no" (xr_ToAccountNo r) ++ strOmit "to_out_user_id" (xr_ToOutUserID r)
    ++ intOmit "to_expire_in_days" (xr_ToExpireInDays r) ++ intMember "amount" (xr_Amount r)).

Record RefundRequest : Type := mkRefund {
  rr_OutTradeNo : string; rr_Title : string; rr_Remark : string; rr_BizType : string; rr_RefundOfTxnNo : string;
  rr_Amount : Z
}.
Definition marshalRefund (r : RefundRequest) : string :=
  marshalStruct (strMember "out_trade_no" (rr_OutTradeNo r) ++ strOmit "title" (rr_Title r) ++ strOmit "remark" (rr_Remark r)
    ++ strOmit "biz_type" (rr_BizType r) ++ strMember "refund_of_txn_no" (rr_RefundOfTxnNo r)
    ++ intMember "amount" (rr_Amount r)).

Record ListTransactionsRequest : Type := mkListTransactions {
  lt_StartTime : option Time; lt_EndTime : option Time; lt_Status : string; lt_TransferScene : string;
  lt_OutUserID : string; lt_PageSize : Z; lt_PageToken : string
}.
Record ListAccountChangeLogsRequest : Type := mkListChangeLogs { lc_PageSize : Z; lc_PageToken : string }.

(** ** Results *)

(** Storing a member; [time.Time] reads a string with [time.Parse], a slice
    reads an array element by element over what it held and becomes nil on
    [null]. *)
Definition storeBool (v : jval) (old : bool) : option bool :=
  match v with VNull => Some old | VBool b => Some b | _ => None end.
Definition storeTime (v : jval) (old : Time) : option Time :=
  match v with VNull => Some old | VStr s => parseRFC3339 s | _ => None end.

Fixpoint storeElems {A} (out : Decoder A) (vs : list jval) (old : list A) : option (list A) :=
  match vs with
  | [] => Some []
  | v :: vs' =>
      match decodeStruct (d_store out) (default (d_zero out) (head old)) v, storeElems out vs' (tail old) with
      | Some a, Some l => Some (a :: l)
      | _, _ => None
      end
  end.
Definition storeSlice {A} (out : Decoder A) (v : jval) (old : list A) : option (list A) :=
  match v with VNull => Some [] | VArr vs => storeElems out vs old | _ => None end.

(** [store key v ? set old]: the member with this key. *)
Definition storing {A B} (read : jval -> B -> option B) (v : jval) (old : B) (set : B -> A) : option A :=
  option_map set (read v old).

Record TxnSubmitResponse : Type := mkTxnSubmit { ts_TxnNo : string; ts_Status : string }.
Definition submitDecoder : Decoder TxnSubmitResponse := mkDecoder (mkTxnSubmit "" "") (fun key v r =>
  if String.eqb key "TXN_NO" then storing storeString v (ts_TxnNo r) (fun x => mkTxnSubmit x (ts_Status r))
  else if String.eqb key "STATUS" then storing storeString v (ts_Status r) (fun x => mkTxnSubmit (ts_TxnNo r) x)
  else Some r).

Record Txn : Type := mkTxn {
  tx_TxnNo : string; tx_OutTradeNo : string; tx_Title : string; tx_Remark : string; tx_TransferScene : string;
  tx_Status : string; tx_Amount : Z; tx_RefundableAmount : Z; tx_DebitAccountNo : string; tx_CreditAccountNo : string;
  tx_ErrorCode : string; tx_ErrorMsg : string; tx_CreatedAt : Time
}.
Definition noTxn : Txn := mkTxn "" "" "" "" "" "" 0 0 "" "" "" "" zeroTime.
Definition txnDecoder : Decoder Txn := mkDecoder noTxn (fun key v r =>
  let '(mkTxn no otn ti rm sc st am rf da ca ec em cr) := r in
  if String.eqb key "TXN_NO" then storing storeString v no (fun x => mkTxn x otn ti rm sc st am rf da ca ec em cr)
  else if String.eqb key "OUT_TRADE_NO" then storing storeString v otn (fun x => mkTxn no x ti rm sc st am rf da ca ec em cr)
  else if String.eqb key "TITLE" then storing storeString v ti (fun x => mkTxn no otn x rm sc st am rf da ca ec em cr)
  else if String.eqb key "REMARK" then storing storeString v rm (fun x => mkTxn no otn ti x sc st am rf da ca ec em cr)
  else if String.eqb key "TRANSFER_SCENE" then storing storeString v sc (fun x => mkTxn no otn ti rm x st am rf da ca ec em cr)
  else if String.eqb key "STATUS" then storing storeString v st (fun x => mkTxn no otn ti rm sc x am rf da ca ec em cr)
  else if String.eqb key "AMOUNT" then storing storeInt64 v am (fun x => mkTxn no otn ti rm sc st x rf da ca ec em cr)
  else if String.eqb key "REFUNDABLE_AMOUNT" then storing storeInt64 v rf (fun x => mkTxn no otn ti rm sc st am x da ca ec em cr)
  else if String.eqb key "DEBIT_ACCOUNT_NO" then storing storeString v da (fun x => mkTxn no otn ti rm sc st am rf x ca ec em cr)
  else if String.eqb key "CREDIT_ACCOUNT_NO" then storing storeString v ca (fun x => mkTxn no otn ti rm sc st am rf da x ec em cr)
  else if String.eqb key "ERROR_CODE" then storing storeString v ec (fun x => mkTxn no otn ti rm sc st am rf da ca x em cr)
  else if String.eqb key "ERROR_MSG" then storing storeString v em (fun x => mkTxn no otn ti rm sc st am rf da ca ec x cr)
  else if String.eqb key "CREATED_AT" then storing storeTime v cr (fun x => mkTxn no otn ti rm sc st am rf da ca ec em x)
  else Some r).

Record ListTransactionsResponse : Type := mkTxnPage { tp_Items : list Txn; tp_NextPageToken : string }.
Definition txnPageDecoder : Decoder ListTransactionsResponse := mkDecoder (mkTxnPage [] "") (fun key v r =>
  if String.eqb key "ITEMS" then storing (storeSlice txnDecoder) v (tp_Items r) (fun x => mkTxnPage x (tp_NextPageToken r))
  else if String.eqb key "NEXT_PAGE_TOKEN"
  then storing storeString v (tp_NextPageToken r) (fun x => mkTxnPage (tp_Items r) x)
  else Some r).

Record AccountChangeLog : Type := mkChangeLog {
  cl_ChangeID : Z; cl_TxnNo : string; cl_AccountNo : string; cl_Delta : Z; cl_BalanceBefore : Z; cl_BalanceAfter : Z;
  cl_Title : string; cl_Remark : string; cl_CreatedAt : Time
}.
Definition changeLogDecoder : Decoder AccountChangeLog := mkDecoder (mkChangeLog 0 "" "" 0 0 0 "" "" zeroTime) (fun key v r =>
  let '(mkChangeLog id tn an de bb ba ti rm cr) := r in
  if String.eqb key "CHANGE_ID" then storing storeInt64 v id (fun x => mkChangeLog x tn an de bb ba ti rm cr)
  else if String.eqb key "TXN_NO" then storing storeString v tn (fun x => mkChangeLog id x an de bb ba ti rm cr)
  else if String.eqb key "ACCOUNT_NO" then storing storeString v an (fun x => mkChangeLog id tn x de bb ba ti rm cr)
  else if String.eqb key "DELTA" then storing storeInt64 v de (fun x => mkChangeLog id tn an x bb ba ti rm cr)
  else if String.eqb key "BALANCE_BEFORE" then storing storeInt64 v bb (fun x => mkChangeLog id tn an de x ba ti rm cr)
  else if String.eqb key "BALANCE_AFTER" then storing storeInt64 v ba (fun x => mkChangeLog id tn an de bb x ti rm cr)
  else if String.eqb key "TITLE" then storing storeString v ti (fun x => mkChangeLog id tn an de bb ba x rm cr)
  else if String.eqb key "REMARK" then storing storeString v rm (fun x => mkChangeLog id tn an de bb ba ti x cr)
  else if String.eqb key "CREATED_AT" then storing storeTime v cr (fun x => mkChangeLog id tn an de bb ba ti rm x)
  else Some r).

Record ListAccountChangeLogsResponse : Type := mkChangeLogPage { lp_Items : list AccountChangeLog; lp_NextPageToken : string }.
Definition changeLogPageDecoder : Decoder ListAccountChangeLogsResponse := mkDecoder (mkChangeLogPage [] "") (fun key v r =>
  if String.eqb key "ITEMS"
  then storing (storeSlice changeLogDecoder) v (lp_Items r) (fun x => mkChangeLogPage x (lp_NextPageToken r))
  else if String.eqb key "NEXT_PAGE_TOKEN"
  then storing storeString v (lp_NextPageToken r) (fun x => mkChangeLogPage (lp_Items r) x)
  else Some r).

Record CustomerBalance : Type := mkCustomerBalance {
  cb_OutUserID : string; cb_AccountNo : string; cb_Balance : Z; cb_AvailableBalance : Z; cb_BookEnabled : bool
}.
Definition balanceDecoder : Decoder CustomerBalance := mkDecoder (mkCustomerBalance "" "" 0 0 false) (fun key v r =>
  let '(mkCustomerBalance ou an ba av be) := r in
  if String.eqb key "OUT_USER_ID" then storing storeString v ou (fun x => mkCustomerBalance x an ba av be)
  else if String.eqb key "ACCOUNT_NO" then storing storeString v an (fun x => mkCustomerBalance ou x ba av be)
  else if String.eqb key "BALANCE" then storing storeInt64 v ba (fun x => mkCustomerBalance ou an x av be)
  else if String.eqb key "AVAILABLE_BALANCE" then storing storeInt64 v av (fun x => mkCustomerBalance ou an ba x be)
  else if String.eqb key "BOOK_ENABLED" then storing storeBool v be (fun x => mkCustomerBalance ou an ba av x)
  else Some r).

Record MerchantProfile : Type := mkMerchantProfile {
  mp_MerchantNo : string; mp_Name : string; mp_Status : string; mp_BudgetAccountNo : string;
  mp_ReceivableAccountNo : string; mp_WriteoffAccountNo : string; mp_SecretVersion : Z;
  mp_AutoCreateAccountOnCustomerCreate : bool; mp_AutoCreateCustomerOnCredit : bool
}.
Definition profileDecoder : Decoder MerchantProfile := mkDecoder (mkMerchantProfile "" "" "" "" "" "" 0 false false) (fun key v r =>
  let '(mkMerchantProfile mn na st bu re wo sv aa ac) := r in
  if String.eqb key "MERCHANT_NO" then storing storeString v mn (fun x => mkMerchantProfile x na st bu re wo sv aa ac)
  else if String.eqb key "NAME" then storing storeString v na (fun x => mkMerchantProfile mn x st bu re wo sv aa ac)
  else if String.eqb key "STATUS" then storing storeString v st (fun x => mkMerchantProfile mn na x bu re wo sv aa ac)
  else if String.eqb key "BUDGET_ACCOUNT_NO" then storing storeString v bu (fun x => mkMerchantProfile mn na st x re wo sv aa ac)
  else if String.eqb key "RECEIVABLE_ACCOUNT_NO" then storing storeString v re (fun x => mkMerchantProfile mn na st bu x wo sv aa ac)
  else if String.eqb key "WRITEOFF_ACCOUNT_NO" then storing storeString v wo (fun x => mkMerchantProfile mn na st bu re x sv aa ac)
  else if String.eqb key "SECRET_VERSION" then storing storeInt64 v sv (fun x => mkMerchantProfile mn na st bu re wo x aa ac)
  else if String.eqb key "AUTO_CREATE_ACCOUNT_ON_CUSTOMER_CREATE"
  then storing storeBool v aa (fun x => mkMerchantProfile mn na st bu re wo sv x ac)
  else if String.eqb key "AUTO_CREATE_CUSTOMER_ON_CREDIT"
  then storing storeBool v ac (fun x => mkMerchantProfile mn na st bu re wo sv aa x)
  else Some r).

(** ** Validation *)

(** A byte of [A-Za-z0-9_-]. *)
Definition tradeNoByte (c : Ascii.ascii) : bool := alphanumeric c || is_byte 95 c || is_byte 45 c.
(** [^[A-Za-z0-9_-]{1,64}$]. *)
Definition outTradeNoPattern (s : string) : bool := (1 <=? slen s) && (slen s <=? 64) && sforall tradeNoByte s.

Definition normalizeOutTradeNoAndAmount (outTradeNo : string) (amount : Z) : Result sdkError string :=
  let trimmed := TrimSpace outTradeNo in
  if isEmptyText trimmed then Err (EText "out_trade_no is required")
  else if negb (outTradeNoPattern trimmed) then Err (EText "invalid out_trade_no")
  else if amount <=? 0 then Err (EText "amount must be > 0") else Ok trimmed.

(** ** Calls *)

Section Sdk.
Context {E T : Type} {UP : UrlParser} {SE : SdkEnv E T}.
Notation Client := (@Client E T).

(** Neither text is given. *)
Definition neither (a b : string) : bool := isEmptyText (TrimSpace a) && isEmptyText (TrimSpace b).

Definition setText (k v : string) (q : Values) : Values :=
  let v := TrimSpace v in if isEmptyText v then q else valuesSet k v q.
Definition setUpper (k v : string) (q : Values) : Values :=
  let v := TrimSpace v in if isEmptyText v then q else valuesSet k (ToUpper v) q.
Definition setTime (k : string) (t : option Time) (q : Values) : Values :=
  match t with Some t => valuesSet k (formatRFC3339 t) q | None => q end.
Definition setSize (k : string) (n : Z) (q : Values) : Values := if 0 <? n then valuesSet k (FormatInt n) q else q.

Definition Credit (t : option Client) (req : CreditRequest) : @Call E TxnSubmitResponse :=
  let? no := liftS (normalizeOutTradeNoAndAmount (cr_OutTradeNo req) (cr_Amount req)) in
  let req := mkCredit no (cr_Title req) (cr_Remark req) (cr_DebitAccountNo req) (cr_CreditAccountNo req) (cr_UserID req)
               (cr_ExpireInDays req) (cr_Amount req) in
  let? _ := require (neither (cr_CreditAccountNo req) (cr_UserID req)) "credit_account_no or user_id is required" in
  let? _ := require (cr_ExpireInDays req <? 0) "expire_in_days must be >= 0" in
  do_ t "POST" "/api/v1/transactions/credit" None (Some (marshalCredit req)) submitDecoder.

Definition Debit (t : option Client) (req : DebitRequest) : @Call E TxnSubmitResponse :=
  let? no := liftS (normalizeOutTradeNoAndAmount (dr_OutTradeNo req) (dr_Amount req)) in
  let req := mkDebit no (dr_Title req) (dr_Remark req) (dr_BizType req) (dr_TransferScene req) (dr_DebitAccountNo req)
               (dr_DebitOutUserID req) (dr_CreditAccountNo req) (dr_CreditOutUserID req) (dr_Amount req) in
  let? _ := require (neither (dr_DebitAccountNo req) (dr_DebitOutUserID req))
              "debit_account_no or debit_out_user_id is required" in
  do_ t "POST" "/api/v1/transactions/debit" None (Some (marshalDebit req)) submitDecoder.

Definition Transfer (t : option Client) (req : TransferRequest) : @Call E TxnSubmitResponse :=
  let? no := liftS (normalizeOutTradeNoAndAmount (xr_OutTradeNo req) (xr_Amount req)) in
  let req := mkTransfer no (xr_Title req) (xr_Remark req) (xr_BizType req) (xr_TransferScene req) (xr_FromAccountNo req)
               (xr_FromOutUserID req) (xr_ToAccountNo req) (xr_ToOutUserID req) (xr_ToExpireInDays req) (xr_Amount req) in
  let? _ := require (neither (xr_FromAccountNo req) (xr_FromOutUserID req))
              "from_account_no or from_out_user_id is required" in
  let? _ := require (neither (xr_ToAccountNo req) (xr_ToOutUserID req)) "to_account_no or to_out_user_id is required" in
  let? _ := require (xr_ToExpireInDays req <? 0) "to_expire_in_days must be >= 0" in
  do_ t "POST" "/api/v1/transactions/transfer" None (Some (marshalTransfer req)) submitDecoder.

Definition Refund (t : option Client) (req : RefundRequest) : @Call E TxnSubmitResponse :=
  let? no := liftS (normalizeOutTradeNoAndAmount (rr_OutTradeNo req) (rr_Amount req)) in
  let req := mkRefund no (rr_Title req) (rr_Remark req) (rr_BizType req) (TrimSpace (rr_RefundOfTxnNo req)) (rr_Amount req) in
  let? _ := require (isEmptyText (rr_RefundOfTxnNo req)) "refund_of_txn_no is required" in
  do_ t "POST" "/api/v1/transactions/refund" None (Some (marshalRefund req)) submitDecoder.

Definition GetByTxnNo (t : option Client) (txnNo : string) : @Call E Txn :=
  let txnNo := TrimSpace txnNo in
  let? _ := require (isEmptyText txnNo) "txn_no is required" in
  do_ t "GET" ("/api/v1/transactions/" ++ PathEscape txnNo) None None txnDecoder.

Definition GetByOutTradeNo (t : option Client) (outTradeNo : string) : @Call E Txn :=
  let outTradeNo := TrimSpace outTradeNo in
  let? _ := require (isEmptyText outTradeNo) "out_trade_no is required" in
  do_ t "GET" ("/api/v1/transactions/by-out-trade-no/" ++ PathEscape outTradeNo) None None txnDecoder.

Definition listQuery (req : ListTransactionsRequest) : Values :=
  setText "page_token" (lt_PageToken req) (setSize "page_size" (lt_PageSize req)
    (setText "out_user_id" (lt_OutUserID req) (setUpper "transfer_scene" (lt_TransferScene req)
      (setUpper "status" (lt_Status req) (setTime "end_time" (lt_EndTime req) (setTime "start_time" (lt_StartTime req) [])))))).

Definition List (t : option Client) (req : ListTransactionsRequest) : @Call E ListTransactionsResponse :=
  do_ t "GET" "/api/v1/transactions" (Some (listQuery req)) None txnPageDecoder.

Definition ListAccountChangeLogs (t : option Client) (accountNo : string) (req : ListAccountChangeLogsRequest)
    : @Call E ListAccountChangeLogsResponse :=
  let accountNo := TrimSpace accountNo in
  let? _ := require (isEmptyText accountNo) "account_no is required" in
  do_ t "GET" ("/api/v1/accounts/" ++ PathEscape accountNo ++ "/change-logs")
    (Some (setText "page_token" (lc_PageToken req) (setSize "page_size" (lc_PageSize req) []))) None changeLogPageDecoder.

Definition GetBalance (c : option Client) (outUserID : string) : @Call E CustomerBalance :=
  let outUserID := TrimSpace outUserID in
  let? _ := require (isEmptyText outUserID) "out_user_id is required" in
  do_ c "GET" "/api/v1/customers/balance" (Some (valuesSet "out_user_id" outUserID [])) None balanceDecoder.

Definition Me (m : option Client) : @Call E MerchantProfile :=
  do_ m "GET" "/api/v1/merchants/me" None None profileDecoder.
End Sdk.
