(* ===== verification/Services.v ===== *)
(** * The services above the repository ([internal/service])

    [transfer_service.go], [transfer_routing.go], [account_resolver.go],
    [customer_service.go], [merchant_service.go], [code_provider_helpers.go]. *)

From S2P Require Import Prelude GoBase Domain Codes Store Queries Reads Ledger Repo.
From stdpp Require Import base gmap list strings.
From Stdlib Require Import ZArith Lia.

Local Open Scope string_scope.
Local Open Scope Z_scope.

Section Services.
Context `{Platform} `{CodeProvider}.

(** [v, ok := f(); if !ok { return e }]. *)
Definition require {A} (e : error) (m : M (option A)) : M A :=
  let! o := m in match o with Some a => ret a | None => throw e end.

(** ** TransferService *)

Record TransferRequest : Type := mkTransferRequest {
  RqMerchantNo : string; RqOutTradeNo : string; RqTitle : string; RqRemark : string;
  RqBizType : string; RqTransferScene : string; RqDebitAccountNo : string; RqCreditAccountNo : string;
  RqCreditExpireAt : option Time; RqRefundOfTxnNo : string; RqAmount : Z; RqRefundableAmount : Z;
  RqStatus : string
}.

(** The two accounts of a submission, both of the merchant. *)
Definition submitAccounts (merchantNo debitAccountNo creditAccountNo : string) : M (Account * Account) :=
  let debitNo := TrimSpace debitAccountNo in
  let creditNo := TrimSpace creditAccountNo in
  if String.eqb debitNo "" || String.eqb creditNo "" then throw ErrAccountResolveFailed else
  let! debit := require ErrAccountResolveFailed (Repository.GetAccount debitNo) in
  let! credit := require ErrAccountResolveFailed (Repository.GetAccount creditNo) in
  if negb (String.eqb (TrimSpace (AMerchantNo debit)) (TrimSpace merchantNo))
     || negb (String.eqb (TrimSpace (AMerchantNo credit)) (TrimSpace merchantNo))
  then throw ErrAccountResolveFailed else ret (debit, credit).

Definition validateSubmitTransferAccounts (merchantNo scene debitAccountNo creditAccountNo : string) : M unit :=
  let! dc := submitAccounts merchantNo debitAccountNo creditAccountNo in
  do! failing (CanDebitOut dc.1) in
  do! failing (CanCredit dc.2) in
  if String.eqb scene SceneP2P then failing (CanTransfer dc.1) else ret tt.

Definition validateSubmitRefundAccounts (merchantNo debitAccountNo creditAccountNo : string) : M unit :=
  let! dc := submitAccounts merchantNo debitAccountNo creditAccountNo in
  failing (CanDebitOut dc.1).

(** The record [Submit] builds from the request. *)
Definition submitTxn (txnNo : string) (req : TransferRequest) : TransferTxn :=
  let bizType := if String.eqb (RqBizType req) "" then BizTypeTransfer else RqBizType req in
  let transferScene := if String.eqb bizType BizTypeTransfer && String.eqb (RqTransferScene req) ""
                       then SceneAdjust else RqTransferScene req in
  let refundable := if RqRefundableAmount req <? 0 then 0 else RqRefundableAmount req in
  let refundable := if String.eqb bizType BizTypeTransfer && (refundable =? 0) then RqAmount req else refundable in
  let status := if String.eqb (RqStatus req) "" then TxnStatusInit else RqStatus req in
  mkTransferTxn txnNo (RqMerchantNo req) (RqOutTradeNo req) (RqTitle req) (RqRemark req) bizType transferScene
    (RqDebitAccountNo req) (RqCreditAccountNo req)
    (match RqCreditExpireAt req with Some t => t | None => zeroTime end)
    (RqAmount req) (RqRefundOfTxnNo req) refundable status "" "" zeroTime.

Definition withParties (d c : string) (t : TransferTxn) : TransferTxn :=
  mkTransferTxn (TxnNo t) (TMerchantNo t) (OutTradeNo t) (Title t) (Remark t) (BizType t) (TransferScene t) d c
    (CreditExpireAt t) (Amount t) (RefundOfTxnNo t) (RefundableAmount t) (Status t) (ErrorCode t) (ErrorMsg t)
    (CreatedAt t).

(** What [Submit] demands of the origin of a refund. *)
Definition refundParties (req : TransferRequest) : M (string * string) :=
  let! origin := require ErrTxnNotFound (Repository.GetTransferTxn (TrimSpace (RqRefundOfTxnNo req))) in
  if negb (String.eqb (TrimSpace (TMerchantNo origin)) (TrimSpace (RqMerchantNo req))) then throw ErrTxnNotFound else
  if negb (String.eqb (TrimSpace (BizType origin)) BizTypeTransfer)
     || negb (String.eqb (TrimSpace (Status origin)) TxnStatusRecvSuccess)
  then throw ErrTxnStatusInvalid else
  if String.eqb (TrimSpace (TransferScene origin)) SceneExpireWriteoff then throw ErrTxnStatusInvalid else
  if RefundableAmount origin <? RqAmount req then throw ErrRefundAmountExceeded else
  let refundDebit := TrimSpace (CreditAccountNo origin) in
  let refundCredit := TrimSpace (DebitAccountNo origin) in
  if String.eqb refundDebit "" || String.eqb refundCredit "" then throw ErrAccountResolveFailed else
  do! validateSubmitRefundAccounts (RqMerchantNo req) refundDebit refundCredit in
  ret (refundDebit, refundCredit).

Definition Submit (req : TransferRequest) : M TransferTxn :=
  let! id := attempt NewUUIDv7 in
  match id with
  | Err e => throw (ErrWrap "new txn no" e)
  | Ok u =>
      let txn := submitTxn (uuid_text u) req in
      let! txn' :=
        (if String.eqb (BizType txn) BizTypeRefund then
           let! dc := refundParties req in ret (withParties dc.1 dc.2 txn)
         else if negb (String.eqb (TrimSpace (DebitAccountNo txn)) "")
                 || negb (String.eqb (TrimSpace (CreditAccountNo txn)) "") then
           do! validateSubmitTransferAccounts (RqMerchantNo req) (TransferScene txn) (DebitAccountNo txn)
                 (CreditAccountNo txn) in ret txn
         else ret txn) in
      do! Repository.CreateTransferTxn txn' in ret txn'
  end.

Definition UpdateTxnStatus (txnNo status errorCode errorMsg : string) : M unit :=
  Repository.UpdateTransferTxnStatus txnNo status errorCode errorMsg.

(** ** TransferRoutingService *)

Record TransferRoutingRequest : Type := mkTransferRoutingRequest {
  RtMerchantNo : string; RtScene : string; RtDebitAccountNo : string; RtCreditAccountNo : string
}.

(** The default accounts of a scene. *)
Definition routeAccounts (m : Merchant) (req : TransferRoutingRequest) : string * string :=
  let debit := RtDebitAccountNo req in
  let credit := RtCreditAccountNo req in
  if String.eqb (RtScene req) SceneIssue then
    (if String.eqb debit "" then BudgetAccountNo m else debit, credit)
  else if String.eqb (RtScene req) SceneConsume then
    (debit, if String.eqb credit "" then ReceivableAccountNo m else credit)
  else (debit, credit).

Definition Resolve (req : TransferRoutingRequest) : M (string * string) :=
  let! m := require ErrAccountResolveFailed (Repository.GetMerchantByNo (RtMerchantNo req)) in
  let '(debit, credit) := routeAccounts m req in
  if String.eqb debit "" || String.eqb credit "" then throw ErrAccountResolveFailed else
  let! da := require ErrAccountResolveFailed (Repository.GetAccount debit) in
  let! ca := require ErrAccountResolveFailed (Repository.GetAccount credit) in
  if negb (String.eqb (AMerchantNo da) (MerchantNo m)) || negb (String.eqb (AMerchantNo ca) (MerchantNo m))
  then throw ErrAccountResolveFailed else
  do! failing (CanDebitOut da) in
  do! failing (CanCredit ca) in
  do! (if String.eqb (RtScene req) SceneP2P then failing (CanTransfer da) else ret tt) in
  ret (debit, credit).

(** ** Codes and customers *)

Definition mapCodeError (op : string) (e : error) : error :=
  if errors_is e IdErrCodeAllocatorUnavailable then ErrCodeAllocatorUnavailable else ErrWrap op e.

Definition withCode {A} (op : string) (m : M A) : M A :=
  let! r := attempt m in match r with Ok a => ret a | Err e => throw (mapCodeError op e) end.

Definition createCustomerOnly (merchantNo outUserID : string) : M Customer :=
  let! merchant := require ErrInvalidMerchantNo (Repository.GetMerchantByNo merchantNo) in
  let! existing := Repository.GetCustomerByOutUserID merchantNo outUserID in
  if (match existing with Some c => negb (String.eqb (CustomerID c) "") | None => false end)
  then throw ErrCustomerExists else
  let! id := attempt NewUUIDv7 in
  match id with
  | Err e => throw (ErrWrap "new customer id" e)
  | Ok u =>
      let! customerNo := withCode "new customer no" NewCustomerNo in
      if negb (IsValidCustomerNo customerNo) then throw ErrInvalidCustomerNo else
      let c := mkCustomer (uuid_text u) customerNo (MerchantNo merchant) outUserID "" in
      do! Repository.CreateCustomer c in ret c
  end.

Definition customerAccount (accountNo merchantNo customerNo : string) : Account :=
  mkAccount accountNo merchantNo customerNo "CUSTOMER" false 0 true true true true 0.

(** [for attempt := 0; attempt < 3; attempt++]. *)
Fixpoint createAccountRetry (attempts : nat) (merchantNo customerNo : string) : M string :=
  match attempts with
  | O => throw ErrAccountNoExists
  | S k =>
      let! accountNo := withCode "new customer account no" (NewAccountNo merchantNo "CUSTOMER") in
      if negb (IsValidAccountNo accountNo) then throw ErrInvalidAccountNo else
      let! r := attempt (Repository.CreateAccount (customerAccount accountNo merchantNo customerNo)) in
      match r with
      | Ok _ => ret accountNo
      | Err e => if negb (errors_is e ErrAccountNoExists) then throw e
                 else createAccountRetry k merchantNo customerNo
      end
  end.

Definition ensureDefaultCustomerAccount (merchantNo customerNo : string) : M string :=
  let! existing := Repository.GetAccountByCustomerNo merchantNo customerNo in
  match existing with
  | Some a => if negb (String.eqb (AccountNo a) "") then ret (AccountNo a)
              else createAccountRetry 3 merchantNo customerNo
  | None => createAccountRetry 3 merchantNo customerNo
  end.

Definition loadMerchantFeatureConfig (merchantNo : string) : M MerchantFeatureConfig :=
  let! c := Repository.GetMerchantFeatureConfig merchantNo in
  ret (default (mkMerchantFeatureConfig true true) c).

Definition CreateCustomer (merchantNo outUserID : string) : M Customer :=
  let! c := createCustomerOnly merchantNo outUserID in
  let! cfg := loadMerchantFeatureConfig merchantNo in
  if negb (AutoCreateAccountOnCustomerCreate cfg) then ret c else
  do! ensureDefaultCustomerAccount merchantNo (CustomerNo c) in ret c.

Definition EnsureCustomerAccountForCredit (merchantNo outUserID : string) : M string :=
  let! merchant := require ErrInvalidMerchantNo (Repository.GetMerchantByNo merchantNo) in
  let! cfg := loadMerchantFeatureConfig (MerchantNo merchant) in
  if negb (AutoCreateCustomerOnCredit cfg) then ret "" else
  let! known := Repository.GetCustomerByOutUserID (MerchantNo merchant) outUserID in
  let! customer :=
    match known with
    | Some c => ret c
    | None =>
        let! r := attempt (createCustomerOnly (MerchantNo merchant) outUserID) in
        match r with
        | Ok c => ret c
        | Err e =>
            if negb (errors_is e ErrCustomerExists) then throw e else
            require e (Repository.GetCustomerByOutUserID (MerchantNo merchant) outUserID)
        end
    end in
  ensureDefaultCustomerAccount (MerchantNo merchant) (CustomerNo customer).

(** ** MerchantService *)

Definition merchantAccounts (no budget recv writeoff : string) : list Account :=
  [mkAccount budget no "" AccountTypeBudget true 0 true true true false 0;
   mkAccount recv no "" AccountTypeReceivable false 0 true true true false 0;
   mkAccount writeoff no "" AccountTypeWriteoff false 0 false true false false 0].

Definition CreateMerchant (merchantNo name : string) : M Merchant :=
  let! id := attempt NewUUIDv7 in
  match id with
  | Err e => throw (ErrWrap "new merchant id" e)
  | Ok u =>
      let fixedMerchantNo := TrimSpace merchantNo in
      if negb (String.eqb fixedMerchantNo "") && negb (IsValidMerchantNo fixedMerchantNo)
      then throw ErrInvalidMerchantNo else
      let! no := (if String.eqb fixedMerchantNo "" then withCode "new merchant no" NewMerchantNo
                  else ret fixedMerchantNo) in
      let! budget := withCode "new budget account no" (NewAccountNo no AccountTypeBudget) in
      let! recv := withCode "new receivable account no" (NewAccountNo no AccountTypeReceivable) in
      let! writeoff := withCode "new writeoff account no" (NewAccountNo no AccountTypeWriteoff) in
      if String.eqb budget recv || String.eqb budget writeoff || String.eqb recv writeoff
      then throw ErrInvalidAccountNo else
      if negb (IsValidAccountNo budget) || negb (IsValidAccountNo recv) || negb (IsValidAccountNo writeoff)
      then throw ErrInvalidAccountNo else
      let m := mkMerchant (uuid_text u) no name budget recv writeoff in
      do! Repository.CreateMerchantWithAccounts m (merchantAccounts no budget recv writeoff) in
      ret m
  end.

(** ** AccountResolver *)

(** [if v, ok := f(); ok && cond(v) { x = g(v) }]. *)
Definition pick {A} (o : option A) (cond : A -> bool) (g : A -> string) : string :=
  match o with Some a => if cond a then g a else "" | None => "" end.

Definition ResolveCustomerAccount (merchantNo accountNo outUserID : string) : M string :=
  let! m := Repository.GetMerchantByNo merchantNo in
  match m with
  | None => ret ""
  | Some m =>
      let! a := (if String.eqb accountNo "" then ret None else Repository.GetAccount accountNo) in
      let fromAccount := pick a (fun a => String.eqb (AMerchantNo a) (MerchantNo m)) AccountNo in
      let! o := (if String.eqb outUserID "" then ret None
                 else Repository.GetAccountByOutUserID merchantNo outUserID) in
      let fromOutUser := pick o (fun _ => true) AccountNo in
      if negb (String.eqb fromAccount "") && negb (String.eqb fromOutUser "")
         && negb (String.eqb fromAccount fromOutUser)
      then throw ErrAccountResolveConflict else
      if negb (String.eqb fromAccount "") then ret fromAccount else
      if negb (String.eqb fromOutUser "") then ret fromOutUser else ret ""
  end.

Definition ResolveMerchantSystemAccount (merchantNo accountNo outUserID accountType : string) : M string :=
  if negb (String.eqb outUserID "") then throw ErrOutUserIDNotAllowedForSystemAccount else
  let! m := Repository.GetMerchantByNo merchantNo in
  match m with
  | None => ret ""
  | Some m =>
      if negb (String.eqb accountNo "") then
        let! a := Repository.GetAccount accountNo in
        ret (pick a (fun a => String.eqb (AMerchantNo a) (MerchantNo m)) AccountNo)
      else if String.eqb accountType AccountTypeBudget then ret (BudgetAccountNo m)
      else if String.eqb accountType AccountTypeReceivable then ret (ReceivableAccountNo m)
      else ret ""
  end.

End Services.
