(* ===== verification/TxnQuery.v ===== *)
(** * Transaction queries ([internal/service/txn_query_service.go])

    The service answers from the repository or, without one, from a list kept
    in memory. *)

From S2P Require Import Prelude GoBase Domain Codes Store Queries Reads Paging Ledger Repo.
From stdpp Require Import base gmap list strings.
From Stdlib Require Import ZArith Lia.

Local Open Scope string_scope.
Local Open Scope Z_scope.

Record QueryTxn : Type := mkQueryTxn {
  QTxnNo : string; QOutTradeNo : string; QMerchantNo : string; QOutUserID : string;
  QTitle : string; QRemark : string; QScene : string; QStatus : string;
  QAmount : Z; QRefundableAmount : Z; QDebitAccountNo : string; QCreditAccountNo : string;
  QErrorCode : string; QErrorMsg : string; QCreatedAt : Time
}.

Record QueryFilter : Type := mkQueryFilter {
  QFMerchantNo : string; QFOutUserID : string; QFScene : string; QFStatus : string;
  QFStartTime : option Time; QFEndTime : option Time; QFPageSize : Z; QFPageToken : string
}.

Record TxnQueryService : Type := mkTxnQueryService {
  hasRepo : bool;
  memTxns : list QueryTxn
}.

Definition NewTxnQueryService (withRepo : bool) : TxnQueryService := mkTxnQueryService withRepo [].

Definition AddTxn (txn : QueryTxn) (s : TxnQueryService) : TxnQueryService :=
  if hasRepo s then s else mkTxnQueryService false (memTxns s ++ [txn])%list.

Definition queryTxnFromTransferTxn (t : TransferTxn) : QueryTxn :=
  mkQueryTxn (TxnNo t) (OutTradeNo t) (TMerchantNo t) "" (Title t) (Remark t) (TransferScene t) (Status t)
    (Amount t) (RefundableAmount t) (DebitAccountNo t) (CreditAccountNo t) (ErrorCode t) (ErrorMsg t) (CreatedAt t).

(** [if filter.X != "" && x.X != filter.X { continue }]. *)
Definition wants (want have : string) : bool := String.eqb want "" || String.eqb have want.

Definition query_matches (f : QueryFilter) (x : QueryTxn) : bool :=
  wants (QFMerchantNo f) (QMerchantNo x) && wants (QFOutUserID f) (QOutUserID x)
  && wants (QFScene f) (QScene x) && wants (QFStatus f) (QStatus x)
  && oall (fun s => negb (QCreatedAt x <? s)) (QFStartTime f)
  && oall (fun e => negb (e <? QCreatedAt x)) (QFEndTime f).

(** The less function of [sort.Slice], as a total preorder. *)
Definition query_leb (a b : QueryTxn) : bool :=
  if QCreatedAt a =? QCreatedAt b then String.leb (QTxnNo b) (QTxnNo a) else QCreatedAt b <? QCreatedAt a.

Definition query_after (c : Time * string) (x : QueryTxn) : bool :=
  (QCreatedAt x <? c.1) || ((QCreatedAt x =? c.1) && String.ltb (QTxnNo x) c.2).

(** The part of [List] that works on the list in memory. *)
Definition listMemory (f : QueryFilter) (all : list QueryTxn) : list QueryTxn * string :=
  let filtered := sort_by query_leb (List.filter (query_matches f) all) in
  let filtered :=
    if String.eqb (QFPageToken f) "" then filtered else
    match DecodePageToken (QFPageToken f) with
    | Some c => List.filter (query_after c) filtered
    | None => filtered
    end in
  let pageSize := if QFPageSize f <=? 0 then 20 else QFPageSize f in
  if Z.of_nat (length filtered) <=? pageSize then (filtered, "")
  else let pg := firstn (Z.to_nat pageSize) filtered in
       (pg, match last pg with Some x => EncodePageToken (QCreatedAt x) (QTxnNo x) | None => "" end).

Section Service.
Context `{Platform}.
Implicit Types (s : TxnQueryService).

Definition GetByTxnNo s (txnNo : string) : M (option QueryTxn) :=
  if hasRepo s then
    let! t := Repository.GetTransferTxn txnNo in ret (option_map queryTxnFromTransferTxn t)
  else ret (find (fun x => String.eqb (QTxnNo x) txnNo) (memTxns s)).

Definition GetByOutTradeNo s (merchantNo outTradeNo : string) : M (option QueryTxn) :=
  if hasRepo s then
    let! t := Repository.GetTransferTxnByOutTradeNo merchantNo outTradeNo in
    ret (option_map queryTxnFromTransferTxn t)
  else ret (find (fun x => String.eqb (QMerchantNo x) merchantNo && String.eqb (QOutTradeNo x) outTradeNo) (memTxns s)).

Definition List_ s (f : QueryFilter) : M (list QueryTxn * string) :=
  if hasRepo s then
    let! r := Repository.ListTransferTxns
                (mkTxnListFilter (QFMerchantNo f) (QFOutUserID f) (QFScene f) (QFStatus f) (QFStartTime f)
                   (QFEndTime f) (QFPageSize f) (QFPageToken f)) in
    ret (map queryTxnFromTransferTxn r.1, r.2)
  else ret (listMemory f (memTxns s)).

Definition ListAccountChangeLogs s (f : AccountChangeLogListFilter) : M (list AccountChangeLog * string) :=
  if hasRepo s then Repository.ListAccountChangeLogs f else ret ([], "").

Definition ListActiveAccountBooks s (accountNo : string) (now : Time) : M (list AccountBook) :=
  if hasRepo s then Repository.ListActiveAccountBooks accountNo now else ret [].

Definition ListBookCreditChangeLogs s (bookNo : string) : M (list BookCreditChangeLog) :=
  if hasRepo s then Repository.ListBookCreditChangeLogs bookNo else ret [].

(** ** Queries read only *)

Lemma keeps_GetByTxnNo s no : keeps (GetByTxnNo s no).
Proof. unfold GetByTxnNo, Repository.GetTransferTxn, Repository.found, GetTransferTxnByNo. keep. Qed.
Lemma keeps_GetByOutTradeNo s m o : keeps (GetByOutTradeNo s m o).
Proof. unfold GetByOutTradeNo, Repository.GetTransferTxnByOutTradeNo, Repository.found. keep. Qed.
Lemma keeps_List s f : keeps (List_ s f).
Proof. unfold List_, Repository.ListTransferTxns. keep. Qed.
Lemma keeps_ListAccountChangeLogs s f : keeps (ListAccountChangeLogs s f).
Proof. unfold ListAccountChangeLogs, Repository.ListAccountChangeLogs. keep. Qed.
Lemma keeps_ListActiveAccountBooks s a t : keeps (ListActiveAccountBooks s a t).
Proof. unfold ListActiveAccountBooks, Repository.ListActiveAccountBooks. keep. Qed.
Lemma keeps_ListBookCreditChangeLogs s b : keeps (ListBookCreditChangeLogs s b).
Proof. unfold ListBookCreditChangeLogs, Repository.ListBookCreditChangeLogs. keep. Qed.
End Service.
#[export] Hint Resolve keeps_GetByTxnNo keeps_GetByOutTradeNo keeps_List keeps_ListAccountChangeLogs
  keeps_ListActiveAccountBooks keeps_ListBookCreditChangeLogs : coin.
