(* ===== verification/Api.v ===== *)
(** * The business API ([internal/api/business.go])

    One definition per handler.  A handler reads its context (what the router
    and the middleware put there), calls the services, may enqueue the
    transaction it submitted, and writes one response; [return] after an error
    is the error of the handler monad [H]. *)

From S2P Require Import Prelude GoBase Domain Codes Encoding Calendar Json Store Queries Reads Ledger Repo Services TxnQuery.
From stdpp Require Import base gmap list strings.
From Stdlib Require Import ZArith Lia.

Local Open Scope string_scope.
Local Open Scope Z_scope.

(** ** Requests and responses *)

(** [gin.Context]: the request id and the merchant set by the middleware, the
    path parameters and the query string. *)
Record Context : Type := mkContext {
  x_requestID : string;
  x_merchant : option string;
  x_param : string -> string;
  x_query : string -> string
}.

Record Response : Type := mkResponse {
  httpCode : Z; rcode : string; message : string; requestID : string; data : option json
}.

Record creditRequest : Type := mkCreditRequest {
  cq_out_trade_no : string; cq_title : string; cq_remark : string; cq_debit_account_no : string;
  cq_credit_account_no : string; cq_user_id : string; cq_expire_in_days : Z; cq_amount : Z
}.

Record debitRequest : Type := mkDebitRequest {
  dq_out_trade_no : string; dq_title : string; dq_remark : string; dq_biz_type : string; dq_transfer_scene : string;
  dq_debit_account_no : string; dq_debit_out_user_id : string; dq_credit_account_no : string;
  dq_credit_out_user_id : string; dq_amount : Z
}.

Record transferRequest : Type := mkTransferRequestBody {
  tq_out_trade_no : string; tq_title : string; tq_remark : string; tq_biz_type : string; tq_transfer_scene : string;
  tq_from_account_no : string; tq_from_out_user_id : string; tq_to_account_no : string; tq_to_out_user_id : string;
  tq_to_expire_in_days : Z; tq_amount : Z
}.

Record refundRequest : Type := mkRefundRequest {
  rq_out_trade_no : string; rq_title : string; rq_remark : string; rq_biz_type : string;
  rq_refund_of_txn_no : string; rq_amount : Z
}.

Record webhookConfigRequest : Type := mkWebhookConfigRequest { wq_url : string; wq_enabled : bool }.

(** Which of the handler's dependencies are there (not [nil]). *)
Record BusinessHandler : Type := mkBusinessHandler {
  h_transfer : bool; h_merchants : bool; h_router : bool; h_async : bool; h_resolver : bool;
  h_accounts : bool; h_query : option TxnQueryService; h_webhooks : bool
}.

(** ** Validation *)

Definition maxTxnTitleLen : Z := 128.
Definition maxTxnRemarkLen : Z := 512.

Definition out_trade_char (c : Ascii.ascii) : bool :=
  let b := byte_of c in
  ((65 <=? b) && (b <=? 90)) || ((97 <=? b) && (b <=? 122)) || is_digit c || (b =? 95) || (b =? 45).

(** [^[A-Za-z0-9_-]{1,64}$]. *)
Definition isValidOutTradeNo (s : string) : bool :=
  (1 <=? slen s) && (slen s <=? 64) && sforall out_trade_char s.

Definition isValidTxnCopy (v : string) (limit : Z) : bool := slen v <=? limit.

Definition isEmpty (s : string) : bool := String.eqb s "".
(** [v != "" && v != want]. *)
Definition differs (v want : string) : bool := negb (isEmpty v) && negb (String.eqb v want).

Definition maxExpireInDays : Z := MaxInt64 / dayNs.
Definition calcExpireAtByDays (now : Time) (expireInDays : Z) : option Time :=
  if (expireInDays <=? 0) || (maxExpireInDays <? expireInDays) then None
  else Some (timeAdd now (expireInDays * dayNs)).
Definition normalizeExpiryDayUTC (t : Time) : Time := dayStart t.

Definition toTxnResponse (q : QueryTxn) : json :=
  JObj [("txn_no", JStr (QTxnNo q)); ("out_trade_no", JStr (QOutTradeNo q)); ("title", JStr (QTitle q));
        ("remark", JStr (QRemark q)); ("transfer_scene", JStr (QScene q)); ("status", JStr (QStatus q));
        ("amount", JNum (QAmount q)); ("refundable_amount", JNum (QRefundableAmount q));
        ("debit_account_no", JStr (QDebitAccountNo q)); ("credit_account_no", JStr (QCreditAccountNo q));
        ("error_code", JStr (QErrorCode q)); ("error_msg", JStr (QErrorMsg q));
        ("created_at", JStr (formatRFC3339Nano (QCreatedAt q)))].

(** ** Interfaces *)

(** [uuid.Parse] of github.com/google/uuid: whether it accepts the text. *)
Class UUIDLib : Type := { isValidUUID : string -> bool }.

(** Where submitted transactions go ([EnqueueTxn] of the asynchronous
    processor); it reads the tables to choose a queue. *)
Class TransferDispatcher (D : Type) : Type := {
  dispatchTxn : TransferTxn -> D -> World -> D * World * bool;
  dispatch_keeps : forall t d w, w_db (dispatchTxn t d w).1.2 = w_db w
}.

Section Handlers.
Context {PF : Platform} {CP : CodeProvider} {UL : UUIDLib} {D : Type} {TD : TransferDispatcher D}.

(** ** The handler monad *)

Definition H (A : Type) : Type := D -> World -> D * World * Result Response A.

Definition retH {A} (a : A) : H A := fun s w => (s, w, Ok a).
Definition respond {A} (r : Response) : H A := fun s w => (s, w, Err r).
Definition bindH {A B} (m : H A) (f : A -> H B) : H B := fun s w =>
  match m s w with
  | (s1, w1, Ok a) => f a s1 w1
  | (s1, w1, Err r) => (s1, w1, Err r)
  end.
(** [v, err := call()]. *)
Definition liftH {A} (m : M A) : H (Result error A) := fun s w => let (w1, r) := m w in (s, w1, Ok r).
(** [v, ok := call()]: calls that report no error. *)
Definition liftO {A} (m : M (option A)) : H (option A) := fun s w =>
  let (w1, r) := m w in (s, w1, Ok (match r with Ok o => o | Err _ => None end)).
Notation "'let+' x := m 'in' f" := (bindH m (fun x => f)) (at level 10, x binder, m at level 100, f at level 200).

(** What a handler writes. *)
Definition runH (m : H Response) : D -> World -> D * World * Response := fun s w =>
  match m s w with (s1, w1, Ok r) | (s1, w1, Err r) => (s1, w1, r) end.

Section Writers.
Context (c : Context).

Definition writeSuccess (d : json) : H Response := retH (mkResponse 200 "SUCCESS" "ok" (x_requestID c) (Some d)).
Definition writeCreated (d : json) : H Response := retH (mkResponse 201 "SUCCESS" "ok" (x_requestID c) (Some d)).
Definition writeError {A} (http : Z) (code msg : string) : H A :=
  respond (mkResponse http code msg (x_requestID c) None).

Definition writeTransferError {A} (e : error) : H A :=
  if errors_is e ErrAccountResolveFailed then writeError 404 "ACCOUNT_NOT_FOUND" "account not found"
  else if errors_is e ErrAccountForbidDebit then writeError 403 "ACCOUNT_FORBID_DEBIT" "account forbid debit"
  else if errors_is e ErrAccountForbidCredit then writeError 403 "ACCOUNT_FORBID_CREDIT" "account forbid credit"
  else if errors_is e ErrAccountForbidTransfer then writeError 403 "ACCOUNT_FORBID_TRANSFER" "account forbid transfer"
  else if errors_is e ErrInsufficientBalance then writeError 409 "INSUFFICIENT_BALANCE" "insufficient balance"
  else writeError 500 "INTERNAL_ERROR" "transfer validate failed".

(** [if cond { writeError(c, ...); return }]. *)
Definition reject (cond : bool) (http : Z) (code msg : string) : H unit :=
  if cond then writeError http code msg else retH tt.
Definition invalid (cond : bool) (msg : string) : H unit := reject cond 400 "INVALID_PARAM" msg.
Definition configured (b : bool) : H unit := reject (negb b) 500 "INTERNAL_ERROR" "business handler not configured".

(** [MerchantNoFromContext]. *)
Definition MerchantNoFromContext : option string :=
  match x_merchant c with
  | Some s => if isEmpty (TrimSpace s) then None else Some s
  | None => None
  end.

Definition contextMerchant : H string :=
  match MerchantNoFromContext with
  | Some m => retH m
  | None => writeError 401 "INVALID_SIGNATURE" "merchant context missing"
  end.

Definition knownMerchant (merchantNo : string) : H Merchant :=
  let+ m := liftO (Repository.GetMerchantByNo merchantNo) in
  match m with
  | Some m => retH m
  | None => writeError 404 "MERCHANT_NOT_FOUND" "merchant not found"
  end.

(** [c.ShouldBindJSON(&req)]: the body as the binding decoded it. *)
Definition bound {A} (body : option A) : H A :=
  match body with Some r => retH r | None => writeError 400 "INVALID_PARAM" "invalid request body" end.

Definition existingAccount (accountNo : string) : H Account :=
  let+ a := liftO (Repository.GetAccount accountNo) in
  match a with Some a => retH a | None => writeError 404 "ACCOUNT_NOT_FOUND" "account not found" end.

(** [h.accountResolver.ResolveCustomerAccount] with its error responses. *)
Definition resolveUser (merchantNo accountNo userID failed : string) : H string :=
  let+ r := liftH (ResolveCustomerAccount merchantNo accountNo userID) in
  match r with
  | Ok no => retH no
  | Err e =>
      if errors_is e ErrAccountResolveConflict
      then writeError 409 "ACCOUNT_RESOLVE_CONFLICT" "account resolve conflict"
      else writeError 500 "INTERNAL_ERROR" failed
  end.

(** A party given by account number or by user id. *)
Definition resolveParty (merchantNo accountNo userID failed missing : string) : H string :=
  if isEmpty userID then retH accountNo else
  let+ no := resolveUser merchantNo accountNo userID failed in
  if isEmpty no then writeError 404 "OUT_USER_ID_NOT_FOUND" missing else retH no.

Definition resolveRoute (req : TransferRoutingRequest) : H (string * string) :=
  let+ r := liftH (Resolve req) in
  match r with Ok dc => retH dc | Err e => writeTransferError e end.

(** [h.nowFn()]: the clock does not fail. *)
Definition nowH : H Time := fun s w =>
  match timeNow w with (w1, Ok t) => (s, w1, Ok t) | (w1, Err _) => (s, w1, Ok (w_clock w)) end.

(** The expiry day [n] days from now. *)
Definition expiryDay (n : Z) (msg : string) : H Time :=
  let+ now := nowH in
  match calcExpireAtByDays now n with
  | Some t => retH (normalizeExpiryDayUTC t)
  | None => writeError 400 "INVALID_PARAM" msg
  end.

Definition enqueueTxn (txn : TransferTxn) : H unit := fun s w =>
  let '(s1, w1, _) := dispatchTxn txn s w in (s1, w1, Ok tt).

(** The answer to an accepted submission. *)
Definition accepted (txn : TransferTxn) : H Response :=
  let+ _ := enqueueTxn txn in
  writeCreated (JObj [("txn_no", JStr (TxnNo txn)); ("status", JStr TxnStatusInit)]).

(** [h.transfer.Submit] and its error responses in the transfer handlers. *)
Definition submitTransfer (req : TransferRequest) : H Response :=
  let+ r := liftH (Submit req) in
  match r with
  | Ok txn => accepted txn
  | Err e =>
      if errors_is e ErrDuplicateOutTradeNo
      then writeError 409 "DUPLICATE_OUT_TRADE_NO" "duplicate out_trade_no"
      else writeError 500 "INTERNAL_ERROR" "submit transfer failed"
  end.

(** The checks all four submissions share. *)
Definition checkCopy (outTradeNo title remark : string) : H unit :=
  let+ _ := invalid (negb (isValidOutTradeNo outTradeNo)) "invalid out_trade_no" in
  invalid (negb (isValidTxnCopy title maxTxnTitleLen) || negb (isValidTxnCopy remark maxTxnRemarkLen))
    "invalid title or remark".
End Writers.

(** ** Submitting transactions *)

Section Business.
Context (h : BusinessHandler) (c : Context).

(** The dependencies the three transfer handlers test for. *)
Definition transferDeps : bool :=
  h_transfer h && bool_decide (is_Some (h_query h)) && h_merchants h && h_router h && h_async h && h_resolver h
  && h_accounts h.

Definition transferOf (merchantNo outTradeNo title remark scene debit credit : string) (expireAt : option Time)
    (amount : Z) : TransferRequest :=
  mkTransferRequest merchantNo outTradeNo title remark BizTypeTransfer scene debit credit expireAt "" amount amount
    TxnStatusInit.

(** The credited account of [handleCredit]; an unknown user may get one made. *)
Definition creditTarget (merchantNo creditAccountNo userID : string) : H string :=
  if isEmpty userID then retH creditAccountNo else
  let+ resolved := resolveUser c merchantNo creditAccountNo userID "resolve credit account failed" in
  let+ resolved :=
    (if isEmpty resolved && isEmpty creditAccountNo then
       let+ r := liftH (EnsureCustomerAccountForCredit merchantNo userID) in
       match r with
       | Ok no => retH (TrimSpace no)
       | Err _ => writeError c 500 "INTERNAL_ERROR" "auto create customer account failed"
       end
     else retH resolved) in
  if isEmpty resolved then writeError c 404 "OUT_USER_ID_NOT_FOUND" "account not found by user_id"
  else retH resolved.

Definition handleCredit (body : option creditRequest) : H Response :=
  let+ _ := configured c transferDeps in
  let+ merchantNo := contextMerchant c in
  let+ _ := knownMerchant c merchantNo in
  let+ req := bound c body in
  let outTradeNo := TrimSpace (cq_out_trade_no req) in
  let title := TrimSpace (cq_title req) in
  let remark := TrimSpace (cq_remark req) in
  let debitAccountNo := TrimSpace (cq_debit_account_no req) in
  let creditAccountNo := TrimSpace (cq_credit_account_no req) in
  let userID := TrimSpace (cq_user_id req) in
  let+ _ := invalid c (isEmpty outTradeNo || (cq_amount req <=? 0)) "out_trade_no and amount are required" in
  let+ _ := checkCopy c outTradeNo title remark in
  let+ _ := invalid c (isEmpty creditAccountNo && isEmpty userID) "credit_account_no or user_id is required" in
  let+ _ := invalid c (cq_expire_in_days req <? 0) "expire_in_days must be >= 0" in
  let+ target := creditTarget merchantNo creditAccountNo userID in
  let+ dc := resolveRoute c (mkTransferRoutingRequest merchantNo SceneIssue debitAccountNo target) in
  let+ creditAccount := existingAccount c dc.2 in
  let+ expireAt :=
    (if BookEnabled creditAccount && (0 <? cq_expire_in_days req) then
       let+ t := expiryDay c (cq_expire_in_days req) "invalid expire_in_days" in retH (Some t)
     else retH None) in
  submitTransfer c (transferOf merchantNo outTradeNo title remark SceneIssue dc.1 dc.2 expireAt (cq_amount req)).

Definition handleDebit (body : option debitRequest) : H Response :=
  let+ _ := configured c transferDeps in
  let+ merchantNo := contextMerchant c in
  let+ _ := knownMerchant c merchantNo in
  let+ req := bound c body in
  let outTradeNo := TrimSpace (dq_out_trade_no req) in
  let title := TrimSpace (dq_title req) in
  let remark := TrimSpace (dq_remark req) in
  let bizType := TrimSpace (ToUpper (dq_biz_type req)) in
  let transferScene := TrimSpace (ToUpper (dq_transfer_scene req)) in
  let debitAccountNo := TrimSpace (dq_debit_account_no req) in
  let debitOutUserID := TrimSpace (dq_debit_out_user_id req) in
  let creditAccountNo := TrimSpace (dq_credit_account_no req) in
  let creditOutUserID := TrimSpace (dq_credit_out_user_id req) in
  let+ _ := invalid c (isEmpty outTradeNo || (dq_amount req <=? 0)) "out_trade_no and amount are required" in
  let+ _ := checkCopy c outTradeNo title remark in
  let+ _ := invalid c (isEmpty debitAccountNo && isEmpty debitOutUserID)
              "debit_account_no or debit_out_user_id is required" in
  let+ _ := invalid c (differs bizType BizTypeTransfer) "biz_type must be TRANSFER" in
  let+ _ := invalid c (differs transferScene SceneConsume) "transfer_scene must be CONSUME" in
  let+ debit := resolveParty c merchantNo debitAccountNo debitOutUserID "resolve debit account failed"
                  "account not found by debit_out_user_id" in
  let+ credit := resolveParty c merchantNo creditAccountNo creditOutUserID "resolve credit account failed"
                   "account not found by credit_out_user_id" in
  let+ dc := resolveRoute c (mkTransferRoutingRequest merchantNo SceneConsume debit credit) in
  let+ creditAccount := existingAccount c dc.2 in
  let+ _ := invalid c (BookEnabled creditAccount) "consume credit account does not support book" in
  submitTransfer c (transferOf merchantNo outTradeNo title remark SceneConsume dc.1 dc.2 None (dq_amount req)).

Definition handleTransfer (body : option transferRequest) : H Response :=
  let+ _ := configured c transferDeps in
  let+ merchantNo := contextMerchant c in
  let+ _ := knownMerchant c merchantNo in
  let+ req := bound c body in
  let outTradeNo := TrimSpace (tq_out_trade_no req) in
  let title := TrimSpace (tq_title req) in
  let remark := TrimSpace (tq_remark req) in
  let bizType := TrimSpace (ToUpper (tq_biz_type req)) in
  let transferScene := TrimSpace (ToUpper (tq_transfer_scene req)) in
  let fromAccountNo := TrimSpace (tq_from_account_no req) in
  let fromOutUserID := TrimSpace (tq_from_out_user_id req) in
  let toAccountNo := TrimSpace (tq_to_account_no req) in
  let toOutUserID := TrimSpace (tq_to_out_user_id req) in
  let+ _ := invalid c (isEmpty outTradeNo || (tq_amount req <=? 0)) "out_trade_no and amount are required" in
  let+ _ := checkCopy c outTradeNo title remark in
  let+ _ := invalid c (isEmpty fromAccountNo && isEmpty fromOutUserID)
              "from_account_no or from_out_user_id is required" in
  let+ _ := invalid c (isEmpty toAccountNo && isEmpty toOutUserID) "to_account_no or to_out_user_id is required" in
  let+ _ := invalid c (differs bizType BizTypeTransfer) "biz_type must be TRANSFER" in
  let+ _ := invalid c (differs transferScene SceneP2P) "transfer_scene must be P2P" in
  let+ _ := invalid c (tq_to_expire_in_days req <? 0) "to_expire_in_days must be >= 0" in
  let+ from := resolveParty c merchantNo fromAccountNo fromOutUserID "resolve from account failed"
                 "account not found by from_out_user_id" in
  let+ to := resolveParty c merchantNo toAccountNo toOutUserID "resolve to account failed"
               "account not found by to_out_user_id" in
  let+ dc := resolveRoute c (mkTransferRoutingRequest merchantNo SceneP2P from to) in
  let+ fromAccount := existingAccount c dc.1 in
  let+ toAccount := existingAccount c dc.2 in
  let+ expireAt :=
    (if BookEnabled toAccount && negb (BookEnabled fromAccount) then
       let+ _ := invalid c (tq_to_expire_in_days req <=? 0) "to_expire_in_days is required for expiry account" in
       let+ t := expiryDay c (tq_to_expire_in_days req) "invalid to_expire_in_days" in retH (Some t)
     else retH None) in
  submitTransfer c (transferOf merchantNo outTradeNo title remark SceneP2P dc.1 dc.2 expireAt (tq_amount req)).

(** The error responses of a refund. *)
Definition writeRefundError (e : error) : H Response :=
  if errors_is e ErrDuplicateOutTradeNo then writeError c 409 "DUPLICATE_OUT_TRADE_NO" "duplicate out_trade_no"
  else if errors_is e ErrTxnNotFound then writeError c 404 "REFUND_ORIGIN_NOT_FOUND" "origin txn not found"
  else if errors_is e ErrTxnStatusInvalid || errors_is e ErrAccountResolveFailed
       then writeError c 409 "REFUND_ORIGIN_INVALID" "origin txn invalid for refund"
  else if errors_is e ErrAccountForbidDebit || errors_is e ErrAccountForbidCredit || errors_is e ErrAccountForbidTransfer
       then writeError c 409 "REFUND_ORIGIN_INVALID" "origin txn invalid for refund"
  else if errors_is e ErrRefundAmountExceeded then writeError c 409 "REFUND_AMOUNT_EXCEEDED" "refund amount exceeded"
  else writeError c 500 "INTERNAL_ERROR" "submit refund failed".

Definition refundOf (merchantNo outTradeNo title remark origin : string) (amount : Z) : TransferRequest :=
  mkTransferRequest merchantNo outTradeNo title remark BizTypeRefund "" "" "" None origin amount 0 TxnStatusInit.

Definition handleRefund (body : option refundRequest) : H Response :=
  let+ _ := configured c (h_transfer h && h_async h && h_merchants h) in
  let+ merchantNo := contextMerchant c in
  let+ _ := knownMerchant c merchantNo in
  let+ req := bound c body in
  let outTradeNo := TrimSpace (rq_out_trade_no req) in
  let title := TrimSpace (rq_title req) in
  let remark := TrimSpace (rq_remark req) in
  let bizType := TrimSpace (ToUpper (rq_biz_type req)) in
  let origin := TrimSpace (rq_refund_of_txn_no req) in
  let+ _ := invalid c (isEmpty outTradeNo || isEmpty origin || (rq_amount req <=? 0))
              "out_trade_no, refund_of_txn_no and amount are required" in
  let+ _ := checkCopy c outTradeNo title remark in
  let+ _ := invalid c (negb (isValidUUID origin)) "invalid refund_of_txn_no" in
  let+ _ := invalid c (differs bizType BizTypeRefund) "biz_type must be REFUND" in
  let+ r := liftH (Submit (refundOf merchantNo outTradeNo title remark origin (rq_amount req))) in
  match r with
  | Ok txn => accepted c txn
  | Err e => writeRefundError e
  end.

(** ** Queries *)

(** The dependency that may be missing. *)
Definition queryStore : H TxnQueryService :=
  match h_query h with
  | Some q => retH q
  | None => writeError c 500 "INTERNAL_ERROR" "business handler not configured"
  end.

Definition pathParam (name missing : string) : H string :=
  let v := TrimSpace (x_param c name) in
  let+ _ := invalid c (isEmpty v) missing in retH v.

(** Query methods without an error: failures read as nothing found. *)
Definition listed {A B} (m : M (list A * B)) (none : B) : H (list A * B) :=
  let+ r := liftH m in match r with Ok x => retH x | Err _ => retH ([], none) end.

Definition handleGetByTxnNo : H Response :=
  let+ q := queryStore in
  let+ merchantNo := contextMerchant c in
  let+ txnNo := pathParam "txn_no" "txn_no is required" in
  let+ item := liftO (GetByTxnNo q txnNo) in
  match item with
  | Some item =>
      if negb (String.eqb (QMerchantNo item) merchantNo) then writeError c 404 "TXN_NOT_FOUND" "txn not found"
      else writeSuccess c (toTxnResponse item)
  | None => writeError c 404 "TXN_NOT_FOUND" "txn not found"
  end.

Definition handleGetByOutTradeNo : H Response :=
  let+ q := queryStore in
  let+ merchantNo := contextMerchant c in
  let+ outTradeNo := pathParam "out_trade_no" "out_trade_no is required" in
  let+ item := liftO (GetByOutTradeNo q merchantNo outTradeNo) in
  match item with
  | Some item => writeSuccess c (toTxnResponse item)
  | None => writeError c 404 "TXN_NOT_FOUND" "txn not found"
  end.

(** [page_size]: 20 when absent, at most 200. *)
Definition parsePageSize : H Z :=
  let raw := TrimSpace (x_query c "page_size") in
  if isEmpty raw then retH 20 else
  match ParseInt raw with
  | Some v =>
      if v <=? 0 then writeError c 400 "INVALID_PARAM" "invalid page_size"
      else retH (if 200 <? v then 200 else v)
  | None => writeError c 400 "INVALID_PARAM" "invalid page_size"
  end.

Definition parseTimeParam (name msg : string) : H (option Time) :=
  let raw := TrimSpace (x_query c name) in
  if isEmpty raw then retH None else
  match parseRFC3339 raw with
  | Some t => retH (Some t)
  | None => writeError c 400 "INVALID_PARAM" msg
  end.

Definition pageOf (items : list json) (next : string) : json :=
  JObj [("items", JArr items); ("next_page_token", JStr next)].

Definition handleListTransactions : H Response :=
  let+ q := queryStore in
  let+ merchantNo := contextMerchant c in
  let+ pageSize := parsePageSize in
  let+ startTime := parseTimeParam "start_time" "invalid start_time" in
  let+ endTime := parseTimeParam "end_time" "invalid end_time" in
  let+ _ := invalid c (match startTime, endTime with Some s, Some e => e <? s | _, _ => false end)
              "start_time must be <= end_time" in
  let+ r := listed (List_ q (mkQueryFilter merchantNo (TrimSpace (x_query c "out_user_id"))
                 (TrimSpace (ToUpper (x_query c "transfer_scene"))) (TrimSpace (ToUpper (x_query c "status")))
                 startTime endTime pageSize (TrimSpace (x_query c "page_token")))) "" in
  writeSuccess c (pageOf (map toTxnResponse r.1) r.2).

Definition changeLogResponse (l : AccountChangeLog) : json :=
  JObj [("change_id", JNum (ChangeID l)); ("txn_no", JStr (LTxnNo l)); ("account_no", JStr (LAccountNo l));
        ("delta", JNum (Delta l)); ("balance_before", JNum (BalanceBefore l)); ("balance_after", JNum (BalanceAfter l));
        ("title", JStr (LTitle l)); ("remark", JStr (LRemark l));
        ("created_at", JStr (formatRFC3339Nano (LCreatedAt l)))].

Definition handleListAccountChangeLogs : H Response :=
  let+ _ := configured c (bool_decide (is_Some (h_query h)) && h_accounts h) in
  let+ q := queryStore in
  let+ merchantNo := contextMerchant c in
  let+ accountNo := pathParam "account_no" "account_no is required" in
  let+ account := existingAccount c accountNo in
  let+ _ := reject c (negb (String.eqb (AMerchantNo account) merchantNo)) 404 "ACCOUNT_NOT_FOUND" "account not found" in
  let+ pageSize := parsePageSize in
  let+ r := listed (ListAccountChangeLogs q (mkAccountChangeLogListFilter merchantNo accountNo pageSize
                                              (TrimSpace (x_query c "page_token")))) "" in
  writeSuccess c (pageOf (map changeLogResponse r.1) r.2).

(** ** Webhook configuration *)

Definition retryPolicy : json :=
  JObj [("max_retries", JNum 8);
        ("backoff", JArr [JStr "1m"; JStr "5m"; JStr "15m"; JStr "1h"; JStr "6h"])].
Definition webhookConfigResponse (url : string) (enabled : bool) : json :=
  JObj [("url", JStr url); ("enabled", JBool enabled); ("retry_policy", retryPolicy)].

Definition handleGetWebhookConfig : H Response :=
  let+ _ := configured c (h_webhooks h) in
  let+ merchantNo := contextMerchant c in
  let+ r := liftH (Repository.GetWebhookConfig merchantNo) in
  match r with
  | Err _ => writeError c 500 "INTERNAL_ERROR" "load webhook config failed"
  | Ok None => writeSuccess c (webhookConfigResponse "" false)
  | Ok (Some cfg) => writeSuccess c (webhookConfigResponse (URL cfg) (Enabled cfg))
  end.

Definition handlePutWebhookConfig (body : option webhookConfigRequest) : H Response :=
  let+ _ := configured c (h_webhooks h) in
  let+ merchantNo := contextMerchant c in
  let+ req := bound c body in
  let url := TrimSpace (wq_url req) in
  let+ _ := invalid c (negb (HasPrefix (ToLower url) "https://")) "url must be https" in
  let+ r := liftH (Repository.UpsertWebhookConfig merchantNo url (wq_enabled req)) in
  match r with
  | Err _ => writeError c 500 "INTERNAL_ERROR" "save webhook config failed"
  | Ok _ => writeSuccess c (webhookConfigResponse url (wq_enabled req))
  end.

(** ** Customers *)

Definition queryUser : H string :=
  let v := TrimSpace (x_query c "out_user_id") in
  let+ _ := invalid c (isEmpty v) "out_user_id is required" in retH v.

Definition handleGetCustomerBalance : H Response :=
  let+ _ := configured c (h_resolver h && h_accounts h) in
  let+ merchantNo := contextMerchant c in
  let+ outUserID := queryUser in
  let+ accountNo := resolveUser c merchantNo "" outUserID "resolve customer account failed" in
  let+ _ := reject c (isEmpty accountNo) 404 "CUSTOMER_NOT_FOUND" "customer not found" in
  let+ account := existingAccount c accountNo in
  let+ r := liftH (Repository.GetAvailableBalance accountNo) in
  match r with
  | Err _ => writeError c 500 "INTERNAL_ERROR" "load available balance failed"
  | Ok None => writeError c 404 "ACCOUNT_NOT_FOUND" "account not found"
  | Ok (Some available) =>
      writeSuccess c (JObj [("out_user_id", JStr outUserID); ("account_no", JStr (AccountNo account));
                            ("balance", JNum (Balance account)); ("available_balance", JNum available);
                            ("book_enabled", JBool (BookEnabled account))])
  end.

Definition bookResponse (b : AccountBook) : json :=
  JObj [("book_no", JStr (BookNo b)); ("account_no", JStr (BAccountNo b));
        ("expire_at", JStr (formatDate (BExpireAt b))); ("balance", JNum (BBalance b))].

Definition handleListCustomerBooks : H Response :=
  let+ _ := configured c (h_resolver h && bool_decide (is_Some (h_query h))) in
  let+ q := queryStore in
  let+ merchantNo := contextMerchant c in
  let+ outUserID := queryUser in
  let+ r := liftH (ResolveCustomerAccount merchantNo "" outUserID) in
  match r with
  | Err _ => writeError c 500 "INTERNAL_ERROR" "resolve customer account failed"
  | Ok accountNo =>
      if isEmpty accountNo then writeSuccess c (JObj [("books", JArr [])]) else
      let+ now := nowH in
      let+ r := liftH (ListActiveAccountBooks q accountNo now) in
      match r with
      | Err _ => writeError c 500 "INTERNAL_ERROR" "list books failed"
      | Ok books => writeSuccess c (JObj [("books", JArr (map bookResponse books))])
      end
  end.

Definition bookCreditResponse (l : BookCreditChangeLog) : json :=
  JObj [("change_id", JNum (BCChangeID l)); ("txn_no", JStr (BCTxnNo l)); ("delta", JNum (BCDelta l));
        ("title", JStr (BCTitle l)); ("created_at", JStr (formatRFC3339 (BCCreatedAt l)))].

Definition handleListBookCreditChangeLogs : H Response :=
  let+ q := queryStore in
  let+ bookNo := pathParam "book_no" "book_no is required" in
  let+ r := liftH (ListBookCreditChangeLogs q bookNo) in
  match r with
  | Err _ => writeError c 500 "INTERNAL_ERROR" "list book change logs failed"
  | Ok logs => writeSuccess c (JObj [("items", JArr (map bookCreditResponse logs))])
  end.
End Business.
End Handlers.
