(* ===== verification/Auth.v ===== *)
(** * Authentication and request ids ([internal/api/auth.go], [request_id.go])

    A merchant's request carries its number, a timestamp, a nonce and the HMAC
    of the request under its active secret. *)

From S2P Require Import Prelude GoBase Domain Codes Encoding Calendar Json Store Queries Reads Secrets Paging Ledger Repo Quiet Webhook Services TxnQuery Api.
From stdpp Require Import base gmap list strings.
From Stdlib Require Import ZArith Lia.

Local Open Scope string_scope.
Local Open Scope Z_scope.

(** What the server reads of an [http.Request]; [q_body] is [None] when
    reading the body fails. *)
Record Request : Type := mkRequest {
  q_method : string; q_path : string; q_header : string -> string; q_body : option string;
  q_query : string -> string; q_param : string -> string
}.

(** ** Request ids *)

Definition newRequestID : M string :=
  let! now := timeNow in ret ("req_" +:+ FormatInt (Paging.UnixNano now)).

Definition RequestIDMiddleware (q : Request) : M string :=
  let requestID := TrimSpace (q_header q "X-Request-Id") in
  if isEmpty requestID then newRequestID else ret requestID.

(** ** Timestamps *)

Definition parseTimestamp (v : string) : option Time :=
  match ParseInt v with
  | Some ms => if 0 <=? ms then Some (ms * 1000000) else parseRFC3339 v
  | None => parseRFC3339 v
  end.

Definition absDuration (v : Duration) : Duration :=
  if v =? MinInt64 then MaxInt64 else if v <? 0 then - v else v.

(** ** The middleware *)

Record AuthMiddlewareConfig : Type := mkAuthConfig { secretProvider : bool; timeWindow : Duration }.

Definition signingString (method path merchantNo timestamp nonce body : string) : string :=
  stringsJoin newline [method; path; merchantNo; timestamp; nonce; hexEncode (sha256 body)].

Definition requestSignature (secret method path merchantNo timestamp nonce body : string) : string :=
  hexEncode (hmac_sha256 secret (signingString method path merchantNo timestamp nonce body)).

Section Middleware.
Context {WS : WebhookSecretProvider}.

Definition abortWithCode {A} (requestID : string) (http : Z) (code msg : string) : M (Result Response A) :=
  ret (Err (mkResponse http code msg requestID None)).

(** The checks that follow the load of the secret. *)
Definition verifyRequest (window : Duration) (rid : string) (q : Request)
    (merchantNo timestamp nonce signature secret : string) : M (Result Response string) :=
  match parseTimestamp timestamp with
  | None => abortWithCode rid 401 "TIMESTAMP_OUT_OF_WINDOW" "timestamp parse failed"
  | Some ts =>
      let! now := timeNow in
      if window <? absDuration (timeSub now ts)
      then abortWithCode rid 401 "TIMESTAMP_OUT_OF_WINDOW" "timestamp out of window" else
      match q_body q with
      | None => abortWithCode rid 400 "INVALID_PARAM" "read body failed"
      | Some rawBody =>
          let expected := requestSignature secret (q_method q) (q_path q) merchantNo timestamp nonce rawBody in
          if negb (String.eqb expected (ToLower signature))
          then abortWithCode rid 401 "INVALID_SIGNATURE" "signature verify failed"
          else ret (Ok merchantNo)
      end
  end.

(** The merchant number put in the context, or the response of the abort. *)
Definition authenticate (cfg : AuthMiddlewareConfig) (rid : string) (q : Request) : M (Result Response string) :=
  let window := if timeWindow cfg <=? 0 then 5 * Minute else timeWindow cfg in
  let merchantNo := TrimSpace (q_header q "X-Merchant-No") in
  let timestamp := TrimSpace (q_header q "X-Timestamp") in
  let nonce := TrimSpace (q_header q "X-Nonce") in
  let signature := TrimSpace (q_header q "X-Signature") in
  if isEmpty merchantNo || isEmpty timestamp || isEmpty nonce || isEmpty signature
  then abortWithCode rid 400 "AUTH_HEADER_MISSING" "missing auth header" else
  if negb (secretProvider cfg) then abortWithCode rid 500 "INTERNAL_ERROR" "auth provider not configured" else
  let! s := attempt (activeSecret merchantNo) in
  match s with
  | Err _ => abortWithCode rid 500 "INTERNAL_ERROR" "load merchant credential failed"
  | Ok None => abortWithCode rid 401 "INVALID_SIGNATURE" "signature verify failed"
  | Ok (Some secret) => verifyRequest window rid q merchantNo timestamp nonce signature secret
  end.

(** ** Who gets through *)

Definition windowOf (cfg : AuthMiddlewareConfig) : Duration :=
  if timeWindow cfg <=? 0 then 5 * Minute else timeWindow cfg.

Lemma keeps_authenticate cfg rid q : keeps (authenticate cfg rid q).
Proof.
  unfold authenticate, verifyRequest, abortWithCode. keep.
Qed.

Lemma keeps_RequestID q : keeps (RequestIDMiddleware q).
Proof. unfold RequestIDMiddleware, newRequestID. keep. Qed.

(** A header as the middleware reads it. *)
Definition header (q : Request) (name : string) : string := TrimSpace (q_header q name).

(** ** The reference

    Written out independently of the middleware, on the request alone. *)

(** The time a timestamp names: milliseconds since 1970, or a date of RFC 3339. *)
Definition names_time (v : string) (t : Time) : Prop :=
  (exists ms, ParseInt v = Some ms /\ 0 <= ms /\ t = ms * 1000000) \/
  ((forall ms, ParseInt v = Some ms -> ms < 0) /\ parseRFC3339 v = Some t).

(** No further from the clock than the window; durations saturate, so a window
    of the largest one has no end. *)
Definition near (window : Duration) (now t : Time) : Prop :=
  Z.abs (now - t) <= window \/ MaxInt64 <= window.

(** The HMAC-SHA256, in hexadecimal, of the six lines. *)
Definition signed_with (secret method path merchantNo timestamp nonce body signature : string) : Prop :=
  signature =
  hexEncode (hmac_sha256 secret
    (method +:+ newline +:+ path +:+ newline +:+ merchantNo +:+ newline +:+ timestamp +:+ newline +:+ nonce +:+ newline
     +:+ hexEncode (sha256 body))).

(** The secret active when the request came, a timestamp near the clock, and a
    signature under the secret of what was sent. *)
Definition signed_in_time (window : Duration) (q : Request) (m : string) (w w' : World) : Prop :=
  exists w1 secret ts body now,
    activeSecret m w = (w1, Ok (Some secret)) /\ q_body q = Some body /\
    names_time (header q "X-Timestamp") ts /\ timeNow w1 = (w', Ok now) /\ near window now ts /\
    signed_with secret (q_method q) (q_path q) m (header q "X-Timestamp") (header q "X-Nonce") body
      (ToLower (header q "X-Signature")).

Lemma parseTimestamp_names v t : parseTimestamp v = Some t <-> names_time v t.
Proof.
  unfold parseTimestamp, names_time. destruct (ParseInt v) as [ms|].
  - destruct (Z.leb_spec 0 ms) as [Hm|Hm].
    + split; [intros [= <-]; left; by exists ms|]. intros [(x & [= <-] & _ & ->)|[Hn _]]; [done|]. specialize (Hn ms eq_refl). lia.
    + split; [intros Ht; right; split; [intros x Hx; injection Hx as <-; lia|done]|]. intros [(x & [= <-] & ? & _)|[_ Ht]]; [lia|done].
  - split; [intros Ht; right; by split|]. intros [(x & [=] & _)|[_ Ht]]. done.
Qed.

Lemma absDuration_near window now t : absDuration (timeSub now t) <= window <-> near window now t.
Proof.
  unfold absDuration, timeSub, near, sat64. set (x := now - t). unfold MinInt64, MaxInt64.
  destruct (Z.eqb_spec (Z.max (-9223372036854775808) (Z.min 9223372036854775807 x)) (-9223372036854775808)); [lia|].
  destruct (Z.ltb_spec (Z.max (-9223372036854775808) (Z.min 9223372036854775807 x)) 0); lia.
Qed.

Lemma requestSignature_signed secret method path m ts nonce body sig :
  sig = requestSignature secret method path m ts nonce body <-> signed_with secret method path m ts nonce body sig.
Proof. reflexivity. Qed.

Lemma verify_iff window rid q m ts nonce sig secret w w' m' :
  verifyRequest window rid q m ts nonce sig secret w = (w', Ok (Ok m')) <->
  m' = m /\ exists t body now, q_body q = Some body /\ names_time ts t /\ timeNow w = (w', Ok now) /\
    near window now t /\ signed_with secret (q_method q) (q_path q) m ts nonce body (ToLower sig).
Proof.
  unfold verifyRequest, abortWithCode, bind. split.
  - destruct (parseTimestamp _) as [t|] eqn:Et; [|done]. destruct (timeNow w) as [w2 [e|now]]; [done|].
    destruct (_ <? _) eqn:Ew; [done|]. destruct (q_body q) as [body|]; [|done].
    destruct (negb _) eqn:Eq; [done|]. intros [= <- <-]. bools. split; [done|]. exists t, body, now.
    split; [done|]. split; [by apply parseTimestamp_names|]. split; [done|]. split; [by apply absDuration_near|].
    by apply requestSignature_signed.
  - intros (-> & t & body & now & Hb & Ht & Hn & Hw & Hs).
    apply parseTimestamp_names in Ht as ->. rewrite Hn, Hb. apply absDuration_near in Hw. apply requestSignature_signed in Hs.
    by rewrite (proj2 (Z.ltb_ge _ _) Hw), <- Hs, String.eqb_refl.
Qed.

Lemma authenticate_ok_iff cfg rid q w w' m :
  authenticate cfg rid q w = (w', Ok (Ok m)) <->
  secretProvider cfg = true /\ m = header q "X-Merchant-No" /\ m <> "" /\ header q "X-Timestamp" <> "" /\
  header q "X-Nonce" <> "" /\ header q "X-Signature" <> "" /\ signed_in_time (windowOf cfg) q m w w'.
Proof.
  unfold authenticate, signed_in_time. cbv zeta. fold (windowOf cfg). fold (header q "X-Merchant-No").
  fold (header q "X-Timestamp"). fold (header q "X-Nonce"). fold (header q "X-Signature"). split.
  - unfold abortWithCode. destruct (_ || _ || _ || _) eqn:Eh; [done|].
    destruct (secretProvider cfg); [cbn [negb]|done].
    unfold bind at 1, attempt. destruct (activeSecret _ w) as [w1 [e|[secret|]]] eqn:Es; [done| |done].
    intros (-> & t & body & now & Hb & Ht & Hn & Hw & Hsig)%verify_iff. unfold isEmpty in Eh. bools.
    repeat split; try done. exists w1, secret, t, body, now. by repeat split.
  - intros (-> & -> & N1 & N2 & N3 & N4 & w1 & secret & t & body & now & Hs & Hb & Ht & Hn & Hw & Hsig).
    unfold isEmpty. rewrite !(proj2 (String.eqb_neq _ _)) by done. cbn [orb negb].
    unfold bind at 1, attempt. rewrite Hs. apply verify_iff. split; [done|]. by exists t, body, now.
Qed.
(** [C13] Only the merchant can call in its name, and it can.  A request gets
    through as merchant [m] exactly when the four headers are there, it names
    [m], and it is signed, in time, under the secret active for [m]: over its
    own method, path, merchant, timestamp, nonce and body. *)
Theorem authenticated_iff_signed cfg rid q w w' m :
  authenticate cfg rid q w = (w', Ok (Ok m)) <->
  secretProvider cfg = true /\ m = header q "X-Merchant-No" /\ m <> "" /\ header q "X-Timestamp" <> "" /\
  header q "X-Nonce" <> "" /\ header q "X-Signature" <> "" /\ signed_in_time (windowOf cfg) q m w w'.
Proof. apply authenticate_ok_iff. Qed.
End Middleware.
