(* ===== verification/Router.v ===== *)
(** * Routes ([internal/api/router.go], [BusinessHandler.Register])

    The merchant routes, the table of routes, and a request served through the
    request-id and authentication middleware.  Which route a path selects is
    the router library's; decoding a JSON body is the binding library's. *)

From S2P Require Import Prelude GoBase Domain Codes Encoding Json Store Queries Reads Secrets Ledger Repo Webhook Services TxnQuery Api Auth.
From stdpp Require Import base gmap list strings.
From Stdlib Require Import ZArith Lia.

Local Open Scope string_scope.
Local Open Scope Z_scope.

Record createMerchantRequest : Type := mkCreateMerchantRequest {
  mq_name : string;
  mq_auto_create_account_on_customer_create : option bool;
  mq_auto_create_customer_on_credit : option bool
}.

(** [ShouldBindJSON] by type of request; [None] is its error. *)
Class JsonBinding : Type := {
  bindMerchant : string -> option createMerchantRequest;
  bindCredit : string -> option creditRequest;
  bindDebit : string -> option debitRequest;
  bindTransfer : string -> option transferRequest;
  bindRefund : string -> option refundRequest;
  bindWebhook : string -> option webhookConfigRequest
}.

Record ProtectedRoutesOptions : Type := mkRoutesOptions {
  o_auth : option AuthMiddlewareConfig;
  o_rotator : bool;                        (* a MerchantSecretManager, which also reads versions *)
  o_business : option BusinessHandler;
  o_creator : bool
}.

Inductive Route : Type :=
| RHealthz | RCreateMerchant
| RMe | RRotateSecret
| RCredit | RDebit | RTransfer | RRefund
| RGetTxn | RGetByOutTradeNo | RListTransactions | RAccountChangeLogs
| RBalance | RBooks | RBookChangeLogs | RGetWebhook | RPutWebhook.

(** Method and pattern of each route. *)
Definition routeTable : list (string * string * Route) :=
  [("GET", "/healthz", RHealthz); ("POST", "/api/v1/merchants", RCreateMerchant);
   ("GET", "/api/v1/merchants/me", RMe); ("POST", "/api/v1/merchants/:merchant_no/secret:rotate", RRotateSecret);
   ("POST", "/api/v1/transactions/credit", RCredit); ("POST", "/api/v1/transactions/debit", RDebit);
   ("POST", "/api/v1/transactions/transfer", RTransfer); ("POST", "/api/v1/transactions/refund", RRefund);
   ("GET", "/api/v1/transactions/:txn_no", RGetTxn);
   ("GET", "/api/v1/transactions/by-out-trade-no/:out_trade_no", RGetByOutTradeNo);
   ("GET", "/api/v1/transactions", RListTransactions);
   ("GET", "/api/v1/accounts/:account_no/change-logs", RAccountChangeLogs);
   ("GET", "/api/v1/customers/balance", RBalance); ("GET", "/api/v1/customers/books", RBooks);
   ("GET", "/api/v1/customers/books/:book_no/change-logs", RBookChangeLogs);
   ("GET", "/api/v1/webhooks/config", RGetWebhook); ("PUT", "/api/v1/webhooks/config", RPutWebhook)].

Section Routes.
Context {PF : Platform} {CP : CodeProvider} {SC : SecretCipher} {UL : UUIDLib} {JB : JsonBinding}
  {D : Type} {TD : TransferDispatcher D}.
Notation "'let+' x := m 'in' f" := (bindH m (fun x => f)) (at level 10, x binder, m at level 100, f at level 200).

(** ** Merchants *)

Section Merchants.
Context (o : ProtectedRoutesOptions) (c : Context).

Definition orElseB (b : option bool) (dflt : bool) : bool := match b with Some b => b | None => dflt end.

Definition handleCreateMerchant (body : option createMerchantRequest) : @H D Response :=
  let+ req := bound c body in
  let name := TrimSpace (mq_name req) in
  let+ _ := invalid c (isEmpty name) "name is required" in
  let autoAccount := orElseB (mq_auto_create_account_on_customer_create req) true in
  let autoCustomer := orElseB (mq_auto_create_customer_on_credit req) true in
  let+ m := liftH (CreateMerchant "" name) in
  match m with
  | Err _ => writeError c 500 "INTERNAL_ERROR" "create merchant failed"
  | Ok merchant =>
      let+ r := liftH (Repository.UpsertMerchantFeatureConfig (MerchantNo merchant) autoAccount autoCustomer) in
      match r with
      | Err _ => writeError c 500 "INTERNAL_ERROR" "save merchant feature config failed"
      | Ok _ =>
          let+ s := liftH (RotateSecret (MerchantNo merchant)) in
          match s with
          | Err _ => writeError c 500 "INTERNAL_ERROR" "rotate merchant secret failed"
          | Ok (secret, version) =>
              writeCreated c (JObj [("merchant_no", JStr (MerchantNo merchant)); ("merchant_secret", JStr secret);
                ("budget_account_no", JStr (BudgetAccountNo merchant));
                ("receivable_account_no", JStr (ReceivableAccountNo merchant));
                ("writeoff_account_no", JStr (WriteoffAccountNo merchant)); ("secret_version", JNum version);
                ("auto_create_account_on_customer_create", JBool autoAccount);
                ("auto_create_customer_on_credit", JBool autoCustomer)])
          end
      end
  end.

(** The parts of [GET /merchants/me], each there when its source is. *)
Definition meVersion (merchantNo : string) : @H D json :=
  if negb (o_rotator o) then retH (JNum 0) else
  let+ v := liftH (GetSecretVersion merchantNo) in
  match v with
  | Ok v => retH (JNum v)
  | Err _ => writeError c 500 "INTERNAL_ERROR" "load merchant secret version failed"
  end.

Definition meAccounts (merchantNo : string) : @H D (list (string * json)) :=
  match o_business o with
  | Some h =>
      if negb (h_merchants h) then retH [] else
      let+ m := knownMerchant c merchantNo in
      retH [("name", JStr (MName m)); ("budget_account_no", JStr (BudgetAccountNo m));
            ("receivable_account_no", JStr (ReceivableAccountNo m)); ("writeoff_account_no", JStr (WriteoffAccountNo m))]
  | None => retH []
  end.

Definition meFeatures (merchantNo : string) : @H D (list (string * json)) :=
  if negb (o_creator o) then retH [] else
  let+ r := liftH (Repository.GetMerchantFeatureConfig merchantNo) in
  match r with
  | Err _ => writeError c 500 "INTERNAL_ERROR" "load merchant feature config failed"
  | Ok f =>
      let cfg := default (mkMerchantFeatureConfig true true) f in
      retH [("auto_create_account_on_customer_create", JBool (AutoCreateAccountOnCustomerCreate cfg));
            ("auto_create_customer_on_credit", JBool (AutoCreateCustomerOnCredit cfg))]
  end.

Definition handleMe : @H D Response :=
  let+ merchantNo := contextMerchant c in
  let+ version := meVersion merchantNo in
  let+ accts := meAccounts merchantNo in
  let+ features := meFeatures merchantNo in
  writeSuccess c (JObj ([("merchant_no", JStr merchantNo); ("status", JStr "ACTIVE"); ("secret_version", version)]
                        ++ accts ++ features)%list).

Definition handleRotateSecret : @H D Response :=
  let+ merchantNo := contextMerchant c in
  let pathMerchantNo := TrimSpace (x_param c "merchant_no") in
  let+ _ := reject c (isEmpty pathMerchantNo || negb (String.eqb pathMerchantNo merchantNo)) 403 "INVALID_PARAM"
              "merchant_no mismatch" in
  let+ s := liftH (RotateSecret merchantNo) in
  match s with
  | Err _ => writeError c 500 "INTERNAL_ERROR" "rotate merchant secret failed"
  | Ok (secret, version) =>
      writeSuccess c (JObj [("merchant_no", JStr merchantNo); ("merchant_secret", JStr secret);
                            ("secret_version", JNum version)])
  end.
End Merchants.

(** ** Serving a request *)

Definition public (r : Route) : bool := match r with RHealthz | RCreateMerchant => true | _ => false end.

(** Whether [RegisterProtectedRoutes] registered the route. *)
Definition registered (o : ProtectedRoutesOptions) (r : Route) : bool :=
  match r with
  | RHealthz => true
  | RCreateMerchant => o_creator o && o_rotator o
  | RMe => bool_decide (is_Some (o_auth o))
  | RRotateSecret => bool_decide (is_Some (o_auth o)) && o_rotator o
  | _ => bool_decide (is_Some (o_auth o)) && bool_decide (is_Some (o_business o))
  end.

Definition bodyOf {A} (q : Request) (bind_ : string -> option A) : option A :=
  match q_body q with Some b => bind_ b | None => None end.

Definition noBusiness : BusinessHandler := mkBusinessHandler false false false false false false None false.

Definition handler (o : ProtectedRoutesOptions) (c : Context) (q : Request) (r : Route) : @H D Response :=
  let h := default noBusiness (o_business o) in
  match r with
  | RHealthz => retH (mkResponse 200 "SUCCESS" "ok" (x_requestID c) None)
  | RCreateMerchant => handleCreateMerchant c (bodyOf q bindMerchant)
  | RMe => handleMe o c
  | RRotateSecret => handleRotateSecret c
  | RCredit => handleCredit h c (bodyOf q bindCredit)
  | RDebit => handleDebit h c (bodyOf q bindDebit)
  | RTransfer => handleTransfer h c (bodyOf q bindTransfer)
  | RRefund => handleRefund h c (bodyOf q bindRefund)
  | RGetTxn => handleGetByTxnNo h c
  | RGetByOutTradeNo => handleGetByOutTradeNo h c
  | RListTransactions => handleListTransactions h c
  | RAccountChangeLogs => handleListAccountChangeLogs h c
  | RBalance => handleGetCustomerBalance h c
  | RBooks => handleListCustomerBooks h c
  | RBookChangeLogs => handleListBookCreditChangeLogs h c
  | RGetWebhook => handleGetWebhookConfig h c
  | RPutWebhook => handlePutWebhookConfig h c (bodyOf q bindWebhook)
  end.

(** The middleware before the handler: the merchant of the context. *)
Definition admitted (o : ProtectedRoutesOptions) (rid : string) (q : Request) (r : Route)
    : M (Result Response (option string)) :=
  if public r then ret (Ok None) else
  match o_auth o with
  | None => ret (Ok None)
  | Some cfg =>
      let! a := authenticate cfg rid q in
      ret (match a with Ok m => Ok (Some m) | Err resp => Err resp end)
  end.

(** [None]: no such route, and the router answers. *)
Definition serve (o : ProtectedRoutesOptions) (r : Route) (q : Request) (s : D) (w : World)
    : D * World * option Response :=
  if negb (registered o r) then (s, w, None) else
  match RequestIDMiddleware q w with
  | (w1, Err _) => (s, w1, None)
  | (w1, Ok rid) =>
      match admitted o rid q r w1 with
      | (w2, Ok (Ok m)) =>
          let '(s3, w3, resp) := runH (handler o (mkContext rid m (q_param q) (q_query q)) q r) s w2 in
          (s3, w3, Some resp)
      | (w2, Ok (Err resp)) => (s, w2, Some resp)
      | (w2, Err _) => (s, w2, None)
      end
  end.
End Routes.
