(* ===== verification/Wire.v ===== *)
(** * Requests and answers on the wire

    What the server reads of a request of the SDK, the text of what it answers
    ([writeSuccess], [writeError] of [internal/api/business.go]), and the SDK run
    against the wired routes in one state. *)

From S2P Require Import Prelude GoBase Domain Codes Encoding Calendar Json JsonDecode JsonProofs Store Queries Reads Secrets Ledger Repo Webhook Services TxnQuery Api Auth Router Url Client Sdk.
From stdpp Require Import base list strings.
From Stdlib Require Import ZArith Lia.

Local Open Scope string_scope.
Local Open Scope Z_scope.

(** ** Requests *)

(** A byte that may travel in a header. *)
Definition headerByte (c : Ascii.ascii) : bool := negb (isCTL c) || is_byte 9 c.

(** The request the server works on: the path and the query of the request
    line, the headers by name, the body (empty when none was sent), the path
    parameters the router takes from the path. *)
Definition received (params : string -> string -> string -> string) (req : HttpReq) : option Request :=
  if negb (forallb (fun kv => sforall headerByte kv.2) (h_header req)) then None else
  option_map (fun pq => mkRequest (h_method req) pq.1 (valuesGet (h_header req)) (Some (default "" (h_body req)))
                          (valuesGet (ParseQuery pq.2)) (params (h_method req) pq.1))
    (ParseRequestURI (RequestURI (h_url req))).

(** ** Answers *)

(** [c.JSON] of the map: code, message, request id and, on success, data. *)
Definition responseJson (r : Response) : json :=
  JObj ([("code", JStr (rcode r)); ("message", JStr (message r)); ("request_id", JStr (requestID r))]
        ++ match data r with Some j => [("data", j)] | None => [] end)%list.
Definition responseText (r : Response) : string := marshal (responseJson r).

(** What the SDK makes of an answer of the API. *)
Definition answered {A} (out : Decoder A) (r : Response) : Result sdkError A :=
  let code := if isEmptyText (rcode r) then "INVALID_RESPONSE" else rcode r in
  if negb (String.eqb code successCode) || (400 <=? httpCode r)
  then Err (EApi (mkAPIError (httpCode r) code (message r) (requestID r) (responseText r)))
  else match decodeStruct (d_store out) (d_zero out) (default VNull (valueOf <$> data r)) with
       | Some a => Ok a
       | None => Err (EWrap "decode response data")
       end.

Lemma responseJson_value r :
  valueOf (responseJson r) =
  VObj ([("code", VStr (rcode r))] ++ match data r with Some j => [("data", valueOf j)] | None => [] end
        ++ [("message", VStr (message r)); ("request_id", VStr (requestID r))])%list.
Proof. unfold responseJson. by destruct (data r). Qed.

(** An answer of the server in valid UTF-8 and within the limit is understood:
    as its data, or as an error with its status, code, message and request id. *)
Lemma readAnswer_response {A} (out : Decoder A) r :
  validText (responseJson r) = true -> nesting (responseJson r) <= maxNestingDepth ->
  slen (responseText r) <= maxResponseBodyBytes ->
  readAnswer out (httpCode r) (responseText r) = answered out r.
Proof.
  intros Hv Hn Hl. unfold readAnswer. rewrite (proj2 (Z.ltb_ge _ _)) by done.
  unfold Unmarshal. unfold responseText at 1. rewrite parse_marshal by done. rewrite responseJson_value.
  unfold answered. destruct (data r) as [j|]; reflexivity.
Qed.

(** ** Transactions *)

(** A transaction as the SDK shows it. *)
Definition txnShown (q : QueryTxn) : Txn :=
  mkTxn (QTxnNo q) (QOutTradeNo q) (QTitle q) (QRemark q) (QScene q) (QStatus q) (QAmount q) (QRefundableAmount q)
    (QDebitAccountNo q) (QCreditAccountNo q) (QErrorCode q) (QErrorMsg q) (QCreatedAt q).

(** Amounts of 64 bits, a year of four digits. *)
Definition sendable (q : QueryTxn) : Prop :=
  in64 (QAmount q) /\ in64 (QRefundableAmount q) /\ year_ok (QCreatedAt q).

Lemma toTxnResponse_value q :
  valueOf (toTxnResponse q) =
  VObj [("amount", VNum (FormatInt (QAmount q))); ("created_at", VStr (formatRFC3339Nano (QCreatedAt q)));
        ("credit_account_no", VStr (QCreditAccountNo q)); ("debit_account_no", VStr (QDebitAccountNo q));
        ("error_code", VStr (QErrorCode q)); ("error_msg", VStr (QErrorMsg q)); ("out_trade_no", VStr (QOutTradeNo q));
        ("refundable_amount", VNum (FormatInt (QRefundableAmount q))); ("remark", VStr (QRemark q));
        ("status", VStr (QStatus q)); ("title", VStr (QTitle q)); ("transfer_scene", VStr (QScene q));
        ("txn_no", VStr (QTxnNo q))].
Proof. reflexivity. Qed.

Lemma txn_decodes q : sendable q -> decodeStruct (d_store txnDecoder) (d_zero txnDecoder) (valueOf (toTxnResponse q)) = Some (txnShown q).
Proof.
  intros (Ha & Hr & Hy). rewrite toTxnResponse_value. unfold txnShown.
  pose proof (parse_formatNano _ Hy) as Hc. apply ParseInt_FormatInt in Ha, Hr.
  revert Hc Ha Hr. generalize (formatRFC3339Nano (QCreatedAt q)) (FormatInt (QAmount q)) (FormatInt (QRefundableAmount q)).
  intros c a r Hc Ha Hr. cbv -[parseRFC3339 ParseInt QAmount QCreatedAt QCreditAccountNo QDebitAccountNo QErrorCode QErrorMsg
    QOutTradeNo QRefundableAmount QRemark QStatus QTitle QScene QTxnNo]. by rewrite Ha, Hc, Hr.
Qed.

(** ** The SDK online

    The process of the SDK and the server behind it in one state: the clock and
    the random reads of the client, the state of the dispatcher and the world of
    the server.  The router of the library is an interface. *)

Class MerchantRouter : Type := { routeOf : string -> string -> option (Route * (string -> string)) }.

Section Online.
Context {PF : Platform} {CP : CodeProvider} {SC : Secrets.SecretCipher} {UL : UUIDLib} {JB : JsonBinding}
  {D : Type} {TD : TransferDispatcher D} {MR : MerchantRouter} (o : ProtectedRoutesOptions).

Record Online : Type := mkOnline { on_clock : Time; on_random : list Z; on_state : D; on_world : Store.World }.

Definition routeParams (method path : string) : string -> string :=
  match routeOf method path with Some (_, param) => param | None => fun _ => "" end.

(** What the router answers itself. *)
Definition notFound : Z * string * bool := (404, "404 page not found", false).

Definition exchange (req : HttpReq) (e : Online) : Online * Result string (Z * string * bool) :=
  match received routeParams req with
  | None => (e, Err "malformed request")
  | Some q =>
      match routeOf (q_method q) (q_path q) with
      | None => (e, Ok notFound)
      | Some (r, _) =>
          let '(s, w, resp) := serve o r q (on_state e) (on_world e) in
          (mkOnline (on_clock e) (on_random e) s w,
           Ok (match resp with Some resp => (httpCode resp, responseText resp, false) | None => notFound end))
      end
  end.

#[local] Instance online : SdkEnv Online unit := {
  defaultTransport := tt;
  env_now e := (e, on_clock e);
  env_random e := match on_random e with
                  | [] => (e, None)
                  | r :: rs => (mkOnline (on_clock e) rs (on_state e) (on_world e), Some (bytes_be 16 r))
                  end;
  env_do _ req e := exchange req e
}.
End Online.
Arguments online {_ _ _ _ _ _ _ _} o.
