(* ===== verification/AdminAuth.v ===== *)
(** * Sessions of the admin console ([internal/api/admin_auth.go])

    Signed tokens, the middleware that admits a request with one, and logging
    in.  A token is a header, the claims and their HMAC under the secret of the
    server, each in base64, joined by dots. *)

From S2P Require Import Prelude GoBase Domain Codes Encoding Calendar Json JsonDecode Store Queries Reads Ledger Repo AdminRepo Services TxnQuery Api Auth.
From stdpp Require Import base gmap list strings.
From Stdlib Require Import ZArith Lia.

Local Open Scope string_scope.
Local Open Scope Z_scope.

(** ** [strings.EqualFold] *)

(** Against a text of ASCII letters. *)
Definition EqualFold (s t : string) : bool := String.eqb (foldName s) (foldName t).

(** ** Tokens *)

Definition adminTokenTypeAccess := "access".
Definition adminTokenTypeRefresh := "refresh".

Record adminTokenClaims : Type := mkClaims { Subject : string; TokenType : string; IssuedAt : Z; ExpiresAt : Z }.

Record adminTokenManager : Type := mkTokenManager { tm_secret : string; accessTTL : Duration; refreshTTL : Duration }.

Definition newAdminTokenManager (secret : string) (access refresh : Duration) : Result error adminTokenManager :=
  let fixedSecret := TrimSpace secret in
  if isEmpty fixedSecret then Err (ErrText "admin jwt secret is required")
  else Ok (mkTokenManager fixedSecret (if access <=? 0 then 30 * Minute else access)
             (if refresh <=? 0 then 7 * (24 * Hour) else refresh)).

(** [t.Unix()]. *)
Definition Unix (t : Time) : Z := wrap64 (t / 1000000000).

Definition claimsText (c : adminTokenClaims) : string :=
  marshalStruct [("sub", marshalString (Subject c)); ("typ", marshalString (TokenType c));
                 ("iat", FormatInt (IssuedAt c)); ("exp", FormatInt (ExpiresAt c))].

Definition headerText : string := marshal (JObj [("alg", JStr "HS256"); ("typ", JStr "JWT")]).

Definition storeClaim (key : string) (v : jval) (c : adminTokenClaims) : option adminTokenClaims :=
  if String.eqb key "SUB" then option_map (fun x => mkClaims x (TokenType c) (IssuedAt c) (ExpiresAt c)) (storeString v (Subject c))
  else if String.eqb key "TYP" then option_map (fun x => mkClaims (Subject c) x (IssuedAt c) (ExpiresAt c)) (storeString v (TokenType c))
  else if String.eqb key "IAT" then option_map (fun x => mkClaims (Subject c) (TokenType c) x (ExpiresAt c)) (storeInt64 v (IssuedAt c))
  else if String.eqb key "EXP" then option_map (fun x => mkClaims (Subject c) (TokenType c) (IssuedAt c) x) (storeInt64 v (ExpiresAt c))
  else Some c.

Section Tokens.
Context (m : adminTokenManager).

Definition signRaw (signed : string) : string := b64Encode (hmac_sha256 (tm_secret m) signed).

Definition sign (claims : adminTokenClaims) : string :=
  let signed := b64Encode headerText ++ "." ++ b64Encode (claimsText claims) in
  signed ++ "." ++ signRaw signed.

Record tokenPair : Type := mkTokenPair {
  accessToken : string; refreshToken : string; accessExpireAt : Time; refreshExpireAt : Time
}.

Definition IssueTokenPair (username : string) : M tokenPair :=
  let fixedUsername := TrimSpace username in
  if isEmpty fixedUsername then throw (ErrText "username is required") else
  let! now := timeNow in
  let accessAt := timeAdd now (accessTTL m) in
  let refreshAt := timeAdd now (refreshTTL m) in
  ret (mkTokenPair (sign (mkClaims fixedUsername adminTokenTypeAccess (Unix now) (Unix accessAt)))
                   (sign (mkClaims fixedUsername adminTokenTypeRefresh (Unix now) (Unix refreshAt))) accessAt refreshAt).

(** The claims of a token whose signature is right. *)
Definition verifiedClaims (token : string) : Result string adminTokenClaims :=
  match splitOn 46 (TrimSpace token) with
  | [header; payload; signature] =>
      if negb (String.eqb (signRaw (header ++ "." ++ payload)) signature) then Err "invalid token signature" else
      match b64Decode payload with
      | None => Err "invalid token payload"
      | Some raw =>
          match Unmarshal storeClaim (mkClaims "" "" 0 0) raw with
          | None => Err "invalid token claims"
          | Some claims => Ok claims
          end
      end
  | _ => Err "invalid token format"
  end.

Definition ParseAndValidate (token expectedType : string) : M (Result string adminTokenClaims) :=
  match verifiedClaims token with
  | Err e => ret (Err e)
  | Ok claims =>
      if isEmpty (TrimSpace (Subject claims)) then ret (Err "invalid token subject") else
      if negb (String.eqb (TrimSpace (TokenType claims)) (TrimSpace expectedType)) then ret (Err "invalid token type") else
      let! now := timeNow in
      if ExpiresAt claims <=? Unix now then ret (Err "token expired") else ret (Ok claims)
  end.

(** ** The middleware: the subject of the token, or the response of the abort *)

Definition adminMiddleware (rid : string) (q : Request) : M (Result Response string) :=
  let authz := TrimSpace (q_header q "Authorization") in
  if isEmpty authz then abortWithCode rid 401 "ADMIN_AUTH_REQUIRED" "missing authorization header" else
  match cutAt 32 authz with
  | Some (scheme, token) =>
      if negb (EqualFold (TrimSpace scheme) "Bearer")
      then abortWithCode rid 401 "ADMIN_AUTH_REQUIRED" "invalid authorization header" else
      let! r := ParseAndValidate (TrimSpace token) adminTokenTypeAccess in
      match r with
      | Ok claims => ret (Ok (Subject claims))
      | Err msg => abortWithCode rid 401 "ADMIN_AUTH_INVALID" msg
      end
  | None => abortWithCode rid 401 "ADMIN_AUTH_REQUIRED" "invalid authorization header"
  end.
End Tokens.

(** The name the middleware left in the context. *)
Definition adminUsernameFromContext (user : option string) : option string :=
  match user with
  | Some s => let t := TrimSpace s in if isEmpty t then None else Some t
  | None => None
  end.

(** ** The controller *)

(** [golang.org/x/crypto/bcrypt]: a hash is printable and matches the password
    it was made of. *)
Class Bcrypt : Type := {
  GenerateFromPassword : string -> M string;
  CompareHashAndPassword : string -> string -> bool;
  generate_keeps : forall p, keeps (GenerateFromPassword p);
  generated_matches : forall p w w' h, GenerateFromPassword p w = (w', Ok h) ->
    CompareHashAndPassword h p = true /\ h <> "" /\ sforall graphic h = true
}.

Record adminLoginRequest : Type := mkAdminLoginRequest { lq_username : string; lq_password : string }.
Record adminRefreshRequest : Type := mkAdminRefreshRequest { fq_refresh_token : string }.

Section Controller.
Context {BC : Bcrypt} {D : Type}.
Notation "'let+' x := m 'in' f" := (bindH m (fun x => f)) (at level 10, x binder, m at level 100, f at level 200).

Definition BootstrapDefaultUser (username password : string) : M unit :=
  let fixedUsername := TrimSpace username in
  let fixedPassword := TrimSpace password in
  if isEmpty fixedUsername || isEmpty fixedPassword then throw (ErrText "admin bootstrap credentials are required") else
  let! r := attempt (GenerateFromPassword fixedPassword) in
  match r with
  | Err e => throw (ErrWrap "hash admin password" e)
  | Ok hash => AdminRepository.EnsureAdminUser fixedUsername hash
  end.

Section Requests.
Context (m : adminTokenManager) (c : Context).

(** The answer of [handleLogin] and [handleRefresh]: a new pair of tokens. *)
Definition issueTokens (username : string) : @H D Response :=
  let+ r := liftH (IssueTokenPair m username) in
  match r with
  | Err _ => writeError c 500 "INTERNAL_ERROR" "issue token failed"
  | Ok p => writeSuccess c (JObj
      [("access_token", JStr (accessToken p)); ("refresh_token", JStr (refreshToken p)); ("token_type", JStr "Bearer");
       ("access_token_expires_at", JStr (formatRFC3339 (accessExpireAt p)));
       ("refresh_token_expires_at", JStr (formatRFC3339 (refreshExpireAt p)));
       ("user", JObj [("username", JStr username)])])
  end.

(** The user, if there is one and it is active. *)
Definition activeUser (username refused : string) : @H D AdminUser :=
  let+ r := liftH (AdminRepository.GetAdminUserByUsername username) in
  match r with
  | Err _ => writeError c 500 "INTERNAL_ERROR" "load admin user failed"
  | Ok (Some user) =>
      if EqualFold (TrimSpace (UStatus user)) "ACTIVE" then retH user else writeError c 401 "ADMIN_AUTH_INVALID" refused
  | Ok None => writeError c 401 "ADMIN_AUTH_INVALID" refused
  end.

Definition handleLogin (body : option adminLoginRequest) : @H D Response :=
  let+ req := bound c body in
  let username := TrimSpace (lq_username req) in
  let password := TrimSpace (lq_password req) in
  let+ _ := invalid c (isEmpty username || isEmpty password) "username and password are required" in
  let+ user := activeUser username "invalid username or password" in
  let+ _ := reject c (negb (CompareHashAndPassword (PasswordHash user) password)) 401 "ADMIN_AUTH_INVALID"
              "invalid username or password" in
  issueTokens (Username user).

Definition handleRefresh (body : option adminRefreshRequest) : @H D Response :=
  let+ req := bound c body in
  let token := TrimSpace (fq_refresh_token req) in
  let+ _ := invalid c (isEmpty token) "refresh_token is required" in
  let+ r := liftH (ParseAndValidate m token adminTokenTypeRefresh) in
  match r with
  | Ok (Ok claims) =>
      let+ user := activeUser (Subject claims) "admin user inactive" in
      issueTokens (Username user)
  | Ok (Err msg) => writeError c 401 "ADMIN_AUTH_INVALID" msg
  | Err _ => writeError c 500 "INTERNAL_ERROR" "issue token failed"
  end.

Definition handleAdminMe (user : option string) : @H D Response :=
  match adminUsernameFromContext user with
  | None => writeError c 401 "ADMIN_AUTH_INVALID" "admin context missing"
  | Some username => writeSuccess c (JObj [("username", JStr username)])
  end.

Definition handleLogout : @H D Response := writeSuccess c (JObj [("ok", JBool true)]).
End Requests.
End Controller.
