(* ===== verification/AdminSetup.v ===== *)
(** * First setup of the console ([internal/api/admin_setup.go])

    One administrator and one merchant are made under a lock, once.  A setup
    that fails half way is taken up again by the next. *)

From S2P Require Import Prelude GoBase Domain Codes Encoding Json Store Queries Reads Secrets Ledger Repo AdminRepo Services TxnQuery Api AdminAuth.
From stdpp Require Import base gmap list strings.
From Stdlib Require Import ZArith Lia.

Local Open Scope string_scope.
Local Open Scope Z_scope.

Definition errAdminSetupAlreadyInitialized : error := ErrText "admin setup already initialized".
Definition errAdminSetupAdminUserExists : error := ErrText "admin user already exists".

Record adminSetupInitializeRequest : Type := mkSetupRequest {
  sq_username : string; sq_password : string; sq_merchant_name : string; sq_webhook_url : string
}.

Section Setup.
Context {PF : Platform} {CP : CodeProvider} {SC : SecretCipher} {BC : Bcrypt} {D : Type}.
Notation "'let+' x := m 'in' f" := (bindH m (fun x => f)) (at level 10, x binder, m at level 100, f at level 200).

Definition trimmedRequest (q : adminSetupInitializeRequest) : adminSetupInitializeRequest :=
  mkSetupRequest (TrimSpace (sq_username q)) (TrimSpace (sq_password q)) (TrimSpace (sq_merchant_name q))
    (TrimSpace (sq_webhook_url q)).

(** The administrator: a known name gets the new password. *)
Definition setupUser (username password : string) : M unit :=
  let! existing := AdminRepository.GetAdminUserByUsername username in
  let! passwordHash := GenerateFromPassword password in
  match existing with
  | Some user => AdminRepository.EnsureAdminUser (Username user) passwordHash
  | None =>
      let! r := attempt (AdminRepository.CreateAdminUser username passwordHash) in
      match r with
      | Ok _ => ret tt
      | Err e => throw (if errors_is e ErrAdminUserExists then errAdminSetupAdminUserExists else e)
      end
  end.

(** The merchant of an earlier attempt, or a new one. *)
Definition setupMerchant (username merchantName defaultMerchantNo : string) : M Merchant :=
  let merchantNo := TrimSpace defaultMerchantNo in
  let! known := Repository.GetMerchantByNo merchantNo in
  match (if isEmpty merchantNo then None else known) with
  | Some m => ret (mkMerchant (MerchantID m) merchantNo (MName m) (BudgetAccountNo m) (ReceivableAccountNo m) (WriteoffAccountNo m))
  | None =>
      let! created := CreateMerchant "" merchantName in
      do! AdminRepository.SaveAdminSetupProgress username (MerchantNo created) in
      ret created
  end.

(** What runs under the lock. *)
Definition initializeBody (req : adminSetupInitializeRequest) : M json :=
  let! state := AdminRepository.GetAdminSetupState in
  if Initialized state then throw errAdminSetupAlreadyInitialized else
  do! setupUser (sq_username req) (sq_password req) in
  do! AdminRepository.SaveAdminSetupProgress (sq_username req) (DefaultMerchantNo state) in
  let! merchant := setupMerchant (sq_username req) (sq_merchant_name req) (DefaultMerchantNo state) in
  let merchantNo := MerchantNo merchant in
  do! Repository.UpsertMerchantFeatureConfig merchantNo true true in
  do! Repository.UpsertWebhookConfig merchantNo (sq_webhook_url req) (negb (isEmpty (sq_webhook_url req))) in
  let! secret := RotateSecret merchantNo in
  do! AdminRepository.MarkAdminSetupInitialized (sq_username req) merchantNo in
  ret (JObj [("admin_username", JStr (sq_username req)); ("merchant_no", JStr merchantNo);
             ("merchant_secret", JStr secret.1); ("secret_version", JNum secret.2);
             ("budget_account_no", JStr (BudgetAccountNo merchant));
             ("receivable_account_no", JStr (ReceivableAccountNo merchant))]).

Section Requests.
Context (c : Context).

Definition handleStatus : @H D Response :=
  let+ r := liftH AdminRepository.GetAdminSetupState in
  match r with
  | Err _ => writeError c 500 "INTERNAL_ERROR" "load admin setup state failed"
  | Ok state => writeSuccess c (JObj [("initialized", JBool (Initialized state))])
  end.

Definition handleInitialize (body : option adminSetupInitializeRequest) : @H D Response :=
  let+ req := bound c body in
  let req := trimmedRequest req in
  let+ _ := invalid c (negb (isUsername (sq_username req))) "invalid admin_username" in
  let+ _ := invalid c ((slen (sq_password req) <? 8) || (72 <? slen (sq_password req)))
              "admin_password length must be 8~72" in
  let+ _ := invalid c (isEmpty (sq_merchant_name req)) "merchant_name is required" in
  let+ _ := invalid c (negb (isEmpty (sq_webhook_url req)) && negb (HasPrefix (ToLower (sq_webhook_url req)) "https://"))
              "merchant_webhook_url must be https" in
  let+ r := liftH (AdminRepository.WithAdminSetupLock (initializeBody req)) in
  match r with
  | Ok result => writeCreated c result
  | Err e =>
      if errors_is e errAdminSetupAlreadyInitialized
      then writeError c 409 "ADMIN_SETUP_ALREADY_INITIALIZED" "admin setup already initialized"
      else if errors_is e errAdminSetupAdminUserExists
      then writeError c 409 "ADMIN_SETUP_ADMIN_USER_EXISTS" "admin user already exists"
      else writeError c 500 "INTERNAL_ERROR" "admin setup initialize failed"
  end.
End Requests.
End Setup.
