(* ===== verification/AdminRoutes.v ===== *)
(** * Handlers of the admin console ([internal/api/admin_routes.go])

    Merchants, customers and accounts; [AdminTxns] has the transactions and
    the logs.  A handler that writes leaves a row in the audit log. *)

From S2P Require Import Prelude GoBase Domain Codes Encoding Calendar Json Store Queries Reads Secrets Ledger Repo AdminRepo Services TxnQuery Api AdminAuth.
From stdpp Require Import base gmap list strings.
From Stdlib Require Import ZArith Lia.

Local Open Scope string_scope.
Local Open Scope Z_scope.

(** Which dependencies are there; the query service is [h.query]. *)
Record AdminHandler : Type := mkAdminHandler {
  ah_repo : bool; ah_merchants : bool; ah_customers : bool; ah_transfer : bool; ah_router : bool;
  ah_async : bool; ah_resolver : bool; ah_query : option TxnQueryService; ah_rotator : bool
}.

(** ** Requests *)

Record adminCreateMerchantRequest : Type := mkAdminCreateMerchantRequest {
  am_name : string; am_auto_account : option bool; am_auto_customer : option bool
}.
Record adminPatchMerchantFeatureRequest : Type := mkAdminPatchMerchantFeatureRequest {
  pf_auto_account : option bool; pf_auto_customer : option bool
}.
Record adminWebhookConfigRequest : Type := mkAdminWebhookConfigRequest { aw_url : string; aw_enabled : bool }.
Record adminCreateCustomerRequest : Type := mkAdminCreateCustomerRequest { ac_merchant_no : string; ac_out_user_id : string }.
Record adminAccountCapability : Type := mkAdminAccountCapability {
  ca_overdraft : option bool; ca_max_overdraft : option Z; ca_transfer : option bool; ca_credit_in : option bool;
  ca_debit_out : option bool; ca_book : option bool
}.
Record adminCreateAccountRequest : Type := mkAdminCreateAccountRequest {
  aa_merchant_no : string; aa_owner_type : string; aa_owner_out_user_id : string; aa_owner_customer_no : string;
  aa_account_type : string; aa_capability : adminAccountCapability
}.
Record adminPatchAccountCapabilityRequest : Type := mkAdminPatchAccountCapabilityRequest {
  pc_transfer : option bool; pc_credit_in : option bool; pc_debit_out : option bool
}.

(** *** What [json.Marshal] makes of them, for the audit log *)

Definition boolText (b : bool) : string := if b then "true" else "false".
Definition orNull {A} (f : A -> string) (o : option A) : string := match o with Some a => f a | None => "null" end.

Definition createMerchantText (q : adminCreateMerchantRequest) : string :=
  marshalStruct [("name", marshalString (am_name q));
                 ("auto_create_account_on_customer_create", orNull boolText (am_auto_account q));
                 ("auto_create_customer_on_credit", orNull boolText (am_auto_customer q))].
Definition patchFeatureText (q : adminPatchMerchantFeatureRequest) : string :=
  marshalStruct [("auto_create_account_on_customer_create", orNull boolText (pf_auto_account q));
                 ("auto_create_customer_on_credit", orNull boolText (pf_auto_customer q))].
Definition webhookConfigText (q : adminWebhookConfigRequest) : string :=
  marshalStruct [("url", marshalString (aw_url q)); ("enabled", boolText (aw_enabled q))].
Definition createCustomerText (q : adminCreateCustomerRequest) : string :=
  marshalStruct [("merchant_no", marshalString (ac_merchant_no q)); ("out_user_id", marshalString (ac_out_user_id q))].
Definition capabilityText (q : adminAccountCapability) : string :=
  marshalStruct [("allow_overdraft", orNull boolText (ca_overdraft q)); ("max_overdraft_limit", orNull FormatInt (ca_max_overdraft q));
                 ("allow_transfer", orNull boolText (ca_transfer q)); ("allow_credit_in", orNull boolText (ca_credit_in q));
                 ("allow_debit_out", orNull boolText (ca_debit_out q)); ("book_enabled", orNull boolText (ca_book q))].
Definition createAccountText (q : adminCreateAccountRequest) : string :=
  marshalStruct [("merchant_no", marshalString (aa_merchant_no q)); ("owner_type", marshalString (aa_owner_type q));
                 ("owner_out_user_id", marshalString (aa_owner_out_user_id q));
                 ("owner_customer_no", marshalString (aa_owner_customer_no q));
                 ("account_type", marshalString (aa_account_type q)); ("capability", capabilityText (aa_capability q))].
Definition patchCapabilityText (q : adminPatchAccountCapabilityRequest) : string :=
  marshalStruct [("allow_transfer", orNull boolText (pc_transfer q)); ("allow_credit_in", orNull boolText (pc_credit_in q));
                 ("allow_debit_out", orNull boolText (pc_debit_out q))].

(** [-1] for a text that is no page size. *)
Definition parsePageSize (raw : string) (fallback max : Z) : Z :=
  let fallback := if fallback <=? 0 then 20 else fallback in
  let max := if max <=? 0 then 200 else max in
  let fixed := TrimSpace raw in
  if isEmpty fixed then fallback else
  match ParseInt fixed with
  | None => -1
  | Some v => if v <=? 0 then -1 else if max <? v then max else v
  end.

Section Handlers.
Context {PF : Platform} {PT : PgText} {CP : CodeProvider} {SC : SecretCipher} {UL : UUIDLib} {D : Type}.
Context (h : AdminHandler) (c : Context) (user : option string).
Notation "'let+' x := m 'in' f" := (bindH m (fun x => f)) (at level 10, x binder, m at level 100, f at level 200).

(** [h.audit], of an action that succeeded: the operator is the user of the
    context, and the error of the insertion is dropped. *)
Definition audit (action targetType targetID merchantNo : string) (payload : option string) : @H D unit :=
  if negb (ah_repo h) then retH tt else
  let operator := match adminUsernameFromContext user with Some u => u | None => "unknown" end in
  let+ _ := liftH (AdminRepository.InsertAdminAuditLog
              (mkAdminAuditLog (x_requestID c) operator action targetType targetID merchantNo payload "SUCCESS" "ok")) in
  retH tt.

Definition adminConfigured (b : bool) : @H D unit := reject c (negb b) 500 "INTERNAL_ERROR" "admin handler not configured".

(** A call whose only error is a failure of the server. *)
Definition orInternal {A} (msg : string) (m : M A) : @H D A :=
  let+ r := liftH m in
  match r with Ok a => retH a | Err _ => writeError c 500 "INTERNAL_ERROR" msg end.

Definition query (name : string) : string := TrimSpace (x_query c name).

(** A trimmed path parameter that must be there. *)
Definition param (name : string) : @H D string :=
  let v := TrimSpace (x_param c name) in
  let+ _ := invalid c (isEmpty v) (name +:+ " is required") in retH v.

Definition pageSizeParam : @H D Z :=
  let n := parsePageSize (x_query c "page_size") 20 200 in
  let+ _ := invalid c (n <=? 0) "invalid page_size" in retH n.

(** ** The dashboard *)

Definition handleDashboardOverview : @H D Response :=
  let+ _ := adminConfigured (ah_repo h) in
  let+ stats := orInternal "load dashboard stats failed" (AdminRepository.GetAdminDashboardStats (query "merchant_no")) in
  writeSuccess c (JObj
    [("merchant_count", JNum (MerchantCount stats)); ("customer_count", JNum (CustomerCount stats));
     ("account_count", JNum (AccountCount stats));
     ("outbox", JObj [("PENDING", JNum (OutboxPendingCount stats)); ("PROCESSING", JNum (OutboxProcessingCount stats));
                      ("DEAD", JNum (OutboxDeadCount stats))])]).

(** ** Merchants *)

Definition orDefault {A} (o : option A) (dflt : A) : A := match o with Some a => a | None => dflt end.

Definition handleAdminCreateMerchant (body : option adminCreateMerchantRequest) : @H D Response :=
  let+ _ := reject c (negb (ah_merchants h && ah_rotator h)) 500 "INTERNAL_ERROR" "admin merchant service not configured" in
  let+ req := bound c body in
  let name := TrimSpace (am_name req) in
  let+ _ := invalid c (isEmpty name) "name is required" in
  let autoAccount := orDefault (am_auto_account req) true in
  let autoCustomer := orDefault (am_auto_customer req) true in
  let+ merchant := orInternal "create merchant failed" (CreateMerchant "" name) in
  let+ _ := orInternal "save merchant feature config failed"
              (Repository.UpsertMerchantFeatureConfig (MerchantNo merchant) autoAccount autoCustomer) in
  let+ secret := orInternal "rotate merchant secret failed" (RotateSecret (MerchantNo merchant)) in
  let+ _ := audit "MERCHANT_CREATE" "MERCHANT" (MerchantNo merchant) (MerchantNo merchant)
              (Some (createMerchantText (mkAdminCreateMerchantRequest name (am_auto_account req) (am_auto_customer req)))) in
  writeCreated c (JObj
    [("merchant_no", JStr (MerchantNo merchant)); ("merchant_secret", JStr secret.1);
     ("budget_account_no", JStr (BudgetAccountNo merchant)); ("receivable_account_no", JStr (ReceivableAccountNo merchant));
     ("writeoff_account_no", JStr (WriteoffAccountNo merchant)); ("secret_version", JNum secret.2);
     ("auto_create_account_on_customer_create", JBool autoAccount);
     ("auto_create_customer_on_credit", JBool autoCustomer)]).

Definition merchantItem (m : Merchant) : json :=
  JObj [("merchant_no", JStr (MerchantNo m)); ("name", JStr (MName m));
        ("budget_account_no", JStr (BudgetAccountNo m)); ("receivable_account_no", JStr (ReceivableAccountNo m));
        ("writeoff_account_no", JStr (WriteoffAccountNo m))].

Definition handleAdminListMerchants : @H D Response :=
  let+ _ := adminConfigured (ah_repo h) in
  let+ pageSize := pageSizeParam in
  let+ r := orInternal "list merchants failed" (AdminRepository.ListMerchantsForAdmin (query "page_token") pageSize) in
  writeSuccess c (pageOf (map merchantItem r.1) r.2).

Definition featuresOf (o : option MerchantFeatureConfig) : MerchantFeatureConfig :=
  orDefault o (mkMerchantFeatureConfig true true).

Definition handleAdminGetMerchant : @H D Response :=
  let+ _ := adminConfigured (ah_merchants h) in
  let+ merchantNo := param "merchant_no" in
  let+ m := knownMerchant c merchantNo in
  let+ f := orInternal "load merchant feature config failed" (Repository.GetMerchantFeatureConfig merchantNo) in
  let featureCfg := featuresOf f in
  let+ secretVersion :=
    (if ah_rotator h then orInternal "load merchant secret version failed" (GetSecretVersion merchantNo) else retH 0) in
  let+ w := orInternal "load webhook config failed" (Repository.GetWebhookConfig merchantNo) in
  let webhookCfg := orDefault w (mkWebhookConfig "" false) in
  writeSuccess c (JObj
    [("merchant_no", JStr (MerchantNo m)); ("name", JStr (MName m)); ("status", JStr "ACTIVE");
     ("budget_account_no", JStr (BudgetAccountNo m)); ("receivable_account_no", JStr (ReceivableAccountNo m));
     ("writeoff_account_no", JStr (WriteoffAccountNo m)); ("secret_version", JNum secretVersion);
     ("auto_create_account_on_customer_create", JBool (AutoCreateAccountOnCustomerCreate featureCfg));
     ("auto_create_customer_on_credit", JBool (AutoCreateCustomerOnCredit featureCfg));
     ("webhook", JObj [("url", JStr (URL webhookCfg)); ("enabled", JBool (Enabled webhookCfg))])]).

Definition handleAdminPatchMerchantFeatures (body : option adminPatchMerchantFeatureRequest) : @H D Response :=
  let+ _ := adminConfigured (ah_merchants h) in
  let+ merchantNo := param "merchant_no" in
  let+ _ := knownMerchant c merchantNo in
  let+ req := bound c body in
  let+ f := orInternal "load merchant feature config failed" (Repository.GetMerchantFeatureConfig merchantNo) in
  let cfg := featuresOf f in
  let autoAccount := orDefault (pf_auto_account req) (AutoCreateAccountOnCustomerCreate cfg) in
  let autoCustomer := orDefault (pf_auto_customer req) (AutoCreateCustomerOnCredit cfg) in
  let+ _ := orInternal "save merchant feature config failed"
              (Repository.UpsertMerchantFeatureConfig merchantNo autoAccount autoCustomer) in
  let+ _ := audit "MERCHANT_FEATURE_PATCH" "MERCHANT" merchantNo merchantNo (Some (patchFeatureText req)) in
  writeSuccess c (JObj [("merchant_no", JStr merchantNo);
                        ("auto_create_account_on_customer_create", JBool autoAccount);
                        ("auto_create_customer_on_credit", JBool autoCustomer)]).

Definition handleAdminRotateMerchantSecret : @H D Response :=
  let+ _ := adminConfigured (ah_rotator h && ah_merchants h) in
  let+ merchantNo := param "merchant_no" in
  let+ _ := knownMerchant c merchantNo in
  let+ secret := orInternal "rotate merchant secret failed" (RotateSecret merchantNo) in
  let+ _ := audit "MERCHANT_SECRET_ROTATE" "MERCHANT" merchantNo merchantNo None in
  writeSuccess c (JObj [("merchant_no", JStr merchantNo); ("merchant_secret", JStr secret.1);
                        ("secret_version", JNum secret.2)]).

Definition handleAdminGetWebhookConfig : @H D Response :=
  let+ _ := adminConfigured (ah_repo h) in
  let+ merchantNo := param "merchant_no" in
  let+ w := orInternal "load webhook config failed" (Repository.GetWebhookConfig merchantNo) in
  let cfg := orDefault w (mkWebhookConfig "" false) in
  writeSuccess c (JObj [("merchant_no", JStr merchantNo); ("url", JStr (URL cfg)); ("enabled", JBool (Enabled cfg))]).

Definition handleAdminPutWebhookConfig (body : option adminWebhookConfigRequest) : @H D Response :=
  let+ _ := adminConfigured (ah_repo h) in
  let+ merchantNo := param "merchant_no" in
  let+ req := bound c body in
  let url := TrimSpace (aw_url req) in
  let+ _ := invalid c (negb (HasPrefix (ToLower url) "https://")) "url must be https" in
  let+ _ := orInternal "save webhook config failed" (Repository.UpsertWebhookConfig merchantNo url (aw_enabled req)) in
  let+ _ := audit "WEBHOOK_UPDATE" "MERCHANT" merchantNo merchantNo
              (Some (webhookConfigText (mkAdminWebhookConfigRequest url (aw_enabled req)))) in
  writeSuccess c (JObj [("merchant_no", JStr merchantNo); ("url", JStr url); ("enabled", JBool (aw_enabled req))]).

(** ** Customers *)

Definition customerItem (r : AdminCustomerRow) : json :=
  JObj [("customer_no", JStr (CuCustomerNo r)); ("merchant_no", JStr (CuMerchantNo r));
        ("out_user_id", JStr (CuOutUserID r)); ("default_account_no", JStr (CuDefaultAccountNo r));
        ("status", JStr "ACTIVE"); ("created_at", JStr (formatRFC3339Nano (CuCreatedAt r)))].

Definition handleAdminListCustomers : @H D Response :=
  let+ _ := adminConfigured (ah_repo h) in
  let+ pageSize := pageSizeParam in
  let+ r := orInternal "list customers failed" (AdminRepository.ListCustomersForAdmin
              (mkAdminCustomerFilter (query "merchant_no") (query "out_user_id") (query "customer_no")
                 (query "page_token") pageSize)) in
  writeSuccess c (pageOf (map customerItem r.1) r.2).

Definition handleAdminCreateCustomer (body : option adminCreateCustomerRequest) : @H D Response :=
  let+ _ := adminConfigured (ah_customers h && ah_merchants h) in
  let+ req := bound c body in
  let merchantNo := TrimSpace (ac_merchant_no req) in
  let outUserID := TrimSpace (ac_out_user_id req) in
  let+ _ := invalid c (isEmpty merchantNo || isEmpty outUserID) "merchant_no and out_user_id are required" in
  let+ _ := knownMerchant c merchantNo in
  let+ r := liftH (CreateCustomer merchantNo outUserID) in
  match r with
  | Err e =>
      if errors_is e ErrCustomerExists then writeError c 409 "CUSTOMER_EXISTS" "customer already exists"
      else writeError c 500 "INTERNAL_ERROR" "create customer failed"
  | Ok customer =>
      let+ _ := audit "CUSTOMER_CREATE" "CUSTOMER" (CustomerNo customer) merchantNo
                  (Some (createCustomerText (mkAdminCreateCustomerRequest merchantNo outUserID))) in
      writeCreated c (JObj [("customer_no", JStr (CustomerNo customer)); ("merchant_no", JStr (CMerchantNo customer));
                            ("out_user_id", JStr (OutUserID customer))])
  end.

Definition handleAdminGetCustomerByOutUserID : @H D Response :=
  let+ _ := adminConfigured (ah_customers h) in
  let merchantNo := query "merchant_no" in
  let outUserID := query "out_user_id" in
  let+ _ := invalid c (isEmpty merchantNo || isEmpty outUserID) "merchant_no and out_user_id are required" in
  let+ customer := liftO (Repository.GetCustomerByOutUserID merchantNo outUserID) in
  match customer with
  | None => writeError c 404 "CUSTOMER_NOT_FOUND" "customer not found"
  | Some customer =>
      writeSuccess c (JObj [("customer_no", JStr (CustomerNo customer)); ("merchant_no", JStr (CMerchantNo customer));
                            ("out_user_id", JStr (OutUserID customer)); ("status", JStr "ACTIVE")])
  end.

(** ** Accounts *)

Definition accountItem (a : AdminAccountRow) : json :=
  JObj [("account_no", JStr (AcAccountNo a)); ("merchant_no", JStr (AcMerchantNo a)); ("customer_no", JStr (AcCustomerNo a));
        ("owner_out_user_id", JStr (AcOwnerOutUserID a)); ("account_type", JStr (AcAccountType a));
        ("allow_overdraft", JBool (AcAllowOverdraft a)); ("max_overdraft_limit", JNum (AcMaxOverdraftLimit a));
        ("allow_debit_out", JBool (AcAllowDebitOut a)); ("allow_credit_in", JBool (AcAllowCreditIn a));
        ("allow_transfer", JBool (AcAllowTransfer a)); ("book_enabled", JBool (AcBookEnabled a));
        ("balance", JNum (AcBalance a)); ("created_at", JStr (formatRFC3339Nano (AcCreatedAt a)))].

Definition handleAdminListAccounts : @H D Response :=
  let+ _ := adminConfigured (ah_repo h) in
  let+ pageSize := pageSizeParam in
  let+ r := orInternal "list accounts failed" (AdminRepository.ListAccountsForAdmin
              (mkAdminAccountFilter (query "merchant_no") (query "account_no") (query "customer_no") (query "out_user_id")
                 (query "page_token") pageSize)) in
  writeSuccess c (pageOf (map accountItem r.1) r.2).

Definition customerNotFound {A} : @H D A := writeError c 404 "CUSTOMER_NOT_FOUND" "customer not found".

(** The customer that is to own the account, by user id, by number or both. *)
Definition ownerCustomer (merchantNo outUserID customerNo : string) : @H D string :=
  let+ _ := invalid c (isEmpty outUserID && isEmpty customerNo) "owner_out_user_id or owner_customer_no is required" in
  let+ byUser :=
    (if isEmpty outUserID then retH "" else
     let+ o := liftO (Repository.GetCustomerByOutUserID merchantNo outUserID) in
     match o with Some x => retH (CustomerNo x) | None => customerNotFound end) in
  if isEmpty customerNo then retH byUser else
  let+ o := orInternal "load customer failed" (AdminRepository.GetCustomerByNo merchantNo customerNo) in
  match o with
  | None => customerNotFound
  | Some x =>
      let+ _ := reject c (differs byUser (CustomerNo x)) 409 "ACCOUNT_RESOLVE_CONFLICT" "owner resolve conflict" in
      retH (CustomerNo x)
  end.

(** The owner and the account type of the new account. *)
Definition newOwner (req : adminCreateAccountRequest) : @H D (string * string) :=
  let dflt t := if isEmpty (aa_account_type req) then t else aa_account_type req in
  if String.eqb (aa_owner_type req) "CUSTOMER" then
    let+ no := ownerCustomer (aa_merchant_no req) (aa_owner_out_user_id req) (aa_owner_customer_no req) in
    retH (no, dflt "CUSTOMER")
  else
    let+ _ := invalid c (negb (isEmpty (aa_owner_out_user_id req)) || negb (isEmpty (aa_owner_customer_no req)))
                "owner fields are not allowed for MERCHANT owner" in
    retH ("", dflt "MERCHANT").

(** The request with its texts trimmed and its codes in upper case. *)
Definition cleanAccountRequest (q : adminCreateAccountRequest) : adminCreateAccountRequest :=
  mkAdminCreateAccountRequest (TrimSpace (aa_merchant_no q)) (ToUpper (TrimSpace (aa_owner_type q)))
    (TrimSpace (aa_owner_out_user_id q)) (TrimSpace (aa_owner_customer_no q)) (ToUpper (TrimSpace (aa_account_type q)))
    (aa_capability q).

Definition newAccount (no customerNo accountType : string) (q : adminCreateAccountRequest) : Account :=
  let k := aa_capability q in
  mkAccount no (aa_merchant_no q) customerNo accountType (orDefault (ca_overdraft k) false)
    (orDefault (ca_max_overdraft k) 0) (orDefault (ca_debit_out k) true) (orDefault (ca_credit_in k) true)
    (orDefault (ca_transfer k) true) (orDefault (ca_book k) false) 0.

Definition handleAdminCreateAccount (body : option adminCreateAccountRequest) : @H D Response :=
  let+ _ := adminConfigured (ah_repo h && ah_merchants h) in
  let+ req := bound c body in
  let req := cleanAccountRequest req in
  let+ _ := invalid c (isEmpty (aa_merchant_no req)) "merchant_no is required" in
  let+ _ := knownMerchant c (aa_merchant_no req) in
  let+ _ := invalid c (negb (String.eqb (aa_owner_type req) "CUSTOMER") && negb (String.eqb (aa_owner_type req) "MERCHANT"))
              "owner_type must be CUSTOMER or MERCHANT" in
  let+ _ := invalid c (orDefault (ca_max_overdraft (aa_capability req)) 0 <? 0) "max_overdraft_limit must be >= 0" in
  let+ owner := newOwner req in
  let+ no := orInternal "generate account_no failed" (NewAccountNo (aa_merchant_no req) owner.2) in
  let+ r := liftH (Repository.CreateAccount (newAccount no owner.1 owner.2 req)) in
  match r with
  | Err e =>
      if errors_is e ErrAccountNoExists then writeError c 409 "ACCOUNT_EXISTS" "account already exists"
      else writeError c 500 "INTERNAL_ERROR" "create account failed"
  | Ok _ =>
      let+ _ := audit "ACCOUNT_CREATE" "ACCOUNT" no (aa_merchant_no req)
                  (Some (createAccountText (mkAdminCreateAccountRequest (aa_merchant_no req) (aa_owner_type req)
                     (aa_owner_out_user_id req) (aa_owner_customer_no req) owner.2 (aa_capability req)))) in
      writeCreated c (JObj [("account_no", JStr no)])
  end.

Definition handleAdminPatchAccountCapability (body : option adminPatchAccountCapabilityRequest) : @H D Response :=
  let+ _ := adminConfigured (ah_repo h) in
  let+ accountNo := param "account_no" in
  let+ account := existingAccount c accountNo in
  let+ req := bound c body in
  let allowTransfer := orDefault (pc_transfer req) (AllowTransfer account) in
  let allowCreditIn := orDefault (pc_credit_in req) (AllowCreditIn account) in
  let allowDebitOut := orDefault (pc_debit_out req) (AllowDebitOut account) in
  let+ _ := liftH (Repository.UpdateAccountCapabilities accountNo allowDebitOut allowCreditIn allowTransfer) in
  let+ _ := audit "ACCOUNT_CAPABILITY_PATCH" "ACCOUNT" accountNo (AMerchantNo account) (Some (patchCapabilityText req)) in
  writeSuccess c (JObj [("account_no", JStr accountNo); ("allow_transfer", JBool allowTransfer);
                        ("allow_credit_in", JBool allowCreditIn); ("allow_debit_out", JBool allowDebitOut)]).

(** The sums of the books of a book-enabled account: all, and available. *)
Definition bookSums (account : Account) (accountNo : string) : @H D (Z * Z) :=
  if negb (BookEnabled account) then retH (0, Balance account) else
  let+ sum := orInternal "load account book sum failed" (AdminRepository.GetAccountBookBalanceSum accountNo) in
  let+ available := orInternal "load available balance failed" (AdminRepository.GetAvailableAccountBookBalanceSum accountNo) in
  retH (sum, available).

Definition handleAdminGetAccountBalance : @H D Response :=
  let+ _ := adminConfigured (ah_repo h) in
  let+ accountNo := param "account_no" in
  let+ account := existingAccount c accountNo in
  let+ sums := bookSums account accountNo in
  writeSuccess c (JObj [("account_no", JStr (AccountNo account)); ("merchant_no", JStr (AMerchantNo account));
                        ("balance", JNum (Balance account)); ("available_balance", JNum sums.2);
                        ("book_enabled", JBool (BookEnabled account)); ("book_balance_sum", JNum sums.1)]).
End Handlers.
