(* ===== verification/AdminTxns.v ===== *)
(** * The admin console: transactions, logs and routes

    The rest of [internal/api/admin_routes.go]: submissions on behalf of a
    merchant, queries, the outbox and the audit log, the table of routes and a
    request served through the middleware. *)

From S2P Require Import Prelude GoBase Domain Codes Encoding Calendar Json Store Queries Reads Secrets Ledger Repo AdminRepo Services TxnQuery Api Auth Router AdminAuth AdminSetup AdminRoutes.
From stdpp Require Import base gmap list strings.
From Stdlib Require Import ZArith Lia.

Local Open Scope string_scope.
Local Open Scope Z_scope.

(** ** Requests *)

Record adminCreditRequest : Type := mkAdminCreditRequest {
  acq_merchant_no : string; acq_out_trade_no : string; acq_title : string; acq_remark : string;
  acq_debit_account_no : string; acq_credit_account_no : string; acq_user_id : string;
  acq_expire_in_days : Z; acq_amount : Z
}.
Record adminDebitRequest : Type := mkAdminDebitRequest {
  adq_merchant_no : string; adq_out_trade_no : string; adq_title : string; adq_remark : string;
  adq_biz_type : string; adq_transfer_scene : string; adq_debit_account_no : string; adq_debit_out_user_id : string;
  adq_credit_account_no : string; adq_credit_out_user_id : string; adq_amount : Z
}.
Record adminTransferRequest : Type := mkAdminTransferRequest {
  atq_merchant_no : string; atq_out_trade_no : string; atq_title : string; atq_remark : string;
  atq_biz_type : string; atq_transfer_scene : string; atq_from_account_no : string; atq_from_out_user_id : string;
  atq_to_account_no : string; atq_to_out_user_id : string; atq_to_expire_in_days : Z; atq_amount : Z
}.
Record adminRefundRequest : Type := mkAdminRefundRequest {
  arq_merchant_no : string; arq_out_trade_no : string; arq_title : string; arq_remark : string;
  arq_biz_type : string; arq_refund_of_txn_no : string; arq_amount : Z
}.

(** As the handlers clean them: texts trimmed, codes in upper case. *)
Definition cleanCredit (q : adminCreditRequest) : adminCreditRequest :=
  mkAdminCreditRequest (TrimSpace (acq_merchant_no q)) (TrimSpace (acq_out_trade_no q)) (TrimSpace (acq_title q))
    (TrimSpace (acq_remark q)) (TrimSpace (acq_debit_account_no q)) (TrimSpace (acq_credit_account_no q))
    (TrimSpace (acq_user_id q)) (acq_expire_in_days q) (acq_amount q).
Definition cleanDebit (q : adminDebitRequest) : adminDebitRequest :=
  mkAdminDebitRequest (TrimSpace (adq_merchant_no q)) (TrimSpace (adq_out_trade_no q)) (TrimSpace (adq_title q))
    (TrimSpace (adq_remark q)) (TrimSpace (ToUpper (adq_biz_type q))) (TrimSpace (ToUpper (adq_transfer_scene q)))
    (TrimSpace (adq_debit_account_no q)) (TrimSpace (adq_debit_out_user_id q)) (TrimSpace (adq_credit_account_no q))
    (TrimSpace (adq_credit_out_user_id q)) (adq_amount q).
Definition cleanTransfer (q : adminTransferRequest) : adminTransferRequest :=
  mkAdminTransferRequest (TrimSpace (atq_merchant_no q)) (TrimSpace (atq_out_trade_no q)) (TrimSpace (atq_title q))
    (TrimSpace (atq_remark q)) (TrimSpace (ToUpper (atq_biz_type q))) (TrimSpace (ToUpper (atq_transfer_scene q)))
    (TrimSpace (atq_from_account_no q)) (TrimSpace (atq_from_out_user_id q)) (TrimSpace (atq_to_account_no q))
    (TrimSpace (atq_to_out_user_id q)) (atq_to_expire_in_days q) (atq_amount q).
Definition cleanRefund (q : adminRefundRequest) : adminRefundRequest :=
  mkAdminRefundRequest (TrimSpace (arq_merchant_no q)) (TrimSpace (arq_out_trade_no q)) (TrimSpace (arq_title q))
    (TrimSpace (arq_remark q)) (TrimSpace (ToUpper (arq_biz_type q))) (TrimSpace (arq_refund_of_txn_no q)) (arq_amount q).

(** *** For the audit log *)

Definition creditText (q : adminCreditRequest) : string :=
  marshalStruct [("merchant_no", marshalString (acq_merchant_no q)); ("out_trade_no", marshalString (acq_out_trade_no q));
    ("title", marshalString (acq_title q)); ("remark", marshalString (acq_remark q));
    ("debit_account_no", marshalString (acq_debit_account_no q)); ("credit_account_no", marshalString (acq_credit_account_no q));
    ("user_id", marshalString (acq_user_id q)); ("expire_in_days", FormatInt (acq_expire_in_days q));
    ("amount", FormatInt (acq_amount q))].
Definition debitText (q : adminDebitRequest) : string :=
  marshalStruct [("merchant_no", marshalString (adq_merchant_no q)); ("out_trade_no", marshalString (adq_out_trade_no q));
    ("title", marshalString (adq_title q)); ("remark", marshalString (adq_remark q)); ("biz_type", marshalString (adq_biz_type q));
    ("transfer_scene", marshalString (adq_transfer_scene q)); ("debit_account_no", marshalString (adq_debit_account_no q));
    ("debit_out_user_id", marshalString (adq_debit_out_user_id q));
    ("credit_account_no", marshalString (adq_credit_account_no q));
    ("credit_out_user_id", marshalString (adq_credit_out_user_id q)); ("amount", FormatInt (adq_amount q))].
Definition transferText (q : adminTransferRequest) : string :=
  marshalStruct [("merchant_no", marshalString (atq_merchant_no q)); ("out_trade_no", marshalString (atq_out_trade_no q));
    ("title", marshalString (atq_title q)); ("remark", marshalString (atq_remark q)); ("biz_type", marshalString (atq_biz_type q));
    ("transfer_scene", marshalString (atq_transfer_scene q)); ("from_account_no", marshalString (atq_from_account_no q));
    ("from_out_user_id", marshalString (atq_from_out_user_id q)); ("to_account_no", marshalString (atq_to_account_no q));
    ("to_out_user_id", marshalString (atq_to_out_user_id q)); ("to_expire_in_days", FormatInt (atq_to_expire_in_days q));
    ("amount", FormatInt (atq_amount q))].
Definition refundText (q : adminRefundRequest) : string :=
  marshalStruct [("merchant_no", marshalString (arq_merchant_no q)); ("out_trade_no", marshalString (arq_out_trade_no q));
    ("title", marshalString (arq_title q)); ("remark", marshalString (arq_remark q)); ("biz_type", marshalString (arq_biz_type q));
    ("refund_of_txn_no", marshalString (arq_refund_of_txn_no q)); ("amount", FormatInt (arq_amount q))].

Section Handlers.
Context {PF : Platform} {PT : PgText} {CP : CodeProvider} {UL : UUIDLib} {D : Type} {TD : TransferDispatcher D}.
Context (h : AdminHandler) (c : Context) (user : option string).
Notation "'let+' x := m 'in' f" := (bindH m (fun x => f)) (at level 10, x binder, m at level 100, f at level 200).
Abbreviation audit := (audit h c user).
Abbreviation adminConfigured := (adminConfigured c).
Abbreviation query := (query c).

(** ** Submissions *)

(** [h.enqueueTxn]. *)
Definition adminEnqueueTxn (txn : TransferTxn) : @H D unit := if ah_async h then enqueueTxn txn else retH tt.

(** The answer to a submission: on success the transaction is enqueued and the
    action recorded. *)
Definition adminSubmit (req : TransferRequest) (action payload : string) (onError : error -> @H D Response) : @H D Response :=
  let+ r := liftH (Submit req) in
  match r with
  | Err e => onError e
  | Ok txn =>
      let+ _ := adminEnqueueTxn txn in
      let+ _ := audit action "TXN" (TxnNo txn) (RqMerchantNo req) (Some payload) in
      writeCreated c (JObj [("txn_no", JStr (TxnNo txn)); ("status", JStr TxnStatusInit)])
  end.

Definition writeSubmitError (e : error) : @H D Response :=
  if errors_is e ErrDuplicateOutTradeNo then writeError c 409 "DUPLICATE_OUT_TRADE_NO" "duplicate out_trade_no"
  else writeError c 500 "INTERNAL_ERROR" "submit transfer failed".

Definition adminTransferDeps : bool :=
  ah_transfer h && bool_decide (is_Some (ah_query h)) && ah_merchants h && ah_router h && ah_resolver h && ah_repo h.

(** The checks the transfers begin with. *)
Definition checkSubmission (merchantNo outTradeNo title remark : string) (amount : Z) : @H D unit :=
  let+ _ := invalid c (isEmpty merchantNo || isEmpty outTradeNo || (amount <=? 0))
              "merchant_no, out_trade_no and amount are required" in
  let+ _ := checkCopy c outTradeNo title remark in
  let+ _ := knownMerchant c merchantNo in
  retH tt.

Definition handleAdminCredit (body : option adminCreditRequest) : @H D Response :=
  let+ _ := adminConfigured adminTransferDeps in
  let+ req := bound c body in
  let req := cleanCredit req in
  let merchantNo := acq_merchant_no req in
  let+ _ := checkSubmission merchantNo (acq_out_trade_no req) (acq_title req) (acq_remark req) (acq_amount req) in
  let+ _ := invalid c (isEmpty (acq_credit_account_no req) && isEmpty (acq_user_id req))
              "credit_account_no or user_id is required" in
  let+ _ := invalid c (acq_expire_in_days req <? 0) "expire_in_days must be >= 0" in
  let+ target := creditTarget c merchantNo (acq_credit_account_no req) (acq_user_id req) in
  let+ dc := resolveRoute c (mkTransferRoutingRequest merchantNo SceneIssue (acq_debit_account_no req) target) in
  let+ creditAccount := existingAccount c dc.2 in
  let+ expireAt :=
    (if BookEnabled creditAccount && (0 <? acq_expire_in_days req) then
       let+ t := expiryDay c (acq_expire_in_days req) "invalid expire_in_days" in retH (Some t)
     else retH None) in
  adminSubmit (transferOf merchantNo (acq_out_trade_no req) (acq_title req) (acq_remark req) SceneIssue dc.1 dc.2 expireAt
                 (acq_amount req)) "TXN_SUBMIT_CREDIT" (creditText req) writeSubmitError.

Definition handleAdminDebit (body : option adminDebitRequest) : @H D Response :=
  let+ _ := adminConfigured adminTransferDeps in
  let+ req := bound c body in
  let req := cleanDebit req in
  let merchantNo := adq_merchant_no req in
  let+ _ := checkSubmission merchantNo (adq_out_trade_no req) (adq_title req) (adq_remark req) (adq_amount req) in
  let+ _ := invalid c (differs (adq_biz_type req) BizTypeTransfer) "biz_type must be TRANSFER" in
  let+ _ := invalid c (differs (adq_transfer_scene req) SceneConsume) "transfer_scene must be CONSUME" in
  let+ debit := resolveUser c merchantNo (adq_debit_account_no req) (adq_debit_out_user_id req) "resolve debit account failed" in
  let+ _ := reject c (isEmpty debit) 404 "ACCOUNT_NOT_FOUND" "debit account not found" in
  let+ credit := resolveUser c merchantNo (adq_credit_account_no req) (adq_credit_out_user_id req)
                   "resolve credit account failed" in
  let+ dc := resolveRoute c (mkTransferRoutingRequest merchantNo SceneConsume debit credit) in
  adminSubmit (transferOf merchantNo (adq_out_trade_no req) (adq_title req) (adq_remark req) SceneConsume dc.1 dc.2 None
                 (adq_amount req)) "TXN_SUBMIT_DEBIT" (debitText req) writeSubmitError.

Definition handleAdminTransfer (body : option adminTransferRequest) : @H D Response :=
  let+ _ := adminConfigured adminTransferDeps in
  let+ req := bound c body in
  let req := cleanTransfer req in
  let merchantNo := atq_merchant_no req in
  let+ _ := checkSubmission merchantNo (atq_out_trade_no req) (atq_title req) (atq_remark req) (atq_amount req) in
  let+ _ := invalid c (differs (atq_biz_type req) BizTypeTransfer) "biz_type must be TRANSFER" in
  let+ _ := invalid c (differs (atq_transfer_scene req) SceneP2P) "transfer_scene must be P2P" in
  let+ from := resolveUser c merchantNo (atq_from_account_no req) (atq_from_out_user_id req) "resolve from account failed" in
  let+ to := resolveUser c merchantNo (atq_to_account_no req) (atq_to_out_user_id req) "resolve to account failed" in
  let+ dc := resolveRoute c (mkTransferRoutingRequest merchantNo SceneP2P from to) in
  let+ fromAccount := existingAccount c dc.1 in
  let+ toAccount := existingAccount c dc.2 in
  let+ expireAt :=
    (if BookEnabled toAccount && negb (BookEnabled fromAccount) then
       let+ _ := invalid c (atq_to_expire_in_days req <=? 0) "to_expire_in_days is required for expiry account" in
       let+ t := expiryDay c (atq_to_expire_in_days req) "invalid to_expire_in_days" in retH (Some t)
     else retH None) in
  adminSubmit (transferOf merchantNo (atq_out_trade_no req) (atq_title req) (atq_remark req) SceneP2P dc.1 dc.2 expireAt
                 (atq_amount req)) "TXN_SUBMIT_TRANSFER" (transferText req) writeSubmitError.

Definition handleAdminRefund (body : option adminRefundRequest) : @H D Response :=
  let+ _ := adminConfigured (ah_transfer h && ah_async h && ah_merchants h) in
  let+ req := bound c body in
  let req := cleanRefund req in
  let merchantNo := arq_merchant_no req in
  let+ _ := invalid c (isEmpty merchantNo || isEmpty (arq_out_trade_no req) || isEmpty (arq_refund_of_txn_no req)
                       || (arq_amount req <=? 0))
              "merchant_no, out_trade_no, refund_of_txn_no and amount are required" in
  let+ _ := checkCopy c (arq_out_trade_no req) (arq_title req) (arq_remark req) in
  let+ _ := invalid c (negb (isValidUUID (arq_refund_of_txn_no req))) "invalid refund_of_txn_no" in
  let+ _ := knownMerchant c merchantNo in
  let+ _ := invalid c (differs (arq_biz_type req) BizTypeRefund) "biz_type must be REFUND" in
  adminSubmit (refundOf merchantNo (arq_out_trade_no req) (arq_title req) (arq_remark req) (arq_refund_of_txn_no req)
                 (arq_amount req)) "TXN_SUBMIT_REFUND" (refundText req) (writeRefundError c).

(** ** Queries *)

Definition adminQueryStore : @H D TxnQueryService :=
  match ah_query h with
  | Some q => retH q
  | None => writeError c 500 "INTERNAL_ERROR" "admin handler not configured"
  end.

Definition shownTxn (item : option QueryTxn) : @H D Response :=
  match item with
  | Some item => writeSuccess c (toTxnResponse item)
  | None => writeError c 404 "TXN_NOT_FOUND" "txn not found"
  end.

Definition handleAdminGetTxnByNo : @H D Response :=
  let+ q := adminQueryStore in
  let+ txnNo := param c "txn_no" in
  let+ item := liftO (GetByTxnNo q txnNo) in shownTxn item.

Definition handleAdminGetTxnByOutTradeNo : @H D Response :=
  let+ q := adminQueryStore in
  let merchantNo := query "merchant_no" in
  let outTradeNo := query "out_trade_no" in
  let+ _ := invalid c (isEmpty merchantNo || isEmpty outTradeNo) "merchant_no and out_trade_no are required" in
  let+ item := liftO (GetByOutTradeNo q merchantNo outTradeNo) in shownTxn item.

Definition handleAdminListTransactions : @H D Response :=
  let+ q := adminQueryStore in
  let+ pageSize := pageSizeParam c in
  let+ startTime := parseTimeParam c "start_time" "invalid start_time" in
  let+ endTime := parseTimeParam c "end_time" "invalid end_time" in
  let+ _ := invalid c (match startTime, endTime with Some s, Some e => e <? s | _, _ => false end)
              "start_time must be <= end_time" in
  let+ r := listed (List_ q (mkQueryFilter (query "merchant_no") (query "out_user_id")
                 (TrimSpace (ToUpper (x_query c "transfer_scene"))) (TrimSpace (ToUpper (x_query c "status")))
                 startTime endTime pageSize (query "page_token"))) "" in
  writeSuccess c (pageOf (map toTxnResponse r.1) r.2).

(** The id a page starts below; 0 on the first page. *)
Definition cursorParam : @H D Z :=
  let raw := query "page_token" in
  if isEmpty raw then retH 0 else
  match ParseInt raw with
  | Some v => if v <? 0 then writeError c 400 "INVALID_PARAM" "invalid page_token" else retH v
  | None => writeError c 400 "INVALID_PARAM" "invalid page_token"
  end.

Definition outboxItem (e : AdminOutboxEvent) : json :=
  JObj [("id", JNum (OID e)); ("event_id", JStr (OEventID e)); ("txn_no", JStr (OTxnNo e)); ("merchant_no", JStr (OMerchantNo e));
        ("out_trade_no", JStr (OOutTradeNo e)); ("status", JStr (OStatus e)); ("retry_count", JNum (ORetryCount e));
        ("next_retry_at", JStr (match ONextRetryAt e with Some t => formatRFC3339Nano t | None => "" end));
        ("updated_at", JStr (formatRFC3339Nano (OUpdatedAt e))); ("created_at", JStr (formatRFC3339Nano (OCreatedAt e)))].

Definition handleAdminListOutboxEvents : @H D Response :=
  let+ _ := adminConfigured (ah_repo h) in
  let+ pageSize := pageSizeParam c in
  let+ cursorID := cursorParam in
  let+ r := orInternal c "list outbox events failed" (AdminRepository.ListOutboxEventsForAdmin
              (mkAdminOutboxFilter (query "merchant_no") (TrimSpace (ToUpper (x_query c "status"))) (query "txn_no")
                 cursorID pageSize)) in
  writeSuccess c (pageOf (map outboxItem r.1) r.2).

Definition auditItem (r : AdminAuditLogRow) : json :=
  JObj [("audit_id", JNum (RAuditID r)); ("request_id", JStr (RRequestID r)); ("operator_username", JStr (ROperator r));
        ("action", JStr (RAction r)); ("target_type", JStr (RTargetType r)); ("target_id", JStr (RTargetID r));
        ("merchant_no", JStr (RMerchantNo r)); ("request_payload", JStr (RRequestPayloadRaw r));
        ("result_code", JStr (RResultCode r)); ("result_message", JStr (RResultMessage r));
        ("created_at", JStr (formatRFC3339Nano (RCreatedAt r)))].

Definition handleAdminListAuditLogs : @H D Response :=
  let+ _ := adminConfigured (ah_repo h) in
  let+ pageSize := pageSizeParam c in
  let+ cursorID := cursorParam in
  let+ r := orInternal c "list audit logs failed" (AdminRepository.ListAdminAuditLogs
              (mkAdminAuditFilter (query "operator_username") (query "action") (query "merchant_no") cursorID pageSize)) in
  writeSuccess c (pageOf (map auditItem r.1) r.2).
End Handlers.

(** ** Routes *)

Inductive AdminRoute : Type :=
| ASetupStatus | ASetupInitialize | ALogin | ARefresh
| AMe | ALogout | ADashboard
| ACreateMerchant | AListMerchants | AGetMerchant | APatchFeatures | ARotateSecret | AGetWebhook | APutWebhook
| AListCustomers | ACreateCustomer | AGetCustomer
| AListAccounts | ACreateAccount | APatchCapability | AGetBalance
| ACredit | ADebit | ATransfer | ARefund | AGetTxn | AGetTxnByOutTradeNo | AListTransactions
| AListOutbox | AListAudit.

(** Method and pattern below [/admin/api/v1]. *)
Definition adminRouteTable : list (string * string * AdminRoute) :=
  [("GET", "/setup/status", ASetupStatus); ("POST", "/setup/initialize", ASetupInitialize);
   ("POST", "/auth/login", ALogin); ("POST", "/auth/refresh", ARefresh);
   ("GET", "/auth/me", AMe); ("POST", "/auth/logout", ALogout); ("GET", "/dashboard/overview", ADashboard);
   ("POST", "/merchants", ACreateMerchant); ("GET", "/merchants", AListMerchants);
   ("GET", "/merchants/:merchant_no", AGetMerchant); ("PATCH", "/merchants/:merchant_no/features", APatchFeatures);
   ("POST", "/merchants/:merchant_no/secret:rotate", ARotateSecret);
   ("GET", "/merchants/:merchant_no/webhooks/config", AGetWebhook);
   ("PUT", "/merchants/:merchant_no/webhooks/config", APutWebhook);
   ("GET", "/customers", AListCustomers); ("POST", "/customers", ACreateCustomer);
   ("GET", "/customers/by-out-user-id", AGetCustomer);
   ("GET", "/accounts", AListAccounts); ("POST", "/accounts", ACreateAccount);
   ("PATCH", "/accounts/:account_no/capability", APatchCapability); ("GET", "/accounts/:account_no/balance", AGetBalance);
   ("POST", "/transactions/credit", ACredit); ("POST", "/transactions/debit", ADebit);
   ("POST", "/transactions/transfer", ATransfer); ("POST", "/transactions/refund", ARefund);
   ("GET", "/transactions/:txn_no", AGetTxn); ("GET", "/transactions/by-out-trade-no", AGetTxnByOutTradeNo);
   ("GET", "/transactions", AListTransactions);
   ("GET", "/notify/outbox-events", AListOutbox); ("GET", "/audit/logs", AListAudit)].

(** [ShouldBindJSON] by type of request. *)
Class AdminBinding : Type := {
  bindLogin : string -> option adminLoginRequest;
  bindRefresh : string -> option adminRefreshRequest;
  bindSetup : string -> option adminSetupInitializeRequest;
  bindAdminMerchant : string -> option adminCreateMerchantRequest;
  bindFeatures : string -> option adminPatchMerchantFeatureRequest;
  bindAdminWebhook : string -> option adminWebhookConfigRequest;
  bindCustomer : string -> option adminCreateCustomerRequest;
  bindAccount : string -> option adminCreateAccountRequest;
  bindCapability : string -> option adminPatchAccountCapabilityRequest;
  bindAdminCredit : string -> option adminCreditRequest;
  bindAdminDebit : string -> option adminDebitRequest;
  bindAdminTransfer : string -> option adminTransferRequest;
  bindAdminRefund : string -> option adminRefundRequest
}.

Record AdminRoutesOptions : Type := mkAdminRoutesOptions {
  ao_enabled : bool; ao_handler : AdminHandler; JWTSecret : string; AccessTokenTTL : Duration; RefreshTokenTTL : Duration
}.

(** [RegisterAdminRoutes]: the handler and the token manager of the routes;
    [None] when the console is off. *)
Definition RegisterAdminRoutes (o : AdminRoutesOptions) : Result error (option (AdminHandler * adminTokenManager)) :=
  if negb (ao_enabled o) then Ok None else
  if negb (ah_repo (ao_handler o)) then Err (ErrText "admin repo is required") else
  match newAdminTokenManager (JWTSecret o) (AccessTokenTTL o) (RefreshTokenTTL o) with
  | Err e => Err e
  | Ok tokens =>
      if negb (ah_merchants (ao_handler o)) then Err (ErrText "admin setup merchant service is required") else
      if negb (ah_rotator (ao_handler o)) then Err (ErrText "admin setup secret rotator is required") else
      Ok (Some (ao_handler o, tokens))
  end.

Section Serve.
Context {PF : Platform} {PT : PgText} {CP : CodeProvider} {SC : SecretCipher} {BC : Bcrypt} {UL : UUIDLib} {AB : AdminBinding}
  {D : Type} {TD : TransferDispatcher D}.

Definition adminPublic (r : AdminRoute) : bool :=
  match r with ASetupStatus | ASetupInitialize | ALogin | ARefresh => true | _ => false end.

Definition adminHandler (h : AdminHandler) (m : adminTokenManager) (c : Context) (user : option string) (q : Request)
    (r : AdminRoute) : @H D Response :=
  match r with
  | ASetupStatus => handleStatus c
  | ASetupInitialize => handleInitialize c (bodyOf q bindSetup)
  | ALogin => handleLogin m c (bodyOf q bindLogin)
  | ARefresh => handleRefresh m c (bodyOf q bindRefresh)
  | AMe => handleAdminMe c user
  | ALogout => handleLogout c
  | ADashboard => handleDashboardOverview h c
  | ACreateMerchant => handleAdminCreateMerchant h c user (bodyOf q bindAdminMerchant)
  | AListMerchants => handleAdminListMerchants h c
  | AGetMerchant => handleAdminGetMerchant h c
  | APatchFeatures => handleAdminPatchMerchantFeatures h c user (bodyOf q bindFeatures)
  | ARotateSecret => handleAdminRotateMerchantSecret h c user
  | AGetWebhook => handleAdminGetWebhookConfig h c
  | APutWebhook => handleAdminPutWebhookConfig h c user (bodyOf q bindAdminWebhook)
  | AListCustomers => handleAdminListCustomers h c
  | ACreateCustomer => handleAdminCreateCustomer h c user (bodyOf q bindCustomer)
  | AGetCustomer => handleAdminGetCustomerByOutUserID h c
  | AListAccounts => handleAdminListAccounts h c
  | ACreateAccount => handleAdminCreateAccount h c user (bodyOf q bindAccount)
  | APatchCapability => handleAdminPatchAccountCapability h c user (bodyOf q bindCapability)
  | AGetBalance => handleAdminGetAccountBalance h c
  | ACredit => handleAdminCredit h c user (bodyOf q bindAdminCredit)
  | ADebit => handleAdminDebit h c user (bodyOf q bindAdminDebit)
  | ATransfer => handleAdminTransfer h c user (bodyOf q bindAdminTransfer)
  | ARefund => handleAdminRefund h c user (bodyOf q bindAdminRefund)
  | AGetTxn => handleAdminGetTxnByNo h c
  | AGetTxnByOutTradeNo => handleAdminGetTxnByOutTradeNo h c
  | AListTransactions => handleAdminListTransactions h c
  | AListOutbox => handleAdminListOutboxEvents h c
  | AListAudit => handleAdminListAuditLogs h c
  end.

(** The user of the context, or the response of the middleware. *)
Definition adminAdmitted (m : adminTokenManager) (rid : string) (q : Request) (r : AdminRoute)
    : M (Result Response (option string)) :=
  if adminPublic r then ret (Ok None) else
  let! a := adminMiddleware m rid q in
  ret (match a with Ok u => Ok (Some u) | Err resp => Err resp end).

Definition serveAdmin (console : option (AdminHandler * adminTokenManager)) (r : AdminRoute) (q : Request) (s : D) (w : World)
    : D * World * option Response :=
  match console with
  | None => (s, w, None)
  | Some (h, m) =>
      match RequestIDMiddleware q w with
      | (w1, Err _) => (s, w1, None)
      | (w1, Ok rid) =>
          match adminAdmitted m rid q r w1 with
          | (w2, Ok (Ok u)) =>
              let '(s3, w3, resp) := runH (adminHandler h m (mkContext rid None (q_param q) (q_query q)) u q r) s w2 in
              (s3, w3, Some resp)
          | (w2, Ok (Err resp)) => (s, w2, Some resp)
          | (w2, Err _) => (s, w2, None)
          end
      end
  end.
End Serve.
