(* ===== verification/Through.v ===== *)
(** * What a handler, a worker or a request takes the database through

    [thruH] and [thruW] say of a handler and of a webhook worker's method what
    [thruM] says of a call: it takes any world to one [R]-related to it.  The
    leaves are the services that write. *)

From S2P Require Import Prelude GoBase Domain Codes Encoding Json Store Queries Reads Secrets Ledger Repo Via Webhook Services TxnQuery Api Auth Router.
From stdpp Require Import base gmap list strings.
From Stdlib Require Import ZArith Lia.

Local Open Scope string_scope.
Local Open Scope Z_scope.

Definition thruH (R : World -> World -> Prop) {D A} (m : @H D A) : Prop := forall s w, R w (m s w).1.2.
Definition thruW (R : World -> World -> Prop) {C A} (m : @W C A) : Prop := forall k h w, R w (m k h w).1.2.

Section Compose.
Context (R : World -> World -> Prop) {PR : Passage R}.

Context {D C : Type}.

Lemma thruH_ret {A} (a : A) : thruH R (retH a : @H D A).
Proof. by intros s w. Qed.
Lemma thruH_respond {A} r : thruH R (respond r : @H D A).
Proof. by intros s w. Qed.
Lemma thruH_bind {A B} (m : @H D A) (f : A -> @H D B) :
  thruH R m -> (forall a, thruH R (f a)) -> thruH R (bindH m f).
Proof.
  intros Hm Hf s w. specialize (Hm s w). unfold bindH. destruct (m s w) as [[s1 w1] [r|a]]; [done|].
  etrans; [exact Hm|apply Hf].
Qed.
Lemma thruH_lift {A} (m : M A) : thruM R m -> thruH R (liftH m : @H D _).
Proof. intros Hm s w. specialize (Hm w). unfold liftH. by destruct (m w). Qed.
Lemma thruH_liftO {A} (m : M (option A)) : thruM R m -> thruH R (liftO m : @H D _).
Proof. intros Hm s w. specialize (Hm w). unfold liftO. by destruct (m w). Qed.
(** Past a check, its condition is known. *)
Lemma thruH_reject {A} c b http code msg (f : unit -> @H D A) :
  (b = false -> thruH R (f tt)) -> thruH R (bindH (reject c b http code msg) f).
Proof. intros Hf. unfold reject. destruct b; [by intros s w|]. intros s w. by apply Hf. Qed.
Lemma thruH_invalid {A} c b msg (f : unit -> @H D A) :
  (b = false -> thruH R (f tt)) -> thruH R (bindH (invalid c b msg) f).
Proof. apply thruH_reject. Qed.
Lemma thruH_configured {A} c b (f : unit -> @H D A) :
  thruH R (f tt) -> thruH R (bindH (configured c b) f).
Proof. intros Hf. by apply thruH_reject. Qed.

Lemma thruW_ret {A} (a : A) : thruW R (retW a : @W C A).
Proof. by intros k h w. Qed.
Lemma thruW_bind {A B} (m : @W C A) (f : A -> @W C B) :
  thruW R m -> (forall a, thruW R (f a)) -> thruW R (bindW m f).
Proof.
  intros Hm Hf k h w. specialize (Hm k h w). unfold bindW. destruct (m k h w) as [[[k1 h1] w1] a].
  etrans; [exact Hm|apply Hf].
Qed.
Lemma thruW_lift {A} (m : M A) : thruM R m -> thruW R (liftW m : @W C _).
Proof. intros Hm k h w. specialize (Hm w). unfold liftW. by destruct (m w). Qed.
Lemma thruW_get : thruW R (getW : @W C _).
Proof. by intros k h w. Qed.
Lemma thruW_modify f : thruW R (modifyW f : @W C _).
Proof. by intros k h w. Qed.
Lemma thruW_post `{HttpClient C} q : thruW R (postW q).
Proof. intros k h w. unfold postW. by destruct (httpDo q h). Qed.
Lemma thruW_now : thruW R (nowW : @W C _).
Proof. intros k h w. by apply passage_db. Qed.
End Compose.

#[export] Hint Resolve thruH_ret thruH_respond thruH_lift thruH_liftO
  thruW_ret thruW_lift thruW_get thruW_modify thruW_post thruW_now : coin.

(** Proves [thruM], [thruH] and [thruW] goals by the structure of the program. *)
Ltac thru_ :=
  repeat first
    [ match goal with |- forall _, _ => intro end
    | progress cbv beta zeta
    | solve [eauto 4 with coin nocore]
    | match goal with
      | |- thruH _ (bindH (configured _ _) _) => apply (thruH_configured _)
      | |- thruH _ (bindH (invalid _ _ _) _) => apply (thruH_invalid _)
      | |- thruH _ (bindH (reject _ _ _ _ _) _) => apply (thruH_reject _)
      | |- thruH _ (bindH _ _) => apply (thruH_bind _)
      | |- thruW _ (bindW _ _) => apply (thruW_bind _)
      | |- thruM _ (bind _ _) => apply (thruM_bind _)
      | |- thruH _ (match ?x with _ => _ end) => destruct x
      | |- thruM _ (match ?x with _ => _ end) => destruct x
      | |- thruW _ (match ?x with _ => _ end) => destruct x
      end ].

(** ** Reads *)

Section Reads.
Context {PF : Platform}.

Lemma keeps_GetMerchant m : keeps (Repository.GetMerchantByNo m).
Proof. unfold Repository.GetMerchantByNo, Repository.found. keep. Qed.
Lemma keeps_GetAccount m : keeps (Repository.GetAccount m).
Proof. unfold Repository.GetAccount, Repository.found. keep. Qed.
Lemma keeps_Resolve req : keeps (Resolve req).
Proof.
  unfold Resolve, require, failing. keep; apply keeps_GetMerchant || apply keeps_GetAccount.
Qed.
Lemma keeps_ResolveCustomer m a u : keeps (ResolveCustomerAccount m a u).
Proof.
  unfold ResolveCustomerAccount, Repository.GetAccountByOutUserID, Repository.found.
  keep; apply keeps_GetMerchant || apply keeps_GetAccount.
Qed.
Lemma keeps_GetWebhookConfig m : keeps (Repository.GetWebhookConfig m).
Proof. unfold Repository.GetWebhookConfig, Repository.found_err. keep. Qed.
Lemma keeps_GetFeatures m : keeps (Repository.GetMerchantFeatureConfig m).
Proof. unfold Repository.GetMerchantFeatureConfig, Repository.found_err. keep. Qed.
Lemma keeps_GetAvailableBalance no : keeps (Repository.GetAvailableBalance no).
Proof. unfold Repository.GetAvailableBalance. keep. Qed.
End Reads.

#[export] Hint Resolve keeps_GetMerchant keeps_GetAccount keeps_Resolve keeps_ResolveCustomer keeps_GetWebhookConfig
  keeps_GetFeatures keeps_GetAvailableBalance keeps_GetSecretVersion keeps_authenticate keeps_RequestID : coin.

(** ** Handlers *)

(** What the handlers may write. *)
Class Writes `{Platform} `{CodeProvider} `{SecretCipher} (R : World -> World -> Prop) : Prop := {
  through_submit : forall req, (RqStatus req = "" \/ RqStatus req = TxnStatusInit) /\
                     RqRefundableAmount req <= RqAmount req -> thruM R (Submit req);
  through_ensure : forall m u, thruM R (EnsureCustomerAccountForCredit m u);
  through_merchant : forall no name, thruM R (CreateMerchant no name);
  through_rotate : forall m, thruM R (RotateSecret m);
  through_features : forall m a c, thruM R (Repository.UpsertMerchantFeatureConfig m a c);
  through_webhook : forall m u e, thruM R (Repository.UpsertWebhookConfig m u e)
}.

#[export] Hint Resolve through_ensure through_merchant through_rotate through_features through_webhook : coin.

Section Handlers.
Context {PF : Platform} {CP : CodeProvider} {SC : SecretCipher} {UL : UUIDLib} {JB : JsonBinding}
  {D : Type} {TD : TransferDispatcher D}.
Context (R : World -> World -> Prop) {PR : Passage R}.

Lemma thruH_now : thruH R (nowH : @H D _).
Proof. intros s w. by apply passage_db. Qed.
Lemma thruH_enqueue t : thruH R (enqueueTxn t : @H D _).
Proof.
  intros s w. unfold enqueueTxn. pose proof (dispatch_keeps t s w) as Hd.
  destruct (dispatchTxn t s w) as [[s1 w1] b]. by apply passage_db.
Qed.
Hint Resolve thruH_now thruH_enqueue : coin.

Lemma thruH_writeError {A} c http code msg : thruH R (writeError c http code msg : @H D A).
Proof. unfold writeError. thru_. Qed.
Lemma thruH_writeSuccess c d : thruH R (writeSuccess c d : @H D _).
Proof. unfold writeSuccess. thru_. Qed.
Lemma thruH_writeCreated c d : thruH R (writeCreated c d : @H D _).
Proof. unfold writeCreated. thru_. Qed.
Hint Resolve thruH_writeError thruH_writeSuccess thruH_writeCreated : coin.
Lemma thruH_transferError {A} c e : thruH R (writeTransferError c e : @H D A).
Proof. unfold writeTransferError. thru_. Qed.
Lemma thruH_refundError c e : thruH R (writeRefundError c e : @H D _).
Proof. unfold writeRefundError. thru_. Qed.
Lemma thruH_contextMerchant c : thruH R (contextMerchant c : @H D _).
Proof. unfold contextMerchant. thru_. Qed.
Lemma thruH_knownMerchant c m : thruH R (knownMerchant c m : @H D _).
Proof. unfold knownMerchant. thru_. Qed.
Lemma thruH_bound {A} c b : thruH R (bound c b : @H D A).
Proof. unfold bound. thru_. Qed.
Lemma thruH_existingAccount c no : thruH R (existingAccount c no : @H D _).
Proof. unfold existingAccount. thru_. Qed.
Lemma thruH_queryStore h c : thruH R (queryStore h c : @H D _).
Proof. unfold queryStore. thru_. Qed.
Lemma thruH_listed {A B} (m : M (list A * B)) x : keeps m -> thruH R (listed m x : @H D _).
Proof. unfold listed. thru_. Qed.
Lemma thruH_time c n msg : thruH R (parseTimeParam c n msg : @H D _).
Proof. unfold parseTimeParam. thru_. Qed.
Lemma thruH_pageSize c : thruH R (parsePageSize c : @H D _).
Proof. unfold parsePageSize. thru_. Qed.
Hint Resolve thruH_transferError thruH_refundError thruH_contextMerchant thruH_knownMerchant thruH_bound
  thruH_existingAccount thruH_queryStore thruH_listed thruH_time thruH_pageSize : coin.

Lemma thruH_pathParam c n msg : thruH R (pathParam c n msg : @H D _).
Proof. unfold pathParam. thru_. Qed.
Lemma thruH_queryUser c : thruH R (queryUser c : @H D _).
Proof. unfold queryUser. thru_. Qed.
Lemma thruH_resolveUser c m a u msg : thruH R (resolveUser c m a u msg : @H D _).
Proof. unfold resolveUser. thru_. Qed.
Lemma thruH_resolveRoute c req : thruH R (resolveRoute c req : @H D _).
Proof. unfold resolveRoute. thru_. Qed.
Lemma thruH_accepted c t : thruH R (accepted c t : @H D _).
Proof. unfold accepted. thru_. Qed.
Hint Resolve thruH_pathParam thruH_queryUser thruH_resolveUser thruH_resolveRoute thruH_accepted : coin.
Lemma thruH_resolveParty c m a u msg msg' : thruH R (resolveParty c m a u msg msg' : @H D _).
Proof. unfold resolveParty. thru_. Qed.
Lemma thruH_expiryDay c n msg : thruH R (expiryDay c n msg : @H D _).
Proof. unfold expiryDay. thru_. Qed.
Lemma thruH_checkCopy c o t r : thruH R (checkCopy c o t r : @H D _).
Proof.
  unfold checkCopy. apply thruH_invalid; [done|]. intros _. unfold invalid, reject. destruct (_ || _); thru_.
Qed.
Hint Resolve thruH_resolveParty thruH_expiryDay thruH_checkCopy : coin.

(** The routes that only read. *)
Definition query (r : Route) : bool :=
  match r with
  | RHealthz | RMe | RGetTxn | RGetByOutTradeNo | RListTransactions | RAccountChangeLogs | RBalance | RBooks
  | RBookChangeLogs | RGetWebhook => true
  | _ => false
  end.

Lemma thru_query o c q r : query r = true -> thruH R (handler o c q r : @H D _).
Proof.
  destruct r; try done; intros _; unfold handler.
  - thru_.
  - unfold handleMe, meVersion, meAccounts, meFeatures. thru_.
  - unfold handleGetByTxnNo. thru_.
  - unfold handleGetByOutTradeNo. thru_.
  - unfold handleListTransactions. thru_.
  - unfold handleListAccountChangeLogs. thru_.
  - unfold handleGetCustomerBalance. thru_.
  - unfold handleListCustomerBooks. thru_.
  - unfold handleListBookCreditChangeLogs. thru_.
  - unfold handleGetWebhookConfig. thru_.
Qed.

Context {WR : Writes R}.

Lemma thruH_submitTransfer c req :
  (RqStatus req = "" \/ RqStatus req = TxnStatusInit) /\ RqRefundableAmount req <= RqAmount req ->
  thruH R (submitTransfer c req : @H D _).
Proof.
  intros Hq. unfold submitTransfer. apply thruH_bind; [done|by apply thruH_lift, through_submit|]. thru_.
Qed.
Lemma thruH_transferOf c m o t r s d cr e n : thruH R (submitTransfer c (transferOf m o t r s d cr e n) : @H D _).
Proof. apply thruH_submitTransfer. split; [by right|simpl; lia]. Qed.
Hint Resolve thruH_transferOf : coin.
Lemma thruH_creditTarget c m a u : thruH R (creditTarget c m a u : @H D _).
Proof. unfold creditTarget. thru_. Qed.
Hint Resolve thruH_creditTarget : coin.

Lemma thru_handler o c q r : thruH R (handler o c q r : @H D _).
Proof.
  destruct (query r) eqn:Eq; [by apply thru_query|]. destruct r; try done; unfold handler.
  - unfold handleCreateMerchant. thru_.
  - unfold handleRotateSecret. thru_.
  - unfold handleCredit. thru_.
  - unfold handleDebit. thru_.
  - unfold handleTransfer. thru_.
  - unfold handleRefund. thru_.
    apply (thruH_lift R), through_submit. split; [by right|]. simpl. bools. lia.
  - unfold handlePutWebhookConfig. thru_.
Qed.
End Handlers.

(** ** Requests *)

Section Requests.
Context {PF : Platform} {CP : CodeProvider} {SC : SecretCipher} {UL : UUIDLib} {JB : JsonBinding}
  {D : Type} {TD : TransferDispatcher D}.
Context (R : World -> World -> Prop) {PR : Passage R}.

Lemma through_serve o r q (s : D) w :
  (forall c, thruH R (handler o c q r : @H D _)) -> R w (serve o r q s w).1.2.
Proof.
  intros Hh. unfold serve. destruct (negb _); [done|].
  pose proof (passage_db _ _ (keeps_RequestID q w) : R w _) as H1. destruct (RequestIDMiddleware q w) as [w1 [e|rid]]; [done|].
  assert (Ha : keeps (admitted o rid q r)) by (unfold admitted; keep; by apply keeps_authenticate).
  pose proof (passage_db _ _ (Ha w1) : R w1 _) as H2. destruct (admitted o rid q r w1) as [w2 [e|[resp|m]]]; simpl in *.
  1, 2: by etrans.
  specialize (Hh (mkContext rid m (q_param q) (Auth.q_query q)) s w2). unfold runH.
  destruct (handler _ _ _ _ s w2) as [[s3 w3] [resp|resp]]; simpl in *; by do 2 (etrans; [done|]).
Qed.
End Requests.

(** ** The webhook worker *)

Class Deliveries `{Platform} (R : World -> World -> Prop) : Prop := {
  through_claim : forall n now, thruM R (Repository.ClaimDueOutboxEvents n now);
  through_claimTxn : forall no n now, thruM R (Repository.ClaimDueOutboxEventsByTxnNo no n now);
  through_success : forall e, thruM R (Repository.MarkOutboxEventSuccess e);
  through_retry : forall e n next dead, thruM R (Repository.MarkOutboxEventRetry e n next dead)
}.

#[export] Hint Resolve through_claim through_claimTxn through_success through_retry : coin.

Section Webhooks.
Context {PF : Platform} {WS : WebhookSecretProvider} {C : Type} {HC : HttpClient C}.
Context (R : World -> World -> Prop) {PR : Passage R} {DR : Deliveries R}.

Lemma thruW_markSuccess e : thruW R (markSuccess e : @W C _).
Proof. unfold markSuccess. thru_. Qed.
Lemma thruW_markRetry e : thruW R (markRetry e : @W C _).
Proof. unfold markRetry. thru_. Qed.
Lemma thruW_loadConfig now m : thruW R (loadWebhookConfig now m : @W C _).
Proof. unfold loadWebhookConfig. thru_. Qed.
Lemma thruW_loadSecret now m : thruW R (loadActiveSecret now m : @W C _).
Proof. unfold loadActiveSecret. thru_. Qed.
Hint Resolve thruW_markSuccess thruW_markRetry thruW_loadConfig thruW_loadSecret : coin.
Lemma thruW_config m : thruW R (getWebhookConfig m : @W C _).
Proof. unfold getWebhookConfig. thru_. Qed.
Lemma thruW_secret m : thruW R (getActiveSecret m : @W C _).
Proof. unfold getActiveSecret. thru_. Qed.
Lemma thruW_deliver url e s : thruW R (deliver url e s : @W C _).
Proof. unfold deliver. thru_. Qed.
Hint Resolve thruW_config thruW_secret thruW_deliver : coin.
Lemma thruW_handleEvent e : thruW R (handleEvent e : @W C _).
Proof. unfold handleEvent. thru_. Qed.
Hint Resolve thruW_handleEvent : coin.
Lemma thruW_handleEvents l : thruW R (handleEvents l : @W C _).
Proof. induction l; simpl; thru_. Qed.
Hint Resolve thruW_handleEvents : coin.
Lemma thruW_handleClaimed r : thruW R (handleClaimed r : @W C _).
Proof. unfold handleClaimed. thru_. Qed.
Hint Resolve thruW_handleClaimed : coin.
Lemma thruW_RunOnce : thruW R (Webhook.RunOnce : @W C _).
Proof. unfold Webhook.RunOnce, runOnceWithReport. thru_. Qed.
Lemma thruW_DeliverTxn no : thruW R (DeliverTxn no : @W C _).
Proof. unfold DeliverTxn. thru_. Qed.
Hint Resolve thruW_DeliverTxn : coin.
Lemma thruW_workQueue : thruW R (workQueue : @W C _).
Proof. unfold workQueue. thru_. Qed.
End Webhooks.
