(* ===== verification/AdminThrough.v ===== *)
(** * What the console's handlers take the database through

    [thruH] for every handler of [AdminAuth], [AdminSetup], [AdminRoutes] and
    [AdminTxns], from what the calls that write do. *)

From S2P Require Import Prelude GoBase Domain Codes Encoding Json Store Queries Reads Secrets Ledger Repo AdminRepo Via Services TxnQuery Api Auth Router AdminAuth AdminSetup AdminRoutes AdminTxns Webhook Through.
From stdpp Require Import base gmap list strings.
From Stdlib Require Import ZArith Lia.

Local Open Scope string_scope.
Local Open Scope Z_scope.

(** What the console writes besides what the handlers of the API do. *)
Class AdminWrites `{Platform} `{CodeProvider} (R : World -> World -> Prop) : Prop := {
  through_customer : forall m u, thruM R (CreateCustomer m u);
  through_account : forall a, thruM R (Repository.CreateAccount a);
  through_capabilities : forall no d c t, thruM R (Repository.UpdateAccountCapabilities no d c t);
  through_ensureUser : forall u p, thruM R (AdminRepository.EnsureAdminUser u p);
  through_createUser : forall u p, thruM R (AdminRepository.CreateAdminUser u p);
  through_setupState : thruM R AdminRepository.GetAdminSetupState;
  through_progress : forall u m, thruM R (AdminRepository.SaveAdminSetupProgress u m);
  through_initialized : forall u m, thruM R (AdminRepository.MarkAdminSetupInitialized u m)
}.
(** And the audit log, for the request of the context [c]. *)
Class Audits {PT : PgText} (R : World -> World -> Prop) (c : Context) : Prop := {
  through_audit : forall e, RequestID e = x_requestID c -> thruM R (AdminRepository.InsertAdminAuditLog e)
}.

#[export] Hint Resolve through_customer through_account through_capabilities through_ensureUser through_createUser
  through_setupState through_progress through_initialized : coin.

(** ** Reads *)

Section Reads.
Context {PF : Platform} {PT : PgText}.

Lemma keeps_getUser n : keeps (AdminRepository.GetAdminUserByUsername n).
Proof. unfold AdminRepository.GetAdminUserByUsername, Repository.found_err. keep. Qed.
Lemma keeps_GetCustomerByOutUserID m u : keeps (Repository.GetCustomerByOutUserID m u).
Proof. unfold Repository.GetCustomerByOutUserID, Repository.found. keep. Qed.
Lemma keeps_stats m : keeps (AdminRepository.GetAdminDashboardStats m).
Proof. unfold AdminRepository.GetAdminDashboardStats. keep. Qed.
Lemma keeps_bookSum no : keeps (AdminRepository.GetAccountBookBalanceSum no).
Proof. unfold AdminRepository.GetAccountBookBalanceSum. keep. Qed.
Lemma keeps_availableSum no : keeps (AdminRepository.GetAvailableAccountBookBalanceSum no).
Proof. unfold AdminRepository.GetAvailableAccountBookBalanceSum. keep. Qed.
Lemma keeps_customerByNo m no : keeps (AdminRepository.GetCustomerByNo m no).
Proof. unfold AdminRepository.GetCustomerByNo, Repository.found_err. keep. Qed.
Lemma keeps_outboxEvents f : keeps (AdminRepository.ListOutboxEventsForAdmin f).
Proof. unfold AdminRepository.ListOutboxEventsForAdmin. keep. Qed.
Lemma keeps_auditLogs f : keeps (AdminRepository.ListAdminAuditLogs f).
Proof. unfold AdminRepository.ListAdminAuditLogs. keep. Qed.
Lemma keeps_merchantList c n : keeps (AdminRepository.ListMerchantsForAdmin c n).
Proof. unfold AdminRepository.ListMerchantsForAdmin. keep. Qed.
Lemma keeps_customerList f : keeps (AdminRepository.ListCustomersForAdmin f).
Proof. unfold AdminRepository.ListCustomersForAdmin. keep. Qed.
Lemma keeps_accountList f : keeps (AdminRepository.ListAccountsForAdmin f).
Proof. unfold AdminRepository.ListAccountsForAdmin. keep. Qed.
Lemma keeps_IssueTokenPair m u : keeps (IssueTokenPair m u).
Proof. unfold IssueTokenPair. keep. Qed.
Lemma keeps_ParseAndValidate m t e : keeps (ParseAndValidate m t e).
Proof. unfold ParseAndValidate. keep. Qed.
Lemma keeps_adminMiddleware m rid q : keeps (adminMiddleware m rid q).
Proof. unfold adminMiddleware. keep. apply keeps_ParseAndValidate. Qed.
Lemma keeps_adminAdmitted m rid q r : keeps (adminAdmitted m rid q r).
Proof. unfold adminAdmitted. keep. apply keeps_adminMiddleware. Qed.
End Reads.

#[export] Hint Resolve keeps_getUser keeps_GetCustomerByOutUserID keeps_stats keeps_bookSum keeps_availableSum keeps_customerByNo keeps_outboxEvents
  keeps_auditLogs keeps_merchantList keeps_customerList keeps_accountList keeps_IssueTokenPair keeps_ParseAndValidate
  keeps_adminMiddleware keeps_adminAdmitted generate_keeps : coin.

(** ** Handlers *)

Section Handlers.
Context {PF : Platform} {PT : PgText} {CP : CodeProvider} {SC : SecretCipher} {BC : Bcrypt} {UL : UUIDLib}
  {AB : AdminBinding} {D : Type} {TD : TransferDispatcher D}.
Context (R : World -> World -> Prop) {PR : Passage R}.
Context (h : AdminHandler) (c : Context) (user : option string).

Hint Resolve thruH_now thruH_writeError thruH_writeSuccess thruH_writeCreated thruH_contextMerchant thruH_knownMerchant
  thruH_bound thruH_existingAccount thruH_time thruH_resolveUser thruH_resolveRoute thruH_expiryDay thruH_checkCopy
  thruH_listed thruH_refundError thruH_enqueue : coin.

Lemma thruH_orInternal {A} msg (m : M A) : thruM R m -> thruH R (orInternal c msg m : @H D A).
Proof. intros Hm. unfold orInternal. thru_. Qed.
Hint Resolve thruH_orInternal : coin.
Lemma thruH_internal_keeps {A} msg (m : M A) : keeps m -> thruH R (orInternal c msg m : @H D A).
Proof. intros Hm. by apply thruH_orInternal, thruM_keeps. Qed.
Hint Resolve thruH_internal_keeps : coin.
Lemma thruH_adminConfigured {A} b (f : unit -> @H D A) : thruH R (f tt) -> thruH R (bindH (adminConfigured c b) f).
Proof. intros Hf. by apply thruH_reject. Qed.
Lemma thruH_adminPageSize : thruH R (pageSizeParam c : @H D _).
Proof. unfold pageSizeParam. thru_. Qed.
Lemma thruH_param n : thruH R (param c n : @H D _).
Proof. unfold param. thru_. Qed.
Lemma thruH_cursorParam : thruH R (cursorParam c : @H D _).
Proof. unfold cursorParam. thru_. Qed.
Lemma thruH_adminQueryStore : thruH R (adminQueryStore h c : @H D _).
Proof. unfold adminQueryStore. thru_. Qed.
Lemma thruH_shownTxn i : thruH R (shownTxn c i : @H D _).
Proof. unfold shownTxn. thru_. Qed.
Lemma thruH_customerNotFound {A} : thruH R (customerNotFound c : @H D A).
Proof. unfold customerNotFound. thru_. Qed.
Lemma thruH_adminEnqueue t : thruH R (adminEnqueueTxn h t : @H D _).
Proof. unfold adminEnqueueTxn. thru_. Qed.
Lemma thruH_writeSubmitError e : thruH R (writeSubmitError c e : @H D _).
Proof. unfold writeSubmitError. thru_. Qed.
Hint Resolve thruH_adminPageSize thruH_param thruH_cursorParam thruH_adminQueryStore thruH_shownTxn thruH_customerNotFound
  thruH_adminEnqueue thruH_writeSubmitError : coin.

(** [thru_], past the check that the handler is configured too. *)
Ltac admin_ := repeat first [apply thruH_adminConfigured | progress thru_].

(** *** Handlers that only read *)

Definition adminReads (r : AdminRoute) : bool :=
  match r with
  | ALogin | ARefresh | AMe | ALogout | ADashboard | AListMerchants | AGetMerchant | AGetWebhook | AListCustomers
  | AGetCustomer | AListAccounts | AGetBalance | AGetTxn | AGetTxnByOutTradeNo | AListTransactions | AListOutbox
  | AListAudit => true
  | _ => false
  end.

Lemma thruH_issueTokens m u : thruH R (issueTokens m c u : @H D _).
Proof. unfold issueTokens. admin_. Qed.
Lemma thruH_activeUser u msg : thruH R (activeUser c u msg : @H D _).
Proof. unfold activeUser. admin_. Qed.
Lemma thruH_bookSums a no : thruH R (bookSums c a no : @H D _).
Proof. unfold bookSums. admin_. Qed.
Hint Resolve thruH_issueTokens thruH_activeUser thruH_bookSums : coin.

Lemma thru_adminReads m q r : adminReads r = true -> thruH R (adminHandler h m c user q r : @H D _).
Proof using All.
  destruct r; try done; intros _; unfold adminHandler.
  - unfold handleLogin. admin_.
  - unfold handleRefresh. admin_.
  - unfold handleAdminMe. admin_.
  - unfold handleLogout. admin_.
  - unfold handleDashboardOverview. admin_.
  - unfold handleAdminListMerchants. admin_.
  - unfold handleAdminGetMerchant. admin_.
  - unfold handleAdminGetWebhookConfig. admin_.
  - unfold handleAdminListCustomers. admin_.
  - unfold handleAdminGetCustomerByOutUserID. admin_.
  - unfold handleAdminListAccounts. admin_.
  - unfold handleAdminGetAccountBalance. admin_.
  - unfold handleAdminGetTxnByNo. admin_.
  - unfold handleAdminGetTxnByOutTradeNo. admin_.
  - unfold handleAdminListTransactions. admin_.
  - unfold handleAdminListOutboxEvents. admin_.
  - unfold handleAdminListAuditLogs. admin_.
Qed.

(** *** Handlers that write *)

Context {WR : Writes R} {AW : AdminWrites R}.

Lemma thruM_setupUser u p : thruM R (setupUser u p).
Proof. unfold setupUser. via_. Qed.
Lemma thruM_setupMerchant u n d : thruM R (setupMerchant u n d).
Proof. unfold setupMerchant. via_. Qed.
Hint Resolve thruM_setupUser thruM_setupMerchant : coin.
Lemma thruM_initializeBody q : thruM R (initializeBody q).
Proof. unfold initializeBody. via_. Qed.
Lemma thruM_lock {A} (m : M A) : thruM R m -> thruM R (AdminRepository.WithAdminSetupLock m).
Proof. intros Hm. unfold AdminRepository.WithAdminSetupLock. via_. Qed.
Hint Resolve thruM_initializeBody thruM_lock : coin.

Lemma thruH_ownerCustomer m u no : thruH R (ownerCustomer c m u no : @H D _).
Proof. unfold ownerCustomer. admin_. Qed.
Hint Resolve thruH_ownerCustomer : coin.
Lemma thruH_newOwner q : thruH R (newOwner c q : @H D _).
Proof. unfold newOwner. admin_. Qed.
Lemma thruH_adminCreditTarget m a u : thruH R (creditTarget c m a u : @H D _).
Proof. unfold creditTarget. admin_. Qed.
Lemma thruM_newNo m t : thruM R (NewAccountNo m t).
Proof. apply (thruM_keeps _). intros w. by destruct (NewAccountNo_frame m t w) as [-> _]. Qed.
Hint Resolve thruH_newOwner thruH_adminCreditTarget thruM_newNo : coin.

Lemma thruH_checkSubmission m o t r n : thruH R (checkSubmission c m o t r n : @H D _).
Proof. unfold checkSubmission. admin_. Qed.
Hint Resolve thruH_checkSubmission : coin.
Lemma thru_setup m q r : r = ASetupStatus \/ r = ASetupInitialize -> thruH R (adminHandler h m c user q r : @H D _).
Proof using All. intros [-> | ->]; unfold adminHandler, handleStatus, handleInitialize; admin_. Qed.

Context {AU : Audits R c}.

Lemma thruH_audit a t i m p : thruH R (audit h c user a t i m p : @H D _).
Proof. unfold audit. admin_. apply (thruH_lift R), (through_audit (c := c)). done. Qed.
Hint Resolve thruH_audit : coin.

Lemma thruH_adminSubmit req a p (f : error -> @H D Response) :
  (RqStatus req = "" \/ RqStatus req = TxnStatusInit) /\ RqRefundableAmount req <= RqAmount req ->
  (forall e, thruH R (f e)) -> thruH R (adminSubmit h c user req a p f).
Proof using All.
  intros Hq Hf. unfold adminSubmit. apply thruH_bind; [done|by apply thruH_lift, through_submit|]. admin_.
Qed.
Lemma thru_adminHandler m q r : thruH R (adminHandler h m c user q r : @H D _).
Proof using All.
  destruct (adminReads r) eqn:Er; [by apply thru_adminReads|].
  destruct r; try done; try (apply thru_setup; by auto); unfold adminHandler.
  - unfold handleAdminCreateMerchant. admin_.
  - unfold handleAdminPatchMerchantFeatures. admin_.
  - unfold handleAdminRotateMerchantSecret. admin_.
  - unfold handleAdminPutWebhookConfig. admin_.
  - unfold handleAdminCreateCustomer. admin_.
  - unfold handleAdminCreateAccount. admin_.
  - unfold handleAdminPatchAccountCapability. admin_.
  - unfold handleAdminCredit. admin_. all: apply thruH_adminSubmit; [split; [by right|simpl; lia]|auto with coin].
  - unfold handleAdminDebit. admin_. all: apply thruH_adminSubmit; [split; [by right|simpl; lia]|auto with coin].
  - unfold handleAdminTransfer. admin_. all: apply thruH_adminSubmit; [split; [by right|simpl; lia]|auto with coin].
  - unfold handleAdminRefund. admin_. apply thruH_adminSubmit; [|auto with coin]. split; [by right|].
    simpl in *. bools. lia.
Qed.
End Handlers.

(** ** Requests *)

Section Requests.
Context {PF : Platform} {PT : PgText} {CP : CodeProvider} {SC : SecretCipher} {BC : Bcrypt} {UL : UUIDLib}
  {AB : AdminBinding} {D : Type} {TD : TransferDispatcher D}.
Context (R : World -> World -> Prop) {PR : Passage R}.

Lemma through_serveAdmin console r q (s : D) w :
  (forall h m c user, thruH R (adminHandler h m c user q r : @H D _)) -> R w (serveAdmin console r q s w).1.2.
Proof using All.
  intros Hh. unfold serveAdmin. destruct console as [[h m]|]; [|done].
  pose proof (passage_db _ _ (keeps_RequestID q w) : R w _) as H1. destruct (RequestIDMiddleware q w) as [w1 [e|rid]]; [done|].
  pose proof (passage_db _ _ (keeps_adminAdmitted m rid q r w1) : R w1 _) as H2.
  destruct (adminAdmitted m rid q r w1) as [w2 [e|[resp|u]]]; simpl in *.
  1, 2: by etrans.
  specialize (Hh h m (mkContext rid None (q_param q) (q_query q)) u s w2). unfold runH.
  destruct (adminHandler _ _ _ _ _ _ s w2) as [[s3 w3] [resp|resp]]; simpl in *; by do 2 (etrans; [done|]).
Qed.
End Requests.
