(* ===== verification/Processor.v ===== *)
(** * The asynchronous stage processor ([internal/service/txn_async_processor.go])

    Stage queues sharded by account, the processing guards
    ([processing_guard_memory.go], [processing_guard_redis.go]), the
    processing of one stage, and the recovery and compensation workers.

    The processor is written against two interfaces: [StageStore], what it
    needs of the repository, and [StageProcessingGuard]. *)

From S2P Require Import Prelude GoBase Domain Codes Store Queries Reads Ledger Repo.
From stdpp Require Import base gmap list strings.
From Stdlib Require Import ZArith Lia.

Local Open Scope string_scope.
Local Open Scope Z_scope.

(** ** Stage queues *)

Record stageQueue : Type := mkStageQueue {
  workerQueues : list (list string);     (* one channel per worker, oldest first *)
  maxPending : Z;
  pending : gset string
}.

Definition newStageQueueWithWorkers (workerCount size : Z) : stageQueue :=
  let workerCount := if workerCount <=? 0 then 1 else workerCount in
  let size := if size <=? 0 then 1 else size in
  let workerCount := if size <? workerCount then size else workerCount in
  mkStageQueue (repeat [] (Z.to_nat workerCount)) size ∅.

Definition workerIndex (routeKey fallback : string) (q : stageQueue) : Z :=
  let n := Z.of_nat (length (workerQueues q)) in
  if n =? 0 then -1 else
  let key := TrimSpace routeKey in
  let key := if String.eqb key "" then TrimSpace fallback else key in
  if String.eqb key "" then 0 else hashUint32 key mod n.

(** A channel has room for [maxPending] items ([make(chan stageQueueItem, size)]). *)
Definition EnqueueWithRoute (txnNo routeKey : string) (q : stageQueue) : stageQueue * bool :=
  let txnNo := TrimSpace txnNo in
  if String.eqb txnNo "" then (q, false) else
  let i := workerIndex routeKey txnNo q in
  if (i <? 0) || (Z.of_nat (length (workerQueues q)) <=? i) then (q, false) else
  if bool_decide (txnNo ∈ pending q) then (q, true) else
  if (0 <? maxPending q) && (maxPending q <=? Z.of_nat (size (pending q))) then (q, false) else
  let ch := nth (Z.to_nat i) (workerQueues q) [] in
  if Z.of_nat (length ch) <? maxPending q then
    (mkStageQueue (<[Z.to_nat i := ch ++ [txnNo]]> (workerQueues q))%list (maxPending q)
       ({[txnNo]} ∪ pending q), true)
  else (q, false).

Definition Enqueue (txnNo : string) (q : stageQueue) : stageQueue * bool := EnqueueWithRoute txnNo "" q.

Definition Depth (q : stageQueue) : Z := sum_by (fun ch => Z.of_nat (length ch)) (workerQueues q).

Definition Done (txnNo : string) (q : stageQueue) : stageQueue :=
  let txnNo := TrimSpace txnNo in
  if String.eqb txnNo "" then q
  else mkStageQueue (workerQueues q) (maxPending q) (pending q ∖ {[txnNo]}).

(** [for item := range ch]: worker [i] takes the oldest item. *)
Definition receive (i : nat) (q : stageQueue) : option (string * stageQueue) :=
  match workerQueues q !! i with
  | Some (x :: ch) => Some (x, mkStageQueue (<[i := ch]> (workerQueues q)) (maxPending q) (pending q))
  | _ => None
  end.

(** ** Processing guards *)

Class StageProcessingGuard (G : Type) : Type := {
  tryStage : string -> string -> G -> G * Result error bool;
  endStage : string -> string -> G -> G
}.

Definition ProcessingKey (txnNo stage : string) : string := TrimSpace txnNo ++ "+" ++ TrimSpace stage.

(** The in-memory guard: the set of keys being processed. *)
Definition ProcessingGuard : Type := gset string.

Definition TryBegin (txnNo stage : string) (g : ProcessingGuard) : ProcessingGuard * bool :=
  let key := ProcessingKey txnNo stage in
  if String.eqb key "+" then (g, false) else
  if bool_decide (key ∈ g) then (g, false) else ({[key]} ∪ g, true).

Definition End_ (txnNo stage : string) (g : ProcessingGuard) : ProcessingGuard :=
  let key := ProcessingKey txnNo stage in
  if String.eqb key "+" then g else g ∖ {[key]}.

#[export] Instance memoryGuard : StageProcessingGuard ProcessingGuard := {
  tryStage txnNo stage g := let '(g', ok) := TryBegin txnNo stage g in (g', Ok ok);
  endStage := End_
}.

(** The guard on a Redis client: [SetNX] and [Del] are the client's. *)
Section Redis.
Context {R : Type} (SetNX : string -> R -> R * Result error bool) (Del : string -> R -> R).

Definition RedisTryBegin (txnNo stage : string) (c : R) : R * bool :=
  let key := ProcessingKey txnNo stage in
  if String.eqb (TrimSpace key) "+" then (c, false) else
  let '(c', r) := SetNX key c in
  (c', match r with Ok ok => ok | Err _ => false end).

Definition RedisTryBeginWithError (txnNo stage : string) (c : R) : R * Result error bool :=
  let key := ProcessingKey txnNo stage in
  if String.eqb (TrimSpace key) "+" then (c, Err ErrProcessingGuardUnavailable) else
  let '(c', r) := SetNX key c in
  (c', match r with Ok ok => Ok ok | Err e => Err (ErrJoin ErrProcessingGuardUnavailable e) end).

Definition RedisEnd (txnNo stage : string) (c : R) : R :=
  let key := ProcessingKey txnNo stage in
  if String.eqb (TrimSpace key) "+" then c else Del key c.

Definition redisGuard : StageProcessingGuard R := {|
  tryStage := RedisTryBeginWithError; endStage := RedisEnd
|}.
End Redis.

(** ** What the processor needs of the repository *)

Class StageStore : Type := {
  loadTxn : string -> M (option TransferTxn);
  applyStage : string -> string -> World -> World * (TxnStageApplyResult * option error);
  transition : string -> string -> string -> string -> string -> M bool
}.

#[export] Instance repositoryStore `{Platform} `{CodeProvider} : StageStore := {
  loadTxn := Repository.GetTransferTxn;
  applyStage := ApplyTxnStage;
  transition := Repository.TransitionTransferTxnStatus
}.

(** ** Errors *)

Definition shouldFailOnError (e : error) : bool :=
  existsb (errors_is e)
    [ErrTxnNotFound; ErrTxnStatusInvalid; ErrAccountResolveFailed; ErrAccountResolveConflict;
     ErrOutUserIDNotAllowedForSystemAccount; ErrAccountForbidDebit; ErrAccountForbidCredit;
     ErrAccountForbidTransfer; ErrInsufficientBalance; ErrRefundAmountExceeded;
     ErrRefundOriginBookTraceMissing; ErrBookDisabled; ErrExpireAtRequired].

Definition refundDebitErrorCode (e : error) : string :=
  if errors_is e ErrTxnNotFound then "REFUND_ORIGIN_NOT_FOUND"
  else if errors_is e ErrTxnStatusInvalid then "REFUND_ORIGIN_INVALID"
  else if errors_is e ErrRefundAmountExceeded then "REFUND_AMOUNT_EXCEEDED"
  else "REFUND_DEBIT_FAILED".

Definition refundCreditErrorCode (e : error) : string :=
  if errors_is e ErrTxnNotFound then "REFUND_ORIGIN_NOT_FOUND"
  else if errors_is e ErrRefundOriginBookTraceMissing then "REFUND_ORIGIN_BOOK_TRACE_MISSING"
  else "REFUND_CREDIT_FAILED".

(** ** The processor *)

Record processor (G : Type) : Type := mkProcessor {
  guard : G;
  initQueue : stageQueue;
  paySuccessQueue : stageQueue;
  notified : list string                   (* webhookDispatcher.Enqueue calls, latest first *)
}.
Arguments mkProcessor {G}. Arguments guard {G}. Arguments initQueue {G}.
Arguments paySuccessQueue {G}. Arguments notified {G}.

Record TransferAsyncProcessorOptions : Type := mkProcessorOptions {
  InitWorkers : Z; PaySuccessWorkers : Z; InitQueueSize : Z; PaySuccessQueue : Z
}.

Definition defaultAsyncInitWorkers : Z := 17.
Definition defaultAsyncPaySuccessWorkers : Z := 17.
Definition defaultAsyncInitQueueSize : Z := 65536.
Definition defaultAsyncPaySuccessQueue : Z := 65536.

Definition withDefaults (o : TransferAsyncProcessorOptions) : TransferAsyncProcessorOptions :=
  mkProcessorOptions
    (if InitWorkers o <=? 0 then defaultAsyncInitWorkers else InitWorkers o)
    (if PaySuccessWorkers o <=? 0 then defaultAsyncPaySuccessWorkers else PaySuccessWorkers o)
    (if InitQueueSize o <=? 0 then defaultAsyncInitQueueSize else InitQueueSize o)
    (if PaySuccessQueue o <=? 0 then defaultAsyncPaySuccessQueue else PaySuccessQueue o).

Definition NewTransferAsyncProcessorWithGuardAndOptions {G} (g : G) (opts : TransferAsyncProcessorOptions)
    : processor G :=
  let opts := withDefaults opts in
  mkProcessor g (newStageQueueWithWorkers (InitWorkers opts) (InitQueueSize opts))
    (newStageQueueWithWorkers (PaySuccessWorkers opts) (PaySuccessQueue opts)) [].

Section Processor.
Context `{StageStore} {G : Type} `{StageProcessingGuard G}.
Context (errText : error -> string).       (* err.Error() *)

Definition P (A : Type) : Type := processor G -> World -> processor G * World * A.

Definition routeKeyForTxnStage (txn : TransferTxn) (status : string) : string :=
  let status := TrimSpace status in
  if String.eqb status TxnStatusInit then TrimSpace (DebitAccountNo txn)
  else if String.eqb status TxnStatusPaySuccess then TrimSpace (CreditAccountNo txn)
  else "".

(** A read of the repository: any failure is [None]. *)
Definition load (txnNo : string) (w : World) : World * option TransferTxn :=
  match loadTxn txnNo w with
  | (w', Ok o) => (w', o)
  | (w', Err _) => (w', None)
  end.

Definition orElse (a b : string) : string := if String.eqb a "" then b else a.

Definition stageRouteKey (status txnNo : string) (txn : option TransferTxn) (w : World) : World * string :=
  let status := TrimSpace status in
  let txnNo := TrimSpace txnNo in
  if negb (String.eqb status TxnStatusInit) && negb (String.eqb status TxnStatusPaySuccess) then (w, txnNo) else
  let '(w1, target) := match txn with Some t => (w, Some t) | None => load txnNo w end in
  match target with
  | None => (w1, txnNo)
  | Some t =>
      let primaryKey := routeKeyForTxnStage t status in
      if negb (String.eqb primaryKey "") then (w1, primaryKey) else
      let originTxnNo := TrimSpace (RefundOfTxnNo t) in
      if String.eqb (BizType t) BizTypeRefund && negb (String.eqb originTxnNo "") then
        let '(w2, origin) := load originTxnNo w1 in
        (w2, match origin with
             | Some o => orElse (TrimSpace (if String.eqb status TxnStatusInit then CreditAccountNo o
                                            else DebitAccountNo o)) originTxnNo
             | None => originTxnNo
             end)
      else (w1, orElse txnNo (TrimSpace (TxnNo t)))
  end.

Definition enqueueByStatusWithTxn (txnNo status : string) (txn : option TransferTxn) : P bool := fun p w =>
  let txnNo := TrimSpace txnNo in
  let status := TrimSpace status in
  if String.eqb txnNo "" then (p, w, false) else
  let '(w1, routeKey) := stageRouteKey status txnNo txn w in
  if String.eqb status TxnStatusInit then
    let '(q, ok) := EnqueueWithRoute txnNo routeKey (initQueue p) in
    (mkProcessor (guard p) q (paySuccessQueue p) (notified p), w1, ok)
  else if String.eqb status TxnStatusPaySuccess then
    let '(q, ok) := EnqueueWithRoute txnNo routeKey (paySuccessQueue p) in
    (mkProcessor (guard p) (initQueue p) q (notified p), w1, ok)
  else (p, w1, String.eqb status TxnStatusRecvSuccess || String.eqb status TxnStatusFailed).

Definition EnqueueByStatus (txnNo status : string) : P bool := enqueueByStatusWithTxn txnNo status None.

Definition EnqueueTxn (txn : TransferTxn) : P bool := fun p w =>
  let txnNo := TrimSpace (TxnNo txn) in
  if String.eqb txnNo "" then (p, w, false) else
  let status := orElse (TrimSpace (Status txn)) TxnStatusInit in
  enqueueByStatusWithTxn txnNo status (Some txn) p w.

Definition enqueueByCurrentStatus (txnNo : string) : P unit := fun p w =>
  let '(w1, t) := load txnNo w in
  match t with
  | None => (p, w1, tt)
  | Some txn => let '(p2, w2, _) := enqueueByStatusWithTxn (TxnNo txn) (Status txn) (Some txn) p w1 in (p2, w2, tt)
  end.

Definition notifyWebhook (txnNo : string) : P unit := fun p w =>
  (mkProcessor (guard p) (initQueue p) (paySuccessQueue p) (txnNo :: notified p), w, tt).

(** [fail]: its own error is dropped by every caller. *)
Definition fail_ (txnNo fromStatus errorCode errorMsg : string) (w : World) : World :=
  (transition txnNo fromStatus TxnStatusFailed errorCode errorMsg w).1.

Definition handleStageError (txnNo fromStatus errorCode : string) (e : error) (w : World) : World :=
  if shouldFailOnError e then fail_ txnNo fromStatus errorCode (errText e) w else w.

Definition knownBiz (b : string) : bool := String.eqb b BizTypeTransfer || String.eqb b BizTypeRefund.

(** The error branch of [processStageWithApplyResult]. *)
Definition stageFailed (txnNo expectedStatus biz : string) (e : error) (w : World) : World * error :=
  if negb (knownBiz biz) then (w, e) else
  if String.eqb expectedStatus TxnStatusInit then
    (handleStageError txnNo TxnStatusInit
       (if String.eqb biz BizTypeRefund then refundDebitErrorCode e else "DEBIT_FAILED") e w, e)
  else if String.eqb expectedStatus TxnStatusPaySuccess then
    if String.eqb biz BizTypeRefund then (w, e)
    else (handleStageError txnNo TxnStatusPaySuccess "CREDIT_FAILED" e w, e)
  else (fail_ txnNo expectedStatus "TXN_STATUS_INVALID" "unknown txn status" w, ErrTxnStatusInvalid).

Definition stageTxn (txnNo : string) (r : TxnStageApplyResult) (status : string) : TransferTxn :=
  mkTransferTxn txnNo "" "" "" "" (RBizType r) "" (RDebitAccountNo r) (RCreditAccountNo r) zeroTime 0 "" 0
    status "" "" zeroTime.

Definition processStageWithApplyResult (txnNo expectedStatus : string) : P (option error) := fun p w =>
  let '(w1, (r, oe)) := applyStage txnNo expectedStatus w in
  match oe with
  | Some e => let '(w2, e') := stageFailed txnNo expectedStatus (RBizType r) e w1 in (p, w2, Some e')
  | None =>
      if negb (knownBiz (RBizType r)) then (p, w1, None) else
      if negb (Applied r) then
        if String.eqb (CurrentStatus r) "" then
          let '(p2, w2, _) := enqueueByCurrentStatus txnNo p w1 in (p2, w2, None)
        else
          let '(p2, w2, _) := enqueueByStatusWithTxn txnNo (CurrentStatus r)
                                (Some (stageTxn txnNo r (CurrentStatus r))) p w1 in (p2, w2, None)
      else if String.eqb expectedStatus TxnStatusInit then
        let '(p2, w2, _) := enqueueByStatusWithTxn txnNo TxnStatusPaySuccess
                              (Some (stageTxn txnNo r TxnStatusPaySuccess)) p w1 in (p2, w2, None)
      else if String.eqb expectedStatus TxnStatusPaySuccess then
        let '(p2, w2, _) := notifyWebhook txnNo p w1 in (p2, w2, None)
      else (p, fail_ txnNo expectedStatus "TXN_STATUS_INVALID" "unknown txn status" w1, Some ErrTxnStatusInvalid)
  end.

Definition setGuard (g : G) (p : processor G) : processor G :=
  mkProcessor g (initQueue p) (paySuccessQueue p) (notified p).

Definition processStage (txnNo expectedStatus : string) : P (option error) := fun p w =>
  let txnNo := TrimSpace txnNo in
  let expectedStatus := TrimSpace expectedStatus in
  if String.eqb txnNo "" then (p, w, Some ErrTxnNotFound) else
  let '(w0, st) := (if String.eqb expectedStatus "" then
                      let '(w0, t) := load txnNo w in (w0, option_map Status t)
                    else (w, Some expectedStatus)) in
  match st with
  | None => (p, w0, Some ErrTxnNotFound)
  | Some st =>
      if String.eqb st TxnStatusRecvSuccess || String.eqb st TxnStatusFailed then (p, w0, None) else
      let '(g, r) := tryStage txnNo st (guard p) in
      match r with
      | Err e => (setGuard g p, w0, Some e)
      | Ok false => (setGuard g p, w0, None)
      | Ok true =>
          let '(p2, w2, oe) := processStageWithApplyResult txnNo st (setGuard g p) w0 in
          (setGuard (endStage txnNo st (guard p2)) p2, w2, oe)
      end
  end.

(** [Process]: one stage, by the current status. *)
Definition Process (txnNo : string) : P (option error) := fun p w =>
  let txnNo := TrimSpace txnNo in
  if String.eqb txnNo "" then (p, w, Some ErrTxnNotFound) else
  let '(w1, t) := load txnNo w in
  match t with
  | None => (p, w1, Some ErrTxnNotFound)
  | Some txn => processStage txnNo (Status txn) p w1
  end.

(** One iteration of a worker: receive, process, [Done]. *)
Definition workInit (i : nat) (p : processor G) (w : World) : option (processor G * World) :=
  match receive i (initQueue p) with
  | None => None
  | Some (txnNo, q) =>
      let '(p2, w2, _) := processStage txnNo TxnStatusInit
                            (mkProcessor (guard p) q (paySuccessQueue p) (notified p)) w in
      Some (mkProcessor (guard p2) (Done txnNo (initQueue p2)) (paySuccessQueue p2) (notified p2), w2)
  end.

Definition workPaySuccess (i : nat) (p : processor G) (w : World) : option (processor G * World) :=
  match receive i (paySuccessQueue p) with
  | None => None
  | Some (txnNo, q) =>
      let '(p2, w2, _) := processStage txnNo TxnStatusPaySuccess
                            (mkProcessor (guard p) (initQueue p) q (notified p)) w in
      Some (mkProcessor (guard p2) (initQueue p2) (Done txnNo (paySuccessQueue p2)) (notified p2), w2)
  end.

End Processor.

(** ** Queueing only reads the tables *)

Section Frame.
Context `{Platform} `{CodeProvider} {G : Type}.

Lemma load_db no w : w_db (load no w).1 = w_db w.
Proof.
  unfold load. simpl. assert (keeps (Repository.GetTransferTxn no)) as Hk.
  { unfold Repository.GetTransferTxn, Repository.found, GetTransferTxnByNo. keep. }
  specialize (Hk w). by destruct (Repository.GetTransferTxn no w) as [w' [e|o]].
Qed.

Lemma route_db st no t w : w_db (stageRouteKey st no t w).1 = w_db w.
Proof.
  unfold stageRouteKey. destruct (_ && _); [done|].
  assert (forall w1 o, match t with Some x => (w, Some x) | None => load (TrimSpace no) w end = (w1, o) -> w_db w1 = w_db w) as Hl.
  { intros w1 o. destruct t; [by intros [= <- <-]|]. intros E. pose proof (load_db (TrimSpace no) w) as Hd.
    by rewrite E in Hd. }
  destruct (match t with Some _ => _ | None => _ end) as [w1 [x|]]; [|by eapply Hl].
  specialize (Hl _ _ eq_refl). destruct (negb _); [done|]. destruct (_ && _); [|done].
  pose proof (load_db (TrimSpace (RefundOfTxnNo x)) w1) as Hd. destruct (load _ w1). simpl in *. congruence.
Qed.

Lemma enqueueStatus_db no st t (p : processor G) w : w_db (enqueueByStatusWithTxn no st t p w).1.2 = w_db w.
Proof.
  unfold enqueueByStatusWithTxn. destruct (String.eqb _ _); [done|].
  pose proof (route_db (TrimSpace st) (TrimSpace no) t w) as Hd. destruct (stageRouteKey _ _ _ _) as [w1 k]. simpl in Hd.
  repeat case_match; simplify_eq/=; done.
Qed.

Lemma enqueueCurrent_db no (p : processor G) w : w_db (enqueueByCurrentStatus no p w).1.2 = w_db w.
Proof.
  unfold enqueueByCurrentStatus. pose proof (load_db no w) as Hd. destruct (load no w) as [w1 [t|]]; simpl in *; [|done].
  pose proof (enqueueStatus_db (TxnNo t) (Status t) (Some t) p w1) as He.
  destruct (enqueueByStatusWithTxn _ _ _ _ _) as [[p2 w2] b]. simpl in *. congruence.
Qed.

Lemma EnqueueTxn_db t (p : processor G) w : w_db (EnqueueTxn t p w).1.2 = w_db w.
Proof. unfold EnqueueTxn. destruct (String.eqb _ _); [done|]. apply enqueueStatus_db. Qed.
End Frame.

(** ** Recovery ([transfer_recovery_worker.go]) *)

Section Recovery.
Context `{Platform} `{CodeProvider} {G : Type} `{StageProcessingGuard G}.

Record TransferRecoveryWorker : Type := mkRecoveryWorker { batchSize : Z; staleThreshold : Duration }.

Definition NewTransferRecoveryWorkerWithStaleThreshold (n : Z) (stale : Duration) : TransferRecoveryWorker :=
  mkRecoveryWorker (if n <=? 0 then 100 else n) stale.

Definition listTxnNosByStatus (wk : TransferRecoveryWorker) (status : string) : M (list string) :=
  if 0 <? staleThreshold wk then
    let! now := timeNow in
    Repository.ListStaleTransferTxnNosByStatus status (timeAdd now (- staleThreshold wk)) (batchSize wk)
  else
    let! l := Repository.ListTransferTxnsByStatus status (batchSize wk) in
    ret (map TxnNo l).

(** Enqueue every transaction found; the count of those accepted. *)
Fixpoint dispatch (status : string) (nos : list string) (p : processor G) (w : World)
    : processor G * World * Z :=
  match nos with
  | [] => (p, w, 0)
  | no :: rest =>
      let '(p1, w1, ok) := EnqueueByStatus no status p w in
      let '(p2, w2, n) := dispatch status rest p1 w1 in
      (p2, w2, if ok then n + 1 else n)
  end.

Definition RunOnceStatus (wk : TransferRecoveryWorker) (status : string) (p : processor G) (w : World)
    : processor G * World * (Z * option error) :=
  match listTxnNosByStatus wk status w with
  | (w1, Err e) => (p, w1, (0, Some e))
  | (w1, Ok nos) => let '(p2, w2, n) := dispatch status nos p w1 in (p2, w2, (n, None))
  end.

(** [RunOnce] goes on to the next status after an error... *)
Definition RunOnce (wk : TransferRecoveryWorker) (p : processor G) (w : World) : processor G * World :=
  let '(p1, w1, _) := RunOnceStatus wk TxnStatusInit p w in
  let '(p2, w2, _) := RunOnceStatus wk TxnStatusPaySuccess p1 w1 in (p2, w2).

(** ... while [runOnceWithResult] stops at it. *)
Definition runOnceWithResult (wk : TransferRecoveryWorker) (p : processor G) (w : World)
    : processor G * World * (Z * option error) :=
  let '(p1, w1, (n1, e1)) := RunOnceStatus wk TxnStatusInit p w in
  match e1 with
  | Some e => (p1, w1, (n1, Some e))
  | None => let '(p2, w2, (n2, e2)) := RunOnceStatus wk TxnStatusPaySuccess p1 w1 in (p2, w2, (n1 + n2, e2))
  end.
End Recovery.
