(* ===== verification/Server.v ===== *)
(** * The running server ([cmd/server/main.go], [internal/service/compensation_worker.go])

    [wire] builds the server from its configuration.  [handle] is one thing
    that happens to it: an HTTP request, to the API or to the console, an
    iteration of a stage worker, of
    the webhook worker or of the recovery ticker.  Database, Redis and the
    servers webhooks are posted to are outside. *)

From S2P Require Import Prelude GoBase Domain Codes Encoding Config Json Store Queries Reads Secrets Ledger Repo AdminRepo Webhook Services TxnQuery Api Auth Router AdminAuth AdminSetup AdminRoutes AdminTxns Processor.
From stdpp Require Import base gmap list strings.
From Stdlib Require Import ZArith Lia.

Local Open Scope string_scope.
Local Open Scope Z_scope.

(** Handlers enqueue on the asynchronous processor. *)
#[export] Instance processorDispatcher `{Platform} `{CodeProvider} {G : Type} : TransferDispatcher (processor G) := {
  dispatchTxn := EnqueueTxn;
  dispatch_keeps := EnqueueTxn_db
}.

(** ** Compensation *)

(** [reporter] only counts. *)
Record CompensationWorker : Type := mkCompensationWorker {
  txnWorker : option TransferRecoveryWorker; notifyWorker : bool
}.

Definition NewCompensationWorker (t : option TransferRecoveryWorker) (n : bool) : CompensationWorker :=
  mkCompensationWorker t n.

(** ** The server *)

Record Server (G C : Type) : Type := mkServer {
  sv_processor : processor G;
  sv_webhooks : WebhookWorker;
  sv_http : C                              (* the HTTP client and what it talks to *)
}.
Arguments mkServer {G C}. Arguments sv_processor {G C}. Arguments sv_webhooks {G C}. Arguments sv_http {G C}.

Record Setup : Type := mkSetup {
  su_routes : ProtectedRoutesOptions;
  su_console : option (AdminHandler * adminTokenManager);
  su_recovery : TransferRecoveryWorker;
  su_compensation : CompensationWorker     (* [main] starts none *)
}.

Definition Millisecond : Duration := 1000000.
(** [time.Duration(n) * unit]. *)
Definition durationOf (n unit : Z) : Duration := wrap64 (n * unit).

Definition guardTTL (cfg : Config) : Duration :=
  let ttl := durationOf (TxnProcessingGuardTTLMS cfg) Millisecond in
  if ttl <=? 0 then durationOf (ProcessingKeyTTLSeconds cfg) Second else ttl.

Definition redisGuardTTL (ttl : Duration) : Duration := if ttl <=? 0 then 5 * Minute else ttl.

Definition businessHandler : BusinessHandler :=
  mkBusinessHandler true true true true true true (Some (NewTxnQueryService true)) true.

Definition routesOptions (cfg : Config) : ProtectedRoutesOptions :=
  mkRoutesOptions (Some (mkAuthConfig true (durationOf (AuthWindowSeconds cfg) Second))) true (Some businessHandler) true.

Definition processorOptions (cfg : Config) : TransferAsyncProcessorOptions :=
  mkProcessorOptions (TxnAsyncWorkersInit cfg) (TxnAsyncWorkersPaySuccess cfg) (TxnAsyncQueueSizeInit cfg)
    (TxnAsyncQueueSizePaySuccess cfg).

Definition recoveryWorker (cfg : Config) : TransferRecoveryWorker :=
  NewTransferRecoveryWorkerWithStaleThreshold (TxnRecoveryBatchSize cfg)
    (durationOf (TxnRecoveryStaleMS cfg) Millisecond).

Definition webhookWorker (cfg : Config) : WebhookWorker :=
  NewWebhookWorkerWithOptions (WebhookMaxRetries cfg) (WebhookWorkerBatchSize cfg) (WebhookRetryBackoffMinute cfg)
    (mkWebhookWorkerOptions (WebhookAsyncWorkers cfg) (WebhookAsyncQueueSize cfg) (TxnAsyncProfileEnabled cfg)
       (durationOf (TxnAsyncProfileLogIntervalMS cfg) Millisecond) 0 0).

Definition consoleHandler : AdminHandler :=
  mkAdminHandler true true true true true true true (Some (NewTxnQueryService true)) true.

Definition consoleOptions (cfg : Config) : AdminRoutesOptions :=
  mkAdminRoutesOptions (AdminEnabled cfg) consoleHandler (AdminJWTSecret cfg)
    (durationOf (AdminAccessTokenTTLSeconds cfg) Second) (durationOf (AdminRefreshTokenTTLSeconds cfg) Second).

(** [main] up to [r.Run]; [newGuard ttl] is a guard on a Redis client. *)
Definition wire {G C} (cfg : Config) (newGuard : Duration -> G) (http : C)
    : Result error (AESGCMCipher * Setup * Server G C) :=
  match NewAESGCMCipher (MerchantSecretPassphrase cfg) with
  | Err e => Err e
  | Ok cipher =>
      match RegisterAdminRoutes (consoleOptions cfg) with
      | Err e => Err e
      | Ok console =>
          Ok (cipher, mkSetup (routesOptions cfg) console (recoveryWorker cfg) (NewCompensationWorker None false),
              mkServer (NewTransferAsyncProcessorWithGuardAndOptions (newGuard (redisGuardTTL (guardTTL cfg)))
                          (processorOptions cfg))
                (webhookWorker cfg) http)
      end
  end.

Inductive Event : Type :=
| EvRequest (r : Route) (q : Request)
| EvConsole (r : AdminRoute) (q : Request)
| EvInitWorker (i : nat)                   (* worker [i] of the INIT queue *)
| EvPaySuccessWorker (i : nat)
| EvWebhookWorker                          (* an asynchronous webhook worker *)
| EvWebhookTick
| EvRecoveryTick
| EvCompensation.

Section Server.
Context {PF : Platform} {PT : PgText} {CP : CodeProvider} {SC : SecretCipher} {BC : Bcrypt} {UL : UUIDLib}
  {JB : JsonBinding} {AB : AdminBinding}.
Context {G : Type} {SG : StageProcessingGuard G} {C : Type} {HC : HttpClient C}.
Context (errText : error -> string) (su : Setup).

(** [webhookDispatcher.Enqueue], once per call of [notifyWebhook]. *)
Definition notifyAll (p : processor G) (k : WebhookWorker) : processor G * WebhookWorker :=
  (mkProcessor (Processor.guard p) (initQueue p) (paySuccessQueue p) [], foldr Webhook.Enqueue k (notified p)).

(** After an iteration of a stage worker. *)
Definition worked (s : Server G C) (w : World) (r : option (processor G * World)) : Server G C * World :=
  match r with
  | None => (s, w)
  | Some (p, w1) => let '(p1, k1) := notifyAll p (sv_webhooks s) in (mkServer p1 k1 (sv_http s), w1)
  end.

Definition onWebhooks {A} (m : @W C A) (s : Server G C) (w : World) : Server G C * World :=
  let '(k, h, w1, _) := m (sv_webhooks s) (sv_http s) w in (mkServer (sv_processor s) k h, w1).

Definition onProcessor (f : processor G -> World -> processor G * World) (s : Server G C) (w : World)
    : Server G C * World :=
  let (p, w1) := f (sv_processor s) w in (mkServer p (sv_webhooks s) (sv_http s), w1).

(** [CompensationWorker.RunOnce]. *)
Definition compensate (cw : CompensationWorker) (s : Server G C) (w : World) : Server G C * World :=
  let (s1, w1) := match txnWorker cw with Some t => onProcessor (Processor.RunOnce t) s w | None => (s, w) end in
  if notifyWorker cw then onWebhooks Webhook.RunOnce s1 w1 else (s1, w1).

(** One event, and the response when it is a request to a route there is. *)
Definition handle (e : Event) (s : Server G C) (w : World) : Server G C * World * option Response :=
  match e with
  | EvRequest r q =>
      let '(p, w1, resp) := serve (su_routes su) r q (sv_processor s) w in
      (mkServer p (sv_webhooks s) (sv_http s), w1, resp)
  | EvConsole r q =>
      let '(p, w1, resp) := serveAdmin (su_console su) r q (sv_processor s) w in
      (mkServer p (sv_webhooks s) (sv_http s), w1, resp)
  | EvInitWorker i => (worked s w (workInit errText i (sv_processor s) w), None)
  | EvPaySuccessWorker i => (worked s w (workPaySuccess errText i (sv_processor s) w), None)
  | EvWebhookWorker => (onWebhooks workQueue s w, None)
  | EvWebhookTick => (onWebhooks Webhook.RunOnce s w, None)
  | EvRecoveryTick => (onProcessor (Processor.RunOnce (su_recovery su)) s w, None)
  | EvCompensation => (compensate (su_compensation su) s w, None)
  end.

(** The event that processes a stage. *)
Definition stageEvent (e : Event) : bool :=
  match e with EvInitWorker _ | EvPaySuccessWorker _ => true | _ => false end.
End Server.
