(* ===== verification/Invariant.v ===== *)
(** * The ledger invariant

    What every committed state of the tables satisfies: each account balance
    is the sum of its change log, a book-enabled account is the sum of its
    books, each transaction has moved exactly the money its status says, and
    no transfer is refunded beyond its amount.  Balances are compared modulo
    2^64, because the code adds [int64]s without an overflow check. *)

From S2P Require Import Prelude GoBase Domain Codes Store Queries.
From stdpp Require Import base gmap list strings.
From Stdlib Require Import ZArith Lia.

Local Open Scope string_scope.
Local Open Scope Z_scope.

(** ** Views of the tables *)

Definition bal (no : string) (d : DB) : Z :=
  match accounts d !! no with Some a => ar_balance a | None => 0 end.
Definition is_book (no : string) (d : DB) : bool :=
  match accounts d !! no with Some a => ar_book a | None => false end.

Definition acct_w (no : string) (b : BookRow) : Z :=
  if String.eqb (br_account b) no then br_balance b else 0.
Definition book_sum (no : string) (bs : gmap UUID BookRow) : Z := msum (acct_w no) bs.
Definition bookbal (u : UUID) (bs : gmap UUID BookRow) : Z :=
  match bs !! u with Some b => br_balance b | None => 0 end.

Definition blog (u : UUID) (l : list BookChangeRow) : Z :=
  sum_by (fun c => if bc_book c =? u then bc_delta c else 0) l.
Definition alog (no : string) (l : list AccountChangeRow) : Z :=
  sum_by (fun c => if String.eqb (ac_account c) no then ac_delta c else 0) l.
(** The net amount a transaction has added to all accounts. *)
Definition flow (u : UUID) (l : list AccountChangeRow) : Z :=
  sum_by (fun c => if ac_txn c =? u then ac_delta c else 0) l.

(** What a change-log row took from an account on behalf of a refund of [o]. *)
Definition refund_w (ts : gmap UUID TxnRow) (o : UUID) (c : AccountChangeRow) : Z :=
  match ts !! ac_txn c with
  | Some r =>
      if String.eqb (tr_biz r) BizTypeRefund && bool_decide (tr_refund_of r = Some o) && (ac_delta c <? 0)
      then - ac_delta c else 0
  | None => 0
  end.
Definition refunded (o : UUID) (d : DB) : Z := sum_by (refund_w (txns d) o) (account_changes d).

(** ** The invariant *)

(** Books: one per account and day, owned by a book-enabled account, each
    holding the sum of its log. *)
Record BooksOk (own : string -> bool) (bs : gmap UUID BookRow) (l : list BookChangeRow) : Prop := {
  bk_key : forall u b, bs !! u = Some b -> br_no b = u;
  bk_uniq : forall u1 u2 b1 b2, bs !! u1 = Some b1 -> bs !! u2 = Some b2 ->
              br_account b1 = br_account b2 -> br_expire b1 = br_expire b2 -> u1 = u2;
  bk_owner : forall u b, bs !! u = Some b -> own (br_account b) = true;
  bk_log : forall u, bookbal u bs ≡64 blog u l
}.

(** The money a transaction has moved, by status. *)
Definition status_flow (t : TxnRow) (f : Z) : Prop :=
  (tr_status t = TxnStatusInit /\ f = 0) \/
  (tr_status t = TxnStatusPaySuccess /\ f = - tr_amount t) \/
  (tr_status t = TxnStatusRecvSuccess /\ f = 0) \/
  (tr_status t = TxnStatusFailed /\ (f = 0 \/ f = - tr_amount t)).

(** A transaction's identity for the merchant. *)
Definition trade (t : TxnRow) : string * string := (tr_merchant t, tr_out_trade t).

Record Inv (d : DB) : Prop := {
  inv_akey : forall k a, accounts d !! k = Some a -> ar_no a = k;
  inv_in64 : forall k a, accounts d !! k = Some a -> in64 (ar_balance a);
  inv_tkey : forall u t, txns d !! u = Some t -> tr_no t = u;
  inv_books : BooksOk (fun no => is_book no d) (books d) (book_changes d);
  inv_bsum : forall no, is_book no d = true -> bal no d ≡64 book_sum no (books d);
  inv_alog : forall no, bal no d ≡64 alog no (account_changes d);
  inv_aref : forall c, c ∈ account_changes d -> is_Some (accounts d !! ac_account c);
  inv_tref : forall c, c ∈ account_changes d -> is_Some (txns d !! ac_txn c);
  inv_flow : forall u t, txns d !! u = Some t -> status_flow t (flow u (account_changes d));
  inv_amount : forall u t, txns d !! u = Some t -> 0 < tr_amount t;
  inv_refund : forall o t, txns d !! o = Some t -> tr_biz t = BizTypeTransfer ->
                 0 <= tr_refundable t /\ tr_refundable t + refunded o d <= tr_amount t;
  inv_refund0 : forall o, txns d !! o = None -> refunded o d = 0;
  inv_writeoff : forall m r w, merchants d !! m = Some r -> mr_writeoff r = Some w ->
                 TrimSpace w <> "" -> exists a, accounts d !! TrimSpace w = Some a /\ ar_book a = false;
  inv_row : forall c, c ∈ account_changes d -> ac_after c = wrap64 (ac_before c + ac_delta c);
  inv_trade : forall u1 u2 t1 t2, txns d !! u1 = Some t1 -> txns d !! u2 = Some t2 -> trade t1 = trade t2 -> u1 = u2
}.

(** The money in the books of any one account fits an [int64]. *)
Definition pos_w (no : string) (b : BookRow) : Z :=
  if String.eqb (br_account b) no then Z.max 0 (br_balance b) else 0.
Definition fits (d : DB) : Prop := forall no, msum (pos_w no) (books d) <= MaxInt64.

Lemma Inv_empty : Inv emptyDB.
Proof.
  split; simpl; try (intros; set_solver).
  split; intros; simpl in *; try set_solver; done.
Qed.

(** ** One account moves

    [Moved txn no delta d d'] is what a debit or a credit does to the tables:
    the account's balance, one log row, and the books behind a book-enabled
    account.  Nothing else changes. *)

Definition moved_db (no : string) (a : AccountRow) (row : AccountChangeRow)
    (bs : gmap UUID BookRow) (l : list BookChangeRow) (d : DB) : DB :=
  mkDB (merchants d) (customers d) (<[no := a]> (accounts d)) bs (txns d)
       (account_changes d ++ [row]) l (outbox d) (webhooks d) (credentials d) (admin d).

Definition BooksMoved (no : string) (delta : Z) (own : string -> bool)
    (bs : gmap UUID BookRow) (l : list BookChangeRow) (bs' : gmap UUID BookRow) (l' : list BookChangeRow) : Prop :=
  BooksOk own bs' l' /\
  forall no', book_sum no' bs' ≡64 book_sum no' bs + (if String.eqb no no' then delta else 0).

Record Moved (txn : UUID) (no : string) (delta : Z) (d d' : DB) : Prop := {
  mv_ex : exists a row bs l,
    accounts d !! no = Some a /\
    d' = moved_db no (ar_set_balance (wrap64 (ar_balance a + delta)) a) row bs l d /\
    ac_txn row = txn /\ ac_account row = no /\ ac_delta row = delta /\
    ac_before row = ar_balance a /\ ac_after row = wrap64 (ar_balance a + delta) /\
    (if ar_book a
     then BooksOk (fun n => is_book n d) (books d) (book_changes d) ->
          BooksMoved no delta (fun n => is_book n d) (books d) (book_changes d) bs l
     else bs = books d /\ l = book_changes d)
}.

Lemma blog_app u l1 l2 : blog u (l1 ++ l2) = blog u l1 + blog u l2.
Proof. apply sum_by_app. Qed.
Lemma alog_app no l1 l2 : alog no (l1 ++ l2) = alog no l1 + alog no l2.
Proof. apply sum_by_app. Qed.
Lemma flow_app u l1 l2 : flow u (l1 ++ l2) = flow u l1 + flow u l2.
Proof. apply sum_by_app. Qed.

Lemma eqb_refl s : String.eqb s s = true.
Proof. by apply String.eqb_eq. Qed.

(** A transaction nobody logged under has moved nothing. *)
Lemma flow_fresh d u : Inv d -> txns d !! u = None -> flow u (account_changes d) = 0.
Proof.
  intros HI Hu. apply sum_by_zero. intros c Hc.
  destruct (Z.eqb_spec (ac_txn c) u) as [E|E]; [|done].
  destruct (inv_tref d HI c Hc) as [x Hx]. congruence.
Qed.

(** The attributes of accounts other than the balance do not move. *)
Lemma moved_is_book no a v row bs l d n :
  accounts d !! no = Some a ->
  is_book n (moved_db no (ar_set_balance v a) row bs l d) = is_book n d.
Proof.
  intros Ha. unfold is_book, moved_db. simpl.
  destruct (decide (n = no)) as [->|Hn].
  - by rewrite lookup_insert_eq, Ha.
  - by rewrite lookup_insert_ne by done.
Qed.

Lemma moved_bal no a v row bs l d n :
  accounts d !! no = Some a ->
  bal n (moved_db no (ar_set_balance v a) row bs l d) = if String.eqb no n then v else bal n d.
Proof.
  intros Ha. unfold bal, moved_db. simpl. destruct (String.eqb_spec no n) as [->|Hn].
  - by rewrite lookup_insert_eq.
  - by rewrite lookup_insert_ne by done.
Qed.

Lemma BooksOk_ext own own' bs l :
  (forall n, own n = own' n) -> BooksOk own bs l -> BooksOk own' bs l.
Proof. intros He [H1 H2 H3 H4]. split; auto. intros. rewrite <- He. eauto. Qed.

(** Everything [Inv] says that is not about the transaction table survives a move. *)
Record InvAcc (d : DB) : Prop := {
  ia_akey : forall k a, accounts d !! k = Some a -> ar_no a = k;
  ia_in64 : forall k a, accounts d !! k = Some a -> in64 (ar_balance a);
  ia_books : BooksOk (fun no => is_book no d) (books d) (book_changes d);
  ia_bsum : forall no, is_book no d = true -> bal no d ≡64 book_sum no (books d);
  ia_alog : forall no, bal no d ≡64 alog no (account_changes d);
  ia_aref : forall c, c ∈ account_changes d -> is_Some (accounts d !! ac_account c);
  ia_writeoff : forall m r w, merchants d !! m = Some r -> mr_writeoff r = Some w ->
                 TrimSpace w <> "" -> exists a, accounts d !! TrimSpace w = Some a /\ ar_book a = false;
  ia_row : forall c, c ∈ account_changes d -> ac_after c = wrap64 (ac_before c + ac_delta c)
}.

Lemma Inv_acc d : Inv d -> InvAcc d.
Proof. intros []. by split. Qed.

Lemma Moved_acc txn no delta d d' : InvAcc d -> Moved txn no delta d d' -> InvAcc d'.
Proof.
  intros HI [(a & row & bs & l & Ha & -> & Ht & Hn & Hd & Hb & Haf & Hbk)].
  destruct HI as [I1 I2 I3 I4 I5 I6 I11 I12].
  assert (Hown : forall n, is_book n d = is_book n (moved_db no (ar_set_balance
     (wrap64 (ar_balance a + delta)) a) row bs l d)) by (intros; by rewrite moved_is_book).
  assert (Hbs : BooksOk (fun n => is_book n d) bs l
                /\ forall n, is_book n d = true ->
                     book_sum n bs ≡64 book_sum n (books d) + (if String.eqb no n then delta else 0)).
  { destruct (ar_book a) eqn:Ea; [destruct (Hbk I3); auto|]. destruct Hbk as [-> ->].
    split; [done|]. intros n Hbn. destruct (String.eqb_spec no n) as [->|]; [|by rewrite Z.add_0_r].
    unfold is_book in Hbn. rewrite Ha in Hbn. congruence. }
  destruct Hbs as [Hok Hsum]. split.
  - intros k b. unfold moved_db. simpl. destruct (decide (k = no)) as [->|Hk].
    + rewrite lookup_insert_eq. intros [= <-]. exact (I1 no a Ha).
    + rewrite lookup_insert_ne by done. apply I1.
  - intros k b. unfold moved_db. simpl. rewrite lookup_insert_Some.
    intros [[_ <-]|[_ Hk]]; [apply wrap64_in64|eauto].
  - by apply (BooksOk_ext _ _ _ _ Hown).
  - intros n Hbn. rewrite <- Hown in Hbn. rewrite moved_bal by done. unfold moved_db. simpl.
    rewrite Hsum by done. specialize (I4 n Hbn). destruct (String.eqb_spec no n) as [->|].
    + rewrite wrap64_eq64, <- I4. unfold bal. by rewrite Ha.
    + by rewrite Z.add_0_r.
  - intros n. rewrite moved_bal by done. unfold moved_db. simpl.
    rewrite alog_app. unfold alog at 2. simpl. rewrite Hn, Hd, Z.add_0_r, <- (I5 n).
    destruct (String.eqb_spec no n) as [->|].
    + rewrite wrap64_eq64. unfold bal. by rewrite Ha.
    + by rewrite Z.add_0_r.
  - intros c. unfold moved_db. simpl. intros [Hc|Hc]%elem_of_app.
    + destruct (decide (ac_account c = no)) as [->|Hk]; [by rewrite lookup_insert_eq|].
      rewrite lookup_insert_ne by done. eauto.
    + apply list_elem_of_singleton in Hc as ->. rewrite Hn. by rewrite lookup_insert_eq.
  - intros m r w Hm Hw Ht'. destruct (I11 m r w Hm Hw Ht') as (b & Hb1 & Hb2). unfold moved_db. simpl.
    destruct (decide (TrimSpace w = no)) as [E|E].
    + rewrite E, lookup_insert_eq. eexists. split; [done|]. simpl. congruence.
    + rewrite lookup_insert_ne by done. eauto.
  - intros c. unfold moved_db. simpl. intros [Hc|Hc]%elem_of_app; [eauto|].
    apply list_elem_of_singleton in Hc as ->. congruence.
Qed.

Lemma Inv_of_acc d :
  InvAcc d ->
  (forall u t, txns d !! u = Some t -> tr_no t = u) ->
  (forall c, c ∈ account_changes d -> is_Some (txns d !! ac_txn c)) ->
  (forall u t, txns d !! u = Some t -> status_flow t (flow u (account_changes d))) ->
  (forall u t, txns d !! u = Some t -> 0 < tr_amount t) ->
  (forall o t, txns d !! o = Some t -> tr_biz t = BizTypeTransfer ->
     0 <= tr_refundable t /\ tr_refundable t + refunded o d <= tr_amount t) ->
  (forall o, txns d !! o = None -> refunded o d = 0) ->
  (forall u1 u2 t1 t2, txns d !! u1 = Some t1 -> txns d !! u2 = Some t2 -> trade t1 = trade t2 -> u1 = u2) ->
  Inv d.
Proof. intros [] ????. by split. Qed.

(** Order numbers stay unique when a row keeps or brings a new one. *)
Lemma trade_insert (ts : gmap UUID TxnRow) (u : UUID) t :
  (forall u1 u2 t1 t2, ts !! u1 = Some t1 -> ts !! u2 = Some t2 -> trade t1 = trade t2 -> u1 = u2) ->
  (forall v x, ts !! v = Some x -> trade x = trade t -> v = u) ->
  forall u1 u2 t1 t2, <[u := t]> ts !! u1 = Some t1 -> <[u := t]> ts !! u2 = Some t2 -> trade t1 = trade t2 -> u1 = u2.
Proof.
  intros Hts Ht u1 u2 t1 t2. rewrite !lookup_insert_Some.
  intros [[<- <-]|[H1 H1']] [[<- <-]|[H2 H2']] E; [done| | |by eapply Hts].
  - symmetry. by eapply Ht.
  - by eapply Ht.
Qed.

(** ** Changes of the transaction table *)

(** What an update of a transaction row may not touch. *)
Definition same_txn (t t' : TxnRow) : Prop :=
  tr_no t' = tr_no t /\ tr_biz t' = tr_biz t /\ tr_amount t' = tr_amount t /\ tr_refund_of t' = tr_refund_of t /\
  trade t' = trade t.

Lemma refund_w_update ts u t t' o c :
  ts !! u = Some t -> same_txn t t' -> refund_w (<[u := t']> ts) o c = refund_w ts o c.
Proof.
  intros Ht (_ & Hb & _ & Hr & _). unfold refund_w. destruct (decide (ac_txn c = u)) as [->|Hn].
  - by rewrite lookup_insert_eq, Ht, Hb, Hr.
  - by rewrite lookup_insert_ne by done.
Qed.

Lemma refund_w_new ts u t o c :
  ac_txn c <> u -> refund_w (<[u := t]> ts) o c = refund_w ts o c.
Proof. intros. unfold refund_w. by rewrite lookup_insert_ne by done. Qed.

Lemma refund_w_nonneg ts o c : 0 <= refund_w ts o c.
Proof.
  unfold refund_w. destruct (ts !! ac_txn c); [|done].
  destruct (_ && _ && _) eqn:E; [|done]. bools. lia.
Qed.

Lemma InvAcc_txns d ts : InvAcc d -> InvAcc (set_txns ts d).
Proof. by intros []. Qed.

(** A row update that keeps the money accounted for. *)
Lemma Inv_txn_update d u t t' :
  Inv d -> txns d !! u = Some t -> same_txn t t' ->
  status_flow t' (flow u (account_changes d)) ->
  0 <= tr_refundable t' <= tr_refundable t ->
  Inv (set_txns (<[u := t']> (txns d)) d).
Proof.
  intros HI Hu Hs Hf Hr. pose proof Hs as (Hno & Hb & Ha & Ho & Htr).
  assert (Hrefd : forall o, refunded o (set_txns (<[u := t']> (txns d)) d) = refunded o d).
  { intros o. apply sum_by_ext. intros c _. by apply (refund_w_update _ _ t). }
  apply Inv_of_acc; simpl.
  - apply InvAcc_txns, Inv_acc, HI.
  - intros v x. rewrite lookup_insert_Some. intros [[<- <-]|[_ Hx]]; [|by apply HI].
    rewrite Hno. by apply HI.
  - intros c Hc. apply lookup_insert_is_Some'. right. by apply HI.
  - intros v x. rewrite lookup_insert_Some. intros [[<- <-]|[_ Hx]]; [done|by apply HI].
  - intros v x. rewrite lookup_insert_Some. intros [[<- <-]|[_ Hx]]; [|by eapply HI].
    rewrite Ha. by eapply HI.
  - intros o x. rewrite Hrefd, lookup_insert_Some. intros [[<- <-]|[_ Hx]] Hbx; [|by apply HI].
    rewrite Ha. rewrite Hb in Hbx. destruct (inv_refund d HI _ _ Hu Hbx). lia.
  - intros o. rewrite Hrefd, lookup_insert_None. intros []. by apply HI.
  - apply trade_insert; [apply HI|]. intros v x Hx. rewrite Htr. by apply (inv_trade d HI _ _ _ _ Hx Hu).
Qed.

(** A new row, which has moved nothing yet. *)
Lemma Inv_txn_new d u t :
  Inv d -> txns d !! u = None -> tr_no t = u -> 0 < tr_amount t -> status_flow t 0 ->
  (tr_biz t = BizTypeTransfer -> 0 <= tr_refundable t <= tr_amount t) ->
  (forall v x, txns d !! v = Some x -> trade x <> trade t) ->
  Inv (set_txns (<[u := t]> (txns d)) d).
Proof.
  intros HI Hu Hno Ha Hf Hr Hfresh. pose proof (flow_fresh d u HI Hu) as Hfl.
  assert (Hrefd : forall o, refunded o (set_txns (<[u := t]> (txns d)) d) = refunded o d).
  { intros o. apply sum_by_ext. intros c Hc. apply refund_w_new. intros <-.
    destruct (inv_tref d HI c Hc). congruence. }
  apply Inv_of_acc; simpl.
  - apply InvAcc_txns, Inv_acc, HI.
  - intros v x. rewrite lookup_insert_Some. intros [[<- <-]|[_ Hx]]; [done|by apply HI].
  - intros c Hc. apply lookup_insert_is_Some'. right. by apply HI.
  - intros v x. rewrite lookup_insert_Some. intros [[<- <-]|[_ Hx]]; [by rewrite Hfl|by apply HI].
  - intros v x. rewrite lookup_insert_Some. intros [[<- <-]|[_ Hx]]; [done|by eapply HI].
  - intros o x. rewrite Hrefd, lookup_insert_Some. intros [[<- <-]|[_ Hx]] Hbx; [|by apply HI].
    rewrite (inv_refund0 d HI _ Hu). specialize (Hr Hbx). lia.
  - intros o. rewrite Hrefd, lookup_insert_None. intros []. by apply HI.
  - apply trade_insert; [apply HI|]. intros v x Hx E. by destruct (Hfresh v x Hx).
Qed.

(** The origin of a refund has room for [amount] more. *)
Definition refund_room (t : TxnRow) (amount : Z) (d : DB) : Prop :=
  tr_biz t = BizTypeRefund -> forall o, tr_refund_of t = Some o ->
  exists x, txns d !! o = Some x /\ tr_biz x = BizTypeTransfer
    /\ tr_refundable x + refunded o d + amount <= tr_amount x.

(** One account moves for transaction [u], whose row is then updated. *)
Lemma Inv_move d d' u t t' no delta :
  Inv d -> txns d !! u = Some t -> same_txn t t' -> tr_refundable t' = tr_refundable t ->
  Moved u no delta d d' ->
  status_flow t' (flow u (account_changes d) + delta) ->
  (delta < 0 -> refund_room t (- delta) d) ->
  Inv (set_txns (<[u := t']> (txns d')) d').
Proof.
  intros HI Hu Hs Hrf HM Hf Hroom. pose proof Hs as (Hno & Hb & Ha & Ho & Htr).
  pose proof (Moved_acc _ _ _ _ _ (Inv_acc _ HI) HM) as HA.
  destruct HM as [(a & row & bs & l & Hacc & -> & Ht & Hn & Hd & Hbf & Haf & Hbk)].
  set (d1 := set_txns _ _).
  assert (Hrefd : forall o, refunded o d1 = refunded o d + refund_w (txns d) o row).
  { intros o. unfold refunded, d1. simpl. rewrite sum_by_app. simpl. rewrite Z.add_0_r.
    f_equal; [apply sum_by_ext; intros c _|]; by apply (refund_w_update _ _ t). }
  assert (Hroom' : forall o, refund_w (txns d) o row <> 0 ->
            delta < 0 /\ refund_w (txns d) o row = - delta /\ tr_biz t = BizTypeRefund /\ tr_refund_of t = Some o).
  { intros o. unfold refund_w. rewrite Ht, Hu, Hd. destruct (_ && _ && _) eqn:E; [|done]. by bools. }
  apply Inv_of_acc; simpl.
  - by apply InvAcc_txns.
  - intros v x. rewrite lookup_insert_Some. intros [[<- <-]|[_ Hx]]; [|by apply HI].
    rewrite Hno. by apply HI.
  - intros c [Hc|Hc]%elem_of_app; apply lookup_insert_is_Some'; [right; by apply HI|].
    apply list_elem_of_singleton in Hc as ->. by left.
  - intros v x. rewrite flow_app. unfold flow at 2. simpl. rewrite Ht, Hd, Z.add_0_r, lookup_insert_Some.
    intros [[<- <-]|[Hv Hx]]; [by rewrite Z.eqb_refl|].
    rewrite (proj2 (Z.eqb_neq u v) Hv), Z.add_0_r. by apply HI.
  - intros v x. rewrite lookup_insert_Some. intros [[<- <-]|[_ Hx]]; [|by eapply HI].
    rewrite Ha. by eapply HI.
  - intros o x. rewrite Hrefd, lookup_insert_Some. intros Hx Hbx.
    assert (exists y, txns d !! o = Some y /\ tr_biz y = BizTypeTransfer /\ tr_amount y = tr_amount x
              /\ tr_refundable y = tr_refundable x) as (y & Hy & Hby & Hay & Hry).
    { destruct Hx as [[<- <-]|[_ Hx]]; [exists t|exists x]; repeat split; congruence. }
    destruct (inv_refund d HI _ _ Hy Hby) as [H1 H2].
    destruct (decide (refund_w (txns d) o row = 0)) as [Hz|Hz]; [lia|].
    destruct (Hroom' o Hz) as (Hneg & Hw & Hbt & Hrt).
    destruct (Hroom Hneg Hbt o Hrt) as (z & Hz1 & _ & Hz2). simplify_eq. lia.
  - intros o. rewrite Hrefd, lookup_insert_None. intros [Hx Hne].
    rewrite (inv_refund0 d HI o Hx).
    destruct (decide (refund_w (txns d) o row = 0)) as [Hz|Hz]; [lia|].
    destruct (Hroom' o Hz) as (Hneg & Hw & Hbt & Hrt).
    destruct (Hroom Hneg Hbt o Hrt) as (z & Hz1 & _). congruence.
  - apply trade_insert; [apply HI|]. intros v x Hx. rewrite Htr. by apply (inv_trade d HI _ _ _ _ Hx Hu).
Qed.

(** ** Steps that touch other tables, new accounts, new merchants *)

Lemma Inv_outbox d o : Inv d -> Inv (set_outbox o d).
Proof. by intros []. Qed.
Lemma Inv_customers d c : Inv d -> Inv (set_customers c d).
Proof. by intros []. Qed.
Lemma Inv_webhooks d c : Inv d -> Inv (set_webhooks c d).
Proof. by intros []. Qed.
Lemma Inv_admin d a : Inv d -> Inv (set_admin a d).
Proof. by intros []. Qed.
Lemma Inv_credentials d c : Inv d -> Inv (set_credentials c d).
Proof. by intros []. Qed.

Lemma Inv_merchants d no r :
  Inv d ->
  (forall w, mr_writeoff r = Some w -> TrimSpace w <> "" ->
     exists a, accounts d !! TrimSpace w = Some a /\ ar_book a = false) ->
  Inv (set_merchants (<[no := r]> (merchants d)) d).
Proof.
  intros [] Hw. split; try done. simpl. intros m x w. rewrite lookup_insert_Some.
  intros [[_ <-]|[_ Hm]]; eauto.
Qed.

Lemma Inv_books d bs :
  Inv d -> BooksOk (fun n => is_book n d) bs (book_changes d) ->
  (forall n, book_sum n bs ≡64 book_sum n (books d)) -> Inv (set_books bs d).
Proof.
  intros [] Hok Hs. split; try done. intros n Hn. simpl. rewrite Hs. by apply inv_bsum0.
Qed.

(** No account, no log. *)
Lemma alog_fresh d no : Inv d -> accounts d !! no = None -> alog no (account_changes d) = 0.
Proof.
  intros HI Hno. apply sum_by_zero. intros c Hc.
  destruct (String.eqb_spec (ac_account c) no) as [E|]; [|done].
  destruct (inv_aref d HI c Hc). congruence.
Qed.

Lemma book_sum_fresh d no : Inv d -> accounts d !! no = None -> book_sum no (books d) = 0.
Proof.
  intros HI Hno. apply msum_zero. intros u b Hu. unfold acct_w.
  destruct (String.eqb_spec (br_account b) no) as [E|]; [|done].
  pose proof (bk_owner _ _ _ (inv_books d HI) u b Hu) as Ho. unfold is_book in Ho. simpl in Ho.
  by rewrite E, Hno in Ho.
Qed.

Lemma Inv_new_account d no a :
  Inv d -> accounts d !! no = None -> ar_no a = no -> ar_balance a = 0 ->
  Inv (set_accounts (<[no := a]> (accounts d)) d).
Proof.
  intros HI Hno Ha Hb. pose proof (alog_fresh d no HI Hno) as Hl.
  pose proof (book_sum_fresh d no HI Hno) as Hs.
  assert (Hbal : forall n, bal n (set_accounts (<[no := a]> (accounts d)) d) = bal n d).
  { intros n. unfold bal. simpl. destruct (decide (n = no)) as [->|].
    - by rewrite lookup_insert_eq, Hno.
    - by rewrite lookup_insert_ne by done. }
  assert (Hib : forall n, is_book n d = true -> is_book n (set_accounts (<[no := a]> (accounts d)) d) = true).
  { intros n. unfold is_book. simpl. destruct (decide (n = no)) as [->|].
    - by rewrite Hno.
    - by rewrite lookup_insert_ne by done. }
  pose proof HI as [K I64 T [BK BU BO BL] BS AL AR TR FL AM RF R0 WO RW]. split; simpl; try done.
  - intros k x. rewrite lookup_insert_Some. intros [[<- <-]|[_ Hx]]; eauto.
  - intros k x. rewrite lookup_insert_Some. intros [[<- <-]|[_ Hx]]; [by rewrite Hb|eauto].
  - split; eauto.
  - intros n Hn. rewrite Hbal. destruct (decide (n = no)) as [->|Hne].
    + rewrite Hs. unfold bal. by rewrite Hno.
    + apply BS. unfold is_book in *. simpl in Hn. by rewrite lookup_insert_ne in Hn.
  - intros n. by rewrite Hbal.
  - intros c Hc. apply lookup_insert_is_Some'. eauto.
  - intros m r w Hm Hw Ht. destruct (WO m r w Hm Hw Ht) as (x & Hx & Hxb).
    exists x. rewrite lookup_insert_ne by congruence. done.
Qed.

(** A completed double movement: what a transaction takes from one account it
    gives to another. *)
Lemma Moved_set_txns txn no delta d d' ts :
  Moved txn no delta d d' -> Moved txn no delta (set_txns ts d) (set_txns ts d').
Proof.
  intros [(a & row & bs & l & Ha & -> & Hr)]. split. exists a, row, bs, l.
  split; [done|]. split; [reflexivity|]. done.
Qed.

Lemma Moved_txns txn no delta d d' : Moved txn no delta d d' -> txns d' = txns d.
Proof. by intros [(a & row & bs & l & Ha & -> & Hr)]. Qed.

Lemma set_txns_id d : set_txns (txns d) d = d.
Proof. by destruct d. Qed.

Lemma Inv_double d d2 d3 u t n1 n2 :
  Inv d -> txns d !! u = Some t -> tr_status t = TxnStatusRecvSuccess -> tr_biz t = BizTypeTransfer ->
  flow u (account_changes d) = 0 ->
  Moved u n1 (- tr_amount t) d d2 -> Moved u n2 (tr_amount t) d2 d3 -> Inv d3.
Proof.
  intros HI Hu Hst Hbz Hfl HM1 HM2.
  set (tp := tr_set_status TxnStatusPaySuccess None None 0 t).
  assert (Inv (set_txns (<[u := tp]> (txns d2)) d2)) as HI2.
  { eapply (Inv_move d d2 u t tp); [done|done|by repeat split|done|done| |].
    - rewrite Hfl. right. left. split; [done|simpl; lia].
    - intros _ Hb. rewrite Hbz in Hb. discriminate. }
  pose proof (Moved_txns _ _ _ _ _ HM1) as Ht2. pose proof (Moved_txns _ _ _ _ _ HM2) as Ht3.
  apply (Moved_set_txns _ _ _ _ _ (<[u := tp]> (txns d2))) in HM2.
  assert (Hf2 : flow u (account_changes d2) = - tr_amount t).
  { destruct HM1 as [(a & row & bs & l & _ & -> & Hr1 & _ & Hr2 & _)]. simpl. rewrite flow_app, Hfl.
    unfold flow. simpl. rewrite Hr1, Hr2, Z.eqb_refl. lia. }
  eapply (Inv_move _ _ u tp t) in HM2; [|done| | |done| |].
  - simpl in HM2. rewrite insert_insert_eq, insert_id in HM2 by (by rewrite Ht2).
    change (Inv (set_txns (txns d2) d3)) in HM2. by rewrite <- Ht3, set_txns_id in HM2.
  - simpl. by rewrite lookup_insert_eq.
  - by repeat split.
  - simpl. rewrite Hf2. right. right. left. split; [done|lia].
  - intros ?. pose proof (inv_amount d HI _ _ Hu). lia.
Qed.

(** ** Conservation of money *)

(** The sum of all account balances. *)
Definition total (d : DB) : Z := msum ar_balance (accounts d).

(** What a transaction holds between its two accounts: everything between the
    stages; for a failed one, its amount if it had been debited. *)
Definition held (d : DB) (u : UUID) (t : TxnRow) : Z :=
  if String.eqb (tr_status t) TxnStatusPaySuccess then tr_amount t
  else if String.eqb (tr_status t) TxnStatusFailed then - flow u (account_changes d)
  else 0.

Lemma total_log d : Inv d -> total d ≡64 sum_by ac_delta (account_changes d).
Proof.
  intros HI. rewrite <- (ksum_exchange ac_account ac_delta _ (accounts d)) by (apply HI).
  unfold total, msum, ksum. apply eq64_sum_by. intros [k a] Hin. apply elem_of_map_to_list in Hin. simpl.
  pose proof (inv_alog d HI k) as Hl. unfold bal in Hl. rewrite Hin in Hl. rewrite Hl.
  apply eq64_of_eq, sum_by_ext. intros c _. case_bool_decide; destruct (String.eqb_spec (ac_account c) k); congruence.
Qed.

Lemma held_flow d u t : Inv d -> txns d !! u = Some t -> held d u t = - flow u (account_changes d).
Proof.
  intros HI Hu. unfold held.
  destruct (inv_flow d HI u t Hu) as [[-> ->]|[[-> ->]|[[-> ->]|[-> _]]]]; simpl; lia.
Qed.

Lemma log_held d : Inv d -> sum_by ac_delta (account_changes d) = - ksum (held d) (txns d).
Proof.
  intros HI. rewrite <- (ksum_exchange ac_txn ac_delta _ (txns d)) by (apply HI).
  rewrite <- ksum_opp. apply ksum_ext. intros u t Hu. rewrite held_flow by done.
  rewrite Z.opp_involutive. apply sum_by_ext. intros c _.
  case_bool_decide; destruct (Z.eqb_spec (ac_txn c) u); congruence.
Qed.
