(* ===== verification/Books.v ===== *)
(** * Lemmas on account books

    What the statements over [account_book] and its log do to the sums the
    invariant speaks of. *)

From S2P Require Import Prelude GoBase Domain Codes Store Queries Invariant.
From stdpp Require Import base gmap list strings.
From Stdlib Require Import ZArith Lia.

Local Open Scope string_scope.
Local Open Scope Z_scope.

Lemma book_at_spec no e k b :
  book_at no e (k, b) = true <-> br_account b = no /\ br_expire b = e.
Proof. unfold book_at. simpl. rewrite andb_true_iff, String.eqb_eq, Z.eqb_eq. done. Qed.

Lemma in_filter {A} (p : A -> bool) l x : x ∈ List.filter p l <-> p x = true /\ x ∈ l.
Proof. rewrite !list_elem_of_In, filter_In. tauto. Qed.

Lemma Forall2_impl_in {A B} (P Q : A -> B -> Prop) l k :
  Forall2 P l k -> (forall x y, x ∈ l -> P x y -> Q x y) -> Forall2 Q l k.
Proof.
  induction 1 as [|x y l k Hxy _ IH]; intros HPQ; constructor; [set_solver|].
  apply IH. intros. apply HPQ; [set_solver|done].
Qed.

Lemma find_book_some no e m k b :
  find_book no e m = Some (k, b) -> m !! k = Some b /\ br_account b = no /\ br_expire b = e.
Proof.
  unfold find_book. intros Hh.
  assert ((k, b) ∈ List.filter (book_at no e) (map_to_list m)) as Hin.
  { destruct (List.filter _ _); simplify_eq/=. set_solver. }
  apply in_filter in Hin as [Hb Hin]. apply elem_of_map_to_list in Hin.
  by apply book_at_spec in Hb.
Qed.

Lemma find_book_none no e m k b :
  find_book no e m = None -> m !! k = Some b -> br_account b = no -> br_expire b = e -> False.
Proof.
  unfold find_book. intros Hh Hk Ha He.
  assert ((k, b) ∈ List.filter (book_at no e) (map_to_list m)) as Hin.
  { apply in_filter. split; [by apply book_at_spec|by apply elem_of_map_to_list]. }
  destruct (List.filter _ _); [set_solver|done].
Qed.

(** ** Effects on the book invariant *)

Definition shape (b : BookRow) : UUID * string * Date := (br_no b, br_account b, br_expire b).

(** Balances move in step with the log, books keep their identity. *)
Lemma BooksOk_shift own (bs : gmap UUID BookRow) l (bs' : gmap UUID BookRow) l' (P : UUID -> Z) :
  BooksOk own bs l ->
  (forall u, shape <$> bs' !! u = shape <$> bs !! u) ->
  (forall u, bookbal u bs' ≡64 bookbal u bs + P u) ->
  (forall u, blog u l' ≡64 blog u l + P u) ->
  BooksOk own bs' l'.
Proof.
  intros [K U O L] Hsh Hb Hl.
  assert (Hback : forall u b, bs' !! u = Some b -> exists b0, bs !! u = Some b0 /\ shape b0 = shape b).
  { intros u b Hu. specialize (Hsh u). rewrite Hu in Hsh. simpl in Hsh.
    destruct (bs !! u) as [b0|]; simpl in Hsh; [|congruence]. exists b0. split; congruence. }
  split.
  - intros u b (b0 & H0 & [= E _ _])%Hback. rewrite <- (K _ _ H0). congruence.
  - intros u1 u2 b1 b2 (c1 & H1 & [= _ E1 E2])%Hback (c2 & H2 & [= _ E3 E4])%Hback ??.
    eapply U; eauto; congruence.
  - intros u b (b0 & H0 & [= _ <- _])%Hback. eauto.
  - intros u. by rewrite Hb, Hl, L.
Qed.

Lemma bookbal_insert (u v : UUID) b m :
  bookbal v (<[u := b]> m) = if u =? v then br_balance b else bookbal v m.
Proof.
  unfold bookbal. destruct (Z.eqb_spec u v) as [->|Hn].
  - by rewrite lookup_insert_eq.
  - by rewrite lookup_insert_ne.
Qed.

Lemma BooksOk_new own (bs : gmap UUID BookRow) l l' (u : UUID) no e (v : Z) :
  BooksOk own bs l -> bs !! u = None -> find_book no e bs = None -> own no = true ->
  (forall x, blog x l' ≡64 blog x l + if u =? x then v else 0) ->
  BooksOk own (<[u := mkBookRow u no e v]> bs) l'.
Proof.
  intros [K U O L] Hu Hf Ho Hl. split.
  - intros x b. rewrite lookup_insert_Some. intros [[<- <-]|[_ Hx]]; [done|eauto].
  - intros x y b1 b2. rewrite !lookup_insert_Some.
    intros [[<- <-]|[_ H1]] [[<- <-]|[_ H2]] Ha He; simpl in *; try done; [| |eauto].
    + exfalso. by eapply (find_book_none no e bs y b2).
    + exfalso. by eapply (find_book_none no e bs x b1).
  - intros x b. rewrite lookup_insert_Some. intros [[<- <-]|[_ Hx]]; [done|eauto].
  - intros x. rewrite bookbal_insert, Hl, <- L. destruct (Z.eqb_spec u x) as [E|]; simpl.
    + unfold bookbal. by rewrite <- E, Hu.
    + by rewrite Z.add_0_r.
Qed.

Lemma book_sum_new (bs : gmap UUID BookRow) (u : UUID) b no :
  bs !! u = None -> book_sum no (<[u := b]> bs) = book_sum no bs + acct_w no b.
Proof. intros. unfold book_sum. rewrite msum_insert_new by done. lia. Qed.

Lemma book_sum_upd (bs : gmap UUID BookRow) (u : UUID) b v no :
  bs !! u = Some b ->
  book_sum no (<[u := br_set_balance v b]> bs)
  = book_sum no bs + (if String.eqb (br_account b) no then v - br_balance b else 0).
Proof.
  intros Hu. unfold book_sum. rewrite (msum_insert_upd _ _ _ b) by done.
  unfold acct_w, br_set_balance. simpl. destruct (String.eqb _ _); lia.
Qed.

Lemma shape_set_balance v b : shape (br_set_balance v b) = shape b.
Proof. done. Qed.

Lemma shape_insert (u x : UUID) v b (bs : gmap UUID BookRow) :
  bs !! u = Some b -> shape <$> (<[u := br_set_balance v b]> bs) !! x = shape <$> bs !! x.
Proof.
  intros Hu. destruct (decide (x = u)) as [->|Hn].
  - by rewrite lookup_insert_eq, Hu.
  - by rewrite lookup_insert_ne.
Qed.

Lemma bigintAdd_ok a b v : bigintAdd a b = Ok v -> v = a + b /\ in64 v.
Proof. unfold bigintAdd. destruct (in64b _) eqn:E; [|done]. intros [= <-]. split; [done|]. by apply in64b_true. Qed.

(** ** The upsert *)

Lemma Upsert_ok `{Platform} u no e delta t d d' b :
  UpsertAccountBookBalance (uuid_text u) no e delta t d = Ok (d', b) ->
  (exists k b0, find_book no e (books d) = Some (k, b0) /\ b = br_set_balance (br_balance b0 + delta) b0
     /\ in64 (br_balance b0 + delta) /\ d' = set_books (<[k := b]> (books d)) d) \/
  (find_book no e (books d) = None /\ books d !! u = None /\ b = mkBookRow u no e delta
     /\ d' = set_books (<[u := b]> (books d)) d).
Proof.
  unfold UpsertAccountBookBalance, castUUID. rewrite uuid_parse_text.
  destruct (String.eqb _ _); [done|]. unfold guardQ.
  destruct (varchar _ _); [|done]. destruct (isAccountNo _); [|done].
  destruct (find_book no e (books d)) as [[k b0]|].
  - destruct (bigintAdd _ _) as [|v] eqn:Ev; [done|]. apply bigintAdd_ok in Ev as [-> Hin64].
    intros. simplify_eq. left. exists k, b0. repeat split; try done; apply Hin64.
  - destruct (books d !! u); [done|]. intros. simplify_eq. right. auto.
Qed.

(** ** The batch update *)

Definition owned (no : string) (m : gmap UUID BookRow) (u : UUID) : bool :=
  match m !! u with Some b => String.eqb (br_account b) no | None => false end.

Lemma batchUpdate_len seen payload m m' rows :
  batchUpdate seen payload m = Ok (m', rows) -> (length rows <= length payload)%nat.
Proof.
  revert seen m m' rows. induction payload as [|[u delta] rest IH]; intros seen m m' rows; simpl.
  { intros. simplify_eq. simpl. lia. }
  destruct (existsb _ _); [intros Hb%IH; lia|].
  destruct (m !! u); [|intros Hb%IH; lia].
  destruct (bigintAdd _ _); [done|].
  destruct (batchUpdate _ _ _) as [|[m1 rows1]] eqn:Eb; [done|]. apply IH in Eb.
  intros. simplify_eq. simpl. lia.
Qed.

Definition payload_of (u : UUID) (payload : list (UUID * Z)) : Z :=
  sum_by (fun p => if p.1 =? u then p.2 else 0) payload.

(** When every payload entry found its book. *)
Lemma batchUpdate_spec seen payload m m' rows :
  batchUpdate seen payload m = Ok (m', rows) -> length rows = length payload ->
  (forall p, p ∈ payload -> p.1 ∉ seen) /\
  (forall u, shape <$> m' !! u = shape <$> m !! u) /\
  (forall u, bookbal u m' = bookbal u m + payload_of u payload) /\
  (forall no, book_sum no m' = book_sum no m + sum_by (fun p => if owned no m p.1 then p.2 else 0) payload) /\
  Forall2 (fun p r => r.1 = p.1 /\ r.2 = bookbal p.1 m + p.2) payload rows.
Proof.
  revert seen m m' rows. induction payload as [|[u delta] rest IH]; intros seen m m' rows Hb Hlen.
  { simpl in Hb. simplify_eq. unfold payload_of. simpl.
    repeat split; intros; try lia; [set_solver|constructor]. }
  simpl in Hb.
  destruct (existsb (Z.eqb u) seen) eqn:Es.
  { apply batchUpdate_len in Hb. simpl in Hlen. lia. }
  destruct (m !! u) as [b|] eqn:Eu.
  2:{ apply batchUpdate_len in Hb. simpl in Hlen. lia. }
  destruct (bigintAdd _ _) as [|v] eqn:Ev; [done|]. apply bigintAdd_ok in Ev as [-> Hin64].
  destruct (batchUpdate _ rest _) as [|[m1 rows1]] eqn:Eb; simplify_eq/=.
  destruct (IH _ _ _ _ Eb ltac:(lia)) as (H1 & H2 & H3 & H4 & H5). clear IH Eb.
  assert (Hu : u ∉ seen).
  { intros Hin. apply not_true_iff_false in Es. apply Es. apply existsb_exists.
    exists u. split; [by apply list_elem_of_In|apply Z.eqb_refl]. }
  split; [|split; [|split; [|split]]].
  - intros p [->|Hp]%elem_of_cons; [done|]. specialize (H1 p Hp). set_solver.
  - intros x. rewrite H2. by apply shape_insert.
  - intros x. rewrite H3, bookbal_insert. unfold payload_of. simpl. unfold bookbal.
    destruct (Z.eqb_spec u x) as [<-|]; [rewrite Eu|]; lia.
  - intros no. rewrite H4, (book_sum_upd _ _ b) by done. simpl. unfold owned at 2. rewrite Eu.
    rewrite (sum_by_ext _ (fun p : UUID * Z => if owned no m p.1 then p.2 else 0)).
    + destruct (String.eqb _ _); lia.
    + intros p Hp. assert (p.1 <> u) as Hne by (specialize (H1 p Hp); set_solver).
      unfold owned. by rewrite lookup_insert_ne.
  - constructor.
    + simpl. unfold bookbal. by rewrite Eu.
    + eapply Forall2_impl_in; [exact H5|]. intros p r Hp [-> ->]. split; [done|].
      rewrite bookbal_insert. assert (p.1 <> u) as Hne by (specialize (H1 p Hp); set_solver).
      by destruct (Z.eqb_spec u p.1).
Qed.
