(* ===== verification/LedgerProofs.v ===== *)
(** * Debits, credits and write-offs move exactly one amount

    What a successful run of each accounting function of [Ledger] does to the
    tables. *)

From S2P Require Import Prelude GoBase Domain Codes Store Queries Invariant Books Ledger.
From stdpp Require Import base gmap list strings.
From Stdlib Require Import ZArith Lia.

Local Open Scope string_scope.
Local Open Scope Z_scope.

(** ** Single statements *)

Lemma one_ok {A} (o : option A) t d d' a : one o t d = Ok (d', a) -> d' = d /\ o = Some a.
Proof. unfold one. destruct o; intros; by simplify_eq. Qed.

(** The single-row reads. *)
Lemma getForUpdate_ok no (t : Time) d d' a :
  GetAccountForUpdateByNo no t d = Ok (d', a) -> d' = d /\ accounts d !! no = Some a.
Proof. apply one_ok. Qed.

Lemma getMerchant_ok no (t : Time) d d' a :
  GetMerchantForUpdateByNo no t d = Ok (d', a) -> d' = d /\ merchants d !! no = Some a.
Proof. apply one_ok. Qed.


Definition rowOf (p : InsertAccountChangeParams) (d : DB) (now : Time) : AccountChangeRow :=
  mkAccountChangeRow (Z.of_nat (length (account_changes d)) + 1) (iac_txn p) (iac_account p)
    (iac_delta p) (iac_before p) (iac_after p) now.

Lemma InsertAccountChange_ok p now d d' u :
  InsertAccountChange p now d = Ok (d', u) ->
  d' = set_account_changes (account_changes d ++ [rowOf p d now]) d.
Proof. unfold InsertAccountChange. intros [_ [_ H]%guardQ_ok]%guardQ_ok. by simplify_eq. Qed.

Lemma InsertAccountBookChange_ok p now d d' u :
  InsertAccountBookChange p now d = Ok (d', u) ->
  exists c, d' = set_book_changes (book_changes d ++ [c]) d
    /\ bc_txn c = ibc_txn p /\ bc_account c = ibc_account p /\ bc_book c = ibc_book p
    /\ bc_delta c = ibc_delta p /\ bc_before c = ibc_before p /\ bc_after c = ibc_after p
    /\ bc_expire c = ibc_expire p /\ bc_created c = now.
Proof. unfold InsertAccountBookChange. intros [_ [_ H]%guardQ_ok]%guardQ_ok. simplify_eq. eauto 20. Qed.

Lemma UpdateAccountBalance_ok v no now d d' u :
  UpdateAccountBalance v no now d = Ok (d', u) ->
  d' = set_accounts (alter (ar_set_balance v) no (accounts d)) d.
Proof. unfold UpdateAccountBalance. intros. by simplify_eq. Qed.

Lemma alter_insert no v (m : gmap string AccountRow) a :
  m !! no = Some a -> alter (ar_set_balance v) no m = <[no := ar_set_balance v a]> m.
Proof.
  intros Ha. apply map_eq. intros k. destruct (decide (k = no)) as [->|Hn].
  - by rewrite lookup_alter_eq, lookup_insert_eq, Ha.
  - by rewrite lookup_alter_ne, lookup_insert_ne.
Qed.

(** The account a function was given, as a row of the table. *)
Definition reads (a : Account) (d : DB) : Prop :=
  exists r, accounts d !! AccountNo a = Some r /\ a = accountFromGetAccountForUpdateRow r.

Lemma getAccountTx_ok no w w' a :
  getAccountTx no w = (w', Ok a) ->
  w_db w' = w_db w /\ exists r, accounts (w_db w) !! no = Some r /\ a = accountFromGetAccountForUpdateRow r.
Proof.
  unfold getAccountTx. intros H. steps.
  match goal with E : GetAccountForUpdateByNo _ _ _ = _ |- _ => apply getForUpdate_ok in E as [? ?] end. eauto.
Qed.

(** A loop of book log inserts. *)
Lemma insertLoop_ok {A} (p : A -> InsertAccountBookChangeParams) l w w' u :
  forM l (fun x => run (InsertAccountBookChange (p x))) w = (w', Ok u) ->
  w_txnow w' = w_txnow w /\
  exists rows, w_db w' = set_book_changes (book_changes (w_db w) ++ rows) (w_db w) /\
    Forall2 (fun x c => bc_txn c = ibc_txn (p x) /\ bc_account c = ibc_account (p x)
               /\ bc_book c = ibc_book (p x) /\ bc_delta c = ibc_delta (p x)
               /\ bc_before c = ibc_before (p x) /\ bc_after c = ibc_after (p x)
               /\ bc_expire c = ibc_expire (p x)) l rows.
Proof.
  revert w. induction l as [|x l IH]; simpl; intros w H; steps.
  - split; [done|]. exists []. rewrite app_nil_r. split; [by destruct (w_db _)|constructor].
  - match goal with E : InsertAccountBookChange _ _ _ = _ |- _ =>
      apply InsertAccountBookChange_ok in E as (c & Hd & Hc) end.
    destruct (IH _ H) as (Hn & rows & Hd' & Hr). split; [congruence|].
    exists (c :: rows). rewrite Hd', Hd. simpl. rewrite <- app_assoc. split; [done|].
    constructor; [tauto|done].
Qed.

Lemma blog_rows {A} (bk : A -> UUID) (dl : A -> Z) l rows u :
  Forall2 (fun x c => bc_book c = bk x /\ bc_delta c = dl x) l rows ->
  blog u rows = sum_by (fun x => if bk x =? u then dl x else 0) l.
Proof.
  unfold blog. induction 1 as [|x c l rows [E1 E2] _ IH]; simpl; [done|]. by rewrite E1, E2, IH.
Qed.

(** ** Credits *)

Section Proofs.
Context `{Platform}.

(** The book a credit names: the existing one, or a number no row has yet. *)
Lemma creditBook_ok no e w w' u v :
  creditBook no e w = (w', Ok (u, v)) ->
  w_db w' = w_db w /\
  match find_book no e (books (w_db w)) with
  | Some (k, b) => br_no b = u /\ v = br_balance b
  | None => v = 0
  end.
Proof.
  unfold creditBook. intros Hc. steps. destruct x0 as [er|b].
  - destruct (errors_is er ErrNoRows) eqn:Ee; [|by steps]. steps. simplify_eq.
    assert (er <> ErrConn) as Hne by (by intros ->).
    destruct (attempt_run_Err _ _ _ _ H0 Hne) as [Hdb _]. split; [congruence|].
    apply run_err in H0 as [?|Hq]; [done|].
    unfold GetAccountBookForUpdateByAccountExpire in Hq. destruct (find_book no e _) as [[k b]|]; done.
  - steps. simplify_eq. unfold GetAccountBookForUpdateByAccountExpire in *.
    match goal with E : one _ _ _ = _ |- _ => apply one_ok in E as [? E] end.
    split; [done|]. destruct (find_book no e _) as [[k b0]|]; simplify_eq/=; auto.
Qed.

Lemma reads_is_book a d : reads a d -> is_book (AccountNo a) d = BookEnabled a.
Proof. intros (r & Hr & ->). unfold is_book. by rewrite Hr. Qed.

(** One more log row. *)
Lemma blog_snoc l c (x : UUID) :
  blog x (l ++ [c]) = blog x l + if bc_book c =? x then bc_delta c else 0.
Proof. rewrite blog_app. unfold blog at 2. simpl. lia. Qed.

(** The existing book of the day grows by [amount]. *)
Lemma BooksMoved_existing own bs l c no e k b amount :
  BooksOk own bs l -> find_book no e bs = Some (k, b) -> bc_book c = br_no b -> bc_delta c = amount ->
  BooksMoved no amount own bs l (<[k := br_set_balance (br_balance b + amount) b]> bs) (l ++ [c]).
Proof.
  intros Hok (Hk & Ha & He)%find_book_some Hc Hd.
  assert (bc_book c = k) as Hck by (rewrite Hc; by apply (bk_key _ _ _ Hok)).
  split.
  - apply (BooksOk_shift own bs l _ _ (fun x => if k =? x then amount else 0) Hok).
    + intros x. by apply shape_insert.
    + intros x. rewrite bookbal_insert. simpl. destruct (Z.eqb_spec k x) as [<-|]; [|by rewrite Z.add_0_r].
      unfold bookbal. by rewrite Hk.
    + intros x. by rewrite blog_snoc, Hck, Hd.
  - intros n. rewrite (book_sum_upd _ _ b) by done. rewrite Ha.
    destruct (String.eqb no n); apply eq64_of_eq; lia.
Qed.

(** A new book of the day opens with [amount]. *)
Lemma BooksMoved_new own bs l c no e (u : UUID) amount :
  BooksOk own bs l -> find_book no e bs = None -> bs !! u = None -> own no = true ->
  bc_book c = u -> bc_delta c = amount ->
  BooksMoved no amount own bs l (<[u := mkBookRow u no e amount]> bs) (l ++ [c]).
Proof.
  intros Hok Hf Hu Ho Hc Hd. split.
  - apply (BooksOk_new own bs l); [done..|]. intros x. by rewrite blog_snoc, Hc, Hd.
  - intros n. rewrite book_sum_new by done. by unfold acct_w.
Qed.

(** The shape every debit and credit ends in. *)
Lemma mk_Moved txn no delta d d' r d1 now bs l :
  accounts d !! no = Some r ->
  d' = moved_db no (ar_set_balance (wrap64 (ar_balance r + delta)) r)
         (rowOf (mkInsertAccountChangeParams txn no delta (ar_balance r) (wrap64 (ar_balance r + delta))) d1 now)
         bs l d ->
  (if ar_book r
   then BooksOk (fun n => is_book n d) (books d) (book_changes d) ->
        BooksMoved no delta (fun n => is_book n d) (books d) (book_changes d) bs l
   else bs = books d /\ l = book_changes d) ->
  Moved txn no delta d d'.
Proof. intros Hr -> Hb. split. eexists r, _, _, _. split; [done|]. split; [reflexivity|]. done. Qed.

(** The last two statements of a plain movement. *)
Lemma plain_moved txn no delta r w w1 w' u1 u2 :
  run (InsertAccountChange (mkInsertAccountChangeParams txn no delta (ar_balance r)
         (wrap64 (ar_balance r + delta)))) w = (w1, Ok u1) ->
  run (UpdateAccountBalance (wrap64 (ar_balance r + delta)) no) w1 = (w', Ok u2) ->
  accounts (w_db w) !! no = Some r -> ar_book r = false ->
  Moved txn no delta (w_db w) (w_db w').
Proof.
  intros [Hi _]%run_Ok [Hu _]%run_Ok Hr Hb.
  apply InsertAccountChange_ok in Hi. apply UpdateAccountBalance_ok in Hu. rewrite Hi in Hu. simpl in Hu.
  rewrite (alter_insert _ _ _ _ Hr) in Hu.
  eapply (mk_Moved _ _ _ _ _ r); [done| |]; [rewrite Hu; reflexivity|]. by rewrite Hb.
Qed.

Lemma credit_moved txn a amount exp w w' u :
  applyAccountCreditWithAccountTx txn a amount exp w = (w', Ok u) ->
  reads a (w_db w) -> Moved txn (AccountNo a) amount (w_db w) (w_db w').
Proof.
  unfold applyAccountCreditWithAccountTx. destruct (_ || _) eqn:E0; [by intros; steps|].
  intros Hc Hrd. pose proof (reads_is_book _ _ Hrd) as Hib. destruct Hrd as (r & Hr & Har).
  assert (Balance a = ar_balance r) as Hbal by by rewrite Har.
  assert (BookEnabled a = ar_book r) as Hbk' by by rewrite Har.
  destruct (BookEnabled a) eqn:Eb.
  2:{ step. rewrite Hbal in *. by eapply plain_moved. }
  match type of Hc with context [creditBook _ ?x] => set (e := x) in * end.
  steps. destruct x0 as [bk v]. steps. destruct (negb _) eqn:Eq; steps.
  apply creditBook_ok in H0 as [Hd0 Hbk].
  match goal with E : InsertAccountBookChange _ _ _ = _ |- _ =>
    apply InsertAccountBookChange_ok in E as (c & Hd1 & Ht & Hn & Hb & Hdl & _ & _ & He & _) end.
  match goal with E : InsertAccountChange _ _ _ = _ |- _ => apply InsertAccountChange_ok in E as Hd2 end.
  match goal with E : UpdateAccountBalance _ _ _ _ = _ |- _ => apply UpdateAccountBalance_ok in E as Hd4 end.
  match goal with E : UpsertAccountBookBalance _ _ _ _ _ _ = _ |- _ => apply Upsert_ok in E as Hup end.
  rewrite Hd2, Hd1, Hd0, Hbal in Hup. rewrite Hbal in *. simpl in Hup, Hb, Hdl.
  destruct Hup as [(k & b0 & Hf & Eb0 & _ & Hd3)|(Hf & Hu & Eb0 & Hd3)]; rewrite Hf in Hbk;
    rewrite Hd3 in Hd4; simpl in Hd4; rewrite (alter_insert _ _ _ _ Hr) in Hd4;
    (eapply (mk_Moved _ _ _ _ _ r); [done|rewrite Hd4; reflexivity|]); rewrite <- Hbk'; intros Hok; subst.
  - destruct Hbk as [Hbk _]. by eapply BooksMoved_existing.
  - by eapply BooksMoved_new.
Qed.

(** ** Debits *)

Lemma debitLoop_nil bs : debitLoop bs 0 = ([], 0).
Proof. by destruct bs. Qed.

(** The changes come from the books given, each read at its balance, and add
    up to what the loop debited. *)
Lemma debitLoop_spec bs todo cs l :
  debitLoop bs todo = (cs, l) -> 0 <= todo ->
  0 <= l <= todo /\ sum_by ch_delta cs = l - todo /\
  forall c, c ∈ cs -> exists b, b ∈ bs /\ ch_book c = br_no b /\ ch_expire c = br_expire b
    /\ ch_before c = br_balance b /\ ch_delta c < 0.
Proof.
  revert todo cs l. induction bs as [|b bs IH]; intros todo cs l; cbn [debitLoop].
  { intros [= <- <-] ?. simpl. repeat split; try lia. set_solver. }
  assert (Hskip : forall todo cs l, debitLoop bs todo = (cs, l) -> 0 <= todo ->
    0 <= l <= todo /\ sum_by ch_delta cs = l - todo /\
    forall c, c ∈ cs -> exists x, x ∈ b :: bs /\ ch_book c = br_no x /\ ch_expire c = br_expire x
      /\ ch_before c = br_balance x /\ ch_delta c < 0).
  { intros t cs' l' Hl Ht. destruct (IH _ _ _ Hl Ht) as (G1 & G2 & G3). repeat split; try tauto.
    intros c (x & Hx & Hr)%G3. exists x. split; [by right|done]. }
  clear IH. destruct (Z.eqb_spec todo 0) as [->|Hn].
  { intros [= <- <-] ?. simpl. repeat split; try lia. set_solver. }
  destruct (negb _ && _); [apply Hskip|].
  destruct (normalizeUTCDate _ =? _) eqn:En.
  - rewrite debitLoop_nil. intros [= <- <-] ?. simpl. repeat split; try lia.
    intros c [->|?]%elem_of_cons; [|set_solver]. exists b. simpl. repeat split; [by left|lia].
  - set (use := if _ <? _ then _ else _). destruct (use <=? 0) eqn:Eu; [apply Hskip|].
    destruct (debitLoop bs (todo - use)) as [cs1 l1] eqn:Ed. intros [= <- <-] ?. bools.
    assert (use <= todo) as Hle by (unfold use; destruct (todo <? br_balance b) eqn:?; bools; lia).
    destruct (Hskip _ _ _ Ed) as (G1 & G2 & G3); [lia|]. simpl. repeat split; try lia.
    intros c [->|Hc]%elem_of_cons; [|eauto]. exists b. simpl. repeat split; [by left|lia].
Qed.

Lemma mapM_parse {A} (f : A -> UUID) (l : list A) :
  castUUIDs (map (fun x => uuid_text (f x)) l) = Some (map f l).
Proof. unfold castUUIDs. induction l as [|x l IH]; simpl; [done|]. by rewrite uuid_parse_text, IH. Qed.

Lemma zip_maps {A} (f : A -> UUID) (g : A -> Z) l : zip (map f l) (map g l) = map (fun x => (f x, g x)) l.
Proof. induction l as [|x l IH]; simpl; [done|]. by f_equal. Qed.

(** The books of one account move by a list of changes, all logged. *)
Lemma BooksMoved_batch {A} (bk : A -> UUID) (dl : A -> Z) (cs : list A) own bs l no rows m rs :
  BooksOk own bs l ->
  Forall2 (fun x c => bc_book c = bk x /\ bc_delta c = dl x) cs rows ->
  batchUpdate [] (map (fun x => (bk x, dl x)) cs) bs = Ok (m, rs) -> length rs = length cs ->
  (forall x, x ∈ cs -> owned no bs (bk x) = true) ->
  BooksMoved no (sum_by dl cs) own bs l m (l ++ rows).
Proof.
  intros Hok Hrows Hb Hlen Hown.
  destruct (batchUpdate_spec _ _ _ _ _ Hb ltac:(by rewrite length_map)) as (_ & H2 & H3 & H4 & _).
  split.
  - apply (BooksOk_shift own bs l _ _ (fun u => sum_by (fun x => if bk x =? u then dl x else 0) cs) Hok); auto.
    + intros u. rewrite H3. unfold payload_of. by rewrite sum_by_map.
    + intros u. by rewrite blog_app, (blog_rows bk dl _ _ _ Hrows).
  - intros n. rewrite H4, sum_by_map. cbn [fst snd]. apply eq64_of_eq. f_equal.
    destruct (String.eqb_spec no n) as [<-|Hn].
    + apply sum_by_ext. intros x Hx. by rewrite Hown.
    + apply sum_by_zero. intros x Hx. specialize (Hown x Hx). unfold owned in *.
      destruct (bs !! bk x) as [b|]; [|done]. apply String.eqb_eq in Hown as ->. by destruct (String.eqb_spec no n).
Qed.

(** Reading the books of an account: rows of the table. *)
Lemma list_books_in (p : BookRow -> bool) leb d b :
  b ∈ sort_by leb (List.filter p (book_rows d)) -> p b = true /\ exists u, books d !! u = Some b.
Proof.
  rewrite elem_of_sort_by, in_filter. intros [Hp Hin]. split; [done|].
  unfold book_rows in Hin. apply list_elem_of_fmap in Hin as ([k x] & -> & Hin).
  apply elem_of_map_to_list in Hin. eauto.
Qed.

Lemma owned_of own l no d b u :
  BooksOk own (books d) l -> books d !! u = Some b -> br_account b = no ->
  owned no (books d) (br_no b) = true.
Proof.
  intros Hok Hu <-. unfold owned. rewrite (bk_key _ _ _ Hok _ _ Hu), Hu. by apply String.eqb_eq.
Qed.

Lemma failing_ok o w w' u : failing o w = (w', Ok u) -> w' = w /\ o = None.
Proof. unfold failing. destruct o; intros; steps; auto. Qed.

Lemma BatchUpdate_ok {A} (bk : A -> UUID) (dl : A -> Z) cs now d d' rs :
  BatchUpdateAccountBookBalances (map (fun x => uuid_text (bk x)) cs) (map dl cs) now d = Ok (d', rs) ->
  exists m, batchUpdate [] (map (fun x => (bk x, dl x)) cs) (books d) = Ok (m, rs) /\ d' = set_books m d.
Proof.
  unfold BatchUpdateAccountBookBalances. rewrite mapM_parse, zip_maps.
  destruct (batchUpdate _ _ _) as [|[m rows]]; intros; simplify_eq. eauto.
Qed.

(** Logging a list of changes, the total, the books and the balance: a move. *)
Lemma batch_moved_db {A} (bk : A -> UUID) (dl : A -> Z) (cs : list A) txn r delta d d' d1 now rows m rs :
  Forall2 (fun x c => bc_book c = bk x /\ bc_delta c = dl x) cs rows ->
  batchUpdate [] (map (fun x => (bk x, dl x)) cs) (books d) = Ok (m, rs) ->
  length rs = length cs -> accounts d !! ar_no r = Some r -> ar_book r = true ->
  delta ≡64 sum_by dl cs ->
  (forall x, x ∈ cs -> exists u b, books d !! u = Some b /\ br_account b = ar_no r /\ br_no b = bk x) ->
  d' = moved_db (ar_no r) (ar_set_balance (wrap64 (ar_balance r + delta)) r)
         (rowOf (mkInsertAccountChangeParams txn (ar_no r) delta (ar_balance r)
                   (wrap64 (ar_balance r + delta))) d1 now) m (book_changes d ++ rows) d ->
  Moved txn (ar_no r) delta d d'.
Proof.
  intros Hrows Hm Hlen Hr Hb Hsum Hbk Hd'.
  eapply (mk_Moved _ _ _ _ _ r); [done|exact Hd'|]. rewrite Hb. intros Hok.
  assert (BooksMoved (ar_no r) (sum_by dl cs) (fun n => is_book n d) (books d) (book_changes d) m
            (book_changes d ++ rows)) as [Hok' Hs].
  { eapply (BooksMoved_batch bk dl); [done|done|done|done|].
    intros x (v & b & Hv & Ha & <-)%Hbk. by eapply owned_of. }
  split; [done|]. intros n. rewrite Hs. destruct (String.eqb _ _); [|done]. by rewrite Hsum.
Qed.

Lemma debitBooks_moved txn a amount w w' u :
  debitBooks txn a amount w = (w', Ok u) -> 0 <= amount -> reads a (w_db w) ->
  BookEnabled a = true ->
  Moved txn (AccountNo a) (- amount) (w_db w) (w_db w').
Proof.
  unfold debitBooks. intros Hd Hpos (r & Hr & Har) Hbe.
  assert (Balance a = ar_balance r) as Hbal by by rewrite Har.
  assert (ar_book r = true) as Hrb by by rewrite Har in Hbe.
  assert (AccountNo a = ar_no r) as Hna by by rewrite Har. rewrite Hna in *.
  apply bind_ok in Hd as (w0 & [] & [-> _]%failing_ok & Hd).
  apply bind_ok in Hd as (w1 & now & [Hdb1 _]%timeNow_ok & Hd).
  apply bind_ok in Hd as (w2 & bs & [Hlist _]%run_Ok & Hd).
  destruct (debitLoop _ amount) as [cs todo] eqn:Eloop.
  destruct (0 <? todo) eqn:Etodo; [by steps|].
  apply bind_ok in Hd as (wa & [] & Hi & Hd). apply bind_ok in Hd as (wb & [] & Hi2 & Hd).
  apply bind_ok in Hd as (wc & rs & Hu & Hd).
  destruct (negb _) eqn:Elen; [by steps|]. destruct (negb (forallb _ _)) eqn:Econf; [by steps|].
  destruct (debitLoop_spec _ _ _ _ Eloop Hpos) as (Hl & Hsum & Hcs). bools.
  unfold ListAvailableAccountBooksForUpdate in Hlist. injection Hlist as Hdb2 <-.
  assert (w_db w2 = w_db w) as Hdb by congruence. rewrite <- Hdb in *. rewrite Hbal in *.
  apply insertLoop_ok in Hi as (_ & rows & Hd1 & Hrows). apply run_Ok in Hi2 as [Hd2%InsertAccountChange_ok _].
  apply run_Ok in Hu as [(m & Hm & Hd3)%(BatchUpdate_ok ch_book) _].
  apply run_Ok in Hd as [Hd4%UpdateAccountBalance_ok _].
  rewrite Hd2, Hd1 in Hm, Hd3. simpl in Hm. rewrite Hd3 in Hd4. simpl in Hd4.
  rewrite (alter_insert _ _ _ _ Hr) in Hd4.
  eapply (batch_moved_db ch_book ch_delta cs); [|exact Hm| |exact Hr|exact Hrb| | |rewrite Hd4; reflexivity].
  - eapply Forall2_impl; [exact Hrows|]. simpl. tauto.
  - by apply Nat.eqb_eq in Elen.
  - apply eq64_of_eq. lia.
  - intros c (b & Hb & Hbn & _)%Hcs. apply list_books_in in Hb as [Hp [k Hk]].
    exists k, b. split; [congruence|]. unfold availableBook in Hp. bools. simpl. split; congruence.
Qed.

Lemma debitPlain_moved txn a amount w w' u :
  debitPlain txn a amount w = (w', Ok u) -> reads a (w_db w) -> BookEnabled a = false ->
  Moved txn (AccountNo a) (- amount) (w_db w) (w_db w').
Proof.
  unfold debitPlain. intros Hd (r & Hr & Har) Hbe.
  assert (Balance a = ar_balance r) as Hbal by by rewrite Har.
  apply bind_ok in Hd as (wa & [] & [-> _]%failing_ok & Hd). rewrite Hbal in Hd.
  apply bind_ok in Hd as (wb & [] & Hi & Hd).
  eapply plain_moved; [exact Hi|exact Hd|done|]. by rewrite Har in Hbe.
Qed.

(** ** Credits split over several books *)

(** What a planned part knows of the book of its day. *)
Record PlanOk (no : string) (bs : gmap UUID BookRow) (i : plannedBookPart) : Prop := {
  po_pos : 0 < pl_delta i;
  po_after : pl_after i = wrap64 (pl_before i + pl_delta i);
  po_book : forall k b, bs !! k = Some b -> br_account b = no -> br_expire b = pl_expire i ->
              k = pl_book i \/ (pl_before i = 0 /\ 0 < br_balance b);
  po_before : pl_before i = 0 \/ exists b, bs !! pl_book i = Some b /\ br_account b = no /\ br_expire b = pl_expire i
}.

(** A book of the account that is not yet counted in the plan of [i]. *)
Lemma PlanOk_existing own l no bs i k b delta :
  BooksOk own bs l -> bs !! k = Some b -> 0 < delta -> PlanOk no bs i ->
  PlanOk no (<[k := br_set_balance (br_balance b + delta) b]> bs) i.
Proof.
  intros Hok Hk Hd [Hp Ha Hb Hbf]. split; [done|done| |].
  - intros x y. rewrite lookup_insert_Some. intros [[<- <-]|[_ Hx]]; [|eauto].
    simpl. intros H1 H2. destruct (Hb _ _ Hk H1 H2) as [?|[? ?]]; [by left|right; split; [done|lia]].
  - destruct Hbf as [?|(y & Hy & H1 & H2)]; [by left|right].
    destruct (decide (k = pl_book i)) as [->|Hn].
    + rewrite lookup_insert_eq. simplify_eq. eauto.
    + rewrite lookup_insert_ne by done. eauto.
Qed.

Lemma PlanOk_new no bs i u e delta :
  bs !! u = None -> find_book no e bs = None -> 0 < delta -> PlanOk no bs i ->
  PlanOk no (<[u := mkBookRow u no e delta]> bs) i.
Proof.
  intros Hu Hf Hd [Hp Ha Hb Hbf]. split; [done|done| |].
  - intros x y. rewrite lookup_insert_Some. intros [[<- <-]|[_ Hx]]; [|eauto].
    simpl. intros _ He. right. split; [|done]. destruct Hbf as [?|(y & Hy & H1 & H2)]; [done|].
    exfalso. eapply find_book_none; eauto; congruence.
  - destruct Hbf as [?|(y & Hy & H1 & H2)]; [by left|right].
    rewrite lookup_insert_ne by congruence. eauto.
Qed.

Lemma upsertPlanned_ok err no own pl rows l w w' u :
  upsertPlanned err no pl w = (w', Ok u) ->
  BooksOk own (books (w_db w)) l -> own no = true ->
  Forall (PlanOk no (books (w_db w))) pl ->
  Forall2 (fun i c => bc_book c = pl_book i /\ bc_delta c = pl_delta i) pl rows ->
  exists bs, w_db w' = set_books bs (w_db w) /\
    BooksMoved no (sum_by pl_delta pl) own (books (w_db w)) l bs (l ++ rows).
Proof.
  intros Hrun Hok Hown Hpl Hrows. revert w l Hrun Hok Hpl.
  induction Hrows as [|i c pl rows [Hcb Hcd] _ IH]; intros w l Hrun Hok Hpl.
  - unfold upsertPlanned in Hrun. simpl in Hrun. apply ret_ok in Hrun as [-> _].
    exists (books (w_db w)). split; [by destruct (w_db w)|]. rewrite app_nil_r. split; [done|].
    intros n. simpl. destruct (String.eqb _ _); by rewrite Z.add_0_r.
  - unfold upsertPlanned in Hrun. cbn [forM] in Hrun.
    apply bind_ok in Hrun as (w1 & [] & Hit & Hrun). apply Forall_cons in Hpl as [Hi Hpl].
    apply bind_ok in Hit as (w2 & b & [Hup _]%run_Ok & Hit).
    destruct (negb _) eqn:Ecmp; [by steps|]. apply ret_ok in Hit as [-> _]. bools.
    assert (exists bs1, w_db w2 = set_books bs1 (w_db w) /\ Forall (PlanOk no bs1) pl /\
              BooksMoved no (pl_delta i) own (books (w_db w)) l bs1 (l ++ [c])) as (bs1 & Hd1 & Hpl1 & Hmv).
    { pose proof (po_pos _ _ _ Hi) as Hpos.
      apply Upsert_ok in Hup as [(k & b0 & Hf & -> & Hin & Hd)|(Hf & Hu & -> & Hd)];
        (eexists; split; [exact Hd|split]).
      - eapply Forall_impl; [exact Hpl|]. intros j. eapply PlanOk_existing; [done| |done].
        by apply find_book_some in Hf as [? _].
      - apply find_book_some in Hf as Hf'. destruct Hf' as (Hk & Hacc & He).
        eapply BooksMoved_existing; [done|exact Hf| |done].
        rewrite Hcb, (bk_key _ _ _ Hok _ _ Hk).
        destruct (po_book _ _ _ Hi k b0 Hk Hacc He) as [->|[Hz Hb0]]; [done|exfalso].
        rewrite (po_after _ _ _ Hi), Hz in Ecmp. simpl in Ecmp.
        assert (br_balance b0 ≡64 0) as He0.
        { assert (br_balance b0 + pl_delta i ≡64 pl_delta i) as Hq
            by (rewrite Ecmp; apply wrap64_eq64).
          transitivity (br_balance b0 + pl_delta i - pl_delta i); [by apply eq64_of_eq; lia|].
          rewrite Hq. by apply eq64_of_eq; lia. }
        apply eq64_eq in He0; unfold in64, MinInt64, MaxInt64 in *; lia.
      - eapply Forall_impl; [exact Hpl|]. intros j. by apply PlanOk_new.
      - by eapply BooksMoved_new. }
    destruct Hmv as [Hok1 Hs1].
    destruct (IH w2 (l ++ [c])%list Hrun) as (bs & Hd & Hok' & Hs); [by rewrite Hd1|by rewrite Hd1|].
    exists bs. rewrite Hd, Hd1. split; [done|]. rewrite <- app_assoc in Hok'. split; [exact Hok'|].
    rewrite Hd1 in Hs. simpl in Hs.
    intros n. rewrite Hs, Hs1. simpl. destruct (String.eqb _ _); apply eq64_of_eq; lia.
Qed.

Lemma planParts_ok err no parts own l sum w w' pl s :
  planParts err no parts sum w = (w', Ok (pl, s)) ->
  BooksOk own (books (w_db w)) l ->
  w_db w' = w_db w /\ Forall (PlanOk no (books (w_db w))) pl /\ s ≡64 sum + sum_by pl_delta pl.
Proof.
  intros Hr Hok. revert sum w w' pl s Hr Hok.
  induction parts as [|p parts IH]; intros sum w w' pl s Hr Hok; cbn [planParts] in Hr.
  - apply ret_ok in Hr as [-> [= -> ->]]. simpl. repeat split; [constructor|]. by rewrite Z.add_0_r.
  - destruct (_ || _) eqn:Ep; [by steps|]. bools.
    apply bind_ok in Hr as (w1 & [bk v] & [Hd1 Hbk]%creditBook_ok & Hr).
    apply bind_ok in Hr as (w2 & [pl1 s1] & Hrest & [-> [= -> ->]]%ret_ok). simpl in *.
    destruct (IH _ _ _ _ _ Hrest) as (Hd2 & Hpl & Hs); [by rewrite Hd1|]. rewrite Hd1 in *.
    split; [done|]. split; [constructor|].
    + split; simpl; try done.
      * intros k b Hk Ha He. destruct (find_book no (toPGDate (part_expire p)) (books (w_db w))) as [[k' b']|] eqn:Ef.
        -- destruct Hbk as [<- ->]. left. apply find_book_some in Ef as (Hk' & Ha' & He').
           rewrite (bk_key _ _ _ Hok _ _ Hk'). by apply (bk_uniq _ _ _ Hok k k' b b'); congruence.
        -- exfalso. by eapply find_book_none.
      * destruct (find_book _ _ _) as [[k' b']|] eqn:Ef; [|by left].
        destruct Hbk as [<- ->]. right. apply find_book_some in Ef as (Hk' & Ha' & He').
        exists b'. by rewrite (bk_key _ _ _ Hok _ _ Hk').
    + done.
    + rewrite Hs, wrap64_eq64. simpl. apply eq64_of_eq. lia.
Qed.

Lemma parts_moved txn a amount parts err w w' u :
  applyBookCreditPartsTx txn a amount parts err w = (w', Ok u) -> reads a (w_db w) ->
  BooksOk (fun n => is_book n (w_db w)) (books (w_db w)) (book_changes (w_db w)) ->
  Moved txn (AccountNo a) amount (w_db w) (w_db w').
Proof.
  unfold applyBookCreditPartsTx. destruct (_ || _); [by intros; steps|].
  destruct (_ || _) eqn:Eb; [by intros; steps|]. bools. intros Hr Hrd Hok.
  pose proof (reads_is_book _ _ Hrd) as Hib. destruct Hrd as (r & Hacc & Har).
  assert (Balance a = ar_balance r) as Hbal by by rewrite Har.
  assert (BookEnabled a = ar_book r) as Hbe by by rewrite Har.
  apply bind_ok in Hr as (w1 & [pl s] & Hplan & Hr).
  destruct (planParts_ok _ _ _ _ _ _ _ _ _ _ Hplan Hok) as (Hd1 & Hpl & Hs).
  destruct (negb _) eqn:Es; [by steps|]. bools. subst s.
  apply bind_ok in Hr as (w2 & [] & Hlog & Hr). apply bind_ok in Hr as (w3 & [] & [Hd3 _]%run_Ok & Hr).
  apply bind_ok in Hr as (w4 & [] & Hups & [Hd5 _]%run_Ok).
  apply insertLoop_ok in Hlog as (_ & rows & Hd2 & Hrows).
  apply InsertAccountChange_ok in Hd3. apply UpdateAccountBalance_ok in Hd5.
  rewrite Hd2, Hd1, Hbal in Hd3. simpl in Hd3.
  eapply (upsertPlanned_ok _ _ (fun n => is_book n (w_db w)) _ rows (book_changes (w_db w))) in Hups
    as (bs & Hd4 & Hmv).
  - rewrite Hd4, Hd3 in Hd5. simpl in Hd5. rewrite (alter_insert _ _ _ _ Hacc), Hbal in Hd5.
    eapply (mk_Moved _ _ _ _ _ r); [done|rewrite Hd5; reflexivity|].
    assert (ar_book r = true) as -> by congruence. intros _.
    rewrite Hd3 in Hmv. simpl in Hmv. destruct Hmv as [Hmv1 Hmv2]. split; [done|].
    intros n. rewrite Hmv2. destruct (String.eqb _ _); [|done]. by rewrite Hs.
  - rewrite Hd3. exact Hok.
  - by rewrite Hib.
  - rewrite Hd3. exact Hpl.
  - eapply Forall2_impl; [exact Hrows|]. simpl. tauto.
Qed.

(** ** The credit of a transfer and of a refund *)

Lemma getAccountTx_reads no w w' a :
  getAccountTx no w = (w', Ok a) -> InvAcc (w_db w) ->
  w_db w' = w_db w /\ AccountNo a = no /\ reads a (w_db w).
Proof.
  intros [Hd (r & Hr & ->)]%getAccountTx_ok HI. pose proof (ia_akey _ HI _ _ Hr) as Hk.
  repeat split; [done|done|]. exists r. split; [|done]. simpl. by rewrite Hk.
Qed.

Lemma keeps_buildTransfer txn dno amount : keeps (buildTransferBookCreditParts txn dno amount).
Proof. unfold buildTransferBookCreditParts. keep. Qed.

Lemma transferCredit_moved txn dno cno scene amount exp w w' u :
  applyTransferCreditTx txn dno cno scene amount exp w = (w', Ok u) -> InvAcc (w_db w) ->
  Moved txn cno amount (w_db w) (w_db w').
Proof.
  unfold applyTransferCreditTx. destruct (_ || _); [by intros; steps|]. intros Hr HI.
  apply bind_ok in Hr as (w1 & a & Hget & Hr).
  apply getAccountTx_reads in Hget as (Hd1 & <- & Hrd); [|done]. rewrite <- Hd1 in *.
  destruct (_ && _); [|by eapply credit_moved].
  apply bind_ok in Hr as (w2 & [parts trace] & Hparts & Hr).
  assert (w_db w2 = w_db w1) as Hd2.
  { eapply keeps_ok; [apply keeps_buildTransfer|exact Hparts]. }
  rewrite <- Hd2 in *. destruct trace; [|by eapply credit_moved].
  eapply parts_moved; [done|done|]. apply HI.
Qed.

Lemma keeps_buildRefund refund origin m amount : keeps (buildRefundBookCreditParts refund origin m amount).
Proof. unfold buildRefundBookCreditParts. keep. Qed.

Lemma refundCredit_moved txn cno amount origin m w w' u :
  applyRefundCreditTx txn cno amount origin m w = (w', Ok u) -> InvAcc (w_db w) ->
  Moved txn cno amount (w_db w) (w_db w').
Proof.
  unfold applyRefundCreditTx. destruct (_ || _); [by intros; steps|]. intros Hr HI.
  apply attempt_bind_ok in Hr as (w1 & [e|v] & Htry & Hr).
  - destruct (errors_is e ErrNoRows) eqn:Ee; simpl in Hr; [|by steps].
    assert (e <> ErrConn) as Hne by (by intros ->).
    destruct (attempt_run_Err _ _ _ _ Htry Hne) as [Hd1 _]. rewrite <- Hd1 in *.
    apply bind_ok in Hr as (w2 & a & Hget & Hr).
    apply getAccountTx_reads in Hget as (Hd2 & <- & Hrd); [|done]. rewrite <- Hd2 in *.
    destruct (BookEnabled a) eqn:Eb; simpl in Hr.
    + apply bind_ok in Hr as (w3 & parts & Hp & Hr). apply (keeps_ok _ _ _ _ (keeps_buildRefund _ _ _ _)) in Hp.
      rewrite <- Hp in *. eapply parts_moved; [done|done|]. apply HI.
    + destruct Hrd as (r & Hacc & ->). apply bind_ok in Hr as (w3 & [] & Hi & Hu).
      eapply plain_moved; [exact Hi|exact Hu|done|]. by simpl in Eb.
  - apply run_Ok in Htry as [Htry _]. apply run_Ok in Hr as [Hi _]. apply InsertAccountChange_ok in Hi.
    unfold TryCreditAccountBalanceNonBookRefund in Htry.
    destruct (accounts (w_db w) !! cno) as [r|] eqn:Hacc; [|done].
    destruct (ar_book r) eqn:Eb; [done|]. destruct (bigintAdd _ _) as [|b] eqn:Ea; [done|].
    injection Htry as Hd <-. apply bigintAdd_ok in Ea as [-> Hin].
    replace (wrap64 (ar_balance r + amount - amount)) with (ar_balance r) in Hi
      by (rewrite <- (wrap64_id (ar_balance r) (ia_in64 _ HI _ _ Hacc)) at 1; f_equal; lia).
    rewrite <- Hd in Hi. rewrite <- (wrap64_id _ Hin) in Hi.
    eapply (mk_Moved _ _ _ _ _ r); [done|rewrite Hi; reflexivity|]. by rewrite Eb.
Qed.

(** ** Creating an account *)

Lemma isAccountNo_trim no : isAccountNo no = true -> TrimSpace no = no /\ no <> "".
Proof.
  unfold isAccountNo, digits_exactly. intros Hd. bools. split; [|by intros ->].
  apply TrimSpace_graphic. eapply sforall_impl; [|done]. exact is_digit_graphic.
Qed.

Lemma CreateAccount_ok p now d d' u :
  Queries.CreateAccount p now d = Ok (d', u) ->
  isAccountNo (cap_no p) = true /\ accounts d !! cap_no p = None /\
  exists r, d' = set_accounts (<[cap_no p := r]> (accounts d)) d /\ ar_no r = cap_no p /\ ar_balance r = 0
    /\ ar_book r = cap_book p /\ ar_merchant r = cap_merchant p /\ ar_customer r = cap_customer p.
Proof.
  unfold Queries.CreateAccount. intros [_ [Hc Hq]%guardQ_ok]%guardQ_ok. bools.
  destruct (accounts d !! cap_no p); simplify_eq. eauto 20.
Qed.

(** Adding an empty book of a day keeps the invariant. *)
Lemma Inv_empty_book d d' u no e b t :
  UpsertAccountBookBalance (uuid_text u) no e 0 t d = Ok (d', b) -> Inv d -> is_book no d = true ->
  Inv d' /\ exists bs, d' = set_books bs d.
Proof.
  intros [(k & b0 & Hf & -> & _ & ->)|(Hf & Hu & -> & ->)]%Upsert_ok HI Hb; (split; [|eauto]); apply Inv_books; auto.
  - apply find_book_some in Hf as (Hk & _).
    apply (BooksOk_shift _ _ _ _ _ (fun _ => 0) (inv_books d HI)).
    + intros x. by apply shape_insert.
    + intros x. rewrite bookbal_insert. simpl. destruct (Z.eqb_spec k x) as [<-|]; [|by rewrite Z.add_0_r].
      unfold bookbal. by rewrite Hk.
    + intros x. by rewrite Z.add_0_r.
  - intros n. apply find_book_some in Hf as (Hk & _). rewrite (book_sum_upd _ _ b0) by done.
    destruct (String.eqb _ _); apply eq64_of_eq; lia.
  - apply (BooksOk_new _ _ (book_changes d)); auto; [apply HI|]. intros x. by destruct (_ =? _); rewrite Z.add_0_r.
  - intros n. rewrite book_sum_new by done. unfold acct_w. simpl. by destruct (String.eqb _ _); rewrite Z.add_0_r.
Qed.

Lemma SetDefault_ok o m c now d d' n :
  SetCustomerDefaultAccountIfEmpty o m c now d = Ok (d', n) -> exists cs, d' = set_customers cs d.
Proof.
  unfold SetCustomerDefaultAccountIfEmpty. destruct (customers d !! c).
  - destruct (_ && _); intros; simplify_eq; eauto. exists (customers d'). by destruct d'.
  - intros. simplify_eq. exists (customers d'). by destruct d'.
Qed.

(** A created account is empty, new, and the only change to the account table. *)
Lemma createAccount_ok a w w' u :
  createAccount a w = (w', Ok u) -> Inv (w_db w) ->
  Inv (w_db w') /\ isAccountNo (AccountNo a) = true /\ accounts (w_db w) !! AccountNo a = None /\
  exists r bs cs, w_db w' = set_customers cs (set_books bs
      (set_accounts (<[AccountNo a := r]> (accounts (w_db w))) (w_db w)))
    /\ ar_balance r = 0 /\ ar_book r = BookEnabled a /\ ar_no r = AccountNo a
    /\ (BookEnabled a = false -> bs = books (w_db w)).
Proof.
  unfold createAccount. intros Hr HI.
  apply attempt_bind_ok in Hr as (w1 & [e|v] & Hc & Hr); [by destruct (isUniqueViolation e)|].
  apply run_Ok in Hc as [(Hno & Hnew & r & Hd1 & Hrn & Hrb & Hrbk & _)%CreateAccount_ok _]. simpl in *.
  assert (Inv (w_db w1)) as HI1 by (rewrite Hd1; by apply Inv_new_account).
  apply bind_ok in Hr as (w2 & [] & Hbk & Hr).
  assert (Inv (w_db w2) /\ exists bs, w_db w2 = set_books bs (w_db w1)
    /\ (BookEnabled a = false -> bs = books (w_db w1))) as [HI2 (bs & Hd2 & Hbs)].
  { destruct (BookEnabled a) eqn:Eb.
    - apply bind_ok in Hbk as (w3 & bu & [Hd3 _]%NewUUIDv7_ok & Hbk).
      apply bind_ok in Hbk as (w4 & bb & [Hup _]%run_Ok & [-> _]%ret_ok). rewrite Hd3 in Hup.
      eapply Inv_empty_book in Hup as [HI2 [bs Hd2]]; [split; [done|by exists bs]|done|].
      unfold is_book. rewrite Hd1. simpl. by rewrite lookup_insert_eq.
    - apply ret_ok in Hbk as [-> _]. split; [done|]. exists (books (w_db w1)). by destruct (w_db w1). }
  assert (Inv (w_db w') /\ exists cs, w_db w' = set_customers cs (w_db w2)) as [HI' (cs & Hd')].
  { destruct (String.eqb _ _).
    - apply ret_ok in Hr as [-> _]. split; [done|]. exists (customers (w_db w2)). by destruct (w_db w2).
    - apply bind_ok in Hr as (w5 & n & [[cs Hcs]%SetDefault_ok _]%run_Ok & [-> _]%ret_ok).
      rewrite Hcs. split; [by apply Inv_customers|eauto]. }
  split; [done|]. split; [done|]. split; [done|]. exists r, bs, cs. rewrite Hd', Hd2. rewrite Hd1 in *. auto 10.
Qed.

(** ** The write-off of expired books *)

(** What other transactions see of a completed one: nothing. *)
Record Ext (d d' : DB) : Prop := {
  ext_txn : forall u t, txns d !! u = Some t -> txns d' !! u = Some t;
  ext_flow : forall u, is_Some (txns d !! u) -> flow u (account_changes d') = flow u (account_changes d);
  ext_ref : forall o, refunded o d' = refunded o d;
  ext_attr : forall k a, accounts d !! k = Some a -> exists v, accounts d' !! k = Some (ar_set_balance v a);
  ext_log : account_changes d `prefix_of` account_changes d'
}.

(** What a write-off has moved: nothing, or the balance of expired books from
    [no] to a write-off account, in a transaction of its own. *)
Definition Expired (no : string) (d d' : DB) : Prop :=
  (txns d' = txns d /\ account_changes d' = account_changes d) \/
  exists v t n r1 r2, 0 < n /\ txns d !! v = None /\ txns d' = <[v := t]> (txns d) /\
    tr_status t = TxnStatusRecvSuccess /\ tr_refundable t = 0 /\
    account_changes d' = (account_changes d ++ [r1; r2])%list /\
    ac_account r1 = no /\ ac_delta r1 = - n /\ ac_delta r2 = n.

Lemma Expired_same no d d1 d' :
  txns d1 = txns d -> account_changes d1 = account_changes d -> Expired no d1 d' -> Expired no d d'.
Proof. unfold Expired. by intros -> ->. Qed.

Lemma ar_set_balance_id a : ar_set_balance (ar_balance a) a = a.
Proof. by destruct a. Qed.

Lemma Ext_same d d' :
  txns d' = txns d -> account_changes d' = account_changes d ->
  (forall k a, accounts d !! k = Some a -> accounts d' !! k = Some a) -> Ext d d'.
Proof.
  intros Ht Hl Ha. split.
  - by rewrite Ht.
  - by rewrite Hl.
  - intros o. unfold refunded. by rewrite Hl, Ht.
  - intros k a Hk. exists (ar_balance a). rewrite ar_set_balance_id. auto.
  - by rewrite Hl.
Qed.

Lemma Ext_refl d : Ext d d.
Proof. by apply Ext_same. Qed.

Lemma Ext_trans d1 d2 d3 : Ext d1 d2 -> Ext d2 d3 -> Ext d1 d3.
Proof.
  intros [T1 F1 R1 A1 L1] [T2 F2 R2 A2 L2]. split; [eauto| | | |by etrans].
  - intros u [t Ht]. rewrite F2 by eauto. eauto.
  - intros o. by rewrite R2.
  - intros k a (v & Hv)%A1. apply A2 in Hv as (v' & Hv'). eauto.
Qed.

Context `{CodeProvider}.

Lemma setWriteoff_ok o no now d d' u :
  UpdateMerchantWriteoffAccountNo o no now d = Ok (d', u) ->
  d' = d \/ exists r, d' = set_merchants (<[no := mr_set_writeoff o r]> (merchants d)) d.
Proof.
  unfold UpdateMerchantWriteoffAccountNo. intros [_ Hq]%guardQ_ok.
  destruct (merchants d !! no) as [r|]; simplify_eq; [|by left].
  case_match; simplify_eq. right. eauto.
Qed.

Lemma ensureWriteoff_ok m w w' a :
  ensureMerchantWriteoffAccountTx m w = (w', Ok a) -> Inv (w_db w) ->
  Inv (w_db w') /\ reads a (w_db w') /\ BookEnabled a = false /\
  txns (w_db w') = txns (w_db w) /\ account_changes (w_db w') = account_changes (w_db w) /\
  books (w_db w') = books (w_db w) /\
  (forall k r, accounts (w_db w) !! k = Some r -> accounts (w_db w') !! k = Some r).
Proof.
  unfold ensureMerchantWriteoffAccountTx. intros Hr HI.
  apply bind_ok in Hr as (w1 & mr & Hm & Hr).
  apply or_norows_ok, run_Ok in Hm as [[Hd1 Hm]%getMerchant_ok _]. rewrite <- Hd1 in *. clear Hd1.
  apply bind_ok in Hr as (w2 & no & Hno & Hget).
  assert (Inv (w_db w2) /\ txns (w_db w2) = txns (w_db w1) /\ account_changes (w_db w2) = account_changes (w_db w1)
    /\ books (w_db w2) = books (w_db w1) /\ (forall k r, accounts (w_db w1) !! k = Some r -> accounts (w_db w2) !! k = Some r)
    /\ exists r, accounts (w_db w2) !! no = Some r /\ ar_book r = false) as (HI2 & Ht2 & Hl2 & Hb2 & Ha2 & r & Hr1 & Hr2).
  { destruct (String.eqb _ _) eqn:Ew.
    - apply attempt_bind_ok in Hno as (w3 & [e|n] & Hn & Hno); [by destruct (errors_is e _)|].
      assert (w_db w3 = w_db w1) as Hd3.
      { pose proof (NewAccountNo_frame m AccountTypeWriteoff w1) as [Hf _]. by rewrite Hn in Hf. }
      rewrite <- Hd3 in *. apply bind_ok in Hno as (w4 & [] & Hc & Hno).
      apply createAccount_ok in Hc as (HI4 & Hdig & Hnew & r & bs & cs & Hd4 & Hb0 & Hbk & Hrn & Hbs); [|done].
      simpl in *. apply bind_ok in Hno as (w5 & [] & [Hup _]%run_Ok & [-> ->]%ret_ok).
      destruct (isAccountNo_trim _ Hdig) as [Htrim Hne].
      assert (accounts (w_db w4) !! n = Some r) as Hacc by (rewrite Hd4; simpl; by rewrite lookup_insert_eq).
      assert (exists ms, w_db w5 = set_merchants ms (w_db w4)) as [ms Hd5].
      { apply setWriteoff_ok in Hup as [->|[x ->]]; [exists (merchants (w_db w4)); by destruct (w_db w4)|eauto]. }
      split; [|rewrite Hd5, Hd4; simpl; split; [done|split; [done|split; [auto|split]]]].
      + apply setWriteoff_ok in Hup as [->|[x ->]]; [done|]. apply Inv_merchants; [done|]. simpl.
        intros v [= <-]%nullableText_some _. rewrite Htrim. eauto.
      + intros k x Hk. rewrite lookup_insert_ne; [done|]. congruence.
      + exists r. rewrite lookup_insert_eq. auto.
    - apply ret_ok in Hno as [-> ->]. bools. do 5 (split; [done|]).
      destruct (mr_writeoff mr) as [v|] eqn:Ev; [|done]. exact (inv_writeoff _ HI _ _ _ Hm Ev Ew). }
  apply getAccountTx_reads in Hget as (Hd' & <- & Hrd); [|by apply Inv_acc].
  rewrite Hd'. do 2 (split; [done|]). split; [|done].
  destruct Hrd as (x & Hx & ->). simpl in *. congruence.
Qed.

Lemma mapExists_false {K V} `{Countable K} (p : V -> bool) (m : gmap K V) :
  mapExists p m = false -> forall k v, m !! k = Some v -> p v = false.
Proof.
  unfold mapExists. intros Hm k v Hk. destruct (p v) eqn:E; [|done].
  rewrite <- Hm. symmetry. apply existsb_exists. exists (k, v). split; [|done].
  by apply list_elem_of_In, elem_of_map_to_list.
Qed.

Lemma CreateTransferTxn_ok p now d d' x :
  Queries.CreateTransferTxn p now d = Ok (d', x) ->
  exists u ro, castUUID (ctp_no p) = Ok (Some u) /\ castUUID (coalesce (ctp_refund_of p)) = Ok ro /\
    txns d !! u = None /\ txnChecks (txnRowOf p u ro now) = true /\
    (forall v x, txns d !! v = Some x -> trade x <> trade (txnRowOf p u ro now)) /\
    d' = set_txns (<[u := txnRowOf p u ro now]> (txns d)) d.
Proof.
  unfold Queries.CreateTransferTxn. destruct (castUUID (ctp_no p)) as [|[u|]]; [done| |by destruct (castUUID _)].
  destruct (castUUID _) as [|ro]; [done|]. intros [_ [Hc Hq]%guardQ_ok]%guardQ_ok.
  destruct (txns d !! u) eqn:Hu; [done|]. simpl in Hq. destruct (mapExists _ _) eqn:Em; [done|]. simplify_eq.
  exists u, ro. do 4 (split; [done|]). split; [|done]. intros v y Hv [= E1 E2].
  pose proof (mapExists_false _ _ Em v y Hv) as Hp. simpl in Hp. by rewrite E1, E2, !String.eqb_refl in Hp.
Qed.

Lemma sum_positive_opp l : sum_by (fun b => - br_balance b) l = - sum_by br_balance l.
Proof. apply sum_by_opp. Qed.

Lemma refund_w_transfer ts o c t :
  ts !! ac_txn c = Some t -> tr_biz t = BizTypeTransfer -> refund_w ts o c = 0.
Proof. intros Ht Hb. unfold refund_w. by rewrite Ht, Hb. Qed.

(** A completed double movement of a new transaction is invisible to others. *)
Lemma Ext_double d u t n1 n2 x y d2 d3 :
  Inv d -> txns d !! u = None -> tr_biz t = BizTypeTransfer ->
  Moved u n1 x (set_txns (<[u := t]> (txns d)) d) d2 -> Moved u n2 y d2 d3 -> Ext d d3.
Proof.
  intros HI Hu Hb [(a1 & r1 & b1 & l1 & Ha1 & -> & Hr1 & Hn1 & Hd1 & _)]
    [(a2 & r2 & b2 & l2 & Ha2 & -> & Hr2 & Hn2 & Hd2 & _)]. simpl in *. split; simpl.
  - intros v s Hv. rewrite lookup_insert_ne; [done|congruence].
  - intros v [s Hv]. rewrite <- app_assoc, flow_app. unfold flow at 2. simpl. rewrite Hr1, Hr2.
    destruct (Z.eqb_spec u v); [congruence|lia].
  - intros o. unfold refunded. simpl. rewrite <- app_assoc, sum_by_app. simpl.
    rewrite (refund_w_transfer _ _ r1 t), (refund_w_transfer _ _ r2 t); try done;
      try (by rewrite ?Hr1, ?Hr2, lookup_insert_eq).
    cbn. rewrite ?Z.add_0_r. apply sum_by_ext. intros c Hc. apply refund_w_new.
    intros E. destruct (inv_tref d HI c Hc). congruence.
  - intros k a Hk. destruct (decide (k = n2)) as [->|H2].
    + rewrite lookup_insert_eq. destruct (decide (n2 = n1)) as [->|H1].
      * rewrite lookup_insert_eq in Ha2. simplify_eq. eauto.
      * rewrite lookup_insert_ne in Ha2 by done. simplify_eq. eauto.
    + rewrite lookup_insert_ne by done. destruct (decide (k = n1)) as [->|H1].
      * rewrite lookup_insert_eq. simplify_eq. eauto.
      * rewrite lookup_insert_ne by done. exists (ar_balance a). by rewrite ar_set_balance_id.
  - rewrite <- app_assoc. by apply prefix_app_r.
Qed.

Lemma Expired_double d u t no wo n d2 d3 :
  txns d !! u = None -> tr_status t = TxnStatusRecvSuccess -> tr_refundable t = 0 -> 0 < n ->
  Moved u no (- n) (set_txns (<[u := t]> (txns d)) d) d2 -> Moved u wo n d2 d3 -> Expired no d d3.
Proof.
  intros Hu Hs Hr Hn [(a1 & r1 & b1 & l1 & _ & -> & _ & Hn1 & Hd1 & _)]
    [(a2 & r2 & b2 & l2 & _ & -> & _ & Hn2 & Hd2 & _)]. simpl in *.
  right. exists u, t, n, r1, r2. simpl. by rewrite <- app_assoc.
Qed.

Lemma expired_sum_le p q no d :
  (forall b, p b = true -> q b = true -> br_account b = no) ->
  sum_by br_balance (List.filter q (sort_by expire_leb (List.filter p (book_rows d)))) <= msum (pos_w no) (books d).
Proof.
  intros Hp. unfold msum.
  transitivity (sum_by (pos_w no) (book_rows d)).
  2:{ unfold book_rows. change (snd <$> map_to_list (books d)) with (map snd (map_to_list (books d))).
      by rewrite sum_by_map. }
  rewrite <- (sum_by_perm _ _ _ (sort_by_perm expire_leb (book_rows d))).
  transitivity (sum_by (pos_w no) (sort_by expire_leb (List.filter p (book_rows d)))).
  - assert (Hin : forall b, b ∈ sort_by expire_leb (List.filter p (book_rows d)) -> p b = true)
      by (intros b; rewrite elem_of_sort_by, in_filter; tauto).
    induction (sort_by expire_leb (List.filter p (book_rows d))) as [|b l IH]; simpl; [done|].
    assert (0 <= pos_w no b) by (unfold pos_w; case_match; lia).
    specialize (IH ltac:(intros; apply Hin; by right)). destruct (q b) eqn:Eq; simpl; [|lia].
    assert (br_balance b <= pos_w no b); [|lia]. unfold pos_w.
    rewrite (proj2 (String.eqb_eq _ _) (Hp b (Hin b ltac:(by left)) Eq)). lia.
  - rewrite !(sum_by_perm _ _ _ (sort_by_perm _ _)).
    induction (book_rows d) as [|b l IH]; simpl; [done|].
    assert (0 <= pos_w no b) by (unfold pos_w; case_match; lia). destruct (p b); simpl; lia.
Qed.

Lemma sum_pos l : (forall b, b ∈ l -> 0 < br_balance b) -> l <> [] -> 0 < sum_by br_balance l.
Proof.
  destruct l as [|b l]; [done|]. intros Hp _. simpl.
  pose proof (Hp b ltac:(by left)).
  pose proof (sum_by_nonneg br_balance l ltac:(intros x Hx; specialize (Hp x ltac:(by right)); lia)). lia.
Qed.

Lemma expired_filter no today ne d :
  List.filter (fun b => negb (br_balance b <=? 0))
    (sort_by expire_leb (List.filter (expiredBook no today ne) (book_rows d)))
  = sort_by expire_leb (List.filter (expiredBook no today ne) (book_rows d)).
Proof.
  assert (Hin : forall b, b ∈ sort_by expire_leb (List.filter (expiredBook no today ne) (book_rows d)) ->
            0 < br_balance b).
  { intros b (Hx & _)%list_books_in. unfold expiredBook in Hx. by bools. }
  induction (sort_by _ _) as [|b l IH]; simpl; [done|].
  pose proof (Hin b ltac:(by left)). destruct (Z.leb_spec (br_balance b) 0); [lia|]. simpl.
  f_equal. apply IH. intros x Hx. apply Hin. by right.
Qed.

(** The tail of the sweep, from the new transaction on. *)
Definition sweepTail (txn : UUID) (debit wo : Account) (out : string) (total : Z) (bs : list BookRow) : M unit :=
  do! run (Queries.CreateTransferTxn
             (mkCreateTransferTxnParams (uuid_text txn) (AMerchantNo debit) out
                BizTypeTransfer (nullableText SceneExpireWriteoff) (nullIfEmpty "expire writeoff")
                (nullIfEmpty "system expiry writeoff") (nullIfEmpty (AccountNo debit))
                (nullIfEmpty (AccountNo wo)) None total TxnStatusRecvSuccess
                (nullIfEmpty "") 0 (nullIfEmpty "") (nullIfEmpty ""))) in
  do! run (InsertAccountChange (mkInsertAccountChangeParams txn (AccountNo debit)
             (- total) (Balance debit) (wrap64 (Balance debit - total)))) in
  let! rs := run (BatchUpdateAccountBookBalances (map (fun b => uuid_text (br_no b)) bs)
                    (map (fun b => - br_balance b) bs)) in
  if negb (Nat.eqb (length rs) (length bs)) then throw ErrAccountResolveFailed else
  if existsb (fun row => negb (row.2 =? 0)) rs then throw ErrAccountResolveFailed else
  do! run (UpdateAccountBalance (wrap64 (Balance debit - total)) (AccountNo debit)) in
  applyAccountCreditWithAccountTx txn wo total None.

Lemma sweepTail_ok txn a wo out total bs rows d w w' u :
  sweepTail txn a wo out total bs w = (w', Ok u) ->
  w_db w = set_book_changes (book_changes d ++ rows) d ->
  Forall2 (fun b c => bc_book c = br_no b /\ bc_delta c = - br_balance b) bs rows ->
  Inv d -> reads a d -> BookEnabled a = true -> reads wo d -> BookEnabled wo = false ->
  0 < total -> total = sum_by br_balance bs ->
  (forall b, b ∈ bs -> br_account b = AccountNo a /\ exists u, books d !! u = Some b) ->
  Inv (w_db w') /\ Ext d (w_db w') /\ Expired (AccountNo a) d (w_db w') /\
  forall r, accounts d !! AccountNo a = Some r ->
    accounts (w_db w') !! AccountNo a = Some (ar_set_balance (wrap64 (ar_balance r - total)) r).
Proof.
  unfold sweepTail. intros Hr Hd Hrows HI (r & Hacc & Har) Hbe (rw & Hwacc & Hwar) Hwb Hpos Htot Hbs.
  assert (Balance a = ar_balance r) as Hbal by by rewrite Har.
  assert (AccountNo a = ar_no r) as Hna by by rewrite Har.
  assert (ar_book r = true) as Hrb by by rewrite Har in Hbe.
  assert (ar_book rw = false) as Hwrb by by rewrite Hwar in Hwb.
  rewrite Hna, Hbal in *.
  apply bind_ok in Hr as (w1 & [] & [Hct _]%run_Ok & Hr).
  apply CreateTransferTxn_ok in Hct as (v & ro & Hv & _ & Hfresh & _ & Htrade & Hd1). rewrite Hd in Hfresh, Htrade, Hd1. simpl in *.
  unfold castUUID in Hv. rewrite uuid_parse_text in Hv. destruct (String.eqb _ _); simplify_eq.
  set (t := txnRowOf _ v ro _) in *.
  apply bind_ok in Hr as (w2 & [] & [Hd2%InsertAccountChange_ok _]%run_Ok & Hr).
  apply bind_ok in Hr as (w3 & rs & [(m & Hm & Hd3)%(BatchUpdate_ok br_no) _]%run_Ok & Hr).
  destruct (negb _) eqn:Elen; [by steps|]. destruct (existsb _ _); [by steps|]. bools.
  apply bind_ok in Hr as (w4 & [] & [Hd4%UpdateAccountBalance_ok _]%run_Ok & Hcr).
  rewrite Hd2, Hd1 in Hm, Hd3. simpl in Hm. rewrite Hd3 in Hd4. simpl in Hd4.
  rewrite (alter_insert _ _ _ _ Hacc) in Hd4.
  set (d1 := set_txns (<[v := t]> (txns d)) d).
  assert (Moved v (ar_no r) (- sum_by br_balance bs) d1 (w_db w4)) as HM1.
  { eapply (batch_moved_db br_no (fun b => - br_balance b) bs); [exact Hrows|exact Hm| |exact Hacc|exact Hrb| | |].
    - by apply Nat.eqb_eq in Elen.
    - by rewrite sum_by_opp.
    - intros b (Hb & x & Hx)%Hbs. eauto.
    - rewrite Hd4. reflexivity. }
  apply credit_moved in Hcr as HM2.
  2:{ exists rw. split; [|done]. rewrite Hd4. simpl. rewrite lookup_insert_ne; [done|].
      intros E. simpl in *. congruence. }
  split.
  - eapply (Inv_double d1 (w_db w4) (w_db w') v t (ar_no r) _); try done; simpl.
    + apply Inv_txn_new; try done; simpl; [by right; right; left|lia].
    + by rewrite lookup_insert_eq.
    + by apply flow_fresh.
  - split; [by eapply (Ext_double d v t)|].
    split; [by apply (Expired_double d v t _ _ _ _ _ Hfresh eq_refl eq_refl Hpos HM1 HM2)|].
    intros x Hx. assert (x = r) as -> by congruence.
    destruct HM1 as [(a1 & r1 & b1 & l1 & Ha1 & E1 & _)]. destruct HM2 as [(a2 & r2 & b2 & l2 & Ha2 & E2 & _)].
    simpl in Ha1. rewrite E2. simpl. rewrite lookup_insert_ne by (intros E; simpl in *; congruence).
    rewrite E1. simpl. rewrite lookup_insert_eq. replace a1 with r by congruence. done.
Qed.

(** The money of an account in books that have run out by a day. *)
Definition expired_money (no : string) (today : Date) (d : DB) : Z :=
  sum_by (fun b => if String.eqb (br_account b) no && (br_expire b <=? today) && negb (br_expire b =? noExpireDate)
                   then Z.max 0 (br_balance b) else 0) (book_rows d).

Lemma expired_money_listed no today d :
  sum_by br_balance (sort_by expire_leb (List.filter (expiredBook no today noExpireDate) (book_rows d)))
  = expired_money no today d.
Proof.
  rewrite (sum_by_perm _ _ _ (sort_by_perm _ _)). unfold expired_money. induction (book_rows d) as [|b l IH]; [done|].
  simpl. unfold expiredBook at 1. destruct (String.eqb (br_account b) no), (br_expire b <=? today),
    (br_expire b =? noExpireDate); simpl; try (rewrite IH; lia).
  destruct (Z.ltb_spec 0 (br_balance b)); simpl; rewrite IH; lia.
Qed.

(** The write-off is a transaction of its own: complete, and invisible to the
    one that triggers it. *)
Lemma sweep_ok a now w w' u :
  sweepExpiredBooksTx a now w = (w', Ok u) -> Inv (w_db w) -> fits (w_db w) -> reads a (w_db w) ->
  Inv (w_db w') /\ Ext (w_db w) (w_db w') /\ Expired (AccountNo a) (w_db w) (w_db w') /\
  forall r, accounts (w_db w) !! AccountNo a = Some r -> ar_book r = true ->
    accounts (w_db w') !! AccountNo a
    = Some (ar_set_balance (wrap64 (ar_balance r - expired_money (AccountNo a) (toPGDate now) (w_db w))) r).
Proof.
  unfold sweepExpiredBooksTx. intros Hr HI Hfit Hrd.
  destruct (BookEnabled a) eqn:Hbe; simpl in Hr.
  2:{ apply ret_ok in Hr as [-> _]. split; [done|]. split; [apply Ext_refl|]. split; [by left|].
      intros r Hacc Hbk. destruct Hrd as (r' & Hr' & ->). simpl in Hbe. congruence. }
  apply bind_ok in Hr as (w1 & bs & [Hlist _]%run_Ok & Hr).
  unfold ListExpiredPositiveAccountBooksForUpdate in Hlist. injection Hlist as Hd1 Hbs.
  rewrite Hd1 in *. clear Hd1. assert (toPGDate noExpireBookDate = noExpireDate) as Hne by reflexivity. rewrite Hne in Hbs.
  pose proof (expired_money_listed (AccountNo a) (toPGDate now) (w_db w1)) as Hmoney. rewrite Hbs in Hmoney.
  destruct bs as [|b0 bs'] eqn:Ebs.
  { apply ret_ok in Hr as [-> _]. split; [done|]. split; [apply Ext_refl|]. split; [by left|]. intros r Hacc _.
    rewrite <- Hmoney. simpl. rewrite Z.sub_0_r, wrap64_id by by eapply inv_in64. by rewrite ar_set_balance_id. }
  rewrite <- Ebs in *. assert (bs <> []) as Hnil by congruence. clear b0 bs' Ebs.
  apply bind_ok in Hr as (w2 & wo & Hens & Hr).
  destruct (ensureWriteoff_ok _ _ _ _ Hens HI) as (HI2 & Hwo & Hwob & Ht2 & Hl2 & Hb2 & Ha2).
  apply bind_ok in Hr as (w3 & un & [Hd3 _]%NewUUIDv7_ok & Hr).
  apply bind_ok in Hr as (w4 & [] & Hlog & Hr).
  rewrite <- Hbs, expired_filter, Hbs in Hlog, Hr.
  assert (Hin : forall b, b ∈ bs -> br_account b = AccountNo a /\ 0 < br_balance b
                  /\ exists u, books (w_db w1) !! u = Some b).
  { intros b Hb. rewrite <- Hbs in Hb. apply list_books_in in Hb as (Hx & v & Hv).
    unfold expiredBook in Hx. bools. eauto. }
  assert (Hsum : sum_by br_balance bs <= MaxInt64).
  { etransitivity; [|apply (Hfit (AccountNo a))]. rewrite <- Hbs, <- expired_filter. apply expired_sum_le.
    intros b Hb _. unfold expiredBook in Hb. by bools. }
  assert (Hpos : 0 < sum_by br_balance bs) by (apply sum_pos; [intros b Hb; by apply Hin|done]).
  rewrite (wrap64_id (sum_by br_balance bs)) in Hr by (unfold in64, MinInt64; lia).
  destruct (sum_by br_balance bs <=? 0) eqn:Et; [bools; lia|].
  apply insertLoop_ok in Hlog as (_ & rows & Hd4 & Hrows). rewrite Hd3 in Hd4.
  assert (reads a (w_db w2)) as Hrd2 by (destruct Hrd as (r & Hr1 & Hr2); exists r; auto).
  destruct (sweepTail_ok _ _ _ _ _ _ rows (w_db w2) _ _ _ Hr Hd4) as (HI' & HE & HX & HB); auto.
  - eapply Forall2_impl; [exact Hrows|]. simpl. tauto.
  - intros b Hb. rewrite Hb2. destruct (Hin b Hb) as (? & ? & ?). auto.
  - split; [done|]. split; [eapply Ext_trans; [|exact HE]; by apply Ext_same|].
    split; [by eapply Expired_same|]. intros r Hacc _. rewrite <- Hmoney. apply HB. auto.
Qed.
End Proofs.
