(* ===== verification/StageProofs.v ===== *)
(** * Stages keep the ledger invariant

    [ApplyTxnStage] and the transactions around it: whatever a call returns,
    the tables satisfy the invariant afterwards, and a stage that reports
    success has moved its transaction one step. *)

From S2P Require Import Prelude GoBase Domain Codes Store Queries Ledger Invariant Books LedgerProofs.
From stdpp Require Import base gmap list strings.
From Stdlib Require Import ZArith Lia.

Local Open Scope string_scope.
Local Open Scope Z_scope.

Section Stage.
Context `{Platform} `{CodeProvider}.

(** The debit of a stage: perhaps a write-off, then one movement. *)
Lemma debit_ok txn no amount w w' u :
  applyAccountDebitTx txn no amount w = (w', Ok u) -> Inv (w_db w) -> fits (w_db w) ->
  0 < amount /\ exists d1, Inv d1 /\ Ext (w_db w) d1 /\ Expired no (w_db w) d1 /\ Moved txn no (- amount) d1 (w_db w').
Proof.
  unfold applyAccountDebitTx. destruct (_ || _) eqn:E0; [by intros; steps|]. bools. intros Hr HI Hfit.
  split; [done|].
  apply bind_ok in Hr as (w1 & a & Hget & Hr).
  apply getAccountTx_reads in Hget as (Hd1 & <- & Hrd); [|by apply Inv_acc]. rewrite <- Hd1 in *. clear Hd1.
  destruct (BookEnabled a) eqn:Hbe.
  2:{ exists (w_db w1). split; [done|]. split; [apply Ext_refl|]. split; [by left|]. by eapply debitPlain_moved. }
  apply bind_ok in Hr as (w2 & now & [Hd2 _]%timeNow_ok & Hr). rewrite <- Hd2 in *.
  apply bind_ok in Hr as (w3 & [] & Hsw & Hr).
  destruct (sweep_ok _ _ _ _ _ Hsw HI Hfit Hrd) as (HI3 & HE & HX & _).
  apply bind_ok in Hr as (w4 & a' & Hget & Hr).
  apply getAccountTx_reads in Hget as (Hd4 & Hn & Hrd'); [|by apply Inv_acc]. rewrite <- Hd4 in *.
  exists (w_db w4). split; [done|]. split; [done|]. split; [done|]. rewrite <- Hn.
  eapply debitBooks_moved; [exact Hr|lia|exact Hrd'|].
  destruct Hrd as (r & Hr1 & ->). destruct (ext_attr _ _ HE _ _ Hr1) as [v Hv].
  destruct Hrd' as (r' & Hr1' & ->). simpl in *.
  assert (r' = ar_set_balance v r) as -> by congruence. done.
Qed.

(** ** The statuses of all transactions *)

(** No transaction disappears; each keeps its status... *)
Definition Kept (d d' : DB) : Prop :=
  forall u t, txns d !! u = Some t -> exists t', txns d' !! u = Some t' /\ tr_status t' = tr_status t.
(** ... or moves along the state machine. *)
Definition Hist (d d' : DB) : Prop :=
  forall u t, txns d !! u = Some t ->
    exists t', txns d' !! u = Some t' /\ rtc status_step (tr_status t) (tr_status t').

#[export] Instance Hist_preorder : PreOrder Hist.
Proof.
  split.
  - intros d u t Hu. exists t. split; [done|constructor].
  - intros d1 d2 d3 H12 H23 u t (t2 & Ht2 & S2)%H12. apply H23 in Ht2 as (t3 & Ht3 & S3).
    exists t3. split; [done|]. by etrans.
Qed.

Lemma Kept_txns d d' : txns d' = txns d -> Kept d d'.
Proof. intros E u t Hu. rewrite E. eauto. Qed.

Lemma Kept_trans d1 d2 d3 : Kept d1 d2 -> Kept d2 d3 -> Kept d1 d3.
Proof.
  intros H12 H23 u t (t2 & Ht2 & S2)%H12. apply H23 in Ht2 as (t3 & Ht3 & S3). exists t3. split; [done|congruence].
Qed.

Lemma Ext_Kept d d' : Ext d d' -> Kept d d'.
Proof. intros HE u t Hu. exists t. split; [by apply HE|done]. Qed.

Lemma Kept_Hist d d' : Kept d d' -> Hist d d'.
Proof. intros HK u t (t' & Ht & E)%HK. exists t'. split; [done|]. rewrite E. constructor. Qed.

(** One stage: a transaction keeps its status or completes a stage. *)
Inductive advance : string -> string -> Prop :=
| adv_same s : advance s s
| adv_pay : advance TxnStatusInit TxnStatusPaySuccess
| adv_recv : advance TxnStatusPaySuccess TxnStatusRecvSuccess.

Definition Advanced (d d' : DB) : Prop :=
  forall u t, txns d !! u = Some t -> exists t', txns d' !! u = Some t' /\ advance (tr_status t) (tr_status t').

Lemma Advanced_refl d : Advanced d d.
Proof. intros u t Hu. exists t. split; [done|constructor]. Qed.

Lemma Advanced_Hist d d' : Advanced d d' -> Hist d d'.
Proof.
  intros HA u t (t' & Ht & Hs)%HA. exists t'. split; [done|].
  destruct Hs; [constructor|apply rtc_once; constructor..].
Qed.

Lemma Advanced_step d d1 d' u t t' :
  Kept d d1 -> txns d !! u = Some t -> advance (tr_status t) (tr_status t') ->
  txns d' = <[u := t']> (txns d1) -> Advanced d d'.
Proof.
  intros HK Ht Hs Hd v x Hv. rewrite Hd. destruct (decide (v = u)) as [->|Hne].
  - rewrite lookup_insert_eq. exists t'. by simplify_eq.
  - rewrite lookup_insert_ne by done. apply HK in Hv as (x' & Hx & E). exists x'. split; [done|].
    rewrite E. constructor.
Qed.

(** ** Statements on transactions *)

Lemma updateTxn_ok u f d d' b :
  updateTxn u f d = Ok (d', b) ->
  match txns d !! u with
  | Some r => d' = set_txns (<[u := f r]> (txns d)) d /\ txnChecks (f r) = true /\ b = true
  | None => d' = d /\ b = false
  end.
Proof.
  unfold updateTxn. destruct (txns d !! u) as [r|].
  - intros [_ [Hc Hq]%guardQ_ok]%guardQ_ok. by simplify_eq.
  - intros. by simplify_eq.
Qed.

Lemma updateStatus_ok st u now d d' x t :
  UpdateTransferTxnStatusByUUID st None None u now d = Ok (d', x) -> txns d !! u = Some t ->
  d' = set_txns (<[u := tr_set_status st None None now t]> (txns d)) d.
Proof.
  unfold UpdateTransferTxnStatusByUUID. intros Hq Ht.
  destruct (updateTxn _ _ _) as [|[d1 b]] eqn:E; [done|]. simplify_eq.
  apply updateTxn_ok in E. rewrite Ht in E. by destruct E as [-> _].
Qed.

Lemma insertOutbox_ok txn m o w w' u :
  insertOutboxEventTx txn m o w = (w', Ok u) -> exists ob, w_db w' = set_outbox ob (w_db w).
Proof.
  unfold insertOutboxEventTx. intros [Hq _]%run_Ok. unfold InsertOutboxEvent in Hq.
  assert (Hid : exists ob, w_db w = set_outbox ob (w_db w)) by (exists (outbox (w_db w)); by destruct (w_db w)).
  destruct (webhooks _ !! _); [|injection Hq as <- _; exact Hid].
  destruct (_ && _); [|injection Hq as <- _; exact Hid].
  apply guardQ_ok in Hq as [_ Hq]. apply guardQ_ok in Hq as [_ Hq].
  destruct (existsb _ _); injection Hq as <- _; [exact Hid|eauto].
Qed.

(** Taking a refund's amount from its origin makes room for its debit. *)
Lemma decrease_ok amount o m w w' u :
  decreaseOriginTx amount o m w = (w', Ok u) -> Inv (w_db w) -> 0 < amount ->
  Inv (w_db w') /\ (exists r, txns (w_db w) !! o = Some r /\ tr_biz r = BizTypeTransfer
                      /\ tr_status r = TxnStatusRecvSuccess) /\
  exists x, txns (w_db w') !! o = Some x /\ tr_biz x = BizTypeTransfer
    /\ tr_status x = TxnStatusRecvSuccess
    /\ tr_refundable x + refunded o (w_db w') + amount <= tr_amount x
    /\ exists ts, w_db w' = set_txns ts (w_db w)
         /\ (forall v t, txns (w_db w) !! v = Some t -> v <> o -> ts !! v = Some t).
Proof.
  unfold decreaseOriginTx. intros Hr HI Hpos.
  apply attempt_bind_ok in Hr as (w1 & [e|v] & Hq & Hr).
  { destruct (errors_is e ErrNoRows); [|by steps]. by steps. }
  apply ret_ok in Hr as [-> _]. apply run_Ok in Hq as [Hq _].
  unfold DecreaseOriginTxnRefundableIfValid in Hq.
  destruct (txns (w_db w) !! o) as [r|] eqn:Ho; [|done].
  destruct (_ && _) eqn:Ec; [|done]. bools.
  destruct (bigintAdd _ _) as [|z] eqn:Ez; [done|]. apply bigintAdd_ok in Ez as [-> _].
  destruct (updateTxn _ _ _) as [|[d1 b]] eqn:Eu; [done|]. simplify_eq.
  apply updateTxn_ok in Eu. rewrite Ho in Eu. destruct Eu as (Hd1 & Hc & _).
  set (f := tr_set_refundable _ _) in *. rewrite Hd1.
  assert (tr_biz r = BizTypeTransfer) as Hb by done.
  destruct (inv_refund _ HI _ _ Ho Hb) as [Hn1 Hn2].
  split.
  - apply (Inv_txn_update (w_db w) o r (f r) HI Ho); [by repeat split| |simpl; lia].
    pose proof (inv_flow _ HI _ _ Ho) as Hf. unfold status_flow in *. simpl. exact Hf.
  - split; [eauto|]. exists (f r). simpl. rewrite lookup_insert_eq. repeat split; try done.
    + assert (refunded o (set_txns (<[o := f r]> (txns (w_db w))) (w_db w)) = refunded o (w_db w)) as ->; [|lia].
      apply sum_by_ext. intros c _. by apply (refund_w_update _ _ r).
    + eexists. split; [reflexivity|]. intros x t Hx Hne. by rewrite lookup_insert_ne.
Qed.

(** ** One stage *)

Lemma status_trim t f : status_flow t f -> TrimSpace (tr_status t) = tr_status t.
Proof. intros [[-> _]|[[-> _]|[[-> _]|[-> _]]]]; reflexivity. Qed.

Lemma set_status_same st now t : same_txn t (tr_set_status st None None now t).
Proof. by repeat split. Qed.

(** What a stage's movement and status update leave behind. *)
Lemma stage_step d1 d2 d3 t no delta st now x :
  Inv d1 -> txns d1 !! tr_no t = Some t -> Moved (tr_no t) no delta d1 d2 ->
  status_flow (tr_set_status st None None now t) (flow (tr_no t) (account_changes d1) + delta) ->
  (delta < 0 -> refund_room t (- delta) d1) ->
  UpdateTransferTxnStatusByUUID st None None (tr_no t) now d2 = Ok (d3, x) ->
  Inv d3 /\ txns d3 = <[tr_no t := tr_set_status st None None now t]> (txns d1).
Proof.
  intros HI Ht HM Hf Hroom Hu. pose proof (Moved_txns _ _ _ _ _ HM) as Hts.
  apply (updateStatus_ok _ _ _ _ _ _ t) in Hu as ->; [|by rewrite Hts].
  split; [|simpl; by rewrite Hts].
  eapply Inv_move; [done|done|apply set_status_same|done|done|done|done].
Qed.

Lemma stageDebit_ok t d c w w' u :
  stageDebit t d c w = (w', Ok u) -> Inv (w_db w) -> fits (w_db w) ->
  txns (w_db w) !! tr_no t = Some t ->
  exists d1 no, Inv d1 /\ txns d1 !! tr_no t = Some t
    /\ flow (tr_no t) (account_changes d1) = flow (tr_no t) (account_changes (w_db w))
    /\ Moved (tr_no t) no (- tr_amount t) d1 (w_db w') /\ refund_room t (tr_amount t) d1
    /\ Kept (w_db w) d1.
Proof.
  unfold stageDebit. intros Hr HI Hfit Ht. destruct (String.eqb (TrimSpace (tr_biz t)) _) eqn:Eb.
  - bools. destruct (String.eqb d ""); [by steps|].
    apply debit_ok in Hr as (Hpos & d1 & HI1 & HE & _ & HM); [|done..].
    exists d1, d. split; [done|]. split; [by apply HE|]. split; [apply HE; eauto|]. split; [done|].
    split; [|by apply Ext_Kept]. intros Hb. rewrite Hb in Eb. discriminate.
  - destruct (tr_refund_of t) as [o|] eqn:Eo; [|by steps].
    apply bind_ok in Hr as (w1 & [] & Hdec & Hr). destruct (_ || _); [by steps|].
    pose proof (inv_amount _ HI _ _ Ht) as Hpos.
    apply decrease_ok in Hdec as (HI1 & (r & Hr1 & Hrb & Hrs) & x & Hx & Hxb & Hxs & Hroom & ts & Hd1 & Hts); [|done..].
    apply debit_ok in Hr as (_ & d1 & HI2 & HE & _ & HM); [|done|by rewrite Hd1].
    exists d1, (TrimSpace d). split; [done|].
    assert (txns (w_db w1) !! tr_no t = Some t) as Ht1.
    { rewrite Hd1. simpl. apply Hts; [done|]. intros <-. simplify_eq. by rewrite Hrb in Eb. }
    split; [by apply HE|]. split; [rewrite (ext_flow _ _ HE) by eauto; by rewrite Hd1|]. split; [done|].
    split.
    + intros _ o' Ho'. simplify_eq. exists x. split; [by apply HE|]. split; [done|]. by rewrite (ext_ref _ _ HE).
    + eapply Kept_trans; [|by apply Ext_Kept]. intros v y Hv. destruct (decide (v = o)) as [->|Hne].
      * exists x. split; [done|congruence].
      * exists y. rewrite Hd1. split; [by apply Hts|done].
Qed.

Lemma stageCredit_ok t d c w w' u :
  stageCredit t d c w = (w', Ok u) -> Inv (w_db w) ->
  Moved (tr_no t) c (tr_amount t) (w_db w) (w_db w').
Proof.
  unfold stageCredit. intros Hr HI. destruct (String.eqb c ""); [by steps|].
  destruct (String.eqb _ _).
  - eapply transferCredit_moved; [exact Hr|by apply Inv_acc].
  - destruct (tr_refund_of t); [|by steps]. eapply refundCredit_moved; [exact Hr|by apply Inv_acc].
Qed.

(** A stage that completes: the invariant holds and the status has moved one step. *)
Lemma stageWork_ok t expected d c w w' next :
  stageWork t expected d c w = (w', Ok next) -> Inv (w_db w) -> fits (w_db w) ->
  txns (w_db w) !! tr_no t = Some t -> tr_status t = expected ->
  Inv (w_db w') /\ status_step expected next /\ Advanced (w_db w) (w_db w') /\
  exists now, txns (w_db w') !! tr_no t = Some (tr_set_status next None None now t).
Proof.
  unfold stageWork. intros Hr HI Hfit Ht Hst. pose proof (inv_flow _ HI _ _ Ht) as Hfl.
  destruct (String.eqb expected TxnStatusInit) eqn:E1; [apply String.eqb_eq in E1|].
  { apply bind_ok in Hr as (w1 & [] & Hdeb & Hr).
    apply bind_ok in Hr as (w2 & [] & [Hup _]%run_Ok & [-> ->]%ret_ok).
    apply stageDebit_ok in Hdeb as (d1 & no & HI1 & Ht1 & Hf1 & HM & Hroom & HK); [|done..].
    assert (flow (tr_no t) (account_changes (w_db w)) = 0) as Hz.
    { destruct Hfl as [[_ ?]|[[E _]|[[E _]|[E _]]]]; [done|..]; rewrite E in Hst; subst; done. }
    eapply stage_step in Hup as [HI2 Ht2]; [|exact HI1|done|exact HM| |by rewrite Z.opp_involutive].
    - split; [done|]. split; [rewrite E1; constructor|]. rewrite Ht2.
      split; [|exists (w_txnow w1); by rewrite lookup_insert_eq].
      eapply Advanced_step; [exact HK|exact Ht| |exact Ht2]. rewrite Hst, E1. constructor.
    - rewrite Hf1, Hz. right. left. split; [done|simpl; lia]. }
  destruct (String.eqb expected TxnStatusPaySuccess) eqn:E2; [|by steps]. apply String.eqb_eq in E2.
  apply bind_ok in Hr as (w1 & [] & Hcr & Hr). apply bind_ok in Hr as (w2 & [] & [Hup _]%run_Ok & Hr).
  apply bind_ok in Hr as (w3 & [] & [ob Hob]%insertOutbox_ok & [-> ->]%ret_ok).
  apply stageCredit_ok in Hcr; [|done].
  assert (flow (tr_no t) (account_changes (w_db w)) = - tr_amount t) as Hz.
  { destruct Hfl as [[E _]|[[_ ?]|[[E _]|[E _]]]]; [|done|..]; rewrite E in Hst; subst; done. }
  eapply stage_step in Hup as [HI2 Ht2]; [|exact HI|done|exact Hcr| |].
  - rewrite Hob. split; [by apply Inv_outbox|]. split; [rewrite E2; constructor|]. simpl. rewrite Ht2.
    split; [|exists (w_txnow w1); by rewrite lookup_insert_eq].
    eapply (Advanced_step _ (w_db w)); [by apply Kept_txns|exact Ht| |exact Ht2]. rewrite Hst, E2. constructor.
  - rewrite Hz. right. right. left. split; [done|simpl; lia].
  - intros Hneg. pose proof (inv_amount _ HI _ _ Ht). lia.
Qed.

Lemma pure_stage no : pureQ (GetTransferTxnStageForUpdate no).
Proof. apply pure_txnByText. Qed.

Lemma stage_read no (t : Time) d d' r :
  GetTransferTxnStageForUpdate no t d = Ok (d', r) -> Inv d ->
  d' = d /\ castUUID no = Ok (Some (tr_no r)) /\ txns d !! tr_no r = Some r.
Proof.
  unfold GetTransferTxnStageForUpdate, txnByText. destruct (castUUID no) as [|[v|]]; try done.
  intros [-> Hv]%one_ok HI. by rewrite (inv_tkey _ HI _ _ Hv).
Qed.

(** How [stageBody] returns without an error: nothing to do, or the work of
    the stage on the tables it found. *)
Lemma stageBody_work no expected w w' res :
  stageBody no expected w = (w', (res, None)) -> Inv (w_db w) ->
  exists t, castUUID no = Ok (Some (tr_no t)) /\ txns (w_db w) !! tr_no t = Some t /\
    ((Applied res = false /\ w_db w' = w_db w /\ CurrentStatus res = tr_status t
        /\ (tr_status t <> expected \/ isBizType (TrimSpace (tr_biz t)) = false)) \/
     (Applied res = true /\ tr_status t = expected /\ exists w1, w_db w1 = w_db w /\
        stageWork t expected (TrimSpace (coalesce (tr_debit t))) (TrimSpace (coalesce (tr_credit t))) w1
          = (w', Ok (CurrentStatus res)))).
Proof.
  unfold stageBody. intros Hr HI.
  destruct (or_norows _ _ w) as [w1 [e|t]] eqn:Er; [done|].
  apply or_norows_ok, run_Ok in Er as [Hq _].
  apply stage_read in Hq as (Hd1 & Hc & Ht); [|done]. exists t. split; [done|]. split; [congruence|].
  rewrite (status_trim _ _ (inv_flow _ HI _ _ Ht)) in Hr.
  destruct (negb (String.eqb (TrimSpace (tr_biz t)) _) && _) eqn:Eb.
  { simplify_eq. left. repeat split; [done|]. right. unfold isBizType. bools.
    apply orb_false_iff. rewrite !String.eqb_neq. done. }
  destruct (negb (String.eqb (tr_status t) expected)) eqn:Es.
  { simplify_eq. left. repeat split; [done|]. left. by bools. }
  bools. destruct (stageWork _ _ _ _ _) as [w2 [e|next]] eqn:Ew; [done|]. simplify_eq.
  right. split; [done|]. split; [done|]. by exists w1.
Qed.

(** Every way [stageBody] can return without an error. *)
Lemma stageBody_ok no expected w w' res :
  stageBody no expected w = (w', (res, None)) -> Inv (w_db w) -> fits (w_db w) ->
  Inv (w_db w') /\ Advanced (w_db w) (w_db w') /\
  exists t, castUUID no = Ok (Some (tr_no t)) /\ txns (w_db w) !! tr_no t = Some t /\
    ((Applied res = false /\ w_db w' = w_db w /\ CurrentStatus res = tr_status t
        /\ (tr_status t <> expected \/ isBizType (TrimSpace (tr_biz t)) = false)) \/
     (Applied res = true /\ tr_status t = expected /\ status_step expected (CurrentStatus res) /\
      exists now, txns (w_db w') !! tr_no t = Some (tr_set_status (CurrentStatus res) None None now t))).
Proof.
  intros Hr HI Hfit. destruct (stageBody_work _ _ _ _ _ Hr HI) as (t & Hc & Ht & [Hno|(Happ & Hst & w1 & Hd1 & Ew)]).
  { destruct Hno as (? & Hd & ? & ?). rewrite Hd. split; [done|]. split; [apply Advanced_refl|]. exists t. auto 10. }
  rewrite <- Hd1 in *. apply stageWork_ok in Ew as (HI' & Hstep & Hh & Hnow); auto.
  split; [done|]. split; [done|]. exists t. auto 10.
Qed.

(** ** Theorems *)

(** Invariant.  Whatever [ApplyTxnStage] is called with and whatever it
    returns (success, business error, lost connection before or after the
    commit), it leaves the ledger invariant true: balances equal to their
    logs and to their books, every transaction having moved exactly what its
    status says, no transfer refunded beyond its amount. *)
Lemma ApplyTxnStage_inv txnNo expected w w' res oe :
  Inv (w_db w) -> fits (w_db w) -> ApplyTxnStage txnNo expected w = (w', (res, oe)) -> Inv (w_db w').
Proof.
  intros HI Hfit [[Hd _]|(w1 & w2 & Hd & Hb & Hd' & _)]%withTxE_inv; [by rewrite Hd|].
  rewrite <- Hd in HI, Hfit. rewrite Hd'. by destruct (stageBody_ok _ _ _ _ _ Hb HI Hfit).
Qed.

(** [C3] A stage is atomic and exactly-once: an error other than a lost
    connection changes no table, and without error either nothing changed and
    the caller is told [Applied = false] because the transaction is not (or no
    longer) in the expected status, or the transaction was in that status and
    has moved one step of the state machine. *)
Theorem ApplyTxnStage_exactly_once txnNo expected w w' res oe :
  Inv (w_db w) -> fits (w_db w) ->
  ApplyTxnStage txnNo expected w = (w', (res, oe)) ->
  match oe with
  | Some e => e <> ErrConn -> w_db w' = w_db w
  | None => exists t, castUUID txnNo = Ok (Some (tr_no t)) /\ txns (w_db w) !! tr_no t = Some t /\
      ((Applied res = false /\ w_db w' = w_db w /\ CurrentStatus res = tr_status t
          /\ (tr_status t <> expected \/ isBizType (TrimSpace (tr_biz t)) = false)) \/
       (Applied res = true /\ tr_status t = expected /\ status_step expected (CurrentStatus res) /\
        exists now, txns (w_db w') !! tr_no t = Some (tr_set_status (CurrentStatus res) None None now t)))
  end.
Proof.
  intros HI Hfit [[Hd Hoe]|(w1 & w2 & Hd & Hb & Hd' & Hoe)]%withTxE_inv; [by destruct oe|].
  destruct Hoe as [-> | ->]; [|done].
  rewrite <- Hd in *. rewrite Hd'. by destruct (stageBody_ok _ _ _ _ _ Hb HI Hfit) as (_ & _ & ?).
Qed.
End Stage.
