(* ===== verification/BookRules.v ===== *)
(** * The rules of book debits and refunds

    Closed forms for the two loops that decide which books pay and which
    books a refund returns to: [debitLoop] (first expired, first out) and
    [refundParts] (the slice of the origin's debits a refund reverses). *)

From S2P Require Import Prelude GoBase Domain Codes Store Queries Invariant Books Ledger LedgerProofs StageProofs.
From stdpp Require Import base gmap list strings sorting.
From Stdlib Require Import ZArith Lia.

Local Open Scope string_scope.
Local Open Scope Z_scope.

(** ** First expired, first out *)

(** A book with a date and money. *)
Definition dated (b : BookRow) : Prop := br_expire b <> noExpireDate /\ 0 < br_balance b.

Lemma normalize_date d : normalizeUTCDate (timeOfDate d) = timeOfDate d.
Proof. unfold normalizeUTCDate, dayStart, timeOfDate, dayNs. rewrite Z.div_mul by done. done. Qed.

Lemma isNoExpire_spec d :
  (normalizeUTCDate (timeOfDate d) =? noExpireBookDate) = (d =? noExpireDate).
Proof.
  rewrite normalize_date. unfold noExpireBookDate.
  destruct (Z.eqb_spec d noExpireDate) as [->|Hn]; [by apply Z.eqb_eq|].
  apply Z.eqb_neq. by intros ?%timeOfDate_inj.
Qed.

(** What each book of the list gives: what the books before it did not cover. *)
Fixpoint fefo (amount before : Z) (bs : list BookRow) : list (UUID * Z) :=
  match bs with
  | [] => []
  | b :: rest =>
      (br_no b,
       if br_expire b =? noExpireDate then Z.max 0 (amount - before)
       else Z.max 0 (Z.min (br_balance b) (amount - before)))
      :: fefo amount (before + br_balance b) rest
  end.

(** Dated books, then at most the one without expiry: what the query returns. *)
Inductive book_list : list BookRow -> Prop :=
| bl_nil : book_list []
| bl_last b : br_expire b = noExpireDate -> book_list [b]
| bl_cons b bs : dated b -> book_list bs -> book_list (b :: bs).

Definition taken (cs : list bookChange) : list (UUID * Z) := map (fun c => (ch_book c, - ch_delta c)) cs.
Definition positive_part (l : list (UUID * Z)) : list (UUID * Z) := List.filter (fun p => 0 <? p.2) l.

Lemma fefo_shift amount before x bs : fefo (amount + x) (before + x) bs = fefo amount before bs.
Proof.
  revert before. induction bs as [|b bs IH]; intros before; simpl; [done|].
  replace (amount + x - (before + x)) with (amount - before) by lia.
  f_equal. replace (before + x + br_balance b) with (before + br_balance b + x) by lia. apply IH.
Qed.

Lemma fefo_covered amount before bs :
  book_list bs -> amount <= before -> positive_part (fefo amount before bs) = [].
Proof.
  intros Hb. revert before. induction Hb as [|b Hb|b bs [Hd Hp] _ IH]; intros before Hle; simpl; [done|..].
  - rewrite (proj2 (Z.eqb_eq _ _) Hb), Z.max_l by lia. done.
  - destruct (br_expire b =? noExpireDate); rewrite Z.max_l by lia; simpl; apply IH; lia.
Qed.

Lemma debitLoop_fefo bs todo cs l :
  book_list bs -> 0 <= todo -> debitLoop bs todo = (cs, l) ->
  taken cs = positive_part (fefo todo 0 bs).
Proof.
  intros Hb. revert todo cs l. induction Hb as [|b Hb|b bs [Hd Hp] Hbs IH]; intros todo cs l Ht; cbn [debitLoop].
  - by intros [= <- <-].
  - rewrite isNoExpire_spec, (proj2 (Z.eqb_eq _ _) Hb). simpl. rewrite (proj2 (Z.eqb_eq _ _) Hb), Z.sub_0_r.
    destruct (Z.eqb_spec todo 0) as [->|Hn]; [by intros [= <- <-]|].
    intros [= <- <-]. simpl. rewrite Z.max_r, Z.opp_involutive by lia.
    destruct (Z.ltb_spec 0 todo); [done|lia].
  - rewrite isNoExpire_spec, (proj2 (Z.eqb_neq _ _) Hd).
    destruct (Z.eqb_spec todo 0) as [->|Hn].
    { intros [= <- <-]. symmetry. apply fefo_covered; [by constructor|lia]. }
    destruct (Z.leb_spec (br_balance b) 0) as [|_]; [lia|]. cbn [negb andb].
    set (use := if todo <? br_balance b then todo else br_balance b).
    assert (use = Z.max 0 (Z.min (br_balance b) (todo - 0))) as Huse
      by (unfold use; destruct (Z.ltb_spec todo (br_balance b)); lia).
    destruct (Z.leb_spec use 0) as [|Hu]; [lia|].
    destruct (debitLoop bs (todo - use)) as [cs1 l1] eqn:Ed. intros [= <- <-].
    cbn [fefo]. rewrite (proj2 (Z.eqb_neq _ _) Hd), <- Huse. unfold taken, positive_part. simpl.
    rewrite Z.opp_involutive, (proj2 (Z.ltb_lt _ _) Hu). f_equal.
    specialize (IH (todo - use) cs1 l1 ltac:(lia) Ed). unfold taken, positive_part in IH. rewrite IH.
    destruct (Z.ltb_spec todo (br_balance b)).
    + assert (todo - use = 0) as -> by (unfold use; lia).
      change (positive_part (fefo 0 0 bs) = positive_part (fefo todo (br_balance b) bs)).
      rewrite !fefo_covered; [done|done|lia|done|lia].
    + rewrite <- (fefo_shift (todo - use) 0 (br_balance b)). do 2 f_equal; unfold use; lia.
Qed.

(** ** What the query returns *)

Lemma fefo_leb_total ne x y : fefo_leb ne x y = false -> fefo_leb ne y x = true.
Proof.
  unfold fefo_leb. destruct (Z.eqb_spec (br_expire x) ne), (Z.eqb_spec (br_expire y) ne); simpl; try done;
    destruct (Z.eqb_spec (br_expire x) (br_expire y)), (Z.eqb_spec (br_expire y) (br_expire x)); try congruence;
    intros; bools; first [apply Z.leb_le|apply Z.ltb_lt]; lia.
Qed.

Lemma fefo_leb_trans ne x y z : fefo_leb ne x y = true -> fefo_leb ne y z = true -> fefo_leb ne x z = true.
Proof.
  unfold fefo_leb.
  destruct (Z.eqb_spec (br_expire x) ne), (Z.eqb_spec (br_expire y) ne), (Z.eqb_spec (br_expire z) ne);
    simpl; try done;
    destruct (Z.eqb_spec (br_expire x) (br_expire y)), (Z.eqb_spec (br_expire y) (br_expire z)),
      (Z.eqb_spec (br_expire x) (br_expire z)); try congruence;
    intros; bools; first [apply Z.leb_le|apply Z.ltb_lt]; lia.
Qed.

(** Sorted dated books with at most one book without expiry form a [book_list]. *)
Lemma sorted_book_list l :
  StronglySorted (fun a b => fefo_leb noExpireDate a b = true) l ->
  (forall b, b ∈ l -> br_expire b = noExpireDate \/ dated b) ->
  NoDup (br_expire <$> l) -> book_list l.
Proof.
  induction 1 as [|b l Hs IH Hb]; intros Hin Hnd; [constructor|].
  apply NoDup_cons in Hnd as [Hnot Hnd].
  destruct (Hin b ltac:(by left)) as [He|Hd].
  - destruct l as [|x l]; [by constructor|exfalso].
    apply Forall_cons in Hb as [Hx _]. unfold fefo_leb in Hx. rewrite (proj2 (Z.eqb_eq _ _) He) in Hx.
    destruct (Z.eqb_spec (br_expire x) noExpireDate) as [E|]; [|done].
    apply Hnot. rewrite He, <- E. set_solver.
  - constructor; [done|]. apply IH; [|done]. intros x Hx. apply Hin. by right.
Qed.

Lemma NoDup_filter_expire p d no :
  (forall b, p b = true -> br_account b = no) ->
  BooksOk (fun n => is_book n d) (books d) (book_changes d) ->
  NoDup (br_expire <$> List.filter p (book_rows d)).
Proof.
  intros Hp Hok. unfold book_rows.
  pose proof (NoDup_map_to_list (books d)) as Hnd.
  assert (Hall : forall kv, kv ∈ map_to_list (books d) -> books d !! kv.1 = Some kv.2)
    by (intros [k v]; apply elem_of_map_to_list).
  induction (map_to_list (books d)) as [|[k b] l IH]; simpl; [constructor|].
  apply NoDup_cons in Hnd as [Hk Hnd]. specialize (IH Hnd ltac:(intros; apply Hall; by right)).
  destruct (p b) eqn:Epb; [|done]. simpl. constructor; [|done].
  intros (x & Hx & Hin)%list_elem_of_fmap. apply in_filter in Hin as [Hpx Hin].
  apply list_elem_of_fmap in Hin as ([k' x'] & -> & Hin).
  pose proof (Hall _ ltac:(by left)) as H1. pose proof (Hall (k', x') ltac:(by right)) as H2. simpl in *.
  assert (k = k') as <- by (eapply (bk_uniq _ _ _ Hok); eauto; rewrite (Hp _ Epb), (Hp _ Hpx); done).
  simplify_eq. done.
Qed.

(** The books offered to a debit are those of the account that are not
    expired today, soonest expiry first, the book without expiry last and
    only once. *)
Lemma available_books_order no today now d d' bs :
  Inv d ->
  ListAvailableAccountBooksForUpdate no today noExpireDate now d = Ok (d', bs) ->
  d' = d /\ book_list bs /\
  StronglySorted (fun a b => fefo_leb noExpireDate a b = true) bs /\
  (forall b, b ∈ bs -> br_account b = no /\ (today < br_expire b \/ br_expire b = noExpireDate)) /\
  (forall u b, books d !! u = Some b -> br_account b = no -> dated b -> today < br_expire b -> b ∈ bs).
Proof.
  unfold ListAvailableAccountBooksForUpdate. intros HI [= <- <-].
  assert (Hin : forall b, b ∈ sort_by (fefo_leb noExpireDate) (List.filter (availableBook no today noExpireDate)
            (book_rows d)) -> availableBook no today noExpireDate b = true).
  { intros b (Hb & _)%list_books_in. done. }
  assert (Hs := sort_by_sorted (fefo_leb noExpireDate) (fefo_leb_total _) (fefo_leb_trans _)
                  (List.filter (availableBook no today noExpireDate) (book_rows d))).
  split; [done|]. split; [|split; [done|split]].
  - apply sorted_book_list; [done|..].
    + intros b Hb%Hin. unfold availableBook, dated in *. apply andb_true_iff in Hb as [_ Hb].
      destruct (Z.eqb_spec (br_expire b) noExpireDate); [by left|right].
      rewrite orb_false_r in Hb. by bools.
    + rewrite (fmap_Permutation _ _ _ (sort_by_perm _ _)).
      eapply (NoDup_filter_expire _ _ no); [|apply HI]. intros b Hb. unfold availableBook in Hb. by bools.
  - intros b Hb%Hin. unfold availableBook in Hb. apply andb_true_iff in Hb as [Ha Hb]. bools.
    split; [done|]. apply orb_true_iff in Hb as [Hb|Hb]; bools; auto.
  - intros u b Hu Ha [_ Hp] Ht. apply elem_of_sort_by, in_filter. split.
    + unfold availableBook. rewrite (proj2 (String.eqb_eq _ _) Ha), (proj2 (Z.ltb_lt _ _) Ht),
        (proj2 (Z.ltb_lt _ _) Hp). done.
    + unfold book_rows. apply list_elem_of_fmap. exists (u, b). split; [done|]. by apply elem_of_map_to_list.
Qed.

(** ** The reference: what the tables say each book owes *)

(** Expiry dates in the order they come: the date of the books without expiry last. *)
Definition sooner (e e' : Date) : bool :=
  negb (e =? noExpireDate) && ((e' =? noExpireDate) || (e <? e')).

(** The money of an account in books that can still be spent and expire before [e]. *)
Definition covered (no : string) (today e : Date) (d : DB) : Z :=
  sum_by (fun x => if String.eqb (br_account x) no && (today <? br_expire x) && sooner (br_expire x) e
                   then Z.max 0 (br_balance x) else 0) (book_rows d).

(** What a book of the account gives to a debit: what the books expiring
    before it do not cover, as far as its money goes; nothing once expired;
    the book without expiry gives all the rest. *)
Definition share (no : string) (today : Date) (amount : Z) (d : DB) (b : BookRow) : Z :=
  let rest := Z.max 0 (amount - covered no today (br_expire b) d) in
  if br_expire b =? noExpireDate then rest
  else if today <? br_expire b then Z.min (Z.max 0 (br_balance b)) rest else 0.

Definition given (u : UUID) (l : list (UUID * Z)) : Z := sum_by (fun p => if p.1 =? u then p.2 else 0) l.

Lemma given_positive u amount before bs :
  given u (positive_part (fefo amount before bs)) = given u (fefo amount before bs).
Proof.
  unfold given, positive_part. revert before. induction bs as [|b bs IH]; intros before; [done|]. cbn [fefo List.filter].
  set (x := if br_expire b =? noExpireDate then _ else _).
  assert (0 <= x) as Hx by (unfold x; case_match; lia). cbn [fst snd]. destruct (Z.ltb_spec 0 x); simpl; rewrite IH;
    [done|]. destruct (_ =? u); lia.
Qed.

Lemma given_other u amount before bs : (forall x, x ∈ bs -> br_no x <> u) -> given u (fefo amount before bs) = 0.
Proof.
  unfold given. revert before. induction bs as [|b bs IH]; intros before Hn; [done|]. simpl.
  rewrite (proj2 (Z.eqb_neq _ _) (Hn b ltac:(by left))), IH; [done|]. intros x Hx. apply Hn. by right.
Qed.

Lemma given_at b amount before pre post :
  (forall x, x ∈ (pre ++ post)%list -> br_no x <> br_no b) ->
  given (br_no b) (fefo amount before (pre ++ b :: post)%list)
  = let rest := amount - (before + sum_by br_balance pre) in
    if br_expire b =? noExpireDate then Z.max 0 rest else Z.max 0 (Z.min (br_balance b) rest).
Proof.
  revert before. induction pre as [|x pre IH]; intros before Hn.
  - unfold given. simpl. rewrite Z.eqb_refl, Z.add_0_r.
    change (sum_by _ (fefo amount (before + br_balance b) post)) with (given (br_no b) (fefo amount (before + br_balance b) post)).
    rewrite given_other; [case_match; lia|done].
  - unfold given in *. simpl. rewrite (proj2 (Z.eqb_neq _ _) (Hn x ltac:(by left))), IH.
    + cbv zeta. rewrite Z.add_assoc. done.
    + intros y Hy. apply Hn. by right.
Qed.

Lemma filter_nil {A} (p : A -> bool) l : (forall x, x ∈ l -> p x = false) -> List.filter p l = [].
Proof. induction l as [|x l IH]; intros Hp; [done|]. simpl. rewrite (Hp x ltac:(by left)). apply IH. intros y Hy. apply Hp. by right. Qed.

(** In the order of the query, what stands before a book is what expires before it. *)
Lemma sorted_before pre b post :
  StronglySorted (fun x y => fefo_leb noExpireDate x y = true) (pre ++ b :: post)%list ->
  NoDup (br_expire <$> (pre ++ b :: post)%list) ->
  List.filter (fun x => sooner (br_expire x) (br_expire b)) (pre ++ b :: post)%list = pre.
Proof.
  induction pre as [|x pre IH]; simpl; intros Hs Hnd.
  - assert (sooner (br_expire b) (br_expire b) = false) as ->.
    { unfold sooner. rewrite Z.ltb_irrefl, orb_false_r. by destruct (_ =? _). }
    apply StronglySorted_inv in Hs as [_ Hs]. apply NoDup_cons in Hnd as [Hne _].
    apply filter_nil. intros y Hy. rewrite Forall_forall in Hs. specialize (Hs y Hy).
    assert (br_expire b <> br_expire y) as Hby by (intros E; apply Hne; rewrite E; by apply list_elem_of_fmap_2).
    unfold fefo_leb in Hs. unfold sooner.
    destruct (Z.eqb_spec (br_expire b) noExpireDate), (Z.eqb_spec (br_expire y) noExpireDate); simpl in *; try done.
    destruct (Z.eqb_spec (br_expire b) (br_expire y)); [done|]. bools. apply Z.ltb_ge. lia.
  - apply StronglySorted_inv in Hs as [Hs Hx]. apply NoDup_cons in Hnd as [Hne Hnd]. rewrite IH by done.
    rewrite Forall_forall in Hx. specialize (Hx b ltac:(set_solver)).
    assert (br_expire x <> br_expire b) as Hxb by (intros E; apply Hne; rewrite E; apply list_elem_of_fmap_2; set_solver).
    assert (sooner (br_expire x) (br_expire b) = true) as ->; [|done].
    unfold fefo_leb in Hx. unfold sooner.
    destruct (Z.eqb_spec (br_expire x) noExpireDate), (Z.eqb_spec (br_expire b) noExpireDate); simpl in *; try done; try congruence.
    by destruct (Z.eqb_spec (br_expire x) (br_expire b)).
Qed.

Lemma filter_sum {A} (p : A -> bool) f (l : list A) : sum_by f (List.filter p l) = sum_by (fun x => if p x then f x else 0) l.
Proof. induction l as [|x l IH]; [done|]. simpl. destruct (p x); simpl; lia. Qed.

(** The money of the offered books that expire before [e] is what the tables hold. *)
Lemma offered_covered no today e d :
  sum_by br_balance (List.filter (fun x => sooner (br_expire x) e)
    (sort_by (fefo_leb noExpireDate) (List.filter (availableBook no today noExpireDate) (book_rows d))))
  = covered no today e d.
Proof.
  rewrite filter_sum, (sum_by_perm _ _ _ (sort_by_perm _ _)), filter_sum. apply sum_by_ext. intros x _.
  unfold availableBook, sooner. destruct (String.eqb (br_account x) no), (Z.ltb_spec today (br_expire x)),
    (Z.eqb_spec (br_expire x) noExpireDate), (Z.ltb_spec 0 (br_balance x)); simpl; try done;
    repeat case_match; try lia.
Qed.

Lemma book_row_in d u b : books d !! u = Some b -> b ∈ book_rows d.
Proof. intros Hu. unfold book_rows. apply list_elem_of_fmap. exists (u, b). split; [done|]. by apply elem_of_map_to_list. Qed.

(** With a book without expiry nothing is left over. *)
Lemma debitLoop_all bs todo cs l b :
  book_list bs -> b ∈ bs -> br_expire b = noExpireDate -> debitLoop bs todo = (cs, l) -> l = 0.
Proof.
  intros Hb. revert todo cs l. induction Hb as [|x Hx|x bs [Hd Hp] Hbs IH]; intros todo cs l Hin He; cbn [debitLoop].
  - by apply elem_of_nil in Hin.
  - rewrite isNoExpire_spec, (proj2 (Z.eqb_eq _ _) Hx). simpl. destruct (Z.eqb_spec todo 0); by intros [= _ <-].
  - apply elem_of_cons in Hin as [->|Hin]; [done|]. rewrite isNoExpire_spec, (proj2 (Z.eqb_neq _ _) Hd).
    destruct (Z.eqb_spec todo 0); [by intros [= _ <-]|]. simpl. destruct (br_balance x <=? 0); [by apply IH|].
    destruct (_ <=? 0); [by apply IH|]. destruct (debitLoop bs _) as [cs1 l1] eqn:Ed. intros [= _ <-]. by eapply IH.
Qed.

(** Each book gives its share. *)
Lemma debitLoop_shares no today now amount d bs cs leftover u b :
  Inv d -> 0 <= amount ->
  ListAvailableAccountBooksForUpdate no today noExpireDate now d = Ok (d, bs) ->
  debitLoop bs amount = (cs, leftover) -> books d !! u = Some b -> br_account b = no ->
  given u (taken cs) = share no today amount d b.
Proof.
  intros HI Ha Hq Hl Hu Hb. destruct (available_books_order _ _ _ _ _ _ HI Hq) as (_ & Hbl & Hs & Hof & _).
  rewrite (debitLoop_fefo _ _ _ _ Hbl Ha Hl), given_positive.
  pose proof (bk_key _ _ _ (inv_books _ HI)) as Hkey.
  unfold ListAvailableAccountBooksForUpdate in Hq. injection Hq as Hbs.
  assert (NoDup (br_expire <$> bs)) as Hnd.
  { rewrite <- Hbs, (fmap_Permutation _ _ _ (sort_by_perm _ _)). eapply (NoDup_filter_expire _ _ no); [|apply HI].
    intros x Hx. unfold availableBook in Hx. by bools. }
  assert (forall x, x ∈ bs -> br_no x = u -> x = b) as Huniq.
  { intros x Hx E. rewrite <- Hbs in Hx. apply list_books_in in Hx as (_ & v & Hv). rewrite <- (Hkey _ _ Hv) in Hv. congruence. }
  pose proof (Hkey _ _ Hu) as Hno. unfold share. destruct (availableBook no today noExpireDate b) eqn:Hav.
  - assert (b ∈ bs) as Hin by (rewrite <- Hbs; apply elem_of_sort_by, in_filter; split; [done|by eapply book_row_in]).
    apply list_elem_of_split in Hin as (pre & post & ->). pose proof (sorted_before _ _ _ Hs Hnd) as Hpre.
    rewrite <- Hno, given_at.
    2:{ intros x Hx E. rewrite Hno in E. assert (x = b) as -> by (apply Huniq; [set_solver|done]).
        rewrite fmap_app in Hnd. apply NoDup_app in Hnd as (_ & Hd1 & Hd2). simpl in *. apply NoDup_cons in Hd2 as [Hd2 _].
        apply elem_of_app in Hx as [Hx|Hx]; [apply (Hd1 (br_expire b)); [by apply list_elem_of_fmap_2|by left]|].
        by apply Hd2, list_elem_of_fmap_2. }
    rewrite <- (offered_covered no today (br_expire b) d), Hbs, Hpre. cbv zeta.
    destruct (Z.eqb_spec (br_expire b) noExpireDate); [done|].
    destruct (Hof b ltac:(set_solver)) as [_ [Ht|]]; [|done]. apply Z.ltb_lt in Ht as ->. lia.
  - rewrite given_other.
    2:{ intros x Hx E. pose proof (Huniq x Hx E) as ->. rewrite <- Hbs in Hx. apply list_books_in in Hx as [Hx _]. congruence. }
    rename Hav into Hna.
    unfold availableBook in Hna. rewrite (proj2 (String.eqb_eq _ _) Hb) in Hna. simpl in Hna.
    apply orb_false_iff in Hna as [Hna ->]. destruct (today <? br_expire b); [|done]. simpl in Hna. bools. lia.
Qed.

(** [C7] First expired, first out.  Of the books the tables hold for an
    account, the query and the debit loop together take from each exactly its
    share: from a book that has expired nothing; from one that has not, what
    all unexpired books with an earlier date leave uncovered, as far as its
    money goes; and from the book without expiry (which may go negative) the
    rest.  They take from no other book, and with a book without expiry they
    take the amount in full. *)
Theorem debit_is_fefo no today now amount d d' bs cs leftover :
  Inv d -> 0 <= amount ->
  ListAvailableAccountBooksForUpdate no today noExpireDate now d = Ok (d', bs) ->
  debitLoop bs amount = (cs, leftover) ->
  d' = d /\
  (forall u b, books d !! u = Some b -> br_account b = no ->
     sum_by (fun c => if ch_book c =? u then - ch_delta c else 0) cs = share no today amount d b) /\
  (forall c, c ∈ cs -> exists b, books d !! ch_book c = Some b /\ br_account b = no /\
     ch_expire c = br_expire b /\ ch_before c = br_balance b /\ ch_delta c < 0) /\
  sum_by ch_delta cs = leftover - amount /\ 0 <= leftover <= amount /\
  (forall u b, books d !! u = Some b -> br_account b = no -> br_expire b = noExpireDate -> leftover = 0).
Proof.
  intros HI Ha Hq Hl. destruct (available_books_order _ _ _ _ _ _ HI Hq) as (-> & Hbl & _ & Hof & _).
  destruct (debitLoop_spec _ _ _ _ Hl Ha) as (H1 & H2 & H3).
  pose proof (bk_key _ _ _ (inv_books _ HI)) as Hkey. split; [done|]. split.
  { intros u b Hu Hb. rewrite <- (debitLoop_shares _ _ _ _ _ _ _ _ _ _ HI Ha Hq Hl Hu Hb).
    unfold given, taken. by rewrite sum_by_map. }
  unfold ListAvailableAccountBooksForUpdate in Hq. injection Hq as Hbs. split; [|split; [done|split; [done|]]].
  - intros c (b & Hb & -> & He & Hbf & Hd)%H3. exists b. destruct (Hof b Hb) as [Hacc _].
    rewrite <- Hbs in Hb. apply list_books_in in Hb as (_ & v & Hv). by rewrite (Hkey _ _ Hv).
  - intros u b Hu Hb He. eapply debitLoop_all; [exact Hbl| |exact He|exact Hl]. rewrite <- Hbs.
    apply elem_of_sort_by, in_filter. split; [|by eapply book_row_in]. unfold availableBook.
    by rewrite (proj2 (String.eqb_eq _ _) Hb), (proj2 (Z.eqb_eq _ _) He), orb_true_r.
Qed.

(** ** Expiry of refunded money *)

Lemma diffDays_bounds later earlier : -106751 <= diffDaysUTCDate later earlier <= 106751.
Proof.
  unfold diffDaysUTCDate, timeSub, sat64. set (x := _ - _).
  set (y := Z.max MinInt64 (Z.min MaxInt64 x)).
  assert (MinInt64 <= y <= MaxInt64) by (unfold y, MinInt64, MaxInt64; lia).
  change (24 * Hour) with 86400000000000. unfold MinInt64, MaxInt64 in *.
  split.
  - transitivity (Z.quot (-9223372036854775808) 86400000000000); [done|]. apply Z.quot_le_mono; lia.
  - transitivity (Z.quot 9223372036854775807 86400000000000); [|done]. apply Z.quot_le_mono; lia.
Qed.

Lemma refundExpireAt_days base e spentAt :
  refundExpireAt base e spentAt
  = base + Z.max 1 (diffDaysUTCDate (pgDateToTime (Some e)) spentAt) * dayNs.
Proof.
  unfold refundExpireAt. pose proof (diffDays_bounds (pgDateToTime (Some e)) spentAt) as Hb.
  set (n := diffDaysUTCDate _ _) in *. set (m := if n <=? 0 then 1 else n).
  assert (m = Z.max 1 n) as Hm by (unfold m; destruct (Z.leb_spec n 0); lia).
  rewrite (wrap64_id (m * 24)) by (unfold in64, MinInt64, MaxInt64; lia).
  rewrite wrap64_id by (unfold in64, MinInt64, MaxInt64, Hour; lia).
  unfold timeAdd, Hour, dayNs. rewrite Hm. lia.
Qed.

(** The days between two dates, as far as a [Duration] can count them. *)
Lemma diffDays_dates e spentAt :
  diffDaysUTCDate (pgDateToTime (Some e)) spentAt = Z.max (-106751) (Z.min 106751 (e - spentAt / dayNs)).
Proof.
  unfold diffDaysUTCDate. simpl. rewrite normalize_date. unfold timeSub, timeOfDate, normalizeUTCDate, dayStart, sat64.
  rewrite <- Z.mul_sub_distr_r. set (n := e - spentAt / dayNs). change (24 * Hour) with dayNs.
  unfold dayNs, MinInt64, MaxInt64. destruct (Z.leb_spec 106752 n).
  { rewrite (Z.min_l 9223372036854775807), (Z.max_r (-9223372036854775808)) by lia.
    change (Z.quot 9223372036854775807 86400000000000) with 106751. lia. }
  destruct (Z.leb_spec n (-106752)).
  { rewrite (Z.min_r 9223372036854775807), (Z.max_l (-9223372036854775808)) by lia.
    change (Z.quot (-9223372036854775808) 86400000000000) with (-106751). lia. }
  rewrite (Z.min_r 9223372036854775807), (Z.max_r (-9223372036854775808)) by lia. rewrite Z.quot_mul by done. lia.
Qed.

(** ** Refunds: which units of the origin's debits *)

(** The day a unit spent by a book debit may be spent again until: as many days
    after the refund as were left of the book when it was spent, at least one. *)
Definition refunded_until (base : Time) (c : BookChangeRow) : Time :=
  base + Z.max 1 (Z.min 106751 (bc_expire c - bc_created c / dayNs)) * dayNs.

Lemma refundExpireAt_until base c : refundExpireAt base (bc_expire c) (bc_created c) = refunded_until base c.
Proof. rewrite refundExpireAt_days, diffDays_dates. unfold refunded_until. lia. Qed.

(** Every single unit spent, in the order of spending, with the day it would be
    given back until; and every single unit the parts of a refund give back. *)
Definition unitsSpent (base : Time) (debits : list BookChangeRow) : list Time :=
  flat_map (fun c => repeat (refunded_until base c) (Z.to_nat (- bc_delta c))) debits.
Definition unitsGiven (parts : list bookCreditPart) : list Time :=
  flat_map (fun p => repeat (part_expire p) (Z.to_nat (part_amount p))) parts.

Definition debit_row (c : BookChangeRow) : Prop := - MaxInt64 <= bc_delta c < 0.

Lemma firstn_repeat {A} (x : A) n k : firstn n (repeat x k) = repeat x (Nat.min n k).
Proof. revert k. induction n as [|n IH]; intros [|k]; simpl; [done..|]. by rewrite IH. Qed.
Lemma skipn_repeat {A} (x : A) n k : skipn n (repeat x k) = repeat x (k - n).
Proof. revert k. induction n as [|n IH]; intros [|k]; simpl; [done..|]. by rewrite IH. Qed.

(** Parts: positive, neighbours of different expiry, and no more than [m] in all. *)
Inductive canonical : list bookCreditPart -> Prop :=
| can_nil : canonical []
| can_one p : 0 < part_amount p -> canonical [p]
| can_snoc ps p q : canonical (ps ++ [p])%list -> part_expire p <> part_expire q -> 0 < part_amount q ->
    canonical (ps ++ [p; q])%list.
Definition worth (parts : list bookCreditPart) : Z := sum_by part_amount parts.

Lemma canonical_swap ps p q : part_expire q = part_expire p -> 0 < part_amount q -> canonical (ps ++ [p])%list -> canonical (ps ++ [q])%list.
Proof.
  intros He Hq Hc. inversion Hc as [E|p' Hp E|ps' p' q' Hc' Hn Hp E].
  - by destruct ps.
  - destruct ps as [|x ps]; [by constructor|]. by destruct ps.
  - change (ps' ++ [p'; q'])%list with (ps' ++ ([p'] ++ [q']))%list in E. rewrite app_assoc in E.
    apply app_inj_tail in E as [<- <-]. rewrite <- app_assoc. simpl. constructor; [done|congruence|done].
Qed.

Lemma worth_nonneg ps : canonical ps -> 0 <= worth ps.
Proof.
  unfold worth. induction 1 as [|p|ps p q _ IH _ Hq]; simpl; [lia..|]. rewrite sum_by_app in *. simpl in *. lia.
Qed.

Lemma appendPart_spec ps e use :
  canonical ps -> 0 < use -> worth ps + use <= MaxInt64 ->
  canonical (appendPart ps e use) /\ worth (appendPart ps e use) = worth ps + use /\
  unitsGiven (appendPart ps e use) = (unitsGiven ps ++ repeat e (Z.to_nat use))%list.
Proof.
  intros Hc Hu Hm. unfold appendPart. destruct (last ps) as [p|] eqn:El.
  2:{ apply last_None in El as ->. simpl. unfold worth, unitsGiven. simpl. rewrite app_nil_r. split; [by constructor|]. split; [lia|done]. }
  apply last_Some in El as [l ->]. pose proof (worth_nonneg _ Hc) as Hw.
  assert (0 < part_amount p) as Hp.
  { inversion Hc as [E|p' Hp E|l' p' q' Hc' Hn Hp E]; [by destruct l|by destruct l as [|? [|]]; simplify_eq/=|].
    change (l' ++ [p'; q'])%list with (l' ++ ([p'] ++ [q']))%list in E. rewrite app_assoc in E. by apply app_inj_tail in E as [_ <-]. }
  assert (0 <= worth l) as Hl.
  { inversion Hc as [E|p' Hp' E|l' p' q' Hc' Hn Hp' E]; [by destruct l|by destruct l as [|? [|]]; simplify_eq/=|].
    change (l' ++ [p'; q'])%list with (l' ++ ([p'] ++ [q']))%list in E. rewrite app_assoc in E. apply app_inj_tail in E as [<- _].
    by apply worth_nonneg. }
  unfold worth in Hm, Hw, Hl. rewrite sum_by_app in Hm. simpl in Hm.
  destruct (Z.eqb_spec (part_expire p) e) as [<-|Hne].
  - rewrite removelast_last, wrap64_id by (unfold in64, MinInt64 in *; lia). split; [|split].
    + eapply canonical_swap; [| |exact Hc]; simpl; [done|lia].
    + unfold worth. rewrite !sum_by_app. simpl. lia.
    + unfold unitsGiven. rewrite !flat_map_app. simpl. rewrite !app_nil_r, <- app_assoc, <- repeat_app. do 2 f_equal. lia.
  - rewrite <- app_assoc. simpl. split; [by constructor|]. split.
    + unfold worth. rewrite !sum_by_app. simpl. lia.
    + unfold unitsGiven. rewrite !flat_map_app. simpl. by rewrite !app_nil_r, <- app_assoc.
Qed.

Lemma unitsSpent_length base debits :
  Forall debit_row debits -> Z.of_nat (length (unitsSpent base debits)) = sum_by (fun c => - bc_delta c) debits.
Proof.
  unfold unitsSpent, debit_row. induction 1 as [|c l Hc _ IH]; [done|]. simpl.
  rewrite length_app, repeat_length. lia.
Qed.

Lemma refundParts_units base debits off todo acc parts l :
  Forall debit_row debits -> 0 <= off -> 0 < todo -> canonical acc -> worth acc + todo <= MaxInt64 ->
  refundParts base debits off todo acc = (parts, l) ->
  canonical parts /\ worth parts = worth acc + (todo - l) /\
  unitsGiven parts = (unitsGiven acc ++ firstn (Z.to_nat todo) (skipn (Z.to_nat off) (unitsSpent base debits)))%list.
Proof.
  intros Hd. revert off todo acc. induction Hd as [|c debits Hc Hd IH]; intros off todo acc Ho Ht Hcan Hmax; cbn [refundParts].
  { intros [= <- <-]. split; [done|]. split; [lia|]. simpl. by rewrite skipn_nil, firstn_nil, app_nil_r. }
  unfold debit_row in Hc. rewrite wrap64_id by (unfold in64, MinInt64, MaxInt64 in *; lia).
  destruct (Z.leb_spec (- bc_delta c) 0) as [|Hpos]; [lia|].
  change (unitsSpent base (c :: debits)) with (repeat (refunded_until base c) (Z.to_nat (- bc_delta c)) ++ unitsSpent base debits)%list.
  rewrite refundExpireAt_until. set (v := - bc_delta c) in *. set (e := refunded_until base c). unfold minInt64.
  rewrite skipn_app, skipn_repeat, repeat_length, firstn_app, firstn_repeat, repeat_length.
  destruct (Z.ltb_spec off v) as [Hov|Hov].
  2:{ rewrite Z.sub_diag. simpl. intros Hr. apply IH in Hr; [|lia|done..]. destruct Hr as (H1 & H2 & ->).
      split; [done|]. split; [done|]. replace (Z.to_nat v - Z.to_nat off)%nat with 0%nat by lia. rewrite Nat.min_0_r, Nat.sub_0_r. simpl.
      by replace (Z.to_nat off - Z.to_nat v)%nat with (Z.to_nat (off - v)) by lia. }
  destruct (Z.leb_spec (v - off) 0) as [|_]; [lia|]. rewrite Z.sub_diag.
  replace (Z.to_nat off - Z.to_nat v)%nat with 0%nat by lia. rewrite skipn_0.
  replace (Z.to_nat v - Z.to_nat off)%nat with (Z.to_nat (v - off)) by lia.
  replace (Nat.min (Z.to_nat todo) (Z.to_nat (v - off))) with (Z.to_nat (Z.min todo (v - off))) by lia.
  replace (Z.to_nat todo - Z.to_nat (v - off))%nat with (Z.to_nat (todo - (v - off))) by lia.
  set (use := if v - off <? todo then v - off else todo).
  assert (use = Z.min todo (v - off)) as Hu by (unfold use; destruct (Z.ltb_spec (v - off) todo); lia). rewrite <- Hu.
  destruct (Z.leb_spec use 0) as [|Hup]; [lia|].
  destruct (appendPart_spec acc e use Hcan Hup ltac:(lia)) as (Hcan' & Hw' & Hun').
  destruct (Z.eqb_spec (todo - use) 0) as [Hz|Hz].
  - intros [= <- <-]. split; [done|]. split; [lia|]. rewrite Hun'.
    replace (Z.to_nat (todo - (v - off))) with 0%nat by lia. by rewrite firstn_O, app_nil_r.
  - intros Hr. apply IH in Hr; [|lia|lia|done|lia]. destruct Hr as (H1 & H2 & ->). split; [done|]. split; [lia|].
    rewrite Hun', <- app_assoc. change (Z.to_nat 0) with 0%nat. rewrite skipn_0. do 3 f_equal. lia.
Qed.

Lemma canonical_adjacent ps l p q k : canonical ps -> ps = (l ++ p :: q :: k)%list -> part_expire p <> part_expire q.
Proof.
  intros Hc. revert l p q k. induction Hc as [|x _|ps x y Hc IH Hne _]; intros l p q k E.
  - by destruct l.
  - by destruct l as [|? [|]].
  - destruct k as [|z k _] using rev_ind.
    + change (ps ++ [x; y])%list with (ps ++ ([x] ++ [y]))%list in E. change (l ++ [p; q])%list with (l ++ ([p] ++ [q]))%list in E.
      rewrite !app_assoc in E. apply app_inj_tail in E as [E ->]. by apply app_inj_tail in E as [_ ->].
    + change (ps ++ [x; y])%list with (ps ++ ([x] ++ [y]))%list in E.
      change (l ++ p :: q :: k ++ [z])%list with (l ++ ((p :: q :: k) ++ [z]))%list in E.
      rewrite !app_assoc in E. apply app_inj_tail in E as [E _]. by eapply IH.
Qed.

Lemma canonical_positive ps : canonical ps -> Forall (fun p => 0 < part_amount p) ps.
Proof.
  induction 1 as [|p|ps p q _ IH _ Hq]; [constructor|by repeat constructor|].
  apply Forall_app in IH as [H1 H2]. apply Forall_app. split; [done|]. apply Forall_cons in H2 as [H2 _]. by repeat constructor.
Qed.

(** [C8] A refund gives back the very units it reverses.  Count the units the
    origin spent one by one, in the order of spending; after earlier refunds of
    [prior] in total, a refund of [amount] gives back exactly the units number
    [prior] up to [prior + amount], in order, each until as many days after the
    refund as were left when it was spent (at least one, and as far as a
    [Duration] can count), none twice and none forgotten; units given back
    until the same day in a row make one part, every part is positive, and what
    cannot be placed is what exceeds the money spent.  Successive refunds
    therefore never overlap. *)
Theorem refund_reverses_slice base debits prior amount parts leftover :
  Forall debit_row debits -> 0 <= prior -> 0 < amount <= MaxInt64 ->
  refundParts base debits prior amount [] = (parts, leftover) ->
  unitsGiven parts = firstn (Z.to_nat amount) (skipn (Z.to_nat prior) (unitsSpent base debits)) /\
  sum_by part_amount parts = amount - leftover /\
  leftover = Z.max 0 (prior + amount - Z.max prior (sum_by (fun c => - bc_delta c) debits)) /\
  Forall (fun p => 0 < part_amount p) parts /\
  (forall l p q k, parts = (l ++ p :: q :: k)%list -> part_expire p <> part_expire q).
Proof.
  intros Hd Hp Ha Hr.
  destruct (refundParts_units base debits prior amount [] parts leftover Hd Hp ltac:(lia) can_nil ltac:(unfold worth; simpl; lia) Hr)
    as (Hcan & Hw & Hun). simpl in Hun.
  split; [done|]. split; [exact Hw|]. split; [|split; [by apply canonical_positive|intros l p q k; by apply canonical_adjacent]].
  assert (Z.of_nat (length (unitsGiven parts)) = amount - leftover) as Hlen.
  { change (worth []) with 0 in Hw. rewrite Z.add_0_l in Hw. rewrite <- Hw. unfold worth, unitsGiven.
    pose proof (canonical_positive _ Hcan) as Hpos. clear -Hpos. induction Hpos as [|x l Hx _ IH]; [done|]. simpl.
    rewrite length_app, repeat_length. lia. }
  rewrite Hun, length_firstn, length_skipn in Hlen. pose proof (unitsSpent_length base _ Hd) as Hs. lia.
Qed.

(** Refunded money is always spendable: the book it goes to expires at
    least one day and at most 106751 days after the day of the refund,
    whatever was left of the original book, and no [int64] of the computation
    overflows. *)
Lemma refund_expiry_bounds base e spentAt :
  base + dayNs <= refundExpireAt base e spentAt <= base + 106751 * dayNs.
Proof.
  rewrite refundExpireAt_days. pose proof (diffDays_bounds (pgDateToTime (Some e)) spentAt).
  unfold dayNs in *. nia.
Qed.

(** The remaining lifetime is kept: money spent [n] days before its
    book's expiry (up to the 106751 days a [Duration] can count) is refunded
    to a book expiring [n] days after the refund. *)
Lemma refund_keeps_lifetime base e spentDay n :
  1 <= n <= 106751 -> e = spentDay + n ->
  refundExpireAt base e (timeOfDate spentDay) = base + n * dayNs.
Proof.
  intros Hn ->. rewrite refundExpireAt_days, diffDays_dates. unfold timeOfDate. rewrite Z.div_mul by done.
  f_equal. unfold dayNs. lia.
Qed.

(** [C33] Money spent from the book without expiry does not return to it:
    [Sub] saturates, so a refund of money spent between 1970 and 2199 goes to
    a book that expires 106751 days (about 292 years) after the refund. *)
Theorem refund_of_unexpiring_expires base spentAt :
  0 <= spentAt < timeOfDate 84000 ->
  refundExpireAt base noExpireDate spentAt = base + 106751 * dayNs.
Proof.
  intros Hs. rewrite refundExpireAt_days. f_equal. unfold diffDaysUTCDate, timeSub.
  assert (sat64 (normalizeUTCDate (pgDateToTime (Some noExpireDate)) - normalizeUTCDate spentAt) = MaxInt64) as ->.
  { simpl. rewrite normalize_date. unfold sat64, normalizeUTCDate, dayStart, timeOfDate, noExpireDate, dayNs in *.
    assert (spentAt / 86400000000000 * 86400000000000 <= spentAt)
      by (pose proof (Z.mul_div_le spentAt 86400000000000); lia).
    unfold MinInt64, MaxInt64. lia. }
  reflexivity.
Qed.

(** ** Debits: when they succeed and what bounds they respect

    The balance check of [validateDebitBalanceOnly] carried through the
    debit: an account is never taken below what it may owe, and the outcome of
    a debit from a plain account is decided by that check alone. *)

Section Debits.
Context `{Platform} `{CodeProvider}.

(** The check, without its machine arithmetic. *)
Definition may_debit (r : AccountRow) (amount : Z) : Prop :=
  if ar_overdraft r then ar_limit r = 0 \/ amount <= ar_balance r + ar_limit r else amount <= ar_balance r.

Lemma validate_spec r amount :
  in64 (ar_balance r) -> 0 <= ar_limit r <= MaxInt64 -> 0 < amount ->
  ar_balance r + ar_limit r <= MaxInt64 ->
  validateDebitBalanceOnly (accountFromGetAccountForUpdateRow r) amount = None <-> may_debit r amount.
Proof.
  intros Hb Hl Ha Hs. unfold validateDebitBalanceOnly, may_debit. simpl.
  destruct (Z.leb_spec amount 0); [lia|]. destruct (ar_overdraft r); simpl.
  - destruct (Z.eqb_spec (ar_limit r) 0); [by split; [left|]|].
    rewrite wrap64_id by (unfold in64, MinInt64, MaxInt64 in *; lia).
    destruct (Z.ltb_spec (ar_balance r + ar_limit r) amount); split; intros; try done; try lia.
  - destruct (Z.ltb_spec (ar_balance r) amount); split; intros; try done; lia.
Qed.

(** A sum that overflows is refused: it reads as negative. *)
Lemma validate_sound r amount :
  in64 (ar_balance r) -> 0 <= ar_limit r <= MaxInt64 -> 0 < amount ->
  validateDebitBalanceOnly (accountFromGetAccountForUpdateRow r) amount = None -> may_debit r amount.
Proof.
  intros Hb Hl Ha Hv. destruct (Z.leb_spec (ar_balance r + ar_limit r) MaxInt64); [by apply validate_spec|].
  unfold may_debit, validateDebitBalanceOnly in *. simpl in *. destruct (Z.leb_spec amount 0); [lia|].
  destruct (ar_overdraft r); simpl in *.
  - destruct (Z.eqb_spec (ar_limit r) 0); [by left|]. right. destruct (Z.ltb_spec (wrap64 (ar_balance r + ar_limit r)) amount); [done|].
    assert (wrap64 (ar_balance r + ar_limit r) = ar_balance r + ar_limit r - two64) as E.
    { unfold wrap64, in64, MinInt64, MaxInt64, two63, two64 in *.
      rewrite <- (Z_mod_plus_full _ (-1)), Z.mod_small; lia. }
    unfold in64, MaxInt64, two64 in *. lia.
  - destruct (Z.ltb_spec (ar_balance r) amount); [done|lia].
Qed.

(** Reading an account leaves the clock alone. *)
Lemma getAccountTx_clock no w w' a :
  getAccountTx no w = (w', Ok a) -> w_clock w' = w_clock w /\ w_ticks w' = w_ticks w.
Proof.
  unfold getAccountTx, bind, or_norows, run, pop_fault.
  intros Hr. repeat case_match; simplify_eq/=; [done..|]. unfold ret in Hr. by simplify_eq/=.
Qed.

(** What the clock shows at its next reading. *)
Definition nextNow (w : World) : Time := w_clock w + hd 0 (w_ticks w).

(** The row a debit checks: the books that have run out are written off first. *)
Definition swept (no : string) (w : World) (r : AccountRow) : AccountRow :=
  if ar_book r then ar_set_balance (wrap64 (ar_balance r - expired_money no (dateOf (nextNow w)) (w_db w))) r else r.

(** A successful debit has passed the check on the row it then moved. *)
Lemma debit_checked txn no amount w w' u :
  applyAccountDebitTx txn no amount w = (w', Ok u) -> Inv (w_db w) -> fits (w_db w) ->
  0 < amount /\ exists d1 r, Inv d1 /\ Moved txn no (- amount) d1 (w_db w') /\
    accounts d1 !! no = Some r /\ validateDebitBalanceOnly (accountFromGetAccountForUpdateRow r) amount = None /\
    exists r0, accounts (w_db w) !! no = Some r0 /\ r = swept no w r0.
Proof.
  unfold applyAccountDebitTx. destruct (_ || _) eqn:E0; [by intros; steps|]. bools. intros Hr HI Hfit.
  split; [done|].
  apply bind_ok in Hr as (w1 & a & Hget & Hr). pose proof (getAccountTx_clock _ _ _ _ Hget) as [Hck Htk].
  apply getAccountTx_reads in Hget as (Hd1 & Hn1 & Hrd); [|by apply Inv_acc]. rewrite <- Hd1 in *.
  pose proof Hrd as (r0 & Hacc0 & Har0). rewrite Hn1 in Hacc0.
  destruct (BookEnabled a) eqn:Hbe.
  2:{ exists (w_db w1), r0. split; [done|].
      split; [rewrite <- Hn1; by eapply debitPlain_moved|]. split; [done|]. rewrite <- Har0.
      unfold debitPlain in Hr. apply bind_ok in Hr as (w2 & [] & [_ Hv]%failing_ok & _). split; [done|].
      exists r0. split; [done|]. unfold swept. rewrite Har0 in Hbe. simpl in Hbe. by rewrite Hbe. }
  apply bind_ok in Hr as (w2 & now & Hnow & Hr). pose proof (timeNow_ok _ _ _ Hnow) as [Hd2 _]. rewrite <- Hd2 in *.
  assert (now = nextNow w) as -> by (unfold timeNow in Hnow; unfold nextNow; simplify_eq/=; congruence).
  apply bind_ok in Hr as (w3 & [] & Hsw & Hr).
  destruct (sweep_ok _ _ _ _ _ Hsw HI Hfit Hrd) as (HI3 & _ & _ & HB).
  assert (ar_book r0 = true) as Hrb by (rewrite Har0 in Hbe; done).
  rewrite Hn1 in HB. specialize (HB r0 Hacc0 Hrb).
  apply bind_ok in Hr as (w4 & a' & Hget & Hr).
  apply getAccountTx_reads in Hget as (Hd4 & Hn & Hrd'); [|by apply Inv_acc]. rewrite <- Hd4 in *.
  pose proof Hrd' as (r' & Hacc' & Har'). rewrite Hn in Hacc'.
  assert (r' = swept no w r0) as Es.
  { unfold swept. rewrite Hrb, <- Hd1. unfold toPGDate in HB. congruence. }
  exists (w_db w4), r'. split; [done|]. split.
  - rewrite <- Hn. eapply debitBooks_moved; [exact Hr|lia|exact Hrd'|]. rewrite Har', Es. simpl. unfold swept. by rewrite Hrb.
  - split; [done|]. rewrite <- Har'. unfold debitBooks in Hr.
    apply bind_ok in Hr as (w5 & [] & [_ Hv]%failing_ok & _). split; [done|]. by exists r0.
Qed.


(** ** The outcome of a debit of a plain account *)

Lemma run_nofault {A} (q : Q A) w :
  w_faults w = [] ->
  run q w = match q (w_txnow w) (w_db w) with
            | Ok (d, a) => (with_db d (with_faults [] w), Ok a)
            | Err e => (with_faults [] w, Err e)
            end.
Proof. intros Hf. unfold run, pop_fault. rewrite Hf. simpl. by destruct (q _ _) as [|[]]. Qed.

Lemma getAccountTx_nofault no w r :
  w_faults w = [] -> accounts (w_db w) !! no = Some r ->
  getAccountTx no w = (with_faults [] w, Ok (accountFromGetAccountForUpdateRow r)).
Proof.
  intros Hf Hacc. unfold getAccountTx, bind, or_norows. rewrite run_nofault by done.
  unfold GetAccountForUpdateByNo, one. rewrite Hacc. reflexivity.
Qed.

Lemma bind_run {A B} (m : M A) (k : A -> M B) w w1 a : m w = (w1, Ok a) -> bind m k w = k a w1.
Proof. intros E. unfold bind. by rewrite E. Qed.
Lemma bind_err {A B} (m : M A) (k : A -> M B) w w1 e : m w = (w1, Err e) -> bind m k w = (w1, Err e).
Proof. intros E. unfold bind. by rewrite E. Qed.

Lemma isAccountNo_width no : isAccountNo no = true -> varchar 19 no = true.
Proof.
  unfold isAccountNo, digits_exactly, varchar. intros [Hlen _]%andb_true_iff. apply Z.eqb_eq in Hlen.
  apply Z.leb_le. pose proof (utf8_len_le no). lia.
Qed.

(** A debit of a plain account on a working connection is decided by the
    balance check alone: it succeeds exactly when the account may be debited
    by the amount, and then takes the amount from the balance and records it;
    otherwise it reports [ErrInsufficientBalance] and changes nothing. *)
Lemma plain_debit_decided txn no amount w r :
  w_faults w = [] -> accounts (w_db w) !! no = Some r -> ar_no r = no -> isAccountNo no = true ->
  ar_book r = false -> in64 (ar_balance r) -> 0 <= ar_limit r <= MaxInt64 ->
  ar_balance r + ar_limit r <= MaxInt64 -> 0 < amount ->
  exists w',
    (may_debit r amount /\ applyAccountDebitTx txn no amount w = (w', Ok tt) /\
       w_db w' = moved_db no (ar_set_balance (wrap64 (ar_balance r - amount)) r)
         (mkAccountChangeRow (Z.of_nat (length (account_changes (w_db w))) + 1) txn no (- amount) (ar_balance r)
            (wrap64 (ar_balance r - amount)) (w_txnow w))
         (books (w_db w)) (book_changes (w_db w)) (w_db w)) \/
    (~ may_debit r amount /\ applyAccountDebitTx txn no amount w = (w', Err ErrInsufficientBalance) /\
       w_db w' = w_db w).
Proof.
  intros Hf Hacc Hno Hdig Hbk Hin Hl Hsum Ha.
  assert (String.eqb no "" || (amount <=? 0) = false) as Hg.
  { apply orb_false_iff. split; [|by apply Z.leb_gt]. apply String.eqb_neq. by apply isAccountNo_trim in Hdig as [_ ?]. }
  pose proof (validate_spec r amount Hin Hl Ha Hsum) as Hval.
  unfold applyAccountDebitTx. rewrite Hg, (bind_run _ _ _ _ _ (getAccountTx_nofault _ _ _ Hf Hacc)).
  simpl. rewrite Hbk. unfold debitPlain.
  destruct (validateDebitBalanceOnly _ amount) as [e|] eqn:Ev.
  - assert (e = ErrInsufficientBalance) as ->.
    { revert Ev. unfold validateDebitBalanceOnly. repeat case_match; congruence. }
    eexists. right. split; [|split; [by apply bind_err|done]]. intros Hm%Hval. discriminate.
  - eexists. left. split; [by apply Hval|]. simpl. rewrite (bind_run _ _ _ (with_faults [] w) tt) by reflexivity.
    unfold bind. rewrite run_nofault by done. unfold InsertAccountChange. simpl. rewrite Hno, Hdig, (isAccountNo_width _ Hdig).
    simpl. rewrite run_nofault by done. split; [reflexivity|].
    simpl. unfold moved_db, set_accounts. simpl. by rewrite (LedgerProofs.alter_insert _ _ _ _ Hacc).
Qed.
End Debits.
