(* ===== verification/Refinement.v ===== *)
(** * The ledger the stages implement

    An ideal ledger: what every account holds, as an unbounded integer, the
    phase of every transaction, and what may still be refunded of it.  A
    committed stage is one action on it, perhaps after the write-off of
    expired books; anything else a stage does, the ledger does not see. *)

From S2P Require Import Prelude GoBase Domain Codes Store Queries Reads Ledger Repo Invariant Books LedgerProofs StageProofs.
From stdpp Require Import base gmap list strings.
From Stdlib Require Import ZArith Lia.

Local Open Scope string_scope.
Local Open Scope Z_scope.

(** ** The specification *)

Record ledger : Type := mkLedger {
  money : string -> Z;
  phase : UUID -> option string;
  room : UUID -> Z
}.

Definition put (no : string) (n : Z) (f : string -> Z) : string -> Z := fun k => f k + (if String.eqb no k then n else 0).
Definition assign {A} (u : UUID) (a : A) (f : UUID -> A) : UUID -> A := fun v => if u =? v then a else f v.

Inductive action : Type :=
| Expire (no wo : string) (n : Z)          (* expired money goes to the write-off account *)
| Pay (u : UUID) (no : string) (n : Z)     (* a transfer takes [n] from its payer *)
| PayBack (u o : UUID) (no : string) (n : Z)  (* a refund of [o] takes [n] from the receiver of [o] *)
| Receive (u : UUID) (no : string) (n : Z).

Inductive does : action -> ledger -> ledger -> Prop :=
| do_expire no wo n v L :
    0 < n -> phase L v = None ->
    does (Expire no wo n) L
      (mkLedger (put wo n (put no (- n) (money L))) (assign v (Some TxnStatusRecvSuccess) (phase L)) (room L))
| do_pay u no n L :
    0 < n -> phase L u = Some TxnStatusInit ->
    does (Pay u no n) L (mkLedger (put no (- n) (money L)) (assign u (Some TxnStatusPaySuccess) (phase L)) (room L))
| do_pay_back u o no n L :
    0 < n -> phase L u = Some TxnStatusInit -> phase L o = Some TxnStatusRecvSuccess -> n <= room L o ->
    does (PayBack u o no n) L
      (mkLedger (put no (- n) (money L)) (assign u (Some TxnStatusPaySuccess) (phase L))
         (assign o (room L o - n) (room L)))
| do_receive u no n L :
    0 < n -> phase L u = Some TxnStatusPaySuccess ->
    does (Receive u no n) L (mkLedger (put no n (money L)) (assign u (Some TxnStatusRecvSuccess) (phase L)) (room L)).

(** The action a stage of a transaction is. *)
Definition actionOf (expected : string) (t : TxnRow) : action :=
  let d := TrimSpace (coalesce (tr_debit t)) in
  let c := TrimSpace (coalesce (tr_credit t)) in
  if String.eqb expected TxnStatusInit then
    match tr_refund_of t with
    | Some o => if String.eqb (TrimSpace (tr_biz t)) BizTypeTransfer then Pay (tr_no t) d (tr_amount t)
                else PayBack (tr_no t) o d (tr_amount t)
    | None => Pay (tr_no t) d (tr_amount t)
    end
  else Receive (tr_no t) c (tr_amount t).

(** The tables hold the ledger: balances are [int64]s, so they agree with the
    ideal ones modulo 2^64. *)
Record holds (d : DB) (L : ledger) : Prop := {
  h_money : forall k, bal k d ≡64 money L k;
  h_phase : forall u, phase L u = tr_status <$> txns d !! u;
  h_room : forall u, room L u = default 0 (tr_refundable <$> txns d !! u)
}.

(** ** What stages append to the log *)

(** The same, with balances read off the log. *)
Record tracks (d : DB) (L : ledger) : Prop := {
  k_money : forall k, alog k (account_changes d) ≡64 money L k;
  k_phase : forall u, phase L u = tr_status <$> txns d !! u;
  k_room : forall u, room L u = default 0 (tr_refundable <$> txns d !! u)
}.

Lemma holds_tracks d L : Inv d -> holds d L <-> tracks d L.
Proof.
  intros HI. split; intros [Hm Hp Hr]; split; try done; intros k.
  - by rewrite <- (inv_alog _ HI k).
  - by rewrite (inv_alog _ HI k).
Qed.

(** One row of the log and one status. *)
Lemma tracks_step d d' L u t t' row :
  tracks d L -> txns d !! u = Some t -> txns d' = <[u := t']> (txns d) -> tr_refundable t' = tr_refundable t ->
  account_changes d' = (account_changes d ++ [row])%list ->
  tracks d' (mkLedger (put (ac_account row) (ac_delta row) (money L)) (assign u (Some (tr_status t')) (phase L)) (room L)).
Proof.
  intros [Hm Hp Hr] Ht Hts Hrf Hl. split; simpl.
  - intros k. rewrite Hl, alog_app, (Hm k). unfold put. apply eq64_of_eq. cbn. lia.
  - intros v. rewrite Hts. unfold assign. destruct (Z.eqb_spec u v) as [<-|Hne]; [by rewrite lookup_insert_eq|].
    by rewrite lookup_insert_ne.
  - intros v. rewrite Hts, Hr. destruct (decide (v = u)) as [->|Hne]; [|by rewrite lookup_insert_ne].
    rewrite lookup_insert_eq, Ht. simpl. congruence.
Qed.

(** A write-off is an action, or none. *)
Lemma expired_sim no d d' L :
  tracks d L -> Expired no d d' ->
  exists L', tracks d' L' /\ room L' = room L /\
    forall f, let Lf := mkLedger (money L) (phase L) f in let Lf' := mkLedger (money L') (phase L') f in
      Lf' = Lf \/ exists wo n, does (Expire no wo n) Lf Lf'.
Proof.
  intros [Hm Hp Hr] [[Ht Hl]|(v & t & n & r1 & r2 & Hn & Hv & Ht & Hs & Hrf & Hl & H1 & H2 & H3)].
  - exists L. split; [split; [by rewrite Hl|by rewrite Ht..]|]. split; [done|]. intros f. by left.
  - exists (mkLedger (put (ac_account r2) n (put no (- n) (money L))) (assign v (Some TxnStatusRecvSuccess) (phase L)) (room L)).
    split; [|split; [done|]].
    + split; simpl.
      * intros k. rewrite Hl, alog_app, (Hm k). unfold put. apply eq64_of_eq. cbn. rewrite H1, H2, H3. lia.
      * intros u. rewrite Ht. unfold assign. destruct (Z.eqb_spec v u) as [<-|Hne]; [|by rewrite lookup_insert_ne].
        rewrite lookup_insert_eq. simpl. by rewrite Hs.
      * intros u. rewrite Ht, Hr. destruct (decide (u = v)) as [->|Hne]; [|by rewrite lookup_insert_ne].
        by rewrite lookup_insert_eq, Hv.
    + intros f. right. exists (ac_account r2), n. apply (do_expire no _ n v (mkLedger (money L) (phase L) f)); [done|].
      simpl. by rewrite Hp, Hv.
Qed.

Lemma Expired_keeps no d d' (u : UUID) t : Expired no d d' -> txns d !! u = Some t -> txns d' !! u = Some t.
Proof.
  intros [[-> _]|(v & x & n & r1 & r2 & _ & Hv & -> & _)] Hu; [done|]. rewrite lookup_insert_ne; [done|congruence].
Qed.

Section Stage.
Context `{Platform} `{CodeProvider}.

Lemma decrease_effect amount o m w w' u :
  decreaseOriginTx amount o m w = (w', Ok u) ->
  exists r now, txns (w_db w) !! o = Some r /\ tr_status r = TxnStatusRecvSuccess /\ amount <= tr_refundable r /\
    tr_biz r = BizTypeTransfer /\
    w_db w' = set_txns (<[o := tr_set_refundable (tr_refundable r - amount) now r]> (txns (w_db w))) (w_db w).
Proof.
  unfold decreaseOriginTx. intros Hr. apply attempt_bind_ok in Hr as (w1 & [e|v] & Hq & Hr).
  { destruct (errors_is e ErrNoRows); by steps. }
  apply ret_ok in Hr as [-> _]. apply run_Ok in Hq as [Hq _]. unfold DecreaseOriginTxnRefundableIfValid in Hq.
  destruct (txns (w_db w) !! o) as [r|] eqn:Ho; [|done]. destruct (_ && _) eqn:Ec; [|done]. bools.
  destruct (bigintAdd _ _) as [|z] eqn:Ez; [done|]. apply bigintAdd_ok in Ez as [-> _].
  destruct (updateTxn _ _ _) as [|[d1 b]] eqn:Eu; [done|]. simplify_eq.
  apply updateTxn_ok in Eu. rewrite Ho in Eu. destruct Eu as (Hd1 & _ & _).
  eexists r, _. repeat split; try done; exact Hd1.
Qed.

Lemma Moved_row txn no delta d d' :
  Moved txn no delta d d' -> txns d' = txns d /\
  exists row, account_changes d' = (account_changes d ++ [row])%list /\ ac_account row = no /\ ac_delta row = delta.
Proof. intros [(a & row & bs & l & _ & -> & _ & Hn & Hd & _)]. split; [done|]. by exists row. Qed.

(** The transactions a debit starts from: those of the tables, a refund's
    origin having given up the amount. *)
Definition debited (t : TxnRow) (d : DB) (a : action) (ts : gmap UUID TxnRow) : Prop :=
  (ts = txns d /\ a = Pay (tr_no t) (TrimSpace (coalesce (tr_debit t))) (tr_amount t)) \/
  exists o r now, a = PayBack (tr_no t) o (TrimSpace (coalesce (tr_debit t))) (tr_amount t) /\
    txns d !! o = Some r /\ tr_status r = TxnStatusRecvSuccess /\ tr_amount t <= tr_refundable r /\
    ts = <[o := tr_set_refundable (tr_refundable r - tr_amount t) now r]> (txns d).

Lemma stageDebit_effect t w w' u (d := TrimSpace (coalesce (tr_debit t))) :
  stageDebit t d (TrimSpace (coalesce (tr_credit t))) w = (w', Ok u) -> Inv (w_db w) -> fits (w_db w) ->
  txns (w_db w) !! tr_no t = Some t ->
  exists ts d1 row, debited t (w_db w) (actionOf TxnStatusInit t) ts /\
    Expired d (set_txns ts (w_db w)) d1 /\ txns (w_db w') = txns d1 /\
    account_changes (w_db w') = (account_changes d1 ++ [row])%list /\ ac_account row = d /\ ac_delta row = - tr_amount t.
Proof.
  unfold stageDebit, actionOf. intros Hr HI Hfit Ht. rewrite String.eqb_refl. fold d.
  destruct (String.eqb (TrimSpace (tr_biz t)) _) eqn:Eb.
  - destruct (String.eqb d ""); [by steps|]. apply debit_ok in Hr as (_ & d1 & HI1 & HE & HX & HM); [|done..].
    apply Moved_row in HM as (Hts & row & Hl & Hn & Hd). exists (txns (w_db w)), d1, row.
    split; [left; split; [done|by destruct (tr_refund_of t)]|]. split; [|done]. by destruct (w_db w).
  - destruct (tr_refund_of t) as [o|] eqn:Eo; [|by steps].
    apply bind_ok in Hr as (w1 & [] & Hdec & Hr). destruct (_ || _); [by steps|].
    pose proof (inv_amount _ HI _ _ Ht) as Hpos. destruct (decrease_ok _ _ _ _ _ _ Hdec HI Hpos) as [HI1 _].
    apply decrease_effect in Hdec as (r & now & Hr1 & Hrs & Hle & _ & Hd1).
    assert (TrimSpace d = d) as Htrim by apply TrimSpace_idem. rewrite Htrim in Hr.
    apply debit_ok in Hr as (_ & d1 & HI2 & HE & HX & HM); [|done|by rewrite Hd1].
    apply Moved_row in HM as (Hts & row & Hl & Hn & Hd). eexists _, d1, row.
    split; [right; by exists o, r, now|]. rewrite <- Hd1. done.
Qed.

(** ** The simulation *)

(** [L] gets to [L'] by the action, expired money of [no] written off first if
    there is any. *)
Definition after (no : string) (a : action) (L L' : ledger) : Prop :=
  exists L1, (L1 = L \/ exists wo n, does (Expire no wo n) L L1) /\ does a L1 L'.

Lemma debit_sim t ts d d1 d' L no row t' :
  tracks d L -> txns d !! tr_no t = Some t -> tr_status t = TxnStatusInit -> 0 < tr_amount t ->
  no = TrimSpace (coalesce (tr_debit t)) ->
  debited t d (actionOf TxnStatusInit t) ts -> Expired no (set_txns ts d) d1 ->
  txns d' = <[tr_no t := t']> (txns d1) -> t' = tr_set_status TxnStatusPaySuccess None None (tr_updated t') t ->
  account_changes d' = (account_changes d1 ++ [row])%list -> ac_account row = no -> ac_delta row = - tr_amount t ->
  exists L', tracks d' L' /\ after no (actionOf TxnStatusInit t) L L'.
Proof.
  intros HL Ht Hst Hpos Hno Hd HX Hts Ht' Hl Ha Hdel.
  assert (Hroom : tr_refundable t' = tr_refundable t /\ tr_status t' = TxnStatusPaySuccess) by (by rewrite Ht').
  destruct Hroom as [Hrf Hst']. destruct HL as [Hm Hp Hr]. destruct Hd as [[-> Hact]|(o & r & now & Hact & Ho & Hos & Hle & ->)].
  - assert (tracks (set_txns (txns d) d) L) as HL by by destruct d.
    destruct (expired_sim _ _ _ _ HL HX) as (L1 & HL1 & HR1 & Hexp). specialize (Hexp (room L)).
    apply (Expired_keeps _ _ _ (tr_no t) t) in HX; [|done].
    eexists. split; [by eapply (tracks_step d1 d' L1 (tr_no t) t t' row)|].
    exists L1. split; [|].
    + destruct L, L1. simpl in *. subst. exact Hexp.
    + rewrite Hact, Ha, Hdel, Hst', <- Hno. apply do_pay; [done|]. by rewrite (k_phase _ _ HL1), HX, <- Hst.
  - assert (o <> tr_no t) as Hne by (intros ->; simplify_eq; rewrite Hst in Hos; discriminate).
    set (f := assign o (room L o - tr_amount t) (room L)).
    assert (tracks (set_txns (<[o:=tr_set_refundable (tr_refundable r - tr_amount t) now r]> (txns d)) d)
              (mkLedger (money L) (phase L) f)) as HL.
    { split; simpl; [done| |]; intros v; unfold f, assign; rewrite ?Hp, ?Hr; destruct (decide (v = o)) as [->|Hv];
        rewrite ?lookup_insert_eq, ?lookup_insert_ne, ?Ho, ?Z.eqb_refl by done; try done.
      by rewrite (proj2 (Z.eqb_neq o v)). }
    destruct (expired_sim _ _ _ _ HL HX) as (L1 & HL1 & HR1 & Hexp). specialize (Hexp (room L)). simpl in *.
    pose proof (Expired_keeps _ _ _ (tr_no t) t HX) as Hu. simpl in Hu. rewrite lookup_insert_ne in Hu by done.
    specialize (Hu Ht). pose proof (Expired_keeps _ _ _ o _ HX (lookup_insert_eq _ _ _)) as Hu2. simpl in Hu2.
    exists (mkLedger (put no (- tr_amount t) (money L1)) (assign (tr_no t) (Some TxnStatusPaySuccess) (phase L1)) f).
    split.
    + rewrite <- Ha, <- Hdel, <- Hst', <- HR1. by eapply (tracks_step d1 d' L1 (tr_no t) t t' row).
    + exists (mkLedger (money L1) (phase L1) (room L)). split; [by destruct L|].
      rewrite Hact, <- Hno. apply (do_pay_back _ _ _ _ (mkLedger (money L1) (phase L1) (room L))); simpl; [done|..].
      * by rewrite (k_phase _ _ HL1), Hu, <- Hst.
      * rewrite (k_phase _ _ HL1), Hu2. simpl. by rewrite Hos.
      * by rewrite Hr, Ho.
Qed.

Lemma updateStatus_row st u now d d' x t :
  UpdateTransferTxnStatusByUUID st None None u now d = Ok (d', x) -> txns d !! u = Some t ->
  txns d' = <[u := tr_set_status st None None now t]> (txns d) /\ account_changes d' = account_changes d.
Proof. intros Hq Ht. by rewrite (updateStatus_ok _ _ _ _ _ _ _ Hq Ht). Qed.

(** The work of a stage is its action. *)
Lemma stageWork_sim t e w w' next L :
  stageWork t e (TrimSpace (coalesce (tr_debit t))) (TrimSpace (coalesce (tr_credit t))) w = (w', Ok next) ->
  Inv (w_db w) -> fits (w_db w) -> txns (w_db w) !! tr_no t = Some t -> tr_status t = e -> tracks (w_db w) L ->
  exists L', tracks (w_db w') L' /\ after (TrimSpace (coalesce (tr_debit t))) (actionOf e t) L L'.
Proof.
  unfold stageWork. intros Hr HI Hfit Ht Hst HL. pose proof (inv_amount _ HI _ _ Ht) as Hpos.
  destruct (String.eqb_spec e TxnStatusInit) as [->|Hne].
  { apply bind_ok in Hr as (w1 & [] & Hd & Hr). apply bind_ok in Hr as (w2 & [] & [Hu _]%run_Ok & [-> _]%ret_ok).
    apply stageDebit_effect in Hd as (ts & d1 & row & Hdeb & HX & Hts & Hl & Ha & Hn); [|done..].
    assert (txns (w_db w1) !! tr_no t = Some t) as Ht1.
    { rewrite Hts. apply (Expired_keeps _ _ _ _ _ HX). simpl.
      destruct Hdeb as [[-> _]|(o & r & now & _ & Ho & Hos & _ & ->)]; [done|].
      rewrite lookup_insert_ne; [done|]. intros ->. simplify_eq. rewrite Hst in Hos. discriminate. }
    destruct (updateStatus_row _ _ _ _ _ _ _ Hu Ht1) as [Hts2 Hl2].
    eapply (debit_sim t ts _ d1 _ L _ row); try done; [by rewrite Hts2, Hts|done|by rewrite Hl2]. }
  destruct (String.eqb_spec e TxnStatusPaySuccess) as [->|]; [|by steps].
  apply bind_ok in Hr as (w1 & [] & Hc & Hr). apply bind_ok in Hr as (w2 & [] & [Hu _]%run_Ok & Hr).
  apply bind_ok in Hr as (w3 & [] & [ob Hob]%insertOutbox_ok & [-> _]%ret_ok).
  apply stageCredit_ok, Moved_row in Hc as (Hts & row & Hl & Ha & Hn); [|done].
  assert (txns (w_db w1) !! tr_no t = Some t) as Ht1 by congruence.
  destruct (updateStatus_row _ _ _ _ _ _ _ Hu Ht1) as [Hts2 Hl2].
  eexists. split.
  - eapply (tracks_step (w_db w) (w_db w3) L (tr_no t) t _ row HL Ht).
    + rewrite Hob. simpl. by rewrite Hts2, Hts.
    + done.
    + rewrite Hob. simpl. by rewrite Hl2.
  - exists L. split; [by left|]. simpl. rewrite Ha, Hn. unfold actionOf. simpl. apply do_receive; [done|].
    by rewrite (k_phase _ _ HL), Ht, <- Hst.
Qed.

(** [C4] Refinement.  Let the tables hold an ideal ledger.  However
    [ApplyTxnStage] is called and whatever the connection does, the tables
    afterwards hold the same ledger, and then the caller is not told that the
    stage was applied; or they hold what the ledger becomes by the stage's own
    action (paying, paying back or receiving the amount of that transaction,
    at its own account), at most preceded by the write-off of money that had
    expired in the payer's books. *)
Theorem stage_refines txnNo expected w w' res oe L :
  Inv (w_db w) -> fits (w_db w) -> holds (w_db w) L ->
  ApplyTxnStage txnNo expected w = (w', (res, oe)) ->
  (holds (w_db w') L /\ (oe = None -> Applied res = false)) \/
  exists t L', castUUID txnNo = Ok (Some (tr_no t)) /\ txns (w_db w) !! tr_no t = Some t /\ tr_status t = expected /\
    after (TrimSpace (coalesce (tr_debit t))) (actionOf expected t) L L' /\ holds (w_db w') L' /\ Applied res = true.
Proof.
  intros HI Hfit HL Hr. pose proof (ApplyTxnStage_inv _ _ _ _ _ _ HI Hfit Hr) as HI'.
  apply withTxE_inv in Hr as [[Hd Hoe]|(w1 & w2 & Hd & Hb & Hd' & _)]; [left; rewrite Hd; by split|].
  rewrite <- Hd in *. rewrite Hd' in *.
  destruct (stageBody_work _ _ _ _ _ Hb HI) as (t & Hc & Ht & [(Happ & -> & _)|(Happ & Hst & w3 & Hd3 & Ew)]); [by left|].
  right. rewrite <- Hd3 in *. apply (holds_tracks _ _ HI) in HL.
  destruct (stageWork_sim _ _ _ _ _ _ Ew HI Hfit Ht Hst HL) as (L' & HL' & Hafter).
  exists t, L'. do 4 (split; [done|]). split; [by apply holds_tracks|done].
Qed.
End Stage.
