(* ===== verification/Calls.v ===== *)
(** * Every call that writes, from what its statements do

    Given a preorder on tables that every statement respects ([Statements]),
    so does every call of the repository and of the services: the composition
    is done once, and [Grow] and [Settled] only look at statements.  The one
    statement that inserts into the outbox, and secret rotation, are
    hypotheses of the calls that use them; the statements of the console on
    its own tables are the class [ConsoleStatements]. *)

From S2P Require Import Prelude GoBase Domain Codes Store Queries Reads Secrets Ledger Repo AdminRepo Via AdminGrow Services Invariant Books LedgerProofs StageProofs.
From stdpp Require Import base gmap list strings.
From Stdlib Require Import ZArith Lia.

Local Open Scope string_scope.
Local Open Scope Z_scope.

(** ** Statements *)

Class Statements `{Platform} (RD : DB -> DB -> Prop) : Prop := {
  st_order :: PreOrder RD;
  st_CreateAccount : forall p, viaQ RD (Queries.CreateAccount p);
  st_UpdateAccountBalance : forall v no, viaQ RD (UpdateAccountBalance v no);
  st_Capabilities : forall x y z no, viaQ RD (Queries.UpdateAccountCapabilities x y z no);
  st_TryCredit : forall n no, viaQ RD (TryCreditAccountBalanceNonBookRefund n no);
  st_Upsert : forall b no e n, viaQ RD (UpsertAccountBookBalance b no e n);
  st_Batch : forall nos ds, viaQ RD (BatchUpdateAccountBookBalances nos ds);
  st_AccountChange : forall p, viaQ RD (InsertAccountChange p);
  st_BookChange : forall p, viaQ RD (InsertAccountBookChange p);
  st_CreateMerchant : forall id no nm b r w, viaQ RD (Queries.CreateMerchant id no nm b r w);
  st_Writeoff : forall w no, viaQ RD (UpdateMerchantWriteoffAccountNo w no);
  st_updateFeatures : forall no a c, viaQ RD (Repository.updateFeatures no a c);
  st_CreateCustomer : forall id no m u x, viaQ RD (Queries.CreateCustomer id no m u x);
  st_SetDefault : forall o m c, viaQ RD (SetCustomerDefaultAccountIfEmpty o m c);
  st_CreateTransferTxn : forall p, viaQ RD (Queries.CreateTransferTxn p);
  st_UpdateStatus : forall st c m no, viaQ RD (Queries.UpdateTransferTxnStatus st c m no);
  st_UpdateStatusByUUID : forall st c m u, viaQ RD (UpdateTransferTxnStatusByUUID st c m u);
  st_UpdateStatusFrom : forall st c m no from, viaQ RD (UpdateTransferTxnStatusFrom st c m no from);
  st_Parties : forall a b no, viaQ RD (Queries.UpdateTransferTxnParties a b no);
  st_DecreaseOrigin : forall n o m, viaQ RD (DecreaseOriginTxnRefundableIfValid n o m);
  st_TryDecrease : forall n no, viaQ RD (Queries.TryDecreaseTxnRefundable n no);
  st_UpsertWebhook : forall m u e, viaQ RD (Queries.UpsertWebhookConfig m u e);
  st_claim : forall p t0 n, viaQ RD (claimOutbox p t0 n);
  st_claimByTxn : forall no t0 n, viaQ RD (Reads.ClaimDueOutboxEventsByTxnNo no t0 n);
  st_MarkSuccess : forall e, viaQ RD (Reads.MarkOutboxEventSuccess e);
  st_MarkRetry : forall n next dead e, viaQ RD (Reads.MarkOutboxEventRetry n next dead e)
}.

#[export] Hint Resolve st_CreateAccount st_UpdateAccountBalance st_Capabilities st_TryCredit st_Upsert st_Batch
  st_AccountChange st_BookChange st_CreateMerchant st_Writeoff st_updateFeatures st_CreateCustomer
  st_SetDefault st_CreateTransferTxn st_UpdateStatus st_UpdateStatusByUUID st_UpdateStatusFrom
  st_Parties st_DecreaseOrigin st_TryDecrease st_UpsertWebhook st_claim st_claimByTxn st_MarkSuccess
  st_MarkRetry : coin.

Lemma Statements_mono `{Platform} (RD RD' : DB -> DB -> Prop) `{!PreOrder RD'} :
  (forall d d', RD d d' -> RD' d d') -> Statements RD -> Statements RD'.
Proof.
  intros Hi HS.
  assert (forall A (q : Q A), viaQ RD q -> viaQ RD' q) as Hq by (intros A q Hv t d d' a E; eapply Hi, Hv, E).
  destruct HS. split; try done; intros; apply Hq; auto.
Qed.

(** Takes apart a statement on the tables of the ledger. *)
Ltac ledger_statement :=
  intros ? ? ? ? ?;
  unfold Queries.CreateAccount, UpdateAccountBalance, Queries.UpdateAccountCapabilities,
    TryCreditAccountBalanceNonBookRefund, UpsertAccountBookBalance, BatchUpdateAccountBookBalances,
    InsertAccountChange, InsertAccountBookChange, Queries.CreateMerchant, UpdateMerchantWriteoffAccountNo,
    Repository.updateFeatures, Queries.CreateCustomer, SetCustomerDefaultAccountIfEmpty, Queries.CreateTransferTxn,
    Queries.UpdateTransferTxnStatus, UpdateTransferTxnStatusByUUID, UpdateTransferTxnStatusFrom,
    Queries.UpdateTransferTxnParties, DecreaseOriginTxnRefundableIfValid, Queries.TryDecreaseTxnRefundable,
    Queries.UpsertWebhookConfig, Reads.ClaimDueOutboxEventsByTxnNo, claimOutbox, Reads.MarkOutboxEventSuccess,
    Reads.MarkOutboxEventRetry, updateOutbox in *;
  repeat first [progress unfold guardQ, updateTxn in * | case_match]; simplify_eq; reflexivity.

(** None of them looks at the tables of the console. *)
Definition same_admin (d d' : DB) : Prop := admin d' = admin d.
#[export] Instance same_admin_preorder : PreOrder same_admin.
Proof. split; [done|]. intros x y z. unfold same_admin. congruence. Qed.
#[export] Instance ledger_admin `{Platform} : Statements same_admin.
Proof. split; intros; [apply _|ledger_statement..]. Qed.

(** What the console does to its own tables. *)
Class ConsoleStatements (RD : DB -> DB -> Prop) : Prop := {
  st_admin : forall d a, admin_grows (admin d) a -> RD d (set_admin a d)
}.

Lemma st_console RD `{!ConsoleStatements RD} {A} (q : Q A) : viaQ console_only q -> viaQ RD q.
Proof. intros Hq t d d' a (x & -> & Hx)%Hq. by apply st_admin. Qed.

(** ** Calls *)

Section NewCodes.
Context `{Platform} `{CodeProvider}.

Lemma keeps_NewAccountNo m t : keeps (NewAccountNo m t).
Proof. intros w. by destruct (NewAccountNo_frame m t w) as [-> _]. Qed.
Lemma keeps_NewCustomerNo : keeps NewCustomerNo.
Proof. intros w. by destruct (NewCustomerNo_frame w) as [-> _]. Qed.
Lemma keeps_NewMerchantNo : keeps NewMerchantNo.
Proof. intros w. by destruct (NewMerchantNo_frame w) as [-> _]. Qed.
End NewCodes.

#[export] Hint Resolve keeps_NewAccountNo keeps_NewCustomerNo keeps_NewMerchantNo : coin.

Section Calls.
Context `{Platform} `{CodeProvider} (RD : DB -> DB -> Prop) {St : Statements RD}.

Lemma via_createAccount a : via RD (createAccount a).
Proof. unfold createAccount. via_. Qed.
Lemma via_failing o : via RD (failing o).
Proof. unfold failing. via_. Qed.
Lemma via_creditBook no e : via RD (creditBook no e).
Proof. unfold creditBook. via_. Qed.
Hint Resolve via_createAccount via_failing via_creditBook : coin.

Lemma via_creditAccount txn a n t : via RD (applyAccountCreditWithAccountTx txn a n t).
Proof. unfold applyAccountCreditWithAccountTx. via_. Qed.
Lemma via_getAccountTx no : via RD (getAccountTx no).
Proof. unfold getAccountTx. via_. Qed.
Hint Resolve via_creditAccount via_getAccountTx : coin.

Lemma via_ensureWriteoff m : via RD (ensureMerchantWriteoffAccountTx m).
Proof. unfold ensureMerchantWriteoffAccountTx. via_. Qed.
Hint Resolve via_ensureWriteoff : coin.

Lemma via_sweep a now : via RD (sweepExpiredBooksTx a now).
Proof. unfold sweepExpiredBooksTx. via_. Qed.
Lemma via_debitBooks txn a n : via RD (debitBooks txn a n).
Proof. unfold debitBooks, insertBookChanges. via_. Qed.
Lemma via_debitPlain txn a n : via RD (debitPlain txn a n).
Proof. unfold debitPlain. via_. Qed.
Hint Resolve via_sweep via_debitBooks via_debitPlain : coin.

Lemma via_debit txn no n : via RD (applyAccountDebitTx txn no n).
Proof. unfold applyAccountDebitTx. via_. Qed.
Lemma via_planParts e no parts s : via RD (planParts e no parts s).
Proof. revert s. induction parts as [|p l IH]; intros s; simpl; via_. Qed.
Hint Resolve via_debit via_planParts : coin.

Lemma via_parts txn a n parts e : via RD (applyBookCreditPartsTx txn a n parts e).
Proof. unfold applyBookCreditPartsTx, insertPlanned, upsertPlanned. via_. Qed.
Lemma via_buildTransfer txn no n : via RD (buildTransferBookCreditParts txn no n).
Proof. apply (thruM_keeps _), keeps_buildTransfer. Qed.
Lemma via_buildRefund r o m n : via RD (buildRefundBookCreditParts r o m n).
Proof. apply (thruM_keeps _), keeps_buildRefund. Qed.
Hint Resolve via_parts via_buildTransfer via_buildRefund : coin.

Lemma via_transferCredit txn d c s n t : via RD (applyTransferCreditTx txn d c s n t).
Proof. unfold applyTransferCreditTx. via_. Qed.
Lemma via_refundCredit txn c n o m : via RD (applyRefundCreditTx txn c n o m).
Proof. unfold applyRefundCreditTx. via_. Qed.
Lemma via_classify o m n : via RD (classifyOriginRefundDecreaseMiss o m n).
Proof. unfold classifyOriginRefundDecreaseMiss. via_. Qed.
Hint Resolve via_transferCredit via_refundCredit via_classify : coin.

Lemma via_decreaseOrigin n o m : via RD (decreaseOriginTx n o m).
Proof. unfold decreaseOriginTx. via_. Qed.
Lemma via_stageAccount a b : via RD (stageAccount a b).
Proof. unfold stageAccount. via_. Qed.
Hint Resolve via_decreaseOrigin via_stageAccount : coin.

(** ** Stages *)

Lemma viaQ_stage no : viaQ RD (GetTransferTxnStageForUpdate no).
Proof. apply (viaQ_pure _), pure_stage. Qed.
Hint Resolve viaQ_stage : coin.

Lemma via_stageDebit t d c : via RD (stageDebit t d c).
Proof. unfold stageDebit. via_. Qed.
Lemma via_stageCredit t d c : via RD (stageCredit t d c).
Proof. unfold stageCredit. via_. Qed.
Hint Resolve via_stageDebit via_stageCredit : coin.

Section Outbox.
Context (Hob : forall e u m o s wm, viaQ RD (InsertOutboxEvent e u m o s wm)).

Lemma via_insertOutbox u m o : via RD (insertOutboxEventTx u m o).
Proof. unfold insertOutboxEventTx. apply (via_run _), Hob. Qed.
Hint Resolve via_insertOutbox : coin.

Lemma via_stageWork t e d c : via RD (stageWork t e d c).
Proof. unfold stageWork. via_. Qed.

(** Of a stage's body only the runs that commit count. *)
Lemma via_ApplyTxnStage no e w : onDB RD w (ApplyTxnStage no e w).1.
Proof.
  apply (via_withTxE RD). intros w1 w2 r Hd. rewrite <- Hd. unfold stageBody.
  pose proof (thruM_or_norows _ ErrTxnNotFound _ (via_run RD _ (viaQ_stage no)) w1 : RD _ _) as Hg.
  destruct (or_norows _ _ w1) as [w3 [er|t]]; simpl in *; [done|].
  destruct (_ && _); [by intros [= <- _]|]. destruct (negb _); [by intros [= <- _]|].
  pose proof (via_stageWork t e (TrimSpace (coalesce (tr_debit t))) (TrimSpace (coalesce (tr_credit t))) w3 : RD _ _)
    as Hw.
  destruct (stageWork _ _ _ _ _) as [w4 []]; simpl in *; [done|]. intros [= <- _]. by etrans.
Qed.

Lemma via_ApplyTransferCreditStage no c n : via RD (ApplyTransferCreditStage no c n).
Proof. unfold ApplyTransferCreditStage. via_. Qed.
Lemma via_ApplyRefundCreditStage no c n : via RD (ApplyRefundCreditStage no c n).
Proof. unfold ApplyRefundCreditStage. via_. Qed.
End Outbox.

Lemma via_ApplyTransferDebitStage no d n : via RD (ApplyTransferDebitStage no d n).
Proof. unfold ApplyTransferDebitStage.  via_. Qed.
Lemma via_ApplyRefundDebitStage no n : via RD (ApplyRefundDebitStage no n).
Proof. unfold ApplyRefundDebitStage.  via_. Qed.

(** ** The services *)

Lemma via_require {A} e (m : M (option A)) : via RD m -> via RD (require e m).
Proof. intros Hm. unfold require. via_. Qed.
Lemma via_withCode {A} s (m : M A) : via RD m -> via RD (withCode s m).
Proof. intros Hm. unfold withCode. via_. Qed.
Hint Resolve via_require via_withCode : coin.

Lemma via_GetMerchant m : via RD (Repository.GetMerchantByNo m).
Proof. unfold Repository.GetMerchantByNo. via_. Qed.
Lemma via_GetAccount m : via RD (Repository.GetAccount m).
Proof. unfold Repository.GetAccount. via_. Qed.
Lemma via_GetCustomer m u : via RD (Repository.GetCustomerByOutUserID m u).
Proof. unfold Repository.GetCustomerByOutUserID. via_. Qed.
Lemma via_GetTxn m : via RD (Repository.GetTransferTxn m).
Proof. unfold Repository.GetTransferTxn, GetTransferTxnByNo. via_. Qed.
Lemma via_GetAccountByCustomer m c : via RD (Repository.GetAccountByCustomerNo m c).
Proof. unfold Repository.GetAccountByCustomerNo. via_. Qed.
Lemma via_loadFeatures m : via RD (loadMerchantFeatureConfig m).
Proof. unfold loadMerchantFeatureConfig, Repository.GetMerchantFeatureConfig. via_. Qed.
Hint Resolve via_GetMerchant via_GetAccount via_GetCustomer via_GetTxn via_GetAccountByCustomer
  via_loadFeatures : coin.

Lemma via_retry n m c : via RD (createAccountRetry n m c).
Proof. induction n; simpl; [by apply (thruM_keeps _)|]. unfold Repository.CreateAccount. via_. Qed.
Hint Resolve via_retry : coin.
Lemma via_ensureDefault m c : via RD (ensureDefaultCustomerAccount m c).
Proof. unfold ensureDefaultCustomerAccount. via_. Qed.
Lemma via_NewUUID : via RD NewUUIDv7.
Proof. apply (thruM_keeps _), keeps_NewUUIDv7. Qed.
Hint Resolve via_ensureDefault via_NewUUID : coin.
Lemma via_createCustomerOnly m u : via RD (createCustomerOnly m u).
Proof. unfold createCustomerOnly, Repository.CreateCustomer. via_. Qed.
Hint Resolve via_createCustomerOnly : coin.

Lemma via_CreateMerchant no name : via RD (CreateMerchant no name).
Proof. unfold CreateMerchant, Repository.CreateMerchantWithAccounts, Repository.createMerchant. via_. Qed.
Lemma via_Submit req : via RD (Submit req).
Proof.
  unfold Submit, refundParties, validateSubmitRefundAccounts, validateSubmitTransferAccounts, submitAccounts,
    Repository.CreateTransferTxn. via_.
Qed.

Lemma via_CreateCustomer m u : via RD (CreateCustomer m u).
Proof. unfold CreateCustomer. via_. Qed.
Lemma via_EnsureCustomer m u : via RD (EnsureCustomerAccountForCredit m u).
Proof. unfold EnsureCustomerAccountForCredit. via_. Qed.
End Calls.
