(* ===== verification/Grow.v ===== *)
(** * Nothing is deleted or rewritten

    A preorder on databases that every statement of the program respects:
    the two change logs only grow at their end, no account, book,
    transaction, merchant or customer disappears, and the terms of each stay
    as they were created.  It composes over the monad, so it holds of every
    call, whatever it returns. *)

From S2P Require Import Prelude GoBase Domain Codes Store Queries Reads Secrets Ledger Repo Via AdminGrow Calls Books LedgerProofs.
From stdpp Require Import base gmap list strings list_numbers.
From Stdlib Require Import ZArith Lia.

Local Open Scope string_scope.
Local Open Scope Z_scope.

(** ** What stays of a row *)

Definition account_terms (a : AccountRow) :=
  (ar_no a, ar_merchant a, ar_customer a, ar_type a, ar_overdraft a, ar_limit a, ar_book a).
Definition txn_terms (t : TxnRow) :=
  (tr_no t, tr_merchant t, tr_out_trade t, tr_biz t, tr_scene t, tr_title t, tr_remark t, tr_expire t,
   tr_amount t, tr_refund_of t, tr_created t).
Definition merchant_terms (m : MerchantRow) := (mr_id m, mr_no m, mr_name m, mr_budget m, mr_receivable m).
Definition customer_terms (c : CustomerRow) := (cr_id c, cr_no c, cr_merchant c, cr_out_user c).

(** A default account, once set, stays. *)
Definition same_customer (c c' : CustomerRow) : Prop :=
  same_by customer_terms c c' /\ (forall no, cr_default c = Some no -> cr_default c' = Some no).

#[export] Instance same_customer_pre : PreOrder same_customer.
Proof.
  split; unfold same_customer; [done|].
  intros a b c [Hab Hab'] [Hbc Hbc']. split; [by etrans|eauto].
Qed.

(** A credential keeps its text; it may be retired, never revived. *)
Definition retired (c c' : CredentialRow) : Prop :=
  cd_cipher c' = cd_cipher c /\ (cd_active c' = true -> cd_active c = true).

#[export] Instance retired_preorder : PreOrder retired.
Proof. split; unfold retired; [done|]. intros a b c [Hab Hab'] [Hbc Hbc']. split; [by etrans|eauto]. Qed.

(** A merchant has at most one active secret. *)
Definition one_active (d : DB) : Prop := forall m v1 v2 c1 c2,
  credentials d !! (m, v1) = Some c1 -> credentials d !! (m, v2) = Some c2 ->
  cd_active c1 = true -> cd_active c2 = true -> v1 = v2.

Record Grow (d d' : DB) : Prop := {
  gr_log : account_changes d `prefix_of` account_changes d';
  gr_blog : book_changes d `prefix_of` book_changes d';
  gr_account : evolves (same_by account_terms) (accounts d) (accounts d');
  gr_book : evolves (same_by shape) (books d) (books d');
  gr_txn : evolves (same_by txn_terms) (txns d) (txns d');
  gr_merchant : evolves (same_by merchant_terms) (merchants d) (merchants d');
  gr_customer : evolves same_customer (customers d) (customers d');
  gr_ids : numbered ac_id (account_changes d) -> numbered ac_id (account_changes d');
  gr_bids : numbered bc_id (book_changes d) -> numbered bc_id (book_changes d');
  gr_events : NoDup (map ob_event (outbox d)) -> NoDup (map ob_event (outbox d'));
  gr_outbox : map ob_event (outbox d) `prefix_of` map ob_event (outbox d');
  gr_secret : evolves retired (credentials d) (credentials d');
  gr_active : one_active d -> one_active d';
  gr_admin : admin_grows (admin d) (admin d')
}.

#[export] Instance Grow_preorder : PreOrder Grow.
Proof.
  split.
  - intros d. by split.
  - intros d1 d2 d3 [] []. split; first [by etrans|auto].
Qed.

(** ** Statements *)

Notation growQ := (viaQ Grow).

Lemma Grow_accounts d m : evolves (same_by account_terms) (accounts d) m -> Grow d (set_accounts m d).
Proof. by split. Qed.
Lemma Grow_books d m : evolves (same_by shape) (books d) m -> Grow d (set_books m d).
Proof. by split. Qed.

(** One row inserted, or replaced by one with the same terms. *)
Lemma Grow_account d k a :
  (forall a0, accounts d !! k = Some a0 -> same_by account_terms a0 a) ->
  Grow d (set_accounts (<[k := a]> (accounts d)) d).
Proof. split; try done. by apply evolves_insert; [apply _|]. Qed.
Lemma Grow_one_book d (k : UUID) b :
  (forall b0, books d !! k = Some b0 -> same_by shape b0 b) -> Grow d (set_books (<[k := b]> (books d)) d).
Proof. split; try done. by apply evolves_insert; [apply _|]. Qed.
Lemma Grow_one_txn d (k : UUID) t :
  (forall t0, txns d !! k = Some t0 -> same_by txn_terms t0 t) -> Grow d (set_txns (<[k := t]> (txns d)) d).
Proof. split; try done. by apply evolves_insert; [apply _|]. Qed.
Lemma Grow_one_merchant d k m :
  (forall m0, merchants d !! k = Some m0 -> same_by merchant_terms m0 m) ->
  Grow d (set_merchants (<[k := m]> (merchants d)) d).
Proof. split; try done. by apply evolves_insert; [apply _|]. Qed.
Lemma Grow_one_customer d k c :
  (forall c0, customers d !! k = Some c0 -> same_customer c0 c) ->
  Grow d (set_customers (<[k := c]> (customers d)) d).
Proof. split; try done. by apply evolves_insert; [apply _|]. Qed.
Lemma Grow_log d r :
  ac_id r = Z.of_nat (length (account_changes d)) + 1 ->
  Grow d (set_account_changes (account_changes d ++ [r])%list d).
Proof. split; try done; [by apply prefix_app_r|by apply numbered_snoc]. Qed.
Lemma Grow_blog d r :
  bc_id r = Z.of_nat (length (book_changes d)) + 1 ->
  Grow d (set_book_changes (book_changes d ++ [r])%list d).
Proof. split; try done; [by apply prefix_app_r|by apply numbered_snoc]. Qed.
(** The outbox: events of the same identity, or one more that was not there. *)
Lemma Grow_outbox d o : map ob_event o = map ob_event (outbox d) -> Grow d (set_outbox o d).
Proof. intros E. split; try done; simpl; by rewrite E. Qed.
Lemma Grow_event d e :
  existsb (fun x => ob_event x =? ob_event e) (outbox d) = false -> Grow d (set_outbox (outbox d ++ [e])%list d).
Proof.
  intros He. split; try done; simpl; rewrite map_app; [|by apply prefix_app_r].
  intros Hnd. apply NoDup_app. split; [done|]. split; [|apply NoDup_singleton].
  intros x (y & -> & Hy)%list_elem_of_fmap Hx. apply list_elem_of_singleton in Hx.
  assert (existsb (fun z => ob_event z =? ob_event e) (outbox d) = true); [|congruence].
  apply existsb_exists. exists y. split; [by apply list_elem_of_In|by apply Z.eqb_eq].
Qed.
Lemma Grow_admin d a : admin_grows (admin d) a -> Grow d (set_admin a d).
Proof. by split. Qed.
Lemma Grow_webhooks d o : Grow d (set_webhooks o d).
Proof. by split. Qed.

Section Statements.
Context `{Platform}.

Lemma grow_CreateAccount p : growQ (Queries.CreateAccount p).
Proof.
  intros t d d' [] (_ & Hn & r & -> & _)%CreateAccount_ok. apply Grow_account. intros v0. by rewrite Hn.
Qed.

Lemma grow_UpdateAccountBalance v no : growQ (UpdateAccountBalance v no).
Proof. intros t d d' [] [= <-]. apply Grow_accounts, evolves_alter; [apply _|done]. Qed.

Lemma grow_UpdateAccountCapabilities x y z no : growQ (Queries.UpdateAccountCapabilities x y z no).
Proof. intros t d d' [] [= <-]. apply Grow_accounts, evolves_alter; [apply _|done]. Qed.

Lemma grow_TryCredit amount no : growQ (TryCreditAccountBalanceNonBookRefund amount no).
Proof.
  intros t d d' v. unfold TryCreditAccountBalanceNonBookRefund.
  destruct (accounts d !! no) as [r|] eqn:E; [|done]. destruct (ar_book r); [done|].
  destruct (bigintAdd _ _); [done|]. intros [= <- <-]. apply Grow_account.
  intros r0. rewrite E. intros [= <-]. done.
Qed.

Lemma grow_Upsert bookNo no e delta : growQ (UpsertAccountBookBalance bookNo no e delta).
Proof.
  intros t d d' b. unfold UpsertAccountBookBalance. destruct (castUUID bookNo) as [|[u|]]; try done.
  intros [_ [_ Hq]%guardQ_ok]%guardQ_ok. destruct (find_book no e (books d)) as [[k b0]|] eqn:Ef.
  - apply find_book_some in Ef as (Hk & _). destruct (bigintAdd _ _); [done|]. simplify_eq.
    apply Grow_one_book. intros b1 Hb1. simplify_eq. done.
  - destruct (books d !! u) eqn:Eu; simplify_eq. apply Grow_one_book. intros v0. by rewrite Eu.
Qed.

Lemma grow_batch seen payload m m' rows :
  batchUpdate seen payload m = Ok (m', rows) -> evolves (same_by shape) m m'.
Proof.
  revert seen m m' rows. induction payload as [|[u delta] rest IH]; simpl; intros seen m m' rows Hb.
  { by simplify_eq. }
  destruct (existsb _ _); [eauto|]. destruct (m !! u) as [b|] eqn:Eu; [|eauto].
  destruct (bigintAdd _ _); [done|]. destruct (batchUpdate _ _ _) as [|[m1 rs]] eqn:E; simplify_eq.
  etrans; [|eapply IH, E]. apply evolves_insert; [apply _|]. intros b0 Hb0. by simplify_eq.
Qed.

Lemma grow_Batch nos ds : growQ (BatchUpdateAccountBookBalances nos ds).
Proof.
  intros t d d' rs. unfold BatchUpdateAccountBookBalances. destruct (castUUIDs nos); [|done].
  destruct (batchUpdate _ _ _) as [|[m rows]] eqn:E; intros; simplify_eq. by eapply Grow_books, grow_batch.
Qed.

Lemma grow_InsertAccountChange p : growQ (InsertAccountChange p).
Proof. intros t d d' [] [_ [_ [= <-]]%guardQ_ok]%guardQ_ok. by apply Grow_log. Qed.
Lemma grow_InsertAccountBookChange p : growQ (InsertAccountBookChange p).
Proof. intros t d d' [] [_ [_ [= <-]]%guardQ_ok]%guardQ_ok. by apply Grow_blog. Qed.

Lemma grow_CreateMerchant id no nm b r w : growQ (Queries.CreateMerchant id no nm b r w).
Proof.
  intros t d d' []. unfold Queries.CreateMerchant. intros [_ [_ Hq]%guardQ_ok]%guardQ_ok.
  destruct (_ || _ || _) eqn:E; [done|]. injection Hq as <-. bools.
  apply Grow_one_merchant. intros v0 Hv. by rewrite Hv in *.
Qed.

Lemma grow_UpdateWriteoff w no : growQ (UpdateMerchantWriteoffAccountNo w no).
Proof.
  intros t d d' []. unfold UpdateMerchantWriteoffAccountNo. intros [_ Hq]%guardQ_ok.
  destruct (merchants d !! no) as [r|] eqn:E; [|by simplify_eq]. case_match; simplify_eq.
  apply Grow_one_merchant. intros v0 Hv. simplify_eq. done.
Qed.

Lemma grow_updateFeatures no a c : growQ (Repository.updateFeatures no a c).
Proof.
  intros t d d' n. unfold Repository.updateFeatures.
  destruct (merchants d !! no) as [r|] eqn:E; intros [= <- <-]; [|done].
  apply Grow_one_merchant. intros v0 Hv. simplify_eq. done.
Qed.

Lemma grow_CreateCustomer id no m u x : growQ (Queries.CreateCustomer id no m u x).
Proof.
  intros t d d' []. unfold Queries.CreateCustomer. intros [_ [_ Hq]%guardQ_ok]%guardQ_ok.
  destruct (_ || _) eqn:E; [done|]. injection Hq as <-. bools.
  apply Grow_one_customer. intros v0 Hv. by rewrite Hv in *.
Qed.

Lemma grow_SetDefault o m c : growQ (SetCustomerDefaultAccountIfEmpty o m c).
Proof.
  intros t d d' n. unfold SetCustomerDefaultAccountIfEmpty.
  destruct (customers d !! c) as [r|] eqn:E; [|by intros [= <- <-]].
  destruct (_ && _) eqn:Ec; intros [= <- <-]; [|done]. bools.
  apply Grow_one_customer. intros v0 Hv. simplify_eq. repeat split; try done.
  intros x Hx. by rewrite Hx in *.
Qed.

(** The rows of [txn]: inserted once, updated in status, error, refundable
    amount and parties only. *)
Lemma grow_CreateTransferTxn p : growQ (Queries.CreateTransferTxn p).
Proof.
  intros t d d' [] (u & ro & _ & _ & Hn & _ & _ & ->)%CreateTransferTxn_ok.
  apply Grow_one_txn. intros v0. by rewrite Hn.
Qed.

Lemma grow_updateTxn u f d d' b :
  (forall r, same_by txn_terms r (f r)) -> updateTxn u f d = Ok (d', b) -> Grow d d'.
Proof.
  intros Hf. unfold updateTxn. destruct (txns d !! u) as [r|] eqn:E; [|by intros [= <- <-]].
  intros [_ [_ [= <- <-]]%guardQ_ok]%guardQ_ok. apply Grow_one_txn. intros t0 Ht. by simplify_eq.
Qed.

Lemma grow_UpdateStatus st c m no : growQ (Queries.UpdateTransferTxnStatus st c m no).
Proof.
  intros t d d' []. unfold Queries.UpdateTransferTxnStatus. destruct (castUUID no) as [|[u|]]; [done| |by intros [= <-]].
  destruct (updateTxn _ _ _) as [|[d1 b]] eqn:E; [done|]. intros [= <-]. by eapply grow_updateTxn in E.
Qed.

Lemma grow_UpdateStatusByUUID st c m u : growQ (UpdateTransferTxnStatusByUUID st c m u).
Proof.
  intros t d d' []. unfold UpdateTransferTxnStatusByUUID.
  destruct (updateTxn _ _ _) as [|[d1 b]] eqn:E; [done|]. intros [= <-]. by eapply grow_updateTxn in E.
Qed.

Lemma grow_UpdateStatusFrom st c m no from : growQ (UpdateTransferTxnStatusFrom st c m no from).
Proof.
  intros t d d' n. unfold UpdateTransferTxnStatusFrom.
  destruct (castUUID no) as [|[u|]]; [done| |by intros [= <- <-]].
  destruct (txns d !! u); [|by intros [= <- <-]]. destruct (String.eqb _ _); [|by intros [= <- <-]].
  destruct (updateTxn _ _ _) as [|[d1 b]] eqn:E; [done|]. intros [= <- <-]. by eapply grow_updateTxn in E.
Qed.

Lemma grow_UpdateParties a b no : growQ (Queries.UpdateTransferTxnParties a b no).
Proof.
  intros t d d' []. unfold Queries.UpdateTransferTxnParties.
  destruct (castUUID no) as [|[u|]]; [done| |by intros [= <-]].
  destruct (updateTxn _ _ _) as [|[d1 x]] eqn:E; [done|]. intros [= <-]. by eapply grow_updateTxn in E.
Qed.

Lemma grow_DecreaseOrigin amount o m : growQ (DecreaseOriginTxnRefundableIfValid amount o m).
Proof.
  intros t d d' n. unfold DecreaseOriginTxnRefundableIfValid. destruct (txns d !! o); [|done].
  destruct (_ && _); [|done]. destruct (bigintAdd _ _); [done|].
  destruct (updateTxn _ _ _) as [|[d1 b]] eqn:E; [done|]. intros [= <- <-]. by eapply grow_updateTxn in E.
Qed.

Lemma grow_TryDecrease amount no : growQ (Queries.TryDecreaseTxnRefundable amount no).
Proof.
  intros t d d' n. unfold Queries.TryDecreaseTxnRefundable. destruct (castUUID no) as [|[u|]]; try done.
  destruct (txns d !! u); [|done]. destruct (_ <=? _); [|done]. destruct (bigintAdd _ _); [done|].
  destruct (updateTxn _ _ _) as [|[d1 b]] eqn:E; [done|]. intros [= <- <-]. by eapply grow_updateTxn in E.
Qed.

Lemma grow_UpsertWebhook m u e : growQ (Queries.UpsertWebhookConfig m u e).
Proof. intros t d d' [] [_ [_ [= <-]]%guardQ_ok]%guardQ_ok. apply Grow_webhooks. Qed.

Lemma grow_InsertOutbox e u m o s wm : growQ (InsertOutboxEvent e u m o s wm).
Proof.
  intros t d d' []. unfold InsertOutboxEvent. destruct (webhooks d !! wm); [|by intros [= <-]].
  destruct (_ && _); [|by intros [= <-]]. intros [_ [_ Hq]%guardQ_ok]%guardQ_ok.
  destruct (existsb _ _) eqn:Ee; injection Hq as <-; [done|by apply Grow_event].
Qed.

Lemma grow_claim p t0 n : growQ (claimOutbox p t0 n).
Proof.
  intros t d d' l [= <- _]. apply Grow_outbox. rewrite map_map. apply map_ext. intros x. by case_match.
Qed.

Lemma grow_claimByTxn no t0 n : growQ (Reads.ClaimDueOutboxEventsByTxnNo no t0 n).
Proof.
  intros t d d' l. unfold Reads.ClaimDueOutboxEventsByTxnNo.
  destruct (castUUID no) as [|[u|]]; [done|apply grow_claim..].
Qed.

Lemma grow_updateOutbox e f : (forall x, ob_event (f x) = ob_event x) -> growQ (updateOutbox e f).
Proof.
  intros Hf t d d' []. unfold updateOutbox. destruct (castUUID e) as [|[u|]]; [done| |by intros [= <-]].
  intros [= <-]. apply Grow_outbox. rewrite map_map. apply map_ext. intros x. by case_match.
Qed.
Lemma grow_MarkSuccess e : growQ (Reads.MarkOutboxEventSuccess e).
Proof. intros t. by apply grow_updateOutbox. Qed.
Lemma grow_MarkRetry n next dead e : growQ (Reads.MarkOutboxEventRetry n next dead e).
Proof. intros t. by apply grow_updateOutbox. Qed.
End Statements.

(** ** Rotation *)

(** A rotation retires the merchant's secrets and adds one. *)
Lemma Grow_rotated m v c d : credentials d !! (m, v) = None -> Grow d (rotated m v c d).
Proof.
  intros Hn. split; try done.
  - intros k r Hk. assert (k <> (m, v)) as Hne by (intros ->; congruence).
    exists (deactivate m k r). split; [apply rotated_lookup; right; eauto|].
    unfold deactivate. by destruct (String.eqb k.1 m).
  - intros Ho m' v1 v2 c1 c2. rewrite !rotated_lookup.
    assert (Hd : forall v' r, cd_active (deactivate m (m, v') r) = false)
      by (intros; unfold deactivate; simpl; by rewrite String.eqb_refl).
    intros [[E1 ->]|(N1 & r1 & H1 & ->)] [[E2 ->]|(N2 & r2 & H2 & ->)] A1 A2; simplify_eq/=;
      try (exfalso; rewrite Hd in A1; done); try (exfalso; rewrite Hd in A2; done); try done.
    unfold deactivate in A1, A2. simpl in A1, A2. destruct (String.eqb m' m); [done|].
    by eapply Ho.
Qed.

#[export] Instance Grow_statements `{Platform} : Statements Grow.
Proof.
  split; intros;
    first [apply grow_CreateAccount | apply grow_UpdateAccountBalance | apply grow_UpdateAccountCapabilities
          | apply grow_TryCredit | apply grow_Upsert | apply grow_Batch | apply grow_InsertAccountChange
          | apply grow_InsertAccountBookChange | apply grow_CreateMerchant | apply grow_UpdateWriteoff
          | apply grow_updateFeatures | apply grow_CreateCustomer | apply grow_SetDefault
          | apply grow_CreateTransferTxn | apply grow_UpdateStatus | apply grow_UpdateStatusByUUID
          | apply grow_UpdateStatusFrom | apply grow_UpdateParties | apply grow_DecreaseOrigin
          | apply grow_TryDecrease | apply grow_UpsertWebhook | apply grow_claim | apply grow_claimByTxn
          | apply grow_MarkSuccess | apply grow_MarkRetry | apply _].
Qed.
#[export] Instance Grow_console : ConsoleStatements Grow.
Proof. split. apply Grow_admin. Qed.
