(* ===== verification/System.v ===== *)
(** * The system: every operation that writes, and what all of them preserve

    [op] lists the calls of the repository and of the services that change
    the database, with their arguments; [exec] runs one.  A call may meet any
    clock, any random numbers and any connection faults, and calls of other
    processes come between: [reachable] allows all of it. *)

From S2P Require Import Prelude GoBase Domain Codes Store Queries Reads Secrets Ledger Repo AdminRepo Via AdminGrow Services Invariant Books LedgerProofs StageProofs Calls Grow.
From stdpp Require Import base gmap list strings.
From Stdlib Require Import ZArith Lia.

Local Open Scope string_scope.
Local Open Scope Z_scope.

Inductive op : Type :=
(* services *)
| OpCreateMerchant (merchantNo name : string)
| OpCreateCustomer (merchantNo outUserID : string)
| OpEnsureCustomerAccount (merchantNo outUserID : string)
| OpSubmit (req : TransferRequest)
| OpStage (txnNo expectedStatus : string)
| OpRotateSecret (merchantNo : string)
(* repository *)
| OpFeatureConfig (merchantNo : string) (autoAccount autoCustomer : bool)
| OpCapabilities (accountNo : string) (debitOut creditIn transfer : bool)
| OpTransition (txnNo fromStatus toStatus errorCode errorMsg : string)
| OpParties (txnNo debitAccountNo creditAccountNo : string)
| OpDecreaseRefundable (txnNo : string) (amount : Z)
| OpWebhookConfig (merchantNo url : string) (enabled : bool)
| OpClaim (n : Z) (now : Time)
| OpClaimTxn (txnNo : string) (n : Z) (now : Time)
| OpMarkSuccess (eventID : string)
| OpMarkRetry (eventID : string) (retryCount : Z) (nextRetryAt : Time) (dead : bool)
| OpCreateAccount (account : Account)
(* the console *)
| OpEnsureAdminUser (username passwordHash : string)
| OpCreateAdminUser (username passwordHash : string)
| OpSetupState
| OpSaveProgress (adminUsername defaultMerchantNo : string)
| OpMarkInitialized (adminUsername defaultMerchantNo : string)
| OpAudit (pg : PgText) (entry : AdminAuditLog)
(* repository calls that no service makes *)
| OpUpdateStatus (txnNo status errorCode errorMsg : string)
| OpTransferDebit (txnNo debitAccountNo : string) (amount : Z)
| OpTransferCredit (txnNo creditAccountNo : string) (amount : Z)
| OpRefundDebit (txnNo : string) (amount : Z)
| OpRefundCredit (txnNo creditAccountNo : string) (amount : Z).

Section System.
Context `{Platform} `{CodeProvider} `{SecretCipher}.

Definition exec (o : op) (w : World) : World :=
  match o with
  | OpCreateMerchant no name => (CreateMerchant no name w).1
  | OpCreateCustomer m u => (CreateCustomer m u w).1
  | OpEnsureCustomerAccount m u => (EnsureCustomerAccountForCredit m u w).1
  | OpSubmit req => (Submit req w).1
  | OpStage no st => (ApplyTxnStage no st w).1
  | OpRotateSecret m => (RotateSecret m w).1
  | OpFeatureConfig m a c => (Repository.UpsertMerchantFeatureConfig m a c w).1
  | OpCapabilities no d c t => (Repository.UpdateAccountCapabilities no d c t w).1
  | OpTransition no from to code msg => (Repository.TransitionTransferTxnStatus no from to code msg w).1
  | OpParties no d c => (Repository.UpdateTransferTxnParties no d c w).1
  | OpDecreaseRefundable no n => (Repository.TryDecreaseTxnRefundable no n w).1
  | OpWebhookConfig m u e => (Repository.UpsertWebhookConfig m u e w).1
  | OpClaim n now => (Repository.ClaimDueOutboxEvents n now w).1
  | OpClaimTxn no n now => (Repository.ClaimDueOutboxEventsByTxnNo no n now w).1
  | OpMarkSuccess e => (Repository.MarkOutboxEventSuccess e w).1
  | OpMarkRetry e n next dead => (Repository.MarkOutboxEventRetry e n next dead w).1
  | OpCreateAccount a => (Repository.CreateAccount a w).1
  | OpEnsureAdminUser u h => (AdminRepository.EnsureAdminUser u h w).1
  | OpCreateAdminUser u h => (AdminRepository.CreateAdminUser u h w).1
  | OpSetupState => (AdminRepository.GetAdminSetupState w).1
  | OpSaveProgress u m => (AdminRepository.SaveAdminSetupProgress u m w).1
  | OpMarkInitialized u m => (AdminRepository.MarkAdminSetupInitialized u m w).1
  | OpAudit pg e => (AdminRepository.InsertAdminAuditLog e w).1
  | OpUpdateStatus no st code msg => (Repository.UpdateTransferTxnStatus no st code msg w).1
  | OpTransferDebit no d n => (ApplyTransferDebitStage no d n w).1
  | OpTransferCredit no c n => (ApplyTransferCreditStage no c n w).1
  | OpRefundDebit no n => (ApplyRefundDebitStage no n w).1
  | OpRefundCredit no c n => (ApplyRefundCreditStage no c n w).1
  end.

(** ** What calls do, from what statements do *)

(** The console's own calls, from what its statements do. *)
Section Console.
Context (RD : DB -> DB -> Prop) {PR : PreOrder RD}.
Context (Hcon : forall A (q : Q A), viaQ console_only q -> viaQ RD q).

Lemma via_console_auto {A} (q : Q A) : viaQ console_only q -> via RD (auto q).
Proof using All. intros Hq. by apply (via_auto _), Hcon. Qed.
Lemma via_setupRow : via RD AdminRepository.ensureAdminSetupStateRow.
Proof using All.
  unfold AdminRepository.ensureAdminSetupStateRow, AdminRepository.ensureAdminSetupStateTable. via_.
  apply via_console_auto, console_insertSetup.
Qed.

Lemma via_EnsureAdminUser u h : via RD (AdminRepository.EnsureAdminUser u h).
Proof using All.
  unfold AdminRepository.EnsureAdminUser, AdminRepository.credentials. via_. apply via_console_auto, console_upsertUser.
Qed.
Lemma via_CreateAdminUser u h : via RD (AdminRepository.CreateAdminUser u h).
Proof using All.
  unfold AdminRepository.CreateAdminUser, AdminRepository.credentials. via_. apply via_console_auto, console_insertUser.
Qed.
Lemma via_GetAdminSetupState : via RD AdminRepository.GetAdminSetupState.
Proof using All. unfold AdminRepository.GetAdminSetupState. via_. apply via_setupRow. Qed.
Lemma via_SaveProgress u m : via RD (AdminRepository.SaveAdminSetupProgress u m).
Proof using All.
  unfold AdminRepository.SaveAdminSetupProgress. via_; [apply via_setupRow|]. apply via_console_auto, console_saveProgress.
Qed.
Lemma via_MarkInitialized u m : via RD (AdminRepository.MarkAdminSetupInitialized u m).
Proof using All.
  unfold AdminRepository.MarkAdminSetupInitialized. via_; [apply via_setupRow|].
  apply via_console_auto, console_markInitialized.
Qed.
Lemma via_InsertAudit {PT : PgText} e : via RD (AdminRepository.InsertAdminAuditLog e).
Proof using All. apply via_console_auto, console_insertAudit. Qed.
End Console.

(** The operations that may insert into the outbox. *)
Definition inserts (o : op) : bool :=
  match o with OpStage _ _ | OpTransferCredit _ _ _ | OpRefundCredit _ _ _ => true | _ => false end.

Section Relation.
Context (RD : DB -> DB -> Prop) {St : Statements RD} {Co : ConsoleStatements RD}.

(** Rotation, from what its one transaction does. *)
Lemma via_RotateSecret m :
  (forall d v c, is_Some (merchants d !! m) -> v = wrap32 v -> credentials d !! (m, v) = None -> RD d (rotated m v c d)) ->
  via RD (RotateSecret m).
Proof.
  intros Hr. unfold RotateSecret.
  apply (thruM_bind _); [apply (thruM_keeps _), keeps_generateMerchantSecret|]. intros s.
  apply (thruM_bind _); [apply (thruM_keeps _), keeps_attempt, cipher_keeps|]. intros [e|c]; [by apply (thruM_throw _)|].
  apply (thruM_bind _); [|intros v; by apply (thruM_ret _)].
  apply (via_withTx_ok _). intros w w' v (Hm & Hv & Hn & ->)%rotateBody_ok. apply Hr; [done| |done].
  rewrite Hv. by rewrite wrap32_wrap32.
Qed.

Lemma via_exec o w :
  (forall m d v c, is_Some (merchants d !! m) -> v = wrap32 v -> credentials d !! (m, v) = None -> RD d (rotated m v c d)) ->
  (inserts o = true -> forall e u m x s wm, viaQ RD (InsertOutboxEvent e u m x s wm)) ->
  onDB RD w (exec o w).
Proof.
  intros Hr Hob. destruct o; cbn [exec];
    match goal with
    | |- onDB _ _ (ApplyTxnStage _ _ _).1 => by apply via_ApplyTxnStage, Hob
    | |- onDB _ _ (?m w).1 => let Hm := fresh in cut (via RD m); [intros Hm; exact (Hm w)|]
    end.
  - apply (via_CreateMerchant _).
  - apply (via_CreateCustomer _).
  - apply (via_EnsureCustomer _).
  - apply (via_Submit _).
  - apply (via_RotateSecret _), Hr.
  - unfold Repository.UpsertMerchantFeatureConfig. via_.
  - unfold Repository.UpdateAccountCapabilities. via_.
  - unfold Repository.TransitionTransferTxnStatus. via_.
  - unfold Repository.UpdateTransferTxnParties. via_.
  - unfold Repository.TryDecreaseTxnRefundable. via_.
  - unfold Repository.UpsertWebhookConfig. via_.
  - unfold Repository.ClaimDueOutboxEvents, Reads.ClaimDueOutboxEvents. via_.
  - unfold Repository.ClaimDueOutboxEventsByTxnNo. via_.
  - unfold Repository.MarkOutboxEventSuccess. via_.
  - unfold Repository.MarkOutboxEventRetry. via_.
  - unfold Repository.CreateAccount. apply (via_withTx _), (via_createAccount _).
  - apply (via_EnsureAdminUser _). by intros; apply (st_console _).
  - apply (via_CreateAdminUser _). by intros; apply (st_console _).
  - apply (via_GetAdminSetupState _). by intros; apply (st_console _).
  - apply (via_SaveProgress _). by intros; apply (st_console _).
  - apply (via_MarkInitialized _). by intros; apply (st_console _).
  - apply (via_InsertAudit _). by intros; apply (st_console _).
  - unfold Repository.UpdateTransferTxnStatus. via_.
  - apply (via_ApplyTransferDebitStage _).
  - by apply (via_ApplyTransferCreditStage _), Hob.
  - apply (via_ApplyRefundDebitStage _).
  - by apply (via_ApplyRefundCreditStage _), Hob.
Qed.
End Relation.

Lemma grow_exec o w : Grow (w_db w) (w_db (exec o w)).
Proof. apply (via_exec Grow); [intros; by apply Grow_rotated|intros; apply grow_InsertOutbox]. Qed.

(** [C22] The ledger is append-only.  Whatever call is made, and whatever
    becomes of it, both change logs keep every row they had and only grow at
    the end; no account, book, transaction, merchant or customer is removed;
    an account keeps its owner, type, overdraft limit and kind, a book its
    account and expiry day, a transaction its merchant, order number, kind,
    scene, amount and origin; a customer's default account never changes once
    set; a credential keeps its text and is never revived, and a merchant
    never has two active secrets.  Of the console's tables, a user keeps its
    name, the audit log only grows at the end, and a setup that is complete
    stays so. *)
Theorem append_only o w : Grow (w_db w) (w_db (exec o w)).
Proof. apply grow_exec. Qed.
End System.
