(* ===== verification/Safety.v ===== *)
(** * The ledger invariant over the whole system

    Every operation of [System] keeps the ledger invariant of [Invariant] and
    moves transactions only along the state machine; hence so does every
    reachable state, and money is conserved in it. *)

From S2P Require Import Prelude GoBase Domain Codes Store Queries Reads Secrets Ledger Repo AdminRepo Via AdminGrow Services Invariant Books LedgerProofs StageProofs Calls Grow System.
From stdpp Require Import base gmap list strings.
From Stdlib Require Import ZArith Lia.

Local Open Scope string_scope.
Local Open Scope Z_scope.

(** ** Calls that keep the invariant *)

Definition good (d d' : DB) : Prop := Inv d' /\ Hist d d'.
Lemma good_refl d : Inv d -> good d d.
Proof. by split. Qed.
Lemma good_trans d1 d2 d3 : good d1 d2 -> (Inv d2 -> good d2 d3) -> good d1 d3.
Proof. intros [H1 H2] H. destruct (H H1) as [H3 H4]. split; [done|]. by etrans. Qed.
Lemma good_txns d d' : Inv d' -> txns d' = txns d -> good d d'.
Proof. intros HI E. split; [done|]. apply Kept_Hist. by apply Kept_txns. Qed.

(** What keeps the invariant, given it. *)
Definition safely (d d' : DB) : Prop := Inv d -> good d d'.
#[export] Instance safely_preorder : PreOrder safely.
Proof.
  split; [intros d HI; by apply good_refl|].
  intros x y z Hxy Hyz HI. eapply good_trans; [by apply Hxy|exact Hyz].
Qed.

Notation safe := (via safely).
Notation safeQ := (viaQ safely).

(** ** Statements *)

Lemma Inv_caps d no x y z : Inv d -> Inv (set_accounts (alter (ar_set_caps x y z) no (accounts d)) d).
Proof.
  intros HI.
  assert (Hl : forall k, alter (ar_set_caps x y z) no (accounts d) !! k
            = (if decide (no = k) then ar_set_caps x y z else id) <$> accounts d !! k).
  { intros k. case_decide as E; [subst; by rewrite lookup_alter_eq|]. rewrite lookup_alter_ne by done.
    by destruct (accounts d !! k). }
  assert (Hb : forall k, bal k (set_accounts (alter (ar_set_caps x y z) no (accounts d)) d) = bal k d).
  { intros k. unfold bal. simpl. rewrite Hl. destruct (accounts d !! k); [|done]. by case_decide. }
  assert (Hi : forall k, is_book k (set_accounts (alter (ar_set_caps x y z) no (accounts d)) d) = is_book k d).
  { intros k. unfold is_book. simpl. rewrite Hl. destruct (accounts d !! k); [|done]. by case_decide. }
  destruct HI as [K I64 T BK BS AL AR TR FL AM RF R0 WO RW]. split; simpl; try done.
  - intros k a. rewrite Hl. destruct (accounts d !! k) as [a0|] eqn:E; intros [= <-]. case_decide; simpl; eauto.
  - intros k a. rewrite Hl. destruct (accounts d !! k) as [a0|] eqn:E; intros [= <-]. case_decide; simpl; eauto.
  - eapply BooksOk_ext; [|exact BK]. intros k. symmetry. apply Hi.
  - intros k. rewrite Hi, Hb. apply BS.
  - intros k. rewrite Hb. apply AL.
  - intros c Hc. rewrite Hl. destruct (AR c Hc) as [a ->]. eauto.
  - intros m r w Hm Hw Ht. destruct (WO m r w Hm Hw Ht) as (a & Ha & Hab). rewrite Hl, Ha. simpl.
    eexists. split; [done|]. by case_decide.
Qed.

Section Statements.
Context `{Platform}.

Lemma safe_updateFeatures no a c : safeQ (Repository.updateFeatures no a c).
Proof.
  intros t d d' n. unfold Repository.updateFeatures. destruct (merchants d !! no) as [r|] eqn:E; intros [= <- <-] HI.
  - apply good_txns; [|done]. apply Inv_merchants; [done|]. simpl. intros w Hw. by eapply inv_writeoff.
  - by apply good_refl.
Qed.
Lemma safe_Capabilities x y z no : safeQ (Queries.UpdateAccountCapabilities x y z no).
Proof. intros t d d' [] [= <-] HI. apply good_txns; [by apply Inv_caps|done]. Qed.

Lemma safe_CreateCustomer id no m u x : safeQ (Queries.CreateCustomer id no m u x).
Proof.
  intros t d d' []. unfold Queries.CreateCustomer. intros [_ [_ Hq]%guardQ_ok]%guardQ_ok HI.
  destruct (_ || _); [done|]. injection Hq as <-. apply good_txns; [by apply Inv_customers|done].
Qed.

Lemma safe_UpsertWebhook m u e : safeQ (Queries.UpsertWebhookConfig m u e).
Proof. intros t d d' [] [_ [_ [= <-]]%guardQ_ok]%guardQ_ok HI. apply good_txns; [by apply Inv_webhooks|done]. Qed.

Lemma safe_console {A} (q : Q A) : viaQ console_only q -> safeQ q.
Proof. intros Hq t d d' a (x & -> & _)%Hq HI. apply good_txns; [by apply Inv_admin|done]. Qed.

Lemma good_outbox d o : Inv d -> good d (set_outbox o d).
Proof. intros HI. apply good_txns; [by apply Inv_outbox|done]. Qed.

Lemma safe_claim p t0 n : safeQ (claimOutbox p t0 n).
Proof. intros t d d' l [= <- _] HI. by apply good_outbox. Qed.
Lemma safe_claimByTxn no t0 n : safeQ (Reads.ClaimDueOutboxEventsByTxnNo no t0 n).
Proof.
  intros t d d' l. unfold Reads.ClaimDueOutboxEventsByTxnNo.
  destruct (castUUID no) as [|[u|]]; [done|apply safe_claim..].
Qed.
Lemma safe_updateOutbox e f : safeQ (updateOutbox e f).
Proof.
  intros t d d' []. unfold updateOutbox. destruct (castUUID e) as [|[u|]]; [done| |].
  - intros [= <-] HI. by apply good_outbox.
  - intros [= <-] HI. by apply good_refl.
Qed.
Lemma safe_MarkSuccess e : safeQ (Reads.MarkOutboxEventSuccess e).
Proof. intros t. apply safe_updateOutbox. Qed.
Lemma safe_MarkRetry n next dead e : safeQ (Reads.MarkOutboxEventRetry n next dead e).
Proof. intros t. apply safe_updateOutbox. Qed.

(** ** Rows of [txn] *)

Lemma good_updateTxn u f d d' b :
  updateTxn u f d = Ok (d', b) -> Inv d ->
  (forall t, txns d !! u = Some t ->
     same_txn t (f t) /\ status_flow (f t) (flow u (account_changes d)) /\
     (0 <= tr_refundable (f t) -> tr_refundable (f t) <= tr_refundable t) /\
     rtc status_step (tr_status t) (tr_status (f t))) ->
  good d d'.
Proof.
  intros Hq HI Hf. apply updateTxn_ok in Hq. destruct (txns d !! u) as [t|] eqn:Hu.
  2:{ destruct Hq as [-> _]. by apply good_refl. }
  destruct Hq as (-> & Hc & _). destruct (Hf t eq_refl) as (Hs & Hfl & Hr & Hst).
  assert (0 <= tr_refundable (f t)) as H0 by (unfold txnChecks in Hc; by bools).
  split; [by eapply Inv_txn_update; eauto|]. intros v x Hv. simpl.
  destruct (decide (v = u)) as [->|Hne].
  - rewrite lookup_insert_eq. exists (f t). by simplify_eq.
  - rewrite lookup_insert_ne by done. exists x. split; [done|constructor].
Qed.

(** The transition to FAILED keeps the money accounted for, from any status
    but the successful one. *)
Lemma safe_fail code msg no from :
  from <> TxnStatusRecvSuccess -> safeQ (UpdateTransferTxnStatusFrom TxnStatusFailed code msg no from).
Proof.
  intros Hfrom t d d' n. unfold UpdateTransferTxnStatusFrom.
  destruct (castUUID no) as [|[u|]]; [done| |by intros [= <- <-] ?; apply good_refl].
  destruct (txns d !! u) as [r|] eqn:Hu; [|by intros [= <- <-] ?; apply good_refl].
  destruct (String.eqb _ _) eqn:Es; [|by intros [= <- <-] ?; apply good_refl]. bools. subst from.
  destruct (updateTxn _ _ _) as [|[d1 b]] eqn:E; [done|]. intros [= <- <-] HI.
  eapply good_updateTxn; [exact E|done|]. intros x Hx. simplify_eq. split; [by repeat split|].
  pose proof (inv_flow _ HI _ _ Hu) as Hfl. simpl. split; [|split; [done|]].
  - right. right. right. split; [done|]. simpl. unfold status_flow in Hfl. intuition congruence.
  - destruct Hfl as [[E1 _]|[[E1 _]|[[E1 _]|[E1 _]]]]; rewrite E1 in *; try done; apply rtc_once; constructor.
Qed.

Lemma safe_Parties a b no : safeQ (Queries.UpdateTransferTxnParties a b no).
Proof.
  intros t d d' []. unfold Queries.UpdateTransferTxnParties.
  destruct (castUUID no) as [|[u|]]; [done| |by intros [= <-] ?; apply good_refl].
  destruct (updateTxn _ _ _) as [|[d1 x]] eqn:E; [done|]. intros [= <-] HI.
  eapply good_updateTxn; [exact E|done|]. intros y Hy. split; [by repeat split|].
  split; [|split; [done|constructor]]. exact (inv_flow _ HI _ _ Hy).
Qed.

Lemma safe_TryDecrease amount no : 0 <= amount -> safeQ (Queries.TryDecreaseTxnRefundable amount no).
Proof.
  intros Ha t d d' n. unfold Queries.TryDecreaseTxnRefundable. destruct (castUUID no) as [|[u|]]; try done.
  destruct (txns d !! u) as [r|] eqn:Hu; [|done]. destruct (_ <=? _) eqn:Ele; [|done].
  destruct (bigintAdd _ _) eqn:Eb; [done|]. apply bigintAdd_ok in Eb as [-> _].
  destruct (updateTxn _ _ _) as [|[d1 b]] eqn:E; [done|]. intros [= <- <-] HI.
  eapply good_updateTxn; [exact E|done|]. intros x Hx. simplify_eq. split; [by repeat split|].
  split; [exact (inv_flow _ HI _ _ Hu)|]. split; [simpl; lia|constructor].
Qed.

Lemma safe_insertTxn p :
  ctp_status p = TxnStatusInit -> (ctp_biz p = BizTypeTransfer -> ctp_refundable p <= ctp_amount p) ->
  safeQ (Queries.CreateTransferTxn p).
Proof.
  intros Hst Hr t d d' [] (u & ro & _ & _ & Hn & Hc & Hfresh & ->)%CreateTransferTxn_ok HI.
  unfold txnChecks in Hc. simpl in Hc. bools. split.
  - apply Inv_txn_new; try done; simpl; [by left|auto].
  - intros v x Hv. simpl. rewrite lookup_insert_ne by congruence. exists x. split; [done|constructor].
Qed.
End Statements.

#[export] Hint Resolve safe_updateFeatures safe_Capabilities safe_CreateCustomer safe_UpsertWebhook safe_claim
  safe_claimByTxn safe_MarkSuccess safe_MarkRetry safe_fail safe_Parties safe_TryDecrease safe_insertTxn : coin.

(** ** Creating accounts does not look at merchants *)

Definition with_merchants (ms : gmap string MerchantRow) (w : World) : World :=
  with_db (set_merchants ms (w_db w)) w.

Definition blindQ {A} (q : Q A) : Prop := forall ms t d,
  q t (set_merchants ms d) = match q t d with Ok (d', a) => Ok (set_merchants ms d', a) | Err e => Err e end.
Definition blind {A} (m : M A) : Prop := forall ms w,
  m (with_merchants ms w) = let '(w', r) := m w in (with_merchants ms w', r).

Lemma blind_run {A} (q : Q A) : blindQ q -> blind (run q).
Proof.
  intros Hq ms w. unfold run, pop_fault. simpl. specialize (Hq ms (w_txnow w) (w_db w)).
  destruct (hd NoFault (w_faults w)); simpl; rewrite ?Hq; try reflexivity;
    destruct (q (w_txnow w) (w_db w)) as [|[]]; reflexivity.
Qed.
Lemma blind_bind {A B} (m : M A) (k : A -> M B) : blind m -> (forall a, blind (k a)) -> blind (bind m k).
Proof. intros Hm Hk ms w. unfold bind. rewrite Hm. destruct (m w) as [w1 [e|a]]; [done|]. apply Hk. Qed.
Lemma blind_attempt {A} (m : M A) : blind m -> blind (attempt m).
Proof. intros Hm ms w. unfold attempt. rewrite Hm. by destruct (m w). Qed.
Lemma blind_ret {A} (a : A) : blind (ret a).
Proof. done. Qed.
Lemma blind_throw {A} e : blind (throw e : M A).
Proof. done. Qed.
Lemma blind_UUID : blind NewUUIDv7.
Proof. intros ms w. unfold NewUUIDv7, randRead, bind, timeNow, ret. simpl. by destruct (w_rand w). Qed.
Lemma blind_forM {A} (l : list A) f : (forall x, blind (f x)) -> blind (forM l f).
Proof. intros Hf. induction l as [|x l IH]; [done|]. apply blind_bind; [done|]. by intros _. Qed.

Section Creation.
Context `{Platform}.

Lemma blind_createAccount a : blind (createAccount a).
Proof.
  assert (forall p, blindQ (Queries.CreateAccount p)) as H1.
  { intros p ms t d. unfold Queries.CreateAccount, guardQ. simpl. repeat case_match; by simplify_eq. }
  assert (forall b no e n, blindQ (UpsertAccountBookBalance b no e n)) as H2.
  { intros b no e n ms t d. unfold UpsertAccountBookBalance, guardQ. simpl. repeat case_match; by simplify_eq. }
  assert (forall o m c, blindQ (SetCustomerDefaultAccountIfEmpty o m c)) as H3.
  { intros o m c ms t d. unfold SetCustomerDefaultAccountIfEmpty. simpl. repeat case_match; by simplify_eq. }
  unfold createAccount. apply blind_bind; [by apply blind_attempt, blind_run|]. intros [e|v]; [done|].
  apply blind_bind.
  - destruct (BookEnabled a); [|done]. apply blind_bind; [apply blind_UUID|]. intros u.
    apply blind_bind; [by apply blind_run|done].
  - intros _. destruct (String.eqb _ _); [done|]. apply blind_bind; [by apply blind_run|done].
Qed.

(** What creating accounts leaves behind. *)
Lemma createAccounts_ok l w w' u :
  forM l createAccount w = (w', Ok u) -> Inv (w_db w) ->
  Inv (w_db w') /\ txns (w_db w') = txns (w_db w) /\ merchants (w_db w') = merchants (w_db w) /\
  (forall k r, accounts (w_db w) !! k = Some r -> accounts (w_db w') !! k = Some r) /\
  (forall a, a ∈ l -> TrimSpace (AccountNo a) = AccountNo a /\
     exists r, accounts (w_db w') !! AccountNo a = Some r /\ ar_book r = BookEnabled a).
Proof.
  revert w. induction l as [|a l IH]; intros w; simpl.
  { intros [-> _]%ret_ok HI. repeat (split; [done|]). intros a Ha. by apply elem_of_nil in Ha. }
  intros (w1 & [] & Hc & Hr)%bind_ok HI.
  apply createAccount_ok in Hc as (HI1 & Hdig & Hnew & r & bs & cs & Hd1 & _ & Hbk & _); [|done].
  destruct (isAccountNo_trim _ Hdig) as [Htrim _].
  apply IH in Hr as (HI' & Ht & Hm & Hacc & Hl); [|done]. rewrite Ht, Hm, Hd1. split; [done|]. do 2 (split; [done|]).
  assert (accounts (w_db w') !! AccountNo a = Some r) as Hra.
  { apply Hacc. rewrite Hd1. simpl. by rewrite lookup_insert_eq. }
  split.
  - intros k x Hk. apply Hacc. rewrite Hd1. simpl. rewrite lookup_insert_ne; [done|congruence].
  - intros b [->|Hb]%elem_of_cons; [eauto|by apply Hl].
Qed.

Lemma Inv_create_merchant m accts w w' u :
  (do! Repository.createMerchant m in forM accts createAccount) w = (w', Ok u) ->
  (exists a, a ∈ accts /\ AccountNo a = WriteoffAccountNo m /\ BookEnabled a = false) ->
  Inv (w_db w) -> good (w_db w) (w_db w').
Proof.
  intros (w1 & [] & Hm & Hr)%bind_ok (a & Ha & Hno & Hbk) HI.
  unfold Repository.createMerchant in Hm. destruct (parseUUID _) as [|id]; [done|].
  unfold Repository.unique_as in Hm. destruct (run _ w) as [w2 [e|[]]] eqn:Erun; [done|]. simplify_eq.
  apply run_ok in Erun as (d & Hq & ->). unfold Queries.CreateMerchant in Hq.
  apply guardQ_ok in Hq as [_ Hq]. apply guardQ_ok in Hq as [_ Hq]. destruct (_ || _ || _); [done|].
  injection Hq as <-. set (row := mkMerchantRow _ _ _ _ _ _ _ _) in *.
  set (ms := <[MerchantNo m := row]> (merchants (w_db w))) in *.
  set (w0 := with_faults (tl (w_faults w)) w).
  change (forM accts createAccount (with_merchants ms w0) = (w', Ok u)) in Hr.
  rewrite (blind_forM accts createAccount blind_createAccount) in Hr.
  destruct (forM accts createAccount w0) as [w3 r3] eqn:Ef. simplify_eq.
  apply createAccounts_ok in Ef as (HI3 & Ht3 & Hm3 & Hacc & Hl); [|done]. simpl in *.
  apply good_txns; [|done].
  unfold ms. rewrite <- Hm3. apply Inv_merchants; [done|]. simpl. intros wo Hwo Hne.
  apply nullableText_some in Hwo. destruct (Hl a Ha) as (Htrim & x & Hx & Hxb). exists x.
  rewrite <- Hwo, <- Hno, !Htrim. split; [done|congruence].
Qed.
End Creation.

(** ** Operations *)

(** What a call must respect: no service departs from it.  A submission starts
    at INIT and cannot make more refundable than it moves; only failures are
    recorded by [TransitionTransferTxnStatus], and never of a transaction that
    succeeded; the calls that bypass the stages are left out. *)
Definition disciplined (o : op) : Prop :=
  match o with
  | OpSubmit req => (RqStatus req = "" \/ RqStatus req = TxnStatusInit) /\ RqRefundableAmount req <= RqAmount req
  | OpTransition _ from to _ _ => to = TxnStatusFailed /\ from <> TxnStatusRecvSuccess
  | OpDecreaseRefundable _ amount => 0 <= amount
  | OpUpdateStatus _ _ _ _ | OpTransferDebit _ _ _ | OpTransferCredit _ _ _ | OpRefundDebit _ _
  | OpRefundCredit _ _ _ => False
  | _ => True
  end.

(** The one operation that adds up the books of an account. *)
Definition needs_fit (o : op) : bool := match o with OpStage _ _ => true | _ => false end.

Section Operations.
Context `{Platform} `{CodeProvider} `{SecretCipher}.

Lemma safe_require {A} e (m : M (option A)) : safe m -> safe (require e m).
Proof. intros Hm. unfold require. via_. Qed.
Lemma safe_withCode {A} s (m : M A) : safe m -> safe (withCode s m).
Proof. intros Hm. unfold withCode. via_. Qed.
Hint Resolve safe_require safe_withCode : coin.

Lemma safe_GetMerchant m : safe (Repository.GetMerchantByNo m).
Proof. unfold Repository.GetMerchantByNo. via_. Qed.
Lemma safe_GetAccount m : safe (Repository.GetAccount m).
Proof. unfold Repository.GetAccount. via_. Qed.
Lemma safe_GetCustomer m u : safe (Repository.GetCustomerByOutUserID m u).
Proof. unfold Repository.GetCustomerByOutUserID. via_. Qed.
Lemma safe_GetTxn m : safe (Repository.GetTransferTxn m).
Proof. unfold Repository.GetTransferTxn, GetTransferTxnByNo. via_. Qed.
Lemma safe_GetAccountByCustomer m c : safe (Repository.GetAccountByCustomerNo m c).
Proof. unfold Repository.GetAccountByCustomerNo. via_. Qed.
Lemma safe_loadFeatures m : safe (loadMerchantFeatureConfig m).
Proof. unfold loadMerchantFeatureConfig, Repository.GetMerchantFeatureConfig. via_. Qed.
Lemma safe_failing o : safe (failing o).
Proof. unfold failing. via_. Qed.
Hint Resolve safe_GetMerchant safe_GetAccount safe_GetCustomer safe_GetTxn safe_GetAccountByCustomer
  safe_loadFeatures safe_failing : coin.

Lemma safe_CreateAccount a : safe (Repository.CreateAccount a).
Proof.
  apply (via_withTx_ok _). intros w w' u Hc HI.
  apply createAccount_ok in Hc as (HI' & _ & _ & r & bs & cs & Hd & _); [|done].
  apply good_txns; [done|by rewrite Hd].
Qed.
Hint Resolve safe_CreateAccount : coin.
Lemma safe_retry n m c : safe (createAccountRetry n m c).
Proof. induction n; simpl; via_. Qed.
Hint Resolve safe_retry : coin.
Lemma safe_ensureDefault m c : safe (ensureDefaultCustomerAccount m c).
Proof. unfold ensureDefaultCustomerAccount. via_. Qed.
Lemma safe_createCustomerOnly m u : safe (createCustomerOnly m u).
Proof. unfold createCustomerOnly, Repository.CreateCustomer. via_. Qed.
Hint Resolve safe_ensureDefault safe_createCustomerOnly : coin.

Lemma safe_withAccounts m accts :
  (exists a, a ∈ accts /\ AccountNo a = WriteoffAccountNo m /\ BookEnabled a = false) ->
  safe (Repository.CreateMerchantWithAccounts m accts).
Proof. intros Ha. apply (via_withTx_ok _). intros w w' u Hr HI. by eapply Inv_create_merchant. Qed.

Lemma safe_CreateMerchant no name : safe (CreateMerchant no name).
Proof.
  unfold CreateMerchant. via_. apply safe_withAccounts. eexists. split; [right; right; left|]. done.
Qed.

Lemma safe_Submit req : disciplined (OpSubmit req) -> safe (Submit req).
Proof.
  intros [Hst Hrf]. unfold Submit. apply (thruM_bind _); [via_|]. intros [e|u]; [via_|]. cbv zeta.
  set (txn := submitTxn _ _).
  assert (forall t, t = txn \/ (exists d c, t = withParties d c txn) ->
            safe (do! Repository.CreateTransferTxn t in ret t)) as Hcreate.
  { intros t Ht. apply (thruM_bind _); [|via_]. apply (thruM_unique_as _), (via_auto _). apply safe_insertTxn.
    - assert (ctp_status (Repository.txnParams t) = Status txn) as -> by (destruct Ht as [->|(d & c & ->)]; reflexivity).
      unfold txn. simpl. by destruct Hst as [-> | ->].
    - assert (ctp_biz (Repository.txnParams t) = BizType txn /\ ctp_refundable (Repository.txnParams t)
        = RefundableAmount txn /\ ctp_amount (Repository.txnParams t) = Amount txn) as (-> & -> & ->)
        by (destruct Ht as [->|(d & c & ->)]; repeat split; reflexivity).
      unfold txn, submitTxn. cbn [BizType RefundableAmount Amount]. set (biz := if String.eqb _ _ then _ else _). intros ->. simpl.
      destruct (Z.ltb_spec (RqRefundableAmount req) 0); simpl; [lia|].
      destruct (Z.eqb_spec (RqRefundableAmount req) 0); lia. }
  destruct (String.eqb _ _).
  - intros w HI. unfold bind at 1.
    assert (safe (refundParties req)) as Hs.
    { unfold refundParties, validateSubmitRefundAccounts, submitAccounts. via_. }
    specialize (Hs w HI). unfold bind at 1. destruct (refundParties req w) as [w1 [e|dc]]; [done|].
    simpl in Hs. eapply good_trans; [exact Hs|]. intros HI1. apply Hcreate; [right; eauto|done].
  - destruct (_ || _).
    + intros w HI. unfold bind at 1.
      assert (safe (validateSubmitTransferAccounts (RqMerchantNo req) (TransferScene txn) (DebitAccountNo txn)
                      (CreditAccountNo txn))) as Hs.
      { unfold validateSubmitTransferAccounts, submitAccounts. via_. }
      specialize (Hs w HI). unfold bind at 1. destruct (validateSubmitTransferAccounts _ _ _ _ w) as [w1 [e|[]]]; [done|].
      simpl in Hs. eapply good_trans; [exact Hs|]. intros HI1. apply Hcreate; [by left|done].
    + apply Hcreate. by left.
Qed.

Lemma stage_advanced no st w :
  Inv (w_db w) -> fits (w_db w) ->
  Inv (w_db (ApplyTxnStage no st w).1) /\ Advanced (w_db w) (w_db (ApplyTxnStage no st w).1).
Proof.
  intros HI Hfit. destruct (ApplyTxnStage no st w) as [w' [res oe]] eqn:E. simpl.
  apply withTxE_inv in E as [[Hd _]|(w1 & w2 & Hd & Hb & Hd' & _)]; [rewrite Hd; split; [done|apply Advanced_refl]|].
  rewrite <- Hd in *. rewrite Hd'. by destruct (stageBody_ok _ _ _ _ _ Hb HI Hfit) as (? & ? & _).
Qed.

Lemma good_stage no st w : Inv (w_db w) -> fits (w_db w) -> good (w_db w) (w_db (ApplyTxnStage no st w).1).
Proof. intros HI Hfit. destruct (stage_advanced no st w HI Hfit). split; [done|by apply Advanced_Hist]. Qed.

Lemma safe_RotateSecret m : safe (RotateSecret m).
Proof.
  unfold RotateSecret. apply (thruM_bind _); [apply (thruM_keeps _), keeps_generateMerchantSecret|]. intros s.
  apply (thruM_bind _); [apply (thruM_keeps _), keeps_attempt, cipher_keeps|]. intros [e|c]; [by apply (thruM_keeps _)|].
  apply (thruM_bind _); [|intros v; by apply (thruM_keeps _)].
  apply (via_withTx_ok _). intros w w' v (_ & _ & _ & ->)%rotateBody_ok HI.
  apply good_txns; [by apply Inv_credentials|done].
Qed.

Lemma good_exec o w :
  disciplined o -> Inv (w_db w) -> (needs_fit o = true -> fits (w_db w)) -> good (w_db w) (w_db (exec o w)).
Proof.
  intros Hdis HI Hfit. destruct o; try (exfalso; exact Hdis); try (by apply good_stage; auto); cbn [exec];
    match goal with |- good _ (w_db (?m w).1) =>
      let Hs := fresh in cut (safe m); [intros Hs; exact (Hs w HI)|] end.
  - apply safe_CreateMerchant.
  - unfold CreateCustomer. via_.
  - unfold EnsureCustomerAccountForCredit. via_.
  - by apply safe_Submit.
  - apply safe_RotateSecret.
  - unfold Repository.UpsertMerchantFeatureConfig. via_.
  - unfold Repository.UpdateAccountCapabilities. via_.
  - simpl in Hdis. destruct Hdis as [-> ?]. unfold Repository.TransitionTransferTxnStatus. via_.
  - unfold Repository.UpdateTransferTxnParties. via_.
  - simpl in Hdis. unfold Repository.TryDecreaseTxnRefundable. via_.
  - unfold Repository.UpsertWebhookConfig. via_.
  - unfold Repository.ClaimDueOutboxEvents, Reads.ClaimDueOutboxEvents. via_.
  - unfold Repository.ClaimDueOutboxEventsByTxnNo. via_.
  - unfold Repository.MarkOutboxEventSuccess. via_.
  - unfold Repository.MarkOutboxEventRetry. via_.
  - apply safe_CreateAccount.
  - apply (via_EnsureAdminUser _), @safe_console.
  - apply (via_CreateAdminUser _), @safe_console.
  - apply (via_GetAdminSetupState _), @safe_console.
  - apply (via_SaveProgress _), @safe_console.
  - apply (via_MarkInitialized _), @safe_console.
  - apply (via_InsertAudit _), @safe_console.
Qed.

(** ** Reachable worlds

    From empty tables, by any sequence of disciplined calls; between two calls
    the clock, the random source, the connection, the code sequences and the
    allocator's memory may become anything. *)
Inductive reachable : World -> Prop :=
| re_start w : w_db w = emptyDB -> reachable w
| re_call w o : reachable w -> disciplined o -> (needs_fit o = true -> fits (w_db w)) -> reachable (exec o w)
| re_env w w' : reachable w -> w_db w' = w_db w -> reachable w'.

Lemma reachable_Inv w : reachable w -> Inv (w_db w).
Proof.
  induction 1 as [w Hd|w o Hr IH Hdis Hfit|w w' Hr IH Hd].
  - rewrite Hd. apply Inv_empty.
  - by apply good_exec.
  - by rewrite Hd.
Qed.

(** [C2] The ledger is consistent in every reachable state: the balance of an
    account is the [int64] sum of its change log; that of a book-enabled
    account is also the sum of its books, each the sum of its own log. *)
Theorem balances_explained w :
  reachable w ->
  (forall no a, accounts (w_db w) !! no = Some a ->
     ar_balance a = wrap64 (alog no (account_changes (w_db w))) /\
     (ar_book a = true -> ar_balance a = wrap64 (book_sum no (books (w_db w))))) /\
  (forall (u : UUID), bookbal u (books (w_db w)) ≡64 blog u (book_changes (w_db w))).
Proof.
  intros HI%reachable_Inv. split; [|apply HI]. intros no a Ha.
  assert (bal no (w_db w) = ar_balance a) as Hb by (unfold bal; by rewrite Ha).
  pose proof (inv_in64 _ HI _ _ Ha) as Hin. split.
  - rewrite <- (wrap64_id _ Hin), <- Hb. apply eq64_wrap, HI.
  - intros Hbk. rewrite <- (wrap64_id _ Hin), <- Hb. apply eq64_wrap, HI. unfold is_book. by rewrite Ha.
Qed.

(** [C1] Money is conserved.  In every reachable state the balances of all
    accounts plus what transactions hold between their two accounts sum to
    zero: a transaction that is INIT or RECV_SUCCESS holds nothing, one that
    is PAY_SUCCESS its amount, and one that FAILED nothing or, when it failed
    after its debit, its amount. *)
Theorem money_conserved w :
  reachable w ->
  Invariant.total (w_db w) + ksum (held (w_db w)) (txns (w_db w)) ≡64 0 /\
  (forall u t, txns (w_db w) !! u = Some t ->
     held (w_db w) u t = 0 /\ tr_status t <> TxnStatusPaySuccess \/
     held (w_db w) u t = tr_amount t /\ (tr_status t = TxnStatusPaySuccess \/ tr_status t = TxnStatusFailed)).
Proof.
  intros HI%reachable_Inv. split.
  - rewrite (total_log _ HI), (log_held _ HI). apply eq64_of_eq. lia.
  - intros u t Hu. rewrite (held_flow _ _ _ HI Hu).
    destruct (inv_flow _ HI _ _ Hu) as [[-> ->]|[[-> ->]|[[-> ->]|[-> [-> | ->]]]]];
      rewrite ?Z.opp_involutive; (left; by split) || (right; split; [done|auto]).
Qed.

(** [C5] Refunds never exceed what was transferred: what refunds have taken
    from the receiver of a transfer, plus what may still be refunded, is at
    most the transfer's amount. *)
Theorem refunds_bounded w o t :
  reachable w -> txns (w_db w) !! o = Some t -> tr_biz t = BizTypeTransfer ->
  0 <= tr_refundable t /\ refunded o (w_db w) + tr_refundable t <= tr_amount t.
Proof. intros HI%reachable_Inv Ho Hb. destruct (inv_refund _ HI _ _ Ho Hb). lia. Qed.

(** The two final statuses have no way out. *)
Lemma status_final st st' :
  rtc status_step st st' -> st = TxnStatusRecvSuccess \/ st = TxnStatusFailed -> st' = st.
Proof.
  intros Hs Hterm. inversion Hs as [|? x ? Hx]; subst; [done|].
  destruct Hterm as [E|E]; rewrite E in Hx; inversion Hx.
Qed.
End Operations.
