(* ===== verification/Typed.v ===== *)
(** * The types of the tables

    Column widths and CHECK constraints of the schema ([migrations/]) as
    predicates on rows, and that no call of the system ever stores a row that
    breaks one, or under another key than its own. *)

From S2P Require Import Prelude GoBase Domain Codes Store Queries Reads Secrets Ledger Repo AdminRepo Via AdminGrow Services Invariant Books LedgerProofs StageProofs Calls Grow System Safety.
From stdpp Require Import base gmap list strings fin_maps.
From Stdlib Require Import ZArith Lia.

Local Open Scope string_scope.
Local Open Scope Z_scope.

Section Rows.
Context `{Platform}.

Definition okAccount (k : string) (a : AccountRow) : Prop :=
  ar_no a = k /\ isAccountNo k = true /\ isMerchantNo (ar_merchant a) = true /\ ochk isMerchantNo (ar_customer a) = true /\
  0 <= ar_limit a /\ varchar 32 (ar_type a) = true.
Definition okBook (u : UUID) (b : BookRow) : Prop := br_no b = u /\ isAccountNo (br_account b) = true.
Definition okTxn (u : UUID) (t : TxnRow) : Prop := tr_no t = u /\ txnWidths t = true /\ txnChecks t = true.
Definition okMerchant (k : string) (m : MerchantRow) : Prop :=
  mr_no m = k /\ isMerchantNo k = true /\ isAccountNo (mr_budget m) = true /\ isAccountNo (mr_receivable m) = true /\
  ovarchar 19 (mr_writeoff m) = true.
Definition okCustomer (k : string) (c : CustomerRow) : Prop :=
  cr_no c = k /\ isMerchantNo k = true /\ isMerchantNo (cr_merchant c) = true /\ varchar 128 (cr_out_user c) = true /\
  ochk isAccountNo (cr_default c) = true.
Definition okChange (c : AccountChangeRow) : Prop := isAccountNo (ac_account c) = true.
Definition okBookChange (c : BookChangeRow) : Prop := isAccountNo (bc_account c) = true.
Definition okEvent (e : OutboxRow) : Prop :=
  isMerchantNo (ob_merchant e) = true /\ ochk outTradeColumn (ob_out_trade e) = true /\ varchar 16 (ob_status e) = true.
Definition okWebhook (k : string) (r : WebhookRow) : Prop := wr_merchant r = k /\ isMerchantNo k = true.
Definition okCredential (k : string * Z) (c : CredentialRow) : Prop := isMerchantNo k.1 = true /\ k.2 = wrap32 k.2.

Record typed (d : DB) : Prop := mkTyped {
  ty_accounts : map_Forall okAccount (accounts d);
  ty_books : map_Forall okBook (books d);
  ty_txns : map_Forall okTxn (txns d);
  ty_merchants : map_Forall okMerchant (merchants d);
  ty_customers : map_Forall okCustomer (customers d);
  ty_changes : Forall okChange (account_changes d);
  ty_book_changes : Forall okBookChange (book_changes d);
  ty_outbox : Forall okEvent (outbox d);
  ty_webhooks : map_Forall okWebhook (webhooks d);
  ty_credentials : map_Forall okCredential (credentials d);
  ty_admin : admin_typed (admin d)
}.

Definition typing (d d' : DB) : Prop := typed d -> typed d'.
#[local] Instance typing_preorder : PreOrder typing.
Proof. split; unfold typing; [by intros d|]. intros x y z; eauto. Qed.

(** ** One table changes *)

Lemma typed_accounts d m : map_Forall okAccount m -> typing d (set_accounts m d).
Proof. by intros Hm []. Qed.
Lemma typed_books d m : map_Forall okBook m -> typing d (set_books m d).
Proof. by intros Hm []. Qed.
Lemma typed_txns d m : map_Forall okTxn m -> typing d (set_txns m d).
Proof. by intros Hm []. Qed.
Lemma typed_merchants d m : map_Forall okMerchant m -> typing d (set_merchants m d).
Proof. by intros Hm []. Qed.
Lemma typed_customers d m : map_Forall okCustomer m -> typing d (set_customers m d).
Proof. by intros Hm []. Qed.
Lemma typed_webhooks d m : map_Forall okWebhook m -> typing d (set_webhooks m d).
Proof. by intros Hm []. Qed.
Lemma typed_outbox d l : Forall okEvent l -> typing d (set_outbox l d).
Proof. by intros Hm []. Qed.

Lemma alter_Forall {K V} `{Countable K} (P : K -> V -> Prop) f k (m : gmap K V) :
  (forall i x, P i x -> P i (f x)) -> map_Forall P m -> map_Forall P (alter f k m).
Proof.
  intros Hf Hm i x Hi. destruct (decide (i = k)) as [->|Hne].
  - rewrite lookup_alter_eq in Hi. destruct (m !! k) eqn:E; [|done]. injection Hi as <-. apply Hf. by apply Hm.
  - rewrite lookup_alter_ne in Hi by done. by apply Hm.
Qed.

(** ** Statements *)

Lemma ty_CreateAccount p : viaQ typing (Queries.CreateAccount p).
Proof.
  intros t d d' [] [Hw [Hc Hq]%guardQ_ok]%guardQ_ok Hd. bools. destruct (accounts d !! cap_no p); simplify_eq.
  apply typed_accounts; [|done]. apply map_Forall_insert_2; [by repeat split|apply Hd].
Qed.
Lemma ty_alter f no (d : DB) :
  (forall r, ar_no (f r) = ar_no r /\ ar_merchant (f r) = ar_merchant r /\ ar_customer (f r) = ar_customer r /\
     ar_limit (f r) = ar_limit r /\ ar_type (f r) = ar_type r) ->
  typing d (set_accounts (alter f no (accounts d)) d).
Proof.
  intros Hf Hd. apply typed_accounts; [|done]. apply alter_Forall; [|apply Hd].
  intros i x Hx. unfold okAccount. by destruct (Hf x) as (-> & -> & -> & -> & ->).
Qed.
Lemma ty_TryCredit n no : viaQ typing (TryCreditAccountBalanceNonBookRefund n no).
Proof.
  intros t d d' v. unfold TryCreditAccountBalanceNonBookRefund. destruct (accounts d !! no) as [r|] eqn:E; [|done].
  destruct (ar_book r); [done|]. destruct (bigintAdd _ _); [done|]. intros [= <- <-] Hd.
  apply typed_accounts; [|done]. apply map_Forall_insert_2; [|apply Hd]. apply (ty_accounts _ Hd _ _ E).
Qed.
Lemma ty_Upsert b no e n : viaQ typing (UpsertAccountBookBalance b no e n).
Proof.
  intros t d d' r. unfold UpsertAccountBookBalance. destruct (castUUID b) as [|[u|]]; try done.
  intros [_ [Hc Hq]%guardQ_ok]%guardQ_ok Hd. destruct (find_book no e (books d)) as [[k b0]|] eqn:Ef.
  - apply find_book_some in Ef as (Hk & _). destruct (bigintAdd _ _); simplify_eq. apply typed_books; [|done].
    apply map_Forall_insert_2; [|apply Hd]. apply (ty_books _ Hd _ _ Hk).
  - destruct (books d !! u); simplify_eq. apply typed_books; [|done]. by apply map_Forall_insert_2; [|apply Hd].
Qed.
Lemma ty_batch seen payload m m' rows :
  batchUpdate seen payload m = Ok (m', rows) -> map_Forall okBook m -> map_Forall okBook m'.
Proof.
  revert seen m m' rows. induction payload as [|[u delta] rest IH]; simpl; intros seen m m' rows Hb Hm; [by simplify_eq|].
  destruct (existsb _ _); [eauto|]. destruct (m !! u) as [b|] eqn:Eu; [|eauto].
  destruct (bigintAdd _ _); [done|]. destruct (batchUpdate _ _ _) as [|[m1 rs]] eqn:E; simplify_eq.
  eapply IH; [exact E|]. apply map_Forall_insert_2; [|done]. apply (Hm _ _ Eu).
Qed.
Lemma ty_Batch nos ds : viaQ typing (BatchUpdateAccountBookBalances nos ds).
Proof.
  intros t d d' rs. unfold BatchUpdateAccountBookBalances. destruct (castUUIDs nos); [|done].
  destruct (batchUpdate _ _ _) as [|[m rows]] eqn:E; [done|]. intros [= <- _] Hd.
  apply typed_books; [|done]. eapply ty_batch; [exact E|apply Hd].
Qed.
Lemma ty_AccountChange p : viaQ typing (InsertAccountChange p).
Proof.
  intros t d d' [] [_ [Hc [= <-]]%guardQ_ok]%guardQ_ok Hd. destruct Hd. split; simpl; try done.
  apply Forall_app. split; [done|]. by apply Forall_singleton.
Qed.
Lemma ty_BookChange p : viaQ typing (InsertAccountBookChange p).
Proof.
  intros t d d' [] [_ [Hc [= <-]]%guardQ_ok]%guardQ_ok Hd. destruct Hd. split; simpl; try done.
  apply Forall_app. split; [done|]. by apply Forall_singleton.
Qed.
Lemma ty_CreateMerchant id no nm b r w : viaQ typing (Queries.CreateMerchant id no nm b r w).
Proof.
  intros t d d' []. unfold Queries.CreateMerchant. intros [Hw [Hc Hq]%guardQ_ok]%guardQ_ok Hd.
  destruct (_ || _ || _); [done|]. injection Hq as <-. bools. apply typed_merchants; [|done].
  apply map_Forall_insert_2; [by repeat split|apply Hd].
Qed.
Lemma ty_Writeoff w no : viaQ typing (UpdateMerchantWriteoffAccountNo w no).
Proof.
  intros t d d' []. unfold UpdateMerchantWriteoffAccountNo. intros [Hw Hq]%guardQ_ok Hd.
  destruct (merchants d !! no) as [r|] eqn:E; [|by simplify_eq]. case_match; simplify_eq.
  all: apply typed_merchants; [|done]; apply map_Forall_insert_2; [|apply Hd];
    destruct (ty_merchants _ Hd _ _ E) as (? & ? & ? & ? & ?); by repeat split.
Qed.
Lemma ty_updateFeatures no a c : viaQ typing (Repository.updateFeatures no a c).
Proof.
  intros t d d' n. unfold Repository.updateFeatures. destruct (merchants d !! no) as [r|] eqn:E; intros [= <- <-] Hd; [|done].
  apply typed_merchants; [|done]. apply map_Forall_insert_2; [|apply Hd]. apply (ty_merchants _ Hd _ _ E).
Qed.
Lemma ty_CreateCustomer id no m u x : viaQ typing (Queries.CreateCustomer id no m u x).
Proof.
  intros t d d' []. unfold Queries.CreateCustomer. intros [Hw [Hc Hq]%guardQ_ok]%guardQ_ok Hd.
  destruct (_ || _); [done|]. injection Hq as <-. bools. apply typed_customers; [|done].
  apply map_Forall_insert_2; [by repeat split|apply Hd].
Qed.
Lemma ty_SetDefault o m c : viaQ typing (SetCustomerDefaultAccountIfEmpty o m c).
Proof.
  intros t d d' n. unfold SetCustomerDefaultAccountIfEmpty. destruct (customers d !! c) as [r|] eqn:E; [|by intros [= <- <-]].
  destruct (_ && _) eqn:Ec; intros [= <- <-] Hd; [|done]. apply andb_true_iff in Ec as [_ Ho].
  destruct o as [no|]; [|done]. destruct (accounts d !! no) as [a|] eqn:Ea; [|done].
  apply typed_customers; [|done]. apply map_Forall_insert_2; [|apply Hd].
  destruct (ty_customers _ Hd _ _ E) as (? & ? & ? & ? & ?). destruct (ty_accounts _ Hd _ _ Ea) as (_ & ? & _).
  by repeat split.
Qed.
Lemma ty_CreateTransferTxn p : viaQ typing (Queries.CreateTransferTxn p).
Proof.
  intros t d d' []. unfold Queries.CreateTransferTxn. destruct (castUUID (ctp_no p)) as [|[u|]]; [done| |by destruct (castUUID _)].
  destruct (castUUID _) as [|ro]; [done|]. intros [Hw [Hc Hq]%guardQ_ok]%guardQ_ok Hd.
  destruct (_ || _); simplify_eq. apply typed_txns; [|done]. by apply map_Forall_insert_2; [|apply Hd].
Qed.

(** An UPDATE of [txn] is checked again. *)
Lemma ty_updateTxn u f d d' b :
  (forall r, tr_no (f r) = tr_no r) -> updateTxn u f d = Ok (d', b) -> typing d d'.
Proof.
  intros Hf Hq Hd. unfold updateTxn in Hq. destruct (txns d !! u) as [r|] eqn:E; [|by simplify_eq].
  apply guardQ_ok in Hq as [Hw Hq]. apply guardQ_ok in Hq as [Hc Hq]. simplify_eq.
  apply typed_txns; [|done]. apply map_Forall_insert_2; [|apply Hd].
  destruct (ty_txns _ Hd _ _ E) as [Hn _]. split; [by rewrite Hf|done].
Qed.
(** Takes apart a statement on one transaction up to its [updateTxn]. *)
Ltac one_txn :=
  intros ? d d' ?;
  unfold Queries.UpdateTransferTxnStatus, UpdateTransferTxnStatusByUUID, UpdateTransferTxnStatusFrom,
    Queries.UpdateTransferTxnParties, DecreaseOriginTxnRefundableIfValid, Queries.TryDecreaseTxnRefundable;
  repeat case_match; intros; simplify_eq; try done;
  match goal with Hu : updateTxn _ _ d = Ok _ |- _ => eapply ty_updateTxn; [|exact Hu]; done end.

Lemma ty_UpsertWebhook m u e : viaQ typing (Queries.UpsertWebhookConfig m u e).
Proof.
  intros t d d' [] [_ [Hc [= <-]]%guardQ_ok]%guardQ_ok Hd. apply typed_webhooks; [|done].
  by apply map_Forall_insert_2; [|apply Hd].
Qed.
Lemma ty_InsertOutbox e u m o s wm : viaQ typing (InsertOutboxEvent e u m o s wm).
Proof.
  intros t d d' []. unfold InsertOutboxEvent. destruct (webhooks d !! wm); [|by intros [= <-]].
  destruct (_ && _); [|by intros [= <-]]. intros [Hw [Hc Hq]%guardQ_ok]%guardQ_ok Hd. bools.
  destruct (existsb _ _); injection Hq as <-; [done|]. apply typed_outbox; [|done].
  apply Forall_app. split; [apply Hd|]. by apply Forall_singleton.
Qed.
Lemma ty_mapOutbox (f : OutboxRow -> OutboxRow) d :
  (forall e, okEvent e -> okEvent (f e)) -> typing d (set_outbox (map f (outbox d)) d).
Proof.
  intros Hf Hd. apply typed_outbox; [|done]. apply Forall_fmap. eapply Forall_impl; [apply Hd|]. exact Hf.
Qed.
Lemma ty_claim p t0 n : viaQ typing (claimOutbox p t0 n).
Proof.
  intros t d d' l [= <- _]. apply ty_mapOutbox. intros e He. case_match; [|done]. by destruct He as (? & ? & _).
Qed.
Lemma ty_updateOutbox e f : (forall x, okEvent x -> okEvent (f x)) -> viaQ typing (updateOutbox e f).
Proof.
  intros Hf t d d' []. unfold updateOutbox. destruct (castUUID e) as [|[u|]]; [done| |by intros [= <-]].
  intros [= <-]. apply ty_mapOutbox. intros x Hx. by case_match; [apply Hf|].
Qed.

#[local] Instance typing_statements : Statements typing.
Proof.
  split; intros; try first
    [ apply _ | apply ty_CreateAccount | apply ty_TryCredit | apply ty_Upsert | apply ty_Batch | apply ty_AccountChange
    | apply ty_BookChange | apply ty_CreateMerchant | apply ty_Writeoff | apply ty_updateFeatures
    | apply ty_CreateCustomer | apply ty_SetDefault | apply ty_CreateTransferTxn | apply ty_UpsertWebhook | apply ty_claim
    | one_txn ].
  - intros t d d' [] [= <-]. by apply ty_alter.
  - intros t d d' [] [= <-]. by apply ty_alter.
  - intros t d d' l. unfold Reads.ClaimDueOutboxEventsByTxnNo.
    destruct (castUUID no) as [|[u|]]; [done|apply ty_claim..].
  - intros t. apply ty_updateOutbox. by intros x (? & ? & _).
  - intros t. apply ty_updateOutbox. intros x (? & ? & _). repeat split; try done. simpl. by destruct dead.
Qed.
#[local] Instance typing_console : ConsoleStatements typing.
Proof. split. intros d a Ha []. split; simpl; try done. by apply (ag_typed (admin d)). Qed.

Context `{CodeProvider} {SC : SecretCipher}.

Lemma ty_rotated m d v c : is_Some (merchants d !! m) -> v = wrap32 v -> typing d (rotated m v c d).
Proof.
  intros [r Hm] Hv Hd. pose proof (ty_merchants _ Hd _ _ Hm) as (_ & Hno & _). destruct Hd. split; try done. simpl.
  apply map_Forall_insert_2; [by split|]. intros k x Hx. rewrite map_lookup_imap in Hx.
  destruct (credentials d !! k) as [y|] eqn:E; [|done]. by apply (ty_credentials0 k y).
Qed.

Lemma typing_exec o w : typed (w_db w) -> typed (w_db (exec o w)).
Proof. apply (via_exec typing); [intros; by apply ty_rotated|]. intros _. apply ty_InsertOutbox. Qed.

Lemma typed_empty : typed emptyDB.
Proof. split; simpl; try apply map_Forall_empty; try by apply Forall_nil. split; [apply map_Forall_empty|by apply Forall_nil|done]. Qed.

Lemma reachable_typed w : reachable w -> typed (w_db w).
Proof.
  induction 1 as [w Hd|w o _ IH _ _|w w' _ IH Hd]; [rewrite Hd; apply typed_empty|by apply typing_exec|by rewrite Hd].
Qed.

(** Worlds reached by any calls at all, those that no service makes included. *)
Inductive called : World -> Prop :=
| cd_start w : w_db w = emptyDB -> called w
| cd_call w o : called w -> called (exec o w)
| cd_env w w' : called w -> w_db w' = w_db w -> called w'.

Lemma called_typed w : called w -> typed (w_db w).
Proof.
  induction 1 as [w Hd|w o _ IH|w w' _ IH Hd]; [rewrite Hd; apply typed_empty|by apply typing_exec|by rewrite Hd].
Qed.
End Rows.

(** ** The schema of the migrations

    Written from the files under [migrations/] alone, on bytes and numbers. *)

Definition bytes (s : string) : list Z := map (fun c => Z.of_nat (Ascii.nat_of_ascii c)) (String.list_ascii_of_string s).
(** VARCHAR(n): at most [n] characters, a character starting at each byte that continues none. *)
Definition Chars (n : Z) (s : string) : Prop :=
  Z.of_nat (length (List.filter (fun b => negb ((128 <=? b) && (b <=? 191))) (bytes s))) <= n.
(** [^[0-9]{n}$]. *)
Definition Digits (n : nat) (s : string) : Prop := length (bytes s) = n /\ Forall (fun b => 48 <= b <= 57) (bytes s).
Definition Alphanumeric (b : Z) : Prop := 65 <= b <= 90 \/ 97 <= b <= 122 \/ 48 <= b <= 57.
(** [^[A-Za-z0-9_\\-]{1,64}$], in which the class holds a backslash. *)
Definition OutTrade (s : string) : Prop :=
  (1 <= length (bytes s) <= 64)%nat /\ Forall (fun b => Alphanumeric b \/ b = 95 \/ b = 92 \/ b = 45) (bytes s).
(** [^[A-Za-z0-9_.-]{3,64}$]. *)
Definition UserName (s : string) : Prop :=
  (3 <= length (bytes s) <= 64)%nat /\ Forall (fun b => Alphanumeric b \/ b = 95 \/ b = 46 \/ b = 45) (bytes s).
Definition Nullable (P : string -> Prop) (o : option string) : Prop := forall s, o = Some s -> P s.

Definition merchant_table (k : string) (m : MerchantRow) : Prop :=
  mr_no m = k /\ Digits 16 k /\ Digits 19 (mr_budget m) /\ Digits 19 (mr_receivable m) /\ Nullable (Chars 19) (mr_writeoff m).
Definition customer_table (k : string) (c : CustomerRow) : Prop :=
  cr_no c = k /\ Digits 16 k /\ Digits 16 (cr_merchant c) /\ Chars 128 (cr_out_user c) /\ Nullable (Digits 19) (cr_default c).
Definition account_table (k : string) (a : AccountRow) : Prop :=
  ar_no a = k /\ Digits 19 k /\ Digits 16 (ar_merchant a) /\ Nullable (Digits 16) (ar_customer a) /\ Chars 32 (ar_type a) /\
  0 <= ar_limit a.
Definition txn_table (u : UUID) (t : TxnRow) : Prop :=
  tr_no t = u /\ Digits 16 (tr_merchant t) /\ OutTrade (tr_out_trade t) /\
  ((tr_biz t = "TRANSFER" /\ tr_scene t <> None) \/ (tr_biz t = "REFUND" /\ tr_scene t = None)) /\
  Nullable (Chars 32) (tr_scene t) /\ Nullable (Chars 128) (tr_title t) /\ Nullable (Chars 512) (tr_remark t) /\
  Nullable (Digits 19) (tr_debit t) /\ Nullable (Digits 19) (tr_credit t) /\ 0 < tr_amount t /\
  (tr_status t = "INIT" \/ tr_status t = "PAY_SUCCESS" \/ tr_status t = "RECV_SUCCESS" \/ tr_status t = "FAILED") /\
  0 <= tr_refundable t /\ Nullable (Chars 64) (tr_error_code t) /\ Nullable (Chars 512) (tr_error_msg t).
Definition outbox_table (e : OutboxRow) : Prop :=
  Digits 16 (ob_merchant e) /\ Nullable OutTrade (ob_out_trade e) /\ Chars 16 (ob_status e).
Definition user_table (k : string) (u : AdminUserRow) : Prop := au_name u = k /\ UserName k /\ Chars 16 (au_status u).
Definition audit_table (r : AuditRow) : Prop :=
  Chars 64 (al_request r) /\ Chars 64 (al_operator r) /\ Chars 64 (al_action r) /\ Chars 32 (al_target_type r) /\
  Chars 128 (al_target r) /\ Chars 16 (al_merchant r) /\ Chars 32 (al_code r).

Record schema (d : DB) : Prop := mkSchema {
  sc_merchant : map_Forall merchant_table (merchants d);
  sc_credential : map_Forall (fun k _ => Chars 16 k.1 /\ -2147483648 <= k.2 <= 2147483647) (credentials d);
  sc_customer : map_Forall customer_table (customers d);
  sc_account : map_Forall account_table (accounts d);
  sc_txn : map_Forall txn_table (txns d);
  sc_account_change_log : Forall (fun c => Digits 19 (ac_account c)) (account_changes d);
  sc_account_book : map_Forall (fun u b => br_no b = u /\ Digits 19 (br_account b)) (books d);
  sc_account_book_change_log : Forall (fun c => Digits 19 (bc_account c)) (book_changes d);
  sc_outbox_event : Forall outbox_table (outbox d);
  sc_webhook_config : map_Forall (fun k r => wr_merchant r = k /\ Digits 16 k) (webhooks d);
  sc_admin_user : map_Forall user_table (admin_users (admin d));
  sc_admin_audit_log : Forall audit_table (audit_log (admin d));
  sc_admin_setup_state : forall s, setup_state (admin d) = Some s -> Chars 64 (ss_username s) /\ Chars 16 (ss_merchant s)
}.

(** ** The guards of the statements imply it *)

Lemma bytes_length s : Z.of_nat (length (bytes s)) = slen s.
Proof. unfold bytes, slen. rewrite length_map. induction s; simpl; lia. Qed.
Lemma bytes_forall p (P : Z -> Prop) s :
  (forall c, p c = true -> P (byte_of c)) -> sforall p s = true -> Forall P (bytes s).
Proof.
  intros Hp. unfold bytes. induction s as [|c s IH]; simpl; [constructor|]. intros [Hc Hs]%andb_true_iff.
  constructor; [by apply Hp|by apply IH].
Qed.

Lemma varchar_Chars n s : varchar n s = true -> Chars n s.
Proof.
  unfold varchar, Chars. intros Hn%Z.leb_le. assert (Z.of_nat (length (List.filter (fun b => negb ((128 <=? b) && (b <=? 191))) (bytes s)))
    = utf8_len s) as ->; [|done]. clear. unfold bytes.
  induction s as [|c s IH]; [done|]. simpl. fold (byte_of c). rewrite <- IH.
  destruct (Z.leb_spec 128 (byte_of c)), (Z.leb_spec (byte_of c) 191), (Z.ltb_spec (byte_of c) 192); simpl; lia.
Qed.
Lemma digits_Digits n s : digits_exactly (Z.of_nat n) s = true -> Digits n s.
Proof.
  unfold digits_exactly. intros [Hn Hs]%andb_true_iff. apply Z.eqb_eq in Hn. split; [pose proof (bytes_length s); lia|].
  eapply bytes_forall; [|exact Hs]. intros c. unfold is_digit. intros. bools. lia.
Qed.
Lemma isMerchantNo_Digits s : isMerchantNo s = true -> Digits 16 s.
Proof. apply (digits_Digits 16). Qed.
Lemma isAccountNo_Digits s : isAccountNo s = true -> Digits 19 s.
Proof. apply (digits_Digits 19). Qed.
Lemma outTrade_OutTrade s : outTradeColumn s = true -> OutTrade s.
Proof.
  unfold outTradeColumn. intros [[H1 H2]%andb_true_iff Hs]%andb_true_iff. bools. pose proof (bytes_length s). split; [lia|].
  eapply bytes_forall; [|exact Hs]. unfold out_trade_char, Alphanumeric. intros c Hc. repeat (apply orb_true_iff in Hc as [Hc|Hc]); bools; lia.
Qed.
Lemma Digits_Chars n s : Digits n s -> Chars (Z.of_nat n) s.
Proof.
  intros [Hn _]. unfold Chars. pose proof (filter_length_le (fun b => negb ((128 <=? b) && (b <=? 191))) (bytes s)). lia.
Qed.
Lemma ochk_Nullable p (P : string -> Prop) o : (forall s, p s = true -> P s) -> ochk p o = true -> Nullable P o.
Proof. intros Hp Ho s ->. by apply Hp. Qed.
Lemma ovarchar_Nullable n o : ovarchar n o = true -> Nullable (Chars n) o.
Proof. intros Ho s ->. by apply varchar_Chars. Qed.
Lemma ochk_account o : ochk isAccountNo o = true -> Nullable (Digits 19) o.
Proof. exact (ochk_Nullable _ _ o isAccountNo_Digits). Qed.
Lemma ochk_merchant o : ochk isMerchantNo o = true -> Nullable (Digits 16) o.
Proof. exact (ochk_Nullable _ _ o isMerchantNo_Digits). Qed.
Lemma ochk_order o : ochk outTradeColumn o = true -> Nullable OutTrade o.
Proof. exact (ochk_Nullable _ _ o outTrade_OutTrade). Qed.
Create HintDb schema.
#[local] Hint Resolve varchar_Chars isMerchantNo_Digits isAccountNo_Digits outTrade_OutTrade ovarchar_Nullable
  ochk_account ochk_merchant ochk_order : schema.

Lemma okTxn_table u t : okTxn u t -> txn_table u t.
Proof.
  intros (Hu & Hw & Hc). unfold txnWidths, txnChecks in *. bools.
  assert ((tr_biz t = "TRANSFER" /\ tr_scene t <> None) \/ (tr_biz t = "REFUND" /\ tr_scene t = None)) as Hscene.
  { unfold sceneMatches in *. destruct (tr_scene t); bools; [by left|by right]. }
  assert (tr_status t = "INIT" \/ tr_status t = "PAY_SUCCESS" \/ tr_status t = "RECV_SUCCESS" \/ tr_status t = "FAILED") as Hstatus.
  { match goal with E : isStatus _ = true |- _ => unfold isStatus in E; repeat (apply orb_true_iff in E as [E|E]); bools; auto end. }
  unfold txn_table. repeat (split; [done || lia || eauto with schema|]). eauto with schema.
Qed.

Lemma okUser_table k u : okUser k u -> user_table k u.
Proof.
  intros (Hn & Hk & Hs). split; [done|]. split; [|rewrite Hs; vm_compute; discriminate].
  unfold isUsername in Hk. bools. pose proof (bytes_length k). split; [lia|].
  match goal with E : sforall _ k = true |- _ => eapply bytes_forall; [|exact E] end.
  unfold username_char, is_digit, Alphanumeric. intros c Hc. repeat (apply orb_true_iff in Hc as [Hc|Hc]); bools; lia.
Qed.

Lemma typed_schema d : typed d -> schema d.
Proof.
  intros [H1 H2 H3 H4 H5 H6 H7 H8 H9 H10 [H11 H12 H13]]. split.
  - intros k m (? & ? & ? & ? & ?)%H4. repeat (split; [done || solve [eauto with schema]|]). solve [eauto with schema].
  - intros k c [? Hv]%H10. split; [eapply (Digits_Chars 16); eauto with schema|]. rewrite Hv. apply wrap32_range.
  - intros k c (? & ? & ? & ? & ?)%H5. repeat (split; [done || solve [eauto with schema]|]). solve [eauto with schema].
  - intros k a (? & ? & ? & ? & ? & ?)%H1. repeat (split; [done || solve [eauto with schema]|]). done.
  - intros u t Ht%H3. by apply okTxn_table.
  - eapply Forall_impl; [exact H6|]. intros c Hc. by apply isAccountNo_Digits.
  - intros u b [? ?]%H2. split; [done|]. eauto with schema.
  - eapply Forall_impl; [exact H7|]. intros c Hc. by apply isAccountNo_Digits.
  - eapply Forall_impl; [exact H8|]. intros e (? & ? & ?). repeat (split; [solve [eauto with schema]|]). solve [eauto with schema].
  - intros k r [? ?]%H9. split; [done|]. eauto with schema.
  - intros k u Hu%H11. by apply okUser_table.
  - eapply Forall_impl; [exact H12|]. intros r (? & ? & ? & ? & ? & ? & ?). repeat (split; [solve [eauto with schema]|]). solve [eauto with schema].
  - intros s [? ?]%H13. split; eauto with schema.
Qed.

(** No sequence is negative. *)
Definition sequences (w : World) : Prop := map_Forall (fun _ v => 0 <= v) (w_seq w).

Lemma sequences_run {A} (q : gmap (string * string) Z -> Result error (gmap (string * string) Z * A)) w :
  (forall s s' a, q s = Ok (s', a) -> map_Forall (fun _ v => 0 <= v) s -> map_Forall (fun _ v => 0 <= v) s') ->
  sequences w -> sequences (runSeq q w).1.
Proof.
  intros Hq Hw. unfold runSeq, pop_fault. simpl. destruct (hd NoFault (w_faults w)); simpl; try done;
    (destruct (q (w_seq w)) as [e|[s' a]] eqn:E; simpl; [done|]); unfold sequences; simpl; by eapply Hq.
Qed.

(** [C20] Types.  In every state reached from the empty tables by any calls,
    those that no service makes included, each row of each table is under its
    own key and meets the column widths and CHECK constraints that the
    migrations state (digits of account, merchant and customer numbers, a limit
    that is not negative, positive amounts, known kinds and statuses, a scene
    on transfers only, order numbers of the allowed alphabet; names of the
    console's users and the widths of its audit log; merchants and versions of
    credentials); and the statements on the code sequences keep
    [next_value] from being negative. *)
Theorem tables_typed `{Platform} `{CodeProvider} {SC : SecretCipher} w :
  called w ->
  schema (w_db w) /\
  forall codeType scopeKey batch, 0 <= batch -> sequences w ->
    sequences (InitCodeSequence codeType scopeKey w).1 /\ sequences (LeaseCodeRange batch codeType scopeKey w).1.
Proof.
  intros Hc%called_typed. split; [by apply typed_schema|]. intros ct sk batch Hb Hs. split; apply sequences_run; try done.
  - intros s s' [] Hq Hm. destruct (s !! (ct, sk)); simplify_eq; [done|]. by apply map_Forall_insert_2.
  - intros s s' a Hq Hm. destruct (s !! (ct, sk)) as [v|] eqn:E; [|done]. destruct (bigintAdd v batch) as [|v'] eqn:Ev; [done|].
    simplify_eq. apply map_Forall_insert_2; [|done]. specialize (Hm _ _ E). simpl in Hm.
    unfold bigintAdd in Ev. case_match; simplify_eq. lia.
Qed.
