(* ===== verification/ProcessorProofs.v ===== *)
(** * What the stage processor does to the ledger

    The processor runs on the repository; whatever the guard answers, one
    stage keeps the ledger invariant, and only an error of the business rules
    fails a transaction. *)

From S2P Require Import Prelude GoBase Domain Codes Store Queries Reads Secrets Ledger Repo Services Processor Invariant Books LedgerProofs StageProofs Calls Grow System Safety.
From stdpp Require Import base gmap list strings.
From Stdlib Require Import ZArith Lia.

Local Open Scope string_scope.
Local Open Scope Z_scope.

(** ** Which errors are final *)

Lemma shouldFailOnError_spec e :
  shouldFailOnError e = true <-> exists b, business_error b /\ errors_is e b = true.
Proof.
  unfold shouldFailOnError, business_error. rewrite existsb_exists. split; intros (b & Hb & He); exists b; split; try done.
  - by apply list_elem_of_In.
  - by apply list_elem_of_In in Hb.
Qed.

(** ** One stage *)

Section Stage.
Context `{Platform} `{CodeProvider} {SC : SecretCipher} {G : Type} `{StageProcessingGuard G} (errText : error -> string).

(** Marking a transaction FAILED. *)
Lemma fail_good no from code msg w :
  from <> TxnStatusRecvSuccess -> Inv (w_db w) -> good (w_db w) (w_db (fail_ no from code msg w)).
Proof.
  intros Hf HI. unfold fail_. simpl. apply (good_exec (OpTransition no from TxnStatusFailed code msg)); [done|done|].
  simpl. discriminate.
Qed.

Lemma stageFailed_good no st biz e w :
  st <> TxnStatusRecvSuccess -> Inv (w_db w) -> good (w_db w) (w_db (stageFailed errText no st biz e w).1).
Proof.
  intros Hst HI. unfold stageFailed, handleStageError. destruct (negb _); [by apply good_refl|].
  destruct (String.eqb st TxnStatusInit).
  - simpl. destruct (shouldFailOnError e); [by apply fail_good|by apply good_refl].
  - destruct (String.eqb st TxnStatusPaySuccess); [|by apply fail_good].
    destruct (String.eqb biz BizTypeRefund); [by apply good_refl|]. simpl.
    destruct (shouldFailOnError e); [by apply fail_good|by apply good_refl].
Qed.

(** The database a stage leaves behind is that of [ApplyTxnStage], perhaps
    with the transaction marked FAILED. *)
Lemma processApply_db no st (p : processor G) w :
  let '(_, w', oe) := processStageWithApplyResult errText no st p w in
  let '(w1, (r, oe1)) := ApplyTxnStage no st w in
  match oe1 with
  | Some e => w' = (stageFailed errText no st (RBizType r) e w1).1 /\ oe = Some (stageFailed errText no st (RBizType r) e w1).2
  | None => w_db w' = w_db w1 \/
      (st <> TxnStatusInit /\ st <> TxnStatusPaySuccess /\ oe = Some ErrTxnStatusInvalid /\
       w' = fail_ no st "TXN_STATUS_INVALID" "unknown txn status" w1)
  end.
Proof.
  unfold processStageWithApplyResult. simpl. destruct (ApplyTxnStage no st w) as [w1 [r [e|]]].
  { by destruct (stageFailed _ _ _ _ _ _). }
  destruct (negb _); [by left|]. destruct (negb (Applied r)).
  - destruct (String.eqb _ _).
    + pose proof (enqueueCurrent_db no p w1) as Hd. destruct (enqueueByCurrentStatus _ _ _) as [[p2 w2] b]. by left.
    + pose proof (enqueueStatus_db no (CurrentStatus r) (Some (stageTxn no r (CurrentStatus r))) p w1) as Hd.
      destruct (enqueueByStatusWithTxn _ _ _ _ _) as [[p2 w2] b]. by left.
  - destruct (String.eqb_spec st TxnStatusInit).
    + pose proof (enqueueStatus_db no TxnStatusPaySuccess (Some (stageTxn no r TxnStatusPaySuccess)) p w1) as Hd.
      destruct (enqueueByStatusWithTxn _ _ _ _ _) as [[p2 w2] b]. by left.
    + destruct (String.eqb_spec st TxnStatusPaySuccess); [by left|]. right. auto.
Qed.

Lemma processApply_good no st (p : processor G) w p' w' oe :
  processStageWithApplyResult errText no st p w = (p', w', oe) -> st <> TxnStatusRecvSuccess ->
  Inv (w_db w) -> fits (w_db w) -> good (w_db w) (w_db w').
Proof.
  intros Hr Hst HI Hfit. pose proof (processApply_db no st p w) as Hd. rewrite Hr in Hd.
  pose proof (good_stage no st w HI Hfit) as Hg. destruct (ApplyTxnStage no st w) as [w1 [r [e|]]]; simpl in Hg.
  - destruct Hd as [-> _]. eapply good_trans; [exact Hg|]. by apply stageFailed_good.
  - destruct Hd as [->|(_ & _ & _ & ->)]; [done|]. eapply good_trans; [exact Hg|]. by apply fail_good.
Qed.

(** The two ways through [processStage]: the ledger untouched, or one stage
    under the guard. *)
Lemma processStage_inv no st (p : processor G) w p' w' oe :
  processStage errText no st p w = (p', w', oe) ->
  w_db w' = w_db w \/
  exists st' (p1 : processor G) w1 (p2 : processor G), st' <> TxnStatusRecvSuccess /\ st' <> TxnStatusFailed /\ w_db w1 = w_db w /\
    processStageWithApplyResult errText (TrimSpace no) st' p1 w1 = (p2, w', oe).
Proof.
  unfold processStage. destruct (String.eqb (TrimSpace no) ""); [intros; simplify_eq; by left|].
  set (x := if String.eqb (TrimSpace st) "" then _ else _).
  assert (w_db x.1 = w_db w) as Hx.
  { unfold x. destruct (String.eqb _ _); [|done]. pose proof (load_db (TrimSpace no) w) as Hl.
    by destruct (load _ w). }
  destruct x as [w0 [st'|]]; simpl in Hx; [|intros; simplify_eq; by left].
  destruct (_ || _) eqn:Et; [intros; simplify_eq; by left|].
  destruct (tryStage _ _ _) as [g [e|[|]]]; [intros; simplify_eq; by left| |intros; simplify_eq; by left].
  destruct (processStageWithApplyResult _ _ _ _ _) as [[p2 w2] oe2] eqn:Ep. intros; simplify_eq.
  apply orb_false_iff in Et as [E1 E2]. bools.
  right. exists st', (setGuard g p), w0, p2. auto.
Qed.

(** Whatever stage of whatever transaction a worker processes, whatever
    the guard answers and the connection does, the ledger invariant holds
    afterwards, and every transaction has stayed or moved along the state
    machine. *)
Lemma processStage_safe no st (p : processor G) w p' w' oe :
  Inv (w_db w) -> fits (w_db w) ->
  processStage errText no st p w = (p', w', oe) ->
  Inv (w_db w') /\ Hist (w_db w) (w_db w').
Proof.
  intros HI Hfit [Hd|(st' & p1 & w1 & p2 & Hr & _ & Hd & Hp)]%processStage_inv.
  - rewrite Hd. by apply good_refl.
  - rewrite <- Hd in *. by eapply processApply_good.
Qed.

(** ** Which transactions fail *)

(** Only an error of the business rules makes the processor write. *)
Lemma stageFailed_why no st biz e w :
  (stageFailed errText no st biz e w).1 = w \/
  exists b, business_error b /\ errors_is (stageFailed errText no st biz e w).2 b = true.
Proof.
  unfold stageFailed, handleStageError. destruct (negb _); [by left|].
  assert (forall c from, (if shouldFailOnError e then fail_ no from c (errText e) w else w) = w \/
            exists b, business_error b /\ errors_is e b = true) as Hc.
  { intros c from. destruct (shouldFailOnError e) eqn:Es; [|by left]. right. by apply shouldFailOnError_spec. }
  destruct (String.eqb st TxnStatusInit); [apply Hc|].
  destruct (String.eqb st TxnStatusPaySuccess); [destruct (String.eqb biz BizTypeRefund); [by left|apply Hc]|].
  right. exists ErrTxnStatusInvalid. split; [by right; left|done].
Qed.

(** [C10] Only the business rules fail a transaction.  If processing a stage
    turns a transaction FAILED, the caller is given an error of the closed
    list of business errors; a lost connection, an error of the database, of
    the allocator, of the random source or of the guard leaves it where it
    was, to be processed again. *)
Theorem only_business_errors_fail no st (p : processor G) w p' w' oe (u : UUID) t t' :
  Inv (w_db w) -> fits (w_db w) ->
  processStage errText no st p w = (p', w', oe) ->
  txns (w_db w) !! u = Some t -> txns (w_db w') !! u = Some t' ->
  tr_status t <> TxnStatusFailed -> tr_status t' = TxnStatusFailed ->
  exists e b, oe = Some e /\ business_error b /\ errors_is e b = true.
Proof.
  intros HI Hfit [Hd|(st' & p1 & w1 & p2 & Hr & _ & Hd & Hp)]%processStage_inv Ht Ht' Hn Hf.
  { rewrite Hd in Ht'. congruence. }
  rewrite <- Hd in *. pose proof (processApply_db (TrimSpace no) st' p1 w1) as Hdb. rewrite Hp in Hdb.
  destruct (stage_advanced (TrimSpace no) st' w1 HI Hfit) as [_ Ha].
  destruct (Ha u t Ht) as (t1 & Ht1 & Hadv).
  assert (tr_status t1 <> TxnStatusFailed) as Hn1.
  { inversion Hadv as [s E1 E2|E1 E2|E1 E2]; [congruence|done|done]. }
  destruct (ApplyTxnStage (TrimSpace no) st' w1) as [w2 [r [e|]]]; simpl in Ht1.
  - destruct Hdb as [-> ->]. destruct (stageFailed_why (TrimSpace no) st' (RBizType r) e w2) as [Hw|(b & Hb)].
    + rewrite Hw in Ht'. congruence.
    + exists (stageFailed errText (TrimSpace no) st' (RBizType r) e w2).2, b. by split.
  - destruct Hdb as [Hd2|(_ & _ & -> & _)]; [rewrite Hd2 in Ht'; simplify_eq|].
    exists ErrTxnStatusInvalid, ErrTxnStatusInvalid. split; [done|]. split; [by right; left|done].
Qed.
End Stage.
