(* ===== verification/ServerProofs.v ===== *)
(** * What the running server does to the ledger

    Every request, every iteration of every worker and every restart of the
    server leads from a reachable state to a reachable state: what [Safety]
    and its sequels prove of those holds under the server, whatever it is
    sent. *)

From S2P Require Import Prelude GoBase Domain Codes Encoding Config Json Store Queries Reads Secrets Ledger Repo AdminRepo Via Webhook Services TxnQuery Api Auth Router AdminAuth AdminSetup AdminRoutes AdminTxns Through AdminThrough Processor Server Invariant Books LedgerProofs StageProofs Calls Grow System Safety ProcessorProofs.
From stdpp Require Import base gmap list strings.
From Stdlib Require Import ZArith Lia.

Local Open Scope string_scope.
Local Open Scope Z_scope.

(** ** Calls lead from reachable to reachable *)

Section Onward.
Context {PF : Platform} {CP : CodeProvider} {SC : SecretCipher}.

(** Reachable states stay so, and no transaction moves but along the edges of
    the state machine. *)
Definition onward (w w' : World) : Prop := reachable w -> reachable w' /\ Hist (w_db w) (w_db w').

Lemma onward_db w w' : w_db w' = w_db w -> onward w w'.
Proof. intros Hd Hr. split; [by eapply re_env|]. by rewrite Hd. Qed.

#[global] Instance onward_passage : Passage onward.
Proof.
  split; [split|exact onward_db].
  - intros w. by apply onward_db.
  - intros x y z Hxy Hyz [Hy Hh]%Hxy. destruct (Hyz Hy) as [Hz Hh']. split; [done|]. by etrans.
Qed.

Lemma onward_call o w : disciplined o -> (needs_fit o = true -> fits (w_db w)) -> onward w (exec o w).
Proof.
  intros Hd Hf Hr. split; [by apply re_call|].
  exact (proj2 (good_exec o w Hd (reachable_Inv _ Hr) Hf)).
Qed.
Lemma onward_op o w : disciplined o -> needs_fit o = false -> onward w (exec o w).
Proof. intros Hd Hn. apply onward_call; [done|]. by rewrite Hn. Qed.

#[global] Instance onward_writes : Writes onward.
Proof.
  split.
  - intros req Hq w. by apply (onward_op (OpSubmit req)).
  - intros m u w. by apply (onward_op (OpEnsureCustomerAccount m u)).
  - intros no name w. by apply (onward_op (OpCreateMerchant no name)).
  - intros m w. by apply (onward_op (OpRotateSecret m)).
  - intros m a c w. by apply (onward_op (OpFeatureConfig m a c)).
  - intros m u e w. by apply (onward_op (OpWebhookConfig m u e)).
Qed.

#[global] Instance onward_audits {PT : PgText} c : Audits onward c.
Proof. split. intros e _ w. by apply (onward_op (OpAudit PT e)). Qed.

#[global] Instance onward_adminWrites : AdminWrites onward.
Proof.
  split.
  - intros m u w. by apply (onward_op (OpCreateCustomer m u)).
  - intros a w. by apply (onward_op (OpCreateAccount a)).
  - intros no d c t w. by apply (onward_op (OpCapabilities no d c t)).
  - intros u p w. by apply (onward_op (OpEnsureAdminUser u p)).
  - intros u p w. by apply (onward_op (OpCreateAdminUser u p)).
  - intros w. by apply (onward_op OpSetupState).
  - intros u m w. by apply (onward_op (OpSaveProgress u m)).
  - intros u m w. by apply (onward_op (OpMarkInitialized u m)).
Qed.

#[global] Instance onward_deliveries : Deliveries onward.
Proof.
  split.
  - intros n now w. by apply (onward_op (OpClaim n now)).
  - intros no n now w. by apply (onward_op (OpClaimTxn no n now)).
  - intros e w. by apply (onward_op (OpMarkSuccess e)).
  - intros e n next dead w. by apply (onward_op (OpMarkRetry e n next dead)).
Qed.

(** ** Stages *)

Lemma onward_fail no from code msg w : from <> TxnStatusRecvSuccess -> onward w (fail_ no from code msg w).
Proof. intros Hf. by apply (onward_op (OpTransition no from TxnStatusFailed code msg)). Qed.

Lemma onward_stageFailed errText no st biz e w :
  st <> TxnStatusRecvSuccess -> onward w (stageFailed errText no st biz e w).1.
Proof.
  intros Hst. unfold stageFailed, handleStageError. destruct (negb _); [done|].
  destruct (String.eqb st TxnStatusInit); simpl.
  - destruct (shouldFailOnError e); [by apply onward_fail|done].
  - destruct (String.eqb st TxnStatusPaySuccess); [|by apply onward_fail].
    destruct (String.eqb biz BizTypeRefund); [done|]. simpl.
    destruct (shouldFailOnError e); [by apply onward_fail|done].
Qed.

Context {G : Type} {SG : StageProcessingGuard G} (errText : error -> string).

Lemma onward_processStage no st (p : processor G) w p' w' oe :
  fits (w_db w) -> processStage errText no st p w = (p', w', oe) -> onward w w'.
Proof.
  intros Hfit [Hd|(st' & p1 & w1 & p2 & Hr & _ & Hd & Hp)]%processStage_inv; [by apply onward_db|].
  rewrite <- Hd in Hfit. etrans; [by apply onward_db|].
  pose proof (processApply_db errText (TrimSpace no) st' p1 w1) as Hdb. rewrite Hp in Hdb.
  pose proof (onward_call (OpStage (TrimSpace no) st') w1 I (fun _ => Hfit)) as Hs. cbn [exec] in Hs.
  destruct (ApplyTxnStage (TrimSpace no) st' w1) as [w2 [r [e|]]]; simpl in Hs; (etrans; [exact Hs|]).
  - destruct Hdb as [-> _]. by apply onward_stageFailed.
  - destruct Hdb as [Hd2|(_ & _ & _ & ->)]; [by apply onward_db|by apply onward_fail].
Qed.

Lemma onward_work (f : nat -> processor G -> World -> option (processor G * World)) i p w p' w' :
  f = workInit errText \/ f = workPaySuccess errText -> fits (w_db w) -> f i p w = Some (p', w') -> onward w w'.
Proof.
  intros Hf Hfit. destruct Hf as [-> | ->]; unfold workInit, workPaySuccess;
    (destruct (receive _ _) as [[no q]|]; [|done]);
    destruct (processStage _ _ _ _ _) as [[p2 w2] oe] eqn:E; intros [= _ <-]; by eapply onward_processStage.
Qed.

(** ** Recovery *)

Lemma keeps_dispatch st l (p : processor G) w : w_db (dispatch st l p w).1.2 = w_db w.
Proof.
  revert p w. induction l as [|no l IH]; intros p w; simpl; [done|].
  pose proof (enqueueStatus_db no st None p w) as Hd. unfold EnqueueByStatus.
  destruct (enqueueByStatusWithTxn no st None p w) as [[p1 w1] ok]. specialize (IH p1 w1).
  destruct (dispatch st l p1 w1) as [[p2 w2] n]. simpl in *. congruence.
Qed.

Lemma keeps_listTxnNos wk st : keeps (listTxnNosByStatus wk st).
Proof.
  unfold listTxnNosByStatus, Repository.ListStaleTransferTxnNosByStatus, Repository.ListTransferTxnsByStatus. keep.
Qed.

Lemma keeps_RunOnceStatus wk st (p : processor G) w : w_db (RunOnceStatus wk st p w).1.2 = w_db w.
Proof.
  unfold RunOnceStatus. pose proof (keeps_listTxnNos wk st w) as Hd.
  destruct (listTxnNosByStatus wk st w) as [w1 [e|nos]]; [done|].
  pose proof (keeps_dispatch st nos p w1) as Hd1. destruct (dispatch st nos p w1) as [[p2 w2] n]. simpl in *. congruence.
Qed.

Lemma keeps_recovery wk (p : processor G) w : w_db (Processor.RunOnce wk p w).2 = w_db w.
Proof.
  unfold Processor.RunOnce. pose proof (keeps_RunOnceStatus wk TxnStatusInit p w) as H1.
  destruct (RunOnceStatus wk TxnStatusInit p w) as [[p1 w1] x].
  pose proof (keeps_RunOnceStatus wk TxnStatusPaySuccess p1 w1) as H2.
  destruct (RunOnceStatus wk TxnStatusPaySuccess p1 w1) as [[p2 w2] y]. simpl in *. congruence.
Qed.

(** ** The server *)

Context {PT : PgText} {BC : Bcrypt} {UL : UUIDLib} {JB : JsonBinding} {AB : AdminBinding} {C : Type} {HC : HttpClient C}
  (su : Setup).
Implicit Types (s : Server G C).

Lemma onward_worked s w f i :
  f = workInit errText \/ f = workPaySuccess errText -> fits (w_db w) ->
  onward w (worked s w (f i (sv_processor s) w)).2.
Proof.
  intros Hf Hfit. destruct (f i (sv_processor s) w) as [[p' w']|] eqn:E; simpl; [|done].
  by eapply onward_work.
Qed.

Lemma onward_webhooks {A} (m : @W C A) s w : thruW onward m -> onward w (onWebhooks m s w).2.
Proof.
  intros Hm. specialize (Hm (sv_webhooks s) (sv_http s) w). unfold onWebhooks.
  by destruct (m _ _ w) as [[[k h] w1] a].
Qed.

Lemma onward_recovery wk s w : onward w (onProcessor (Processor.RunOnce wk) s w).2.
Proof.
  pose proof (keeps_recovery wk (sv_processor s) w) as Hd. unfold onProcessor.
  destruct (Processor.RunOnce wk (sv_processor s) w) as [p w1]. by apply passage_db.
Qed.

Lemma onward_compensate cw s w : onward w (compensate cw s w).2.
Proof.
  unfold compensate. destruct (txnWorker cw) as [t|].
  - pose proof (onward_recovery t s w) as Hd. destruct (onProcessor _ s w) as [s1 w1].
    destruct (notifyWorker cw); [|done]. etrans; [exact Hd|]. apply onward_webhooks, thruW_RunOnce; apply _.
  - destruct (notifyWorker cw); [|done]. apply onward_webhooks, thruW_RunOnce; apply _.
Qed.

Lemma onward_handle e s w : (stageEvent e = true -> fits (w_db w)) -> onward w (handle errText su e s w).1.2.
Proof.
  intros Hfit. destruct e; simpl.
  - pose proof (through_serve onward (su_routes su) r q (sv_processor s) w (fun c => thru_handler onward _ c q r)) as Hs.
    by destruct (serve _ _ _ _ _) as [[p w1] resp].
  - pose proof (through_serveAdmin onward (su_console su) r q (sv_processor s) w
      (fun h m c user => thru_adminHandler onward h c user m q r)) as Hs.
    by destruct (serveAdmin _ _ _ _ _) as [[p w1] resp].
  - apply onward_worked; auto.
  - apply onward_worked; auto.
  - apply onward_webhooks, thruW_workQueue; apply _.
  - apply onward_webhooks, thruW_RunOnce; apply _.
  - apply onward_recovery.
  - apply onward_compensate.
Qed.

(** From empty tables, any sequence of events at any number of servers on one
    database, each of which may lose its memory at any time; between two
    events the clock, the random source, the connection and the allocators
    may become anything. *)
Inductive serving : Server G C -> World -> Prop :=
| se_start s w : w_db w = emptyDB -> serving s w
| se_event s w e : serving s w -> (stageEvent e = true -> fits (w_db w)) ->
    serving (handle errText su e s w).1.1 (handle errText su e s w).1.2
| se_env s w w' : serving s w -> w_db w' = w_db w -> serving s w'
| se_server s s' w : serving s w -> serving s' w.

(** What may happen at such servers after a moment. *)
Inductive goes_on (s : Server G C) (w : World) : Server G C -> World -> Prop :=
| go_here : goes_on s w s w
| go_event s1 w1 e : goes_on s w s1 w1 -> (stageEvent e = true -> fits (w_db w1)) ->
    goes_on s w (handle errText su e s1 w1).1.1 (handle errText su e s1 w1).1.2
| go_env s1 w1 w2 : goes_on s w s1 w1 -> w_db w2 = w_db w1 -> goes_on s w s1 w2
| go_server s1 s2 w1 : goes_on s w s1 w1 -> goes_on s w s2 w1.

Lemma serving_reachable s w : serving s w -> reachable w.
Proof.
  induction 1 as [s w Hd|s w e _ IH Hfit|s w w' _ IH Hd|s s' w _ IH]; [by apply re_start| |by eapply re_env|done].
  by apply onward_handle.
Qed.
Lemma goes_on_onward s w s' w' : goes_on s w s' w' -> onward w w'.
Proof.
  induction 1 as [|s1 w1 e _ IH Hfit|s1 w1 w2 _ IH Hd|s1 s2 w1 _ IH]; [done| | |done].
  - etrans; [exact IH|by apply onward_handle].
  - etrans; [exact IH|by apply onward_db].
Qed.


(** [C9] Transactions only move forward.  From any moment at the servers to any
    later one, whatever requests, iterations of workers, faults and restarts
    come between, the status of every transaction goes along the edges INIT to
    PAY_SUCCESS to RECV_SUCCESS, or to FAILED from either of the first two;
    RECV_SUCCESS and FAILED never change.  An event that applies a stage
    requires the tables to be within [fits] at that moment. *)
Theorem statuses_move_forward s w s' w' u t :
  serving s w -> goes_on s w s' w' ->
  txns (w_db w) !! u = Some t ->
  exists t', txns (w_db w') !! u = Some t' /\ rtc status_step (tr_status t) (tr_status t') /\
    (tr_status t = TxnStatusRecvSuccess \/ tr_status t = TxnStatusFailed -> tr_status t' = tr_status t).
Proof.
  intros Hs%serving_reachable Hg%goes_on_onward Hu. destruct (Hg Hs) as [_ Hh].
  destruct (Hh u t Hu) as (t' & Ht' & Hst). exists t'. split; [done|]. split; [done|].
  intros Hterm. by apply status_final.
Qed.

(** A query changes nothing: serving a request to a route that reads leaves
    every table as it was, whoever sends it and whatever it says. *)
Lemma queries_change_nothing o r q (p : processor G) w :
  query r = true -> w_db (serve o r q p w).1.2 = w_db w.
Proof.
  intros Hq.
  assert (Passage (fun w w' => w_db w' = w_db w)) as HP.
  { split; [|done]. split; [by intros x|by intros x y z -> ->]. }
  apply (through_serve (fun w w' => w_db w' = w_db w)). intros c.
  by apply (thru_query (fun w w' => w_db w' = w_db w)).
Qed.
End Onward.
