(* ===== verification/AdminProofs.v ===== *)
(** * Sessions of the console

    A token the server signed is accepted with its claims until it expires,
    and only such a token opens a protected route. *)

From S2P Require Import Prelude GoBase Domain Codes Encoding Calendar Json JsonDecode JsonProofs Store Queries Reads Secrets Ledger Repo AdminRepo Via AdminGrow Services TxnQuery Api Auth Router AdminAuth AdminSetup AdminRoutes AdminTxns Through AdminThrough Invariant Calls Grow System.
From stdpp Require Import base gmap list strings.
From Stdlib Require Import ZArith Lia.

Local Open Scope string_scope.
Local Open Scope Z_scope.

(** ** Splitting at dots *)

Definition no_dot : string -> bool := sforall (fun c => negb (byte_of c =? 46)).

Lemma splitOn_dot a s : no_dot a = true -> splitOn 46 (a ++ "." ++ s) = a :: splitOn 46 s.
Proof.
  induction a as [|c a IH]; [done|]. unfold no_dot. cbn [sforall]. intros [Hc Ha]%andb_true_iff.
  apply negb_true_iff in Hc. rewrite sapp_cons. cbn [splitOn]. by rewrite Hc, IH.
Qed.
Lemma splitOn_none a : no_dot a = true -> splitOn 46 a = [a].
Proof.
  induction a as [|c a IH]; [done|]. unfold no_dot. cbn [sforall splitOn]. intros [Hc Ha]%andb_true_iff.
  apply negb_true_iff in Hc. by rewrite Hc, IH.
Qed.
Lemma b64_no_dot s : no_dot (b64Encode s) = true.
Proof. eapply sforall_impl; [|apply b64Encode_token]. by intros c [_ ?]%andb_true_iff. Qed.

(** ** Tokens *)

(** Claims come back from the text of a token. *)
Lemma claims_roundtrip c :
  validUTF8 0 (Subject c) = true -> validUTF8 0 (TokenType c) = true -> in64 (IssuedAt c) -> in64 (ExpiresAt c) ->
  Unmarshal storeClaim (mkClaims "" "" 0 0) (claimsText c) = Some c.
Proof.
  intros Hs Ht Hi He. destruct c as [sub typ iat exp]. unfold Unmarshal, claimsText. cbn [Subject TokenType IssuedAt ExpiresAt] in *.
  rewrite (parse_struct _ [VStr sub; VStr typ; VNum (FormatInt iat); VNum (FormatInt exp)]).
  - unfold decodeStruct. cbn [map combine fst fold_left].
    change (foldName "sub") with "SUB". change (foldName "typ") with "TYP". change (foldName "iat") with "IAT".
    change (foldName "exp") with "EXP". unfold storeClaim. cbn. rewrite !ParseInt_FormatInt by done. done.
  - repeat constructor; by apply reads_string || apply reads_number || done.
Qed.

Section Tokens.
Context (m : adminTokenManager).

Lemma verified_sign c :
  validUTF8 0 (Subject c) = true -> validUTF8 0 (TokenType c) = true -> in64 (IssuedAt c) -> in64 (ExpiresAt c) ->
  verifiedClaims m (sign m c) = Ok c.
Proof.
  intros. unfold verifiedClaims, sign. rewrite TrimSpace_graphic.
  2:{ unfold signRaw. rewrite !sforall_app, !b64Encode_graphic. done. }
  rewrite !sapp_assoc, !splitOn_dot, splitOn_none by apply b64_no_dot. unfold signRaw at 1.
  rewrite String.eqb_refl. cbn [negb]. by rewrite b64_roundtrip, claims_roundtrip.
Qed.

Lemma Unix_in64 t : in64 (Unix t).
Proof. apply wrap64_in64. Qed.

(** What a signed token is worth: of the type asked for, until it expires. *)
Lemma parse_sign c typ w :
  validUTF8 0 (Subject c) = true -> validUTF8 0 (TokenType c) = true -> in64 (IssuedAt c) -> in64 (ExpiresAt c) ->
  TrimSpace (Subject c) <> "" -> TrimSpace (TokenType c) = TokenType c -> TrimSpace typ = typ ->
  ParseAndValidate m (sign m c) typ w =
    if String.eqb (TokenType c) typ
    then (let! now := timeNow in if ExpiresAt c <=? Unix now then ret (Err "token expired") else ret (Ok c)) w
    else (w, Ok (Err "invalid token type")).
Proof.
  intros Hs Ht Hi He Hne Htt Hty. unfold ParseAndValidate. rewrite verified_sign by done.
  unfold isEmpty. apply String.eqb_neq in Hne. rewrite Hne, Htt, Hty. by destruct (String.eqb (TokenType c) typ).
Qed.

(** [C15] A session lasts as long as it says.  Each token of a pair issued to a
    user is accepted for its own purpose, from whatever state the server is
    in, exactly until the second its expiry claim names, and then with the
    claims it was issued with; for the other purpose it is never accepted: a
    refresh token opens no route and an access token buys no new pair. *)
Theorem token_round_trip u w w' p :
  let user := TrimSpace u in
  user <> "" -> validUTF8 0 user = true -> IssueTokenPair m u w = (w', Ok p) ->
  exists now, timeNow w = (w', Ok now) /\
    accessExpireAt p = timeAdd now (accessTTL m) /\ refreshExpireAt p = timeAdd now (refreshTTL m) /\
    forall w1 w2 later, timeNow w1 = (w2, Ok later) ->
      ParseAndValidate m (accessToken p) adminTokenTypeAccess w1 =
        (w2, Ok (if Unix (accessExpireAt p) <=? Unix later then Err "token expired"
                 else Ok (mkClaims user adminTokenTypeAccess (Unix now) (Unix (accessExpireAt p))))) /\
      ParseAndValidate m (refreshToken p) adminTokenTypeRefresh w1 =
        (w2, Ok (if Unix (refreshExpireAt p) <=? Unix later then Err "token expired"
                 else Ok (mkClaims user adminTokenTypeRefresh (Unix now) (Unix (refreshExpireAt p))))) /\
      ParseAndValidate m (refreshToken p) adminTokenTypeAccess w1 = (w1, Ok (Err "invalid token type")) /\
      ParseAndValidate m (accessToken p) adminTokenTypeRefresh w1 = (w1, Ok (Err "invalid token type")).
Proof.
  intros user Hne Hv. unfold IssueTokenPair. fold user. unfold isEmpty. rewrite (proj2 (String.eqb_neq _ _) Hne).
  intros (w0 & now & Hn & [-> ->]%ret_ok)%bind_ok. exists now. do 3 (split; [done|]).
  intros w1 w2 later Hl. cbn [accessToken refreshToken accessExpireAt refreshExpireAt].
  assert (TrimSpace user <> "") as Ht by (unfold user; by rewrite TrimSpace_idem).
  rewrite !parse_sign by first [done | apply Unix_in64]. cbn [Subject TokenType IssuedAt ExpiresAt].
  change (String.eqb adminTokenTypeAccess adminTokenTypeRefresh) with false.
  change (String.eqb adminTokenTypeRefresh adminTokenTypeAccess) with false.
  change (String.eqb adminTokenTypeAccess adminTokenTypeAccess) with true.
  change (String.eqb adminTokenTypeRefresh adminTokenTypeRefresh) with true.
  cbv iota. unfold bind. rewrite Hl. split; [by destruct (_ <=? _)|]. split; [by destruct (_ <=? _)|done].
Qed.
End Tokens.

(** ** Who gets through *)

Section Admission.
Context (m : adminTokenManager).

(** A token of this server: the text of [c] with its HMAC under the secret. *)
Definition signed_token (token : string) (c : adminTokenClaims) : Prop :=
  exists header payload raw,
    splitOn 46 (TrimSpace token) = [header; payload; signRaw m (header ++ "." ++ payload)] /\
    b64Decode payload = Some raw /\ Unmarshal storeClaim (mkClaims "" "" 0 0) raw = Some c.

Lemma verified_iff token c : verifiedClaims m token = Ok c <-> signed_token token c.
Proof.
  unfold verifiedClaims, signed_token. split.
  - destruct (splitOn _ _) as [|h [|p [|s [|]]]]; try done. destruct (negb _) eqn:Es; [done|]. bools.
    destruct (b64Decode p) as [raw|] eqn:Er; [|done]. destruct (Unmarshal _ _ raw) eqn:Eu; [|done]. intros [= <-].
    exists h, p, raw. by subst.
  - intros (h & p & raw & -> & Hr & Hu). by rewrite String.eqb_refl, Hr, Hu.
Qed.

(** The claims admit their subject to [typ] at [now]. *)
Definition valid_for (typ : string) (now : Time) (c : adminTokenClaims) : Prop :=
  TrimSpace (Subject c) <> "" /\ TrimSpace (TokenType c) = typ /\ Unix now < ExpiresAt c.

Lemma validate_cases token typ w :
  (exists c w' now, ParseAndValidate m token typ w = (w', Ok (Ok c)) /\ timeNow w = (w', Ok now) /\
     signed_token token c /\ valid_for (TrimSpace typ) now c) \/
  (exists w' msg, ParseAndValidate m token typ w = (w', Ok (Err msg)) /\
     forall c w1 now, timeNow w = (w1, Ok now) -> signed_token token c -> ~ valid_for (TrimSpace typ) now c).
Proof.
  unfold ParseAndValidate, isEmpty. destruct (verifiedClaims m token) as [msg|c] eqn:Ev.
  { right. exists w, msg. split; [done|]. intros c ? ? _ Hs%verified_iff. congruence. }
  assert (forall c', signed_token token c' -> c' = c) as Huniq by (intros c' Hs%verified_iff; congruence).
  destruct (String.eqb_spec (TrimSpace (Subject c)) "") as [E1|E1].
  { right. eexists _, _. split; [done|]. by intros c' ? ? _ ->%Huniq []. }
  destruct (String.eqb_spec (TrimSpace (TokenType c)) (TrimSpace typ)) as [E2|E2]; simpl.
  2:{ right. eexists _, _. split; [done|]. by intros c' ? ? _ ->%Huniq (? & ? & _). }
  unfold bind. destruct (timeNow w) as [w1 [e|now]] eqn:Et; [done|].
  destruct (Z.leb_spec (ExpiresAt c) (Unix now)).
  - right. eexists _, _. split; [done|]. intros c' ? ? [= _ <-] ->%Huniq (_ & _ & ?). lia.
  - left. exists c, w1, now. split; [done|]. split; [done|]. split; [by apply verified_iff|done].
Qed.

(** The request bears a token that admits [user] at [now]. *)
Definition bears (q : Request) (user : string) (now : Time) : Prop :=
  exists scheme token c,
    cutAt 32 (TrimSpace (q_header q "Authorization")) = Some (scheme, token) /\
    EqualFold (TrimSpace scheme) "Bearer" = true /\ signed_token token c /\
    valid_for adminTokenTypeAccess now c /\ user = Subject c.

Lemma signed_trim token c : signed_token (TrimSpace token) c <-> signed_token token c.
Proof. unfold signed_token. by rewrite TrimSpace_idem. Qed.

Lemma middleware_cases rid q w :
  (exists user w' now, adminMiddleware m rid q w = (w', Ok (Ok user)) /\ timeNow w = (w', Ok now) /\ bears q user now) \/
  (exists w' resp, adminMiddleware m rid q w = (w', Ok (Err resp)) /\ httpCode resp = 401 /\ data resp = None /\
     forall user w1 now, timeNow w = (w1, Ok now) -> ~ bears q user now).
Proof.
  unfold adminMiddleware, abortWithCode, bears. destruct (isEmpty _) eqn:Ee.
  { right. eexists _, _. do 3 (split; [done|]). intros user w1 now _ (scheme & token & c & Hc & _).
    unfold isEmpty in Ee. apply String.eqb_eq in Ee. by rewrite Ee in Hc. }
  destruct (cutAt _ _) as [[scheme token]|].
  2:{ right. eexists _, _. do 3 (split; [done|]). by intros user w1 now _ (? & ? & ? & ? & _). }
  destruct (EqualFold _ _) eqn:Ef; cbn [negb].
  2:{ right. eexists _, _. do 3 (split; [done|]). intros user w1 now _ (? & ? & ? & [= <- <-] & ? & _). congruence. }
  unfold bind. destruct (validate_cases (TrimSpace token) adminTokenTypeAccess w) as
    [(c & w' & now & -> & Ht & Hs & Hv)|(w' & msg & -> & Hno)].
  - left. exists (Subject c), w', now. do 2 (split; [done|]). exists scheme, token, c. by rewrite <- signed_trim.
  - right. eexists _, _. do 3 (split; [done|]). intros user w1 now Ht (? & ? & c & [= <- <-] & _ & Hs & Hv & _).
    by apply (Hno c w1 now Ht); [apply signed_trim|].
Qed.

Context {PF : Platform} {PT : PgText} {CP : CodeProvider} {SC : SecretCipher} {BC : Bcrypt} {UL : UUIDLib}
  {AB : AdminBinding} {D : Type} {TD : TransferDispatcher D}.

(** [C14] The console is closed without a token.  A request to any route but
    the public four runs its handler exactly when its Authorization header
    bears an access token that this server signed and that has not expired,
    and runs it as the subject of that token; any other request is answered
    401 with no data, and changes no table and nothing in the server. *)
Theorem console_needs_token h r q (s : D) w w1 w2 rid now :
  adminPublic r = false -> RequestIDMiddleware q w = (w1, Ok rid) -> timeNow w1 = (w2, Ok now) ->
  (forall user, bears q user now ->
     serveAdmin (Some (h, m)) r q s w =
       let '(s3, w3, resp) := runH (adminHandler h m (mkContext rid None (q_param q) (q_query q)) (Some user) q r) s w2 in
       (s3, w3, Some resp)) /\
  ((forall user, ~ bears q user now) ->
     exists w3 resp, serveAdmin (Some (h, m)) r q s w = (s, w3, Some resp) /\ w_db w3 = w_db w /\
       httpCode resp = 401 /\ data resp = None).
Proof.
  intros Hr Hrid Ht. unfold serveAdmin, adminAdmitted. rewrite Hr, Hrid. unfold bind, ret.
  pose proof (keeps_RequestID q w) as K1. rewrite Hrid in K1. pose proof (keeps_adminMiddleware m rid q w1) as K2.
  destruct (middleware_cases rid q w1) as [(user & w' & now' & E & Ht' & Hb)|(w' & resp & E & Hc & Hd & Hno)];
    rewrite E in *.
  - rewrite Ht in Ht'. injection Ht' as <- <-. split; [|intros Hno; by destruct (Hno user)].
    intros user' Hb'. enough (user' = user) as -> by done. destruct Hb as (? & ? & c & Hcut & _ & Hs & _ & ->).
    destruct Hb' as (? & ? & c' & Hcut' & _ & Hs' & _ & ->). rewrite Hcut in Hcut'. injection Hcut' as <- <-.
    apply verified_iff in Hs, Hs'. congruence.
  - split; [intros user Hb; by destruct (Hno user _ _ Ht)|]. intros _. exists w', resp. simpl in *. by rewrite K2, K1.
Qed.
End Admission.
