(* ===== verification/ApiProofs.v ===== *)
(** * What a merchant is shown

    The read handlers of the API, run on the repository: what they answer, and
    of whose rows it is made. *)

From S2P Require Import Prelude GoBase Domain Codes Encoding Config Json Store Queries Reads Secrets Paging Ledger Repo Via Webhook Services TxnQuery Api Auth Router Through Processor Server Invariant Books LedgerProofs.
From stdpp Require Import base gmap list strings.
From Stdlib Require Import ZArith Lia.

Local Open Scope string_scope.
Local Open Scope Z_scope.

(** ** Reading *)

(** [m] leaves the tables [d] alone, and what it returns satisfies [K]. *)
Definition reads (d : DB) {A} (m : M A) (K : A -> Prop) : Prop :=
  forall w, w_db w = d -> w_db (m w).1 = d /\ forall a, (m w).2 = Ok a -> K a.

Section Calls.
Context (d : DB).

Lemma reads_ret {A} (a : A) (K : A -> Prop) : K a -> reads d (ret a) K.
Proof. intros Ha w Hw. split; [done|]. by intros a' [= <-]. Qed.
Lemma reads_bind {A B} (m : M A) (k : A -> M B) K K' :
  reads d m K -> (forall a, K a -> reads d (k a) K') -> reads d (bind m k) K'.
Proof.
  intros Hm Hk w Hw. destruct (Hm w Hw) as [Hd Ha]. unfold bind. destruct (m w) as [w1 [e|a]]; simpl in *; [done|].
  apply Hk; auto.
Qed.
Lemma reads_attempt {A} (m : M A) K :
  reads d m K -> reads d (attempt m) (fun r => match r with Ok a => K a | Err _ => True end).
Proof.
  intros Hm w Hw. destruct (Hm w Hw) as [Hd Ha]. unfold attempt. destruct (m w) as [w1 r]; simpl in *. split; [done|].
  intros a [= <-]. destruct r; [done|]. by apply Ha.
Qed.
Lemma reads_auto {A} (q : Q A) : pureQ q -> reads d (auto q) (fun a => exists t, q t d = Ok (d, a)).
Proof.
  intros Hq w Hw. split; [by rewrite (keeps_auto q Hq w)|]. intros a Ha. unfold auto in Ha.
  destruct (startNow w) as [w1 r1] eqn:Es. unfold bind in Ha. rewrite Es in Ha.
  assert (w_db w1 = d) as Hd1.
  { unfold startNow, timeNow in Es. by simplify_eq. }
  destruct r1; [done|]. destruct (run q w1) as [w2 r2] eqn:E. simpl in Ha. subst r2. apply run_Ok in E as [E _].
  exists (w_txnow w1). rewrite Hd1 in E. by rewrite <- (Hq _ _ _ _ E) at 2.
Qed.
Lemma reads_found {A} (m : M A) K : reads d m K -> reads d (Repository.found m) (fun o => forall a, o = Some a -> K a).
Proof.
  intros Hm. eapply reads_bind; [by apply reads_attempt|]. intros [e|a] Ha; apply reads_ret; [done|]. by intros a' [= <-].
Qed.
End Calls.

(** ** Handlers *)

(** A handler on the tables [d]: what it writes satisfies [Q], what it goes on
    with [K]. *)
Definition answers (d : DB) (Q : Response -> Prop) {S A} (m : @H S A) (K : A -> Prop) : Prop :=
  forall s w, w_db w = d -> match m s w with (_, w1, Err r) => Q r | (_, w1, Ok a) => w_db w1 = d /\ K a end.

Section Handlers.
Context (d : DB) (Q : Response -> Prop) (Hother : forall r, httpCode r <> 200 -> Q r).
Context {S : Type} (c : Context).

Lemma answers_ret {A} (a : A) (K : A -> Prop) : K a -> answers d Q (retH a : @H S A) K.
Proof. by intros Ha s w. Qed.
Lemma answers_bind {A B} (m : @H S A) (f : A -> @H S B) K K' :
  answers d Q m K -> (forall a, K a -> answers d Q (f a) K') -> answers d Q (bindH m f) K'.
Proof.
  intros Hm Hf s w Hw. specialize (Hm s w Hw). unfold bindH. destruct (m s w) as [[s1 w1] [r|a]]; [done|].
  destruct Hm. by apply Hf.
Qed.
Lemma answers_error {A} http code msg (K : A -> Prop) : http <> 200 -> answers d Q (writeError c http code msg : @H S A) K.
Proof. intros Hh s w Hw. by apply Hother. Qed.
Lemma answers_reject b http code msg :
  http <> 200 -> answers d Q (reject c b http code msg : @H S _) (fun _ => b = false).
Proof. intros Hh. unfold reject. destruct b; [by apply answers_error|by apply answers_ret]. Qed.
Lemma answers_lift {A} (m : M A) K :
  reads d m K -> answers d Q (liftH m : @H S _) (fun r => match r with Ok a => K a | Err _ => True end).
Proof.
  intros Hm s w Hw. destruct (Hm w Hw) as [Hd Ha]. unfold liftH. destruct (m w) as [w1 r]. split; [done|].
  destruct r; [done|]. by apply Ha.
Qed.
Lemma answers_liftO {A} (m : M (option A)) (K : A -> Prop) :
  reads d m (fun o => forall a, o = Some a -> K a) -> answers d Q (liftO m : @H S _) (fun o => forall a, o = Some a -> K a).
Proof.
  intros Hm s w Hw. destruct (Hm w Hw) as [Hd Ha]. unfold liftO. destruct (m w) as [w1 r]. split; [done|].
  destruct r; [done|]. by apply Ha.
Qed.
Lemma answers_merchant :
  answers d Q (contextMerchant c : @H S _) (fun m => x_merchant c = Some m /\ TrimSpace m <> "").
Proof.
  unfold contextMerchant, MerchantNoFromContext. destruct (x_merchant c) as [m|]; [|by apply answers_error].
  unfold isEmpty. destruct (String.eqb_spec (TrimSpace m) ""); [by apply answers_error|by apply answers_ret].
Qed.
Lemma answers_pathParam n msg : answers d Q (pathParam c n msg : @H S _) (fun _ => True).
Proof.
  unfold pathParam. eapply answers_bind; [by apply answers_reject|]. intros _ _. by apply answers_ret.
Qed.
Lemma answers_pageSize : answers d Q (parsePageSize c : @H S _) (fun _ => True).
Proof.
  unfold parsePageSize. destruct (isEmpty _); [by apply answers_ret|]. destruct (ParseInt _) as [v|]; [|by apply answers_error].
  destruct (v <=? 0); [by apply answers_error|by apply answers_ret].
Qed.
Lemma answers_time n msg : answers d Q (parseTimeParam c n msg : @H S _) (fun _ => True).
Proof.
  unfold parseTimeParam. destruct (isEmpty _); [by apply answers_ret|].
  destruct (Calendar.parseRFC3339 _); [by apply answers_ret|by apply answers_error].
Qed.
Lemma answers_success j (K : Response -> Prop) :
  (forall rid, K (mkResponse 200 "SUCCESS" "ok" rid (Some j))) -> answers d Q (writeSuccess c j : @H S _) K.
Proof. intros HK. apply answers_ret, HK. Qed.
End Handlers.

(** ** Rows of the merchant *)

Section Own.
Context {PF : Platform} (d : DB).

Definition txnJson (t : TxnRow) : json := toTxnResponse (queryTxnFromTransferTxn (Repository.transferTxnFromByNoRow t)).
Definition changeJson (r : AccountChangeRow) : json := changeLogResponse (Repository.changeLogOf (r, txns d !! ac_txn r)).

(** The transactions of merchant [m], and the changes of its accounts. *)
Inductive own (m : string) : json -> Prop :=
| own_txn (u : UUID) t : txns d !! u = Some t -> tr_merchant t = m -> own m (txnJson t)
| own_change r a : r ∈ account_changes d -> accounts d !! ac_account r = Some a -> ar_merchant a = m -> own m (changeJson r).

Inductive answer (m : string) : json -> Prop :=
| an_item j : own m j -> answer m j
| an_page items next : (forall j, j ∈ items -> own m j) -> answer m (pageOf items next).

Definition stored (x : QueryTxn) : Prop :=
  exists (u : UUID) t, txns d !! u = Some t /\ x = queryTxnFromTransferTxn (Repository.transferTxnFromByNoRow t).

Lemma reads_GetByTxnNo no :
  reads d (GetByTxnNo (NewTxnQueryService true) no) (fun o => forall x, o = Some x -> stored x).
Proof.
  unfold GetByTxnNo. simpl. eapply reads_bind with (K := fun o : option TransferTxn => forall t, o = Some t -> stored (queryTxnFromTransferTxn t)).
  2:{ intros [t|] Ht; apply reads_ret; intros x [= <-]. by apply Ht. }
  unfold Repository.GetTransferTxn. eapply reads_bind; [apply reads_found, reads_auto, pure_txnByText|].
  intros o Ho. apply reads_ret. intros t Ht. destruct o as [r|]; [|done]. injection Ht as <-.
  destruct (Ho r eq_refl) as [t0 Hq]. unfold GetTransferTxnByNo, txnByText in Hq.
  destruct (castUUID no) as [|[u|]]; [done| |done]. apply one_ok in Hq as [_ Hq]. by exists u, r.
Qed.

Lemma reads_GetByOutTradeNo m no :
  reads d (GetByOutTradeNo (NewTxnQueryService true) m no) (fun o => forall x, o = Some x -> stored x /\ QMerchantNo x = m).
Proof.
  unfold GetByOutTradeNo. simpl.
  eapply reads_bind with (K := fun o : option TransferTxn => forall t, o = Some t -> stored (queryTxnFromTransferTxn t) /\ TMerchantNo t = m).
  2:{ intros [t|] Ht; apply reads_ret; intros x [= <-]. by apply Ht. }
  unfold Repository.GetTransferTxnByOutTradeNo.
  eapply reads_bind; [apply reads_found, reads_auto; exact (pure_GetTransferTxnByOutTradeNo _ _)|].
  intros o Ho. apply reads_ret. intros t Ht. destruct o as [r|]; [|done]. injection Ht as <-.
  destruct (Ho r eq_refl) as [t0 Hq]. apply (one_ok _ t0) in Hq as [_ [Hin Hm]%find_some]. bools.
  apply list_elem_of_In, list_elem_of_fmap in Hin as ([u x] & -> & Hin). apply elem_of_map_to_list in Hin.
  split; [by exists u, x|done].
Qed.

(** A page is part of what was found. *)
Lemma cutPage_in {A} n tok (items : list A) x : x ∈ (Repository.cutPage n tok items).1 -> x ∈ items.
Proof.
  unfold Repository.cutPage. destruct (_ <=? _); [done|]. simpl. intros (i & Hi & _)%elem_of_take.
  by apply list_elem_of_lookup_2 in Hi.
Qed.
Lemma limit_in {A} n (l : list A) x : x ∈ limit n l -> x ∈ l.
Proof. unfold limit. intros (i & Hi & _)%elem_of_take. by apply list_elem_of_lookup_2 in Hi. Qed.

Lemma reads_List f m :
  QFMerchantNo f = m -> m <> "" ->
  reads d (List_ (NewTxnQueryService true) f) (fun r => forall x, x ∈ r.1 -> stored x /\ QMerchantNo x = m).
Proof.
  intros Hm Hne. unfold List_. simpl.
  eapply reads_bind with (K := fun r : list TransferTxn * string => forall t, t ∈ r.1 -> stored (queryTxnFromTransferTxn t) /\ TMerchantNo t = m).
  2:{ intros [l nx] Hl. apply reads_ret. simpl. intros x (t & -> & Ht)%list_elem_of_fmap. by apply Hl. }
  unfold Repository.ListTransferTxns. destruct (match DecodePageToken _ with None => _ | _ => _ end) as [e|cur].
  { apply reads_ret. intros t Ht. by apply elem_of_nil in Ht. }
  eapply reads_bind; [apply reads_attempt, reads_auto; exact (pure_ListTransferTxns _)|]. intros [e|rows] Hr; apply reads_ret.
  { intros t Ht. by apply elem_of_nil in Ht. }
  destruct Hr as [t0 [= Hr]]. intros t Ht%cutPage_in. apply list_elem_of_fmap in Ht as (r & -> & Hin).
  rewrite <- Hr in Hin. apply limit_in, elem_of_sort_by, in_filter in Hin as [Hp Hin].
  apply list_elem_of_fmap in Hin as ([u x] & -> & Hin). apply elem_of_map_to_list in Hin. simpl in *.
  split; [by exists u, x|]. apply andb_true_iff in Hp as [Hp _]. unfold txn_matches in Hp. simpl in Hp. rewrite Hm in Hp.
  rewrite (proj2 (String.eqb_neq _ _) Hne) in Hp. repeat apply andb_true_iff in Hp as [Hp _].
  by apply String.eqb_eq in Hp.
Qed.

Lemma reads_ChangeLogs f m :
  LFMerchantNo f = m ->
  reads d (ListAccountChangeLogs (NewTxnQueryService true) f) (fun r => forall l, l ∈ r.1 ->
    exists c a, l = Repository.changeLogOf (c, txns d !! ac_txn c) /\ c ∈ account_changes d /\
      accounts d !! ac_account c = Some a /\ ar_merchant a = m).
Proof.
  intros Hm. unfold ListAccountChangeLogs. simpl. unfold Repository.ListAccountChangeLogs.
  eapply reads_bind; [apply reads_attempt, reads_auto; exact (pure_ListAccountChangeLogs _ _ _ _)|].
  intros [e|rows] Hr; apply reads_ret.
  { intros t Ht. by apply elem_of_nil in Ht. }
  destruct Hr as [t0 [= Hr]]. intros t Ht%cutPage_in. apply list_elem_of_fmap in Ht as (r & -> & Hin).
  rewrite <- Hr in Hin. apply list_elem_of_fmap in Hin as (c & -> & Hin).
  apply limit_in, elem_of_sort_by, in_filter in Hin as [Hp Hin]. apply andb_true_iff in Hp as [Hp _].
  unfold change_matches in Hp. apply andb_true_iff in Hp as [_ Hp].
  destruct (accounts d !! ac_account c) as [a|] eqn:E; [|done]. bools. exists c, a. rewrite Hp. auto.
Qed.
End Own.

(** ** The routes *)

(** What a merchant may see: an answer that is not a success, or one made of
    its own rows. *)
Definition ownAnswer `{Platform} (d : DB) (c : Context) (r : Response) : Prop :=
  httpCode r = 200 -> exists m j, x_merchant c = Some m /\ data r = Some j /\ answer d m j.

Section Routes.
Context {PF : Platform} {CP : CodeProvider} {UL : UUIDLib} {S : Type} {TD : TransferDispatcher S}.
Context (d : DB) (c : Context).

Lemma other_own r : httpCode r <> 200 -> ownAnswer d c r.
Proof. by intros Hr Hh. Qed.
(** The side conditions of [answers]. *)
Ltac other := first [exact other_own | done].

Notation shows := (answers d (ownAnswer d c)).

Lemma success_own m j : x_merchant c = Some m -> answer d m j -> shows (writeSuccess c j : @H S _) (ownAnswer d c).
Proof. intros Hm Hj. apply answers_success. intros rid _. by exists m, j. Qed.

Lemma shows_store : shows (queryStore businessHandler c : @H S _) (fun q => q = NewTxnQueryService true).
Proof. by apply answers_ret. Qed.

Lemma stored_own m x : stored d x -> QMerchantNo x = m -> own d m (toTxnResponse x).
Proof. intros (u & t & Ht & ->) Hm. by apply (own_txn d m u t). Qed.

Lemma shows_GetByTxnNo : shows (handleGetByTxnNo businessHandler c : @H S _) (ownAnswer d c).
Proof.
  unfold handleGetByTxnNo. eapply answers_bind; [apply shows_store|]. intros q ->.
  eapply answers_bind; [apply answers_merchant; other|]. intros m [Hm _].
  eapply answers_bind; [apply answers_pathParam; other|]. intros no _.
  eapply answers_bind; [apply answers_liftO, reads_GetByTxnNo|]. intros [x|] Hx; [|apply answers_error; other].
  destruct (String.eqb_spec (QMerchantNo x) m); simpl; [|apply answers_error; other].
  apply (success_own m); [done|]. apply an_item, stored_own; auto.
Qed.

Lemma shows_GetByOutTradeNo : shows (handleGetByOutTradeNo businessHandler c : @H S _) (ownAnswer d c).
Proof.
  unfold handleGetByOutTradeNo. eapply answers_bind; [apply shows_store|]. intros q ->.
  eapply answers_bind; [apply answers_merchant; other|]. intros m [Hm _].
  eapply answers_bind; [apply answers_pathParam; other|]. intros no _.
  eapply answers_bind; [apply answers_liftO, reads_GetByOutTradeNo|]. intros [x|] Hx; [|apply answers_error; other].
  destruct (Hx x eq_refl). apply (success_own m); [done|]. by apply an_item, stored_own.
Qed.

Lemma shows_listed {A B} (m : M (list A * B)) (none : B) (P : A -> Prop) :
  reads d m (fun r => forall x, x ∈ r.1 -> P x) ->
  shows (listed m none : @H S _) (fun r => forall x, x ∈ r.1 -> P x).
Proof.
  intros Hm. unfold listed. eapply answers_bind; [by apply answers_lift|]. intros [e|x] Hx; [|by apply answers_ret].
  apply answers_ret. intros x Hx'. by apply elem_of_nil in Hx'.
Qed.

Lemma shows_ListTransactions : shows (handleListTransactions businessHandler c : @H S _) (ownAnswer d c).
Proof.
  unfold handleListTransactions. eapply answers_bind; [apply shows_store|]. intros q ->.
  eapply answers_bind; [apply answers_merchant; other|]. intros m [Hm Hne].
  eapply answers_bind; [apply answers_pageSize; other|]. intros n _.
  eapply answers_bind; [apply answers_time; other|]. intros st _.
  eapply answers_bind; [apply answers_time; other|]. intros en _.
  eapply answers_bind; [apply answers_reject; other|]. intros _ _.
  eapply answers_bind; [by apply shows_listed, (reads_List d _ m); [|intros ->]|]. intros [l next] Hl.
  apply (success_own m); [done|]. apply an_page. intros j (x & -> & Hx)%list_elem_of_fmap.
  destruct (Hl x Hx). by apply stored_own.
Qed.

Lemma shows_ChangeLogs : shows (handleListAccountChangeLogs businessHandler c : @H S _) (ownAnswer d c).
Proof.
  unfold handleListAccountChangeLogs. eapply answers_bind; [apply answers_reject; other|]. intros _ _.
  eapply answers_bind; [apply shows_store|]. intros q ->.
  eapply answers_bind; [apply answers_merchant; other|]. intros m [Hm _].
  eapply answers_bind; [apply answers_pathParam; other|]. intros no _.
  eapply answers_bind with (K := fun _ => True).
  { unfold existingAccount. eapply answers_bind with (K := fun _ => True).
    - intros s w Hw. pose proof (keeps_GetAccount no w) as Hd. unfold liftO. destruct (Repository.GetAccount no w).
      split; [|done]. simpl in Hd. congruence.
    - intros [a|] _; [by apply answers_ret|apply answers_error; other]. }
  intros a _. eapply answers_bind; [apply answers_reject; other|]. intros _ _.
  eapply answers_bind; [apply answers_pageSize; other|]. intros n _.
  eapply answers_bind; [by apply shows_listed, reads_ChangeLogs|]. intros [l next] Hl.
  apply (success_own m); [done|]. apply an_page. intros j (x & -> & Hx)%list_elem_of_fmap.
  destruct (Hl x Hx) as (r & a' & -> & Hr & Ha & Hma). by eapply own_change.
Qed.
End Routes.

(** ** The theorem *)

Definition privateQuery (r : Route) : bool :=
  match r with RGetTxn | RGetByOutTradeNo | RListTransactions | RAccountChangeLogs => true | _ => false end.

Section Isolation.
Context {PF : Platform} {CP : CodeProvider} {SC : SecretCipher} {UL : UUIDLib} {JB : JsonBinding}
  {S : Type} {TD : TransferDispatcher S}.

Lemma private_handler cfg c q r d :
  privateQuery r = true ->
  answers d (ownAnswer d c) (handler (routesOptions cfg) c q r : @H S _) (ownAnswer d c).
Proof.
  destruct r; try done; intros _; unfold handler; cbn [o_business routesOptions default from_option].
  - apply shows_GetByTxnNo.
  - apply shows_GetByOutTradeNo.
  - apply shows_ListTransactions.
  - apply shows_ChangeLogs.
Qed.

Lemma rejected_not_ok ac rid q w w' resp : authenticate ac rid q w = (w', Ok (Err resp)) -> httpCode resp <> 200.
Proof.
  unfold authenticate, abortWithCode. cbv zeta.
  destruct (_ || _ || _ || _); [by intros [= _ <-]|]. destruct (negb _); [by intros [= _ <-]|].
  unfold bind at 1, attempt. destruct (activeSecret _ w) as [w1 [e|[secret|]]]; [by intros [= _ <-]| |by intros [= _ <-]].
  unfold verifyRequest, abortWithCode. destruct (parseTimestamp _); [|by intros [= _ <-]].
  unfold bind. destruct (timeNow w1) as [w2 [e|now]]; [done|]. destruct (_ <? _); [by intros [= _ <-]|].
  destruct (q_body q); [|by intros [= _ <-]]. cbv zeta. by destruct (negb _); [intros [= _ <-]|].
Qed.

(** [C19] A merchant is shown its own rows only.  Served by the routes of
    [main], a query for transactions or account changes that is answered with
    success came from an authenticated merchant, and every transaction and
    change in the answer is a row of the database that belongs to it. *)
Theorem shown_rows_own cfg r q (s s' : S) w w' resp :
  privateQuery r = true ->
  serve (routesOptions cfg) r q s w = (s', w', Some resp) -> httpCode resp = 200 ->
  exists m j rid w1 w2,
    authenticate (mkAuthConfig true (durationOf (AuthWindowSeconds cfg) Second)) rid q w1 = (w2, Ok (Ok m)) /\
    data resp = Some j /\ answer (w_db w) m j.
Proof.
  intros Hp Hs Hok. unfold serve in Hs. destruct (negb _); [done|].
  pose proof (keeps_RequestID q w) as Hd1. destruct (RequestIDMiddleware q w) as [w1 [e|rid]]; [done|]. simpl in Hd1.
  assert (public r = false) as Hpub by (by destruct r).
  unfold admitted in Hs. rewrite Hpub in Hs. cbn [o_auth routesOptions] in Hs.
  set (ac := mkAuthConfig _ _) in *. unfold bind, ret in Hs.
  pose proof (keeps_authenticate ac rid q w1) as Hd2.
  destruct (authenticate ac rid q w1) as [w2 [e|[resp'|m]]] eqn:Ea; [done| |]; simpl in Hd2.
  - injection Hs as _ _ <-. by apply rejected_not_ok in Ea.
  - set (c := mkContext _ _ _ _) in Hs.
    pose proof (private_handler cfg c q r (w_db w) Hp s w2 ltac:(congruence)) as Hh. unfold runH in Hs.
    destruct (handler _ c q r s w2) as [[s3 w3] [resp'|resp']]; injection Hs as _ _ ->.
    + destruct (Hh Hok) as (m' & j & [= <-] & Hj & Ha). by exists m, j, rid, w1, w2.
    + destruct Hh as [_ Hh]. destruct (Hh Hok) as (m' & j & [= <-] & Hj & Ha). by exists m, j, rid, w1, w2.
Qed.
End Isolation.
