(* ===== verification/QueueProofs.v ===== *)
(** * Stage queues and guards under concurrency

    The queues and guards of [Processor] as state machines: producers, any
    number of workers, in any interleaving of their atomic sections. *)

From S2P Require Import Prelude GoBase Domain Codes Store Queries Reads Ledger Repo Processor.
From stdpp Require Import base gmap list strings.
From Stdlib Require Import ZArith Lia.

Local Open Scope Z_scope.

(** ** Queues *)

Module Queue.

(** A queue and the items its workers are processing. *)
Record state : Type := mkState { queue : stageQueue; running : list string }.

Inductive step : state -> state -> Prop :=
| st_enqueue q run no key : step (mkState q run) (mkState (EnqueueWithRoute no key q).1 run)
| st_receive q run i x q' : receive i q = Some (x, q') -> step (mkState q run) (mkState q' (x :: run))
| st_done q run1 x run2 : step (mkState q (run1 ++ x :: run2)) (mkState (Done x q) (run1 ++ run2)).

Inductive reachable (workers size_ : Z) : state -> Prop :=
| re_new : reachable workers size_ (mkState (newStageQueueWithWorkers workers size_) [])
| re_step s s' : reachable workers size_ s -> step s s' -> reachable workers size_ s'.

(** Everything queued or running. *)
Definition items (s : state) : list string := concat (workerQueues (queue s)) ++ running s.

Record ok (s : state) : Prop := {
  ok_nodup : NoDup (items s);
  ok_pending : forall x, x ∈ pending (queue s) <-> x ∈ items s;
  ok_trim : forall x, x ∈ items s -> TrimSpace x = x /\ x <> ""%string;
  ok_max : 0 < maxPending (queue s);
  ok_workers : workerQueues (queue s) <> [];
  ok_size : Z.of_nat (size (pending (queue s))) <= maxPending (queue s)
}.

Lemma concat_insert (l : list (list string)) i ch ch' :
  l !! i = Some ch -> exists a b, concat l = a ++ ch ++ b /\ concat (<[i := ch']> l) = a ++ ch' ++ b.
Proof.
  intros Hi. exists (concat (take i l)), (concat (drop (S i) l)).
  rewrite insert_take_drop by (eapply lookup_lt_Some, Hi).
  rewrite <- (take_drop_middle l i ch Hi) at 1. by rewrite !concat_app.
Qed.

Lemma concat_repeat_nil {A} n : concat (repeat (@nil A) n) = [].
Proof. by induction n. Qed.

Lemma workerIndex_range key no q :
  workerQueues q <> [] -> 0 <= workerIndex key no q < Z.of_nat (length (workerQueues q)).
Proof.
  intros Hq. assert (0 < Z.of_nat (length (workerQueues q))) as Hl.
  { destruct (workerQueues q); [done|simpl; lia]. }
  unfold workerIndex. destruct (Z.eqb_spec (Z.of_nat (length (workerQueues q))) 0); [lia|].
  destruct (String.eqb (if String.eqb (TrimSpace key) "" then TrimSpace no else TrimSpace key) ""); [lia|].
  apply Z.mod_pos_bound. lia.
Qed.

Lemma size_items s : ok s -> size (pending (queue s)) = length (items s).
Proof.
  intros Ho. rewrite <- (size_list_to_set (C := gset string)) by apply Ho. f_equal.
  apply set_eq. intros x. rewrite elem_of_list_to_set. apply Ho.
Qed.

(** A channel never holds more than what is pending. *)
Lemma channel_le s i ch :
  ok s -> workerQueues (queue s) !! i = Some ch -> (length ch <= size (pending (queue s)))%nat.
Proof.
  intros Ho Hi. rewrite (size_items s Ho). unfold items.
  destruct (concat_insert _ i ch ch Hi) as (a & b & -> & _). rewrite !length_app. lia.
Qed.

(** What [EnqueueWithRoute] does: refuse a blank number or a full queue,
    accept what is already pending, and otherwise append to one channel. *)
Lemma enqueue_spec s no key :
  ok s ->
  let q := queue s in let x := TrimSpace no in
  (x = ""%string /\ EnqueueWithRoute no key q = (q, false)) \/
  (x <> ""%string /\ x ∈ pending q /\ EnqueueWithRoute no key q = (q, true)) \/
  (x <> ""%string /\ (x ∉ pending q) /\ maxPending q <= Z.of_nat (size (pending q)) /\
     EnqueueWithRoute no key q = (q, false)) \/
  (x <> ""%string /\ (x ∉ pending q) /\ Z.of_nat (size (pending q)) < maxPending q /\
     exists i ch, workerQueues q !! i = Some ch /\
       EnqueueWithRoute no key q
       = (mkStageQueue (<[i := (ch ++ [x])]> (workerQueues q)) (maxPending q) ({[x]} ∪ pending q), true)).
Proof.
  intros Ho q x. unfold EnqueueWithRoute. fold x.
  destruct (String.eqb_spec x "") as [|Hx]; [by left|right].
  pose proof (workerIndex_range key x q (ok_workers s Ho)) as Hi.
  destruct (Z.ltb_spec (workerIndex key x q) 0); [lia|].
  destruct (Z.leb_spec (Z.of_nat (length (workerQueues q))) (workerIndex key x q)); [lia|]. simpl.
  case_bool_decide as Hp; [by left|right].
  pose proof (ok_max s Ho) as Hm. fold q in Hm.
  destruct (Z.ltb_spec 0 (maxPending q)); [|lia].
  destruct (Z.leb_spec (maxPending q) (Z.of_nat (size (pending q)))); simpl; [by left|right].
  destruct (lookup_lt_is_Some_2 (workerQueues q) (Z.to_nat (workerIndex key x q))) as [ch Hch]; [lia|].
  rewrite (nth_lookup_Some _ _ _ _ Hch). pose proof (channel_le s _ ch Ho Hch) as Hle. fold q in Hle.
  destruct (Z.ltb_spec (Z.of_nat (length ch)) (maxPending q)); [|lia]. eauto 10.
Qed.

Lemma ok_new workers size_ : ok (mkState (newStageQueueWithWorkers workers size_) []).
Proof.
  unfold newStageQueueWithWorkers. set (w := if workers <=? 0 then 1 else workers). set (n := if size_ <=? 0 then 1 else size_).
  assert (0 < n) by (unfold n; destruct (Z.leb_spec size_ 0); lia).
  assert (0 < w) by (unfold w; destruct (Z.leb_spec workers 0); lia).
  split; unfold items; simpl; rewrite ?concat_repeat_nil; try constructor; try set_solver; try lia.
  - destruct (Z.to_nat (if n <? w then n else w)) as [|k] eqn:E; [|done].
    destruct (Z.ltb_spec n w); lia.
  - change (Z.of_nat (base.size (∅ : gset string)) <= n). rewrite size_empty. lia.
Qed.

Lemma step_ok s s' : ok s -> step s s' -> ok s'.
Proof.
  intros Ho Hs. destruct Hs as [q run no key|q run i x q' Hr|q run1 x run2].
  - pose proof (enqueue_spec _ no key Ho) as He. cbn [queue] in He.
    destruct He as [[_ ->]|[(_ & _ & ->)|[(_ & _ & _ & ->)|(Hx & Hp & Hsz & i & ch & Hch & ->)]]]; try done.
    simpl in *. pose proof (concat_insert _ _ _ (ch ++ [TrimSpace no]) Hch) as (a & b & H1 & H2).
    assert (Hi : items (mkState (mkStageQueue (<[i := (ch ++ [TrimSpace no])]> (workerQueues q)) (maxPending q)
              ({[TrimSpace no]} ∪ pending q)) run) ≡ₚ TrimSpace no :: items (mkState q run)).
    { unfold items. simpl. rewrite H1, H2. rewrite <- !app_assoc. simpl.
      rewrite (app_assoc a ch), <- Permutation_middle. by rewrite <- app_assoc. }
    destruct Ho as [N P T M W S]. split; simpl; try done.
    + rewrite Hi. constructor; [|done]. by rewrite <- P.
    + intros x. rewrite Hi, elem_of_cons, <- P, elem_of_union, elem_of_singleton. done.
    + intros x. rewrite Hi. intros [->|Hin]%elem_of_cons; [|eauto]. split; [apply TrimSpace_idem|done].
    + intros E. apply (f_equal length) in E. rewrite length_insert in E. by destruct (workerQueues q).
    + rewrite size_union by set_solver. rewrite size_singleton. simpl in *. lia.
  - unfold receive in Hr. destruct (workerQueues q !! i) as [[|y ch]|] eqn:Hch; simplify_eq.
    destruct (concat_insert _ _ _ ch Hch) as (a & b & H1 & H2).
    assert (Hi : items (mkState (mkStageQueue (<[i:=ch]> (workerQueues q)) (maxPending q) (pending q)) (x :: run))
              ≡ₚ items (mkState q run)).
    { unfold items. simpl. rewrite H1, H2. rewrite <- !app_assoc. simpl.
      rewrite !(app_assoc a), (app_assoc (a ++ ch)), <- Permutation_middle.
      by rewrite <- !app_assoc, Permutation_middle. }
    destruct Ho as [N P T M W S]. split; simpl; try done.
    + by rewrite Hi.
    + intros z. rewrite Hi. apply P.
    + intros z. rewrite Hi. apply T.
    + intros E. apply (f_equal length) in E. rewrite length_insert in E. by destruct (workerQueues q).
  - assert (Hi : items (mkState q (run1 ++ x :: run2)) ≡ₚ x :: items (mkState (Done x q) (run1 ++ run2))).
    { unfold items, Done. destruct (String.eqb _ _); simpl; rewrite !app_assoc; by rewrite <- Permutation_middle. }
    pose proof Ho as [N P T M W S]. destruct (T x) as [Hx Hx0]; [rewrite Hi; by left|].
    rewrite Hi in N. apply NoDup_cons in N as [Hnot N].
    assert (HD : Done x q = mkStageQueue (workerQueues q) (maxPending q) (pending q ∖ {[x]})).
    { unfold Done. rewrite Hx. by rewrite (proj2 (String.eqb_neq _ _) Hx0). }
    rewrite HD in *. split; simpl.
    + done.
    + intros z. specialize (P z). rewrite Hi, elem_of_cons in P. simpl in P.
      rewrite elem_of_difference, elem_of_singleton, P. split; [intros [[->|Hin] Hne]; [by destruct Hne|done]|].
      intros Hz. split; [by right|]. intros ->. done.
    + intros z Hz. apply T. rewrite Hi. by right.
    + done.
    + done.
    + simpl in *. pose proof (subseteq_size (pending q ∖ {[x]}) (pending q) (subseteq_difference_l _ _ _ (reflexivity _))). lia.
Qed.

Lemma reachable_ok workers size_ s : reachable workers size_ s -> ok s.
Proof. induction 1 as [|s s' _ IH Hs]; [apply ok_new|by eapply step_ok]. Qed.

(** [C28] A transaction waits or runs at most once.  In every interleaving of
    producers and workers, the numbers queued on all channels and being
    processed are distinct, are exactly the pending set, and are at most the
    queue's size in number. *)
Theorem queue_no_duplicates workers size_ s :
  reachable workers size_ s ->
  NoDup (items s) /\ (forall x, x ∈ pending (queue s) <-> x ∈ items s) /\
  Z.of_nat (length (items s)) <= maxPending (queue s).
Proof.
  intros Ho%reachable_ok. split; [apply Ho|]. split; [apply Ho|].
  rewrite <- (size_items s Ho). apply Ho.
Qed.

(** [EnqueueWithRoute] answers true exactly when the transaction is then
    pending, and false only for a blank number or a full queue: a channel
    never refuses an item the pending count admits. *)
Lemma enqueue_accepts workers size_ s no key q ok_ :
  reachable workers size_ s ->
  EnqueueWithRoute no key (queue s) = (q, ok_) ->
  (ok_ = true -> TrimSpace no ∈ pending q) /\
  (ok_ = false -> q = queue s /\
     (TrimSpace no = ""%string \/ Z.of_nat (size (pending q)) = maxPending q)).
Proof.
  intros Ho%reachable_ok He. pose proof (ok_size s Ho) as Hs.
  destruct (enqueue_spec s no key Ho) as [[Hx Hq]|[(_ & Hp & Hq)|[(_ & _ & Hf & Hq)|(_ & _ & _ & i & ch & _ & Hq)]]];
    rewrite Hq in He; simplify_eq; split; try done.
  - by auto.
  - intros _. split; [done|]. right. lia.
  - intros _. simpl. set_solver.
Qed.
End Queue.

(** ** The in-memory guard *)

Module Guard.

(** The guard and the (transaction, stage) pairs workers are inside of. *)
Record state : Type := mkState { keys : ProcessingGuard; inside : list (string * string) }.

Inductive step : state -> state -> Prop :=
| st_try g ins no st g' : TryBegin no st g = (g', true) -> step (mkState g ins) (mkState g' ((no, st) :: ins))
| st_busy g ins no st g' : TryBegin no st g = (g', false) -> step (mkState g ins) (mkState g' ins)
| st_end g ins1 no st ins2 :
    step (mkState g (ins1 ++ (no, st) :: ins2)) (mkState (End_ no st g) (ins1 ++ ins2)).

Inductive reachable : state -> Prop :=
| re_new : reachable (mkState ∅ [])
| re_step s s' : reachable s -> step s s' -> reachable s'.

Definition insideKeys (s : state) : list string := map (fun p => ProcessingKey p.1 p.2) (inside s).

Definition ok (s : state) : Prop :=
  NoDup (insideKeys s) /\ (forall k, k ∈ keys s <-> k ∈ insideKeys s) /\
  (forall k, k ∈ insideKeys s -> k <> "+"%string).

Lemma exclusive_step s s' : ok s -> step s s' -> ok s'.
Proof.
  intros (N & P & T) Hs. destruct Hs as [g ins no st g' Hb|g ins no st g' Hb|g ins1 no st ins2].
  - unfold TryBegin in Hb. destruct (String.eqb_spec (ProcessingKey no st) "+"); [done|].
    case_bool_decide as Hin; simplify_eq. unfold ok, insideKeys in *. simpl in *. split; [|split].
    + constructor; [|done]. by rewrite <- P.
    + intros k. rewrite elem_of_cons, <- P, elem_of_union, elem_of_singleton. done.
    + intros k [->|Hk]%elem_of_cons; [done|eauto].
  - unfold TryBegin in Hb. destruct (String.eqb _ _); [by simplify_eq|]. case_bool_decide; by simplify_eq.
  - unfold ok, insideKeys in *. simpl in *.
    assert (Hp : map (fun p => ProcessingKey p.1 p.2) (ins1 ++ (no, st) :: ins2)
              ≡ₚ ProcessingKey no st :: map (fun p => ProcessingKey p.1 p.2) (ins1 ++ ins2)).
    { rewrite !map_app. simpl. by rewrite <- Permutation_middle. }
    rewrite Hp in N. apply NoDup_cons in N as [Hn N].
    assert (ProcessingKey no st <> "+"%string) as Hne by (apply T; rewrite Hp; by left).
    split; [done|]. unfold End_. rewrite (proj2 (String.eqb_neq _ _) Hne). split.
    + intros k. specialize (P k). rewrite Hp, elem_of_cons in P. rewrite elem_of_difference, elem_of_singleton, P.
      split; [intros [[->|Hin] Hn']; [by destruct Hn'|done]|]. intros Hk. split; [by right|]. intros ->. done.
    + intros k Hk. apply T. rewrite Hp. by right.
Qed.

Lemma exclusive_reachable s : reachable s -> ok s.
Proof.
  induction 1 as [|s s' _ IH Hs]; [|by eapply exclusive_step].
  split; [constructor|]. split; [set_solver|]. intros k Hk. by apply elem_of_nil in Hk.
Qed.

(** [C29] Mutual exclusion.  However workers interleave, no two of them are
    inside the same stage of the same transaction, a worker is refused
    exactly when another is inside, and [End] lets the next one in. *)
Theorem guard_exclusive s no st :
  reachable s -> ProcessingKey no st <> "+"%string ->
  NoDup (insideKeys s) /\
  ((TryBegin no st (keys s)).2 = true <-> ProcessingKey no st ∉ insideKeys s) /\
  (TryBegin no st (End_ no st (keys s))).2 = true.
Proof.
  intros (N & P & _)%exclusive_reachable Hne. split; [done|]. unfold TryBegin, End_.
  rewrite (proj2 (String.eqb_neq _ _) Hne). split.
  - rewrite <- P. case_bool_decide; naive_solver.
  - rewrite bool_decide_eq_false_2; [done|]. set_solver.
Qed.
End Guard.
