(* ===== verification/ServiceProofs.v ===== *)
(** * What the services promise

    Submissions, routing and account resolution: which rows a successful call
    leaves behind and which conditions it has checked. *)

From S2P Require Import Prelude GoBase Domain Codes Store Queries Reads Secrets Ledger Repo Services Invariant Books LedgerProofs StageProofs Calls Grow System Safety.
From stdpp Require Import base gmap list strings.
From Stdlib Require Import ZArith Lia.

Local Open Scope string_scope.
Local Open Scope Z_scope.

Section Reads.
Context `{Platform}.

(** ** Single reads *)

Lemma auto_ok {A} (q : Q A) w w' a :
  auto q w = (w', Ok a) -> exists t, q t (w_db w) = Ok (w_db w', a).
Proof.
  unfold auto. intros (w1 & [] & Hs & Hr)%bind_ok. apply run_Ok in Hr as [Hq _].
  assert (w_db w1 = w_db w) as <- by (unfold startNow in Hs; simpl in Hs; by simplify_eq). eauto.
Qed.

Lemma found_ok {A} (m : M A) w w' a : Repository.found m w = (w', Ok (Some a)) -> m w = (w', Ok a).
Proof. unfold Repository.found. intros Hf. steps. case_match; by simplify_eq. Qed.

Lemma found_keeps {A} (q : Q A) w w' o :
  pureQ q -> Repository.found (auto q) w = (w', Ok o) -> w_db w' = w_db w.
Proof. intros Hq Hf. eapply keeps_ok; [|exact Hf]. unfold Repository.found. keep. Qed.

Lemma GetAccount_ok no w w' o :
  Repository.GetAccount no w = (w', Ok o) ->
  w_db w' = w_db w /\
  forall a, o = Some a -> exists r, accounts (w_db w) !! no = Some r /\ a = accountFromGetAccountRow r.
Proof.
  unfold Repository.GetAccount. intros (w1 & r & Hf & [-> ->]%ret_ok)%bind_ok.
  pose proof (found_keeps _ _ _ _ (pure_GetAccountByNo no) Hf) as Hd. split; [done|].
  intros a Ha. destruct r as [r|]; [|done]. simplify_eq/=. exists r. split; [|done].
  apply found_ok, auto_ok in Hf as [t Hq]. by apply (one_ok _ t) in Hq as [_ Hq].
Qed.

Lemma GetMerchantByNo_ok no w w' o :
  Repository.GetMerchantByNo no w = (w', Ok o) ->
  w_db w' = w_db w /\
  forall m, o = Some m -> exists r, merchants (w_db w) !! no = Some r /\ m = Repository.merchantFromRow r.
Proof.
  unfold Repository.GetMerchantByNo. intros (w1 & r & Hf & [-> ->]%ret_ok)%bind_ok.
  pose proof (found_keeps _ _ _ _ (pure_GetMerchantByNo no) Hf) as Hd. split; [done|].
  intros a Ha. destruct r as [r|]; [|done]. simplify_eq/=. exists r. split; [|done].
  apply found_ok, auto_ok in Hf as [t Hq]. by apply (one_ok _ t) in Hq as [_ Hq].
Qed.

Lemma GetTransferTxn_ok no w w' o :
  Repository.GetTransferTxn no w = (w', Ok o) ->
  w_db w' = w_db w /\
  forall x, o = Some x -> exists u r, castUUID no = Ok (Some u) /\ txns (w_db w) !! u = Some r
    /\ x = Repository.transferTxnFromByNoRow r.
Proof.
  unfold Repository.GetTransferTxn, GetTransferTxnByNo. intros (w1 & r & Hf & [-> ->]%ret_ok)%bind_ok.
  pose proof (found_keeps _ _ _ _ (pure_txnByText no) Hf) as Hd. split; [done|].
  intros a Ha. destruct r as [r|]; [|done]. simplify_eq/=.
  apply found_ok, auto_ok in Hf as [t Hq]. unfold txnByText in Hq.
  destruct (castUUID no) as [|[u|]]; try done. apply (one_ok _ t) in Hq as [_ Hq]. eauto.
Qed.

Lemma require_ok {A} e (m : M (option A)) w w' a :
  require e m w = (w', Ok a) -> m w = (w', Ok (Some a)).
Proof. unfold require. intros (w1 & [x|] & Hm & Hr)%bind_ok; [|done]. apply ret_ok in Hr as [-> ->]. done. Qed.

Lemma requireAccount_ok e no w w' a :
  require e (Repository.GetAccount no) w = (w', Ok a) ->
  w_db w' = w_db w /\ exists r, accounts (w_db w) !! no = Some r /\ a = accountFromGetAccountRow r.
Proof. intros Hr%require_ok. apply GetAccount_ok in Hr as [Hd Hr]. eauto. Qed.

Lemma failing_none o w w' u : failing o w = (w', Ok u) -> w_db w' = w_db w /\ o = None.
Proof. intros [-> ->]%failing_ok. done. Qed.

(** ** Submissions *)

(** Both accounts exist and belong to the merchant. *)
Definition own_accounts (merchant debit credit : string) (d : DB) (rd rc : AccountRow) : Prop :=
  accounts d !! TrimSpace debit = Some rd /\ accounts d !! TrimSpace credit = Some rc /\
  TrimSpace (ar_merchant rd) = TrimSpace merchant /\ TrimSpace (ar_merchant rc) = TrimSpace merchant.

Lemma submitAccounts_ok m d c w w' dc :
  submitAccounts m d c w = (w', Ok dc) ->
  w_db w' = w_db w /\ exists rd rc, own_accounts m d c (w_db w) rd rc
    /\ dc = (accountFromGetAccountRow rd, accountFromGetAccountRow rc).
Proof.
  unfold submitAccounts. destruct (_ || _); [by intros; steps|].
  intros (w1 & a & Ha & Hr)%bind_ok. apply requireAccount_ok in Ha as (Hd1 & rd & Hrd & ->).
  apply bind_ok in Hr as (w2 & b & Hb & Hr). apply requireAccount_ok in Hb as (Hd2 & rc & Hrc & ->).
  destruct (negb _ || negb _) eqn:E; [by steps|]. bools. apply ret_ok in Hr as [-> ->].
  rewrite Hd1 in *. split; [congruence|]. exists rd, rc. by repeat split.
Qed.

Lemma validateTransfer_ok m s d c w w' u :
  validateSubmitTransferAccounts m s d c w = (w', Ok u) ->
  w_db w' = w_db w /\ exists rd rc, own_accounts m d c (w_db w) rd rc /\
    ar_debit_out rd = true /\ ar_credit_in rc = true /\ (s = SceneP2P -> ar_transfer rd = true).
Proof.
  unfold validateSubmitTransferAccounts. intros (w1 & dc & Hdc & Hr)%bind_ok.
  apply submitAccounts_ok in Hdc as (Hd1 & rd & rc & Hown & ->).
  apply bind_ok in Hr as (w2 & [] & [Hd2 Hdo]%failing_none & Hr).
  apply bind_ok in Hr as (w3 & [] & [Hd3 Hci]%failing_none & Hr).
  unfold CanDebitOut, CanCredit in *. simpl in *.
  destruct (ar_debit_out rd) eqn:E1; [|done]. destruct (ar_credit_in rc) eqn:E2; [|done].
  destruct (String.eqb_spec s SceneP2P) as [->|Hs].
  - apply failing_none in Hr as [Hd4 Ht]. unfold CanTransfer in Ht. simpl in Ht.
    destruct (ar_transfer rd) eqn:E3; [|done]. split; [congruence|]. exists rd, rc. do 3 (split; [done|]). done.
  - apply ret_ok in Hr as [-> _]. split; [congruence|]. exists rd, rc. do 3 (split; [done|]). done.
Qed.

(** What a refund's submission has checked of the origin. *)
Lemma refundParties_ok req w w' dc :
  refundParties req w = (w', Ok dc) ->
  w_db w' = w_db w /\ exists (o : UUID) t, castUUID (TrimSpace (RqRefundOfTxnNo req)) = Ok (Some o) /\
    txns (w_db w) !! o = Some t /\ TrimSpace (tr_merchant t) = TrimSpace (RqMerchantNo req) /\
    TrimSpace (tr_biz t) = BizTypeTransfer /\ TrimSpace (tr_status t) = TxnStatusRecvSuccess /\
    TrimSpace (coalesce (tr_scene t)) <> SceneExpireWriteoff /\ RqAmount req <= tr_refundable t /\
    dc = (TrimSpace (coalesce (tr_credit t)), TrimSpace (coalesce (tr_debit t))) /\
    exists rd rc, own_accounts (RqMerchantNo req) dc.1 dc.2 (w_db w) rd rc /\ ar_debit_out rd = true.
Proof.
  unfold refundParties. intros (w1 & x & Hx & Hr)%bind_ok.
  apply require_ok, GetTransferTxn_ok in Hx as [Hd1 Hx]. destruct (Hx x eq_refl) as (o & t & Ho & Ht & ->). clear Hx.
  simpl in Hr.
  destruct (negb (String.eqb (TrimSpace (tr_merchant t)) _)) eqn:E1; [by steps|].
  destruct (negb (String.eqb (TrimSpace (tr_biz t)) _) || _) eqn:E2; [by steps|]. bools.
  destruct (String.eqb _ SceneExpireWriteoff) eqn:E3; [by steps|]. destruct (_ <? _) eqn:E4; [by steps|].
  destruct (_ || _) eqn:E5; [by steps|]. bools.
  apply bind_ok in Hr as (w2 & [] & Hv & [-> ->]%ret_ok). simpl.
  unfold validateSubmitRefundAccounts in Hv. apply bind_ok in Hv as (w3 & ab & Hab & Hv).
  apply submitAccounts_ok in Hab as (Hd3 & rd & rc & Hown & ->). apply failing_none in Hv as [Hd4 Hcan].
  unfold CanDebitOut in Hcan. simpl in Hcan. destruct (ar_debit_out rd) eqn:E6; [|done].
  split; [congruence|]. exists o, t. rewrite Hd1 in Hown. do 7 (split; [done|]). split; [done|]. eauto.
Qed.
End Reads.

Section Submissions.
Context `{Platform} `{CodeProvider} {SC : SecretCipher}.

Lemma nullif_nullIfEmpty v : nullif (nullIfEmpty v) = nullIfEmpty v.
Proof. unfold nullif, nullIfEmpty. by destruct (String.eqb v "") eqn:E; [|rewrite E]. Qed.

(** A statement on its own reads [NOW()] off the clock as it starts. *)
Lemma auto_now {A} (q : Q A) w w' a : auto q w = (w', Ok a) -> q (w_clock w') (w_db w) = Ok (w_db w', a).
Proof.
  unfold auto, bind, startNow, timeNow, run, pop_fault. simpl.
  destruct (hd NoFault (w_faults w)); simpl; try done; destruct (q _ (w_db w)) as [e|[d' x]] eqn:E; simpl; try done;
    intros Hq; injection Hq as <- <-; exact E.
Qed.

Lemma repoCreateTxn_ok t w w' x :
  Repository.CreateTransferTxn t w = (w', Ok x) ->
  exists u ro, castUUID (TxnNo t) = Ok (Some u) /\
    castUUID (coalesce (nullIfEmpty (RefundOfTxnNo t))) = Ok ro /\ txns (w_db w) !! u = None /\ 0 < Amount t /\
    (forall v y, txns (w_db w) !! v = Some y -> trade y <> (TMerchantNo t, OutTradeNo t)) /\
    w_db w' = set_txns (<[u := txnRowOf (Repository.txnParams t) u ro (w_clock w')]> (txns (w_db w))) (w_db w).
Proof.
  unfold Repository.CreateTransferTxn, Repository.unique_as. destruct (auto _ w) as [w1 [e|[]]] eqn:E; [done|].
  intros [= <- <-]. apply auto_now, CreateTransferTxn_ok in E as (u & ro & Hu & Hro & Hn & Hc & Hf & Hd).
  exists u, ro. do 3 (split; [done|]). split; [unfold txnChecks in Hc; simpl in Hc; by bools|]. done.
Qed.

(** The two steps of a successful [Submit]: the checks, then the insertion. *)
Lemma Submit_inv req w w' txn :
  Submit req w = (w', Ok txn) ->
  exists u w1 w2, let t0 := submitTxn (uuid_text u) req in
    w_db w1 = w_db w /\ w_db w2 = w_db w /\ Repository.CreateTransferTxn txn w2 = (w', Ok tt) /\
    (if String.eqb (BizType t0) BizTypeRefund
     then exists dc, refundParties req w1 = (w2, Ok dc) /\ txn = withParties dc.1 dc.2 t0
     else txn = t0 /\
          (if negb (String.eqb (TrimSpace (DebitAccountNo t0)) "") || negb (String.eqb (TrimSpace (CreditAccountNo t0)) "")
           then validateSubmitTransferAccounts (RqMerchantNo req) (TransferScene t0) (DebitAccountNo t0)
                  (CreditAccountNo t0) w1 = (w2, Ok tt)
           else True)).
Proof.
  unfold Submit. intros (w1 & r & Hid & Hr)%attempt_bind_ok. destruct r as [e|u]; [by steps|]. exists u, w1.
  apply NewUUIDv7_ok in Hid as [Hd1 _]. cbv zeta in *. set (t0 := submitTxn (uuid_text u) req) in *.
  apply bind_ok in Hr as (w2 & t & Hchk & Hr). apply bind_ok in Hr as (w3 & [] & Hc & [-> ->]%ret_ok).
  exists w2. split; [done|]. destruct (String.eqb (BizType t0) BizTypeRefund).
  - apply bind_ok in Hchk as (w4 & dc & Hp & [-> ->]%ret_ok). pose proof (refundParties_ok _ _ _ _ Hp) as [Hd2 _].
    split; [congruence|]. eauto.
  - destruct (_ || _).
    + apply bind_ok in Hchk as (w4 & [] & Hv & [-> ->]%ret_ok). pose proof (validateTransfer_ok _ _ _ _ _ _ _ Hv) as [Hd2 _].
      split; [congruence|]. eauto.
    + apply ret_ok in Hchk as [-> ->]. auto.
Qed.

(** *** The record of a submission *)

Definition or_else (s dflt : string) : string := if decide (s = "") then dflt else s.
(** An optional column: no value for the empty text. *)
Definition column (s : string) : option string := if decide (s = "") then None else Some s.
Definition expiry (o : option Time) : Time := default zeroTime o.
Definition expiry_column (t : Time) : option Date := if decide (t = zeroTime) then None else Some (t / 86400000000000).

Lemma column_nullIfEmpty s : nullif (nullIfEmpty s) = column s.
Proof. rewrite nullif_nullIfEmpty. unfold nullIfEmpty, column. destruct (String.eqb_spec s ""); by case_decide. Qed.
Lemma or_else_eqb s dflt : (if String.eqb s "" then dflt else s) = or_else s dflt.
Proof. unfold or_else. destruct (String.eqb_spec s ""); by case_decide. Qed.
Lemma expiry_column_date t : Repository.nullableDate t (negb (IsZero t)) = expiry_column t.
Proof. unfold Repository.nullableDate, IsZero, expiry_column. destruct (Z.eqb_spec t zeroTime); by case_decide. Qed.

(** Who pays and who receives: the accounts named, or for a refund those of
    the transaction it refunds, the other way round. *)
Definition parties (req : TransferRequest) (biz debit credit : string) (d : DB) : Prop :=
  (biz <> "REFUND" /\ debit = RqDebitAccountNo req /\ credit = RqCreditAccountNo req) \/
  (biz = "REFUND" /\ exists (o : UUID) t, castUUID (TrimSpace (RqRefundOfTxnNo req)) = Ok (Some o) /\
     txns d !! o = Some t /\ debit = TrimSpace (coalesce (tr_credit t)) /\ credit = TrimSpace (coalesce (tr_debit t))).

(** [C27] A successful [Submit] adds one row to the transactions and changes
    nothing else.  The row is under a new number and holds, field by field, what
    the request asked for or the default of what it left out; the transaction
    returned says the same.  The order number was not used before by the
    merchant and the amount is positive. *)
Theorem submit_records req w w' txn :
  Submit req w = (w', Ok txn) ->
  let biz := or_else (RqBizType req) "TRANSFER" in
  let scene := if decide (biz = "TRANSFER") then or_else (RqTransferScene req) "ADJUST" else RqTransferScene req in
  let refundable := if decide (biz = "TRANSFER" /\ RqRefundableAmount req <= 0) then RqAmount req
                    else Z.max 0 (RqRefundableAmount req) in
  let status := or_else (RqStatus req) "INIT" in
  exists (u : UUID) debit credit refundOf,
    txns (w_db w) !! u = None /\ parties req biz debit credit (w_db w) /\ castUUID (RqRefundOfTxnNo req) = Ok refundOf /\
    txn = mkTransferTxn (uuid_text u) (RqMerchantNo req) (RqOutTradeNo req) (RqTitle req) (RqRemark req) biz scene debit
      credit (expiry (RqCreditExpireAt req)) (RqAmount req) (RqRefundOfTxnNo req) refundable status "" "" zeroTime /\
    w_db w' = set_txns (<[u := mkTxnRow u (RqMerchantNo req) (RqOutTradeNo req) biz (column scene) (column (RqTitle req))
      (column (RqRemark req)) (column debit) (column credit) (expiry_column (expiry (RqCreditExpireAt req)))
      (RqAmount req) status refundOf refundable None None (w_clock w') (w_clock w')]> (txns (w_db w))) (w_db w) /\
    0 < RqAmount req /\
    (forall v x, txns (w_db w) !! v = Some x -> trade x <> (RqMerchantNo req, RqOutTradeNo req)).
Proof.
  intros (u0 & w1 & w2 & Hd1 & Hd2 & Hc & Hchk)%Submit_inv. cbv zeta in *.
  set (biz := or_else (RqBizType req) "TRANSFER").
  assert (exists debit credit, parties req biz debit credit (w_db w) /\
    txn = withParties debit credit (submitTxn (uuid_text u0) req)) as (debit & credit & Hp & ->).
  { assert (BizType (submitTxn (uuid_text u0) req) = biz) as Hb by apply or_else_eqb. rewrite Hb in Hchk.
    destruct (String.eqb_spec biz BizTypeRefund) as [E|E].
    - destruct Hchk as (dc & Hp & ->). apply refundParties_ok in Hp as (_ & o & t & H1 & H2 & _ & _ & _ & _ & _ & -> & _).
      rewrite Hd1 in H2. eexists _, _. split; [right; split; [done|]; by exists o, t|done].
    - destruct Hchk as [-> _]. eexists _, _. split; [left; by split|done]. }
  clear Hchk. apply repoCreateTxn_ok in Hc as (u & ro & Hu & Hro & Hn & Ha & Hf & Hd). rewrite Hd2 in *. simpl in *.
  assert (u0 = u) as -> by (unfold castUUID in Hu; destruct (String.eqb _ ""); [done|]; rewrite uuid_parse_text in Hu; congruence).
  assert (castUUID (RqRefundOfTxnNo req) = Ok ro) as Href.
  { revert Hro. unfold nullIfEmpty. by destruct (String.eqb_spec (RqRefundOfTxnNo req) "") as [-> |]. }
  exists u, debit, credit, ro. do 3 (split; [done|]).
  assert (withParties debit credit (submitTxn (uuid_text u) req) = mkTransferTxn (uuid_text u) (RqMerchantNo req) (RqOutTradeNo req)
    (RqTitle req) (RqRemark req) biz (if decide (biz = "TRANSFER") then or_else (RqTransferScene req) "ADJUST" else RqTransferScene req)
    debit credit (expiry (RqCreditExpireAt req)) (RqAmount req) (RqRefundOfTxnNo req)
    (if decide (biz = "TRANSFER" /\ RqRefundableAmount req <= 0) then RqAmount req else Z.max 0 (RqRefundableAmount req))
    (or_else (RqStatus req) "INIT") "" "" zeroTime) as Ht.
  { unfold withParties, submitTxn. cbn [BizType TransferScene CreditExpireAt RefundableAmount TxnNo TMerchantNo OutTradeNo Title Remark
      Amount RefundOfTxnNo Status ErrorCode ErrorMsg CreatedAt]. rewrite !or_else_eqb. change BizTypeTransfer with "TRANSFER". fold biz. f_equal.
    - destruct (String.eqb_spec biz "TRANSFER"); (case_decide; [|done]) || (case_decide; [done|]); simpl; [apply or_else_eqb|done].
    - destruct (String.eqb_spec biz "TRANSFER") as [Eb|Eb], (Z.ltb_spec (RqRefundableAmount req) 0); simpl.
      + by rewrite decide_True by (split; [done|lia]).
      + destruct (Z.eqb_spec (RqRefundableAmount req) 0); [by rewrite decide_True by (split; [done|lia])|].
        rewrite decide_False by lia. lia.
      + rewrite decide_False by tauto. lia.
      + rewrite decide_False by tauto. lia. }
  split; [exact Ht|]. rewrite Ht in Hd. unfold txnRowOf, Repository.txnParams in Hd. simpl in Hd.
  rewrite !column_nullIfEmpty, expiry_column_date in Hd. by split.
Qed.

(** A transfer is accepted without accounts only if it names neither;
    otherwise both exist and belong to the merchant, the payer may pay out,
    the payee may receive and, between users, the payer may transfer. *)
Lemma submit_checks_accounts req w w' txn :
  Submit req w = (w', Ok txn) -> BizType txn <> BizTypeRefund ->
  (TrimSpace (RqDebitAccountNo req) = "" /\ TrimSpace (RqCreditAccountNo req) = "") \/
  exists rd rc, own_accounts (RqMerchantNo req) (RqDebitAccountNo req) (RqCreditAccountNo req) (w_db w) rd rc /\
    ar_debit_out rd = true /\ ar_credit_in rc = true /\ (TransferScene txn = SceneP2P -> ar_transfer rd = true).
Proof.
  intros (u0 & w1 & w2 & Hd1 & Hd2 & Hc & Hchk)%Submit_inv Hb. cbv zeta in Hchk.
  destruct (String.eqb_spec (BizType (submitTxn (uuid_text u0) req)) BizTypeRefund) as [E|E].
  { destruct Hchk as (dc & _ & ->). done. }
  destruct Hchk as [-> Hv]. simpl in Hv. destruct (_ || _) eqn:En.
  - right. apply validateTransfer_ok in Hv as [_ Hv]. by rewrite Hd1 in Hv.
  - left. bools. by split.
Qed.

(** A refund is accepted only against a successful transfer of the same
    merchant that is no write-off, for no more than is still refundable; it
    runs from the receiver back to the payer, whatever accounts the request
    names. *)
Lemma submit_checks_refund req w w' txn :
  Submit req w = (w', Ok txn) -> BizType txn = BizTypeRefund ->
  exists (o : UUID) t, castUUID (TrimSpace (RqRefundOfTxnNo req)) = Ok (Some o) /\ txns (w_db w) !! o = Some t /\
    TrimSpace (tr_merchant t) = TrimSpace (RqMerchantNo req) /\ TrimSpace (tr_biz t) = BizTypeTransfer /\
    TrimSpace (tr_status t) = TxnStatusRecvSuccess /\ TrimSpace (coalesce (tr_scene t)) <> SceneExpireWriteoff /\
    RqAmount req <= tr_refundable t /\
    DebitAccountNo txn = TrimSpace (coalesce (tr_credit t)) /\ CreditAccountNo txn = TrimSpace (coalesce (tr_debit t)) /\
    exists rd rc, own_accounts (RqMerchantNo req) (DebitAccountNo txn) (CreditAccountNo txn) (w_db w) rd rc /\
      ar_debit_out rd = true.
Proof.
  intros (u0 & w1 & w2 & Hd1 & Hd2 & Hc & Hchk)%Submit_inv Hb. cbv zeta in Hchk.
  destruct (String.eqb_spec (BizType (submitTxn (uuid_text u0) req)) BizTypeRefund) as [E|E].
  2:{ destruct Hchk as [-> _]. done. }
  destruct Hchk as (dc & Hp & ->). apply refundParties_ok in Hp as (_ & o & t & H1 & H2 & H3 & H4 & H5 & H6 & H7 & -> & H8).
  rewrite Hd1 in *. exists o, t. simpl in *. by repeat (split; [done|]).
Qed.

(** [C21] The order number is an idempotency key.  In every reachable state a
    merchant's order number names one transaction, and once it does every
    further submission of it fails. *)
Theorem order_number_used_once w u1 u2 t1 t2 req :
  reachable w -> txns (w_db w) !! u1 = Some t1 -> txns (w_db w) !! u2 = Some t2 -> trade t1 = trade t2 ->
  u1 = u2 /\
  (trade t1 = (RqMerchantNo req, RqOutTradeNo req) ->
   is_ok (Submit req w).2 = false).
Proof.
  intros HI%reachable_Inv H1 H2 E. split; [by eapply (inv_trade _ HI)|]. intros Ht.
  destruct (Submit req w) as [w' [e|txn]] eqn:Es; [done|]. exfalso.
  apply Submit_inv in Es as (u0 & w1 & w3 & Hd1 & Hd2 & Hc & Hchk). cbv zeta in Hchk.
  apply repoCreateTxn_ok in Hc as (u & ro & Hu & Hro & Hn & Ha & Hf & Hd). rewrite Hd2 in *.
  apply (Hf _ _ H1). rewrite Ht.
  destruct (String.eqb _ BizTypeRefund); [destruct Hchk as (dc & _ & ->)|destruct Hchk as [-> _]]; done.
Qed.
End Submissions.

Section Routing.
Context `{Platform} `{CodeProvider} {SC : SecretCipher}.

(** Routing of a transfer: an ISSUE without payer pays from the
    merchant's budget account, a CONSUME without payee pays to its receivable
    account, anything else must be named; both accounts exist and belong to
    the merchant, and their capabilities allow the movement. *)
Lemma routing_resolves req w w' d c :
  Resolve req w = (w', Ok (d, c)) ->
  exists m rd rc, merchants (w_db w) !! RtMerchantNo req = Some m /\
    d = (if String.eqb (RtScene req) SceneIssue && String.eqb (RtDebitAccountNo req) "" then mr_budget m
         else RtDebitAccountNo req) /\
    c = (if String.eqb (RtScene req) SceneConsume && String.eqb (RtCreditAccountNo req) "" then mr_receivable m
         else RtCreditAccountNo req) /\
    accounts (w_db w) !! d = Some rd /\ accounts (w_db w) !! c = Some rc /\
    ar_merchant rd = mr_no m /\ ar_merchant rc = mr_no m /\
    ar_debit_out rd = true /\ ar_credit_in rc = true /\ (RtScene req = SceneP2P -> ar_transfer rd = true) /\
    w_db w' = w_db w.
Proof.
  unfold Resolve. intros (w1 & m & Hm%require_ok & Hr)%bind_ok.
  apply GetMerchantByNo_ok in Hm as [Hd1 Hm]. destruct (Hm m eq_refl) as (r & Hmr & ->). clear Hm.
  destruct (routeAccounts _ req) as [d0 c0] eqn:Er. destruct (_ || _) eqn:Eb; [by steps|].
  apply bind_ok in Hr as (w2 & da & Hda & Hr). apply requireAccount_ok in Hda as (Hd2 & rd & Hrd & ->).
  apply bind_ok in Hr as (w3 & ca & Hca & Hr). apply requireAccount_ok in Hca as (Hd3 & rc & Hrc & ->).
  destruct (negb _ || _) eqn:Eo; [by steps|]. simpl in Eo.
  apply bind_ok in Hr as (w4 & [] & [Hd4 Hdo]%failing_none & Hr).
  apply bind_ok in Hr as (w5 & [] & [Hd5 Hci]%failing_none & Hr).
  apply bind_ok in Hr as (w6 & [] & Ht & [-> [= -> ->]]%ret_ok).
  rewrite Hd2, Hd1 in *. unfold CanDebitOut, CanCredit in *. simpl in *.
  apply orb_false_iff in Eo as [Eo1 Eo2]. bools.
  destruct (ar_debit_out rd) eqn:E1; [|done]. destruct (ar_credit_in rc) eqn:E2; [|done].
  assert (w_db w6 = w_db w5 /\ (RtScene req = SceneP2P -> ar_transfer rd = true)) as [Hd6 Htr].
  { destruct (String.eqb_spec (RtScene req) SceneP2P).
    - apply failing_none in Ht as [-> Ht]. unfold CanTransfer in Ht. simpl in Ht. by destruct (ar_transfer rd).
    - apply ret_ok in Ht as [-> _]. done. }
  exists r, rd, rc. split; [done|].
  assert (d0 = (if String.eqb (RtScene req) SceneIssue && String.eqb (RtDebitAccountNo req) "" then mr_budget r
                else RtDebitAccountNo req) /\
          c0 = (if String.eqb (RtScene req) SceneConsume && String.eqb (RtCreditAccountNo req) "" then mr_receivable r
                else RtCreditAccountNo req)) as [Ed Ec].
  { revert Er. unfold routeAccounts. simpl. destruct (String.eqb_spec (RtScene req) SceneIssue) as [->|]; simpl.
    - intros [= <- <-]. done.
    - destruct (String.eqb (RtScene req) SceneConsume); simpl; intros [= <- <-]; done. }
  split; [done|]. split; [done|]. do 2 (split; [done|]). repeat (split; [done|]). congruence.
Qed.

(** ** Resolving the account of a customer *)

(** Reads of the repository never fail: a failure reads as absence. *)
Lemma found_total {A} (m : M A) w :
  Repository.found m w = ((m w).1, Ok (match (m w).2 with Ok a => Some a | Err _ => None end)).
Proof. unfold Repository.found, bind, attempt, ret. by destruct (m w). Qed.

Lemma lookup_total {A B} (m : M A) (f : A -> B) w :
  exists w1 o, (let! r := Repository.found m in ret (option_map f r)) w = (w1, Ok o).
Proof. unfold bind. rewrite found_total. unfold ret. eauto. Qed.

Lemma GetAccountByOutUser_ok m u w w' o :
  Repository.GetAccountByOutUserID m u w = (w', Ok o) ->
  w_db w' = w_db w /\ forall a, o = Some a -> exists t r, GetAccountByMerchantOutUserID m u t (w_db w) = Ok (w_db w, r)
    /\ a = accountFromGetAccountRow r.
Proof.
  unfold Repository.GetAccountByOutUserID. intros (w1 & r & Hf & [-> ->]%ret_ok)%bind_ok.
  pose proof (found_keeps _ _ _ _ (pure_GetAccountByMerchantOutUserID m u) Hf) as Hd. split; [done|].
  intros a Ha. destruct r as [r|]; [|done]. simplify_eq/=.
  apply found_ok, auto_ok in Hf as [t Hq]. rewrite Hd in Hq. eauto.
Qed.

(** Resolving a customer's account changes nothing and fails only when
    the account number and the user id name different accounts; what it
    resolves from an account number is an account of the merchant, and from a
    user id the default account of that customer. *)
Lemma customer_account_resolved merchantNo accountNo outUserID w w' r :
  ResolveCustomerAccount merchantNo accountNo outUserID w = (w', r) ->
  w_db w' = w_db w /\
  match r with
  | Ok no =>
      no = "" \/
      (exists m a, merchants (w_db w) !! merchantNo = Some m /\ accounts (w_db w) !! accountNo = Some a /\
         ar_merchant a = mr_no m /\ no = ar_no a) \/
      (outUserID <> "" /\ exists t a, GetAccountByMerchantOutUserID merchantNo outUserID t (w_db w) = Ok (w_db w, a)
         /\ no = ar_no a)
  | Err e => e = ErrAccountResolveConflict
  end.
Proof.
  unfold ResolveCustomerAccount. unfold bind at 1.
  destruct (lookup_total (auto (Queries.GetMerchantByNo merchantNo)) Repository.merchantFromRow w) as (w1 & m & Em).
  fold (Repository.GetMerchantByNo merchantNo) in Em. rewrite Em.
  apply GetMerchantByNo_ok in Em as [Hd1 Hm]. destruct m as [m|]; [|intros [= <- <-]; auto].
  destruct (Hm m eq_refl) as (mr & Hmr & ->). clear Hm. rewrite <- Hd1 in *. unfold bind at 1.
  set (getA := if String.eqb accountNo "" then _ else _).
  assert (exists w2 a, getA w1 = (w2, Ok a) /\ w_db w2 = w_db w1 /\
    forall x, a = Some x -> exists ra, accounts (w_db w1) !! accountNo = Some ra /\ x = accountFromGetAccountRow ra)
    as (w2 & a & -> & Hd2 & Ha).
  { unfold getA. destruct (String.eqb accountNo ""); [by exists w1, None|].
    destruct (lookup_total (auto (GetAccountByNo accountNo)) accountFromGetAccountRow w1) as (w2 & a & Ea).
    exists w2, a. split; [exact Ea|]. by apply GetAccount_ok. }
  unfold bind at 1. set (getO := if String.eqb outUserID "" then _ else _).
  assert (exists w3 o, getO w2 = (w3, Ok o) /\ w_db w3 = w_db w1 /\ forall x, o = Some x -> outUserID <> "" /\
    exists t ra, GetAccountByMerchantOutUserID merchantNo outUserID t (w_db w1) = Ok (w_db w1, ra)
      /\ x = accountFromGetAccountRow ra) as (w3 & o & -> & Hd3 & Ho).
  { unfold getO. destruct (String.eqb_spec outUserID ""); [by exists w2, None|].
    destruct (lookup_total (auto (GetAccountByMerchantOutUserID merchantNo outUserID)) accountFromGetAccountRow w2)
      as (w3 & o & Eo).
    exists w3, o. split; [exact Eo|]. apply GetAccountByOutUser_ok in Eo as [Hd3 Ho]. rewrite Hd2 in *. eauto. }
  set (fromA := pick a _ _). set (fromO := pick o _ _).
  assert (fromA = "" \/ exists mr0 ra, merchants (w_db w1) !! merchantNo = Some mr0 /\
    accounts (w_db w1) !! accountNo = Some ra /\ ar_merchant ra = mr_no mr0 /\ fromA = ar_no ra) as HA.
  { unfold fromA, pick. destruct a as [x|]; [|by left]. destruct (String.eqb_spec (AMerchantNo x) (MerchantNo (Repository.merchantFromRow mr))) as [E|]; [|by left].
    destruct (Ha x eq_refl) as (ra & Hra & ->). right. exists mr, ra. by repeat (split; [done|]). }
  assert (fromO = "" \/ (outUserID <> "" /\ exists t ra, GetAccountByMerchantOutUserID merchantNo outUserID t (w_db w1)
    = Ok (w_db w1, ra) /\ fromO = ar_no ra)) as HO.
  { unfold fromO, pick. destruct o as [x|]; [|by left]. destruct (Ho x eq_refl) as (Hne & t & ra & Hq & ->).
    right. split; [done|]. by exists t, ra. }
  destruct (_ && _ && _); [by intros [= <- <-]|].
  destruct (negb (String.eqb fromA "")); [|destruct (negb (String.eqb fromO ""))]; intros [= <- <-]; (split; [congruence|]); tauto.
Qed.
End Routing.
