(* ===== verification/SetupProofs.v ===== *)
(** * The first setup of the console, and logging in after it

    The setup succeeds at most once, whatever happens after it; once it has,
    its administrator logs in with its password and with no other. *)

From S2P Require Import Prelude GoBase Domain Codes Encoding Json Store Queries Reads Secrets Ledger Repo AdminRepo Via AdminGrow Quiet Services TxnQuery Api Auth Router AdminAuth AdminSetup AdminRoutes AdminTxns Through AdminThrough Invariant LedgerProofs Calls Grow System Safety Typed ServerProofs ServiceProofs AdminProofs.
From stdpp Require Import base gmap list strings relations.
From Stdlib Require Import ZArith Lia.

Local Open Scope string_scope.
Local Open Scope Z_scope.

(** ** The setup row *)

Definition initialized (d : DB) : Prop := exists s, setup_state (admin d) = Some s /\ ss_initialized s = true.

Lemma Grow_initialized d d' : Grow d d' -> initialized d -> initialized d'.
Proof.
  intros [] (s & Hs & Hi). destruct (ag_setup _ _ gr_admin s Hs) as (s' & Hs' & Hst & _). exists s'. auto.
Qed.

Lemma ensureRow_ok w w' x :
  AdminRepository.ensureAdminSetupStateRow w = (w', Ok x) -> exists s, setup_state (admin (w_db w')) = Some s.
Proof.
  intros (w1 & [] & _ & [t Hq]%auto_ok)%bind_ok. unfold insertSetupRow in Hq.
  destruct (setup_state (admin (w_db w1))) as [s|] eqn:E; injection Hq as <-; [by exists s|]. by eexists.
Qed.

Lemma markInitialized_ok u m w w' x :
  AdminRepository.MarkAdminSetupInitialized u m w = (w', Ok x) -> initialized (w_db w').
Proof.
  intros (w1 & [] & [s Hs]%ensureRow_ok & [t Hq]%auto_ok)%bind_ok. unfold markInitialized, updateSetupRow in Hq.
  rewrite Hs in Hq. apply guardQ_ok in Hq as [_ [= <-]]. by eexists.
Qed.

(** Of an initialized console, the state is read and nothing is written. *)
Lemma getState_initialized w w' r :
  AdminRepository.GetAdminSetupState w = (w', r) -> initialized (w_db w) ->
  w_db w' = w_db w /\ forall st, r = Ok st -> Initialized st = true.
Proof.
  intros Hg (s & Hs & Hi).
  assert (Hrow : forall v, w_db v = w_db w -> w_db (AdminRepository.ensureAdminSetupStateRow v).1 = w_db w).
  { intros v Hv.
    assert (via (fun d d' => setup_state (admin d) = Some s -> d' = d) AdminRepository.ensureAdminSetupStateRow) as Hvia.
    { assert (PreOrder (fun d d' => setup_state (admin d) = Some s -> d' = d)).
      { split; [done|]. intros x y z Hxy Hyz Hx. specialize (Hxy Hx) as ->. auto. }
      unfold AdminRepository.ensureAdminSetupStateRow, AdminRepository.ensureAdminSetupStateTable. via_.
      apply via_auto; [done|]. intros t d d' [] Hq Hd. unfold insertSetupRow in Hq. rewrite Hd in Hq. by injection Hq. }
    rewrite (Hvia v); [done|]. by rewrite Hv. }
  unfold AdminRepository.GetAdminSetupState, bind in Hg. specialize (Hrow w eq_refl).
  destruct (AdminRepository.ensureAdminSetupStateRow w) as [w1 [e|[]]]; simpl in Hrow; [by injection Hg as <- <-|].
  assert (Hk : keeps (auto getSetupRow)) by keep. specialize (Hk w1).
  destruct (auto getSetupRow w1) as [w2 [e|row]] eqn:Ea; simpl in Hk; injection Hg as <- <-; (split; [congruence|]); [done|].
  intros st [= <-]. apply auto_ok in Ea as [t Hq]. apply (one_ok _ t) in Hq as [_ Hq].
  rewrite Hrow, Hs in Hq. by injection Hq as <-.
Qed.

(** ** The body *)

Section Setup.
Context {PF : Platform} {CP : CodeProvider} {SC : SecretCipher} {BC : Bcrypt}.

Lemma lock_inv {A} (m : M A) w w' r :
  AdminRepository.WithAdminSetupLock m w = (w', r) ->
  (w_db w' = w_db w /\ exists e, r = Err e) \/
  exists w1 w2, w_db w1 = w_db w /\ m w1 = (w2, r) /\ w_db w' = w_db w2.
Proof.
  assert (Hk : keeps (auto advisory)) by keep. unfold AdminRepository.WithAdminSetupLock, bind, attempt.
  pose proof (Hk w) as H1. destruct (auto advisory w) as [w1 [e|[]]]; [intros [= <- <-]; left; eauto|].
  destruct (m w1) as [w2 r2] eqn:Em. pose proof (Hk w2) as H2. destruct (auto advisory w2) as [w3 r3]. simpl in *.
  intros Hr. right. exists w1, w2. by destruct r2; injection Hr as <- <-.
Qed.

(** A setup that succeeds leaves the console initialized. *)
Lemma initializeBody_ok req w w' j : initializeBody req w = (w', Ok j) -> initialized (w_db w').
Proof.
  intros (w1 & st & _ & Hr)%bind_ok. destruct (Initialized st); [done|].
  apply bind_ok in Hr as (w2 & [] & _ & Hr). apply bind_ok in Hr as (w3 & [] & _ & Hr).
  apply bind_ok in Hr as (w4 & mer & _ & Hr). apply bind_ok in Hr as (w5 & [] & _ & Hr).
  apply bind_ok in Hr as (w6 & [] & _ & Hr). apply bind_ok in Hr as (w7 & sec & _ & Hr).
  apply bind_ok in Hr as (w8 & [] & Hm & [-> _]%ret_ok). by eapply markInitialized_ok.
Qed.

(** One that follows is refused and writes nothing. *)
Lemma initializeBody_refused req w w' r :
  initialized (w_db w) -> initializeBody req w = (w', r) -> w_db w' = w_db w /\ exists e, r = Err e.
Proof.
  intros Hi. unfold initializeBody, bind. destruct (AdminRepository.GetAdminSetupState w) as [w1 [e|st]] eqn:Eg.
  - intros [= <- <-]. apply getState_initialized in Eg as [Hd _]; [eauto|done].
  - apply getState_initialized in Eg as [Hd Hst]; [|done]. rewrite (Hst st eq_refl). intros [= <- <-]. eauto.
Qed.

Context {D : Type}.

Lemma handleInitialize_inv c body (s : D) w s' w' resp :
  runH (handleInitialize c body) s w = (s', w', resp) ->
  (w_db w' = w_db w /\ httpCode resp <> 201) \/
  exists req r, AdminRepository.WithAdminSetupLock (initializeBody (trimmedRequest req)) w = (w', r) /\ body = Some req /\
    isUsername (TrimSpace (sq_username req)) = true /\ (httpCode resp = 201 -> exists j, r = Ok j).
Proof.
  unfold runH, handleInitialize, bound, invalid, reject, writeError, writeCreated, respond, retH, liftH, bindH.
  destruct body as [req|]; [|intros [= _ <- <-]; by left]. cbn [trimmedRequest sq_username].
  destruct (isUsername _) eqn:Eu; [|intros [= _ <- <-]; by left]. cbn [negb].
  destruct (_ || _); [intros [= _ <- <-]; by left|]. destruct (isEmpty _); [intros [= _ <- <-]; by left|].
  destruct (_ && _); [intros [= _ <- <-]; by left|].
  destruct (AdminRepository.WithAdminSetupLock _ w) as [w1 r] eqn:El. intros Hr. right. exists req, r.
  assert (w1 = w') as -> by (destruct r; repeat case_match; congruence). do 3 (split; [done|]). intros Hc.
  destruct r as [e|j]; [|eauto]. repeat case_match; simplify_eq; discriminate Hc.
Qed.

(** What may happen between two moments: any call, and anything that leaves
    the tables alone. *)
Definition next (w w' : World) : Prop := (exists o, w' = exec o w) \/ w_db w' = w_db w.

Lemma later_initialized w w' : rtc next w w' -> initialized (w_db w) -> initialized (w_db w').
Proof.
  induction 1 as [|x y z [[o ->]|Hd] _ IH]; [done|..]; intros Hi; apply IH.
  - eapply Grow_initialized; [apply grow_exec|done].
  - by rewrite Hd.
Qed.

(** [C16] The console is set up once.  After a setup that was answered 201,
    whatever calls are made in between, every further setup request is
    answered with an error and changes no table: no second administrator and
    no second default merchant come out of it. *)
Theorem setup_once c c' body body' (s s2 : D) w s1 w1 resp w2 :
  runH (handleInitialize c body) s w = (s1, w1, resp) -> httpCode resp = 201 -> rtc next w1 w2 ->
  exists s3 w3 resp', runH (handleInitialize c' body') s2 w2 = (s3, w3, resp') /\
    httpCode resp' <> 201 /\ w_db w3 = w_db w2.
Proof.
  intros H1 Hc Hl.
  assert (initialized (w_db w1)) as Hi.
  { apply handleInitialize_inv in H1 as [[_ ?]|(req & r & Hr & _ & _ & Hok)]; [done|]. destruct (Hok Hc) as [j ->].
    apply lock_inv in Hr as [[_ [e ?]]|(v1 & v2 & _ & Hb & ->)]; [done|]. by eapply initializeBody_ok. }
  apply (later_initialized _ _ Hl) in Hi.
  destruct (runH (handleInitialize c' body') s2 w2) as [[s3 w3] resp'] eqn:E. exists s3, w3, resp'. split; [done|].
  apply handleInitialize_inv in E as [[? ?]|(req & r & Hr & _ & _ & Hok)]; [done|].
  assert (w_db w3 = w_db w2 /\ exists e, r = Err e) as [Hd [e ->]].
  { apply lock_inv in Hr as [?|(v1 & v2 & Hv & Hb & Hd)]; [done|].
    apply initializeBody_refused in Hb as [Hd' He]; [|by rewrite Hv]. split; [congruence|done]. }
  split; [|done]. intros Hc'. by destruct (Hok Hc').
Qed.

(** ** The administrator *)

Definition same_users (d d' : DB) : Prop := admin_users (admin d') = admin_users (admin d).
#[local] Instance same_users_preorder : PreOrder same_users.
Proof. split; [done|]. intros x y z. unfold same_users. congruence. Qed.

#[local] Instance ledger_users : Statements same_users.
Proof. refine (Statements_mono same_admin same_users _ _). intros d d' E. unfold same_users. by rewrite E. Qed.

Lemma users_setupRow f u m : viaQ same_users (updateSetupRow f u m).
Proof.
  intros t d d' [] Hq. unfold updateSetupRow in Hq. destruct (setup_state (admin d)); [|by injection Hq as <-].
  by apply guardQ_ok in Hq as [_ [= <-]].
Qed.
Lemma users_insertSetup : viaQ same_users insertSetupRow.
Proof. intros t d d' [] Hq. unfold insertSetupRow in Hq. by destruct (setup_state (admin d)); injection Hq as <-. Qed.
#[local] Hint Resolve users_setupRow users_insertSetup : coin.
Lemma users_SaveProgress u m : via same_users (AdminRepository.SaveAdminSetupProgress u m).
Proof.
  unfold AdminRepository.SaveAdminSetupProgress, AdminRepository.ensureAdminSetupStateRow,
    AdminRepository.ensureAdminSetupStateTable, saveProgress. via_.
Qed.
Lemma users_MarkInitialized u m : via same_users (AdminRepository.MarkAdminSetupInitialized u m).
Proof.
  unfold AdminRepository.MarkAdminSetupInitialized, AdminRepository.ensureAdminSetupStateRow,
    AdminRepository.ensureAdminSetupStateTable, markInitialized. via_.
Qed.
#[local] Hint Resolve users_SaveProgress users_MarkInitialized : coin.
Lemma users_setupMerchant u n m : via same_users (setupMerchant u n m).
Proof.
  unfold setupMerchant. apply (thruM_bind _); [by apply (thruM_keeps _), keeps_GetMerchant|]. intros known.
  destruct (if isEmpty _ then _ else _); [by apply (thruM_ret _)|].
  apply (thruM_bind _); [apply (via_CreateMerchant _)|]. via_.
Qed.

(** After the user, the body touches no user. *)
Lemma users_rest (req : adminSetupInitializeRequest) st :
  via same_users
    (do! AdminRepository.SaveAdminSetupProgress (sq_username req) (DefaultMerchantNo st) in
     let! merchant := setupMerchant (sq_username req) (sq_merchant_name req) (DefaultMerchantNo st) in
     let merchantNo := MerchantNo merchant in
     do! Repository.UpsertMerchantFeatureConfig merchantNo true true in
     do! Repository.UpsertWebhookConfig merchantNo (sq_webhook_url req) (negb (isEmpty (sq_webhook_url req))) in
     let! secret := RotateSecret merchantNo in
     do! AdminRepository.MarkAdminSetupInitialized (sq_username req) merchantNo in
     ret (JObj [("admin_username", JStr (sq_username req)); ("merchant_no", JStr merchantNo);
             ("merchant_secret", JStr secret.1); ("secret_version", JNum secret.2);
             ("budget_account_no", JStr (BudgetAccountNo merchant));
             ("receivable_account_no", JStr (ReceivableAccountNo merchant))])).
Proof.

  assert (forall m, via same_users (RotateSecret m)) as Hrot by (intros m; apply (via_RotateSecret _); done).
  pose proof users_setupMerchant. pose proof ledger_users.
  unfold Repository.UpsertMerchantFeatureConfig, Repository.UpsertWebhookConfig. via_.
Qed.

(** The user of [name], with the hash [h], may log in. *)
Definition has_user (d : DB) (name h : string) : Prop :=
  exists r, admin_users (admin d) !! name = Some r /\ au_hash r = h /\ au_status r = "ACTIVE".

Lemma username_graphic s : isUsername s = true -> sforall graphic s = true /\ s <> "".
Proof.
  unfold isUsername. intros Hs. bools. split; [|by intros ->].
  eapply sforall_impl; [|done]. intros c. unfold username_char, is_digit, graphic. intros. bools.
  repeat match goal with E : _ || _ = true |- _ => apply orb_true_iff in E as [E|E] end; bools; lia.
Qed.

Lemma storedUser u h (k : string -> string -> M unit) w w' x :
  sforall graphic h = true -> h <> "" -> isUsername u = true ->
  AdminRepository.credentials u h k w = (w', Ok x) -> k u h w = (w', Ok x).
Proof.
  intros Hh Hne Hu. destruct (username_graphic u Hu) as [Hg Hue]. unfold AdminRepository.credentials.
  rewrite !TrimSpace_graphic by done. by rewrite !(proj2 (String.eqb_neq _ _)) by done.
Qed.

Lemma setupUser_ok u p w w' x :
  admin_typed (admin (w_db w)) -> isUsername u = true -> setupUser u p w = (w', Ok x) ->
  exists h, has_user (w_db w') u h /\ CompareHashAndPassword h p = true.
Proof.
  intros Ht Hu (w1 & existing & He & Hr)%bind_ok. apply bind_ok in Hr as (w2 & h & Hg & Hr).
  pose proof (generated_matches _ _ _ _ Hg) as (Hm & Hne & Hh). exists h. split; [|done].
  assert (forall user, existing = Some user -> Username user = u) as Hname.
  { intros user ->. unfold AdminRepository.GetAdminUserByUsername in He.
    destruct (username_graphic u Hu) as [Hgr Hne']. rewrite (TrimSpace_graphic _ Hgr), (proj2 (String.eqb_neq _ _) Hne') in He.
    apply bind_ok in He as (w3 & r & Hf & [_ Hs]%ret_ok). destruct r as [row|]; [|done]. injection Hs as ->.
    unfold Repository.found_err in Hf. apply bind_ok in Hf as (w4 & [e|row'] & Ha & Hf).
    { destruct (errors_is _ _); [by apply ret_ok in Hf as [_ ?]|done]. }
    apply ret_ok in Hf as [-> [= ->]]. unfold attempt in Ha. destruct (auto _ w) as [w5 r5] eqn:Ea. injection Ha as <- ->.
    apply auto_ok in Ea as [t Hq]. apply (one_ok _ t) in Hq as [_ Hq]. by destruct (at_users _ Ht _ _ Hq). }
  destruct existing as [user|].
  - rewrite (Hname user eq_refl) in Hr. apply storedUser, auto_ok in Hr as [t Hq]; [|done..]. unfold upsertAdminUser in Hq.
    apply guardQ_ok in Hq as [_ Hq]. apply guardQ_ok in Hq as [_ [= <-]]. unfold has_user. simpl.
    rewrite lookup_insert_eq. eexists. split; [done|]. by case_match.
  - apply bind_ok in Hr as (w3 & [e|[]] & Hc & Hr); [by destruct (errors_is _ _)|]. apply ret_ok in Hr as [-> _].
    unfold attempt in Hc. destruct (AdminRepository.CreateAdminUser u h w2) as [w4 r4] eqn:Ea. injection Hc as <- ->.
    apply storedUser in Ea; [|done..]. unfold Repository.unique_as in Ea.
    destruct (auto (insertAdminUser u h) w2) as [w5 [e|[]]] eqn:Eq; [by destruct e|]. injection Ea as <-.
    apply auto_ok in Eq as [t Hq]. unfold insertAdminUser in Hq. apply guardQ_ok in Hq as [_ Hq]. apply guardQ_ok in Hq as [_ Hq].
    destruct (admin_users (admin (w_db w2)) !! u); [done|]. injection Hq as <-. unfold has_user. simpl. rewrite lookup_insert_eq. eauto.
Qed.

Lemma initializeBody_user req w w' j :
  admin_typed (admin (w_db w)) -> isUsername (sq_username req) = true -> initializeBody req w = (w', Ok j) ->
  exists h, has_user (w_db w') (sq_username req) h /\ CompareHashAndPassword h (sq_password req) = true.
Proof.
  intros Ht Hu (w1 & st & Hg & Hr)%bind_ok. destruct (Initialized st); [done|].
  apply bind_ok in Hr as (w2 & [] & Hs & Hr).
  assert (admin_typed (admin (w_db w1))) as Ht1.
  { pose proof (via_GetAdminSetupState Grow (fun A q => st_console Grow q) w) as HG. rewrite Hg in HG.
    by apply (ag_typed _ _ (gr_admin _ _ HG)). }
  destruct (setupUser_ok _ _ _ _ _ Ht1 Hu Hs) as (h & Hh & Hc). exists h. split; [|done].
  pose proof (users_rest req st w2) as HU. rewrite Hr in HU. unfold has_user. unfold onDB, same_users in HU. simpl in HU.
  by rewrite HU.
Qed.

(** ** Logging in *)

Lemma getUser_nofault name h w :
  w_faults w = [] -> isUsername name = true -> has_user (w_db w) name h -> admin_typed (admin (w_db w)) ->
  exists w' r, AdminRepository.GetAdminUserByUsername name w = (w', Ok (Some (AdminRepository.adminUserOf r))) /\
    au_name r = name /\ au_hash r = h /\ au_status r = "ACTIVE".
Proof.
  intros Hf Hu (r & Hr & Hh & Hs) Ht. destruct (username_graphic name Hu) as [Hg Hne].
  unfold AdminRepository.GetAdminUserByUsername. rewrite (TrimSpace_graphic _ Hg), (proj2 (String.eqb_neq _ _) Hne).
  destruct (auto_nofault (getAdminUser name) w r Hf) as (w' & Ea & _).
  { intros t. unfold getAdminUser. by rewrite Hr. }
  exists w', r. unfold Repository.found_err, bind, attempt. rewrite Ea. split; [done|].
  by destruct (at_users _ Ht _ _ Hr).
Qed.

(** The administrator can log in.  After a setup answered 201, the name it
    was given logs in with the password it was given, and gets a pair of
    tokens for that name; any password that does not match the stored hash is
    refused with 401.  The log in itself runs on a working
    connection. *)
Lemma login_after_setup m c c' req password (s : D) w s1 w1 resp w2 :
  let user := TrimSpace (sq_username req) in
  reachable w -> runH (handleInitialize c (Some req)) s w = (s1, w1, resp) -> httpCode resp = 201 ->
  w_db w2 = w_db w1 -> w_faults w2 = [] -> TrimSpace password <> "" ->
  exists h, CompareHashAndPassword h (TrimSpace (sq_password req)) = true /\
    exists s3 w3 answer, runH (handleLogin m c' (Some (mkAdminLoginRequest user password))) s1 w2 = (s3, w3, answer) /\
      if CompareHashAndPassword h (TrimSpace password)
      then httpCode answer = 200 /\ exists w4 p, IssueTokenPair m user w4 = (w3, Ok p) /\
             data answer = Some (JObj
               [("access_token", JStr (accessToken p)); ("refresh_token", JStr (refreshToken p)); ("token_type", JStr "Bearer");
                ("access_token_expires_at", JStr (Calendar.formatRFC3339 (accessExpireAt p)));
                ("refresh_token_expires_at", JStr (Calendar.formatRFC3339 (refreshExpireAt p)));
                ("user", JObj [("username", JStr user)])])
      else httpCode answer = 401 /\ data answer = None.
Proof.
  intros user Hr H1 Hc Hd Hf Hp.
  apply handleInitialize_inv in H1 as [[_ ?]|(req' & r & Hb & [= <-] & Hu & Hok)]; [done|]. destruct (Hok Hc) as [j ->].
  apply lock_inv in Hb as [[_ [e ?]]|(v1 & v2 & Hv & Hb & Hd1)]; [done|]. fold user in Hu.
  pose proof (ty_admin _ (reachable_typed _ Hr)) as Ht. rewrite <- Hv in Ht.
  destruct (initializeBody_user (trimmedRequest req) _ _ _ Ht Hu Hb) as (h & Hh & Hm).
  cbn [trimmedRequest sq_username sq_password] in Hh, Hm. fold user in Hh. exists h. split; [done|].
  assert (admin_typed (admin (w_db w2))) as Ht2.
  { rewrite Hd, Hd1. assert (reachable v1) as Hr1 by by eapply re_env.
    pose proof (thruM_initializeBody onward (trimmedRequest req) v1 Hr1) as [Hr2 _]. rewrite Hb in Hr2.
    apply (ty_admin _ (reachable_typed _ Hr2)). }
  rewrite <- Hd1, <- Hd in Hh. destruct (getUser_nofault _ _ _ Hf Hu Hh Ht2) as (w3 & row & Hg & Hn & Hrow & Hst).
  destruct (username_graphic user Hu) as [Hgr Hne].
  unfold runH, handleLogin, activeUser, bound, invalid, reject, writeError, respond, retH, liftH, bindH.
  cbn [lq_username lq_password]. rewrite !(TrimSpace_graphic _ Hgr). unfold isEmpty at 1 2.
  rewrite !(proj2 (String.eqb_neq _ _)) by done. cbn [orb]. rewrite Hg.
  cbn [AdminRepository.adminUserOf UStatus]. rewrite Hst.
  change (EqualFold (TrimSpace "ACTIVE") "ACTIVE") with true. cbv iota beta.
  cbn [AdminRepository.adminUserOf PasswordHash Username]. rewrite Hrow, Hn.
  destruct (CompareHashAndPassword h (TrimSpace password)); cbn [negb].
  2:{ by eexists _, _, _. }
  unfold issueTokens, liftH, bindH.
  destruct (IssueTokenPair m user w3) as [w4 [e|p]] eqn:Ei.
  - exfalso. unfold IssueTokenPair, isEmpty in Ei. rewrite (TrimSpace_graphic _ Hgr), (proj2 (String.eqb_neq _ _) Hne) in Ei.
    by unfold bind, timeNow in Ei.
  - eexists _, _, _. split; [reflexivity|]. split; [done|]. by exists w3, p.
Qed.
End Setup.
