(* ===== verification/AuditProofs.v ===== *)
(** * The audit log

    A request to the console adds at most one row to the audit log: only when
    it is answered with a success, and in the name of the user of its token.
    An insertion that fails is not reported, and one whose request id is
    longer than the column always fails. *)

From S2P Require Import Prelude GoBase Domain Codes Encoding Calendar Json JsonDecode Store Queries Reads Secrets Ledger Repo AdminRepo Via AdminGrow Services TxnQuery Api Auth Router AdminAuth AdminSetup AdminRoutes AdminTxns Through AdminThrough Invariant LedgerProofs Calls System ServiceProofs AdminProofs.
From stdpp Require Import base gmap list strings.
From Stdlib Require Import ZArith Lia.

Local Open Scope string_scope.
Local Open Scope Z_scope.

(** ** What leaves the log alone *)

Definition same_log (d d' : DB) : Prop := audit_log (admin d') = audit_log (admin d).
#[export] Instance same_log_preorder : PreOrder same_log.
Proof. split; [done|]. intros x y z. unfold same_log. congruence. Qed.

#[export] Instance ledger_log `{Platform} : Statements same_log.
Proof. refine (Statements_mono same_admin same_log _ _). intros d d' E. unfold same_log. by rewrite E. Qed.

Abbreviation quietly := (onDB same_log).

Section Quiet.
Context {PF : Platform} {CP : CodeProvider} {SC : SecretCipher}.

#[export] Instance log_writes : Writes quietly.
Proof.
  pose proof ledger_log. split; intros.
  - apply (via_Submit _).
  - apply (via_EnsureCustomer _).
  - apply (via_CreateMerchant _).
  - apply (via_RotateSecret _). done.
  - unfold Repository.UpsertMerchantFeatureConfig. via_.
  - unfold Repository.UpsertWebhookConfig. via_.
Qed.

Lemma log_upsertUser n h : viaQ same_log (upsertAdminUser n h).
Proof. by intros t d d' [] [_ [_ [= <-]]%guardQ_ok]%guardQ_ok. Qed.
Lemma log_insertUser n h : viaQ same_log (insertAdminUser n h).
Proof. intros t d d' [] [_ [_ Hq]%guardQ_ok]%guardQ_ok. by destruct (admin_users _ !! n); simplify_eq. Qed.
Lemma log_insertSetup : viaQ same_log insertSetupRow.
Proof. intros t d d' [] Hq. unfold insertSetupRow in Hq. by destruct (setup_state (admin d)); injection Hq as <-. Qed.
Lemma log_setupRow f u m : viaQ same_log (updateSetupRow f u m).
Proof.
  intros t d d' [] Hq. unfold updateSetupRow in Hq. destruct (setup_state (admin d)); [|by injection Hq as <-].
  by apply guardQ_ok in Hq as [_ [= <-]].
Qed.
Hint Resolve log_upsertUser log_insertUser log_insertSetup log_setupRow : coin.

#[export] Instance log_adminWrites : AdminWrites quietly.
Proof.
  pose proof ledger_log.
  split; intros; try (apply (via_CreateCustomer _));
    unfold Repository.CreateAccount, Repository.UpdateAccountCapabilities, AdminRepository.EnsureAdminUser,
      AdminRepository.CreateAdminUser, AdminRepository.GetAdminSetupState, AdminRepository.SaveAdminSetupProgress,
      AdminRepository.MarkAdminSetupInitialized, AdminRepository.ensureAdminSetupStateRow,
      AdminRepository.ensureAdminSetupStateTable, AdminRepository.credentials, saveProgress, markInitialized; via_.
  apply (via_createAccount _).
Qed.
End Quiet.

(** ** One insertion *)

Definition log_of (w : World) : list AuditRow := audit_log (admin (w_db w)).

Section Insertion.
Context {PT : PgText}.

Lemma audit_adds e w :
  log_of (AdminRepository.InsertAdminAuditLog e w).1 = log_of w \/
  exists row, log_of (AdminRepository.InsertAdminAuditLog e w).1 = (log_of w ++ [row])%list /\
    utf8_len (al_request row) <= 64 /\ al_request row = AdminRepository.orDash "-" (RequestID e) /\
    al_operator row = AdminRepository.orDash "unknown" (OperatorUsername e) /\ al_code row = AdminRepository.orDash "UNKNOWN" (ResultCode e).
Proof.
  unfold AdminRepository.InsertAdminAuditLog, auto, bind, startNow, timeNow.
  set (w0 := with_txnow _ _). set (q := insertAudit _ _).
  destruct (run q w0) as [w1 r] eqn:E. apply run_db in E as [Hd|(d & [] & Hq & Hd)]; unfold log_of; simpl.
  { left. by rewrite Hd. }
  rewrite Hd. unfold q, insertAudit in Hq. apply guardQ_ok in Hq as [Hw Hq]. right.
  do 6 apply andb_true_iff in Hw as [Hw _]. apply Z.leb_le in Hw.
  destruct (nullIfEmpty _) as [p|]; [destruct (jsonb p); [|done]|]; injection Hq as <-;
    (eexists; split; [reflexivity|]; by repeat split).
Qed.
End Insertion.

(** ** Handlers *)

(** A row of a success, by [user], of the request [rid]. *)
Definition names (rid user : string) (row : AuditRow) : Prop :=
  al_operator row = user /\ al_request row = AdminRepository.orDash "-" rid /\ al_code row = "SUCCESS" /\
  utf8_len (al_request row) <= 64.

Section Handlers.
Context {PF : Platform} {PT : PgText} {CP : CodeProvider} {SC : SecretCipher} {BC : Bcrypt} {UL : UUIDLib}
  {AB : AdminBinding} {D : Type} {TD : TransferDispatcher D}.
Context (h : AdminHandler) (c : Context) (user : string) (Hu : TrimSpace user <> "").
Abbreviation quietH := (thruH quietly).

(** At most one row, and only together with a success. *)
Definition audited (m : @H D Response) : Prop := forall s w s' w' r,
  m s w = (s', w', r) ->
  log_of w' = log_of w \/
  exists row resp, log_of w' = (log_of w ++ [row])%list /\ names (x_requestID c) (TrimSpace user) row /\
    r = Ok resp /\ (httpCode resp = 200 \/ httpCode resp = 201).

Lemma audited_quiet m : quietH m -> audited m.
Proof. intros Hm s w s' w' r E. left. specialize (Hm s w). by rewrite E in Hm. Qed.
Lemma audited_bind {A} (m : @H D A) f : quietH m -> (forall a, audited (f a)) -> audited (bindH m f).
Proof.
  intros Hm Hf s w s' w' r. unfold bindH. specialize (Hm s w). destruct (m s w) as [[s1 w1] [e|a]].
  - intros [= <- <- <-]. by left.
  - intros E. apply Hf in E. unfold log_of in *. unfold onDB, same_log in Hm. simpl in Hm. by rewrite <- Hm.
Qed.
Lemma audited_reject b http code msg (f : unit -> @H D Response) :
  (b = false -> audited (f tt)) -> audited (bindH (reject c b http code msg) f).
Proof.
  intros Hf. unfold reject. destruct b; [by apply audited_quiet|]. intros s w s' w' r E. by apply (Hf eq_refl s w s' w' r).
Qed.
Lemma audited_audit a t i m p d (wr : Context -> json -> @H D Response) :
  wr = writeSuccess \/ wr = writeCreated -> audited (bindH (audit h c (Some user) a t i m p) (fun _ => wr c d)).
Proof using Hu.
  intros Hwr s w s' w' r. unfold audit. destruct (negb (ah_repo h)).
  { intros E. left. destruct Hwr as [-> | ->]; by injection E as <- <- <-. }
  unfold adminUsernameFromContext, isEmpty. rewrite (proj2 (String.eqb_neq _ _) Hu).
  set (e := mkAdminAuditLog _ _ _ _ _ _ _ _ _). pose proof (audit_adds e w) as Ha. unfold bindH, liftH, retH.
  destruct (AdminRepository.InsertAdminAuditLog e w) as [w1 r1]. simpl in Ha.
  intros E. assert (w' = w1 /\ exists resp, r = Ok resp /\ (httpCode resp = 200 \/ httpCode resp = 201)) as [-> Hresp].
  { destruct Hwr as [-> | ->]; injection E as <- <- <-; split; eauto. }
  destruct Ha as [Ha|(row & Ha & Hl & Hr & Ho & Hc)]; [by left|]. right. destruct Hresp as (resp & Hresp). exists row, resp. split; [exact Ha|].
  split; [|exact Hresp].
  repeat split; try done. rewrite Ho. unfold AdminRepository.orDash. simpl. rewrite TrimSpace_idem.
  by rewrite (proj2 (String.eqb_neq _ _) Hu).
Qed.

Hint Resolve audited_quiet audited_audit : coin.
Hint Resolve thruH_now thruH_writeError thruH_writeSuccess thruH_writeCreated thruH_contextMerchant thruH_knownMerchant
  thruH_bound thruH_existingAccount thruH_time thruH_resolveUser thruH_resolveRoute thruH_expiryDay thruH_checkCopy
  thruH_refundError thruH_orInternal thruH_internal_keeps thruH_param thruH_adminEnqueue thruH_writeSubmitError
  thruH_newOwner thruH_adminCreditTarget thruM_newNo thruH_checkSubmission : coin.

(** Proves [audited] by the structure of the handler. *)
Ltac audit_ :=
  repeat first
    [ match goal with |- forall _, _ => intro end
    | progress cbv beta zeta
    | match goal with
      | |- audited (bindH (audit _ _ _ _ _ _ _ _) _) => apply audited_audit; auto
      | |- audited (bindH (adminConfigured _ _) _) => apply audited_reject; intros _
      | |- audited (bindH (invalid _ _ _) _) => apply audited_reject
      | |- audited (bindH (reject _ _ _ _ _) _) => apply audited_reject
      | |- audited (bindH _ _) => apply audited_bind; [solve [thru_]|]
      | |- audited (match ?x with _ => _ end) => destruct x
      | |- audited _ => apply audited_quiet; solve [thru_]
      end ].

Lemma audited_submit req a p (f : error -> @H D Response) :
  (RqStatus req = "" \/ RqStatus req = TxnStatusInit) /\ RqRefundableAmount req <= RqAmount req ->
  (forall e, quietH (f e)) -> audited (adminSubmit h c (Some user) req a p f).
Proof using All.
  intros Hq Hf. unfold adminSubmit. apply audited_bind; [by apply thruH_lift, through_submit|]. audit_.
Qed.

Lemma audited_handler m q r : audited (adminHandler h m c (Some user) q r : @H D _).
Proof using All.
  pose proof log_writes. pose proof log_adminWrites.
  destruct (adminReads r) eqn:Er; [by apply audited_quiet, thru_adminReads; [apply _|]|].
  destruct r; try done; try (apply audited_quiet, thru_setup; [apply _..|]; by auto); unfold adminHandler.
  - unfold handleAdminCreateMerchant. audit_.
  - unfold handleAdminPatchMerchantFeatures. audit_.
  - unfold handleAdminRotateMerchantSecret. audit_.
  - unfold handleAdminPutWebhookConfig. audit_.
  - unfold handleAdminCreateCustomer. audit_.
  - unfold handleAdminCreateAccount. audit_.
  - unfold handleAdminPatchAccountCapability. audit_.
  - unfold handleAdminCredit. audit_. all: apply audited_submit; [split; [by right|simpl; lia]|auto with coin].
  - unfold handleAdminDebit. audit_. all: apply audited_submit; [split; [by right|simpl; lia]|auto with coin].
  - unfold handleAdminTransfer. audit_. all: apply audited_submit; [split; [by right|simpl; lia]|auto with coin].
  - unfold handleAdminRefund. audit_. apply audited_submit; [|auto with coin]. split; [by right|]. simpl in *. bools. lia.
Qed.
End Handlers.

(** ** Requests *)

(** A request id that does not fit its column. *)
Lemma long_audits {PT : PgText} c :
  64 < utf8_len (AdminRepository.orDash "-" (x_requestID c)) -> Audits quietly c.
Proof.
  intros Hlong. split. intros e He w. unfold onDB, same_log.
  destruct (audit_adds e w) as [Ha|(row & _ & Hl & Hr & _)]; [exact Ha|]. rewrite Hr, He in Hl. lia.
Qed.

Section Requests.
Context {PF : Platform} {PT : PgText} {CP : CodeProvider} {SC : SecretCipher} {BC : Bcrypt} {UL : UUIDLib}
  {AB : AdminBinding} {D : Type} {TD : TransferDispatcher D}.

(** [C17] The audit log names who did it.  Serving a request to the console
    leaves the audit log as it was, or adds one row at its end: only on a
    route that writes, only when the answer is a success, and with the user
    whose token the request bears as its operator. *)
Theorem console_audited h m r q (s : D) w s' w' resp :
  serveAdmin (Some (h, m)) r q s w = (s', w', resp) ->
  log_of w' = log_of w \/
  exists row answer user now w1 rid, log_of w' = (log_of w ++ [row])%list /\ resp = Some answer /\
    (httpCode answer = 200 \/ httpCode answer = 201) /\ adminPublic r = false /\ adminReads r = false /\
    bears m q user now /\ RequestIDMiddleware q w = (w1, Ok rid) /\ names rid (TrimSpace user) row.
Proof.
  unfold serveAdmin. pose proof (keeps_RequestID q w) as K1.
  destruct (RequestIDMiddleware q w) as [w1 [e|rid]] eqn:Erid; simpl in K1; [by intros [= <- <- <-]; left; unfold log_of; rewrite K1|].
  pose proof (keeps_adminAdmitted m rid q r w1) as K2.
  destruct (adminAdmitted m rid q r w1) as [w2 [e|[resp1|u]]] eqn:Ead; simpl in K2;
    [intros [= <- <- <-]; left; unfold log_of; by rewrite K2, K1..|].
  assert (log_of w2 = log_of w) as Hlog by (unfold log_of; by rewrite K2, K1).
  set (c := mkContext rid None _ _). destruct (runH (adminHandler h m c u q r) s w2) as [[s3 w3] answer] eqn:Er.
  intros [= <- <- <-]. unfold runH in Er. destruct (adminHandler h m c u q r s w2) as [[s4 w4] r4] eqn:Eh.
  assert (w4 = w3) as -> by (destruct r4; congruence). rewrite <- Hlog.
  unfold adminAdmitted in Ead. destruct (adminPublic r) eqn:Ep.
  { left. injection Ead as -> <-.
    assert (thruH quietly (adminHandler h m c None q r : @H D _)) as Hq.
    { destruct r; try done; [apply thru_setup; [apply _..|]; by auto|apply thru_setup; [apply _..|]; by auto| |];
        apply thru_adminReads; [apply _|done|apply _|done]. }
    specialize (Hq s w2). by rewrite Eh in Hq. }
  unfold bind, ret in Ead.
  destruct (middleware_cases m rid q w1) as [(user & w5 & now & E & _ & Hb)|(w5 & resp5 & E & _)];
    rewrite E in Ead; [|done]. injection Ead as -> <-.
  assert (TrimSpace user <> "") as Hu by (by destruct Hb as (? & ? & ? & _ & _ & _ & [? _] & ->)).
  destruct (adminReads r) eqn:Eread.
  { left. pose proof (thru_adminReads quietly h c (Some user) m q r Eread s w2) as Hq. by rewrite Eh in Hq. }
  destruct (audited_handler h c user Hu m q r s w2 s4 w3 r4 Eh) as [?|(row & resp & Hl & Hn & -> & Hc)]; [by left|].
  right. injection Er as <- <-. by exists row, resp, user, now, w1, rid.
Qed.

(** [C18] A long request id keeps an action out of the audit log.  The log takes
    request ids of up to 64 characters and the middleware takes any the client
    sends: a request whose id is longer adds no row, whatever it does. *)
Theorem long_request_id_unaudited h m r q (s : D) w w1 rid :
  RequestIDMiddleware q w = (w1, Ok rid) -> 64 < utf8_len (TrimSpace rid) ->
  log_of (serveAdmin (Some (h, m)) r q s w).1.2 = log_of w.
Proof.
  intros Hrid Hlong. pose proof (keeps_RequestID q w) as K1. unfold serveAdmin. rewrite Hrid in *. simpl in K1.
  pose proof (keeps_adminAdmitted m rid q r w1) as K2.
  destruct (adminAdmitted m rid q r w1) as [w2 [e|[resp1|u]]]; simpl in *;
    [unfold log_of; by rewrite K2, K1..|].
  set (c := mkContext rid None _ _).
  assert (Audits quietly c) as HA.
  { apply long_audits. unfold AdminRepository.orDash. simpl. destruct (String.eqb_spec (TrimSpace rid) "") as [E|]; [|done].
    by rewrite E in Hlong. }
  pose proof (thru_adminHandler quietly h c u m q r s w2) as Hq. unfold runH.
  destruct (adminHandler h m c u q r s w2) as [[s4 w4] r4]. unfold onDB, same_log in Hq. simpl in Hq.
  assert (log_of w4 = log_of w) by (unfold log_of; by rewrite Hq, K2, K1). by destruct r4.
Qed.
End Requests.
