(* ===== verification/PagingProofs.v ===== *)
(** * Following the pages of the account change log

    [Repository.ListAccountChangeLogs] as a client uses it: page after page,
    each call given the token of the one before. *)

From S2P Require Import Prelude GoBase Domain Codes Store Queries Reads Secrets Paging Ledger Repo Quiet Services Invariant Books LedgerProofs StageProofs Calls Grow System Safety.
From stdpp Require Import base gmap list strings list_numbers sorting.
From Stdlib Require Import ZArith Lia.

Local Open Scope string_scope.
Local Open Scope Z_scope.

Section Pages.
Context `{Platform}.

Definition withToken (f : AccountChangeLogListFilter) (token : string) : AccountChangeLogListFilter :=
  mkAccountChangeLogListFilter (LFMerchantNo f) (LFAccountNo f) (LFPageSize f) token.

(** A client reading all pages, [fuel] at most. *)
Fixpoint allLogs (fuel : nat) (f : AccountChangeLogListFilter) (token : string) (w : World) : list AccountChangeLog :=
  match fuel with
  | O => []
  | S k =>
      match Repository.ListAccountChangeLogs (withToken f token) w with
      | (w1, Ok (items, next)) =>
          if String.eqb next "" then items else (items ++ allLogs k f next w1)%list
      | _ => []
      end
  end.

Definition logKey (r : AccountChangeRow) : Time * Z := (ac_created r, ac_id r).

Lemma change_desc_total x y : change_desc x y = false -> change_desc y x = true.
Proof.
  unfold change_desc. rewrite (Z.eqb_sym (ac_created y)). destruct (Z.eqb_spec (ac_created x) (ac_created y));
    rewrite ?Z.leb_gt, ?Z.leb_le, ?Z.ltb_ge, ?Z.ltb_lt; lia.
Qed.
Lemma change_desc_spec x y :
  change_desc x y = true <-> ac_created y < ac_created x \/ (ac_created x = ac_created y /\ ac_id y <= ac_id x).
Proof.
  unfold change_desc. destruct (Z.eqb_spec (ac_created x) (ac_created y)); rewrite ?Z.leb_le, ?Z.ltb_lt; lia.
Qed.
Lemma change_desc_trans x y z : change_desc x y = true -> change_desc y z = true -> change_desc x z = true.
Proof. rewrite !change_desc_spec. lia. Qed.
Lemma change_desc_antisym x y : change_desc x y = true -> change_desc y x = true -> logKey x = logKey y.
Proof. rewrite !change_desc_spec. unfold logKey. intros. f_equal; lia. Qed.
Lemma change_after_leb x y : change_after (logKey x) y = negb (change_desc y x).
Proof.
  apply eq_true_iff_eq. unfold change_after, logKey. simpl.
  rewrite negb_true_iff, <- not_true_iff_false, change_desc_spec, orb_true_iff, andb_true_iff, !Z.ltb_lt, Z.eqb_eq. lia.
Qed.

Lemma last_map {A B} (f : A -> B) l : last (map f l) = f <$> last l.
Proof. induction l as [|x [|y l] IH]; [done|done|]. exact IH. Qed.

Definition in64_log (d : DB) : Prop := forall r, r ∈ account_changes d -> in64 (ac_created r) /\ in64 (ac_id r).

Lemma token_nonempty t id : EncodeChangeLogPageToken t id <> "".
Proof.
  unfold EncodeChangeLogPageToken. intros E. apply (f_equal slen) in E. rewrite !slen_app in E.
  pose proof (slen_nonneg (FormatInt (UnixNano t))). pose proof (slen_nonneg (FormatInt id)).
  change (slen "|") with 1 in E. change (slen "") with 0 in E. lia.
Qed.

(** One call is one page of the sorted log. *)
Lemma one_page f (c : option (Time * Z)) token w (d := w_db w) (n := Z.to_nat (Repository.clampPage (LFPageSize f)))
    (p := change_matches d (LFMerchantNo f) (LFAccountNo f)) :
  w_faults w = [] -> DecodeChangeLogPageToken token = c ->
  exists w', w_db w' = d /\ w_faults w' = [] /\
  Repository.ListAccountChangeLogs (withToken f token) w =
    (w', Ok (let '(rows, next) := page change_desc logKey change_after (account_changes d) p c n in
             (map (fun r => Repository.changeLogOf (r, txns d !! ac_txn r)) rows,
              match next with Some k => EncodeChangeLogPageToken k.1 k.2 | None => "" end))).
Proof.
  intros Hf Hc. unfold Repository.ListAccountChangeLogs. simpl. rewrite Hc.
  set (ps := Repository.clampPage (LFPageSize f)) in *.
  assert (1 <= ps) as Hps.
  { unfold ps, Repository.clampPage. destruct (Z.leb_spec (LFPageSize f) 0); [lia|].
    destruct (Z.ltb_spec 200 (LFPageSize f)); lia. }
  destruct (auto_nofault (Reads.ListAccountChangeLogs (LFMerchantNo f) (LFAccountNo f) c (ps + 1)) w _ Hf
              ltac:(intros t; reflexivity)) as (w' & Ea & Hd & Hf').
  unfold bind at 1, attempt. rewrite Ea. exists w'. split; [exact Hd|]. split; [done|]. unfold ret.
  f_equal. f_equal. fold d. unfold page, fetch, limit.
  replace (Z.to_nat (ps + 1)) with (S n) by (unfold n; fold ps; lia).
  set (rows := firstn (S n) _). rewrite map_map. unfold Repository.cutPage. rewrite length_map.
  destruct (Nat.leb_spec (length rows) n) as [Hle|Hgt].
  - destruct (Z.leb_spec (Z.of_nat (length rows)) ps); [done|unfold n in Hle; fold ps in Hle; lia].
  - destruct (Z.leb_spec (Z.of_nat (length rows)) ps); [unfold n in Hgt; fold ps in Hgt; lia|].
    fold n. rewrite firstn_map, last_map. f_equal. destruct (last (firstn n rows)) as [r|]; done.
Qed.

Lemma page_next rows p c n items k :
  page change_desc logKey change_after rows p c n = (items, Some k) -> exists r, r ∈ rows /\ k = logKey r.
Proof.
  unfold page, fetch. destruct (Nat.leb _ _); [done|].
  destruct (last (firstn n _)) as [r|] eqn:El; [|done]. intros [= _ <-]. exists r. split; [|done].
  apply last_Some_elem_of, elem_of_take in El as (i & Hi & _). apply list_elem_of_lookup_2, elem_of_take in Hi as (j & Hj & _).
  by apply list_elem_of_lookup_2, elem_of_sort_by, in_filter in Hj as [_ ?].
Qed.

Lemma allLogs_follow fuel f c token w (d := w_db w) :
  w_faults w = [] -> DecodeChangeLogPageToken token = c -> in64_log d ->
  allLogs fuel f token w =
  map (fun r => Repository.changeLogOf (r, txns d !! ac_txn r))
    (follow change_desc logKey change_after fuel (account_changes d) (change_matches d (LFMerchantNo f) (LFAccountNo f)) c
       (Z.to_nat (Repository.clampPage (LFPageSize f)))).
Proof.
  revert c token w d. induction fuel as [|k IH]; intros c token w d Hf Hc H64; [done|]. cbn [allLogs follow].
  destruct (one_page f c token w Hf Hc) as (w' & Hd & Hf' & ->). fold d in Hd |- *.
  destruct (page _ _ _ _ _ _ _) as [rows [nk|]] eqn:Ep; simpl; [|done].
  destruct (String.eqb_spec (EncodeChangeLogPageToken nk.1 nk.2) "") as [E|_]; [by apply token_nonempty in E|].
  rewrite map_app. f_equal. apply page_next in Ep as (r & Hr & ->). destruct (H64 r Hr) as [H1 H2].
  rewrite (IH (Some (logKey r))); rewrite ?Hd; try done. simpl. by rewrite change_token_roundtrip.
Qed.

Context `{CodeProvider} {SC : SecretCipher}.

Lemma reachable_numbered w : reachable w -> numbered ac_id (account_changes (w_db w)).
Proof.
  induction 1 as [w Hd|w o Hr IH _ _|w w' Hr IH Hd]; [by rewrite Hd| |by rewrite Hd].
  by apply (gr_ids _ _ (grow_exec o w)).
Qed.

(** [C32] Reading the change log of an account page by page, following the
    tokens, yields every row of the account exactly once, newest first, for
    any page size, and ends. *)
Theorem account_log_pages f w (d := w_db w) :
  reachable w -> w_faults w = [] -> in64_log d ->
  allLogs (S (length (account_changes d))) f "" w =
  map (fun r => Repository.changeLogOf (r, txns d !! ac_txn r))
    (sort_by change_desc (List.filter (change_matches d (LFMerchantNo f) (LFAccountNo f)) (account_changes d))).
Proof.
  intros Hr Hf H64. rewrite (allLogs_follow _ f None "" w Hf eq_refl H64). f_equal. apply follow_all.
  - exact change_desc_total.
  - exact change_desc_trans.
  - exact change_desc_antisym.
  - exact change_after_leb.
  - apply (NoDup_fmap_1 snd). rewrite <- list_fmap_compose.
    change (NoDup (map ac_id (account_changes (w_db w)))). rewrite (reachable_numbered w Hr). apply NoDup_seqZ.
  - unfold Repository.clampPage. destruct (Z.leb_spec (LFPageSize f) 0); [lia|].
    destruct (Z.ltb_spec 200 (LFPageSize f)); lia.
Qed.
End Pages.
