(* ===== verification/SecretProofs.v ===== *)
(** * What a rotation of a merchant's secret does

    [RotateSecret] and the reads of [MerchantSecretManager], over the
    credentials table. *)

From S2P Require Import Prelude GoBase Domain Codes Encoding Store Queries Reads Secrets Ledger Repo Quiet Services Invariant Books LedgerProofs StageProofs Calls Grow System Safety.
From stdpp Require Import base gmap list strings.
From Stdlib Require Import ZArith Lia.

Local Open Scope string_scope.
Local Open Scope Z_scope.

(** ** [MAX] *)

Lemma fold_max_spec x l : fold_right Z.max x l ∈ x :: l /\ forall y, y ∈ x :: l -> y <= fold_right Z.max x l.
Proof.
  induction l as [|z l [IHin IHle]]; simpl.
  - split; [by left|]. intros y ->%list_elem_of_singleton. lia.
  - split.
    + destruct (Z.max_spec z (fold_right Z.max x l)) as [[_ ->]|[_ ->]]; [set_solver|set_solver].
    + intros y Hy. assert (y = z \/ y ∈ x :: l) as [->|Hy'] by set_solver; [lia|]. specialize (IHle y Hy'). lia.
Qed.

Lemma max_version_spec l v :
  max_version l = Some v <-> v ∈ map fst l /\ forall x, x ∈ l -> x.1 <= v.
Proof.
  destruct l as [|x l]; simpl; [split; [done|intros [Hin _]; by apply not_elem_of_nil in Hin]|].
  destruct (fold_max_spec x.1 (map fst l)) as [Hin Hle].
  assert (Hall : forall y, y ∈ x :: l -> y.1 <= fold_right Z.max x.1 (map fst l)).
  { intros y Hy. apply Hle. apply (list_elem_of_fmap_2 fst) in Hy. exact Hy. }
  split; [intros [= <-]; by split|]. intros [Hv Hmax]. f_equal.
  apply Z.le_antisymm; [|by apply Hle].
  change (x.1 :: map fst l) with (fst <$> x :: l) in Hin.
  apply list_elem_of_fmap_1 in Hin as (y & -> & Hy). by apply Hmax.
Qed.

Lemma credentials_of_spec m d v r : (v, r) ∈ credentials_of m d <-> credentials d !! (m, v) = Some r.
Proof.
  unfold credentials_of. rewrite list_elem_of_In, in_flat_map. split.
  - intros ([[m' v'] r'] & Hin & Hx). simpl in Hx. destruct (String.eqb_spec m' m) as [->|]; [|done].
    destruct Hx as [[= -> ->]|[]]. by apply elem_of_map_to_list, list_elem_of_In.
  - intros Hc. exists ((m, v), r). split; [by apply list_elem_of_In, elem_of_map_to_list|].
    simpl. rewrite String.eqb_refl. by left.
Qed.

Section Rotation.
Context `{SC : SecretCipher}.

(** The newest active secret is what [GetActiveSecret] decrypts. *)
Lemma active_cipher m d v r :
  credentials d !! (m, v) = Some r -> cd_active r = true ->
  (forall v' r', credentials d !! (m, v') = Some r' -> cd_active r' = true -> v' = v) ->
  forall t, GetActiveSecretCiphertext m t d = Ok (d, cd_cipher r).
Proof.
  intros Hr Ha Hu t. unfold GetActiveSecretCiphertext.
  assert (max_version (List.filter (fun x => cd_active x.2) (credentials_of m d)) = Some v) as ->.
  { apply max_version_spec. split.
    - apply (list_elem_of_fmap_2 fst _ (v, r)), in_filter. split; [done|]. by apply credentials_of_spec.
    - intros [v' r'] [Ha' Hin]%in_filter. apply credentials_of_spec in Hin. simpl in *. by rewrite (Hu _ _ Hin Ha'). }
  simpl. by rewrite Hr.
Qed.

Lemma RotateSecret_ok m w w1 secret v :
  RotateSecret m w = (w1, Ok (secret, v)) ->
  exists c, cipher_Decrypt c = Ok secret /\ is_Some (merchants (w_db w) !! m) /\
    v = wrap32 (secret_version m (w_db w) + 1) /\ credentials (w_db w) !! (m, v) = None /\
    w_db w1 = rotated m v c (w_db w).
Proof.
  unfold RotateSecret. intros (wa & s & Hs & Hr)%bind_ok. apply keeps_ok in Hs; [|apply keeps_generateMerchantSecret].
  apply attempt_bind_ok in Hr as (wb & r & He & Hr). destruct r as [e|c]; [done|].
  pose proof (cipher_roundtrip _ _ _ _ He) as Hd. apply keeps_ok in He; [|apply cipher_keeps].
  apply bind_ok in Hr as (wc & v' & Ht & Hr). apply ret_ok in Hr as [-> [= -> ->]].
  apply withTx_inv in Ht as [[_ Hf]|(w2 & w3 & a & Hd2 & Hb & Hd3 & [Ha|Ha])]; [done| |done].
  simplify_eq. apply rotateBody_ok in Hb as (Hm & Hv & Hn & Hdb).
  rewrite Hd2, He, Hs in *. exists c. rewrite Hd3, Hdb. eauto.
Qed.

(** [C26] Rotating a merchant's secret.  The new secret gets the next version;
    from then on it is the one and only secret the merchant signs with: every
    earlier one is kept but retired, and the credentials of every other
    merchant are as they were. *)
Theorem rotation_takes_effect m w w1 secret v :
  RotateSecret m w = (w1, Ok (secret, v)) ->
  v = wrap32 (secret_version m (w_db w) + 1) /\
  (forall w2, w_db w2 = w_db w1 -> w_faults w2 = [] -> exists w3, GetActiveSecret m w2 = (w3, Ok (Some secret))) /\
  (forall v0 r, credentials (w_db w) !! (m, v0) = Some r ->
     credentials (w_db w1) !! (m, v0) = Some (mkCredentialRow (cd_cipher r) false)) /\
  (forall m' v0, m' <> m -> credentials (w_db w1) !! (m', v0) = credentials (w_db w) !! (m', v0)).
Proof.
  intros (c & Hdec & _ & Hv & Hn & Hdb)%RotateSecret_ok. split; [done|]. rewrite Hdb. repeat split.
  - intros w2 Hw2 Hf. unfold GetActiveSecret, bind, attempt.
    destruct (auto_nofault (GetActiveSecretCiphertext m) w2 c Hf) as (w3 & -> & _).
    + rewrite Hw2. apply (active_cipher m _ v (mkCredentialRow c true)); [apply rotated_lookup; by left|done|].
      intros v' r' [[[= ->] _]|(_ & r0 & _ & ->)]%rotated_lookup; [done|].
      unfold deactivate. simpl. by rewrite String.eqb_refl.
    + rewrite Hdec. by exists w3.
  - intros v0 r Hr. apply rotated_lookup. right. split; [intros [= ->]; congruence|].
    exists r. split; [done|]. unfold deactivate. simpl. by rewrite String.eqb_refl.
  - intros m' v0 Hne. apply option_eq. intros r. rewrite rotated_lookup. unfold deactivate. simpl.
    rewrite (proj2 (String.eqb_neq m' m) Hne). naive_solver.
Qed.
End Rotation.
