(* ===== verification/OutboxProofs.v ===== *)
(** * The outbox of webhook events

    One event per successful transaction, written with the stage that
    completes it; claimed by one dispatcher at a time. *)

From S2P Require Import Prelude GoBase Domain Codes Store Queries Reads Secrets Ledger Repo Services Invariant Books LedgerProofs StageProofs Calls Grow System Safety.
From stdpp Require Import base gmap list strings.
From Stdlib Require Import ZArith Lia.

Local Open Scope string_scope.
Local Open Scope Z_scope.

(** ** Claims *)

Lemma picked_due p nowAt now n d (e : OutboxRow) :
  e ∈ limit n (sort_by outbox_order (List.filter (fun x => p x && due nowAt now x) (outbox d))) ->
  e ∈ outbox d /\ due nowAt now e = true.
Proof.
  unfold limit. intros (i & He & _)%elem_of_take. apply list_elem_of_lookup_2, elem_of_sort_by, in_filter in He as [He ?].
  by bools.
Qed.

(** What a claim returns: rows of the table that were due, as it left them. *)
Lemma claim_rows p nowAt n now d d' l (e : OutboxRow) t :
  claimOutbox p nowAt n now d = Ok (d', l) -> (e, t) ∈ l ->
  exists e0, e0 ∈ outbox d /\ due nowAt now e0 = true /\ e = ob_claim now e0 /\ txns d !! ob_txn e0 = Some t.
Proof.
  intros [= <- <-] Hin. apply list_elem_of_In, in_flat_map in Hin as (e0 & Hin & Ht).
  apply list_elem_of_In, picked_due in Hin as [Hin Hdue].
  destruct (txns d !! ob_txn e0) as [t0|] eqn:E; [|done]. destruct Ht as [[= <- <-]|[]]. eauto 10.
Qed.

Lemma claim_picked p nowAt n now d d' l (e : OutboxRow) t (x : OutboxRow) :
  claimOutbox p nowAt n now d = Ok (d', l) -> (e, t) ∈ l -> x ∈ outbox d' -> ob_id x = ob_id e ->
  exists x0, x = ob_claim now x0.
Proof.
  intros [= <- <-] Hin Hx Hid. simpl in Hx. apply list_elem_of_In, in_flat_map in Hin as (e0 & Hin & Ht).
  destruct (txns d !! ob_txn e0) as [t0|] eqn:E; [|done]. destruct Ht as [[= <- <-]|[]].
  apply list_elem_of_fmap in Hx as (y & -> & Hy). destruct (isPicked _ y) eqn:Ep; [by exists y|].
  exfalso. rewrite ?Ep in Hid. simpl in Hid. unfold isPicked in Ep.
  assert (existsb (fun q => ob_id q =? ob_id y) (limit n (sort_by outbox_order
    (List.filter (fun x => p x && due nowAt now x) (outbox d)))) = true); [|congruence].
  apply existsb_exists. exists e0. split; [done|]. by apply Z.eqb_eq.
Qed.

(** A claimed event is leased: until half an hour after a claim, no
    other claim, by transaction or not and of whatever size, returns any event
    the first one returned. *)
Lemma claimed_events_leased p1 p2 at1 at2 n1 n2 now1 now2 d d1 d2 l1 l2 :
  claimOutbox p1 at1 n1 now1 d = Ok (d1, l1) ->
  claimOutbox p2 at2 n2 now2 d1 = Ok (d2, l2) ->
  now2 - outbox_lease < now1 ->
  forall e1 t1 e2 t2, (e1, t1) ∈ l1 -> (e2, t2) ∈ l2 -> ob_id e1 <> ob_id e2.
Proof.
  intros H1 H2 Hnow e1 t1 e2 t2 Hin1 Hin2 Heq.
  destruct (claim_rows _ _ _ _ _ _ _ _ _ H2 Hin2) as (x & Hx & Hdue & -> & _).
  destruct (claim_picked _ _ _ _ _ _ _ _ _ x H1 Hin1 Hx) as [x0 ->]; [by rewrite Heq|].
  unfold due in Hdue. simpl in Hdue. apply Z.leb_le in Hdue. lia.
Qed.

(** ** Events of successful transactions *)

Section Events.
Context `{Platform} `{CodeProvider} {SC : SecretCipher}.

Lemma reachable_events w : reachable w -> NoDup (map ob_event (outbox (w_db w))).
Proof.
  induction 1 as [w Hd|w o Hr IH _ _|w w' Hr IH Hd]; [rewrite Hd; constructor| |by rewrite Hd].
  by apply (gr_events _ _ (grow_exec o w)).
Qed.

(** No event is written twice: in every reachable state the outbox has at
    most one event of each identity, so at most one success event per
    transaction, and no call removes one. *)
Lemma outbox_events_unique w o :
  reachable w ->
  NoDup (map ob_event (outbox (w_db w))) /\
  map ob_event (outbox (w_db w)) `prefix_of` map ob_event (outbox (w_db (exec o w))).
Proof. intros Hr. split; [by apply reachable_events|]. apply grow_exec. Qed.

(** A merchant is notified when its webhook is enabled and its URL not blank. *)
Definition notifiable (m : string) (d : DB) : bool :=
  match webhooks d !! m with
  | Some wc => wr_enabled wc && negb (String.eqb (BTRIM (wr_url wc)) "")
  | None => false
  end.

Lemma insertOutbox_event u m o w w' x :
  insertOutboxEventTx u m o w = (w', Ok x) -> notifiable m (w_db w) = true ->
  deterministicOutboxEventID u "TxnSucceeded" ∈ map ob_event (outbox (w_db w')).
Proof.
  unfold insertOutboxEventTx, notifiable. intros [Hq _]%run_Ok. unfold InsertOutboxEvent in Hq.
  destruct (webhooks _ !! m) as [wc|]; [|done]. intros Hn. rewrite Hn in Hq.
  apply guardQ_ok in Hq as [_ Hq]. apply guardQ_ok in Hq as [_ Hq].
  destruct (existsb _ _) eqn:E; injection Hq as <- _.
  - apply existsb_exists in E as (e & He & E). apply Z.eqb_eq in E. rewrite <- E.
    apply list_elem_of_fmap_2. by apply list_elem_of_In.
  - simpl. rewrite map_app. apply elem_of_app. right. by left.
Qed.

Lemma Moved_webhooks txn no delta d d' : Moved txn no delta d d' -> webhooks d' = webhooks d.
Proof. by intros [(a & row & bs & l & Ha & -> & Hr)]. Qed.

(** [C23] Success and its event are one: when a stage completes a transaction,
    the success event of a merchant that is to be notified is in the outbox of
    the same committed state. *)
Theorem success_writes_event txnNo expected w w' res :
  Inv (w_db w) -> fits (w_db w) ->
  ApplyTxnStage txnNo expected w = (w', (res, None)) ->
  Applied res = true -> CurrentStatus res = TxnStatusRecvSuccess ->
  exists (u : UUID) t, castUUID txnNo = Ok (Some u) /\ txns (w_db w') !! u = Some t /\
    tr_status t = TxnStatusRecvSuccess /\
    (notifiable (tr_merchant t) (w_db w) = true ->
     deterministicOutboxEventID u "TxnSucceeded" ∈ map ob_event (outbox (w_db w'))).
Proof.
  intros HI Hfit [[_ ?]|(w1 & w2 & Hd & Hb & Hd' & _)]%withTxE_inv Happ Hst; [done|].
  rewrite <- Hd in *. rewrite Hd'.
  pose proof Hb as (_ & _ & t & Hc & Ht & Hres)%stageBody_ok; [|done..].
  destruct Hres as [(E & _)|(_ & Hexp & Hstep & now & Hnow)]; [congruence|].
  exists (tr_no t), (tr_set_status (CurrentStatus res) None None now t). split; [done|]. split; [done|].
  split; [simpl; congruence|]. simpl. intros Hn. rewrite Hst in Hstep. inversion Hstep as [| |E|]; subst expected.
  destruct (stageBody_work _ _ _ _ _ Hb HI) as (t' & Hc' & Ht' & [(? & _)|(_ & _ & w3 & Hd3 & Ew)]); [congruence|].
  assert (t' = t) as -> by (rewrite Hc in Hc'; simplify_eq; congruence).
  unfold stageWork in Ew. rewrite <- E in Ew. simpl in Ew.
  apply bind_ok in Ew as (w5 & [] & Hcr & Hr). apply bind_ok in Hr as (w6 & [] & [Hup _]%run_Ok & Hr).
  apply bind_ok in Hr as (w7 & [] & Hob & [-> _]%ret_ok).
  rewrite <- Hd3 in *. apply stageCredit_ok in Hcr; [|done].
  apply (insertOutbox_event _ _ _ _ _ _ Hob).
  apply (updateStatus_ok _ _ _ _ _ _ t) in Hup; [|by rewrite (Moved_txns _ _ _ _ _ Hcr)].
  unfold notifiable in *. rewrite Hup. simpl. by rewrite (Moved_webhooks _ _ _ _ _ Hcr).
Qed.
End Events.
