(* ===== verification/Settled.v ===== *)
(** * Events of the outbox are events of transactions that succeeded

    Only the last stage of a transaction inserts an event, together with its
    success; every other statement leaves the transactions of the events as
    they were.  So in every reachable state each event is that of a
    transaction that is RECV_SUCCESS, and the webhook worker never has a
    failure to report. *)

From S2P Require Import Prelude GoBase Domain Codes Encoding Json Store Queries Reads Secrets Ledger Repo AdminRepo Via AdminGrow Webhook Services Invariant Books LedgerProofs StageProofs Calls Grow System Safety OutboxProofs.
From stdpp Require Import base gmap list strings.
From Stdlib Require Import ZArith Lia.

Local Open Scope string_scope.
Local Open Scope Z_scope.

(** ** Statements that insert no event *)

Definition boxed (d d' : DB) : Prop := map ob_txn (outbox d') = map ob_txn (outbox d).
#[export] Instance boxed_preorder : PreOrder boxed.
Proof. split; [done|]. intros x y z. unfold boxed. congruence. Qed.

Lemma box_claim `{Platform} p t0 n : viaQ boxed (claimOutbox p t0 n).
Proof.
  intros t d d' l [= <- _]. unfold boxed. simpl. rewrite map_map. apply map_ext. intros x. by case_match.
Qed.
Lemma box_updateOutbox `{Platform} e f : (forall x, ob_txn (f x) = ob_txn x) -> viaQ boxed (updateOutbox e f).
Proof.
  intros Hf t d d' []. unfold updateOutbox. destruct (castUUID e) as [|[u|]]; [done| |by intros [= <-]].
  intros [= <-]. unfold boxed. simpl. rewrite map_map. apply map_ext. intros x. by case_match.
Qed.

#[export] Instance boxed_statements `{Platform} : Statements boxed.
Proof.
  split; intros; [apply _|ledger_statement..| | | |].
  - apply box_claim.
  - intros t d d' l. unfold Reads.ClaimDueOutboxEventsByTxnNo.
    destruct (castUUID no) as [|[u|]]; [done|apply box_claim..].
  - intros t. by apply box_updateOutbox.
  - intros t. by apply box_updateOutbox.
Qed.

#[export] Instance boxed_console : ConsoleStatements boxed.
Proof. by split. Qed.

(** ** Stages *)

Section Settled.
Context {PF : Platform} {CP : CodeProvider} {SC : SecretCipher}.

Lemma insertOutbox_txns u m o w w' x :
  insertOutboxEventTx u m o w = (w', Ok x) ->
  txns (w_db w') = txns (w_db w) /\
  forall v, v ∈ map ob_txn (outbox (w_db w')) -> v ∈ map ob_txn (outbox (w_db w)) \/ v = u.
Proof.
  unfold insertOutboxEventTx. intros [Hq _]%run_Ok. unfold InsertOutboxEvent in Hq.
  destruct (webhooks _ !! m) as [wc|]; [|injection Hq as <- _; auto].
  destruct (_ && _); [|injection Hq as <- _; auto].
  apply guardQ_ok in Hq as [_ Hq]. apply guardQ_ok in Hq as [_ Hq].
  destruct (existsb _ _); injection Hq as <- _; [by auto|]. split; [done|]. intros v. simpl.
  rewrite map_app. intros [?|Hv]%elem_of_app; [by left|]. right. by apply list_elem_of_singleton in Hv.
Qed.

(** A stage adds events of the one transaction it completes, and only then. *)
Lemma stageWork_events t e d c w w' next :
  stageWork t e d c w = (w', Ok next) ->
  forall v, v ∈ map ob_txn (outbox (w_db w')) ->
    v ∈ map ob_txn (outbox (w_db w)) \/ (v = tr_no t /\ next = TxnStatusRecvSuccess).
Proof.
  unfold stageWork. intros Hr v Hv. destruct (String.eqb e TxnStatusInit).
  - left. apply bind_ok in Hr as (w1 & [] & Hd & Hr). apply bind_ok in Hr as (w2 & [] & Hu & [-> _]%ret_ok).
    pose proof (via_stageDebit boxed t d c w : boxed _ _) as H1. rewrite Hd in H1.
    pose proof (via_run boxed _ (st_UpdateStatusByUUID TxnStatusPaySuccess None None (tr_no t)) w1 : boxed _ _) as H2.
    rewrite Hu in H2. unfold boxed in *. simpl in *. congruence.
  - destruct (String.eqb e TxnStatusPaySuccess); [|by steps].
    apply bind_ok in Hr as (w1 & [] & Hd & Hr). apply bind_ok in Hr as (w2 & [] & Hu & Hr).
    apply bind_ok in Hr as (w3 & [] & [_ Ho]%insertOutbox_txns & [-> ->]%ret_ok).
    pose proof (via_stageCredit boxed t d c w : boxed _ _) as H1. rewrite Hd in H1.
    pose proof (via_run boxed _ (st_UpdateStatusByUUID TxnStatusRecvSuccess None None (tr_no t)) w1 : boxed _ _) as H2.
    rewrite Hu in H2. unfold boxed in *. simpl in *. apply Ho in Hv as [Hv|Hv]; [left; congruence|by right].
Qed.

(** ** Reachable states *)

Definition settled (d : DB) : Prop :=
  forall u : UUID, u ∈ map ob_txn (outbox d) -> exists t, txns d !! u = Some t /\ tr_status t = TxnStatusRecvSuccess.

Lemma settled_boxed d d' : boxed d d' -> Hist d d' -> settled d -> settled d'.
Proof.
  unfold boxed, settled. intros Hb Hh Hs u. rewrite Hb. intros (t & Ht & Hst)%Hs.
  destruct (Hh u t Ht) as (t' & Ht' & Hr). exists t'. split; [done|]. rewrite Hst in Hr.
  inversion Hr as [|? x ? Hx]; subst; [done|inversion Hx].
Qed.

Lemma settled_stage no e w :
  Inv (w_db w) -> fits (w_db w) -> settled (w_db w) -> settled (w_db (ApplyTxnStage no e w).1).
Proof.
  intros HI Hfit Hs. destruct (good_stage no e w HI Hfit) as [_ Hh]. revert Hh.
  destruct (ApplyTxnStage no e w) as [w' [r oe]] eqn:E. simpl.
  apply withTxE_inv in E as [[-> _]|(w1 & w2 & Hd & Hb & -> & _)]; [done|]. rewrite <- Hd in *. intros Hh.
  pose proof Hb as (_ & _ & t & Hc & Ht & Hres)%stageBody_ok; [|done..].
  destruct Hres as [(_ & -> & _)|(_ & Hst & Hstep & now & Hnow)]; [done|].
  assert (forall v, v ∈ map ob_txn (outbox (w_db w2)) ->
    v ∈ map ob_txn (outbox (w_db w1)) \/ (v = tr_no t /\ CurrentStatus r = TxnStatusRecvSuccess)) as Hev.
  { destruct (stageBody_work _ _ _ _ _ Hb HI) as (t' & Hc' & Ht' & [(_ & -> & _)|(_ & _ & w3 & Hd3 & Ew)]); [by left|].
    assert (t' = t) as -> by (rewrite Hc in Hc'; simplify_eq; congruence). rewrite <- Hd3. by eapply stageWork_events. }
  intros u Hu. destruct (Hev u Hu) as [Hin|[-> Hn]].
  - destruct (Hs u Hin) as (x & Hx & Hxs). destruct (Hh u x Hx) as (x' & Hx' & Hr). exists x'. split; [done|].
    rewrite Hxs in Hr. inversion Hr as [|? y ? Hy]; subst; [done|inversion Hy].
  - eexists. split; [exact Hnow|done].
Qed.

Lemma reachable_settled w : reachable w -> settled (w_db w).
Proof.
  induction 1 as [w Hd|w o Hr IH Hdis Hfit|w w' Hr IH Hd]; [|pose proof (reachable_Inv _ Hr) as HI|by rewrite Hd].
  { rewrite Hd. intros u Hu. by apply elem_of_nil in Hu. }
  destruct (inserts o) eqn:Eo.
  - destruct o; try done. by apply settled_stage; auto.
  - apply (settled_boxed (w_db w)); [|by apply good_exec|done].
    apply (via_exec boxed); [done|]. by rewrite Eo.
Qed.

Lemma claimed_settled p nowAt n now d d' l e t :
  claimOutbox p nowAt n now d = Ok (d', l) -> (e, t) ∈ l -> settled d -> tr_status t = TxnStatusRecvSuccess.
Proof.
  intros Hc Hin Hs. destruct (claim_rows _ _ _ _ _ _ _ _ _ Hc Hin) as (e0 & He0 & _ & _ & Ht).
  destruct (Hs (ob_txn e0)) as (x & Hx & Hst); [by apply list_elem_of_fmap_2|]. by simplify_eq.
Qed.

(** What the worker makes of a claim. *)
Lemma auto_claimed (q : Q (list (OutboxRow * TxnRow))) w w' l e :
  (forall now d' rows, q now (w_db w) = Ok (d', rows) -> forall r t, (r, t) ∈ rows -> tr_status t = TxnStatusRecvSuccess) ->
  (let! rows := auto q in ret (map Repository.deliveryOf rows)) w = (w', Ok l) -> e ∈ l ->
  EStatus e = TxnStatusRecvSuccess.
Proof.
  intros Hq Hr He. apply bind_ok in Hr as (w1 & rows & Ha & [_ ->]%ret_ok).
  unfold auto in Ha. apply bind_ok in Ha as (w2 & now & Hn & [Hrun _]%run_Ok).
  apply list_elem_of_fmap in He as ([r t] & -> & Hin). simpl.
  assert (w_db w2 = w_db w) as Hd by (eapply (keeps_ok startNow); [done|exact Hn]). rewrite Hd in Hrun. by eapply Hq.
Qed.

(** [C24] Webhooks report successes only.  In every reachable state every event
    that either claim hands to the webhook worker is of a transaction that is
    RECV_SUCCESS, and is announced as TxnSucceeded or, for a refund, as
    TxnRefunded: never as TxnFailed. *)
Theorem events_of_successes claim w w' l e :
  reachable w ->
  (exists n now, claim = Repository.ClaimDueOutboxEvents n now) \/
  (exists no n now, claim = Repository.ClaimDueOutboxEventsByTxnNo no n now) ->
  claim w = (w', Ok l) -> e ∈ l ->
  EStatus e = TxnStatusRecvSuccess /\
  webhookEventType e = (if String.eqb (EBizType e) BizTypeRefund then "TxnRefunded" else "TxnSucceeded").
Proof.
  intros Hs%reachable_settled Hclaim Hr He.
  assert (EStatus e = TxnStatusRecvSuccess) as Hst.
  { destruct Hclaim as [(n & now & ->)|(no & n & now & ->)]; (eapply auto_claimed; [|exact Hr|exact He]);
      intros t d' rows Hq r x Hin.
    - by eapply claimed_settled.
    - unfold Reads.ClaimDueOutboxEventsByTxnNo in Hq.
      destruct (castUUID no) as [|[u|]]; [done|by eapply claimed_settled..]. }
  split; [done|]. unfold webhookEventType. rewrite Hst. simpl. by rewrite andb_true_r.
Qed.
End Settled.
