(* ===== verification/WebhookProofs.v ===== *)
(** * What the webhook worker does with an event

    An event handled on a working connection ends in exactly one of two ways:
    marked delivered, or scheduled again with one retry more.  Which, and what
    was sent on the way, is specified here from the tables, the caches and the
    clock, and proved of [handleEvent]. *)

From S2P Require Import Prelude GoBase Domain Codes Encoding Calendar Json Store Queries Reads Secrets Ledger Repo Quiet Webhook Invariant Books SecretProofs.
From stdpp Require Import base gmap list strings.
From Stdlib Require Import ZArith Lia.

Local Open Scope string_scope.
Local Open Scope Z_scope.

Section Outcome.
Context `{Platform} {SC : SecretCipher} {C : Type} {HC : HttpClient C}.

(** ** The configuration and the secret in force *)

(** What a cache answers at [now]: an entry that has not expired. *)
Definition cached {A} (cache : gmap string (A * Time)) (ttl : Duration) (m : string) (now : Time) (a : A) : Prop :=
  0 < ttl /\ exists expireAt, cache !! m = Some (a, expireAt) /\ now <= expireAt.

(** The webhook of merchant [m] at [now], and the readings of the clock it
    takes to find it. *)
Inductive config_at (k : WebhookWorker) (d : DB) (m : string) (now : Time) : option WebhookConfig -> nat -> Prop :=
| config_cached c : cached (configCache k) (configCacheTTL k) m now c -> config_at k d m now (Some c) 1
| config_row r : (forall c, ~ cached (configCache k) (configCacheTTL k) m now c) -> webhooks d !! m = Some r ->
    config_at k d m now (Some (mkWebhookConfig (wr_url r) (wr_enabled r))) 2
| config_none : (forall c, ~ cached (configCache k) (configCacheTTL k) m now c) -> webhooks d !! m = None ->
    config_at k d m now None 2.

(** The events of the merchant are due to [url]. *)
Definition owed (o : option WebhookConfig) (url : string) : Prop :=
  o = Some (mkWebhookConfig url true) /\ TrimSpace url <> "".

(** The newest active credential of [m]. *)
Definition newest_active (d : DB) (m : string) (r : CredentialRow) : Prop :=
  exists v, credentials d !! (m, v) = Some r /\ cd_active r = true /\
    forall v' r', credentials d !! (m, v') = Some r' -> cd_active r' = true -> v' <= v.

(** The secret of [m] at [now], none if it has none that can be read. *)
Inductive secret_at (k : WebhookWorker) (d : DB) (m : string) (now : Time) : option string -> nat -> Prop :=
| secret_cached s : cached (secretCache k) (secretCacheTTL k) m now s -> secret_at k d m now (Some s) 1
| secret_row r s : (forall s, ~ cached (secretCache k) (secretCacheTTL k) m now s) -> newest_active d m r ->
    cipher_Decrypt (cd_cipher r) = Ok s -> secret_at k d m now (Some s) 2
| secret_unreadable r e : (forall s, ~ cached (secretCache k) (secretCacheTTL k) m now s) -> newest_active d m r ->
    cipher_Decrypt (cd_cipher r) = Err e -> secret_at k d m now None 2
| secret_none : (forall s, ~ cached (secretCache k) (secretCacheTTL k) m now s) -> (forall r, ~ newest_active d m r) ->
    secret_at k d m now None 2.

(** ** The request *)

Definition kind_of (e : OutboxEventDelivery) (kind : string) : Prop :=
  (EStatus e = "FAILED" /\ kind = "TxnFailed") \/
  (EStatus e = "RECV_SUCCESS" /\ EBizType e = "REFUND" /\ kind = "TxnRefunded") \/
  (EStatus e <> "FAILED" /\ ~ (EStatus e = "RECV_SUCCESS" /\ EBizType e = "REFUND") /\ kind = "TxnSucceeded").

(** A line of the signed text. *)
Definition lf (s : string) : string := String (Ascii.ascii_of_nat 10) s.

(** The one request an attempt sends: the event as JSON, a timestamp in
    milliseconds, and the HMAC under the merchant's secret of the method, the
    path, the merchant, that timestamp, the event's id and the digest of that
    very body. *)
Definition signed_request (url path secret : string) (e : OutboxEventDelivery) (occurred at_ : Time) (q : HttpRequest) : Prop :=
  exists kind, kind_of e kind /\
  let body := marshal (JObj [("event_id", JStr (EventID e)); ("event_type", JStr kind);
    ("occurred_at", JStr (formatRFC3339Nano occurred)); ("merchant_no", JStr (EMerchantNo e)); ("txn_no", JStr (ETxnNo e));
    ("out_trade_no", JStr (EOutTradeNo e)); ("biz_type", JStr (EBizType e)); ("transfer_scene", JStr (ETransferScene e));
    ("amount", JNum (EAmount e)); ("status", JStr (EStatus e))]) in
  let timestamp := FormatInt (at_ / 1000000) in
  let signed := "POST" ++ lf ((if decide (TrimSpace path = "") then "/" else path) ++ lf (EMerchantNo e ++
    lf (timestamp ++ lf (EventID e ++ lf (hexEncode (sha256 body)))))) in
  q = mkHttpRequest "POST" url body [("Content-Type", "application/json"); ("X-Event-Id", EventID e);
    ("X-Timestamp", timestamp); ("X-Signature", hexEncode (hmac_sha256 secret signed))].

Definition answered_2xx (r : option Z) : Prop := exists status, r = Some status /\ 200 <= status < 300.

(** What becomes of the HTTP client, after how many readings of the clock, and
    whether the event counts as delivered. *)
Inductive attempt_of (e : OutboxEventDelivery) (k : WebhookWorker) (h : C) (w : World) : C -> nat -> bool -> Prop :=
| nothing_due cfg c :
    config_at k (w_db w) (EMerchantNo e) (clockAt 1 w) cfg c -> (forall url, ~ owed cfg url) ->
    attempt_of e k h w h c true
| no_secret cfg c url s c' :
    config_at k (w_db w) (EMerchantNo e) (clockAt 1 w) cfg c -> owed cfg url ->
    secret_at k (w_db w) (EMerchantNo e) (clockAt (c + 1) w) s c' -> (forall secret, s = Some secret -> TrimSpace secret = "") ->
    attempt_of e k h w h (c + c') false
| url_rejected cfg c url secret c' :
    config_at k (w_db w) (EMerchantNo e) (clockAt 1 w) cfg c -> owed cfg url ->
    secret_at k (w_db w) (EMerchantNo e) (clockAt (c + 1) w) (Some secret) c' -> TrimSpace secret <> "" ->
    urlPath url = None ->
    attempt_of e k h w h (c + c' + 1) false
| answered cfg c url secret c' path q r h' ok :
    config_at k (w_db w) (EMerchantNo e) (clockAt 1 w) cfg c -> owed cfg url ->
    secret_at k (w_db w) (EMerchantNo e) (clockAt (c + 1) w) (Some secret) c' -> TrimSpace secret <> "" ->
    urlPath url = Some path ->
    signed_request url path secret e (clockAt (c + c' + 1) w) (clockAt (c + c' + 2) w) q ->
    httpDo q h = (h', r) -> (ok = true <-> answered_2xx r) ->
    attempt_of e k h w h' (c + c' + 2) ok.

(** ** The row of the event *)

(** The back-off before attempt [n + 1]: the [n]-th delay, the last one from
    the end of the list on, one minute without a list. *)
Inductive wait_after (delays : list Duration) (n : Z) : Duration -> Prop :=
| wait_default : delays = [] -> wait_after delays n 60000000000
| wait_nth i delay : delays !! i = Some delay -> Z.of_nat i = n - 1 -> wait_after delays n delay
| wait_first delay : head delays = Some delay -> n <= 1 -> wait_after delays n delay
| wait_last delay : last delays = Some delay -> Z.of_nat (length delays) <= n -> wait_after delays n delay.

Definition markedEvent (u : UUID) (f : OutboxRow -> OutboxRow) (d : DB) : DB :=
  set_outbox (map (fun r => if ob_event r =? u then f r else r) (outbox d)) d.

(** [status], retries, next retry, time of the update. *)
Definition marked (status : string) (retries : OutboxRow -> Z) (next : OutboxRow -> option Time) (now : Time)
    (r : OutboxRow) : OutboxRow :=
  mkOutboxRow (ob_id r) (ob_event r) (ob_txn r) (ob_merchant r) (ob_out_trade r) status (retries r) (next r) (ob_created r) now.

(** The fields of the worker that no method changes. *)
Definition settings (k : WebhookWorker) := (maxRetries k, batchSize k, backoff k, configCacheTTL k, secretCacheTTL k).

(** ** Reading *)

Lemma nowW_later k (h : C) w : w_faults w = [] -> exists w1, nowW k h w = (k, h, w1, clockAt 1 w) /\ later 1 w w1.
Proof. intros Hf. destruct (timeNow_later w Hf) as (w1 & E & Hl). exists w1. unfold nowW. by rewrite E. Qed.

Lemma cache_expired {A} (cache : gmap string (A * Time)) ttl m now a t :
  (if 0 <? ttl then cache !! m else None) = Some (a, t) -> (now <=? t) = false -> forall x, ~ cached cache ttl m now x.
Proof. intros Hc Ht x (Hp & t' & Hx & Hle). rewrite (proj2 (Z.ltb_lt 0 ttl) Hp) in Hc. pose proof (eq_trans (eq_sym Hc) Hx) as [= -> ->]. bools. lia. Qed.
Lemma cache_missed {A} (cache : gmap string (A * Time)) ttl m now :
  (if 0 <? ttl then cache !! m else None) = None -> forall x, ~ cached cache ttl m now x.
Proof. intros Hc x (Hp & t' & Hx & Hle). rewrite (proj2 (Z.ltb_lt 0 ttl) Hp) in Hc. discriminate (eq_trans (eq_sym Hc) Hx). Qed.
Lemma cache_hit {A} (cache : gmap string (A * Time)) ttl m now a t :
  (if 0 <? ttl then cache !! m else None) = Some (a, t) -> (now <=? t) = true -> cached cache ttl m now a.
Proof. destruct (Z.ltb_spec 0 ttl); [|done]. intros Hc Ht. bools. split; [done|eauto]. Qed.

Lemma GetWebhookConfig_later m w :
  w_faults w = [] ->
  exists w1, Repository.GetWebhookConfig m w
    = (w1, Ok (option_map (fun r => mkWebhookConfig (wr_url r) (wr_enabled r)) (webhooks (w_db w) !! m))) /\ later 1 w w1.
Proof.
  intros Hf. unfold Repository.GetWebhookConfig, Repository.found_err, bind, attempt.
  destruct (auto_later (Queries.GetWebhookConfig m) w Hf) as [Hok Herr]. unfold Queries.GetWebhookConfig, one in *.
  destruct (webhooks (w_db w) !! m) as [r|].
  - destruct (Hok r) as (w1 & -> & Hl); [done|]. by exists w1.
  - destruct (Herr ErrNoRows) as (w1 & -> & Hl); [done|]. by exists w1.
Qed.

Lemma loadWebhookConfig_spec now m k (h : C) w (o := option_map (fun r => mkWebhookConfig (wr_url r) (wr_enabled r)) (webhooks (w_db w) !! m)) :
  w_faults w = [] ->
  exists k1 w1, loadWebhookConfig now m k h w = (k1, h, w1, Ok o) /\ later 1 w w1 /\
    settings k1 = settings k /\ secretCache k1 = secretCache k.
Proof.
  intros Hf. unfold loadWebhookConfig, bindW, liftW. destruct (GetWebhookConfig_later m w Hf) as (w1 & -> & Hl). subst o.
  destruct (option_map _ _) as [c|]; [|by exists k, w1]. destruct (negb _); [by exists k, w1|].
  unfold modifyW, retW. eexists _, w1. split; [reflexivity|]. split; [done|]. by destruct (0 <? configCacheTTL k).
Qed.

Lemma config_loaded k d m now :
  (forall c, ~ cached (configCache k) (configCacheTTL k) m now c) ->
  config_at k d m now (option_map (fun r => mkWebhookConfig (wr_url r) (wr_enabled r)) (webhooks d !! m)) 2.
Proof. intros Hc. destruct (webhooks d !! m) eqn:E; [by apply config_row|by apply config_none]. Qed.

Lemma getWebhookConfig_spec m k (h : C) w :
  w_faults w = [] ->
  exists k1 w1 cfg c, getWebhookConfig m k h w = (k1, h, w1, Ok cfg) /\ later c w w1 /\
    settings k1 = settings k /\ secretCache k1 = secretCache k /\ config_at k (w_db w) m (clockAt 1 w) cfg c.
Proof.
  intros Hf. unfold getWebhookConfig, bindW at 1. destruct (nowW_later k h w Hf) as (w1 & -> & Hl). unfold bindW at 1, getW.
  pose proof Hl as (Hd & Hf1 & _).
  destruct (if 0 <? configCacheTTL k then configCache k !! m else None) as [[c t]|] eqn:E.
  - destruct (clockAt 1 w <=? t) eqn:Et.
    + exists k, w1, (Some c), 1%nat. split; [done|]. split; [done|]. do 2 (split; [done|]). apply config_cached. by eapply cache_hit.
    + unfold bindW, modifyW.
      destruct (loadWebhookConfig_spec (clockAt 1 w) m (with_configs (delete m (configCache k)) k) h w1 Hf1)
        as (k2 & w2 & -> & Hl2 & Hs & Hc). rewrite Hd. eexists k2, w2, _, 2%nat. split; [done|].
      split; [by apply (later_trans 1 1 w w1)|]. split; [done|]. split; [done|]. apply config_loaded. by eapply cache_expired.
  - destruct (loadWebhookConfig_spec (clockAt 1 w) m k h w1 Hf1) as (k2 & w2 & -> & Hl2 & Hs & Hc). rewrite Hd.
    eexists k2, w2, _, 2%nat. split; [done|]. split; [by apply (later_trans 1 1 w w1)|]. split; [done|]. split; [done|].
    apply config_loaded. by apply cache_missed.
Qed.

(** What [GetActiveSecretCiphertext] finds. *)
Lemma newest_cipher d m :
  (exists r, newest_active d m r /\ forall t, GetActiveSecretCiphertext m t d = Ok (d, cd_cipher r)) \/
  ((forall r, ~ newest_active d m r) /\ forall t, GetActiveSecretCiphertext m t d = Err ErrNoRows).
Proof.
  unfold GetActiveSecretCiphertext. destruct (max_version _) as [v|] eqn:E.
  - apply max_version_spec in E as [Hin Hmax].
    apply list_elem_of_fmap_1 in Hin as ([v0 r] & Hv & Hin). simpl in Hv. subst v0.
    apply in_filter in Hin as [Ha Hin]. apply credentials_of_spec in Hin. simpl in Ha. left. exists r. split.
    + exists v. split; [done|]. split; [done|]. intros v' r' Hr' Ha'. apply (Hmax (v', r')), in_filter.
      split; [done|]. by apply credentials_of_spec.
    + intros t. simpl. by rewrite Hin.
  - right. split; [|done]. intros r (v & Hr & Ha & _).
    assert ((v, r) ∈ List.filter (fun x => cd_active x.2) (credentials_of m d)) as Hin.
    { apply in_filter. split; [done|]. by apply credentials_of_spec. }
    destruct (List.filter _ _); [by apply elem_of_nil in Hin|done].
Qed.

(** The secret there is to use in an answer. *)
Definition usable (r : Result error (option string)) : option string := match r with Ok o => o | Err _ => None end.

Lemma loadActiveSecret_spec now m k0 k (h : C) w :
  w_faults w = [] -> (forall s, ~ cached (secretCache k0) (secretCacheTTL k0) m now s) ->
  exists k1 w1 r, loadActiveSecret now m k h w = (k1, h, w1, r) /\ later 1 w w1 /\
    settings k1 = settings k /\ secret_at k0 (w_db w) m now (usable r) 2.
Proof.
  intros Hf Hc. unfold loadActiveSecret, bindW, liftW. simpl. unfold GetActiveSecret, bind, attempt.
  destruct (auto_later (GetActiveSecretCiphertext m) w Hf) as [Hok Herr].
  destruct (newest_cipher (w_db w) m) as [(r & Hr & Hq)|[Hno Hq]].
  - destruct (Hok _ Hq) as (w1 & -> & Hl). destruct (cipher_Decrypt (cd_cipher r)) as [er|s] eqn:Ed; simpl.
    + eexists k, w1, _. split; [reflexivity|]. split; [done|]. split; [done|]. by eapply secret_unreadable.
    + destruct (String.eqb _ _); (eexists _, w1, _; split; [reflexivity|]); (split; [done|]).
      * split; [done|]. by eapply secret_row.
      * split; [by destruct (0 <? secretCacheTTL k)|]. by eapply secret_row.
  - destruct (Herr _ Hq) as (w1 & -> & Hl). simpl. eexists k, w1, _. split; [reflexivity|]. split; [done|]. split; [done|].
    by apply secret_none.
Qed.

Lemma getActiveSecret_spec m k (h : C) w :
  w_faults w = [] ->
  exists k1 w1 r c, getActiveSecret m k h w = (k1, h, w1, r) /\ later c w w1 /\
    settings k1 = settings k /\ secret_at k (w_db w) m (clockAt 1 w) (usable r) c.
Proof.
  intros Hf. unfold getActiveSecret, bindW at 1. destruct (nowW_later k h w Hf) as (w1 & -> & Hl). unfold bindW at 1, getW.
  pose proof Hl as (Hd & Hf1 & _).
  destruct (if 0 <? secretCacheTTL k then secretCache k !! m else None) as [[s t]|] eqn:E.
  - destruct (clockAt 1 w <=? t) eqn:Et.
    + exists k, w1, (Ok (Some s)), 1%nat. split; [done|]. split; [done|]. split; [done|]. apply secret_cached. by eapply cache_hit.
    + unfold bindW, modifyW.
      destruct (loadActiveSecret_spec (clockAt 1 w) m k (with_secrets (delete m (secretCache k)) k) h w1 Hf1)
        as (k2 & w2 & r & -> & Hl2 & Hs & Hc); [by eapply cache_expired|]. rewrite Hd in Hc. exists k2, w2, r, 2%nat.
      split; [done|]. split; [by apply (later_trans 1 1 w w1)|]. by split.
  - destruct (loadActiveSecret_spec (clockAt 1 w) m k k h w1 Hf1) as (k2 & w2 & r & -> & Hl2 & Hs & Hc); [by apply cache_missed|].
    rewrite Hd in Hc. exists k2, w2, r, 2%nat. split; [done|]. split; [by apply (later_trans 1 1 w w1)|]. by split.
Qed.

Lemma secret_at_ext k k' d m now s c :
  settings k' = settings k -> secretCache k' = secretCache k -> secret_at k' d m now s c -> secret_at k d m now s c.
Proof.
  unfold settings. intros [= _ _ _ _ Ht] Hc Hs.
  destruct Hs; rewrite ?Ht, ?Hc in *; [by apply secret_cached|by eapply secret_row|by eapply secret_unreadable|by apply secret_none].
Qed.
(** ** Sending *)

Lemma webhookEventType_kind e : kind_of e (webhookEventType e).
Proof.
  unfold webhookEventType, kind_of. destruct (String.eqb_spec (EStatus e) TxnStatusFailed) as [|Hf]; [by left|].
  destruct (String.eqb_spec (EBizType e) BizTypeRefund), (String.eqb_spec (EStatus e) TxnStatusRecvSuccess); simpl;
    (right; left; done) || (right; right; naive_solver).
Qed.

Lemma signed_text path m ts id digest :
  stringsJoin newline ["POST"; path; m; ts; id; digest] = "POST" ++ lf (path ++ lf (m ++ lf (ts ++ lf (id ++ lf digest)))).
Proof. reflexivity. Qed.

Lemma webhookRequest_signed url path secret e occurred at_ :
  signed_request url path secret e occurred at_
    (webhookRequest url path e secret (marshal (webhookPayload e occurred)) (FormatInt (UnixMilli at_))).
Proof.
  exists (webhookEventType e). split; [apply webhookEventType_kind|]. unfold webhookRequest, webhookPayload, signWebhook.
  cbv zeta. rewrite signed_text. destruct (String.eqb_spec (TrimSpace path) "") as [E|E].
  - rewrite decide_True by exact E. reflexivity.
  - rewrite decide_False by exact E. reflexivity.
Qed.

Lemma deliver_spec url e secret k (h : C) w :
  w_faults w = [] ->
  (urlPath url = None /\ exists w1, deliver url e secret k h w = (k, h, w1, false) /\ later 1 w w1) \/
  (exists path q r h1 ok w1, urlPath url = Some path /\ signed_request url path secret e (clockAt 1 w) (clockAt 2 w) q /\
     httpDo q h = (h1, r) /\ (ok = true <-> answered_2xx r) /\
     deliver url e secret k h w = (k, h1, w1, ok) /\ later 2 w w1).
Proof.
  intros Hf. destruct (nowW_later k h w Hf) as (w1 & E1 & Hl). pose proof Hl as (_ & Hf1 & _).
  destruct (nowW_later k h w1 Hf1) as (w2 & E2 & Hl2). rewrite (clockAt_later 1 1 w w1 Hl) in E2.
  unfold deliver, bindW, postW, retW. rewrite E1. cbv beta zeta.
  destruct (urlPath url) as [path|]; [|left; split; [reflexivity|]; exists w1; split; [reflexivity|exact Hl]].
  rewrite E2. right. set (q := webhookRequest _ _ _ _ _ _). destruct (httpDo q h) as [h1 r] eqn:Eh.
  eexists path, q, r, h1, _, w2. split; [done|]. split; [apply webhookRequest_signed|]. split; [done|].
  split; [|split; [reflexivity|by apply (later_trans 1 1 w w1)]].
  unfold answered_2xx. destruct r as [status|]; [|split; [done|by intros (? & ? & _)]].
  split; [intros Hb; bools; exists status; by split|]. intros (s & [= <-] & Hs).
  apply andb_true_intro. split; [apply Z.leb_le|apply Z.ltb_lt]; lia.
Qed.

(** ** Marking *)

(** The world after a statement that stores [f] of the event's row. *)
Lemma mark_event (q : Q unit) u (f : Time -> OutboxRow -> OutboxRow) w :
  w_faults w = [] -> (forall t d, q t d = Ok (markedEvent u (f t) d, tt)) ->
  exists w1, auto q w = (w1, Ok tt) /\ w_db w1 = markedEvent u (f (clockAt 1 w)) (w_db w) /\
    w_clock w1 = clockAt 1 w /\ w_faults w1 = [].
Proof.
  intros Hf Hq. unfold auto, bind, startNow, timeNow, run, pop_fault. simpl. rewrite Hf. simpl. rewrite Hq. simpl.
  eexists. split; [reflexivity|]. simpl. by rewrite clockAt_1.
Qed.

Lemma markSuccess_marks e u k (h : C) w :
  castUUID (EventID e) = Ok (Some u) -> w_faults w = [] ->
  exists w', markSuccess e k h w = (k, h, w', tt) /\ w_clock w' = clockAt 1 w /\
    w_db w' = markedEvent u (marked "SUCCESS" ob_retry ob_next_retry (clockAt 1 w)) (w_db w).
Proof.
  intros Hu Hf. destruct (mark_event (Reads.MarkOutboxEventSuccess (EventID e)) u (marked "SUCCESS" ob_retry ob_next_retry) w Hf)
    as (w1 & E & Hd & Hc & _).
  { intros t d. unfold Reads.MarkOutboxEventSuccess, updateOutbox. by rewrite Hu. }
  exists w1. split; [|done]. unfold markSuccess, bindW, liftW, Repository.MarkOutboxEventSuccess. by rewrite E.
Qed.

Lemma retryDelay_waits k n : wait_after (backoff k) n (retryDelay n k).
Proof.
  unfold retryDelay. destruct (backoff k) as [|d l] eqn:E; [by apply wait_default|]. rewrite <- E.
  set (len := Z.of_nat (length (backoff k))). assert (0 < len) as Hlen by (unfold len; rewrite E; simpl; lia).
  rewrite (proj2 (Z.eqb_neq len 0)) by lia. destruct (Z.ltb_spec (n - 1) 0).
  - rewrite (proj2 (Z.leb_gt len 0)) by lia. apply wait_first; [by rewrite E|lia].
  - destruct (Z.leb_spec len (n - 1)).
    + apply wait_last; [|lia]. rewrite last_lookup, nth_lookup. unfold len in *.
      replace (Z.to_nat (Z.of_nat (length (backoff k)) - 1)) with (pred (length (backoff k))) by lia.
      destruct (lookup_lt_is_Some_2 (backoff k) (pred (length (backoff k)))) as [x Hx]; [lia|]. by rewrite Hx.
    + apply (wait_nth _ _ (Z.to_nat (n - 1))); [|lia]. unfold len in *.
      destruct (lookup_lt_is_Some_2 (backoff k) (Z.to_nat (n - 1))) as [x Hx]; [lia|]. by rewrite nth_lookup, Hx.
Qed.

(** The row of an event after a failed attempt at [at_]. *)
Definition failedRow (k : WebhookWorker) (e : OutboxEventDelivery) (at_ : Time) (delay : Duration) : Time -> OutboxRow -> OutboxRow :=
  marked (if decide (maxRetries k <= RetryCount e + 1) then "DEAD" else "PENDING") (fun _ => RetryCount e + 1)
    (fun _ => Some (at_ + delay)).

Lemma markRetry_marks e u k (h : C) w :
  castUUID (EventID e) = Ok (Some u) -> w_faults w = [] ->
  exists w', markRetry e k h w = (k, h, w', tt) /\ w_clock w' = clockAt 2 w /\
    w_db w' = markedEvent u (failedRow k e (clockAt 1 w) (retryDelay (RetryCount e + 1) k) (clockAt 2 w)) (w_db w).
Proof.
  intros Hu Hf. unfold markRetry. unfold bindW at 1, getW. cbv zeta. unfold bindW at 1.
  destruct (nowW_later k h w Hf) as (w1 & -> & Hl). pose proof Hl as (Hd1 & Hf1 & _).
  set (dead := maxRetries k <=? RetryCount e + 1). set (next := timeAdd _ _).
  destruct (mark_event (Reads.MarkOutboxEventRetry (RetryCount e + 1) next dead (EventID e)) u
    (failedRow k e (clockAt 1 w) (retryDelay (RetryCount e + 1) k)) w1 Hf1) as (w2 & E & Hd & Hc & _).
  { intros t d. unfold Reads.MarkOutboxEventRetry, updateOutbox, failedRow, dead. rewrite Hu.
    destruct (Z.leb_spec (maxRetries k) (RetryCount e + 1)); ((case_decide; [|lia]) || (case_decide; [lia|])); done. }
  exists w2. pose proof (clockAt_later 1 1 w w1 Hl) as Hc2. simpl in Hc2. rewrite <- Hc2, <- Hd1. split; [|done].
  unfold bindW, liftW, Repository.MarkOutboxEventRetry. by rewrite E.
Qed.

(** ** The event *)

(** An attempt followed by the mark it deserves. *)
Definition marked_as (e : OutboxEventDelivery) (u : UUID) (k : WebhookWorker) (w : World) (n : nat) (ok : bool) (w' : World) : Prop :=
  if ok then w_clock w' = clockAt (n + 1) w /\
    w_db w' = markedEvent u (marked "SUCCESS" ob_retry ob_next_retry (clockAt (n + 1) w)) (w_db w)
  else exists delay, wait_after (backoff k) (RetryCount e + 1) delay /\ w_clock w' = clockAt (n + 2) w /\
    w_db w' = markedEvent u (failedRow k e (clockAt (n + 1) w) delay (clockAt (n + 2) w)) (w_db w).

Lemma event_marks e u k k1 (h : C) w w1 n (ok : bool) :
  castUUID (EventID e) = Ok (Some u) -> later n w w1 -> settings k1 = settings k ->
  exists w', (if ok then markSuccess e else markRetry e) k1 h w1 = (k1, h, w', tt) /\ marked_as e u k w n ok w'.
Proof.
  intros Hu Hl Hs. pose proof Hl as (Hd & Hf & _). unfold marked_as. rewrite <- Hd.
  rewrite <- !(clockAt_later _ _ _ _ Hl). destruct ok.
  - destruct (markSuccess_marks e u k1 h w1 Hu Hf) as (w' & E & Hc & Hd'). by exists w'.
  - destruct (markRetry_marks e u k1 h w1 Hu Hf) as (w' & E & Hc & Hd'). exists w'. split; [done|].
    unfold settings in Hs. injection Hs as Hm _ Hb _ _. exists (retryDelay (RetryCount e + 1) k1).
    rewrite <- Hb. split; [apply retryDelay_waits|]. split; [done|]. rewrite Hd'. unfold failedRow. by rewrite Hm.
Qed.

(** [C25] An event handled on a working connection.  The webhook in force is
    that of an unexpired cache entry, else the merchant's row of the table; the
    secret likewise, from its newest active credential.  Nothing is sent when no
    enabled webhook is in force, and the event is marked delivered; nothing
    when there is no usable secret or the client rejects the URL.  Otherwise
    exactly one request goes to the webhook's URL, with the event as its body
    and signed under that secret for that body, path and timestamp, and the
    event is delivered only if the answer is 2xx.  An event that is not
    delivered has one retry more and is due again after the configured delay of
    that retry, or is dead when the retries reach the maximum.  The handling
    always returns; no other row of the outbox and no other table changes. *)
Theorem event_outcome e u k (h : C) w :
  castUUID (EventID e) = Ok (Some u) -> w_faults w = [] ->
  exists k' h' w' n ok,
    handleEvent e k h w = (k', h', w', tt) /\ settings k' = settings k /\
    attempt_of e k h w h' n ok /\ marked_as e u k w n ok w'.
Proof.
  intros Hu Hf. unfold handleEvent, bindW at 1.
  destruct (getWebhookConfig_spec (EMerchantNo e) k h w Hf) as (k1 & w1 & cfg & c & -> & Hl1 & Hk1 & Hc1 & Hcfg).
  assert (Hidle : (forall url, ~ owed cfg url) -> exists k' h' w' n ok, markSuccess e k1 h w1 = (k', h', w', tt) /\
    settings k' = settings k /\ attempt_of e k h w h' n ok /\ marked_as e u k w n ok w').
  { intros Hno. destruct (event_marks e u k k1 h w w1 c true Hu Hl1 Hk1) as (w' & E & Hh).
    exists k1, h, w', c, true. split; [exact E|]. split; [done|]. split; [by eapply nothing_due|done]. }
  destruct cfg as [[url en]|]; [|by apply Hidle; intros url [? _]]. unfold enabledConfig. simpl.
  destruct en; simpl; [|by apply Hidle; intros url' [? _]].
  destruct (String.eqb_spec (TrimSpace url) "") as [Hb|Hb]; simpl; [by apply Hidle; intros url' [[= <-] ?]|]. clear Hidle.
  assert (owed (Some (mkWebhookConfig url true)) url) as Hdue by done.
  unfold bindW at 1. pose proof Hl1 as (Hd1 & Hf1 & _).
  destruct (getActiveSecret_spec (EMerchantNo e) k1 h w1 Hf1) as (k2 & w2 & r & c2 & -> & Hl2 & Hk2 & Hsec).
  apply (secret_at_ext k) in Hsec; [|done..]. rewrite Hd1, (clockAt_later _ _ _ _ Hl1) in Hsec. rewrite Hk1 in Hk2.
  pose proof (later_trans _ _ _ _ _ Hl1 Hl2) as Hl.
  assert (Hno : (forall s, usable r = Some s -> TrimSpace s = "") -> exists k' h' w' n ok, markRetry e k2 h w2 = (k', h', w', tt) /\
    settings k' = settings k /\ attempt_of e k h w h' n ok /\ marked_as e u k w n ok w').
  { intros Hs. destruct (event_marks e u k k2 h w w2 _ false Hu Hl Hk2) as (w' & E & Hh).
    exists k2, h, w', (c + c2)%nat, false. split; [exact E|]. split; [done|]. split; [by eapply no_secret|done]. }
  destruct r as [er|[secret|]]; [by apply Hno| |by apply Hno].
  destruct (String.eqb_spec (TrimSpace secret) "") as [|Hne]; [apply Hno; by intros s [= <-]|]. clear Hno. simpl in Hsec.
  unfold bindW at 1. pose proof Hl as (_ & Hf2 & _).
  destruct (deliver_spec url e secret k2 h w2 Hf2) as [(Hp & w3 & -> & Hl3)|
    (path & q & a & h1 & ok & w3 & Hp & Hq & Hdo & Hok & -> & Hl3)]; pose proof (later_trans _ _ _ _ _ Hl Hl3) as Hl'.
  - destruct (event_marks e u k k2 h w w3 _ false Hu Hl' Hk2) as (w' & E & Hh).
    exists k2, h, w', (c + c2 + 1)%nat, false. split; [exact E|]. split; [done|]. split; [by eapply url_rejected|done].
  - destruct (event_marks e u k k2 h1 w w3 _ ok Hu Hl' Hk2) as (w' & E & Hh).
    exists k2, h1, w', (c + c2 + 2)%nat, ok. split; [by destruct ok|]. split; [done|]. split; [|done].
    rewrite !(clockAt_later _ _ _ _ Hl) in Hq. by eapply answered.
Qed.
End Outcome.
