(* ===== verification/ClientProofs.v ===== *)
(** * The SDK against the server

    A request of a client made by [NewClient] is what the server admits, and
    what the server answers is what the client returns. *)

From S2P Require Import Prelude GoBase Config Domain Codes Encoding Calendar Json JsonDecode JsonProofs Store Queries Reads Secrets Paging Ledger Repo Quiet Webhook Services TxnQuery Api Auth Router Url Client Sdk Wire Processor Server BookRules.
From stdpp Require Import base gmap list strings.
From Stdlib Require Import ZArith Lia Ascii String.

Local Open Scope string_scope.
Local Open Scope Z_scope.

(** ** Texts *)

Lemma hex_digit_byte d : 0 <= d < 16 -> exists b, byte_of (hex_digit d) = b /\ (48 <= b <= 57 \/ 97 <= b <= 102).
Proof.
  intros Hd. eexists. split; [done|]. unfold hex_digit. destruct (Z.ltb_spec d 10); rewrite byte_of_of by lia; lia.
Qed.

Lemma hexEncode_all (p : ascii -> bool) s :
  (forall d, 0 <= d < 16 -> p (hex_digit d) = true) -> sforall p (hexEncode s) = true.
Proof.
  intros Hp. induction s as [|c s IH]; [done|]. cbn [hexEncode sforall]. pose proof (byte_of_range c).
  rewrite !Hp, IH by (split; Z.div_mod_to_equations; lia). done.
Qed.

Lemma hexEncode_graphic s : sforall graphic (hexEncode s) = true.
Proof.
  apply hexEncode_all. intros d Hd. unfold graphic. destruct (hex_digit_byte d Hd) as (b & -> & Hb).
  apply andb_true_iff. rewrite !Z.leb_le. lia.
Qed.

Lemma ToLower_fixed s : sforall (fun c => bool_decide (lower_ascii c = c)) s = true -> ToLower s = s.
Proof. induction s as [|c s IH]; [done|]. cbn [sforall ToLower]. intros. bools. by rewrite H, IH. Qed.

Lemma ToLower_hexEncode s : ToLower (hexEncode s) = hexEncode s.
Proof.
  apply ToLower_fixed, hexEncode_all. intros d Hd. apply bool_decide_eq_true. unfold lower_ascii, hex_digit.
  assert (d = 0 \/ d = 1 \/ d = 2 \/ d = 3 \/ d = 4 \/ d = 5 \/ d = 6 \/ d = 7 \/ d = 8 \/ d = 9 \/ d = 10 \/
    d = 11 \/ d = 12 \/ d = 13 \/ d = 14 \/ d = 15) as E by lia.
  repeat destruct E as [->|E]; try reflexivity. by subst.
Qed.

Lemma hmac_not_empty k m : hexEncode (hmac_sha256 k m) <> "".
Proof.
  unfold hmac_sha256. generalize (xor_pad 92 (hmac_key k) ++ sha256 (xor_pad 54 (hmac_key k) ++ m)). intros s.
  unfold sha256. by generalize (sha256_blocks (Z.to_nat (slen (sha256_pad s) / 64)) sha256_init (sha256_pad s)).
Qed.

Lemma FormatInt_graphic n : sforall graphic (FormatInt n) = true.
Proof.
  unfold FormatInt. destruct (Z.ltb_spec n 0); cbn [sforall]; [change (graphic "-") with true|]; cbn [andb];
    eapply sforall_impl, format_nat_digits; apply is_digit_graphic || lia.
Qed.
Lemma FormatInt_not_empty n : FormatInt n <> "".
Proof. destruct (FormatInt_head n) as (c & s & -> & _). done. Qed.

Lemma graphic_header s : sforall graphic s = true -> sforall headerByte s = true.
Proof.
  apply sforall_impl. intros c Hc. unfold headerByte, isCTL. unfold graphic in Hc. bools.
  rewrite (proj2 (Z.ltb_ge _ _)), (proj2 (Z.eqb_neq _ _)) by lia. done.
Qed.

(** ** The request of a client *)

Section Request.
Context {E T : Type} {UP : UrlParser} {SE : SdkEnv E T}.
Implicit Types (c : @Client E T).

(** The base URL has no path of its own. *)
Definition direct c : Prop := trimSlash (TrimSpace (u_path (baseURL c))) = "".
(** The texts the client puts in headers may travel there. *)
Definition headersOk c : Prop := sforall headerByte (c_merchantNo c) = true /\ sforall headerByte (userAgent c) = true.

Lemma NewClient_ok opts c :
  NewClient opts = Ok c -> c_merchantNo c = TrimSpace (co_merchantNo opts) /\ c_merchantNo c <> "" /\
    merchantSecret c = co_merchantSecret opts /\ TrimSpace (userAgent c) = userAgent c /\
    c_now c = default env_now (Now opts) /\ c_nonce c = default defaultNonce (NonceGenerator opts).
Proof.
  unfold NewClient, isEmptyText. destruct (String.eqb _ _); [done|]. destruct (urlParse _) as [u|]; [|done].
  destruct (_ || _); [done|]. destruct (String.eqb_spec (TrimSpace (co_merchantNo opts)) ""); [done|].
  destruct (String.eqb _ _); [done|]. intros [= <-].
  split; [done|]. split; [done|]. split; [done|]. split; [apply TrimSpace_idem|done].
Qed.

Lemma TrimPrefix_slash p : HasPrefix p "/" = true -> "/" ++ TrimPrefix p "/" = p.
Proof.
  unfold TrimPrefix. intros Hp. rewrite Hp. destruct p as [|c p]; [done|]. unfold HasPrefix in Hp. cbn [String.prefix] in Hp.
  destruct (ascii_dec "/" c) as [<-|]; [|done]. cbn. by destruct p.
Qed.

Lemma joinURLPath_direct base p :
  trimSlash (TrimSpace base) = "" -> HasPrefix p "/" = true -> TrimSpace p = p -> joinURLPath base p = p.
Proof. intros Hb Hp Ht. unfold joinURLPath. rewrite Hb, Ht. by apply TrimPrefix_slash. Qed.

(** What a server directly behind the base URL makes of a request. *)
Lemma signed_received c method p query payload ts nonce params :
  direct c -> headersOk c -> HasPrefix p "/" = true -> TrimSpace p = p ->
  (query = None -> sforall graphic (u_rawQuery (baseURL c)) = true) ->
  sforall headerByte ts = true -> sforall headerByte nonce = true ->
  exists hs raw, received params (signedRequest c method p query payload ts nonce)
    = Some (mkRequest method p (valuesGet hs) (Some (default "" payload)) (valuesGet (ParseQuery raw)) (params method p)) /\
    valuesGet hs "X-Merchant-No" = c_merchantNo c /\ valuesGet hs "X-Timestamp" = ts /\ valuesGet hs "X-Nonce" = nonce /\
    valuesGet hs "X-Signature" = signature method p (c_merchantNo c) ts nonce (default "" payload) (merchantSecret c) /\
    valuesGet hs "X-Request-Id" = "" /\ (forall q, query = Some q -> raw = Encode q).
Proof.
  intros Hd [Hm Hu] Hp Ht Hq Hts Hn. set (req := signedRequest _ _ _ _ _ _ _). exists (h_header req), (u_rawQuery (h_url req)).
  assert (u_path (h_url req) = p) as Hpath by by apply joinURLPath_direct.
  assert (sforall graphic (u_rawQuery (h_url req)) = true) as Hraw.
  { unfold req. cbn. destruct query; [apply Encode_graphic|by apply Hq]. }
  assert (forallb (fun kv => sforall headerByte kv.2) (h_header req) = true) as Hh.
  { unfold req, signedRequest. cbv zeta. cbn [h_header]. rewrite !forallb_app. cbn [forallb snd].
    rewrite Hm, Hts, Hn. unfold signature at 1. rewrite (graphic_header _ (hexEncode_graphic _)).
    destruct payload; cbn; destruct (isEmptyText _); cbn; by rewrite ?Hu. }
  split; [|split; [|split; [|split; [|split; [|split]]]]]; try reflexivity.
  - unfold received. rewrite Hh. cbn [negb]. rewrite ParseRequestURI_RequestURI by (done || by rewrite Hpath).
    cbn [option_map fst snd]. by rewrite Hpath.
  - unfold req, signedRequest. destruct payload; cbn; by destruct (isEmptyText _).
  - intros q ->. done.
Qed.

Lemma bindS_ok {A B} (m : @Call E A) (f : A -> @Call E B) e e1 a : m e = (e1, Ok a) -> bindS m f e = f a e1.
Proof. intros Em. unfold bindS. by rewrite Em. Qed.

(** ** It is admitted *)

Definition isMethod (m : string) : bool := bool_decide (m = "GET" \/ m = "POST").

Lemma signature_server method p m ts nonce body secret :
  isMethod method = true -> signature method p m ts nonce body secret = requestSignature secret method p m ts nonce body.
Proof. unfold isMethod. intros [-> | ->]%bool_decide_eq_true; reflexivity. Qed.

Section SignedRequests.
Context {WS : WebhookSecretProvider}.

Lemma admitted_request cfg rid q m ts nonce secret t w w1 w' now :
  secretProvider cfg = true -> isMethod (q_method q) = true ->
  header q "X-Merchant-No" = m -> m <> "" -> header q "X-Timestamp" = FormatInt ts -> header q "X-Nonce" = nonce -> nonce <> "" ->
  q_body q = Some t ->
  header q "X-Signature" = signature (q_method q) (q_path q) m (FormatInt ts) nonce t secret ->
  0 <= ts -> in64 ts -> activeSecret m w = (w1, Ok (Some secret)) -> timeNow w1 = (w', Ok now) ->
  absDuration (timeSub now (ts * 1000000)) <= windowOf cfg ->
  authenticate cfg rid q w = (w', Ok (Ok m)).
Proof.
  intros Hsp Hmeth Hm Hm0 Hts Hnonce Hn0 Hbody Hsig Hpos H64 Hsec Hnow Hwin. apply authenticate_ok_iff.
  rewrite Hm, Hts, Hnonce, Hsig. split; [done|]. split; [done|]. split; [done|]. split; [apply FormatInt_not_empty|].
  split; [done|]. split; [apply hmac_not_empty|]. exists w1, secret, (ts * 1000000), t, now. rewrite Hts, Hnonce, Hsig.
  split; [done|]. split; [done|]. split; [|split; [done|split; [by apply absDuration_near|]]].
  - left. exists ts. by rewrite ParseInt_FormatInt by done.
  - apply requestSignature_signed. rewrite signature_server by done. apply ToLower_hexEncode.
Qed.

(** [C34] The server admits what the SDK sends.  A client made by [NewClient]
    for a server directly behind its base URL signs a request with the active
    secret of its merchant, a clock within the window and a nonce; the server
    receives it with the path, the query and the body of the call and admits it
    in the name of the merchant. *)
Theorem sdk_request_admitted cfg opts c method p query payload t nonce params rid w w1 w' now :
  NewClient opts = Ok c -> direct c -> headersOk c -> secretProvider cfg = true -> isMethod method = true ->
  HasPrefix p "/" = true -> TrimSpace p = p -> (query = None -> sforall graphic (u_rawQuery (baseURL c)) = true) ->
  nonce <> "" -> sforall graphic nonce = true -> 0 <= UnixMilli t -> in64 (UnixMilli t) ->
  activeSecret (c_merchantNo c) w = (w1, Ok (Some (merchantSecret c))) -> timeNow w1 = (w', Ok now) ->
  absDuration (timeSub now (UnixMilli t * 1000000)) <= windowOf cfg ->
  exists q, received params (signedRequest c method p query payload (FormatInt (UnixMilli t)) nonce) = Some q /\
    q_method q = method /\ q_path q = p /\ q_body q = Some (default "" payload) /\
    (forall v k, query = Some v -> NoDup (map fst v) -> q_query q k = valuesGet v k) /\
    authenticate cfg rid q w = (w', Ok (Ok (c_merchantNo c))).
Proof.
  intros (Hm & Hm0 & _ & _ & _ & _)%NewClient_ok Hd Hh Hsp Hmeth Hp Htp Hq Hn0 Hng Hpos H64 Hsec Hnow Hwin.
  pose proof (FormatInt_graphic (UnixMilli t)) as Hg.
  destruct (signed_received c method p query payload (FormatInt (UnixMilli t)) nonce params) as (hs & raw & Hr & H1 & H2 & H3 & H4 & _ & Hraw);
    try (done || by apply graphic_header).
  eexists. split; [exact Hr|]. cbn [q_method q_path q_body q_query]. split; [done|]. split; [done|]. split; [done|]. split.
  { intros v k Hv Hd'. rewrite (Hraw v Hv). by apply valuesGet_Encode. }
  apply (admitted_request cfg rid _ (c_merchantNo c) (UnixMilli t) nonce (merchantSecret c) (default "" payload) w w1 w' now);
    unfold header; cbn [q_header q_method q_path q_body]; rewrite ?H1, ?H2, ?H3, ?H4; try done.
  - by rewrite Hm, TrimSpace_idem.
  - by apply TrimSpace_graphic.
  - by apply TrimSpace_graphic.
  - apply TrimSpace_graphic, hexEncode_graphic.
Qed.
End SignedRequests.
End Request.

(** ** Plain texts in answers *)

(** Bytes that are written as they are. *)
Definition plain (c : ascii) : bool := (byte_of c <? 128) && String.eqb (escape_ascii c) (String c "").

Lemma plain_escape s : sforall plain s = true -> escape 0 s = s /\ validUTF8 0 s = true.
Proof.
  induction s as [|c s IH]; [done|]. cbn [sforall escape validUTF8]. unfold plain at 1. intros. bools.
  assert (rune_len c s = 1%nat) as ->. { unfold rune_len. by rewrite (proj2 (Z.ltb_lt _ _)). }
  destruct IH as [-> Hv]; [done|]. by rewrite H1.
Qed.

Lemma plain_marshal s : sforall plain s = true -> slen (marshalString s) = slen s + 2.
Proof.
  intros Hs. unfold marshalString. rewrite (proj1 (plain_escape s Hs)). cbn [slen]. rewrite slen_app. simpl. lia.
Qed.

Lemma digit_plain c : is_digit c = true -> plain c = true.
Proof. destruct c as [[] [] [] [] [] [] [] []]; vm_compute; congruence. Qed.

Lemma FormatInt_plain n : sforall plain (FormatInt n) = true.
Proof.
  unfold FormatInt. destruct (Z.ltb_spec n 0); cbn [sforall]; [change (plain "-") with true|]; cbn [andb];
    eapply sforall_impl, format_nat_digits; apply digit_plain || lia.
Qed.

Lemma FormatInt_len n : in64 n -> slen (FormatInt n) <= 20.
Proof.
  unfold in64, MinInt64, MaxInt64. intros Hn. unfold FormatInt. destruct (Z.ltb_spec n 0); cbn [slen].
  - pose proof (format_nat_len (- n) 18 ltac:(change (10 ^ Z.of_nat 19) with 10000000000000000000; lia)). lia.
  - pose proof (format_nat_len n 18 ltac:(change (10 ^ Z.of_nat 19) with 10000000000000000000; lia)). lia.
Qed.

(** The request id the server makes. *)
Lemma requestID_plain now : let rid := "req_" ++ FormatInt (Paging.UnixNano now) in sforall plain rid = true /\ slen rid <= 24.
Proof.
  cbv zeta. rewrite sforall_app, FormatInt_plain, slen_app.
  pose proof (FormatInt_len (Paging.UnixNano now) (wrap64_in64 _)). split; [reflexivity|]. simpl. lia.
Qed.

Lemma successText rid j :
  responseText (mkResponse 200 "SUCCESS" "ok" rid (Some j)) =
  (marshalStruct [("code", marshalString "SUCCESS"); ("data", marshal j); ("message", marshalString "ok"); ("request_id", marshalString rid)]).
Proof. reflexivity. Qed.

Lemma success_read {A} (out : Decoder A) rid j a :
  sforall plain rid = true -> slen rid <= 24 -> validText j = true -> nesting j <= 9999 ->
  slen (marshal j) <= maxResponseBodyBytes - 256 ->
  decodeStruct (d_store out) (d_zero out) (valueOf j) = Some a ->
  readAnswer out 200 (responseText (mkResponse 200 "SUCCESS" "ok" rid (Some j))) = Ok a.
Proof.
  intros Hp Hr Hv Hn Hl Hd. set (r := mkResponse 200 "SUCCESS" "ok" rid (Some j)).
  change 200 with (httpCode r). rewrite readAnswer_response.
  - unfold answered, r. simpl. by rewrite Hd.
  - unfold responseJson, r. simpl. by rewrite (proj2 (plain_escape rid Hp)), Hv.
  - change (nesting (responseJson r)) with (1 + Z.max 0 (Z.max 0 (Z.max 0 (Z.max (nesting j) 0)))). unfold maxNestingDepth. lia.
  - unfold r. rewrite successText. unfold marshalStruct, member. cbn [map stringsJoin fst snd].
    rewrite !slen_app, (plain_marshal rid Hp). simpl slen. unfold maxResponseBodyBytes in *. lia.
Qed.

Lemma error_read {A} (out : Decoder A) http code msg rid :
  sforall plain rid = true -> slen rid <= 24 -> sforall plain code = true -> sforall plain msg = true ->
  slen code + slen msg <= 1024 -> code <> "" -> code <> successCode ->
  exists raw, readAnswer out http (responseText (mkResponse http code msg rid None)) = Err (EApi (mkAPIError http code msg rid raw)).
Proof.
  intros Hp Hr Hc Hm Hl Hc0 Hcs. set (r := mkResponse http code msg rid None). exists (responseText r).
  change http with (httpCode r) at 1. rewrite readAnswer_response.
  - unfold answered, r, isEmptyText. simpl. rewrite (proj2 (String.eqb_neq code "")), (proj2 (String.eqb_neq code successCode)) by done. done.
  - unfold responseJson, r. simpl. by rewrite (proj2 (plain_escape rid Hp)), (proj2 (plain_escape code Hc)), (proj2 (plain_escape msg Hm)).
  - unfold responseJson, r. done.
  - assert (responseText r = marshalStruct [("code", marshalString code); ("message", marshalString msg); ("request_id", marshalString rid)]) as -> by reflexivity.
    unfold marshalStruct, member. cbn [map stringsJoin fst snd].
    rewrite !slen_app, (plain_marshal rid Hp), (plain_marshal code Hc), (plain_marshal msg Hm). simpl slen. unfold maxResponseBodyBytes in *. lia.
Qed.

(** The bytes beyond the limit make no difference. *)
Lemma slen_limitTo n s : 0 <= n <= slen s -> slen (limitTo n s) = n.
Proof.
  revert n. induction s as [|c s IH]; intros n Hn; cbn [limitTo slen] in *; [lia|].
  destruct (Z.leb_spec n 0); cbn [slen]; [lia|]. rewrite IH by lia. lia.
Qed.
Lemma limitTo_limitTo n m s : n <= m -> limitTo n (limitTo m s) = limitTo n s.
Proof.
  revert n m. induction s as [|c s IH]; intros n m Hn; [done|]. cbn [limitTo].
  destruct (Z.leb_spec m 0); cbn [limitTo]; destruct (Z.leb_spec n 0); try lia; [done..|]. by rewrite IH by lia.
Qed.
Lemma readAnswer_limit {A} (out : Decoder A) status s :
  readAnswer out status (limitTo (maxResponseBodyBytes + 1) s) = readAnswer out status s.
Proof.
  destruct (Z.leb_spec (slen s) maxResponseBodyBytes); [by rewrite limitTo_all by lia|].
  unfold readAnswer. rewrite slen_limitTo, limitTo_limitTo by (unfold maxResponseBodyBytes in *; lia).
  rewrite !(proj2 (Z.ltb_lt _ _)) by (unfold maxResponseBodyBytes in *; lia). done.
Qed.

(** ** A transaction read through the SDK *)

Lemma tradeNo_graphic c : tradeNoByte c = true -> graphic c = true.
Proof. destruct c as [[] [] [] [] [] [] [] []]; vm_compute; congruence. Qed.
Lemma tradeNo_kept c : tradeNoByte c = true -> shouldEscape c encodePathSegment = false.
Proof. destruct c as [[] [] [] [] [] [] [] []]; vm_compute; congruence. Qed.

Lemma PathEscape_plain s : sforall tradeNoByte s = true -> PathEscape s = s.
Proof.
  unfold PathEscape. induction s as [|c s IH]; [done|]. cbn [sforall urlEscape]. intros. bools.
  rewrite andb_false_r, tradeNo_kept, IH by done. done.
Qed.

Section Served.
Context {PF : Platform} {CP : CodeProvider} {SC : SecretCipher} {UL : UUIDLib} {JB : JsonBinding}
  {D : Type} {TD : TransferDispatcher D} {MR : MerchantRouter} {UP : UrlParser} (cfg : Config).
#[local] Existing Instance online.
Abbreviation client := (@Client (@Online D) unit).

(** The secret active in the tables. *)
Definition activeIn (m secret : string) (d : DB) : Prop :=
  exists cipher, (forall t, GetActiveSecretCiphertext m t d = Ok (d, cipher)) /\ cipher_Decrypt cipher = Ok secret.

Lemma GetActiveSecret_later m secret w :
  w_faults w = [] -> activeIn m secret (w_db w) -> exists w1, GetActiveSecret m w = (w1, Ok (Some secret)) /\ later 1 w w1.
Proof.
  intros Hf (cipher & Hq & Hd). destruct (proj1 (auto_later (GetActiveSecretCiphertext m) w Hf) _ Hq) as (w1 & E & Hl).
  exists w1. split; [|done]. unfold GetActiveSecret. unfold bind, attempt. by rewrite E, Hd.
Qed.

(** The transaction with this number, as the queries show it. *)
Definition txnRead (u : UUID) (d : DB) : option QueryTxn :=
  (fun t => queryTxnFromTransferTxn (Repository.transferTxnFromByNoRow t)) <$> txns d !! u.

Lemma GetByTxnNo_later no u w :
  w_faults w = [] -> no <> "" -> uuid_parse no = Some u ->
  exists w1, TxnQuery.GetByTxnNo (NewTxnQueryService true) no w = (w1, Ok (txnRead u (w_db w))) /\ later 1 w w1.
Proof.
  intros Hf Hno Hu. unfold TxnQuery.GetByTxnNo, Repository.GetTransferTxn, Repository.found. simpl.
  assert (forall t, GetTransferTxnByNo no t (w_db w) = Queries.one (txns (w_db w) !! u) t (w_db w)) as Hq.
  { intros t. unfold GetTransferTxnByNo, txnByText, castUUID. by rewrite (proj2 (String.eqb_neq no "")), Hu by done. }
  unfold txnRead. destruct (txns (w_db w) !! u) as [t|].
  - destruct (proj1 (auto_later (GetTransferTxnByNo no) w Hf) _ Hq) as (w1 & E & Hl). exists w1. split; [|done].
    unfold bind, attempt. by rewrite E.
  - destruct (proj2 (auto_later (GetTransferTxnByNo no) w Hf) _ Hq) as (w1 & E & Hl). exists w1. split; [|done].
    unfold bind, attempt. by rewrite E.
Qed.

(** What merchant [m] is answered about transaction [u]. *)
Definition ownedBy (m : string) (u : UUID) (d : DB) : option QueryTxn :=
  match txnRead u d with Some x => if String.eqb (QMerchantNo x) m then Some x else None | None => None end.
Definition txnAnswer (rid : string) (x : option QueryTxn) : Response :=
  match x with
  | Some x => mkResponse 200 "SUCCESS" "ok" rid (Some (toTxnResponse x))
  | None => mkResponse 404 "TXN_NOT_FOUND" "txn not found" rid None
  end.

Lemma handle_txn c m no u (s : D) w :
  w_faults w = [] -> x_merchant c = Some m -> TrimSpace m = m -> m <> "" ->
  x_param c "txn_no" = no -> TrimSpace no = no -> no <> "" -> uuid_parse no = Some u ->
  exists w1, runH (handleGetByTxnNo businessHandler c) s w = (s, w1, txnAnswer (x_requestID c) (ownedBy m u (w_db w))) /\ later 1 w w1.
Proof.
  intros Hf Hm Hmt Hm0 Hp Hnt Hno Hu. destruct (GetByTxnNo_later no u w Hf Hno Hu) as (w1 & E & Hl). exists w1. split; [|done].
  unfold runH, handleGetByTxnNo, queryStore. cbn [h_query businessHandler]. unfold bindH at 1. unfold retH at 1.
  unfold bindH at 1. unfold contextMerchant, MerchantNoFromContext, isEmpty. rewrite Hm, Hmt, (proj2 (String.eqb_neq m "")) by done.
  unfold retH at 1. unfold bindH at 1. unfold pathParam. cbv zeta. rewrite Hp, Hnt. unfold invalid, reject, isEmpty.
  rewrite (proj2 (String.eqb_neq no "")) by done. unfold bindH at 1. unfold retH at 1. cbv beta iota. unfold retH at 1.
  unfold bindH at 1, liftO. rewrite E. unfold ownedBy. destruct (txnRead u (w_db w)) as [x|]; [|done].
  by destruct (String.eqb (QMerchantNo x) m).
Qed.

(** The server on an admitted query: one reading of the clock for the request
    id, one for the secret, one for the window and one for the row. *)
Lemma serve_txn m no u secret (ts : Z) body (s : D) w q :
  w_faults w = [] -> q_header q "X-Request-Id" = "" -> q_method q = "GET" -> header q "X-Merchant-No" = m -> m <> "" -> TrimSpace m = m ->
  header q "X-Timestamp" = FormatInt ts -> 0 <= ts -> in64 ts -> header q "X-Nonce" <> "" -> q_body q = Some body ->
  header q "X-Signature" = signature (q_method q) (q_path q) m (FormatInt ts) (header q "X-Nonce") body secret ->
  activeIn m secret (w_db w) ->
  absDuration (timeSub (clockAt 3 w) (ts * 1000000)) <= windowOf (mkAuthConfig true (durationOf (AuthWindowSeconds cfg) Second)) ->
  q_param q "txn_no" = no -> TrimSpace no = no -> no <> "" -> uuid_parse no = Some u ->
  exists w1, serve (routesOptions cfg) RGetTxn q s w =
      (s, w1, Some (txnAnswer ("req_" ++ FormatInt (Paging.UnixNano (clockAt 1 w))) (ownedBy m u (w_db w)))) /\ later 4 w w1.
Proof.
  intros Hf Hrid Hmeth Hm Hm0 Hmt Hts Hpos H64 Hn Hb Hsig Hact Hwin Hp Hnt Hno Hu.
  destruct (timeNow_later w Hf) as (w1 & E1 & L1). pose proof L1 as (D1 & F1 & C1 & T1).
  destruct (GetActiveSecret_later m secret w1 F1) as (w2 & E2 & L2); [by rewrite D1|]. pose proof L2 as (D2 & F2 & C2 & T2).
  destruct (timeNow_later w2 F2) as (w3 & E3 & L3). pose proof L3 as (D3 & F3 & C3 & T3).
  pose proof (later_trans _ _ _ _ _ (later_trans _ _ _ _ _ L1 L2) L3) as L13. pose proof L13 as (_ & _ & C13 & _). simpl in C13.
  set (rid := "req_" ++ FormatInt (Paging.UnixNano (clockAt 1 w))).
  set (c := mkContext rid (Some m) (q_param q) (q_query q)).
  destruct (handle_txn c m no u s w3 F3) as (w4 & E4 & L4); try done.
  exists w4. split; [|exact (later_trans _ _ _ _ _ L13 L4)]. unfold serve.
  change (registered (routesOptions cfg) RGetTxn) with true. cbn [negb]. unfold RequestIDMiddleware. rewrite Hrid.
  change (isEmpty (TrimSpace "")) with true. cbv iota. unfold newRequestID. unfold bind at 1. rewrite E1.
  unfold admitted. change (public RGetTxn) with false. cbn [o_auth routesOptions]. unfold bind at 1.
  unfold ret at 1. cbv beta iota. fold rid.
  rewrite (admitted_request (WS := managerSecrets) _ _ q m ts (header q "X-Nonce") secret body w1 w2 w3 (clockAt 1 w2)); try done.
  - unfold ret. change (handler (routesOptions cfg) _ q RGetTxn) with (handleGetByTxnNo (D := D) businessHandler c).
    rewrite E4, D3, D2, D1. done.
  - unfold isMethod. rewrite Hmeth. apply bool_decide_eq_true. by left.
  - replace (clockAt 1 w2) with (clockAt 3 w); [done|]. by rewrite <- C13, C3.
Qed.

(** What the SDK returns about a transaction. *)
Definition readable (x : QueryTxn) : Prop :=
  sendable x /\ validText (toTxnResponse x) = true /\ slen (marshal (toTxnResponse x)) <= maxResponseBodyBytes - 256.

Lemma txnAnswer_read rid x :
  sforall plain rid = true -> slen rid <= 24 -> (forall y, x = Some y -> readable y) ->
  exists raw, readAnswer txnDecoder (httpCode (txnAnswer rid x)) (responseText (txnAnswer rid x)) =
    match x with
    | Some y => Ok (txnShown y)
    | None => Err (EApi (mkAPIError 404 "TXN_NOT_FOUND" "txn not found" rid raw))
    end.
Proof.
  intros Hp Hl Hx. destruct x as [y|].
  - exists "". destruct (Hx y eq_refl) as (Hs & Hv & Hb). apply success_read; try done. by apply txn_decodes.
  - apply error_read; done.
Qed.

Lemma defaultNonce_graphic (b : @Online D) :
  exists rs n, defaultNonce (SE := online (routesOptions cfg)) b = (mkOnline (on_clock b) rs (on_state b) (on_world b), n) /\ n <> "" /\ sforall graphic n = true.
Proof.
  unfold defaultNonce. destruct b as [clk [|r rs] s w]; cbn.
  - eexists _, _. split; [done|]. split; [apply FormatInt_not_empty|apply FormatInt_graphic].
  - eexists _, _. split; [done|]. split; [done|]. apply (hexEncode_graphic (bytes_be 16 r)).
Qed.

(** [C35] The SDK returns the merchant its transaction.  A client of [NewClient]
    with its defaults, directly in front of the wired routes and holding the
    active secret of its merchant, asks for a transaction by its number on a
    working connection and with clocks within the window: it returns the
    transaction as it is stored when it is the merchant's, and otherwise, for
    another's or none, the error 404 TXN_NOT_FOUND; the tables are unchanged. *)
Theorem sdk_reads_transactions opts (c : client) (b : Online) u no param :
  NewClient (SE := online (routesOptions cfg)) opts = Ok c -> Now opts = None -> NonceGenerator opts = None ->
  direct c -> headersOk c -> sforall graphic (u_rawQuery (baseURL c)) = true ->
  no <> "" -> sforall tradeNoByte no = true -> uuid_parse no = Some u ->
  routeOf "GET" ("/api/v1/transactions/" ++ no) = Some (RGetTxn, param) -> param "txn_no" = no ->
  w_faults (on_world b) = [] -> activeIn (c_merchantNo c) (merchantSecret c) (w_db (on_world b)) ->
  0 <= UnixMilli (on_clock b) -> in64 (UnixMilli (on_clock b)) ->
  absDuration (timeSub (clockAt 3 (on_world b)) (UnixMilli (on_clock b) * 1000000))
    <= windowOf (mkAuthConfig true (durationOf (AuthWindowSeconds cfg) Second)) ->
  (forall x, ownedBy (c_merchantNo c) u (w_db (on_world b)) = Some x -> readable x) ->
  exists b' rid raw,
    GetByTxnNo (SE := online (routesOptions cfg)) (Some c) no b =
      (b', match ownedBy (c_merchantNo c) u (w_db (on_world b)) with
           | Some x => Ok (txnShown x)
           | None => Err (EApi (mkAPIError 404 "TXN_NOT_FOUND" "txn not found" rid raw))
           end) /\
    w_db (on_world b') = w_db (on_world b).
Proof.
  intros Hc Hnow0 Hnonce0 Hdir Hh Hraw Hno Hb Hu Hroute Hparam Hf Hact Hpos H64 Hwin Hread.
  destruct (NewClient_ok _ _ Hc) as (Hm & Hm0 & _ & _ & Hcn & Hcx). rewrite Hnow0 in Hcn. rewrite Hnonce0 in Hcx. cbn [default from_option] in *.
  assert (sforall graphic no = true) as Hg by (eapply sforall_impl; [apply tradeNo_graphic|done]).
  pose proof (TrimSpace_graphic no Hg) as Hnt. set (p := "/api/v1/transactions/" ++ no) in *.
  assert (TrimSpace p = p) as Hpt by (apply TrimSpace_graphic; unfold p; rewrite sforall_app, Hg; done).
  set (ts := UnixMilli (on_clock b)) in *.
  destruct (defaultNonce_graphic b) as (rs & n & En & Hn0 & Hng).
  destruct (signed_received c "GET" p None None (FormatInt ts) n routeParams Hdir Hh eq_refl Hpt (fun _ => Hraw)
    (graphic_header _ (FormatInt_graphic ts)) (graphic_header _ Hng)) as (hs & raw & Hr & H1 & H2 & H3 & H4 & H5 & _).
  set (q := mkRequest "GET" p (valuesGet hs) (Some "") (valuesGet (ParseQuery raw)) (routeParams "GET" p)).
  change (received routeParams (signedRequest c "GET" p None None (FormatInt ts) n) = Some q) in Hr.
  assert (TrimSpace (c_merchantNo c) = c_merchantNo c) as Hmt by by rewrite Hm, TrimSpace_idem.
  assert (header q "X-Nonce" = n) as Hhn by (unfold header, q; cbn; rewrite H3; by apply TrimSpace_graphic).
  destruct (serve_txn (c_merchantNo c) no u (merchantSecret c) ts "" (on_state b) (on_world b) q) as (w1 & Es & Hl);
    try (done || by rewrite Hhn); unfold header, q; cbn [q_header q_param q_method q_path].
  - by rewrite H1.
  - rewrite H2. apply TrimSpace_graphic, FormatInt_graphic.
  - rewrite H4, H3, (TrimSpace_graphic n Hng). apply TrimSpace_graphic, hexEncode_graphic.
  - unfold routeParams. by rewrite Hroute.
  - set (rid := "req_" ++ FormatInt (Paging.UnixNano (clockAt 1 (on_world b)))) in Es.
    destruct (requestID_plain (clockAt 1 (on_world b))) as [Hrp Hrl]. fold rid in Hrp, Hrl.
    destruct (txnAnswer_read rid _ Hrp Hrl Hread) as [txt Ht].
    exists (mkOnline (on_clock b) rs (on_state b) w1), rid, txt. split; [|exact (proj1 Hl)].
    unfold GetByTxnNo. cbv zeta. rewrite Hnt, PathEscape_plain by done. fold p.
    rewrite (bindS_ok _ _ b b tt) by (unfold require, isEmptyText; by rewrite (proj2 (String.eqb_neq no ""))).
    unfold do_, isEmptyText. rewrite Hpt. change (String.eqb p "") with false. change (HasPrefix p "/") with true. cbn [negb orb].
    rewrite (bindS_ok _ _ b b (on_clock b)) by (unfold callS; by rewrite Hcn).
    rewrite (bindS_ok _ _ b _ n) by (unfold callS; by rewrite Hcx, En).
    rewrite (TrimSpace_graphic n Hng). set (b1 := mkOnline (on_clock b) rs (on_state b) (on_world b)).
    rewrite (bindS_ok _ _ b1 b1 tt) by (unfold require, isEmptyText; by rewrite (proj2 (String.eqb_neq n ""))).
    unfold bindS, sendRequest. cbn [env_do online]. unfold exchange. fold ts.
    rewrite Hr. change (q_method q) with "GET". change (q_path q) with p. rewrite Hroute. unfold b1. cbn [on_state on_world on_clock on_random]. rewrite Es.
    cbn [andb]. unfold liftS. cbn [fst snd].
    by rewrite readAnswer_limit, Ht.
Qed.
End Served.
