(* ===== verification/Tracer.v ===== *)
(** * The SQL tracer ([internal/db/sql_debug_tracer.go])

    Hooks around every statement of a connection: transactions whose order
    number marks a load test are sampled, their statements timed, and a summary
    is logged once, when the transaction that wrote the event ends.  A log line
    is a value; the texts of durations are left to the logger. *)

From S2P Require Import Prelude GoBase Config Codes Encoding Json.
From stdpp Require Import base gmap list strings.
From Stdlib Require Import ZArith Lia.

Local Open Scope string_scope.
Local Open Scope Z_scope.

(** ** Texts *)

(** [strings.Contains(s, sub)]. *)
Fixpoint Contains (s sub : string) : bool :=
  HasPrefix s sub || match s with "" => false | String _ s' => Contains s' sub end.

(** The rune of white space at the front of a text, in bytes; 0 if none. *)
Definition spaceLen (s : string) : nat :=
  match s with
  | "" => 0
  | String c s1 =>
      if space1 c then 1 else
      match s1 with
      | String c2 (String c3 _) => if space2 c c2 then 2 else if space3 c c2 c3 then 3 else 0
      | String c2 "" => if space2 c c2 then 2 else 0
      | "" => 0
      end
  end%nat.

(** [strings.Fields]: [word] holds the bytes of the current field, reversed. *)
Fixpoint fields (fuel : nat) (word : string) (s : string) : list string :=
  let flush := if String.eqb word "" then [] else [srev word] in
  match fuel, s with
  | S k, String c s' =>
      match spaceLen s with
      | O => fields k (String c word) s'
      | n => flush ++ fields k "" (sdrop n s)
      end
  | _, _ => flush
  end.
Definition Fields (s : string) : list string := fields (String.length s) "" s.

Definition compactSQL (sql : string) : string :=
  let compact := stringsJoin " " (Fields sql) in
  if 240 <? slen compact then stake 240 compact ++ "..." else compact.

(** The name in the [-- name: X :one] comment that sqlc puts first. *)
Fixpoint queryNameOf (lines : list string) : string :=
  match lines with
  | [] => ""
  | line :: lines' =>
      let trimmed := TrimSpace line in
      if String.eqb trimmed "" then queryNameOf lines'
      else if negb (HasPrefix trimmed "-- name:") then ""
      else match Fields trimmed with _ :: _ :: name :: _ => TrimSpace name | _ => "" end
  end.
Definition extractSQLCQueryName (sql : string) : string := queryNameOf (splitOn 10 sql).

Definition queryDisplayName (queryName sql : string) : string :=
  if String.eqb (TrimSpace queryName) "" then
    let trimmed := TrimSpace sql in
    "raw_sql:" ++ (if 48 <? slen trimmed then stake 48 trimmed ++ "..." else trimmed)
  else queryName.

Definition sqlIsTxnEnd (sqlLower : string) : bool :=
  let trimmed := TrimSpace sqlLower in HasPrefix trimmed "commit" || HasPrefix trimmed "rollback".
Definition sqlIsTxnBegin (sqlLower : string) : bool := HasPrefix (TrimSpace sqlLower) "begin".

Definition scenarioFromOutTradeNo (outTradeNo : string) : string :=
  let no := TrimSpace outTradeNo in
  if HasPrefix no "ord_perf_book_to_book_transfer_" then "book_to_book_transfer"
  else if HasPrefix no "ord_perf_book_to_book_refund_" then "book_to_book_refund"
  else if HasPrefix no "ord_perf_book_transfer_" then "book_transfer"
  else if HasPrefix no "ord_perf_book_refund_" then "book_refund"
  else if HasPrefix no "ord_perf_transfer_" then "transfer"
  else if HasPrefix no "ord_perf_refund_" then "refund" else "".

Definition isTruthyEnv (raw : string) : bool :=
  let v := ToLower (TrimSpace raw) in
  existsb (String.eqb v) ["1"; "true"; "t"; "yes"; "y"; "on"].

(** ** Arguments *)

(** A statement argument by its Go type; pointers may be nil, the pgtype
    values may be invalid (NULL). *)
Inductive arg : Type :=
| ArgNil
| ArgString (s : string)
| ArgBytes (s : string)
| ArgText (valid : bool) (s : string)
| ArgTextPtr (t : option (bool * string))
| ArgUUID (valid : bool) (u : Z)
| ArgUUIDPtr (u : option (bool * Z))
| ArgOther.

(** [uuid.Parse] and [UUID.String] of github.com/google/uuid. *)
Class GoogleUUID : Type := { uuidParse : string -> option Z; uuidString : Z -> string }.

Definition stringFromAny (v : arg) : string :=
  match v with
  | ArgString s | ArgBytes s | ArgText true s | ArgTextPtr (Some (true, s)) => TrimSpace s
  | _ => ""
  end.

Section Tracer.
Context {GU : GoogleUUID}.

Definition normalizeUUID (raw : string) : string :=
  match uuidParse (TrimSpace raw) with Some u => ToLower (uuidString u) | None => "" end.

Definition uuidFromAny (v : arg) : string :=
  match v with
  | ArgString s | ArgBytes s | ArgText true s | ArgTextPtr (Some (true, s)) => normalizeUUID s
  | ArgUUID true u | ArgUUIDPtr (Some (true, u)) => normalizeUUID (uuidString u)
  | _ => ""
  end.

Definition uuidFromArgAt (args : list arg) (idx : nat) : string :=
  match args !! idx with Some v => uuidFromAny v | None => "" end.
Definition stringFromArgAt (args : list arg) (idx : nat) : string :=
  match args !! idx with Some v => stringFromAny v | None => "" end.

(** The different identifiers among the arguments, in their order. *)
Fixpoint uuidArgs (seen : list string) (args : list arg) : list string :=
  match args with
  | [] => []
  | v :: args' =>
      let no := uuidFromAny v in
      if String.eqb no "" || bool_decide (no ∈ seen) then uuidArgs seen args' else no :: uuidArgs (no :: seen) args'
  end.
Definition extractUUIDArgs (args : list arg) : list string := uuidArgs [] args.

(** ** State *)

Record queryTimingStat : Type := mkStat { s_queryName : string; s_sql : string; s_count : Z; s_total : Duration; s_max : Duration }.

Record sampledTxnState : Type := mkSampled {
  scenario : string; txnNo : string; outTradeNo : string; originTxnNo : string;
  outboxSeen : bool; summarized : bool; stats : gmap string queryTimingStat
}.

(** Connections are numbered. *)
Record sampledTxnSQLTracer : Type := mkTracer {
  slowThreshold : Duration;
  connTxnNo : gmap nat string;
  connInTxn : gmap nat bool;
  txnState : gmap string sampledTxnState;
  txnAlias : gmap string string
}.
Definition set_connTxnNo f t := mkTracer (slowThreshold t) (f (connTxnNo t)) (connInTxn t) (txnState t) (txnAlias t).
Definition set_connInTxn f t := mkTracer (slowThreshold t) (connTxnNo t) (f (connInTxn t)) (txnState t) (txnAlias t).
Definition set_txnState f t := mkTracer (slowThreshold t) (connTxnNo t) (connInTxn t) (f (txnState t)) (txnAlias t).
Definition set_txnAlias f t := mkTracer (slowThreshold t) (connTxnNo t) (connInTxn t) (txnState t) (f (txnAlias t)).

(** [t.connInTxn[conn]], [t.txnAlias[no]]: the zero value when absent. *)
Definition inTxn (t : sampledTxnSQLTracer) (conn : nat) : bool := default false (connInTxn t !! conn).
Definition aliasOf (t : sampledTxnSQLTracer) (no : string) : string := default "" (txnAlias t !! no).

Record sqlDebugTraceState : Type := mkTraceState {
  d_start : Time; d_conn : nat; d_scenario : string; d_txnNo : string; d_queryName : string; d_sql : string;
  d_isOutbox : bool; d_clearConn : bool
}.
Definition attributed (sc no : string) (d : sqlDebugTraceState) : sqlDebugTraceState :=
  mkTraceState (d_start d) (d_conn d) sc no (d_queryName d) (d_sql d) (d_isOutbox d) (d_clearConn d).

Inductive logLine : Type :=
| LEnabled (slowMS : Z)
| LSampled (scenario txnNo originTxnNo outTradeNo : string)
| LQuery (scenario txnNo : string) (elapsed : Duration) (slow : bool) (query sql : string) (err : option string)
| LSummary (scenario txnNo originTxnNo outTradeNo : string) (sqlCount : Z)
| LStat (scenario txnNo label : string) (count : Z) (total avg max : Duration) (sql : string).

Definition defaultSQLDebugSlowMS : Z := 20.
Definition maxSQLDebugSummaryEntries : Z := 100.
Definition maxSQLDebugTrackedTxns : Z := 10000.

Definition newTxnSQLDebugTracerFromEnv (getenv : string -> string) : option (sampledTxnSQLTracer * list logLine) :=
  if negb (isTruthyEnv (getenv "COIN_SQL_DEBUG_TRACE")) then None else
  let raw := TrimSpace (getenv "COIN_SQL_DEBUG_SLOW_MS") in
  let slowMS :=
    if String.eqb raw "" then defaultSQLDebugSlowMS else
    match ParseInt raw with Some n => if 0 <? n then n else defaultSQLDebugSlowMS | None => defaultSQLDebugSlowMS end in
  Some (mkTracer (wrap64 (slowMS * 1000000)) ∅ ∅ ∅ ∅, [LEnabled slowMS]).

(** ** Sampling *)

Definition captureSampleTargetsLocked (sqlLower : string) (args : list arg) (t : sampledTxnSQLTracer)
    : sampledTxnSQLTracer * list logLine :=
  if negb (Contains sqlLower "insert into txn") then (t, []) else
  let no := uuidFromArgAt args 0 in
  if String.eqb no "" then (t, []) else
  let out := stringFromArgAt args 2 in
  let sc := scenarioFromOutTradeNo out in
  if String.eqb sc "" then (t, []) else
  let origin := uuidFromArgAt args 10 in
  let aliased t := set_txnAlias (fun a => if String.eqb origin "" then <[no := no]> a else <[origin := no]> (<[no := no]> a)) t in
  match txnState t !! no with
  | Some _ => (aliased t, [])
  | None =>
      if maxSQLDebugTrackedTxns <=? Z.of_nat (size (txnState t)) then (t, []) else
      (aliased (set_txnState (<[no := mkSampled sc no out origin false false ∅]>) t), [LSampled sc no origin out])
  end.

Fixpoint matchTxnStateByTxnNosLocked (t : sampledTxnSQLTracer) (nos : list string) : option sampledTxnState :=
  match nos with
  | [] => None
  | no :: nos' =>
      let primary := if String.eqb (aliasOf t no) "" then no else aliasOf t no in
      match txnState t !! primary with
      | Some s => if summarized s then matchTxnStateByTxnNosLocked t nos' else Some s
      | None => matchTxnStateByTxnNosLocked t nos'
      end
  end.

(** The transaction a statement is attributed to: the one its arguments name,
    or the one its connection is in, as long as it is tracked; the end of a
    transaction clears the connection. *)
Definition attribute (conn : nat) (isTxnEnd : bool) (nos : list string) (d : sqlDebugTraceState) (t : sampledTxnSQLTracer)
    : sampledTxnSQLTracer * sqlDebugTraceState :=
  let '(t, d) :=
    match matchTxnStateByTxnNosLocked t nos with
    | Some s => (if inTxn t conn then set_connTxnNo (<[conn := txnNo s]>) t else t, attributed (scenario s) (txnNo s) d)
    | None => (t, d)
    end in
  let d :=
    if String.eqb (d_txnNo d) "" && inTxn t conn then
      match connTxnNo t !! conn with
      | Some no => match txnState t !! no with Some s => attributed (scenario s) no d | None => attributed (d_scenario d) no d end
      | None => d
      end
    else d in
  let '(t, d) :=
    if negb (String.eqb (d_txnNo d) "") then
      match txnState t !! d_txnNo d with
      | Some _ => (t, d)
      | None => (set_connTxnNo (delete conn) t, attributed "" "" d)
      end
    else (t, d) in
  if isTxnEnd && inTxn t conn then
    let d := mkTraceState (d_start d) (d_conn d) (d_scenario d) (d_txnNo d) (d_queryName d) (d_sql d) (d_isOutbox d) true in
    (t, if String.eqb (d_txnNo d) "" then
          match connTxnNo t !! conn with
          | Some no => match txnState t !! no with Some s => attributed (scenario s) no d | None => d end
          | None => d
          end
        else d)
  else (t, d).

(** The state put in the context, if any. *)
Definition TraceQueryStart (now : Time) (conn : nat) (sql : string) (args : list arg) (t : sampledTxnSQLTracer)
    : sampledTxnSQLTracer * option sqlDebugTraceState * list logLine :=
  let compact := compactSQL sql in
  let sqlLower := ToLower compact in
  let d := mkTraceState now conn "" "" (extractSQLCQueryName sql) compact (Contains sqlLower "insert into outbox_event") false in
  let nos := extractUUIDArgs args in
  let t := if sqlIsTxnBegin sqlLower then set_connInTxn (<[conn := true]>) t else t in
  let '(t, lines) := captureSampleTargetsLocked sqlLower args t in
  let '(t, d) := attribute conn (sqlIsTxnEnd sqlLower) nos d t in
  (t, if String.eqb (d_scenario d) "" then None else Some d, lines).

(** ** Timing and summary *)

Definition recordTimingLocked (queryName sql : string) (elapsed : Duration) (s : sampledTxnState) : sampledTxnState :=
  let key := if String.eqb queryName "" then sql else queryName in
  let st := default (mkStat queryName sql 0 0 0) (stats s !! key) in
  let st := mkStat (s_queryName st) (s_sql st) (s_count st + 1) (wrap64 (s_total st + elapsed))
              (if s_max st <? elapsed then elapsed else s_max st) in
  mkSampled (scenario s) (txnNo s) (outTradeNo s) (originTxnNo s) (outboxSeen s) (summarized s) (<[key := st]> (stats s)).

Definition markOutboxSeenLocked (s : sampledTxnState) : sampledTxnState :=
  mkSampled (scenario s) (txnNo s) (outTradeNo s) (originTxnNo s) true (summarized s) (stats s).
Definition markSummarized (s : sampledTxnState) : sampledTxnState :=
  mkSampled (scenario s) (txnNo s) (outTradeNo s) (originTxnNo s) (outboxSeen s) true (stats s).

(** The slowest first; Go leaves the order of equals open. *)
Definition slower (a b : queryTimingStat) : bool :=
  if s_total a =? s_total b then s_max b <=? s_max a else s_total b <? s_total a.

Definition statLine (s : sampledTxnState) (st : queryTimingStat) : logLine :=
  LStat (scenario s) (txnNo s) (queryDisplayName (s_queryName st) (s_sql st)) (s_count st) (s_total st)
    (if 0 <? s_count st then Z.quot (s_total st) (s_count st) else 0) (s_max st) (s_sql st).

Definition buildSummaryIfReadyLocked (s : sampledTxnState) : sampledTxnState * list logLine :=
  if summarized s || negb (outboxSeen s) || String.eqb (txnNo s) "" then (s, []) else
  let top := firstn (Z.to_nat maxSQLDebugSummaryEntries) (sort_by slower (snd <$> map_to_list (stats s))) in
  (markSummarized s,
   LSummary (scenario s) (txnNo s) (originTxnNo s) (outTradeNo s) (Z.of_nat (length top)) :: map (statLine s) top).

Definition clearConnection (conn : nat) (t : sampledTxnSQLTracer) : sampledTxnSQLTracer :=
  set_connInTxn (delete conn) (set_connTxnNo (delete conn) t).

Definition TraceQueryEnd (now : Time) (state : option sqlDebugTraceState) (err : option string) (t : sampledTxnSQLTracer)
    : sampledTxnSQLTracer * list logLine :=
  match state with
  | None => (t, [])
  | Some d =>
      if String.eqb (d_scenario d) "" then (if d_clearConn d then clearConnection (d_conn d) t else t, []) else
      let elapsed := timeSub now (d_start d) in
      let slow := slowThreshold t <=? elapsed in
      let '(t, summary) :=
        match txnState t !! d_txnNo d with
        | Some s =>
            let s := recordTimingLocked (d_queryName d) (d_sql d) elapsed s in
            let s := if d_isOutbox d then markOutboxSeenLocked s else s in
            if d_clearConn d then
              let '(s, lines) := buildSummaryIfReadyLocked s in
              (clearConnection (d_conn d) (set_txnState (<[d_txnNo d := s]>) t), lines)
            else (set_txnState (<[d_txnNo d := s]>) t, [])
        | None => (if d_clearConn d then clearConnection (d_conn d) t else t, [])
        end in
      (t, LQuery (d_scenario d) (d_txnNo d) elapsed slow (queryDisplayName (d_queryName d) (d_sql d)) (d_sql d) err :: summary)
  end.
End Tracer.

(** ** The tracer stays bounded and summarises once

    Any sequence of hooks on any connections: no more transactions are tracked
    than the limit, and each is summarised at most once. *)

Section Events.
Context {GU : GoogleUUID}.

(** ** Hooks *)

(** A hook is called: before a statement, or after it with what its context
    holds, which is a state an earlier hook put there or any other. *)
Inductive hook : Type :=
| HStart (now : Time) (conn : nat) (sql : string) (args : list arg)
| HEnd (now : Time) (state : option sqlDebugTraceState) (err : option string).

Definition fire (h : hook) (t : sampledTxnSQLTracer) : sampledTxnSQLTracer * list logLine :=
  match h with
  | HStart now conn sql args => let '(t, _, lines) := TraceQueryStart now conn sql args t in (t, lines)
  | HEnd now state err => TraceQueryEnd now state err t
  end.

Fixpoint trace (hooks : list hook) (t : sampledTxnSQLTracer) : sampledTxnSQLTracer * list logLine :=
  match hooks with
  | [] => (t, [])
  | h :: hooks' => let (t1, l1) := fire h t in let (t2, l2) := trace hooks' t1 in (t2, l1 ++ l2)%list
  end.

(** ** What is kept *)

(** How many summaries of [k] a log holds. *)
Definition summaryOf (k : string) (l : logLine) : Z :=
  match l with LSummary _ no _ _ _ => if String.eqb no k then 1 else 0 | _ => 0 end.
Definition summaries (k : string) (log : list logLine) : Z := sum_by (summaryOf k) log.

Definition done (k : string) (t : sampledTxnSQLTracer) : Z :=
  match txnState t !! k with Some s => if summarized s then 1 else 0 | None => 0 end.

(** The transactions are stored under their numbers, within the limit. *)
Definition bounded (t : sampledTxnSQLTracer) : Prop :=
  Z.of_nat (size (txnState t)) <= maxSQLDebugTrackedTxns /\ forall k s, txnState t !! k = Some s -> txnNo s = k /\ k <> "" /\ scenario s <> "".

(** From [t] to [t'] with [log]: bounded, and a summary for each transaction
    that became summarised. *)
Definition advances (t t' : sampledTxnSQLTracer) (log : list logLine) : Prop :=
  bounded t' /\ forall k, done k t' = done k t + summaries k log.

Lemma advances_same t t' log :
  bounded t -> txnState t' = txnState t -> (forall k, summaries k log = 0) -> advances t t' log.
Proof. intros Hb E Hl. unfold advances, bounded, done. rewrite E. split; [done|]. intros k. rewrite Hl. lia. Qed.

Lemma advances_trans t1 t2 t3 l1 l2 : advances t1 t2 l1 -> advances t2 t3 l2 -> advances t1 t3 (l1 ++ l2)%list.
Proof. intros [_ H1] [Hb H2]. split; [done|]. intros k. unfold summaries in *. rewrite sum_by_app, H2, H1. lia. Qed.

(** ** The hooks keep it *)

Lemma capture_advances sqlLower args t :
  bounded t -> advances t (captureSampleTargetsLocked sqlLower args t).1 (captureSampleTargetsLocked sqlLower args t).2.
Proof.
  intros Hb. unfold captureSampleTargetsLocked. cbv zeta.
  destruct (negb _); [by apply advances_same|]. destruct (String.eqb_spec (uuidFromArgAt args 0) "") as [|Hno]; [by apply advances_same|].
  destruct (String.eqb_spec (scenarioFromOutTradeNo (stringFromArgAt args 2)) "") as [|Hsc]; [by apply advances_same|].
  set (no := uuidFromArgAt args 0) in *. destruct (txnState t !! no) as [s|] eqn:E; [by apply advances_same|].
  destruct (Z.leb_spec maxSQLDebugTrackedTxns (Z.of_nat (size (txnState t)))); [by apply advances_same|].
  destruct Hb as [Hs Hk]. split; [split|]; cbn [fst snd txnState set_txnAlias set_txnState].
  - rewrite map_size_insert_None by done. lia.
  - intros k s [[<- <-]|[Hn Hl]]%lookup_insert_Some; [done|by apply Hk].
  - intros k. unfold done, summaries. cbn. destruct (decide (no = k)) as [<-|]; [by rewrite lookup_insert_eq, E|].
    rewrite lookup_insert_ne by done. lia.
Qed.

Lemma attribute_keeps conn isEnd nos d t : txnState (attribute conn isEnd nos d t).1 = txnState t.
Proof.
  unfold attribute. destruct (matchTxnStateByTxnNosLocked t nos) as [s|]; [destruct (inTxn t conn) eqn:Ei|];
    cbn [txnState set_connTxnNo]; repeat (case_match; simplify_eq/=; try done).
Qed.

Lemma start_advances now conn sql args t t' d lines :
  bounded t -> TraceQueryStart now conn sql args t = (t', d, lines) -> advances t t' lines.
Proof.
  intros Hb. unfold TraceQueryStart. cbv zeta. set (t0 := if sqlIsTxnBegin _ then _ else t).
  assert (txnState t0 = txnState t) as E0 by (unfold t0; by destruct (sqlIsTxnBegin _)).
  pose proof (capture_advances (ToLower (compactSQL sql)) args t0) as Hc.
  destruct (captureSampleTargetsLocked _ _ t0) as [t1 l1]. cbn [fst snd] in Hc.
  set (d0 := mkTraceState _ _ _ _ _ _ _ _). pose proof (attribute_keeps conn (sqlIsTxnEnd (ToLower (compactSQL sql))) (extractUUIDArgs args) d0 t1) as Ha.
  destruct (attribute _ _ _ _ _) as [t2 d2]. intros [= <- _ <-]. cbn [fst] in Ha.
  destruct Hc as [Hb1 Hd]; [unfold bounded; by rewrite E0|]. unfold advances, bounded, done in *. rewrite Ha.
  split; [done|]. intros k. rewrite Hd. by rewrite E0.
Qed.

(** The summary of one transaction. *)
Lemma summary_lines s k : txnNo s <> "" ->
  txnNo (buildSummaryIfReadyLocked s).1 = txnNo s /\ scenario (buildSummaryIfReadyLocked s).1 = scenario s /\
  (if summarized (buildSummaryIfReadyLocked s).1 then 1 else 0) = (if summarized s then 1 else 0) + summaries (txnNo s) (buildSummaryIfReadyLocked s).2 /\
  (k <> txnNo s -> summaries k (buildSummaryIfReadyLocked s).2 = 0).
Proof.
  intros Hne. unfold buildSummaryIfReadyLocked. destruct (summarized s) eqn:Es; [cbn; by rewrite Es|]. cbn [orb].
  destruct (outboxSeen s); [|cbn; by rewrite Es]. cbn [negb orb]. rewrite (proj2 (String.eqb_neq (txnNo s) "")) by done.
  assert (forall k l, summaries k (map (statLine s) l) = 0) as H0 by (intros j l; unfold summaries; by rewrite sum_by_map, sum_by_zero).
  cbn [fst snd txnNo markSummarized summarized]. unfold summaries in *. cbn [sum_by summaryOf]. rewrite !H0, String.eqb_refl.
  split; [done|]. split; [done|]. split; [done|]. intros Hk. by rewrite (proj2 (String.eqb_neq (txnNo s) k)) by done.
Qed.

Lemma update_advances t k s s' lines :
  bounded t -> txnState t !! k = Some s -> txnNo s' = k -> scenario s' = scenario s ->
  (if summarized s' then 1 else 0) = (if summarized s then 1 else 0) + summaries k lines ->
  (forall j, j <> k -> summaries j lines = 0) -> advances t (set_txnState (<[k := s']>) t) lines.
Proof.
  intros [Hs Hk] E Hno Hsc Hsum Hother. split; [split|]; cbn [txnState set_txnState].
  - rewrite map_size_insert_Some; [done|by exists s].
  - intros j x [[<- <-]|[Hn Hl]]%lookup_insert_Some; [split; [done|]; rewrite Hsc; exact (proj2 (Hk _ _ E))|by apply Hk].
  - intros j. unfold done. cbn [txnState set_txnState]. destruct (decide (k = j)) as [<-|].
    + by rewrite lookup_insert_eq, E.
    + rewrite lookup_insert_ne, Hother by done. lia.
Qed.

Lemma end_advances now state err t :
  bounded t -> advances t (TraceQueryEnd now state err t).1 (TraceQueryEnd now state err t).2.
Proof.
  intros Hb. unfold TraceQueryEnd. destruct state as [d|]; [|by apply advances_same].
  destruct (String.eqb (d_scenario d) ""); [destruct (d_clearConn d); by apply advances_same|]. cbv zeta.
  destruct (txnState t !! d_txnNo d) as [s|] eqn:E.
  2:{ destruct (d_clearConn d); apply advances_same; done. }
  set (s1 := if d_isOutbox d then _ else _).
  assert (txnNo s1 = d_txnNo d /\ summarized s1 = summarized s /\ scenario s1 = scenario s) as (H1 & H2 & H3).
  { rewrite <- (proj1 (proj2 Hb _ _ E)). unfold s1. by destruct (d_isOutbox d). }
  destruct (d_clearConn d).
  - assert (txnNo s1 <> "") as Hne1 by (rewrite H1; exact (proj1 (proj2 (proj2 Hb _ _ E)))).
    destruct (buildSummaryIfReadyLocked s1) as [s2 lines] eqn:Eb.
    assert (forall k, _) as Hsl by (intros k; exact (summary_lines s1 k Hne1)). rewrite Eb in Hsl. cbn [fst snd] in Hsl.
    destruct (Hsl "") as (Hn & Hsc & Hd & _). rewrite H3 in Hsc. rewrite H1 in Hn, Hd. rewrite H2 in Hd.
    destruct (update_advances t (d_txnNo d) s s2 lines Hb E Hn Hsc Hd) as [Hb' Hk'].
    { intros j Hj. apply (proj2 (proj2 (proj2 (Hsl j)))). by rewrite H1. }
    split; [exact Hb'|]. intros k. exact (Hk' k).
  - destruct (update_advances t (d_txnNo d) s s1 [] Hb E H1 H3) as [Hb' Hk']; [rewrite H2; by destruct (summarized s)|done|].
    split; [exact Hb'|]. intros k. exact (Hk' k).
Qed.

Lemma fire_advances h t : bounded t -> advances t (fire h t).1 (fire h t).2.
Proof.
  intros Hb. destruct h as [now conn sql args|now state err]; simpl; [|by apply end_advances].
  destruct (TraceQueryStart now conn sql args t) as [[t' d] lines] eqn:E. by eapply start_advances.
Qed.

Lemma trace_advances hooks t : bounded t -> advances t (trace hooks t).1 (trace hooks t).2.
Proof.
  revert t. induction hooks as [|h hooks IH]; intros t Hb; simpl; [by apply advances_same|].
  pose proof (fire_advances h t Hb) as H1. destruct (fire h t) as [t1 l1]. specialize (IH t1 (proj1 H1)).
  destruct (trace hooks t1) as [t2 l2]. by eapply advances_trans.
Qed.

Lemma new_bounded getenv t lines : newTxnSQLDebugTracerFromEnv getenv = Some (t, lines) -> bounded t.
Proof. unfold newTxnSQLDebugTracerFromEnv. destruct (negb _); [done|]. by intros [= <- _]. Qed.

(** The tracer stays bounded and summarises once.  Whatever statements run
    on whatever connections, in any order, at most 10000 transactions are
    tracked, each under its number, and the log holds at most one summary of a
    transaction: one if the tracer has marked it as summarised, none otherwise. *)
Lemma summarised_once getenv t0 lines0 hooks :
  newTxnSQLDebugTracerFromEnv getenv = Some (t0, lines0) ->
  Z.of_nat (size (txnState (trace hooks t0).1)) <= 10000 /\
  (forall k, summaries k (trace hooks t0).2 =
     match txnState (trace hooks t0).1 !! k with Some s => if summarized s then 1 else 0 | None => 0 end).
Proof.
  intros Hn. destruct (trace_advances hooks t0 (new_bounded _ _ _ Hn)) as [Hb Hd].
  split; [exact (proj1 Hb)|]. intros k. specialize (Hd k). unfold done at 1 in Hd.
  rewrite Hd. unfold newTxnSQLDebugTracerFromEnv in Hn. destruct (negb _); [done|]. by injection Hn as <- _.
Qed.

(** ** Transactions without a sample *)

(** A statement that names no tracked transaction, on a connection that is
    outside of transactions or bound to none. *)
Lemma attribute_nobody conn isEnd nos d t :
  matchTxnStateByTxnNosLocked t nos = None -> d_scenario d = "" -> d_txnNo d = "" ->
  inTxn t conn = false \/ connTxnNo t !! conn = None ->
  (attribute conn isEnd nos d t).1 = t /\ d_scenario (attribute conn isEnd nos d t).2 = "".
Proof.
  intros Hm Hs Ht Hc. unfold attribute. rewrite Hm, Ht. cbn [String.eqb andb].
  destruct (inTxn t conn) eqn:Hi; [destruct Hc as [|Hc]; [done|]; rewrite Hc|]; rewrite Ht; cbn [String.eqb negb].
  - rewrite Hi. destruct isEnd; [|done]. cbn [andb]. split; [done|]. cbn [d_txnNo d_scenario]. rewrite Ht, Hc. exact Hs.
  - rewrite Hi, andb_false_r. done.
Qed.

(** One on a connection bound to a tracked transaction. *)
Lemma attribute_bound conn isEnd nos d t no s :
  matchTxnStateByTxnNosLocked t nos = None -> d_txnNo d = "" -> inTxn t conn = true ->
  connTxnNo t !! conn = Some no -> txnState t !! no = Some s -> no <> "" ->
  (attribute conn isEnd nos d t).1 = t /\ d_scenario (attribute conn isEnd nos d t).2 = scenario s /\
  d_txnNo (attribute conn isEnd nos d t).2 = no.
Proof.
  intros Hm Hd Hi Hc Hs Hne. unfold attribute. rewrite Hm, Hd, Hi, Hc, Hs. cbn [String.eqb andb d_txnNo attributed].
  rewrite (proj2 (String.eqb_neq no "")) by done. cbn [negb]. rewrite Hs, Hi. destruct isEnd; cbn [andb d_txnNo attributed]; [|done].
  by rewrite (proj2 (String.eqb_neq no "")) by done.
Qed.

(** One that names a tracked transaction binds a connection in a transaction. *)
Lemma attribute_named conn nos d t s :
  bounded t -> inTxn t conn = true -> matchTxnStateByTxnNosLocked t nos = Some s -> txnState t !! txnNo s = Some s ->
  attribute conn false nos d t = (set_connTxnNo (<[conn := txnNo s]>) t, attributed (scenario s) (txnNo s) d).
Proof.
  intros [_ Hk] Hi Hm Hs. destruct (Hk _ _ Hs) as (_ & Hne & _). unfold attribute. rewrite Hm, Hi.
  cbn [d_txnNo attributed]. rewrite (proj2 (String.eqb_neq (txnNo s) "")) by done. cbn [andb negb txnState set_connTxnNo].
  cbn [d_txnNo attributed]. rewrite (proj2 (String.eqb_neq (txnNo s) "")) by done. cbn [negb]. by rewrite Hs.
Qed.

Lemma match_tracked t nos s : bounded t -> matchTxnStateByTxnNosLocked t nos = Some s -> txnState t !! txnNo s = Some s.
Proof.
  intros [_ Hk]. induction nos as [|no nos IH]; [done|]. simpl. set (key := if String.eqb (aliasOf t no) "" then _ else _).
  destruct (txnState t !! key) as [s'|] eqn:E; [|exact IH]. destruct (summarized s'); [exact IH|]. intros [= <-].
  destruct (Hk _ _ E) as [Hno _]. rewrite Hno. exact E.
Qed.

(** The attribution keeps the text of the statement. *)
Lemma attribute_sql conn isEnd nos d t : d_sql (attribute conn isEnd nos d t).2 = d_sql d.
Proof. unfold attribute. repeat first [progress simplify_eq/=|case_match]; reflexivity. Qed.

(** What the statement before the attribution leaves alone. *)
Definition marked (sqlLower : string) (conn : nat) (t : sampledTxnSQLTracer) : sampledTxnSQLTracer :=
  if sqlIsTxnBegin sqlLower then set_connInTxn (<[conn := true]>) t else t.

Lemma marked_same sqlLower conn t :
  txnState (marked sqlLower conn t) = txnState t /\ txnAlias (marked sqlLower conn t) = txnAlias t /\
  connTxnNo (marked sqlLower conn t) = connTxnNo t /\
  (inTxn t conn = true -> inTxn (marked sqlLower conn t) conn = true).
Proof.
  unfold marked. destruct (sqlIsTxnBegin _); [|done]. do 3 (split; [done|]). intros _. unfold inTxn. cbn.
  by rewrite lookup_insert_eq.
Qed.
Lemma match_same t t' nos : txnState t' = txnState t -> txnAlias t' = txnAlias t ->
  matchTxnStateByTxnNosLocked t' nos = matchTxnStateByTxnNosLocked t nos.
Proof. intros E1 E2. induction nos as [|no nos IH]; [done|]. simpl. unfold aliasOf. by rewrite E1, E2, IH. Qed.

Definition lower (sql : string) : string := ToLower (compactSQL sql).

(** A statement that samples nothing, up to its attribution. *)
Lemma start_unsampling now conn sql args t :
  Contains (lower sql) "insert into txn" = false \/ args = [] ->
  TraceQueryStart now conn sql args t =
  (let d := mkTraceState now conn "" "" (extractSQLCQueryName sql) (compactSQL sql) (Contains (lower sql) "insert into outbox_event") false in
   let '(t', d') := attribute conn (sqlIsTxnEnd (lower sql)) (extractUUIDArgs args) d (marked (lower sql) conn t) in
   (t', if String.eqb (d_scenario d') "" then None else Some d', [])).
Proof.
  intros Hc. unfold TraceQueryStart. cbv zeta. fold (lower sql) (marked (lower sql) conn t).
  assert (captureSampleTargetsLocked (lower sql) args (marked (lower sql) conn t) = (marked (lower sql) conn t, [])) as ->; [|done].
  unfold captureSampleTargetsLocked. destruct Hc as [->| ->]; [done|]. by destruct (negb _).
Qed.

(** The statement after the end keeps its transaction tracked. *)
Lemma end_keeps_tracked now d err t s :
  txnState t !! d_txnNo d = Some s -> d_scenario d <> "" -> d_clearConn d = false ->
  exists s', txnState (TraceQueryEnd now (Some d) err t).1 !! d_txnNo d = Some s' /\ scenario s' = scenario s /\
    connTxnNo (TraceQueryEnd now (Some d) err t).1 = connTxnNo t /\ connInTxn (TraceQueryEnd now (Some d) err t).1 = connInTxn t /\
    txnAlias (TraceQueryEnd now (Some d) err t).1 = txnAlias t /\
    exists slow, LQuery (d_scenario d) (d_txnNo d) (timeSub now (d_start d)) slow (queryDisplayName (d_queryName d) (d_sql d)) (d_sql d) err
      ∈ (TraceQueryEnd now (Some d) err t).2.
Proof.
  intros Hs Hsc Hc. unfold TraceQueryEnd. rewrite (proj2 (String.eqb_neq _ _) Hsc), Hs, Hc. cbv zeta. cbn [fst snd txnState set_txnState].
  rewrite lookup_insert_eq. eexists. split; [done|]. split; [by destruct (d_isOutbox d)|]. do 3 (split; [done|]).
  eexists. by left.
Qed.

End Events.

(** ** A trace *)

(** UUIDs as their text. *)
#[local] Instance textUUID : GoogleUUID := {
  uuidParse s := if String.eqb s "" then None else ParseInt s; uuidString := FormatInt
}.
Definition tracerEnv (k : string) : string := if String.eqb k "COIN_SQL_DEBUG_TRACE" then "on" else "".
Definition newTracer : sampledTxnSQLTracer := mkTracer 20000000 ∅ ∅ ∅ ∅.
(** Transaction 7 is sampled on connection 1, its event written, and committed. *)
Definition insertArgs : list arg := [ArgUUID true 7; ArgString "m"; ArgText true "ord_perf_transfer_1"].
Definition sampledRun : list hook :=
  [HStart 0 1 "begin" []; HStart 1 1 "-- name: CreateTransferTxn :exec
INSERT INTO txn (txn_no) VALUES ($1)" insertArgs;
   HEnd 2 (Some (mkTraceState 1 1 "transfer" "7" "CreateTransferTxn" "insert" false false)) None;
   HEnd 4 (Some (mkTraceState 3 1 "transfer" "7" "InsertOutbox" "insert" true false)) None;
   HEnd 6 (Some (mkTraceState 5 1 "transfer" "7" "" "commit" false true)) None;
   HEnd 8 (Some (mkTraceState 7 1 "transfer" "7" "" "commit" false true)) None].

Lemma summarised_once_witness :
  summaries "7" (trace sampledRun newTracer).2 = 1 /\ size (txnState (trace sampledRun newTracer).1) = 1%nat.
Proof.
  destruct (summarised_once tracerEnv newTracer [LEnabled 20] sampledRun) as [_ Hs]; [reflexivity|].
  split; [rewrite Hs; vm_compute; reflexivity|vm_compute; reflexivity].
Defined.

(** Transaction 7 is tracked; connection 2 has begun a transaction of its own. *)
Definition beforeEnd : list hook := (firstn 2 sampledRun ++ [HStart 3 2 "begin" []])%list.
Abbreviation tracked := (trace beforeEnd newTracer).1.
Abbreviation afterEnd := (TraceQueryStart 4 2 "commit" [] tracked).1.1.
Abbreviation named := (TraceQueryStart 5 2 "select * from txn where txn_no = $1" [ArgUUID true 7] afterEnd).
Abbreviation later := (TraceQueryStart 7 2 "select 1" [] (TraceQueryEnd 6 named.1.2 None named.1.1).1).

