(* ===== verification/Migrate.v ===== *)
(** * Migrations and connections ([internal/db/migrate.go], [postgres.go], [redis.go])

    [AutoMigrate] runs the migration files that are not recorded, in the order
    of their names, and records each.  What the SQL of a file does is a function
    of the schema; every statement may fail. *)

From S2P Require Import Prelude GoBase Domain Codes Encoding Store Tracer.
From stdpp Require Import base gmap list strings sorting.
From Stdlib Require Import ZArith Lia.

Local Open Scope string_scope.
Local Open Scope Z_scope.

(** ** Migrations *)

(** Running the text of a migration, in one implicit transaction. *)
Class MigrationSQL (S : Type) : Type := { runSQL : string -> S -> Result error S }.

Section Migrate.
Context {S : Type} {MS : MigrationSQL S}.

(** The schema, the table [_migrations] if it is there, and the outcomes of the
    round trips to come. *)
Record MigrationDB : Type := mkMigrationDB {
  md_schema : S; md_recorded : option (gset string); md_faults : list Fault
}.

Definition G (A : Type) : Type := MigrationDB -> MigrationDB * Result error A.
Definition retG {A} (a : A) : G A := fun d => (d, Ok a).
Definition bindG {A B} (m : G A) (f : A -> G B) : G B := fun d =>
  match m d with (d1, Ok a) => f a d1 | (d1, Err e) => (d1, Err e) end.
Notation "'let%' x := m 'in' f" := (bindG m (fun x => f)) (at level 10, x binder, m at level 100, f at level 200).

(** A statement on the pool; [context] is the prefix of the error. *)
Definition execG {A} (context : string) (stmt : MigrationDB -> Result error (MigrationDB * A)) : G A := fun d =>
  let d1 := mkMigrationDB (md_schema d) (md_recorded d) (tl (md_faults d)) in
  match hd NoFault (md_faults d), stmt d1 with
  | FailBefore, _ => (d1, Err (ErrWrap context ErrConn))
  | NoFault, Ok (d2, a) => (d2, Ok a)
  | FailAfter, Ok (d2, _) => (d2, Err (ErrWrap context ErrConn))
  | NoFault, Err e => (d1, Err (ErrWrap context e))
  | FailAfter, Err _ => (d1, Err (ErrWrap context ErrConn))
  end.

Definition noTable : error := ErrText "relation _migrations does not exist".

Definition createTable : G unit := execG "create _migrations table" (fun d =>
  Ok (mkMigrationDB (md_schema d) (Some (default ∅ (md_recorded d))) (md_faults d), tt)).
Definition isRecorded (name : string) : G bool := execG ("check migration " ++ name) (fun d =>
  match md_recorded d with Some r => Ok (d, bool_decide (name ∈ r)) | None => Err noTable end).
Definition applyFile (name sql : string) : G unit := execG ("exec " ++ name) (fun d =>
  match runSQL sql (md_schema d) with
  | Ok s => Ok (mkMigrationDB s (md_recorded d) (md_faults d), tt)
  | Err e => Err e
  end).
(** The name is the primary key. *)
Definition record (name : string) : G unit := execG ("record migration " ++ name) (fun d =>
  match md_recorded d with
  | Some r => if bool_decide (name ∈ r) then Err (ErrText "duplicate key")
              else Ok (mkMigrationDB (md_schema d) (Some ({[name]} ∪ r)) (md_faults d), tt)
  | None => Err noTable
  end).

(** The embedded files: name and content. *)
Definition Files : Type := list (string * string).
(** [fs.Glob(migrations, "*.up.sql")] on a flat directory. *)
Definition upSuffix (name : string) : bool := HasPrefix (srev name) (srev ".up.sql").
Definition Glob (files : Files) : list string := List.filter upSuffix (map fst files).
Definition ReadFile (files : Files) (name : string) : Result error string :=
  match find (fun f => String.eqb f.1 name) files with Some f => Ok f.2 | None => Err (ErrText "file does not exist") end.

(** The loop over the names; the number applied. *)
Fixpoint migrateLoop (files : Files) (names : list string) (applied : Z) : G Z :=
  match names with
  | [] => retG applied
  | name :: names' =>
      let% exists_ := isRecorded name in
      if (exists_ : bool) then migrateLoop files names' applied else
      match ReadFile files name with
      | Err e => fun d => (d, Err (ErrWrap ("read " ++ name) e))
      | Ok sql =>
          let% _ := applyFile name sql in
          let% _ := record name in
          migrateLoop files names' (applied + 1)
      end
  end.

Definition AutoMigrate (files : Files) : G Z :=
  let% _ := createTable in
  migrateLoop files (sort_by String.leb (Glob files)) 0.

(** ** What a run leaves *)

(** Everything recorded before stays recorded. *)
Definition recorded (d : MigrationDB) : gset string := default ∅ (md_recorded d).

Lemma execG_ok {A} ctx (stmt : MigrationDB -> Result error (MigrationDB * A)) d d' a :
  execG ctx stmt d = (d', Ok a) ->
  hd NoFault (md_faults d) = NoFault /\ stmt (mkMigrationDB (md_schema d) (md_recorded d) (tl (md_faults d))) = Ok (d', a).
Proof. unfold execG. destruct (hd NoFault (md_faults d)), (stmt _) as [e|[d2 a2]]; try done. by intros [= <- <-]. Qed.

Lemma bindG_ok {A B} (m : G A) (f : A -> G B) d d' b :
  bindG m f d = (d', Ok b) -> exists d1 a, m d = (d1, Ok a) /\ f a d1 = (d', Ok b).
Proof. unfold bindG. destruct (m d) as [d1 [e|a]]; [done|]. eauto. Qed.

(** The files a schema goes through. *)
Fixpoint runAll (files : Files) (names : list string) (s : S) : Result error S :=
  match names with
  | [] => Ok s
  | name :: names' =>
      match ReadFile files name with
      | Ok sql => match runSQL sql s with Ok s' => runAll files names' s' | Err e => Err e end
      | Err e => Err e
      end
  end.

(** The names of [names] not in [r], each once. *)
Fixpoint pending (r : gset string) (names : list string) : list string :=
  match names with
  | [] => []
  | name :: names' => if bool_decide (name ∈ r) then pending r names' else name :: pending ({[name]} ∪ r) names'
  end.

Lemma loop_ok files names k d d' n :
  migrateLoop files names k d = (d', Ok n) -> is_Some (md_recorded d) ->
  runAll files (pending (recorded d) names) (md_schema d) = Ok (md_schema d') /\
  n = k + Z.of_nat (length (pending (recorded d) names)) /\
  md_recorded d' = Some (list_to_set names ∪ recorded d).
Proof.
  revert k d. induction names as [|name names IH]; intros k d Hm [r Hr]; cbn [migrateLoop] in Hm.
  - injection Hm as <- <-. cbn. split; [done|]. split; [lia|]. rewrite Hr. unfold recorded. rewrite Hr. f_equal. cbn. by rewrite union_empty_l_L.
  - apply bindG_ok in Hm as (d1 & b & H1 & Hm). apply execG_ok in H1 as [_ H1]. cbn in H1. rewrite Hr in H1. injection H1 as <- <-.
    unfold recorded in *. rewrite Hr. cbn [default from_option pending] in *. unfold id in *.
    destruct (bool_decide (name ∈ r)) eqn:Eb.
    + destruct (IH _ _ Hm ltac:(by eexists)) as (H2 & H3 & H4). cbn in *. split; [done|]. split; [done|].
      rewrite H4. apply bool_decide_eq_true in Eb. f_equal. clear -Eb. set_solver.
    + destruct (ReadFile files name) as [e|sql] eqn:Ef; [done|].
      apply bindG_ok in Hm as (d2 & [] & H2 & Hm). apply execG_ok in H2 as [_ H2]. cbn in H2.
      destruct (runSQL sql (md_schema d)) as [e|s] eqn:Es; [done|]. injection H2 as <-.
      apply bindG_ok in Hm as (d3 & [] & H3 & Hm). apply execG_ok in H3 as [_ H3]. cbn in H3. rewrite Eb in H3. injection H3 as <-.
      destruct (IH _ _ Hm ltac:(by eexists)) as (H4 & H5 & H6). cbn in *. rewrite Ef, Es. split; [done|]. split; [lia|].
      rewrite H6. f_equal. clear. set_solver.
Qed.

Lemma pending_none r names : list_to_set names ⊆ r -> pending r names = [].
Proof.
  induction names as [|name names IH]; simpl; intros Hs; [done|]. rewrite bool_decide_eq_true_2 by set_solver. apply IH. set_solver.
Qed.
(** Once all names are recorded a run changes nothing, whatever its statements
    meet, and on a working connection it succeeds. *)
Lemma loop_recorded files names k (d : MigrationDB) r :
  md_recorded d = Some r -> list_to_set names ⊆ r ->
  md_schema (migrateLoop files names k d).1 = md_schema d /\ md_recorded (migrateLoop files names k d).1 = md_recorded d /\
  (Forall (fun f => f = NoFault) (md_faults d) -> (migrateLoop files names k d).2 = Ok k).
Proof.
  revert d. induction names as [|name names IH]; intros d Hr Hsub; [done|].
  set (d' := mkMigrationDB (md_schema d) (Some r) (tl (md_faults d))).
  assert (migrateLoop files (name :: names) k d = match hd NoFault (md_faults d) with
    | NoFault => migrateLoop files names k d'
    | _ => (d', Err (ErrWrap ("check migration " ++ name) ErrConn))
    end) as ->.
  { cbn [migrateLoop]. unfold bindG at 1, isRecorded, execG. cbn [md_recorded]. rewrite Hr. fold d'.
    rewrite bool_decide_eq_true_2 by set_solver. by destruct (hd _ _). }
  destruct (IH d' eq_refl ltac:(set_solver)) as (H1 & H2 & H3).
  destruct (md_faults d) as [|f l] eqn:Ef; cbn [hd]; [split; [exact H1|]; split; [by rewrite H2|exact H3]|].
  destruct f; cbn [fst snd]; (split; [done|]); (split; [by rewrite ?H2|]); intros [Hf Hl]%Forall_cons; [by apply H3|done..].
Qed.

(** On a working connection a run whose files can be run succeeds. *)
Lemma loop_runs files names k (d : MigrationDB) r s :
  md_recorded d = Some r -> md_faults d = [] -> runAll files (pending r names) (md_schema d) = Ok s ->
  exists d' n, migrateLoop files names k d = (d', Ok n).
Proof.
  revert k d r. induction names as [|name names IH]; intros k d r Hr Hf Hs; [by do 2 eexists|].
  cbn [migrateLoop pending] in *. unfold bindG at 1, isRecorded, execG at 1. cbn [md_recorded]. rewrite Hf, Hr. cbn [hd tl].
  destruct (bool_decide (name ∈ r)) eqn:Eb; [by eapply IH|]. cbn [runAll] in Hs.
  destruct (ReadFile files name) as [e|sql]; [done|]. destruct (runSQL sql (md_schema d)) as [e|s1] eqn:Es; [done|].
  unfold bindG, applyFile, record, execG. cbn [md_schema md_faults md_recorded hd tl]. rewrite Es. cbn [hd tl md_schema md_faults md_recorded].
  rewrite Eb. by eapply IH.
Qed.
End Migrate.

(** ** Connections *)

Definition defaultPostgresMaxConns : Z := 10.

(** [pgxpool]: parsing a DSN, opening a pool with its limit and tracer, pinging
    it with a timeout and closing it, over what is outside. *)
Class PoolLib (E Cfg Pool : Type) : Type := {
  ParseConfig : string -> Result error Cfg;
  NewWithConfig : Cfg -> Z -> option sampledTxnSQLTracer -> E -> E * Result error Pool;
  PoolPing : Pool -> Duration -> E -> E * option error;
  PoolClose : Pool -> E -> E
}.

(** [goredis]: a client is made without an error. *)
Class RedisLib (E Client : Type) : Type := {
  NewRedis : string -> string -> Z -> E -> E * Client;
  RedisPing : Client -> Duration -> E -> E * option error;
  RedisClose : Client -> E -> E
}.

Section Connections.
Context {E Cfg Pool Redis : Type} {PL : PoolLib E Cfg Pool} {RL : RedisLib E Redis} (getenv : string -> string).

Definition NewPoolWithMaxConns (dsn : string) (maxConns : Z) (e : E) : E * Result error Pool :=
  match ParseConfig dsn with
  | Err err => (e, Err err)
  | Ok cfg =>
      let tracer := option_map fst (newTxnSQLDebugTracerFromEnv getenv) in
      let maxConns := if maxConns <=? 0 then defaultPostgresMaxConns else maxConns in
      match NewWithConfig cfg (wrap32 maxConns) tracer e with
      | (e1, Err err) => (e1, Err err)
      | (e1, Ok pool) =>
          match PoolPing pool 2000000000 e1 with
          | (e2, Some err) => (PoolClose pool e2, Err err)
          | (e2, None) => (e2, Ok pool)
          end
      end
  end.
Definition NewPool (dsn : string) : E -> E * Result error Pool := NewPoolWithMaxConns dsn defaultPostgresMaxConns.

Definition NewClient (addr password : string) (db : Z) (e : E) : E * Result error Redis :=
  let (e1, client) := NewRedis addr password db e in
  match RedisPing client 2000000000 e1 with
  | (e2, Some err) => (RedisClose client e2, Err err)
  | (e2, None) => (e2, Ok client)
  end.
End Connections.

(** ** The theorem *)

(** [C40] Migrating is idempotent.  A run on a working connection succeeds if
    the files that are not recorded can be run in the order of their names; a
    run that succeeds has taken the schema through exactly those, each once, and
    has recorded them all.  After it any further run succeeds on a working
    connection, having applied nothing, and whatever its statements meet it
    changes neither the schema nor what is recorded. *)
Theorem migrations_idempotent {S} {MS : MigrationSQL S} files (d : @MigrationDB S) :
  let names := pending (recorded d) (sort_by String.leb (Glob files)) in
  (forall s, md_faults d = [] -> runAll files names (md_schema d) = Ok s -> exists d1 n, AutoMigrate files d = (d1, Ok n)) /\
  forall d1 n, AutoMigrate files d = (d1, Ok n) ->
    runAll files names (md_schema d) = Ok (md_schema d1) /\ n = Z.of_nat (length names) /\
    recorded d1 = list_to_set (Glob files) ∪ recorded d /\
    forall faults, let again := AutoMigrate files (mkMigrationDB (md_schema d1) (md_recorded d1) faults) in
      md_schema again.1 = md_schema d1 /\ md_recorded again.1 = md_recorded d1 /\
      (Forall (fun f => f = NoFault) faults -> again.2 = Ok 0).
Proof.
  intros names. split.
  { intros s Hf Hs. unfold AutoMigrate, bindG at 1, createTable, execG at 1. rewrite Hf. cbn [hd tl md_schema md_recorded md_faults].
    by eapply loop_runs. }
  intros d1 n H1. unfold AutoMigrate in H1. apply bindG_ok in H1 as (c1 & [] & Hc & H1). apply execG_ok in Hc as [_ Hc]. injection Hc as <-.
  destruct (loop_ok _ _ _ _ _ _ H1 ltac:(by eexists)) as (A1 & A2 & A3).
  assert ((list_to_set (sort_by String.leb (Glob files)) : gset string) = list_to_set (Glob files)) as Hset.
  { apply set_eq. intros x. by rewrite !elem_of_list_to_set, elem_of_sort_by. }
  change (recorded (mkMigrationDB _ (Some (default ∅ (md_recorded ?x))) _)) with (recorded x) in A1, A2, A3.
  cbn [md_schema] in *. split; [exact A1|]. split; [by rewrite Z.add_0_l in A2|].
  split; [unfold recorded at 1; rewrite A3, <- Hset; done|]. intros faults. set (again := AutoMigrate files _).
  assert (forall fs, md_schema (migrateLoop files (sort_by String.leb (Glob files)) 0 (mkMigrationDB (md_schema d1) (md_recorded d1) fs)).1 = md_schema d1 /\
    md_recorded (migrateLoop files (sort_by String.leb (Glob files)) 0 (mkMigrationDB (md_schema d1) (md_recorded d1) fs)).1 = md_recorded d1 /\
    (Forall (fun f => f = NoFault) fs -> (migrateLoop files (sort_by String.leb (Glob files)) 0 (mkMigrationDB (md_schema d1) (md_recorded d1) fs)).2 = Ok 0)) as Hloop.
  { intros fs. rewrite A3. eapply (loop_recorded files _ 0 (mkMigrationDB (md_schema d1) (Some _) fs)); [done|]. clear. set_solver. }
  destruct (Hloop (tl faults)) as (L1 & L2 & L3).
  assert (again = match hd NoFault faults with
    | NoFault => migrateLoop files (sort_by String.leb (Glob files)) 0 (mkMigrationDB (md_schema d1) (md_recorded d1) (tl faults))
    | _ => (mkMigrationDB (md_schema d1) (md_recorded d1) (tl faults), Err (ErrWrap "create _migrations table" ErrConn))
    end) as ->.
  { unfold again, AutoMigrate, bindG at 1, createTable, execG. cbn [md_schema md_recorded md_faults]. rewrite A3. by destruct (hd _ _). }
  destruct faults as [|f l]; cbn [hd]; [done|].
  destruct f; cbn [fst snd md_schema md_recorded tl] in *; (split; [done|]); (split; [done|]); intros [Hf Hl]%Forall_cons; [by apply L3|done..].
Qed.

(** ** Two runs *)

(** A schema that lists the files applied to it. *)
#[local] Instance loggedSQL : MigrationSQL (list string) := { runSQL sql s := Ok (s ++ [sql])%list }.
Definition twoFiles : Files := [("000002_b.up.sql", "b"); ("000001_a.up.sql", "a"); ("000001_a.down.sql", "drop")].

Lemma migrations_idempotent_witness :
  let first := AutoMigrate twoFiles (mkMigrationDB [] None []) in
  first.2 = Ok 2 /\ md_schema first.1 = ["a"; "b"] /\
  (AutoMigrate twoFiles (mkMigrationDB (md_schema first.1) (md_recorded first.1) [NoFault])).2 = Ok 0.
Proof.
  cbv zeta. set (first := AutoMigrate twoFiles (mkMigrationDB [] None [])).
  assert (first = (first.1, Ok 2)) as E by (vm_compute; reflexivity).
  destruct (proj2 (migrations_idempotent twoFiles (mkMigrationDB [] None [])) first.1 2 E) as (_ & _ & _ & Hagain).
  split; [rewrite E; reflexivity|]. split; [vm_compute; reflexivity|].
  apply (proj2 (proj2 (Hagain [NoFault]))). by repeat constructor.
Defined.
