(* ===== verification/Perf.v ===== *)
(** * The load generator: figures, configuration, webhook sink ([cmd/perf-core-txn/main.go])

    The parts of the load generator that need no server: what it counts and
    measures of the requests it fired, its configuration, and the sink its
    webhook endpoint signals.  Rates per second are floating point and left
    out, as are the progress bars and the report. *)

From S2P Require Import Prelude GoBase Config Codes Encoding Calendar Store Webhook Processor.
From stdpp Require Import base gmap list strings relations sorting.
From Stdlib Require Import ZArith Lia.

Local Open Scope string_scope.
Local Open Scope Z_scope.

Definition max (a b : Z) : Z := if b <? a then a else b.

(** ** Latencies *)

Record latencyStats : Type := mkLatencyStats {
  ls_Count : Z; ls_Min : Duration; ls_P50 : Duration; ls_P95 : Duration; ls_P99 : Duration; ls_Max : Duration; ls_Avg : Duration
}.
Definition noLatency : latencyStats := mkLatencyStats 0 0 0 0 0 0 0.

(** [vals[i]], which is in range wherever it is read. *)
Definition nthD (vals : list Duration) (i : Z) : Duration := nth (Z.to_nat i) vals 0.
Definition lenZ {A} (l : list A) : Z := Z.of_nat (length l).

Definition percentile (vals : list Duration) (p : Z) : Duration :=
  if lenZ vals =? 0 then 0
  else if p <=? 0 then nthD vals 0
  else if 100 <=? p then nthD vals (lenZ vals - 1)
  else nthD vals (Z.quot (wrap64 ((lenZ vals - 1) * p)) 100).

(** The [int64] sum. *)
Definition sumDurations (vals : list Duration) : Duration := fold_left (fun sum v => wrap64 (sum + v)) vals 0.

Definition calcLatency (vals : list Duration) : latencyStats :=
  if lenZ vals =? 0 then noLatency else
  let vals := sort_by Z.leb vals in
  mkLatencyStats (lenZ vals) (nthD vals 0) (percentile vals 50) (percentile vals 95) (percentile vals 99)
    (nthD vals (lenZ vals - 1)) (Z.quot (sumDurations vals) (lenZ vals)).

Definition submitProgressPercent : Z := 5.
Definition webhookProgressPercent : Z := 1.
Definition progressUpdateStep (total percent : Z) : Z :=
  if total <=? 0 then 1 else
  let percent := if percent <=? 0 then submitProgressPercent else percent in
  let percent := if 100 <? percent then 100 else percent in
  let step := Z.quot (wrap64 (total * percent)) 100 in
  if step <=? 0 then 1 else step.

(** ** Results *)

(** The channels of the sink are numbered; [CancelWebhookWait] withdraws the
    wait for an order number. *)
Record resultRow : Type := mkResultRow {
  StatusCode : Z; Code : string; rr_TxnNo : string; SubmitLatency : Duration; E2ELatency : Duration;
  SubmitStartedAt : Time; E2ECompletedAt : Time; WebhookDone : option nat; CancelWebhookWait : option (string * nat);
  SubmitOK : bool; E2EOK : bool; TransportErr : string; E2EErr : string
}.

Record metrics : Type := mkMetrics {
  Mode : string; SubmitElapsed : Duration; Elapsed : Duration; m_Total : Z; SubmitSuccess : Z; E2ESuccess : Z;
  HTTP5xx : Z; HTTP409 : Z; HTTP4xxOther : Z; m_TransportErr : Z; m_SubmitLatency : latencyStats;
  m_E2ELatency : latencyStats; ErrorCodeHistogram : gmap string Z; Errors : gmap string Z
}.

(** [m[k]++]. *)
Definition bump (k : string) (m : gmap string Z) : gmap string Z := <[k := default 0 (m !! k) + 1]> m.

(** The counters of [aggregate] while it goes through the rows. *)
Record tally : Type := mkTally {
  t_submit : Z; t_e2e : Z; t_5xx : Z; t_409 : Z; t_4xx : Z; t_transport : Z; t_codes : gmap string Z;
  t_errors : gmap string Z; t_submitLatencies : list Duration; t_e2eLatencies : list Duration
}.
Definition noTally : tally := mkTally 0 0 0 0 0 0 ∅ ∅ [] [].

(** The body of the loop of [aggregate]. *)
Definition countRow (mode : string) (t : tally) (r : resultRow) : tally :=
  let '(mkTally su e2 c5 c9 c4 tr codes errs sl el) := t in
  let sl := (sl ++ [SubmitLatency r])%list in
  let codes := if String.eqb (Code r) "" then codes else bump (Code r) codes in
  if negb (String.eqb (TransportErr r) "") then mkTally su e2 c5 c9 c4 (tr + 1) codes (bump (TransportErr r) errs) sl el else
  let c9' := if StatusCode r =? 409 then c9 + 1 else c9 in
  let c5' := if negb (StatusCode r =? 409) && (500 <=? StatusCode r) then c5 + 1 else c5 in
  let c4' := if negb (StatusCode r =? 409) && negb (500 <=? StatusCode r) && (400 <=? StatusCode r) then c4 + 1 else c4 in
  let su := if SubmitOK r then su + 1 else su in
  if String.eqb mode "submit" then mkTally su e2 c5' c9' c4' tr codes errs sl el
  else if E2EOK r then mkTally su (e2 + 1) c5' c9' c4' tr codes errs sl (el ++ [E2ELatency r])%list
  else mkTally su e2 c5' c9' c4' tr codes (if String.eqb (E2EErr r) "" then errs else bump (E2EErr r) errs) sl el.

(** Without the rates. *)
Definition aggregate (rows : list resultRow) (submitElapsed elapsed : Duration) (mode : string) : metrics :=
  let t := fold_left (countRow mode) rows noTally in
  mkMetrics mode submitElapsed elapsed (lenZ rows) (t_submit t) (t_e2e t) (t_5xx t) (t_409 t) (t_4xx t) (t_transport t)
    (calcLatency (t_submitLatencies t)) (if String.eqb mode "submit" then noLatency else calcLatency (t_e2eLatencies t))
    (t_codes t) (t_errors t).

Definition collectSucceededTxnNos (rows : list resultRow) : list string :=
  map rr_TxnNo (List.filter (fun r => SubmitOK r && E2EOK r && negb (String.eqb (TrimSpace (rr_TxnNo r)) "")) rows).

(** ** Checks of the figures: the error, if any *)

Definition num (label : string) (n : Z) : string := label ++ "=" ++ FormatInt n.

Definition assertScenarioMetrics (stage : string) (m : metrics) (requireWebhook : bool) : option string :=
  if m_Total m <=? 0 then Some (stage ++ " no requests executed")
  else if negb (m_TransportErr m =? 0) || negb (HTTP5xx m =? 0) || negb (HTTP4xxOther m =? 0) || negb (HTTP409 m =? 0)
  then Some (stage ++ " request errors found: " ++ num "transport_err" (m_TransportErr m) ++ " " ++ num "http_5xx" (HTTP5xx m)
             ++ " " ++ num "http_4xx_other" (HTTP4xxOther m) ++ " " ++ num "http_409" (HTTP409 m))
  else if negb (SubmitSuccess m =? m_Total m)
  then Some (stage ++ " submit success mismatch: " ++ num "submit_success" (SubmitSuccess m) ++ " " ++ num "total" (m_Total m))
  else if requireWebhook && negb (E2ESuccess m =? m_Total m)
  then Some (stage ++ " e2e success mismatch: " ++ num "e2e_success" (E2ESuccess m) ++ " " ++ num "total" (m_Total m))
  else match ErrorCodeHistogram m !! "SUCCESS" with
       | Some n => if n =? m_Total m then None
                   else Some (stage ++ " response code mismatch: " ++ num "SUCCESS" n ++ " " ++ num "total" (m_Total m))
       | None => Some (stage ++ " response code mismatch: " ++ num "SUCCESS" 0 ++ " " ++ num "total" (m_Total m))
       end.

Definition assertScenarioInputCoverage (stage : string) (wantInputs : Z) (m : metrics) : option string :=
  if negb (m_Total m =? wantInputs)
  then Some (stage ++ " total mismatch: " ++ num "total" (m_Total m) ++ " " ++ num "want" wantInputs)
  else if negb (SubmitSuccess m =? wantInputs)
  then Some (stage ++ " submit success mismatch: " ++ num "submit_success" (SubmitSuccess m) ++ " " ++ num "want" wantInputs)
  else if negb (E2ESuccess m =? wantInputs)
  then Some (stage ++ " e2e success mismatch: " ++ num "e2e_success" (E2ESuccess m) ++ " " ++ num "want" wantInputs)
  else None.

Fixpoint uniqueTxnNos (stage : string) (seen : gset string) (txnNos : list string) : option string :=
  match txnNos with
  | [] => None
  | txnNo :: txnNos' =>
      let key := TrimSpace txnNo in
      if String.eqb key "" then Some (stage ++ " contains empty txn_no")
      else if bool_decide (key ∈ seen) then Some (stage ++ " contains duplicate txn_no: " ++ key)
      else uniqueTxnNos stage ({[key]} ∪ seen) txnNos'
  end.
Definition assertUniqueTxnNos (stage : string) (txnNos : list string) : option string := uniqueTxnNos stage ∅ txnNos.

(** ** Configuration *)

Section PerfConfig.
Context (Getenv : string -> string).

(** [strconv.Atoi] with its error. *)
Definition getenvInt (key : string) (fallback : Z) : Z :=
  let v := TrimSpace (Getenv key) in
  if String.eqb v "" then fallback else default fallback (ParseInt v).

Definition perfGetenvBool (key : string) (fallback : bool) : bool :=
  let v := TrimSpace (ToLower (Getenv key)) in
  if String.eqb v "" then fallback
  else if existsb (String.eqb v) ["1"; "true"; "t"; "yes"; "y"; "on"] then true
  else if existsb (String.eqb v) ["0"; "false"; "f"; "no"; "n"; "off"] then false
  else fallback.

Record perfConfig : Type := mkPerfConfig {
  pc_PostgresDSN : string; pc_PostgresMaxConns : Z; pc_RedisAddr : string; pc_RedisPassword : string; pc_RedisDB : Z;
  Passphrase : string; ProcessingTTLSeconds : Z; TxnAsyncOpts : TransferAsyncProcessorOptions;
  WebhookAsyncOpts : WebhookWorkerOptions; RequestCount : Z; Concurrency : Z; WarmupRequests : Z;
  RequestTimeout : Duration; MaxBodyBytes : Z; WebhookPollInterval : Duration; WebhookWaitTimeout : Duration;
  TxnRecoveryInterval : Duration; TxnRecoveryStale : Duration; TxnRecoveryBatch : Z; CPUProfileEnabled : bool;
  CPUProfilePath : string
}.

Definition millis (n : Z) : Duration := wrap64 (n * 1000000).

Definition loadPerfConfig : Result string perfConfig :=
  let base := Load Getenv in
  let requestCount := getenvInt "PERF_REQUESTS" 10000 in
  let concurrency := getenvInt "PERF_CONCURRENCY" 50 in
  let warmup := getenvInt "PERF_WARMUP" 200 in
  let requestTimeoutMs := getenvInt "PERF_REQUEST_TIMEOUT_MS" 3000 in
  let maxBodyBytes := getenvInt "PERF_MAX_BODY_BYTES" 1048576 in
  let webhookPollMs := getenvInt "PERF_WEBHOOK_POLL_INTERVAL_MS" 10 in
  let webhookWaitTimeoutMs := getenvInt "PERF_WEBHOOK_WAIT_TIMEOUT_MS" 60000 in
  let txnRecoveryIntervalMs := getenvInt "PERF_TXN_RECOVERY_INTERVAL_MS" (max (TxnRecoveryIntervalMS base) 1) in
  let txnRecoveryStaleMs := getenvInt "PERF_TXN_RECOVERY_STALE_MS" (max (TxnRecoveryStaleMS base) 1) in
  let txnRecoveryBatch := getenvInt "PERF_TXN_RECOVERY_BATCH" (max (TxnRecoveryBatchSize base) 1) in
  let cpuProfileEnabled := perfGetenvBool "PERF_CPU_PROFILE_ENABLED" false in
  let cpuProfilePath := TrimSpace (Getenv "PERF_CPU_PROFILE_PATH") in
  let cpuProfilePath := if cpuProfileEnabled && String.eqb cpuProfilePath "" then "perf-cpu.pprof" else cpuProfilePath in
  if requestCount <=? 0 then Err "PERF_REQUESTS must be > 0" else
  if concurrency <=? 0 then Err "PERF_CONCURRENCY must be > 0" else
  if requestTimeoutMs <=? 0 then Err "PERF_REQUEST_TIMEOUT_MS must be > 0" else
  if webhookPollMs <=? 0 then Err "PERF_WEBHOOK_POLL_INTERVAL_MS must be > 0" else
  if webhookWaitTimeoutMs <=? 0 then Err "PERF_WEBHOOK_WAIT_TIMEOUT_MS must be > 0" else
  if txnRecoveryIntervalMs <=? 0 then Err "PERF_TXN_RECOVERY_INTERVAL_MS must be > 0" else
  if txnRecoveryStaleMs <=? 0 then Err "PERF_TXN_RECOVERY_STALE_MS must be > 0" else
  if txnRecoveryBatch <=? 0 then Err "PERF_TXN_RECOVERY_BATCH must be > 0" else
  if String.eqb (TrimSpace (MerchantSecretPassphrase base)) "" then Err "LOCAL_KMS_KEY_V1 is required" else
  Ok (mkPerfConfig (PostgresDSN base) (max (PostgresMaxConns base) 1) (RedisAddr base) (RedisPassword base) (RedisDB base)
        (MerchantSecretPassphrase base) (max (ProcessingKeyTTLSeconds base) 1)
        (mkProcessorOptions (max (TxnAsyncWorkersInit base) 1) (max (TxnAsyncWorkersPaySuccess base) 1)
           (max (TxnAsyncQueueSizeInit base) 1) (max (TxnAsyncQueueSizePaySuccess base) 1))
        (mkWebhookWorkerOptions (max (WebhookAsyncWorkers base) 1) (max (WebhookAsyncQueueSize base) 1)
           (TxnAsyncProfileEnabled base) (millis (TxnAsyncProfileLogIntervalMS base)) 0 0)
        requestCount concurrency (max warmup 0) (millis requestTimeoutMs) maxBodyBytes (millis webhookPollMs)
        (millis webhookWaitTimeoutMs) (millis txnRecoveryIntervalMs) (millis txnRecoveryStaleMs) txnRecoveryBatch
        cpuProfileEnabled cpuProfilePath).
End PerfConfig.

(** ** The webhook sink

    The waiters of an order number are channels that hold one value.  Channels
    are numbered as they are made; [chans] is what is in each. *)

Record webhookSink : Type := mkSink { waiters : gmap string (list nat); chans : list (option Time) }.
Definition newWebhookSink : webhookSink := mkSink ∅ [].

Definition waitersOf (s : webhookSink) (outTradeNo : string) : list nat := default [] (waiters s !! outTradeNo).

Definition expect (outTradeNo : string) (s : webhookSink) : webhookSink * nat :=
  let ch := length (chans s) in
  (mkSink (<[outTradeNo := (waitersOf s outTradeNo ++ [ch])%list]> (waiters s)) (chans s ++ [None])%list, ch).

(** The part of [signal] under the lock, and a send that gives up when the
    channel is full. *)
Definition takeWaiters (outTradeNo : string) (s : webhookSink) : webhookSink * list nat :=
  (mkSink (delete outTradeNo (waiters s)) (chans s), waitersOf s outTradeNo).
Definition send (doneAt : Time) (ch : nat) (s : webhookSink) : webhookSink :=
  match chans s !! ch with
  | Some None => mkSink (waiters s) (<[ch := Some doneAt]> (chans s))
  | _ => s
  end.
Definition signal (doneAt : Time) (outTradeNo : string) (s : webhookSink) : webhookSink :=
  let (s1, ws) := takeWaiters outTradeNo s in fold_left (fun s ch => send doneAt ch s) ws s1.

Definition cancel (outTradeNo : string) (target : nat) (s : webhookSink) : webhookSink :=
  let ws := waitersOf s outTradeNo in
  match ws with
  | [] => s
  | _ =>
      match List.filter (fun ch => negb (Nat.eqb ch target)) ws with
      | [] => mkSink (delete outTradeNo (waiters s)) (chans s)
      | kept => mkSink (<[outTradeNo := kept]> (waiters s)) (chans s)
      end
  end.

(** A receive that does not wait. *)
Definition receiveNow (ch : nat) (s : webhookSink) : webhookSink * option Time :=
  match chans s !! ch with
  | Some (Some t) => (mkSink (waiters s) (<[ch := None]> (chans s)), Some t)
  | _ => (s, None)
  end.
