(* ===== verification/PerfRun.v ===== *)
(** * The load generator: setting up and running ([cmd/perf-core-txn/main.go])

    Its checks against the database, the merchant and accounts it sets up, the
    endpoint its webhooks are posted to, the requests it fires through the SDK,
    and the six scenarios.  Connecting, printing and the report are left out. *)

From S2P Require Import Prelude GoBase Config Domain Codes Encoding Calendar Json JsonDecode Store Queries Reads Secrets Ledger Repo Webhook Url Client Sdk Services TxnQuery Api Auth Router AdminAuth AdminRoutes AdminTxns Processor Server Migrate Perf.
From stdpp Require Import base gmap list strings.
From Stdlib Require Import ZArith Lia.

Local Open Scope string_scope.
Local Open Scope Z_scope.

(** ** Statements *)

(** What is left of a text after the bytes that continue its first rune. *)
Fixpoint skipCont (s : string) : string :=
  match s with String c s' => if cont c then skipCont s' else s | "" => "" end.
(** [s LIKE p]. *)
Fixpoint like (p : string) : string -> bool :=
  match p with
  | "" => fun s => String.eqb s ""
  | String c p' =>
      if is_byte 37 c then                                                          (* percent: any text *)
        fix any s := like p' s || match s with String _ s' => any s' | "" => false end
      else if is_byte 95 c then                                                     (* underscore: any one rune *)
        fun s => match s with String _ s' => like p' (skipCont s') | "" => false end
      else if is_byte 92 c then                                                     (* an escaped byte *)
        match p' with
        | String c2 p2 => fun s => match s with String c' s' => Ascii.eqb c2 c' && like p2 s' | "" => false end
        | "" => fun _ => false
        end
      else fun s => match s with String c' s' => Ascii.eqb c c' && like p' s' | "" => false end
  end.

Definition ofPrefix (outTradePrefix : string) (t : TxnRow) : bool := like (outTradePrefix ++ "%") (tr_out_trade t).

(** The groups come in an order the database chooses. *)
Definition statusCounts (outTradePrefix : string) : Q (list (string * Z)) := fun _ d =>
  Ok (d, map_to_list (fold_right (fun t => bump (tr_status t)) ∅ (List.filter (ofPrefix outTradePrefix) (txn_rows d)))).
Definition inFlightCount (outTradePrefix : string) : Q Z := fun _ d =>
  Ok (d, lenZ (List.filter (fun t => ofPrefix outTradePrefix t
                             && (String.eqb (tr_status t) "INIT" || String.eqb (tr_status t) "PAY_SUCCESS")) (txn_rows d))).
Definition ofTxn (outTradePrefix : string) (d : DB) (no : UUID) : bool :=
  match txns d !! no with Some t => ofPrefix outTradePrefix t | None => false end.
Definition accountChangeCount (outTradePrefix : string) : Q Z := fun _ d =>
  Ok (d, lenZ (List.filter (fun l => ofTxn outTradePrefix d (ac_txn l)) (account_changes d))).
Definition bookChangeCount (outTradePrefix : string) : Q Z := fun _ d =>
  Ok (d, lenZ (List.filter (fun l => ofTxn outTradePrefix d (bc_txn l)) (book_changes d))).

(** ** Checks *)

Section Checks.
Context {PF : Platform} {CP : CodeProvider}.

(** [if err != nil { return fmt.Errorf("...: %w", err) }]. *)
Definition wrapping {A} (context : string) (m : M A) : M A :=
  let! r := attempt m in match r with Ok a => ret a | Err e => throw (ErrWrap context e) end.
Definition failT {A} (msg : string) : M A := throw (ErrText msg).
Definition balanceOf (notFound accountNo : string) : M Z :=
  let! a := Repository.GetAccount accountNo in
  match a with Some a => ret (Balance a) | None => failT (notFound ++ ": " ++ accountNo) end.

Definition snapshotBalances (fromAccountNo bookAccountNo toAccountNo : string) : M (Z * Z * Z) :=
  let! from := balanceOf "from account not found" fromAccountNo in
  let! book := balanceOf "book account not found" bookAccountNo in
  let! to := balanceOf "to account not found" toAccountNo in
  ret (from, book, to).

Definition want (label : string) (got wanted : Z) : string := num label got ++ " " ++ num "want" wanted.

Definition assertBalances (fromAccountNo bookAccountNo toAccountNo : string) (wantFrom wantBook wantTo : Z)
    (stage : string) : M unit :=
  let! got := wrapping (stage ++ " balance check failed") (snapshotBalances fromAccountNo bookAccountNo toAccountNo) in
  let '(gotFrom, gotBook, gotTo) := got in
  if negb (gotFrom =? wantFrom) || negb (gotBook =? wantBook) || negb (gotTo =? wantTo)
  then failT (stage ++ " balance mismatch: " ++ want "from_balance" gotFrom wantFrom ++ " "
              ++ want "book_balance" gotBook wantBook ++ " " ++ want "to_balance" gotTo wantTo)
  else ret tt.

Definition snapshotBookToBookBalances (fromAccountNo targetAccountNo : string) : M (Z * Z) :=
  let! from := balanceOf "book-to-book from account not found" fromAccountNo in
  let! target := balanceOf "book-to-book target account not found" targetAccountNo in
  ret (from, target).

Definition assertBookToBookBalances (fromAccountNo targetAccountNo : string) (wantFrom wantTarget : Z) (stage : string) : M unit :=
  let! got := wrapping (stage ++ " book-to-book balance check failed") (snapshotBookToBookBalances fromAccountNo targetAccountNo) in
  let '(gotFrom, gotTarget) := got in
  if negb (gotFrom =? wantFrom) || negb (gotTarget =? wantTarget)
  then failT (stage ++ " book-to-book balance mismatch: " ++ want "from_balance" gotFrom wantFrom ++ " "
              ++ want "target_balance" gotTarget wantTarget)
  else ret tt.

(** The loop over the groups. *)
Fixpoint countStatuses (outTradePrefix wantStatus stage : string) (total : Z) (rows : list (string * Z)) : Result error Z :=
  match rows with
  | [] => Ok total
  | (status, count) :: rows' =>
      if negb (String.eqb (TrimSpace status) wantStatus)
      then Err (ErrText (stage ++ " unexpected txn status for prefix=" ++ outTradePrefix ++ ": status=" ++ status ++ " "
                         ++ num "count" count ++ " want_status=" ++ wantStatus))
      else countStatuses outTradePrefix wantStatus stage (total + count) rows'
  end.

(** The pool is there whenever these are called. *)
Definition assertTxnStatusByOutTradePrefix (outTradePrefix wantStatus : string) (wantTotal : Z) (stage : string) : M unit :=
  let! rows := wrapping (stage ++ " status check query failed") (auto (statusCounts outTradePrefix)) in
  match countStatuses outTradePrefix wantStatus stage 0 rows with
  | Err e => throw e
  | Ok total =>
      if negb (total =? wantTotal)
      then failT (stage ++ " txn count mismatch for prefix=" ++ outTradePrefix ++ ": " ++ num "got" total ++ " " ++ num "want" wantTotal)
      else ret tt
  end.

Definition assertNoInFlightTxnByOutTradePrefix (outTradePrefix stage : string) : M unit :=
  let! inFlight := wrapping (stage ++ " in-flight check query failed") (auto (inFlightCount outTradePrefix)) in
  if negb (inFlight =? 0)
  then failT (stage ++ " in-flight txn remains for prefix=" ++ outTradePrefix ++ ": " ++ num "count" inFlight)
  else ret tt.

Definition assertChangeLogCountsByOutTradePrefix (outTradePrefix : string) (wantAccountChange wantBookChange : Z)
    (stage : string) : M unit :=
  let! gotAccountChange := wrapping (stage ++ " account_change_log count query failed") (auto (accountChangeCount outTradePrefix)) in
  if negb (gotAccountChange =? wantAccountChange)
  then failT (stage ++ " account_change_log count mismatch for prefix=" ++ outTradePrefix ++ ": "
              ++ num "got" gotAccountChange ++ " " ++ num "want" wantAccountChange)
  else
  let! gotBookChange := wrapping (stage ++ " account_book_change_log count query failed") (auto (bookChangeCount outTradePrefix)) in
  if negb (gotBookChange =? wantBookChange)
  then failT (stage ++ " account_book_change_log count mismatch for prefix=" ++ outTradePrefix ++ ": "
              ++ num "got" gotBookChange ++ " " ++ num "want" wantBookChange)
  else ret tt.

(** ** Setting up *)

Definition stageM (txnNo status : string) : M TxnStageApplyResult := fun w =>
  match ApplyTxnStage txnNo status w with
  | (w1, (r, None)) => (w1, Ok r)
  | (w1, (_, Some e)) => (w1, Err e)
  end.

Definition seedTxn (merchant : Merchant) (txnNo creditAccountNo : string) (amount : Z) (creditExpireAt : option Time) : TransferTxn :=
  mkTransferTxn txnNo (MerchantNo merchant) ("perf_seed_credit_" ++ stake 24 (dropDashes txnNo)) "" "" BizTypeTransfer SceneIssue
    (BudgetAccountNo merchant) creditAccountNo (default zeroTime creditExpireAt) amount "" amount TxnStatusInit "" "" zeroTime.

Definition seedAccountBalanceByIssue (merchant : Merchant) (creditAccountNo : string) (amount : Z)
    (creditExpireAt : option Time) : M unit :=
  if amount <=? 0 then ret tt else
  let! id := wrapping "new seed txn no" NewUUIDv7 in
  let txnNo := uuid_text id in
  do! wrapping "create seed txn"
        (Repository.CreateTransferTxn (seedTxn merchant txnNo creditAccountNo amount creditExpireAt)) in
  let! debitStage := wrapping "apply seed debit stage" (stageM txnNo TxnStatusInit) in
  if negb (Applied debitStage) then failT ("seed debit stage not applied, status=" ++ CurrentStatus debitStage) else
  let! creditStage := wrapping "apply seed credit stage" (stageM txnNo TxnStatusPaySuccess) in
  if negb (Applied creditStage) then failT ("seed credit stage not applied, status=" ++ CurrentStatus creditStage) else ret tt.

Context {SC : Secrets.SecretCipher}.

Definition toBookTransferOutUser := "u_perf_to_book".
Definition toNonBookTransferOutUser := "u_perf_to_non_book".
Definition fromBookToBookOutUser := "u_perf_from_book_to_book".
Definition toBookToBookOutUser := "u_perf_to_book_to_book".
Definition bookToBookTransferExpiryIn : Z := 30.

Record perfRuntime : Type := mkPerfRuntime {
  pr_MerchantNo : string; pr_Secret : string; TransferFromAccountNo : string; TransferBookToAccount : string;
  TransferToAccountNo : string; BookToBookFromAccountNo : string; BookToBookTargetAccountNo : string
}.

Definition perfAccount (merchant : Merchant) (c : Customer) (no : string) (overdraft book : bool) : Account :=
  mkAccount no (MerchantNo merchant) (CustomerNo c) "CUSTOMER" overdraft 0 true true true book 0.

(** [t.AddDate(1, 0, 0)]. *)
Definition nextYear (t : Time) : Time :=
  let '(y, m, d) := civil (dateOf t) in timeOfDate (days_of_civil (y + 1) m d) + t mod dayNs.

(** [strings.Replace(s, old, new, 1)]. *)
Fixpoint replaceFirst (old new s : string) : string :=
  if HasPrefix s old then new ++ sdrop (String.length old) s
  else match s with "" => "" | String c s' => String c (replaceFirst old new s') end.

(** The part of [setupPerfServer] that writes to the database; [webhookServerURL]
    is where the test server listens. *)
Definition setupPerfServer (bookToBookSeedBalance : Z) (webhookServerURL : string) : M perfRuntime :=
  let! merchant := wrapping "create merchant" (CreateMerchant "" "perf-core-txn") in
  let m := MerchantNo merchant in
  let! fromCustomer := wrapping "create from customer" (CreateCustomer m "u_perf_from") in
  let! transferCustomer := wrapping "create transfer customer" (CreateCustomer m toNonBookTransferOutUser) in
  let! bookTransferCustomer := wrapping "create book transfer customer" (CreateCustomer m toBookTransferOutUser) in
  let! bookToBookFromCustomer := wrapping "create book-to-book from customer" (CreateCustomer m fromBookToBookOutUser) in
  let! bookToBookTargetCustomer := wrapping "create book-to-book target customer" (CreateCustomer m toBookToBookOutUser) in
  let! fromAccountNo := wrapping "new from account no" (NewAccountNo m "CUSTOMER") in
  let! toAccountNo := wrapping "new transfer account no" (NewAccountNo m "CUSTOMER") in
  let! toBookTransferAccountNo := wrapping "new book transfer account no" (NewAccountNo m "CUSTOMER") in
  let! bookToBookFromAccountNo := wrapping "new book-to-book from account no" (NewAccountNo m "CUSTOMER") in
  let! bookToBookTargetAccountNo := wrapping "new book-to-book target account no" (NewAccountNo m "CUSTOMER") in
  do! wrapping "create from account" (Repository.CreateAccount (perfAccount merchant fromCustomer fromAccountNo true false)) in
  do! wrapping "create book transfer account"
        (Repository.CreateAccount (perfAccount merchant bookTransferCustomer toBookTransferAccountNo false true)) in
  do! wrapping "create transfer account"
        (Repository.CreateAccount (perfAccount merchant transferCustomer toAccountNo false false)) in
  if bookToBookSeedBalance <=? 0 then failT "book-to-book seed balance must be > 0" else
  do! wrapping "create book-to-book from account"
        (Repository.CreateAccount (perfAccount merchant bookToBookFromCustomer bookToBookFromAccountNo false true)) in
  do! wrapping "create book-to-book target account"
        (Repository.CreateAccount (perfAccount merchant bookToBookTargetCustomer bookToBookTargetAccountNo false true)) in
  let! now := timeNow in
  do! wrapping "seed book-to-book from account by credit txn"
        (seedAccountBalanceByIssue merchant bookToBookFromAccountNo bookToBookSeedBalance (Some (nextYear now))) in
  let! rotated := wrapping "rotate merchant secret" (RotateSecret m) in
  let webhookURL := replaceFirst "127.0.0.1" "localhost" webhookServerURL in
  do! wrapping "upsert webhook config" (Repository.UpsertWebhookConfig m webhookURL true) in
  ret (mkPerfRuntime m rotated.1 fromAccountNo toBookTransferAccountNo toAccountNo bookToBookFromAccountNo bookToBookTargetAccountNo).

(** The server it starts, around a Redis guard and an HTTP client. *)
Definition perfServer {G C} (cfg : perfConfig) (newGuard : Duration -> G) (http : C) : Setup * Server G C :=
  (mkSetup (mkRoutesOptions (Some (mkAuthConfig true (5 * Minute))) true (Some businessHandler) true) None
     (NewTransferRecoveryWorkerWithStaleThreshold (TxnRecoveryBatch cfg) (TxnRecoveryStale cfg))
     (NewCompensationWorker None false),
   mkServer (NewTransferAsyncProcessorWithGuardAndOptions
               (newGuard (redisGuardTTL (durationOf (ProcessingTTLSeconds cfg) Second))) (TxnAsyncOpts cfg))
     (NewWebhookWorkerWithOptions 8 500 [1] (WebhookAsyncOpts cfg)) http).
End Checks.

(** ** The webhook endpoint *)

(** The last member with this name: a map keeps it. *)
Definition lastMember (k : string) (l : list (string * jval)) : option jval :=
  fold_left (fun r kv => if String.eqb kv.1 k then Some kv.2 else r) l None.

(** [maxBodyBytes] bytes of a body that was read without an error.  Numbers
    too large for a float64 are not told apart from others. *)
Definition webhookEndpoint (maxBodyBytes : Z) (body : string) (doneAt : Time) (s : webhookSink) : webhookSink * Z :=
  match parse (limitTo maxBodyBytes body) with
  | Some (VObj payload) =>
      let outTradeNo := match lastMember "out_trade_no" payload with Some (VStr no) => no | _ => "" end in
      (if String.eqb (TrimSpace outTradeNo) "" then s else signal doneAt outTradeNo s, 200)
  | Some VNull => (s, 200)
  | _ => (s, 400)
  end.

(** ** All migrations in one statement *)

(** The files under their paths, which sort like their names. *)
Definition loadAllUpMigrationsSQL (files : Files) : Result error string :=
  match sort_by String.leb (Glob files) with
  | [] => Err (ErrText "no up migration found")
  | names =>
      fold_left (fun r name =>
        match r, ReadFile files name with
        | Err e, _ => Err e
        | Ok _, Err e => Err (ErrWrap ("read migration " ++ name ++ " failed") e)
        | Ok text, Ok raw => Ok (text ++ raw ++ newline)
        end) names (Ok "")
  end.
Definition ensureMigrations {S} {MS : MigrationSQL S} (files : Files) : @G S unit := fun d =>
  match loadAllUpMigrationsSQL files with
  | Err e => (d, Err e)
  | Ok sql =>
      let d1 := mkMigrationDB (md_schema d) (md_recorded d) (tl (md_faults d)) in
      match hd NoFault (md_faults d), runSQL sql (md_schema d) with
      | NoFault, Ok s => (mkMigrationDB s (md_recorded d1) (md_faults d1), Ok tt)
      | FailAfter, Ok s => (mkMigrationDB s (md_recorded d1) (md_faults d1), Err ErrConn)
      | NoFault, Err e => (d1, Err e)
      | _, _ => (d1, Err ErrConn)
      end
  end.

(** ** Running *)

(** What surrounds the generator: the sink its endpoint signals, the database
    under the running server, waiting for a channel or a timer, and goroutines:
    [parallel n jobs] is what [n] workers get who each take the next job until
    there is none, in the order the results arrive.  A check against the
    database runs on it as it is then. *)
Class PerfEnv (E : Type) : Type := {
  sinkOf : E -> webhookSink;
  withSink : webhookSink -> E -> E;
  worldOf : E -> World;
  onDB : forall {A}, M A -> E -> E * Result error A;
  onDB_result : forall A (m : M A) e, (onDB m e).2 = (m (worldOf e)).2;
  onDB_world : forall A (m : M A) e, worldOf (onDB m e).1 = (m (worldOf e)).1;
  await : nat -> Duration -> E -> E * option Time;
  parallel : forall {A}, Z -> list (Z -> E -> E * A) -> E -> E * list A;
  parallel_all : forall A n (jobs : list (Z -> E -> E * A)) e, 0 < n -> length (parallel n jobs e).2 = length jobs;
  parallel_from : forall A (P : A -> Prop) n (jobs : list (Z -> E -> E * A)) e,
    Forall (fun job => forall w e1, P (job w e1).2) jobs -> Forall P (parallel n jobs e).2
}.

Section Run.
Context {PF : Platform} {CP : CodeProvider}.
Context {E T : Type} {UP : UrlParser} {SE : SdkEnv E T} {PE : PerfEnv E}.
Abbreviation SdkClient := (@Client E T).

Definition Run (A : Type) : Type := E -> E * Result error A.
Definition retR {A} (a : A) : Run A := fun e => (e, Ok a).
Definition bindR {A B} (m : Run A) (f : A -> Run B) : Run B := fun e =>
  match m e with (e1, Ok a) => f a e1 | (e1, Err x) => (e1, Err x) end.
Notation "'let^' x := m 'in' f" := (bindR m (fun x => f)) (at level 10, x binder, m at level 100, f at level 200).
(** A call that does not fail; a check of figures. *)
Definition callR {A} (f : E -> E * A) : Run A := fun e => let (e1, a) := f e in (e1, Ok a).
Definition checkR (r : option string) : Run unit := fun e => (e, match r with Some msg => Err (ErrText msg) | None => Ok tt end).
Definition failR {A} (msg : string) : Run A := fun e => (e, Err (ErrText msg)).

(** *** One request *)

(** [err.Error()]; of a wrapped error only the prefix is known. *)
Definition sdkErrorText (x : sdkError) : string :=
  match x with EText msg | EWrap msg | ETransport msg => msg | EApi a => Error (Some a) end.

Definition cancelWait (w : option (string * nat)) (e : E) : E :=
  match w with Some (no, ch) => withSink (Perf.cancel no ch (sinkOf e)) e | None => e end.

Definition fireSDKSubmitOnce (outTradeNo : string) (requireWebhook : bool) (submit : @Call E TxnSubmitResponse) (e : E)
    : E * resultRow :=
  let '(e1, done) :=
    if requireWebhook then
      let (s, ch) := expect outTradeNo (sinkOf e) in (withSink s e, Some ch)
    else (e, None) in
  let wait := option_map (fun ch => (outTradeNo, ch)) done in
  let (e2, submitStart) := env_now e1 in
  let (e3, resp) := submit e2 in
  let (e4, submitEnd) := env_now e3 in
  let submitLatency := timeSub submitEnd submitStart in
  match resp with
  | Err (EApi a) =>
      (cancelWait wait e4,
       mkResultRow (HTTPStatus a) (ErrCode a) "" submitLatency 0 submitStart zeroTime None None false false "" "")
  | Err x => (cancelWait wait e4, mkResultRow 0 "" "" submitLatency 0 zeroTime zeroTime None None false false (sdkErrorText x) "")
  | Ok r =>
      (e4, mkResultRow 201 "SUCCESS" (ts_TxnNo r) submitLatency 0 submitStart zeroTime
             done wait true false "" "")
  end.

Definition scenarioFireFn : Type := string -> E -> E * resultRow.
Definition refundFireFn : Type := string -> string -> E -> E * resultRow.

Definition newSDKTransferFireFn (client : option SdkClient) (outTradePrefix fromAccountNo toAccountNo : string)
    (toExpireInDays : Z) : scenarioFireFn := fun nonce =>
  let outTradeNo := outTradePrefix ++ nonce in
  fireSDKSubmitOnce outTradeNo true
    (Transfer client (mkTransfer outTradeNo "" "" "" SceneP2P fromAccountNo "" toAccountNo ""
       (if 0 <? toExpireInDays then toExpireInDays else 0) 1)).

Definition newSDKRefundFireFn (client : option SdkClient) (outTradePrefix : string) : refundFireFn := fun nonce originTxnNo =>
  let outTradeNo := outTradePrefix ++ nonce in
  fireSDKSubmitOnce outTradeNo true (Refund client (mkRefund outTradeNo "" "" "" originTxnNo 1)).

(** The row after the wait: completed at [doneAt], or timed out. *)
Definition completed (row : resultRow) (doneAt : Time) : resultRow :=
  mkResultRow (StatusCode row) (Code row) (rr_TxnNo row) (SubmitLatency row) (timeSub doneAt (SubmitStartedAt row))
    (SubmitStartedAt row) doneAt (WebhookDone row) (CancelWebhookWait row) (SubmitOK row) true (TransportErr row) (E2EErr row).
Definition timedOut (row : resultRow) : resultRow :=
  mkResultRow (StatusCode row) (Code row) (rr_TxnNo row) (SubmitLatency row) (E2ELatency row) (SubmitStartedAt row)
    (E2ECompletedAt row) (WebhookDone row) (CancelWebhookWait row) (SubmitOK row) (E2EOK row) (TransportErr row) "webhook timeout".

Definition awaitWebhookResult (row : resultRow) (webhookWaitTimeout : Duration) (e : E) : E * resultRow :=
  match SubmitOK row, WebhookDone row with
  | true, Some ch =>
      let (e1, now) := env_now e in
      let remaining := wrap64 (webhookWaitTimeout - timeSub now (SubmitStartedAt row)) in
      if remaining <=? 0 then (cancelWait (CancelWebhookWait row) e1, timedOut row) else
      match await ch remaining e1 with
      | (e2, Some doneAt) => (e2, completed row doneAt)
      | (e2, None) => (cancelWait (CancelWebhookWait row) e2, timedOut row)
      end
  | _, _ => (e, row)
  end.

(** *** Many requests *)

(** The rows that wait, one after the other; the others stay as they are. *)
Fixpoint awaitAll (rows : list resultRow) (webhookWaitTimeout : Duration) (e : E) : E * list resultRow :=
  match rows with
  | [] => (e, [])
  | row :: rows' =>
      let pending := SubmitOK row && match WebhookDone row with Some _ => true | None => false end in
      let (e1, row1) := if pending then awaitWebhookResult row webhookWaitTimeout e else (e, row) in
      let (e2, rows1) := awaitAll rows' webhookWaitTimeout e1 in
      (e2, row1 :: rows1)
  end.

Definition nonceOf (mode : string) (workerID idx : Z) : string := mode ++ "-" ++ FormatInt workerID ++ "-" ++ FormatInt idx.

(** Firing the jobs, then waiting for the webhooks. *)
Definition runLoad (jobs : list (Z -> E -> E * resultRow)) (concurrency : Z) (webhookWaitTimeout : Duration) (mode : string)
    (requireWebhook : bool) (e : E) : E * (list resultRow * metrics) :=
  let concurrency := if concurrency <=? 0 then 1 else concurrency in
  let concurrency := if lenZ jobs <? concurrency then lenZ jobs else concurrency in
  let (e1, start) := env_now e in
  let (e2, rows) := parallel concurrency jobs e1 in
  let (e3, submitted) := env_now e2 in
  let (e4, rows) := if requireWebhook then awaitAll rows webhookWaitTimeout e3 else (e3, rows) in
  let (e5, finished) := env_now e4 in
  (e5, (rows, aggregate rows (timeSub submitted start) (timeSub finished start) mode)).

Definition runLoadByRequestCount (requestCount concurrency : Z) (webhookWaitTimeout : Duration) (mode : string)
    (requireWebhook : bool) (fire : scenarioFireFn) (e : E) : E * (list resultRow * metrics) :=
  if requestCount <=? 0 then (e, ([], aggregate [] 0 0 mode)) else
  runLoad (map (fun i workerID => fire (nonceOf mode workerID (Z.of_nat i))) (seq 1 (Z.to_nat requestCount)))
    concurrency webhookWaitTimeout mode requireWebhook e.

Definition runLoadByOriginTxnNos (originTxnNos : list string) (concurrency : Z) (webhookWaitTimeout : Duration) (mode : string)
    (requireWebhook : bool) (fire : refundFireFn) (e : E) : E * (list resultRow * metrics) :=
  if lenZ originTxnNos =? 0 then (e, ([], aggregate [] 0 0 mode)) else
  runLoad (imap (fun i originNo workerID => fire (nonceOf mode workerID (Z.of_nat i + 1)) originNo) originTxnNos)
    concurrency webhookWaitTimeout mode requireWebhook e.

(** *** The run *)

Context (cfg : perfConfig) (rt : perfRuntime) (sdkClient : option SdkClient).

(** Balances as they were at the start: of the payer, the book account, the
    payee, and the two accounts of the transfers from book to book. *)
Record balances : Type := mkBalances { bl_from : Z; bl_book : Z; bl_to : Z; bl_b2bFrom : Z; bl_b2bTarget : Z }.

Definition snapshot : Run balances :=
  let^ b := onDB (snapshotBalances (TransferFromAccountNo rt) (TransferBookToAccount rt) (TransferToAccountNo rt)) in
  let^ t := onDB (snapshotBookToBookBalances (BookToBookFromAccountNo rt) (BookToBookTargetAccountNo rt)) in
  let '(f, k, o) := b in retR (mkBalances f k o t.1 t.2).

Definition checkBalances (wantFrom wantBook wantTo : Z) (stage : string) : Run unit :=
  onDB (assertBalances (TransferFromAccountNo rt) (TransferBookToAccount rt) (TransferToAccountNo rt) wantFrom wantBook wantTo stage).
Definition checkBookToBook (wantFrom wantTarget : Z) (stage : string) : Run unit :=
  onDB (assertBookToBookBalances (BookToBookFromAccountNo rt) (BookToBookTargetAccountNo rt) wantFrom wantTarget stage).

Definition fireBookTransfer : scenarioFireFn :=
  newSDKTransferFireFn sdkClient "ord_perf_book_transfer_" (TransferFromAccountNo rt) (TransferBookToAccount rt) bookToBookTransferExpiryIn.
Definition fireBookRefund : refundFireFn := newSDKRefundFireFn sdkClient "ord_perf_book_refund_".
Definition fireTransfer : scenarioFireFn :=
  newSDKTransferFireFn sdkClient "ord_perf_transfer_" (TransferFromAccountNo rt) (TransferToAccountNo rt) 0.
Definition fireRefund : refundFireFn := newSDKRefundFireFn sdkClient "ord_perf_refund_".
Definition fireBookToBookTransfer : scenarioFireFn :=
  newSDKTransferFireFn sdkClient "ord_perf_book_to_book_transfer_" (BookToBookFromAccountNo rt) (BookToBookTargetAccountNo rt)
    bookToBookTransferExpiryIn.
Definition fireBookToBookRefund : refundFireFn := newSDKRefundFireFn sdkClient "ord_perf_book_to_book_refund_".

(** A transfer fired alone, which has to succeed with a number, and its refund. *)
Definition rowText (row : resultRow) (no : string) : string :=
  num "status" (StatusCode row) ++ " code=" ++ Code row ++ " submit_ok=" ++ boolText (SubmitOK row) ++ " e2e_ok=" ++ boolText (E2EOK row)
  ++ " " ++ no ++ " transport_err=" ++ TransportErr row ++ " e2e_err=" ++ E2EErr row.
Definition rowFailed (row : resultRow) : bool :=
  negb (SubmitOK row) || negb (E2EOK row) || negb (String.eqb (TransportErr row) "") || negb (String.eqb (E2EErr row) "").
Definition warmupPair (name nonceName : string) (fire : scenarioFireFn) (fireBack : refundFireFn) (i : Z) : Run unit :=
  let^ row := callR (fire ("warmup-" ++ nonceName ++ "transfer-" ++ FormatInt i)) in
  let^ row := callR (awaitWebhookResult row (WebhookWaitTimeout cfg)) in
  if rowFailed row || String.eqb (TrimSpace (rr_TxnNo row)) ""
  then failR (name ++ "transfer warmup failed: " ++ rowText row ("txn_no=" ++ rr_TxnNo row)) else
  let origin := rr_TxnNo row in
  let^ row := callR (fireBack ("warmup-" ++ nonceName ++ "refund-" ++ FormatInt i) origin) in
  let^ row := callR (awaitWebhookResult row (WebhookWaitTimeout cfg)) in
  if rowFailed row then failR (name ++ "refund warmup failed: " ++ rowText row ("origin_txn_no=" ++ origin)) else retR tt.

Fixpoint warmupRounds (n : nat) (i : Z) : Run unit :=
  match n with
  | O => retR tt
  | S n' =>
      let^ _ := warmupPair "book " "book-" fireBookTransfer fireBookRefund i in
      let^ _ := warmupPair "book-to-book " "book-to-book-" fireBookToBookTransfer fireBookToBookRefund i in
      let^ _ := warmupPair "" "" fireTransfer fireRefund i in
      warmupRounds n' (i + 1)
  end.
Definition warmup (b : balances) : Run unit :=
  if WarmupRequests cfg <=? 0 then retR tt else
  let^ _ := warmupRounds (Z.to_nat (WarmupRequests cfg)) 0 in
  let^ _ := checkBalances (bl_from b) (bl_book b) (bl_to b) "warmup" in
  checkBookToBook (bl_b2bFrom b) (bl_b2bTarget b) "warmup-book-to-book".

(** The checks of the rows of a scenario in the database: all received, none
    in flight, two account changes and [bookChanges] book changes each. *)
Definition checkRows (mode : string) (m : metrics) (bookChanges : Z) : Run unit :=
  let prefix := "ord_perf_" ++ mode ++ "_" ++ mode ++ "-" in
  let^ _ := onDB (assertTxnStatusByOutTradePrefix prefix TxnStatusRecvSuccess (m_Total m) mode) in
  let^ _ := onDB (assertNoInFlightTxnByOutTradePrefix prefix mode) in
  onDB (assertChangeLogCountsByOutTradePrefix prefix (m_Total m * 2) (m_Total m * bookChanges) mode).

(** The transfers of a scenario; the balances wanted depend on their number. *)
Definition transferScenario (mode : string) (fire : scenarioFireFn) (bookChanges : Z) (check : Z -> Run unit)
    : Run (list string * metrics) :=
  let^ r := callR (runLoadByRequestCount (RequestCount cfg) (Concurrency cfg) (WebhookWaitTimeout cfg) mode true fire) in
  let '(rows, m) := r in
  let origins := collectSucceededTxnNos rows in
  let^ _ := checkR (assertScenarioMetrics mode m true) in
  if lenZ origins =? 0 then failR (mode ++ " completed but no successful txn_no produced") else
  if negb (lenZ origins =? m_Total m)
  then failR (mode ++ " successful txn_no count mismatch: " ++ num "got" (lenZ origins) ++ " " ++ num "total" (m_Total m)) else
  let^ _ := checkR (assertUniqueTxnNos mode origins) in
  let^ _ := checkRows mode m bookChanges in
  let^ _ := check (lenZ origins) in
  retR (origins, m).

(** Their refunds, after which the balances are as at the start. *)
Definition refundScenario (mode : string) (origins : list string) (fire : refundFireFn) (bookChanges : Z) (check : Run unit)
    : Run metrics :=
  let^ r := callR (runLoadByOriginTxnNos origins (Concurrency cfg) (WebhookWaitTimeout cfg) mode true fire) in
  let m := r.2 in
  let^ _ := checkR (assertScenarioMetrics mode m true) in
  let^ _ := checkR (assertScenarioInputCoverage mode (lenZ origins) m) in
  let^ _ := checkRows mode m bookChanges in
  let^ _ := check in
  retR m.

Definition bookScenarios (b : balances) : Run (metrics * metrics) :=
  let^ t := transferScenario "book_transfer" fireBookTransfer 1
    (fun n => checkBalances (wrap64 (bl_from b - n)) (wrap64 (bl_book b + n)) (bl_to b) "book_transfer") in
  let^ r := refundScenario "book_refund" t.1 fireBookRefund 1
    (checkBalances (bl_from b) (bl_book b) (bl_to b) "book_refund") in
  retR (t.2, r).

Definition bookToBookScenarios (b : balances) : Run (metrics * metrics) :=
  let^ t := transferScenario "book_to_book_transfer" fireBookToBookTransfer 2
    (fun n => checkBookToBook (wrap64 (bl_b2bFrom b - n)) (wrap64 (bl_b2bTarget b + n)) "book_to_book_transfer") in
  let^ r := refundScenario "book_to_book_refund" t.1 fireBookToBookRefund 2
    (checkBookToBook (bl_b2bFrom b) (bl_b2bTarget b) "book_to_book_refund") in
  retR (t.2, r).

Definition plainScenarios (b : balances) : Run (metrics * metrics) :=
  let^ t := transferScenario "transfer" fireTransfer 0
    (fun n => checkBalances (wrap64 (bl_from b - n)) (bl_book b) (wrap64 (bl_to b + n)) "transfer") in
  let^ r := refundScenario "refund" t.1 fireRefund 0 (checkBalances (bl_from b) (bl_book b) (bl_to b) "refund") in
  retR (t.2, r).

Definition balanceText (i f : balances) : string :=
  want "from_balance" (bl_from f) (bl_from i) ++ " " ++ want "book_balance" (bl_book f) (bl_book i) ++ " "
  ++ want "to_balance" (bl_to f) (bl_to i) ++ " " ++ want "book_to_book_from_balance" (bl_b2bFrom f) (bl_b2bFrom i) ++ " "
  ++ want "book_to_book_target_balance" (bl_b2bTarget f) (bl_b2bTarget i).

(** [run] once the server is set up: the figures in the order of the report. *)
Definition run : Run (list metrics) :=
  let^ initial := snapshot in
  let^ _ := warmup initial in
  let^ bk := bookScenarios initial in
  let^ bb := bookToBookScenarios initial in
  let^ pl := plainScenarios initial in
  let^ final := snapshot in
  if negb (bl_from final =? bl_from initial) || negb (bl_book final =? bl_book initial) || negb (bl_to final =? bl_to initial)
     || negb (bl_b2bFrom final =? bl_b2bFrom initial) || negb (bl_b2bTarget final =? bl_b2bTarget initial)
  then failR ("balance not restored after perf run: " ++ balanceText initial final)
  else retR [pl.1; pl.2; bk.1; bk.2; bb.1; bb.2].
End Run.
