(* ===== verification/PerfProofs.v ===== *)
(** * Proofs about the load generator

    The sink loses no webhook and wakes whom it should; the checks of a
    scenario pass exactly when every request did; a run that reports figures
    leaves the balances it found. *)

From S2P Require Import Prelude GoBase Config Domain Codes Encoding Calendar Json JsonDecode JsonProofs Store Queries Reads Secrets Ledger Repo Webhook Url Client Sdk Services TxnQuery Invariant Books LedgerProofs StageProofs ServiceProofs Perf PerfRun.
From stdpp Require Import base gmap list strings relations sorting.
From Stdlib Require Import ZArith Lia.

Local Open Scope string_scope.
Local Open Scope Z_scope.

(** ** The sink

    The generator's goroutines and the endpoint's on one sink.  A signal takes
    the waiters under the lock and then sends to them one by one: the signals
    under way are kept with the channels they still have to send to. *)

Abbreviation signals := (list (Time * list nat)).

Inductive sinkStep : webhookSink * signals -> webhookSink * signals -> Prop :=
| st_expect s p k : sinkStep (s, p) ((expect k s).1, p)
| st_take s p t k : sinkStep (s, p) ((takeWaiters k s).1, p ++ [(t, (takeWaiters k s).2)])%list
| st_send s p i t ch l : p !! i = Some (t, ch :: l) -> sinkStep (s, p) (send t ch s, <[i := (t, l)]> p)
| st_cancel s p k ch : sinkStep (s, p) (Perf.cancel k ch s, p)
| st_receive s p ch : sinkStep (s, p) ((receiveNow ch s).1, p).

(** Where a channel waits: for an order number, or in a signal. *)
Inductive place : Type := InMap (k : string) | InSignal (i : nat).
#[export] Instance place_eq_dec : EqDecision place.
Proof. solve_decision. Defined.
Definition waitsIn (s : webhookSink) (p : signals) (x : place) : list nat :=
  match x with
  | InMap k => waitersOf s k
  | InSignal i => match p !! i with Some (_, l) => l | None => [] end
  end.

Record sinkOk (s : webhookSink) (p : signals) : Prop := {
  sk_once : forall x, NoDup (waitsIn s p x);
  sk_place : forall x y ch, ch ∈ waitsIn s p x -> ch ∈ waitsIn s p y -> x = y;
  sk_empty : forall x ch, ch ∈ waitsIn s p x -> chans s !! ch = Some None
}.

(** Waiting in fewer places, over channels that stay empty. *)
Lemma sinkOk_fewer s p s' p' :
  sinkOk s p -> (forall x, sublist (waitsIn s' p' x) (waitsIn s p x)) ->
  (forall x ch, ch ∈ waitsIn s' p' x -> chans s !! ch = Some None -> chans s' !! ch = Some None) -> sinkOk s' p'.
Proof.
  intros [Ho Hp He] Hs Hc. split.
  - intros x. by eapply sublist_NoDup; [|apply Hs].
  - intros x y ch Hx Hy. eapply Hp; (eapply sublist_subseteq; [apply Hs|done]).
  - intros x ch Hx. eapply Hc; [done|]. eapply He, sublist_subseteq; [apply Hs|done].
Qed.

Lemma waitersOf_insert s k ws k' :
  waitersOf (mkSink (<[k := ws]> (waiters s)) (chans s)) k' = if decide (k' = k) then ws else waitersOf s k'.
Proof. unfold waitersOf. cbn. destruct (decide (k' = k)) as [->|]; [by rewrite lookup_insert_eq|by rewrite lookup_insert_ne]. Qed.
Lemma waitersOf_delete s k k' :
  waitersOf (mkSink (delete k (waiters s)) (chans s)) k' = if decide (k' = k) then [] else waitersOf s k'.
Proof. unfold waitersOf. cbn. destruct (decide (k' = k)) as [->|]; [by rewrite lookup_delete_eq|by rewrite lookup_delete_ne]. Qed.

Lemma cancel_waits k ch s k' : sublist (waitersOf (Perf.cancel k ch s) k') (waitersOf s k').
Proof.
  unfold Perf.cancel. destruct (waitersOf s k) as [|w ws] eqn:Ew; [done|].
  assert (sublist (List.filter (fun c => negb (Nat.eqb c ch)) (w :: ws)) (w :: ws)) as Hsub.
  { generalize (w :: ws). intros l. induction l as [|c l IH]; cbn; [constructor|]. destruct (negb _); by constructor. }
  destruct (List.filter _ (w :: ws)) as [|c l].
  - rewrite waitersOf_delete. destruct (decide (k' = k)); [apply sublist_nil_l|done].
  - rewrite waitersOf_insert. destruct (decide (k' = k)) as [->|]; [by rewrite Ew|done].
Qed.
Lemma cancel_chans k ch s : chans (Perf.cancel k ch s) = chans s.
Proof. unfold Perf.cancel. destruct (waitersOf s k); [done|]. by destruct (List.filter _ _). Qed.

Lemma send_waiters t ch s : waiters (send t ch s) = waiters s.
Proof. unfold send. by destruct (chans s !! ch) as [[]|]. Qed.
Lemma send_other t ch s ch' : ch' <> ch -> chans (send t ch s) !! ch' = chans s !! ch'.
Proof. intros Hn. unfold send. destruct (chans s !! ch) as [[]|]; [done| |done]. cbn. by rewrite list_lookup_insert_ne. Qed.
Lemma send_filled t ch s : chans s !! ch = Some None -> chans (send t ch s) !! ch = Some (Some t).
Proof. intros Hc. unfold send. rewrite Hc. cbn. apply list_lookup_insert_eq. by eapply lookup_lt_Some. Qed.

Lemma expect_ok s p k : sinkOk s p -> sinkOk (expect k s).1 p.
Proof.
  intros Hok.
  assert (forall x, length (chans s) ∉ waitsIn s p x) as Hnew.
  { intros x Hx. apply (sk_empty _ _ Hok), lookup_lt_Some in Hx. lia. }
  assert (forall x, waitsIn (expect k s).1 p x
            = if decide (x = InMap k) then (waitersOf s k ++ [length (chans s)])%list else waitsIn s p x) as Hw.
  { intros [k'|j]; [|by rewrite decide_False]. cbn [waitsIn]. unfold expect, waitersOf at 1. cbn.
    destruct (decide (k' = k)) as [->|]; [rewrite decide_True by done; by rewrite lookup_insert_eq|].
    rewrite decide_False by congruence. by rewrite lookup_insert_ne. }
  split.
  + intros x. rewrite Hw. destruct (decide _); [|apply Hok]. apply NoDup_app. split; [apply (sk_once _ _ Hok (InMap k))|].
    split; [|apply NoDup_singleton]. intros c Hc Hn%list_elem_of_singleton. subst c. by apply (Hnew (InMap k)).
  + intros x y c. rewrite !Hw.
    assert (forall z, c ∈ (if decide (z = InMap k) then (waitersOf s k ++ [length (chans s)])%list else waitsIn s p z) ->
      c ∈ waitsIn s p z \/ (z = InMap k /\ c = length (chans s))) as Hcase.
    { intros z. destruct (decide _) as [->|]; [|by left]. intros [Hc|Hc%list_elem_of_singleton]%elem_of_app; [by left|by right]. }
    intros [Hx|[-> ->]]%Hcase [Hy|[-> Hc]]%Hcase; [by eapply Hok|subst; by apply Hnew in Hx|by apply Hnew in Hy|done].
  + intros x c. rewrite Hw. cbn.
    assert (c ∈ waitsIn s p x -> (chans s ++ [None])%list !! c = Some None) as Hold.
    { intros Hc. apply lookup_app_l_Some. by apply (sk_empty _ _ Hok x). }
    destruct (decide _) as [->|]; [|done]. intros [Hc|Hc%list_elem_of_singleton]%elem_of_app; [by apply Hold|subst c].
    by rewrite lookup_app_r, Nat.sub_diag by lia.
Qed.

Lemma take_ok s p t k : sinkOk s p -> sinkOk (takeWaiters k s).1 (p ++ [(t, (takeWaiters k s).2)])%list.
Proof.
  intros Hok.
  assert (forall x, waitsIn (takeWaiters k s).1 (p ++ [(t, (takeWaiters k s).2)])%list x
            = if decide (x = InMap k) then [] else if decide (x = InSignal (length p)) then waitersOf s k else waitsIn s p x) as Hw.
  { intros [k'|j]; cbn [waitsIn takeWaiters fst snd].
    - rewrite waitersOf_delete. destruct (decide (k' = k)) as [->|]; [by rewrite decide_True|].
      rewrite decide_False by congruence. by rewrite decide_False by congruence.
    - rewrite decide_False by done. destruct (decide (InSignal j = InSignal (length p))) as [Hj|Hn].
      + assert (j = length p) as -> by congruence. rewrite lookup_app_r, Nat.sub_diag by lia. done.
      + assert (j <> length p) by congruence. destruct (decide (j < length p)%nat); [by rewrite lookup_app_l|].
        rewrite lookup_app_r by lia. rewrite (lookup_ge_None_2 p) by lia. by destruct (j - length p)%nat as [|[|]] eqn:E; [lia| |]. }
  assert (waitsIn s p (InSignal (length p)) = []) as Hno by (cbn; by rewrite lookup_ge_None_2).
  split.
  + intros x. rewrite Hw. destruct (decide _); [constructor|]. destruct (decide _); [apply (sk_once _ _ Hok (InMap k))|apply Hok].
  + intros x y c. rewrite !Hw. destruct (decide (x = InMap k)), (decide (y = InMap k)); try (intros ? H; by apply elem_of_nil in H);
      try (intros H; by apply elem_of_nil in H).
    destruct (decide (x = _)) as [->|], (decide (y = _)) as [->|]; [done|..].
    * intros Hx Hy. by destruct (sk_place _ _ Hok (InMap k) y c Hx Hy).
    * intros Hx Hy. by destruct (sk_place _ _ Hok (InMap k) x c Hy Hx).
    * intros Hx Hy. by apply (sk_place _ _ Hok x y c).
  + intros x c. rewrite Hw. destruct (decide _); [intros H; by apply elem_of_nil in H|].
    destruct (decide _); [apply (sk_empty _ _ Hok (InMap k))|apply (sk_empty _ _ Hok x)].
Qed.

Lemma send_ok s p i t ch l : p !! i = Some (t, ch :: l) -> sinkOk s p -> sinkOk (send t ch s) (<[i := (t, l)]> p).
Proof.
  intros Hi Hok.
  assert (ch ∈ waitsIn s p (InSignal i)) as Hch by (cbn; rewrite Hi; apply list_elem_of_here).
  eapply sinkOk_fewer; [exact Hok| |].
  + intros [k'|j]; cbn [waitsIn]; [unfold waitersOf; by rewrite send_waiters|].
    destruct (decide (j = i)) as [->|]; [|by rewrite list_lookup_insert_ne].
    rewrite list_lookup_insert_eq by (by eapply lookup_lt_Some). rewrite Hi. by constructor.
  + intros x c Hx Hc. rewrite send_other; [done|]. intros ->.
    pose proof (sk_once _ _ Hok (InSignal i)) as Hd. cbn in Hd. rewrite Hi in Hd. apply NoDup_cons in Hd as [Hd _].
    destruct x as [k'|j]; cbn [waitsIn] in Hx.
    * unfold waitersOf in Hx. rewrite send_waiters in Hx. discriminate (sk_place _ _ Hok (InMap k') (InSignal i) ch Hx Hch).
    * destruct (decide (j = i)) as [->|Hn].
      -- rewrite list_lookup_insert_eq in Hx by (by eapply lookup_lt_Some). done.
      -- rewrite list_lookup_insert_ne in Hx by done.
         assert (InSignal j = InSignal i) by (eapply (sk_place _ _ Hok); [exact Hx|exact Hch]). congruence.
Qed.

Lemma sinkStep_ok c c' : sinkStep c c' -> sinkOk c.1 c.2 -> sinkOk c'.1 c'.2.
Proof.
  destruct 1 as [s p k|s p t k|s p i t ch l Hi|s p k ch|s p ch]; cbn [fst snd]; intros Hok.
  - by apply expect_ok.
  - by apply take_ok.
  - by apply send_ok.
  - eapply sinkOk_fewer; [exact Hok| |].
    + intros [k'|j]; [apply cancel_waits|done].
    + intros x c _. by rewrite cancel_chans.
  - unfold receiveNow. destruct (chans s !! ch) as [[t|]|] eqn:Ec; [|exact Hok|exact Hok]. cbn.
    eapply sinkOk_fewer; [exact Hok|intros [|]; done|]. intros x c _ Hc. cbn.
    destruct (decide (c = ch)) as [->|]; [congruence|]. by rewrite list_lookup_insert_ne.
Qed.

Definition sinkReached (s : webhookSink) (p : signals) : Prop := rtc sinkStep (newWebhookSink, []) (s, p).

Lemma sinkSteps_ok c c' : rtc sinkStep c c' -> sinkOk c.1 c.2 -> sinkOk c'.1 c'.2.
Proof. induction 1 as [|c d c' Hs _ IH]; [done|]. intros Hok. by apply IH, (sinkStep_ok _ _ Hs). Qed.

Lemma sinkReached_ok s p : sinkReached s p -> sinkOk s p.
Proof.
  intros Hr. apply (sinkSteps_ok _ _ Hr).
  assert (forall x, waitsIn newWebhookSink [] x = []) as Hw by (intros [k|i]; done).
  split; cbn [fst snd].
  - intros x. rewrite Hw. constructor.
  - intros x y c. rewrite Hw. intros Hc. by apply elem_of_nil in Hc.
  - intros x c. rewrite Hw. intros Hc. by apply elem_of_nil in Hc.
Qed.

Lemma sends_chans t ws s ch :
  NoDup ws -> (forall c, c ∈ ws -> chans s !! c = Some None) ->
  chans (fold_left (fun s c => send t c s) ws s) !! ch = if decide (ch ∈ ws) then Some (Some t) else chans s !! ch.
Proof.
  revert s. induction ws as [|w ws IH]; intros s Hd He; cbn; [done|]. apply NoDup_cons in Hd as [Hw Hd].
  rewrite IH; [|done|].
  - destruct (decide (ch ∈ ws)) as [Hc|Hc]; [rewrite decide_True by (by apply list_elem_of_further); done|].
    destruct (decide (ch = w)) as [->|Hn].
    + rewrite decide_True by apply list_elem_of_here. apply send_filled, He, list_elem_of_here.
    + rewrite decide_False by (intros [|]%elem_of_cons; done). by apply send_other.
  - intros c Hc. rewrite send_other by (intros Hcw; subst c; contradiction). apply He. by apply list_elem_of_further.
Qed.

Lemma signal_chans t k s p ch :
  sinkOk s p -> chans (signal t k s) !! ch = if decide (ch ∈ waitersOf s k) then Some (Some t) else chans s !! ch.
Proof.
  intros Hok. unfold signal, takeWaiters. rewrite sends_chans; [done|apply (sk_once _ _ Hok (InMap k))|].
  intros c Hc. exact (sk_empty _ _ Hok (InMap k) c Hc).
Qed.

(** *** The endpoint *)

Lemma webhookPayload_value e occurredAt :
  valueOf (webhookPayload e occurredAt) =
  VObj [("amount", VNum (FormatInt (EAmount e))); ("biz_type", VStr (EBizType e)); ("event_id", VStr (EventID e));
        ("event_type", VStr (webhookEventType e)); ("merchant_no", VStr (EMerchantNo e));
        ("occurred_at", VStr (formatRFC3339Nano occurredAt)); ("out_trade_no", VStr (EOutTradeNo e));
        ("status", VStr (EStatus e)); ("transfer_scene", VStr (ETransferScene e)); ("txn_no", VStr (ETxnNo e))].
Proof. reflexivity. Qed.

Lemma endpoint_signals e occurredAt maxBodyBytes doneAt s :
  validText (webhookPayload e occurredAt) = true -> slen (marshal (webhookPayload e occurredAt)) <= maxBodyBytes ->
  TrimSpace (EOutTradeNo e) <> "" ->
  webhookEndpoint maxBodyBytes (marshal (webhookPayload e occurredAt)) doneAt s = (signal doneAt (EOutTradeNo e) s, 200).
Proof.
  intros Hv Hl Hn. unfold webhookEndpoint. rewrite limitTo_all by done.
  rewrite parse_marshal by (done || (vm_compute; discriminate)). rewrite webhookPayload_value.
  change (lastMember "out_trade_no" _) with (Some (VStr (EOutTradeNo e))). cbn match.
  by rewrite (proj2 (String.eqb_neq _ _)).
Qed.

(** [C37] Webhooks reach the requests that wait for them.  However the goroutines
    interleave, a signal under way always finds room in the channel it sends to
    next, so none is dropped; and the webhook of an event, as the webhook worker
    posts it, is answered 200 and puts its time into the channels that wait for
    its order number and into no other. *)
Theorem webhook_wakes_waiters s p :
  sinkReached s p ->
  (forall i t ch l, p !! i = Some (t, ch :: l) -> chans s !! ch = Some None) /\
  forall e occurredAt maxBodyBytes doneAt,
    validText (webhookPayload e occurredAt) = true -> slen (marshal (webhookPayload e occurredAt)) <= maxBodyBytes ->
    TrimSpace (EOutTradeNo e) <> "" ->
    let '(s', status) := webhookEndpoint maxBodyBytes (marshal (webhookPayload e occurredAt)) doneAt s in
    status = 200 /\ forall ch, chans s' !! ch = if decide (ch ∈ waitersOf s (EOutTradeNo e)) then Some (Some doneAt) else chans s !! ch.
Proof.
  intros Hok%sinkReached_ok. split.
  - intros i t ch l Hi. apply (sk_empty _ _ Hok (InSignal i)). cbn. rewrite Hi. apply list_elem_of_here.
  - intros e occurredAt maxBodyBytes doneAt Hv Hl Hn. rewrite endpoint_signals by done. split; [done|].
    intros ch. by apply (signal_chans _ _ _ p).
Qed.

(** ** The checks of a scenario *)

(** A row as the SDK calls leave it: accepted, or without a webhook. *)
Definition shaped (r : resultRow) : Prop :=
  if SubmitOK r then StatusCode r = 201 /\ Code r = "SUCCESS" /\ TransportErr r = "" else E2EOK r = false.
(** The request was accepted and its webhook arrived. *)
Definition delivered (r : resultRow) : bool := SubmitOK r && E2EOK r.

Definition cleanTally (n : Z) (t : tally) : Prop :=
  t_submit t = n /\ t_e2e t = n /\ t_5xx t = 0 /\ t_409 t = 0 /\ t_4xx t = 0 /\ t_transport t = 0 /\
  t_codes t = (if n =? 0 then ∅ else {["SUCCESS" := n]}).

Lemma countRow_delivered mode t n r :
  mode <> "submit" -> 0 <= n -> shaped r -> delivered r = true -> cleanTally n t -> cleanTally (n + 1) (countRow mode t r).
Proof.
  intros Hm Hn Hs Hd (H1 & H2 & H3 & H4 & H5 & H6 & H7). unfold delivered in Hd. bools.
  unfold shaped in Hs. rewrite H in Hs. destruct Hs as (Hst & Hc & Ht).
  destruct t as [su e2 c5 c9 c4 tr codes errs sl el]. cbn in *. subst. unfold countRow. rewrite Hst, Hc, Ht, H, H0.
  rewrite (proj2 (String.eqb_neq mode "submit")) by done. cbn. unfold cleanTally. cbn. split; [done|]. do 5 (split; [done|]).
  destruct (Z.eqb_spec (n + 1) 0); [lia|]. unfold bump. destruct (Z.eqb_spec n 0) as [->|].
  - rewrite lookup_empty. apply map_eq. intros k. by rewrite lookup_insert, lookup_singleton.
  - rewrite lookup_singleton_eq. cbn. by rewrite insert_singleton_eq.
Qed.

Lemma countRows_delivered mode rows n t :
  mode <> "submit" -> 0 <= n -> Forall shaped rows -> Forall (fun r => delivered r = true) rows -> cleanTally n t ->
  cleanTally (n + lenZ rows) (fold_left (countRow mode) rows t).
Proof.
  intros Hm. revert n t. induction rows as [|r rows IH]; intros n t Hn Hs Hd Ht; [by unfold lenZ; rewrite Z.add_0_r|].
  apply Forall_cons in Hs as [Hr Hs]. apply Forall_cons in Hd as [Hd1 Hd]. cbn [fold_left]. unfold lenZ in *. cbn [length].
  replace (n + Z.of_nat (S (length rows))) with (n + 1 + Z.of_nat (length rows)) by lia.
  apply IH; [lia|done..|]. by apply countRow_delivered.
Qed.

(** A row adds at most one to what was accepted and to what was delivered. *)
Lemma countRow_submit mode t r : t_submit (countRow mode t r) <= t_submit t + Z.b2z (SubmitOK r).
Proof.
  destruct t. unfold countRow. destruct (negb (String.eqb (TransportErr r) "")); cbn; [destruct (SubmitOK r); cbn; lia|].
  destruct (String.eqb mode "submit"), (E2EOK r), (SubmitOK r); cbn; lia.
Qed.
Lemma countRow_e2e mode t r : t_e2e (countRow mode t r) <= t_e2e t + Z.b2z (E2EOK r).
Proof.
  destruct t. unfold countRow. destruct (negb (String.eqb (TransportErr r) "")); cbn; [destruct (E2EOK r); cbn; lia|].
  destruct (String.eqb mode "submit"), (E2EOK r), (SubmitOK r); cbn; lia.
Qed.

Lemma countRows_all (count : tally -> Z) (ok : resultRow -> bool) mode rows t :
  (forall t r, count (countRow mode t r) <= count t + Z.b2z (ok r)) ->
  let n := count (fold_left (countRow mode) rows t) in
  n <= count t + lenZ rows /\ (n = count t + lenZ rows -> Forall (fun r => ok r = true) rows).
Proof.
  intros Hc. unfold lenZ. revert t. induction rows as [|r rows IH]; intros t; cbn [fold_left length]; [split; [lia|constructor]|].
  destruct (IH (countRow mode t r)) as [H1 H2]. pose proof (Hc t r) as H3. destruct (ok r) eqn:Eo; cbn in H3; split; try lia.
  intros He. constructor; [done|]. apply H2. lia.
Qed.

(** The checks of a scenario pass exactly when there were requests and each
    was accepted and followed by its webhook: no other outcome adds up. *)
Lemma scenario_checks_rows stage mode rows submitElapsed elapsed :
  mode <> "submit" -> Forall shaped rows ->
  assertScenarioMetrics stage (aggregate rows submitElapsed elapsed mode) true = None <->
  rows <> [] /\ Forall (fun r => delivered r = true) rows.
Proof.
  intros Hm Hs. unfold assertScenarioMetrics, aggregate.
  cbn [m_Total SubmitSuccess E2ESuccess HTTP5xx HTTP409 HTTP4xxOther m_TransportErr ErrorCodeHistogram].
  set (t := fold_left (countRow mode) rows noTally). split.
  - intros He. assert (lenZ rows <> 0) as Hl by (intros E; by rewrite E in He).
    case_hyps He; [done..|]. bools.
    destruct (countRows_all t_submit SubmitOK mode rows noTally (countRow_submit mode)) as [_ A1].
    destruct (countRows_all t_e2e E2EOK mode rows noTally (countRow_e2e mode)) as [_ A2].
    split; [by intros ->|]. fold t in A1, A2. specialize (A1 ltac:(cbn; lia)). specialize (A2 ltac:(cbn; lia)).
    apply Forall_forall. intros r Hr. unfold delivered. rewrite Forall_forall in A1, A2. by rewrite A1, A2.
  - intros [Hne Hd]. assert (0 < lenZ rows) as Hl by (unfold lenZ; destruct rows; [done|cbn; lia]).
    destruct (countRows_delivered mode rows 0 noTally Hm ltac:(lia) Hs Hd) as (H1 & H2 & H3 & H4 & H5 & H6 & H7).
    { unfold cleanTally. cbn. done. }
    fold t in H1, H2, H3, H4, H5, H6, H7. rewrite Z.add_0_l in *. rewrite H1, H2, H3, H4, H5, H6, H7.
    assert ((lenZ rows <=? 0) = false) as -> by lia. assert ((lenZ rows =? 0) = false) as -> by lia.
    change (0 =? 0) with true. rewrite Z.eqb_refl. cbn [negb orb andb]. by rewrite lookup_singleton_eq, Z.eqb_refl.
Qed.

(** ** Latencies *)

Lemma nth_elem vals i : 0 <= i < lenZ vals -> nthD vals i ∈ vals.
Proof. unfold nthD, lenZ, Duration. intros Hi. apply list_elem_of_In, nth_In. lia. Qed.

Lemma sorted_nth vals i j :
  StronglySorted (fun a b => Z.leb a b = true) vals -> 0 <= i <= j -> j < lenZ vals -> nthD vals i <= nthD vals j.
Proof.
  intros Hs. revert i j. induction Hs as [|v vals _ IH Hall]; intros i j Hi Hj; unfold lenZ in *; cbn [length] in *; [lia|].
  unfold nthD, Duration in *. destruct (decide (i = 0)) as [->|].
  - destruct (Z.to_nat j) as [|k] eqn:Ek; [done|]. cbn [nth]. change (Z.to_nat 0) with O. cbn [nth].
    rewrite Forall_forall in Hall. apply Z.leb_le, Hall, list_elem_of_In, nth_In. lia.
  - replace (Z.to_nat i) with (S (Z.to_nat (i - 1))) by lia. replace (Z.to_nat j) with (S (Z.to_nat (j - 1))) by lia.
    cbn [nth]. apply IH; lia.
Qed.

(** The rank of a percentile. *)
Definition rank (n p : Z) : Z := (n - 1) * p / 100.
Lemma rank_bounds n p : 0 < n -> 0 <= p <= 100 -> 0 <= rank n p < n.
Proof. intros Hn Hp. unfold rank. split; [apply Z.div_pos; nia|]. apply Z.div_lt_upper_bound; nia. Qed.
Lemma rank_mono n p q : 0 < n -> p <= q -> rank n p <= rank n q.
Proof. intros Hn Hp. unfold rank. apply Z.div_le_mono; nia. Qed.

Lemma percentile_rank (vals : list Z) p :
  0 < lenZ vals -> lenZ vals * 100 <= MaxInt64 -> 0 < p < 100 -> percentile vals p = nthD vals (rank (lenZ vals) p).
Proof.
  intros Hl Hm Hp. unfold percentile, rank. change Duration with Z in *. assert ((lenZ vals =? 0) = false) as -> by lia.
  assert ((p <=? 0) = false) as -> by lia. assert ((100 <=? p) = false) as -> by lia.
  rewrite wrap64_id by (unfold in64, MinInt64, MaxInt64 in *; nia). by rewrite Z.quot_div_nonneg by nia.
Qed.

(** The latencies reported are those of requests, in their order: the
    minimum and the maximum bound all of them, and the percentiles lie between,
    the higher the later. *)
Lemma latencies_ordered (vals : list Z) :
  vals <> [] -> lenZ vals * 100 <= MaxInt64 ->
  let l := calcLatency vals in
  ls_Min l <= ls_P50 l <= ls_P95 l /\ ls_P95 l <= ls_P99 l <= ls_Max l /\
  Forall (fun v => ls_Min l <= v <= ls_Max l) vals /\ Forall (fun v => v ∈ vals) [ls_Min l; ls_P50 l; ls_P95 l; ls_P99 l; ls_Max l].
Proof.
  intros Hne Hm. cbv zeta. set (s := sort_by Z.leb vals).
  assert (lenZ s = lenZ vals) as Hl by (unfold lenZ, s; by rewrite sort_by_perm).
  assert (0 < lenZ vals) as H0 by (unfold lenZ; destruct vals; [done|cbn; lia]).
  assert (StronglySorted (fun a b => Z.leb a b = true) s) as Hs by (apply sort_by_sorted; [intros a b; lia|intros a b c; lia]).
  assert (forall i, 0 <= i < lenZ s -> nthD s i ∈ vals) as Hin by (intros i Hi; by apply (elem_of_sort_by Z.leb vals), nth_elem).
  unfold calcLatency. change Duration with Z in *. assert ((lenZ vals =? 0) = false) as -> by lia. fold s. cbn [ls_Min ls_P50 ls_P95 ls_P99 ls_Max].
  rewrite !percentile_rank by (rewrite ?Hl; lia).
  pose proof (rank_bounds (lenZ s) 50 ltac:(lia) ltac:(lia)). pose proof (rank_bounds (lenZ s) 95 ltac:(lia) ltac:(lia)).
  pose proof (rank_bounds (lenZ s) 99 ltac:(lia) ltac:(lia)).
  pose proof (rank_mono (lenZ s) 50 95 ltac:(lia) ltac:(lia)). pose proof (rank_mono (lenZ s) 95 99 ltac:(lia) ltac:(lia)).
  split; [split; apply sorted_nth; (done || lia)|]. split; [split; apply sorted_nth; (done || lia)|]. split.
  - apply Forall_forall. intros v Hv. apply (elem_of_sort_by Z.leb) in Hv. fold s in Hv.
    apply list_elem_of_In, (In_nth _ _ 0) in Hv as (i & Hlt & Hi).
    assert (nthD s (Z.of_nat i) = v) as <- by (unfold nthD; by rewrite Nat2Z.id).
    split; apply sorted_nth; unfold lenZ in *; (done || lia).
  - repeat constructor; apply Hin; lia.
Qed.

(** ** A run *)

Section Run.
Context {PF : Platform} {CP : CodeProvider} {E T : Type} {UP : UrlParser} {SE : SdkEnv E T} {PE : PerfEnv E}.

Lemma fire_shaped no requireWebhook (submit : @Call E TxnSubmitResponse) e :
  shaped (fireSDKSubmitOnce no requireWebhook submit e).2.
Proof.
  unfold fireSDKSubmitOnce, shaped.
  destruct (if requireWebhook then _ else _) as [e1 done], (env_now e1) as [e2 t1], (submit e2) as [e3 [x|r]], (env_now e3) as [e4 t2].
  - by destruct x.
  - done.
Qed.

Lemma await_shaped row timeout e : shaped row -> shaped (awaitWebhookResult row timeout e).2.
Proof.
  intros Hs. unfold awaitWebhookResult. destruct (SubmitOK row) eqn:Eo, (WebhookDone row) as [ch|]; [|done..].
  destruct (env_now e) as [e1 now]. unfold shaped in *. rewrite Eo in Hs. case_goal; cbn; [by rewrite Eo|].
  destruct (await ch _ e1) as [e2 [t|]]; cbn; by rewrite Eo.
Qed.

Lemma awaitAll_shaped rows timeout e :
  Forall shaped rows -> Forall shaped (awaitAll rows timeout e).2 /\ length (awaitAll rows timeout e).2 = length rows.
Proof.
  intros Hs. revert e. induction Hs as [|row rows Hr _ IH]; intros e; cbn; [done|].
  set (p := if _ && _ then awaitWebhookResult row timeout e else (e, row)).
  assert (shaped p.2) as Hp by (unfold p; case_match; [by apply await_shaped|done]).
  destruct p as [e1 row1]. specialize (IH e1). destruct (awaitAll rows timeout e1) as [e2 rows1]. destruct IH as [H1 H2].
  cbn in *. split; [by constructor|by rewrite H2].
Qed.

Lemma runLoad_rows jobs concurrency timeout mode requireWebhook (e : E) :
  jobs <> [] -> Forall (fun job => forall w e1, shaped (job w e1).2) jobs ->
  let '(rows, m) := (runLoad jobs concurrency timeout mode requireWebhook e).2 in
  Forall shaped rows /\ lenZ rows = lenZ jobs /\ exists a b, m = aggregate rows a b mode.
Proof.
  intros Hne Hj. unfold runLoad. destruct (env_now e) as [e1 start].
  set (n := if lenZ jobs <? _ then _ else _).
  assert (0 < n) as Hn by (unfold n, lenZ; destruct jobs; [done|cbn [length]; repeat case_match; lia]).
  pose proof (parallel_all _ n jobs e1 Hn) as Hl. pose proof (parallel_from _ shaped n jobs e1 Hj) as Hs.
  destruct (parallel n jobs e1) as [e2 rows]. cbn in Hl, Hs. destruct (env_now e2) as [e3 submitted].
  set (p := if requireWebhook then awaitAll rows timeout e3 else (e3, rows)).
  assert (Forall shaped p.2 /\ length p.2 = length rows) as [H1 H2] by (unfold p; destruct requireWebhook; [by apply awaitAll_shaped|done]).
  destruct p as [e4 rows1]. destruct (env_now e4) as [e5 finished]. cbn in *. unfold lenZ. rewrite H2, Hl. eauto.
Qed.

Lemma byCount_rows n concurrency timeout mode fire (e : E) :
  0 < n -> (forall nonce e1, shaped (fire nonce e1).2) ->
  let '(rows, m) := (runLoadByRequestCount n concurrency timeout mode true fire e).2 in
  Forall shaped rows /\ lenZ rows = n /\ exists a b, m = aggregate rows a b mode.
Proof.
  intros Hn Hf. unfold runLoadByRequestCount. assert ((n <=? 0) = false) as -> by lia.
  set (jobs := map _ _). pose proof (runLoad_rows jobs concurrency timeout mode true e) as H.
  destruct (runLoad jobs concurrency timeout mode true e) as [e1 [rows m]]. cbn in *.
  assert (lenZ jobs = n) as Hl by (unfold lenZ, jobs; rewrite length_map, length_seq; lia). rewrite <- Hl. apply H.
  - intros E0. rewrite <- Hl, E0 in Hn. done.
  - apply Forall_forall. intros job Hj w e2. apply list_elem_of_In, in_map_iff in Hj as (i & <- & _). apply Hf.
Qed.

Lemma byOrigin_rows nos concurrency timeout mode fire (e : E) :
  nos <> [] -> (forall nonce no e1, shaped (fire nonce no e1).2) ->
  let '(rows, m) := (runLoadByOriginTxnNos nos concurrency timeout mode true fire e).2 in
  Forall shaped rows /\ lenZ rows = lenZ nos /\ exists a b, m = aggregate rows a b mode.
Proof.
  intros Hn Hf. unfold runLoadByOriginTxnNos. assert ((lenZ nos =? 0) = false) as ->.
  { apply Z.eqb_neq. unfold lenZ. destruct nos; [done|]. simpl. lia. }
  set (jobs := imap _ _). pose proof (runLoad_rows jobs concurrency timeout mode true e) as H.
  destruct (runLoad jobs concurrency timeout mode true e) as [e1 [rows m]]. cbn in *.
  assert (lenZ jobs = lenZ nos) as Hl by (unfold lenZ, jobs; by rewrite length_imap). rewrite <- Hl. apply H.
  - intros E0. rewrite E0 in Hl. unfold lenZ in Hl. destruct nos; [done|cbn [length] in Hl; lia].
  - apply Forall_forall. intros job Hj w e2. apply list_elem_of_lookup_1 in Hj as [i Hi].
    unfold jobs in Hi. rewrite list_lookup_imap in Hi. destruct (nos !! i); [|done]. injection Hi as <-. apply Hf.
Qed.
End Run.

(** What a scenario that passed has counted. *)
Definition allDelivered (n : Z) (m : metrics) : Prop :=
  m_Total m = n /\ SubmitSuccess m = n /\ E2ESuccess m = n /\ m_TransportErr m = 0 /\ HTTP5xx m = 0 /\ HTTP409 m = 0 /\
  HTTP4xxOther m = 0 /\ ErrorCodeHistogram m !! "SUCCESS" = Some n.

Lemma metrics_pass stage m : assertScenarioMetrics stage m true = None -> allDelivered (m_Total m) m.
Proof.
  unfold assertScenarioMetrics, allDelivered. intros He. case_hyps He; [done..|]. bools. by repeat split; (lia || congruence).
Qed.

(** A request that was accepted and whose webhook arrived in time. *)
Definition went_through (r : resultRow) : Prop :=
  SubmitOK r = true /\ StatusCode r = 201 /\ Code r = "SUCCESS" /\ TransportErr r = "" /\ E2EOK r = true.

(** The checks of the figures are checks of the rows. *)
Lemma metrics_rows stage mode rows a b :
  mode <> "submit" -> Forall shaped rows -> assertScenarioMetrics stage (aggregate rows a b mode) true = None ->
  allDelivered (lenZ rows) (aggregate rows a b mode) /\ Forall went_through rows /\ rows <> [].
Proof.
  intros Hm Hs He. pose proof (proj1 (scenario_checks_rows stage mode rows a b Hm Hs) He) as [Hne Hd].
  split; [|split; [|done]].
  - by apply metrics_pass in He.
  - clear He. rewrite Forall_forall in *. intros r Hr. specialize (Hs r Hr). specialize (Hd r Hr).
    unfold delivered in Hd. bools. unfold shaped in Hs. rewrite H in Hs. destruct Hs as (? & ? & ?). by repeat split.
Qed.

Lemma uniqueTxnNos_nodup stage seen nos :
  uniqueTxnNos stage seen nos = None ->
  NoDup (map TrimSpace nos) /\ Forall (fun no => TrimSpace no <> "" /\ TrimSpace no ∉ seen) nos.
Proof.
  revert seen. induction nos as [|no nos IH]; intros seen; cbn; [split; constructor|].
  destruct (String.eqb_spec (TrimSpace no) ""); [done|]. case_bool_decide as Hin; [done|].
  intros [Hnd Hall]%IH. split.
  - apply NoDup_cons. split; [|done]. intros (no' & He & Hn)%list_elem_of_fmap_1.
    rewrite Forall_forall in Hall. destruct (Hall no' Hn) as [_ Hno]. set_solver.
  - constructor; [done|]. eapply Forall_impl; [exact Hall|]. cbn. intros x [? ?]. split; [done|set_solver].
Qed.

(** Every row that went through with a number has it collected. *)
Lemma collected_all rows :
  lenZ (collectSucceededTxnNos rows) = lenZ rows -> collectSucceededTxnNos rows = map rr_TxnNo rows.
Proof.
  unfold collectSucceededTxnNos, lenZ. rewrite length_map. intros Hl.
  assert (forall (p : resultRow -> bool) l, length (List.filter p l) = length l -> List.filter p l = l) as Hf.
  { intros p l. induction l as [|x l IH]; cbn; [done|]. destruct (p x); cbn; intros E; [by rewrite IH by lia|].
    pose proof (filter_length_le p l). lia. }
  rewrite Hf by lia. done.
Qed.

Section Whole.
Context {PF : Platform} {CP : CodeProvider} {E T : Type} {UP : UrlParser} {SE : SdkEnv E T} {PE : PerfEnv E}.
Context (cfg : perfConfig) (rt : perfRuntime) (client : option (@Client E T)).

Lemma bindR_ok {A B} (m : @Run E A) (f : A -> @Run E B) e e' b :
  bindR m f e = (e', Ok b) -> exists e1 a, m e = (e1, Ok a) /\ f a e1 = (e', Ok b).
Proof. unfold bindR. destruct (m e) as [e1 [x|a]]; [done|]. eauto. Qed.
Lemma checkR_ok r (e e' : E) x : checkR r e = (e', Ok x) -> r = None /\ e' = e.
Proof. unfold checkR. destruct r; [done|]. by intros [= <- <-]. Qed.
Lemma callR_ok {A} (f : E -> E * A) e e' a : callR f e = (e', Ok a) -> f e = (e', a).
Proof. unfold callR. destruct (f e) as [e1 b]. by intros [= <- <-]. Qed.
Lemma onDB_ok {A} (m : M A) (e e' : E) a : onDB m e = (e', Ok a) -> m (worldOf e) = (worldOf e', Ok a).
Proof.
  intros He. pose proof (onDB_result A m e) as Hr. pose proof (onDB_world A m e) as Hw. rewrite He in Hr, Hw. cbn in *.
  destruct (m (worldOf e)) as [w r]. cbn in *. congruence.
Qed.

(** *** Balances *)

Definition stands (no : string) (balance : Z) (e : E) : Prop :=
  exists a, accounts (w_db (worldOf e)) !! no = Some a /\ ar_balance a = balance.

Lemma balanceOf_ok msg no w w' z :
  balanceOf msg no w = (w', Ok z) ->
  w_db w' = w_db w /\ exists a, accounts (w_db w) !! no = Some a /\ ar_balance a = z.
Proof.
  unfold balanceOf. intros (w1 & o & Hg & Hr)%bind_ok. apply GetAccount_ok in Hg as [Hd Ha].
  destruct o as [x|]; [|done]. apply ret_ok in Hr as [-> ->]. split; [done|].
  destruct (Ha x eq_refl) as (r & Hr & ->). by exists r.
Qed.

(** The balances [b] in the tables. *)
Definition standing (b : balances) (e : E) : Prop :=
  stands (TransferFromAccountNo rt) (bl_from b) e /\ stands (TransferBookToAccount rt) (bl_book b) e /\
  stands (TransferToAccountNo rt) (bl_to b) e /\ stands (BookToBookFromAccountNo rt) (bl_b2bFrom b) e /\
  stands (BookToBookTargetAccountNo rt) (bl_b2bTarget b) e.

Lemma snapshot_standing b (e e' : E) : snapshot rt e = (e', Ok b) -> standing b e /\ standing b e'.
Proof.
  unfold snapshot. intros (e1 & [[f k] o] & H1 & H2)%bindR_ok. apply bindR_ok in H2 as (e2 & [bf bt] & H2 & H3).
  injection H3 as <- <-. apply onDB_ok in H1, H2. unfold snapshotBalances in H1. unfold snapshotBookToBookBalances in H2.
  apply bind_ok in H1 as (w1 & z1 & [Hd1 A1]%balanceOf_ok & H1). apply bind_ok in H1 as (w2 & z2 & [Hd2 A2]%balanceOf_ok & H1).
  apply bind_ok in H1 as (w3 & z3 & [Hd3 A3]%balanceOf_ok & [Hw3 [= -> -> ->]]%ret_ok).
  apply bind_ok in H2 as (w4 & z4 & [Hd4 A4]%balanceOf_ok & H2).
  apply bind_ok in H2 as (w5 & z5 & [Hd5 A5]%balanceOf_ok & [Hw5 [= -> ->]]%ret_ok).
  assert (w_db (worldOf e1) = w_db (worldOf e)) as H1 by congruence.
  assert (w_db (worldOf e2) = w_db (worldOf e)) as H2 by congruence.
  assert (w_db w4 = w_db (worldOf e)) as H4 by congruence.
  unfold standing, stands. cbn. rewrite H2. rewrite H1 in A4. rewrite H4 in A5. rewrite Hd1 in A2. rewrite Hd2, Hd1 in A3. tauto.
Qed.

(** *** Scenarios *)

(** [rows] are those of [n] requests, all of which went through, and [m] is
    what was counted. *)
Definition clean (mode : string) (n : Z) (rows : list resultRow) (m : metrics) : Prop :=
  lenZ rows = n /\ Forall went_through rows /\ Mode m = mode /\ allDelivered n m.

(** A scenario of transfers and the one that refunds them, as [run] fires them:
    the transfers have numbers of their own, and each was refunded once. *)
Definition transfers_and_refunds (mode back : string) (fire : @scenarioFireFn E) (fireBack : @refundFireFn E)
    (m mBack : metrics) : Prop :=
  exists e1 e2 e3 e4 rows rowsBack,
    runLoadByRequestCount (RequestCount cfg) (Concurrency cfg) (WebhookWaitTimeout cfg) mode true fire e1 = (e2, (rows, m)) /\
    clean mode (RequestCount cfg) rows m /\ NoDup (map TrimSpace (map rr_TxnNo rows)) /\
    runLoadByOriginTxnNos (map rr_TxnNo rows) (Concurrency cfg) (WebhookWaitTimeout cfg) back true fireBack e3
      = (e4, (rowsBack, mBack)) /\
    clean back (RequestCount cfg) rowsBack mBack.

Lemma aggregate_mode rows a b mode : Mode (aggregate rows a b mode) = mode.
Proof. done. Qed.

Lemma transferScenario_ok mode fire bookChanges check (e e' : E) origins m :
  mode <> "submit" -> (forall nonce e1, shaped (fire nonce e1).2) ->
  transferScenario cfg mode fire bookChanges check e = (e', Ok (origins, m)) ->
  exists e1 rows, runLoadByRequestCount (RequestCount cfg) (Concurrency cfg) (WebhookWaitTimeout cfg) mode true fire e
      = (e1, (rows, m)) /\
    clean mode (RequestCount cfg) rows m /\ NoDup (map TrimSpace (map rr_TxnNo rows)) /\ origins = map rr_TxnNo rows.
Proof.
  intros Hm Hf He. unfold transferScenario in He. apply bindR_ok in He as (e1 & [rows m1] & H1 & He). apply callR_ok in H1.
  apply bindR_ok in He as (e2 & [] & H2 & He). apply checkR_ok in H2 as [H2 ->].
  destruct (lenZ _ =? 0) eqn:E0; [done|]. destruct (negb (_ =? m_Total m1)) eqn:En; [done|].
  apply bindR_ok in He as (e3 & [] & H3 & He). apply checkR_ok in H3 as [H3 ->].
  apply bindR_ok in He as (e4 & [] & _ & He). apply bindR_ok in He as (e5 & [] & _ & He).
  injection He as <- <- <-. bools. destruct (Z.leb_spec (RequestCount cfg) 0) as [Hz|Hz].
  { unfold runLoadByRequestCount in H1. rewrite (proj2 (Z.leb_le _ _) Hz) in H1. injection H1 as <- <- <-. done. }
  pose proof (byCount_rows (RequestCount cfg) (Concurrency cfg) (WebhookWaitTimeout cfg) mode fire e Hz Hf) as Hrows.
  rewrite H1 in Hrows. cbn in Hrows. destruct Hrows as (Hs & Hl & a & b & ->).
  destruct (metrics_rows _ _ _ _ _ Hm Hs H2) as (Hall & Hw & _). rewrite Hl in Hall.
  assert (collectSucceededTxnNos rows = map rr_TxnNo rows) as Ho by (apply collected_all; exact En).
  exists e1, rows. split; [done|]. split; [done|]. split; [|done]. rewrite <- Ho. by apply uniqueTxnNos_nodup in H3 as [H3 _].
Qed.

Lemma refundScenario_ok mode origins fire bookChanges check (e e' : E) m :
  mode <> "submit" -> origins <> [] -> (forall nonce no e1, shaped (fire nonce no e1).2) ->
  refundScenario cfg mode origins fire bookChanges check e = (e', Ok m) ->
  exists e1 rows, runLoadByOriginTxnNos origins (Concurrency cfg) (WebhookWaitTimeout cfg) mode true fire e = (e1, (rows, m)) /\
    clean mode (lenZ origins) rows m.
Proof.
  intros Hm Hne Hf He. unfold refundScenario in He. apply bindR_ok in He as (e1 & [rows m1] & H1 & He). apply callR_ok in H1.
  apply bindR_ok in He as (e2 & [] & H2 & He). apply checkR_ok in H2 as [H2 ->].
  apply bindR_ok in He as (e3 & [] & _ & He). apply bindR_ok in He as (e4 & [] & _ & He).
  apply bindR_ok in He as (e5 & [] & _ & He). injection He as <- <-. cbn [snd] in *.
  pose proof (byOrigin_rows origins (Concurrency cfg) (WebhookWaitTimeout cfg) mode fire e Hne Hf) as Hrows.
  rewrite H1 in Hrows. cbn in Hrows. destruct Hrows as (Hs & Hl & a & b & ->).
  destruct (metrics_rows _ _ _ _ _ Hm Hs H2) as (Hall & Hw & _). rewrite Hl in Hall. by exists e1, rows.
Qed.

Lemma pairOf_ok mode back fire fireBack k check checkBack (e e' : E) ms :
  mode <> "submit" -> back <> "submit" ->
  (forall nonce e1, shaped (fire nonce e1).2) -> (forall nonce no e1, shaped (fireBack nonce no e1).2) ->
  bindR (transferScenario cfg mode fire k check) (fun t =>
    bindR (refundScenario cfg back t.1 fireBack k checkBack) (fun r => retR (t.2, r))) e = (e', Ok ms) ->
  transfers_and_refunds mode back fire fireBack ms.1 ms.2.
Proof.
  intros Hm Hb Hf Hfb He. apply bindR_ok in He as (e1 & [origins m] & H1 & He). apply bindR_ok in He as (e2 & r & H2 & He).
  injection He as <- <-. apply transferScenario_ok in H1 as (e3 & rows & H1 & Hc & Hnd & ->); [|done..].
  pose proof Hc as (Hl & _ & _ & Ht & _). cbn [fst snd] in *.
  assert (map rr_TxnNo rows <> []) as Hne.
  { intros E0. apply map_eq_nil in E0. subst rows. revert H1 Ht. unfold runLoadByRequestCount.
    cbn in Hl. rewrite <- Hl. cbn. intros [= _ <-]. done. }
  apply refundScenario_ok in H2 as (e4 & rowsBack & H2 & Hcb); [|done..].
  assert (lenZ (map rr_TxnNo rows) = RequestCount cfg) as Hn by (unfold lenZ in *; by rewrite length_map).
  rewrite Hn in Hcb. by exists e, e3, e1, e4, rows, rowsBack.
Qed.

End Whole.
