(* ===== verification/Progress.v ===== *)
(** * Progress: a submitted transfer goes through

    [total m w R]: on a connection without faults, [m] returns a value and
    leaves tables of which [R] holds.  It composes over the monad and the
    transaction bracket; with it, the two stages of a transfer between plain
    accounts are shown to be applied by the two workers that take it from
    their queues. *)

From S2P Require Import Prelude GoBase Domain Codes Store Queries Reads Ledger Repo Processor Invariant Books LedgerProofs StageProofs Secrets Calls Grow System Safety Typed BookRules QueueProofs.
From stdpp Require Import base gmap list strings.
From Stdlib Require Import ZArith Lia.

Local Open Scope string_scope.
Local Open Scope Z_scope.

(** ** Calls that cannot fail *)

Definition total {A} (m : M A) (w : World) (R : DB -> A -> Prop) : Prop :=
  exists w' a, m w = (w', Ok a) /\ w_faults w' = [] /\ R (w_db w') a.

Lemma total_ret {A} (a : A) w R : w_faults w = [] -> R (w_db w) a -> total (ret a) w R.
Proof. intros. by exists w, a. Qed.

Lemma total_bind {A B} (m : M A) (k : A -> M B) w R S :
  total m w R -> (forall w' a, w_faults w' = [] -> R (w_db w') a -> total (k a) w' S) -> total (bind m k) w S.
Proof.
  intros (w1 & a & Hm & Hf & HR) Hk. destruct (Hk w1 a Hf HR) as (w2 & b & Hb & Hf' & HS).
  exists w2, b. by rewrite (bind_run _ _ _ _ _ Hm).
Qed.

Lemma total_run {A} (q : Q A) w R :
  w_faults w = [] -> (forall t, exists d a, q t (w_db w) = Ok (d, a) /\ R d a) -> total (run q) w R.
Proof.
  intros Hf Hq. destruct (Hq (w_txnow w)) as (d & a & E & HR). exists (with_db d (with_faults [] w)), a.
  by rewrite run_nofault, E by done.
Qed.

Lemma total_auto {A} (q : Q A) w R :
  w_faults w = [] -> (forall t, exists d a, q t (w_db w) = Ok (d, a) /\ R d a) -> total (auto q) w R.
Proof.
  intros Hf Hq. apply (total_bind _ _ _ (fun d _ => d = w_db w)).
  - eexists _, tt. by split; [reflexivity|].
  - intros w' [] Hf' Hd. apply total_run; [done|]. by rewrite Hd.
Qed.

Lemma total_failing w R : w_faults w = [] -> R (w_db w) tt -> total (failing None) w R.
Proof. intros. by exists w, tt. Qed.

Lemma total_or_norows {A} e (m : M A) w R : total m w R -> total (or_norows e m) w R.
Proof. intros (w' & a & E & HR). exists w', a. unfold or_norows. by rewrite E. Qed.

(** ** The statements of a stage *)

Section Stage.
Context `{Platform} `{CodeProvider}.

(** What a movement of a plain account does to the tables. *)
Definition shifted (no : string) (r : AccountRow) (delta : Z) (d d' : DB) : Prop :=
  txns d' = txns d /\ webhooks d' = webhooks d /\
  accounts d' = <[no := ar_set_balance (wrap64 (ar_balance r + delta)) r]> (accounts d).

Lemma total_getAccount no w r :
  w_faults w = [] -> accounts (w_db w) !! no = Some r ->
  total (getAccountTx no) w (fun d a => d = w_db w /\ a = accountFromGetAccountForUpdateRow r).
Proof. intros Hf Hr. eexists _, _. split; [by apply getAccountTx_nofault|done]. Qed.

(** The two writes every movement of a plain account ends with. *)
Lemma total_move txn no r delta w :
  w_faults w = [] -> isAccountNo no = true -> accounts (w_db w) !! no = Some r ->
  total (do! run (InsertAccountChange (mkInsertAccountChangeParams txn no delta (ar_balance r) (wrap64 (ar_balance r + delta)))) in
         run (UpdateAccountBalance (wrap64 (ar_balance r + delta)) no)) w (fun d _ => shifted no r delta (w_db w) d).
Proof.
  intros Hf Hno Hr.
  apply (total_bind _ _ _ (fun d _ => txns d = txns (w_db w) /\ webhooks d = webhooks (w_db w) /\ accounts d = accounts (w_db w))).
  - apply total_run; [done|]. intros t. unfold InsertAccountChange. simpl. rewrite Hno, (isAccountNo_width _ Hno). simpl.
    by eexists _, tt.
  - intros w' [] Hf' (Ht & Hw & Ha). apply total_run; [done|]. intros t. eexists _, tt. split; [reflexivity|].
    unfold shifted. simpl. rewrite Ht, Hw, Ha. by rewrite (LedgerProofs.alter_insert _ _ _ _ Hr).
Qed.

Lemma account_guard no amount : isAccountNo no = true -> 0 < amount -> String.eqb no "" || (amount <=? 0) = false.
Proof.
  intros Hno Ha. apply orb_false_iff. split; [|by apply Z.leb_gt]. apply String.eqb_neq.
  by apply isAccountNo_trim in Hno as [_ ?].
Qed.

Lemma total_debit txn no amount w r :
  w_faults w = [] -> accounts (w_db w) !! no = Some r -> ar_no r = no -> isAccountNo no = true -> ar_book r = false ->
  in64 (ar_balance r) -> 0 <= ar_limit r <= MaxInt64 -> ar_balance r + ar_limit r <= MaxInt64 -> 0 < amount ->
  may_debit r amount ->
  total (applyAccountDebitTx txn no amount) w (fun d _ => shifted no r (- amount) (w_db w) d).
Proof.
  intros Hf Hr Hk Hno Hb Hin Hl Hs Ha Hm. unfold applyAccountDebitTx. rewrite account_guard by done.
  eapply total_bind; [by apply total_getAccount|]. intros w1 a Hf1 [Hd ->]. simpl. rewrite Hb. unfold debitPlain.
  apply validate_spec in Hm; [|done..]. rewrite Hm.
  apply (total_bind _ _ _ (fun d _ => d = w_db w)); [by apply total_failing|]. intros w2 [] Hf2 Hd2.
  simpl. rewrite Hk. rewrite <- Hd2 in *. by apply total_move.
Qed.

Lemma total_credit txn dno no scene amount exp w r :
  w_faults w = [] -> accounts (w_db w) !! no = Some r -> ar_no r = no -> isAccountNo no = true -> ar_book r = false ->
  0 < amount ->
  total (applyTransferCreditTx txn dno no scene amount exp) w (fun d _ => shifted no r amount (w_db w) d).
Proof.
  intros Hf Hr Hk Hno Hb Ha. unfold applyTransferCreditTx.
  assert (TrimSpace no = no) as Htrim by by apply isAccountNo_trim. rewrite Htrim, account_guard by done.
  eapply total_bind; [by apply total_getAccount|]. intros w1 a Hf1 [Hd ->]. simpl. rewrite Hb, andb_false_r.
  unfold applyAccountCreditWithAccountTx. simpl. rewrite Hk, Htrim, account_guard, Hb by done.
  rewrite <- Hd in *. by apply total_move.
Qed.

(** A status of the state machine always fits its column. *)
Lemma set_status_typed u t st now :
  okTxn u t -> isStatus st = true -> varchar 24 st = true ->
  txnWidths (tr_set_status st None None now t) = true /\ txnChecks (tr_set_status st None None now t) = true.
Proof.
  intros (_ & Hw & Hc) Hs Hv. unfold txnWidths, txnChecks in *. simpl.
  rewrite !andb_true_iff in *. intuition.
Qed.

Lemma total_status st t w :
  w_faults w = [] -> txns (w_db w) !! tr_no t = Some t -> okTxn (tr_no t) t -> isStatus st = true -> varchar 24 st = true ->
  total (run (UpdateTransferTxnStatusByUUID st None None (tr_no t))) w
    (fun d _ => accounts d = accounts (w_db w) /\ webhooks d = webhooks (w_db w) /\
       exists now, txns d = <[tr_no t := tr_set_status st None None now t]> (txns (w_db w))).
Proof.
  intros Hf Ht Hok Hs Hv. apply total_run; [done|]. intros now.
  destruct (set_status_typed _ _ st now Hok Hs Hv) as [Hw Hc].
  unfold UpdateTransferTxnStatusByUUID, updateTxn. rewrite Ht. simpl. rewrite Hw, Hc. simpl.
  eexists _, tt. split; [reflexivity|]. by eauto.
Qed.

Lemma total_outbox u m o w :
  w_faults w = [] -> isMerchantNo m = true -> varchar 16 m = true -> outTradeColumn o = true ->
  total (insertOutboxEventTx u m o) w (fun d _ => accounts d = accounts (w_db w) /\ txns d = txns (w_db w)).
Proof.
  intros Hf Hm Hw Ho. apply total_run; [done|]. intros t. unfold InsertOutboxEvent.
  destruct (webhooks (w_db w) !! m); [|by eexists _, tt]. destruct (_ && _); [|by eexists _, tt].
  assert (String.eqb o "" = false) as Hne by by apply String.eqb_neq; intros ->.
  assert (varchar 64 o = true) as Hv.
  { unfold outTradeColumn, varchar in *. bools. apply Z.leb_le. pose proof (utf8_len_le o). lia. }
  unfold nullIfEmpty. rewrite Hne. simpl. unfold nullIfEmpty. rewrite Hne. simpl. rewrite Hw, Hv, Hm, Ho. simpl.
  destruct (existsb _ _); by eexists _, tt.
Qed.

(** ** A stage *)

(** A transfer of known, plain accounts, as the tables hold it. *)
Record plain_transfer (no : string) (t : TxnRow) (dno cno : string) (d : DB) : Prop := mkPlain {
  pl_no : castUUID no = Ok (Some (tr_no t));
  pl_txn : txns d !! tr_no t = Some t;
  pl_ok : okTxn (tr_no t) t;
  pl_biz : tr_biz t = BizTypeTransfer;
  pl_debit : tr_debit t = Some dno;
  pl_credit : tr_credit t = Some cno
}.

Lemma pl_digits no t dno cno d : plain_transfer no t dno cno d -> isAccountNo dno = true /\ isAccountNo cno = true.
Proof.
  intros Hp. destruct (pl_ok _ _ _ _ _ Hp) as (_ & _ & Hc). unfold txnChecks in Hc. bools.
  rewrite (pl_debit _ _ _ _ _ Hp), (pl_credit _ _ _ _ _ Hp) in *. done.
Qed.
Lemma pl_amount no t dno cno d : plain_transfer no t dno cno d -> 0 < tr_amount t.
Proof. intros Hp. destruct (pl_ok _ _ _ _ _ Hp) as (_ & _ & Hc). unfold txnChecks in Hc. by bools. Qed.

(** The account of a movement is there, plain, and can take it. *)
Definition payer (no : string) (amount : Z) (r : AccountRow) (d : DB) : Prop :=
  accounts d !! no = Some r /\ ar_no r = no /\ ar_book r = false /\ in64 (ar_balance r) /\ 0 <= ar_limit r <= MaxInt64 /\
  ar_balance r + ar_limit r <= MaxInt64 /\ may_debit r amount.
Definition payee (no : string) (r : AccountRow) (d : DB) : Prop :=
  accounts d !! no = Some r /\ ar_no r = no /\ ar_book r = false.

(** The tables after a stage: one account moved, the status set. *)
Definition staged (t : TxnRow) (st no : string) (r : AccountRow) (delta : Z) (d d' : DB) : Prop :=
  accounts d' = <[no := ar_set_balance (wrap64 (ar_balance r + delta)) r]> (accounts d) /\
  exists now, txns d' = <[tr_no t := tr_set_status st None None now t]> (txns d).

Lemma total_init no t dno cno r w :
  w_faults w = [] -> plain_transfer no t dno cno (w_db w) -> payer dno (tr_amount t) r (w_db w) ->
  total (stageWork t TxnStatusInit dno cno) w
    (fun d next => next = TxnStatusPaySuccess /\ staged t TxnStatusPaySuccess dno r (- tr_amount t) (w_db w) d).
Proof.
  intros Hf Hp (Hr & Hk & Hb & Hin & Hl & Hs & Hm). destruct (pl_digits _ _ _ _ _ Hp) as [Hd _].
  unfold stageWork, stageDebit. simpl. rewrite (pl_biz _ _ _ _ _ Hp). simpl.
  assert (String.eqb dno "" = false) as -> by (apply String.eqb_neq; by apply isAccountNo_trim in Hd as [_ ?]).
  pose proof (pl_amount _ _ _ _ _ Hp).
  eapply total_bind; [by apply (total_debit _ _ _ _ r)|]. intros w1 [] Hf1 (Ht1 & Hw1 & Ha1).
  eapply total_bind.
  { apply (total_status TxnStatusPaySuccess); [done|rewrite Ht1; apply Hp|apply Hp|reflexivity..]. }
  intros w2 [] Hf2 (Ha2 & _ & now & Ht2). apply total_ret; [done|]. split; [done|]. split; [congruence|].
  exists now. congruence.
Qed.

Lemma total_pay no t dno cno r w :
  w_faults w = [] -> plain_transfer no t dno cno (w_db w) -> payee cno r (w_db w) ->
  total (stageWork t TxnStatusPaySuccess dno cno) w
    (fun d next => next = TxnStatusRecvSuccess /\ staged t TxnStatusRecvSuccess cno r (tr_amount t) (w_db w) d).
Proof.
  intros Hf Hp (Hr & Hk & Hb). destruct (pl_digits _ _ _ _ _ Hp) as [_ Hd].
  unfold stageWork, stageCredit. simpl. rewrite (pl_biz _ _ _ _ _ Hp). simpl.
  assert (String.eqb cno "" = false) as -> by (apply String.eqb_neq; by apply isAccountNo_trim in Hd as [_ ?]).
  pose proof (pl_amount _ _ _ _ _ Hp).
  eapply total_bind; [by apply (total_credit _ _ _ _ _ _ _ r)|]. intros w1 [] Hf1 (Ht1 & Hw1 & Ha1).
  eapply total_bind.
  { apply (total_status TxnStatusRecvSuccess); [done|rewrite Ht1; apply Hp|apply Hp|reflexivity..]. }
  intros w2 [] Hf2 (Ha2 & _ & now & Ht2).
  destruct (pl_ok _ _ _ _ _ Hp) as (_ & Hwd & Hc). unfold txnWidths, txnChecks in Hwd, Hc. bools.
  eapply total_bind; [by apply total_outbox|]. intros w3 [] Hf3 [Ha3 Ht3].
  apply total_ret; [done|]. split; [done|]. split; [congruence|]. exists now. congruence.
Qed.

(** [withTxE] commits what its body does. *)
Lemma withTxE_total {A} (init : A) body w R :
  w_faults w = [] ->
  (forall w1, w_faults w1 = [] -> w_db w1 = w_db w ->
     exists w2 a, body w1 = (w2, (a, None)) /\ w_faults w2 = [] /\ R (w_db w2) a) ->
  exists w' a, withTxE init body w = (w', (a, None)) /\ w_faults w' = [] /\ R (w_db w') a.
Proof.
  intros Hf Hb. unfold withTxE, pop_fault. rewrite Hf. cbn -[startNow].
  destruct (Hb (startNow (with_faults [] w)).1) as (w2 & a & -> & Hf2 & HR); [done..|].
  rewrite Hf2. simpl. eexists _, a. by split; [reflexivity|].
Qed.

Lemma total_ApplyTxnStage no t dno cno st next R w :
  w_faults w = [] -> plain_transfer no t dno cno (w_db w) -> tr_status t = st -> TrimSpace st = st ->
  (forall w1, w_faults w1 = [] -> w_db w1 = w_db w ->
     total (stageWork t st dno cno) w1 (fun d nx => nx = next /\ R d)) ->
  exists w', ApplyTxnStage no st w = (w', (mkTxnStageApplyResult true BizTypeTransfer next dno cno, None)) /\
    w_faults w' = [] /\ R (w_db w').
Proof.
  intros Hf Hp Hst Htr Hw. destruct (pl_digits _ _ _ _ _ Hp) as [[Hd _]%isAccountNo_trim [Hc _]%isAccountNo_trim].
  destruct (withTxE_total (mkTxnStageApplyResult false "" "" "" "") (stageBody no st) w
              (fun d a => a = mkTxnStageApplyResult true BizTypeTransfer next dno cno /\ R d)) as (w' & a & E & Hf' & -> & HR);
    [done| |by exists w'].
  intros w1 Hf1 Hd1. unfold stageBody, or_norows. rewrite run_nofault by done.
  unfold GetTransferTxnStageForUpdate, txnByText. rewrite (pl_no _ _ _ _ _ Hp). unfold one.
  rewrite Hd1, (pl_txn _ _ _ _ _ Hp), (pl_biz _ _ _ _ _ Hp), (pl_debit _ _ _ _ _ Hp), (pl_credit _ _ _ _ _ Hp).
  change (coalesce (Some dno)) with dno. change (coalesce (Some cno)) with cno.
  change (TrimSpace BizTypeTransfer) with BizTypeTransfer.
  rewrite Hd, Hc, Hst, Htr, !String.eqb_refl. cbn [negb andb].
  destruct (Hw (with_db (w_db w) (with_faults [] w1))) as (w2 & nx & -> & Hf2 & -> & HR); [done..|].
  eexists _, _. split; [reflexivity|]. done.
Qed.
End Stage.

(** ** The two workers *)

Section Workers.
Context `{Platform} `{CodeProvider} (errText : error -> string).

(** The processor's guard is free for a stage. *)
Definition free (no st : string) (p : processor ProcessingGuard) : Prop := ~ (ProcessingKey no st ∈ Processor.guard p).

Definition known (no : string) : Prop := TrimSpace no = no /\ no <> "".

(** Under a free guard a stage is processed, and the guard is free again. *)
Lemma guarded_stage no st (p p2 : processor ProcessingGuard) w w2 oe :
  known no -> st = TxnStatusInit \/ st = TxnStatusPaySuccess -> free no st p ->
  processStageWithApplyResult errText no st (setGuard ({[ProcessingKey no st]} ∪ Processor.guard p) p) w = (p2, w2, oe) ->
  processStage errText no st p w = (setGuard (Processor.guard p2 ∖ {[ProcessingKey no st]}) p2, w2, oe).
Proof.
  intros [Htr Hne] Hst Hfree Hp. unfold processStage.
  assert (TrimSpace st = st) as -> by by destruct Hst as [-> | ->]. rewrite Htr.
  assert (String.eqb no "" = false) as -> by by apply String.eqb_neq.
  assert (String.eqb (ProcessingKey no st) "+" = false) as Hk.
  { unfold ProcessingKey. rewrite Htr. apply String.eqb_neq. destruct no as [|c [|c' s]]; [done|..]; simpl; discriminate. }
  assert (String.eqb st "" = false) as -> by by destruct Hst as [-> | ->].
  assert (String.eqb st TxnStatusRecvSuccess || String.eqb st TxnStatusFailed = false) as -> by by destruct Hst as [-> | ->].
  simpl. unfold TryBegin. rewrite Hk. rewrite bool_decide_false by exact Hfree. rewrite Hp. simpl. unfold End_. by rewrite Hk.
Qed.

(** After the debit, the credit is queued by its account. *)
Lemma apply_init no dno cno (p : processor ProcessingGuard) w w' :
  known no -> known cno ->
  ApplyTxnStage no TxnStatusInit w = (w', (mkTxnStageApplyResult true BizTypeTransfer TxnStatusPaySuccess dno cno, None)) ->
  processStageWithApplyResult errText no TxnStatusInit p w =
    (mkProcessor (Processor.guard p) (initQueue p) (EnqueueWithRoute no cno (paySuccessQueue p)).1 (notified p), w', None).
Proof.
  intros [Hn Hne] [Hc Hcne] Ha. unfold processStageWithApplyResult. simpl. rewrite Ha. simpl.
  unfold enqueueByStatusWithTxn. rewrite Hn. assert (String.eqb no "" = false) as -> by by apply String.eqb_neq.
  unfold stageRouteKey, stageTxn, routeKeyForTxnStage.
  assert (TrimSpace TxnStatusPaySuccess = TxnStatusPaySuccess) as Hst by reflexivity.
  cbn -[TrimSpace EnqueueWithRoute]. rewrite !Hst, Hc, Hn. cbn -[TrimSpace EnqueueWithRoute].
  assert (String.eqb cno "" = false) as -> by by apply String.eqb_neq. simpl.
  by destruct (EnqueueWithRoute _ _ _).
Qed.

(** After the credit, the webhook worker is told. *)
Lemma apply_pay no dno cno (p : processor ProcessingGuard) w w' :
  ApplyTxnStage no TxnStatusPaySuccess w = (w', (mkTxnStageApplyResult true BizTypeTransfer TxnStatusRecvSuccess dno cno, None)) ->
  processStageWithApplyResult errText no TxnStatusPaySuccess p w =
    (mkProcessor (Processor.guard p) (initQueue p) (paySuccessQueue p) (no :: notified p), w', None).
Proof. intros Ha. unfold processStageWithApplyResult. simpl. by rewrite Ha. Qed.

(** A new queue takes what is sent, and hands it to the worker of its route. *)
Lemma enqueue_new workers n no key :
  known no ->
  exists i q, (EnqueueWithRoute no key (newStageQueueWithWorkers workers n)).1 = q /\
    exists q', receive i q = Some (no, q').
Proof.
  intros [Hn Hne].
  destruct (Queue.enqueue_spec _ no key (Queue.ok_new workers n)) as [[? _]|[(_ & Hp & _)|[(_ & _ & Hm & _)|(_ & _ & _ & i & ch & Hch & E)]]];
    simpl in *; rewrite ?Hn in *; [done|set_solver| |].
  - exfalso. change (set_size _) with (base.size (∅ : gset string)) in Hm. rewrite size_empty in Hm.
    destruct (Z.leb_spec n 0); lia.
  - exists i. eexists. split; [reflexivity|]. rewrite E. unfold receive. simpl in *.
    assert (ch = []) as ->.
    { apply list_elem_of_lookup_2 in Hch. apply list_elem_of_In, repeat_spec in Hch. done. }
    rewrite list_lookup_insert_eq by by apply lookup_lt_Some in Hch. by eexists.
Qed.

(** The transaction after its debit is again a plain transfer. *)
Lemma staged_plain no t dno cno r st d d' :
  plain_transfer no t dno cno d -> staged t st dno r (- tr_amount t) d d' -> isStatus st = true -> varchar 24 st = true ->
  exists now, plain_transfer no (tr_set_status st None None now t) dno cno d'.
Proof.
  intros [] (_ & now & Ht) Hs Hv. exists now.
  destruct (set_status_typed _ _ st now pl_ok0 Hs Hv) as [Hw Hc].
  split; try done. by rewrite Ht, lookup_insert_eq.
Qed.

(** The worker of the INIT queue takes the debit; the credit is then queued. *)
Lemma init_worker no t dno cno rd i q (p : processor ProcessingGuard) w :
  w_faults w = [] -> known no -> plain_transfer no t dno cno (w_db w) -> tr_status t = TxnStatusInit ->
  payer dno (tr_amount t) rd (w_db w) -> free no TxnStatusInit p -> receive i (initQueue p) = Some (no, q) ->
  exists (p1 : processor ProcessingGuard) w1, workInit errText i p w = Some (p1, w1) /\ w_faults w1 = [] /\
    staged t TxnStatusPaySuccess dno rd (- tr_amount t) (w_db w) (w_db w1) /\
    Processor.guard p1 = ({[ProcessingKey no TxnStatusInit]} ∪ Processor.guard p) ∖ {[ProcessingKey no TxnStatusInit]} /\
    paySuccessQueue p1 = (EnqueueWithRoute no cno (paySuccessQueue p)).1 /\ notified p1 = notified p.
Proof.
  intros Hf Hn Hp Hst Hpay Hfree Hrc.
  destruct (total_ApplyTxnStage no t dno cno TxnStatusInit TxnStatusPaySuccess
    (staged t TxnStatusPaySuccess dno rd (- tr_amount t) (w_db w)) w) as (w1 & Ha & Hf1 & HR); try done.
  { intros w0 Hf0 Hd0. rewrite <- Hd0 in *. by eapply total_init. }
  assert (known cno) as Hc by by apply isAccountNo_trim, (pl_digits _ _ _ _ _ Hp).
  unfold workInit. rewrite Hrc. erewrite guarded_stage; [|done|by left|exact Hfree|by apply (apply_init no dno cno)].
  by eexists _, _.
Qed.

(** The worker of the PAY_SUCCESS queue takes the credit; the webhook worker is told. *)
Lemma pay_worker no t dno cno rc i q (p : processor ProcessingGuard) w :
  w_faults w = [] -> known no -> plain_transfer no t dno cno (w_db w) -> tr_status t = TxnStatusPaySuccess ->
  payee cno rc (w_db w) -> free no TxnStatusPaySuccess p -> receive i (paySuccessQueue p) = Some (no, q) ->
  exists (p1 : processor ProcessingGuard) w1, workPaySuccess errText i p w = Some (p1, w1) /\ w_faults w1 = [] /\
    staged t TxnStatusRecvSuccess cno rc (tr_amount t) (w_db w) (w_db w1) /\ notified p1 = no :: notified p.
Proof.
  intros Hf Hn Hp Hst Hpay Hfree Hrc.
  destruct (total_ApplyTxnStage no t dno cno TxnStatusPaySuccess TxnStatusRecvSuccess
    (staged t TxnStatusRecvSuccess cno rc (tr_amount t) (w_db w)) w) as (w1 & Ha & Hf1 & HR); try done.
  { intros w0 Hf0 Hd0. rewrite <- Hd0 in *. by eapply total_pay. }
  unfold workPaySuccess. rewrite Hrc. erewrite guarded_stage; [|done|by right|exact Hfree|by apply (apply_pay no dno cno)].
  by eexists _, _.
Qed.

(** [C11] Liveness.  On a working connection, a submitted transfer between two
    plain accounts goes through: if the payer may be debited by the amount, the
    worker that receives it from the INIT queue takes the money and queues the
    credit, and a worker of the PAY_SUCCESS queue then finds it, gives the
    money to the payee, marks the transaction RECV_SUCCESS and tells the
    webhook worker. *)
Theorem transfer_goes_through no t dno cno rd rc i q workers n (p : processor ProcessingGuard) w :
  w_faults w = [] -> known no -> plain_transfer no t dno cno (w_db w) -> tr_status t = TxnStatusInit -> dno <> cno ->
  payer dno (tr_amount t) rd (w_db w) -> payee cno rc (w_db w) ->
  free no TxnStatusInit p -> free no TxnStatusPaySuccess p ->
  receive i (initQueue p) = Some (no, q) -> paySuccessQueue p = newStageQueueWithWorkers workers n ->
  exists p1 w1 j p2 w2 t2,
    workInit errText i p w = Some (p1, w1) /\ workPaySuccess errText j p1 w1 = Some (p2, w2) /\
    txns (w_db w2) !! tr_no t = Some t2 /\ tr_status t2 = TxnStatusRecvSuccess /\ same_txn t t2 /\
    bal dno (w_db w2) = wrap64 (bal dno (w_db w) - tr_amount t) /\
    bal cno (w_db w2) = wrap64 (bal cno (w_db w) + tr_amount t) /\
    notified p2 = no :: notified p.
Proof.
  intros Hf Hn Hp Hst Hne Hpay Hrec Hfi Hfp Hrc Hnew.
  destruct (init_worker no t dno cno rd i q p w) as (p1 & w1 & E1 & Hf1 & HS1 & Hg & Hq & Hnt); try done.
  destruct (staged_plain _ _ _ _ _ _ _ _ Hp HS1) as [now Hp1]; [done..|].
  destruct (enqueue_new workers n no cno Hn) as (j & q1 & Hq1 & q2 & Hrc1). rewrite <- Hnew, <- Hq in Hq1.
  pose proof HS1 as (Ha1 & _).
  destruct (pay_worker no (tr_set_status TxnStatusPaySuccess None None now t) dno cno rc j q2 p1 w1)
    as (p2 & w2 & E2 & _ & (Ha2 & now2 & Ht2) & Hnt2); try done.
  { destruct Hrec as (Hr & ? & ?). split; [|done]. by rewrite Ha1, lookup_insert_ne. }
  { unfold free in *. rewrite Hg. set_solver. }
  { by rewrite Hq1. }
  destruct Hpay as (Hr & _). destruct Hrec as (Hr' & _).
  exists p1, w1, j, p2, w2, (tr_set_status TxnStatusRecvSuccess None None now2 (tr_set_status TxnStatusPaySuccess None None now t)).
  split; [done|]. split; [done|]. split; [by rewrite Ht2, lookup_insert_eq|]. split; [done|]. split; [by repeat split|].
  unfold bal. rewrite Ha2, lookup_insert_eq, lookup_insert_ne, Ha1, lookup_insert_eq, Hr, Hr' by done.
  split; [by rewrite <- Z.add_opp_r|]. split; [done|]. by rewrite Hnt2, Hnt.
Qed.
End Workers.
