(* ===== verification/Providers.v ===== *)
(** * Identifiers and time without a database

    The in-process code provider, which the services fall back to when the
    repository is none ([pickCodeProvider]), the fixed providers of the tests
    ([internal/platform/id]) and the clocks of [internal/platform/clock]; the
    text of a UUID ([formatUUID] of [runtime.go]). *)

From S2P Require Import Prelude GoBase Domain Codes Encoding Store.
From stdpp Require Import base gmap list strings.
From Stdlib Require Import ZArith Lia Ascii.

Local Open Scope string_scope.
Local Open Scope Z_scope.

(** ** The in-process provider *)

Record runtimeCodeProvider : Type := mkRuntimeCodes {
  merchantSeq : Z; customerSeq : Z; accountSalt : Z; accountSeq : gmap string Z
}.

Definition randomUint64 : M Z :=
  let! b := attempt randRead in
  match b with
  | Err _ => let! now := timeNow in ret (now mod two64)
  | Ok r => ret (r mod two64)
  end.

Definition NewRuntimeCodeProvider : M runtimeCodeProvider :=
  let! seed := randomUint64 in
  ret (mkRuntimeCodes (seed mod 10000000000) ((seed / 7) mod 10000000000) (seed mod 4294967296) ∅).

Definition newMerchantNo (p : runtimeCodeProvider) : runtimeCodeProvider * Result error string :=
  let seq := (merchantSeq p + 1) mod 10000000000 in
  (mkRuntimeCodes seq (customerSeq p) (accountSalt p) (accountSeq p),
   appendLuhn (merchantPrefix ++ defaultRegion ++ defaultVersion ++ padNat 10 seq)).

Definition newCustomerNo (p : runtimeCodeProvider) : runtimeCodeProvider * Result error string :=
  let seq := (customerSeq p + 1) mod 10000000000 in
  (mkRuntimeCodes (merchantSeq p) seq (accountSalt p) (accountSeq p),
   appendLuhn (customerPrefix ++ defaultRegion ++ defaultVersion ++ padNat 10 seq)).

Definition newAccountNo (merchantNo accountType : string) (p : runtimeCodeProvider)
    : runtimeCodeProvider * Result error string :=
  let mmmm := merchantMapping merchantNo in
  let tt := accountTypeCode accountType in
  let key := mmmm ++ ":" ++ tt in
  let seq := match accountSeq p !! key with
             | Some seq => seq
             | None => (hashUint64 (key ++ ":" ++ FormatInt (accountSalt p)) mod 1000000) mod 4294967296
             end in
  let seq := (seq + 1) mod 1000000 in
  (mkRuntimeCodes (merchantSeq p) (customerSeq p) (accountSalt p) (<[key := seq]> (accountSeq p)),
   appendLuhn (defaultBIN ++ mmmm ++ tt ++ padNat 6 seq)).

(** ** The fixed providers *)

Definition ErrNoMoreFixedUUID : error := ErrText "no more fixed uuid".
Definition ErrNoMoreFixedCode : error := ErrText "no more fixed code".

(** The next of a list of values: [idx] of them are used. *)
Definition nextFixed (e : error) (items : list string) (idx : nat) : nat * Result error string :=
  match items !! idx with
  | None => (idx, Err e)
  | Some v => (S idx, Ok v)
  end.

Record fixedUUIDProvider : Type := mkFixedUUIDs { fu_idx : nat; fu_items : list string }.
Definition NewFixedUUIDProvider (items : list string) : fixedUUIDProvider := mkFixedUUIDs 0 items.
Definition fixedUUIDv7 (p : fixedUUIDProvider) : fixedUUIDProvider * Result error string :=
  let '(i, r) := nextFixed ErrNoMoreFixedUUID (fu_items p) (fu_idx p) in (mkFixedUUIDs i (fu_items p), r).

Record fixedCodeProvider : Type := mkFixedCodes {
  fc_merchantNos : list string; fc_customerNos : list string; fc_accountNos : list string;
  fc_mIdx : nat; fc_cIdx : nat; fc_aIdx : nat
}.
Definition NewFixedCodeProvider (merchantNos customerNos accountNos : list string) : fixedCodeProvider :=
  mkFixedCodes merchantNos customerNos accountNos 0 0 0.
Definition fixedMerchantNo (p : fixedCodeProvider) : fixedCodeProvider * Result error string :=
  let '(i, r) := nextFixed ErrNoMoreFixedCode (fc_merchantNos p) (fc_mIdx p) in
  (mkFixedCodes (fc_merchantNos p) (fc_customerNos p) (fc_accountNos p) i (fc_cIdx p) (fc_aIdx p), r).
Definition fixedCustomerNo (p : fixedCodeProvider) : fixedCodeProvider * Result error string :=
  let '(i, r) := nextFixed ErrNoMoreFixedCode (fc_customerNos p) (fc_cIdx p) in
  (mkFixedCodes (fc_merchantNos p) (fc_customerNos p) (fc_accountNos p) (fc_mIdx p) i (fc_aIdx p), r).
Definition fixedAccountNo (p : fixedCodeProvider) : fixedCodeProvider * Result error string :=
  let '(i, r) := nextFixed ErrNoMoreFixedCode (fc_accountNos p) (fc_aIdx p) in
  (mkFixedCodes (fc_merchantNos p) (fc_customerNos p) (fc_accountNos p) (fc_mIdx p) (fc_cIdx p) i, r).

(** ** Clocks *)

Inductive Clock : Type := fixedClock (now : Time) | systemClock.
Definition NewFixed (now : Time) : Clock := fixedClock now.
Definition NewSystem : Clock := systemClock.
Definition NowUTC (c : Clock) : M Time := match c with fixedClock now => ret now | systemClock => timeNow end.

(** ** The text of a UUID *)

Definition formatUUID (u : UUID) : string :=
  hexEncode (bytes_be 4 (Z.shiftr u 96)) ++ "-" ++ hexEncode (bytes_be 2 (Z.shiftr u 80)) ++ "-" ++
  hexEncode (bytes_be 2 (Z.shiftr u 64)) ++ "-" ++ hexEncode (bytes_be 2 (Z.shiftr u 48)) ++ "-" ++
  hexEncode (bytes_be 6 u).

(** ** What the in-process provider promises *)

(** The calls of a kind, one after the other. *)
Fixpoint draws {P} (next : P -> P * Result error string) (n : nat) (p : P) : list (Result error string) :=
  match n with
  | O => []
  | S n' => let '(p', r) := next p in r :: draws next n' p'
  end.

Lemma pad_body_inj w (s t : string) x y : 0 < w -> slen s = slen t -> 0 <= x < 10 ^ w -> 0 <= y < 10 ^ w ->
  appendLuhn (s ++ padNat w x) = appendLuhn (t ++ padNat w y) ->
  is_ok (appendLuhn (s ++ padNat w x)) = true -> s = t /\ x = y.
Proof.
  intros Hw Hl Hx Hy E Hok. destruct (appendLuhn (s ++ _)) as [e|v] eqn:E1; [done|]. symmetry in E.
  apply appendLuhn_ok in E1 as (_ & _ & _ & c & Hv), E as (_ & _ & _ & c' & Hv'). subst v.
  apply sapp_inj_len in Hv' as [Hb _]; [|by rewrite !slen_app, !padNat_len, Hl by lia].
  apply sapp_inj_len in Hb as [-> Hb]; [|done]. split; [done|]. eapply padNat_inj; [..|exact Hb]; lia.
Qed.

Lemma numeric_ok (s : string) w x : sforall is_digit s = true -> 0 <= x -> is_ok (appendLuhn (s ++ padNat w x)) = true.
Proof.
  intros Hs Hx. unfold appendLuhn. by rewrite onlyDigits_sforall, sforall_app, Hs, padNat_digits by done.
Qed.

Section Sequence.
Context (N : Z) (HN : 0 < N).

(** Consecutive numbers modulo [N] are different until [N] of them are drawn. *)
Lemma succ_mod_ne s i j : 0 <= i < N -> 0 <= j < N -> i <> j -> (s + i) mod N <> (s + j) mod N.
Proof.
  intros Hi Hj Hne E. apply Hne. assert ((i - j) mod N = 0) as Hm.
  { replace (i - j) with ((s + i) - (s + j)) by lia. rewrite Zminus_mod, E, Z.sub_diag. done. }
  apply Z.mod_divide in Hm as [k Hk]; [|lia]. assert (k = 0) by nia. subst. lia.
Qed.

Lemma succ_mod s i : (s mod N + i) mod N = (s + i) mod N.
Proof. apply Z.add_mod_idemp_l. lia. Qed.

Lemma succ_mod_later s i : 1 <= i < N -> (s + 1) mod N <> ((s + 1) mod N + i) mod N.
Proof. intros Hi. rewrite succ_mod, <- (Z.add_0_r (s + 1)) at 1. apply succ_mod_ne; lia. Qed.
End Sequence.

Section Counter.
Context {P} (next : P -> P * Result error string) (seq : P -> Z) (code : Z -> Result error string) (N : Z).
Context (HN : 0 < N).
Context (Hnext : forall p, seq (next p).1 = (seq p + 1) mod N /\ (next p).2 = code (seq (next p).1)).
Context (Hinj : forall x y, 0 <= x < N -> 0 <= y < N -> code x = code y -> x = y).

Lemma draws_in n p r : r ∈ draws next n p -> exists i, 1 <= i <= Z.of_nat n /\ r = code ((seq p + i) mod N).
Proof.
  revert p. induction n as [|n IH]; intros p; simpl; [by intros ?%elem_of_nil|].
  destruct (Hnext p) as [Hs Hc]. destruct (next p) as [p' r0] eqn:E. simpl in Hs, Hc.
  intros [->|Hin]%elem_of_cons; [exists 1; rewrite <- Hs; split; [lia|done]|].
  destruct (IH _ Hin) as (i & Hi & ->). exists (1 + i). split; [lia|]. rewrite Hs, succ_mod by done. do 2 f_equal. lia.
Qed.

Lemma draws_NoDup n p : Z.of_nat n <= N -> NoDup (draws next n p).
Proof.
  revert p. induction n as [|n IH]; intros p Hn; simpl; [constructor|].
  destruct (Hnext p) as [Hs Hc]. destruct (next p) as [p' r0] eqn:E. simpl in Hs, Hc.
  constructor; [|apply IH; lia]. intros (i & Hi & Hr)%draws_in. rewrite Hc in Hr.
  apply Hinj in Hr; [|rewrite Hs; apply Z.mod_pos_bound; lia|apply Z.mod_pos_bound; lia].
  rewrite Hs in Hr. revert Hr. apply succ_mod_later; lia.
Qed.
End Counter.

(** The first [10 ^ w] numbers of a counter are different, and each is some
    number of [w] digits behind the prefix. *)
Lemma counter_draws {P} (next : P -> P * Result error string) (seq : P -> Z) (pre : string) w n p :
  0 < w -> sforall is_digit pre = true ->
  (forall q, seq (next q).1 = (seq q + 1) mod 10 ^ w /\ (next q).2 = appendLuhn (pre ++ padNat w (seq (next q).1))) ->
  Z.of_nat n <= 10 ^ w ->
  NoDup (draws next n p) /\
  forall r, r ∈ draws next n p -> exists x v, 0 <= x < 10 ^ w /\ r = Ok v /\ appendLuhn (pre ++ padNat w x) = Ok v.
Proof.
  intros Hw Hd Hn Hle. split.
  - apply (draws_NoDup next seq (fun x => appendLuhn (pre ++ padNat w x)) (10 ^ w)); [lia|done| |done].
    intros x y Hx Hy E. eapply (pad_body_inj w pre pre); [done|done|done|done|exact E|]. apply numeric_ok; [done|lia].
  - intros r (i & Hi & ->)%(draws_in next seq (fun x => appendLuhn (pre ++ padNat w x)) (10 ^ w) ltac:(lia) Hn).
    pose proof (Z.mod_pos_bound (seq p + i) (10 ^ w) ltac:(lia)) as Hx.
    pose proof (numeric_ok pre w _ Hd (proj1 Hx)) as Hok. cbv beta.
    destruct (appendLuhn _) as [e|v] eqn:E in Hok |- *; [done|]. by exists ((seq p + i) mod 10 ^ w), v.
Qed.

(** The first ten thousand million merchant numbers are valid and different. *)
Lemma runtime_merchants n p : Z.of_nat n <= 10000000000 ->
  NoDup (draws newMerchantNo n p) /\
  forall r, r ∈ draws newMerchantNo n p -> exists v, r = Ok v /\ IsValidMerchantNo v = true.
Proof.
  intros Hle. destruct (counter_draws newMerchantNo merchantSeq "10001" 10 n p) as [Hnd Hin]; [done|done|done|done|].
  split; [done|]. intros r (x & v & Hx & -> & E)%Hin. exists v. split; [done|].
  apply (codes_valid "" "" x); [lia|]. unfold merchantCode. destruct (Z.leb_spec (pow10 10) x); [cbn in *; lia|exact E].
Qed.

(** The same of customer numbers. *)
Lemma runtime_customers n p : Z.of_nat n <= 10000000000 ->
  NoDup (draws newCustomerNo n p) /\
  forall r, r ∈ draws newCustomerNo n p -> exists v, r = Ok v /\ IsValidCustomerNo v = true.
Proof.
  intros Hle. destruct (counter_draws newCustomerNo customerSeq "20001" 10 n p) as [Hnd Hin]; [done|done|done|done|].
  split; [done|]. intros r (x & v & Hx & -> & E)%Hin. exists v. split; [done|].
  apply (codes_valid "" "" x); [lia|]. unfold customerCode. destruct (Z.leb_spec (pow10 10) x); [cbn in *; lia|exact E].
Qed.

(** ** Account numbers: a counter per merchant mapping and type *)

Definition accountKey (m t : string) : string := merchantMapping m ++ ":" ++ accountTypeCode t.
Definition lastSeq (p : runtimeCodeProvider) (key : string) : Z :=
  match accountSeq p !! key with
  | Some seq => seq
  | None => (hashUint64 (key ++ ":" ++ FormatInt (accountSalt p)) mod 1000000) mod 4294967296
  end.
Definition accountText (m t : string) (x : Z) : Result error string :=
  appendLuhn ((defaultBIN ++ merchantMapping m ++ accountTypeCode t) ++ padNat 6 x).

Fixpoint accountDraws (reqs : list (string * string)) (p : runtimeCodeProvider) : list (Result error string) :=
  match reqs with
  | [] => []
  | (m, t) :: reqs' => let '(p', r) := newAccountNo m t p in r :: accountDraws reqs' p'
  end.

Lemma newAccountNo_step m t p :
  (newAccountNo m t p).2 = accountText m t ((lastSeq p (accountKey m t) + 1) mod 1000000) /\
  forall key, lastSeq (newAccountNo m t p).1 key =
    if decide (key = accountKey m t) then (lastSeq p key + 1) mod 1000000 else lastSeq p key.
Proof.
  split.
  - unfold accountText. rewrite !sapp_assoc. done.
  - intros key. unfold lastSeq, newAccountNo. simpl. fold (accountKey m t). case_decide as E.
    + subst key. by rewrite lookup_insert_eq.
    + by rewrite lookup_insert_ne by done.
Qed.

Lemma accountText_inj m t m' t' x y : 0 <= x < 1000000 -> 0 <= y < 1000000 ->
  accountText m t x = accountText m' t' y -> accountKey m t = accountKey m' t' /\ x = y.
Proof.
  destruct (merchantMapping_digits m) as [Dm Lm], (merchantMapping_digits m') as [Dm' Lm'],
    (accountTypeCode_digits t) as [Dt Lt], (accountTypeCode_digits t') as [Dt' Lt'].
  intros Hx Hy E. unfold accountText in E.
  apply (pad_body_inj 6) in E as [Hk ->]; [|lia|by rewrite !slen_app, Lm, Lm', Lt, Lt'|done|done|].
  - apply sapp_inj_l in Hk. apply sapp_inj_len in Hk as [Em Et]; [|congruence]. unfold accountKey. by rewrite Em, Et.
  - apply numeric_ok; [|lia]. by rewrite !sforall_app, Dm, Dt.
Qed.

Lemma accountDraws_in reqs p r : r ∈ accountDraws reqs p ->
  exists m t i, 1 <= i <= Z.of_nat (length reqs) /\ r = accountText m t ((lastSeq p (accountKey m t) + i) mod 1000000).
Proof.
  revert p. induction reqs as [|[m t] reqs IH]; intros p; cbn [accountDraws length]; [by intros ?%elem_of_nil|].
  destruct (newAccountNo_step m t p) as [Hc Hs]. destruct (newAccountNo m t p) as [p' r0]. simpl in Hc, Hs.
  intros [->|Hin]%elem_of_cons; [exists m, t, 1; split; [lia|done]|].
  destruct (IH _ Hin) as (m' & t' & i & Hi & ->). exists m', t'. rewrite Hs. case_decide.
  - exists (1 + i). split; [lia|]. rewrite succ_mod by done. do 2 f_equal. lia.
  - exists i. split; [lia|done].
Qed.

(** Whatever accounts are asked for, the first million numbers are valid and
    different. *)
Lemma runtime_accounts reqs p : Z.of_nat (length reqs) <= 1000000 ->
  NoDup (accountDraws reqs p) /\
  forall r, r ∈ accountDraws reqs p -> exists v, r = Ok v /\ IsValidAccountNo v = true.
Proof.
  intros Hle. split.
  - revert p Hle. induction reqs as [|[m t] reqs IH]; intros p Hle; cbn [accountDraws length] in *; [constructor|].
    destruct (newAccountNo_step m t p) as [Hc Hs]. destruct (newAccountNo m t p) as [p' r0]. simpl in Hc, Hs.
    constructor; [|apply IH; lia]. intros (m' & t' & i & Hi & Hr)%accountDraws_in. subst r0.
    apply accountText_inj in Hr as [Hk Hx]; [|apply Z.mod_pos_bound; lia|apply Z.mod_pos_bound; lia].
    rewrite Hs, <- Hk in Hx. rewrite decide_True in Hx by done.
    revert Hx. apply succ_mod_later; lia.
  - intros r (m & t & i & Hi & ->)%accountDraws_in.
    pose proof (Z.mod_pos_bound (lastSeq p (accountKey m t) + i) 1000000 ltac:(lia)) as Hx.
    set (x := (_ + i) mod _) in *. pose proof (accountCode_total m t x (proj1 Hx)) as Ht.
    destruct (accountCode m t x) as [e|v] eqn:E; [destruct (Z.ltb_spec x (pow10 6)); [done|cbn in *; lia]|].
    exists v. split; [|by apply (codes_valid m t x); [lia|]].
    unfold accountCode in E. destruct (pow10 6 <=? x); [done|]. rewrite <- E. unfold accountText. by rewrite !sapp_assoc.
Qed.

(** ** The fixed providers give their values in order, then the error *)

Lemma fixed_uuids items n :
  draws fixedUUIDv7 (length items + n) (NewFixedUUIDProvider items) = (map Ok items ++ replicate n (Err ErrNoMoreFixedUUID))%list.
Proof.
  assert (forall used rest, draws fixedUUIDv7 (length rest + n) (mkFixedUUIDs (length used) (used ++ rest)%list) =
            (map Ok rest ++ replicate n (Err ErrNoMoreFixedUUID))%list) as Hall; [|exact (Hall [] items)].
  intros used rest. revert used. induction rest as [|v rest IH]; intros used.
  - rewrite app_nil_r. simpl. induction n as [|n IHn]; [done|]. cbn [draws replicate].
    unfold fixedUUIDv7, nextFixed. simpl. rewrite lookup_ge_None_2 by done. by f_equal.
  - cbn [length Nat.add draws map app]. unfold fixedUUIDv7, nextFixed. cbn [fu_items fu_idx].
    rewrite list_lookup_middle by done. cbn beta iota. f_equal. specialize (IH (used ++ [v])%list).
    rewrite length_app, <- app_assoc in IH. simpl in IH. rewrite Nat.add_1_r in IH. exact IH.
Qed.

(** ** The text of a UUID determines it *)

(** What the hexadecimal digits of a text add up to; the dashes are skipped. *)
Fixpoint unhex (acc : Z) (s : string) : Z :=
  match s with
  | "" => acc
  | String c s' =>
      let b := byte_of c in
      unhex (if b =? 45 then acc else 16 * acc + (if b <? 58 then b - 48 else b - 87)) s'
  end.

Lemma unhex_digit acc d s : 0 <= d < 16 -> unhex acc (String (hex_digit d) s) = unhex (16 * acc + d) s.
Proof.
  intros Hd. cbn [unhex]. unfold hex_digit. rewrite byte_of_of by (destruct (Z.ltb_spec d 10); lia).
  assert (0 <= d < 10 \/ 10 <= d) as [Hl|Hl] by lia.
  - rewrite (proj2 (Z.ltb_lt d 10)) by lia. rewrite (proj2 (Z.eqb_neq _ _)), (proj2 (Z.ltb_lt _ _)) by lia. f_equal. lia.
  - rewrite (proj2 (Z.ltb_ge d 10)) by lia. rewrite (proj2 (Z.eqb_neq _ _)), (proj2 (Z.ltb_ge _ _)) by lia. f_equal. lia.
Qed.

Lemma unhex_bytes n u s : 0 <= u -> unhex (Z.shiftr u (8 * Z.of_nat n)) (hexEncode (bytes_be n u) ++ s) = unhex u s.
Proof.
  intros Hu. induction n as [|n IH]; [by rewrite Z.shiftr_0_r|].
  cbn [bytes_be hexEncode]. set (b := Z.shiftr u (8 * Z.of_nat n) mod 256).
  assert (0 <= b < 256) as Hb by (apply Z.mod_pos_bound; lia). rewrite byte_of_of by done. rewrite !sapp_cons.
  assert (0 <= b / 16 < 16) by (split; [apply Z.div_pos|apply Z.div_lt_upper_bound]; lia).
  rewrite !unhex_digit by (done || apply Z.mod_pos_bound; lia). rewrite <- IH. f_equal.
  replace (8 * Z.of_nat (S n)) with (8 * Z.of_nat n + 8) by lia. rewrite <- Z.shiftr_shiftr by lia.
  rewrite (Z.shiftr_div_pow2 (Z.shiftr _ _) 8) by lia. change (2 ^ 8) with 256.
  pose proof (Z.div_mod b 16 ltac:(lia)). pose proof (Z.div_mod (Z.shiftr u (8 * Z.of_nat n)) 256 ltac:(lia)) as Hq.
  fold b in Hq. lia.
Qed.

(** The canonical text of a UUID reads back as it: the law the interface
    [Platform] asks of [uuid_text] holds of [formatUUID]. *)
Lemma unhex_formatUUID u : 0 <= u < 2 ^ 128 -> unhex 0 (formatUUID u) = u.
Proof.
  intros Hu. unfold formatUUID. assert (Z.shiftr u 128 = 0) as H0.
  { rewrite Z.shiftr_div_pow2 by lia. by apply Z.div_small. }
  assert (forall k n s, 0 <= k -> unhex (Z.shiftr u (k + 8 * Z.of_nat n)) (hexEncode (bytes_be n (Z.shiftr u k)) ++ s)
            = unhex (Z.shiftr u k) s) as Hstep.
  { intros k n s Hk. rewrite <- Z.shiftr_shiftr by lia. apply unhex_bytes. apply Z.shiftr_nonneg. lia. }
  assert (forall a s, unhex a ("-" ++ s) = unhex a s) as Hdash by done.
  rewrite <- H0 at 1.
  etrans; [by apply (Hstep 96 4%nat)|]. rewrite Hdash. etrans; [by apply (Hstep 80 2%nat)|]. rewrite Hdash.
  etrans; [by apply (Hstep 64 2%nat)|]. rewrite Hdash. etrans; [by apply (Hstep 48 2%nat)|]. rewrite Hdash.
  rewrite <- (sapp_nil_r (hexEncode (bytes_be 6 u))). rewrite (unhex_bytes 6) by lia. done.
Qed.
