(* ===== verification/Simulators.v ===== *)
(** * The services in memory ([internal/service/expiry_book.go], [async_simulator.go])

    Books by expiry and asynchronous notification, kept in maps: what the
    scenarios of the tests run against.  The server uses neither. *)

From S2P Require Import Prelude GoBase Domain Codes Encoding Json JsonDecode Store Queries Ledger Repo Invariant LedgerProofs ServiceProofs.
From stdpp Require Import base gmap list strings sorting.
From Stdlib Require Import ZArith Lia Ascii.

Local Open Scope string_scope.
Local Open Scope Z_scope.

(** ** [ExpiryBookService] *)

Module ExpiryBook.

Record accountBook : Type := mkBook { ExpireAt : Time; BookBalance : Z }.
Record BookPart : Type := mkBookPart { PartExpireAt : Time; PartAmount : Z }.

(** [nowFn]: an instant set by [SetNow], or the clock. *)
Record ExpiryBookService : Type := mkService { nowFn : option Time; books : gmap string (list accountBook) }.

Definition NewExpiryBookService : ExpiryBookService := mkService None ∅.
Definition SetNow (now : Time) (s : ExpiryBookService) : ExpiryBookService := mkService (Some now) (books s).
Definition now (s : ExpiryBookService) : M Time := match nowFn s with Some t => ret t | None => timeNow end.

(** A missing key of a map reads as the empty slice. *)
Definition booksOf (no : string) (s : ExpiryBookService) : list accountBook := default [] (books s !! no).
Definition setBooks (no : string) (bs : list accountBook) (s : ExpiryBookService) : ExpiryBookService :=
  mkService (nowFn s) (<[no := bs]> (books s)).

Definition withBalance (b : Z) (a : Account) : Account :=
  mkAccount (AccountNo a) (AMerchantNo a) (ACustomerNo a) (AccountType a) (AllowOverdraft a) (MaxOverdraftLimit a)
    (AllowDebitOut a) (AllowCreditIn a) (AllowTransfer a) (BookEnabled a) b.

(** The loop of [Credit] and the append behind it. *)
Fixpoint addTo (expireAt : Time) (amount : Z) (bs : list accountBook) : list accountBook :=
  match bs with
  | [] => [mkBook expireAt amount]
  | b :: rest =>
      if ExpireAt b =? expireAt then mkBook (ExpireAt b) (wrap64 (BookBalance b + amount)) :: rest
      else b :: addTo expireAt amount rest
  end.

(** The books of a list in their order of expiry; [sort.Slice] has no choice
    as long as no two expire together ([sort_unique]). *)
Definition byExpiry : list accountBook -> list accountBook := sort_by (fun a b => ExpireAt a <=? ExpireAt b).

(** The loop of [Debit]: the books after it, the parts and what is
    left ([todo], the source's [left]). *)
Fixpoint spend (now : Time) (bs : list accountBook) (todo : Z) : list accountBook * list BookPart * Z :=
  match bs with
  | [] => ([], [], todo)
  | b :: rest =>
      if todo =? 0 then (bs, [], todo) else
      if negb (now <? ExpireAt b) || (BookBalance b <=? 0) then
        let '(bs', ps, l) := spend now rest todo in (b :: bs', ps, l)
      else
        let use := if todo <? BookBalance b then todo else BookBalance b in
        let '(bs', ps, l) := spend now rest (wrap64 (todo - use)) in
        (mkBook (ExpireAt b) (wrap64 (BookBalance b - use)) :: bs', mkBookPart (ExpireAt b) use :: ps, l)
  end.

Definition sumBooks (bs : list accountBook) : Z := fold_left (fun sum b => wrap64 (sum + BookBalance b)) bs 0.

Section Service.
Context `{Platform}.

Definition Credit (accountNo : string) (amount : Z) (expireAt : Time) (s : ExpiryBookService) : M ExpiryBookService :=
  let! r := Repository.GetAccount accountNo in
  match r with
  | None => throw ErrAccountResolveFailed
  | Some a =>
      if negb (BookEnabled a) then throw ErrBookDisabled else
      if IsZero expireAt then throw ErrExpireAtRequired else
      let s' := setBooks accountNo (addTo expireAt amount (booksOf accountNo s)) s in
      do! attempt (Repository.CreateAccount (withBalance (wrap64 (Balance a + amount)) a)) in
      ret s'
  end.

Definition Debit (accountNo : string) (amount : Z) (s : ExpiryBookService) : M (ExpiryBookService * list BookPart) :=
  let! r := Repository.GetAccount accountNo in
  match r with
  | None => throw ErrAccountResolveFailed
  | Some a =>
      if negb (BookEnabled a) then throw ErrBookDisabled else
      let! t := now s in
      let '(bs, parts, rest) := spend t (byExpiry (booksOf accountNo s)) amount in
      let applied := wrap64 (amount - rest) in
      do! attempt (Repository.CreateAccount (withBalance (wrap64 (Balance a - applied)) a)) in
      ret (setBooks accountNo bs s, parts)
  end.

Definition VerifyAccountBookBalance (accountNo : string) (s : ExpiryBookService) : M bool :=
  let! r := Repository.GetAccount accountNo in
  match r with
  | None => ret false
  | Some a => ret (Balance a =? sumBooks (booksOf accountNo s))
  end.
End Service.

(** *** One book per expiry *)

Definition distinct (bs : list accountBook) : Prop := NoDup (ExpireAt <$> bs).

Lemma addTo_expiries t x bs : t ∈ ExpireAt <$> bs -> ExpireAt <$> addTo t x bs = ExpireAt <$> bs.
Proof.
  induction bs as [|b bs IH]; cbn [addTo]; [by intros ?%elem_of_nil|]. intros Hin.
  destruct (Z.eqb_spec (ExpireAt b) t) as [E|E]; [done|]. rewrite !fmap_cons in *. rewrite IH; [done|]. set_solver.
Qed.

Lemma addTo_new t x bs : t ∉ ExpireAt <$> bs -> addTo t x bs = (bs ++ [mkBook t x])%list.
Proof.
  induction bs as [|b bs IH]; cbn [addTo]; [done|]. rewrite fmap_cons. intros Hn.
  destruct (Z.eqb_spec (ExpireAt b) t) as [E|E]; [set_solver|]. rewrite IH; [done|set_solver].
Qed.

Lemma addTo_distinct t x bs : distinct bs -> distinct (addTo t x bs).
Proof.
  unfold distinct. intros Hd. destruct (decide (t ∈ ExpireAt <$> bs)) as [Hin|Hn]; [by rewrite addTo_expiries|].
  rewrite addTo_new, fmap_app by done. apply NoDup_app. split; [done|]. split; [set_solver|apply NoDup_singleton].
Qed.

Lemma spend_expiries t bs x : ExpireAt <$> (spend t bs x).1.1 = ExpireAt <$> bs.
Proof.
  revert x. induction bs as [|b bs IH]; intros x; cbn [spend]; [done|]. case_match; [done|].
  case_match; [specialize (IH x)|specialize (IH (wrap64 (x - (if x <? BookBalance b then x else BookBalance b))))];
    destruct (spend t bs _) as [[bs' ps] l]; cbn [fst snd] in *; by rewrite !fmap_cons, IH.
Qed.

Lemma byExpiry_distinct bs : distinct bs -> distinct (byExpiry bs).
Proof. unfold distinct, byExpiry. by rewrite sort_by_perm. Qed.

Definition expiring : list accountBook -> Prop := StronglySorted (fun a b => (ExpireAt a <=? ExpireAt b) = true).

Lemma byExpiry_sorted bs : expiring (byExpiry bs).
Proof.
  apply sort_by_sorted; intros; bools; apply Z.leb_le; lia.
Qed.

(** There is one way to sort books of distinct expiries. *)
Lemma sort_unique bs l1 l2 : distinct bs -> l1 ≡ₚ bs -> l2 ≡ₚ bs ->
  expiring l1 -> expiring l2 -> l1 = l2.
Proof.
  intros Hd P1 P2. assert (distinct l1) as Hd1 by (unfold distinct; by rewrite P1).
  assert (l1 ≡ₚ l2) as P by (by rewrite P1, P2). clear P1 P2 Hd bs. intros S1. revert l2 P.
  induction S1 as [|a l1 S1 IH Ha]; intros l2 P S2; [by apply Permutation_nil in P|].
  destruct S2 as [|b l2 S2 Hb]; [by apply symmetry, Permutation_nil in P|].
  assert (a = b) as <-.
  { assert (a ∈ b :: l2) as [->|Hin]%elem_of_cons by (rewrite <- P; left); [done|].
    assert (b ∈ a :: l1) as [->|Hin']%elem_of_cons by (rewrite P; left); [done|].
    rewrite Forall_forall in Ha, Hb. specialize (Ha _ Hin'). specialize (Hb _ Hin). exfalso. bools.
    apply NoDup_cons in Hd1 as [Hn _]. apply Hn. apply list_elem_of_fmap. exists b. split; [lia|done]. }
  f_equal. apply IH; [by apply NoDup_cons in Hd1 as [_ ?]|by apply Permutation_cons_inv in P|done].
Qed.

(** *** What a debit takes *)

Definition spendable (t : Time) (bs : list accountBook) : list accountBook :=
  List.filter (fun b => (t <? ExpireAt b) && (0 <? BookBalance b)) bs.
Definition worth (bs : list accountBook) : Z := sum_by BookBalance bs.

(** [amount] shared over books in order: each gives what it has, the last what
    is missing. *)
Fixpoint shares (amount : Z) (bs : list accountBook) : list BookPart :=
  match bs with
  | [] => []
  | b :: rest =>
      if amount <=? 0 then []
      else mkBookPart (ExpireAt b) (Z.min (BookBalance b) amount) :: shares (amount - BookBalance b) rest
  end.

Lemma shares_none x bs : x <= 0 -> shares x bs = [].
Proof. intros Hx. destruct bs as [|b bs]; [done|]. simpl. by rewrite (proj2 (Z.leb_le _ _)). Qed.

Lemma shares_total x bs : 0 <= x -> Forall (fun b => 0 < BookBalance b) bs ->
  sum_by PartAmount (shares x bs) = Z.min x (worth bs).
Proof.
  unfold worth. intros Hx Hb. revert x Hx. induction Hb as [|b bs Hb Hbs IH]; intros x Hx; cbn [shares sum_by]; [lia|].
  assert (0 <= sum_by BookBalance bs).
  { apply sum_by_nonneg. intros c Hc. rewrite Forall_forall in Hbs. specialize (Hbs c Hc). lia. }
  destruct (Z.leb_spec x 0); [cbn [sum_by]; lia|]. cbn [sum_by PartAmount]. destruct (Z.leb_spec x (BookBalance b)).
  - rewrite shares_none by lia. cbn [sum_by]. lia.
  - rewrite IH by lia. lia.
Qed.

Lemma spendable_positive t bs : Forall (fun b => 0 < BookBalance b) (spendable t bs).
Proof. apply Forall_forall. intros b [_ Hb]%list_elem_of_In%filter_In. bools. lia. Qed.

Lemma sumBooks_worth bs : sumBooks bs ≡64 worth bs.
Proof.
  unfold sumBooks, worth. assert (forall acc, fold_left (fun sum b => wrap64 (sum + BookBalance b)) bs acc
    ≡64 acc + sum_by BookBalance bs) as Hall; [|exact (Hall 0)].
  induction bs as [|b bs IH]; intros acc; cbn [fold_left sum_by]; [apply eq64_of_eq; lia|].
  rewrite IH, wrap64_eq64. apply eq64_of_eq. lia.
Qed.

Lemma addTo_worth t x bs : worth bs + x ≡64 worth (addTo t x bs).
Proof.
  unfold worth. induction bs as [|b bs IH]; cbn [addTo]; [apply eq64_of_eq; simpl; lia|].
  destruct (ExpireAt b =? t); cbn [sum_by BookBalance].
  - rewrite wrap64_eq64. apply eq64_of_eq. lia.
  - rewrite <- IH. apply eq64_of_eq. lia.
Qed.

(** The loop takes from the books that have not expired, in the order of the
    list, their share of the amount; what they do not cover is left, and the
    books lose what was taken. *)
Lemma spend_shares t bs x bs' ps l : 0 <= x <= MaxInt64 -> Forall (fun b => in64 (BookBalance b)) bs ->
  spend t bs x = (bs', ps, l) ->
  ps = shares x (spendable t bs) /\ l = Z.max 0 (x - worth (spendable t bs)) /\ worth bs' = worth bs - (x - l).
Proof.
  unfold worth. intros Hx Hb. revert x Hx bs' ps l. induction Hb as [|b bs Hb Hbs IH]; intros x Hx bs' ps l; cbn [spend].
  { intros [= <- <- <-]. split; [done|]. cbn [spendable List.filter sum_by]. lia. }
  assert (0 <= sum_by BookBalance (spendable t bs)) as Hpos.
  { apply sum_by_nonneg. intros c [_ Hc]%list_elem_of_In%filter_In. bools. lia. }
  unfold spendable in *. cbn [List.filter]. destruct (Z.eqb_spec x 0) as [->|Hn].
  { intros [= <- <- <-]. rewrite shares_none by lia. split; [done|]. split; [|lia].
    destruct (_ && _) eqn:E; cbn [sum_by]; bools; lia. }
  destruct (Z.ltb_spec t (ExpireAt b)) as [Ht|Ht], (Z.leb_spec (BookBalance b) 0) as [Hz|Hz]; cbn [negb orb].
  2:{ rewrite (proj2 (Z.ltb_lt _ _) Hz). cbn [andb sum_by shares]. rewrite (proj2 (Z.leb_gt x 0)) by lia.
      destruct (spend t bs _) as [[bs1 ps1] l1] eqn:Es. intros [= <- <- <-].
      set (use := if x <? BookBalance b then x else BookBalance b) in *.
      assert (use = Z.min (BookBalance b) x) as Hu by (unfold use; destruct (Z.ltb_spec x (BookBalance b)); lia).
      rewrite (wrap64_id (x - use)) in Es by (unfold in64, MinInt64, MaxInt64 in *; lia).
      destruct (IH (x - use) ltac:(lia) _ _ _ Es) as (-> & -> & Hw). rewrite <- Hu. split; [|split].
      - f_equal. destruct (Z.leb_spec x (BookBalance b)); [by rewrite !shares_none by lia|do 2 f_equal; lia].
      - lia.
      - cbn [sum_by BookBalance]. rewrite Hw, wrap64_id by (unfold in64, MinInt64, MaxInt64 in *; lia). lia. }
  all: rewrite ?(proj2 (Z.ltb_ge _ _) Hz), ?andb_false_r; cbn [andb];
    destruct (spend t bs x) as [[bs1 ps1] l1] eqn:Es; intros [= <- <- <-];
    destruct (IH x Hx _ _ _ Es) as (-> & -> & Hw); cbn [sum_by]; (split; [done|]); (split; [done|lia]).
Qed.

(** *** The account is never written

    Both operations store the new balance with [CreateAccount], which refuses
    a number that is taken, and drop its error: the balance of the account
    stays, and the check of the books against it fails after a credit. *)

Section Stored.
Context `{Platform}.

Lemma createAccount_taken a w : is_Some (accounts (w_db w) !! AccountNo a) -> is_ok (createAccount a w).2 = false.
Proof.
  intros [r Hr]. destruct (createAccount a w) as [w' [e|x]] eqn:E; [done|]. exfalso. unfold createAccount in E.
  apply attempt_bind_ok in E as (w1 & r1 & Hc & E). destruct r1 as [e|y]; [done|].
  apply run_Ok in Hc as [(_ & Hn & _)%CreateAccount_ok _]. simpl in Hn. congruence.
Qed.

Lemma CreateAccount_taken a w : is_Some (accounts (w_db w) !! AccountNo a) -> w_db (Repository.CreateAccount a w).1 = w_db w.
Proof.
  intros Ha. destruct (Repository.CreateAccount a w) as [w' r] eqn:E.
  apply withTx_inv in E as [[Hd _]|(w1 & w2 & x & Hd1 & Hb & _)]; [done|].
  pose proof (createAccount_taken a w1) as Hn. rewrite Hb, Hd1 in Hn. by specialize (Hn Ha).
Qed.

Lemma recreated no b a w w1 w2 r : Inv (w_db w) -> Repository.GetAccount no w = (w1, Ok (Some a)) -> w_db w2 = w_db w1 ->
  attempt (Repository.CreateAccount (withBalance b a)) w2 = r -> w_db r.1 = w_db w.
Proof.
  intros HI [Hd Hr]%GetAccount_ok Hd2 <-. destruct (Hr a eq_refl) as (row & Hrow & ->). unfold attempt.
  pose proof (CreateAccount_taken (withBalance b (accountFromGetAccountRow row)) w2) as Hc.
  destruct (Repository.CreateAccount _ w2) as [w' x]. simpl in *. rewrite Hc; [congruence|].
  rewrite Hd2, Hd, (inv_akey _ HI _ _ Hrow). by exists row.
Qed.

Lemma Credit_inv no amount t s w w' s' : Inv (w_db w) -> Credit no amount t s w = (w', Ok s') ->
  w_db w' = w_db w /\ s' = setBooks no (addTo t amount (booksOf no s)) s /\
  exists r, accounts (w_db w) !! no = Some r /\ ar_book r = true.
Proof.
  unfold Credit. intros HI (w1 & [a|] & Hg & Hr)%bind_ok; [|done].
  destruct (BookEnabled a) eqn:Eb; [|done]. destruct (IsZero t); [done|]. cbv zeta in Hr. cbn [negb] in Hr.
  apply bind_ok in Hr as (w2 & x & Hc & [-> ->]%ret_ok).
  pose proof (recreated no _ a w w1 w1 _ HI Hg eq_refl Hc) as Hd. split; [exact Hd|]. split; [done|].
  apply GetAccount_ok in Hg as [_ Hg]. destruct (Hg a eq_refl) as (r & Hr & ->). by exists r.
Qed.

Lemma now_spec s w w' t : now s w = (w', Ok t) -> w_db w' = w_db w /\ forall t0, nowFn s = Some t0 -> t = t0.
Proof.
  unfold now. destruct (nowFn s) as [t0|].
  - intros [-> ->]%ret_ok. split; [done|]. by intros ? [= ->].
  - intros [Hd _]%timeNow_ok. by split.
Qed.

(** A debit takes the shares of the unexpired books in their order of expiry
    from the books, and leaves the account as it was. *)
Lemma Debit_inv no amount s w w' s' ps : Inv (w_db w) -> 0 <= amount <= MaxInt64 ->
  Forall (fun b => in64 (BookBalance b)) (booksOf no s) ->
  Debit no amount s w = (w', Ok (s', ps)) ->
  w_db w' = w_db w /\
  exists t bs, (forall t0, nowFn s = Some t0 -> t = t0) /\ s' = setBooks no bs s /\
    ps = shares amount (spendable t (byExpiry (booksOf no s))) /\
    worth bs = worth (booksOf no s) - sum_by PartAmount ps.
Proof.
  unfold Debit. intros HI Ha Hb (w1 & [a|] & Hg & Hr)%bind_ok; [|done].
  destruct (BookEnabled a) eqn:Eb; [|done]. cbn [negb] in Hr. apply bind_ok in Hr as (w2 & t & [Hd2 Ht]%now_spec & Hr).
  destruct (spend t _ amount) as [[bs ps1] l] eqn:Es. cbv zeta in Hr.
  apply bind_ok in Hr as (w3 & x & Hc & [-> [= -> ->]]%ret_ok).
  split; [exact (recreated no _ a w w1 w2 _ HI Hg Hd2 Hc)|]. exists t, bs. split; [done|]. split; [done|].
  apply spend_shares in Es as (-> & -> & Hw); [|done|unfold byExpiry; by rewrite sort_by_perm]. split; [done|].
  rewrite shares_total by (lia || apply spendable_positive). rewrite Hw. unfold worth, byExpiry at 1. rewrite (sum_by_perm _ _ _ (sort_by_perm _ _)).
  fold (worth (spendable t (byExpiry (booksOf no s)))). lia.
Qed.

(** After a credit the books no longer add up to the balance that is stored. *)
Lemma Credit_unbalances no amount t s w w' s' :
  Inv (w_db w) -> ~ amount ≡64 0 -> Credit no amount t s w = (w', Ok s') ->
  (VerifyAccountBookBalance no s w).2 = Ok true ->
  forall w2, w_db w2 = w_db w' -> (VerifyAccountBookBalance no s' w2).2 <> Ok true.
Proof.
  intros HI Ha Hc Hv w2 Hd2 Hv2. apply Credit_inv in Hc as (Hd & -> & r & Hr & _); [|done].
  assert (forall s0 w0, w_db w0 = w_db w -> (VerifyAccountBookBalance no s0 w0).2 = Ok true ->
            ar_balance r = sumBooks (booksOf no s0)) as Hver.
  { intros s0 w0 Hd0 H0. destruct (VerifyAccountBookBalance no s0 w0) as [w9 x] eqn:E. simpl in H0. subst x.
    unfold VerifyAccountBookBalance in E. apply bind_ok in E as (w3 & [a|] & [_ Hg]%GetAccount_ok & E);
      apply ret_ok in E as [_ E]; [|done]. destruct (Hg a eq_refl) as (r' & Hr' & ->).
    rewrite Hd0, Hr in Hr'. injection Hr' as <-. symmetry in E. by apply Z.eqb_eq in E. }
  apply Hver in Hv; [|done]. apply Hver in Hv2; [|congruence]. apply Ha.
  assert (ar_balance r ≡64 ar_balance r + amount) as E.
  { rewrite Hv2 at 1. rewrite Hv, !sumBooks_worth. unfold booksOf, setBooks. simpl. rewrite lookup_insert_eq. symmetry. apply addTo_worth. }
  rewrite <- (Z.sub_diag (ar_balance r)). rewrite E at 1. apply eq64_of_eq. lia.
Qed.
End Stored.
End ExpiryBook.

(** ** [AsyncService] *)

Module AsyncSimulator.

Record OutboxEvent : Type := mkOutboxEvent {
  EventID : string; TxnNo : string; MerchantNo : string; OutTradeNo : string; RetryCount : Z; Status : string
}.
Record NotifyLog : Type := mkNotifyLog { LTxnNo : string; LStatus : string; Retries : Z }.

Record AsyncService : Type := mkAsync {
  seq : Z; outbox : list OutboxEvent; notify : gmap string (list NotifyLog); txnStatus : gmap string string
}.

Definition NewAsyncService : AsyncService := mkAsync 0 [] ∅ ∅.

(** [string(rune(n))] of an [int]: a number that is no rune reads as U+FFFD. *)
Definition runeText (n : Z) : string :=
  let r := (n + 2147483648) mod 4294967296 - 2147483648 in
  if (r <? 0) || (1114111 <? r) || isSurrogate r then replacement else appendRune r.

Definition nextID (s : AsyncService) : AsyncService * string :=
  let n := wrap64 (seq s + 1) in
  (mkAsync n (outbox s) (notify s) (txnStatus s), "id_" ++ runeText (wrap64 (97 + n))).

(** [RecordMainTxnSuccess] and [RecordStuckTxn], which differ in the status. *)
Definition record (status merchantNo outTradeNo : string) (s : AsyncService) : AsyncService * string :=
  let '(s1, txnNo) := nextID s in
  let '(s2, eventID) := nextID (mkAsync (seq s1) (outbox s1) (notify s1) (<[txnNo := status]> (txnStatus s1))) in
  (mkAsync (seq s2) (outbox s2 ++ [mkOutboxEvent eventID txnNo merchantNo outTradeNo 0 "PENDING"])%list (notify s2) (txnStatus s2),
   txnNo).
Definition RecordMainTxnSuccess : string -> string -> AsyncService -> AsyncService * string := record TxnStatusRecvSuccess.
Definition RecordStuckTxn : string -> string -> AsyncService -> AsyncService * string := record TxnStatusInit.

Definition ListOutboxPending (s : AsyncService) : list OutboxEvent :=
  List.filter (fun e => String.eqb (Status e) "PENDING") (outbox s).
Definition ListOutboxDead (s : AsyncService) : list OutboxEvent :=
  List.filter (fun e => String.eqb (Status e) NotifyStatusDead) (outbox s).
Definition ListNotifyLogs (txnNo : string) (s : AsyncService) : list NotifyLog := default [] (notify s !! txnNo).
Definition GetTxnStatus (txnNo : string) (s : AsyncService) : string := default "" (txnStatus s !! txnNo).

Definition stuck (st : string) : bool := String.eqb st TxnStatusInit || String.eqb st TxnStatusPaySuccess.
Definition RunTxnCompensation (s : AsyncService) : AsyncService :=
  mkAsync (seq s) (outbox s) (notify s) ((fun st => if stuck st then TxnStatusRecvSuccess else st) <$> txnStatus s).
Definition RunCompensation : AsyncService -> AsyncService := RunTxnCompensation.

Definition SignWebhook (secret body timestamp nonce : string) : string :=
  let newline := String (of_byte 10) "" in
  hexEncode (hmac_sha256 secret (timestamp ++ newline ++ nonce ++ newline ++ body)).

(** *** Delivery

    [deliver] runs under the lock of the service, so it may have a state of
    its own but not call the service back. *)

Section Delivery.
Context {C : Type} (deliver : OutboxEvent -> C -> C * bool).

(** One iteration for a pending event: the event after it and its log. *)
Definition deliverOne (e : OutboxEvent) (c : C) : C * OutboxEvent * NotifyLog :=
  let '(c', ok) := deliver e c in
  let becomes n status := mkOutboxEvent (EventID e) (TxnNo e) (MerchantNo e) (OutTradeNo e) n status in
  if ok then (c', becomes (RetryCount e) NotifyStatusSuccess, mkNotifyLog (TxnNo e) NotifyStatusSuccess (RetryCount e)) else
  let n := wrap64 (RetryCount e + 1) in
  if 3 <=? n then (c', becomes n NotifyStatusDead, mkNotifyLog (TxnNo e) NotifyStatusDead n)
  else (c', becomes n (Status e), mkNotifyLog (TxnNo e) NotifyStatusFailed n).

Fixpoint processEvents (es : list OutboxEvent) (n : gmap string (list NotifyLog)) (c : C)
    : list OutboxEvent * gmap string (list NotifyLog) * C :=
  match es with
  | [] => ([], n, c)
  | e :: rest =>
      if negb (String.eqb (Status e) "PENDING") then
        let '(es', n', c') := processEvents rest n c in (e :: es', n', c')
      else
        let '(c1, e1, log) := deliverOne e c in
        let '(es', n', c') := processEvents rest (<[TxnNo e := (default [] (n !! TxnNo e) ++ [log])%list]> n) c1 in
        (e1 :: es', n', c')
  end.

Definition ProcessOutbox (s : AsyncService) (c : C) : AsyncService * C :=
  let '(es, n, c') := processEvents (outbox s) (notify s) c in (mkAsync (seq s) es n (txnStatus s), c').
Definition RunNotifyCompensation : AsyncService -> C -> AsyncService * C := ProcessOutbox.
End Delivery.

(** *** Retries end *)

Definition pending (e : OutboxEvent) : Prop := Status e = "PENDING".
Definition event_ok (e : OutboxEvent) : Prop :=
  0 <= RetryCount e <= 3 /\ (pending e /\ RetryCount e < 3 \/ Status e = NotifyStatusSuccess /\ RetryCount e < 3 \/
                            Status e = NotifyStatusDead /\ RetryCount e = 3).

(** What a pass does to one event. *)
Definition passed (e e' : OutboxEvent) : Prop :=
  EventID e' = EventID e /\ TxnNo e' = TxnNo e /\
  (~ pending e /\ e' = e \/
   pending e /\ (Status e' = NotifyStatusSuccess /\ RetryCount e' = RetryCount e \/
                RetryCount e' = RetryCount e + 1 /\ Status e' = (if 3 <=? RetryCount e' then NotifyStatusDead else "PENDING"))).

Lemma deliverOne_passed {C} (deliver : OutboxEvent -> C -> C * bool) e c : event_ok e -> pending e ->
  passed e (deliverOne deliver e c).1.2.
Proof.
  intros [Hr _] Hp. unfold deliverOne, passed. destruct (deliver e c) as [c' [|]]; cbn zeta.
  - split; [done|]. split; [done|]. right. split; [done|]. by left.
  - rewrite wrap64_id by (unfold in64, MinInt64, MaxInt64; lia). destruct (3 <=? RetryCount e + 1) eqn:E3; simpl; rewrite ?E3; auto 10.
Qed.

Lemma processEvents_passed {C} (deliver : OutboxEvent -> C -> C * bool) es n c : Forall event_ok es ->
  Forall2 passed es (processEvents deliver es n c).1.1.
Proof.
  intros Hok. revert n c. induction Hok as [|e es He _ IH]; intros n c; cbn [processEvents]; [constructor|].
  destruct (String.eqb_spec (Status e) "PENDING") as [Hp|Hp]; cbn [negb].
  - pose proof (deliverOne_passed deliver e c He Hp) as Ha. destruct (deliverOne deliver e c) as [[c1 e1] log].
    specialize (IH (<[TxnNo e := (default [] (n !! TxnNo e) ++ [log])%list]> n) c1).
    destruct (processEvents deliver es _ c1) as [[es' n'] c']. by constructor.
  - specialize (IH n c). destruct (processEvents deliver es n c) as [[es' n'] c']. constructor; [|done].
    split; [done|]. split; [done|]. by left.
Qed.

Lemma passed_ok e e' : event_ok e -> passed e e' -> event_ok e' /\ (pending e' -> pending e /\ RetryCount e' = RetryCount e + 1).
Proof.
  intros [Hr Hc] (_ & _ & [[Hn ->]|[Hp [[Hs Hr']|[Hr' Hs]]]]).
  - by split.
  - unfold event_ok, pending in *. rewrite Hs, Hr'. destruct Hc as [[_ ?]|[[E _]|[E _]]]; try (rewrite Hp in E; discriminate).
    split; [|discriminate]. split; [lia|]. right. by left.
  - unfold event_ok, pending in *. destruct Hc as [[_ ?]|[[E _]|[E _]]]; try (rewrite Hp in E; discriminate).
    destruct (Z.leb_spec 3 (RetryCount e')) as [H3|H3]; rewrite Hs, Hr' in *.
    + split; [|discriminate]. split; [lia|]. right. right. split; [done|lia].
    + split; [|done]. split; [lia|]. left. by split.
Qed.

(** The states of the service. *)
Inductive step : AsyncService -> AsyncService -> Prop :=
| step_record status m o s : step s (record status m o s).1
| step_deliver C (deliver : OutboxEvent -> C -> C * bool) c s : step s (ProcessOutbox deliver s c).1
| step_compensate s : step s (RunTxnCompensation s).
Definition reachable : AsyncService -> Prop := rtc step NewAsyncService.

Lemma ProcessOutbox_outbox {C} (deliver : OutboxEvent -> C -> C * bool) s c :
  outbox (ProcessOutbox deliver s c).1 = (processEvents deliver (outbox s) (notify s) c).1.1.
Proof. unfold ProcessOutbox. by destruct (processEvents _ _ _ _) as [[es n] c']. Qed.

Lemma events_ok_passed es es' : Forall event_ok es -> Forall2 passed es es' -> Forall event_ok es'.
Proof.
  intros Hok Hp. induction Hp as [|e e' es es' Hp _ IH]; [constructor|]. apply Forall_cons in Hok as [He Hok].
  constructor; [by eapply passed_ok|by apply IH].
Qed.

(** In every state an event is pending after fewer than three failures, dead
    after the third, or delivered. *)
Lemma reachable_events_ok s : reachable s -> Forall event_ok (outbox s).
Proof.
  intros Hr. refine (rtc_ind_r (fun s => Forall event_ok (outbox s)) NewAsyncService _ _ s Hr); [constructor|].
  clear. intros s1 s2 _ [status m o s|C deliver c s|s] IH; [|rewrite ProcessOutbox_outbox|exact IH].
  2:{ eapply events_ok_passed; [exact IH|]. by apply processEvents_passed. }
  unfold record, nextID. simpl. apply Forall_app. split; [done|]. constructor; [|constructor]. split; simpl; [lia|]. by left.
Qed.

(** After three passes no event is pending, whatever the deliveries answer. *)
Lemma three_passes_drain {C} (deliver : OutboxEvent -> C -> C * bool) s c : reachable s ->
  let '(s1, c1) := ProcessOutbox deliver s c in
  let '(s2, c2) := ProcessOutbox deliver s1 c1 in
  let '(s3, _) := ProcessOutbox deliver s2 c2 in
  ListOutboxPending s3 = [] /\ length (outbox s3) = length (outbox s).
Proof.
  intros Hok%reachable_events_ok.
  assert (forall s c k, Forall event_ok (outbox s) -> (forall e, e ∈ outbox s -> pending e -> k <= RetryCount e) ->
    let s' := (ProcessOutbox deliver s c).1 in
    Forall event_ok (outbox s') /\ length (outbox s') = length (outbox s) /\
    (forall e, e ∈ outbox s' -> pending e -> k + 1 <= RetryCount e)) as Hpass.
  { intros s0 c0 k H0 Hk. cbv zeta. rewrite ProcessOutbox_outbox.
    pose proof (processEvents_passed deliver (outbox s0) (notify s0) c0 H0) as Hp.
    split; [by eapply events_ok_passed|]. split; [symmetry; by apply Forall2_length in Hp|].
    intros e' He' Hpe. apply list_elem_of_lookup_1 in He' as [i Hi].
    destruct (Forall2_lookup_r _ _ _ _ _ Hp Hi) as (e & He%list_elem_of_lookup_2 & Hpass).
    rewrite Forall_forall in H0. destruct (passed_ok e e' (H0 e He) Hpass) as [_ Hc]. destruct (Hc Hpe) as [Hpe0 ->].
    specialize (Hk e He Hpe0). lia. }
  destruct (ProcessOutbox deliver s c) as [s1 c1] eqn:E1. destruct (ProcessOutbox deliver s1 c1) as [s2 c2] eqn:E2.
  destruct (ProcessOutbox deliver s2 c2) as [s3 c3] eqn:E3.
  pose proof (Hpass s c 0 Hok) as H1. rewrite E1 in H1. destruct H1 as (K1 & L1 & R1).
  { intros e He _. rewrite Forall_forall in Hok. specialize (Hok e He). unfold event_ok in Hok. lia. }
  pose proof (Hpass s1 c1 1 K1 R1) as H2. rewrite E2 in H2. destruct H2 as (K2 & L2 & R2).
  pose proof (Hpass s2 c2 2 K2 R2) as H3. rewrite E3 in H3. destruct H3 as (K3 & L3 & R3). simpl in *.
  split; [|congruence]. unfold ListOutboxPending. destruct (List.filter _ _) as [|e l] eqn:Ef; [done|]. exfalso.
  assert (In e (e :: l)) as Hin by (by left). rewrite <- Ef in Hin.
  apply filter_In in Hin as [He%list_elem_of_In Hp%String.eqb_eq].
  specialize (R3 e He Hp). rewrite Forall_forall in K3. destruct (K3 e He) as [_ [[_ ?]|[[E _]|[E _]]]]; [lia|..];
    rewrite Hp in E; discriminate.
Qed.

(** Compensation leaves no transaction stuck. *)
Lemma compensated s no st : txnStatus (RunTxnCompensation s) !! no = Some st -> stuck st = false.
Proof.
  simpl. rewrite lookup_fmap. destruct (txnStatus s !! no) as [st0|]; [|done]. simpl. intros [= <-].
  destruct (stuck st0) eqn:E; done.
Qed.

(** *** Identifiers: 55198 of them *)

(** The number written by up to three bytes of UTF-8. *)
Definition runeValue (s : string) : Z :=
  match s with
  | String a "" => byte_of a
  | String a (String b "") => (byte_of a - 192) * 64 + (byte_of b - 128)
  | String a (String b (String c _)) => (byte_of a - 224) * 4096 + (byte_of b - 128) * 64 + (byte_of c - 128)
  | "" => 0
  end.

Lemma runeValue_appendRune r : 0 <= r < 65536 -> runeValue (appendRune r) = r.
Proof.
  intros Hr. unfold appendRune.
  pose proof (Z.div_mod r 64 ltac:(lia)) as H1. pose proof (Z.mod_pos_bound r 64 ltac:(lia)) as B1.
  pose proof (Z.div_mod (r / 64) 64 ltac:(lia)) as H2. pose proof (Z.mod_pos_bound (r / 64) 64 ltac:(lia)) as B2.
  rewrite Z.div_div in H2 by lia. change (64 * 64) with 4096 in H2.
  destruct (Z.ltb_spec r 128); [unfold runeValue; by rewrite byte_of_of by lia|].
  destruct (Z.ltb_spec r 2048); [|rewrite (proj2 (Z.ltb_lt r 65536)) by lia];
    unfold runeValue; rewrite !byte_of_of by lia; lia.
Qed.

Lemma runeText_value n : 0 <= n < 55296 -> runeText n = appendRune n.
Proof.
  intros Hn. unfold runeText. rewrite Z.mod_small, Z.add_simpl_r by lia. unfold isSurrogate.
  rewrite (proj2 (Z.ltb_ge n 0)), (proj2 (Z.ltb_ge 1114111 n)), (proj2 (Z.leb_gt 55296 n)) by lia. done.
Qed.

(** The identifiers of the first 55198 draws are different; from there on
    they repeat. *)
Lemma ids_differ s s' : 0 <= seq s < 55198 -> 0 <= seq s' < 55198 -> (nextID s).2 = (nextID s').2 -> seq s = seq s'.
Proof.
  intros Hs Hs'. unfold nextID. cbn [snd]. intros E%sapp_inj_l.
  rewrite !wrap64_id in E by (rewrite ?wrap64_id by (unfold in64, MinInt64, MaxInt64; lia); unfold in64, MinInt64, MaxInt64; lia).
  rewrite !runeText_value in E by lia. apply (f_equal runeValue) in E. rewrite !runeValue_appendRune in E by lia. lia.
Qed.

Lemma ids_repeat : (nextID (mkAsync 55198 [] ∅ ∅)).2 = (nextID (mkAsync 55199 [] ∅ ∅)).2.
Proof. reflexivity. Qed.
End AsyncSimulator.
