(* ===== verification/Samples.v ===== *)
(** * A concrete run of the system

    A platform with decimal UUIDs and a sequence of worlds reached from empty
    tables by real calls: a merchant, a customer, an issue of money, a payment
    and a refund.  They show that the hypotheses of the theorems can hold, and
    what the definitions compute. *)

From S2P Require Import Prelude GoBase Domain Codes Encoding Store Queries Reads Secrets Ledger HiLo Repo Services Processor Invariant Books LedgerProofs StageProofs Calls Grow System Safety.
From stdpp Require Import base gmap list strings list_numbers.
From Stdlib Require Import ZArith Lia Ascii.

Local Open Scope string_scope.
Local Open Scope Z_scope.

(** ** UUIDs written as decimal numbers *)

Definition demoText (u : Z) : string := if u <? 0 then String "n"%char (format_nat (- u)) else format_nat u.
Definition demoParse (s : string) : option Z :=
  match s with
  | String c s' => if byte_of c =? 110 then option_map Z.opp (parse_nat s') else parse_nat s
  | EmptyString => None
  end.

Lemma demoParse_text u : demoParse (demoText u) = Some u.
Proof.
  unfold demoText. destruct (Z.ltb_spec u 0).
  - cbn [demoParse]. change (byte_of "n"%char =? 110) with true. cbn [byte_of]. rewrite parse_format_nat by lia.
    simpl. by rewrite Z.opp_involutive.
  - pose proof (parse_format_nat u ltac:(lia)) as Hp. pose proof (format_nat_digits u ltac:(lia)) as Hd.
    destruct (format_nat u) as [|c s] eqn:E; [done|]. simpl in Hd. bools. unfold demoParse.
    destruct (Z.eqb_spec (byte_of c) 110) as [E1|]; [|done].
    match goal with Hc : is_digit c = true |- _ => apply is_digit_bound in Hc end. lia.
Qed.

#[export] Instance demo : Platform := {
  uuid_parse := demoParse;
  uuid_text := demoText;
  uuid_sha1 u s := u * 4294967296 + hashUint32 s;
  uuid_parse_text := demoParse_text
}.

(** ** An AEAD that authenticates

    The plaintext behind its tag, the HMAC of nonce and plaintext. *)

Definition demoSeal (key nonce plain : string) : string := hmac_sha256 key (nonce ++ plain) ++ plain.
Definition demoOpen (key nonce sealed : string) : option string :=
  let plain := sdrop 32 sealed in
  if String.eqb (stake 32 sealed) (hmac_sha256 key (nonce ++ plain)) then Some plain else None.

Lemma length_hmac key msg : String.length (hmac_sha256 key msg) = 32%nat.
Proof.
  unfold hmac_sha256. generalize (xor_pad 92 (hmac_key key) ++ sha256 (xor_pad 54 (hmac_key key) ++ msg)) as p.
  intros p. unfold sha256. generalize (sha256_blocks (Z.to_nat (slen (sha256_pad p) / 64)) sha256_init (sha256_pad p)) as h.
  intros h. reflexivity.
Qed.

Lemma demoOpen_Seal key nonce plain : demoOpen key nonce (demoSeal key nonce plain) = Some plain.
Proof.
  unfold demoOpen, demoSeal. rewrite <- (length_hmac key (nonce ++ plain)), sdrop_app, stake_app.
  by rewrite String.eqb_refl.
Qed.

#[export] Instance demoAEAD : AEAD := {
  aead_Seal := demoSeal; aead_Open := demoOpen; aead_open_seal := demoOpen_Seal
}.

Definition demoKey : AESGCMCipher := mkAESGCMCipher (sha256 "passphrase").
#[export] Instance demoCipher : SecretCipher := aesgcm demoKey.

(** ** The run *)

Definition day (n : Z) : Time := n * dayNs.

(** The UUID drawn at the start of the run with random bytes [n]. *)
Definition uu (n : Z) : UUID := uuidv7 (UnixMilli (day 20000)) n.

Definition s0 : World := mkWorld emptyDB 0 (day 20000) [] (seqZ 1000 40) [] ∅ ∅ ∅.
Definition s1 : World := exec (OpCreateMerchant "" "Acme") s0.
Definition acme : MerchantRow := default (mkMerchantRow 0 "" "" "" "" None true true) (head (snd <$> map_to_list (merchants (w_db s1)))).
Definition s2 : World := exec (OpWebhookConfig (mr_no acme) "https://acme.test/hook" true) s1.
Definition s3 : World := exec (OpEnsureCustomerAccount (mr_no acme) "alice") s2.
Definition alice : string :=
  default "" (c ← head (snd <$> map_to_list (customers (w_db s3))); cr_default c).

(** Acme issues 100 to alice, to be spent before day 20010... *)
Definition issue : TransferRequest :=
  mkTransferRequest (mr_no acme) "ISSUE-1" "welcome" "" "TRANSFER" SceneIssue (mr_budget acme) alice
    (Some (day 20010)) "" 100 0 "".
Definition s4 : World := exec (OpSubmit issue) s3.
Definition issueNo : string := demoText (uu 1003).
Definition s5 : World := exec (OpStage issueNo TxnStatusInit) s4.
Definition s6 : World := exec (OpStage issueNo TxnStatusPaySuccess) s5.

(** ... alice spends 60 of it... *)
Definition consume : TransferRequest :=
  mkTransferRequest (mr_no acme) "CONSUME-1" "coffee" "" "TRANSFER" SceneConsume alice (mr_receivable acme)
    None "" 60 0 "".
Definition s7 : World := exec (OpSubmit consume) s6.
Definition consumeNo : string := demoText (uu 1005).
Definition s8 : World := exec (OpStage consumeNo TxnStatusInit) s7.
Definition s9 : World := exec (OpStage consumeNo TxnStatusPaySuccess) s8.

(** ... and gets 20 back. *)
Definition refund : TransferRequest :=
  mkTransferRequest (mr_no acme) "REFUND-1" "" "" "REFUND" "" "" "" None consumeNo 20 0 "".
Definition s10 : World := exec (OpSubmit refund) s9.
Definition refundNo : string := demoText (uu 1006).
Definition s11 : World := exec (OpStage refundNo TxnStatusInit) s10.
Definition s12 : World := exec (OpStage refundNo TxnStatusPaySuccess) s11.

(** A payment that asks for more than there is. *)
Definition greedy : TransferRequest :=
  mkTransferRequest (mr_no acme) "CONSUME-2" "" "" "TRANSFER" SceneConsume alice (mr_receivable acme)
    None "" 1000 0 "".
Definition s13 : World := exec (OpSubmit greedy) s12.
Definition greedyNo : string := demoText (uu 1007).

(** ** The run is reachable *)

(** All the money in books, and hence in those of any one account. *)
Definition book_money (d : DB) : Z := msum (fun b => Z.max 0 (br_balance b)) (books d).

Lemma fits_of_total d : (book_money d <=? MaxInt64) = true -> fits d.
Proof.
  intros Hb no. apply Z.leb_le in Hb. etrans; [|exact Hb]. unfold book_money, msum.
  induction (map_to_list (books d)) as [|[u b] l IH]; simpl; [done|].
  unfold pos_w at 1. destruct (String.eqb _ _); lia.
Qed.

(** One call of the run that adds up no books, and one that does. *)
Lemma reach_call w o : reachable w -> disciplined o -> needs_fit o = false -> reachable (exec o w).
Proof. intros Hw Ho Hn. apply re_call; [done|done|]. by rewrite Hn. Qed.

Lemma reach_stage w no st :
  reachable w -> (book_money (w_db w) <=? MaxInt64) = true -> reachable (exec (OpStage no st) w).
Proof. intros Hw Hb. apply re_call; [done|exact I|]. intros _. by apply fits_of_total. Qed.

Lemma demo_submits req :
  (String.eqb (RqStatus req) "" && (RqRefundableAmount req <=? RqAmount req)) = true -> disciplined (OpSubmit req).
Proof. intros Hb. bools. split; [by left|done]. Qed.

Lemma reach_s3 : reachable s3.
Proof.
  apply (reach_call s2); [apply (reach_call s1)|exact I|reflexivity]; [apply (reach_call s0)|exact I|reflexivity];
    [by apply re_start|exact I|reflexivity].
Qed.

Lemma reach_s4 : reachable s4.
Proof. apply (reach_call s3); [exact reach_s3|by apply demo_submits|reflexivity]. Qed.
Lemma reach_s5 : reachable s5.
Proof. apply (reach_stage s4); [exact reach_s4|by vm_compute]. Qed.
Lemma reach_s6 : reachable s6.
Proof. apply (reach_stage s5); [exact reach_s5|by vm_compute]. Qed.
Lemma reach_s7 : reachable s7.
Proof. apply (reach_call s6); [exact reach_s6|by apply demo_submits|reflexivity]. Qed.
Lemma reach_s8 : reachable s8.
Proof. apply (reach_stage s7); [exact reach_s7|by vm_compute]. Qed.
Lemma reach_s9 : reachable s9.
Proof. apply (reach_stage s8); [exact reach_s8|by vm_compute]. Qed.
Lemma reach_s10 : reachable s10.
Proof. apply (reach_call s9); [exact reach_s9|by apply demo_submits|reflexivity]. Qed.
Lemma reach_s11 : reachable s11.
Proof. apply (reach_stage s10); [exact reach_s10|by vm_compute]. Qed.
Lemma reach_s12 : reachable s12.
Proof. apply (reach_stage s11); [exact reach_s11|by vm_compute]. Qed.
Lemma reach_s13 : reachable s13.
Proof. apply (reach_call s12); [exact reach_s12|by apply demo_submits|reflexivity]. Qed.
