(* ===== verification/Witnesses.v ===== *)
(** * The theorems on the concrete run

    Each property with hypotheses, applied to the run of [Samples] or to small
    concrete data. *)

From S2P Require Import Prelude GoBase Domain Codes Encoding Store Queries Reads Secrets Paging Ledger HiLo Repo Services Processor Invariant Books LedgerProofs StageProofs BookRules Calls Grow System Safety ProcessorProofs QueueProofs ServiceProofs PagingProofs OutboxProofs Samples.
From stdpp Require Import base gmap list strings list_numbers sorting.
From Stdlib Require Import ZArith Lia Ascii.

Local Open Scope string_scope.
Local Open Scope Z_scope.

(** ** Rows of the run *)

Definition noAccount : AccountRow := mkAccountRow "" "" None "" false 0 false false false false 0 0.
Definition noTxn : TxnRow := mkTxnRow 0 "" "" "" None None None None None None 0 "" None 0 None None 0 0.
Definition account_at (no : string) (w : World) : AccountRow := default noAccount (accounts (w_db w) !! no).
Definition txn_at (u : UUID) (w : World) : TxnRow := default noTxn (txns (w_db w) !! u).

Lemma triple_eq {A B C} (p : A * (B * C)) : p = (p.1, (p.2.1, p.2.2)).
Proof. by destruct p as [? []]. Qed.
Lemma triple_eq_l {A B C} (p : A * B * C) : p = (p.1.1, p.1.2, p.2).
Proof. by destruct p as [[] ?]. Qed.

Lemma pair_ok {A B} (p : A * (B * option error)) : p.2.2 = None -> p = (p.1, (p.2.1, None)).
Proof. destruct p as [? [? ?]]. simpl. by intros ->. Qed.

Ltac computed := vm_compute; reflexivity.

Lemma inv4 : Inv (w_db s4).
Proof. exact (reachable_Inv _ reach_s4). Qed.
Lemma inv5 : Inv (w_db s5).
Proof. exact (reachable_Inv _ reach_s5). Qed.
Lemma inv6 : Inv (w_db s6).
Proof. exact (reachable_Inv _ reach_s6). Qed.
Lemma inv13 : Inv (w_db s13).
Proof. exact (reachable_Inv _ reach_s13). Qed.
Lemma fits4 : fits (w_db s4).
Proof. apply fits_of_total. by vm_compute. Qed.
Lemma fits5 : fits (w_db s5).
Proof. apply fits_of_total. by vm_compute. Qed.
Lemma fits6 : fits (w_db s6).
Proof. apply fits_of_total. by vm_compute. Qed.
Lemma fits13 : fits (w_db s13).
Proof. apply fits_of_total. by vm_compute. Qed.

(** ** The system *)

Lemma balances_explained_witness :
  ar_balance (account_at alice s12) = 60 /\
  60 = wrap64 (alog alice (account_changes (w_db s12))) /\ 60 = wrap64 (book_sum alice (books (w_db s12))).
Proof.
  assert (ar_balance (account_at alice s12) = 60) as E by computed.
  destruct (balances_explained s12 reach_s12) as [Ha _].
  destruct (Ha alice (account_at alice s12)) as [H1 H2]; [computed|].
  rewrite E in H1, H2. split; [exact E|]. split; [exact H1|]. apply H2. computed.
Defined.

Lemma money_conserved_witness :
  held (w_db s5) (uu 1003) (txn_at (uu 1003) s5) = 100 /\
  Invariant.total (w_db s5) + ksum (held (w_db s5)) (txns (w_db s5)) ≡64 0.
Proof. split; [computed|]. exact (proj1 (money_conserved s5 reach_s5)). Defined.

Lemma refunds_bounded_witness :
  refunded (uu 1005) (w_db s12) = 20 /\ refunded (uu 1005) (w_db s12) + tr_refundable (txn_at (uu 1005) s12) <= 60.
Proof.
  split; [computed|]. exact (proj2 (refunds_bounded s12 (uu 1005) (txn_at (uu 1005) s12) reach_s12 ltac:(computed) ltac:(computed))).
Defined.

(** ** Stages *)

Abbreviation out5 := (ApplyTxnStage issueNo TxnStatusInit s4).
Abbreviation out6 := (ApplyTxnStage issueNo TxnStatusPaySuccess s5).

Lemma ApplyTxnStage_exactly_once_witness :
  out5.2.2 = None /\ Applied out5.2.1 = true /\
  exists t, txns (w_db s4) !! tr_no t = Some t /\ tr_status t = TxnStatusInit
    /\ status_step TxnStatusInit (CurrentStatus out5.2.1).
Proof.
  assert (out5.2.2 = None) as E by computed. assert (Applied out5.2.1 = true) as EA by computed.
  split; [exact E|]. split; [exact EA|].
  pose proof (ApplyTxnStage_exactly_once issueNo TxnStatusInit s4 _ _ _ inv4 fits4 (triple_eq out5)) as Ht.
  rewrite E in Ht. destruct Ht as (t & _ & Ht & [[EF _]|(_ & Hs & Hstep & _)]); [congruence|].
  exists t. split; [exact Ht|]. split; [exact Hs|exact Hstep].
Defined.

Lemma success_writes_event_witness :
  deterministicOutboxEventID (uu 1003) "TxnSucceeded" ∈ map ob_event (outbox (w_db out6.1)).
Proof.
  assert (out6.2.2 = None) as E by computed.
  assert (castUUID issueNo = Ok (Some (uu 1003))) as Ec by computed.
  assert (notifiable (tr_merchant (txn_at (uu 1003) s6)) (w_db s5) = true) as En by computed.
  assert (txns (w_db out6.1) !! (uu 1003) = Some (txn_at (uu 1003) s6)) as Et by computed.
  destruct (success_writes_event issueNo TxnStatusPaySuccess s5 out6.1 out6.2.1 inv5 fits5 (pair_ok out6 E))
    as (u & t & Hu & Ht & _ & Hn); [computed|computed|].
  rewrite Ec in Hu. injection Hu as <-. rewrite Et in Ht. apply (inj Some) in Ht as <-. exact (Hn En).
Defined.

Definition demoProcessor : processor ProcessingGuard :=
  mkProcessor ∅ (newStageQueueWithWorkers 2 10) (newStageQueueWithWorkers 2 10) [].
Definition errText (e : error) : string := "".
Abbreviation run5 := (processStage errText issueNo TxnStatusInit demoProcessor s4).
Abbreviation run14 := (processStage errText greedyNo TxnStatusInit demoProcessor s13).

Lemma processStage_safe_witness :
  run5.2 = None /\ Inv (w_db run5.1.2) /\ Hist (w_db s4) (w_db run5.1.2).
Proof.
  split; [computed|].
  exact (processStage_safe errText issueNo TxnStatusInit demoProcessor s4 _ _ _ inv4 fits4 (triple_eq_l run5)).
Defined.

Lemma only_business_errors_fail_witness :
  tr_status (txn_at (uu 1007) run14.1.2) = TxnStatusFailed /\
  exists e b, run14.2 = Some e /\ business_error b /\ errors_is e b = true.
Proof.
  split; [computed|].
  exact (only_business_errors_fail errText greedyNo TxnStatusInit demoProcessor s13 _ _ _ (uu 1007) (txn_at (uu 1007) s13)
           (txn_at (uu 1007) run14.1.2) inv13 fits13 (triple_eq_l run14) ltac:(computed) ltac:(computed)
           ltac:(vm_compute; discriminate) ltac:(computed)).
Defined.

(** ** Debits, books and refunds *)

Lemma ok_eq {A E} (p : A * Result E unit) : p.2 = Ok tt -> p = (p.1, Ok tt).
Proof. destruct p as [? ?]. simpl. by intros ->. Qed.

Abbreviation pay := (applyAccountDebitTx (uu 1007) alice 30 s12).

Lemma inv12 : Inv (w_db s12).
Proof. exact (reachable_Inv _ reach_s12). Qed.
Lemma fits12 : fits (w_db s12).
Proof. apply fits_of_total. by vm_compute. Qed.

Lemma limits12 r : accounts (w_db s12) !! alice = Some r -> 0 <= ar_limit r <= MaxInt64.
Proof.
  assert (accounts (w_db s12) !! alice = Some (account_at alice s12)) as -> by computed.
  intros <-%(inj Some). vm_compute. split; discriminate.
Qed.

Lemma ar_balance_set v r : ar_balance (ar_set_balance v r) = v.
Proof. done. Qed.


Definition budget : string := mr_budget acme.
Definition s12q : World := with_faults [] s12.

Lemma plain_debit_decided_witness :
  exists w', applyAccountDebitTx (uu 1007) budget 30 s12q = (w', Ok tt) /\ bal budget (w_db w') = -130.
Proof.
  assert (accounts (w_db s12q) !! budget = Some (account_at budget s12q)) as Ha by computed.
  assert (may_debit (account_at budget s12q) 30) as Hm by (vm_compute; by left).
  destruct (plain_debit_decided (uu 1007) budget 30 s12q (account_at budget s12q)) as (w' & [(_ & Hr & Hd)|(Hn & _)]);
    [reflexivity|exact Ha|computed|computed|computed|vm_compute; split; discriminate|vm_compute; split; discriminate
    |vm_compute; discriminate|lia| |contradiction].
  exists w'. split; [exact Hr|]. rewrite Hd. computed.
Defined.

(** Acme issues another 30 to alice, to be spent before the 60 she has. *)
Definition sooner30 : TransferRequest :=
  mkTransferRequest (mr_no acme) "ISSUE-2" "" "" "TRANSFER" SceneIssue (mr_budget acme) alice (Some (day 20005)) "" 30 0 "".
Definition s12a : World := exec (OpSubmit sooner30) s12.
Definition s12b : World := exec (OpStage (demoText (uu 1007)) TxnStatusInit) s12a.
Definition s12c : World := exec (OpStage (demoText (uu 1007)) TxnStatusPaySuccess) s12b.
Lemma reach_s12c : reachable s12c.
Proof.
  apply (reach_stage s12b); [apply (reach_stage s12a)|by vm_compute]; [|by vm_compute].
  apply (reach_call s12); [exact reach_s12|by apply demo_submits|reflexivity].
Qed.

Abbreviation offer := (ListAvailableAccountBooksForUpdate alice 20000 noExpireDate (day 20000) (w_db s12c)).
Definition offeredBooks : list BookRow := match offer with Ok (_, bs) => bs | Err _ => [] end.
Definition firstBook : BookRow := hd (mkBookRow 0 "" 0 0) offeredBooks.

(** A debit of 50 empties the earlier book. *)
Lemma debit_is_fefo_witness :
  map (fun b => (br_expire b, br_balance b)) offeredBooks = [(20005, 30); (20010, 60); (noExpireDate, 0)] /\
  sum_by (fun c => if ch_book c =? br_no firstBook then - ch_delta c else 0) (debitLoop offeredBooks 50).1 = 30.
Proof.
  split; [computed|].
  destruct (debit_is_fefo alice 20000 (day 20000) 50 (w_db s12c) (w_db s12c) offeredBooks (debitLoop offeredBooks 50).1
    (debitLoop offeredBooks 50).2) as (_ & Hs & _).
  - exact (reachable_Inv _ reach_s12c).
  - lia.
  - reflexivity.
  - apply surjective_pairing.
  - rewrite (Hs (br_no firstBook) firstBook); [computed|computed|computed].
Defined.

(** Two debits of 30 and 50, both from books that run out on day 20, of which
    10 were refunded before: the 40 given back come from both, until one day. *)
Definition twoDebits : list BookChangeRow :=
  [mkBookChangeRow 1 7 "a" 1 (-30) 30 0 20 (day 5); mkBookChangeRow 2 7 "a" 2 (-50) 50 0 20 (day 5)].

Lemma refund_reverses_slice_witness :
  refundParts (day 100) twoDebits 10 40 [] = ([mkPart (day 115) 40], 0) /\
  unitsGiven [mkPart (day 115) 40] = firstn 40 (skipn 10 (unitsSpent (day 100) twoDebits)).
Proof.
  split; [computed|].
  refine (proj1 (refund_reverses_slice (day 100) twoDebits 10 40 [mkPart (day 115) 40] 0 _ ltac:(lia) _ ltac:(computed))).
  - repeat constructor; vm_compute; discriminate.
  - vm_compute. split; [reflexivity|discriminate].
Defined.

Lemma refund_of_unexpiring_expires_witness :
  refundExpireAt (day 20000) noExpireDate (day 19000) = day 20000 + 106751 * dayNs.
Proof. apply (refund_of_unexpiring_expires (day 20000) (day 19000)). vm_compute. split; [discriminate|reflexivity]. Defined.

Lemma refund_keeps_lifetime_witness : refundExpireAt (day 100) 30 (timeOfDate 20) = day 100 + 10 * dayNs.
Proof. apply (refund_keeps_lifetime (day 100) 30 20 10); lia. Defined.

(** ** Services *)

Lemma ok_eq_of {A E B} (p : A * Result E B) b : p.2 = Ok b -> p = (p.1, Ok b).
Proof. destruct p as [? ?]. simpl. by intros ->. Qed.

Definition txnOf (r : Result error TransferTxn) : TransferTxn :=
  match r with Ok t => t | Err _ => submitTxn "" issue end.

Abbreviation subConsume := (Submit consume s6).
Abbreviation subRefund := (Submit refund s9).
Definition consumeTxn : TransferTxn := txnOf subConsume.2.
Definition refundTxn : TransferTxn := txnOf subRefund.2.

Lemma submit_records_witness :
  exists u : UUID, txns (w_db s6) !! u = None /\
    w_db subConsume.1 = set_txns (<[u := mkTxnRow u (mr_no acme) "CONSUME-1" "TRANSFER" (Some "CONSUME") (Some "coffee") None
      (Some alice) (Some (mr_receivable acme)) None 60 "INIT" None 60 None None (day 20000) (day 20000)]> (txns (w_db s6))) (w_db s6).
Proof.
  assert (subConsume.2 = Ok consumeTxn) as E by computed.
  destruct (submit_records consume s6 subConsume.1 consumeTxn (ok_eq_of subConsume _ E))
    as (u & debit & credit & ro & Hn & Hp & Hro & _ & Hd & _).
  destruct Hp as [(_ & -> & ->)|[Hb _]]; [|discriminate Hb]. injection Hro as <-.
  exists u. split; [exact Hn|]. rewrite Hd. do 2 f_equal.
Defined.

Lemma submit_checks_accounts_witness :
  exists rd rc, own_accounts (mr_no acme) alice (mr_receivable acme) (w_db s6) rd rc /\ ar_debit_out rd = true.
Proof.
  assert (subConsume.2 = Ok consumeTxn) as E by computed.
  destruct (submit_checks_accounts consume s6 subConsume.1 consumeTxn (ok_eq_of subConsume _ E))
    as [[Hd _]|(rd & rc & Hown & Ho & _)].
  - vm_compute. discriminate.
  - exfalso. vm_compute in Hd. discriminate.
  - exists rd, rc. split; [exact Hown|exact Ho].
Defined.

Lemma submit_checks_refund_witness :
  exists (o : UUID) t, txns (w_db s9) !! o = Some t /\ 20 <= tr_refundable t /\
    DebitAccountNo refundTxn = TrimSpace (coalesce (tr_credit t)).
Proof.
  assert (subRefund.2 = Ok refundTxn) as E by computed.
  destruct (submit_checks_refund refund s9 subRefund.1 refundTxn (ok_eq_of subRefund _ E))
    as (o & t & _ & Ht & _ & _ & _ & _ & Hr & Hd & _); [computed|].
  exists o, t. split; [exact Ht|]. split; [exact Hr|exact Hd].
Defined.

Lemma order_number_used_once_witness : is_ok (Submit issue s12).2 = false.
Proof.
  assert (txns (w_db s12) !! (uu 1003) = Some (txn_at (uu 1003) s12)) as Ht by computed.
  refine (proj2 (order_number_used_once s12 (uu 1003) (uu 1003) (txn_at (uu 1003) s12) (txn_at (uu 1003) s12) issue reach_s12 Ht Ht eq_refl) _).
  computed.
Defined.

Definition issueRoute : TransferRoutingRequest := mkTransferRoutingRequest (mr_no acme) SceneIssue "" alice.
Abbreviation routed := (Resolve issueRoute s12).

Lemma routing_resolves_witness :
  exists m, merchants (w_db s12) !! mr_no acme = Some m /\ budget = mr_budget m.
Proof.
  assert (routed.2 = Ok (budget, alice)) as E by computed.
  destruct (routing_resolves issueRoute s12 routed.1 budget alice (ok_eq_of routed _ E)) as (m & rd & rc & Hm & Hb & _).
  exists m. split; [exact Hm|exact Hb].
Defined.

Abbreviation resolved := (ResolveCustomerAccount (mr_no acme) "" "alice" s12).

(** ** Queues, guards, codes *)

Definition q1 : Queue.state := Queue.mkState (newStageQueueWithWorkers 2 10) [].
Definition q2 : Queue.state := Queue.mkState (EnqueueWithRoute "T1" "a" (Queue.queue q1)).1 [].
Definition q3 : Queue.state := Queue.mkState (EnqueueWithRoute "T2" "b" (Queue.queue q2)).1 [].

Lemma q3_reachable : Queue.reachable 2 10 q3.
Proof.
  eapply Queue.re_step; [eapply Queue.re_step; [apply Queue.re_new|]|]; [apply (Queue.st_enqueue _ [] "T1" "a")|].
  apply (Queue.st_enqueue _ [] "T2" "b").
Qed.

Lemma queue_no_duplicates_witness : length (Queue.items q3) = 2%nat /\ NoDup (Queue.items q3).
Proof. split; [computed|]. exact (proj1 (Queue.queue_no_duplicates 2 10 q3 q3_reachable)). Defined.

Definition g1 : Guard.state := Guard.mkState (TryBegin "T1" "INIT" ∅).1 [("T1", "INIT")].

Lemma g1_reachable : Guard.reachable g1.
Proof. eapply Guard.re_step; [apply Guard.re_new|]. apply Guard.st_try. computed. Qed.

Lemma guard_exclusive_witness :
  (TryBegin "T1" "INIT" (Guard.keys g1)).2 = false /\
  (TryBegin "T1" "INIT" (End_ "T1" "INIT" (Guard.keys g1))).2 = true.
Proof.
  split; [computed|]. refine (proj2 (proj2 (Guard.guard_exclusive g1 "T1" "INIT" g1_reachable _))).
  vm_compute. discriminate.
Defined.

Definition leasing : codeBucket := mkBucket (mkSegment 0 0 false) None true.
Definition leasedBucket : codeBucket := mkBucket (mkSegment 0 99 true) None false.
Definition oneIssued : alloc := mkAlloc (Some 100) [mkProc (mkBucket (mkSegment 1 99 true) None false) []] [0].

Lemma oneIssued_reachable : HiLo.reachable 100 20 oneIssued.
Proof.
  apply (re_step _ _ (mkAlloc (Some 100) [mkProc leasedBucket []] [])).
  2:{ apply (st_lock 100 20 (Some 100) [] leasedBucket [] [] [] _ (Got 0 false)). computed. }
  apply (re_step _ _ (mkAlloc (Some 100) [mkProc leasing [(true, Some (0, 99))]] [])).
  2:{ apply (st_install 100 20 (Some 100) [] leasing [] true (Some (0, 99)) [] [] []). }
  apply (re_step _ _ (mkAlloc (Some 0) [mkProc leasing [(true, None)]] [])).
  2:{ apply (st_lease 100 20 0 [] leasing [] true [] [] []). }
  apply (re_step _ _ (mkAlloc (Some 0) [freshProc] [])).
  2:{ apply (st_lock 100 20 (Some 0) [] newCodeBucket [] [] [] _ Lease). computed. }
  apply (re_step _ _ (mkAlloc None [freshProc] [])); [|apply st_init].
  apply (re_step _ _ initial); [apply re_init|apply st_start].
Qed.

Lemma sequence_numbers_unique_witness :
  exists v, al_next oneIssued = Some v /\ 0 <= 0 < v.
Proof. apply (proj2 (sequence_numbers_unique 100 20 oneIssued ltac:(lia) oneIssued_reachable)). by left. Defined.


Abbreviation draw1 := (NewUUIDv7 s0).
Abbreviation draw2 := (NewUUIDv7 (with_clock (day 20001) [] s0)).

Lemma uuids_time_ordered_witness : uu 1000 < uuidv7 (UnixMilli (day 20001)) 1000.
Proof.
  assert (draw1.2 = Ok (uu 1000)) as E1 by computed.
  assert (draw2.2 = Ok (uuidv7 (UnixMilli (day 20001)) 1000)) as E2 by computed.
  apply (uuids_time_ordered s0 draw1.1 _ (with_clock (day 20001) [] s0) draw2.1 _ (ok_eq_of draw1 _ E1) (ok_eq_of draw2 _ E2));
    vm_compute; [split; [discriminate|]|]; reflexivity.
Defined.

Lemma luhn_detects_single_error_witness : "6"%char = "6"%char.
Proof. apply (luhn_detects_single_error "100010000000000" ""); computed. Defined.

(** ** Pages and events *)

Lemma page_token_roundtrip_witness : DecodePageToken (EncodePageToken (-5) "a|b") = Some (-5, "a|b").
Proof. apply page_token_roundtrip. vm_compute. split; discriminate. Defined.

Lemma in64_log_b d :
  forallb (fun r => in64b (ac_created r) && in64b (ac_id r)) (account_changes d) = true -> in64_log d.
Proof.
  intros Hb r Hr. rewrite forallb_forall in Hb. specialize (Hb r (proj1 (list_elem_of_In _ _) Hr)). bools.
  by split; apply in64b_true.
Qed.

Definition aliceLogs : AccountChangeLogListFilter := mkAccountChangeLogListFilter (mr_no acme) alice 1 "".

Lemma account_log_pages_witness :
  map Delta (allLogs 7 aliceLogs "" s12) = [20; -60; 100] /\
  length (allLogs 7 aliceLogs "" s12)
  = length (sort_by change_desc (List.filter (change_matches (w_db s12) (mr_no acme) alice) (account_changes (w_db s12)))).
Proof.
  assert (w_faults s12 = []) as Hf by computed.
  assert (in64_log (w_db s12)) as H64 by (apply in64_log_b; computed).
  assert (length (account_changes (w_db s12)) = 6%nat) as Hn by computed.
  pose proof (account_log_pages aliceLogs s12 reach_s12 Hf H64) as Hp. rewrite Hn in Hp.
  split; [computed|]. rewrite Hp. apply length_map.
Defined.

Abbreviation claim1 := (claimOutbox (fun _ => true) (day 20000) 2 (day 20000) (w_db s12)).
Definition claimed (r : Result error (DB * list (OutboxRow * TxnRow))) : DB * list (OutboxRow * TxnRow) :=
  match r with Ok x => x | Err _ => (emptyDB, []) end.
Abbreviation claim2 := (claimOutbox (fun _ => true) (day 20000) 2 (day 20000) (claimed claim1).1).

Lemma claim_total p t n now d : claimOutbox p t n now d = Ok ((claimed (claimOutbox p t n now d)).1, (claimed (claimOutbox p t n now d)).2).
Proof. reflexivity. Qed.

Lemma claimed_events_leased_witness :
  map (fun x => ob_id x.1) (claimed claim1).2 = [1; 2] /\ map (fun x => ob_id x.1) (claimed claim2).2 = [3] /\
  forall e1 t1 e2 t2, (e1, t1) ∈ (claimed claim1).2 -> (e2, t2) ∈ (claimed claim2).2 -> ob_id e1 <> ob_id e2.
Proof.
  split; [computed|]. split; [computed|].
  refine (claimed_events_leased _ _ _ _ _ _ _ _ _ _ _ _ _ (claim_total _ _ _ _ _) (claim_total _ _ _ _ _) _).
  reflexivity.
Defined.

Lemma outbox_events_unique_witness :
  length (outbox (w_db s12)) = 3%nat /\ NoDup (map ob_event (outbox (w_db s12))).
Proof. split; [computed|]. exact (proj1 (outbox_events_unique s12 (OpClaim 10 0) reach_s12)). Defined.
