(* ===== verification/Deployed.v ===== *)
(** * The server on the concrete run

    The run of [Samples] served by the wired server: an in-memory guard, an
    HTTP client whose requests are all answered 200, bindings that read each
    body as one fixed form or not at all.  The properties of the server, the
    API, the webhook worker, the stages and the tables at concrete inputs. *)

From S2P Require Import Prelude GoBase Config Domain Codes Encoding Calendar Json Store Queries Reads Secrets Paging Ledger HiLo Repo AdminRepo Quiet Webhook Services TxnQuery Api Auth Router AdminAuth AdminSetup AdminRoutes AdminTxns Processor Server Invariant Books LedgerProofs StageProofs Refinement Calls Grow System Safety Typed ServerProofs ApiProofs SecretProofs OutboxProofs Settled WebhookProofs BookRules QueueProofs Progress Samples Witnesses.
From stdpp Require Import base gmap list strings list_numbers.
From Stdlib Require Import ZArith Lia Ascii.

Local Open Scope string_scope.
Local Open Scope Z_scope.

(** ** What surrounds the server *)

#[export] Instance demoUUIDs : UUIDLib := { isValidUUID s := negb (String.eqb s "") }.
#[export] Instance demoBinding : JsonBinding := {
  bindMerchant _ := Some (mkCreateMerchantRequest "Acme" None (Some false)); bindCredit _ := None; bindDebit _ := None; bindTransfer _ := None; bindRefund _ := None;
  bindWebhook _ := None
}.
#[export] Program Instance demoPgText : PgText := { jsonb := Some; text_ltb := String.ltb }.
Solve Obligations with done.
(** A hash that hides nothing. *)
Definition demoHash (p : string) : string := "$" ++ b64Encode p.
#[export] Program Instance demoBcrypt : Bcrypt := {
  GenerateFromPassword p := ret (demoHash p); CompareHashAndPassword h p := String.eqb h (demoHash p)
}.
Next Obligation. done. Qed.
Next Obligation.
  intros p w w' h [_ ->]%ret_ok. split; [apply String.eqb_refl|]. split; [done|]. unfold demoHash. simpl.
  apply b64Encode_graphic.
Qed.
#[export] Instance demoForms : AdminBinding := {
  bindLogin _ := Some (mkAdminLoginRequest "root" "correct horse"); bindRefresh t := Some (mkAdminRefreshRequest t);
  bindSetup _ := Some (mkSetupRequest "root" "correct horse" "Acme" "");
  bindAdminMerchant _ := None; bindFeatures _ := None; bindAdminWebhook _ := None; bindCustomer _ := None;
  bindAccount _ := None; bindCapability _ := None; bindAdminCredit _ := None; bindAdminDebit _ := None;
  bindAdminTransfer _ := None; bindAdminRefund _ := None
}.
(** The requests sent, latest first. *)
#[export] Instance demoClient : HttpClient (list HttpRequest) := {
  urlPath _ := Some "/hook";
  httpDo q sent := (q :: sent, Some 200)
}.

(** ** A signed request *)

Definition s14 : World := exec (OpRotateSecret (mr_no acme)) s13.
Definition acmeSecret : string :=
  match (RotateSecret (mr_no acme) s13).2 with Ok (s, _) => s | Err _ => "" end.
Definition nowMs : string := FormatInt (UnixMilli (day 20000)).
Definition acmePath : string := "/api/v1/transactions/" ++ issueNo.
Definition acmeHeaders (k : string) : string :=
  if String.eqb k "X-Merchant-No" then mr_no acme
  else if String.eqb k "X-Timestamp" then nowMs
  else if String.eqb k "X-Nonce" then "n1"
  else if String.eqb k "X-Signature" then requestSignature acmeSecret "GET" acmePath (mr_no acme) nowMs "n1" ""
  else "".
Definition acmeRequest : Request :=
  mkRequest "GET" acmePath acmeHeaders (Some "") (fun _ => "") (fun k => if String.eqb k "txn_no" then issueNo else "").

Definition demoConfig : Config := Load (fun _ => "").
Definition demoTokens : adminTokenManager := mkTokenManager (AdminJWTSecret demoConfig) (1800 * Second) (604800 * Second).
Definition demoSetup : Setup :=
  mkSetup (routesOptions demoConfig) (Some (consoleHandler, demoTokens)) (recoveryWorker demoConfig) (NewCompensationWorker None false).
Definition demoServer : Server ProcessingGuard (list HttpRequest) :=
  mkServer demoProcessor (webhookWorker demoConfig) [].

(** A transfer between two plain accounts, and a worker about to take it. *)
Definition settle : TransferRequest :=
  mkTransferRequest (mr_no acme) "SETTLE-1" "" "" "TRANSFER" SceneAdjust (mr_budget acme) (mr_receivable acme)
    None "" 30 0 "".
Definition s15 : World := exec (OpSubmit settle) s13.
Definition settleNo : string := demoText (uu 1008).
Definition waiting : processor ProcessingGuard :=
  mkProcessor ∅ (EnqueueWithRoute settleNo (mr_budget acme) (newStageQueueWithWorkers 2 10)).1 (newStageQueueWithWorkers 2 10) [].

Lemma inv15 : Inv (w_db s15).
Proof. apply reachable_Inv. apply (reach_call s13); [exact reach_s13|by apply demo_submits|reflexivity]. Qed.
Lemma typed15 : typed (w_db s15).
Proof. apply (reachable_typed (SC := demoCipher)). apply (reach_call s13); [exact reach_s13|by apply demo_submits|reflexivity]. Qed.

(** ** The properties *)

(** The tables of any reachable world are those of a called one. *)
Lemma reachable_called w : reachable w -> called w.
Proof. induction 1; [by apply cd_start|by apply cd_call|by eapply cd_env]. Qed.

Lemma tables_typed_witness :
  size (txns (w_db s15)) = 5%nat /\ map_Forall txn_table (txns (w_db s15)).
Proof.
  split; [computed|]. apply sc_txn.
  exact (proj1 (tables_typed (SC := demoCipher) s15 (cd_call _ (OpSubmit settle) (reachable_called _ reach_s13)))).
Defined.

(** The ledger the tables hold. *)
Definition ledgerOf (d : DB) : ledger :=
  mkLedger (fun k => bal k d) (fun u => tr_status <$> txns d !! u) (fun u => default 0 (tr_refundable <$> txns d !! u)).
Lemma holds_ledgerOf d : holds d (ledgerOf d).
Proof. by split. Qed.

Lemma stage_refines_witness :
  exists t L', tr_status t = TxnStatusInit /\ txns (w_db s4) !! tr_no t = Some t /\
    after (TrimSpace (coalesce (tr_debit t))) (actionOf TxnStatusInit t) (ledgerOf (w_db s4)) L' /\
    holds (w_db out5.1) L'.
Proof.
  assert (out5.2.2 = None) as E by computed. assert (Applied out5.2.1 = true) as EA by computed.
  destruct (stage_refines issueNo TxnStatusInit s4 _ _ _ _ inv4 fits4 (holds_ledgerOf _) (triple_eq out5))
    as [[_ HA]|(t & L' & _ & Ht & Hst & Ha & Hh & _)].
  - specialize (HA E). congruence.
  - exists t, L'. split; [exact Hst|]. split; [exact Ht|]. split; [exact Ha|exact Hh].
Defined.

Lemma transfer_goes_through_witness :
  exists p1 w1 j p2 w2,
    workInit errText 0 waiting s15 = Some (p1, w1) /\ workPaySuccess errText j p1 w1 = Some (p2, w2) /\
    bal (mr_receivable acme) (w_db w2) = 70 /\ notified p2 = [settleNo].
Proof.
  assert (txns (w_db s15) !! uu 1008 = Some (txn_at (uu 1008) s15)) as Ht by computed.
  destruct (transfer_goes_through errText settleNo (txn_at (uu 1008) s15) (mr_budget acme) (mr_receivable acme)
    (account_at (mr_budget acme) s15) (account_at (mr_receivable acme) s15) 0
    (mkStageQueue [[]; []] 10 {[settleNo]}) 2 10 waiting s15)
    as (p1 & w1 & j & p2 & w2 & t2 & E1 & E2 & _ & _ & _ & _ & Hb & Hn).
  - reflexivity.
  - split; [computed|]. vm_compute. discriminate.
  - assert (tr_no (txn_at (uu 1008) s15) = uu 1008) as Hu by computed.
    split; rewrite ?Hu; [computed|exact Ht|exact (ty_txns _ typed15 _ _ Ht)|computed..].
  - computed.
  - vm_compute. discriminate.
  - split; [computed|]. split; [computed|]. split; [computed|]. split; [vm_compute; split; discriminate|].
    split; [vm_compute; split; discriminate|]. split; [vm_compute; discriminate|]. vm_compute. left. reflexivity.
  - split; [computed|]. split; computed.
  - apply not_elem_of_empty.
  - apply not_elem_of_empty.
  - computed.
  - reflexivity.
  - exists p1, w1, j, p2, w2. split; [exact E1|]. split; [exact E2|]. split; [|exact Hn].
    rewrite Hb. computed.
Defined.

Lemma rotation_takes_effect_witness :
  RotateSecret (mr_no acme) s13 = (s14, Ok (acmeSecret, 1)) /\ exists w3, GetActiveSecret (mr_no acme) s14 = (w3, Ok (Some acmeSecret)).
Proof.
  assert (RotateSecret (mr_no acme) s13 = (s14, Ok (acmeSecret, 1))) as E.
  { assert ((RotateSecret (mr_no acme) s13).2 = Ok (acmeSecret, 1)) as E by computed.
    change s14 with (RotateSecret (mr_no acme) s13).1. by destruct (RotateSecret _ _) as [w r]; simpl in *; subst r. }
  split; [exact E|].
  destruct (rotation_takes_effect _ _ _ _ _ E) as (_ & Ha & _). apply Ha; [reflexivity|computed].
Defined.

(** The first event of the run, claimed and handled: its server answers 200. *)
Abbreviation claimed14 := (Repository.ClaimDueOutboxEvents 10 (day 20000) s14).
Definition deliveries : list OutboxEventDelivery := match claimed14.2 with Ok l => l | Err _ => [] end.
Definition noDelivery : OutboxEventDelivery := mkOutboxEventDelivery "" "" "" "" "" "" 0 "" 0.
Definition delivery : OutboxEventDelivery := hd noDelivery deliveries.
Abbreviation handled := (handleEvent delivery (webhookWorker demoConfig) ([] : list HttpRequest) claimed14.1).

Lemma clockAt_still n w : w_ticks w = [] -> clockAt n w = w_clock w.
Proof. intros Ht. unfold clockAt. rewrite Ht, firstn_nil. apply Z.add_0_r. Qed.

(** It is posted once and marked delivered. *)
Lemma event_outcome_witness :
  map hq_url handled.1.1.2 = ["https://acme.test/hook"] /\
  w_db handled.1.2 = markedEvent (uuid_sha1 (uu 1003) "TxnSucceeded")
    (marked "SUCCESS" ob_retry ob_next_retry (day 20000)) (w_db claimed14.1).
Proof.
  split; [computed|].
  assert (castUUID (EventID delivery) = Ok (Some (uuid_sha1 (uu 1003) "TxnSucceeded"))) as Hu by computed.
  destruct (event_outcome delivery _ (webhookWorker demoConfig) ([] : list HttpRequest) claimed14.1 Hu ltac:(computed)) as
    (k' & h' & w' & n & ok & E & _ & _ & Hm).
  assert (handled.1.2 = w') as -> by (rewrite E; reflexivity).
  destruct ok.
  - destruct Hm as [_ ->]. rewrite clockAt_still by computed.
    assert (w_clock claimed14.1 = day 20000) as -> by computed. reflexivity.
  - exfalso. destruct Hm as (delay & _ & _ & Hd).
    assert (map ob_status (outbox (w_db handled.1.2)) = ["SUCCESS"; "PROCESSING"; "PROCESSING"]) as Hs by computed.
    revert Hs. assert (handled.1.2 = w') as -> by (rewrite E; reflexivity). rewrite Hd. vm_compute. discriminate.
Defined.

Lemma events_of_successes_witness :
  length deliveries = 3%nat /\ EStatus delivery = TxnStatusRecvSuccess.
Proof.
  split; [computed|].
  refine (proj1 (events_of_successes (Repository.ClaimDueOutboxEvents 10 (day 20000)) s14 claimed14.1 deliveries delivery _ _ _ _)).
  - apply (reach_call s13); [exact reach_s13|exact I|reflexivity].
  - left. exists 10, (day 20000). reflexivity.
  - assert (is_ok claimed14.2 = true) as Hk by computed. unfold deliveries.
    destruct claimed14 as [w [e|l]]; [discriminate Hk|reflexivity].
  - assert (nth 0 deliveries noDelivery = delivery) as Hd by computed. rewrite <- Hd.
    apply list_elem_of_In, nth_In. vm_compute. lia.
Defined.

(** A merchant is created by a request to the empty server. *)
Definition newMerchant : Request :=
  mkRequest "POST" "/api/v1/merchants" (fun _ => "") (Some "") (fun _ => "") (fun _ => "").
Abbreviation created := (handle errText demoSetup (EvRequest RCreateMerchant newMerchant) demoServer s0).


(** That merchant credits its receivable account with 25, by a signed request. *)
Definition shop : MerchantRow := default acme (head (snd <$> map_to_list (merchants (w_db created.1.2)))).
Definition shopSecret : string :=
  match credentials (w_db created.1.2) !! (mr_no shop, 1) with
  | Some r => match cipher_Decrypt (cd_cipher r) with Ok x => x | Err _ => "" end
  | None => ""
  end.
Definition tillBinding : JsonBinding := {|
  bindMerchant _ := Some (mkCreateMerchantRequest "Acme" None (Some false));
  bindCredit _ := Some (mkCreditRequest "TILL-1" "" "" "" (mr_receivable shop) "" 0 25);
  bindDebit _ := None; bindTransfer _ := None; bindRefund _ := None; bindWebhook _ := None
|}.
Definition creditPath : string := "/api/v1/transactions/credit".
Definition shopHeaders (k : string) : string :=
  if String.eqb k "X-Merchant-No" then mr_no shop
  else if String.eqb k "X-Timestamp" then nowMs
  else if String.eqb k "X-Nonce" then "n1"
  else if String.eqb k "X-Signature" then requestSignature shopSecret "POST" creditPath (mr_no shop) nowMs "n1" ""
  else "".
Definition creditNow : Request := mkRequest "POST" creditPath shopHeaders (Some "") (fun _ => "") (fun _ => "").
Definition tillServer : Server ProcessingGuard (list HttpRequest) :=
  mkServer (mkProcessor ∅ (newStageQueueWithWorkers 1 10) (newStageQueueWithWorkers 1 10) []) (webhookWorker demoConfig) [].
Abbreviation till := (handle (JB := tillBinding) errText demoSetup).
Abbreviation opened := (till (EvRequest RCreateMerchant newMerchant) tillServer s0).
Abbreviation credited := (till (EvRequest RCredit creditNow) opened.1.1 opened.1.2).
Abbreviation debited := (till (EvInitWorker 0) credited.1.1 credited.1.2).
Definition credit : TxnRow := hd (txn_at (uu 1003) s4) (txn_rows (w_db credited.1.2)).

(** Its worker takes the transaction from INIT to PAY_SUCCESS. *)
Lemma statuses_move_forward_witness :
  option_map httpCode credited.2 = Some 201 /\ tr_status credit = TxnStatusInit /\
  exists t', txns (w_db debited.1.2) !! tr_no credit = Some t' /\ tr_status t' = TxnStatusPaySuccess /\
    rtc status_step TxnStatusInit (tr_status t').
Proof.
  split; [computed|]. assert (tr_status credit = TxnStatusInit) as E by computed. split; [exact E|].
  destruct (statuses_move_forward (JB := tillBinding) errText demoSetup credited.1.1 credited.1.2 debited.1.1 debited.1.2 (tr_no credit) credit)
    as (t' & Ht & Hs & _).
  - refine (se_event errText demoSetup opened.1.1 opened.1.2 (EvRequest RCredit creditNow) _ _); [|intros H; discriminate H].
    refine (se_event errText demoSetup tillServer s0 (EvRequest RCreateMerchant newMerchant) _ _); [|intros H; discriminate H].
    apply se_start. reflexivity.
  - refine (go_event errText demoSetup _ _ credited.1.1 credited.1.2 (EvInitWorker 0) _ _); [apply go_here|].
    intros _. apply fits_of_total. by vm_compute.
  - computed.
  - exists t'. split; [exact Ht|]. rewrite E in Hs. split; [|exact Hs].
    assert (option_map tr_status (txns (w_db debited.1.2) !! tr_no credit) = Some TxnStatusPaySuccess) as Hp by computed.
    rewrite Ht in Hp. by injection Hp.
Defined.

Lemma shown_rows_own_witness :
  exists m j, answer (w_db s14) m j /\
    option_map data (serve (routesOptions demoConfig) RGetTxn acmeRequest demoProcessor s14).2 = Some (Some j).
Proof.
  assert (option_map httpCode (serve (routesOptions demoConfig) RGetTxn acmeRequest demoProcessor s14).2 = Some 200) as Hc by computed.
  destruct (serve _ _ _ _ _) as [[p w] [resp|]] eqn:E; [|discriminate Hc]. injection Hc as Hc.
  destruct (shown_rows_own demoConfig RGetTxn acmeRequest _ _ _ _ _ eq_refl E Hc) as (m & j & _ & _ & _ & _ & Hj & Ha).
  exists m, j. split; [exact Ha|]. simpl. by rewrite Hj.
Defined.
