(* ===== verification/SdkRun.v ===== *)
(** * The SDK on the concrete run

    A client of [acme] in front of the server of [Deployed]: one base URL, a
    router that knows the path of a transaction. *)

From S2P Require Import Prelude GoBase Config Domain Codes Encoding Calendar Json JsonDecode JsonProofs Url Store Queries Reads Secrets Paging Ledger HiLo Repo AdminRepo Quiet Webhook Client Sdk Services TxnQuery Api Auth Router Wire AdminAuth AdminSetup AdminRoutes AdminTxns Processor Server Invariant Books LedgerProofs StageProofs Refinement Calls Grow System Safety Typed ServerProofs ApiProofs QueueProofs SecretProofs OutboxProofs Settled WebhookProofs BookRules ClientProofs Progress Samples Witnesses Deployed.
From stdpp Require Import base gmap list strings.
From Stdlib Require Import ZArith Lia.

Local Open Scope string_scope.
Local Open Scope Z_scope.

#[export] Instance demoUrls : UrlParser := {
  urlParse s := if String.eqb s "https://coin.test" then Some (mkURL "https" "coin.test" "coin.test" "" "") else None
}.
Definition txnPath : string := "/api/v1/transactions/".
#[export] Instance demoRouter : MerchantRouter := {
  routeOf method path :=
    if String.eqb method "GET" && HasPrefix path txnPath
    then Some (RGetTxn, fun k => if String.eqb k "txn_no" then TrimPrefix path txnPath else "")
    else None
}.
#[local] Instance demoOnline : SdkEnv (@Online (processor ProcessingGuard)) unit := online (routesOptions demoConfig).

Definition acmeOptions : @ClientOptions (@Online (processor ProcessingGuard)) unit :=
  mkClientOptions "https://coin.test" (mr_no acme) acmeSecret None 0 None None "demo".
Definition acmeClient : @Client (@Online (processor ProcessingGuard)) unit :=
  mkClient (mkURL "https" "coin.test" "coin.test" "" "") (mr_no acme) acmeSecret (mkHTTPClient tt (10 * Second))
    env_now defaultNonce "demo".
Definition online14 : @Online (processor ProcessingGuard) := mkOnline (day 20000) [7] demoProcessor s14.

Lemma acme_client : NewClient acmeOptions = Ok acmeClient.
Proof.
  assert (TrimSpace (mr_no acme) = mr_no acme) as Hm by computed.
  assert (isEmptyText (TrimSpace acmeSecret) = false) as Hs by computed.
  assert (isEmptyText (mr_no acme) = false) as Hn by computed.
  unfold NewClient, acmeOptions. cbn [BaseURL co_merchantNo co_merchantSecret co_httpClient Timeout Now NonceGenerator UserAgent].
  change (urlParse (TrimSpace "https://coin.test")) with (Some (mkURL "https" "coin.test" "coin.test" "" "")).
  rewrite Hm, Hs, Hn. reflexivity.
Qed.

Lemma acme_active : activeIn (mr_no acme) acmeSecret (w_db s14).
Proof.
  exists (match GetActiveSecretCiphertext (mr_no acme) 0 (w_db s14) with Ok (_, c) => c | Err _ => "" end).
  split; [intros t; computed|computed].
Qed.

Lemma sdk_request_admitted_witness :
  exists q w', received (fun _ _ _ => "") (signedRequest acmeClient "POST" "/api/v1/transactions/credit" None (Some "{}") (FormatInt (UnixMilli (day 20000))) "n1") = Some q /\
    authenticate (mkAuthConfig true 0) "r1" q s14 = (w', Ok (Ok (mr_no acme))).
Proof.
  destruct (GetActiveSecret_later (mr_no acme) acmeSecret s14 eq_refl acme_active) as (w1 & E1 & L1).
  destruct (timeNow_later w1 (proj1 (proj2 L1))) as (w2 & E2 & _).
  assert (clockAt 1 w1 = clockAt 2 s14) as Hc.
  { destruct L1 as (_ & _ & Hc & Ht). unfold clockAt. rewrite Hc, Ht. computed. }
  destruct (sdk_request_admitted (mkAuthConfig true 0) acmeOptions acmeClient "POST" "/api/v1/transactions/credit" None (Some "{}")
    (day 20000) "n1" (fun _ _ _ => "") "r1" s14 w1 w2 (clockAt 1 w1)) as (q & Hr & _ & _ & _ & _ & Ha);
    [exact acme_client|computed|split; computed|computed..|intros _; computed|discriminate|computed
    |vm_compute; discriminate|vm_compute; split; discriminate|exact E1|exact E2|rewrite Hc; vm_compute; discriminate|].
  exists q, w2. split; [exact Hr|exact Ha].
Defined.

Definition demoAuth : AuthMiddlewareConfig := mkAuthConfig true 0.
(** The same request under another nonce. *)
Definition replayed : Request :=
  mkRequest "GET" acmePath (fun k => if String.eqb k "X-Nonce" then "n2" else acmeHeaders k) (Some "") (fun _ => "")
    (fun k => if String.eqb k "txn_no" then issueNo else "").
Definition passed (r : World * Result error (Result Response string)) : bool := match r.2 with Ok (Ok _) => true | _ => false end.

Lemma authenticated_iff_signed_witness :
  (exists w', signed_in_time (windowOf demoAuth) acmeRequest (mr_no acme) s14 w') /\
  forall w', ~ signed_in_time (windowOf demoAuth) replayed (mr_no acme) s14 w'.
Proof.
  split.
  - assert ((authenticate demoAuth "r1" acmeRequest s14).2 = Ok (Ok (mr_no acme))) as E by computed.
    exists (authenticate demoAuth "r1" acmeRequest s14).1.
    apply (authenticated_iff_signed demoAuth "r1" acmeRequest s14 _ (mr_no acme)). exact (ok_eq_of _ _ E).
  - intros w' Hs. assert (authenticate demoAuth "r1" replayed s14 = (w', Ok (Ok (mr_no acme)))) as E.
    { apply (authenticated_iff_signed demoAuth "r1" replayed s14 w' (mr_no acme)).
      split; [reflexivity|]. split; [computed|]. do 4 (split; [vm_compute; discriminate|]). exact Hs. }
    assert (passed (authenticate demoAuth "r1" replayed s14) = false) as Hf by computed.
    rewrite E in Hf. discriminate Hf.
Defined.

Definition issued : QueryTxn := queryTxnFromTransferTxn (Repository.transferTxnFromByNoRow (txn_at (uu 1003) s14)).

Lemma acme_owns : ownedBy (mr_no acme) (uu 1003) (w_db s14) = Some issued.
Proof. computed. Qed.
Lemma issued_readable : readable issued.
Proof.
  split; [split; [vm_compute; split; discriminate|split; [vm_compute; split; discriminate|vm_compute; split; discriminate]]|].
  split; [computed|vm_compute; discriminate].
Qed.

Lemma sdk_reads_transactions_witness :
  tx_Amount (txnShown issued) = 100 /\ tx_Status (txnShown issued) = TxnStatusRecvSuccess /\
  exists b', Sdk.GetByTxnNo (Some acmeClient) issueNo online14 = (b', Ok (txnShown issued)).
Proof.
  split; [computed|]. split; [computed|].
  destruct (sdk_reads_transactions demoConfig acmeOptions acmeClient online14 (uu 1003) issueNo
    (fun k => if String.eqb k "txn_no" then issueNo else "")) as (b' & rid & raw & E & _);
    [exact acme_client|reflexivity|reflexivity|computed|split; computed|computed|vm_compute; discriminate|computed|computed|computed
    |reflexivity|computed|exact acme_active|vm_compute; discriminate|vm_compute; split; discriminate|vm_compute; discriminate| |].
  - intros x Hx. assert (Some x = Some issued) as Hi by (rewrite <- Hx; exact acme_owns).
    assert (x = issued) as -> by congruence. exact issued_readable.
  - exists b'. refine (eq_trans E _). change (c_merchantNo acmeClient) with (mr_no acme). change (on_world online14) with s14.
    rewrite acme_owns. reflexivity.
Defined.
