(* ===== verification/PerfLab.v ===== *)
(** * The load generator on the running server

    The generator, the server it starts and its webhook endpoint in one
    process: a request of the SDK is served, waiting lets the workers run, and
    a webhook that is sent signals the sink.  A whole run with one request per
    scenario, computed. *)

From S2P Require Import Prelude GoBase Config Domain Codes Encoding Calendar Json JsonDecode Store Queries Reads Secrets Ledger HiLo Repo AdminRepo Webhook Url Client Sdk Services TxnQuery Api Auth Router Wire AdminAuth AdminSetup AdminRoutes AdminTxns Processor Server Migrate Perf PerfRun PerfProofs Witnesses Samples Deployed.
From stdpp Require Import base gmap list strings list_numbers.
From Stdlib Require Import ZArith Lia.

Local Open Scope string_scope.
Local Open Scope Z_scope.

(** The endpoint as the webhook worker's HTTP client sees it: every URL leads
    to it. *)
Record Endpoint : Type := mkEndpoint { ep_now : Time; ep_sink : webhookSink; ep_posted : list string }.
#[export] Instance endpointClient : HttpClient Endpoint := {
  urlPath _ := Some "/";
  httpDo q ep :=
    let (s, status) := webhookEndpoint 1048576 (hq_body q) (ep_now ep) (ep_sink ep) in
    (mkEndpoint (ep_now ep) s (hq_body q :: ep_posted ep), Some status)
}.

Section Lab.
Context {PF : Platform} {PT : PgText} {CP : CodeProvider} {SC : SecretCipher} {BC : Bcrypt} {UL : UUIDLib}
  {JB : JsonBinding} {AB : AdminBinding} {MR : MerchantRouter}.
Context {G : Type} {SG : StageProcessingGuard G}.
Context (errText : error -> string) (su : Setup) (events : list Event).

Record Lab : Type := mkLab { lb_world : World; lb_server : Server G Endpoint }.

Definition labSink (e : Lab) : webhookSink := ep_sink (sv_http (lb_server e)).
Definition withEndpoint (ep : Endpoint) (e : Lab) : Lab :=
  mkLab (lb_world e) (mkServer (sv_processor (lb_server e)) (sv_webhooks (lb_server e)) ep).
Definition labWithSink (s : webhookSink) (e : Lab) : Lab :=
  withEndpoint (mkEndpoint (w_clock (lb_world e)) s (ep_posted (sv_http (lb_server e)))) e.

Definition labDB {A} (m : M A) (e : Lab) : Lab * Result error A :=
  let (w, r) := m (lb_world e) in (mkLab w (lb_server e), r).

Definition labEvent (ev : Event) (e : Lab) : Lab * option Response :=
  let '(s, w, r) := handle errText su ev (lb_server e) (lb_world e) in (mkLab w s, r).

Definition labExchange (req : HttpReq) (e : Lab) : Lab * Result string (Z * string * bool) :=
  match received routeParams req with
  | None => (e, Err "malformed request")
  | Some q =>
      match routeOf (q_method q) (q_path q) with
      | None => (e, Ok notFound)
      | Some (r, _) =>
          let (e1, resp) := labEvent (EvRequest r q) e in
          (e1, Ok (match resp with Some resp => (httpCode resp, responseText resp, false) | None => notFound end))
      end
  end.

(** Waiting: the workers run their rounds until the channel has a value. *)
Fixpoint labAwait (fuel : nat) (ch : nat) (e : Lab) : Lab * option Time :=
  match receiveNow ch (labSink e) with
  | (s, Some t) => (labWithSink s e, Some t)
  | (_, None) =>
      match fuel with
      | O => (e, None)
      | S k => labAwait k ch (fold_left (fun e ev => (labEvent ev e).1) events e)
      end
  end.

(** The goroutines take turns. *)
Fixpoint inTurn {A} (n i : Z) (jobs : list (Z -> Lab -> Lab * A)) (e : Lab) : Lab * list A :=
  match jobs with
  | [] => (e, [])
  | job :: jobs' =>
      let (e1, a) := job (i mod n) e in
      let (e2, l) := inTurn n (i + 1) jobs' e1 in (e2, a :: l)
  end.

Lemma inTurn_length {A} n (jobs : list (Z -> Lab -> Lab * A)) i e : length (inTurn n i jobs e).2 = length jobs.
Proof.
  revert i e. induction jobs as [|job jobs IH]; intros i e; cbn; [done|].
  destruct (job (i mod n) e) as [e1 a]. specialize (IH (i + 1) e1). destruct (inTurn n (i + 1) jobs e1) as [e2 l].
  cbn in *. by rewrite IH.
Qed.
Lemma inTurn_from {A} (P : A -> Prop) n (jobs : list (Z -> Lab -> Lab * A)) i e :
  Forall (fun job => forall w e1, P (job w e1).2) jobs -> Forall P (inTurn n i jobs e).2.
Proof.
  intros Hj. revert i e. induction Hj as [|job jobs Hp _ IH]; intros i e; cbn; [done|].
  specialize (Hp (i mod n) e). destruct (job (i mod n) e) as [e1 a]. specialize (IH (i + 1) e1).
  destruct (inTurn n (i + 1) jobs e1) as [e2 l]. by constructor.
Qed.

#[local] Instance labSdk : SdkEnv Lab unit := {
  defaultTransport := tt;
  env_now e := let (w, r) := timeNow (lb_world e) in (mkLab w (lb_server e), match r with Ok t => t | Err _ => zeroTime end);
  env_random e := let (w, r) := randRead (lb_world e) in
                  (mkLab w (lb_server e), match r with Ok v => Some (bytes_be 16 v) | Err _ => None end);
  env_do _ req e := labExchange req e
}.
#[local] Program Instance labEnv : PerfEnv Lab := {
  sinkOf := labSink; withSink := labWithSink; worldOf := lb_world; onDB _ := labDB;
  await ch _ := labAwait 20 ch;
  parallel _ n jobs e := inTurn n 0 jobs e
}.
Next Obligation. intros A m e. unfold labDB. by destruct (m _). Qed.
Next Obligation. intros A m e. unfold labDB. by destruct (m _). Qed.
Next Obligation. intros A n jobs e _. apply inTurn_length. Qed.
Next Obligation. intros A P n jobs e Hj. by apply inTurn_from. Qed.
End Lab.

(** ** One request per scenario *)

Definition labConfig : perfConfig :=
  match loadPerfConfig (fun k =>
    if String.eqb k "PERF_REQUESTS" then "1" else if String.eqb k "PERF_WARMUP" then "0"
    else if String.eqb k "PERF_CONCURRENCY" then "2"
    else if String.eqb k "TXN_ASYNC_WORKERS_INIT" then "1" else if String.eqb k "TXN_ASYNC_WORKERS_PAY_SUCCESS" then "1"
    else if String.eqb k "LOCAL_KMS_KEY_V1" then "passphrase" else "") with
  | Ok c => c
  | Err _ => mkPerfConfig "" 0 "" "" 0 "" 0 (mkProcessorOptions 0 0 0 0) (mkWebhookWorkerOptions 0 0 false 0 0 0) 0 0 0 0 0 0 0 0 0 0 false ""
  end.

(** The bodies of the business API, as encoding/json decodes them. *)
Definition storeTransfer (key : string) (v : jval) (r : transferRequest) : option transferRequest :=
  let '(mkTransferRequestBody no ti rm bt sc fa fu ta tu ex am) := r in
  if String.eqb key "OUT_TRADE_NO" then storing storeString v no (fun x => mkTransferRequestBody x ti rm bt sc fa fu ta tu ex am)
  else if String.eqb key "TRANSFER_SCENE" then storing storeString v sc (fun x => mkTransferRequestBody no ti rm bt x fa fu ta tu ex am)
  else if String.eqb key "FROM_ACCOUNT_NO" then storing storeString v fa (fun x => mkTransferRequestBody no ti rm bt sc x fu ta tu ex am)
  else if String.eqb key "TO_ACCOUNT_NO" then storing storeString v ta (fun x => mkTransferRequestBody no ti rm bt sc fa fu x tu ex am)
  else if String.eqb key "TO_EXPIRE_IN_DAYS" then storing storeInt64 v ex (fun x => mkTransferRequestBody no ti rm bt sc fa fu ta tu x am)
  else if String.eqb key "AMOUNT" then storing storeInt64 v am (fun x => mkTransferRequestBody no ti rm bt sc fa fu ta tu ex x)
  else Some r.
Definition storeRefund (key : string) (v : jval) (r : refundRequest) : option refundRequest :=
  let '(mkRefundRequest no ti rm bt og am) := r in
  if String.eqb key "OUT_TRADE_NO" then storing storeString v no (fun x => mkRefundRequest x ti rm bt og am)
  else if String.eqb key "REFUND_OF_TXN_NO" then storing storeString v og (fun x => mkRefundRequest no ti rm bt x am)
  else if String.eqb key "AMOUNT" then storing storeInt64 v am (fun x => mkRefundRequest no ti rm bt og x)
  else Some r.
#[local] Instance labBinding : JsonBinding := {
  bindMerchant _ := None; bindCredit _ := None; bindDebit _ := None; bindWebhook _ := None;
  bindTransfer t := Unmarshal storeTransfer (mkTransferRequestBody "" "" "" "" "" "" "" "" "" 0 0) t;
  bindRefund t := Unmarshal storeRefund (mkRefundRequest "" "" "" "" "" 0) t
}.
#[local] Instance labUrls : UrlParser := {
  urlParse s := if String.eqb s "http://127.0.0.1:8080" then Some (mkURL "http" "127.0.0.1:8080" "127.0.0.1:8080" "" "") else None
}.
#[local] Instance labRouter : MerchantRouter := {
  routeOf method path :=
    if String.eqb path "/api/v1/transactions/transfer" then Some (RTransfer, fun _ => "")
    else if String.eqb path "/api/v1/transactions/refund" then Some (RRefund, fun _ => "") else None
}.

Abbreviation lab := (@Lab ProcessingGuard).
Definition labServer : Setup * Server ProcessingGuard Endpoint :=
  perfServer labConfig (fun _ => ∅) (mkEndpoint (day 20000) newWebhookSink []).
Definition labRounds : list Event := [EvInitWorker 0; EvPaySuccessWorker 0; EvWebhookWorker].
#[local] Instance labSdkHere : SdkEnv lab unit := labSdk errText labServer.1.
#[local] Instance labEnvHere : PerfEnv lab := labEnv errText labServer.1 labRounds.

(** An empty database, set up. *)
Definition emptyWorld : World := mkWorld emptyDB 0 (day 20000) [] (seqZ 1000 200) [] ∅ ∅ ∅.
Definition labSetup := setupPerfServer 1000 "http://127.0.0.1:9090" emptyWorld.
Definition labRuntime : perfRuntime := match labSetup.2 with Ok rt => rt | Err _ => mkPerfRuntime "" "" "" "" "" "" "" end.
Definition labClient : option (@Client lab unit) :=
  match Client.NewClient (mkClientOptions "http://127.0.0.1:8080" (pr_MerchantNo labRuntime) (pr_Secret labRuntime) None
                     (RequestTimeout labConfig) None None "coin-perf-core-txn") with
  | Ok c => Some c | Err _ => None end.
Definition lab0 : lab := mkLab labSetup.1 labServer.2.
Definition labRun : lab * Result error (list metrics) := run labConfig labRuntime labClient lab0.
Definition figures (r : Result error (list metrics)) : list metrics := match r with Ok ms => ms | Err _ => [] end.
Definition posted (e : lab) : list string := ep_posted (sv_http (lb_server e)).

Lemma ok_figures (p : lab * Result error (list metrics)) : figures p.2 <> [] -> p = (p.1, Ok (figures p.2)).
Proof. by destruct p as [e [x|ms]]. Qed.


(** ** The other properties of the generator *)

Definition labEventRow : OutboxEventDelivery :=
  mkOutboxEventDelivery "e1" "t1" "m1" "ord_perf_transfer_x-1" "TRANSFER" "P2P" 1 TxnStatusRecvSuccess 0.
(** Two requests wait for the same order number, and one for another. *)
Definition labWaiting : webhookSink :=
  (expect "ord_perf_transfer_x-1" (expect "other" (expect "ord_perf_transfer_x-1" newWebhookSink).1).1).1.

Lemma webhook_wakes_waiters_witness :
  chans (webhookEndpoint 1048576 (marshal (webhookPayload labEventRow 0)) 7 labWaiting).1 = [Some 7; None; Some 7] /\
  (webhookEndpoint 1048576 (marshal (webhookPayload labEventRow 0)) 7 labWaiting).2 = 200.
Proof.
  split; [vm_compute; reflexivity|].
  assert (sinkReached labWaiting []) as Hr.
  { eapply rtc_l; [apply st_expect|]. eapply rtc_l; [apply st_expect|]. eapply rtc_l; [apply st_expect|]. apply rtc_refl. }
  pose proof (proj2 (webhook_wakes_waiters labWaiting [] Hr) labEventRow 0 1048576 7) as H.
  destruct (webhookEndpoint 1048576 (marshal (webhookPayload labEventRow 0)) 7 labWaiting) as [s' status].
  apply H; [vm_compute; reflexivity|vm_compute; discriminate|vm_compute; discriminate].
Defined.

Definition labRow (e2e : bool) : resultRow :=
  mkResultRow 201 "SUCCESS" "t1" 5 7 0 7 (Some 0%nat) (Some ("o1", 0%nat)) true e2e "" "".

Lemma scenario_checks_rows_witness :
  assertScenarioMetrics "demo" (aggregate [labRow true; labRow true] 10 20 "demo") true = None /\
  assertScenarioMetrics "demo" (aggregate [labRow true; labRow false] 10 20 "demo") true <> None.
Proof.
  split.
  - apply scenario_checks_rows; [discriminate|repeat constructor|]. split; [discriminate|repeat constructor].
  - intros H. apply scenario_checks_rows in H as [_ H]; [|discriminate|repeat constructor].
    apply Forall_cons in H as [_ H]. apply Forall_cons in H as [H _]. discriminate H.
Defined.

Lemma latencies_ordered_witness :
  ls_P50 (calcLatency [9; 3; 5]) = 5 /\ ls_Min (calcLatency [9; 3; 5]) <= ls_P50 (calcLatency [9; 3; 5]).
Proof.
  split; [vm_compute; reflexivity|].
  destruct (latencies_ordered [9; 3; 5]) as [[H _] _]; [discriminate|vm_compute; discriminate|exact H].
Defined.
