(* ===== verification/ConsoleRun.v ===== *)
(** * The console on a concrete run

    A fresh console is set up, its administrator logs in and uses its token,
    also under a request id the audit log cannot take.  The properties of the
    console at concrete inputs. *)

From S2P Require Import Prelude GoBase Config Domain Codes Encoding Calendar Json JsonDecode Store Queries Reads Secrets Ledger HiLo Repo AdminRepo Webhook Services TxnQuery Api Auth Router AdminAuth AdminSetup AdminRoutes AdminTxns Processor Server Invariant Calls Grow System Safety Typed ServerProofs ServiceProofs AdminProofs SetupProofs AuditProofs Samples Witnesses Deployed.
From stdpp Require Import base gmap list strings relations.
From Stdlib Require Import ZArith Lia Ascii.

Local Open Scope string_scope.
Local Open Scope Z_scope.

Definition setupForm : adminSetupInitializeRequest := mkSetupRequest "root" "correct horse" "Acme" "".
Definition ctx : Context := mkContext "r1" None (fun _ => "") (fun _ => "").
Abbreviation setUp := (runH (handleInitialize ctx (Some setupForm)) demoProcessor s0).

Lemma setup_once_witness :
  httpCode setUp.2 = 201 /\ exists s w resp, runH (handleInitialize ctx (Some setupForm)) setUp.1.1 setUp.1.2 = (s, w, resp) /\
    httpCode resp <> 201 /\ w_db w = w_db setUp.1.2.
Proof.
  assert (httpCode setUp.2 = 201) as Hc by computed. split; [exact Hc|]. destruct setUp as [[s w] resp] eqn:E.
  eapply (setup_once ctx ctx (Some setupForm) (Some setupForm)); [exact E|exact Hc|apply rtc_refl].
Defined.

Lemma reachable0 : reachable s0.
Proof. by apply re_start. Qed.

Lemma login_after_setup_witness :
  httpCode setUp.2 = 201 /\ w_faults setUp.1.2 = [] /\
  exists h, CompareHashAndPassword h "correct horse" = true.
Proof.
  assert (httpCode setUp.2 = 201) as Hc by computed. assert (w_faults setUp.1.2 = []) as Hf by computed.
  split; [exact Hc|]. split; [exact Hf|]. destruct setUp as [[s w] resp] eqn:E.
  destruct (login_after_setup demoTokens ctx ctx setupForm "correct horse" demoProcessor s0 s w resp w reachable0 E Hc eq_refl
              Hf ltac:(discriminate)) as (h & Hh & _).
  exists h. exact Hh.
Defined.

(** ** A session *)

Definition loggedIn : Result error tokenPair := (IssueTokenPair demoTokens "root" s14).2.
Definition rootToken : string := match loggedIn with Ok p => accessToken p | Err _ => "" end.

Lemma token_round_trip_witness :
  exists p, loggedIn = Ok p /\
    ParseAndValidate demoTokens (refreshToken p) adminTokenTypeAccess s14 = (s14, Ok (Err "invalid token type")).
Proof.
  assert (is_ok loggedIn = true) as Hk by computed. unfold loggedIn in *.
  destruct (IssueTokenPair demoTokens "root" s14) as [w' [e|p]] eqn:E; [discriminate Hk|]. exists p. split; [reflexivity|].
  destruct (token_round_trip demoTokens "root" s14 w' p ltac:(discriminate) eq_refl E) as (now & _ & _ & _ & Hall).
  destruct (Hall s14 _ _ (surjective_pairing (timeNow s14))) as (_ & _ & Hr & _). exact Hr.
Defined.

Definition consoleHeaders (rid : string) (k : string) : string :=
  if String.eqb k "Authorization" then "Bearer " ++ rootToken
  else if String.eqb k "X-Request-Id" then rid else "".
(** The rotation of the secret of the merchant of the run. *)
Definition rotateRequest (rid : string) : Request :=
  mkRequest "POST" ("/admin/api/v1/merchants/" ++ mr_no acme ++ "/secret:rotate") (consoleHeaders rid) (Some "")
    (fun _ => "") (fun k => if String.eqb k "merchant_no" then mr_no acme else "").
Abbreviation rotated rid := (serveAdmin (Some (consoleHandler, demoTokens)) ARotateSecret (rotateRequest rid) demoProcessor s14).

(** A request without a header is turned away. *)
Definition bare : Request := mkRequest "GET" "/admin/api/v1/auth/me" (fun _ => "") None (fun _ => "") (fun _ => "").
Lemma bare_bears user now : ~ bears demoTokens bare user now.
Proof. intros (scheme & token & c & Hc & _). discriminate Hc. Qed.

Lemma console_needs_token_witness :
  exists w resp, serveAdmin (Some (consoleHandler, demoTokens)) AMe bare demoProcessor s14 = (demoProcessor, w, Some resp) /\
    httpCode resp = 401.
Proof.
  assert (is_ok (RequestIDMiddleware bare s14).2 = true) as Hk by computed.
  destruct (RequestIDMiddleware bare s14) as [w1 [e|rid]] eqn:E; [discriminate Hk|].
  destruct (console_needs_token demoTokens consoleHandler AMe bare demoProcessor s14 w1 _ rid _ eq_refl E
              (surjective_pairing (timeNow w1))) as [_ Hno].
  destruct (Hno (fun user => bare_bears user _)) as (w3 & resp & Hs & _ & Hc & _). exists w3, resp. split; [exact Hs|exact Hc].
Defined.

Lemma console_audited_witness :
  option_map httpCode (rotated "r2").2 = Some 200 /\
  exists row answer, log_of (rotated "r2").1.2 = (log_of s14 ++ [row])%list /\ (rotated "r2").2 = Some answer /\
    al_operator row = "root".
Proof.
  assert (length (log_of (rotated "r2").1.2) = S (length (log_of s14))) as Hl by computed.
  assert (option_map al_operator (last (log_of (rotated "r2").1.2)) = Some "root") as Ho by computed.
  split; [computed|]. destruct (serveAdmin _ _ _ _ _) as [[s w] resp] eqn:E. cbn [fst snd] in *.
  destruct (console_audited consoleHandler demoTokens ARotateSecret (rotateRequest "r2") demoProcessor s14 s w resp E)
    as [H|(row & answer & _ & _ & _ & _ & H & Ha & _)]; rewrite H in Hl, Ho.
  - exfalso. exact (Nat.neq_succ_diag_r _ Hl).
  - exists row, answer. split; [exact H|]. split; [exact Ha|]. rewrite last_snoc in Ho. injection Ho as Ho. exact Ho.
Defined.

Definition longID : string := srepeat "x"%char 65.
Lemma long_request_id_unaudited_witness :
  option_map httpCode (rotated longID).2 = Some 200 /\ log_of (rotated longID).1.2 = log_of s14.
Proof.
  split; [computed|].
  refine (long_request_id_unaudited consoleHandler demoTokens ARotateSecret (rotateRequest longID) demoProcessor s14 s14 longID _ _).
  - reflexivity.
  - vm_compute. reflexivity.
Defined.
